(* ===== verification/_CoqProject ===== *)
-Q . S2P
Prelude.v
Str.v
Hash.v
AnyAddr.v
Buffers.v
Lines.v
Fifo.v
Checksum.v
Net.v
AddressCache.v
Slip.v
Arp.v
Ax25.v
Router.v
Kiss.v
Ppp.v
SnmpElem.v
SnmpData.v
Ipv4.v
Sctp.v
Ipv6.v
Icmp4.v
Icmp6.v
Udp.v
Dns.v
Ntp.v
Lldp.v
Vnc.v
Mqtt.v
Irc.v
MqttClient.v
Sip.v
Http.v
Snmp.v
TcpSegment.v
TcpSession.v
Tcp.v
TcpStream.v
Services.v
Socks.v
Phys.v
Ud.v
Stats.v
Vpn.v
SctpUdp.v
Runtime.v
Config.v
Stack.v
Main.v
MainOk.v
MainServices.v
MainExamples.v
Font.v
Glyphs.v
Top.v
Setup.v
Tracker.v
Sinks.v
HttpLog.v
NetFloat.v
