(* ===== verification/Prelude.v ===== *)
(** * A verification of the myip network stack

    myip (src/) is a TCP/IP stack in user space.  Link drivers (phys_*.cpp) read
    frames and put packets in the queues (fifo.h) of the network layers: ARP
    (arp.cpp), IPv4 (ipv4.cpp) and IPv6 (ipv6.cpp).  These check a packet, learn
    the MAC address of its sender (address_cache.cpp) and put its payload in
    the queue of a transport layer: ICMP (icmp4.cpp, icmp6.cpp), UDP (udp.cpp),
    TCP (tcp.cpp) or SCTP (sctp.cpp).  What goes out is handed down: [send_segment] or
    [transmit_packet] of a transport layer, [transmit_packet] of IPv4 or IPv6,
    the queue of the router (router.cpp), which finds the interface and, with
    ARP or NDP (mac_resolver.cpp), the MAC address.  Applications are called
    back by TCP, SCTP and UDP: the SNMP agent, DNS and mDNS, NTP, SIP, the MQTT
    broker and client, the IRC, HTTP and VNC servers, a VPN and small services.
    Every layer has its own threads.  Counters live in shared memory (stats.cpp),
    and a control socket (ud.cpp) shows sessions and devices.  All of this is made
    and linked by [main] (main.cpp) from a configuration file.

    ** How the code is modelled

    A C++ function is a Rocq function on the values it gets.  What can go wrong
    is a value: [res A] (this file) is a result or a [fault]: an exception, a
    failed [assert], an access outside an array, the call of an empty
    [std::function].  Machine integers are [Z] with the wrap-around of their width
    written out ([u8] ... [u64], [s32]).  Memory behind a pointer is the list of
    the bytes that may be read from it; [rd], [rd_range], [wr] and [wr_range]
    fault outside of it, so a theorem that a function returns [Ok] says that it
    stays inside its buffers.  [std::map] keyed by addresses is a [gmap] keyed by
    family and bytes ([key] in AnyAddr.v), which the order of the code respects
    (any_addr_order).

    A method that holds one lock from start to end is one step.  A thread that
    waits is cut at the wait: the part before it and the loop body are separate
    definitions ([get_mac_begin], [get_mac_poll], [put_enter], [put_commit],
    ...).  Runs of several threads are sequences of steps ([fifo_run],
    [cache_step], [table_step], [tcp_step], [link_step], [mqtt_step], [irc_step],
    [vnc_step], [echo_step], [np_run]),
    and theorems about all interleavings are proved by induction on them.  Where an
    exception leaves changes of the state behind (Sctp.v), the handlers are written
    in a monad that keeps them.

    What the code gets from outside is an argument: the clock (one value per
    step), random numbers, the results of system calls and of callbacks, the
    outcome of [get_mac] in the router.  What it does to the outside is part of
    the result: datagrams, frames, calls of callbacks, incremented counters.
    The lines the functions log are not part of their results.

    ** The files

    - Prelude.v: results, machine integers, arrays, their automation and lemmas.
    - Str.v: str.cpp (splitting, joining, replacing, header lines) and the parts
      of printf and strtol the addresses need.
    - Hash.v: MurmurHash64A and CRC-32 (hash.cpp), CRC-32C (sctp_crc32c.cpp).
    - AnyAddr.v: any_addr.cpp; its invariant [good], its order and its text.
    - Buffers.v, NetFloat.v: buffer_in.cpp, buffer_out.cpp.
    - Lines.v: lines, blank lines and header fields, for SIP and HTTP.
    - Fifo.v: fifo.h, one step per critical section, and [BoundedQueue], the
      interface through which every other file uses a queue.
    - Checksum.v: ip_checksum and tcp_udp_checksum against RFC 1071.
    - Net.v: net.cpp, packet.cpp and the queueing of packets.
    - AddressCache.v: address_cache.cpp.
    - Slip.v: phys_slip.cpp.
    - Arp.v: arp.cpp and mac_resolver.cpp.
    - Ax25.v: ax25.cpp, addresses and frames.
    - Router.v: router.cpp.
    - Kiss.v: phys_kiss.cpp, and the Ethernet frames of phys_tap.cpp and
      phys_promiscuous.cpp.
    - Ppp.v: phys_gen_ppp.cpp and phys_ppp.cpp, frames and negotiation.
    - SnmpElem.v, SnmpData.v, Snmp.v: snmp_elem.cpp, snmp_data.cpp and snmp.cpp,
      the BER encoding, the tree of values and the agent.
    - Ipv4.v, Ipv6.v: ipv4.cpp, ipv6.cpp and network_layer.cpp.
    - Icmp4.v, Icmp6.v: icmp4.cpp, icmp6.cpp and ndp.cpp.
    - Udp.v: udp.cpp.
    - Sctp.v: sctp.cpp and the hash of session.cpp.
    - Dns.v: dns.cpp and mdns.cpp.
    - Ntp.v, Lldp.v: ntp.cpp, lldp.cpp.
    - Mqtt.v: mqtt.cpp, the broker with the threads of its sessions.
    - Irc.v: irc.cpp, the server with its commands and the threads of its sessions.
    - Vnc.v: vnc.cpp, the frame buffer, the encodings and the states of a session.
    - MqttClient.v: mqtt_client.cpp, the client with its thread, against the broker.
    - Sip.v: sip.cpp, requests, the voice mail box and its sound in RTP.
    - Http.v: http.cpp, requests, files, CGI programs and the threads of sessions.
    - TcpSegment.v: segments, their options and [send_segment].
    - TcpSession.v: what [packet_handler] does with a session under its lock,
      the sender of unacknowledged data, [send_data], [end_session].
    - Tcp.v: the table of sessions, [packet_handler] as a whole, the threads that
      clean, send and end sessions, and the client interface.
    - TcpStream.v: two sessions and a network between them.
    - Services.v: echo.cpp, nrpe.cpp and mynetperf.cpp.
    - Socks.v: [READ] and [WRITE] of utils.cpp and socks_proxy.cpp.
    - Phys.v: phys.cpp, captures and protocols of a device.
    - Ud.v: ud.cpp, the control socket, and the states it shows.
    - Stats.v: stats.cpp, stats_utils.cpp, fifo_stats.cpp and duration_events.cpp.
    - Vpn.v: vpn.cpp and phys_vpn_insertion_point.cpp.
    - SctpUdp.v: phys_sctp_udp.cpp.
    - Runtime.v: time.cpp, log.cpp and the random bytes of utils.cpp.
    - Font.v, Glyphs.v: font.cpp, the table of glyphs, and the text drawn with it.
    - Top.v: myiptop.cpp, the viewer of the shared memory of Stats.v.
    - Setup.v: the constructors of the drivers, the proxy and the control socket as trees
      of system calls (phys_*.cpp, tty.cpp, net.cpp, socks_proxy.cpp, ud.cpp).
    - Tracker.v: stats_tracker.cpp, in the binary64 arithmetic of the Standard Library.
    - Sinks.v: syslog.cpp and tcp_udp_fw.cpp; HttpLog.v: the access log of http.cpp.
    - Config.v: the settings of main.cpp with libconfig as a class, and graphviz.cpp.
    - Stack.v, Main.v: main.cpp, the objects and pointers of the program in a monad of
      state and faults, and the blocks of [main].
    - MainOk.v, MainServices.v, MainExamples.v: what [main] makes of every
      configuration, and of the configuration files of the repository.

    ** What is proved

    - Foundations: addresses are strictly ordered and their text is read back;
      readers of buffers stay inside or throw; what is written is read back; the
      ring buffer is a bounded FIFO queue for all interleavings; the checksum is
      the one of RFC 1071 and a stored checksum verifies; the table-driven
      CRC-32C is the bitwise one.
    - Links and resolving: SLIP frames are read back, also after noise; ARP and
      neighbour discovery work end to end between two hosts; cached entries
      answer, expire, and are permanent when static.
      AX.25 frames are parsed back, and IP packets over PPP, and over KISS up to
      239 bytes, are handed up unchanged (and what becomes of longer ones on KISS); LCP
      and IPCP requests are answered, and the negotiation loops end.
    - Routing: the table has no duplicates; [find_route] returns the first best
      entry; what is forwarded leaves unchanged on that route.
    - IP, ICMP, UDP: handlers are total on any bytes (IPv6 up to one stated
      overrun), and every IPv4 packet of 20 bytes or more is delivered, routed or
      counted as discarded, exactly as its header says; what is sent is received, errors quote the packet, echo requests
      are answered with checksums that verify, ports are unique.
    - TCP: the states the code can reach; the number of sessions is bounded; the
      handshake of server and client; resets for unknown and failing segments;
      what the cleaner removes; when the loop over options ends, when it does not and
      when it leaves the packet; segments are read back; the sender fills the window
      with segments that fit in a packet; and end to end, over a network that loses,
      repeats and reorders segments, the receiving application gets a prefix of what
      the sending application wrote, less the calls that found the buffer full.

    - SCTP: the handler is safe on every packet and makes sessions from its own
      cookies only; the handshake of four packets; data of any size arrives in order.
    - Services: the SNMP agent answers GET requests from the tree while the reply
      fits, returns for every packet, and a walk visits every later leaf once; the DNS resolver finds a name
      and caches it for its time to live; what mDNS and LLDP announce is read back;
      NTP answers with the right time; the MQTT broker never queues for a deleted
      session, forwards what is published to every subscriber, and ends the thread of
      a closed session; the IRC server keeps its table of nicknames in step with its
      sessions, while sending succeeds, and a message reaches everybody it is for once.
    - Sessions of clients, in whatever pieces their bytes arrive: a VNC client that sets its
      pixel format shows the frame buffer (one that takes the announced format shows
      other colours, which are stated), and the callbacks of the frame buffer reach running sessions only; an
      MQTT client of this stack gets what is published at the broker of this stack, in
      packets of at most 127 bytes and payloads of three bytes or more (and closes the
      session for shorter ones); an
      INVITE is answered and starts a call, and every SIP packet but one kind is survived;
      an HTTP request gets its file with its length; echo sends back what it gets; the
      answer of NRPE verifies; the measuring server refines a function of its whole
      stream, which has the one way in which it fails; SOCKS requests are connected and forwarded; commands of the control socket
      are answered in order.
    - Devices: frames through the VPN arrive in order and keep both ends in step; SCTP
      over UDP is unpacked as it was packed; a capture has exactly the wanted packets.
    - Statistics: the shared memory is a table of names and counters, the report
      prints that table, and the viewer, another program, keeps showing the counters of
      the names it found.
    - Screen: the price line can be read back from the pixels of the frame buffer, and
      so can the characters of the clock that are on the screen.
    - Set-up: for every answer of the kernel a constructor hands over one new descriptor,
      or none, and closes the others.
    - Main program: what is made from any configuration is well typed, down to every
      pointer (null only where the code tests it or does not use it), and every TCP and SCTP layer offers exactly the services that were asked
      for.
    - Host: sleeps last as long as they should, random buffers are filled, [READ] and
      [WRITE] are not confused by interruptions, the log follows its levels.

    Behaviour that is not what the code means to do is stated in lemmas next to
    the definitions (for example [zero_length_option_loops],
    [client_ack_misaddressed], [gateway_route_faults], [large_ping_overrun],
    [out_of_order_acked], [second_answer_lost], [ntp_us_second_behind],
    [long_length_lost], [rename_leaves_person], [narrow_rectangle_wrong],
    [blank_packet_throws], [host_traversal], [vpn_frame_overruns],
    [hundredth_packet_overruns], [stopped_capture_used], [example_cfg_fails],
    [set_ifr_name_overrun], [local_proxy_is_public], [forged_log_line],
    [full_buffer_drops], [long_header_overruns], [long_packet_smuggles],
    [long_reply_truncated], [short_payload_disconnects], [text_wraps]).

    ** Fuel and bounds

    Loops that are not structural have fuel and return [out_of_fuel] without it.
    The loop over TCP options has fuel 64: a header has at most 60 bytes, and
    options_loop_terminates shows that this is enough whenever the loop ends
    inside of the header.  The loop over IPv6 extension headers has the packet size (every round
    moves on by eight bytes), the sender of unacknowledged data the number of
    bytes to send, the string loops the length of the string, and the session
    cleaner the number of sessions.  Names of DNS have twice the size of the packet
    (a pointer is followed once), the messages of SNMP twice their size, the options of
    PPP and the chunks of SCTP the size of the packet, and the length of an MQTT
    message five rounds of seven bits.  Sound is sent in as many rounds as there are
    samples, blocks of the measuring server in two rounds more than there are whole
    blocks, [READ] has a round for every event of the socket, and the report and the viewer of the
    counters the size of the segment.  Reconnecting a KISS device has as many attempts as
    are looked at.  TCP streams are followed for 2^32 bytes.

    ** What is not modelled

    The text of log lines (but the access log and syslog), TLS (BearSSLHelpers.cpp, which
    is glue to a library), the starting of processes (proc.cpp), the loops that accept and
    poll, destructors, and the tool that copies the answer of the control socket: they only
    call the system and libraries.  Third-party code (libconfig, zlib, libjpeg, jansson,
    libpcap, OpenSSL, Speex, libsndfile, ncurses) is an argument of the models.  A packet sees one state of the
    table of listeners from start to end.  Callbacks of applications do not change the
    session they are called for; they hand their work to threads. *)
From stdpp Require Export base tactics list list_numbers numbers option gmap.
From Stdlib Require Export ZArith Lia.

Declare Scope myip_scope.
Delimit Scope myip_scope with myip.

Open Scope Z_scope.

(** ** Results of C++ code

    A computation of the stack either returns a value or stops on a fault:
    an exception the source throws, an [assert] that fails, [error_exit],
    an access outside an array, or a signed overflow.  [out_of_fuel] is the
    model's own: a loop did not end within the fuel it was given. *)

Inductive fault :=
  | out_of_range      (* throw std::out_of_range *)
  | bad_optional      (* std::optional::value() on an empty optional *)
  | assert_failed     (* assert(...) *)
  | bad_access        (* read or write outside an array *)
  | signed_overflow   (* int arithmetic leaves its range *)
  | exit_failure      (* error_exit *)
  | length_error      (* a std::vector of a negative size is constructed *)
  | bad_function      (* an empty std::function is called *)
  | config_exception  (* an exception of libconfig that is not caught *)
  | out_of_fuel.      (* a loop of the model ran out of its fuel *)

Inductive res (A : Type) :=
  | Ok (a : A)
  | Err (f : fault).
Arguments Ok {A} a.
Arguments Err {A} f.

Definition res_bind {A B} (c : res A) (k : A → res B) : res B :=
  match c with Ok a => k a | Err f => Err f end.

Definition res_map {A B} (g : A → B) (c : res A) : res B :=
  match c with Ok a => Ok (g a) | Err f => Err f end.

Notation "'let*' x ':=' c 'in' k" := (res_bind c (λ x, k))
  (at level 10, x name, c at level 100, k at level 200) : myip_scope.
Notation "'let*' ' p ':=' c 'in' k" := (res_bind c (λ x, match x with p => k end))
  (at level 10, p strict pattern, c at level 100, k at level 200) : myip_scope.
Open Scope myip_scope.

Definition ok_or {A} (d : A) (r : res A) : A := match r with Ok a => a | Err _ => d end.

#[global] Instance fault_eq_dec : EqDecision fault.
Proof. solve_decision. Defined.
#[global] Instance res_eq_dec `{EqDecision A} : EqDecision (res A).
Proof. solve_decision. Defined.

(** [assert(b)] *)
Definition assert_ (b : bool) : res unit := if b then Ok tt else Err assert_failed.

(** ** Machine integers *)

Definition u8  (x : Z) : Z := x mod 256.
Definition u16 (x : Z) : Z := x mod 65536.
Definition u32 (x : Z) : Z := x mod 4294967296.
Definition u64 (x : Z) : Z := x mod 18446744073709551616.
(** conversion to [int] (two's complement) *)
Definition s32 (x : Z) : Z := (x + 2147483648) mod 4294967296 - 2147483648.

Definition int_min : Z := -2147483648.
Definition int_max : Z := 2147483647.

(** [a + b] on [int]: leaving the range is undefined behaviour *)
Definition int_add (a b : Z) : res Z :=
  if (int_min <=? a + b) && (a + b <=? int_max) then Ok (a + b) else Err signed_overflow.

Definition byte_ok (b : Z) : Prop := 0 ≤ b < 256.
Definition bytes_ok (l : list Z) : Prop := Forall byte_ok l.

#[global] Instance byte_ok_dec b : Decision (byte_ok b).
Proof. unfold byte_ok. apply _. Defined.
#[global] Instance bytes_ok_dec l : Decision (bytes_ok l).
Proof. unfold bytes_ok. apply _. Defined.

(** ** Arrays

    A pointer to memory is the list of the bytes that can be read from it. *)

Definition zlen {A} (l : list A) : Z := Z.of_nat (length l).

(** [p[i]] *)
Definition rd (p : list Z) (i : Z) : res Z :=
  if i <? 0 then Err bad_access
  else match p !! Z.to_nat i with Some b => Ok b | None => Err bad_access end.

(** [&p[i]] *)
Definition ptr_at (p : list Z) (i : Z) : list Z := drop (Z.to_nat i) p.

(** the [n] bytes from [p[i]] on, read by [memcpy] *)
Definition rd_range (p : list Z) (i n : Z) : res (list Z) :=
  if (i <? 0) || (n <? 0) || (zlen p <? i + n) then Err bad_access
  else Ok (take (Z.to_nat n) (drop (Z.to_nat i) p)).

(** [p[i] = b] *)
Definition wr (p : list Z) (i b : Z) : res (list Z) :=
  if (i <? 0) || (zlen p <=? i) then Err bad_access
  else Ok (<[Z.to_nat i := u8 b]> p).

(** [memcpy(&p[i], src, |src|)] *)
Definition wr_range (p : list Z) (i : Z) (src : list Z) : res (list Z) :=
  if (i <? 0) || (zlen p <? i + zlen src) then Err bad_access
  else Ok (take (Z.to_nat i) p ++ src ++ drop (Z.to_nat i + length src) p).

(** Big-endian fields, as the code writes and reads them byte by byte. *)
Definition be16 (x : Z) : list Z := [u8 (Z.shiftr x 8); u8 x].
Definition be32 (x : Z) : list Z :=
  [u8 (Z.shiftr x 24); u8 (Z.shiftr x 16); u8 (Z.shiftr x 8); u8 x].
(** [(a << 8) | b] *)
Definition join16 (a b : Z) : Z := Z.lor (Z.shiftl a 8) b.
(** [(a << 24) | (b << 16) | (c << 8) | d], stored in an [uint32_t] *)
Definition join32 (a b c d : Z) : Z :=
  u32 (Z.lor (Z.lor (Z.lor (Z.shiftl a 24) (Z.shiftl b 16)) (Z.shiftl c 8)) d).

(** ** Automation *)

Ltac unfold_ints := unfold u8, u16, u32, u64, s32, int_min, int_max, byte_ok in *.
Ltac shifts_to_arith :=
  rewrite ?Z.shiftr_div_pow2, ?Z.shiftl_mul_pow2 in * by lia;
  change (2 ^ 8) with 256 in *; change (2 ^ 16) with 65536 in *;
  change (2 ^ 24) with 16777216 in *.
Ltac zlia := unfold_ints; shifts_to_arith; Z.to_euclidean_division_equations; lia.

(** Every element of a literal list is a byte. *)
Ltac solve_bytes :=
  unfold bytes_ok; simpl;
  repeat (apply Forall_cons_2; [unfold byte_ok in *; lia|]); apply Forall_nil_2.

(** Split the first [let*] of hypothesis [H]. *)
Ltac res_step H :=
  match type of H with
  | res_bind ?c _ = Ok _ =>
      let E := fresh "E" in
      destruct c eqn:E; cbn [res_bind] in H; [|discriminate H]
  end.
Ltac res_inv H := repeat res_step H; try (injection H as H).

Create HintDb myip.

(** ** Arithmetic of bytes *)

Lemma lor_shiftl_add a b n : 0 ≤ n → 0 ≤ b < 2 ^ n → Z.lor (Z.shiftl a n) b = a * 2 ^ n + b.
Proof.
  intros Hn Hb. rewrite <- Z.shiftl_mul_pow2 by lia.
  enough (Z.land (Z.shiftl a n) b = 0) as E by (rewrite <- Z.add_lor_land, E, Z.add_0_r; done).
  apply Z.bits_inj'. intros i Hi. rewrite Z.land_spec, Z.bits_0.
  destruct (decide (i < n)).
  - rewrite Z.shiftl_spec_low by lia. done.
  - destruct (decide (b = 0)) as [->|]; [by rewrite Z.bits_0, andb_false_r|].
    rewrite (Z.bits_above_log2 b), andb_false_r; [done|lia|].
    apply Z.log2_lt_pow2; [lia|].
    eapply Z.lt_le_trans; [apply Hb|]. apply Z.pow_le_mono_r; lia.
Qed.

Lemma join16_eq a b : byte_ok b → join16 a b = a * 256 + b.
Proof. intros. unfold join16. rewrite lor_shiftl_add; [done|lia|done]. Qed.

Lemma join32_eq a b c d :
  byte_ok a → byte_ok b → byte_ok c → byte_ok d →
  join32 a b c d = a * 16777216 + b * 65536 + c * 256 + d.
Proof.
  intros Ha Hb Hc Hd. unfold join32.
  rewrite <- (Z.lor_assoc _ (Z.shiftl b 16)), <- !Z.lor_assoc.
  rewrite (lor_shiftl_add c d 8) by (unfold byte_ok in *; lia).
  rewrite (lor_shiftl_add b) by (unfold byte_ok in *; lia).
  rewrite (lor_shiftl_add a) by (unfold byte_ok in *; lia).
  zlia.
Qed.

Lemma u8_ok x : byte_ok (u8 x).
Proof. zlia. Qed.
Lemma u8_id x : byte_ok x → u8 x = x.
Proof. zlia. Qed.

Lemma join16_be16 x : 0 ≤ x < 65536 → join16 (u8 (Z.shiftr x 8)) (u8 x) = x.
Proof. intros. rewrite join16_eq by apply u8_ok. zlia. Qed.

Lemma join32_be32 x :
  join32 (u8 (Z.shiftr x 24)) (u8 (Z.shiftr x 16)) (u8 (Z.shiftr x 8)) (u8 x) = u32 x.
Proof. rewrite join32_eq by apply u8_ok. zlia. Qed.

Lemma u32_id x : 0 ≤ x < 4294967296 → u32 x = x.
Proof. zlia. Qed.
Lemma u16_id x : 0 ≤ x < 65536 → u16 x = x.
Proof. zlia. Qed.
Lemma u32_range x : 0 ≤ u32 x < 4294967296.
Proof. zlia. Qed.
Lemma u16_range x : 0 ≤ u16 x < 65536.
Proof. zlia. Qed.
#[export] Hint Resolve u8_ok u32_range u16_range : myip.

Lemma bytes_ok_be16 x : bytes_ok (be16 x).
Proof. repeat constructor; apply u8_ok. Qed.
Lemma bytes_ok_be32 x : bytes_ok (be32 x).
Proof. repeat constructor; apply u8_ok. Qed.
Lemma bytes_ok_app l k : bytes_ok l → bytes_ok k → bytes_ok (l ++ k).
Proof. apply Forall_app_2. Qed.
Lemma bytes_ok_drop n l : bytes_ok l → bytes_ok (drop n l).
Proof. apply Forall_drop. Qed.
Lemma bytes_ok_take n l : bytes_ok l → bytes_ok (take n l).
Proof. apply Forall_take. Qed.
Lemma bytes_ok_replicate n b : byte_ok b → bytes_ok (replicate n b).
Proof. apply Forall_replicate. Qed.

(** Split a message into its fields. *)
Ltac bytes_fields :=
  repeat match goal with
  | |- bytes_ok (_ ++ _) => apply bytes_ok_app
  | |- bytes_ok (be16 _) => apply bytes_ok_be16
  | |- bytes_ok (be32 _) => apply bytes_ok_be32
  end.
#[export] Hint Resolve bytes_ok_be16 bytes_ok_be32 bytes_ok_app bytes_ok_drop
  bytes_ok_take bytes_ok_replicate : myip.

(** ** Arrays: bounds *)

Lemma zlen_nonneg {A} (l : list A) : 0 ≤ zlen l.
Proof. unfold zlen. lia. Qed.
Lemma zlen_app {A} (l k : list A) : zlen (l ++ k) = zlen l + zlen k.
Proof. unfold zlen. rewrite length_app. lia. Qed.
Lemma zlen_cons {A} (x : A) (l : list A) : zlen (x :: l) = zlen l + 1.
Proof. unfold zlen. simpl. lia. Qed.

Lemma rd_Ok p i b : rd p i = Ok b ↔ 0 ≤ i ∧ p !! Z.to_nat i = Some b.
Proof.
  unfold rd. destruct (Z.ltb_spec i 0); [split; [done|lia]|].
  destruct (p !! Z.to_nat i); split; naive_solver.
Qed.

Lemma rd_in_range p i : 0 ≤ i < zlen p → ∃ b, rd p i = Ok b.
Proof.
  unfold zlen. intros Hi.
  destruct (lookup_lt_is_Some_2 p (Z.to_nat i)) as [b Hb]; [lia|].
  exists b. apply rd_Ok. split; [lia|done].
Qed.

Lemma rd_range_Ok p i n :
  0 ≤ i → 0 ≤ n → i + n ≤ zlen p → rd_range p i n = Ok (take (Z.to_nat n) (drop (Z.to_nat i) p)).
Proof.
  intros. unfold rd_range.
  rewrite (proj2 (Z.ltb_ge i 0)), (proj2 (Z.ltb_ge n 0)), (proj2 (Z.ltb_ge (zlen p) (i + n))) by lia.
  done.
Qed.

Lemma rd_range_inv p i n l :
  rd_range p i n = Ok l →
  0 ≤ i ∧ 0 ≤ n ∧ i + n ≤ zlen p ∧ l = take (Z.to_nat n) (drop (Z.to_nat i) p) ∧ zlen l = n.
Proof.
  unfold rd_range. intros H.
  destruct (Z.ltb_spec i 0), (Z.ltb_spec n 0), (Z.ltb_spec (zlen p) (i + n)); simpl in H; try done.
  injection H as <-. split_and!; try done.
  unfold zlen in *. rewrite length_take, length_drop. lia.
Qed.

Lemma rd_byte_ok p i b : bytes_ok p → rd p i = Ok b → byte_ok b.
Proof.
  intros Hp [_ H]%rd_Ok. unfold bytes_ok in Hp. rewrite Forall_lookup in Hp. eauto.
Qed.

Lemma wr_Ok p i b : 0 ≤ i < zlen p → wr p i b = Ok (<[Z.to_nat i := u8 b]> p).
Proof.
  intros. unfold wr. rewrite (proj2 (Z.ltb_ge i 0)), (proj2 (Z.leb_gt (zlen p) i)) by lia. done.
Qed.

Lemma wr_range_app a b i src :
  i = zlen a → zlen src ≤ zlen b → wr_range (a ++ b) i src = Ok (a ++ src ++ drop (length src) b).
Proof.
  intros -> Hl. unfold wr_range. rewrite zlen_app. pose proof (zlen_nonneg a).
  rewrite (proj2 (Z.ltb_ge (zlen a) 0)), (proj2 (Z.ltb_ge (zlen a + zlen b) _)) by lia. cbn [orb].
  f_equal. unfold zlen. rewrite Nat2Z.id, take_app_length, drop_app_add. done.
Qed.

Lemma rd_range_app a b n : n = zlen a → rd_range (a ++ b) 0 n = Ok a.
Proof.
  intros ->. pose proof (zlen_nonneg a). pose proof (zlen_nonneg b).
  rewrite rd_range_Ok by (rewrite ?zlen_app; lia). unfold zlen. rewrite Nat2Z.id. simpl.
  rewrite drop_0. by rewrite take_app_length.
Qed.

(** what lies in the middle of an array *)
Lemma rd_range_mid a b c i n :
  i = zlen a → n = zlen b → rd_range (a ++ b ++ c) i n = Ok b.
Proof.
  intros -> ->. pose proof (zlen_nonneg a). pose proof (zlen_nonneg b). pose proof (zlen_nonneg c).
  rewrite rd_range_Ok by (rewrite ?zlen_app; lia). unfold zlen. rewrite !Nat2Z.id.
  by rewrite drop_app_length, take_app_length.
Qed.

Lemma rd_mid a b c i : i = zlen a → rd (a ++ b :: c) i = Ok b.
Proof.
  intros ->. apply rd_Ok. split; [apply zlen_nonneg|]. unfold zlen. rewrite Nat2Z.id. by apply list_lookup_middle.
Qed.

Lemma ptr_at_app a b i : i = zlen a → ptr_at (a ++ b) i = b.
Proof. intros ->. unfold ptr_at, zlen. rewrite Nat2Z.id. apply drop_app_length. Qed.

Lemma int_add_Ok a b c : int_add a b = Ok c → c = a + b ∧ int_min ≤ c ≤ int_max.
Proof.
  unfold int_add. intros H.
  destruct (Z.leb_spec int_min (a + b)), (Z.leb_spec (a + b) int_max); simpl in H; naive_solver.
Qed.

(** ** Computations that end

    [ends r]: the computation did not stop for lack of fuel.  [solve_ends] splits a
    computation at its [let*]s and branches and leaves the calls to the hints. *)

Definition ends {A} (r : res A) : Prop := r ≠ Err out_of_fuel.

Lemma ends_bind {A B} (c : res A) (k : A → res B) : ends c → (∀ a, c = Ok a → ends (k a)) → ends (res_bind c k).
Proof. unfold ends. destruct c as [a|f]; cbn; [auto|]. intros H _ [= ->]. done. Qed.
Lemma ends_map {A B} (g : A → B) (c : res A) : ends c → ends (res_map g c).
Proof. unfold ends. destruct c; cbn; [done|]. intros H [= ->]. done. Qed.
Lemma ends_Ok {A} (a : A) : ends (Ok a).
Proof. done. Qed.
Lemma ends_Err {A} f : f ≠ out_of_fuel → ends (Err f : res A).
Proof. intros H [= ->]. done. Qed.
Lemma ends_rd p i : ends (rd p i).
Proof. unfold rd. destruct (i <? 0); [done|]. by destruct (p !! Z.to_nat i). Qed.
Lemma ends_rd_range p i n : ends (rd_range p i n).
Proof. unfold rd_range. by destruct ((i <? 0) || (n <? 0) || (zlen p <? i + n)). Qed.
Lemma ends_wr p i b : ends (wr p i b).
Proof. unfold wr. by destruct ((i <? 0) || (zlen p <=? i)). Qed.
Lemma ends_wr_range p i l : ends (wr_range p i l).
Proof. unfold wr_range. by destruct ((i <? 0) || (zlen p <? i + zlen l)). Qed.
Lemma ends_assert b : ends (assert_ b).
Proof. by destruct b. Qed.
Lemma ends_int_add a b : ends (int_add a b).
Proof. unfold int_add. by destruct ((int_min <=? a + b) && (a + b <=? int_max)). Qed.

Create HintDb ends.
#[export] Hint Resolve ends_Ok ends_rd ends_rd_range ends_wr ends_wr_range ends_assert ends_int_add : ends.

Ltac solve_ends :=
  repeat match goal with
  | |- ends (Ok _) => apply ends_Ok
  | |- ends (Err _) => apply ends_Err; discriminate
  | |- ends (res_bind _ _) => apply ends_bind; [|intros ? _]
  | |- ends (res_map _ _) => apply ends_map
  | |- ends (match ?x with _ => _ end) => destruct x
  | |- ends _ => solve [auto with ends]
  end.

(** ** Loops over a range

    [for(auto x : l) s = f(s, x)], with a fault that ends the loop. *)

Fixpoint res_fold {A S} (f : S → A → res S) (s : S) (l : list A) : res S :=
  match l with
  | [] => Ok s
  | x :: l' => let* s := f s x in res_fold f s l'
  end.

Lemma res_fold_app {A S} (f : S → A → res S) s l k :
  res_fold f s (l ++ k) = let* s' := res_fold f s l in res_fold f s' k.
Proof. revert s. induction l as [|x l IH]; intros s; [done|]. cbn. destruct (f s x); [apply IH|done]. Qed.

(** a loop that appends to a list *)
Lemma res_fold_appends {A B} (f : list B → A → res (list B)) (g : A → list B) acc l :
  (∀ pre x post, l = pre ++ x :: post → f (acc ++ (pre ≫= g)) x = Ok (acc ++ (pre ≫= g) ++ g x)) →
  res_fold f acc l = Ok (acc ++ (l ≫= g)).
Proof.
  intros H. assert (∀ pre post, l = pre ++ post → res_fold f (acc ++ (pre ≫= g)) post = Ok (acc ++ (l ≫= g))) as G.
  { intros pre post. revert pre. induction post as [|x post IH]; intros pre E.
    - rewrite app_nil_r in E. by subst.
    - cbn. rewrite (H pre x post E). cbn. rewrite <- (IH (pre ++ [x])); [|by rewrite <- app_assoc].
      f_equal. rewrite bind_app, bind_cons. cbn. by rewrite app_nil_r. }
  rewrite <- (G [] l); [|done]. cbn. by rewrite app_nil_r.
Qed.

(** the numbers from [0] below [n] *)
Definition zrange (n : Z) : list Z := Z.of_nat <$> seq 0 (Z.to_nat n).

Lemma elem_of_zrange n i : i ∈ zrange n ↔ 0 ≤ i < n.
Proof.
  unfold zrange. rewrite list_elem_of_fmap. split.
  - intros (k & -> & [_ Hk]%elem_of_seq). lia.
  - intros Hi. exists (Z.to_nat i). rewrite elem_of_seq. lia.
Qed.
Lemma length_zrange n : length (zrange n) = Z.to_nat n.
Proof. unfold zrange. by rewrite length_fmap, length_seq. Qed.
