(* ===== verification/Str.v ===== *)
(** * Strings (src/str.cpp) and the C conversions the stack uses

    A [std::string] is the list of its bytes.  [split], [merge], [replace] and
    [find_header] are the functions of src/str.cpp; [strtol], [%d], [%x] and
    [%02x] are the conversions of the C library they and [any_addr] use.
    The loops of [split] and [replace] run on fuel: [split_total] shows that
    the fuel [split] starts with is enough for every non-empty separator. *)
From stdpp Require Import strings sorting.
From S2P Require Import Prelude.
Open Scope Z_scope.

Abbreviation str := (list Z) (only parsing).

(** a literal *)
Definition lit (s : string) : list Z := (λ a, Z.of_N (Ascii.N_of_ascii a)) <$> String.list_ascii_of_string s.
Arguments lit s%_string.

(** ** Searching *)

Fixpoint is_prefix (what hay : str) : bool :=
  match what, hay with
  | [], _ => true
  | _ :: _, [] => false
  | w :: what', h :: hay' => (w =? h) && is_prefix what' hay'
  end.

(** [hay.find(what)] *)
Fixpoint find (what hay : str) : option nat :=
  if is_prefix what hay then Some O
  else match hay with
       | [] => None
       | _ :: hay' => S <$> find what hay'
       end.

(** the text up to the first NUL *)
Fixpoint c_str (s : str) : str :=
  match s with [] => [] | c :: s' => if c =? 0 then [] else c :: c_str s' end.

Lemma c_str_nul_free p : (0 ∉ p) → c_str p = p.
Proof.
  induction p as [|c p IH]; intros Hn; [done|]. cbn [c_str]. destruct (Z.eqb_spec c 0) as [->|N]; [exfalso; apply Hn; by left|].
  rewrite IH; [done|]. intros H. apply Hn. by right.
Qed.

(** ** [split], [merge], [replace] *)

Fixpoint split_loop (fuel : nat) (inp splitter : str) (out : list str) : res (list str) :=
  match fuel with
  | O => Err out_of_fuel
  | S fuel' =>
      match find splitter inp with
      | None => Ok (if decide (inp = []) then out else out ++ [inp])
      | Some pos =>
          let before := take pos inp in
          let bytes_left := (length inp - (pos + length splitter))%nat in
          if decide (bytes_left = O) then Ok (out ++ [before] ++ [[]])
          else split_loop fuel' (drop (pos + length splitter) inp) splitter (out ++ [before])
      end
  end.

Definition split (inp splitter : str) : res (list str) :=
  split_loop (S (length inp)) inp splitter [].

Fixpoint merge (inp : list str) (seperator : str) : str :=
  match inp with
  | [] => []
  | l :: inp' => l ++ seperator ++ merge inp' seperator
  end.

Fixpoint replace_loop (fuel : nat) (target what by_what : str) : res str :=
  match fuel with
  | O => Err out_of_fuel
  | S fuel' =>
      match find what target with
      | None => Ok target
      | Some found =>
          let before := take found target in
          let after := drop (found + length what) target in
          replace_loop fuel' (before ++ by_what ++ after) what by_what
      end
  end.

Definition replace (target what by_what : str) : res str :=
  replace_loop (S (length target)) target what by_what.

(** ** [str_tolower] and [find_header] *)

(** [std::tolower] in the "C" locale *)
Definition tolower (c : Z) : Z := if (65 <=? c) && (c <=? 90) then c + 32 else c.
Definition str_tolower (s : str) : str := tolower <$> s.

Fixpoint drop_spaces (s : str) : str :=
  match s with
  | c :: s' => if c =? 32 then drop_spaces s' else s
  | [] => []
  end.

(** One line of [find_header]; [line.substr(n)] throws when [n] is behind the end. *)
Definition find_header_line (lkey key seperator line : str) (value : option str)
  : res (option str) :=
  let* parts := split line seperator in
  match parts with
  | part0 :: _ :: _ =>
      if decide (str_tolower part0 = lkey) then
        if decide (length line < length key + 1)%nat then Err out_of_range
        else Ok (Some (drop_spaces (drop (length key + 1) line)))
      else Ok value
  | _ => Ok value
  end.

Fixpoint find_header_loop (lines : list str) (lkey key seperator : str) (value : option str)
  : res (option str) :=
  match lines with
  | [] => Ok value
  | line :: lines' =>
      let* value' := find_header_line lkey key seperator line value in
      find_header_loop lines' lkey key seperator value'
  end.

Definition find_header (lines : list str) (key seperator : str) : res (option str) :=
  find_header_loop lines (str_tolower key) key seperator None.

(** ** Conversions of the C library *)

Definition digit_char (d : Z) : Z := if d <? 10 then 48 + d else 87 + d.

Fixpoint digits_loop (fuel : nat) (base n : Z) (acc : str) : str :=
  match fuel with
  | O => acc
  | S fuel' =>
      let acc' := digit_char (n mod base) :: acc in
      if n / base =? 0 then acc' else digits_loop fuel' base (n / base) acc'
  end.

(** [%d] and [%x] of a non-negative [int]: at most 32 digits *)
Definition fmt_dec (n : Z) : str := digits_loop 32 10 n [].
Definition fmt_hex (n : Z) : str := digits_loop 32 16 n [].
(** [%02x] of a byte *)
Definition fmt_02x (n : Z) : str := [digit_char (n / 16); digit_char (n mod 16)].

(** [snprintf(buffer, size, ...)]: at most [size - 1] characters are kept *)
Definition snprintf (size : nat) (s : str) : str := take (size - 1) s.

Definition digit_val (c : Z) : option Z :=
  if (48 <=? c) && (c <=? 57) then Some (c - 48)
  else if (97 <=? c) && (c <=? 122) then Some (c - 87)
  else if (65 <=? c) && (c <=? 90) then Some (c - 55)
  else None.

Definition isspace (c : Z) : bool := (c =? 32) || ((9 <=? c) && (c <=? 13)).

Fixpoint skip_isspace (s : str) : str :=
  match s with
  | c :: s' => if isspace c then skip_isspace s' else s
  | [] => []
  end.

Fixpoint strtol_digits (s : str) (base acc : Z) : Z :=
  match s with
  | [] => acc
  | c :: s' =>
      match digit_val c with
      | Some d => if d <? base then strtol_digits s' base (acc * base + d) else acc
      | None => acc
      end
  end.

Definition is_hex_digit (c : Z) : bool :=
  match digit_val c with Some d => d <? 16 | None => false end.

(** [strtol(s, nullptr, base)] for base 10 and 16; the result saturates at the
    limits of [long]. *)
Definition strtol (s : str) (base : Z) : Z :=
  let s := skip_isspace s in
  let '(neg, s) :=
    match s with
    | c :: s' => if c =? 45 then (true, s') else if c =? 43 then (false, s') else (false, s)
    | [] => (false, s)
    end in
  let s :=
    match s with
    | z :: x :: d :: s' =>
        if (base =? 16) && (z =? 48) && ((x =? 120) || (x =? 88)) && is_hex_digit d
        then d :: s' else s
    | _ => s
    end in
  let v := strtol_digits s base 0 in
  let v := if neg then - v else v in
  Z.max (-9223372036854775808) (Z.min v 9223372036854775807).

(** One byte of [bin_to_text]; [i] is its position *)
Definition bin_to_text_byte (prefer_ascii : bool) (i : nat) (b : Z) : str :=
  if prefer_ascii then
    if (32 <? b) && (b <? 127) then [b] else [91] ++ fmt_02x b ++ [93]
  else (if decide (i = O) then [] else [32]) ++ fmt_02x b.

Definition bin_to_text (p : list Z) (prefer_ascii : bool) : str :=
  concat (imap (bin_to_text_byte prefer_ascii) p).

(** ** Lemmas on searching *)

Lemma is_prefix_spec what hay : is_prefix what hay = true ↔ ∃ rest, hay = what ++ rest.
Proof.
  revert hay. induction what as [|w what IH]; intros hay; simpl; [naive_solver|].
  destruct hay as [|h hay]; [naive_solver|].
  rewrite andb_true_iff, Z.eqb_eq, IH. naive_solver.
Qed.

Lemma find_Some what hay n :
  find what hay = Some n → hay = take n hay ++ what ++ drop (n + length what) hay.
Proof.
  revert n. induction hay as [|h hay IH]; intros n; simpl.
  - destruct (is_prefix what []) eqn:E; [|done]. intros [= <-].
    apply is_prefix_spec in E as [rest E]. symmetry in E. apply app_nil in E as [-> ->]. done.
  - destruct (is_prefix what (h :: hay)) eqn:E.
    + intros [= <-]. apply is_prefix_spec in E as [rest E]. rewrite E.
      simpl. by rewrite drop_app_length.
    + destruct (find what hay) as [k|] eqn:F; [|done]. intros [= <-]. simpl. f_equal. by apply IH.
Qed.

Lemma find_bound what hay n : find what hay = Some n → (n + length what ≤ length hay)%nat.
Proof.
  revert n. induction hay as [|h hay IH]; intros n; simpl.
  - destruct (is_prefix what []) eqn:E; [|done]. intros [= <-].
    apply is_prefix_spec in E as [rest E]. symmetry in E. by apply app_nil in E as [-> _].
  - destruct (is_prefix what (h :: hay)) eqn:E.
    + intros [= <-]. apply is_prefix_spec in E as [rest E].
      apply (f_equal length) in E. rewrite length_app in E. simpl in *. lia.
    + destruct (find what hay) as [k|] eqn:F; [|done]. intros [= <-].
      specialize (IH k eq_refl). lia.
Qed.

Lemma find_take what hay n : what ≠ [] → find what hay = Some n → find what (take n hay) = None.
Proof.
  intros Hne. revert n. induction hay as [|h hay IH]; intros n; simpl.
  - by destruct what.
  - destruct (is_prefix what (h :: hay)) eqn:E.
    + intros [= <-]. simpl. by destruct what.
    + destruct (find what hay) as [k|] eqn:F; [|done]. intros [= <-]. simpl.
      rewrite (IH k) by done.
      destruct (is_prefix what (h :: take k hay)) eqn:G; [|done].
      apply is_prefix_spec in G as [rest G].
      assert (is_prefix what (h :: hay) = true); [|congruence].
      apply is_prefix_spec. exists (rest ++ drop k hay).
      rewrite app_assoc, <- G. simpl. by rewrite take_drop.
Qed.

(** ** [split] is correct *)

(** The pieces put together with the separator between them. *)
Fixpoint join (sep : str) (parts : list str) : str :=
  match parts with
  | [] => []
  | [l] => l
  | l :: parts' => l ++ sep ++ join sep parts'
  end.

Lemma join_cons sep l parts : parts ≠ [] → join sep (l :: parts) = l ++ sep ++ join sep parts.
Proof. by destruct parts. Qed.

Lemma join_nonempty sep parts : sep ≠ [] → parts ≠ [] → parts ≠ [[]] → join sep parts ≠ [].
Proof.
  intros Hs Hp Hq. destruct parts as [|l [|k parts]]; [done| |].
  - simpl. congruence.
  - rewrite join_cons by done. intros [_ [E _]%app_nil]%app_nil. done.
Qed.

Lemma split_loop_spec sep fuel inp out :
  sep ≠ [] → (length inp < fuel)%nat →
  ∃ parts, split_loop fuel inp sep out = Ok (out ++ parts) ∧
    join sep parts = inp ∧ Forall (λ q, find sep q = None) parts ∧ (inp = [] → parts = []).
Proof.
  intros Hs. revert inp out. induction fuel as [|fuel IH]; intros inp out Hf; [lia|].
  assert (find sep [] = None) as Hnil by (by destruct sep).
  simpl. destruct (find sep inp) as [pos|] eqn:F.
  - pose proof (find_bound _ _ _ F). pose proof (find_take _ _ _ Hs F).
    assert (0 < length sep)%nat by (destruct sep; simpl; [done|lia]).
    case_decide as D.
    + exists [take pos inp; []]. split_and!; [done| | |].
      * simpl. rewrite app_nil_r. rewrite (find_Some _ _ _ F) at 2.
        rewrite (drop_ge inp) by lia. by rewrite app_nil_r.
      * by repeat constructor.
      * intros ->. simpl in *. lia.
    + destruct (IH (drop (pos + length sep) inp) (out ++ [take pos inp])) as (parts & Hp & Hj & Hn & He).
      { rewrite length_drop. lia. }
      exists (take pos inp :: parts). rewrite Hp, <- app_assoc. split_and!; [done| | |].
      * destruct parts as [|l parts].
        { exfalso. simpl in Hj. apply (f_equal length) in Hj. rewrite length_drop in Hj.
          simpl in Hj. lia. }
        rewrite join_cons, Hj by done. symmetry. by apply find_Some.
      * by constructor.
      * intros ->. simpl in *. lia.
  - case_decide as D.
    + subst. exists []. rewrite app_nil_r. done.
    + exists [inp]. simpl. split_and!; try done. by constructor.
Qed.

Lemma split_spec inp sep :
  sep ≠ [] →
  ∃ parts, split inp sep = Ok parts ∧ join sep parts = inp ∧
    Forall (λ q, find sep q = None) parts.
Proof.
  intros Hs. destruct (split_loop_spec sep (S (length inp)) inp [] Hs) as (parts & ? & ? & ? & _);
    [lia|]. eauto.
Qed.

(** Splitting what was joined gives the pieces back, for a one-character
    separator that occurs in none of them and non-empty pieces. *)
Lemma find_char_app c l k : c ∉ l → find [c] (l ++ c :: k) = Some (length l).
Proof.
  induction l as [|x l IH]; intros Hc; simpl.
  - by rewrite Z.eqb_refl.
  - apply not_elem_of_cons in Hc as [Hx Hc].
    rewrite (proj2 (Z.eqb_neq c x)) by done. simpl. by rewrite IH.
Qed.

Lemma find_char_None c l : c ∉ l → find [c] l = None.
Proof.
  induction l as [|x l IH]; intros Hc; simpl; [done|].
  apply not_elem_of_cons in Hc as [Hx Hc].
  rewrite (proj2 (Z.eqb_neq c x)) by done. simpl. by rewrite IH.
Qed.

Lemma split_loop_join c parts fuel out :
  Forall (λ q, (c ∉ q) ∧ (q ≠ [])) parts → (length (join [c] parts) < fuel)%nat →
  split_loop fuel (join [c] parts) [c] out = Ok (out ++ parts).
Proof.
  revert fuel out. induction parts as [|l parts IH]; intros fuel out HF Hfuel.
  - destruct fuel; [simpl in *; lia|]. simpl. by rewrite app_nil_r.
  - apply Forall_cons in HF as [[Hc Hl] HF]. destruct fuel as [|fuel]; [lia|].
    destruct parts as [|k parts].
    + cbn [join split_loop]. rewrite find_char_None by done. by case_decide.
    + rewrite join_cons in * by done. cbn [app split_loop] in *.
      assert (join [c] (k :: parts) ≠ []) as Hne.
      { apply join_nonempty; [done|done|]. apply Forall_cons in HF as [[_ ?] _]. congruence. }
      specialize (IH fuel (out ++ [l]) HF).
      remember (join [c] (k :: parts)) as J eqn:EJ. clear EJ.
      rewrite find_char_app by done. rewrite !length_app in *. simpl length in *.
      destruct (decide _) as [D|D].
      { exfalso. apply Hne, nil_length_inv. lia. }
      rewrite (take_app_length l), drop_app_add. cbn [drop]. rewrite drop_0.
      rewrite IH by lia. by rewrite <- app_assoc.
Qed.

Lemma split_join c parts :
  Forall (λ q, (c ∉ q) ∧ (q ≠ [])) parts → split (join [c] parts) [c] = Ok parts.
Proof. intros HF. unfold split. rewrite split_loop_join; [done|done|lia]. Qed.

(** ** [replace] of a single character *)

Lemma find_char_Some c l n : find [c] l = Some n → (c ∉ take n l) ∧ l = take n l ++ c :: drop (n + 1) l.
Proof.
  intros H. split; [|by apply find_Some in H].
  pose proof (find_take [c] l n ltac:(done) H) as F.
  intros [l1 [l2 E]]%list_elem_of_split. rewrite E in F.
  clear -F. revert F. induction l1 as [|x l1 IH]; simpl.
  - by rewrite Z.eqb_refl.
  - destruct (c =? x); simpl; [done|]. destruct (find [c] (l1 ++ c :: l2)); [done|naive_solver].
Qed.

Definition subst_char (c : Z) (by_what : str) (x : Z) : str := if decide (x = c) then by_what else [x].

Lemma subst_char_id c by_what l : c ∉ l → (l ≫= subst_char c by_what) = l.
Proof.
  induction l as [|x l IH]; [done|]. intros [? ?]%not_elem_of_cons. csimpl.
  unfold subst_char at 1. rewrite decide_False by done. simpl. by rewrite IH.
Qed.

Lemma subst_char_eq c by_what : subst_char c by_what c = by_what.
Proof. unfold subst_char. by rewrite decide_True. Qed.

Definition occurrences (c : Z) (l : str) : nat := length (filter (c =.) l).

Lemma occurrences_app c l k : occurrences c (l ++ k) = (occurrences c l + occurrences c k)%nat.
Proof. unfold occurrences. by rewrite filter_app, length_app. Qed.
Lemma occurrences_0 c l : c ∉ l → occurrences c l = O.
Proof.
  unfold occurrences. induction l as [|x l IH]; [done|]. intros [? ?]%not_elem_of_cons.
  rewrite filter_cons_False by done. auto.
Qed.

Lemma replace_loop_char c by_what fuel target :
  c ∉ by_what → (occurrences c target < fuel)%nat →
  replace_loop fuel target [c] by_what = Ok (target ≫= subst_char c by_what).
Proof.
  intros Hb. revert target. induction fuel as [|fuel IH]; intros target Hf; [lia|].
  simpl. destruct (find [c] target) as [n|] eqn:F.
  - apply find_char_Some in F as [Hn E]. simpl.
    rewrite IH.
    + f_equal. rewrite E at 3. rewrite !bind_app, bind_cons.
      by rewrite (subst_char_id c by_what by_what), subst_char_eq.
    + rewrite E in Hf. rewrite !occurrences_app in *.
      rewrite (occurrences_0 c by_what) by done.
      change (c :: drop (n + 1) target) with ([c] ++ drop (n + 1) target) in Hf.
      rewrite occurrences_app in Hf. unfold occurrences at 2 in Hf.
      rewrite filter_cons_True in Hf by done. simpl in Hf. lia.
  - rewrite subst_char_id; [done|]. intros [l1 [l2 ->]]%list_elem_of_split.
    clear -F. revert F. induction l1 as [|x l1 IH]; simpl.
    + by rewrite Z.eqb_refl.
    + destruct (c =? x); simpl; [done|]. destruct (find [c] (l1 ++ c :: l2)); [done|naive_solver].
Qed.

(** ** Walking through maps whose keys are strings *)

(** [std::string::operator<=] *)
Fixpoint str_leb (a b : str) : bool :=
  match a, b with
  | [], _ => true
  | _ :: _, [] => false
  | x :: a', y :: b' => (x <? y) || ((x =? y) && str_leb a' b')
  end.

Definition key_le {A} (x y : str * A) : Prop := Is_true (str_leb x.1 y.1).
#[global] Instance key_le_dec {A} (x y : str * A) : Decision (key_le x y).
Proof. unfold key_le. apply _. Defined.

Definition in_order {A} (m : gmap str A) : list (str * A) := merge_sort key_le (map_to_list m).

(** a [std::set<std::string>] *)
Definition set_in_order (c : gset str) : list str := (merge_sort key_le ((λ x, (x, tt)) <$> elements c)).*1.

Lemma elem_of_in_order {A} (m : gmap str A) x : x ∈ in_order m ↔ m !! x.1 = Some x.2.
Proof. unfold in_order. rewrite merge_sort_Permutation. destruct x. apply elem_of_map_to_list. Qed.
