(* ===== verification/Hash.v ===== *)
(** * Hashes and CRCs (src/hash.cpp, src/sctp_crc32c.cpp)

    [MurmurHash64A] keys the TCP sessions and the address maps, [crc32] and
    [generate_crc32c] protect frames and SCTP packets.  The main result is that
    the table-driven CRC-32C of src/sctp_crc32c.cpp is the bitwise CRC of
    src/hash.cpp for the reflected Castagnoli polynomial, with the four bytes
    of the result swapped. *)
From S2P Require Import Prelude.

(** ** MurmurHash64A *)

Definition murmur_m : Z := 0xc6a4a7935bd1e995.
Definition murmur_r : Z := 47.

(** [*(const uint64_t * )p] on a little-endian host *)
Fixpoint le_join (l : list Z) : Z :=
  match l with [] => 0 | b :: l' => Z.lor b (Z.shiftl (le_join l') 8) end.

Definition murmur_mix (h k : Z) : Z :=
  let k := u64 (k * murmur_m) in
  let k := Z.lxor k (Z.shiftr k murmur_r) in
  let k := u64 (k * murmur_m) in
  u64 (Z.lxor h k * murmur_m).

(** the [while(data != end)] loop: [n] words of eight bytes *)
Fixpoint murmur_words (n : nat) (data : list Z) (h : Z) : res (Z * list Z) :=
  match n with
  | O => Ok (h, data)
  | S n' =>
      let* w := rd_range data 0 8 in
      murmur_words n' (ptr_at data 8) (murmur_mix h (le_join w))
  end.

(** the [switch(len & 7)]: each case falls through to the next *)
Fixpoint murmur_tail (n : nat) (data2 : list Z) (h : Z) : res Z :=
  match n with
  | O => Ok h
  | S n' =>
      let* b := rd data2 (Z.of_nat n') in
      murmur_tail n' data2 (Z.lxor h (Z.shiftl b (8 * Z.of_nat n')))
  end.

Definition MurmurHash64A (key : list Z) (len seed : Z) : res Z :=
  let h := Z.lxor seed (u64 (len * murmur_m)) in
  let* '(h, data2) := murmur_words (Z.to_nat (Z.shiftr len 3)) key h in
  let tail := Z.to_nat (Z.land len 7) in
  let* h := murmur_tail tail data2 h in
  let h := if decide (tail = O) then h else u64 (h * murmur_m) in
  let h := Z.lxor h (Z.shiftr h murmur_r) in
  let h := u64 (h * murmur_m) in
  Ok (Z.lxor h (Z.shiftr h murmur_r)).

(** ** Bitwise CRC *)

(** the inner loop of [crc32]: [j] counts the bits left *)
Fixpoint crc32_bits (j : nat) (polynomial crc ch : Z) : Z :=
  match j with
  | O => crc
  | S j' =>
      let b := Z.odd (Z.lxor ch crc) in
      let crc := Z.shiftr crc 1 in
      let crc := Z.lxor crc (if b then polynomial else 0) in
      crc32_bits j' polynomial crc (Z.shiftr ch 1)
  end.

Definition crc32 (data : list Z) (polynomial : Z) : Z :=
  u32 (Z.lnot (foldl (λ crc ch, crc32_bits 8 polynomial crc ch) 0xFFFFFFFF data)).

(** ** Table-driven CRC-32C *)

Definition crc_c : list Z :=
  [0x00000000; 0xF26B8303; 0xE13B70F7; 0x1350F3F4;
   0xC79A971F; 0x35F1141C; 0x26A1E7E8; 0xD4CA64EB;
   0x8AD958CF; 0x78B2DBCC; 0x6BE22838; 0x9989AB3B;
   0x4D43CFD0; 0xBF284CD3; 0xAC78BF27; 0x5E133C24;
   0x105EC76F; 0xE235446C; 0xF165B798; 0x030E349B;
   0xD7C45070; 0x25AFD373; 0x36FF2087; 0xC494A384;
   0x9A879FA0; 0x68EC1CA3; 0x7BBCEF57; 0x89D76C54;
   0x5D1D08BF; 0xAF768BBC; 0xBC267848; 0x4E4DFB4B;
   0x20BD8EDE; 0xD2D60DDD; 0xC186FE29; 0x33ED7D2A;
   0xE72719C1; 0x154C9AC2; 0x061C6936; 0xF477EA35;
   0xAA64D611; 0x580F5512; 0x4B5FA6E6; 0xB93425E5;
   0x6DFE410E; 0x9F95C20D; 0x8CC531F9; 0x7EAEB2FA;
   0x30E349B1; 0xC288CAB2; 0xD1D83946; 0x23B3BA45;
   0xF779DEAE; 0x05125DAD; 0x1642AE59; 0xE4292D5A;
   0xBA3A117E; 0x4851927D; 0x5B016189; 0xA96AE28A;
   0x7DA08661; 0x8FCB0562; 0x9C9BF696; 0x6EF07595;
   0x417B1DBC; 0xB3109EBF; 0xA0406D4B; 0x522BEE48;
   0x86E18AA3; 0x748A09A0; 0x67DAFA54; 0x95B17957;
   0xCBA24573; 0x39C9C670; 0x2A993584; 0xD8F2B687;
   0x0C38D26C; 0xFE53516F; 0xED03A29B; 0x1F682198;
   0x5125DAD3; 0xA34E59D0; 0xB01EAA24; 0x42752927;
   0x96BF4DCC; 0x64D4CECF; 0x77843D3B; 0x85EFBE38;
   0xDBFC821C; 0x2997011F; 0x3AC7F2EB; 0xC8AC71E8;
   0x1C661503; 0xEE0D9600; 0xFD5D65F4; 0x0F36E6F7;
   0x61C69362; 0x93AD1061; 0x80FDE395; 0x72966096;
   0xA65C047D; 0x5437877E; 0x4767748A; 0xB50CF789;
   0xEB1FCBAD; 0x197448AE; 0x0A24BB5A; 0xF84F3859;
   0x2C855CB2; 0xDEEEDFB1; 0xCDBE2C45; 0x3FD5AF46;
   0x7198540D; 0x83F3D70E; 0x90A324FA; 0x62C8A7F9;
   0xB602C312; 0x44694011; 0x5739B3E5; 0xA55230E6;
   0xFB410CC2; 0x092A8FC1; 0x1A7A7C35; 0xE811FF36;
   0x3CDB9BDD; 0xCEB018DE; 0xDDE0EB2A; 0x2F8B6829;
   0x82F63B78; 0x709DB87B; 0x63CD4B8F; 0x91A6C88C;
   0x456CAC67; 0xB7072F64; 0xA457DC90; 0x563C5F93;
   0x082F63B7; 0xFA44E0B4; 0xE9141340; 0x1B7F9043;
   0xCFB5F4A8; 0x3DDE77AB; 0x2E8E845F; 0xDCE5075C;
   0x92A8FC17; 0x60C37F14; 0x73938CE0; 0x81F80FE3;
   0x55326B08; 0xA759E80B; 0xB4091BFF; 0x466298FC;
   0x1871A4D8; 0xEA1A27DB; 0xF94AD42F; 0x0B21572C;
   0xDFEB33C7; 0x2D80B0C4; 0x3ED04330; 0xCCBBC033;
   0xA24BB5A6; 0x502036A5; 0x4370C551; 0xB11B4652;
   0x65D122B9; 0x97BAA1BA; 0x84EA524E; 0x7681D14D;
   0x2892ED69; 0xDAF96E6A; 0xC9A99D9E; 0x3BC21E9D;
   0xEF087A76; 0x1D63F975; 0x0E330A81; 0xFC588982;
   0xB21572C9; 0x407EF1CA; 0x532E023E; 0xA145813D;
   0x758FE5D6; 0x87E466D5; 0x94B49521; 0x66DF1622;
   0x38CC2A06; 0xCAA7A905; 0xD9F75AF1; 0x2B9CD9F2;
   0xFF56BD19; 0x0D3D3E1A; 0x1E6DCDEE; 0xEC064EED;
   0xC38D26C4; 0x31E6A5C7; 0x22B65633; 0xD0DDD530;
   0x0417B1DB; 0xF67C32D8; 0xE52CC12C; 0x1747422F;
   0x49547E0B; 0xBB3FFD08; 0xA86F0EFC; 0x5A048DFF;
   0x8ECEE914; 0x7CA56A17; 0x6FF599E3; 0x9D9E1AE0;
   0xD3D3E1AB; 0x21B862A8; 0x32E8915C; 0xC083125F;
   0x144976B4; 0xE622F5B7; 0xF5720643; 0x07198540;
   0x590AB964; 0xAB613A67; 0xB831C993; 0x4A5A4A90;
   0x9E902E7B; 0x6CFBAD78; 0x7FAB5E8C; 0x8DC0DD8F;
   0xE330A81A; 0x115B2B19; 0x020BD8ED; 0xF0605BEE;
   0x24AA3F05; 0xD6C1BC06; 0xC5914FF2; 0x37FACCF1;
   0x69E9F0D5; 0x9B8273D6; 0x88D28022; 0x7AB90321;
   0xAE7367CA; 0x5C18E4C9; 0x4F48173D; 0xBD23943E;
   0xF36E6F75; 0x0105EC76; 0x12551F82; 0xE03E9C81;
   0x34F4F86A; 0xC69F7B69; 0xD5CF889D; 0x27A40B9E;
   0x79B737BA; 0x8BDCB4B9; 0x988C474D; 0x6AE7C44E;
   0xBE2DA0A5; 0x4C4623A6; 0x5F16D052; 0xAD7D5351].

(** [CRC32C(c,d)] *)
Definition CRC32C (c d : Z) : Z :=
  Z.lxor (Z.shiftr c 8) (nth (Z.to_nat (Z.land (Z.lxor c d) 0xFF)) crc_c 0).

(** the byte swap at the end of [generate_crc32c] *)
Definition swap_result (result : Z) : Z :=
  let byte0 := Z.land result 0xff in
  let byte1 := Z.land (Z.shiftr result 8) 0xff in
  let byte2 := Z.land (Z.shiftr result 16) 0xff in
  let byte3 := Z.land (Z.shiftr result 24) 0xff in
  join32 byte0 byte1 byte2 byte3.

Definition generate_crc32c (buffer : list Z) : Z :=
  let crc32 := foldl CRC32C 0xFFFFFFFF buffer in
  swap_result (u32 (Z.lnot crc32)).

(** ** The two CRCs agree *)

Section Bitwise.
Context (P : Z).

Definition bitstep (x : Z) : Z := Z.lxor (Z.shiftr x 1) (if Z.odd x then P else 0).

Lemma bitstep_lxor x y : bitstep (Z.lxor x y) = Z.lxor (bitstep x) (bitstep y).
Proof.
  unfold bitstep. rewrite <- !Z.bit0_odd, Z.lxor_spec, Z.shiftr_lxor.
  apply Z.bits_inj'. intros n _.
  destruct (Z.testbit x 0), (Z.testbit y 0); simpl xorb; cbn match;
    rewrite !Z.lxor_spec, ?Z.bits_0;
    destruct (Z.testbit _ n), (Z.testbit _ n); try done; by destruct (Z.testbit P n).
Qed.

Lemma iter_bitstep_lxor n x y :
  Nat.iter n bitstep (Z.lxor x y) = Z.lxor (Nat.iter n bitstep x) (Nat.iter n bitstep y).
Proof. induction n as [|n IH]; simpl; [done|]. by rewrite IH, bitstep_lxor. Qed.

Lemma bitstep_even y : bitstep (2 * y) = y.
Proof.
  unfold bitstep. rewrite Z.odd_mul. simpl. rewrite Z.lxor_0_r, Z.shiftr_div_pow2 by lia.
  change (2 ^ 1) with 2. rewrite Z.mul_comm, Z.div_mul; lia.
Qed.

Lemma iter_bitstep_shiftl n y : Nat.iter n bitstep (y * 2 ^ Z.of_nat n) = y.
Proof.
  revert y. induction n as [|n IH]; intros y; [simpl; lia|].
  rewrite Nat.iter_succ_r.
  replace (y * 2 ^ Z.of_nat (S n)) with (2 * (y * 2 ^ Z.of_nat n)).
  - rewrite bitstep_even. apply IH.
  - rewrite Nat2Z.inj_succ, Z.pow_succ_r by lia. lia.
Qed.

(** eight bit steps only look at the low byte *)
Lemma iter8_split x :
  0 ≤ x → Nat.iter 8 bitstep x = Z.lxor (Z.shiftr x 8) (Nat.iter 8 bitstep (Z.land x 255)).
Proof.
  intros Hx.
  assert (x = Z.lxor (Z.shiftr x 8 * 2 ^ Z.of_nat 8) (Z.land x 255)) as E.
  { change (Z.of_nat 8) with 8. rewrite <- Z.shiftl_mul_pow2 by lia.
    apply Z.bits_inj'. intros n Hn. rewrite Z.lxor_spec, Z.land_spec, Z.shiftl_spec by lia.
    change 255 with (Z.ones 8). destruct (decide (n < 8)).
    - rewrite (Z.testbit_neg_r (Z.shiftr x 8)), Z.ones_spec_low by lia. by rewrite andb_true_r, xorb_false_l.
    - rewrite Z.shiftr_spec, Z.ones_spec_high by lia.
      rewrite andb_false_r, xorb_false_r. f_equal. lia. }
  rewrite E at 1. by rewrite iter_bitstep_lxor, iter_bitstep_shiftl.
Qed.

Lemma crc32_bits_iter j crc ch :
  Z.lxor (crc32_bits j P crc ch) (Z.shiftr ch (Z.of_nat j)) = Nat.iter j bitstep (Z.lxor crc ch).
Proof.
  revert crc ch. induction j as [|j IH]; intros crc ch.
  - simpl. by rewrite Z.shiftr_0_r.
  - rewrite Nat.iter_succ_r. cbn [crc32_bits].
    replace (bitstep (Z.lxor crc ch))
      with (Z.lxor (Z.lxor (Z.shiftr crc 1) (if Z.odd (Z.lxor ch crc) then P else 0)) (Z.shiftr ch 1)).
    + rewrite <- IH, Z.shiftr_shiftr by lia. f_equal. f_equal. lia.
    + unfold bitstep. rewrite (Z.lxor_comm ch crc), Z.shiftr_lxor.
      rewrite !Z.lxor_assoc. f_equal. apply Z.lxor_comm.
Qed.

Lemma crc32_bits_8 crc ch :
  byte_ok ch → crc32_bits 8 P crc ch = Nat.iter 8 bitstep (Z.lxor crc ch).
Proof.
  intros Hch. rewrite <- crc32_bits_iter. change (Z.of_nat 8) with 8.
  rewrite Z.shiftr_div_pow2 by lia. change (2 ^ 8) with 256.
  rewrite Z.div_small by done. by rewrite Z.lxor_0_r.
Qed.
End Bitwise.

Definition castagnoli : Z := 0x82F63B78.

Lemma crc_c_table :
  forallb (λ i, nth i crc_c 0 =? Nat.iter 8 (bitstep castagnoli) (Z.of_nat i)) (seq 0 256) = true.
Proof. vm_compute. reflexivity. Qed.

Lemma crc_c_nth x :
  0 ≤ x < 256 → nth (Z.to_nat x) crc_c 0 = Nat.iter 8 (bitstep castagnoli) x.
Proof.
  intros Hx. pose proof crc_c_table as H. rewrite forallb_forall in H.
  specialize (H (Z.to_nat x)). rewrite Z.eqb_eq in H. rewrite H.
  - by rewrite Z2Nat.id by lia.
  - apply in_seq. lia.
Qed.

Lemma land_255 x : 0 ≤ Z.land x 255 < 256.
Proof. change 255 with (Z.ones 8). rewrite Z.land_ones by lia. apply Z.mod_pos_bound. done. Qed.

Lemma crc32_bits_nonneg P j crc ch : 0 ≤ P → 0 ≤ crc → 0 ≤ crc32_bits j P crc ch.
Proof.
  intros HP. revert crc ch. induction j as [|j IH]; intros crc ch Hc; [done|].
  cbn [crc32_bits]. apply IH. apply Z.lxor_nonneg.
  split; intros _; [destruct (Z.odd _); lia|]. by apply Z.shiftr_nonneg.
Qed.

Lemma CRC32C_bits c d :
  0 ≤ c → byte_ok d → CRC32C c d = crc32_bits 8 castagnoli c d.
Proof.
  intros Hc Hd. rewrite crc32_bits_8 by done. unfold CRC32C.
  rewrite crc_c_nth by apply land_255.
  rewrite (iter8_split castagnoli (Z.lxor c d)).
  - f_equal. rewrite Z.shiftr_lxor, (Z.shiftr_div_pow2 d) by lia.
    change (2 ^ 8) with 256. rewrite (Z.div_small d) by done. by rewrite Z.lxor_0_r.
  - apply Z.lxor_nonneg. unfold byte_ok in Hd. tauto || lia.
Qed.

Lemma foldl_CRC32C buffer c :
  bytes_ok buffer → 0 ≤ c →
  foldl CRC32C c buffer = foldl (λ crc ch, crc32_bits 8 castagnoli crc ch) c buffer.
Proof.
  intros HB. revert c. induction HB as [|d l Hd _ IH]; intros c Hc; [done|].
  cbn [foldl]. rewrite CRC32C_bits by done. apply IH.
  apply (crc32_bits_nonneg castagnoli 8 c d); [|exact Hc]. unfold castagnoli. lia.
Qed.

(** C19: the table-driven CRC-32C of SCTP is the bitwise CRC of src/hash.cpp with
    the reflected Castagnoli polynomial, byte-swapped into network order, on
    every buffer of bytes. *)
Theorem generate_crc32c_is_crc32 buffer :
  bytes_ok buffer → generate_crc32c buffer = swap_result (crc32 buffer castagnoli).
Proof. intros HB. unfold generate_crc32c, crc32. by rewrite foldl_CRC32C. Qed.

(** "123456789" has the CRC-32C check value 0xE3069283 *)
Lemma generate_crc32c_is_crc32_witness :
  generate_crc32c [49;50;51;52;53;54;55;56;57] = swap_result 0xE3069283.
Proof.
  rewrite (generate_crc32c_is_crc32 [49;50;51;52;53;54;55;56;57]).
  - vm_compute. reflexivity.
  - repeat constructor; unfold byte_ok; lia.
Defined.

(** ** The hash of an address stays inside the address *)

Lemma le_join_nonneg l : bytes_ok l → 0 ≤ le_join l.
Proof.
  induction 1 as [|b l Hb _ IH]; simpl; [done|].
  apply Z.lor_nonneg. split; [unfold byte_ok in Hb; lia|]. by apply Z.shiftl_nonneg.
Qed.

Lemma murmur_words_Ok n data h :
  8 * Z.of_nat n ≤ zlen data → ∃ h', murmur_words n data h = Ok (h', drop (8 * n) data).
Proof.
  revert data h. induction n as [|n IH]; intros data h Hl.
  - exists h. simpl. by rewrite drop_0.
  - cbn [murmur_words]. rewrite rd_range_Ok by (unfold zlen in *; lia). cbn [res_bind].
    destruct (IH (ptr_at data 8) (murmur_mix h (le_join (take (Z.to_nat 8) (drop (Z.to_nat 0) data)))))
      as [h' E].
    { unfold ptr_at, zlen in *. rewrite length_drop. lia. }
    exists h'. rewrite E. unfold ptr_at. rewrite drop_drop. do 3 f_equal. lia.
Qed.

Lemma murmur_tail_Ok n data h : Z.of_nat n ≤ zlen data → ∃ h', murmur_tail n data h = Ok h'.
Proof.
  revert h. induction n as [|n IH]; intros h Hl; [by eexists|]. cbn [murmur_tail].
  destruct (rd_in_range data (Z.of_nat n)) as [b ->]; [lia|]. cbn [res_bind]. apply IH. lia.
Qed.

Lemma MurmurHash64A_total key len seed :
  0 ≤ len ≤ zlen key → ∃ h, MurmurHash64A key len seed = Ok h.
Proof.
  intros Hl. unfold MurmurHash64A.
  assert (Z.land len 7 = len mod 8) as -> by (apply (Z.land_ones len 3); lia).
  rewrite Z.shiftr_div_pow2 by lia.
  change (2 ^ 3) with 8.
  destruct (murmur_words_Ok (Z.to_nat (len / 8)) key (Z.lxor seed (u64 (len * murmur_m)))) as [h1 ->].
  { Z.to_euclidean_division_equations; lia. }
  cbn [res_bind].
  destruct (murmur_tail_Ok (Z.to_nat (len mod 8)) (drop (8 * Z.to_nat (len / 8)) key) h1) as [h2 ->].
  { unfold zlen in *. rewrite length_drop. Z.to_euclidean_division_equations; lia. }
  cbn [res_bind]. by eexists.
Qed.
