(* ===== verification/AnyAddr.v ===== *)
(** * Addresses (src/any_addr.cpp, src/any_addr.h)

    An [any_addr] holds an IPv4, MAC, AX.25 or IPv6 address in a 16-byte array.
    The file models the class with its asserts, [parse_address] and [to_str],
    and shows: the class invariant is kept by every operation; [operator==]
    and [operator<] are equality and a strict total order on the (family,
    bytes) pairs, which is what [std::map<any_addr, T>] needs, so that the
    components that use such maps can use [gmap addr_key T]; printing an
    address and parsing it gives the address back. *)
From S2P Require Import Prelude Str Hash.

Definition ANY_ADDR_SIZE : Z := 16.

Inductive addr_family := ipv4 | mac | ax25 | ipv6.

#[global] Instance addr_family_eq_dec : EqDecision addr_family.
Proof. solve_decision. Defined.

(** the value of the enumerator *)
Definition family_rank (f : addr_family) : Z :=
  match f with ipv4 => 0 | mac => 1 | ax25 => 2 | ipv6 => 3 end.

Record any_addr := AnyAddr {
  af : addr_family;
  addr : list Z;
  addr_size : Z;
  set_ : bool;
}.

#[global] Instance any_addr_eq_dec : EqDecision any_addr.
Proof. solve_decision. Defined.

(** [any_addr()] *)
Definition unset_addr : any_addr :=
  {| af := mac; addr := replicate 16 0; addr_size := 0; set_ := false |}.

Definition family_size (f : addr_family) : Z :=
  match f with mac => 6 | ipv4 => 4 | ax25 => 7 | ipv6 => 16 end.

(** ** Access *)

Definition get_family (a : any_addr) : addr_family := af a.
Definition get_len (a : any_addr) : Z := addr_size a.

(** [get(tgt, &tgt_size)]: the bytes copied to [tgt] *)
Definition get (a : any_addr) : res (list Z) :=
  let* _ := assert_ (set_ a) in
  rd_range (addr a) 0 (addr_size a).

(** [get(tgt, exp_size)] *)
Definition get_exp (a : any_addr) (exp_size : Z) : res (list Z) :=
  let* _ := assert_ (set_ a) in
  let* _ := assert_ (exp_size =? addr_size a) in
  rd_range (addr a) 0 exp_size.

(** [operator[]] *)
Definition at_ (a : any_addr) (index : Z) : res Z :=
  let* _ := assert_ (set_ a) in
  let* _ := assert_ (index <? addr_size a) in
  rd (addr a) index.

Definition get_word (a : any_addr) (nr : Z) : res Z :=
  let* _ := assert_ (set_ a) in
  let* _ := assert_ (nr <? addr_size a - 1) in
  let* hi := rd (addr a) nr in
  let* lo := rd (addr a) (nr + 1) in
  Ok (u16 (join16 hi lo)).

Definition get_hash (a : any_addr) : res Z :=
  let* _ := assert_ (set_ a) in
  MurmurHash64A (addr a) (addr_size a) 123.

(** ** Update *)

Definition set (this : any_addr) (af_in : addr_family) (src : list Z) : res any_addr :=
  let src_size := family_size af_in in
  let* bytes := rd_range src 0 src_size in
  let* addr' := wr_range (addr this) 0 bytes in
  Ok {| af := af_in; addr := addr'; addr_size := src_size; set_ := true |}.

(** [any_addr(af, src)] *)
Definition mk_addr (af_in : addr_family) (src : list Z) : res any_addr :=
  set unset_addr af_in src.

(** [operator=], both overloads *)
Definition assign (this other : any_addr) : res any_addr :=
  let* bytes := get other in
  let* addr' := wr_range (addr this) 0 bytes in
  Ok {| af := get_family other; addr := addr'; addr_size := addr_size other; set_ := true |}.

(** the copy constructor *)
Definition copy (other : any_addr) : res any_addr := assign unset_addr other.

(** ** Comparison *)

(** [memcmp(a, b, n)] on unsigned bytes *)
Fixpoint memcmp (n : nat) (a b : list Z) : comparison :=
  match n, a, b with
  | S n', x :: a', y :: b' =>
      match x ?= y with Eq => memcmp n' a' b' | c => c end
  | _, _, _ => Eq
  end.

(** [uint8_t t[ANY_ADDR_SIZE] { 0 }; other.get(t, &size);] *)
Definition get_padded (a : any_addr) : res (list Z * Z) :=
  let* bytes := get a in
  let* t := wr_range (replicate 16 0) 0 bytes in
  Ok (t, addr_size a).

Definition compare_to (this other : any_addr) : res bool :=
  let* _ := assert_ (set_ this) in
  if decide (get_family other = af this) then
    let* '(other_bytes, _) := get_padded other in
    Ok (match memcmp (Z.to_nat (addr_size this)) other_bytes (addr this) with
        | Eq => true | _ => false end)
  else Ok false.

(** [operator==] and [operator!=] *)
Definition eqb (this other : any_addr) : res bool :=
  let* _ := assert_ (set_ this) in compare_to this other.
Definition neqb (this other : any_addr) : res bool :=
  let* _ := assert_ (set_ this) in
  let* rc := compare_to this other in Ok (negb rc).

(** [operator<] *)
Definition ltb (this rhs : any_addr) : res bool :=
  let* _ := assert_ (set_ this) in
  if decide (get_family this = get_family rhs) then
    let* '(rhs_bytes, rhs_size) := get_padded rhs in
    Ok (match memcmp (Z.to_nat rhs_size) (addr this) rhs_bytes with Lt => true | _ => false end)
  else Ok (family_rank (get_family this) <? family_rank (get_family rhs)).

(** [operator()(lhs, rhs)] *)
Definition call_lt (this lhs rhs : any_addr) : res bool :=
  let* _ := assert_ (set_ this) in
  let* '(lhs_bytes, _) := get_padded lhs in
  let* '(rhs_bytes, rhs_size) := get_padded rhs in
  let* _ := assert_ (bool_decide (get_family lhs = get_family rhs)) in
  Ok (match memcmp (Z.to_nat rhs_size) lhs_bytes rhs_bytes with Lt => true | _ => false end).

(** ** Text *)

Definition dot : Z := 46.
Definition colon : Z := 58.

(** [ax25_address(std::vector<uint8_t>(addr, addr + 7)).to_str()] *)
Fixpoint ax25_chars (i : Z) (bytes : list Z) (ended : bool) : str * bool :=
  match bytes with
  | [] => ([], true)
  | b :: bytes' =>
      if Z.testbit b 0 && negb (i =? 5) then ([], false)
      else
        let c := Z.shiftr b 1 in
        if (c =? 0) || (c =? 32) || ended then ax25_chars (i + 1) bytes' true
        else let '(s, valid) := ax25_chars (i + 1) bytes' ended in (c :: s, valid)
  end.

Definition ax25_text (bytes : list Z) : str :=
  let '(address, valid) := ax25_chars 0 (take 6 bytes) false in
  let ssid := if valid then Z.land (Z.shiftr (nth 6 bytes 0) 1) 0x0f else 0 in
  address ++ [45] ++ fmt_dec ssid.

Definition to_str (a : any_addr) : res str :=
  match af a with
  | ipv4 => Ok (snprintf 16 (join [dot] (fmt_dec <$> take 4 (addr a))))
  | mac => Ok (snprintf 18 (join [colon] (fmt_02x <$> take 6 (addr a))))
  | ax25 => Ok (ax25_text (take 7 (addr a)))
  | ipv6 =>
      let* w0 := get_word a 0 in
      let* w1 := get_word a 2 in
      let* w2 := get_word a 4 in
      let* w3 := get_word a 6 in
      let* w4 := get_word a 8 in
      let* w5 := get_word a 10 in
      let* w6 := get_word a 12 in
      let* w7 := get_word a 14 in
      Ok (snprintf 40 (join [colon] (fmt_hex <$> [w0; w1; w2; w3; w4; w5; w6; w7])))
  end.

(** [parts.at(i)] *)
Definition part_at (parts : list str) (i : nat) : res str :=
  match parts !! i with Some s => Ok s | None => Err out_of_range end.

(** the loop over the 16-bit groups of an IPv6 address *)
Fixpoint parse_words (parts : list str) (base : Z) (i n : nat) : res (list Z) :=
  match n with
  | O => Ok []
  | S n' =>
      let* s := part_at parts i in
      let val := u16 (strtol s base) in
      let* rest := parse_words parts base (S i) n' in
      Ok (u8 (Z.shiftr val 8) :: u8 val :: rest)
  end.

(** the loop over the bytes of the other addresses *)
Fixpoint parse_bytes (parts : list str) (base : Z) (i n : nat) : res (list Z) :=
  match n with
  | O => Ok []
  | S n' =>
      let* s := part_at parts i in
      let* rest := parse_bytes parts base (S i) n' in
      Ok (u8 (strtol s base) :: rest)
  end.

Definition parse_address (s : str) (exp_size : nat) (seperator : str) (base : Z) : res any_addr :=
  let* parts := split s seperator in
  if negb (bool_decide (length parts = exp_size)) &&
     negb (bool_decide (exp_size = 16%nat) && bool_decide (length parts = 8%nat))
  then Err exit_failure
  else
    if decide (exp_size = 16%nat) then
      let* temp := parse_words parts base 0 8 in
      mk_addr ipv6 temp
    else
      let* temp := parse_bytes parts base 0 exp_size in
      mk_addr (if decide (exp_size = 4%nat) then ipv4 else mac) temp.

(** ** Invariant *)

Definition wf (a : any_addr) : Prop :=
  length (addr a) = 16%nat ∧ bytes_ok (addr a) ∧
  (set_ a = true → addr_size a = family_size (af a)).

(** a set address in the invariant *)
Definition good (a : any_addr) : Prop := wf a ∧ set_ a = true.

Definition addr_key : Type := addr_family * list Z.

(** what an address stands for *)
Definition key (a : any_addr) : addr_family * list Z :=
  (af a, take (Z.to_nat (addr_size a)) (addr a)).

Lemma family_size_bound f : 4 ≤ family_size f ≤ 16.
Proof. destruct f; simpl; lia. Qed.

Lemma unset_addr_wf : wf unset_addr.
Proof. split_and!; [done|solve_bytes|done]. Qed.

Lemma good_size a : good a → addr_size a = family_size (af a) ∧ zlen (addr a) = 16.
Proof. intros [(Hl & _ & Hs) Hset]. unfold zlen. rewrite Hl. auto. Qed.

Lemma get_good a : good a → get a = Ok (key a).2.
Proof.
  intros Hg. destruct (good_size a Hg) as [Hs Hl]. destruct Hg as [_ Hset].
  pose proof (family_size_bound (af a)). unfold get. rewrite Hset. cbn [assert_ res_bind].
  rewrite rd_range_Ok by lia. by rewrite drop_0.
Qed.

Lemma get_exp_good a n : good a → n = family_size (af a) → get_exp a n = Ok (key a).2.
Proof.
  intros Hg ->. destruct (good_size a Hg) as [Hs Hl]. pose proof (get_good a Hg) as G.
  unfold get_exp, get in *. destruct Hg as [_ Hset]. rewrite Hset in *. cbn [assert_ res_bind] in *.
  rewrite <- Hs, Z.eqb_refl. done.
Qed.

Lemma length_key a : good a → length (key a).2 = Z.to_nat (family_size (af a)).
Proof.
  intros Hg. destruct (good_size a Hg) as [Hs Hl]. unfold zlen in Hl. simpl.
  rewrite length_take, Hs. pose proof (family_size_bound (af a)). lia.
Qed.

Lemma key_bytes_ok a : good a → bytes_ok (key a).2.
Proof. intros [(_ & H & _) _]. simpl. by apply bytes_ok_take. Qed.

Lemma wr_range_prefix dst src :
  (length src ≤ length dst)%nat → wr_range dst 0 src = Ok (src ++ drop (length src) dst).
Proof.
  intros H. unfold wr_range, zlen.
  rewrite (proj2 (Z.ltb_ge 0 0)), (proj2 (Z.ltb_ge (Z.of_nat (length dst)) _)) by lia.
  done.
Qed.

Lemma wf_mk f bytes dst :
  length dst = 16%nat → bytes_ok dst → bytes_ok bytes → zlen bytes = family_size f →
  good {| af := f; addr := bytes ++ drop (length bytes) dst; addr_size := family_size f; set_ := true |} ∧
  key {| af := f; addr := bytes ++ drop (length bytes) dst; addr_size := family_size f; set_ := true |}
    = (f, bytes).
Proof.
  intros Hd Hdb Hb Hl. pose proof (family_size_bound f). unfold zlen in Hl.
  split; [split; [split_and!|]|]; simpl; try done.
  - rewrite length_app, length_drop. lia.
  - auto with myip.
  - unfold key. simpl. f_equal. rewrite <- Hl, Nat2Z.id. by rewrite take_app_length.
Qed.

Lemma set_spec this f src :
  wf this → bytes_ok src → family_size f ≤ zlen src →
  ∃ a, set this f src = Ok a ∧ good a ∧ key a = (f, take (Z.to_nat (family_size f)) src).
Proof.
  intros (Hl & Hb & _) Hsrc Hn. pose proof (family_size_bound f). unfold set.
  rewrite rd_range_Ok by lia. cbn [res_bind]. rewrite drop_0.
  assert (zlen (take (Z.to_nat (family_size f)) src) = family_size f) as Hz.
  { unfold zlen in *. rewrite length_take. lia. }
  rewrite wr_range_prefix by (unfold zlen in Hz; lia). cbn [res_bind].
  destruct (wf_mk f (take (Z.to_nat (family_size f)) src) (addr this)) as [G K];
    [done|done|auto with myip|done|]. eauto.
Qed.

(** ** Constructing an address *)

Lemma mk_addr_spec f src :
  bytes_ok src → family_size f ≤ zlen src →
  ∃ a, mk_addr f src = Ok a ∧ good a ∧ key a = (f, take (Z.to_nat (family_size f)) src).
Proof. apply set_spec, unset_addr_wf. Qed.

Lemma assign_spec this other :
  wf this → good other → ∃ a, assign this other = Ok a ∧ good a ∧ key a = key other.
Proof.
  intros (Hl & Hb & _) Hg. unfold assign. rewrite get_good by done. cbn [res_bind].
  destruct (good_size other Hg) as [Hs _].
  pose proof (length_key other Hg) as Hk. pose proof (family_size_bound (af other)).
  rewrite wr_range_prefix by lia. cbn [res_bind].
  destruct (wf_mk (af other) (key other).2 (addr this)) as [G K];
    [done|done|by apply key_bytes_ok|unfold zlen; lia|].
  eexists. split; [done|]. unfold get_family. rewrite Hs. split; [done|].
  rewrite K. unfold key at 2. simpl. unfold key. simpl. by rewrite Hs.
Qed.

Lemma get_padded_good a :
  good a → get_padded a = Ok ((key a).2 ++ drop (length (key a).2) (replicate 16 0), family_size (af a)).
Proof.
  intros Hg. unfold get_padded. rewrite get_good by done. cbn [res_bind].
  pose proof (length_key a Hg). pose proof (family_size_bound (af a)).
  rewrite wr_range_prefix by (rewrite length_replicate; lia).
  cbn [res_bind]. destruct (good_size a Hg) as [-> _]. done.
Qed.

Lemma at_good a i :
  good a → 0 ≤ i < family_size (af a) → ∃ b, at_ a i = Ok b ∧ (key a).2 !! Z.to_nat i = Some b.
Proof.
  intros Hg Hi. destruct (good_size a Hg) as [Hs Hl]. pose proof (family_size_bound (af a)).
  destruct (rd_in_range (addr a) i) as [b Hb]; [lia|]. exists b. unfold at_.
  destruct Hg as [_ ->]. cbn [assert_ res_bind].
  rewrite (proj2 (Z.ltb_lt i (addr_size a))) by lia. cbn [assert_ res_bind]. split; [done|].
  apply rd_Ok in Hb as [_ Hb]. simpl. by rewrite lookup_take_lt by lia.
Qed.

(** ** [memcmp] is a lexicographic order *)

Lemma memcmp_take n a b k l :
  (n ≤ length a)%nat → (n ≤ length b)%nat → memcmp n (a ++ k) (b ++ l) = memcmp n a b.
Proof.
  revert a b. induction n as [|n IH]; intros [|x a] [|y b] Ha Hb; simpl in *; try lia; try done.
  rewrite IH by lia. done.
Qed.

Lemma memcmp_Eq n a b :
  length a = n → length b = n → memcmp n a b = Eq ↔ a = b.
Proof.
  revert a b. induction n as [|n IH]; intros [|x a] [|y b] Ha Hb; simpl in *; try lia; try done.
  destruct (Z.compare_spec x y) as [->|H|H].
  - rewrite IH by lia. naive_solver.
  - split; [done|]. intros [= -> _]. lia.
  - split; [done|]. intros [= -> _]. lia.
Qed.

Lemma memcmp_antisym n a b : memcmp n b a = CompOpp (memcmp n a b).
Proof.
  revert a b. induction n as [|n IH]; intros [|x a] [|y b]; simpl; try done.
  rewrite (Z.compare_antisym x y). destruct (x ?= y); simpl; auto.
Qed.

Lemma memcmp_Lt_trans n a b c :
  length a = n → length b = n → length c = n →
  memcmp n a b = Lt → memcmp n b c = Lt → memcmp n a c = Lt.
Proof.
  revert a b c. induction n as [|n IH]; intros [|x a] [|y b] [|z c] Ha Hb Hc; simpl in *; try lia; try done.
  destruct (Z.compare_spec x y) as [->|?|?], (Z.compare_spec y z) as [->|?|?]; intros H1 H2;
    try done; try (rewrite (proj2 (Z.compare_lt_iff x z)) by lia; done).
  eapply IH; [| | |done|done]; lia.
Qed.

(** ** Equality and order on addresses *)

Definition key_cmp (k1 k2 : addr_family * list Z) : comparison :=
  if decide (k1.1 = k2.1) then memcmp (length k1.2) k1.2 k2.2
  else family_rank k1.1 ?= family_rank k2.1.

Lemma key_eq_split a : addr a = take (Z.to_nat (addr_size a)) (addr a) ++ drop (Z.to_nat (addr_size a)) (addr a).
Proof. by rewrite take_drop. Qed.

Lemma compare_to_spec a b :
  good a → good b → compare_to a b = Ok (bool_decide (key a = key b)).
Proof.
  intros Ha Hb. unfold compare_to. destruct Ha as [Hwa Hsa] eqn:Ea. rewrite Hsa. cbn [assert_ res_bind].
  assert (good a) as Hga by done. unfold get_family. case_decide as D.
  - rewrite get_padded_good by done. cbn [res_bind]. f_equal.
    pose proof (length_key a Hga) as La. pose proof (length_key b Hb) as Lb. rewrite D in Lb.
    destruct (good_size a Hga) as [Hs _]. rewrite (key_eq_split a), Hs.
    rewrite memcmp_take by (simpl in *; rewrite ?Hs in *; lia).
    replace (take (Z.to_nat (family_size (af a))) (addr a)) with (key a).2
      by (simpl; by rewrite Hs).
    destruct (memcmp _ _ _) eqn:E; symmetry.
    + apply memcmp_Eq in E; [|done|done]. apply bool_decide_eq_true.
      rewrite (surjective_pairing (key a)), (surjective_pairing (key b)), E.
      unfold key. simpl. by rewrite D.
    + apply bool_decide_eq_false. intros K. rewrite K in E.
      rewrite (proj2 (memcmp_Eq _ _ _ Lb Lb) eq_refl) in E. done.
    + apply bool_decide_eq_false. intros K. rewrite K in E.
      rewrite (proj2 (memcmp_Eq _ _ _ Lb Lb) eq_refl) in E. done.
  - f_equal. symmetry. apply bool_decide_eq_false. unfold key. congruence.
Qed.

Lemma ltb_spec a b :
  good a → good b → ltb a b = Ok (match key_cmp (key a) (key b) with Lt => true | _ => false end).
Proof.
  intros Ha Hb. unfold ltb, key_cmp. destruct Ha as [Hwa Hsa] eqn:Ea. rewrite Hsa. cbn [assert_ res_bind].
  assert (good a) as Hga by done. unfold get_family. change (key a).1 with (af a). change (key b).1 with (af b).
  case_decide as D; [|done].
  rewrite get_padded_good by done. cbn [res_bind]. f_equal.
  pose proof (length_key a Hga) as La. pose proof (length_key b Hb) as Lb. rewrite <- D in *.
  destruct (good_size a Hga) as [Hs _]. rewrite (key_eq_split a), La, Hs.
  rewrite memcmp_take by (simpl in *; rewrite ?Hs in *; lia).
  replace (take (Z.to_nat (family_size (af a))) (addr a)) with (key a).2 by (simpl; by rewrite Hs).
  done.
Qed.

Lemma key_cmp_Eq a b : good a → good b → key_cmp (key a) (key b) = Eq ↔ key a = key b.
Proof.
  intros Ha Hb. unfold key_cmp. change (key a).1 with (af a). change (key b).1 with (af b).
  pose proof (length_key a Ha) as La. pose proof (length_key b Hb) as Lb.
  case_decide as D.
  - rewrite memcmp_Eq by (rewrite ?La, ?Lb, ?D; done).
    unfold key in *. simpl in *. rewrite D. split; [by intros ->|]. by intros [= ->].
  - split; [|intros E; apply (f_equal fst) in E; done].
    intros E%Z.compare_eq_iff. destruct (af a), (af b); simpl in E; done || lia.
Qed.

Lemma key_cmp_antisym a b :
  good a → good b → key_cmp (key b) (key a) = CompOpp (key_cmp (key a) (key b)).
Proof.
  intros Ha Hb. unfold key_cmp. change (key a).1 with (af a). change (key b).1 with (af b).
  pose proof (length_key a Ha) as La. pose proof (length_key b Hb) as Lb.
  destruct (decide (af a = af b)) as [D|D].
  - rewrite decide_True by done. rewrite La, Lb, D. apply memcmp_antisym.
  - rewrite decide_False by done. apply Z.compare_antisym.
Qed.

Lemma key_cmp_trans a b c :
  good a → good b → good c →
  key_cmp (key a) (key b) = Lt → key_cmp (key b) (key c) = Lt → key_cmp (key a) (key c) = Lt.
Proof.
  intros Ha Hb Hc. unfold key_cmp. change (key a).1 with (af a). change (key b).1 with (af b).
  change (key c).1 with (af c).
  pose proof (length_key a Ha) as La. pose proof (length_key b Hb) as Lb.
  pose proof (length_key c Hc) as Lc.
  destruct (decide (af a = af b)) as [D|D], (decide (af b = af c)) as [E|E].
  - rewrite decide_True by congruence. rewrite La, Lb, <- D.
    apply memcmp_Lt_trans; congruence.
  - rewrite decide_False by congruence. rewrite D. done.
  - rewrite decide_False by congruence. rewrite <- E. done.
  - rewrite !Z.compare_lt_iff. intros. rewrite decide_False; [apply Z.compare_lt_iff; lia|].
    intros F. rewrite F in *. lia.
Qed.

(** [operator<] on set addresses is a strict total order up to [operator==]:
    it is irreflexive and transitive, and of two addresses exactly one of
    [a < b], [a == b], [b < a] holds.  This is what [std::map<any_addr, T>]
    (address cache, AX.25 table, resolver work list) relies on. *)
Theorem any_addr_order a b c :
  good a → good b → good c →
  ltb a a = Ok false ∧
  (ltb a b = Ok true → ltb b c = Ok true → ltb a c = Ok true) ∧
  ((ltb a b = Ok true ∧ eqb a b = Ok false ∧ ltb b a = Ok false) ∨
   (ltb a b = Ok false ∧ eqb a b = Ok true ∧ ltb b a = Ok false) ∨
   (ltb a b = Ok false ∧ eqb a b = Ok false ∧ ltb b a = Ok true)).
Proof.
  intros Ha Hb Hc. unfold eqb. rewrite (proj2 Ha). cbn [assert_ res_bind].
  rewrite !ltb_spec, compare_to_spec by done. split_and!.
  - by rewrite (proj2 (key_cmp_Eq a a Ha Ha)).
  - destruct (key_cmp (key a) (key b)) eqn:E1; [done| |done].
    destruct (key_cmp (key b) (key c)) eqn:E2; [done| |done].
    by rewrite (key_cmp_trans a b c).
  - rewrite (key_cmp_antisym a b) by done.
    destruct (key_cmp (key a) (key b)) eqn:E; simpl.
    + apply key_cmp_Eq in E; [|done|done]. rewrite bool_decide_eq_true_2 by done. auto.
    + rewrite bool_decide_eq_false_2; [auto|]. rewrite <- key_cmp_Eq by done. congruence.
    + rewrite bool_decide_eq_false_2; [auto|]. rewrite <- key_cmp_Eq by done. congruence.
Qed.

Definition ex_v4 (a b c d : Z) : any_addr :=
  {| af := ipv4; addr := [a; b; c; d] ++ replicate 12 0; addr_size := 4; set_ := true |}.

Lemma any_addr_order_witness :
  ltb (ex_v4 10 0 0 1) (ex_v4 10 0 0 2) = Ok true ∧ ltb (ex_v4 10 0 0 1) (ex_v4 10 0 0 1) = Ok false.
Proof.
  assert (∀ d, byte_ok d → good (ex_v4 10 0 0 d)) as G.
  { intros d Hd. split; [split_and!; [done|solve_bytes|done]|done]. }
  split; [reflexivity|].
  apply (any_addr_order (ex_v4 10 0 0 1) (ex_v4 10 0 0 2) (ex_v4 10 0 0 3)); apply G; split; lia.
Defined.

(** ** Printing and parsing *)

(** how [parse_address] is called for a family: size, separator, base *)
Definition text_format (f : addr_family) : option (nat * Z * Z) :=
  match f with
  | ipv4 => Some (4%nat, dot, 10)
  | mac => Some (6%nat, colon, 16)
  | ipv6 => Some (16%nat, colon, 16)
  | ax25 => None
  end.

(** what a printed number has to satisfy to be read back *)
Definition field_ok (sep base : Z) (len : nat) (fmt : Z → str) (n : Z) : Prop :=
  strtol (fmt n) base = n ∧ (sep ∉ fmt n) ∧ (fmt n ≠ []) ∧ (length (fmt n) ≤ len)%nat.

Fixpoint all_from (n : nat) (x : Z) (p : Z → bool) : bool :=
  match n with O => true | S n' => p x && all_from n' (x + 1) p end.
Definition all_below (n : nat) (p : Z → bool) : bool := all_from n 0 p.

Lemma all_from_spec n x p y : all_from n x p = true → x ≤ y < x + Z.of_nat n → p y = true.
Proof.
  revert x. induction n as [|n IH]; intros x; simpl; [lia|].
  rewrite andb_true_iff. intros [Hx H] Hy. destruct (decide (x = y)) as [->|]; [done|].
  apply (IH (x + 1)); [done|lia].
Qed.

Lemma all_below_spec n p x : all_below n p = true → 0 ≤ x < Z.of_nat n → p x = true.
Proof. intros. apply (all_from_spec n 0 p x); [done|lia]. Qed.

(** a digit is read back, and is neither a space, a sign, an 'x' nor a separator *)
Definition good_digit (d : Z) : bool :=
  let c := digit_char d in
  (match digit_val c with Some e => e =? d | None => false end) &&
  negb (isspace c) && negb (c =? 45) && negb (c =? 43) && negb (c =? 120) && negb (c =? 88) &&
  negb (c =? dot) && negb (c =? colon).

Lemma good_digits : all_below 16 good_digit = true.
Proof. vm_compute. reflexivity. Qed.

Lemma digit_char_spec d :
  0 ≤ d < 16 →
  let c := digit_char d in
  digit_val c = Some d ∧ isspace c = false ∧ (c =? 45) = false ∧ (c =? 43) = false ∧
  (c =? 120) = false ∧ (c =? 88) = false ∧ c ≠ dot ∧ c ≠ colon.
Proof.
  intros Hd. pose proof (all_below_spec 16 good_digit d good_digits Hd) as G.
  unfold good_digit in G. rewrite !andb_true_iff, !negb_true_iff in G.
  destruct G as [[[[[[[G1 G2] G3] G4] G5] G6] G7%Z.eqb_neq] G8%Z.eqb_neq]. cbv zeta.
  split_and!; try done. destruct (digit_val _); [|done]. apply Z.eqb_eq in G1. by subst.
Qed.

Definition is_digit (base c : Z) : Prop := ∃ d, 0 ≤ d < base ∧ c = digit_char d.

Section Digits.
Context (base : Z) (Hbase : 2 ≤ base ≤ 16).

Lemma digits_loop_shape fuel n acc :
  0 ≤ n → Forall (is_digit base) acc →
  Forall (is_digit base) (digits_loop fuel base n acc) ∧
  (fuel ≠ O → digits_loop fuel base n acc ≠ []).
Proof.
  revert n acc. induction fuel as [|fuel IH]; intros n acc Hn Ha; [done|].
  cbn [digits_loop]. assert (Forall (is_digit base) (digit_char (n mod base) :: acc)) as Ha'.
  { constructor; [|done]. exists (n mod base). split; [apply Z.mod_pos_bound; lia|done]. }
  destruct (Z.eqb_spec (n / base) 0); [done|].
  destruct (IH (n / base) _ ltac:(apply Z.div_pos; lia) Ha') as [H1 H2].
  split; [done|]. intros _. destruct fuel; [done|by apply H2].
Qed.

Lemma length_digits_loop fuel n acc k :
  0 ≤ n < base ^ Z.of_nat (S k) → (length (digits_loop fuel base n acc) ≤ S k + length acc)%nat.
Proof.
  revert n acc k. induction fuel as [|fuel IH]; intros n acc k Hn; [simpl; lia|].
  cbn [digits_loop]. destruct (Z.eqb_spec (n / base) 0) as [|Hne]; [simpl; lia|].
  destruct k as [|k].
  { exfalso. apply Hne, Z.div_small. rewrite Z.pow_1_r in Hn. lia. }
  etrans; [apply (IH _ _ k)|simpl; lia].
  split; [apply Z.div_pos; lia|]. apply Z.div_lt_upper_bound; [lia|].
  rewrite (Nat2Z.inj_succ (S k)), Z.pow_succ_r in Hn by lia. lia.
Qed.

Lemma strtol_digits_loop fuel n acc :
  0 ≤ n < base ^ Z.of_nat fuel →
  strtol_digits (digits_loop fuel base n acc) base 0 = strtol_digits acc base n.
Proof.
  assert (∀ m a acc, 0 ≤ m < base →
    strtol_digits (digit_char m :: acc) base a = strtol_digits acc base (a * base + m)) as D.
  { intros m a l Hm. cbn [strtol_digits]. destruct (digit_char_spec m) as [-> _]; [lia|].
    by rewrite (proj2 (Z.ltb_lt m base)) by lia. }
  revert n acc. induction fuel as [|fuel IH]; intros n acc Hn.
  { simpl in Hn. by replace n with 0 by lia. }
  cbn [digits_loop]. pose proof (Z.mod_pos_bound n base ltac:(lia)).
  pose proof (Z.div_mod n base ltac:(lia)).
  destruct (Z.eqb_spec (n / base) 0) as [E|E].
  - rewrite D by done. f_equal. lia.
  - rewrite Nat2Z.inj_succ, Z.pow_succ_r in Hn by lia.
    rewrite IH.
    + rewrite D by done. f_equal. lia.
    + split; [apply Z.div_pos; lia|]. apply Z.div_lt_upper_bound; lia.
Qed.

Lemma strtol_of_digits s :
  Forall (is_digit base) s → 0 ≤ strtol_digits s base 0 ≤ 9223372036854775807 →
  strtol s base = strtol_digits s base 0.
Proof.
  intros HF Hr. unfold strtol.
  assert (∀ c, is_digit base c → isspace c = false ∧ (c =? 45) = false ∧ (c =? 43) = false ∧
            (c =? 120) = false ∧ (c =? 88) = false) as D.
  { intros c (d & Hd & ->). destruct (digit_char_spec d) as (_ & ? & ? & ? & ? & ? & _); [lia|]. done. }
  destruct s as [|c s]; [done|]. pose proof (Forall_inv HF) as Hc.
  destruct (D c Hc) as (E1 & E2 & E3 & _). cbn [skip_isspace]. rewrite E1, E2, E3.
  assert (∀ t, match s with
    | x :: d :: s' => if (base =? 16) && (c =? 48) && ((x =? 120) || (x =? 88)) && is_hex_digit d
                      then t x d s' else c :: s
    | _ => c :: s end = c :: s) as P.
  { intros t. destruct s as [|x [|d s]]; [done|done|].
    apply Forall_inv_tail, Forall_inv, D in HF as (_ & _ & _ & -> & ->).
    by rewrite andb_false_r. }
  specialize (P (λ _ d s', d :: s')). cbv zeta in P |- *.
  destruct s as [|x [|d s]]; try lia. rewrite P. lia.
Qed.

Lemma digits_field_ok sep k n :
  sep = dot ∨ sep = colon → 0 ≤ n < base ^ Z.of_nat (S k) → n ≤ 9223372036854775807 →
  (S k ≤ 32)%nat →
  field_ok sep base (S k) (λ n, digits_loop 32 base n []) n.
Proof.
  intros Hsep Hn Hmax Hk. unfold field_ok.
  destruct (digits_loop_shape 32 n []) as [HF Hne]; [lia|done|].
  assert (0 ≤ n < base ^ Z.of_nat 32) as Hn'.
  { split; [lia|]. eapply Z.lt_le_trans; [apply Hn|]. apply Z.pow_le_mono_r; lia. }
  pose proof (strtol_digits_loop 32 n [] Hn') as Hd. cbn [strtol_digits] in Hd.
  split_and!.
  - rewrite strtol_of_digits; [done|done|lia].
  - rewrite list_elem_of_In. intros Hin. unfold is_digit in HF. rewrite List.Forall_forall in HF.
    destruct (HF _ Hin) as (d & Hd' & E).
    destruct (digit_char_spec d) as (_ & _ & _ & _ & _ & _ & ? & ?); [lia|]. destruct Hsep; congruence.
  - by apply Hne.
  - pose proof (length_digits_loop 32 n [] k Hn) as HL. rewrite Nat.add_0_r in HL. exact HL.
Qed.
End Digits.

Lemma dec_field n : byte_ok n → field_ok dot 10 3 fmt_dec n.
Proof.
  intros Hn. apply (digits_field_ok 10 ltac:(lia) dot 2 n); [by left| |zlia|lia].
  unfold byte_ok in Hn. simpl. lia.
Qed.
Lemma hex4_field n : 0 ≤ n < 65536 → field_ok colon 16 4 fmt_hex n.
Proof.
  intros Hn. apply (digits_field_ok 16 ltac:(lia) colon 3 n); [by right| |lia|lia].
  simpl. lia.
Qed.

Definition hex2_ok (n : Z) : bool :=
  (strtol (fmt_02x n) 16 =? n) && negb (existsb (Z.eqb colon) (fmt_02x n)).
Lemma hex2_all : all_below 256 hex2_ok = true.
Proof. vm_compute. reflexivity. Qed.

Lemma hex2_field n : byte_ok n → field_ok colon 16 2 fmt_02x n.
Proof.
  intros Hn. pose proof (all_below_spec 256 hex2_ok n hex2_all Hn) as G. unfold hex2_ok in G.
  rewrite andb_true_iff, negb_true_iff, Z.eqb_eq in G. destruct G as [H1 H2].
  split_and!; [done| |done|simpl; lia].
  rewrite list_elem_of_In. intros H. rewrite <- not_true_iff_false in H2. apply H2.
  apply existsb_exists. exists colon. by rewrite Z.eqb_refl.
Qed.

Lemma fields_split sep base len fmt (ns : list Z) :
  Forall (λ n, field_ok sep base len fmt n) ns →
  Forall (λ q, (sep ∉ q) ∧ (q ≠ [])) (fmt <$> ns).
Proof.
  intros H. apply Forall_fmap. eapply Forall_impl; [exact H|].
  intros n (_ & ? & ? & _). done.
Qed.

Lemma length_join_bound sep len (parts : list str) :
  Forall (λ q : str, (length q ≤ len)%nat) parts →
  (length (join [sep] parts) ≤ length parts * S len)%nat.
Proof.
  induction parts as [|q parts IH]; intros HF; [simpl; lia|].
  apply Forall_cons in HF as [Hq HF]. specialize (IH HF).
  destruct parts as [|r parts]; [simpl in *; lia|].
  rewrite join_cons by done. rewrite !length_app. cbn [length] in *. lia.
Qed.

Lemma length_join_fields sep base len fmt (ns : list Z) :
  Forall (λ n, field_ok sep base len fmt n) ns → ns ≠ [] →
  (length (join [sep] (fmt <$> ns)) ≤ length ns * S len - 1)%nat.
Proof.
  intros HF Hn. destruct ns as [|n ns]; [done|]. clear Hn.
  revert n HF. induction ns as [|m ns IH]; intros n HF.
  - apply Forall_cons in HF as [Hn _]. destruct Hn as (_ & _ & _ & ?). simpl. lia.
  - apply Forall_cons in HF as [Hn HF]. destruct Hn as (_ & _ & _ & ?).
    specialize (IH m HF). rewrite fmap_cons, join_cons by done.
    rewrite !length_app. cbn [length] in *. lia.
Qed.

(** Every field of the text is read back, at every position. *)
Lemma parse_bytes_fields sep base len fmt (ns pre : list Z) :
  bytes_ok ns → Forall (λ n, field_ok sep base len fmt n) ns →
  parse_bytes (fmt <$> (pre ++ ns)) base (length pre) (length ns) = Ok ns.
Proof.
  revert pre. induction ns as [|n ns IH]; intros pre Hb HF; [done|].
  apply Forall_cons in HF as [Hn HF]. apply Forall_cons in Hb as [Hbn Hb].
  destruct Hn as (Hn & _). cbn [length parse_bytes]. unfold part_at.
  rewrite list_lookup_fmap, lookup_app_r, Nat.sub_diag by lia. simpl.
  specialize (IH (pre ++ [n]) Hb HF). rewrite length_app, Nat.add_1_r, <- app_assoc in IH.
  simpl in IH. rewrite IH. cbn [res_bind]. by rewrite Hn, u8_id.
Qed.

(** the 16-bit groups of an IPv6 address and back *)
Fixpoint words_of (l : list Z) : list Z :=
  match l with hi :: lo :: l' => (hi * 256 + lo) :: words_of l' | _ => [] end.
Fixpoint bytes_of (ws : list Z) : list Z :=
  match ws with w :: ws' => u8 (Z.shiftr w 8) :: u8 w :: bytes_of ws' | [] => [] end.

Lemma bytes_of_words_of l n : bytes_ok l → length l = (2 * n)%nat → bytes_of (words_of l) = l.
Proof.
  revert l. induction n as [|n IH]; intros l Hb Hl.
  - by destruct l.
  - destruct l as [|hi [|lo l]]; simpl in Hl; try lia.
    apply Forall_cons in Hb as [Hhi [Hlo Hb]%Forall_cons].
    cbn [words_of bytes_of]. rewrite IH by (done || lia). f_equal; [|f_equal]; zlia.
Qed.

Lemma parse_words_fields sep base len fmt (ns pre : list Z) :
  Forall (λ n, 0 ≤ n < 65536) ns → Forall (λ n, field_ok sep base len fmt n) ns →
  parse_words (fmt <$> (pre ++ ns)) base (length pre) (length ns) = Ok (bytes_of ns).
Proof.
  revert pre. induction ns as [|n ns IH]; intros pre Hb HF; [done|].
  apply Forall_cons in HF as [Hn HF]. apply Forall_cons in Hb as [Hbn Hb].
  destruct Hn as (Hn & _). cbn [length parse_words bytes_of]. unfold part_at.
  rewrite list_lookup_fmap, lookup_app_r, Nat.sub_diag by lia. simpl.
  specialize (IH (pre ++ [n]) Hb HF). rewrite length_app, Nat.add_1_r, <- app_assoc in IH.
  simpl in IH. rewrite IH. cbn [res_bind]. by rewrite Hn, u16_id.
Qed.

Lemma snprintf_id n s : (length s ≤ n - 1)%nat → snprintf n s = s.
Proof. intros. unfold snprintf. by rewrite take_ge. Qed.

Lemma key_bytes a :
  good a → (key a).2 = take (Z.to_nat (family_size (af a))) (addr a).
Proof. intros Hg. unfold key. simpl. by destruct (good_size a Hg) as [-> _]. Qed.

Lemma words_of_range l : bytes_ok l → Forall (λ n, 0 ≤ n < 65536) (words_of l).
Proof.
  revert l. fix IH 1. intros [|hi [|lo l]] Hb; simpl; try constructor.
  - apply Forall_cons in Hb as [Hhi [Hlo _]%Forall_cons]. zlia.
  - apply IH. by apply Forall_cons in Hb as [_ [_ Hb]%Forall_cons].
Qed.

Lemma word_eq x y : byte_ok x → byte_ok y → u16 (join16 x y) = x * 256 + y.
Proof. intros. rewrite join16_eq by done. zlia. Qed.

Lemma length_words_of l : length l = 16%nat → length (words_of l) = 8%nat.
Proof. intros H. do 17 (destruct l as [|? l]; [done|]). simpl in H. lia. Qed.

Lemma to_str_ipv6 a :
  good a → af a = ipv6 →
  to_str a = Ok (snprintf 40 (join [colon] (fmt_hex <$> words_of (addr a)))).
Proof.
  intros [(Hl & Hb & Hs) Hset] Hf. destruct a as [f l sz st]. simpl in *. subst. specialize (Hs eq_refl).
  simpl in Hs. subst. do 16 (destruct l as [|? l]; [done|]). destruct l; [|done].
  repeat (apply Forall_cons in Hb as [? Hb]).
  unfold to_str, get_word, rd. simpl. by rewrite !word_eq.
Qed.

Lemma parse_address_fields sep base len fmt (ns : list Z) f :
  (f = ipv4 ∧ length ns = 4%nat ∨ f = mac ∧ length ns = 6%nat) →
  bytes_ok ns → Forall (field_ok sep base len fmt) ns →
  parse_address (join [sep] (fmt <$> ns)) (length ns) [sep] base = mk_addr f ns.
Proof.
  intros Hf Hb HF. unfold parse_address.
  rewrite split_join by (eapply fields_split; exact HF). cbn [res_bind].
  rewrite length_fmap, bool_decide_eq_true_2 by done. cbn [negb andb].
  rewrite (decide_False (P := length ns = 16%nat)) by lia.
  pose proof (parse_bytes_fields sep base len fmt ns [] Hb HF) as P. simpl in P. rewrite P.
  cbn [res_bind]. destruct Hf as [[-> Hl]|[-> Hl]]; case_decide; done || lia.
Qed.

(** the text of a byte-wise address is complete and parses to its bytes *)
Lemma parse_print_bytes a f sep base len fmt size :
  good a → af a = f → (f = ipv4 ∨ f = mac) →
  (∀ n, byte_ok n → field_ok sep base len fmt n) →
  (Z.to_nat (family_size f) * S len ≤ size)%nat →
  snprintf size (join [sep] (fmt <$> (key a).2)) = join [sep] (fmt <$> (key a).2) ∧
  parse_address (join [sep] (fmt <$> (key a).2)) (Z.to_nat (family_size f)) [sep] base
    = mk_addr f (key a).2.
Proof.
  intros Hg Hf Hf' Hfield Hsize. pose proof (length_key a Hg) as L. rewrite Hf in L.
  pose proof (key_bytes_ok a Hg) as B.
  assert (Forall (field_ok sep base len fmt) (key a).2) as HF by (eapply Forall_impl; [exact B|done]).
  pose proof (family_size_bound f). split.
  - apply snprintf_id. pose proof (length_join_fields _ _ _ _ _ HF) as HL. rewrite L in HL.
    etrans; [apply HL; intros E; rewrite E in L; simpl in L; lia|lia].
  - rewrite <- L. apply (parse_address_fields sep base len); [|done|done].
    rewrite L. destruct Hf' as [->| ->]; simpl; auto.
Qed.

Lemma parse_print_words a :
  good a → af a = ipv6 →
  let s := join [colon] (fmt_hex <$> words_of (addr a)) in
  snprintf 40 s = s ∧ parse_address s 16 [colon] 16 = mk_addr ipv6 (addr a).
Proof.
  intros [(Hl & B & _) _] Hf. cbv zeta. pose proof (length_words_of _ Hl) as L8.
  assert (Forall (field_ok colon 16 4 fmt_hex) (words_of (addr a))) as HF.
  { eapply Forall_impl; [by apply words_of_range|apply hex4_field]. }
  split.
  - apply snprintf_id. pose proof (length_join_fields _ _ _ _ _ HF) as HL. rewrite L8 in HL.
    etrans; [apply HL; intros E; by rewrite E in L8|lia].
  - unfold parse_address. rewrite split_join by (eapply fields_split; exact HF). cbn [res_bind].
    rewrite length_fmap, L8. rewrite (bool_decide_eq_true_2 (8 = 8)%nat) by done.
    rewrite andb_false_r, decide_True by done.
    pose proof (parse_words_fields colon 16 4 fmt_hex (words_of (addr a)) []
                  (words_of_range _ B) HF) as P.
    rewrite L8 in P. change (length (@nil Z)) with O in P. rewrite app_nil_l in P. rewrite P.
    cbn [res_bind]. by rewrite (bytes_of_words_of (addr a) 8).
Qed.

Lemma mk_addr_key a :
  good a → ∃ b, mk_addr (af a) (key a).2 = Ok b ∧ good b ∧ key b = key a.
Proof.
  intros Hg. pose proof (length_key a Hg) as L. pose proof (family_size_bound (af a)).
  destruct (mk_addr_spec (af a) (key a).2) as (b & ? & ? & E);
    [by apply key_bytes_ok|unfold zlen; lia|].
  exists b. split_and!; [done|done|]. rewrite E, take_ge by lia. done.
Qed.

(** C15: printing an IPv4, MAC or IPv6 address with [to_str] and parsing the text
    with [parse_address] (size, separator and base of that family) gives an
    address with the same family and bytes. *)
Theorem parse_to_str a n sep base :
  good a → text_format (af a) = Some (n, sep, base) →
  ∃ s b, to_str a = Ok s ∧ parse_address s n [sep] base = Ok b ∧ good b ∧ key b = key a.
Proof.
  intros Hg Ht. destruct (mk_addr_key a Hg) as (b & Hb & ? & ?).
  pose proof (key_bytes a Hg) as K.
  destruct (af a) eqn:Hf; simpl in Ht; try discriminate Ht; injection Ht as <- <- <-.
  - destruct (parse_print_bytes a ipv4 dot 10 3 fmt_dec 16) as [S P];
      [done|done|by left|apply dec_field|simpl; lia|].
    exists (join [dot] (fmt_dec <$> (key a).2)), b. rewrite <- Hb.
    split_and!; try done. unfold to_str. rewrite Hf, K in *. f_equal. exact S.
  - destruct (parse_print_bytes a mac colon 16 2 fmt_02x 18) as [S P];
      [done|done|by right|apply hex2_field|simpl; lia|].
    exists (join [colon] (fmt_02x <$> (key a).2)), b. rewrite <- Hb.
    split_and!; try done. unfold to_str. rewrite Hf, K in *. f_equal. exact S.
  - destruct (parse_print_words a Hg Hf) as [S P].
    assert ((key a).2 = addr a) as Ka.
    { rewrite K. apply take_ge. destruct Hg as [(-> & _) _]. simpl. lia. }
    exists (join [colon] (fmt_hex <$> words_of (addr a))), b.
    rewrite to_str_ipv6, S by done. rewrite P, <- Ka, Hb. done.
Qed.

Lemma parse_to_str_witness :
  ∃ s b, to_str (ex_v4 192 168 3 254) = Ok s ∧ parse_address s 4 [dot] 10 = Ok b ∧ good b ∧
    key b = (ipv4, [192; 168; 3; 254]).
Proof.
  apply (parse_to_str (ex_v4 192 168 3 254) 4%nat dot 10); [|reflexivity].
  split; [split_and!; [done|solve_bytes|done]|done].
Defined.

(** an address that was never set prints as a MAC address: its family is the
    default [mac], so the "(not set)" branch of [to_str] is not reached *)
Lemma to_str_unset : to_str unset_addr = to_str {| af := mac; addr := replicate 16 0; addr_size := 6; set_ := true |}.
Proof. reflexivity. Qed.

(** ** Operations on addresses end *)

Lemma ends_mk_addr f src : ends (mk_addr f src).
Proof. unfold mk_addr, set. solve_ends. Qed.
Lemma ends_at a i : ends (at_ a i).
Proof. unfold at_. solve_ends. Qed.
Lemma ends_copy a : ends (copy a).
Proof. unfold copy, assign, get. solve_ends. Qed.
Lemma ends_get_exp a n : ends (get_exp a n).
Proof. unfold get_exp. solve_ends. Qed.
Lemma ends_eqb a b : ends (eqb a b).
Proof. unfold eqb, compare_to, get_padded, get. solve_ends. Qed.
Lemma neqb_same a b : good a → good b → key a = key b → neqb a b = Ok false.
Proof.
  intros Ga Gb E. unfold neqb. rewrite (proj2 Ga). cbn [assert_ res_bind]. rewrite compare_to_spec by done. cbn [res_bind].
  by rewrite bool_decide_eq_true_2.
Qed.

Lemma ends_neqb a b : ends (neqb a b).
Proof. unfold neqb, compare_to, get_padded, get. solve_ends. Qed.
#[export] Hint Resolve ends_mk_addr ends_at ends_copy ends_get_exp ends_eqb ends_neqb : ends.
