(* ===== verification/Buffers.v ===== *)
(** * Buffers (src/buffer_in.cpp, src/buffer_out.cpp)

    [buffer_in] reads big-endian fields from memory it does not own, and throws
    [std::out_of_range] instead of reading behind its end; [buffer_out] builds
    messages.  A [buffer_in] is the memory behind its pointer, its size and
    its offset.  The readers return the value and the buffer with its offset
    moved; [get_net_float] and [get_net_double], which reinterpret the bits
    read by the integer readers, are left out. *)
From S2P Require Import Prelude AnyAddr.

(** ** buffer_in *)

Record buffer_in := BufferIn { bi_p : list Z; bi_size : Z; bi_o : Z }.

#[global] Instance buffer_in_eq_dec : EqDecision buffer_in.
Proof. solve_decision. Defined.

Definition mk_buffer_in (p : list Z) (size : Z) : buffer_in :=
  {| bi_p := p; bi_size := size; bi_o := 0 |}.

(** the copy constructor: it does not copy the offset *)
Definition copy_buffer_in (b : buffer_in) : buffer_in := mk_buffer_in (bi_p b) (bi_size b).

Definition move (b : buffer_in) (o : Z) : buffer_in :=
  {| bi_p := bi_p b; bi_size := bi_size b; bi_o := o |}.

(** the functions on pointers *)
Definition ptr_net_short (p : list Z) (o : Z) : res Z :=
  let* a := rd p o in
  let* b := rd p (o + 1) in
  Ok (u16 (join16 a b)).

Definition ptr_net_long (p : list Z) (o : Z) : res Z :=
  let* a := rd p o in
  let* b := rd p (o + 1) in
  let* c := rd p (o + 2) in
  let* d := rd p (o + 3) in
  Ok (join32 a b c d).

(** [out <<= 8; out |= p[i]], [n] times *)
Fixpoint ptr_net_loop (n : nat) (p : list Z) (o out : Z) : res Z :=
  match n with
  | O => Ok out
  | S n' =>
      let* b := rd p o in
      ptr_net_loop n' p (o + 1) (Z.lor (u64 (Z.shiftl out 8)) b)
  end.

Definition ptr_net_long_long (p : list Z) (o : Z) : res Z := ptr_net_loop 8 p o 0.

Definition get_net_byte (b : buffer_in) : res (Z * buffer_in) :=
  if bi_size b <=? bi_o b then Err out_of_range
  else
    let* v := rd (bi_p b) (bi_o b) in
    Ok (v, move b (bi_o b + 1)).

(** [if (o + len > size) throw std::out_of_range(...)] *)
Definition check_room (b : buffer_in) (len : Z) : res unit :=
  let* e := int_add (bi_o b) len in
  if bi_size b <? e then Err out_of_range else Ok tt.

Definition get_net_short (b : buffer_in) : res (Z * buffer_in) :=
  let* _ := check_room b 2 in
  let* temp := ptr_net_short (bi_p b) (bi_o b) in
  Ok (temp, move b (bi_o b + 2)).

Definition get_net_long (b : buffer_in) : res (Z * buffer_in) :=
  let* _ := check_room b 4 in
  let* temp := ptr_net_long (bi_p b) (bi_o b) in
  Ok (temp, move b (bi_o b + 4)).

Definition get_net_long_long (b : buffer_in) : res (Z * buffer_in) :=
  let* _ := check_room b 8 in
  let* temp := ptr_net_long_long (bi_p b) (bi_o b) in
  Ok (temp, move b (bi_o b + 8)).

Definition get_segment (b : buffer_in) (len : Z) : res (buffer_in * buffer_in) :=
  let* _ := check_room b len in
  let temp := mk_buffer_in (ptr_at (bi_p b) (bi_o b)) len in
  Ok (temp, move b (bi_o b + len)).

Definition get_string (b : buffer_in) (len : Z) : res (list Z * buffer_in) :=
  let* _ := check_room b len in
  let* temp := rd_range (bi_p b) (bi_o b) len in
  Ok (temp, move b (bi_o b + len)).

Definition seek (b : buffer_in) (len : Z) : res buffer_in :=
  let* _ := check_room b len in
  Ok (move b (bi_o b + len)).

Definition end_reached (b : buffer_in) : bool := bi_o b =? bi_size b.
Definition get_n_bytes_left (b : buffer_in) : Z := bi_size b - bi_o b.

Definition peek (b : buffer_in) : res (list Z) :=
  rd_range (bi_p b) (bi_o b) (bi_size b - bi_o b).

(** the pointer returned, and the buffer behind it *)
Definition get_bytes (b : buffer_in) (len : Z) : res (list Z * buffer_in) :=
  let* _ := check_room b len in
  Ok (ptr_at (bi_p b) (bi_o b), move b (bi_o b + len)).

Fixpoint variable_size_loop (n : nat) (data_source : buffer_in) (out : Z) : res (Z * buffer_in) :=
  match n with
  | O => Ok (out, data_source)
  | S n' =>
      let* '(v, data_source') := get_net_byte data_source in
      variable_size_loop n' data_source' (Z.lor (u64 (Z.shiftl out 8)) v)
  end.

Definition get_variable_size_integer (data_source : buffer_in) (len : Z) : res (Z * buffer_in) :=
  variable_size_loop (Z.to_nat len) data_source 0.

(** ** buffer_out *)

Definition buffer_out : Type := list Z.

Definition add_net_byte (buffer : list Z) (b : Z) : list Z := buffer ++ [u8 b].
Definition add_net_short (buffer : list Z) (s : Z) : list Z :=
  buffer ++ [u8 (Z.shiftr s 8)] ++ [u8 s].
Definition add_net_long (buffer : list Z) (l : Z) : list Z :=
  buffer ++ [u8 (Z.shiftr l 24)] ++ [u8 (Z.shiftr l 16)] ++ [u8 (Z.shiftr l 8)] ++ [u8 l].

(** [buffer.at(i) = b] *)
Definition vec_at_set (buffer : list Z) (i b : Z) : res (list Z) :=
  if (i <? 0) || (zlen buffer <=? i) then Err out_of_range
  else Ok (<[Z.to_nat i := u8 b]> buffer).

Definition add_net_short_at (buffer : list Z) (s offset : Z) : res (Z * list Z) :=
  if negb (offset =? -1) then
    let* buffer := vec_at_set buffer (offset + 0) (Z.shiftr s 8) in
    let* buffer := vec_at_set buffer (offset + 1) s in
    Ok (offset, buffer)
  else Ok (zlen buffer, add_net_short buffer s).

Definition add_net_long_at (buffer : list Z) (l offset : Z) : res (Z * list Z) :=
  if negb (offset =? -1) then
    let* buffer := vec_at_set buffer (offset + 0) (Z.shiftr l 24) in
    let* buffer := vec_at_set buffer (offset + 1) (Z.shiftr l 16) in
    let* buffer := vec_at_set buffer (offset + 2) (Z.shiftr l 8) in
    let* buffer := vec_at_set buffer (offset + 3) l in
    Ok (offset, buffer)
  else Ok (zlen buffer, add_net_long buffer l).

Fixpoint add_any_addr_loop (n : nat) (i : Z) (buffer : list Z) (a : any_addr) : res (list Z) :=
  match n with
  | O => Ok buffer
  | S n' =>
      let* b := at_ a i in
      add_any_addr_loop n' (i + 1) (buffer ++ [b]) a
  end.

Definition add_any_addr (buffer : list Z) (a : any_addr) : res (list Z) :=
  add_any_addr_loop (Z.to_nat (get_len a)) 0 buffer a.

Definition add_buffer_out (buffer o : list Z) : list Z := buffer ++ o.

Fixpoint add_buffer_in_loop (n : nat) (buffer : list Z) (i : buffer_in) : res (list Z * buffer_in) :=
  match n with
  | O => Ok (buffer, i)
  | S n' =>
      let* '(b, i') := get_net_byte i in
      add_buffer_in_loop n' (buffer ++ [b]) i'
  end.

Definition add_buffer_in (buffer : list Z) (i : buffer_in) : res (list Z * buffer_in) :=
  add_buffer_in_loop (Z.to_nat (get_n_bytes_left i)) buffer i.

Definition add_buffer (buffer p : list Z) (l : Z) : res (list Z) :=
  let* bytes := rd_range p 0 l in Ok (buffer ++ bytes).

(** the C++ remainder is the mathematical one: both operands are non-negative *)
Definition add_padding (buffer : list Z) (m : Z) : list Z :=
  let padding := m - (zlen buffer mod m) in
  if negb (padding =? m) then buffer ++ replicate (Z.to_nat padding) 0 else buffer.

Definition compare (buffer : list Z) (b : buffer_in) : res bool :=
  let* q := peek b in Ok (bool_decide (q = buffer)).

(** ** Reading stays inside the buffer *)

Definition bi_wf (b : buffer_in) : Prop :=
  0 ≤ bi_o b ≤ bi_size b ∧ bi_size b ≤ zlen (bi_p b) ∧ bi_size b ≤ int_max - 8 ∧ bytes_ok (bi_p b).

(** the bytes that are still to be read *)
Definition remaining (b : buffer_in) : list Z :=
  take (Z.to_nat (bi_size b - bi_o b)) (drop (Z.to_nat (bi_o b)) (bi_p b)).

Lemma zlen_remaining b : bi_wf b → zlen (remaining b) = bi_size b - bi_o b.
Proof.
  intros ([? ?] & ? & _). unfold remaining, zlen in *. rewrite length_take, length_drop. lia.
Qed.

Lemma remaining_bytes_ok b : bi_wf b → bytes_ok (remaining b).
Proof. intros (_ & _ & _ & ?). unfold remaining. auto with myip. Qed.

Lemma rd_remaining b i :
  bi_wf b → 0 ≤ i < zlen (remaining b) →
  ∃ v, rd (bi_p b) (bi_o b + i) = Ok v ∧ remaining b !! Z.to_nat i = Some v ∧ byte_ok v.
Proof.
  intros Hb Hi. pose proof (zlen_remaining b Hb) as L. destruct Hb as ([? ?] & ? & _ & HB).
  destruct (rd_in_range (bi_p b) (bi_o b + i)) as [v Hv]; [lia|].
  exists v. split_and!; [done| |by eapply rd_byte_ok].
  apply rd_Ok in Hv as [_ Hv]. unfold remaining.
  rewrite lookup_take_lt by lia. rewrite lookup_drop. rewrite <- Hv. f_equal. lia.
Qed.

Lemma move_wf b n : bi_wf b → 0 ≤ n ≤ zlen (remaining b) → bi_wf (move b (bi_o b + n)).
Proof.
  intros Hb Hn. rewrite zlen_remaining in Hn by done. destruct Hb as ([? ?] & ? & ? & ?).
  unfold bi_wf, move. simpl. split_and!; try done; lia.
Qed.

Lemma remaining_move b n :
  bi_wf b → 0 ≤ n ≤ zlen (remaining b) → remaining (move b (bi_o b + n)) = drop (Z.to_nat n) (remaining b).
Proof.
  intros Hb Hn. rewrite zlen_remaining in Hn by done. destruct Hb as ([? ?] & ? & _).
  unfold remaining, move. simpl. rewrite skipn_firstn_comm, drop_drop. f_equal; [lia|f_equal; lia].
Qed.

Lemma check_room_spec b len :
  bi_wf b → 0 ≤ len →
  check_room b len = if decide (len ≤ zlen (remaining b)) then Ok tt
                     else if decide (bi_o b + len ≤ int_max) then Err out_of_range
                     else Err signed_overflow.
Proof.
  intros Hb Hl. rewrite zlen_remaining by done. destruct Hb as ([? ?] & ? & ? & _).
  unfold check_room, int_add, int_min, int_max in *.
  destruct (Z.leb_spec (-2147483648) (bi_o b + len)); [|lia].
  destruct (Z.leb_spec (bi_o b + len) 2147483647); cbn [andb res_bind].
  - destruct (Z.ltb_spec (bi_size b) (bi_o b + len)); repeat case_decide; (done || lia).
  - repeat case_decide; (done || lia).
Qed.

Lemma check_room_Ok b len : bi_wf b → 0 ≤ len ≤ zlen (remaining b) → check_room b len = Ok tt.
Proof. intros. rewrite check_room_spec by (done || lia). by rewrite decide_True by lia. Qed.

Lemma check_room_short b len :
  bi_wf b → zlen (remaining b) < len ≤ 8 → check_room b len = Err out_of_range.
Proof.
  intros Hb Hl. pose proof (zlen_nonneg (remaining b)). rewrite check_room_spec by (done || lia).
  destruct Hb as ([? ?] & ? & ? & _). rewrite decide_False, decide_True by lia. done.
Qed.

(** The readers in terms of the remaining bytes. *)
Lemma get_net_byte_spec b x rest :
  bi_wf b → remaining b = x :: rest →
  ∃ b', get_net_byte b = Ok (x, b') ∧ bi_wf b' ∧ remaining b' = rest.
Proof.
  intros Hb E. pose proof (zlen_remaining b Hb) as L. rewrite E, zlen_cons in L.
  pose proof (zlen_nonneg rest).
  destruct (rd_remaining b 0 Hb) as (v & Hv & Hl & _); [rewrite E, zlen_cons; lia|].
  rewrite Z.add_0_r in Hv. rewrite E in Hl. injection Hl as <-.
  exists (move b (bi_o b + 1)). unfold get_net_byte.
  rewrite (proj2 (Z.leb_gt (bi_size b) (bi_o b))) by lia. rewrite Hv. split_and!; [done| |].
  - apply move_wf; [done|rewrite E, zlen_cons; lia].
  - rewrite remaining_move by (done || rewrite E, zlen_cons; lia). by rewrite E.
Qed.

Lemma get_net_short_spec b x rest :
  bi_wf b → 0 ≤ x < 65536 → remaining b = be16 x ++ rest →
  ∃ b', get_net_short b = Ok (x, b') ∧ bi_wf b' ∧ remaining b' = rest.
Proof.
  intros Hb Hx E. assert (zlen (remaining b) = zlen rest + 2) as L by (rewrite E; unfold zlen; rewrite length_app; simpl; lia).
  pose proof (zlen_nonneg rest).
  destruct (rd_remaining b 0 Hb) as (v0 & H0 & L0 & _); [lia|].
  destruct (rd_remaining b 1 Hb) as (v1 & H1 & L1 & _); [lia|].
  rewrite Z.add_0_r in H0. rewrite E in L0, L1. injection L0 as <-. injection L1 as <-.
  exists (move b (bi_o b + 2)). unfold get_net_short.
  rewrite check_room_Ok by (done || lia). cbn [res_bind]. unfold ptr_net_short.
  rewrite H0, H1. cbn [res_bind]. rewrite join16_be16, u16_id by done. split_and!; [done| |].
  - apply move_wf; [done|lia].
  - rewrite remaining_move by (done || lia). by rewrite E.
Qed.

Lemma get_net_long_spec b x rest :
  bi_wf b → 0 ≤ x < 4294967296 → remaining b = be32 x ++ rest →
  ∃ b', get_net_long b = Ok (x, b') ∧ bi_wf b' ∧ remaining b' = rest.
Proof.
  intros Hb Hx E. assert (zlen (remaining b) = zlen rest + 4) as L by (rewrite E; unfold zlen; rewrite length_app; simpl; lia).
  pose proof (zlen_nonneg rest).
  destruct (rd_remaining b 0 Hb) as (v0 & H0 & L0 & _); [lia|].
  destruct (rd_remaining b 1 Hb) as (v1 & H1 & L1 & _); [lia|].
  destruct (rd_remaining b 2 Hb) as (v2 & H2 & L2 & _); [lia|].
  destruct (rd_remaining b 3 Hb) as (v3 & H3 & L3 & _); [lia|].
  rewrite Z.add_0_r in H0. rewrite E in L0, L1, L2, L3.
  injection L0 as <-. injection L1 as <-. injection L2 as <-. injection L3 as <-.
  exists (move b (bi_o b + 4)). unfold get_net_long.
  rewrite check_room_Ok by (done || lia). cbn [res_bind]. unfold ptr_net_long.
  rewrite H0, H1, H2, H3. cbn [res_bind]. rewrite join32_be32, u32_id by done. split_and!; [done| |].
  - apply move_wf; [done|lia].
  - rewrite remaining_move by (done || lia). by rewrite E.
Qed.

Lemma get_string_spec b l rest :
  bi_wf b → remaining b = l ++ rest →
  ∃ b', get_string b (zlen l) = Ok (l, b') ∧ bi_wf b' ∧ remaining b' = rest.
Proof.
  intros Hb E. assert (zlen (remaining b) = zlen l + zlen rest) as L by (by rewrite E, zlen_app).
  pose proof (zlen_nonneg rest). pose proof (zlen_nonneg l).
  exists (move b (bi_o b + zlen l)). unfold get_string.
  rewrite check_room_Ok by (done || lia). cbn [res_bind].
  pose proof (zlen_remaining b Hb). pose proof Hb as ([? ?] & ? & ? & _).
  rewrite rd_range_Ok by lia. cbn [res_bind]. split_and!; [| |].
  - do 2 f_equal. unfold remaining in E.
    apply (f_equal (take (length l))) in E. rewrite take_app_length, take_take in E.
    etrans; [|exact E]. f_equal. unfold zlen in *. lia.
  - apply move_wf; [done|lia].
  - rewrite remaining_move by (done || lia). rewrite E. unfold zlen. rewrite Nat2Z.id.
    by rewrite drop_app_length.
Qed.

(** [r] reads [n] bytes of [b]: it returns with the offset moved by [n] and the
    buffer well-formed, or throws when fewer than [n] bytes are left *)
Definition reads {A} (b : buffer_in) (r : res (A * buffer_in)) (n : Z) : Prop :=
  if decide (n ≤ zlen (remaining b))
  then ∃ v, r = Ok (v, move b (bi_o b + n)) ∧ bi_wf (move b (bi_o b + n)) ∧
            remaining (move b (bi_o b + n)) = drop (Z.to_nat n) (remaining b)
  else r = Err out_of_range.

Section Reads.
Context (b : buffer_in) (Hb : bi_wf b).

Lemma reads_intro {A} (r : res (A * buffer_in)) n :
  0 ≤ n →
  (n ≤ zlen (remaining b) → ∃ v, r = Ok (v, move b (bi_o b + n))) →
  (zlen (remaining b) < n → r = Err out_of_range) → reads b r n.
Proof.
  intros Hn Hok Herr. unfold reads. case_decide as D; [|apply Herr; lia].
  destruct (Hok D) as [v ->]. exists v.
  split_and!; [done|apply move_wf; (done || lia)|apply remaining_move; (done || lia)].
Qed.

Lemma reads_checked {A} (k : res (A * buffer_in)) n :
  0 ≤ n → bi_o b + n ≤ int_max →
  (n ≤ zlen (remaining b) → ∃ v, k = Ok (v, move b (bi_o b + n))) →
  reads b (let* _ := check_room b n in k) n.
Proof.
  intros Hn Hi Hk. apply reads_intro; [done| |]; intros Hl.
  - rewrite check_room_Ok by (done || lia). by apply Hk.
  - rewrite check_room_spec, decide_False, decide_True by (done || lia). done.
Qed.

Lemma rd_some i : 0 ≤ i < zlen (remaining b) → ∃ v, rd (bi_p b) (bi_o b + i) = Ok v.
Proof. intros Hi. destruct (rd_remaining b i Hb Hi) as (v & Hv & _). eauto. Qed.

Lemma rd_first : 0 < zlen (remaining b) → ∃ v, rd (bi_p b) (bi_o b) = Ok v.
Proof. intros Hi. destruct (rd_some 0) as [v Hv]; [lia|]. rewrite Z.add_0_r in Hv. eauto. Qed.

Lemma small_room n : n ≤ 8 → bi_o b + n ≤ int_max.
Proof. destruct Hb as ([? ?] & ? & ? & _). unfold int_max in *. lia. Qed.

Lemma get_net_byte_reads : reads b (get_net_byte b) 1.
Proof.
  pose proof (zlen_remaining b Hb). apply reads_intro; [lia| |]; intros Hl; unfold get_net_byte.
  - destruct rd_first as [v Hv]; [lia|]. rewrite (proj2 (Z.leb_gt _ _)), Hv by lia. by eexists.
  - by rewrite (proj2 (Z.leb_le _ _)) by lia.
Qed.

Lemma get_net_short_reads : reads b (get_net_short b) 2.
Proof.
  apply reads_checked; [lia|by apply small_room|]. intros Hl. unfold ptr_net_short.
  destruct rd_first as [v0 ->]; [lia|]. destruct (rd_some 1) as [v1 ->]; [lia|]. by eexists.
Qed.

Lemma get_net_long_reads : reads b (get_net_long b) 4.
Proof.
  apply reads_checked; [lia|by apply small_room|]. intros Hl. unfold ptr_net_long.
  destruct rd_first as [v0 ->]; [lia|]. destruct (rd_some 1) as [v1 ->]; [lia|].
  destruct (rd_some 2) as [v2 ->]; [lia|]. destruct (rd_some 3) as [v3 ->]; [lia|]. by eexists.
Qed.

Lemma ptr_net_loop_Ok n i out :
  0 ≤ i → i + Z.of_nat n ≤ zlen (remaining b) → ∃ v, ptr_net_loop n (bi_p b) (bi_o b + i) out = Ok v.
Proof.
  revert i out. induction n as [|n IH]; intros i out Hi Hn; [by eexists|]. cbn [ptr_net_loop].
  destruct (rd_some i) as [v ->]; [lia|]. cbn [res_bind]. rewrite <- Z.add_assoc. apply IH; lia.
Qed.

Lemma get_net_long_long_reads : reads b (get_net_long_long b) 8.
Proof.
  apply reads_checked; [lia|by apply small_room|]. intros Hl. unfold ptr_net_long_long.
  destruct (ptr_net_loop_Ok 8 0 0) as [v Hv]; [lia|lia|].
  rewrite Z.add_0_r in Hv. rewrite Hv. by eexists.
Qed.

Context (len : Z) (Hlen : 0 ≤ len) (Hint : bi_o b + len ≤ int_max).

Lemma get_string_reads : reads b (get_string b len) len.
Proof.
  apply reads_checked; [done|done|]. intros Hl. pose proof (zlen_remaining b Hb).
  pose proof Hb as ([? ?] & ? & _). rewrite rd_range_Ok by lia. by eexists.
Qed.

Lemma get_segment_reads : reads b (get_segment b len) len.
Proof. apply reads_checked; [done|done|]. by eexists. Qed.

Lemma get_bytes_reads : reads b (get_bytes b len) len.
Proof. apply reads_checked; [done|done|]. by eexists. Qed.

Lemma seek_reads : reads b (res_map (pair tt) (seek b len)) len.
Proof.
  apply reads_intro; [done| |]; intros Hl; unfold seek.
  - rewrite check_room_Ok by (done || lia). by eexists.
  - rewrite check_room_spec, decide_False, decide_True by (done || lia). done.
Qed.
End Reads.

(** on a well-formed buffer every reader, for every length from 0 to
    [INT_MAX], either returns and leaves a well-formed buffer whose remaining
    bytes are a suffix of what was left, or throws [std::out_of_range]; it
    never reads outside the memory it was given.  (A length for which
    [o + len] leaves the range of [int] is undefined behaviour in the source
    and excluded.) *)
Theorem buffer_in_safe b len :
  bi_wf b → 0 ≤ len → bi_o b + len ≤ int_max →
  reads b (get_net_byte b) 1 ∧ reads b (get_net_short b) 2 ∧ reads b (get_net_long b) 4 ∧
  reads b (get_net_long_long b) 8 ∧ reads b (get_string b len) len ∧
  reads b (get_segment b len) len ∧ reads b (get_bytes b len) len ∧
  reads b (res_map (pair tt) (seek b len)) len ∧ peek b = Ok (remaining b).
Proof.
  intros Hb Hlen Hint. split_and!; eauto using get_net_byte_reads, get_net_short_reads,
    get_net_long_reads, get_net_long_long_reads, get_string_reads, get_segment_reads,
    get_bytes_reads, seek_reads.
  unfold peek. destruct Hb as ([? ?] & ? & _). by rewrite rd_range_Ok by lia.
Qed.

Definition ex_buffer : buffer_in := mk_buffer_in [1; 2; 3] 3.

Lemma ex_buffer_wf : bi_wf ex_buffer.
Proof. split_and!; try done. solve_bytes. Qed.

Lemma buffer_in_safe_witness :
  reads ex_buffer (get_net_long ex_buffer) 4 ∧ get_net_long ex_buffer = Err out_of_range.
Proof.
  split; [|reflexivity].
  apply (buffer_in_safe ex_buffer 4); [apply ex_buffer_wf|lia|unfold int_max; simpl; lia].
Defined.

(** ** Messages: what is written is read back *)

Inductive fld := FByte (x : Z) | FShort (x : Z) | FLong (x : Z) | FBytes (l : list Z).

Definition fld_ok (f : fld) : Prop :=
  match f with
  | FByte x => byte_ok x
  | FShort x => 0 ≤ x < 65536
  | FLong x => 0 ≤ x < 4294967296
  | FBytes l => bytes_ok l
  end.

(** write one field with the [buffer_out] operations *)
Definition put_fld (buffer : list Z) (f : fld) : list Z :=
  match f with
  | FByte x => add_net_byte buffer x
  | FShort x => add_net_short buffer x
  | FLong x => add_net_long buffer x
  | FBytes l => add_buffer_out buffer l
  end.

(** read a field of the shape of [f] with the [buffer_in] operations *)
Definition take_fld (b : buffer_in) (f : fld) : res (fld * buffer_in) :=
  match f with
  | FByte _ => let* '(x, b') := get_net_byte b in Ok (FByte x, b')
  | FShort _ => let* '(x, b') := get_net_short b in Ok (FShort x, b')
  | FLong _ => let* '(x, b') := get_net_long b in Ok (FLong x, b')
  | FBytes l => let* '(x, b') := get_string b (zlen l) in Ok (FBytes x, b')
  end.

Fixpoint take_flds (b : buffer_in) (shape : list fld) : res (list fld * buffer_in) :=
  match shape with
  | [] => Ok ([], b)
  | f :: shape' =>
      let* '(x, b') := take_fld b f in
      let* '(xs, b'') := take_flds b' shape' in
      Ok (x :: xs, b'')
  end.

Definition fld_bytes (f : fld) : list Z :=
  match f with FByte x => [x] | FShort x => be16 x | FLong x => be32 x | FBytes l => l end.

Lemma put_fld_bytes buffer f : fld_ok f → put_fld buffer f = buffer ++ fld_bytes f.
Proof. destruct f; simpl; intros; try done. unfold add_net_byte. by rewrite u8_id. Qed.

Lemma foldl_put_fld buffer fs :
  Forall fld_ok fs → foldl put_fld buffer fs = buffer ++ (fs ≫= fld_bytes).
Proof.
  revert buffer. induction fs as [|f fs IH]; intros buffer HF; simpl; [by rewrite app_nil_r|].
  apply Forall_cons in HF as [Hf HF]. rewrite IH, put_fld_bytes by done. by rewrite <- app_assoc.
Qed.

Lemma fld_bytes_ok f : fld_ok f → bytes_ok (fld_bytes f).
Proof.
  destruct f; simpl; intros H; [|apply bytes_ok_be16|apply bytes_ok_be32|done].
  by apply Forall_singleton.
Qed.

Lemma flds_bytes_ok fs : Forall fld_ok fs → bytes_ok (fs ≫= fld_bytes).
Proof.
  induction 1 as [|f fs Hf _ IH]; csimpl; [constructor|].
  apply bytes_ok_app; [by apply fld_bytes_ok|done].
Qed.

Lemma take_fld_spec b f rest :
  bi_wf b → fld_ok f → remaining b = fld_bytes f ++ rest →
  ∃ b', take_fld b f = Ok (f, b') ∧ bi_wf b' ∧ remaining b' = rest.
Proof.
  intros Hb Hf E. destruct f as [x|x|x|l]; simpl in *.
  - destruct (get_net_byte_spec b x rest) as (b' & -> & ? & ?); eauto.
  - destruct (get_net_short_spec b x rest) as (b' & -> & ? & ?); eauto.
  - destruct (get_net_long_spec b x rest) as (b' & -> & ? & ?); eauto.
  - destruct (get_string_spec b l rest) as (b' & -> & ? & ?); eauto.
Qed.

Lemma take_flds_spec fs b rest :
  Forall fld_ok fs → bi_wf b → remaining b = (fs ≫= fld_bytes) ++ rest →
  ∃ b', take_flds b fs = Ok (fs, b') ∧ remaining b' = rest.
Proof.
  revert b. induction fs as [|f fs IH]; intros b HF Hb E; [by exists b|].
  apply Forall_cons in HF as [Hf HF]. csimpl in E. rewrite <- app_assoc in E.
  destruct (take_fld_spec b f _ Hb Hf E) as (b1 & E1 & W1 & R1).
  destruct (IH b1 HF W1 R1) as (b2 & E2 & R2).
  exists b2. cbn [take_flds]. rewrite E1. cbn [res_bind]. by rewrite E2.
Qed.

(** a message written field by field with [add_net_byte], [add_net_short],
    [add_net_long] and [add_buffer_out] is read back, field by field and
    completely, by [get_net_byte], [get_net_short], [get_net_long] and
    [get_string]. *)
Theorem message_roundtrip fs :
  Forall fld_ok fs → zlen (foldl put_fld [] fs) ≤ int_max - 8 →
  ∃ b', take_flds (mk_buffer_in (foldl put_fld [] fs) (zlen (foldl put_fld [] fs))) fs = Ok (fs, b') ∧
        remaining b' = [].
Proof.
  intros HF Hl. rewrite foldl_put_fld in * by done. rewrite app_nil_l in *.
  apply take_flds_spec; [done| |].
  - unfold bi_wf. simpl. pose proof (zlen_nonneg (fs ≫= fld_bytes)). split_and!; try done; try lia.
    by apply flds_bytes_ok.
  - unfold remaining. simpl. rewrite drop_0, app_nil_r. apply take_ge. unfold zlen. lia.
Qed.

Definition ex_message : list fld := [FByte 69; FShort 1500; FLong 3232236030; FBytes [1; 2; 3]].

Lemma message_roundtrip_witness :
  ∃ b', take_flds (mk_buffer_in (foldl put_fld [] ex_message) 10) ex_message = Ok (ex_message, b') ∧
        remaining b' = [].
Proof.
  apply (message_roundtrip ex_message); [|vm_compute; discriminate].
  repeat (apply Forall_cons_2; [cbn [fld_ok]; first [unfold byte_ok; lia|solve_bytes]|]). apply Forall_nil_2.
Defined.

(** ** [get_variable_size_integer] and [add_padding] *)

(** the big-endian number of a list of bytes *)
Definition be_value (l : list Z) : Z := foldl (λ acc b, acc * 256 + b) 0 l.

Lemma variable_size_loop_spec l b out rest :
  bi_wf b → remaining b = l ++ rest → bytes_ok l → 0 ≤ out →
  ∃ b', variable_size_loop (length l) b out =
          Ok (if decide (l = []) then out else u64 (foldl (λ acc b, acc * 256 + b) out l), b') ∧
        bi_wf b' ∧ remaining b' = rest.
Proof.
  revert b out. induction l as [|x l IH]; intros b out Hb E HB Ho; [by exists b|].
  apply Forall_cons in HB as [Hx HB].
  destruct (get_net_byte_spec b x (l ++ rest) Hb E) as (b1 & E1 & W1 & R1).
  assert (Z.lor (u64 (Z.shiftl out 8)) x = u64 (out * 256 + x)) as Hlor.
  { replace (u64 (Z.shiftl out 8)) with (Z.shiftl (out mod 72057594037927936) 8).
    - rewrite lor_shiftl_add by (unfold byte_ok in Hx; lia). change (2 ^ 8) with 256. zlia.
    - rewrite !Z.shiftl_mul_pow2 by lia. change (2 ^ 8) with 256. zlia. }
  destruct (IH b1 (u64 (out * 256 + x)) W1 R1 HB) as (b2 & E2 & W2 & R2); [zlia|].
  exists b2. cbn [length variable_size_loop]. rewrite E1. cbn [res_bind]. rewrite Hlor, E2.
  split_and!; try done. do 2 f_equal. rewrite (decide_False (P := x :: l = [])) by done. cbn [foldl].
  case_decide as D; [by subst|]. clear.
  assert (∀ a c, u64 a = u64 c →
    u64 (foldl (λ acc b, acc * 256 + b) a l) = u64 (foldl (λ acc b, acc * 256 + b) c l)) as H.
  { induction l as [|y l IH]; intros a c Hac; cbn [foldl]; [done|]. apply IH. revert Hac. zlia. }
  apply H. zlia.
Qed.

(** ** Segments, addresses and fields that are filled in later *)

Lemma mk_buffer_wf l : bytes_ok l → zlen l ≤ int_max - 8 → bi_wf (mk_buffer_in l (zlen l)) ∧ remaining (mk_buffer_in l (zlen l)) = l.
Proof.
  intros HB Hl. pose proof (zlen_nonneg l). split.
  - unfold bi_wf. simpl. split_and!; try done; lia.
  - unfold remaining. simpl. rewrite drop_0. apply take_ge. unfold zlen. lia.
Qed.

(** a segment: its own buffer from its start, and the rest *)
Lemma get_segment_spec b l rest :
  bi_wf b → remaining b = l ++ rest →
  ∃ seg b', get_segment b (zlen l) = Ok (seg, b') ∧ bi_wf b' ∧ remaining b' = rest ∧
    bi_wf seg ∧ remaining seg = l ∧ bi_o seg = 0.
Proof.
  intros Hb E. assert (zlen (remaining b) = zlen l + zlen rest) as L by (by rewrite E, zlen_app).
  pose proof (zlen_nonneg rest). pose proof (zlen_nonneg l). pose proof (zlen_remaining b Hb) as R.
  unfold get_segment. rewrite check_room_Ok by (done || lia). cbn [res_bind]. do 2 eexists. split; [reflexivity|].
  split; [apply move_wf; (done || lia)|]. split.
  { rewrite remaining_move by (done || lia). rewrite E. unfold zlen. rewrite Nat2Z.id. by rewrite drop_app_length. }
  destruct Hb as ([? ?] & ? & ? & HB). unfold ptr_at. split.
  { unfold bi_wf. simpl. split_and!; [lia|lia| |lia|by apply bytes_ok_drop]. unfold zlen in *. rewrite length_drop. lia. }
  split; [|reflexivity]. unfold remaining in *. simpl. rewrite Z.sub_0_r, drop_0.
  apply (f_equal (take (length l))) in E. rewrite take_app_length, take_take in E.
  etrans; [|exact E]. f_equal. unfold zlen in *. lia.
Qed.

Lemma seek_spec b l rest :
  bi_wf b → remaining b = l ++ rest → ∃ b', seek b (zlen l) = Ok b' ∧ bi_wf b' ∧ remaining b' = rest.
Proof.
  intros Hb E. assert (zlen (remaining b) = zlen l + zlen rest) as L by (by rewrite E, zlen_app).
  pose proof (zlen_nonneg rest). pose proof (zlen_nonneg l). unfold seek. rewrite check_room_Ok by (done || lia).
  eexists. split; [reflexivity|]. split; [apply move_wf; (done || lia)|].
  rewrite remaining_move by (done || lia). rewrite E. unfold zlen. rewrite Nat2Z.id. by rewrite drop_app_length.
Qed.

Lemma end_reached_spec b : bi_wf b → end_reached b = bool_decide (remaining b = []).
Proof.
  intros Hb. pose proof (zlen_remaining b Hb) as L. unfold end_reached.
  destruct (bool_decide_reflect (remaining b = [])) as [E|N].
  - rewrite E in L. change (zlen (@nil Z)) with 0 in L. apply Z.eqb_eq. lia.
  - apply Z.eqb_neq. intros Eq. destruct (remaining b); [done|]. rewrite zlen_cons in L. pose proof (zlen_nonneg l). lia.
Qed.

Lemma peek_spec b : bi_wf b → peek b = Ok (remaining b).
Proof. intros ([? ?] & ? & _). unfold peek. by rewrite rd_range_Ok by lia. Qed.

Lemma copy_spec b : bi_wf b → bi_o b = 0 → bi_wf (copy_buffer_in b) ∧ remaining (copy_buffer_in b) = remaining b.
Proof. intros Hb E. destruct b as [p n o]. simpl in E. subst o. done. Qed.

Lemma add_buffer_in_spec b out : bi_wf b → ∃ b', add_buffer_in out b = Ok (out ++ remaining b, b').
Proof.
  intros Hb. unfold add_buffer_in, get_n_bytes_left. rewrite <- (zlen_remaining b Hb). unfold zlen. rewrite Nat2Z.id.
  remember (remaining b) as l eqn:E. revert b out Hb E. induction l as [|x l IH]; intros b out Hb E.
  { exists b. cbn. by rewrite app_nil_r. }
  destruct (get_net_byte_spec b x l Hb (eq_sym E)) as (b1 & E1 & W1 & R1). cbn [length add_buffer_in_loop].
  rewrite E1. cbn [res_bind]. destruct (IH b1 (out ++ [x]) W1 (eq_sym R1)) as [b' ->]. exists b'. by rewrite <- app_assoc.
Qed.

Lemma add_any_addr_good a out : good a → add_any_addr out a = Ok (out ++ (key a).2).
Proof.
  intros Hg. unfold add_any_addr, get_len. destruct (good_size a Hg) as [Hs _]. rewrite Hs.
  pose proof (length_key a Hg) as Hk. set (n := Z.to_nat (family_size (af a))) in *.
  assert (∀ k, (k ≤ n)%nat →
    add_any_addr_loop k (Z.of_nat (n - k)) (out ++ take (n - k) (key a).2) a = Ok (out ++ (key a).2)) as H.
  { induction k as [|k IH]; intros Hle; cbn [add_any_addr_loop].
    - rewrite Nat.sub_0_r, take_ge by lia. done.
    - destruct (at_good a (Z.of_nat (n - S k)) Hg) as (b & -> & L); [pose proof (family_size_bound (af a)); lia|].
      cbn [res_bind]. rewrite Nat2Z.id in L. replace (Z.of_nat (n - S k) + 1) with (Z.of_nat (n - k)) by lia.
      rewrite <- IH by lia. f_equal. rewrite <- app_assoc. f_equal. replace (n - k)%nat with (S (n - S k)) by lia.
      symmetry. by apply take_S_r. }
  specialize (H n ltac:(lia)). rewrite Nat.sub_diag in H. cbn [take] in H. by rewrite app_nil_r in H.
Qed.

Lemma vec_at_set_mid a x r b : byte_ok b → vec_at_set (a ++ x :: r) (zlen a) b = Ok (a ++ b :: r).
Proof.
  intros Hb. unfold vec_at_set. pose proof (zlen_nonneg a). pose proof (zlen_nonneg r).
  rewrite (proj2 (Z.ltb_ge (zlen a) 0)), (proj2 (Z.leb_gt _ (zlen a))) by (rewrite ?zlen_app, ?zlen_cons; lia).
  cbn [orb]. unfold zlen. rewrite Nat2Z.id, u8_id by done. by rewrite insert_app_r_alt, Nat.sub_diag by lia.
Qed.

Lemma vec_at_set_u8 l i b : vec_at_set l i b = vec_at_set l i (u8 b).
Proof. unfold vec_at_set. by rewrite (u8_id (u8 b)) by apply u8_ok. Qed.

Lemma add_net_short_at_mid a x r v :
  length x = 2%nat → add_net_short_at (a ++ x ++ r) v (zlen a) = Ok (zlen a, a ++ be16 v ++ r).
Proof.
  intros Hx. destruct x as [|x0 [|x1 [|]]]; try discriminate Hx. unfold add_net_short_at. pose proof (zlen_nonneg a).
  rewrite (proj2 (Z.eqb_neq (zlen a) (-1))) by lia. cbn [negb app]. rewrite Z.add_0_r.
  rewrite vec_at_set_u8, vec_at_set_mid by apply u8_ok. cbn [res_bind].
  replace (zlen a + 1) with (zlen (a ++ [u8 (Z.shiftr v 8)])) by (by rewrite zlen_app).
  rewrite cons_middle, app_assoc. rewrite vec_at_set_u8, vec_at_set_mid by apply u8_ok. cbn [res_bind].
  by rewrite <- app_assoc.
Qed.

Lemma add_net_long_at_mid a x r v :
  length x = 4%nat → add_net_long_at (a ++ x ++ r) v (zlen a) = Ok (zlen a, a ++ be32 v ++ r).
Proof.
  intros Hx. destruct x as [|x0 [|x1 [|x2 [|x3 [|]]]]]; try discriminate Hx. unfold add_net_long_at. pose proof (zlen_nonneg a).
  rewrite (proj2 (Z.eqb_neq (zlen a) (-1))) by lia. cbn [negb app]. rewrite Z.add_0_r.
  assert (∀ pre y z w k, k = zlen pre → vec_at_set (pre ++ y :: z) k w = Ok (pre ++ u8 w :: z)) as H1.
  { intros pre y z w k ->. rewrite vec_at_set_u8. apply vec_at_set_mid, u8_ok. }
  rewrite H1 by done. cbn [res_bind]. rewrite (cons_middle (u8 (Z.shiftr v 24))), app_assoc.
  rewrite H1 by (rewrite !zlen_app; unfold zlen; simpl; lia). cbn [res_bind]. rewrite (cons_middle (u8 (Z.shiftr v 16))), app_assoc.
  rewrite H1 by (rewrite !zlen_app; unfold zlen; simpl; lia). cbn [res_bind]. rewrite (cons_middle (u8 (Z.shiftr v 8))), app_assoc.
  rewrite H1 by (rewrite !zlen_app; unfold zlen; simpl; lia). cbn [res_bind]. unfold be32. by rewrite <- !app_assoc.
Qed.

Lemma add_net_long_at_Ok r v o :
  0 ≤ o → o + 4 ≤ zlen r →
  add_net_long_at r v o = Ok (o, take (Z.to_nat o) r ++ be32 v ++ drop (Z.to_nat o + 4) r).
Proof.
  intros Ho Hr. set (n := Z.to_nat o).
  assert (r = take n r ++ take 4 (drop n r) ++ drop (n + 4) r) as E by (rewrite <- drop_drop, take_drop; by rewrite take_drop).
  assert (zlen (take n r) = o) as L by (unfold zlen in *; rewrite length_take; lia).
  rewrite E at 1. transitivity (add_net_long_at (take n r ++ take 4 (drop n r) ++ drop (n + 4) r) v (zlen (take n r))); [by rewrite L|].
  rewrite add_net_long_at_mid by (unfold zlen in *; rewrite length_take, length_drop; lia). by rewrite L.
Qed.

Lemma add_net_short_at_Ok r v o :
  0 ≤ o → o + 2 ≤ zlen r →
  add_net_short_at r v o = Ok (o, take (Z.to_nat o) r ++ be16 v ++ drop (Z.to_nat o + 2) r).
Proof.
  intros Ho Hr. set (n := Z.to_nat o).
  assert (r = take n r ++ take 2 (drop n r) ++ drop (n + 2) r) as E by (rewrite <- drop_drop, take_drop; by rewrite take_drop).
  assert (zlen (take n r) = o) as L by (unfold zlen in *; rewrite length_take; lia).
  rewrite E at 1. transitivity (add_net_short_at (take n r ++ take 2 (drop n r) ++ drop (n + 2) r) v (zlen (take n r))); [by rewrite L|].
  rewrite add_net_short_at_mid by (unfold zlen in *; rewrite length_take, length_drop; lia). by rewrite L.
Qed.
