(* ===== verification/Lines.v ===== *)
(** * Lines and header fields of text protocols

    SIP and HTTP send lines that end with CR LF, a blank line behind the header, and fields
    of a name, a colon and a value.  They are read with [split] and [find_header] of
    src/str.cpp.  Shown: lines and messages that were put together are taken apart again,
    the header ends at the first blank line, and the fields of a header are found. *)
From stdpp Require Import strings.
From S2P Require Import Prelude Str AnyAddr.
Open Scope Z_scope.

Definition line_end : str := [13; 10].
Definition blank_line : str := [13; 10; 13; 10].

(** [v.at(i)] *)
Definition str_at (v : list str) (i : nat) : res str := match v !! i with Some x => Ok x | None => Err out_of_range end.
(** [s.rfind(c)] *)
Fixpoint rfind (c : Z) (s : str) : option nat :=
  match s with
  | [] => None
  | x :: s' => match rfind c s' with Some i => Some (S i) | None => if x =? c then Some O else None end
  end.
(** ** [split] and [find_header] return *)

Lemma split_head inp sep :
  sep ≠ [] → inp ≠ [] →
  ∃ rest, split inp sep = Ok (match find sep inp with Some n => take n inp | None => inp end :: rest).
Proof.
  intros Hs Hi. unfold split. cbn [split_loop app]. destruct (find sep inp) as [n|] eqn:E.
  - destruct (decide _) as [Hd|Hd]; [by eexists|].
    destruct (split_loop_spec sep (length inp) (drop (n + length sep) inp) [take n inp] Hs) as (parts & -> & _); [|by eexists].
    rewrite length_drop. pose proof (find_bound _ _ _ E). destruct sep; [done|]. destruct inp; [done|]. cbn in *. lia.
  - rewrite decide_False by done. by eexists.
Qed.

Lemma split_total inp sep : sep ≠ [] → ∃ parts, split inp sep = Ok parts.
Proof. intros Hs. destruct (split_spec inp sep Hs) as (parts & E & _). eauto. Qed.

Lemma find_header_line_total lkey key c line v :
  lkey = str_tolower key → ∃ r, find_header_line lkey key [c] line v = Ok r.
Proof.
  intros ->. unfold find_header_line. destruct (split_spec line [c]) as (parts & -> & Hj & _); [done|]. cbn [res_bind].
  destruct parts as [|p0 [|p1 parts]]; [by eexists|by eexists|]. case_decide as Hk; [|by eexists].
  rewrite decide_False; [by eexists|]. apply (f_equal length) in Hk. unfold str_tolower in Hk. rewrite !length_fmap in Hk.
  rewrite <- Hj, join_cons by done. rewrite !length_app. cbn [length]. lia.
Qed.

Lemma find_header_total lines key c : ∃ r, find_header lines key [c] = Ok r.
Proof.
  unfold find_header. generalize (@None str). induction lines as [|line lines IH]; intros v; [by eexists|].
  cbn [find_header_loop]. destruct (find_header_line_total (str_tolower key) key c line v eq_refl) as [r ->]. apply IH.
Qed.

Lemma rfind_bound c s i : rfind c s = Some i → (i < length s)%nat.
Proof.
  revert i. induction s as [|x s IH]; intros i; [done|]. cbn. destruct (rfind c s) as [j|].
  - intros [= <-]. specialize (IH j eq_refl). lia.
  - destruct (x =? c); [|done]. intros [= <-]. lia.
Qed.

Lemma find_not_prefix sep inp n : is_prefix sep inp = false → find sep inp = Some n → (0 < n)%nat.
Proof. intros Hp. destruct inp as [|x inp]; cbn; cbn in Hp; rewrite Hp; [done|]. destruct (find sep inp); [|done]. intros [= <-]. lia. Qed.

(** ** Lines *)

Lemma find_None_iff what hay : find what hay = None ↔ ∀ a b, hay ≠ a ++ what ++ b.
Proof.
  split.
  - revert hay. intros hay H a. revert hay H. induction a as [|x a IH]; intros hay H b ->; cbn [app] in *.
    + assert (is_prefix what (what ++ b) = true) as E by (apply is_prefix_spec; eauto). destruct (what ++ b); cbn in *; by rewrite E in H.
    + cbn [find] in H. destruct (is_prefix what (x :: a ++ what ++ b)); [done|].
      destruct (find what (a ++ what ++ b)) eqn:E; [done|]. by apply (IH _ E b).
  - induction hay as [|x hay IH]; intros H; cbn [find].
    + destruct (is_prefix what []) eqn:E; [|done]. apply is_prefix_spec in E as [rest E]. by apply (H [] rest) in E.
    + destruct (is_prefix what (x :: hay)) eqn:E.
      * apply is_prefix_spec in E as [rest E]. by apply (H [] rest) in E.
      * rewrite IH; [done|]. intros a b ->. by apply (H (x :: a) b).
Qed.

(** a line: no line end in it *)
Definition crlf_free (l : str) : Prop := find line_end l = None.

Lemma crlf_free_mid a b c : crlf_free (a ++ b ++ c) → crlf_free b.
Proof.
  unfold crlf_free. rewrite !find_None_iff. intros H x y ->. apply (H (a ++ x) (y ++ c)). by rewrite <- !app_assoc.
Qed.
Lemma crlf_free_drop n l : crlf_free l → crlf_free (drop n l).
Proof. intros H. apply (crlf_free_mid (take n l) (drop n l) []). by rewrite app_nil_r, take_drop. Qed.
Lemma crlf_free_take n l : crlf_free l → crlf_free (take n l).
Proof. intros H. apply (crlf_free_mid [] (take n l) (drop n l)). by rewrite take_drop. Qed.
Lemma crlf_free_drop_spaces l : crlf_free l → crlf_free (drop_spaces l).
Proof.
  induction l as [|x l IH]; intros H; [done|]. cbn. destruct (x =? 32); [|done]. apply IH. by apply (crlf_free_drop 1) in H.
Qed.
Lemma crlf_free_c_str l : crlf_free l → crlf_free (c_str l).
Proof.
  intros H. assert (∃ n, c_str l = take n l) as [n ->]; [|by apply crlf_free_take].
  clear H. induction l as [|x l [n IH]]; [by exists O|]. cbn [c_str]. destruct (x =? 0); [by exists O|]. exists (S n). cbn. by rewrite IH.
Qed.

(** a carriage return is only where a line ends *)
Lemma crlf_free_app p l : (13 ∉ p) → crlf_free l → crlf_free (p ++ l).
Proof.
  intros Hp Hl. induction p as [|x p IH]; [done|]. apply not_elem_of_cons in Hp as [Hx Hp].
  unfold crlf_free in *. cbn [app find line_end is_prefix]. rewrite (proj2 (Z.eqb_neq 13 x)) by done. cbn [andb].
  by rewrite IH.
Qed.
Lemma no_cr_crlf_free l : (13 ∉ l) → crlf_free l.
Proof. intros H. rewrite <- (app_nil_r l). by apply crlf_free_app. Qed.

Lemma find_line l rest : crlf_free l → find line_end (l ++ line_end ++ rest) = Some (length l).
Proof.
  induction l as [|x l IH]; intros H; [done|]. pose proof (crlf_free_drop 1 _ H) as H1. cbn [drop] in H1.
  cbn [app find length]. assert (is_prefix line_end (x :: l ++ line_end ++ rest) = false) as ->.
  { destruct (is_prefix line_end (x :: l ++ line_end ++ rest)) eqn:E; [|done]. exfalso. apply is_prefix_spec in E as [r E].
    destruct l as [|y l]; [by injection E|]. injection E as -> -> E. unfold crlf_free in H. rewrite find_None_iff in H. by apply (H [] l). }
  rewrite IH by done. done.
Qed.

(** lines that are joined are found again *)
Lemma split_lines lines :
  Forall (λ l, crlf_free l ∧ l ≠ []) lines → split (join line_end lines) line_end = Ok lines.
Proof.
  intros HF. unfold split.
  assert (∀ fuel out, (length (join line_end lines) < fuel)%nat → split_loop fuel (join line_end lines) line_end out = Ok (out ++ lines)) as G.
  { induction HF as [|l lines [Hl Hne] HF IH]; intros fuel out Hf.
    - destruct fuel; [lia|]. cbn. by rewrite app_nil_r.
    - destruct lines as [|k lines].
      + destruct fuel; [lia|]. cbn [join split_loop]. rewrite Hl. by rewrite decide_False.
      + rewrite join_cons in * by done. destruct fuel as [|fuel]; [lia|]. cbn [split_loop]. rewrite find_line by done.
        rewrite take_app_length. rewrite !length_app in Hf. cbn [length line_end] in *.
        assert (length (join line_end (k :: lines)) ≠ O) as Hn.
        { apply Forall_cons in HF as [[_ Hk] _]. destruct lines; [cbn; by destruct k|]. rewrite join_cons by done. rewrite !length_app. cbn. lia. }
        rewrite decide_False by (rewrite !length_app; cbn [length line_end]; lia).
        rewrite (app_assoc l), drop_app_length' by (rewrite length_app; done).
        rewrite IH by lia. by rewrite <- app_assoc. }
  rewrite G; [done|lia].
Qed.

(** an occurrence of a blank line is not at or in a line that others follow *)
Lemma blank_not_here x l r : crlf_free (x :: l) → is_prefix blank_line (x :: l ++ line_end ++ r) = false.
Proof.
  intros H. destruct (is_prefix blank_line (x :: l ++ line_end ++ r)) eqn:E; [|done]. exfalso. apply is_prefix_spec in E as [q E].
  destruct l as [|y l]; [by injection E|]. injection E as -> -> E. unfold crlf_free in H. rewrite find_None_iff in H. by apply (H [] l).
Qed.

Lemma find_blank_skip l rest :
  crlf_free l → (∀ r, rest ≠ line_end ++ r) →
  find blank_line (l ++ line_end ++ rest) = (λ n, (length l + 2 + n)%nat) <$> find blank_line rest.
Proof.
  intros Hl Hr. induction l as [|x l IH].
  - change (find blank_line ([] ++ line_end ++ rest)) with
      (if is_prefix blank_line (13 :: 10 :: rest) then Some O else S <$> find blank_line (10 :: rest)).
    assert (is_prefix blank_line (13 :: 10 :: rest) = false) as ->.
    { destruct (is_prefix blank_line (13 :: 10 :: rest)) eqn:E; [|done]. exfalso. apply is_prefix_spec in E as [r [= E]]. by apply (Hr r). }
    cbn [find is_prefix blank_line Z.eqb Pos.eqb andb]. by destruct (find _ rest).
  - cbn [app find length]. rewrite blank_not_here by done.
    rewrite IH by (by apply (crlf_free_drop 1) in Hl). by destruct (find blank_line rest).
Qed.

(** the first line does not start with a line end *)
Lemma line_start l rest r : crlf_free l → l ≠ [] → l ++ line_end ++ rest ≠ line_end ++ r.
Proof.
  intros Hl Hn. destruct l as [|c1 [|c2 l]]; [done| |]; cbn [app]; intros [= ]; subst.
  unfold crlf_free in Hl. rewrite find_None_iff in Hl. by apply (Hl [] l).
Qed.

(** the end of the header is found *)
Lemma find_blank_line lines body :
  lines ≠ [] → Forall (λ l, crlf_free l ∧ l ≠ []) lines →
  find blank_line (merge lines line_end ++ line_end ++ body) = Some (length (join line_end lines)).
Proof.
  intros Hne HF.
  induction HF as [|l lines [Hl Hn] HF IH]; [done|]. cbn [merge]. rewrite <- !app_assoc. destruct lines as [|k lines].
  - cbn [merge app join]. clear IH. induction l as [|x l IHl]; [done|]. cbn [app find length]. rewrite blank_not_here by done.
    destruct l as [|y l]; [reflexivity|]. rewrite IHl by (done || by apply (crlf_free_drop 1) in Hl). done.
  - apply Forall_cons in HF as HK. destruct HK as [[Hk Hkn] _].
    rewrite join_cons by done. rewrite find_blank_skip; [|done|].
    + rewrite IH by done. cbn [fmap option_fmap option_map]. f_equal. rewrite !length_app. cbn [length line_end]. lia.
    + intros r. cbn [merge]. rewrite <- !app_assoc. by apply line_start.
Qed.

Lemma find_blank_none lines : Forall (λ l, crlf_free l ∧ l ≠ []) lines → find blank_line (merge lines line_end) = None.
Proof.
  induction 1 as [|l lines [Hl Hn] HF IH]; [done|]. cbn [merge]. rewrite find_blank_skip; [by rewrite IH|done|].
  destruct HF as [|k lines [Hk Hkn] HF]; [done|]. intros r. cbn [merge]. by apply line_start.
Qed.

Lemma merge_join lines : lines ≠ [] → merge lines line_end = join line_end lines ++ line_end.
Proof.
  induction lines as [|l lines IH]; [done|]. intros _. cbn [merge]. destruct lines as [|k lines]; [by rewrite app_nil_r|].
  rewrite IH, (join_cons _ l) by done. by rewrite <- !app_assoc.
Qed.

Lemma split_merged lines :
  lines ≠ [] → Forall (λ l, crlf_free l ∧ l ≠ []) lines → split (merge lines line_end) line_end = Ok (lines ++ [[]]).
Proof.
  intros Hne HF. unfold split.
  assert (∀ fuel out, (length (merge lines line_end) < fuel)%nat → split_loop fuel (merge lines line_end) line_end out = Ok (out ++ lines ++ [[]])) as G.
  { induction HF as [|l lines [Hl Hn] HF IH]; [done|]. intros fuel out Hf. destruct fuel as [|fuel]; [lia|].
    cbn [split_loop merge] in *. rewrite find_line by done. rewrite take_app_length. rewrite !length_app in *. cbn [length line_end] in *.
    destruct lines as [|k lines].
    - rewrite decide_True by (cbn; lia). done.
    - assert (length (merge (k :: lines) line_end) ≠ O) by (cbn [merge]; rewrite !length_app; cbn; lia).
      rewrite decide_False by lia. rewrite (app_assoc l), drop_app_length' by (rewrite length_app; done).
      rewrite IH by (done || lia). by rewrite <- !app_assoc. }
  rewrite G; [done|lia].
Qed.

(** a message: header lines, a blank line, a body without one *)
Lemma split_message lines body :
  lines ≠ [] → Forall (λ l, crlf_free l ∧ l ≠ []) lines → body ≠ [] → find blank_line body = None →
  split (merge lines line_end ++ line_end ++ body) blank_line = Ok [join line_end lines; body].
Proof.
  intros Hne HF Hb Hn. unfold split. pose proof (find_blank_line lines body Hne HF) as E.
  assert (merge lines line_end ++ line_end ++ body = join line_end lines ++ blank_line ++ body) as Em
    by (rewrite merge_join by done; by rewrite <- app_assoc).
  rewrite Em in *. cbn [split_loop]. rewrite E, take_app_length.
  assert (length body ≠ O) by (by destruct body).
  rewrite decide_False by (rewrite !length_app; cbn [length blank_line]; lia).
  rewrite (app_assoc (join _ _)), drop_app_length' by (rewrite length_app; done).
  match goal with |- split_loop ?n _ _ _ = _ => destruct n as [|fuel] eqn:El end; [rewrite !length_app in El; lia|].
  cbn [split_loop]. rewrite Hn. by rewrite decide_False.
Qed.

(** ** Headers are read back *)

Lemma find_header_loop_app l k lkey key sep v :
  find_header_loop (l ++ k) lkey key sep v = let* v' := find_header_loop l lkey key sep v in find_header_loop k lkey key sep v'.
Proof. revert v. induction l as [|x l IH]; intros v; [done|]. cbn. destruct (find_header_line _ _ _ x v); [apply IH|done]. Qed.

(** a line with a name and a value *)
Definition named (f : str * str) : str := f.1 ++ 58 :: 32 :: f.2.

Lemma find_header_line_named key f v :
  (58 ∉ f.1) → find_header_line (str_tolower key) key [58] (named f) v =
    Ok (if decide (str_tolower f.1 = str_tolower key) then Some (drop_spaces f.2) else v).
Proof.
  destruct f as [name val]. unfold named. cbn [fst snd]. intros Hn. unfold find_header_line.
  destruct (split_spec (name ++ 58 :: 32 :: val) [58]) as (parts & E & Hj & _); [done|].
  destruct (split_head (name ++ 58 :: 32 :: val) [58]) as [rest E']; [done|by destruct name|].
  rewrite find_char_app, take_app_length in E' by done. rewrite E' in E. injection E as <-. rewrite E'. cbn [res_bind].
  destruct rest as [|p1 rest].
  { exfalso. cbn in Hj. apply (f_equal length) in Hj. rewrite length_app in Hj. cbn in Hj. lia. }
  case_decide as Hk; [|done]. apply (f_equal length) in Hk. unfold str_tolower in Hk. rewrite !length_fmap in Hk.
  rewrite decide_False by (rewrite length_app; cbn; lia). rewrite cons_middle, app_assoc, drop_app_length' by (rewrite length_app; cbn; lia). done.
Qed.

Lemma find_header_line_none key line v : (58 ∉ line) → find_header_line (str_tolower key) key [58] line v = Ok v.
Proof.
  intros Hn. unfold find_header_line. destruct line as [|x line]; [done|].
  destruct (split_spec (x :: line) [58]) as (parts & E & Hj & HF); [done|]. rewrite E. cbn [res_bind].
  destruct parts as [|p0 [|p1 parts]]; [done|done|]. exfalso. rewrite join_cons in Hj by done. apply Hn. rewrite <- Hj. set_solver.
Qed.

(** the last field of a name counts *)
Definition field_value (key : str) (v : option str) (f : str * str) : option str :=
  if decide (str_tolower f.1 = str_tolower key) then Some (drop_spaces f.2) else v.

Lemma find_header_fields key fs v :
  Forall (λ f, 58 ∉ f.1) fs → find_header_loop (named <$> fs) (str_tolower key) key [58] v = Ok (foldl (field_value key) v fs).
Proof.
  intros HF. revert v. induction HF as [|f fs Hf _ IH]; intros v; [done|]. cbn [fmap list_fmap find_header_loop foldl].
  rewrite find_header_line_named by done. cbn [res_bind]. apply IH.
Qed.

Lemma drop_spaces_idemp v : drop_spaces (drop_spaces v) = drop_spaces v.
Proof.
  induction v as [|x v IH]; [done|]. cbn. destruct (x =? 32) eqn:E; [done|]. cbn. by rewrite E.
Qed.

(** a value is a part of a line, without spaces before it *)
Lemma find_header_value lines key c v :
  Forall crlf_free lines → find_header lines key [c] = Ok (Some v) → crlf_free v ∧ drop_spaces v = v.
Proof.
  intros HF. unfold find_header.
  assert (∀ cur, (∀ x, cur = Some x → crlf_free x ∧ drop_spaces x = x) →
    find_header_loop lines (str_tolower key) key [c] cur = Ok (Some v) → crlf_free v ∧ drop_spaces v = v) as G.
  { induction HF as [|l lines Hl _ IH]; intros cur Hcur E; [injection E as ->; by apply Hcur|]. cbn [find_header_loop] in E.
    destruct (find_header_line _ _ _ l cur) as [cur'|] eqn:El; [|done]. cbn [res_bind] in E. apply (IH cur'); [|done].
    unfold find_header_line in El. destruct (split l [c]) as [[|p0 [|p1 ps]]|]; cbn [res_bind] in El; try done; [by injection El as <-|by injection El as <-|].
    case_decide; [|by injection El as <-]. case_decide; [done|]. injection El as <-. intros x [= <-].
    split; [by apply crlf_free_drop_spaces, crlf_free_drop|apply drop_spaces_idemp]. }
  apply G. done.
Qed.

Lemma digit_char_not_cr d : digit_char d = 13 → d < 0.
Proof. unfold digit_char. destruct (Z.ltb_spec d 10); lia. Qed.

Lemma digits_no_cr fuel base n acc : 0 < base → (13 ∉ acc) → (13 ∉ digits_loop fuel base n acc).
Proof.
  intros Hb. revert n acc. induction fuel as [|fuel IH]; intros n acc Ha; [done|]. cbn [digits_loop].
  assert (13 ∉ digit_char (n mod base) :: acc) as H.
  { apply not_elem_of_cons. split; [|done]. intros E. symmetry in E. apply digit_char_not_cr in E. pose proof (Z.mod_pos_bound n base Hb). lia. }
  destruct (n / base =? 0); [done|]. by apply IH.
Qed.

Ltac no_char := let H := fresh in intros H; vm_compute in H; repeat (apply elem_of_cons in H as [H|H]; [discriminate H|]); by apply not_elem_of_nil in H.

Lemma digits_no_space fuel base n acc c : 0 < base → digits_loop fuel base n acc = c :: drop 1 (digits_loop fuel base n acc) →
  fuel ≠ O → c ≠ 32.
Proof.
  intros Hb. revert n acc. induction fuel as [|fuel IH]; intros n acc E Hf; [done|]. cbn [digits_loop] in E.
  destruct (n / base =? 0).
  - cbn [drop] in E. injection E as <-. unfold digit_char. pose proof (Z.mod_pos_bound n base Hb). destruct (Z.ltb_spec (n mod base) 10); lia.
  - destruct fuel as [|fuel].
    + cbn in E. injection E as <-. unfold digit_char. pose proof (Z.mod_pos_bound n base Hb). destruct (Z.ltb_spec (n mod base) 10); lia.
    + by apply (IH _ _ E).
Qed.

Lemma drop_spaces_fmt_dec n : drop_spaces (fmt_dec n) = fmt_dec n.
Proof.
  unfold fmt_dec. destruct (digits_loop 32 10 n []) as [|c l] eqn:E; [done|].
  assert (c ≠ 32) as Hc by (apply (digits_no_space 32 10 n [] c); [lia|by rewrite E|done]).
  cbn. by rewrite (proj2 (Z.eqb_neq c 32)).
Qed.

(** the request line is split into its three words *)
Lemma split_request a uri b :
  (32 ∉ a) → a ≠ [] → (32 ∉ uri) → uri ≠ [] → (32 ∉ b) → b ≠ [] → split (a ++ [32] ++ uri ++ [32] ++ b) [32] = Ok [a; uri; b].
Proof. intros. rewrite <- (split_join 32 [a; uri; b]) by (repeat constructor; done). done. Qed.


(** ** What arrives in pieces *)

Lemma find_first what a b : ∃ n, find what (a ++ what ++ b) = Some n ∧ (n ≤ length a)%nat.
Proof.
  induction a as [|x a (n & E & Hn)].
  - exists O. split; [|done]. assert (is_prefix what (what ++ b) = true) as E by (apply is_prefix_spec; eauto).
    cbn [app]. destruct (what ++ b); cbn [find]; by rewrite E.
  - cbn [app find]. destruct (is_prefix what (x :: a ++ what ++ b)); [exists O; split; [done|cbn; lia]|].
    rewrite E. exists (S n). split; [done|cbn; lia].
Qed.

(** before the end of the first occurrence there is none *)
Lemma find_take_None what hay n k : find what hay = Some n → (k < n + length what)%nat → find what (take k hay) = None.
Proof.
  intros E Hk. apply find_None_iff. intros a b Et.
  destruct (find_first what a (b ++ drop k hay)) as (m & Em & Hm).
  assert (a ++ what ++ b ++ drop k hay = hay) as Eh.
  { rewrite <- (take_drop k hay) at 2. rewrite Et. by rewrite <- !app_assoc. }
  rewrite Eh, E in Em. injection Em as <-. apply (f_equal length) in Et. rewrite length_take, !length_app in Et. lia.
Qed.

(** lines and a blank line, with nothing behind it *)
Lemma find_blank_end lines :
  lines ≠ [] → Forall (λ l, crlf_free l ∧ l ≠ []) lines →
  find blank_line (merge lines line_end ++ line_end) = Some (length (join line_end lines)) ∧
  take (length (join line_end lines)) (merge lines line_end ++ line_end) = join line_end lines ∧
  length (merge lines line_end ++ line_end) = (length (join line_end lines) + 4)%nat.
Proof.
  intros Hne HF. pose proof (find_blank_line lines [] Hne HF) as E. rewrite app_nil_r in E. split; [done|].
  rewrite merge_join by done. rewrite <- app_assoc. split; [by rewrite take_app_length|]. rewrite !length_app. done.
Qed.

Lemma named_line name v : (13 ∉ name) → crlf_free v → crlf_free (named (name, v)) ∧ named (name, v) ≠ [].
Proof.
  intros Hn Hv. split; [|unfold named; cbn; by destruct name]. unfold named. cbn [fst snd]. apply crlf_free_app; [done|].
  change (58 :: 32 :: v) with ([58; 32] ++ v). apply crlf_free_app; [no_char|done].
Qed.
