(* ===== verification/Fifo.v ===== *)
(** * The packet queues (src/fifo.h)

    [fifo<T>] is a ring buffer of [n_elements] slots, guarded by one mutex.
    A method holds the mutex from its first access to its last, except while
    it waits on a condition variable; a step below is therefore one critical
    section: what a thread does between two waits.  [put] and [get] wait until
    their guard holds, so they are steps that are only enabled then.

    The ring buffer refines a bounded queue: [fifo_rep f q] says that [f] holds
    the elements [q], oldest first.  The class [BoundedQueue] states what the
    users of a queue (the transport layers, the network layers and the router)
    may rely on, and [fifo_queue] proves it for the ring buffer. *)
From S2P Require Import Prelude.

Record fifo (T : Type) := Fifo {
  data : list (option T);     (* [None]: a slot that was never written *)
  n_elements : Z;
  read_pointer : Z;
  write_pointer : Z;
  full : bool;
  interrupted : bool;
  n_in : Z;
  fifo_n_in_stats : Z;
  fifo_full_count : Z;
}.
Arguments Fifo {T}.
Arguments data {T} _.
Arguments n_elements {T} _.
Arguments read_pointer {T} _.
Arguments write_pointer {T} _.
Arguments full {T} _.
Arguments interrupted {T} _.
Arguments n_in {T} _.
Arguments fifo_n_in_stats {T} _.
Arguments fifo_full_count {T} _.

(** ** The methods *)

Section Methods.
Context {T : Type}.
Implicit Types f : fifo T.

Definition new_fifo (n : Z) : fifo T :=
  Fifo (replicate (Z.to_nat n) None) n 0 0 false false 0 0 0.

Definition interrupt f : fifo T :=
  Fifo (data f) (n_elements f) (read_pointer f) (write_pointer f) (full f) true
    (n_in f) (fifo_n_in_stats f) (fifo_full_count f).

(** [data[write_pointer] = element; ...; full = write_pointer == read_pointer;] *)
Definition store f (element : T) : fifo T :=
  let data' := <[Z.to_nat (write_pointer f) := Some element]> (data f) in
  let write_pointer' := (write_pointer f + 1) mod n_elements f in
  let n_in' := u64 (n_in f + 1) in
  Fifo data' (n_elements f) (read_pointer f) write_pointer' (write_pointer' =? read_pointer f)
    (interrupted f) n_in' n_in' (fifo_full_count f).

Definition count_full f : fifo T :=
  Fifo (data f) (n_elements f) (read_pointer f) (write_pointer f) (full f) (interrupted f)
    (n_in f) (fifo_n_in_stats f) (u64 (fifo_full_count f + 1)).

Definition try_put f (element : T) : bool * fifo T :=
  if full f then (false, count_full f) else (true, store f element).

(** [put]: what it does when it enters, and after its wait *)
Definition put_enter f : fifo T := if full f then count_full f else f.
Definition put_ready f : bool := negb (full f).
Definition put_commit f (element : T) : fifo T := store f element.

(** the condition under which [get] goes on waiting *)
Definition get_waits f : bool :=
  (read_pointer f =? write_pointer f) && negb (full f) && negb (interrupted f).

Definition fetch f : res (T * fifo T) :=
  match data f !! Z.to_nat (read_pointer f) with
  | Some (Some copy) =>
      Ok (copy, Fifo (data f) (n_elements f) ((read_pointer f + 1) mod n_elements f) (write_pointer f)
                  false (interrupted f) (u64 (n_in f - 1)) (fifo_n_in_stats f) (fifo_full_count f))
  | _ => Err bad_access
  end.

(** [get()] after its wait *)
Definition get_commit f : res (option T * fifo T) :=
  if interrupted f then Ok (None, f)
  else let* '(copy, f') := fetch f in Ok (Some copy, f').

(** [get(ms)] after its wait; [ok] is false when the wait timed out *)
Definition get_ms_commit f (ok : bool) : res (option T * fifo T) :=
  if interrupted f then Ok (None, f)
  else if ok then let* '(copy, f') := fetch f in Ok (Some copy, f')
  else Ok (None, f).
End Methods.

(** ** Refinement of a bounded queue *)

Section Refinement.
Context {T : Type}.
Implicit Types (f : fifo T) (q : list T).

(** the number of elements held *)
Definition count f : Z :=
  if full f then n_elements f else (write_pointer f - read_pointer f) mod n_elements f.

Definition fifo_wf f : Prop :=
  0 < n_elements f < 2147483648 ∧ zlen (data f) = n_elements f ∧
  0 ≤ read_pointer f < n_elements f ∧ 0 ≤ write_pointer f < n_elements f ∧
  (full f = true → write_pointer f = read_pointer f).

Definition slot f (i : Z) : nat := Z.to_nat ((read_pointer f + i) mod n_elements f).

Definition fifo_rep f q : Prop :=
  fifo_wf f ∧ zlen q = count f ∧ n_in f = zlen q ∧
  ∀ i x, q !! i = Some x → data f !! slot f (Z.of_nat i) = Some (Some x).

Lemma new_fifo_rep n : 0 < n < 2147483648 → fifo_rep (new_fifo n) [].
Proof.
  intros Hn. split; [|by split_and!].
  unfold fifo_wf, new_fifo, zlen. cbn [data n_elements read_pointer write_pointer full].
  rewrite length_replicate. split_and!; try done; lia.
Qed.

Lemma count_bound f : fifo_wf f → 0 ≤ count f ≤ n_elements f.
Proof.
  intros (? & _ & _ & _ & _). unfold count. destruct (full f); [lia|].
  pose proof (Z.mod_pos_bound (write_pointer f - read_pointer f) (n_elements f)). lia.
Qed.

Lemma count_full_iff f : fifo_wf f → full f = true ↔ count f = n_elements f.
Proof.
  intros (? & _ & _ & _ & _). unfold count. destruct (full f); [done|].
  pose proof (Z.mod_pos_bound (write_pointer f - read_pointer f) (n_elements f)).
  split; [done|lia].
Qed.

Lemma mod_cases x n : 0 < n → 0 ≤ x < 2 * n → x mod n = if decide (x < n) then x else x - n.
Proof.
  intros Hn Hx. case_decide; [apply Z.mod_small; lia|].
  symmetry. apply Z.mod_unique with 1; lia.
Qed.

Lemma succ_mod x n : 0 ≤ x < n → (x + 1) mod n = if decide (x + 1 < n) then x + 1 else 0.
Proof. intros H. rewrite mod_cases by lia. case_decide; lia. Qed.

Lemma diff_mod a b n : 0 ≤ a < n → 0 ≤ b < n → (a - b) mod n = if decide (b ≤ a) then a - b else a - b + n.
Proof.
  intros Ha Hb. case_decide; [apply Z.mod_small; lia|].
  symmetry. apply Z.mod_unique with (-1); lia.
Qed.

Lemma write_slot f : fifo_wf f → full f = false → Z.to_nat (write_pointer f) = slot f (count f).
Proof.
  intros (Hn & _ & Hr & Hw & _) Hf. unfold slot, count. rewrite Hf. f_equal.
  rewrite Zplus_mod_idemp_r.
  replace (read_pointer f + (write_pointer f - read_pointer f)) with (write_pointer f) by lia.
  by rewrite Z.mod_small.
Qed.

Lemma slot_inj f i j :
  fifo_wf f → 0 ≤ i < n_elements f → 0 ≤ j < n_elements f → slot f i = slot f j → i = j.
Proof.
  intros (Hn & _ & Hr & _) Hi Hj. unfold slot. rewrite !mod_cases by lia.
  intros H. repeat case_decide; lia.
Qed.

Lemma slot_range f i : fifo_wf f → (slot f i < length (data f))%nat.
Proof.
  intros (Hn & Hl & _). unfold slot, zlen in *.
  pose proof (Z.mod_pos_bound (read_pointer f + i) (n_elements f)). lia.
Qed.

Lemma count_store f x :
  fifo_wf f → full f = false → fifo_wf (store f x) ∧ count (store f x) = count f + 1.
Proof.
  intros (Hn & Hl & Hr & Hw & Hfl) Hf. split.
  - pose proof (Z.mod_pos_bound (write_pointer f + 1) (n_elements f) ltac:(lia)).
    unfold fifo_wf, store, zlen in *. simpl. rewrite length_insert.
    split_and!; lia.
  - unfold count, store. simpl. rewrite Hf.
    rewrite succ_mod by lia. rewrite (diff_mod (write_pointer f)) by lia.
    destruct (decide (write_pointer f + 1 < n_elements f)).
    + destruct (Z.eqb_spec (write_pointer f + 1) (read_pointer f)); [case_decide; lia|].
      rewrite diff_mod by lia. repeat case_decide; lia.
    + destruct (Z.eqb_spec 0 (read_pointer f)); [case_decide; lia|].
      rewrite diff_mod by lia. repeat case_decide; lia.
Qed.

Lemma store_rep f q x : fifo_rep f q → full f = false → fifo_rep (store f x) (q ++ [x]).
Proof.
  intros (Hwf & Hc & Hi & Hs) Hf. destruct (count_store f x Hwf Hf) as [Hwf' Hc'].
  pose proof (count_bound f Hwf) as Hb. pose proof (count_full_iff f Hwf) as Hfull.
  assert (count f ≠ n_elements f) by (rewrite <- Hfull, Hf; done).
  split_and!; [done| | |].
  - rewrite zlen_app. change (zlen [x]) with 1. lia.
  - rewrite zlen_app. change (zlen [x]) with 1. simpl. rewrite Hi.
    destruct Hwf as (Hn & _). zlia.
  - intros i y Hy. change (slot (store f x) (Z.of_nat i)) with (slot f (Z.of_nat i)).
    simpl. rewrite (write_slot f Hwf Hf).
    destruct (decide (i < length q)%nat) as [D|D].
    + rewrite lookup_app_l in Hy by done. rewrite list_lookup_insert_ne; [by apply Hs|].
      intros E. apply slot_inj in E; [|done| |]; unfold zlen in *; lia.
    + assert (i = length q) as ->.
      { apply lookup_lt_Some in Hy. rewrite length_app in Hy. simpl in Hy. lia. }
      rewrite lookup_app_r, Nat.sub_diag in Hy by lia. injection Hy as <-.
      replace (Z.of_nat (length q)) with (count f) by (unfold zlen in *; lia).
      apply list_lookup_insert_eq. by apply slot_range.
Qed.

Lemma fetch_rep f x q :
  fifo_rep f (x :: q) → ∃ f', fetch f = Ok (x, f') ∧ fifo_rep f' q ∧
    n_elements f' = n_elements f ∧ interrupted f' = interrupted f.
Proof.
  intros (Hwf & Hc & Hi & Hs). pose proof (Hs O x eq_refl) as H0. unfold fetch.
  pose proof (count_bound f Hwf) as Hb.
  unfold slot in H0. rewrite Z.add_0_r in H0. destruct Hwf as (Hn & Hl & Hr & Hw & Hfl).
  rewrite Z.mod_small in H0 by lia. rewrite H0. eexists. split; [done|].
  rewrite zlen_cons in *. pose proof (zlen_nonneg q). split; [|done].
  unfold fifo_rep. split; [|split; [|split]]; simpl.
  - pose proof (Z.mod_pos_bound (read_pointer f + 1) (n_elements f) ltac:(lia)).
    split_and!; simpl; (done || lia).
  - unfold count in *. simpl. rewrite succ_mod by lia. rewrite (diff_mod (write_pointer f)) in Hc by lia.
    destruct (full f); [specialize (Hfl eq_refl)|];
      destruct (decide (read_pointer f + 1 < n_elements f)); rewrite diff_mod by lia;
      repeat case_decide; lia.
  - rewrite Hi. zlia.
  - intros i y Hy. specialize (Hs (S i) y Hy). rewrite <- Hs. unfold slot. simpl.
    rewrite Zplus_mod_idemp_l. do 3 f_equal. lia.
Qed.
End Refinement.

(** ** What the users of a queue rely on *)

(** A queue of [T]s: its contents oldest first, its capacity, and whether it
    was interrupted. *)
Class BoundedQueue (T Q : Type) := {
  q_rep : Q → list T → Prop;
  q_capacity : Q → Z;
  q_interrupted : Q → bool;
  q_try_put : Q → T → bool * Q;
  q_get_waits : Q → bool;
  q_get : Q → res (option T * Q);
  (** an element is accepted, at the end, exactly when there is room *)
  q_try_put_spec s q x : q_rep s q →
    q_rep (q_try_put s x).2 (if (q_try_put s x).1 then q ++ [x] else q) ∧
    ((q_try_put s x).1 = true ↔ zlen q < q_capacity s) ∧
    q_capacity (q_try_put s x).2 = q_capacity s ∧
    q_interrupted (q_try_put s x).2 = q_interrupted s;
  (** a reader waits exactly when the queue is empty and not interrupted *)
  q_get_waits_spec s q : q_rep s q → q_get_waits s = true ↔ q = [] ∧ q_interrupted s = false;
  (** and then gets the oldest element, or nothing after an interrupt *)
  q_get_spec s q : q_rep s q → q_get_waits s = false →
    match q, q_interrupted s with
    | _, true => q_get s = Ok (None, s)
    | x :: q', false => ∃ s', q_get s = Ok (Some x, s') ∧ q_rep s' q' ∧
        q_capacity s' = q_capacity s ∧ q_interrupted s' = false
    | [], false => False
    end;
  q_bound s q : q_rep s q → zlen q ≤ q_capacity s;
}.

Section Instance_.
Context {T : Type}.
Implicit Types (f : fifo T) (q : list T).

Lemma full_iff f q : fifo_rep f q → full f = true ↔ zlen q = n_elements f.
Proof. intros (Hwf & -> & _). by apply count_full_iff. Qed.

Lemma try_put_spec f q x :
  fifo_rep f q →
  fifo_rep (try_put f x).2 (if (try_put f x).1 then q ++ [x] else q) ∧
  ((try_put f x).1 = true ↔ zlen q < n_elements f) ∧
  n_elements (try_put f x).2 = n_elements f ∧ interrupted (try_put f x).2 = interrupted f.
Proof.
  intros Hr. pose proof (full_iff f q Hr) as Hfull. pose proof Hr as (Hwf & Hc & _).
  pose proof (count_bound f Hwf). unfold try_put. destruct (full f) eqn:Hf; simpl.
  - assert (zlen q = n_elements f) by (by apply Hfull).
    split_and!; [exact Hr|split; [done|lia]|done|done].
  - split_and!; [by apply store_rep| |done|done].
    assert (zlen q ≠ n_elements f) by (rewrite <- Hfull; done). split; [lia|done].
Qed.

Lemma get_waits_spec f q : fifo_rep f q → get_waits f = true ↔ q = [] ∧ interrupted f = false.
Proof.
  intros (Hwf & Hc & _). unfold get_waits. rewrite !andb_true_iff, !negb_true_iff, Z.eqb_eq.
  pose proof Hwf as (Hn & _ & Hr & Hw & _).
  assert (q = [] ↔ count f = 0) as ->.
  { rewrite <- Hc. destruct q; [done|]. rewrite zlen_cons. pose proof (zlen_nonneg q). split; [done|lia]. }
  unfold count. destruct (full f) eqn:Hf; [split; [by intros [[_ ?] _]|lia]|].
  split; [intros [[E _] ?]; rewrite E, Z.sub_diag; done|]. intros [E ?].
  split_and!; try done. rewrite diff_mod in E by lia. case_decide; lia.
Qed.

#[global] Program Instance fifo_queue : BoundedQueue T (fifo T) := {|
  q_rep := fifo_rep; q_capacity := n_elements; q_interrupted := interrupted;
  q_try_put := try_put; q_get_waits := get_waits; q_get := get_commit;
|}.
Next Obligation. intros. by apply try_put_spec. Qed.
Next Obligation. intros. by apply get_waits_spec. Qed.
Next Obligation.
  intros f q Hr Hw. simpl in *. assert (¬ (q = [] ∧ interrupted f = false)) as Hne
    by (rewrite <- get_waits_spec by done; congruence).
  unfold get_commit. destruct (interrupted f) eqn:Hi; [by destruct q|].
  destruct q as [|x q]; [tauto|].
  destruct (fetch_rep f x q Hr) as (f' & -> & ? & ? & ?). exists f'. split_and!; (done || congruence).
Qed.
Next Obligation. intros f q (Hwf & -> & _). simpl. by apply count_bound. Qed.
End Instance_.

(** ** Threads using one queue *)

(** The critical sections of the threads that share a queue. *)
Inductive fifo_step {T} : fifo T → list T → list T → fifo T → Prop :=
  | step_put_enter f :
      fifo_step f [] [] (put_enter f)
  | step_put f x :
      put_ready f = true → fifo_step f [x] [] (put_commit f x)
  | step_try_put f x :
      fifo_step f (if (try_put f x).1 then [x] else []) [] (try_put f x).2
  | step_get f r f' :
      get_waits f = false → get_commit f = Ok (r, f') → fifo_step f [] (option_list r) f'
  | step_get_ms f ok r f' :
      (ok = true → get_waits f = false) → get_ms_commit f ok = Ok (r, f') →
      fifo_step f [] (option_list r) f'
  | step_interrupt f :
      fifo_step f [] [] (interrupt f).

(** [fifo_run f ins outs f']: from [f] to [f'], the elements [ins] were accepted
    and the elements [outs] were handed out, in these orders. *)
Inductive fifo_run {T} : fifo T → list T → list T → fifo T → Prop :=
  | run_refl f : fifo_run f [] [] f
  | run_step f i1 o1 f1 i2 o2 f2 :
      fifo_run f i1 o1 f1 → fifo_step f1 i2 o2 f2 → fifo_run f (i1 ++ i2) (o1 ++ o2) f2.

Section Threads.
Context {T : Type}.
Implicit Types (f : fifo T) (q : list T).

Lemma count_full_rep f q : fifo_rep f q → fifo_rep (count_full f) q.
Proof. done. Qed.
Lemma interrupt_rep f q : fifo_rep f q → fifo_rep (interrupt f) q.
Proof. done. Qed.

Lemma fetch_step f q r f' :
  fifo_rep f q → interrupted f = false → get_waits f = false →
  (let* '(copy, f') := fetch f in Ok (Some copy, f')) = Ok (r, f') →
  ∃ q', fifo_rep f' q' ∧ q = option_list r ++ q' ∧ n_elements f' = n_elements f.
Proof.
  intros Hr Hi Hw E. destruct q as [|x q].
  - exfalso. rewrite (proj2 (get_waits_spec f [] Hr)) in Hw; done.
  - destruct (fetch_rep f x q Hr) as (f1 & E1 & ? & ? & _). rewrite E1 in E.
    cbn [res_bind] in E. injection E as <- <-. by exists q.
Qed.

Lemma fifo_step_rep f q ins outs f' :
  fifo_rep f q → fifo_step f ins outs f' →
  ∃ q', fifo_rep f' q' ∧ q ++ ins = outs ++ q' ∧ n_elements f' = n_elements f.
Proof.
  intros Hr Hs. inversion Hs as [f0|f0 x Hp|f0 x|f0 r f1 Hw E|f0 ok r f1 Hw E|f0]; subst.
  - exists q. unfold put_enter. rewrite app_nil_r. by destruct (full f).
  - exists (q ++ [x]). split_and!; [|done|done]. apply store_rep; [done|].
    unfold put_ready in Hp. by apply negb_true_iff.
  - destruct (try_put_spec f q x Hr) as (H & _ & ? & _).
    eexists. split_and!; [exact H| |done]. destruct (try_put f x).1; [done|by rewrite app_nil_r].
  - unfold get_commit in E. rewrite app_nil_r. destruct (interrupted f) eqn:Hi.
    + injection E as <- <-. by exists q.
    + by apply (fetch_step f q).
  - unfold get_ms_commit in E. rewrite app_nil_r. destruct (interrupted f) eqn:Hi; [|destruct ok].
    + injection E as <- <-. by exists q.
    + apply (fetch_step f q); auto.
    + injection E as <- <-. by exists q.
  - exists q. by rewrite app_nil_r.
Qed.

Lemma fifo_run_rep f q ins outs f' :
  fifo_rep f q → fifo_run f ins outs f' →
  ∃ q', fifo_rep f' q' ∧ q ++ ins = outs ++ q' ∧ n_elements f' = n_elements f.
Proof.
  intros Hr Hrun. induction Hrun as [f|f i1 o1 f1 i2 o2 f2 _ IH Hs].
  - exists q. by rewrite app_nil_r.
  - destruct (IH Hr) as (q1 & Hr1 & E1 & N1).
    destruct (fifo_step_rep f1 q1 i2 o2 f2 Hr1 Hs) as (q2 & Hr2 & E2 & N2).
    exists q2. split_and!; [done| |congruence].
    by rewrite app_assoc, E1, <- app_assoc, E2, app_assoc.
Qed.
End Threads.

(** C3: for every interleaving of [put], [try_put], [get], [get(ms)] and
    [interrupt] by any number of threads, starting from a new queue of [n]
    slots: the elements handed out are a prefix of the elements accepted, in
    the same order (nothing is lost, duplicated or reordered), and at most
    [n] accepted elements are waiting. *)
Theorem fifo_order {T} n (f : fifo T) ins outs :
  0 < n < 2147483648 → fifo_run (new_fifo n) ins outs f →
  ∃ q, fifo_rep f q ∧ ins = outs ++ q ∧ zlen q ≤ n.
Proof.
  intros Hn Hrun. destruct (fifo_run_rep _ [] _ _ _ (new_fifo_rep n Hn) Hrun) as (q & Hr & E & N).
  exists q. split_and!; [done|done|]. pose proof Hr as (Hwf & -> & _).
  pose proof (count_bound f Hwf). simpl in N. lia.
Qed.

Lemma fifo_order_witness :
  ∃ q, fifo_rep (try_put (try_put (new_fifo 2) 7).2 8).2 q ∧ [7; 8] = [] ++ q ∧ zlen q ≤ 2.
Proof.
  apply (fifo_order 2); [lia|].
  apply (run_step _ [7] [] (try_put (new_fifo 2) 7).2 [8] []);
    [apply (run_step _ [] [] (new_fifo 2) [7] []); [constructor|]|].
  - apply (step_try_put (new_fifo 2) 7).
  - apply (step_try_put (try_put (new_fifo 2) 7).2 8).
Defined.
