(* ===== verification/Checksum.v ===== *)
(** * Internet checksums (src/network_layer.cpp, src/transport_layer.cpp)

    [ip_checksum] and [tcp_udp_checksum] with the pseudo headers for IPv4 and
    IPv6.  The results: the code computes the one's complement checksum of RFC
    1071, and a packet in which the computed checksum was stored is accepted by
    a receiver that checks it, also when source and destination are swapped in
    the pseudo header (as [tcp::send_segment] and [udp::transmit_packet] do). *)
From S2P Require Import Prelude AnyAddr.

(** ** The code *)

(** [cksum += htons(p[i])] for [n] words; [uint16_t] loads on a little-endian host *)
Fixpoint sum_words (n : nat) (p : list Z) (cksum : Z) : res Z :=
  match n with
  | O => Ok cksum
  | S n' =>
      let* a := rd p 0 in
      let* b := rd p 1 in
      sum_words n' (ptr_at p 2) (u32 (cksum + join16 a b))
  end.

Definition ip_checksum (p : list Z) (n : Z) : res Z :=
  let* cksum := sum_words (Z.to_nat n) p 0 in
  let cksum := u32 (Z.shiftr cksum 16 + Z.land cksum 0xffff) in
  let cksum := u32 (cksum + Z.shiftr cksum 16) in
  Ok (u16 (Z.lnot cksum)).

(** the pseudo header, the segment and one byte of padding when [len] is odd *)
Definition pseudo_ipv6 (src dst : list Z) (tcp : bool) (len : Z) : list Z :=
  src ++ dst ++ be32 len ++ [0; 0; 0] ++ [if tcp then 0x06 else 0x11].
Definition pseudo_ipv4 (src dst : list Z) (tcp : bool) (len : Z) : list Z :=
  src ++ dst ++ [0] ++ [if tcp then 0x06 else 0x11] ++ be16 len.

Definition tcp_udp_checksum (src_addr dst_addr : any_addr) (tcp : bool) (tcp_payload : list Z) (len : Z)
  : res Z :=
  match get_family dst_addr with
  | ipv6 =>
      let* s := get_exp src_addr 16 in
      let* d := get_exp dst_addr 16 in
      let* data := rd_range tcp_payload 0 len in
      let temp := pseudo_ipv6 s d tcp len ++ data ++ replicate (Z.to_nat (Z.land len 1)) 0 in
      let temp_len := 40 + len + Z.land len 1 in
      ip_checksum temp (temp_len / 2)
  | ipv4 =>
      let* s := get_exp src_addr 4 in
      let* d := get_exp dst_addr 4 in
      let* data := rd_range tcp_payload 0 len in
      let temp := pseudo_ipv4 s d tcp len ++ data ++ replicate (Z.to_nat (Z.land len 1)) 0 in
      let temp_len := 12 + len + Z.land len 1 in
      ip_checksum temp (temp_len / 2)
  | _ => Ok 0
  end.

(** ** RFC 1071 *)

(** one's complement addition of 16-bit words *)
Definition oc_add (a b : Z) : Z := if 65535 <? a + b then a + b - 65535 else a + b.

(** the big-endian words of a packet; a last odd byte is the high byte of a word *)
Fixpoint words (l : list Z) : list Z :=
  match l with
  | a :: b :: l' => (a * 256 + b) :: words l'
  | [a] => [a * 256]
  | [] => []
  end.

Definition rfc1071 (l : list Z) : Z := 65535 - foldl oc_add 0 (words l).

Definition wsum (l : list Z) : Z := foldr Z.add 0 (words l).

(** the value of the folded sum *)
Definition norm (s : Z) : Z := if s =? 0 then 0 else (s - 1) mod 65535 + 1.

Lemma words_ind (P : list Z → Prop) :
  P [] → (∀ a, P [a]) → (∀ a b l, P l → P (a :: b :: l)) → ∀ l, P l.
Proof.
  intros H0 H1 H2. fix IH 1. intros [|a [|b l]]; [done|apply H1|]. apply H2, IH.
Qed.

Lemma words_range l : bytes_ok l → Forall (λ w, 0 ≤ w ≤ 65535) (words l).
Proof.
  induction l as [|a|a b l IH] using words_ind; intros Hb; simpl; [constructor| |].
  - apply Forall_cons in Hb as [Ha _]. repeat constructor; zlia.
  - apply Forall_cons in Hb as [Ha [Hb HB]%Forall_cons].
    constructor; [zlia|by apply IH].
Qed.

Lemma length_words l : (length (words l) = (length l + 1) / 2)%nat.
Proof.
  induction l as [|a|a b l IH] using words_ind; [done|done|]. cbn [words length]. rewrite IH.
  replace (S (S (length l)) + 1)%nat with (length l + 1 + 1 * 2)%nat by lia.
  rewrite Nat.div_add; lia.
Qed.

Lemma words_app_even l k : Nat.even (length l) = true → words (l ++ k) = words l ++ words k.
Proof.
  induction l as [|a|a b l IH] using words_ind; intros He; [done|done|].
  simpl in *. by rewrite IH.
Qed.

Lemma wsum_app_even l k : Nat.even (length l) = true → wsum (l ++ k) = wsum l + wsum k.
Proof.
  intros He. unfold wsum. rewrite words_app_even by done.
  induction (words l) as [|w ws IH]; simpl; [done|]. lia.
Qed.

Lemma foldr_sum_bound ws :
  Forall (λ w, 0 ≤ w ≤ 65535) ws → 0 ≤ foldr Z.add 0 ws ≤ 65535 * zlen ws.
Proof.
  induction 1 as [|w ws Hw _ IH]; [done|]. rewrite zlen_cons. simpl. lia.
Qed.

Lemma wsum_bound l : bytes_ok l → 0 ≤ wsum l ≤ 65535 * ((zlen l + 1) / 2).
Proof.
  intros HB. unfold wsum. pose proof (foldr_sum_bound _ (words_range l HB)) as H.
  unfold zlen in *. rewrite length_words in H.
  rewrite Nat2Z.inj_div in H. replace (Z.of_nat (length l) + 1) with (Z.of_nat (length l + 1)) by lia. done.
Qed.

Lemma norm_range s : 0 ≤ s → 0 ≤ norm s ≤ 65535.
Proof. intros. unfold norm. destruct (Z.eqb_spec s 0); [lia|]. zlia. Qed.

Lemma oc_add_norm s w : 0 ≤ s → 0 ≤ w ≤ 65535 → oc_add (norm s) w = norm (s + w).
Proof.
  intros Hs Hw. pose proof (norm_range s Hs). unfold oc_add, norm in *.
  destruct (Z.eqb_spec s 0), (Z.eqb_spec (s + w) 0);
    match goal with |- context [65535 <? ?x] => destruct (Z.ltb_spec 65535 x) end; zlia.
Qed.

Lemma foldl_oc_add ws s :
  Forall (λ w, 0 ≤ w ≤ 65535) ws → 0 ≤ s → foldl oc_add (norm s) ws = norm (s + foldr Z.add 0 ws).
Proof.
  intros HF. revert s. induction HF as [|w ws Hw _ IH]; intros s Hs; simpl; [f_equal; lia|].
  rewrite oc_add_norm, IH by lia. f_equal. lia.
Qed.

Lemma rfc1071_norm l : bytes_ok l → rfc1071 l = 65535 - norm (wsum l).
Proof.
  intros HB. unfold rfc1071, wsum. change 0 with (norm 0) at 1.
  by rewrite foldl_oc_add by (try apply words_range; done || lia).
Qed.

(** ** The code computes it *)

Lemma sum_words_spec n p c :
  bytes_ok p → zlen p = 2 * Z.of_nat n → 0 ≤ c → c + wsum p < 4294967296 →
  sum_words n p c = Ok (c + wsum p).
Proof.
  revert p c. induction n as [|n IH]; intros p c HB Hl Hc Hs.
  - destruct p; [|rewrite zlen_cons in Hl; pose proof (zlen_nonneg p); lia]. unfold wsum. simpl. f_equal. lia.
  - destruct p as [|a [|b p]]; rewrite ?zlen_cons in Hl; [done|change (zlen []) with 0 in Hl; lia|].
    apply Forall_cons in HB as [Ha [Hb HB]%Forall_cons].
    change (wsum (a :: b :: p)) with (a * 256 + b + wsum p) in *.
    pose proof (wsum_bound p HB).
    change (sum_words (S n) (a :: b :: p) c) with (sum_words n (drop 0 p) (u32 (c + join16 a b))).
    rewrite drop_0, join16_eq by done. unfold byte_ok in *.
    rewrite u32_id by lia. rewrite IH by (done || lia). f_equal. lia.
Qed.

(** only the first [n] words are read *)
Lemma sum_words_app n a b c :
  length a = (2 * n)%nat → sum_words n (a ++ b) c = sum_words n a c.
Proof.
  revert a c. induction n as [|n IH]; intros a c La; [done|].
  destruct a as [|x [|y a]]; [simpl in La; lia|simpl in La; lia|].
  cbn [sum_words]. unfold rd, ptr_at. simpl. rewrite !drop_0. apply IH. simpl in La. lia.
Qed.

Lemma ip_checksum_app a b n : zlen a = 2 * n → ip_checksum (a ++ b) n = ip_checksum a n.
Proof. intros La. unfold ip_checksum. rewrite sum_words_app; [done|]. unfold zlen in La. lia. Qed.

Lemma fold_norm s :
  0 ≤ s < 4294967296 →
  let c := u32 (Z.shiftr s 16 + Z.land s 0xffff) in
  u16 (Z.lnot (u32 (c + Z.shiftr c 16))) = 65535 - norm s.
Proof.
  intros Hs. cbv zeta. change (Z.land s 65535) with (Z.land s (Z.ones 16)). rewrite Z.land_ones by lia. unfold Z.lnot.
  unfold norm, u32, u16. rewrite !Z.shiftr_div_pow2 by lia. change (2 ^ 16) with 65536.
  destruct (Z.eqb_spec s 0) as [->|]; [done|]. rewrite <- Z.sub_1_r.
  set (hi := s / 65536). set (lo := s mod 65536).
  assert (s = 65536 * hi + lo ∧ 0 ≤ lo < 65536 ∧ 0 ≤ hi < 65536) as (E & ? & ?)
    by (unfold hi, lo; Z.to_euclidean_division_equations; lia).
  clearbody hi lo. subst s. rewrite (Z.mod_small (hi + lo)) by lia.
  replace (65536 * hi + lo - 1) with (hi + lo - 1 + hi * 65535) by lia.
  rewrite Z.mod_add by lia. destruct (decide (hi + lo < 65536)).
  - rewrite (Z.div_small (hi + lo)), Z.add_0_r by lia.
    rewrite (Z.mod_small (hi + lo)), (Z.mod_small (hi + lo - 1)) by lia.
    symmetry. apply Z.mod_unique with (-1); lia.
  - assert ((hi + lo) / 65536 = 1) as -> by (symmetry; apply Z.div_unique with (hi + lo - 65536); lia).
    assert ((hi + lo - 1) mod 65535 = hi + lo - 65536) as ->
      by (symmetry; apply Z.mod_unique with 1; lia).
    rewrite (Z.mod_small (hi + lo + 1)) by lia. symmetry. apply Z.mod_unique with (-2); lia.
Qed.

Lemma ip_checksum_norm p n :
  bytes_ok p → zlen p = 2 * n → n ≤ 65536 → ip_checksum p n = Ok (65535 - norm (wsum p)).
Proof.
  intros HB Hl Hn. pose proof (zlen_nonneg p). pose proof (wsum_bound p HB) as HW.
  assert ((zlen p + 1) / 2 = n) as Hd by (Z.to_euclidean_division_equations; lia). rewrite Hd in HW.
  unfold ip_checksum. rewrite sum_words_spec by (try done; lia). cbn [res_bind]. f_equal.
  rewrite Z.add_0_l. apply fold_norm. lia.
Qed.

(** [ip_checksum] over [n] 16-bit words is the RFC 1071 checksum of these
    bytes, for every buffer of up to 65536 words (an IP packet has at most
    32768): the 32-bit accumulator does not overflow and two folds suffice. *)
Theorem ip_checksum_rfc1071 p n :
  bytes_ok p → zlen p = 2 * n → n ≤ 65536 → ip_checksum p n = Ok (rfc1071 p).
Proof. intros. by rewrite rfc1071_norm, ip_checksum_norm. Qed.

Lemma ip_checksum_rfc1071_witness :
  ip_checksum [69; 0; 0; 60; 255; 255; 255; 255] 4 = Ok (rfc1071 [69; 0; 0; 60; 255; 255; 255; 255]).
Proof. apply ip_checksum_rfc1071; [solve_bytes|reflexivity|lia]. Defined.

(** ** A stored checksum verifies *)

(** the two bytes at an even offset replaced by a 16-bit value *)
Definition put16 (p : list Z) (k : nat) (c : Z) : list Z :=
  take k p ++ be16 c ++ drop (k + 2) p.

Lemma words_be16 c : 0 ≤ c < 65536 → wsum (be16 c) = c.
Proof. intros. unfold wsum. simpl. zlia. Qed.

Lemma wsum_put16 p k c :
  Nat.even k = true → (k + 2 ≤ length p)%nat → 0 ≤ c < 65536 → take 2 (drop k p) = [0; 0] →
  wsum (put16 p k c) = wsum p + c.
Proof.
  intros Hk Hl Hc Hz. assert (length (take k p) = k) as Hlk by (rewrite length_take; lia).
  unfold put16. rewrite wsum_app_even, wsum_app_even, words_be16 by (rewrite ?Hlk; done).
  rewrite <- (take_drop k p) at 3. rewrite <- (take_drop 2 (drop k p)), Hz, drop_drop.
  rewrite wsum_app_even, wsum_app_even by (rewrite ?Hlk; done).
  change (wsum [0; 0]) with 0. lia.
Qed.

Lemma length_put16 p k c : (k + 2 ≤ length p)%nat → length (put16 p k c) = length p.
Proof. intros. unfold put16. rewrite !length_app, length_take, length_drop. simpl. lia. Qed.

Lemma put16_bytes_ok p k c : bytes_ok p → bytes_ok (put16 p k c).
Proof. intros. unfold put16. auto with myip. Qed.

Lemma norm_complete s : 0 ≤ s → norm (s + (65535 - norm s)) = 65535.
Proof.
  intros Hs. unfold norm at 2. destruct (Z.eqb_spec s 0) as [->|]; [done|].
  pose proof (Z.mod_pos_bound (s - 1) 65535). pose proof (Z.div_mod (s - 1) 65535).
  unfold norm. rewrite (proj2 (Z.eqb_neq _ 0)) by lia.
  replace (s + (65535 - ((s - 1) mod 65535 + 1)) - 1)
    with (65534 + ((s - 1) / 65535) * 65535) by lia.
  rewrite Z.mod_add by lia. done.
Qed.

(** The sum of the words around the stored checksum, [pre] being a pseudo header. *)
Lemma stored_checksum pre p k c :
  bytes_ok pre → bytes_ok p → Nat.even (length pre) = true → Nat.even k = true →
  (k + 2 ≤ length p)%nat → take 2 (drop k p) = [0; 0] → c = 65535 - norm (wsum (pre ++ p)) →
  norm (wsum (pre ++ put16 p k c)) = 65535.
Proof.
  intros HB1 HB2 He Hk Hl Hz ->. pose proof (wsum_bound _ (bytes_ok_app _ _ HB1 HB2)) as [Hnn _].
  pose proof (norm_range _ Hnn).
  rewrite (wsum_app_even pre (put16 _ _ _)), wsum_put16 by (done || lia).
  rewrite Z.add_assoc, <- wsum_app_even by done. by apply norm_complete.
Qed.

(** the segment with its padding byte *)
Definition padded (data : list Z) : list Z := data ++ replicate (Z.to_nat (Z.land (zlen data) 1)) 0.

(** a checksum stored in place of two zero bytes makes the sum verify *)
Lemma put16_verifies p k n :
  bytes_ok p → zlen p = 2 * n → n ≤ 65536 → Nat.even k = true → (k + 2 ≤ length p)%nat →
  take 2 (drop k p) = [0; 0] → ip_checksum (put16 p k (65535 - norm (wsum p))) n = Ok 0.
Proof.
  intros HB Hl Hn Hk Hkl Hz.
  rewrite ip_checksum_norm; [|by apply put16_bytes_ok|unfold zlen in *; rewrite length_put16; lia|done].
  pose proof (stored_checksum [] p k (65535 - norm (wsum p)) (Forall_nil_2 _) HB eq_refl Hk Hkl Hz eq_refl) as Hv.
  simpl app in Hv. by rewrite Hv.
Qed.

Lemma land_1 x : Z.land x 1 = x mod 2.
Proof. change 1 with (Z.ones 1) at 1. by rewrite Z.land_ones. Qed.

Lemma padded_even data : zlen (padded data) mod 2 = 0 ∧ zlen (padded data) ≤ zlen data + 1.
Proof.
  unfold padded. rewrite zlen_app, land_1. unfold zlen. rewrite length_replicate.
  Z.to_euclidean_division_equations; lia.
Qed.

Lemma wsum_padded pre data :
  Nat.even (length pre) = true → wsum (pre ++ padded data) = wsum (pre ++ data).
Proof.
  intros He. rewrite !wsum_app_even by done. f_equal. unfold padded. rewrite land_1. unfold zlen, wsum.
  f_equal. induction data as [|a|a b l IH] using words_ind; [done|simpl; f_equal; lia|].
  cbn [length app words]. f_equal. rewrite <- IH. do 4 f_equal.
  rewrite !Nat2Z.inj_succ. Z.to_euclidean_division_equations; lia.
Qed.

Definition pseudo (f : addr_family) (src dst : list Z) (tcp : bool) (len : Z) : list Z :=
  match f with ipv6 => pseudo_ipv6 src dst tcp len | _ => pseudo_ipv4 src dst tcp len end.

(** an IP address that can be used in a pseudo header *)
Definition ip_addr (f : addr_family) (a : any_addr) : Prop := good a ∧ af a = f ∧ (f = ipv4 ∨ f = ipv6).

Lemma pseudo_shape f src dst tcp len :
  ip_addr f src → ip_addr f dst →
  let p := pseudo f (key src).2 (key dst).2 tcp len in
  bytes_ok p ∧ zlen p = (match f with ipv6 => 40 | _ => 12 end).
Proof.
  intros (Hs & Hfs & Hf) (Hd & Hfd & _). cbv zeta.
  pose proof (length_key src Hs) as Ls. pose proof (length_key dst Hd) as Ld.
  pose proof (key_bytes_ok src Hs). pose proof (key_bytes_ok dst Hd).
  rewrite Hfs in Ls. rewrite Hfd in Ld.
  assert (byte_ok (if tcp then 6 else 17)) by (destruct tcp; unfold byte_ok; lia).
  destruct Hf as [-> | ->]; simpl in Ls, Ld |- *; unfold pseudo_ipv4, pseudo_ipv6, zlen.
  - rewrite !length_app, Ls, Ld. split; [|done].
    repeat apply bytes_ok_app; auto with myip; solve_bytes.
  - rewrite !length_app, Ls, Ld. split; [|done].
    repeat apply bytes_ok_app; auto with myip; solve_bytes.
Qed.

Lemma even_of_mod (l : list Z) : zlen l mod 2 = 0 → Nat.even (length l) = true.
Proof.
  unfold zlen. intros H. rewrite Nat.even_spec.
  exists (Z.to_nat (Z.of_nat (length l) / 2)).
  Z.to_euclidean_division_equations; lia.
Qed.

Lemma tcp_udp_checksum_norm f src dst tcp data :
  ip_addr f src → ip_addr f dst → bytes_ok data → zlen data ≤ 65535 →
  tcp_udp_checksum src dst tcp data (zlen data) =
    Ok (65535 - norm (wsum (pseudo f (key src).2 (key dst).2 tcp (zlen data) ++ data))).
Proof.
  intros Hs Hd HB Hl. destruct (pseudo_shape f src dst tcp (zlen data) Hs Hd) as [HP Hpl].
  destruct (padded_even data) as [He Hle]. pose proof (zlen_nonneg data).
  assert (bytes_ok (padded data)) as HBp.
  { unfold padded. apply bytes_ok_app; [done|]. apply bytes_ok_replicate. unfold byte_ok. lia. }
  assert (Nat.even (length (pseudo f (key src).2 (key dst).2 tcp (zlen data))) = true) as Hev.
  { apply even_of_mod. rewrite Hpl. by destruct f. }
  rewrite <- wsum_padded by done.
  assert (zlen (padded data) = zlen data + Z.land (zlen data) 1) as Hpz.
  { unfold padded. rewrite zlen_app. unfold zlen at 2. rewrite length_replicate, land_1.
    Z.to_euclidean_division_equations; lia. }
  assert (rd_range data 0 (zlen data) = Ok data) as Hrd.
  { rewrite rd_range_Ok by lia. rewrite drop_0. f_equal. apply take_ge. unfold zlen. lia. }
  destruct Hs as (Gs & Fs & Hf), Hd as (Gd & Fd & _).
  unfold tcp_udp_checksum, get_family. rewrite Fd.
  destruct Hf as [-> | ->]; rewrite !get_exp_good by (done || rewrite ?Fs, ?Fd; done);
    cbn [res_bind]; rewrite Hrd; cbn [res_bind pseudo] in *; apply ip_checksum_norm;
    rewrite ?zlen_app; auto with myip; fold (padded data); rewrite ?zlen_app;
    Z.to_euclidean_division_equations; lia.
Qed.

(** source and destination may be swapped in the pseudo header *)
Lemma wsum_pseudo_swap f src dst tcp len :
  ip_addr f src → ip_addr f dst →
  wsum (pseudo f (key src).2 (key dst).2 tcp len) = wsum (pseudo f (key dst).2 (key src).2 tcp len).
Proof.
  intros (Hs & Hfs & Hf) (Hd & Hfd & _).
  pose proof (length_key src Hs) as Ls. pose proof (length_key dst Hd) as Ld.
  rewrite Hfs in Ls. rewrite Hfd in Ld.
  assert (Nat.even (Z.to_nat (family_size f)) = true) as He by (by destruct Hf as [-> | ->]).
  generalize dependent (key src).2. generalize dependent (key dst).2. intros d Ld s Ls.
  destruct Hf as [-> | ->]; unfold pseudo, pseudo_ipv4, pseudo_ipv6;
    rewrite (wsum_app_even s), (wsum_app_even d), (wsum_app_even d), (wsum_app_even s)
      by congruence; lia.
Qed.

Lemma tcp_udp_stored f src dst tcp p k :
  ip_addr f src → ip_addr f dst → bytes_ok p → zlen p ≤ 65535 →
  Nat.even k = true → (k + 2 ≤ length p)%nat → take 2 (drop k p) = [0; 0] →
  ∃ c, tcp_udp_checksum dst src tcp p (zlen p) = Ok c ∧
       tcp_udp_checksum src dst tcp (put16 p k c) (zlen p) = Ok 0.
Proof.
  intros Hs Hd HB Hl Hk Hkl Hz.
  rewrite (tcp_udp_checksum_norm f dst src) by done. eexists. split; [done|].
  remember (65535 - norm _) as c eqn:Ec.
  assert (zlen (put16 p k c) = zlen p) as Hlen by (unfold zlen; by rewrite length_put16).
  pose proof (put16_bytes_ok p k c HB) as HB'. rewrite <- Hlen.
  rewrite (tcp_udp_checksum_norm f src dst) by (done || lia). rewrite Hlen.
  destruct (pseudo_shape f src dst tcp (zlen p) Hs Hd) as [HP1 HP2].
  destruct (pseudo_shape f dst src tcp (zlen p) Hd Hs) as [HP3 HP4].
  rewrite stored_checksum; try done; [by apply even_of_mod; rewrite HP2; destruct f|].
  rewrite Ec, !wsum_app_even by (apply even_of_mod; rewrite ?HP2, ?HP4; by destruct f).
  by rewrite (wsum_pseudo_swap f src dst).
Qed.

(** a TCP or UDP segment into which the checksum computed by
    [tcp_udp_checksum] was stored, at an even offset [k] that held zeros, is
    accepted by a receiver: recomputing the checksum over the segment gives
    zero.  The sender may have swapped source and destination in the pseudo
    header, as the stack does.  IPv4 and IPv6, every length up to 65535,
    odd lengths included. *)
Theorem stored_checksum_verifies f src dst tcp p k :
  ip_addr f src → ip_addr f dst → bytes_ok p → zlen p ≤ 65535 →
  Nat.even k = true → (k + 2 ≤ length p)%nat → take 2 (drop k p) = [0; 0] →
  ∃ c, tcp_udp_checksum dst src tcp p (zlen p) = Ok c ∧
       tcp_udp_checksum src dst tcp (put16 p k c) (zlen p) = Ok 0.
Proof. apply tcp_udp_stored. Qed.

Lemma ex_v4_ip a b c d :
  byte_ok a → byte_ok b → byte_ok c → byte_ok d → ip_addr ipv4 (ex_v4 a b c d).
Proof.
  intros. split_and!; [|done|by left]. split; [split_and!; [done|solve_bytes|done]|done].
Qed.

Definition ex_segment : list Z := [0; 80; 4; 1; 0; 9; 0; 0; 65].

Lemma stored_checksum_verifies_witness :
  ∃ c, tcp_udp_checksum (ex_v4 10 0 0 2) (ex_v4 10 0 0 1) false ex_segment 9 = Ok c ∧
       tcp_udp_checksum (ex_v4 10 0 0 1) (ex_v4 10 0 0 2) false (put16 ex_segment 6 c) 9 = Ok 0.
Proof.
  apply (stored_checksum_verifies ipv4 (ex_v4 10 0 0 1) (ex_v4 10 0 0 2) false ex_segment 6);
    try (apply ex_v4_ip; unfold byte_ok; lia); try reflexivity; try solve_bytes; vm_compute; (discriminate || lia).
Defined.
