(* ===== verification/Net.v ===== *)
(** * Network helpers, packets and their queues
    (src/net.cpp, src/packet.cpp, src/transport_layer.cpp, src/network_layer.cpp)

    From here on an address is passed around as a value: copying a set address
    gives an address with the same family and bytes ([AnyAddr.assign_spec]) and
    addresses are compared by these ([AnyAddr.compare_to_spec]), so [same_addr]
    stands for [operator==] and a [std::map<any_addr, T>] is a [gmap] on the
    (family, bytes) pairs.  Interfaces ([phys *]) are numbers. *)
From S2P Require Import Prelude AnyAddr Fifo.

#[global] Instance addr_family_countable : Countable addr_family.
Proof.
  refine (inj_countable' family_rank
    (λ z, if decide (z = 0) then ipv4 else if decide (z = 1) then mac
          else if decide (z = 2) then ax25 else ipv6) _).
  by intros [].
Defined.

(** [a == b] of two set addresses *)
Definition same_addr (a b : any_addr) : bool := bool_decide (key a = key b).

Lemma same_addr_is_eqb a b : good a → good b → eqb a b = Ok (same_addr a b).
Proof. intros Ha Hb. unfold eqb. rewrite (proj2 Ha). by apply compare_to_spec. Qed.

(** ** src/net.cpp *)

(** [memcpy(temp, a, n); memcpy(a, b, n); memcpy(b, temp, n);] for [a] and [b] in
    one array *)
Definition swap_range (p : list Z) (a b n : Z) : res (list Z) :=
  let* temp := rd_range p a n in
  let* vb := rd_range p b n in
  let* p := wr_range p a vb in
  wr_range p b temp.

Definition swap_mac (p : list Z) (a b : Z) : res (list Z) := swap_range p a b 6.
Definition swap_ipv4 (p : list Z) (a b : Z) : res (list Z) := swap_range p a b 4.

(** [check_subnet(addr, network, cidr)] *)
Definition check_subnet_cidr (addr network : any_addr) (cidr : Z) : res bool :=
  let* addr_bytes := get_exp addr 16 in
  let* network_bytes := get_exp network 16 in
  let n_bytes := cidr / 8 in
  let* a := rd_range addr_bytes 0 n_bytes in
  let* b := rd_range network_bytes 0 n_bytes in
  if negb (bool_decide (a = b)) then Ok false
  else
    let n_bits := Z.land cidr 7 in
    if n_bits =? 0 then Ok true
    else
      let mask := Z.shiftl 0xff (8 - n_bits) in
      let* x := rd addr_bytes n_bytes in
      let* y := rd network_bytes n_bytes in
      Ok (Z.land x mask =? Z.land y mask).

(** [check_subnet(addr, network, netmask)]; [i] counts up to 4 *)
Fixpoint check_subnet_mask (n : nat) (i : Z) (addr network : any_addr) (netmask : list Z) : res bool :=
  match n with
  | O => Ok true
  | S n' =>
      let* a := at_ addr i in
      let* m := rd netmask i in
      let* w := at_ network i in
      if negb (Z.land a m =? w) then Ok false
      else check_subnet_mask n' (i + 1) addr network netmask
  end.

Definition check_subnet (addr network : any_addr) (netmask : list Z) : res bool :=
  check_subnet_mask 4 0 addr network netmask.

Fixpoint opponent_bytes (n : nat) (i : Z) (my_mac : any_addr) : res (list Z) :=
  match n with
  | O => Ok []
  | S n' =>
      let* b := at_ my_mac i in
      let* rest := opponent_bytes n' (i + 1) my_mac in
      Ok (Z.lxor b (if Z.odd i then 0x55 else 0xaa) :: rest)
  end.

Definition gen_opponent_mac (my_mac : any_addr) : res any_addr :=
  let* src_mac_bin := opponent_bytes 6 0 my_mac in
  mk_addr mac src_mac_bin.

(** ** src/packet.cpp *)

Record packet := Packet {
  pkt_src_mac : any_addr;
  pkt_src : any_addr;
  pkt_dst : any_addr;
  pkt_data : list Z;
  pkt_header : list Z;
  pkt_forwarded : bool;
}.

(** the constructor: [size] bytes of [in_], [header_size] bytes of [header] *)
Definition new_packet (src_mac src dst : any_addr) (in_ : list Z) (size : Z) (header : list Z)
    (header_size : Z) (forwarded : bool) : res packet :=
  let* data := rd_range in_ 0 size in
  let* hdr := rd_range header 0 header_size in
  Ok (Packet src_mac src dst data hdr forwarded).

Definition pkt_size (p : packet) : Z := zlen (pkt_data p).

(** ** Queueing packets *)

Section Queueing.
Context {Q : Type} `{!BoundedQueue packet Q}.

(** [transport_layer::queue_packet]: a packet that does not fit is dropped *)
Definition queue_packet (pkts : Q) (p : packet) : Q := (q_try_put pkts p).2.

(** what waits in the queue afterwards *)
Lemma queue_packet_spec pkts q p :
  q_rep pkts q →
  q_rep (queue_packet pkts p) (if decide (zlen q < q_capacity pkts) then q ++ [p] else q) ∧
  q_capacity (queue_packet pkts p) = q_capacity pkts.
Proof.
  intros Hq. destruct (q_try_put_spec pkts q p Hq) as (Hr & Hb & Hc & _).
  unfold queue_packet. split; [|done]. destruct (q_try_put pkts p) as [[] pkts']; simpl in *.
  - by rewrite decide_True by (apply Hb; done).
  - rewrite decide_False; [done|]. intros ?. assert (false = true) by (by apply Hb). done.
Qed.
End Queueing.

(** [network_layer::queue_incoming_packet] and [mac_resolver::queue_incoming_packet] *)
Definition queue_incoming_packet {Q} `{!BoundedQueue (Z * packet) Q} (pkts : Q) (interface : Z)
    (p : packet) : Q := (q_try_put pkts (interface, p)).2.

(** ** Prefixes *)

(** bit [i] of an address, the most significant one first *)
Definition addr_bit (bytes : list Z) (i : nat) : bool :=
  Z.testbit (nth (i / 8) bytes 0) (Z.of_nat (7 - i mod 8)).

Lemma byte_prefix_bits x y n :
  byte_ok x → byte_ok y → 0 < n < 8 →
  Z.land x (Z.shiftl 0xff (8 - n)) = Z.land y (Z.shiftl 0xff (8 - n)) ↔
  (∀ j, 8 - n ≤ j < 8 → Z.testbit x j = Z.testbit y j).
Proof.
  intros Hx Hy Hn.
  assert (∀ z j, byte_ok z → 8 ≤ j → Z.testbit z j = false) as Hhi.
  { intros z j Hz Hj. rewrite <- (Z.mod_small z (2 ^ 8)) by exact Hz. by apply Z.mod_pow2_bits_high. }
  assert (∀ j, 0 ≤ j → Z.testbit (Z.shiftl 0xff (8 - n)) j =
            bool_decide (8 - n ≤ j < 16 - n)) as Hm.
  { intros j Hj. rewrite Z.shiftl_spec by lia. change 0xff with (Z.ones 8).
    destruct (decide (8 - n ≤ j)); [destruct (decide (j < 16 - n))|].
    - rewrite Z.ones_spec_low by lia. by rewrite bool_decide_eq_true_2 by lia.
    - rewrite Z.ones_spec_high by lia. by rewrite bool_decide_eq_false_2 by lia.
    - rewrite Z.testbit_neg_r by lia. by rewrite bool_decide_eq_false_2 by lia. }
  split.
  - intros E j Hj. apply (f_equal (λ z, Z.testbit z j)) in E.
    rewrite !Z.land_spec, Hm in E by lia. rewrite bool_decide_eq_true_2 in E by lia.
    by rewrite !andb_true_r in E.
  - intros E. apply Z.bits_inj'. intros j Hj. rewrite !Z.land_spec, Hm by lia.
    destruct (decide (8 - n ≤ j < 8)); [by rewrite E|].
    destruct (decide (8 ≤ j)); [by rewrite !Hhi|].
    rewrite bool_decide_eq_false_2 by lia. by rewrite !andb_false_r.
Qed.

Lemma byte_bits x y :
  byte_ok x → byte_ok y → x = y ↔ (∀ j, 0 ≤ j < 8 → Z.testbit x j = Z.testbit y j).
Proof.
  intros Hx Hy. split; [by intros ->|]. intros E. apply Z.bits_inj'. intros j Hj.
  destruct (decide (j < 8)); [apply E; lia|].
  rewrite <- (Z.mod_small x (2 ^ 8)), <- (Z.mod_small y (2 ^ 8)) by done.
  by rewrite !Z.mod_pow2_bits_high by lia.
Qed.

Lemma prefix_bytes_bits a b n :
  length a = 16%nat → length b = 16%nat → bytes_ok a → bytes_ok b → (n ≤ 16)%nat →
  take n a = take n b ↔ (∀ i, (i < 8 * n)%nat → addr_bit a i = addr_bit b i).
Proof.
  intros La Lb Ha Hb Hn. unfold addr_bit.
  assert (∀ k, (k < 16)%nat → byte_ok (nth k a 0) ∧ byte_ok (nth k b 0)) as Hk.
  { intros k Hk. unfold bytes_ok in *. rewrite List.Forall_forall in *.
    split; [apply Ha|apply Hb]; apply nth_In; lia. }
  split.
  - intros E i Hi. assert (i / 8 < n)%nat by (apply Nat.Div0.div_lt_upper_bound; lia).
    f_equal. rewrite <- (firstn_skipn n a), <- (firstn_skipn n b), E.
    rewrite !app_nth1 by (rewrite length_take; lia). done.
  - intros E. apply (nth_ext _ _ 0 0); [rewrite !length_take; lia|].
    intros k Hlk. rewrite length_take in Hlk. rewrite !nth_firstn.
    destruct (Nat.ltb_spec k n); [|lia].
    destruct (Hk k) as [H1 H2]; [lia|]. apply byte_bits; [done|done|]. intros j Hj.
    specialize (E (8 * k + (7 - Z.to_nat j))%nat ltac:(lia)).
    rewrite Nat.mul_comm, Nat.div_add_l, (Nat.div_small (7 - Z.to_nat j)), Nat.add_0_r in E by lia.
    rewrite Nat.add_comm, Nat.Div0.mod_add, Nat.mod_small in E by lia.
    by replace (Z.of_nat (7 - (7 - Z.to_nat j))) with j in E by lia.
Qed.

(** the split of a prefix length into whole bytes and left-over bits *)
Lemma prefix_split_bits a b cidr :
  length a = 16%nat → length b = 16%nat → bytes_ok a → bytes_ok b → 0 ≤ cidr ≤ 128 →
  cidr mod 8 ≠ 0 →
  (∀ i, (i < Z.to_nat cidr)%nat → addr_bit a i = addr_bit b i) ↔
  take (Z.to_nat (cidr / 8)) a = take (Z.to_nat (cidr / 8)) b ∧
  (∀ j, 8 - cidr mod 8 ≤ j < 8 →
     Z.testbit (nth (Z.to_nat (cidr / 8)) a 0) j = Z.testbit (nth (Z.to_nat (cidr / 8)) b 0) j).
Proof.
  intros La Lb Ha Hb Hc Hr.
  assert (cidr = 8 * (cidr / 8) + cidr mod 8 ∧ 0 ≤ cidr / 8 < 16 ∧ 0 < cidr mod 8 < 8) as (E & Hq & Hm)
    by (Z.to_euclidean_division_equations; lia).
  set (q := Z.to_nat (cidr / 8)) in *. rewrite prefix_bytes_bits by (done || lia).
  assert (∀ k, (k < 8)%nat → (8 * q + k) / 8 = q ∧ (8 * q + k) mod 8 = k)%nat as Hdm.
  { intros k Hk. split; symmetry; [apply (Nat.div_unique _ 8 q k)|apply (Nat.mod_unique _ 8 q k)]; lia. }
  split.
  - intros H. split; [intros i Hi; apply H; lia|]. intros j Hj.
    specialize (H (8 * q + (7 - Z.to_nat j))%nat ltac:(lia)). unfold addr_bit in H.
    destruct (Hdm (7 - Z.to_nat j)%nat) as [H1 H2]; [lia|]. rewrite H1, H2 in H.
    by replace (Z.of_nat (7 - (7 - Z.to_nat j))) with j in H by lia.
  - intros [H1 H2] i Hi. destruct (decide (i < 8 * q)%nat); [by apply H1|].
    replace i with (8 * q + (i - 8 * q))%nat by lia. unfold addr_bit.
    destruct (Hdm (i - 8 * q)%nat) as [-> ->]; [lia|]. apply H2. lia.
Qed.

(** For IPv6, [check_subnet(addr, network, cidr)] is true exactly when the
    first [cidr] bits of the two addresses agree, for every prefix length
    from 0 to 128; no byte outside the addresses is read. *)
Lemma check_subnet_cidr_spec a b cidr :
  good a → good b → af a = ipv6 → af b = ipv6 → 0 ≤ cidr ≤ 128 →
  ∃ r, check_subnet_cidr a b cidr = Ok r ∧
    (r = true ↔ ∀ i, (i < Z.to_nat cidr)%nat → addr_bit (key a).2 i = addr_bit (key b).2 i).
Proof.
  intros Ha Hb Fa Fb Hc. unfold check_subnet_cidr.
  rewrite !get_exp_good by (done || rewrite ?Fa, ?Fb; done). cbn [res_bind].
  pose proof (length_key a Ha) as La. pose proof (length_key b Hb) as Lb.
  pose proof (key_bytes_ok a Ha) as Ba. pose proof (key_bytes_ok b Hb) as Bb.
  rewrite Fa in La. rewrite Fb in Lb. generalize dependent (key a).2. generalize dependent (key b).2.
  intros y Ly By x Lx Bx. simpl in Lx, Ly.
  assert (0 ≤ cidr / 8 ≤ 16) by (Z.to_euclidean_division_equations; lia).
  rewrite !rd_range_Ok by (unfold zlen; lia). cbn [res_bind]. rewrite !drop_0.
  assert (Z.land cidr 7 = cidr mod 8) as -> by (apply (Z.land_ones cidr 3); lia).
  destruct (Z.eqb_spec (cidr mod 8) 0) as [Hm|Hm].
  - assert (Z.to_nat cidr = 8 * Z.to_nat (cidr / 8))%nat as Hcn by (Z.to_euclidean_division_equations; lia).
    pose proof (prefix_bytes_bits x y (Z.to_nat (cidr / 8)) Lx Ly Bx By ltac:(lia)) as PB.
    rewrite Hcn. case_bool_decide; simpl; eexists; (split; [done|]); (etrans; [|exact PB]); split; (done || contradiction).
  - pose proof (prefix_split_bits x y cidr Lx Ly Bx By Hc Hm) as PS.
    assert (cidr / 8 < 16) by (Z.to_euclidean_division_equations; lia).
    case_bool_decide as D; simpl; [|exists false; split; [done|]; split; [done|]; intros F; apply PS in F as [? _]; contradiction].
    destruct (rd_in_range x (cidr / 8)) as [u Hu]; [unfold zlen; lia|].
    destruct (rd_in_range y (cidr / 8)) as [v Hv]; [unfold zlen; lia|].
    rewrite Hu, Hv. cbn [res_bind]. eexists. split; [done|]. etrans; [|symmetry; exact PS].
    pose proof (rd_byte_ok _ _ _ Bx Hu). pose proof (rd_byte_ok _ _ _ By Hv).
    apply rd_Ok in Hu as [_ Hu], Hv as [_ Hv].
    rewrite !(nth_lookup_Some _ _ 0 _ Hu), !(nth_lookup_Some _ _ 0 _ Hv).
    rewrite Z.eqb_eq, byte_prefix_bits by (done || (Z.to_euclidean_division_equations; lia)).
    tauto.
Qed.

Definition ex_v6 (a b c d : Z) : any_addr :=
  {| af := ipv6; addr := [a; b; c; d] ++ replicate 12 0; addr_size := 16; set_ := true |}.

(** For IPv4, [check_subnet(addr, network, netmask)] compares the masked address
    with the network. *)
Lemma check_subnet_mask_spec a b m n i :
  good a → good b → af a = ipv4 → af b = ipv4 → length m = 4%nat → (i + n = 4)%nat →
  check_subnet_mask n (Z.of_nat i) a b m =
    Ok (bool_decide (zip_with Z.land (drop i (key a).2) (drop i m) = drop i (key b).2)).
Proof.
  intros Ga Gb Fa Fb Lm. pose proof (length_key a Ga) as La. pose proof (length_key b Gb) as Lb.
  rewrite Fa in La. rewrite Fb in Lb. change (Z.to_nat (family_size ipv4)) with 4%nat in *.
  revert i. induction n as [|n IH]; intros i Hi.
  { rewrite !drop_ge by lia. cbn [zip_with check_subnet_mask]. by rewrite bool_decide_eq_true_2. }
  destruct (at_good a (Z.of_nat i)) as (x & Hx & Lx); [done|rewrite Fa; simpl; lia|].
  destruct (at_good b (Z.of_nat i)) as (y & Hy & Ly); [done|rewrite Fb; simpl; lia|].
  destruct (rd_in_range m (Z.of_nat i)) as [z Hz]; [unfold zlen; lia|].
  cbn [check_subnet_mask]. rewrite Hx, Hy, Hz. cbn [res_bind].
  apply rd_Ok in Hz as [_ Lz]. rewrite Nat2Z.id in *.
  rewrite (drop_S _ _ _ Lx), (drop_S _ _ _ Ly), (drop_S _ _ _ Lz). cbn [zip_with].
  destruct (Z.eqb_spec (Z.land x z) y) as [->|Hne]; cbn [negb].
  - replace (Z.of_nat i + 1) with (Z.of_nat (S i)) by lia. rewrite IH by lia. f_equal.
    apply bool_decide_ext. split; [by intros ->|congruence].
  - rewrite bool_decide_eq_false_2; [done|congruence].
Qed.

Lemma check_subnet_spec a b m :
  good a → good b → af a = ipv4 → af b = ipv4 → length m = 4%nat →
  check_subnet a b m = Ok (bool_decide (zip_with Z.land (key a).2 m = (key b).2)).
Proof. intros. by apply (check_subnet_mask_spec a b m 4 0). Qed.
