(* ===== verification/AddressCache.v ===== *)
(** * The address cache (src/address_cache.cpp)

    The map from IP addresses to MAC addresses and interfaces shared by ARP and
    NDP, and the map from MAC addresses to interfaces.  Every method holds
    [cache_lock], so a method is one step.  [get_us()] is an argument. *)
From S2P Require Import Prelude AnyAddr Net.

Record address_entry := AddressEntry { ae_ts : Z; ae_addr : any_addr; ae_interface : Z }.

Record address_cache := AddressCache {
  cache : gmap (addr_family * list Z) address_entry;
  mac_cache : gmap (addr_family * list Z) Z;
  address_cache_req : Z;
  address_cache_hit : Z;
  address_cache_store : Z;
  address_cache_update : Z;
}.

Definition empty_cache : address_cache := AddressCache ∅ ∅ 0 0 0 0.

Definition is_mac_family (f : addr_family) : bool := match f with mac | ax25 => true | _ => false end.
Definition is_ip_family (f : addr_family) : bool := match f with ipv4 | ipv6 => true | _ => false end.

(** the [if (it == cache.end()) ... else ...] of [update_cache] *)
Definition update_ip_map (now : Z) (c : address_cache) (mac ip : any_addr) (interface : Z)
    (static_entry : bool) : address_cache :=
  let entry := AddressEntry (if static_entry then 0 else now) mac interface in
  match cache c !! key ip with
  | None =>
      AddressCache (<[key ip := entry]> (cache c)) (mac_cache c) (address_cache_req c)
        (address_cache_hit c) (u64 (address_cache_store c + 1)) (address_cache_update c)
  | Some e =>
      if negb (ae_ts e =? 0) then  (* do not overwrite static entries *)
        AddressCache (<[key ip := entry]> (cache c)) (mac_cache c) (address_cache_req c)
          (address_cache_hit c) (address_cache_store c) (u64 (address_cache_update c + 1))
      else c
  end.

Definition update_mac_map (c : address_cache) (mac : any_addr) (interface : Z) : address_cache :=
  match mac_cache c !! key mac with
  | None =>
      AddressCache (cache c) (<[key mac := interface]> (mac_cache c)) (address_cache_req c)
        (address_cache_hit c) (address_cache_store c) (address_cache_update c)
  | Some _ => c
  end.

Definition update_cache (now : Z) (c : address_cache) (mac ip : any_addr) (interface : Z)
    (static_entry : bool) : res address_cache :=
  let* _ := assert_ (is_mac_family (get_family mac)) in
  let* _ := assert_ (is_ip_family (get_family ip)) in
  Ok (update_mac_map (update_ip_map now c mac ip interface static_entry) mac interface).

Definition add_static_entry (now : Z) (c : address_cache) (interface : Z) (mac ip : any_addr)
  : res address_cache := update_cache now c mac ip interface true.

Definition count_req (c : address_cache) : address_cache :=
  AddressCache (cache c) (mac_cache c) (u64 (address_cache_req c + 1)) (address_cache_hit c)
    (address_cache_store c) (address_cache_update c).
Definition count_hit (c : address_cache) : address_cache :=
  AddressCache (cache c) (mac_cache c) (address_cache_req c) (u64 (address_cache_hit c + 1))
    (address_cache_store c) (address_cache_update c).

(** the interface and the MAC address, or two null pointers *)
Definition query_cache (c : address_cache) (ip : any_addr) (static_entry : bool)
  : option (Z * any_addr) * address_cache :=
  let c := count_req c in
  match cache c !! key ip with
  | None => (None, c)
  | Some e =>
      if static_entry && negb (ae_ts e =? 0) then (None, c)
      else (Some (ae_interface e, ae_addr e), count_hit c)
  end.

Definition query_mac_cache (c : address_cache) (mac : any_addr) : option Z * address_cache :=
  let c := count_req c in (mac_cache c !! key mac, c).

(** the entries the cleaner forgets *)
Definition expired (now : Z) (e : address_entry) : bool :=
  negb (ae_ts e =? 0) && (3600000000 <=? u64 (now - ae_ts e)).

(** one round of [cache_cleaner] *)
Definition cache_cleaner (now : Z) (c : address_cache) : address_cache :=
  AddressCache (filter (λ kv, expired now kv.2 = false) (cache c)) (mac_cache c)
    (address_cache_req c) (address_cache_hit c) (address_cache_store c) (address_cache_update c).

(** ** Runs *)

Inductive cache_step : address_cache → address_cache → Prop :=
  | step_update now c m ip i st c' : update_cache now c m ip i st = Ok c' → cache_step c c'
  | step_query c ip st : cache_step c (query_cache c ip st).2
  | step_query_mac c m : cache_step c (query_mac_cache c m).2
  | step_clean now c : cache_step c (cache_cleaner now c).

Lemma update_cache_lookup now c m ip i st c' k :
  update_cache now c m ip i st = Ok c' →
  cache c' !! k =
    (if decide (k = key ip) then
       match cache c !! k with
       | Some e => if ae_ts e =? 0 then Some e else Some (AddressEntry (if st then 0 else now) m i)
       | None => Some (AddressEntry (if st then 0 else now) m i)
       end
     else cache c !! k).
Proof.
  unfold update_cache. intros H. repeat res_step H. injection H as <-.
  assert (∀ c, cache (update_mac_map c m i) = cache c) as ->.
  { intros d. unfold update_mac_map. by destruct (mac_cache d !! key m). }
  unfold update_ip_map. destruct (cache c !! key ip) as [e|] eqn:L; case_decide as D; subst.
  - rewrite L. destruct (ae_ts e =? 0); simpl; [done|]. by rewrite lookup_insert_eq.
  - destruct (ae_ts e =? 0); simpl; [done|]. by rewrite lookup_insert_ne.
  - rewrite L. simpl. by rewrite lookup_insert_eq.
  - simpl. by rewrite lookup_insert_ne.
Qed.

Lemma query_cache_same c ip st : cache (query_cache c ip st).2 = cache c ∧ mac_cache (query_cache c ip st).2 = mac_cache c.
Proof.
  unfold query_cache. simpl. destruct (cache c !! key ip) as [e|]; [|done].
  by destruct (st && _).
Qed.

Lemma cache_cleaner_lookup now c k :
  cache (cache_cleaner now c) !! k =
    match cache c !! k with
    | Some e => if expired now e then None else Some e
    | None => None
    end.
Proof.
  unfold cache_cleaner. cbn [cache]. rewrite map_lookup_filter.
  destruct (cache c !! k) as [e|]; csimpl; [|done].
  destruct (expired now e) eqn:E; case_guard; simplify_eq/=; congruence || done.
Qed.

(** a static entry (time stamp 0: a configured address) stays as it is,
    whatever sequence of updates for any address, queries and cleaner rounds
    follows. *)
Theorem static_entry_permanent c c' k e :
  rtc cache_step c c' → cache c !! k = Some e → ae_ts e = 0 → cache c' !! k = Some e.
Proof.
  intros Hrun Hk Hts. revert Hk. induction Hrun as [|c c1 c2 Hs _ IH]; [done|]. intros Hk.
  apply IH. destruct Hs as [now c m ip i st c' Hu|c ip st|c m|now c].
  - rewrite (update_cache_lookup _ _ _ _ _ _ _ k Hu), Hk, Hts. simpl. by case_decide.
  - by rewrite (proj1 (query_cache_same c ip st)).
  - done.
  - rewrite cache_cleaner_lookup, Hk. unfold expired. by rewrite Hts.
Qed.

Definition ex_mac (a : Z) : any_addr :=
  {| af := mac; addr := [2; 0; 0; 0; 0; a] ++ replicate 10 0; addr_size := 6; set_ := true |}.

Definition ex_static : address_cache :=
  match add_static_entry 5 empty_cache 1 (ex_mac 1) (ex_v4 10 0 0 1) with Ok c => c | Err _ => empty_cache end.

Lemma static_entry_permanent_witness :
  cache (cache_cleaner 9000000000 ex_static) !! (ipv4, [10; 0; 0; 1]) = Some (AddressEntry 0 (ex_mac 1) 1).
Proof.
  apply (static_entry_permanent ex_static); [|reflexivity|reflexivity].
  apply rtc_once. constructor.
Defined.

(** after [update_cache] the address resolves to the MAC address and
    interface given, unless a static entry for it exists, which then still
    answers; other addresses resolve as before; a dynamic entry answers until
    the cleaner runs an hour or more after its time stamp, and a cleaner round
    drops no other entry. *)
Theorem cache_resolves now c m ip i c' later k :
  update_cache now c m ip i false = Ok c' → 0 < now → now ≤ later < 18446744073709551616 →
  (query_cache c' ip false).1 =
    (match cache c !! key ip with
     | Some e => if ae_ts e =? 0 then Some (ae_interface e, ae_addr e) else Some (i, m)
     | None => Some (i, m)
     end) ∧
  (k ≠ key ip → cache c' !! k = cache c !! k) ∧
  (∀ e, cache c' !! k = Some e → ae_ts e = now → k = key ip →
     cache (cache_cleaner later c') !! k = if decide (later - now < 3600000000) then Some e else None).
Proof.
  intros Hu Hnow Hl. pose proof (update_cache_lookup _ _ _ _ _ _ _ (key ip) Hu) as Hk.
  rewrite decide_True in Hk by done. split_and!.
  - unfold query_cache. simpl. rewrite Hk. destruct (cache c !! key ip) as [e|]; simpl; [|done].
    by destruct (ae_ts e =? 0).
  - intros Hne. rewrite (update_cache_lookup _ _ _ _ _ _ _ k Hu). by rewrite decide_False.
  - intros e He Hts ->. rewrite cache_cleaner_lookup, He. unfold expired. rewrite Hts.
    rewrite (proj2 (Z.eqb_neq now 0)) by lia. cbn [negb andb].
    assert (u64 (later - now) = later - now) as -> by zlia.
    case_decide; [rewrite (proj2 (Z.leb_gt _ _)) by lia|rewrite (proj2 (Z.leb_le _ _)) by lia]; done.
Qed.

Lemma cache_resolves_witness :
  ∃ c', update_cache 5 empty_cache (ex_mac 1) (ex_v4 10 0 0 1) 3 false = Ok c' ∧
    (query_cache c' (ex_v4 10 0 0 1) false).1 = Some (3, ex_mac 1).
Proof.
  eexists. split; [reflexivity|].
  apply (cache_resolves 5 empty_cache (ex_mac 1) (ex_v4 10 0 0 1) 3 _ 6 (ipv4, [])); [reflexivity|lia|lia].
Defined.
