(* ===== verification/Slip.v ===== *)
(** * SLIP (src/phys_slip.cpp)

    The framing of packets on a serial line: the encoder of [transmit_packet], and
    the thread that reads the line byte by byte, removes the escapes and queues
    packets for IPv4.  A call of [read] gives a byte, nothing (end of file) or
    an error; the results of the calls are the input of the model.  The
    counters of octets that only mirror others are left out. *)
From S2P Require Import Prelude AnyAddr Fifo Net AddressCache.

(** ** Sending *)

(** the bytes for one byte of the payload *)
Definition slip_escape (b : Z) : list Z :=
  if b =? 0xc0 then [0xdb; 0xdc] else if b =? 0xdb then [0xdb; 0xdd] else [b].

(** what is put in the buffer [out] *)
Definition slip_encode (payload : list Z) : list Z := [0xc0] ++ (payload ≫= slip_escape) ++ [0xc0].

(** [write] is the result of the system call: [None] for -1 *)
Definition slip_transmit_packet (write : list Z → option Z) (payload : list Z) : bool * list Z :=
  let out := slip_encode payload in
  (match write out with Some rc => rc =? zlen out | None => false end, out).

(** ** Receiving *)

Inductive read_result := read_byte (b : Z) | read_eof | read_error.

Section Slip.
Context {Q : Type} `{!BoundedQueue (Z * packet) Q}.

Record slip := Slip {
  sl_interface : Z;
  sl_my_mac : any_addr;
  sl_ipv4 : option Q;          (* prot_map.find(0x800) *)
  packet_buffer : list Z;
  phys_ifInOctets : Z;
  phys_recv_frame : Z;
  phys_invl_frame : Z;
}.

Definition sl_set_buffer (s : slip) (b : list Z) : slip :=
  Slip (sl_interface s) (sl_my_mac s) (sl_ipv4 s) b (phys_ifInOctets s) (phys_recv_frame s) (phys_invl_frame s).
Definition sl_set_ipv4 (s : slip) (q : option Q) : slip :=
  Slip (sl_interface s) (sl_my_mac s) q (packet_buffer s) (phys_ifInOctets s) (phys_recv_frame s) (phys_invl_frame s).
Definition sl_count_in (s : slip) (n : Z) : slip :=
  Slip (sl_interface s) (sl_my_mac s) (sl_ipv4 s) (packet_buffer s) (u64 (phys_ifInOctets s + n)) (phys_recv_frame s)
    (phys_invl_frame s).
Definition sl_count_frame (s : slip) (invalid : bool) : slip :=
  Slip (sl_interface s) (sl_my_mac s) (sl_ipv4 s) (packet_buffer s) (phys_ifInOctets s) (u64 (phys_recv_frame s + 1))
    (if invalid then u64 (phys_invl_frame s + 1) else phys_invl_frame s).

(** the source address of every packet: 00:00:00:00:00:01 *)
Definition slip_src : any_addr :=
  {| af := mac; addr := [0; 0; 0; 0; 0; 1] ++ replicate 10 0; addr_size := 6; set_ := true |}.

Definition slip_packet (s : slip) (data : list Z) : packet := Packet slip_src slip_src (sl_my_mac s) data [] false.

(** [buffer == 0xc0]; [size] is the result of [read] *)
Definition end_of_packet (s : slip) (size : Z) : slip :=
  if zlen (packet_buffer s) <? 20 then
    sl_set_buffer (sl_count_frame s (negb (size =? 0))) []
  else
    let s := sl_count_frame s false in
    let q :=
      match sl_ipv4 s with
      | None => None
      | Some q => Some (queue_incoming_packet q (sl_interface s) (slip_packet s (packet_buffer s)))
      end in
    sl_set_buffer (sl_set_ipv4 s q) [].

(** the byte behind an escape; a failed [read] leaves 0 in [buffer2] *)
Definition escaped (s : slip) (buffer2 : Z) : slip :=
  if buffer2 =? 0xdc then sl_set_buffer s (packet_buffer s ++ [0xc0])
  else if buffer2 =? 0xdd then sl_set_buffer s (packet_buffer s ++ [0xdb])
  else s.

Definition byte_read (r : read_result) : Z := match r with read_byte b => b | _ => 0 end.
Definition size_read (r : read_result) : Z := match r with read_byte _ => 1 | read_eof => 0 | read_error => -1 end.

(** the loop of [phys_slip::operator()] on the results of its [read] calls *)
Fixpoint slip_run (s : slip) (reads : list read_result) : slip :=
  match reads with
  | [] => s
  | r :: reads =>
      if size_read r =? -1 then slip_run s reads
      else
        let s := sl_count_in s (size_read r) in
        let buffer := byte_read r in
        if buffer =? 0xdb then
          match reads with
          | [] => s   (* waits for the byte *)
          | r2 :: reads => slip_run (escaped s (byte_read r2)) reads
          end
        else if buffer =? 0xc0 then slip_run (end_of_packet s (size_read r)) reads
        else slip_run (sl_set_buffer s (packet_buffer s ++ [buffer])) reads
  end.
End Slip.
Arguments slip : clear implicits.

Section SlipSpec.
Context {Q : Type} `{!BoundedQueue (Z * packet) Q}.
Implicit Types s : slip Q.

(** a packet of at least 20 bytes goes to the queue of IPv4 *)
Definition deliver s (q : Q) (p : list Z) : Q :=
  if zlen p <? 20 then q else queue_incoming_packet q (sl_interface s) (slip_packet s p).

(** [s'] is the same device as [s] *)
Definition same_device s s' : Prop := sl_interface s' = sl_interface s ∧ sl_my_mac s' = sl_my_mac s.

Lemma deliver_same s s' q p : same_device s s' → deliver s' q p = deliver s q p.
Proof. intros [H1 H2]. unfold deliver, slip_packet. by rewrite H1, H2. Qed.

(** the bytes of a payload end up in the buffer, without the escapes *)
Lemma slip_run_payload s p rest :
  ∃ s', slip_run s ((read_byte <$> (p ≫= slip_escape)) ++ rest) = slip_run s' rest ∧ same_device s s' ∧
    sl_ipv4 s' = sl_ipv4 s ∧ packet_buffer s' = packet_buffer s ++ p.
Proof.
  revert s. induction p as [|b p IH]; intros s.
  { exists s. rewrite app_nil_r. by split_and!. }
  rewrite bind_cons.
  assert (∃ s1, slip_run s ((read_byte <$> (slip_escape b ++ (p ≫= slip_escape))) ++ rest) =
      slip_run s1 ((read_byte <$> (p ≫= slip_escape)) ++ rest) ∧ same_device s s1 ∧ sl_ipv4 s1 = sl_ipv4 s ∧
      packet_buffer s1 = packet_buffer s ++ [b]) as (s1 & -> & [D1 D2] & I1 & B1).
  { unfold slip_escape. destruct (Z.eqb_spec b 0xc0) as [->|N1]; [|destruct (Z.eqb_spec b 0xdb) as [->|N2]];
      cbn [app fmap list_fmap slip_run size_read byte_read]; try (eexists; split; [reflexivity|by split_and!]).
    rewrite (proj2 (Z.eqb_neq b 219)), (proj2 (Z.eqb_neq b 192)) by done. eexists; split; [reflexivity|by split_and!]. }
  destruct (IH s1) as (s' & -> & [E1 E2] & I2 & B2). exists s'.
  split_and!; [done|split; congruence|congruence|]. rewrite B2, B1, <- app_assoc. done.
Qed.

Lemma end_of_packet_spec s q n :
  sl_ipv4 s = Some q →
  same_device s (end_of_packet s n) ∧ packet_buffer (end_of_packet s n) = [] ∧
  sl_ipv4 (end_of_packet s n) = Some (deliver s q (packet_buffer s)).
Proof.
  intros Hq. unfold end_of_packet, deliver. destruct (zlen (packet_buffer s) <? 20); [by split_and!|].
  cbn [sl_ipv4 sl_count_frame]. rewrite Hq. by split_and!.
Qed.

(** one frame: its leading END ends what was received before *)
Lemma slip_run_frame s q p rest :
  sl_ipv4 s = Some q →
  ∃ s', slip_run s ((read_byte <$> slip_encode p) ++ rest) = slip_run s' rest ∧ same_device s s' ∧
    packet_buffer s' = [] ∧ sl_ipv4 s' = Some (deliver s (deliver s q (packet_buffer s)) p).
Proof.
  intros Hq. unfold slip_encode. rewrite !fmap_app, <- !app_assoc.
  set (s1 := end_of_packet (sl_count_in s 1) 1).
  destruct (end_of_packet_spec (sl_count_in s 1) q 1 Hq) as ([D1 D2] & B1 & I1). fold s1 in D1, D2, B1, I1.
  destruct (slip_run_payload s1 p ((read_byte <$> [0xc0]) ++ rest)) as (s2 & R2 & [E1 E2] & I2 & B2).
  rewrite B1 in B2. rewrite I1 in I2.
  destruct (end_of_packet_spec (sl_count_in s2 1) _ 1 I2) as ([F1 F2] & B3 & I3).
  exists (end_of_packet (sl_count_in s2 1) 1).
  change (slip_run s ((read_byte <$> [0xc0]) ++ ?l)) with (slip_run s1 l). rewrite R2.
  change (slip_run s2 ((read_byte <$> [0xc0]) ++ rest)) with (slip_run (end_of_packet (sl_count_in s2 1) 1) rest).
  cbn in D1, D2, F1, F2. split_and!; [done|split; congruence|done|]. rewrite I3. cbn [packet_buffer sl_count_in].
  rewrite B2. cbn [app]. f_equal. apply deliver_same. split; cbn; congruence.
Qed.

(** a run of frames *)
Lemma slip_run_frames s q ps :
  sl_ipv4 s = Some q → ps ≠ [] →
  ∃ s', slip_run s (read_byte <$> concat (slip_encode <$> ps)) = s' ∧ same_device s s' ∧ packet_buffer s' = [] ∧
    sl_ipv4 s' = Some (foldl (deliver s) q (packet_buffer s :: ps)).
Proof.
  revert s q. induction ps as [|p ps IH]; intros s q Hq Hne; [done|]. clear Hne.
  cbn [fmap list_fmap concat]. rewrite fmap_app.
  destruct (slip_run_frame s q p (read_byte <$> concat (slip_encode <$> ps)) Hq) as (s1 & -> & D & B & I).
  destruct ps as [|p' ps]; [by exists s1|].
  destruct (IH s1 _ I) as (s' & R & [D1 D2] & B' & I'); [done|].
  exists s'. pose proof D as [E1 E2]. split_and!; [done|split; congruence|done|]. rewrite I', B.
  cbn [foldl]. f_equal.
  assert (∀ q0 l, foldl (deliver s1) q0 l = foldl (deliver s) q0 l) as Hf.
  { intros q0 l. revert q0. induction l as [|x l IHl]; intros q0; [done|]. cbn [foldl].
    rewrite IHl. by rewrite (deliver_same s s1). }
  rewrite Hf, !(deliver_same s s1) by done. done.
Qed.

(** the packets that are long enough, in order *)
Definition long_enough (p : list Z) : Prop := 20 ≤ zlen p.
#[global] Instance long_enough_dec p : Decision (long_enough p).
Proof. unfold long_enough. apply _. Defined.

Lemma deliver_all_rep s q l ps :
  q_rep q l → zlen l + zlen (filter long_enough ps) ≤ q_capacity q →
  q_rep (foldl (deliver s) q ps) (l ++ ((λ p, (sl_interface s, slip_packet s p)) <$> filter long_enough ps)).
Proof.
  revert q l. induction ps as [|p ps IH]; intros q l Hr Hc; [by rewrite app_nil_r|]. cbn [foldl].
  unfold deliver at 2. destruct (Z.ltb_spec (zlen p) 20).
  { rewrite filter_cons_False in Hc |- * by (unfold long_enough; lia). by apply IH. }
  rewrite filter_cons_True in Hc |- * by (unfold long_enough; lia). rewrite zlen_cons in Hc. pose proof (zlen_nonneg (filter long_enough ps)).
  destruct (q_try_put_spec q l (sl_interface s, slip_packet s p) Hr) as (Hr' & Hb & Hcap & _).
  assert ((q_try_put q (sl_interface s, slip_packet s p)).1 = true) as Ht by (apply Hb; lia). rewrite Ht in Hr'.
  cbn [fmap list_fmap]. unfold queue_incoming_packet.
  rewrite cons_middle, app_assoc. apply IH; [exact Hr'|]. rewrite zlen_app, Hcap. change (zlen [?x]) with 1. lia.
Qed.

(** what [transmit_packet] writes fits in its buffer of twice the payload plus
    two bytes, and the reader at the other end of the line turns a run of such
    frames back into exactly the packets (those of at least 20 bytes), in
    order, whatever bytes they hold; what was received before the first frame
    ends with its leading END, so the reader synchronises with it. *)
Theorem slip_roundtrip s q l ps :
  ps ≠ [] → sl_ipv4 s = Some q → q_rep q l →
  zlen l + zlen (filter long_enough (packet_buffer s :: ps)) ≤ q_capacity q →
  Forall (λ p, zlen (slip_encode p) ≤ 2 * zlen p + 2) ps ∧
  ∃ s' q', slip_run s (read_byte <$> concat (slip_encode <$> ps)) = s' ∧ packet_buffer s' = [] ∧
    sl_ipv4 s' = Some q' ∧
    q_rep q' (l ++ ((λ p, (sl_interface s, slip_packet s p)) <$> filter long_enough (packet_buffer s :: ps))).
Proof.
  intros Hne Hq Hr Hc. split.
  - apply Forall_true. intros p. unfold slip_encode. rewrite !zlen_app. change (zlen [192]) with 1.
    enough (zlen (p ≫= slip_escape) ≤ 2 * zlen p) by lia. clear.
    induction p as [|b p IH]; [done|]. rewrite bind_cons, zlen_app, zlen_cons.
    enough (zlen (slip_escape b) ≤ 2) by lia.
    unfold slip_escape. destruct (b =? 192), (b =? 219); done.
  - destruct (slip_run_frames s q ps Hq Hne) as (s' & Hs & _ & Hb & Hi). exists s'. eexists. split_and!; [done..|].
    by apply deliver_all_rep.
Qed.
End SlipSpec.

(** ** Example *)

Definition ex_slip : slip (fifo (Z * packet)) := Slip 3 (ex_mac 1) (Some (new_fifo 4)) [1; 2] 0 0 0.

Lemma slip_roundtrip_witness :
  Forall (λ p, zlen (slip_encode p) ≤ 2 * zlen p + 2) [replicate 20 0xc0; replicate 21 0xdb] ∧
  ∃ s' q', slip_run ex_slip (read_byte <$> concat (slip_encode <$> [replicate 20 0xc0; replicate 21 0xdb])) = s' ∧
    packet_buffer s' = [] ∧ sl_ipv4 s' = Some q' ∧
    q_rep q' ([] ++ ((λ p, (3, slip_packet ex_slip p)) <$>
                filter long_enough [[1; 2]; replicate 20 0xc0; replicate 21 0xdb])).
Proof.
  apply (slip_roundtrip ex_slip (new_fifo 4) [] [replicate 20 0xc0; replicate 21 0xdb]);
    [done|done|apply new_fifo_rep; lia|vm_compute; discriminate].
Defined.
