(* ===== verification/Arp.v ===== *)
(** * Address resolution (src/arp.cpp, src/mac_resolver.cpp)

    The ARP handler (one packet per step), [send_request], and [get_mac] of the
    resolver cut into the steps between its waits: [get_mac_begin] until the
    first wait, [get_mac_poll] for every wake-up.  Frames handed to an
    interface are returned as a list of [frame]s; the result of
    [transmit_packet], the clock and the elapsed time are arguments. *)
From S2P Require Import Prelude AnyAddr Net AddressCache.

Record frame := Frame {
  fr_interface : Z; fr_dst : any_addr; fr_src : any_addr; fr_type : Z; fr_data : list Z;
}.

Record arp := Arp {
  my_mac : any_addr;
  my_ip : any_addr;
  arp_interface : Z;
  acache : address_cache;
  (* an address that is being resolved, its result when there is one, and the
     MAC address in that result *)
  work : gmap (addr_family * list Z) (option (option any_addr));
  arp_requests : Z;
  arp_for_me : Z;
}.

Definition with_cache (s : arp) (c : address_cache) : arp :=
  Arp (my_mac s) (my_ip s) (arp_interface s) c (work s) (arp_requests s) (arp_for_me s).
Definition with_work (s : arp) (w : gmap (addr_family * list Z) (option (option any_addr))) : arp :=
  Arp (my_mac s) (my_ip s) (arp_interface s) (acache s) w (arp_requests s) (arp_for_me s).
Definition count_request (s : arp) : arp :=
  Arp (my_mac s) (my_ip s) (arp_interface s) (acache s) (work s) (u64 (arp_requests s + 1)) (arp_for_me s).
Definition count_for_me (s : arp) : arp :=
  Arp (my_mac s) (my_ip s) (arp_interface s) (acache s) (work s) (arp_requests s) (u64 (arp_for_me s + 1)).

Definition broadcast : list Z := [0xff; 0xff; 0xff; 0xff; 0xff; 0xff].

(** [ax25_address::generate_address] *)
Definition generate_address (address : list Z) (ssid : Z) (end_mark repeated : bool) : list Z :=
  let put_n := Nat.min 6 (length address) in
  ((λ c, u8 (Z.shiftl c 1)) <$> take put_n address) ++ replicate (6 - put_n) 64 ++
  [u8 (Z.lor (Z.lor (Z.shiftl ssid 1) (if end_mark then 1 else 0)) (if repeated then 128 else 0))].

(** "QST" *)
Definition qst : list Z := [81; 83; 84].

(** ** Receiving *)

(** the offsets of the four addresses and of the end, as [uint16_t]s *)
Definition spa_offset (hw_size : Z) : Z := u16 (8 + hw_size).
Definition tha_offset (hw_size p_size : Z) : Z := u16 (spa_offset hw_size + p_size).
Definition tpa_offset (hw_size p_size : Z) : Z := u16 (tha_offset hw_size p_size + hw_size).
Definition end_offset (hw_size p_size : Z) : Z := u16 (tpa_offset hw_size p_size + p_size).

(** the reply to a request for the own address *)
Definition arp_reply (s : arp) (p : list Z) (ether_type hw_size p_size : Z) : res (list Z) :=
  let* reply := swap_mac p 8 (tha_offset hw_size p_size) in
  let* reply :=
    (if ether_type =? 0x0800 then
       let* m := get_exp (my_mac s) 6 in wr_range reply 8 m
     else if (ether_type =? 0x08ff) || (ether_type =? 0x00cc) then
       let* m := get_exp (my_mac s) 7 in wr_range reply 8 m
     else Ok reply) in
  let* reply := wr reply 7 2 in
  swap_ipv4 reply (spa_offset hw_size) (tpa_offset hw_size p_size).

(** an ARP reply arrived: hand the MAC address to the thread that waits for it *)
Definition arp_answer (s : arp) (p : list Z) (ether_type : Z) (SPA : any_addr) : res arp :=
  let* work_mac :=
    (if ether_type =? 0x0800 then mk_addr mac (ptr_at p 8)
     else if (ether_type =? 0x08ff) || (ether_type =? 0x00cc) then mk_addr ax25 (ptr_at p 8)
     else Ok unset_addr) in
  match work s !! key SPA with
  | Some _ =>
      let* m := copy work_mac in
      Ok (with_work s (<[key SPA := Some (Some m)]> (work s)))
  | None => Ok s
  end.

(** the loop body of [arp::operator()] *)
Definition arp_handle (now : Z) (s : arp) (interface : Z) (pkt : packet) : res (arp * list frame) :=
  let s := count_request s in
  let p := pkt_data pkt in
  let size := pkt_size pkt in
  if size <? 6 then Ok (s, [])
  else
    let* hw_size := rd p 4 in
    let* p_size := rd p 5 in
    if size <? end_offset hw_size p_size then Ok (s, [])
    else
      let* e0 := rd p 2 in
      let* e1 := rd p 3 in
      let ether_type := u16 (Z.shiftl e0 8 + e1) in
      if ((ether_type =? 0x0800) && negb (p_size =? 4)) || ((ether_type =? 0x08ff) && negb (hw_size =? 7)) ||
         ((ether_type =? 0x00cc) && negb (hw_size =? 7))
      then Ok (s, [])
      else
        let* r0 := rd p 6 in
        let* r1 := rd p 7 in
        let request := u16 (Z.shiftl r0 8 + r1) in
        let* THA := mk_addr mac (ptr_at p (tha_offset hw_size p_size)) in
        let* SHA := mk_addr mac (ptr_at p 8) in
        let* TPA := mk_addr ipv4 (ptr_at p (tpa_offset hw_size p_size)) in
        let* SPA := mk_addr ipv4 (ptr_at p (spa_offset hw_size)) in
        let is_gratuitous :=
          ((request =? 1) || (request =? 2)) && bool_decide ((key THA).2 = broadcast) && same_addr TPA SPA in
        let* s :=
          (if is_gratuitous then
             let* c := update_cache now (acache s) SHA SPA (arp_interface s) false in Ok (with_cache s c)
           else Ok s) in
        if request =? 1 then
          if same_addr TPA (my_ip s) then
            let* reply := arp_reply s p ether_type hw_size p_size in
            Ok (count_for_me s, [Frame interface (pkt_src pkt) (my_mac s) 0x0806 reply])
          else Ok (s, [])
        else if request =? 2 then
          let* s := arp_answer s p ether_type SPA in Ok (s, [])
        else Ok (s, []).

(** ** Asking *)

(** the request packet and its destination; [None]: the family is not supported *)
Definition arp_request (s : arp) (ip : any_addr) (family : addr_family)
  : res (option (list Z * any_addr)) :=
  match family, get_family ip with
  | mac, ipv4 =>
      let* sha := get_exp (my_mac s) 6 in
      let* spa := get_exp (my_ip s) 4 in
      let* tpa := get_exp ip 4 in
      let* dest := mk_addr mac broadcast in
      Ok (Some ([0; 1; 0x08; 0x00; 6; 4; 0; 1] ++ sha ++ spa ++ replicate 6 0 ++ tpa, dest))
  | ax25, ipv4 =>
      let* sha := get_exp (my_mac s) 7 in
      let* spa := get_exp (my_ip s) 4 in
      let* tpa := get_exp ip 4 in
      let* dest := mk_addr ax25 (generate_address qst 0 true false) in
      Ok (Some ([0; 3; 0x00; 0xcc; 7; 4; 0; 1] ++ sha ++ spa ++ replicate 7 0 ++ tpa, dest))
  | _, _ => Ok None
  end.

Definition send_request (s : arp) (ip : any_addr) (family : addr_family) (tx_ok : bool)
  : res (bool * list frame) :=
  let* r := arp_request s ip family in
  match r with
  | Some (request, dest_mac) =>
      Ok (tx_ok, [Frame (arp_interface s) dest_mac (my_mac s) 0x0806 request])
  | None => Ok (false, [])
  end.

Definition check_special_ip_addresses (ip : any_addr) (family : addr_family) : res (option any_addr) :=
  let* b0 := at_ ip 0 in
  let* b1 := at_ ip 1 in
  let* b2 := at_ ip 2 in
  let* b3 := at_ ip 3 in
  if (Z.land b0 0xf0 =? 224) && bool_decide (family = mac) then
    res_map Some (mk_addr mac [0x01; 0x00; 0x5e; b1; b2; b3])
  else if (Z.land b0 0xf0 =? 224) && bool_decide (family = ax25) then
    res_map Some (mk_addr ax25 (generate_address qst 0 false false))
  else if (b0 =? 255) && (b1 =? 255) && (b2 =? 255) && (b3 =? 255) then
    res_map Some (mk_addr mac broadcast)
  else Ok None.

(** ** [mac_resolver::get_mac] *)

Inductive get_mac_status := Resolved (interface : Z) (mac : any_addr) | Failed | Waiting.

(** up to the first wait; [phys_family] is the type of [interface] *)
Definition get_mac_begin (s : arp) (interface : Z) (phys_family : addr_family) (ip : any_addr) (tx_ok : bool)
  : res (get_mac_status * arp * list frame) :=
  let* special := check_special_ip_addresses ip phys_family in
  match special with
  | Some m => Ok (Resolved interface m, s, [])
  | None =>
      let '(cache_result, c) := query_cache (acache s) ip false in
      let s := with_cache s c in
      match cache_result with
      | Some (i, m) => Ok (Resolved i m, s, [])
      | None =>
          let* '(ok, frames) := send_request s ip phys_family tx_ok in
          if ok then
            let w := match work s !! key ip with
                     | Some _ => work s                  (* std::map::insert *)
                     | None => <[key ip := None]> (work s)
                     end in
            Ok (Waiting, with_work s w, frames)
          else Ok (Failed, s, frames)
      end
  end.

(** one evaluation of the [while] condition and, when it holds, of the body;
    [elapsed] is [get_ms() - start_ts] *)
Definition get_mac_poll (now elapsed : Z) (stop_flag repeated : bool) (s : arp) (interface : Z)
    (phys_family : addr_family) (ip : any_addr) (tx_ok : bool)
  : res (get_mac_status * bool * arp * list frame) :=
  if negb stop_flag && (elapsed <? 1000) then
    match work s !! key ip with
    | None => Ok (Failed, repeated, s, [])
    | Some (Some result) =>
        let s := with_work s (delete (key ip) (work s)) in
        match result with
        | Some m =>
            let* c := update_cache now (acache s) m ip interface false in
            Ok (Resolved interface m, repeated, with_cache s c, [])
        | None => Err bad_optional
        end
    | Some None =>
        if negb repeated && (500 <=? elapsed) then
          let* '(_, frames) := send_request s ip phys_family tx_ok in
          Ok (Waiting, true, s, frames)
        else Ok (Waiting, repeated, s, [])
    end
  else Ok (Failed, repeated, with_work s (delete (key ip) (work s)), []).

Definition get_phys_by_mac (s : arp) (m : any_addr) : option Z * arp :=
  let '(r, c) := query_mac_cache (acache s) m in (r, with_cache s c).

(** ** Resolving an address end to end *)

(** an ARP packet for Ethernet and IPv4 *)
Definition arp_packet (op : Z) (sha spa tha tpa : list Z) : list Z :=
  [0; 1; 0x08; 0x00; 6; 4; 0; op] ++ sha ++ spa ++ tha ++ tpa.

Lemma arp_packet_fields op sha spa tha tpa :
  length sha = 6%nat → length spa = 4%nat → length tha = 6%nat → length tpa = 4%nat →
  let p := arp_packet op sha spa tha tpa in
  zlen p = 28 ∧ take 6 (drop 8 p) = sha ∧ take 4 (drop 14 p) = spa ∧ take 6 (drop 18 p) = tha ∧
  take 4 (drop 24 p) = tpa.
Proof.
  intros L1 L2 L3 L4 p. subst p. unfold arp_packet.
  do 6 (destruct sha as [|? sha]; [discriminate L1|]). destruct sha; [|discriminate L1].
  do 4 (destruct spa as [|? spa]; [discriminate L2|]). destruct spa; [|discriminate L2].
  do 6 (destruct tha as [|? tha]; [discriminate L3|]). destruct tha; [|discriminate L3].
  do 4 (destruct tpa as [|? tpa]; [discriminate L4|]). destruct tpa; [|discriminate L4].
  done.
Qed.

Lemma good_addr a f : good a → af a = f → length (key a).2 = Z.to_nat (family_size f) ∧ bytes_ok (key a).2.
Proof. intros G <-. split; [by apply length_key|by apply key_bytes_ok]. Qed.

Lemma key_pair a : key a = (af a, (key a).2).
Proof. done. Qed.

Lemma get_exp_key a f n : good a → af a = f → n = family_size f → get_exp a n = Ok (key a).2.
Proof. intros G <- ->. by apply get_exp_good. Qed.

Definition host_ok (s : arp) : Prop :=
  good (my_mac s) ∧ af (my_mac s) = mac ∧ good (my_ip s) ∧ af (my_ip s) = ipv4.

(** what [arp_handle] finds in an Ethernet/IPv4 packet *)
Lemma arp_handle_packet now s i pkt op sha spa tha tpa :
  length sha = 6%nat → length spa = 4%nat → length tha = 6%nat → length tpa = 4%nat →
  bytes_ok sha → bytes_ok spa → bytes_ok tha → bytes_ok tpa → 
  pkt_data pkt = arp_packet op sha spa tha tpa → op = 1 ∨ op = 2 → tha ≠ broadcast →
  ∃ SPA, good SPA ∧ key SPA = (ipv4, spa) ∧
  arp_handle now s i pkt =
    (if op =? 1 then
       if bool_decide ((ipv4, tpa) = key (my_ip s)) then
         let* reply := arp_reply (count_request s) (arp_packet op sha spa tha tpa) 0x0800 6 4 in
         Ok (count_for_me (count_request s), [Frame i (pkt_src pkt) (my_mac s) 0x0806 reply])
       else Ok (count_request s, [])
     else
       let* s := arp_answer (count_request s) (arp_packet op sha spa tha tpa) 0x0800 SPA in Ok (s, [])).
Proof.
  intros L1 L2 L3 L4 B1 B2 B3 B4 Hp Hop Htha. unfold arp_handle, pkt_size. rewrite Hp. clear Hp.
  assert (bytes_ok (arp_packet op sha spa tha tpa)) as HB.
  { repeat apply bytes_ok_app; try done. destruct Hop as [-> | ->]; solve_bytes. }
  destruct (arp_packet_fields op sha spa tha tpa L1 L2 L3 L4) as (F0 & F1 & F2 & F3 & F4).
  assert (∀ k, (k ≤ 28)%nat → zlen (drop k (arp_packet op sha spa tha tpa)) = 28 - Z.of_nat k) as Hl.
  { intros k Hk. unfold zlen in *. rewrite length_drop. lia. }
  assert (∀ f k, (k ≤ 28)%nat → family_size f ≤ 28 - Z.of_nat k →
    ∃ a, mk_addr f (drop k (arp_packet op sha spa tha tpa)) = Ok a ∧ good a ∧
      key a = (f, take (Z.to_nat (family_size f)) (drop k (arp_packet op sha spa tha tpa)))) as Hmk.
  { intros f k Hk Hf. apply mk_addr_spec; [by apply bytes_ok_drop|by rewrite Hl]. }
  destruct (Hmk mac 18%nat) as (THA & M1 & G1 & K1); [lia|simpl; lia|].
  destruct (Hmk mac 8%nat) as (SHA & M2 & G2 & K2); [lia|simpl; lia|].
  destruct (Hmk ipv4 24%nat) as (TPA & M3 & G3 & K3); [lia|simpl; lia|].
  destruct (Hmk ipv4 14%nat) as (SPA & M4 & G4 & K4); [lia|simpl; lia|].
  exists SPA. split; [done|].
  assert (key THA = (mac, tha) ∧ key TPA = (ipv4, tpa) ∧ key SPA = (ipv4, spa)) as (E1 & E3 & E4)
    by (rewrite K1, K3, K4; split_and!; f_equal; assumption).
  split; [done|]. rewrite F0. clear K1 K2 K3 K4 F0 F1 F2 F3 F4 Hl Hmk.
  change (28 <? 6) with false. change (rd (arp_packet op sha spa tha tpa) 4) with (@Ok Z 6).
  change (rd (arp_packet op sha spa tha tpa) 5) with (@Ok Z 4). cbn [res_bind].
  change (rd (arp_packet op sha spa tha tpa) 2) with (@Ok Z 8).
  change (rd (arp_packet op sha spa tha tpa) 3) with (@Ok Z 0).
  change (rd (arp_packet op sha spa tha tpa) 6) with (@Ok Z 0).
  change (rd (arp_packet op sha spa tha tpa) 7) with (@Ok Z op).
  change (spa_offset 6) with 14. change (tha_offset 6 4) with 18. change (tpa_offset 6 4) with 24.
  change (28 <? end_offset 6 4) with false. cbn [res_bind].
  change (u16 (Z.shiftl 8 8 + 0)) with 2048.
  assert (u16 (Z.shiftl 0 8 + op) = op) as -> by (by destruct Hop as [-> | ->]).
  cbn [Z.eqb Pos.eqb negb andb orb].
  change (ptr_at (arp_packet op sha spa tha tpa) 18) with (drop 18 (arp_packet op sha spa tha tpa)).
  change (ptr_at (arp_packet op sha spa tha tpa) 8) with (drop 8 (arp_packet op sha spa tha tpa)).
  change (ptr_at (arp_packet op sha spa tha tpa) 24) with (drop 24 (arp_packet op sha spa tha tpa)).
  change (ptr_at (arp_packet op sha spa tha tpa) 14) with (drop 14 (arp_packet op sha spa tha tpa)).
  rewrite M1, M2, M3, M4. cbn [res_bind].
  unfold same_addr. rewrite E1, E3, E4. cbn [snd]. rewrite (bool_decide_eq_false_2 _ Htha).
  rewrite andb_false_r. cbn [andb res_bind].
  by destruct Hop as [-> | ->].
Qed.

Lemma arp_reply_packet s sha spa tha tpa :
  good (my_mac s) → af (my_mac s) = mac →
  length sha = 6%nat → length spa = 4%nat → length tha = 6%nat → length tpa = 4%nat →
  arp_reply s (arp_packet 1 sha spa tha tpa) 0x0800 6 4 = Ok (arp_packet 2 (key (my_mac s)).2 tpa sha spa).
Proof.
  intros G F L1 L2 L3 L4. unfold arp_reply. rewrite (get_exp_key _ mac 6) by done.
  destruct (good_addr _ _ G F) as [L _]. generalize dependent (key (my_mac s)).2. intros m L.
  change (Z.to_nat (family_size mac)) with 6%nat in L.
  do 6 (destruct m as [|? m]; [discriminate L|]). destruct m; [|discriminate L].
  do 6 (destruct sha as [|? sha]; [discriminate L1|]). destruct sha; [|discriminate L1].
  do 4 (destruct spa as [|? spa]; [discriminate L2|]). destruct spa; [|discriminate L2].
  do 6 (destruct tha as [|? tha]; [discriminate L3|]). destruct tha; [|discriminate L3].
  do 4 (destruct tpa as [|? tpa]; [discriminate L4|]). destruct tpa; [|discriminate L4].
  reflexivity.
Qed.

Lemma arp_answer_packet s sha spa tha tpa SPA w :
  length sha = 6%nat → bytes_ok (arp_packet 2 sha spa tha tpa) → work s !! key SPA = Some w →
  ∃ m, good m ∧ key m = (mac, sha) ∧
    arp_answer s (arp_packet 2 sha spa tha tpa) 0x0800 SPA =
      Ok (with_work s (<[key SPA := Some (Some m)]> (work s))).
Proof.
  intros L HB Hw. unfold arp_answer.
  destruct (mk_addr_spec mac (ptr_at (arp_packet 2 sha spa tha tpa) 8)) as (a & Ha & Ga & Ka);
    [by apply bytes_ok_drop|unfold zlen, arp_packet, ptr_at; simpl; rewrite drop_0, !length_app; lia|].
  cbn [Z.eqb Pos.eqb]. rewrite Ha. cbn [res_bind]. rewrite Hw.
  destruct (assign_spec unset_addr a unset_addr_wf Ga) as (m & Hm & Gm & Km).
  exists m. split; [done|]. split; [|unfold copy; by rewrite Hm].
  rewrite Km, Ka. f_equal. change (ptr_at _ 8) with (sha ++ spa ++ tha ++ tpa).
  by apply take_app_length'.
Qed.

(** [A] asks for the address of [B] *)
Lemma arp_request_packet A ip tx :
  host_ok A → good ip → af ip = ipv4 →
  ∃ dest, send_request A ip mac tx = Ok (tx, [Frame (arp_interface A) dest (my_mac A) 0x0806
    (arp_packet 1 (key (my_mac A)).2 (key (my_ip A)).2 (replicate 6 0) (key ip).2)]).
Proof.
  intros (GmA & FmA & GiA & FiA) Gip Fip.
  destruct (mk_addr_spec mac broadcast) as (dest & Hd & _ & _); [solve_bytes|done|].
  exists dest. unfold send_request, arp_request, get_family.
  rewrite Fip, (get_exp_key (my_mac A) mac), (get_exp_key (my_ip A) ipv4), (get_exp_key ip ipv4) by done.
  cbn [res_bind]. by rewrite Hd.
Qed.

(** [B] answers *)
Lemma arp_request_answered now B i pkt sha spa :
  host_ok B → length sha = 6%nat → length spa = 4%nat → bytes_ok sha → bytes_ok spa →
  pkt_data pkt = arp_packet 1 sha spa (replicate 6 0) (key (my_ip B)).2 →
  arp_handle now B i pkt =
    Ok (count_for_me (count_request B), [Frame i (pkt_src pkt) (my_mac B) 0x0806
          (arp_packet 2 (key (my_mac B)).2 (key (my_ip B)).2 sha spa)]).
Proof.
  intros (GmB & FmB & GiB & FiB) L1 L2 B1 B2 Hp. destruct (good_addr _ _ GiB FiB) as [LiB BiB].
  destruct (arp_handle_packet now B i pkt 1 sha spa (replicate 6 0) (key (my_ip B)).2)
    as (? & _ & _ & HB); [done..|solve_bytes|done|done|by left|done|].
  rewrite HB. change (1 =? 1) with true. cbn [res_bind].
  rewrite bool_decide_eq_true_2 by (rewrite <- FiB; done).
  by rewrite arp_reply_packet.
Qed.

(** [A] learns the address *)
Lemma arp_reply_learned now A i pkt sha spa tpa ip w :
  host_ok A → (key (my_mac A)).2 ≠ broadcast → length sha = 6%nat → length spa = 4%nat →
  length tpa = 4%nat → bytes_ok sha → bytes_ok spa → bytes_ok tpa → key ip = (ipv4, spa) →
  pkt_data pkt = arp_packet 2 sha spa (key (my_mac A)).2 tpa → work A !! key ip = Some w →
  ∃ m, good m ∧ key m = (mac, sha) ∧
    arp_handle now A i pkt = Ok (with_work (count_request A) (<[key ip := Some (Some m)]> (work A)), []).
Proof.
  intros (GmA & FmA & _ & _) Hbc L1 L2 L3 B1 B2 B3 Kip Hp Hw. destruct (good_addr _ _ GmA FmA) as [LmA BmA].
  destruct (arp_handle_packet now A i pkt 2 sha spa (key (my_mac A)).2 tpa)
    as (SPA & _ & KS & HA); [done..|by right|done|].
  rewrite <- Kip in KS.
  destruct (arp_answer_packet (count_request A) sha spa (key (my_mac A)).2 tpa SPA w)
    as (m & Gm & Km & HAns); [done| |by rewrite KS|].
  { repeat apply bytes_ok_app; try done. solve_bytes. }
  exists m. split; [done|]. split; [done|]. rewrite HA. change (2 =? 1) with false. rewrite HAns.
  cbn [res_bind]. by rewrite KS.
Qed.

(** the waiting thread of [A] returns it *)
Lemma get_mac_poll_resolved now t s i m ip tx :
  work s !! key ip = Some (Some (Some m)) → af m = mac → af ip = ipv4 → 0 ≤ t < 1000 →
  cache (acache s) !! key ip = None →
  ∃ c, get_mac_poll now t false false s i mac ip tx =
         Ok (Resolved i m, false, with_cache (with_work s (delete (key ip) (work s))) c, []) ∧
       (query_cache c ip false).1 = Some (i, m).
Proof.
  intros Hw Fm Fip Ht Hc.
  destruct (update_cache now (acache s) m ip i false) as [c|] eqn:Hu; last first.
  { unfold update_cache, get_family in Hu. by rewrite Fip, Fm in Hu. }
  exists c. split.
  - unfold get_mac_poll. rewrite (proj2 (Z.ltb_lt t 1000)) by lia. cbn [negb andb].
    rewrite Hw. cbn [acache with_work]. by rewrite Hu.
  - unfold query_cache. simpl. rewrite (update_cache_lookup _ _ _ _ _ _ _ (key ip) Hu).
    by rewrite decide_True, Hc by done.
Qed.

(** address resolution works end to end between two hosts [A] and [B] of one
    Ethernet: the request [A] sends for [B]'s address is answered by [B] with a
    frame to [A] that carries [B]'s MAC address, and the answer lets the
    thread of [A] that waits in [get_mac] return [B]'s MAC address and enter it
    in the cache. *)
Theorem arp_resolves now t A B ip ia ib pa pb tx :
  host_ok A → host_ok B → (key (my_mac A)).2 ≠ broadcast → good ip → key ip = key (my_ip B) →
  pkt_src pa = my_mac A → work A !! key ip = Some None → cache (acache A) !! key ip = None →
  0 ≤ t < 1000 →
  ∃ req dest rep A' m c,
    send_request A ip mac tx = Ok (tx, [Frame (arp_interface A) dest (my_mac A) 0x0806 req]) ∧
    (pkt_data pa = req →
       arp_handle now B ib pa =
         Ok (count_for_me (count_request B), [Frame ib (my_mac A) (my_mac B) 0x0806 rep])) ∧
    (pkt_data pb = rep → arp_handle now A ia pb = Ok (A', [])) ∧
    get_mac_poll now t false false A' (arp_interface A) mac ip tx =
      Ok (Resolved (arp_interface A) m, false, with_cache (with_work A' (delete (key ip) (work A'))) c, []) ∧
    key m = key (my_mac B) ∧ (query_cache c ip false).1 = Some (arp_interface A, m).
Proof.
  intros HA HB Hbc Gip Kip Hsrc Hw Hc Ht.
  assert (af ip = ipv4) as Fip by (destruct HB as (_ & _ & _ & <-); exact (f_equal fst Kip)).
  pose proof HA as (GmA & FmA & GiA & FiA). pose proof HB as (GmB & FmB & GiB & FiB).
  destruct (good_addr _ _ GmA FmA) as [LmA BmA]. destruct (good_addr _ _ GiA FiA) as [LiA BiA].
  destruct (good_addr _ _ GmB FmB) as [LmB BmB]. destruct (good_addr _ _ GiB FiB) as [LiB BiB].
  destruct (arp_request_packet A ip tx HA Gip Fip) as [dest Hreq].
  destruct (arp_reply_learned now A ia (Packet (my_mac A) (my_mac A) (my_mac A)
     (arp_packet 2 (key (my_mac B)).2 (key (my_ip B)).2 (key (my_mac A)).2 (key (my_ip A)).2) [] false)
     (key (my_mac B)).2 (key (my_ip B)).2 (key (my_ip A)).2 ip None) as (m & Gm & Km & HA');
    [done..|by rewrite Kip, <- FiB|done|done|].
  destruct (get_mac_poll_resolved now t
     (with_work (count_request A) (<[key ip := Some (Some m)]> (work A))) (arp_interface A) m ip tx)
    as (c & Hpoll & Hq); [apply lookup_insert_eq|exact (f_equal fst Km)|done|done|done|].
  eexists _, dest, _, _, m, c. split_and!; [exact Hreq| | |exact Hpoll| |exact Hq].
  - intros Hpa. rewrite Kip in Hpa. 
    rewrite (arp_request_answered now B ib pa (key (my_mac A)).2 (key (my_ip A)).2 HB) by done. by rewrite Hsrc.
  - intros Hpb. rewrite <- HA'. unfold arp_handle, pkt_size. by rewrite Hpb.
  - by rewrite Km, <- FmB.
Qed.

Definition ex_host (n : Z) : arp :=
  Arp (ex_mac n) (ex_v4 10 0 0 n) 7 empty_cache {[ (ipv4, [10; 0; 0; 2]) := None ]} 0 0.
Definition ex_arp_frame (src : any_addr) (p : list Z) : packet :=
  Packet src src src p [] false.

Lemma arp_resolves_witness :
  ∃ req dest rep A' m c,
    send_request (ex_host 1) (ex_v4 10 0 0 2) mac true =
      Ok (true, [Frame 7 dest (ex_mac 1) 0x0806 req]) ∧
    (pkt_data (ex_arp_frame (ex_mac 1) (arp_packet 1 [2; 0; 0; 0; 0; 1] [10; 0; 0; 1] [0; 0; 0; 0; 0; 0] [10; 0; 0; 2])) = req →
       arp_handle 5 (ex_host 2) 9 (ex_arp_frame (ex_mac 1) (arp_packet 1 [2; 0; 0; 0; 0; 1] [10; 0; 0; 1] [0; 0; 0; 0; 0; 0] [10; 0; 0; 2])) =
         Ok (count_for_me (count_request (ex_host 2)), [Frame 9 (ex_mac 1) (ex_mac 2) 0x0806 rep])) ∧
    (pkt_data (ex_arp_frame (ex_mac 2) (arp_packet 2 [2; 0; 0; 0; 0; 2] [10; 0; 0; 2] [2; 0; 0; 0; 0; 1] [10; 0; 0; 1])) = rep →
       arp_handle 5 (ex_host 1) 7 (ex_arp_frame (ex_mac 2) (arp_packet 2 [2; 0; 0; 0; 0; 2] [10; 0; 0; 2] [2; 0; 0; 0; 0; 1] [10; 0; 0; 1])) =
         Ok (A', [])) ∧
    get_mac_poll 5 20 false false A' 7 mac (ex_v4 10 0 0 2) true =
      Ok (Resolved 7 m, false, with_cache (with_work A' (delete (key (ex_v4 10 0 0 2)) (work A'))) c, []) ∧
    key m = key (ex_mac 2) ∧ (query_cache c (ex_v4 10 0 0 2) false).1 = Some (7, m).
Proof.
  assert (∀ n, 0 ≤ n < 256 → host_ok (ex_host n)) as Hok.
  { intros n Hn. split_and!; try done; (split; [split_and!; [done|solve_bytes|done]|done]). }
  apply (arp_resolves 5 20 (ex_host 1) (ex_host 2) (ex_v4 10 0 0 2) 7 9
    (ex_arp_frame (ex_mac 1) _) (ex_arp_frame (ex_mac 2) _) true);
    [apply Hok; lia|apply Hok; lia|done| |done|done|done|done|lia].
  split; [split_and!; [done|solve_bytes|done]|done].
Defined.

(** The hardware size of a packet is not compared with the six bytes that are
    read as a MAC address: a packet with [hw_size] and [p_size] 0 passes the
    size check and is then read past its end. *)
Lemma arp_short_packet_overread now s i :
  arp_handle now s i (ex_arp_frame (ex_mac 1) [0; 1; 0x12; 0x34; 0; 0; 0; 1]) = Err bad_access.
Proof. reflexivity. Qed.
