(* ===== verification/Ax25.v ===== *)
(** * AX.25 frames (src/ax25.cpp, src/ax25.h)

    Call signs with their SSID, and the frames that carry them: a destination, a
    source, up to two repeaters when received, a control byte, for I and UI
    frames a protocol id, and the data.  The text of the reasons for being
    invalid is left out.  The constructor that parses a frame reads the addresses
    of repeaters, the control byte and the protocol id without looking at the
    size of the frame: these reads can leave it ([bad_access]).

    Shown: the two readers of addresses read back what [generate_address]
    writes; a frame that is generated is read back, with the end-of-address marks
    where the standard wants them; which frames the parser can read safely. *)
From S2P Require Import Prelude Str AnyAddr Buffers Fifo Net AddressCache Arp.

(** ** Addresses *)

Record ax25_address := Ax25Address {
  aa_valid : bool;
  aa_address : str;
  aa_ssid : Z;
  aa_end_mark : bool;
  aa_repeated : bool;
}.

#[global] Instance ax25_address_eq_dec : EqDecision ax25_address.
Proof. solve_decision. Defined.

(** [ax25_address()] *)
Definition no_address : ax25_address := Ax25Address false [] 0 false false.

(** what the last byte of an address says: end mark, repeated, SSID *)
Definition addr_tail (address : str) (b6 : Z) : ax25_address :=
  Ax25Address true address (Z.land (Z.shiftr b6 1) 0x0f) (Z.testbit b6 0) (Z.land b6 128 =? 128).

(** the constructor for a vector *)
Definition address_of_vector (from : list Z) : res ax25_address :=
  if zlen from <? 7 then Ok no_address
  else
    let '(address, ok) := ax25_chars 0 (take 6 from) false in
    if negb ok then Ok (Ax25Address false address 0 false false)
    else
      let* b6 := rd from 6 in
      Ok (addr_tail address b6).

(** the loop of the constructor for an [any_addr]: here a set lowest bit is refused
    in every byte, also in the sixth *)
Fixpoint any_addr_chars (n : nat) (i : Z) (from : any_addr) (ended : bool) : res (str * bool) :=
  match n with
  | O => Ok ([], true)
  | S n' =>
      let* b := at_ from i in
      if Z.testbit b 0 then Ok ([], false)
      else
        let c := Z.shiftr b 1 in
        if (c =? 0) || (c =? 32) || ended then any_addr_chars n' (i + 1) from true
        else
          let* '(s, ok) := any_addr_chars n' (i + 1) from ended in
          Ok (c :: s, ok)
  end.

Definition address_of_any_addr (from : any_addr) : res ax25_address :=
  let* '(address, ok) := any_addr_chars 6 0 from false in
  if negb ok then Ok (Ax25Address false address 0 false false)
  else
    let* b6 := at_ from 6 in
    Ok (addr_tail address b6).

(** [ax25_address(a, ssid, end_mark, repeated)] *)
Definition address_of_string (a : str) (ssid : Z) (end_mark repeated : bool) : ax25_address :=
  Ax25Address true a ssid end_mark repeated.

(** a [char], stored in an [int] *)
Definition s8 (c : Z) : Z := (c + 128) mod 256 - 128.

(** [ax25_address(a, end_mark, repeated)]: the call sign and the SSID behind a
    dash.  The SSID is the code of the character behind the dash. *)
Definition address_of_dashed (a : str) (end_mark repeated : bool) : ax25_address :=
  match find [45] a with
  | Some dash => Ax25Address true (take dash a) (s8 (nth (S dash) a 0)) end_mark repeated
  | None => Ax25Address true a 0 end_mark repeated
  end.

(** [operator==] *)
Definition address_eqb (this other : ax25_address) : bool :=
  if negb (Bool.eqb (aa_valid other) (aa_valid this)) then false
  else if negb (bool_decide (aa_address other = aa_address this)) then false
  else if negb (aa_ssid other =? aa_ssid this) then false
  else true.

Definition set_address (this : ax25_address) (address : str) (ssid : Z) : ax25_address :=
  Ax25Address (aa_valid this) address ssid (aa_end_mark this) (aa_repeated this).

(** [reset_end_mark], [set_end_mark] *)
Definition with_end_mark (this : ax25_address) (m : bool) : ax25_address :=
  Ax25Address (aa_valid this) (aa_address this) (aa_ssid this) m (aa_repeated this).

Definition address_bytes (a : ax25_address) : list Z :=
  generate_address (aa_address a) (aa_ssid a) (aa_end_mark a) (aa_repeated a).

Definition get_any_addr (a : ax25_address) : res any_addr := mk_addr ax25 (address_bytes a).

(** ** Frames *)

Inductive frame_type := TYPE_I | TYPE_S | TYPE_U | TYPE_UI.

#[global] Instance frame_type_eq_dec : EqDecision frame_type.
Proof. solve_decision. Defined.

Record ax25_packet := Ax25Packet {
  ap_valid : bool;
  ap_from : ax25_address;
  ap_to : ax25_address;
  ap_repeaters : list ax25_address;
  ap_control : Z;
  ap_type : frame_type;
  ap_pid : option Z;
  ap_data : buffer_in;
}.

#[global] Instance ax25_packet_eq_dec : EqDecision ax25_packet.
Proof. solve_decision. Defined.

(** [buffer_in()] *)
Definition no_data : buffer_in := mk_buffer_in [] 0.

(** [ax25_packet()] *)
Definition new_ax25_packet : ax25_packet :=
  Ax25Packet false no_address no_address [] 0 TYPE_I None no_data.

(** the control bytes with a protocol id: I and UI frames *)
Definition has_pid (control : Z) : bool := (Z.land control 1 =? 0) || (Z.land control 0xef =? 0x03).

(** what the control byte says *)
Definition type_of_control (control : Z) : frame_type :=
  if has_pid control then (if Z.land control 0xef =? 0x03 then TYPE_UI else TYPE_I)
  else if negb (Z.land control 2 =? 0) then TYPE_U else TYPE_S.

(** the loop over the repeaters, [n] rounds left: the repeaters, the offset behind
    them and whether all were valid *)
Fixpoint parse_repeaters (n : nat) (in_ : list Z) (offset : Z) (end_mark : bool)
  : res (list ax25_address * Z * bool) :=
  match n with
  | O => Ok ([], offset, true)
  | S n' =>
      if end_mark then Ok ([], offset, true)
      else
        let* v := rd_range in_ offset 7 in
        let* a := address_of_vector v in
        if negb (aa_valid a) then Ok ([], offset + 7, false)
        else
          let* '(rest, offset', ok) := parse_repeaters n' in_ (offset + 7) (aa_end_mark a) in
          Ok (a :: rest, offset', ok)
  end.

(** the constructor for a received frame *)
Definition parse_ax25 (in_ : list Z) : res ax25_packet :=
  if zlen in_ <? 14 then Ok new_ax25_packet
  else
    let* v := rd_range in_ 0 7 in
    let* to := address_of_vector v in
    if negb (aa_valid to) then Ok (Ax25Packet false no_address to [] 0 TYPE_I None no_data)
    else
      let* v := rd_range in_ 7 7 in
      let* from := address_of_vector v in
      if negb (aa_valid from) then Ok (Ax25Packet false from to [] 0 TYPE_I None no_data)
      else
        let* '(repeaters, offset, ok) := parse_repeaters 2 in_ 14 (aa_end_mark from) in
        if negb ok then Ok (Ax25Packet false from to repeaters 0 TYPE_I None no_data)
        else
          let* control := rd in_ offset in
          let offset := offset + 1 in
          let* '(pid, offset) :=
            (if has_pid control then
               let* pid := rd in_ offset in Ok (Some pid, offset + 1)
             else Ok (None, offset)) in
          let data := if offset <? zlen in_ then mk_buffer_in (ptr_at in_ offset) (zlen in_ - offset) else no_data in
          Ok (Ax25Packet true from to repeaters control (type_of_control control) pid data).

Definition add_repeater (p : ax25_packet) (addr : any_addr) : res ax25_packet :=
  let* temp := address_of_any_addr addr in
  if existsb (λ repeater, address_eqb repeater temp) (ap_repeaters p) then Ok p
  else Ok (Ax25Packet (ap_valid p) (ap_from p) (ap_to p) (ap_repeaters p ++ [temp]) (ap_control p) (ap_type p)
             (ap_pid p) (ap_data p)).

(** the two overloads of [set_from] and of [set_to] assign an address *)
Definition set_from (p : ax25_packet) (from : ax25_address) : ax25_packet :=
  Ax25Packet (ap_valid p) from (ap_to p) (ap_repeaters p) (ap_control p) (ap_type p) (ap_pid p) (ap_data p).
Definition set_to (p : ax25_packet) (to : ax25_address) : ax25_packet :=
  Ax25Packet (ap_valid p) (ap_from p) to (ap_repeaters p) (ap_control p) (ap_type p) (ap_pid p) (ap_data p).
Definition set_from_addr (p : ax25_packet) (callsign : any_addr) : res ax25_packet :=
  res_map (set_from p) (address_of_any_addr callsign).
Definition set_to_addr (p : ax25_packet) (callsign : any_addr) : res ax25_packet :=
  res_map (set_to p) (address_of_any_addr callsign).
Definition set_data (p : ax25_packet) (data : list Z) (size : Z) : ax25_packet :=
  Ax25Packet (ap_valid p) (ap_from p) (ap_to p) (ap_repeaters p) (ap_control p) (ap_type p) (ap_pid p)
    (mk_buffer_in data size).
Definition set_control (p : ax25_packet) (control : Z) : ax25_packet :=
  Ax25Packet (ap_valid p) (ap_from p) (ap_to p) (ap_repeaters p) control (ap_type p) (ap_pid p) (ap_data p).
Definition set_pid (p : ax25_packet) (pid : Z) : ax25_packet :=
  Ax25Packet (ap_valid p) (ap_from p) (ap_to p) (ap_repeaters p) (ap_control p) (ap_type p) (Some pid) (ap_data p).

(** [set_type] changes the control byte, and not the type *)
Definition set_type (p : ax25_packet) (f : frame_type) : ax25_packet :=
  set_control p
    match f with
    | TYPE_I => Z.land (ap_control p) 254
    | TYPE_S => Z.land (Z.lor (ap_control p) 1) 253
    | _ => Z.lor (Z.lor (ap_control p) 1) 2
    end.

(** ** Generating a frame *)

(** the loop over the repeaters: [i] is the index of the first one of [l], [n] the
    number of all *)
Fixpoint put_repeaters (out : list Z) (offset i n : Z) (l : list ax25_address) : res (list Z * Z) :=
  match l with
  | [] => Ok (out, offset)
  | a :: l' =>
      let copy_repeater := with_end_mark a (i =? n - 1) in
      let* out := wr_range out offset (address_bytes copy_repeater) in
      put_repeaters out (offset + 7) (i + 1) n l'
  end.

(** the bytes, their number, and the packet: [get_bytes] moves the offset in [data] *)
Definition generate_packet (p : ax25_packet) : res (list Z * Z * ax25_packet) :=
  let data_size := bi_size (ap_data p) in
  let out := replicate (Z.to_nat (data_size + 1024)) 0 in
  let* out := wr_range out 0 (address_bytes (ap_to p)) in
  let copy_from := if bool_decide (ap_repeaters p = []) then ap_from p else with_end_mark (ap_from p) false in
  let* out := wr_range out 7 (address_bytes copy_from) in
  let* '(out, offset) := put_repeaters out 14 0 (zlen (ap_repeaters p)) (ap_repeaters p) in
  let* out := wr out offset (ap_control p) in
  let offset := offset + 1 in
  let* '(out, offset) :=
    (if has_pid (ap_control p) then
       let* out := wr out offset (default 0 (ap_pid p)) in Ok (out, offset + 1)
     else Ok (out, offset)) in
  let* '(bytes, data') := get_bytes (ap_data p) data_size in
  let* bytes := rd_range bytes 0 data_size in
  let* out := wr_range out offset bytes in
  Ok (out, data_size + offset,
      Ax25Packet (ap_valid p) (ap_from p) (ap_to p) (ap_repeaters p) (ap_control p) (ap_type p) (ap_pid p) data').

(** ** Reading back an address *)

(** the characters a call sign on the wire can have *)
Definition callsign_char (c : Z) : Prop := 0 < c < 128 ∧ c ≠ 32.

(** an address that fits on the wire *)
Definition address_ok (a : ax25_address) : Prop :=
  aa_valid a = true ∧ (length (aa_address a) ≤ 6)%nat ∧ Forall callsign_char (aa_address a) ∧
  0 ≤ aa_ssid a < 16.

#[global] Instance callsign_char_dec c : Decision (callsign_char c).
Proof. unfold callsign_char. apply _. Defined.
#[global] Instance address_ok_dec a : Decision (address_ok a).
Proof. unfold address_ok. apply _. Defined.

Lemma callsign_byte c :
  callsign_char c →
  Z.testbit (u8 (Z.shiftl c 1)) 0 = false ∧ Z.shiftr (u8 (Z.shiftl c 1)) 1 = c ∧ ((c =? 0) || (c =? 32)) = false.
Proof.
  intros [Hc Hn]. assert (u8 (Z.shiftl c 1) = 2 * c) as ->.
  { rewrite Z.shiftl_mul_pow2 by lia. unfold u8. rewrite Z.mod_small by lia. lia. }
  split_and!.
  - by rewrite Z.testbit_even_0.
  - rewrite Z.shiftr_div_pow2 by lia. change (2 ^ 1) with 2. rewrite Z.mul_comm. by apply Z.div_mul.
  - apply orb_false_iff. rewrite !Z.eqb_neq. lia.
Qed.

Lemma ax25_chars_padding i k : ax25_chars i (replicate k 64) true = ([], true).
Proof.
  revert i. induction k as [|k IH]; intros i; [done|]. cbn [replicate ax25_chars].
  change (Z.testbit 64 0) with false. cbn [andb]. rewrite orb_true_r. apply IH.
Qed.

Lemma ax25_chars_generated i cs k :
  Forall callsign_char cs →
  ax25_chars i (((λ c, u8 (Z.shiftl c 1)) <$> cs) ++ replicate k 64) false = (cs, true).
Proof.
  intros H. revert i. induction H as [|c cs Hc _ IH]; intros i.
  - destruct k as [|k]; [done|]. cbn [fmap list_fmap app replicate ax25_chars].
    change (Z.testbit 64 0) with false. change (Z.shiftr 64 1) with 32. cbn. apply ax25_chars_padding.
  - destruct (callsign_byte c Hc) as (B0 & B1 & B2).
    cbn [fmap list_fmap app ax25_chars]. rewrite B0, B1, B2. cbn [andb orb]. by rewrite IH.
Qed.

(** the seven bytes of an address: six for the call sign and one more *)
Definition addr_last (a : ax25_address) : Z :=
  u8 (Z.lor (Z.lor (Z.shiftl (aa_ssid a) 1) (if aa_end_mark a then 1 else 0)) (if aa_repeated a then 128 else 0)).
Definition addr_call (a : ax25_address) : list Z :=
  ((λ c, u8 (Z.shiftl c 1)) <$> aa_address a) ++ replicate (6 - length (aa_address a)) 64.

Lemma address_bytes_eq a :
  (length (aa_address a) ≤ 6)%nat → address_bytes a = addr_call a ++ [addr_last a] ∧ length (addr_call a) = 6%nat.
Proof.
  intros Hl. unfold address_bytes, generate_address, addr_call, addr_last.
  rewrite Nat.min_r by lia. rewrite firstn_all. split; [by rewrite <- app_assoc|].
  rewrite length_app, length_fmap, length_replicate. lia.
Qed.

Lemma length_address_bytes a : length (address_bytes a) = 7%nat.
Proof.
  unfold address_bytes, generate_address. rewrite !length_app, length_fmap, length_take, length_replicate.
  cbn [length]. lia.
Qed.

Lemma zlen_address_bytes a : zlen (address_bytes a) = 7.
Proof. unfold zlen. by rewrite length_address_bytes. Qed.

Lemma address_bytes_ok a : bytes_ok (address_bytes a).
Proof.
  unfold address_bytes, generate_address. apply bytes_ok_app; [|apply bytes_ok_app].
  - apply Forall_fmap, Forall_true. intros c. apply u8_ok.
  - apply bytes_ok_replicate. done.
  - repeat constructor; apply u8_ok.
Qed.
#[export] Hint Resolve address_bytes_ok : myip.

(** the last byte says the SSID and the two marks *)
Lemma addr_tail_last a :
  address_ok a → addr_tail (aa_address a) (addr_last a) = a.
Proof.
  intros (Hv & _ & _ & Hs). destruct a as [v s n e r]; cbn in *. subst v. unfold addr_tail, addr_last. cbn.
  assert (n = 0 ∨ n = 1 ∨ n = 2 ∨ n = 3 ∨ n = 4 ∨ n = 5 ∨ n = 6 ∨ n = 7 ∨ n = 8 ∨ n = 9 ∨ n = 10 ∨ n = 11 ∨
          n = 12 ∨ n = 13 ∨ n = 14 ∨ n = 15) as H by lia.
  repeat (destruct H as [->|H]; [destruct e, r; reflexivity|]). subst n. destruct e, r; reflexivity.
Qed.

Lemma address_of_vector_generated a :
  address_ok a → address_of_vector (address_bytes a) = Ok a.
Proof.
  intros Ha. pose proof Ha as (Hv & Hl & Hc & Hs). destruct (address_bytes_eq a Hl) as [E L].
  unfold address_of_vector. rewrite zlen_address_bytes. cbn [Z.ltb Z.compare Pos.compare Pos.compare_cont].
  rewrite E, <- L, take_app_length. unfold addr_call at 1. rewrite ax25_chars_generated by done. cbn [negb].
  assert (rd (addr_call a ++ [addr_last a]) 6 = Ok (addr_last a)) as ->.
  { apply rd_Ok. split; [lia|]. change (Z.to_nat 6) with 6%nat. rewrite <- L. by apply list_lookup_middle. }
  cbn [res_bind]. by rewrite addr_tail_last.
Qed.

(** the strict loop, on the bytes of the address *)
Lemma any_addr_chars_lenient n i from s (bytes : list Z) :
  good from → af from = ax25 → (n + Z.to_nat i ≤ 6)%nat → 0 ≤ i →
  bytes = take n (drop (Z.to_nat i) (key from).2) → Forall (λ b, Z.testbit b 0 = false) bytes →
  ∀ ended, ax25_chars i bytes ended = (s, true) → any_addr_chars n i from ended = Ok (s, true).
Proof.
  revert i s bytes. induction n as [|n IH]; intros i s bytes Hg Hf Hn Hi Hb Hall ended Hc.
  { rewrite take_0 in Hb. subst. cbn in *. congruence. }
  destruct (at_good from i Hg) as (b & Hat & Hlk); [rewrite Hf; simpl; lia|].
  rewrite (drop_S _ b) in Hb by done. cbn [take] in Hb. subst bytes.
  apply Forall_cons_1 in Hall as [Hb Hall].
  cbn [any_addr_chars]. rewrite Hat. cbn [res_bind]. rewrite Hb.
  cbn [ax25_chars] in Hc. rewrite Hb in Hc. cbn [andb] in Hc.
  replace (S (Z.to_nat i)) with (Z.to_nat (i + 1)) in * by lia.
  destruct ((Z.shiftr b 1 =? 0) || (Z.shiftr b 1 =? 32) || ended) eqn:Ee.
  - by apply (IH (i + 1) s _ Hg Hf ltac:(lia) ltac:(lia) eq_refl Hall).
  - destruct (ax25_chars (i + 1) (take n (drop (Z.to_nat (i + 1)) (key from).2)) ended) as [s' v] eqn:E.
    injection Hc as <- ->.
    rewrite (IH (i + 1) s' _ Hg Hf ltac:(lia) ltac:(lia) eq_refl Hall ended E). done.
Qed.

Lemma addr_call_even a :
  Forall callsign_char (aa_address a) → Forall (λ b, Z.testbit b 0 = false) (addr_call a).
Proof.
  intros Hc. apply Forall_app_2; [|by apply Forall_replicate].
  apply Forall_fmap. eapply Forall_impl; [exact Hc|]. intros c H. by apply callsign_byte.
Qed.

Lemma get_any_addr_spec a :
  ∃ x, get_any_addr a = Ok x ∧ good x ∧ key x = (ax25, address_bytes a).
Proof.
  destruct (mk_addr_spec ax25 (address_bytes a)) as (x & E & G & K);
    [apply address_bytes_ok|rewrite zlen_address_bytes; done|].
  exists x. split_and!; [done|done|]. rewrite K. simpl. f_equal. apply take_ge. rewrite length_address_bytes. lia.
Qed.

(** an [any_addr] that holds the bytes of an address is read as this address *)
Lemma address_of_any_addr_key x a :
  address_ok a → good x → key x = (ax25, address_bytes a) → address_of_any_addr x = Ok a.
Proof.
  intros Ha Hg K. pose proof Ha as (Hv & Hl & Hc & Hs). destruct (address_bytes_eq a Hl) as [E L].
  assert (af x = ax25) as Hf by (by apply (f_equal fst) in K).
  assert ((key x).2 = addr_call a ++ [addr_last a]) as K2 by (rewrite K; done).
  unfold address_of_any_addr.
  rewrite (any_addr_chars_lenient 6 0 x (aa_address a) (addr_call a)); try done.
  - cbn [res_bind negb]. destruct (at_good x 6 Hg) as (b & -> & Hb); [rewrite Hf; simpl; lia|].
    rewrite K2 in Hb. change (Z.to_nat 6) with 6%nat in Hb. rewrite <- L in Hb.
    rewrite list_lookup_middle in Hb by done. injection Hb as <-. cbn [res_bind]. by rewrite addr_tail_last.
  - rewrite K2. change (Z.to_nat 0) with 0%nat. rewrite drop_0, <- L. by rewrite take_app_length.
  - by apply addr_call_even.
  - by apply ax25_chars_generated.
Qed.

(** a call sign with an SSID in text: the code of a digit has the digit in its low
    bits, and these are what is left of it on the wire; so one digit is kept *)
Lemma dashed_digit cs d e r :
  (length cs ≤ 6)%nat → Forall callsign_char cs → (45 ∉ cs) → 0 ≤ d < 10 →
  address_of_vector (address_bytes (address_of_dashed (cs ++ [45; 48 + d]) e r)) = Ok (Ax25Address true cs d e r).
Proof.
  intros Hl Hc Hd Hdig. unfold address_of_dashed. rewrite find_char_app by done. rewrite take_app_length.
  replace (nth (S (length cs)) (cs ++ [45; 48 + d]) 0) with (48 + d)
    by (rewrite app_nth2 by lia; by replace (S (length cs) - length cs)%nat with 1%nat by lia).
  replace (address_bytes _) with (addr_call (Ax25Address true cs d e r) ++ [addr_last (Ax25Address true cs (s8 (48 + d)) e r)])
    by (symmetry; exact (proj1 (address_bytes_eq (Ax25Address true cs (s8 (48 + d)) e r) Hl))).
  pose proof (proj2 (address_bytes_eq (Ax25Address true cs d e r) Hl)) as L.
  unfold address_of_vector. rewrite (proj2 (Z.ltb_ge _ 7)) by (rewrite zlen_app; unfold zlen; rewrite L; simpl; lia).
  rewrite <- L, take_app_length. unfold addr_call at 1. rewrite ax25_chars_generated by done. cbn [negb aa_address].
  rewrite rd_mid by (unfold zlen; rewrite L; done). cbn [res_bind]. unfold addr_tail, addr_last. cbn [aa_ssid aa_end_mark aa_repeated].
  assert (d = 0 ∨ d = 1 ∨ d = 2 ∨ d = 3 ∨ d = 4 ∨ d = 5 ∨ d = 6 ∨ d = 7 ∨ d = 8 ∨ d = 9) as H by lia.
  repeat (destruct H as [->|H]; [destruct e, r; reflexivity|]). subst d. destruct e, r; reflexivity.
Qed.

(** of two digits the first one is left: PD-12 becomes PD-1 *)
Lemma dashed_two_digits :
  address_of_vector (address_bytes (address_of_dashed [80; 68; 45; 49; 50] true false)) =
    Ok (Ax25Address true [80; 68] 1 true false).
Proof. reflexivity. Qed.

(** ** A generated frame *)

(** the address of the sender, and the repeaters, as they are sent: only the last
    address has the end mark *)
Definition sent_from (p : ax25_packet) : ax25_address :=
  if bool_decide (ap_repeaters p = []) then ap_from p else with_end_mark (ap_from p) false.

Fixpoint sent_repeaters (l : list ax25_address) : list ax25_address :=
  match l with
  | [] => []
  | a :: l' => with_end_mark a (bool_decide (l' = [])) :: sent_repeaters l'
  end.

Definition sent_pid (p : ax25_packet) : list Z :=
  if has_pid (ap_control p) then [u8 (default 0 (ap_pid p))] else [].

Definition data_bytes (b : buffer_in) : list Z := take (Z.to_nat (bi_size b)) (bi_p b).

Definition ax25_header (p : ax25_packet) : list Z :=
  address_bytes (ap_to p) ++ address_bytes (sent_from p) ++
  concat (address_bytes <$> sent_repeaters (ap_repeaters p)) ++ [u8 (ap_control p)] ++ sent_pid p.

Definition frame_bytes (p : ax25_packet) : list Z := ax25_header p ++ data_bytes (ap_data p).

(** the data was not read yet, and the header fits in the room for it *)
Definition data_ok (b : buffer_in) : Prop :=
  bi_o b = 0 ∧ 0 ≤ bi_size b ≤ zlen (bi_p b) ∧ bi_size b ≤ int_max - 2000 ∧ bytes_ok (bi_p b).
Definition sendable (p : ax25_packet) : Prop := data_ok (ap_data p) ∧ (length (ap_repeaters p) ≤ 100)%nat.

Lemma put_app a k src i :
  i = zlen a → (length src ≤ k)%nat →
  wr_range (a ++ replicate k 0) i src = Ok ((a ++ src) ++ replicate (k - length src) 0).
Proof.
  intros -> H. rewrite wr_range_app; [|done|unfold zlen; rewrite length_replicate; lia].
  rewrite drop_replicate. by rewrite <- app_assoc.
Qed.

Lemma put_byte_app a k b i :
  i = zlen a → (1 ≤ k)%nat → wr (a ++ replicate k 0) i b = Ok ((a ++ [u8 b]) ++ replicate (k - 1) 0).
Proof.
  intros -> H. rewrite wr_Ok by (unfold zlen; rewrite length_app, length_replicate; lia).
  unfold zlen. rewrite Nat2Z.id. destruct k as [|k]; [lia|]. cbn [replicate].
  rewrite insert_app_r_alt, Nat.sub_diag by lia. cbn. rewrite <- app_assoc. do 3 f_equal. simpl. f_equal. lia.
Qed.

Lemma put_repeaters_spec l a k i n :
  (7 * length l ≤ k)%nat → n = i + zlen l →
  put_repeaters (a ++ replicate k 0) (zlen a) i n l =
    Ok ((a ++ concat (address_bytes <$> sent_repeaters l)) ++ replicate (k - 7 * length l) 0,
        zlen a + 7 * zlen l).
Proof.
  revert a k i. induction l as [|x l IH]; intros a k i Hk ->.
  { cbn [put_repeaters sent_repeaters fmap list_fmap concat]. rewrite app_nil_r. unfold zlen. cbn [length].
    replace (k - 7 * 0)%nat with k by lia. f_equal. f_equal. lia. }
  cbn [put_repeaters sent_repeaters fmap list_fmap concat length] in *.
  rewrite put_app; [|done|rewrite length_address_bytes; lia]. cbn [res_bind].
  rewrite zlen_cons in *.
  assert ((i =? i + (zlen l + 1) - 1) = bool_decide (l = [])) as ->.
  { destruct l as [|y l]; [apply Z.eqb_eq; unfold zlen; simpl; lia|].
    rewrite bool_decide_eq_false_2 by done. apply Z.eqb_neq. unfold zlen. simpl. lia. }
  set (x' := with_end_mark x (bool_decide (l = []))).
  replace (zlen a + 7) with (zlen (a ++ address_bytes x')) by (rewrite zlen_app, zlen_address_bytes; done).
  rewrite length_address_bytes. rewrite IH by lia.
  rewrite <- app_assoc, zlen_app, zlen_address_bytes.
  replace (k - 7 - 7 * length l)%nat with (k - 7 * S (length l))%nat by lia.
  rewrite <- !app_assoc. by replace (zlen a + 7 + 7 * zlen l) with (zlen a + 7 * (zlen l + 1)) by lia.
Qed.

Lemma zlen_sent_pid p : zlen (sent_pid p) = if has_pid (ap_control p) then 1 else 0.
Proof. unfold sent_pid. by destruct (has_pid (ap_control p)). Qed.

Lemma zlen_concat_addresses l : zlen (concat (address_bytes <$> l)) = 7 * zlen l.
Proof.
  induction l as [|a l IH]; [done|]. cbn [fmap list_fmap concat].
  change (list_fmap _ _ address_bytes l) with (address_bytes <$> l).
  rewrite zlen_app, zlen_address_bytes, IH, zlen_cons. lia.
Qed.

Lemma length_sent_repeaters l : length (sent_repeaters l) = length l.
Proof. induction l as [|a l IH]; simpl; congruence. Qed.

Lemma get_bytes_all b :
  data_ok b → ∃ b', get_bytes b (bi_size b) = Ok (bi_p b, b') ∧ rd_range (bi_p b) 0 (bi_size b) = Ok (data_bytes b).
Proof.
  intros (Ho & Hs & Hm & _). unfold get_bytes, check_room, int_add. rewrite Ho. unfold int_min, int_max in *.
  rewrite (proj2 (Z.leb_le (-2147483648) _)), (proj2 (Z.leb_le _ 2147483647)) by lia. cbn [andb res_bind].
  rewrite (proj2 (Z.ltb_ge (bi_size b) _)) by lia. cbn [res_bind]. eexists. split; [done|].
  rewrite rd_range_Ok by lia. done.
Qed.

(** the bytes that are generated *)
Lemma generate_packet_spec p :
  sendable p →
  ∃ out n p', generate_packet p = Ok (out, n, p') ∧ n = zlen (frame_bytes p) ∧ rd_range out 0 n = Ok (frame_bytes p).
Proof.
  intros [Hd Hr]. unfold generate_packet.
  set (k := Z.to_nat (bi_size (ap_data p) + 1024)).
  pose proof Hd as (_ & Hs & _ & _).
  change (replicate k 0) with ([] ++ replicate k 0).
  rewrite put_app; [|done|rewrite length_address_bytes; lia]. cbn [res_bind app].
  change (if bool_decide (ap_repeaters p = []) then ap_from p else with_end_mark (ap_from p) false) with (sent_from p).
  rewrite put_app; [|by rewrite zlen_address_bytes|rewrite !length_address_bytes; lia]. cbn [res_bind].
  set (a1 := address_bytes (ap_to p) ++ address_bytes (sent_from p)).
  assert (zlen a1 = 14) as L1 by (unfold a1; rewrite zlen_app, !zlen_address_bytes; done).
  rewrite <- L1. rewrite !length_address_bytes. rewrite put_repeaters_spec by (try lia; done). cbn [res_bind].
  set (a2 := a1 ++ concat (address_bytes <$> sent_repeaters (ap_repeaters p))).
  assert (zlen a2 = zlen a1 + 7 * zlen (ap_repeaters p)) as L2.
  { unfold a2. rewrite zlen_app, zlen_concat_addresses. unfold zlen. by rewrite length_sent_repeaters. }
  rewrite <- L2. rewrite put_byte_app; [|done|lia]. cbn [res_bind].
  set (k2 := (k - 7 - 7 - 7 * length (ap_repeaters p) - 1)%nat).
  set (a3 := a2 ++ [u8 (ap_control p)]). assert (zlen a2 + 1 = zlen a3) as L3 by (unfold a3; by rewrite zlen_app).
  rewrite L3. destruct (get_bytes_all (ap_data p) Hd) as (b' & Gb & Rb).
  assert (length (data_bytes (ap_data p)) = Z.to_nat (bi_size (ap_data p))) as Ld.
  { unfold data_bytes, zlen in *. rewrite length_take. lia. }
  assert (frame_bytes p = (a3 ++ sent_pid p) ++ data_bytes (ap_data p)) as Ef.
  { unfold frame_bytes, ax25_header, a3, a2, a1. by rewrite !app_assoc. }
  assert (∃ k3, (length (data_bytes (ap_data p)) ≤ k3)%nat ∧
    (if has_pid (ap_control p) then
       let* out := wr (a3 ++ replicate k2 0) (zlen a3) (default 0 (ap_pid p)) in Ok (out, zlen a3 + 1)
     else Ok (a3 ++ replicate k2 0, zlen a3)) =
    Ok ((a3 ++ sent_pid p) ++ replicate k3 0, zlen (a3 ++ sent_pid p))) as (k3 & Hk3 & ->).
  { rewrite zlen_app, zlen_sent_pid. unfold sent_pid. destruct (has_pid (ap_control p)).
    - exists (k2 - 1)%nat. split; [lia|]. by rewrite put_byte_app by (try done; lia).
    - exists k2. split; [lia|]. rewrite app_nil_r, Z.add_0_r. done. }
  cbn [res_bind]. rewrite Gb. cbn [res_bind]. rewrite Rb. cbn [res_bind].
  rewrite put_app by done. cbn [res_bind]. do 3 eexists. split; [done|].
  assert (bi_size (ap_data p) + zlen (a3 ++ sent_pid p) = zlen (frame_bytes p)) as ->.
  { rewrite Ef, (zlen_app (a3 ++ sent_pid p)). unfold zlen in *. lia. }
  split; [done|]. rewrite <- Ef. by apply rd_range_app.
Qed.

(** ** A received frame *)

(** a frame the standard allows: its addresses fit, it has at most two repeaters,
    and the sender has the end mark when there are none *)
Definition wire_ok (p : ax25_packet) : Prop :=
  data_ok (ap_data p) ∧ address_ok (ap_to p) ∧ address_ok (ap_from p) ∧ Forall address_ok (ap_repeaters p) ∧
  (length (ap_repeaters p) ≤ 2)%nat ∧ (ap_repeaters p = [] → aa_end_mark (ap_from p) = true) ∧
  byte_ok (ap_control p) ∧ byte_ok (default 0 (ap_pid p)).

(** what the receiver of the frame sees *)
Definition received (p : ax25_packet) : ax25_packet :=
  Ax25Packet true (sent_from p) (ap_to p) (sent_repeaters (ap_repeaters p)) (ap_control p)
    (type_of_control (ap_control p)) (if has_pid (ap_control p) then Some (default 0 (ap_pid p)) else None)
    (mk_buffer_in (data_bytes (ap_data p)) (bi_size (ap_data p))).

Lemma address_ok_end_mark a m : address_ok a → address_ok (with_end_mark a m).
Proof. done. Qed.

Lemma sent_from_ok p : address_ok (ap_from p) → address_ok (sent_from p).
Proof. unfold sent_from. intros. by destruct (bool_decide _). Qed.

Lemma sent_from_end_mark p :
  (ap_repeaters p = [] → aa_end_mark (ap_from p) = true) → aa_end_mark (sent_from p) = bool_decide (ap_repeaters p = []).
Proof.
  intros H. unfold sent_from. destruct (bool_decide_reflect (ap_repeaters p = [])) as [E|E]; [auto|done].
Qed.

Lemma parse_repeaters_sent l n a rest :
  Forall address_ok l → (length l ≤ n)%nat →
  parse_repeaters n (a ++ concat (address_bytes <$> sent_repeaters l) ++ rest) (zlen a) (bool_decide (l = [])) =
    Ok (sent_repeaters l, zlen a + 7 * zlen l, true).
Proof.
  intros Hl. revert n a. induction Hl as [|x l Hx _ IH]; intros n a Hn.
  { rewrite bool_decide_eq_true_2 by done. change (zlen (@nil ax25_address)) with 0.
    rewrite Z.add_0_r. by destruct n. }
  destruct n as [|n]; cbn [length] in Hn; [lia|]. cbn [parse_repeaters sent_repeaters fmap list_fmap concat].
  rewrite bool_decide_eq_false_2 by done. set (x' := with_end_mark x (bool_decide (l = []))).
  change (list_fmap _ _ address_bytes (sent_repeaters l)) with (address_bytes <$> sent_repeaters l).
  rewrite <- app_assoc, rd_range_mid; [|done|by rewrite zlen_address_bytes]. cbn [res_bind].
  rewrite address_of_vector_generated by (by apply address_ok_end_mark). cbn [res_bind].
  pose proof Hx as (Hv & _). cbn [x' with_end_mark aa_valid aa_end_mark]. rewrite Hv. cbn [negb].
  rewrite (app_assoc a).
  replace (zlen a + 7) with (zlen (a ++ address_bytes x')) by (rewrite zlen_app, zlen_address_bytes; done).
  rewrite IH by lia. cbn [res_bind]. rewrite zlen_app, zlen_address_bytes, zlen_cons.
  by replace (zlen a + 7 + 7 * zlen l) with (zlen a + 7 * (zlen l + 1)) by lia.
Qed.

(** the parser reads the bytes of a frame *)
Lemma parse_frame_bytes p : wire_ok p → parse_ax25 (frame_bytes p) = Ok (received p).
Proof.
  intros (Hd & Hto & Hfrom & Hrep & Hn & Hend & Hc & Hp). pose proof (sent_from_ok p Hfrom) as Hsf.
  unfold parse_ax25, frame_bytes, ax25_header.
  set (tl := concat (address_bytes <$> sent_repeaters (ap_repeaters p)) ++ [u8 (ap_control p)] ++ sent_pid p).
  rewrite <- !app_assoc. unfold tl. rewrite <- !app_assoc.
  set (rest := [u8 (ap_control p)] ++ sent_pid p ++ data_bytes (ap_data p)).
  rewrite (proj2 (Z.ltb_ge _ 14))
    by (rewrite !zlen_app, !zlen_address_bytes; pose proof (zlen_nonneg rest);
        pose proof (zlen_nonneg (concat (address_bytes <$> sent_repeaters (ap_repeaters p)))); lia).
  rewrite rd_range_app by (by rewrite zlen_address_bytes). cbn [res_bind].
  rewrite address_of_vector_generated by done. cbn [res_bind]. rewrite (proj1 Hto). cbn [negb].
  rewrite rd_range_mid by (by rewrite zlen_address_bytes). cbn [res_bind].
  rewrite address_of_vector_generated by done. cbn [res_bind]. rewrite (proj1 Hsf). cbn [negb].
  rewrite sent_from_end_mark by done. rewrite app_assoc.
  set (a1 := address_bytes (ap_to p) ++ address_bytes (sent_from p)).
  assert (zlen a1 = 14) as L1 by (unfold a1; rewrite zlen_app, !zlen_address_bytes; done).
  rewrite <- L1. rewrite parse_repeaters_sent by done. cbn [res_bind negb].
  rewrite (app_assoc a1). set (a2 := a1 ++ concat (address_bytes <$> sent_repeaters (ap_repeaters p))).
  assert (zlen a1 + 7 * zlen (ap_repeaters p) = zlen a2) as ->.
  { unfold a2. rewrite zlen_app, zlen_concat_addresses. unfold zlen. by rewrite length_sent_repeaters. }
  unfold rest. cbn [app]. rewrite rd_mid by done. cbn [res_bind]. rewrite (u8_id (ap_control p)) by done.
  change (ap_control p :: ?l) with ([ap_control p] ++ l). rewrite (app_assoc a2).
  replace (zlen a2 + 1) with (zlen (a2 ++ [ap_control p])) by (by rewrite zlen_app).
  set (a3 := a2 ++ [ap_control p]). unfold received.
  assert ((if has_pid (ap_control p) then
             let* pid := rd (a3 ++ sent_pid p ++ data_bytes (ap_data p)) (zlen a3) in Ok (Some pid, zlen a3 + 1)
           else Ok (None, zlen a3)) =
          Ok (if has_pid (ap_control p) then Some (default 0 (ap_pid p)) else None, zlen (a3 ++ sent_pid p))) as ->.
  { unfold sent_pid. destruct (has_pid (ap_control p)); [|by rewrite app_nil_r].
    cbn [app]. rewrite rd_mid by done. rewrite u8_id by done. by rewrite zlen_app. }
  cbn [res_bind]. rewrite (app_assoc a3), ptr_at_app, (zlen_app (a3 ++ sent_pid p)) by done.
  set (a4 := a3 ++ sent_pid p). f_equal. f_equal. destruct Hd as (_ & Hs & _).
  assert (zlen (data_bytes (ap_data p)) = bi_size (ap_data p)) as ->.
  { unfold data_bytes, zlen in *. rewrite length_take. lia. }
  destruct (Z.ltb_spec (zlen a4) (zlen a4 + bi_size (ap_data p))).
  - unfold mk_buffer_in. f_equal. lia.
  - unfold no_data, data_bytes. by replace (bi_size (ap_data p)) with 0 by lia.
Qed.

(** A frame survives the line: the bytes that [generate_packet] makes of a
    frame with call signs of at most six characters and at most two repeaters are
    read back by the constructor as the same destination, control byte, protocol id
    and data, the sender and the repeaters with the end-of-address mark on the last
    address only, and the type the control byte stands for. *)
Theorem ax25_roundtrip p :
  wire_ok p →
  ∃ out n p', generate_packet p = Ok (out, n, p') ∧
    res_bind (rd_range out 0 n) parse_ax25 = Ok (received p).
Proof.
  intros Hp. destruct (generate_packet_spec p) as (out & n & p' & G & _ & R).
  { destruct Hp as (Hd & _ & _ & _ & Hn & _). split; [done|lia]. }
  exists out, n, p'. split; [done|]. rewrite R. by apply parse_frame_bytes.
Qed.

(** PE1CHL-7 to PD9FVH-1 over PI1DAF-2, with two bytes of data *)
Definition ex_frame : ax25_packet :=
  Ax25Packet false (Ax25Address true [80; 69; 49; 67; 72; 76] 7 false false)
    (Ax25Address true [80; 68; 57; 70; 86; 72] 1 true false)
    [Ax25Address true [80; 73; 49; 68; 65; 70] 2 false true] 0x03 TYPE_I (Some 0xcc) (mk_buffer_in [69; 0] 2).

Lemma ax25_roundtrip_witness :
  ∃ out n p', generate_packet ex_frame = Ok (out, n, p') ∧
    res_bind (rd_range out 0 n) parse_ax25 = Ok (received ex_frame).
Proof.
  apply ax25_roundtrip.
  split_and!; [split_and!; [done|done..|solve_bytes]|..]; try (by apply (bool_decide_unpack _)); try done.
Defined.

(** ** Which frames are read without leaving them *)

Lemma address_of_vector_total v : 7 ≤ zlen v → ∃ a, address_of_vector v = Ok a.
Proof.
  intros Hv. unfold address_of_vector. rewrite (proj2 (Z.ltb_ge _ 7)) by lia.
  destruct (ax25_chars 0 (take 6 v) false) as [s []]; cbn [negb]; [|eauto].
  destruct (rd_in_range v 6) as [b ->]; [lia|]. cbn. eauto.
Qed.

(** the first round of the loop over the repeaters that looks at bytes behind the
    frame, the control byte and the protocol id: 14 + 2 * 7 + 2 bytes are enough *)
Lemma parse_repeaters_safe n in_ offset e :
  0 ≤ offset → offset + 7 * Z.of_nat n ≤ zlen in_ →
  ∃ l o ok, parse_repeaters n in_ offset e = Ok (l, o, ok) ∧ offset ≤ o ≤ offset + 7 * Z.of_nat n ∧
    (length l ≤ n)%nat.
Proof.
  revert offset e. induction n as [|n IH]; intros offset e Ho Hs.
  { exists [], offset, true. split_and!; try done; lia. }
  cbn [parse_repeaters]. destruct e; [exists [], offset, true; split_and!; try done; simpl; lia|].
  rewrite rd_range_Ok by lia. cbn [res_bind]. set (v := take _ _).
  assert (zlen v = 7) as Lv by (unfold v, zlen in *; rewrite length_take, length_drop; lia).
  destruct (address_of_vector_total v) as [a ->]; [lia|].
  cbn [res_bind]. destruct (aa_valid a); cbn [negb].
  - destruct (IH (offset + 7) (aa_end_mark a)) as (l & o & ok & -> & Hb & Hl); [lia..|].
    cbn [res_bind]. exists (a :: l), o, ok. split_and!; try done; simpl; lia.
  - exists [], (offset + 7), false. split_and!; try done; simpl; lia.
Qed.

(** a frame of at least 30 bytes is parsed, whatever its bytes; a valid one has its
    addresses, and its data is the rest of the frame *)
Lemma parse_ax25_safe in_ :
  zlen in_ < 14 ∨ 30 ≤ zlen in_ →
  ∃ p, parse_ax25 in_ = Ok p ∧ (length (ap_repeaters p) ≤ 2)%nat ∧
    (ap_valid p = true → ∃ o, 15 ≤ o ≤ 30 ∧ ap_data p = mk_buffer_in (ptr_at in_ o) (zlen in_ - o)).
Proof.
  intros H. unfold parse_ax25. destruct (Z.ltb_spec (zlen in_) 14) as [Hs|Hs]; [exists new_ax25_packet; split_and!; [done|simpl; lia|done]|].
  destruct H as [H|H]; [lia|].
  rewrite rd_range_Ok by lia. cbn [res_bind].
  assert (∀ o, 0 ≤ o → o + 7 ≤ zlen in_ → zlen (take (Z.to_nat 7) (drop (Z.to_nat o) in_)) = 7) as Lz.
  { intros o Ho Hl. unfold zlen in *. rewrite length_take, length_drop. lia. }
  destruct (address_of_vector_total (take (Z.to_nat 7) (drop (Z.to_nat 0) in_))) as [a1 ->]; [rewrite Lz; lia|].
  cbn [res_bind]. destruct (aa_valid a1); cbn [negb]; [|eexists; split_and!; [done|simpl; lia|done]].
  rewrite rd_range_Ok by lia. cbn [res_bind].
  destruct (address_of_vector_total (take (Z.to_nat 7) (drop (Z.to_nat 7) in_))) as [a2 ->]; [rewrite Lz; lia|].
  cbn [res_bind]. destruct (aa_valid a2); cbn [negb]; [|eexists; split_and!; [done|simpl; lia|done]].
  destruct (parse_repeaters_safe 2 in_ 14 (aa_end_mark a2)) as (l & o & ok & -> & Ho & Hl); [lia..|].
  cbn [res_bind]. destruct ok; cbn [negb]; [|eexists; split_and!; [done|done|done]].
  destruct (rd_in_range in_ o) as [c ->]; [lia|]. cbn [res_bind].
  destruct (rd_in_range in_ (o + 1)) as [pid Hpid]; [lia|].
  assert (∃ o', o + 1 ≤ o' ≤ o + 2 ∧ ∃ x, (if has_pid c then let* pid := rd in_ (o + 1) in Ok (Some pid, o + 1 + 1)
            else Ok (None, o + 1)) = Ok (x, o')) as (o' & Ho' & x & ->).
  { rewrite Hpid. destruct (has_pid c); cbn [res_bind]; eexists; (split; [|eauto]); lia. }
  cbn [res_bind]. eexists. split; [done|]. cbn. split; [done|]. intros _. exists o'. split; [lia|].
  destruct (Z.ltb_spec o' (zlen in_)); [done|]. unfold no_data, ptr_at. rewrite drop_ge by (unfold zlen in *; lia).
  f_equal. lia.
Qed.

(** shorter frames make it read behind their end: sender without end mark, nothing
    behind it *)
Lemma short_frame_overrun :
  parse_ax25 (address_bytes (Ax25Address true [80] 0 true false) ++ address_bytes (Ax25Address true [81] 0 false false)) =
    Err bad_access.
Proof. reflexivity. Qed.

(** ** Repeaters are not added twice *)

Definition same_station (a b : ax25_address) : Prop :=
  aa_valid a = aa_valid b ∧ aa_address a = aa_address b ∧ aa_ssid a = aa_ssid b.

Lemma address_eqb_spec a b : address_eqb a b = true ↔ same_station a b.
Proof.
  unfold address_eqb, same_station. destruct (aa_valid a), (aa_valid b); cbn [Bool.eqb negb]; try naive_solver;
    (destruct (bool_decide_reflect (aa_address b = aa_address a)); cbn [negb]; [|naive_solver]);
    (destruct (Z.eqb_spec (aa_ssid b) (aa_ssid a)); cbn [negb]; naive_solver).
Qed.

Definition station (a : ax25_address) : bool * str * Z := (aa_valid a, aa_address a, aa_ssid a).

Lemma add_repeater_nodup p a p' :
  NoDup (station <$> ap_repeaters p) → add_repeater p a = Ok p' → NoDup (station <$> ap_repeaters p').
Proof.
  intros Hn H. unfold add_repeater in H. res_step H.
  destruct (existsb (λ r, address_eqb r a0) (ap_repeaters p)) eqn:Ex; injection H as <-; [done|].
  cbn [ap_repeaters]. rewrite fmap_app. apply NoDup_app. split_and!; [done| |apply NoDup_singleton].
  intros s Hs Hs2. apply list_elem_of_singleton in Hs2 as ->.
  apply list_elem_of_fmap in Hs as (r & Hr & Hin).
  assert (existsb (λ r, address_eqb r a0) (ap_repeaters p) = true) as Ht; [|congruence].
  apply existsb_exists. exists r. split; [by apply list_elem_of_In|]. apply address_eqb_spec.
  unfold station in Hr. unfold same_station. injection Hr as ? ? ?. by split_and!.
Qed.
