(* ===== verification/Router.v ===== *)
(** * The router (src/router.cpp, src/router.h)

    The routing table, route selection, the queue of packets to route and the
    body of the router threads.  The loop body runs under [table_lock], so it is
    one step.  The type and the MAC address of an interface ([get_phys_type],
    [get_local_mac]) and the result of [get_mac] of the interface's resolver (a
    call that may wait for the network) are arguments. *)
From S2P Require Import Prelude AnyAddr Fifo Net AddressCache Arp.

(** the union [mask] *)
Inductive route_mask := ipv4_netmask (m : list Z) | ipv6_prefix_length (n : Z).

#[global] Instance route_mask_eq_dec : EqDecision route_mask.
Proof. solve_decision. Defined.

Record ip_router_entry := IpRouterEntry {
  re_local_ip : any_addr;
  re_network_address : any_addr;
  re_mask : route_mask;
  re_priority : Z;
  re_interface : Z;
  re_mac_lookup : Z;
  re_default_gateway : option any_addr;
}.

Record queued_packet := QueuedPacket {
  qp_dst_mac : option any_addr;
  qp_src_mac : option any_addr;
  qp_ether_type : Z;
  qp_dst_ip : option any_addr;
  qp_src_ip : option any_addr;
  qp_data : list Z;
}.

(** ** The table *)

(** [e.mac_lookup.iarp = iarp; e.default_gateway = gateway;] *)
Definition update_entry (e : ip_router_entry) (iarp : Z) (gateway : option any_addr) : ip_router_entry :=
  IpRouterEntry (re_local_ip e) (re_network_address e) (re_mask e) (re_priority e) (re_interface e)
    iarp gateway.

(** the loop of [add_router_ipv4]; [None]: not found *)
Fixpoint update_ipv4 (ip_table : list ip_router_entry) (re : ip_router_entry)
  : option (list ip_router_entry) :=
  match ip_table with
  | [] => None
  | e :: rest =>
      if same_addr (re_network_address re) (re_network_address e) && bool_decide (re_mask re = re_mask e) &&
         (re_interface e =? re_interface re)
      then Some (update_entry e (re_mac_lookup re) (re_default_gateway re) :: rest)
      else option_map (cons e) (update_ipv4 rest re)
  end.

Definition add_router_ipv4 (ip_table : list ip_router_entry) (local_ip network : any_addr) (netmask : list Z)
    (gateway : option any_addr) (priority interface iarp : Z) : res (list ip_router_entry) :=
  let* _ := assert_ (bool_decide (get_family network = ipv4)) in
  let re := IpRouterEntry local_ip network (ipv4_netmask netmask) priority interface iarp gateway in
  match update_ipv4 ip_table re with
  | Some t => Ok t
  | None => Ok (ip_table ++ [re])
  end.

Definition add_router_ipv6 (ip_table : list ip_router_entry) (local_ip network : any_addr) (cidr : Z)
    (priority interface indp : Z) : res (list ip_router_entry) :=
  let* _ := assert_ (bool_decide (get_family network = ipv6)) in
  let re := IpRouterEntry local_ip network (ipv6_prefix_length cidr) priority interface indp None in
  if existsb (λ e, same_addr (re_network_address e) (re_network_address re) && bool_decide (re_mask e = re_mask re))
       ip_table
  then Ok ip_table
  else Ok (ip_table ++ [re]).

(** ** Queueing a packet *)

(** an optional that is copied *)
Definition copy_opt (a : option any_addr) : res (option any_addr) :=
  match a with Some a => res_map Some (copy a) | None => Ok None end.

Definition is_hw (a : option any_addr) : bool :=
  match a with Some a => bool_decide (get_family a = mac) || bool_decide (get_family a = ax25) | None => true end.
Definition is_ip (a : any_addr) : bool :=
  bool_decide (get_family a = ipv4) || bool_decide (get_family a = ipv6).

(** what [route_packet] puts in the queue *)
Definition make_queued (override_dst_mac : option any_addr) (ether_type : Z) (dst_ip : any_addr)
    (src_mac : option any_addr) (src_ip : any_addr) (payload : list Z) : res queued_packet :=
  let* _ := assert_ (is_hw override_dst_mac) in
  let* dm := copy_opt override_dst_mac in
  let* _ := assert_ (is_hw src_mac) in
  let* sm := copy_opt src_mac in
  if negb (ether_type =? 0x08ff) then
    let* _ := assert_ (is_ip dst_ip) in
    let* di := copy dst_ip in
    let* _ := assert_ (is_ip src_ip) in
    let* si := copy src_ip in
    Ok (QueuedPacket dm sm ether_type (Some di) (Some si) payload)
  else Ok (QueuedPacket dm sm ether_type None None payload).

Definition route_packet {Q} `{!BoundedQueue queued_packet Q} (pkts : Q) (override_dst_mac : option any_addr)
    (ether_type : Z) (dst_ip : any_addr) (src_mac : option any_addr) (src_ip : any_addr)
    (payload : list Z) : res (bool * Q) :=
  let* qp := make_queued override_dst_mac ether_type dst_ip src_mac src_ip payload in
  Ok (q_try_put pkts qp).

(** ** Choosing a route *)

Section Routing.
Context (phys_type : Z → addr_family) (local_mac : Z → any_addr).
(** [iarp->get_mac(interface, addr)] and [indp->get_mac(interface, addr)] *)
Context (arp_get_mac ndp_get_mac : Z → Z → any_addr → res (option (Z * any_addr))).

(** does [entry] lead to [ip]? *)
Definition entry_matches (hw : option any_addr) (ip : any_addr) (entry : ip_router_entry) : res bool :=
  if negb (bool_decide (get_family (re_network_address entry) = get_family ip)) then Ok false
  else if match hw with
          | Some m => negb (bool_decide (phys_type (re_interface entry) = get_family m))
          | None => false
          end then Ok false
  else
    match re_mask entry with
    | ipv4_netmask m =>
        if bool_decide (get_family (re_network_address entry) = ipv4)
        then check_subnet ip (re_network_address entry) m else Ok false
    | ipv6_prefix_length n =>
        if bool_decide (get_family (re_network_address entry) = ipv6)
        then check_subnet_cidr ip (re_network_address entry) n else Ok false
    end.

(** the loop, [re] the best entry so far *)
Fixpoint find_route_from (re : option ip_router_entry) (ip_table : list ip_router_entry)
    (hw : option any_addr) (ip : any_addr) : res (option ip_router_entry) :=
  match ip_table with
  | [] => Ok re
  | entry :: rest =>
      let* m := entry_matches hw ip entry in
      let re :=
        if m then
          match re with
          | None => Some entry
          | Some r => if re_priority r <? re_priority entry then Some entry else re
          end
        else re in
      find_route_from re rest hw ip
  end.

Definition find_route (ip_table : list ip_router_entry) (hw : option any_addr) (ip : any_addr)
  : res (option ip_router_entry) := find_route_from None ip_table hw ip.

Definition resolve_mac_by_addr (re : ip_router_entry) (addr : any_addr) : res (option (Z * any_addr)) :=
  match get_family (re_network_address re) with
  | ipv4 => arp_get_mac (re_mac_lookup re) (re_interface re) addr
  | ipv6 => ndp_get_mac (re_mac_lookup re) (re_interface re) addr
  | _ => Ok None
  end.

(** [std::optional::value()] *)
Definition value {A} (o : option A) : res A :=
  match o with Some a => Ok a | None => Err bad_optional end.

(** the destination MAC address; [None]: give up *)
Definition choose_dst_mac (qp : queued_packet) (dst_route src_route : ip_router_entry) : res (option any_addr) :=
  match qp_dst_mac qp with
  | Some m => res_map Some (copy m)
  | None =>
      let* dst_ip := value (qp_dst_ip qp) in
      let* local_adapter_target_mac_dst := resolve_mac_by_addr dst_route dst_ip in
      match local_adapter_target_mac_dst with
      | Some (_, m) => res_map Some (copy m)
      | None =>
          match re_default_gateway src_route with
          | Some gw =>
              let* local_adapter_target_mac_gw := resolve_mac_by_addr dst_route gw in
              match local_adapter_target_mac_gw with
              | Some _ => let* '(_, m) := value local_adapter_target_mac_dst in res_map Some (copy m)
              | None => Ok None
              end
          | None => Ok None
          end
      end
  end.

(** the loop body of [router::operator()]: the frame handed to an interface *)
Definition route_one (ip_table : list ip_router_entry) (qp : queued_packet) : res (option frame) :=
  let* dst_ip := value (qp_dst_ip qp) in
  let* dst_route := find_route ip_table (qp_dst_mac qp) dst_ip in
  let* src_ip := value (qp_src_ip qp) in
  let* src_route := find_route ip_table (qp_src_mac qp) src_ip in
  match dst_route, src_route with
  | Some dst_route, Some src_route =>
      let* dst_mac := choose_dst_mac qp dst_route src_route in
      match dst_mac with
      | Some dst_mac =>
          let* src_mac :=
            (if negb (re_interface dst_route =? re_interface src_route)
             then copy (local_mac (re_interface dst_route))
             else copy (local_mac (re_interface src_route))) in
          Ok (Some (Frame (re_interface dst_route) dst_mac src_mac (qp_ether_type qp) (qp_data qp)))
      | None => Ok None
      end
  | _, _ => Ok None
  end.
End Routing.

(** [add_ax25_route]: [insert_or_assign] *)
Record ax25_router_entry := Ax25RouterEntry { ax_interface : option Z; ax_via : option any_addr }.

Definition add_ax25_route (ax25_table : gmap (addr_family * list Z) ax25_router_entry) (callsign : any_addr)
    (interface : option Z) (via : option any_addr) : gmap (addr_family * list Z) ax25_router_entry :=
  <[key callsign := Ax25RouterEntry interface via]> ax25_table.

(** ** The table holds one entry per network *)

(** what two entries of the table must not share *)
Definition route_key (e : ip_router_entry) : addr_family * list Z * route_mask * option Z :=
  (key (re_network_address e), re_mask e,
   match re_mask e with ipv4_netmask _ => Some (re_interface e) | ipv6_prefix_length _ => None end).

Definition entry_ok (e : ip_router_entry) : Prop :=
  good (re_network_address e) ∧
  match re_mask e with
  | ipv4_netmask m => af (re_network_address e) = ipv4 ∧ length m = 4%nat
  | ipv6_prefix_length n => af (re_network_address e) = ipv6 ∧ 0 ≤ n ≤ 128
  end.

Definition table_ok (t : list ip_router_entry) : Prop :=
  Forall entry_ok t ∧ NoDup (route_key <$> t).

(** the calls that fill the table, with the arguments the callers give *)
Inductive table_step : list ip_router_entry → list ip_router_entry → Prop :=
  | step_ipv4 t l n m g p i a t' :
      good n → length m = 4%nat → add_router_ipv4 t l n m g p i a = Ok t' → table_step t t'
  | step_ipv6 t l n c p i a t' :
      good n → 0 ≤ c ≤ 128 → add_router_ipv6 t l n c p i a = Ok t' → table_step t t'.

Lemma update_ipv4_keys t re t' :
  update_ipv4 t re = Some t' → route_key <$> t' = route_key <$> t ∧ (Forall entry_ok t → Forall entry_ok t').
Proof.
  revert t'. induction t as [|e t IH]; intros t' H; [done|]. simpl in H.
  case_match.
  - injection H as <-. split; [done|]. intros [? ?]%Forall_cons_1. by apply Forall_cons_2.
  - destruct (update_ipv4 t re) as [t1|]; [|done]. injection H as <-.
    destruct (IH t1 eq_refl) as [E F]. split; [by rewrite !fmap_cons, E|].
    intros [? ?]%Forall_cons_1. apply Forall_cons_2; auto.
Qed.

Lemma route_key_inj e e' :
  route_key e = route_key e' →
  key (re_network_address e) = key (re_network_address e') ∧ re_mask e = re_mask e' ∧
  match re_mask e with ipv4_netmask _ => re_interface e = re_interface e' | _ => True end.
Proof.
  intros E. assert (re_mask e = re_mask e') as M by exact (f_equal (λ x, x.1.2) E).
  split_and!; [exact (f_equal (λ x, x.1.1) E)|done|].
  apply (f_equal snd) in E. cbn [snd route_key] in E. rewrite <- M in E.
  destruct (re_mask e); [congruence|done].
Qed.

Lemma update_ipv4_None t re m :
  re_mask re = ipv4_netmask m → update_ipv4 t re = None → route_key re ∉ route_key <$> t.
Proof.
  intros Hm. induction t as [|e t IH]; [intros _; apply not_elem_of_nil|]. simpl.
  unfold same_addr. destruct (bool_decide_reflect (key (re_network_address re) = key (re_network_address e))) as [E|E];
  destruct (bool_decide_reflect (re_mask re = re_mask e)) as [M|M];
  destruct (Z.eqb_spec (re_interface e) (re_interface re)) as [I|I]; simpl; try done;
  intros H; (destruct (update_ipv4 t re) eqn:U; [done|]); apply not_elem_of_cons; (split; [|by apply IH]);
  intros (E1 & E2 & E3)%route_key_inj; rewrite Hm in E3; congruence.
Qed.

Lemma table_ok_snoc t re : table_ok t → entry_ok re → route_key re ∉ route_key <$> t → table_ok (t ++ [re]).
Proof.
  intros [F N] He Hne. split; [apply Forall_app_2; [done|by constructor]|].
  rewrite fmap_app. apply NoDup_app. split_and!; [done| |apply NoDup_singleton].
  intros x Hx ->%list_elem_of_singleton. done.
Qed.

Lemma table_step_ok t t' : table_step t t' → table_ok t → table_ok t'.
Proof.
  intros [t1 l n m g p i a t2 Gn Lm H|t1 l n c p i a t2 Gn Hc H] Ht.
  - unfold add_router_ipv4 in H. res_step H. case_bool_decide as Fn; [|done].
    destruct (update_ipv4 t1 _) as [t3|] eqn:U; injection H as <-.
    + destruct (update_ipv4_keys _ _ _ U) as [K F]. destruct Ht as [Ht1 Ht2].
      split; [by apply F|by rewrite K].
    + apply table_ok_snoc; [done|done|]. by eapply update_ipv4_None.
  - unfold add_router_ipv6 in H. res_step H. case_bool_decide as Fn; [|done].
    destruct (existsb _ t1) eqn:X; injection H as <-; [done|].
    apply table_ok_snoc; [done|done|]. intros (e & Ek & He)%list_elem_of_fmap.
    enough (existsb (λ e, same_addr (re_network_address e) n && bool_decide (re_mask e = ipv6_prefix_length c)) t1 = true)
      as X' by (simpl in X; congruence).
    apply existsb_exists. exists e. split; [by apply list_elem_of_In|].
    apply route_key_inj in Ek as (E1 & E2 & _). unfold same_addr. simpl in E1, E2.
    by rewrite !bool_decide_eq_true_2 by done.
Qed.

(** whatever sequence of [add_router_ipv4] and [add_router_ipv6] calls fills
    the table, no two entries are for the same network, mask and (for IPv4)
    interface: an IPv4 route that is added again replaces the gateway and the
    resolver of the existing entry in place. *)
Theorem routing_table_unique t : rtc table_step [] t → table_ok t.
Proof.
  intros H. assert (table_ok []) as H0 by (split; [done|apply NoDup_nil_2]).
  revert H0. induction H as [|t1 t2 t3 Hs _ IH]; [done|]. intros H0. apply IH. by eapply table_step_ok.
Qed.

Definition ex_routes : list ip_router_entry :=
  [IpRouterEntry (ex_v4 10 0 0 1) (ex_v4 10 0 0 0) (ipv4_netmask [255; 255; 255; 0]) 1 7 1 None;
   IpRouterEntry (ex_v4 10 0 0 1) (ex_v4 0 0 0 0) (ipv4_netmask [0; 0; 0; 0]) 0 8 2 (Some (ex_v4 10 0 0 9))].

Lemma ex_v4_good a b c d : byte_ok a → byte_ok b → byte_ok c → byte_ok d → good (ex_v4 a b c d).
Proof. intros. split; [split_and!; [done|solve_bytes|done]|done]. Qed.

Lemma routing_table_unique_witness : table_ok ex_routes.
Proof.
  apply (routing_table_unique ex_routes).
  eapply rtc_l; [|eapply rtc_once].
  - apply (step_ipv4 [] (ex_v4 10 0 0 1) (ex_v4 10 0 0 0) [255; 255; 255; 0] None 1 7 1);
      [apply ex_v4_good; unfold byte_ok; lia|done|reflexivity].
  - apply (step_ipv4 _ (ex_v4 10 0 0 1) (ex_v4 0 0 0 0) [0; 0; 0; 0] (Some (ex_v4 10 0 0 9)) 0 8 2);
      [apply ex_v4_good; unfold byte_ok; lia|done|reflexivity].
Defined.

(** ** The chosen route *)

Section RoutingSpec.
Context (phys_type : Z → addr_family).

(** [ip] is in the network of [e], and [e]'s interface has the kind of [hw] *)
Definition leads_to (hw : option any_addr) (ip : any_addr) (e : ip_router_entry) : Prop :=
  af (re_network_address e) = af ip ∧
  (∀ m, hw = Some m → phys_type (re_interface e) = af m) ∧
  match re_mask e with
  | ipv4_netmask m => zip_with Z.land (key ip).2 m = (key (re_network_address e)).2
  | ipv6_prefix_length n =>
      ∀ i, (i < Z.to_nat n)%nat → addr_bit (key ip).2 i = addr_bit (key (re_network_address e)).2 i
  end.

Lemma entry_matches_spec hw ip e :
  good ip → entry_ok e → ∃ b, entry_matches phys_type hw ip e = Ok b ∧ (b = true ↔ leads_to hw ip e).
Proof.
  intros Gip [Gn Hm]. unfold entry_matches, leads_to, get_family.
  case_bool_decide as F; cbn [negb]; [|exists false; split; [done|]; split; [done|tauto]].
  assert (match hw with Some m => negb (bool_decide (phys_type (re_interface e) = af m)) | None => false end = false
          ↔ (∀ m, hw = Some m → phys_type (re_interface e) = af m)) as Hhw.
  { destruct hw as [m|]; [|naive_solver]. case_bool_decide; simpl; naive_solver. }
  destruct (match hw with Some _ => _ | None => _ end).
  { exists false. split; [done|]. split; [done|]. intros (_ & A & _). by apply Hhw in A. }
  destruct (re_mask e) as [m|n]; destruct Hm as [Fn Hm]; rewrite bool_decide_eq_true_2 by done.
  - rewrite check_subnet_spec by congruence || done. eexists. split; [done|]. rewrite bool_decide_eq_true. naive_solver.
  - destruct (check_subnet_cidr_spec ip (re_network_address e) n) as (r & Hr & HR); [done|done|congruence|done|done|].
    exists r. split; [done|]. rewrite HR. naive_solver.
Qed.

(** [r] is the first of the entries of highest priority among those that lead
    to [ip] *)
Definition best_route (hw : option any_addr) (ip : any_addr) (t : list ip_router_entry)
    (r : option ip_router_entry) : Prop :=
  match r with
  | None => ∀ e, e ∈ t → ¬ leads_to hw ip e
  | Some e => ∃ i, t !! i = Some e ∧ leads_to hw ip e ∧
      ∀ j e', t !! j = Some e' → leads_to hw ip e' →
        re_priority e' ≤ re_priority e ∧ (re_priority e' = re_priority e → (i ≤ j)%nat)
  end.

(** one more entry *)
Lemma best_route_snoc hw ip t r e (b : bool) :
  best_route hw ip t r → (b = true ↔ leads_to hw ip e) →
  best_route hw ip (t ++ [e])
    (if b then match r with
               | None => Some e
               | Some r' => if re_priority r' <? re_priority e then Some e else r
               end
     else r).
Proof.
  intros Hr Hb. destruct r as [r|]; simpl in Hr.
  - destruct Hr as (i & Hi & Hl & Hmax).
    assert (i < length t)%nat as Hil by (by eapply lookup_lt_Some).
    destruct b; [destruct (Z.ltb_spec (re_priority r) (re_priority e)) as [P|P]|].
    + exists (length t). split_and!; [by rewrite lookup_app_r, Nat.sub_diag by lia|by apply Hb|].
      intros j e' [Hj|[Hj1 Hj2]]%lookup_app_Some He'; [destruct (Hmax j e' Hj He'); lia|].
      apply list_lookup_singleton_Some in Hj2 as [? <-]. split; [lia|]. intros _. exact Hj1.
    + exists i. split_and!; [by apply lookup_app_l_Some|done|].
      intros j e' [Hj|[Hj1 Hj2]]%lookup_app_Some He'; [by apply Hmax|].
      apply list_lookup_singleton_Some in Hj2 as [? <-]. lia.
    + exists i. split_and!; [by apply lookup_app_l_Some|done|].
      intros j e' [Hj|[Hj1 Hj2]]%lookup_app_Some He'; [by apply Hmax|].
      apply list_lookup_singleton_Some in Hj2 as [? <-]. by apply Hb in He'.
  - destruct b.
    + exists (length t). split_and!; [by rewrite lookup_app_r, Nat.sub_diag by lia|by apply Hb|].
      intros j e' [Hj|[Hj1 Hj2]]%lookup_app_Some He'.
      * apply list_elem_of_lookup_2, Hr in Hj. done.
      * apply list_lookup_singleton_Some in Hj2 as [? <-]. split; [lia|]. intros _. exact Hj1.
    + intros e' [He'|He'%list_elem_of_singleton]%elem_of_app; [by apply Hr|]. subst e'.
      intros L. by apply Hb in L.
Qed.

Lemma find_route_from_spec hw ip pre t r :
  good ip → Forall entry_ok t → best_route hw ip pre r →
  ∃ r', find_route_from phys_type r t hw ip = Ok r' ∧ best_route hw ip (pre ++ t) r'.
Proof.
  intros Gip. revert pre r. induction t as [|e t IH]; intros pre r Ht Hr.
  { exists r. split; [done|]. by rewrite app_nil_r. }
  apply Forall_cons_1 in Ht as [He Ht]. cbn [find_route_from].
  destruct (entry_matches_spec hw ip e Gip He) as (b & -> & Hb). cbn [res_bind].
  destruct (IH (pre ++ [e]) _ Ht (best_route_snoc _ _ _ _ _ b Hr Hb)) as (r' & Hf & Hbest).
  exists r'. split; [exact Hf|]. by rewrite <- app_assoc in Hbest.
Qed.

(** C8: [find_route] never faults on a well-formed table and returns the first of
    the entries of highest priority among those whose network contains the
    address (masked bytes for IPv4, leading bits for IPv6) and whose interface
    has the kind of the given hardware address; null when there is none. *)
Theorem find_route_best t hw ip :
  table_ok t → good ip → ∃ r, find_route phys_type t hw ip = Ok r ∧ best_route hw ip t r.
Proof.
  intros [Ht _] Gip. apply (find_route_from_spec hw ip [] t None Gip Ht).
  intros e He. by apply not_elem_of_nil in He.
Qed.

(** one packet through the router *)
Context (local_mac : Z → any_addr).
Context (arp_get_mac ndp_get_mac : Z → Z → any_addr → res (option (Z * any_addr))).

Lemma choose_dst_mac_spec qp dr sr m :
  choose_dst_mac arp_get_mac ndp_get_mac qp dr sr = Ok (Some m) →
  ∃ m0, copy m0 = Ok m ∧
    (qp_dst_mac qp = Some m0 ∨
     ∃ ip i, qp_dst_mac qp = None ∧ qp_dst_ip qp = Some ip ∧
       resolve_mac_by_addr arp_get_mac ndp_get_mac dr ip = Ok (Some (i, m0))).
Proof.
  unfold choose_dst_mac. intros H. destruct (qp_dst_mac qp) as [m0|].
  { exists m0. split; [|by left]. destruct (copy m0); naive_solver. }
  destruct (qp_dst_ip qp) as [ip|]; [|done]. cbn [value res_bind] in H. res_step H.
  destruct a as [[i m0]|].
  { exists m0. split; [destruct (copy m0); naive_solver|]. right. by exists ip, i. }
  destruct (re_default_gateway sr) as [gw|]; [|done].
  destruct (resolve_mac_by_addr _ _ dr gw) as [[]|]; done.
Qed.

(** C16: a packet the router forwards leaves unchanged through the interface of
    the best route to its destination, from that interface's MAC address, to
    the given destination MAC address or the one the route's resolver finds
    for the destination address; without a route to the destination or back
    to the source nothing is sent. *)
Theorem route_one_forwards t qp dst_ip src_ip r :
  table_ok t → qp_dst_ip qp = Some dst_ip → qp_src_ip qp = Some src_ip → good dst_ip → good src_ip →
  route_one phys_type local_mac arp_get_mac ndp_get_mac t qp = Ok r →
  match r with
  | Some f => ∃ dr sr m0,
      best_route (qp_dst_mac qp) dst_ip t (Some dr) ∧ best_route (qp_src_mac qp) src_ip t (Some sr) ∧
      fr_interface f = re_interface dr ∧ copy (local_mac (re_interface dr)) = Ok (fr_src f) ∧
      fr_type f = qp_ether_type qp ∧ fr_data f = qp_data qp ∧ copy m0 = Ok (fr_dst f) ∧
      (qp_dst_mac qp = Some m0 ∨
       ∃ i, qp_dst_mac qp = None ∧ resolve_mac_by_addr arp_get_mac ndp_get_mac dr dst_ip = Ok (Some (i, m0)))
  | None => best_route (qp_dst_mac qp) dst_ip t None ∨ best_route (qp_src_mac qp) src_ip t None ∨
      qp_dst_mac qp = None ∧ ∃ dr, best_route (qp_dst_mac qp) dst_ip t (Some dr) ∧
        resolve_mac_by_addr arp_get_mac ndp_get_mac dr dst_ip = Ok None
  end.
Proof.
  intros [Ht _] Hd Hs Gd Gs H. unfold route_one in H. rewrite Hd, Hs in H. cbn [value res_bind] in H.
  assert (∀ hw ip, best_route hw ip [] None) as H0 by (intros ?? e He; by apply not_elem_of_nil in He).
  destruct (find_route_from_spec (qp_dst_mac qp) dst_ip [] t None Gd Ht (H0 _ _)) as (rd & Hrd & Bd).
  destruct (find_route_from_spec (qp_src_mac qp) src_ip [] t None Gs Ht (H0 _ _)) as (rs & Hrs & Bs).
  unfold find_route in H. rewrite Hrd, Hrs in H. cbn [res_bind] in H.
  destruct rd as [dr|]; [|injection H as <-; by left].
  destruct rs as [sr|]; [|injection H as <-; by right; left].
  destruct (choose_dst_mac arp_get_mac ndp_get_mac qp dr sr) as [[m|]|] eqn:Hc; cbn [res_bind] in H; [| |done].
  - res_step H. injection H as <-. apply choose_dst_mac_spec in Hc as (m0 & Hm0 & Hc).
    exists dr, sr, m0. split_and!; try done.
    + destruct (Z.eqb_spec (re_interface dr) (re_interface sr)); simpl in *; congruence.
    + destruct Hc as [Hc|(ip & i & Hn & Hip & Hr)]; [by left|right]. rewrite Hd in Hip. injection Hip as ->. by exists i.
  - injection H as <-. right. right. unfold choose_dst_mac in Hc.
    destruct (qp_dst_mac qp) as [m|]; [by destruct (copy m)|]. split; [done|]. exists dr. split; [done|].
    rewrite Hd in Hc. cbn [value res_bind] in Hc.
    destruct (resolve_mac_by_addr arp_get_mac ndp_get_mac dr dst_ip) as [[[i m]|]|]; cbn [res_bind] in Hc; [|done|done].
    by destruct (copy m).
Qed.

(** The gateway is never used: when it resolves, the code reads the result of
    the failed look-up of the destination. *)
Lemma gateway_route_faults qp dr sr ip gw i m :
  qp_dst_mac qp = None → qp_dst_ip qp = Some ip →
  resolve_mac_by_addr arp_get_mac ndp_get_mac dr ip = Ok None → re_default_gateway sr = Some gw →
  resolve_mac_by_addr arp_get_mac ndp_get_mac dr gw = Ok (Some (i, m)) →
  choose_dst_mac arp_get_mac ndp_get_mac qp dr sr = Err bad_optional.
Proof. intros H1 H2 H3 H4 H5. unfold choose_dst_mac. by rewrite H1, H2; cbn [value res_bind]; rewrite H3, H4; cbn [res_bind]; rewrite H5. Qed.
End RoutingSpec.

(** Packets queued with the AX.25 type carry no IP addresses, which the loop
    body asks for first. *)
Lemma ax25_packet_faults pt lm ag ng t d di sm si p qp :
  make_queued d 0x08ff di sm si p = Ok qp → route_one pt lm ag ng t qp = Err bad_optional.
Proof.
  unfold make_queued. intros H. repeat res_step H. simpl in H. injection H as <-. done.
Qed.

(** ** Examples *)

Lemma ex_routes_ok : table_ok ex_routes.
Proof.
  split.
  - repeat apply Forall_cons_2; [..|apply Forall_nil_2];
      (split; [apply ex_v4_good; unfold byte_ok; lia|done]).
  - apply (bool_decide_unpack _). reflexivity.
Qed.

Lemma find_route_best_witness :
  ∃ r, find_route (λ _, mac) ex_routes None (ex_v4 10 0 0 77) = Ok r ∧
    best_route (λ _, mac) None (ex_v4 10 0 0 77) ex_routes r.
Proof.
  apply (find_route_best (λ _, mac) ex_routes None (ex_v4 10 0 0 77)); [exact ex_routes_ok|].
  apply ex_v4_good; unfold byte_ok; lia.
Defined.

Definition ex_resolve (_ i : Z) (_ : any_addr) : res (option (Z * any_addr)) := Ok (Some (i, ex_mac 9)).
Definition ex_queued : queued_packet :=
  QueuedPacket None None 0x0800 (Some (ex_v4 192 168 1 1)) (Some (ex_v4 10 0 0 1)) [1; 2; 3].
Definition ex_frame : frame := Frame 8 (ex_mac 9) (ex_mac 8) 0x0800 [1; 2; 3].

Lemma route_one_forwards_witness :
  ∃ dr sr m0,
    best_route (λ _, mac) None (ex_v4 192 168 1 1) ex_routes (Some dr) ∧
    best_route (λ _, mac) None (ex_v4 10 0 0 1) ex_routes (Some sr) ∧
    fr_interface ex_frame = re_interface dr ∧ copy (ex_mac (re_interface dr)) = Ok (fr_src ex_frame) ∧
    fr_type ex_frame = 0x0800 ∧ fr_data ex_frame = [1; 2; 3] ∧ copy m0 = Ok (fr_dst ex_frame) ∧
    (qp_dst_mac ex_queued = Some m0 ∨
     ∃ i, qp_dst_mac ex_queued = None ∧
       resolve_mac_by_addr ex_resolve ex_resolve dr (ex_v4 192 168 1 1) = Ok (Some (i, m0))).
Proof.
  apply (route_one_forwards (λ _, mac) ex_mac ex_resolve ex_resolve ex_routes ex_queued
    (ex_v4 192 168 1 1) (ex_v4 10 0 0 1) (Some ex_frame));
    [exact ex_routes_ok|done|done|apply ex_v4_good; unfold byte_ok; lia
    |apply ex_v4_good; unfold byte_ok; lia|reflexivity].
Defined.
