(* ===== verification/Kiss.v ===== *)
(** * Ethernet and KISS frames (src/phys_kiss.cpp, src/phys_tap.cpp)

    A KISS device carries AX.25 frames over a serial line or a TCP connection, with
    the escapes of SLIP.  Frames that carry IP or ARP go to the queue of the network
    layer; other frames are handed to the router as BPQ frames.  An Ethernet frame
    of type 0x08ff holds an AX.25 frame and what is not an AX.25 frame may be an
    Ethernet frame, so the two functions that process frames call each other.

    The network layers are known by their queues; [prot_map] gives the queue for
    an ether type, and different types have different queues.  The results of
    [read] and [poll] are the input of the reader.  Time stamps, packet captures
    and counters are left out.

    Shown: escaping stays in the buffer and frames are read back; an IP packet of at
    most 239 bytes that one host transmits is queued for the network layer at the other host, with the
    data and the addresses it was sent with, and what becomes of a longer one is stated;
    processing a frame ends. *)
From S2P Require Import Prelude Str AnyAddr Buffers Fifo Net AddressCache Slip Arp Ax25 Router.

Definition MAX_PACKET_SIZE : Z := 256.
Definition FEND : Z := 0xc0.
Definition FESC : Z := 0xdb.
Definition TFEND : Z := 0xdc.
Definition TFESC : Z := 0xdd.

(** ** Sending *)

(** the buffer and the number of bytes in it *)
Definition escape_put (p : list Z) (len c : Z) : res (list Z * Z) :=
  if c =? FEND then
    let* p := wr p len FESC in
    let* p := wr p (len + 1) TFEND in
    Ok (p, len + 2)
  else if c =? FESC then
    let* p := wr p len FESC in
    let* p := wr p (len + 1) TFESC in
    Ok (p, len + 2)
  else
    let* p := wr p len c in
    Ok (p, len + 1).

Fixpoint escape_put_all (p : list Z) (len : Z) (bytes : list Z) : res (list Z * Z) :=
  match bytes with
  | [] => Ok (p, len)
  | c :: bytes' =>
      let* '(p, len) := escape_put p len c in
      escape_put_all p len bytes'
  end.

(** what is written to the device, and whether all of it was written; [write] is
    the result of the system call *)
Definition transmit_ax25 (write : list Z → option Z) (a : ax25_packet) : res (bool * list Z) :=
  let* '(packet, n, _) := generate_packet a in
  let* bytes := rd_range packet 0 n in
  let max_len := n * 2 + 3 in
  let out := replicate (Z.to_nat max_len) 0 in
  let* out := wr out 0 FEND in
  let* '(out, offset) := escape_put out 1 0 in
  let* '(out, offset) := escape_put_all out offset bytes in
  let* out := wr out offset FEND in
  let offset := offset + 1 in
  let* out := rd_range out 0 offset in
  Ok (match write out with Some rc => rc =? offset | None => false end, out).

(** one round of [send_beacon] *)
Definition send_beacon (write : list Z → option Z) (my_callsign : any_addr) (beacon : str) : res (bool * list Z) :=
  let* a := set_from_addr new_ax25_packet my_callsign in
  let a := set_to a (address_of_string [73; 68; 69; 78; 84] 0 true false) in
  let a := set_control a 0x03 in
  let a := set_data a beacon (zlen beacon) in
  let a := set_pid a 0xf0 in
  transmit_ax25 write a.

(** the data of a frame that was parsed in a vector that is gone: its pointer
    dangles, nothing can be read from it *)
Definition dangling (a : ax25_packet) : ax25_packet :=
  Ax25Packet (ap_valid a) (ap_from a) (ap_to a) (ap_repeaters a) (ap_control a) (ap_type a) (ap_pid a)
    (BufferIn [] (bi_size (ap_data a)) (bi_o (ap_data a))).

(** [std::vector<uint8_t>(p + first, p + last)] *)
Definition sub_vector (p : list Z) (first last : Z) : res (list Z) :=
  if last <? first then Err length_error else rd_range p first (last - first).

Definition transmit_packet (write : list Z → option Z) (dst_mac src_mac : any_addr) (ether_type : Z)
    (payload_in : list Z) : res (bool * list Z) :=
  let pl_size_in := zlen payload_in in
  let* _ := assert_ (bool_decide (get_family src_mac = ax25)) in
  let* _ := assert_ (bool_decide (get_family dst_mac = ax25)) in
  let* a := set_from_addr new_ax25_packet src_mac in
  let* a := set_to_addr a dst_mac in
  let a := set_control a 0x03 in
  let a := set_data a payload_in pl_size_in in
  if (ether_type =? 0x0800) || (ether_type =? 0x86dd) then transmit_ax25 write (set_pid a 0xcc)
  else if ether_type =? 0x0806 then transmit_ax25 write (set_pid a 0xcd)
  else if ether_type =? 0x08ff then
    let* v := sub_vector payload_in 1 (pl_size_in - 1) in
    let* a := parse_ax25 v in
    transmit_ax25 write (dangling a)
  else Ok (false, []).

(** the frame that is handed to an Ethernet device, filled up to [min_size] bytes *)
Definition ethernet_out (min_size : Z) (dst_mac src_mac : any_addr) (ether_type : Z) (payload : list Z) : res (list Z) :=
  let pl_size := zlen payload in
  let out_size := if pl_size + 14 <? min_size then min_size else pl_size + 14 in
  let out := replicate (Z.to_nat out_size) 0 in
  let* d := get_exp dst_mac 6 in
  let* out := wr_range out 0 d in
  let* s := get_exp src_mac 6 in
  let* out := wr_range out 6 s in
  let* out := wr out 12 (Z.shiftr ether_type 8) in
  let* out := wr out 13 ether_type in
  wr_range out 14 payload.

(** [size_t(rc) == out_size] *)
Definition all_written (rc : option Z) (out : list Z) : bool :=
  match rc with Some rc => rc =? zlen out | None => false end.

(** [phys_tap::transmit_packet] *)
Definition tap_transmit_packet (write : list Z → option Z) (dst_mac src_mac : any_addr) (ether_type : Z)
    (payload : list Z) : res (bool * list Z) :=
  let* out := ethernet_out 64 dst_mac src_mac ether_type payload in
  Ok (all_written (write out) out, out).

(** [phys_promiscuous::transmit_packet]: nothing is sent to the own address *)
Definition promiscuous_transmit_packet (my_mac : any_addr) (write : list Z → option Z) (dst_mac src_mac : any_addr)
    (ether_type : Z) (payload : list Z) : res (bool * list Z) :=
  if same_addr dst_mac my_mac then Ok (false, [])
  else
    let* out := ethernet_out 60 dst_mac src_mac ether_type payload in
    Ok (all_written (write out) out, out).

(** ** Processing a frame *)

Section Kiss.
Context {Q R : Type} `{!BoundedQueue (Z * packet) Q} `{!BoundedQueue queued_packet R}.

(** what a device can reach: the queues of the network layers, the queue of the
    router and its table of AX.25 stations *)
Record link_state := LinkState {
  prot_map : gmap Z Q;
  router_pkts : R;
  ax25_table : gmap (addr_family * list Z) ax25_router_entry;
}.

Definition set_prot_map (s : link_state) (m : gmap Z Q) : link_state := LinkState m (router_pkts s) (ax25_table s).
Definition set_router_pkts (s : link_state) (r : R) : link_state := LinkState (prot_map s) r (ax25_table s).
Definition set_ax25_table (s : link_state) (t : gmap (addr_family * list Z) ax25_router_entry) : link_state :=
  LinkState (prot_map s) (router_pkts s) t.

(** [prot_map->find(ether_type)], and [queue_incoming_packet] when it is found *)
Definition queue_for (s : link_state) (ether_type source_phys : Z) (p : packet) : bool * link_state :=
  match prot_map s !! ether_type with
  | Some q => (true, set_prot_map s (<[ether_type := queue_incoming_packet q source_phys p]> (prot_map s)))
  | None => (false, s)
  end.

(** the packet made of the data of a frame *)
Definition packet_of_ax25 (ap : ax25_packet) : res packet :=
  let payload := copy_buffer_in (ap_data ap) in
  let pl_size := get_n_bytes_left payload in
  let* from := get_any_addr (ap_from ap) in
  let* to := get_any_addr (ap_to ap) in
  let* '(bytes, _) := get_bytes payload pl_size in
  new_packet from from to bytes pl_size [] 0 false.

(** [route_as_is]: the frame goes to the router, behind a zero *)
Definition route_bpq (s : link_state) (ap : ax25_packet) (add_callsign : option any_addr)
  : res (bool * link_state) :=
  let* ap := match add_callsign with Some c => add_repeater ap c | None => Ok ap end in
  let* '(packet_out, n, _) := generate_packet ap in
  let* bytes := rd_range packet_out 0 n in
  let* to := get_any_addr (ap_to ap) in
  let* from := get_any_addr (ap_from ap) in
  let* '(ok, pkts) := route_packet (router_pkts s) (Some to) 0x08ff unset_addr (Some from) unset_addr (0 :: bytes) in
  Ok (ok, set_router_pkts s pkts).

(** the ether type for the version of an IP packet *)
Definition ether_type_of_version (ip_version : Z) : option Z :=
  if ip_version =? 4 then Some 0x0800 else if ip_version =? 6 then Some 0x86dd else None.

(** a frame that the constructor of [ax25_packet] found valid *)
Definition process_valid_ax25 (s : link_state) (ap : ax25_packet) (source_phys : Z) (add_callsign : option any_addr)
  : res (bool * link_state) :=
  let* from := get_any_addr (ap_from ap) in
  let s := set_ax25_table s (add_ax25_route (ax25_table s) from (Some source_phys) None) in
  if bool_decide (ap_type ap = TYPE_I) || bool_decide (ap_type ap = TYPE_UI) then
    match ap_pid ap with
    | None => Ok (false, s)
    | Some pid =>
        if pid =? 0xcc then
          let* p := packet_of_ax25 ap in
          let* b0 := rd (pkt_data p) 0 in
          match ether_type_of_version (Z.shiftr b0 4) with
          | Some t => Ok (true, (queue_for s t source_phys p).2)
          | None => Ok (true, s)
          end
        else if pid =? 0xf0 then Ok (true, s)
        else if pid =? 0xcd then
          let* p := packet_of_ax25 ap in
          Ok (queue_for s 0x0806 source_phys p)
        else route_bpq s ap add_callsign
    end
  else route_bpq s ap add_callsign.

(** [process_kiss_packet] and [process_ethernet_frame]; the result of the nested
    call is used as it is in the code: a frame that was processed is reported as
    failed by [process_kiss_packet] *)
Fixpoint process_kiss_fuel (fuel : nat) (s : link_state) (in_ : list Z) (source_phys : Z)
    (add_callsign : option any_addr) : res (bool * link_state) :=
  match fuel with
  | O => Err out_of_fuel
  | S fuel' =>
      let* ap := parse_ax25 in_ in
      if ap_valid ap then process_valid_ax25 s ap source_phys add_callsign
      else if 6 + 6 + 2 + 46 <=? zlen in_ then
        let* '(ok, s) := process_ethernet_fuel fuel' s in_ source_phys in
        Ok (negb ok, s)
      else Ok (false, s)
  end
with process_ethernet_fuel (fuel : nat) (s : link_state) (buffer : list Z) (source_phys : Z)
    : res (bool * link_state) :=
  match fuel with
  | O => Err out_of_fuel
  | S fuel' =>
      let* b12 := rd buffer 12 in
      let* b13 := rd buffer 13 in
      let ether_type := join16 b12 b13 in
      if ether_type =? 0x08ff then
        if 16 <? zlen buffer then
          let* v := sub_vector buffer 16 (zlen buffer - 16) in
          let* '(_, s) := process_kiss_fuel fuel' s v source_phys None in
          Ok (true, s)
        else Ok (false, s)
      else
        match prot_map s !! ether_type with
        | None => Ok (false, s)
        | Some _ =>
            let* dst_mac := mk_addr mac buffer in
            let* src_mac := mk_addr mac (ptr_at buffer 6) in
            let* p := new_packet src_mac src_mac dst_mac (ptr_at buffer 14) (zlen buffer - 14) buffer 14 false in
            Ok (true, (queue_for s ether_type source_phys p).2)
        end
  end.

(** the fuel: a frame inside a frame is 32 bytes shorter *)
Definition process_kiss_packet (s : link_state) (in_ : list Z) (source_phys : Z) (add_callsign : option any_addr) :=
  process_kiss_fuel (2 * length in_ + 2) s in_ source_phys add_callsign.
Definition process_ethernet_frame (s : link_state) (buffer : list Z) (source_phys : Z) :=
  process_ethernet_fuel (2 * length buffer + 1) s buffer source_phys.

(** one frame read from a TAP device, [buffer] of [size] bytes or an error *)
Definition tap_receive (s : link_state) (source_phys : Z) (buffer : list Z) : res link_state :=
  if zlen buffer <? 14 then Ok s
  else let* '(_, s) := process_ethernet_frame s buffer source_phys in Ok s.

(** ** The reader of [handle_kiss] *)

Inductive kiss_event :=
  | kiss_byte (b : Z)
  | kiss_eof
  | kiss_read_error
  | kiss_poll_error (reconnected : bool).

(** one round of the outer loop so far: the bytes in [p], and [escape] *)
Record kiss_reader := KissReader { kr_p : list Z; kr_escape : bool }.

Definition start_frame : kiss_reader := KissReader [] false.

(** what a byte does: go on, leave the inner loop with [ok] false, or with a frame *)
Inductive kiss_outcome := Continue (r : kiss_reader) | Dropped | Complete (p : list Z).

Definition kiss_step (r : kiss_reader) (buffer : Z) : kiss_outcome :=
  if kr_escape r then
    if zlen (kr_p r) =? MAX_PACKET_SIZE then Dropped
    else if buffer =? TFEND then Continue (KissReader (kr_p r ++ [FEND]) false)
    else if buffer =? TFESC then Continue (KissReader (kr_p r ++ [FESC]) false)
    else Continue (KissReader (kr_p r) false)
  else if buffer =? FEND then
    if bool_decide (kr_p r = []) then Continue r else Complete (kr_p r)
  else if buffer =? FESC then Continue (KissReader (kr_p r) true)
  else if zlen (kr_p r) =? MAX_PACKET_SIZE then Dropped
  else Continue (KissReader (kr_p r ++ [buffer]) false).

(** [handle_kiss] on a file or on a device; a frame loses its first byte, the port
    and the command, whatever the command is *)
Fixpoint handle_kiss (is_a_file : bool) (source_phys : Z) (add_callsign : option any_addr) (s : link_state)
    (r : kiss_reader) (events : list kiss_event) : res (link_state * kiss_reader) :=
  match events with
  | [] => Ok (s, r)
  | e :: events =>
      let go s r := handle_kiss is_a_file source_phys add_callsign s r events in
      match e with
      | kiss_poll_error reconnected => go s (if reconnected then r else start_frame)
      | kiss_read_error => go s start_frame
      | kiss_eof => if is_a_file then Ok (s, r) else go s start_frame
      | kiss_byte b =>
          match kiss_step r b with
          | Continue r => go s r
          | Dropped => go s start_frame
          | Complete p =>
              let* '(_, s) := process_kiss_packet s (drop 1 p) source_phys add_callsign in
              go s start_frame
          end
      end
  end.
End Kiss.
Arguments link_state : clear implicits.

(** ** Processing a frame ends *)

Lemma ends_copy_opt o : ends (copy_opt o).
Proof. unfold copy_opt. solve_ends. Qed.
Lemma ends_get_bytes b n : ends (get_bytes b n).
Proof. unfold get_bytes, check_room. solve_ends. Qed.
Lemma ends_new_packet a b c d e f g h : ends (new_packet a b c d e f g h).
Proof. unfold new_packet. solve_ends. Qed.
#[export] Hint Resolve ends_copy_opt ends_get_bytes ends_new_packet : ends.

Lemma ends_address_of_vector v : ends (address_of_vector v).
Proof. unfold address_of_vector. solve_ends. Qed.
Lemma ends_any_addr_chars n i a e : ends (any_addr_chars n i a e).
Proof. revert i e. induction n as [|n IH]; intros i e; cbn [any_addr_chars]; solve_ends. Qed.
#[export] Hint Resolve ends_address_of_vector ends_any_addr_chars : ends.

Lemma ends_parse_repeaters n v o e : ends (parse_repeaters n v o e).
Proof. revert o e. induction n as [|n IH]; intros o e; cbn [parse_repeaters]; solve_ends. Qed.
#[export] Hint Resolve ends_parse_repeaters : ends.

Lemma ends_parse_ax25 v : ends (parse_ax25 v).
Proof. unfold parse_ax25. solve_ends. Qed.
Lemma ends_put_repeaters out o i n l : ends (put_repeaters out o i n l).
Proof. revert out o i. induction l as [|x l IH]; intros out o i; cbn [put_repeaters]; solve_ends. Qed.
#[export] Hint Resolve ends_parse_ax25 ends_put_repeaters : ends.

Lemma ends_generate_packet p : ends (generate_packet p).
Proof. unfold generate_packet. solve_ends. Qed.
Lemma ends_add_repeater p a : ends (add_repeater p a).
Proof. unfold add_repeater, address_of_any_addr. solve_ends. Qed.
#[export] Hint Resolve ends_generate_packet ends_add_repeater : ends.

Section KissEnds.
Context {Q R : Type} `{!BoundedQueue (Z * packet) Q} `{!BoundedQueue queued_packet R}.
Implicit Types s : link_state Q R.

Lemma ends_process_valid s ap i c : ends (process_valid_ax25 s ap i c).
Proof. unfold process_valid_ax25, route_bpq, route_packet, make_queued, packet_of_ax25, get_any_addr. solve_ends. Qed.

Lemma process_ends fuel :
  (∀ s in_ i c, (2 * length in_ + 2 ≤ fuel)%nat → ends (process_kiss_fuel fuel s in_ i c)) ∧
  (∀ s b i, (2 * length b + 1 ≤ fuel)%nat → ends (process_ethernet_fuel fuel s b i)).
Proof.
  induction fuel as [|fuel [IHk IHe]]; (split; intros; [|]); try lia.
  - cbn [process_kiss_fuel]. apply ends_bind; [auto with ends|]. intros ap _.
    destruct (ap_valid ap); [apply ends_process_valid|]. destruct (_ <=? _); [|done].
    apply ends_bind; [apply IHe; lia|]. intros [ok s'] _. done.
  - cbn [process_ethernet_fuel]. apply ends_bind; [auto with ends|]. intros b12 _.
    apply ends_bind; [auto with ends|]. intros b13 _. destruct (_ =? _); [|solve_ends].
    destruct (Z.ltb_spec 16 (zlen b)); [|done]. apply ends_bind; [unfold sub_vector; solve_ends|]. intros v Hv.
    apply ends_bind; [|intros [ok s'] _; done]. apply IHk.
    unfold sub_vector in Hv. destruct (_ <? _); [done|]. apply rd_range_inv in Hv as (_ & _ & _ & _ & Hl).
    unfold zlen in *. lia.
Qed.
End KissEnds.

(** ** What is written to the line *)

(** the bytes of a KISS frame *)
Definition kiss_encode (p : list Z) : list Z := [FEND; 0] ++ (p ≫= slip_escape) ++ [FEND].

Lemma length_slip_escape b : (1 ≤ length (slip_escape b) ≤ 2)%nat.
Proof. unfold slip_escape. destruct (b =? 192), (b =? 219); simpl; lia. Qed.

Lemma length_escaped p : (length (p ≫= slip_escape) ≤ 2 * length p)%nat.
Proof.
  induction p as [|b p IH]; [done|]. rewrite bind_cons, length_app. pose proof (length_slip_escape b). cbn [length]. lia.
Qed.

Lemma put_two a k x y :
  (2 ≤ k)%nat →
  (let* p := wr (a ++ replicate k 0) (zlen a) x in
   let* p := wr p (zlen a + 1) y in Ok (p, zlen a + 2)) =
    Ok ((a ++ [u8 x; u8 y]) ++ replicate (k - 2) 0, zlen a + 2).
Proof.
  intros Hk. rewrite put_byte_app by (try done; lia). cbn [res_bind].
  rewrite put_byte_app; [|by rewrite zlen_app|lia]. cbn [res_bind]. rewrite <- (app_assoc a).
  by replace (k - 1 - 1)%nat with (k - 2)%nat by lia.
Qed.

Lemma escape_put_spec a k c :
  byte_ok c → (2 ≤ k)%nat →
  escape_put (a ++ replicate k 0) (zlen a) c =
    Ok ((a ++ slip_escape c) ++ replicate (k - length (slip_escape c)) 0, zlen (a ++ slip_escape c)).
Proof.
  intros Hc Hk. unfold escape_put, slip_escape, FEND, FESC, TFEND, TFESC. rewrite zlen_app.
  destruct (c =? 0xc0); [by rewrite put_two|]. destruct (c =? 0xdb); [by rewrite put_two|].
  rewrite put_byte_app by (try done; lia). cbn [res_bind]. by rewrite u8_id.
Qed.

Lemma escape_put_all_spec bytes a k :
  bytes_ok bytes → (2 * length bytes ≤ k)%nat →
  escape_put_all (a ++ replicate k 0) (zlen a) bytes =
    Ok ((a ++ (bytes ≫= slip_escape)) ++ replicate (k - length (bytes ≫= slip_escape)) 0,
        zlen (a ++ (bytes ≫= slip_escape))).
Proof.
  intros Hb. revert a k. induction Hb as [|c bytes Hc _ IH]; intros a k Hk.
  { cbn. rewrite app_nil_r, Nat.sub_0_r. done. }
  cbn [length] in Hk. cbn [escape_put_all]. rewrite escape_put_spec by (try done; lia). cbn [res_bind].
  pose proof (length_slip_escape c). rewrite IH by lia. rewrite bind_cons, length_app, (app_assoc a).
  by replace (k - length (slip_escape c) - length (bytes ≫= slip_escape))%nat
    with (k - (length (slip_escape c) + length (bytes ≫= slip_escape)))%nat by lia.
Qed.

Lemma frame_bytes_ok p : data_ok (ap_data p) → bytes_ok (frame_bytes p).
Proof.
  intros (_ & _ & _ & Hd). unfold frame_bytes, ax25_header.
  assert (∀ l, bytes_ok (concat (address_bytes <$> l))) as Hc.
  { induction l as [|a l IH]; [constructor|]. cbn [fmap list_fmap concat]. auto with myip. }
  assert (bytes_ok (sent_pid p)) as Hp.
  { unfold sent_pid. destruct (has_pid (ap_control p)); repeat constructor; apply u8_ok. }
  assert (bytes_ok [u8 (ap_control p)]) as Hk by (repeat constructor; apply u8_ok).
  unfold data_bytes. auto 8 with myip.
Qed.

(** the buffer of twice the size of the frame and three more bytes is enough *)
Lemma transmit_ax25_spec write a :
  sendable a →
  transmit_ax25 write a =
    Ok (match write (kiss_encode (frame_bytes a)) with
        | Some rc => rc =? zlen (kiss_encode (frame_bytes a)) | None => false end,
        kiss_encode (frame_bytes a)).
Proof.
  intros Ha. destruct (generate_packet_spec a Ha) as (out & n & a' & G & Hn & Rn).
  pose proof (frame_bytes_ok a (proj1 Ha)) as Hb. set (f := frame_bytes a) in *.
  unfold transmit_ax25. rewrite G. cbn [res_bind]. rewrite Rn. cbn [res_bind].
  set (k := Z.to_nat (n * 2 + 3)). assert (k = 2 * length f + 3)%nat as Hk by (unfold k, zlen in *; lia).
  change (replicate k 0) with ([] ++ replicate k 0). rewrite put_byte_app by (try done; lia). cbn [res_bind app].
  change (escape_put _ 1 0) with (escape_put ([FEND] ++ replicate (k - 1) 0) (zlen [FEND]) 0).
  rewrite escape_put_spec by (try done; lia). cbn [res_bind].
  change (escape_put_all _ _ f) with (escape_put_all ([FEND; 0] ++ replicate (k - 1 - 1) 0) (zlen [FEND; 0]) f).
  rewrite escape_put_all_spec by (try done; lia). cbn [res_bind].
  pose proof (length_escaped f). rewrite put_byte_app by (try done; lia). cbn [res_bind].
  change (u8 FEND) with FEND. rewrite <- (app_assoc [FEND; 0] _ [FEND]). fold (kiss_encode f).
  replace (zlen ([FEND; 0] ++ (f ≫= slip_escape)) + 1) with (zlen (kiss_encode f))
    by (unfold kiss_encode; rewrite !zlen_app; unfold zlen; simpl; lia).
  rewrite rd_range_app by done. done.
Qed.

(** ** What is read from the line *)

(** the buffer has 256 bytes: of a longer frame 257 bytes at a time are lost *)
Definition kiss_tail (l : list Z) : list Z := drop (257 * (length l / 257)) l.

Section KissSpec.
Context {Q R : Type} `{!BoundedQueue (Z * packet) Q} `{!BoundedQueue queued_packet R}.
Context (is_a_file : bool) (source_phys : Z) (add_callsign : option any_addr).
Implicit Types s : link_state Q R.
Local Abbreviation run := (handle_kiss is_a_file source_phys add_callsign).

(** the bytes of a frame end up in the buffer, without the escapes *)
Lemma handle_kiss_payload s bytes p rest :
  zlen p + zlen bytes ≤ MAX_PACKET_SIZE →
  run s (KissReader p false) ((kiss_byte <$> (bytes ≫= slip_escape)) ++ rest) = run s (KissReader (p ++ bytes) false) rest.
Proof.
  revert p. induction bytes as [|b bytes IH]; intros p Hl; [by rewrite app_nil_r|].
  rewrite zlen_cons in Hl. pose proof (zlen_nonneg bytes).
  rewrite bind_cons, fmap_app, <- app_assoc.
  assert ((zlen p =? MAX_PACKET_SIZE) = false) as Hp by (apply Z.eqb_neq; lia).
  assert (run s (KissReader p false) ((kiss_byte <$> slip_escape b) ++ (kiss_byte <$> (bytes ≫= slip_escape)) ++ rest) =
          run s (KissReader (p ++ [b]) false) ((kiss_byte <$> (bytes ≫= slip_escape)) ++ rest)) as ->.
  { unfold slip_escape. destruct (Z.eqb_spec b 0xc0) as [->|N1]; [|destruct (Z.eqb_spec b 0xdb) as [->|N2]];
      cbn [fmap list_fmap app handle_kiss]; unfold kiss_step; cbn [kr_escape kr_p].
    - cbn -[MAX_PACKET_SIZE]. rewrite Hp. done.
    - cbn -[MAX_PACKET_SIZE]. rewrite Hp. done.
    - unfold FEND, FESC. rewrite (proj2 (Z.eqb_neq b 192)), (proj2 (Z.eqb_neq b 219)), Hp by done. done. }
  rewrite IH by (rewrite zlen_app; unfold zlen in *; simpl; lia). by rewrite <- app_assoc.
Qed.

(** a frame of at most 255 bytes is processed *)
Lemma handle_kiss_frame s p rest :
  zlen p < MAX_PACKET_SIZE →
  run s start_frame ((kiss_byte <$> kiss_encode p) ++ rest) =
    let* '(_, s') := process_kiss_packet s p source_phys add_callsign in run s' start_frame rest.
Proof.
  intros Hp. unfold MAX_PACKET_SIZE in Hp. unfold kiss_encode. rewrite !fmap_app, <- !app_assoc.
  change (run s start_frame ((kiss_byte <$> [FEND; 0]) ++ ?l)) with (run s (KissReader [0] false) l).
  rewrite handle_kiss_payload by (unfold MAX_PACKET_SIZE, zlen in *; simpl; lia).
  cbn [fmap list_fmap app handle_kiss]. unfold kiss_step. cbn [kr_escape kr_p]. rewrite Z.eqb_refl.
  rewrite bool_decide_eq_false_2 by done. cbn [drop]. rewrite drop_0. done.
Qed.

(** a byte that finds the buffer full is lost, with what is in the buffer *)
Lemma handle_kiss_full s p b rest :
  zlen p = MAX_PACKET_SIZE → run s (KissReader p false) ((kiss_byte <$> slip_escape b) ++ rest) = run s start_frame rest.
Proof.
  intros Hp. assert ((zlen p =? MAX_PACKET_SIZE) = true) as E by by apply Z.eqb_eq.
  unfold slip_escape. destruct (Z.eqb_spec b 0xc0) as [->|N1]; [|destruct (Z.eqb_spec b 0xdb) as [->|N2]];
    cbn [fmap list_fmap app handle_kiss]; unfold kiss_step; cbn [kr_escape kr_p].
  - cbn -[MAX_PACKET_SIZE]. by rewrite E.
  - cbn -[MAX_PACKET_SIZE]. by rewrite E.
  - unfold FEND, FESC. by rewrite (proj2 (Z.eqb_neq b 192)), (proj2 (Z.eqb_neq b 219)), E by done.
Qed.

(** so of many bytes in a row the last ones are in the buffer *)
Lemma handle_kiss_tail s l rest :
  run s start_frame ((kiss_byte <$> (l ≫= slip_escape)) ++ rest) = run s (KissReader (kiss_tail l) false) rest.
Proof.
  remember (length l) as n eqn:Hn. revert l Hn. induction (lt_wf n) as [n _ IH]; intros l ->.
  destruct (Nat.lt_ge_cases (length l) 257) as [Hl|Hl].
  { unfold start_frame. rewrite handle_kiss_payload by (unfold MAX_PACKET_SIZE, zlen; simpl; lia).
    unfold kiss_tail. by rewrite Nat.div_small. }
  destruct (drop 256 l) as [|b r] eqn:D; [apply (f_equal length) in D; rewrite length_drop in D; simpl in D; lia|].
  assert (l = take 256 l ++ b :: r) as El by (by rewrite <- D, take_drop).
  assert (length l = 257 + length r)%nat as Ll
    by (rewrite El, length_app, length_take; cbn [length]; lia).
  rewrite El at 1. rewrite bind_app, bind_cons, !fmap_app, <- !app_assoc. unfold start_frame at 1.
  rewrite handle_kiss_payload by (unfold MAX_PACKET_SIZE, zlen; rewrite length_take; cbn [length]; lia).
  rewrite handle_kiss_full by (unfold MAX_PACKET_SIZE, zlen; rewrite app_nil_l, length_take; lia).
  rewrite (IH (length r)) by lia. f_equal. f_equal. unfold kiss_tail. rewrite Ll.
  replace (257 + length r)%nat with (length r + 1 * 257)%nat by lia. rewrite Nat.div_add by lia.
  replace (257 * (length r / 257 + 1))%nat with (257 + 257 * (length r / 257))%nat by lia.
  rewrite <- drop_drop. replace (drop 257 l) with r; [done|].
  rewrite El, drop_app_ge by (rewrite length_take; lia). rewrite length_take.
  replace (257 - 256 `min` length l)%nat with 1%nat by lia. done.
Qed.

(** what becomes of a frame of any length *)
Lemma handle_kiss_any s p :
  run s start_frame (kiss_byte <$> kiss_encode p) =
    match kiss_tail (0 :: p) with
    | [] => Ok (s, start_frame)
    | _ :: t => let* '(_, s') := process_kiss_packet s t source_phys add_callsign in Ok (s', start_frame)
    end.
Proof.
  unfold kiss_encode. change ([FEND; 0] ++ (p ≫= slip_escape) ++ [FEND]) with (FEND :: ((0 :: p) ≫= slip_escape) ++ [FEND]).
  rewrite fmap_cons, fmap_app.
  change (run s start_frame (kiss_byte FEND :: ?l)) with (run s start_frame l). rewrite handle_kiss_tail.
  cbn [fmap list_fmap handle_kiss]. unfold kiss_step. cbn [kr_escape kr_p]. rewrite Z.eqb_refl.
  destruct (kiss_tail (0 :: p)) as [|x t]; [done|]. rewrite bool_decide_eq_false_2 by done. cbn [drop]. by rewrite drop_0.
Qed.
End KissSpec.

(** ** End to end *)

(** a [write] that takes everything *)
Definition write_all (out : list Z) : option Z := Some (zlen out).

(** the frame that carries an IP packet *)
Definition ip_frame (a b : ax25_address) (payload : list Z) : ax25_packet :=
  Ax25Packet false a b [] 0x03 TYPE_I (Some 0xcc) (mk_buffer_in payload (zlen payload)).

Lemma data_ok_payload payload :
  bytes_ok payload → zlen payload ≤ int_max - 2000 → data_ok (mk_buffer_in payload (zlen payload)).
Proof. intros Hb Hl. pose proof (zlen_nonneg payload). split_and!; try done; simpl; lia. Qed.

Lemma ip_frame_wire_ok a b payload :
  address_ok a → aa_end_mark a = true → address_ok b → bytes_ok payload → zlen payload ≤ int_max - 2000 →
  wire_ok (ip_frame a b payload).
Proof.
  intros Ha He Hb Hp Hl. split_and!; try done; [by apply data_ok_payload|simpl; lia].
Qed.

Lemma zlen_ip_frame a b payload : zlen (frame_bytes (ip_frame a b payload)) = 16 + zlen payload.
Proof.
  unfold frame_bytes, ax25_header. rewrite !zlen_app, !zlen_address_bytes, zlen_sent_pid, zlen_concat_addresses.
  change (zlen (sent_repeaters (ap_repeaters (ip_frame a b payload)))) with 0.
  change (has_pid (ap_control (ip_frame a b payload))) with true. cbn iota.
  change (zlen [u8 (ap_control (ip_frame a b payload))]) with 1.
  unfold data_bytes, zlen. cbn [ip_frame ap_data mk_buffer_in bi_p bi_size]. rewrite length_take. unfold zlen. lia.
Qed.

Lemma transmit_ip write dst src a b t payload :
  get_family src = ax25 → get_family dst = ax25 →
  address_of_any_addr src = Ok a → address_of_any_addr dst = Ok b → t = 0x0800 ∨ t = 0x86dd →
  transmit_packet write dst src t payload = transmit_ax25 write (ip_frame a b payload).
Proof.
  intros Fs Fd Ea Eb Ht. unfold transmit_packet, set_from_addr, set_to_addr. rewrite Fs, Fd, Ea.
  cbn [bool_decide decide_rel addr_family_eq_dec assert_ res_bind res_map]. rewrite Eb. cbn [res_bind res_map].
  destruct Ht as [-> | ->]; reflexivity.
Qed.

Section KissDelivery.
Context {Q R : Type} `{!BoundedQueue (Z * packet) Q} `{!BoundedQueue queued_packet R}.
Implicit Types s : link_state Q R.

Lemma packet_of_ax25_spec p :
  data_ok (ap_data p) →
  ∃ x y, get_any_addr (ap_from p) = Ok x ∧ get_any_addr (ap_to p) = Ok y ∧
    packet_of_ax25 p = Ok (Packet x x y (data_bytes (ap_data p)) [] false).
Proof.
  intros Hd. destruct (get_any_addr_spec (ap_from p)) as (x & Ex & _ & _).
  destruct (get_any_addr_spec (ap_to p)) as (y & Ey & _ & _).
  exists x, y. split_and!; [done|done|]. unfold packet_of_ax25. rewrite Ex, Ey. cbn [res_bind].
  destruct (get_bytes_all (copy_buffer_in (ap_data p))) as (b' & G & Rb).
  { destruct Hd as (_ & Hd). by split. }
  unfold get_n_bytes_left. cbn [bi_size bi_o copy_buffer_in mk_buffer_in bi_p] in *. rewrite Z.sub_0_r, G. cbn [res_bind].
  unfold new_packet. rewrite Rb. done.
Qed.

(** a received IP frame goes to the queue of its version *)
Lemma process_valid_ip s q i c ap payload t :
  ap_type ap = TYPE_UI → ap_pid ap = Some 0xcc → data_ok (ap_data ap) → data_bytes (ap_data ap) = payload →
  payload ≠ [] → ether_type_of_version (Z.shiftr (nth 0 payload 0) 4) = Some t → prot_map s !! t = Some q →
  ∃ x y, get_any_addr (ap_from ap) = Ok x ∧ get_any_addr (ap_to ap) = Ok y ∧
    process_valid_ax25 s ap i c =
      Ok (true, LinkState (<[t := queue_incoming_packet q i (Packet x x y payload [] false)]> (prot_map s)) (router_pkts s)
                  (add_ax25_route (ax25_table s) x (Some i) None)).
Proof.
  intros Htype Hpid Hd Hb Hne Ht Hq. destruct (packet_of_ax25_spec ap Hd) as (x & y & Ex & Ey & Ep).
  exists x, y. split_and!; [done|done|]. unfold process_valid_ax25. rewrite Ex, Htype, Hpid, Ep, Hb. cbn [res_bind pkt_data].
  rewrite (bool_decide_eq_true_2 (TYPE_UI = TYPE_UI)), orb_true_r by done. change (204 =? 204) with true. cbn iota.
  destruct payload as [|b0 payload]; [done|]. change (rd (b0 :: payload) 0) with (Ok b0). cbn [res_bind nth] in *.
  rewrite Ht. unfold queue_for. cbn [prot_map set_ax25_table]. rewrite Hq. done.
Qed.

Lemma process_ip_frame s q i c a b payload t :
  address_ok a → aa_end_mark a = true → address_ok b → bytes_ok payload → zlen payload ≤ int_max - 2000 →
  payload ≠ [] → ether_type_of_version (Z.shiftr (nth 0 payload 0) 4) = Some t → prot_map s !! t = Some q →
  ∃ x y, get_any_addr a = Ok x ∧ get_any_addr b = Ok y ∧
    process_kiss_packet s (frame_bytes (ip_frame a b payload)) i c =
      Ok (true, LinkState (<[t := queue_incoming_packet q i (Packet x x y payload [] false)]> (prot_map s)) (router_pkts s)
                  (add_ax25_route (ax25_table s) x (Some i) None)).
Proof.
  intros Ha He Hb Hp Hl Hne Ht Hq. pose proof (ip_frame_wire_ok a b payload Ha He Hb Hp Hl) as Hw.
  assert (data_bytes (mk_buffer_in payload (zlen payload)) = payload) as Ed.
  { unfold data_bytes, zlen. cbn. rewrite Nat2Z.id. apply firstn_all. }
  unfold process_kiss_packet. rewrite Nat.add_comm. cbn [Nat.add process_kiss_fuel].
  rewrite parse_frame_bytes by done. cbn [res_bind]. change (ap_valid (received (ip_frame a b payload))) with true. cbn iota.
  assert (ap_data (received (ip_frame a b payload)) = mk_buffer_in payload (zlen payload)) as Edata.
  { unfold received. cbn [ap_data ip_frame]. rewrite Ed. done. }
  apply (process_valid_ip s q i c (received (ip_frame a b payload)) payload t); try done.
  - rewrite Edata. by apply data_ok_payload.
  - by rewrite Edata.
Qed.

(** the header of the frame has 16 bytes *)
Lemma ip_frame_bytes a b payload :
  ∃ h, length h = 16%nat ∧ frame_bytes (ip_frame a b payload) = h ++ payload.
Proof.
  pose proof (zlen_ip_frame a b payload) as L. unfold frame_bytes in *.
  assert (data_bytes (ap_data (ip_frame a b payload)) = payload) as Ed.
  { unfold data_bytes, zlen. cbn [ip_frame ap_data mk_buffer_in bi_p bi_size]. unfold zlen. rewrite Nat2Z.id. apply firstn_all. }
  rewrite Ed in *. eexists. split; [|reflexivity].
  rewrite zlen_app in L. unfold zlen in *. lia.
Qed.

(** what is left of a packet when its frame is read *)
Definition packet_tail (payload : list Z) : list Z :=
  drop (Z.to_nat (257 * ((17 + zlen payload) / 257) - 17)) payload.

Lemma kiss_tail_long a b payload :
  239 < zlen payload → kiss_tail (0 :: frame_bytes (ip_frame a b payload)) = packet_tail payload.
Proof.
  intros Hl. destruct (ip_frame_bytes a b payload) as (h & Hh & ->). unfold kiss_tail, packet_tail, zlen in *.
  cbn [length]. rewrite length_app, Hh.
  replace (S (16 + length payload)) with (17 + length payload)%nat by lia.
  replace (17 + Z.of_nat (length payload)) with (Z.of_nat (17 + length payload)) by lia.
  set (n := (17 + length payload)%nat) in *. change 257 with (Z.of_nat 257) at 2. rewrite <- Nat2Z.inj_div.
  assert (1 ≤ n / 257)%nat by (apply Nat.div_le_lower_bound; lia).
  set (k := (n / 257)%nat) in *. change (0 :: h ++ payload) with ((0 :: h) ++ payload).
  rewrite drop_app_ge by (cbn [length]; lia). cbn [length]. rewrite Hh. f_equal. lia.
Qed.

(** C23: what becomes of an IPv4 or IPv6 packet that [transmit_packet] of one station
    writes on a KISS line.  When it has at most 239 bytes, [handle_kiss] of the
    other reads it as one frame, and the packet is put in the queue of the
    network layer of its version with the data, the source and the destination
    it was sent with; the other station has learned the route to the sender,
    and its router was given nothing.  A longer packet, though the MTU allows it,
    does not fit in the buffer of 256 bytes of the reader and is lost: what
    is left behind every 257 bytes of the frame is read as a frame, or nothing when
    nothing is left. *)
Theorem kiss_ip_delivery s q dst src a b t payload i f c :
  get_family src = ax25 → get_family dst = ax25 →
  address_of_any_addr src = Ok a → address_ok a → aa_end_mark a = true →
  address_of_any_addr dst = Ok b → address_ok b →
  bytes_ok payload → payload ≠ [] → zlen payload ≤ int_max - 2000 →
  ether_type_of_version (Z.shiftr (nth 0 payload 0) 4) = Some t → prot_map s !! t = Some q →
  ∃ wire x y, transmit_packet write_all dst src t payload = Ok (true, wire) ∧
    get_any_addr a = Ok x ∧ get_any_addr b = Ok y ∧
    handle_kiss f i c s start_frame (kiss_byte <$> wire) =
      if zlen payload <=? 239 then
        Ok (LinkState (<[t := queue_incoming_packet q i (Packet x x y payload [] false)]> (prot_map s)) (router_pkts s)
              (add_ax25_route (ax25_table s) x (Some i) None), start_frame)
      else
        match packet_tail payload with
        | [] => Ok (s, start_frame)
        | _ :: rest => let* '(_, s') := process_kiss_packet s rest i c in Ok (s', start_frame)
        end.
Proof.
  intros Fs Fd Ea Ha He Eb Hb Hp Hne Hl Ht Hq.
  pose proof (ip_frame_wire_ok a b payload Ha He Hb Hp Hl) as Hw.
  destruct (process_ip_frame s q i c a b payload t) as (x & y & Ex & Ey & Ep); try done.
  exists (kiss_encode (frame_bytes (ip_frame a b payload))), x, y.
  assert (t = 0x0800 ∨ t = 0x86dd) as Ht2.
  { unfold ether_type_of_version in Ht. destruct (_ =? _); [naive_solver|]. destruct (_ =? _); naive_solver. }
  rewrite (transmit_ip write_all dst src a b t payload) by done.
  rewrite transmit_ax25_spec by (split; [apply Hw|simpl; lia]). unfold write_all at 1. rewrite Z.eqb_refl.
  split_and!; [done|done|done|]. destruct (Z.leb_spec (zlen payload) 239).
  - rewrite <- (app_nil_r (kiss_byte <$> _)). rewrite handle_kiss_frame; [by rewrite Ep|].
    rewrite zlen_ip_frame. unfold MAX_PACKET_SIZE. lia.
  - by rewrite handle_kiss_any, kiss_tail_long by lia.
Qed.
End KissDelivery.

Definition ex_link_state : link_state (fifo (Z * packet)) (fifo queued_packet) :=
  LinkState {[0x0800 := new_fifo 4; 0x0806 := new_fifo 4]} (new_fifo 4) ∅.

(** the configured call sign PD9FVH-1, and QST *)
Definition ex_call : ax25_address := Ax25Address true [80; 68; 57; 70; 86; 72] 1 true false.
Definition ex_qst : ax25_address := Ax25Address true qst 0 true false.
Definition ex_call_addr : any_addr := ok_or unset_addr (get_any_addr (address_of_dashed ([80; 68; 57; 70; 86; 72] ++ [45; 49]) true false)).
Definition ex_qst_addr : any_addr := ok_or unset_addr (get_any_addr ex_qst).

Lemma kiss_ip_delivery_witness :
  (∃ wire x y, transmit_packet write_all ex_qst_addr ex_call_addr 0x0800 (69 :: replicate 238 0xc0) = Ok (true, wire) ∧
    get_any_addr ex_call = Ok x ∧ get_any_addr ex_qst = Ok y ∧
    handle_kiss false 7 None ex_link_state start_frame (kiss_byte <$> wire) =
      Ok (LinkState
            (<[0x0800 := queue_incoming_packet (new_fifo 4) 7 (Packet x x y (69 :: replicate 238 0xc0) [] false)]>
               (prot_map ex_link_state)) (router_pkts ex_link_state)
            (add_ax25_route (ax25_table ex_link_state) x (Some 7) None), start_frame)) ∧
  (∃ wire, transmit_packet write_all ex_qst_addr ex_call_addr 0x0800 (69 :: replicate 239 0xc0) = Ok (true, wire) ∧
    handle_kiss false 7 None ex_link_state start_frame (kiss_byte <$> wire) = Ok (ex_link_state, start_frame)).
Proof.
  split.
  - apply (kiss_ip_delivery ex_link_state (new_fifo 4) ex_qst_addr ex_call_addr ex_call ex_qst 0x0800 (69 :: replicate 238 0xc0));
      try reflexivity; try done; try (apply (bool_decide_unpack _); vm_compute; exact I).
  - destruct (kiss_ip_delivery ex_link_state (new_fifo 4) ex_qst_addr ex_call_addr ex_call ex_qst 0x0800 (69 :: replicate 239 0xc0) 7 false None)
      as (wire & x & y & T & _ & _ & H);
      [first [reflexivity|done|apply (bool_decide_unpack _); vm_compute; exact I]..|].
    exists wire. split; [exact T|exact H].
Defined.

(** the end of a long packet is taken for a frame: here it holds one with another sender and
    another packet *)
Definition ex_smuggled : list Z :=
  69 :: replicate 239 0 ++ 0 :: frame_bytes (ip_frame ex_qst ex_call (69 :: replicate 19 7)).

Example long_packet_smuggles :
  (let* '(_, wire) := transmit_packet write_all ex_qst_addr ex_call_addr 0x0800 ex_smuggled in
   let* '(s, _) := handle_kiss false 7 None ex_link_state start_frame (kiss_byte <$> wire) in
   let* '(o, _) := get_commit (default (new_fifo 1) (prot_map s !! 0x0800)) in
   Ok ((λ e, pkt_data e.2) <$> o)) =
  Ok (Some (69 :: replicate 19 7)).
Proof. vm_compute. reflexivity. Qed.

(** ** Ethernet *)

(** the frame on the wire *)
Definition ethernet_bytes (min_size : nat) (dst src : list Z) (ether_type : Z) (payload : list Z) : list Z :=
  dst ++ src ++ be16 ether_type ++ payload ++ replicate (min_size - 14 - length payload) 0.

Lemma ethernet_out_spec min_size dst src t payload :
  (14 ≤ min_size)%nat → good dst → good src → af dst = mac → af src = mac →
  ethernet_out (Z.of_nat min_size) dst src t payload = Ok (ethernet_bytes min_size (key dst).2 (key src).2 t payload).
Proof.
  intros Hm Gd Gs Fd Fs. pose proof (length_key dst Gd) as Ld. pose proof (length_key src Gs) as Ls.
  rewrite Fd in Ld. rewrite Fs in Ls. change (Z.to_nat (family_size mac)) with 6%nat in *.
  unfold ethernet_out. set (n := if zlen payload + 14 <? Z.of_nat min_size then Z.of_nat min_size else zlen payload + 14).
  assert (Z.to_nat n = 14 + length payload + (min_size - 14 - length payload))%nat as Hn.
  { unfold n, zlen. destruct (Z.ltb_spec (Z.of_nat (length payload) + 14) (Z.of_nat min_size)); lia. }
  rewrite get_exp_good by (by rewrite ?Fd). cbn [res_bind].
  change (replicate (Z.to_nat n) 0) with ([] ++ replicate (Z.to_nat n) 0).
  rewrite put_app by (try done; lia). cbn [res_bind app].
  rewrite get_exp_good by (by rewrite ?Fs). cbn [res_bind].
  rewrite put_app by (unfold zlen; lia). cbn [res_bind].
  rewrite put_byte_app by (rewrite ?zlen_app; unfold zlen; lia). cbn [res_bind].
  rewrite put_byte_app by (rewrite ?zlen_app; unfold zlen; cbn [length]; lia). cbn [res_bind].
  rewrite put_app by (rewrite ?zlen_app; unfold zlen; cbn [length]; lia).
  replace (Z.to_nat n - _ - _ - 1 - 1 - _)%nat with (min_size - 14 - length payload)%nat by lia.
  by rewrite <- !app_assoc.
Qed.

Section Ethernet.
Context {Q R : Type} `{!BoundedQueue (Z * packet) Q} `{!BoundedQueue queued_packet R}.
Implicit Types s : link_state Q R.

(** an Ethernet frame goes to the queue of its type, with the padding *)
Lemma tap_receive_spec s q i min_size dst src t payload :
  good dst → good src → af dst = mac → af src = mac → 0 ≤ t < 65536 → t ≠ 0x08ff → bytes_ok payload →
  prot_map s !! t = Some q →
  let f := ethernet_bytes min_size (key dst).2 (key src).2 t payload in
  ∃ x y, key x = key src ∧ key y = key dst ∧
    tap_receive s i f =
      Ok (set_prot_map s (<[t := queue_incoming_packet q i
            (Packet x x y (payload ++ replicate (min_size - 14 - length payload) 0) (take 14 f) false)]> (prot_map s))).
Proof.
  intros Gd Gs Fd Fs Ht Hbpq Hp Hq f. pose proof (length_key dst Gd) as Ld. pose proof (length_key src Gs) as Ls.
  rewrite Fd in Ld. rewrite Fs in Ls. change (Z.to_nat (family_size mac)) with 6%nat in *.
  set (pl := payload ++ replicate (min_size - 14 - length payload) 0).
  assert (bytes_ok pl) as Hpl by (apply bytes_ok_app; [done|by apply bytes_ok_replicate]).
  assert (f = (key dst).2 ++ (key src).2 ++ be16 t ++ pl) as Ef by done.
  assert (zlen f = 14 + zlen pl) as Lf by (rewrite Ef, !zlen_app; unfold zlen; rewrite Ld, Ls; simpl; lia).
  pose proof (zlen_nonneg pl) as Hpl0.
  assert (bytes_ok f) as Hf by (rewrite Ef; auto using key_bytes_ok with myip).
  destruct (mk_addr_spec mac f) as (y & Ey & _ & Ky); [done|simpl; lia|].
  assert (ptr_at f 6 = (key src).2 ++ be16 t ++ pl) as Ep6 by (rewrite Ef; apply ptr_at_app; unfold zlen; lia).
  destruct (mk_addr_spec mac (ptr_at f 6)) as (x & Ex & _ & Kx).
  { unfold ptr_at. auto with myip. }
  { rewrite Ep6, !zlen_app. unfold zlen in *. rewrite Ls. cbn [family_size]. lia. }
  assert (ptr_at f 14 = pl) as Ep14.
  { rewrite Ef, !app_assoc. apply ptr_at_app. rewrite !zlen_app. unfold zlen. rewrite Ld, Ls. done. }
  exists x, y. split_and!.
  - rewrite Kx, Ep6. change (Z.to_nat (family_size mac)) with 6%nat. rewrite <- Ls, take_app_length. unfold key. by rewrite Fs.
  - rewrite Ky, Ef. change (Z.to_nat (family_size mac)) with 6%nat. rewrite <- Ld, take_app_length. unfold key. by rewrite Fd.
  - unfold tap_receive. rewrite (proj2 (Z.ltb_ge _ 14)) by lia. unfold process_ethernet_frame.
    rewrite Nat.add_comm. cbn [Nat.add process_ethernet_fuel].
    assert (rd f 12 = Ok (u8 (Z.shiftr t 8))) as ->.
    { rewrite Ef, app_assoc. apply rd_mid. rewrite zlen_app. unfold zlen. lia. }
    assert (rd f 13 = Ok (u8 t)) as ->.
    { rewrite Ef, app_assoc. change (be16 t ++ pl) with ([u8 (Z.shiftr t 8)] ++ u8 t :: pl). rewrite app_assoc.
      apply rd_mid. rewrite !zlen_app. unfold zlen. cbn [length]. lia. }
    cbn [res_bind]. rewrite join16_be16 by done. rewrite (proj2 (Z.eqb_neq t 0x08ff)) by done.
    rewrite Hq, Ey, Ex. cbn [res_bind]. unfold new_packet. rewrite Ep14, Lf.
    replace (14 + zlen pl - 14) with (zlen pl) by lia. rewrite rd_range_Ok by lia. cbn [res_bind].
    rewrite rd_range_Ok by lia. cbn [res_bind]. change (Z.to_nat 0) with 0%nat. rewrite !drop_0.
    unfold zlen at 1. rewrite Nat2Z.id, firstn_all. unfold queue_for. rewrite Hq. done.
Qed.

(** A frame goes over Ethernet: what [phys_promiscuous::transmit_packet] hands
    to the device for another host is put by the receiving thread of that host in
    the queue of the layer for its ether type, with the source and destination it
    was sent with, the fourteen bytes of the header, and the payload filled up to
    the smallest size of a frame; a packet to the own address is not sent. *)
Theorem ethernet_delivery s q i my_mac dst src t payload :
  good dst → good src → af dst = mac → af src = mac → 0 ≤ t < 65536 → t ≠ 0x08ff → bytes_ok payload →
  prot_map s !! t = Some q →
  if same_addr dst my_mac then promiscuous_transmit_packet my_mac write_all dst src t payload = Ok (false, [])
  else ∃ f x y, promiscuous_transmit_packet my_mac write_all dst src t payload = Ok (true, f) ∧
    key x = key src ∧ key y = key dst ∧
    tap_receive s i f =
      Ok (set_prot_map s (<[t := queue_incoming_packet q i
            (Packet x x y (payload ++ replicate (46 - length payload) 0) ((key dst).2 ++ (key src).2 ++ be16 t) false)]>
            (prot_map s))).
Proof.
  intros Gd Gs Fd Fs Ht Hbpq Hp Hq. unfold promiscuous_transmit_packet. destruct (same_addr dst my_mac); [done|].
  change 60 with (Z.of_nat 60). rewrite ethernet_out_spec by (done || lia). cbn [res_bind].
  destruct (tap_receive_spec s q i 60 dst src t payload) as (x & y & Kx & Ky & Er); [done..|].
  eexists _, x, y. split; [unfold write_all, all_written; by rewrite Z.eqb_refl|]. split_and!; [done|done|].
  rewrite Er. cbn [Nat.sub]. do 4 f_equal. unfold ethernet_bytes. rewrite !app_assoc, <- (app_assoc _ payload). f_equal.
  apply take_app_length'. rewrite !length_app, !length_key, Fd, Fs by done. done.
Qed.
End Ethernet.

Lemma ethernet_delivery_witness :
  ∃ f x y, promiscuous_transmit_packet (ex_mac 9) write_all (ex_mac 1) (ex_mac 2) 0x0806 [1; 2; 3] = Ok (true, f) ∧
    key x = key (ex_mac 2) ∧ key y = key (ex_mac 1) ∧
    tap_receive ex_link_state 5 f =
      Ok (set_prot_map ex_link_state (<[0x0806 := queue_incoming_packet (new_fifo 4) 5
            (Packet x x y ([1; 2; 3] ++ replicate 43 0) ((key (ex_mac 1)).2 ++ (key (ex_mac 2)).2 ++ be16 0x0806) false)]>
            (prot_map ex_link_state))).
Proof.
  apply (ethernet_delivery ex_link_state (new_fifo 4) 5 (ex_mac 9) (ex_mac 1) (ex_mac 2) 0x0806 [1; 2; 3]);
    try done; try (split; [split_and!; [done|solve_bytes|done]|done]); solve_bytes.
Defined.

(** ** Faults *)

Section KissFaults.
Context {Q R : Type} `{!BoundedQueue (Z * packet) Q} `{!BoundedQueue queued_packet R}.
Implicit Types s : link_state Q R.

(** AX.25 frames in Ethernet frames and Ethernet frames in KISS frames may be
    nested; both functions that process frames return for every frame, whatever
    its bytes: nesting ends because a frame inside a frame is shorter. *)
Theorem kiss_processing_ends s frame source_phys add_callsign :
  ends (process_kiss_packet s frame source_phys add_callsign) ∧ ends (process_ethernet_frame s frame source_phys).
Proof. split; apply (proj1 (process_ends _)) || apply (proj2 (process_ends _)); lia. Qed.

(** a frame with an IP packet of no bytes: its first byte is looked at *)
Lemma empty_ip_frame_overrun s i c ap :
  ap_type ap = TYPE_UI → ap_pid ap = Some 0xcc → ap_data ap = no_data →
  process_valid_ax25 s ap i c = Err bad_access.
Proof.
  intros Ht Hp Hd. unfold process_valid_ax25, packet_of_ax25. rewrite Ht, Hp, Hd.
  destruct (get_any_addr_spec (ap_from ap)) as (x & -> & _). destruct (get_any_addr_spec (ap_to ap)) as (y & -> & _). done.
Qed.

(** an Ethernet frame of type 0x08ff and 17 to 31 bytes: the constructor of the
    vector throws, and nothing catches it *)
Lemma short_bpq_throws s buffer i :
  16 < zlen buffer < 32 → rd buffer 12 = Ok 0x08 → rd buffer 13 = Ok 0xff →
  process_ethernet_frame s buffer i = Err length_error.
Proof.
  intros Hl H12 H13. unfold process_ethernet_frame. rewrite Nat.add_comm. cbn [Nat.add process_ethernet_fuel].
  rewrite H12, H13. cbn [res_bind]. change (join16 8 255 =? 0x08ff) with true. cbn iota.
  rewrite (proj2 (Z.ltb_lt 16 _)) by lia. unfold sub_vector. by rewrite (proj2 (Z.ltb_lt _ 16)) by lia.
Qed.

Lemma process_kiss_fuel_S fuel s in_ i c :
  process_kiss_fuel (S fuel) s in_ i c =
    let* ap := parse_ax25 in_ in
    if ap_valid ap then process_valid_ax25 s ap i c
    else if 6 + 6 + 2 + 46 <=? zlen in_ then
      let* '(ok, s) := process_ethernet_fuel fuel s in_ i in Ok (negb ok, s)
    else Ok (false, s).
Proof. reflexivity. Qed.

(** an Ethernet frame in a KISS frame that is processed is reported as failed, and
    the other way around *)
Lemma ethernet_result_inverted s in_ i c ap ok s' :
  parse_ax25 in_ = Ok ap → ap_valid ap = false → 60 ≤ zlen in_ →
  process_ethernet_frame s in_ i = Ok (ok, s') → process_kiss_packet s in_ i c = Ok (negb ok, s').
Proof.
  intros Hp Hv Hl He. unfold process_kiss_packet. replace (2 * length in_ + 2)%nat with (S (2 * length in_ + 1)) by lia.
  unfold process_ethernet_frame in He. set (n := (2 * length in_ + 1)%nat) in *.
  rewrite process_kiss_fuel_S, Hp. cbn [res_bind]. rewrite Hv.
  rewrite (proj2 (Z.leb_le (6 + 6 + 2 + 46) _)) by lia. by rewrite He.
Qed.
End KissFaults.

(** a BPQ frame from the router is read in a vector that is freed before its data is
    sent, and without its last byte *)
Lemma bpq_transmit_dangling :
  transmit_packet write_all ex_qst_addr ex_call_addr 0x08ff (0 :: frame_bytes Ax25.ex_frame) = Err bad_access.
Proof. vm_compute. reflexivity. Qed.
