(* ===== verification/Ppp.v ===== *)
(** * PPP (src/phys_gen_ppp.cpp, src/phys_ppp.cpp)

    PPP over a serial line: the framing with its frame check sequence and escapes,
    the negotiation of options by LCP, IPCP, IPV6CP and CCP, the delivery of IP
    packets, and the thread that reads the line, with its modem emulation.
    [data.at(i)] throws [out_of_range].  Arguments of debug messages are not
    evaluated.  An operation returns the state and the frames it writes.

    Shown: the table-driven frame check sequence is the bitwise CRC of RFC 1662 and a
    frame with its check sequence gives the good value; frames are read back, and an
    IP packet arrives, for all settings of compression and of escapes; when the
    loops over options end; the answers to configure requests. *)
From S2P Require Import Prelude Str Hash AnyAddr Buffers Fifo Net AddressCache Slip.

(** [v.at(i)] *)
Definition vec_at (v : list Z) (i : Z) : res Z :=
  if (i <? 0) || (zlen v <=? i) then Err out_of_range else rd v i.

(** ** The frame check sequence *)

Definition polynomial : Z := 0x8408.

(** the inner loop of the constructor is the one of [crc32] *)
Definition fcstab : list Z := (λ i, crc32_bits 8 polynomial 0 (Z.of_nat i)) <$> seq 0 256.

(** [fcs = (fcs >> 8) ^ fcstab[(fcs ^ b) & 0xff]] *)
Definition fcs_step (fcs b : Z) : Z :=
  Z.lxor (Z.shiftr fcs 8) (nth (Z.to_nat (Z.land (Z.lxor fcs b) 0xff)) fcstab 0).

Definition ppp_fcs (temp : list Z) : Z := Z.lxor (foldl fcs_step 0xFFFF temp) 0xFFFF.

(** ** State *)

Section Ppp.
Context {Q : Type} `{!BoundedQueue (Z * packet) Q}.

Record ppp := Ppp {
  protocol_compression : bool;
  ac_field_compression : bool;
  lcp_options_acked : bool;
  ipcp_options_acked : bool;
  ipv6cp_options_acked : bool;
  magic : Z;
  ACCM_tx : list Z;
  ACCM_rx : list Z;
  opponent_address : any_addr;
  pp_my_mac : any_addr;
  pp_interface : Z;
  pp_ipv4 : option (Q * any_addr);   (* prot_map.find(0x800): its queue and get_addr() *)
}.

(** the constructor: all control characters are escaped, others are not *)
Definition initial_ACCM : list Z := [0xff; 0xff; 0xff; 0xff] ++ replicate 28 0.

Definition new_ppp (my_mac opponent : any_addr) (interface : Z) (ipv4 : option (Q * any_addr)) : ppp :=
  Ppp false false false false false 0x1234abcd initial_ACCM initial_ACCM opponent my_mac interface ipv4.

Definition set_compression (s : ppp) (pc ac : bool) : ppp :=
  Ppp pc ac (lcp_options_acked s) (ipcp_options_acked s) (ipv6cp_options_acked s) (magic s) (ACCM_tx s) (ACCM_rx s)
    (opponent_address s) (pp_my_mac s) (pp_interface s) (pp_ipv4 s).
Definition set_lcp_acked (s : ppp) (b : bool) : ppp :=
  Ppp (protocol_compression s) (ac_field_compression s) b (ipcp_options_acked s) (ipv6cp_options_acked s) (magic s)
    (ACCM_tx s) (ACCM_rx s) (opponent_address s) (pp_my_mac s) (pp_interface s) (pp_ipv4 s).
Definition set_ipcp_acked (s : ppp) (b : bool) : ppp :=
  Ppp (protocol_compression s) (ac_field_compression s) (lcp_options_acked s) b (ipv6cp_options_acked s) (magic s)
    (ACCM_tx s) (ACCM_rx s) (opponent_address s) (pp_my_mac s) (pp_interface s) (pp_ipv4 s).
Definition set_ipv6cp_acked (s : ppp) (b : bool) : ppp :=
  Ppp (protocol_compression s) (ac_field_compression s) (lcp_options_acked s) (ipcp_options_acked s) b (magic s)
    (ACCM_tx s) (ACCM_rx s) (opponent_address s) (pp_my_mac s) (pp_interface s) (pp_ipv4 s).
Definition set_ACCM (s : ppp) (tx rx : list Z) : ppp :=
  Ppp (protocol_compression s) (ac_field_compression s) (lcp_options_acked s) (ipcp_options_acked s)
    (ipv6cp_options_acked s) (magic s) tx rx (opponent_address s) (pp_my_mac s) (pp_interface s) (pp_ipv4 s).
Definition set_ipv4 (s : ppp) (q : option (Q * any_addr)) : ppp :=
  Ppp (protocol_compression s) (ac_field_compression s) (lcp_options_acked s) (ipcp_options_acked s)
    (ipv6cp_options_acked s) (magic s) (ACCM_tx s) (ACCM_rx s) (opponent_address s) (pp_my_mac s) (pp_interface s) q.

(** ** Frames *)

Definition ppp_escape (ACCM : list Z) (not_ppp_meta : bool) (b : Z) : res (list Z) :=
  let* m :=
    (if (b =? 0x7d) || (b =? 0x7e) then Ok true
     else
       let* a := vec_at ACCM (Z.shiftr b 3) in
       Ok (negb (Z.land a (Z.shiftl 1 (Z.land b 7)) =? 0) || ((b <? 0x20) && negb not_ppp_meta))) in
  Ok (if m then [0x7d; Z.lxor b 0x20] else [b]).

Fixpoint ppp_escape_all (ACCM : list Z) (not_ppp_meta : bool) (temp : list Z) : res (list Z) :=
  match temp with
  | [] => Ok []
  | b :: temp' =>
      let* e := ppp_escape ACCM not_ppp_meta b in
      let* rest := ppp_escape_all ACCM not_ppp_meta temp' in
      Ok (e ++ rest)
  end.

(** address, control and protocol *)
Definition ppp_header (s : ppp) (protocol : Z) (not_ppp_meta : bool) : list Z :=
  (if negb (ac_field_compression s) || negb not_ppp_meta then [0xff; 0x03] else []) ++
  (if protocol_compression s && (protocol <? 0x0100) && not_ppp_meta then [u8 protocol]
   else [u8 (Z.shiftr protocol 8); u8 protocol]).

Definition wrap_in_ppp_frame (s : ppp) (payload : list Z) (protocol : Z) (ACCM : list Z) (not_ppp_meta : bool)
  : res (list Z) :=
  let temp := ppp_header s protocol not_ppp_meta ++ payload in
  let fcs := ppp_fcs temp in
  let* out := ppp_escape_all ACCM not_ppp_meta (temp ++ [u8 fcs; u8 (Z.shiftr fcs 8)]) in
  Ok ([0x7e] ++ out ++ [0x7e]).

(** [phys_ppp::transmit_low]: the bytes written; that not all were written is only
    logged and returned *)
Definition transmit_low (s : ppp) (payload : list Z) (protocol : Z) (not_ppp_meta : bool) : res (list Z) :=
  wrap_in_ppp_frame s payload protocol (ACCM_tx s) not_ppp_meta.

Definition ppp_transmit_packet (s : ppp) (payload : list Z) : res (list Z) := transmit_low s payload 0x0021 true.

(** ** Negotiation *)

Definition send_Xcp (s : ppp) (code identifier protocol : Z) (data : list Z) : res (list Z) :=
  let n := zlen data + 4 in
  transmit_low s ([code; identifier; u8 (Z.shiftr n 8); Z.land n 255] ++ data) protocol false.

Definition send_rej (s : ppp) (protocol identifier : Z) (options : list Z) := send_Xcp s 4 identifier protocol options.
Definition send_ack (s : ppp) (protocol identifier : Z) (options : list Z) := send_Xcp s 2 identifier protocol options.
Definition send_nak (s : ppp) (protocol identifier : Z) (options : list Z) := send_Xcp s 3 identifier protocol options.

(** the loop over options that LCP, IPCP, IPV6CP and CCP have in common; [step] is
    its body for an option of [len] bytes at [next_offset] *)
Fixpoint options_loop {A} (fuel : nat) (data : list Z) (step : A → Z → Z → Z → res A) (options_offset : Z) (acc : A)
  : res A :=
  match fuel with
  | O => Err out_of_fuel
  | S fuel' =>
      if options_offset <? zlen data - 2 then
        let next_offset := options_offset in
        let* type := vec_at data next_offset in
        let* len := vec_at data (next_offset + 1) in
        if zlen data - next_offset <? len then Ok acc
        else
          let* acc := step acc type len next_offset in
          options_loop fuel' data step (next_offset + len) acc
      else Ok acc
  end.

(** the fuel of the loop, enough when every option has a length *)
Definition options_fuel (data : list Z) : nat := S (length data).

(** code, identifier and length, at offset 4 *)
Definition cp_header (data : list Z) : res (Z * Z * Z) :=
  let* code := vec_at data 4 in
  let* identifier := vec_at data 5 in
  let* hi := vec_at data 6 in
  let* lo := vec_at data 7 in
  Ok (code, identifier, join16 hi lo).

(** [std::copy(data.begin() + next_offset, data.begin() + next_offset + len, ...)] *)
Definition option_bytes (data : list Z) (next_offset len : Z) : res (list Z) := rd_range data next_offset len.

Definition ccp_option (data : list Z) (rej : list Z) (type len next_offset : Z) : res (list Z) :=
  let* o := option_bytes data next_offset len in Ok (rej ++ o).

Definition handle_ccp (s : ppp) (data : list Z) : res (ppp * list (list Z)) :=
  let* '(code, identifier, length) := cp_header data in
  if zlen data <? 4 + length then Ok (s, [])
  else if code =? 0x01 then
    let* rej := options_loop (options_fuel data) data (ccp_option data) 8 [] in
    let* w := (if negb (bool_decide (rej = [])) then send_rej s 0x80fd identifier rej
               else send_ack s 0x80fd identifier []) in
    Ok (s, [w])
  else Ok (s, []).

(** [ack], [rej], [send_nak_with_new_address] *)
Definition ipcp_option (s : ppp) (data : list Z) (acc : list Z * list Z * bool) (type len next_offset : Z)
  : res (list Z * list Z * bool) :=
  let '(ack, rej, nak) := acc in
  if type =? 0x03 then
    let* theirs := mk_addr ipv4 (ptr_at data (next_offset + 2)) in
    let* same := eqb theirs (opponent_address s) in
    if same then let* o := option_bytes data next_offset len in Ok (ack ++ o, rej, nak)
    else Ok (ack, rej, true)
  else let* o := option_bytes data next_offset len in Ok (ack, rej ++ o, nak).

(** the option for an address *)
Definition address_option (a : any_addr) : res (list Z) :=
  let* b0 := at_ a 0 in
  let* b1 := at_ a 1 in
  let* b2 := at_ a 2 in
  let* b3 := at_ a 3 in
  Ok [3; 6; b0; b1; b2; b3].

(** the answer to the options of a configure request *)
Definition ipcp_answer (s : ppp) (identifier : Z) (acc : list Z * list Z * bool) : res (list (list Z)) :=
  let '(ack, rej, send_nak_with_new_address) := acc in
  if send_nak_with_new_address then
    let* _ := assert_ (get_len (opponent_address s) =? 4) in
    let* nak := address_option (opponent_address s) in
    let* w := send_nak s 0x8021 identifier nak in Ok [w]
  else if negb (bool_decide (rej = [])) then let* w := send_rej s 0x8021 identifier rej in Ok [w]
  else if negb (bool_decide (ack = [])) then let* w := send_ack s 0x8021 identifier ack in Ok [w]
  else Ok [].

(** the own configure request *)
Definition ipcp_request (s : ppp) : res (list (list Z)) :=
  if ipcp_options_acked s then Ok []
  else
    match pp_ipv4 s with
    | None => Ok []
    | Some (_, a) =>
        let* _ := assert_ (get_len a =? 4) in
        let* o := address_option a in
        let* w := transmit_low s ([0x01; 1; 0; 10] ++ o) 0x8021 false in Ok [w]
    end.

Definition handle_ipcp (s : ppp) (data : list Z) : res (ppp * list (list Z)) :=
  let* '(code, identifier, length) := cp_header data in
  if zlen data <? 4 + length then Ok (s, [])
  else if code =? 0x01 then
    let* acc := options_loop (options_fuel data) data (ipcp_option s data) 8 ([], [], false) in
    let* w1 := ipcp_answer s identifier acc in
    let* w2 := ipcp_request s in
    Ok (s, w1 ++ w2)
  else if code =? 0x02 then Ok (set_ipcp_acked s true, [])
  else if code =? 0x04 then
    let* _ := options_loop (options_fuel data) data (λ acc _ _ _, Ok acc) 8 tt in
    Ok (s, [])
  else Ok (s, []).

Definition ipv6cp_option (data : list Z) (rej : list Z) (type len next_offset : Z) : res (list Z) :=
  if type =? 0xff then Ok rej
  else let* o := option_bytes data next_offset len in Ok (rej ++ o).

Definition handle_ipv6cp (s : ppp) (data : list Z) : res (ppp * list (list Z)) :=
  let* '(code, identifier, length) := cp_header data in
  if zlen data <? 4 + length then Ok (s, [])
  else if code =? 0x01 then
    let* rej := options_loop (options_fuel data) data (ipv6cp_option data) 8 [] in
    let* w := (if negb (bool_decide (rej = [])) then send_rej s 0x8057 identifier rej
               else send_ack s 0x8057 identifier []) in
    Ok (s, [w])
  else if code =? 0x02 then Ok (set_ipv6cp_acked s true, [])
  else Ok (s, []).

(** the loop of the ACCM option: it runs over the length of the whole option, the
    type and the length included *)
Fixpoint accm_loop (n : nat) (i : Z) (s : ppp) (data : list Z) (options_offset : Z) : res ppp :=
  match n with
  | O => Ok s
  | S n' =>
      let* b := vec_at data (options_offset + i) in
      let* tx := vec_at_set (ACCM_tx s) i b in
      let* rx := vec_at_set (ACCM_rx s) i b in
      accm_loop n' (i + 1) (set_ACCM s tx rx) data options_offset
  end.

(** the state, [ack] and [rej] *)
Definition lcp_option (data : list Z) (acc : ppp * list Z * list Z) (type len next_offset : Z)
  : res (ppp * list Z * list Z) :=
  let '(s, ack, rej) := acc in
  let* o := option_bytes data next_offset len in
  if type =? 1 then Ok (s, ack ++ o, rej)
  else if type =? 2 then
    let* s := accm_loop (Z.to_nat len) 0 s data (next_offset + 2) in
    Ok (s, ack ++ o, rej)
  else if type =? 5 then Ok (s, ack ++ o, rej)
  else if type =? 7 then Ok (set_compression s true (ac_field_compression s), ack ++ o, rej)
  else if type =? 8 then Ok (set_compression s (protocol_compression s) true, ack ++ o, rej)
  else Ok (s, ack, rej ++ o).

Definition magic_bytes (s : ppp) : list Z := be32 (magic s).

(** the own configure request *)
Definition lcp_request (s : ppp) : res (list (list Z)) :=
  if lcp_options_acked s then Ok []
  else
    let* a0 := vec_at (ACCM_rx s) 0 in
    let* a1 := vec_at (ACCM_rx s) 1 in
    let* a2 := vec_at (ACCM_rx s) 2 in
    let* a3 := vec_at (ACCM_rx s) 3 in
    let* w := transmit_low s ([0x01; 1; 0; 20] ++ [2; 6; a0; a1; a2; a3] ++ [5; 6] ++ magic_bytes s ++ [7; 2] ++ [8; 2])
                0xC021 false in
    Ok [w].

Definition handle_lcp (s : ppp) (data : list Z) : res (ppp * list (list Z)) :=
  let* '(code, identifier, length) := cp_header data in
  if zlen data <? 4 + length then Ok (s, [])
  else if code =? 0x01 then
    let s := set_lcp_acked (set_compression s false false) false in
    let* '(s, ack, rej) := options_loop (options_fuel data) data (lcp_option data) 8 (s, [], []) in
    let* w1 :=
      (if negb (bool_decide (rej = [])) then let* w := send_rej s 0xc021 identifier rej in Ok [w]
       else if negb (bool_decide (ack = [])) then let* w := send_ack s 0xc021 identifier ack in Ok [w]
       else Ok []) in
    let* w2 := lcp_request s in
    Ok (s, w1 ++ w2)
  else if code =? 0x02 then Ok (set_lcp_acked s true, [])
  else if code =? 0x09 then
    let* w := transmit_low s ([10; identifier; 0x00; 8] ++ magic_bytes s) 0xC021 false in
    Ok (s, [w])
  else if code =? 0x0c then
    let* w := transmit_low s ([0x0c; identifier; 0x00; 12] ++ magic_bytes s ++ [77; 121; 73; 80]) 0xC021 false in
    Ok (s, [w])
  else Ok (s, []).

(** ** Receiving *)

(** [unwrap_ppp_frame]; [payload.at(i++)] behind the last byte throws *)
Fixpoint unwrap_ppp_frame (payload : list Z) : res (list Z) :=
  match payload with
  | [] => Ok []
  | c :: payload' =>
      if c =? 0x7d then
        match payload' with
        | [] => Err out_of_range
        | b :: payload'' => let* rest := unwrap_ppp_frame payload'' in Ok (Z.lxor b 0x20 :: rest)
        end
      else let* rest := unwrap_ppp_frame payload' in Ok (c :: rest)
  end.

(** the fields that compression left out are put back *)
Definition decompress (s : ppp) (packet_buffer : list Z) : res (list Z) :=
  let* b0 := vec_at packet_buffer 0 in
  let packet_buffer := if negb (b0 =? 0xff) && ac_field_compression s then 0xff :: 0x03 :: packet_buffer else packet_buffer in
  let* b2 := vec_at packet_buffer 2 in
  Ok (if (Z.land b2 1 =? 1) && protocol_compression s then take 2 packet_buffer ++ [0x00] ++ drop 2 packet_buffer
      else packet_buffer).

Definition process_incoming_packet (s : ppp) (packet_buffer : list Z) : res (ppp * list (list Z)) :=
  if zlen packet_buffer <? 4 then Ok (s, [])
  else
    let* packet_buffer := decompress s packet_buffer in
    let* p2 := vec_at packet_buffer 2 in
    let* p3 := vec_at packet_buffer 3 in
    let protocol := join16 p2 p3 in
    if protocol =? 0x0021 then
      let* src_mac := gen_opponent_mac (pp_my_mac s) in
      match pp_ipv4 s with
      | None => Ok (s, [])
      | Some (q, a) =>
          let* p := new_packet src_mac src_mac (pp_my_mac s) (ptr_at packet_buffer 4) (zlen packet_buffer - (4 + 2))
                      [] 0 false in
          Ok (set_ipv4 s (Some (queue_incoming_packet q (pp_interface s) p, a)), [])
      end
    else if protocol =? 0xc021 then handle_lcp s packet_buffer
    else if protocol =? 0x8021 then handle_ipcp s packet_buffer
    else if protocol =? 0x8057 then handle_ipv6cp s packet_buffer
    else if protocol =? 0x80fd then handle_ccp s packet_buffer
    else Ok (s, []).

(** ** The thread of [phys_ppp] *)

Record ppp_reader := PppReader { pr_packet_buffer : list Z; pr_modem : str; pr_modem_7e_flag : bool }.

Definition no_reader : ppp_reader := PppReader [] [] false.

Definition str_ATDT : str := [65; 84; 68; 84].
Definition str_AT : str := [65; 84].
Definition str_CLIENT : str := [67; 76; 73; 69; 78; 84].
(** "CONNECT\r\n", "OK\r\n" and the seven bytes written of "SERVER\r\n" *)
Definition str_CONNECT : str := [67; 79; 78; 78; 69; 67; 84; 13; 10].
Definition str_OK : str := [79; 75; 13; 10].
Definition str_SERVER : str := [83; 69; 82; 86; 69; 82; 13].

(** the modem that answers AT commands: its text and what it writes *)
Definition modem_byte (modem : str) (buffer : Z) : str * list (list Z) :=
  if ((32 <=? buffer) && (buffer <? 127)) || (buffer =? 10) || (buffer =? 13) then
    let modem := modem ++ [buffer] in
    if bool_decide (is_Some (find str_ATDT modem)) then ([], [str_CONNECT])
    else if bool_decide (is_Some (find str_AT modem)) then ([], [str_OK])
    else if bool_decide (is_Some (find str_CLIENT modem)) then ([], [str_SERVER])
    else (modem, [])
  else (modem, []).

(** one byte that was read *)
Definition ppp_byte (emulate_modem_xp : bool) (s : ppp) (r : ppp_reader) (buffer : Z)
  : res (ppp * ppp_reader * list (list Z)) :=
  if buffer =? 0x7e then
    if bool_decide (pr_packet_buffer r = []) then Ok (s, r, [])
    else
      let* unwrapped := unwrap_ppp_frame (pr_packet_buffer r) in
      let* '(s, w) := process_incoming_packet s unwrapped in
      Ok (s, no_reader, w)
  else
    let packet_buffer := pr_packet_buffer r ++ [buffer] in
    let modem_7e_flag := if buffer =? 0x7e then true else pr_modem_7e_flag r in
    if emulate_modem_xp && negb modem_7e_flag then
      let '(modem, w) := modem_byte (pr_modem r) buffer in
      Ok (s, PppReader packet_buffer modem modem_7e_flag, w)
    else Ok (s, PppReader packet_buffer (pr_modem r) modem_7e_flag, []).

(** [phys_ppp::operator()] on the results of its [read] calls; the end of a file
    reads as zeros *)
Fixpoint ppp_run (emulate_modem_xp : bool) (s : ppp) (r : ppp_reader) (reads : list read_result)
  : res (ppp * ppp_reader * list (list Z)) :=
  match reads with
  | [] => Ok (s, r, [])
  | x :: reads =>
      match x with
      | read_error => ppp_run emulate_modem_xp s r reads
      | _ =>
          let* '(s, r, w1) := ppp_byte emulate_modem_xp s r (byte_read x) in
          let* '(s, r, w2) := ppp_run emulate_modem_xp s r reads in
          Ok (s, r, w1 ++ w2)
      end
  end.
End Ppp.
Arguments ppp : clear implicits.

(** ** The frame check sequence is the CRC of RFC 1662 *)

Lemma fcstab_nth x : 0 ≤ x < 256 → nth (Z.to_nat x) fcstab 0 = Nat.iter 8 (bitstep polynomial) x.
Proof.
  intros Hx. unfold fcstab. rewrite nth_lookup, list_lookup_fmap, lookup_seq_lt by lia.
  cbn [fmap option_fmap option_map default]. rewrite Nat.add_0_l, Z2Nat.id by lia.
  rewrite crc32_bits_8 by exact Hx. by rewrite Z.lxor_0_l.
Qed.

Lemma lxor_bound a b n : 0 ≤ n → 0 ≤ a < 2 ^ n → 0 ≤ b < 2 ^ n → 0 ≤ Z.lxor a b < 2 ^ n.
Proof.
  intros Hn Ha Hb. assert (0 ≤ Z.lxor a b) as H0 by (apply Z.lxor_nonneg; lia).
  split; [done|]. destruct (decide (Z.lxor a b = 0)) as [->|]; [lia|].
  apply Z.log2_lt_pow2; [lia|]. pose proof (Z.log2_lxor a b ltac:(lia) ltac:(lia)) as H.
  destruct (decide (a = 0)) as [->|]; [rewrite Z.lxor_0_l in *; apply Z.log2_lt_pow2; lia|].
  destruct (decide (b = 0)) as [->|]; [rewrite Z.lxor_0_r in *; apply Z.log2_lt_pow2; lia|].
  pose proof (proj1 (Z.log2_lt_pow2 a n ltac:(lia)) ltac:(lia)). pose proof (proj1 (Z.log2_lt_pow2 b n ltac:(lia)) ltac:(lia)).
  lia.
Qed.

Lemma shiftr_bound a n k : 0 ≤ k → 0 ≤ a < 2 ^ n → 0 ≤ Z.shiftr a k < 2 ^ n.
Proof.
  intros Hk Ha. rewrite Z.shiftr_div_pow2 by done. pose proof (Z.pow_pos_nonneg 2 k ltac:(lia) Hk).
  split; [apply Z.div_pos; lia|]. apply Z.le_lt_trans with a; [|lia]. apply Z.div_le_upper_bound; nia.
Qed.

Lemma crc32_bits_bound P j crc ch n :
  0 ≤ n → 0 ≤ P < 2 ^ n → 0 ≤ crc < 2 ^ n → 0 ≤ crc32_bits j P crc ch < 2 ^ n.
Proof.
  intros Hn HP. revert crc ch. induction j as [|j IH]; intros crc ch Hc; [done|]. cbn [crc32_bits]. apply IH.
  apply lxor_bound; [done|by apply shiftr_bound|]. destruct (Z.odd _); lia.
Qed.

Lemma fcs_step_bits fcs b : 0 ≤ fcs → byte_ok b → fcs_step fcs b = crc32_bits 8 polynomial fcs b.
Proof.
  intros Hc Hd. rewrite crc32_bits_8 by done. unfold fcs_step. rewrite fcstab_nth by apply land_255.
  rewrite (iter8_split polynomial (Z.lxor fcs b)).
  - f_equal. rewrite Z.shiftr_lxor, (Z.shiftr_div_pow2 b) by lia.
    change (2 ^ 8) with 256. rewrite (Z.div_small b) by done. by rewrite Z.lxor_0_r.
  - apply Z.lxor_nonneg. unfold byte_ok in Hd. lia.
Qed.

Lemma foldl_fcs temp fcs :
  bytes_ok temp → 0 ≤ fcs < 65536 →
  foldl fcs_step fcs temp = foldl (crc32_bits 8 polynomial) fcs temp ∧ 0 ≤ foldl fcs_step fcs temp < 65536.
Proof.
  intros HB. revert fcs. induction HB as [|b l Hb _ IH]; intros fcs Hf; [done|]. cbn [foldl].
  rewrite fcs_step_bits by (done || lia). apply IH. apply (crc32_bits_bound polynomial 8 fcs b 16); done.
Qed.

Lemma testbit_ones_low n k : 0 ≤ n < k → Z.testbit (Z.ones k) n = true.
Proof. intros. apply Z.ones_spec_low. lia. Qed.

(** the last two bytes: the complement of what was computed so far, low byte first *)
Lemma fcs_residue F :
  0 ≤ F < 65536 →
  let fcs := Z.lxor F 0xFFFF in foldl fcs_step F [u8 fcs; u8 (Z.shiftr fcs 8)] = 0xf0b8.
Proof.
  intros HF fcs. cbn [foldl].
  assert (∀ x, u8 x = Z.land x (Z.ones 8)) as Hu by (intros x; rewrite Z.land_ones by lia; done).
  set (T := nth 255 fcstab 0).
  assert (Z.land (Z.lxor F (u8 fcs)) 0xff = 255) as E1.
  { rewrite Hu. unfold fcs. change 0xFFFF with (Z.ones 16). change 0xff with (Z.ones 8). change 255 with (Z.ones 8).
    apply Z.bits_inj'. intros n Hn. rewrite !Z.land_spec, Z.lxor_spec, Z.land_spec, Z.lxor_spec.
    destruct (decide (n < 8)); [|rewrite (Z.ones_spec_high 8) by lia; by rewrite !andb_false_r].
    rewrite !testbit_ones_low by lia. by destruct (Z.testbit F n). }
  unfold fcs_step at 2. rewrite E1. change (Z.to_nat 255) with 255%nat. fold T.
  assert (Z.land (Z.lxor (Z.lxor (Z.shiftr F 8) T) (u8 (Z.shiftr fcs 8))) 0xff = Z.land (Z.lxor T 255) 255) as E2.
  { rewrite Hu. unfold fcs. change 0xFFFF with (Z.ones 16). change 0xff with (Z.ones 8). change 255 with (Z.ones 8).
    apply Z.bits_inj'. intros n Hn. rewrite !Z.land_spec, !Z.lxor_spec, Z.land_spec, !Z.shiftr_spec, Z.lxor_spec by lia.
    destruct (decide (n < 8)); [|rewrite (Z.ones_spec_high 8) by lia; by rewrite !andb_false_r].
    rewrite !testbit_ones_low by lia. destruct (Z.testbit F (n + 8)), (Z.testbit T n); done. }
  unfold fcs_step. rewrite E2, Z.shiftr_lxor, Z.shiftr_shiftr by lia.
  assert (Z.shiftr F (8 + 8) = 0) as ->.
  { rewrite Z.shiftr_div_pow2 by lia. change (2 ^ (8 + 8)) with 65536. by apply Z.div_small. }
  unfold T. vm_compute. reflexivity.
Qed.

(** The frame check sequence, computed with the table the constructor fills, is
    the bitwise CRC-16 of RFC 1662 with the reflected polynomial 0x8408, and the
    receiver of a message followed by its check sequence, low byte first, computes
    the good value 0xf0b8, whatever the message. *)
Theorem ppp_fcs_rfc1662 temp :
  bytes_ok temp →
  ppp_fcs temp = Z.lxor (foldl (crc32_bits 8 polynomial) 0xFFFF temp) 0xFFFF ∧
  foldl fcs_step 0xFFFF (temp ++ [u8 (ppp_fcs temp); u8 (Z.shiftr (ppp_fcs temp) 8)]) = 0xf0b8.
Proof.
  intros HB. destruct (foldl_fcs temp 0xFFFF HB ltac:(lia)) as [E R]. split.
  - unfold ppp_fcs. by rewrite E.
  - rewrite foldl_app. by apply fcs_residue.
Qed.

(** the check value of CRC-16/X-25 *)
Lemma ppp_fcs_rfc1662_witness :
  ppp_fcs [49;50;51;52;53;54;55;56;57] = 0x906e ∧
  foldl fcs_step 0xFFFF ([49;50;51;52;53;54;55;56;57] ++ [0x6e; 0x90]) = 0xf0b8.
Proof.
  destruct (ppp_fcs_rfc1662 [49;50;51;52;53;54;55;56;57]) as [E1 E2].
  - repeat constructor; unfold byte_ok; lia.
  - split; [rewrite E1; vm_compute; reflexivity|]. exact E2.
Defined.

(** ** Frames are read back *)

(** a character map that does not escape 0x5e: 0x5e ^ 0x20 is the flag 0x7e *)
Definition ACCM_ok (a : list Z) : Prop :=
  length a = 32%nat ∧ bytes_ok a ∧ Z.land (nth 11 a 0) 64 = 0.

#[global] Instance ACCM_ok_dec a : Decision (ACCM_ok a).
Proof. unfold ACCM_ok. apply _. Defined.

Lemma initial_ACCM_ok : ACCM_ok initial_ACCM.
Proof. apply (bool_decide_unpack _). vm_compute. exact I. Qed.

Lemma lxor_32 b : byte_ok b → byte_ok (Z.lxor b 0x20) ∧ Z.lxor (Z.lxor b 0x20) 0x20 = b.
Proof.
  intros Hb. split; [apply (lxor_bound b 0x20 8); unfold byte_ok in *; lia|].
  by rewrite Z.lxor_assoc, Z.lxor_nilpotent, Z.lxor_0_r.
Qed.

Lemma vec_at_Ok v i : 0 ≤ i < zlen v → vec_at v i = rd v i.
Proof. intros. unfold vec_at. by rewrite (proj2 (Z.ltb_ge i 0)), (proj2 (Z.leb_gt (zlen v) i)) by lia. Qed.

Lemma vec_at_nth v i : 0 ≤ i < zlen v → vec_at v i = Ok (nth (Z.to_nat i) v 0).
Proof.
  intros Hi. rewrite vec_at_Ok by done. apply rd_Ok. split; [lia|].
  destruct (nth_lookup_or_length v (Z.to_nat i) 0) as [E|E]; [done|]. unfold zlen in Hi. lia.
Qed.

(** a byte is escaped in a way that can be undone, and without the flag *)
Lemma ppp_escape_spec ACCM m b :
  ACCM_ok ACCM → byte_ok b →
  ∃ e, ppp_escape ACCM m b = Ok e ∧
    (e = [b] ∧ b ≠ 0x7d ∧ b ≠ 0x7e ∨ e = [0x7d; Z.lxor b 0x20] ∧ Z.lxor b 0x20 ≠ 0x7e).
Proof.
  intros (Hl & _ & H5e) Hb. unfold ppp_escape.
  destruct (Z.eqb_spec b 0x7d) as [->|N1]; [eexists; split; [done|right; done]|].
  destruct (Z.eqb_spec b 0x7e) as [->|N2]; [eexists; split; [done|right; done]|]. cbn [orb].
  assert (0 ≤ Z.shiftr b 3 < 32) as Hi.
  { rewrite Z.shiftr_div_pow2 by lia. change (2 ^ 3) with 8. unfold byte_ok in Hb. Z.to_euclidean_division_equations. lia. }
  rewrite vec_at_nth by (unfold zlen; lia). cbn [res_bind].
  destruct (negb (Z.land _ _ =? 0) || _) eqn:E; eexists; (split; [reflexivity|]); [right|by left].
  split; [done|]. intros E7. assert (b = 0x5e) as ->.
  { destruct (lxor_32 b Hb) as [_ <-]. by rewrite E7. }
  change (Z.to_nat (Z.shiftr 0x5e 3)) with 11%nat in E. change (Z.shiftl 1 (Z.land 0x5e 7)) with 64 in E.
  rewrite H5e in E. done.
Qed.

Lemma ppp_escape_all_spec ACCM m l :
  ACCM_ok ACCM → bytes_ok l →
  ∃ e, ppp_escape_all ACCM m l = Ok e ∧ (0x7e ∉ e) ∧ unwrap_ppp_frame e = Ok l ∧ (l ≠ [] → e ≠ []).
Proof.
  intros Ha Hl. induction Hl as [|b l Hb _ (e2 & E2 & N2 & U2 & _)]; cbn [ppp_escape_all].
  { exists []. split_and!; [done|by apply not_elem_of_nil|done|done]. }
  destruct (ppp_escape_spec ACCM m b Ha Hb) as (e & E & He). rewrite E, E2. cbn [res_bind].
  exists (e ++ e2). split; [done|].
  destruct He as [(-> & N1 & N3)|(-> & N1)]; cbn [app].
  - split_and!; [by apply not_elem_of_cons|cbn [unwrap_ppp_frame]|done].
    rewrite (proj2 (Z.eqb_neq b 0x7d)) by done. by rewrite U2.
  - split_and!; [apply not_elem_of_cons; split; [done|by apply not_elem_of_cons]|cbn [unwrap_ppp_frame]|done].
    change (0x7d =? 0x7d) with true. cbn iota. rewrite U2. cbn [res_bind]. by rewrite (proj2 (lxor_32 b Hb)).
Qed.

Lemma ppp_fcs_range temp : bytes_ok temp → 0 ≤ ppp_fcs temp < 65536.
Proof.
  intros HB. unfold ppp_fcs. destruct (foldl_fcs temp 0xFFFF HB ltac:(lia)) as [_ R].
  apply (lxor_bound _ 0xFFFF 16); [lia|exact R|done].
Qed.

Section PppFrames.
Context {Q : Type} `{!BoundedQueue (Z * packet) Q}.
Implicit Types s : ppp Q.

(** what is between the flags, before the escapes *)
Definition frame_content s (payload : list Z) (protocol : Z) (not_ppp_meta : bool) : list Z :=
  let temp := ppp_header s protocol not_ppp_meta ++ payload in
  temp ++ [u8 (ppp_fcs temp); u8 (Z.shiftr (ppp_fcs temp) 8)].

Lemma ppp_header_ok s protocol m : bytes_ok (ppp_header s protocol m).
Proof.
  unfold ppp_header. apply bytes_ok_app; destruct (_ : bool); repeat constructor; apply u8_ok || done.
Qed.

Lemma frame_content_ok s payload protocol m : bytes_ok payload → bytes_ok (frame_content s payload protocol m).
Proof.
  intros Hp. unfold frame_content. apply bytes_ok_app; [apply bytes_ok_app; [apply ppp_header_ok|done]|].
  repeat constructor; apply u8_ok.
Qed.

(** every frame can be sent and is read back between its flags *)
Lemma wrap_unwrap s payload protocol ACCM m :
  ACCM_ok ACCM → bytes_ok payload →
  ∃ e, wrap_in_ppp_frame s payload protocol ACCM m = Ok ([0x7e] ++ e ++ [0x7e]) ∧ (0x7e ∉ e) ∧ e ≠ [] ∧
    unwrap_ppp_frame e = Ok (frame_content s payload protocol m).
Proof.
  intros Ha Hp. pose proof (frame_content_ok s payload protocol m Hp) as Hc.
  destruct (ppp_escape_all_spec ACCM m _ Ha Hc) as (e & E & N & U & Hne). exists e.
  unfold wrap_in_ppp_frame. unfold frame_content in E. rewrite E. split_and!; [done|done| |done].
  apply Hne. unfold frame_content. intros [_ H]%app_nil. discriminate H.
Qed.

(** the reader collects what is between the flags *)
Lemma ppp_run_content em s r e reads :
  (0x7e ∉ e) →
  ∃ r' w, pr_packet_buffer r' = pr_packet_buffer r ++ e ∧ (em = false → w = []) ∧
    ppp_run em s r ((read_byte <$> e) ++ reads) =
      let* '(s2, r2, w2) := ppp_run em s r' reads in Ok (s2, r2, w ++ w2).
Proof.
  revert r. induction e as [|b e IH]; intros r Hn.
  { exists r, []. cbn [app fmap list_fmap]. rewrite app_nil_r. split_and!; [done|done|].
    by destruct (ppp_run em s r reads) as [[[??]?]|]. }
  apply not_elem_of_cons in Hn as [Nb Hn]. cbn [fmap list_fmap app ppp_run byte_read].
  assert (∃ r1 w1, ppp_byte em s r b = Ok (s, r1, w1) ∧ pr_packet_buffer r1 = pr_packet_buffer r ++ [b] ∧
            (em = false → w1 = [])) as (r1 & w1 & -> & B1 & W1).
  { unfold ppp_byte. rewrite (proj2 (Z.eqb_neq b 0x7e)) by done.
    destruct em; cbn [andb]; [|by eexists _, _]. destruct (negb _); [|by eexists _, _].
    destruct (modem_byte (pr_modem r) b) as [m' w']. by eexists _, _. }
  cbn [res_bind]. destruct (IH r1 Hn) as (r' & w & B & W & R). rewrite R.
  exists r', (w1 ++ w). split_and!.
  - rewrite B, B1, <- app_assoc. done.
  - intros ->. by rewrite W1, W.
  - destruct (ppp_run em s r' reads) as [[[??]?]|]; cbn [res_bind]; [by rewrite app_assoc|done].
Qed.

(** a frame on the line is processed *)
Lemma ppp_run_frame em s r e content reads :
  pr_packet_buffer r = [] → (0x7e ∉ e) → e ≠ [] → unwrap_ppp_frame e = Ok content →
  ∃ w, (em = false → w = []) ∧
    ppp_run em s r ((read_byte <$> ([0x7e] ++ e ++ [0x7e])) ++ reads) =
      let* '(s1, w1) := process_incoming_packet s content in
      let* '(s2, r2, w2) := ppp_run em s1 no_reader reads in Ok (s2, r2, w ++ w1 ++ w2).
Proof.
  intros Hr Hn Hne U. rewrite !fmap_app, <- !app_assoc.
  assert (∀ l, ppp_run em s r ((read_byte <$> [0x7e]) ++ l) = ppp_run em s r l) as ->.
  { intros l. cbn [fmap list_fmap app ppp_run byte_read]. unfold ppp_byte. rewrite Z.eqb_refl.
    rewrite bool_decide_eq_true_2 by done. cbn [res_bind]. by destruct (ppp_run em s r l) as [[[??]?]|]. }
  destruct (ppp_run_content em s r e ((read_byte <$> [0x7e]) ++ reads) Hn) as (r' & w & B & W & ->).
  exists w. split; [done|]. cbn [fmap list_fmap app ppp_run byte_read]. unfold ppp_byte. rewrite Z.eqb_refl.
  rewrite Hr in B. cbn [app] in B. rewrite B, bool_decide_eq_false_2, U by done. cbn [res_bind].
  destruct (process_incoming_packet s content) as [[s1 w1]|]; cbn [res_bind]; [|done].
  by destruct (ppp_run em s1 no_reader reads) as [[[??]?]|].
Qed.
End PppFrames.

(** ** An IP packet arrives *)

Section PppDelivery.
Context {Q : Type} `{!BoundedQueue (Z * packet) Q}.
Implicit Types s : ppp Q.

Lemma vec_at_0 x l : vec_at (x :: l) 0 = Ok x.
Proof. apply vec_at_nth. rewrite zlen_cons. pose proof (zlen_nonneg l). lia. Qed.
Lemma vec_at_2 x y z l : vec_at (x :: y :: z :: l) 2 = Ok z.
Proof. apply vec_at_nth. rewrite !zlen_cons. pose proof (zlen_nonneg l). lia. Qed.

(** the receiver puts back what the sender left out *)
Lemma decompress_ip s1 s2 payload :
  (protocol_compression s1 = true → protocol_compression s2 = true) →
  (ac_field_compression s1 = true → ac_field_compression s2 = true) → payload ≠ [] →
  4 ≤ zlen (frame_content s1 payload 0x0021 true) ∧
  ∃ f1 f2, decompress s2 (frame_content s1 payload 0x0021 true) = Ok ([0xff; 0x03; 0x00; 0x21] ++ payload ++ [f1; f2]).
Proof.
  intros Hpc Hac Hne. unfold frame_content. set (temp := ppp_header s1 33 true ++ payload).
  set (f1 := u8 (ppp_fcs temp)). set (f2 := u8 (Z.shiftr (ppp_fcs temp) 8)).
  assert (1 ≤ zlen payload) as Hp by (destruct payload; [done|unfold zlen; simpl; lia]).
  unfold temp, ppp_header. change ((33 <? 256)) with true. change (u8 33) with 33. change (u8 (Z.shiftr 33 8)) with 0.
  rewrite !orb_false_r, !andb_true_r, <- !app_assoc. set (rest := payload ++ [f1; f2]).
  assert (zlen rest = zlen payload + 2) as Lr by (unfold rest; rewrite zlen_app; done).
  split.
  { rewrite !zlen_app, Lr. destruct (ac_field_compression s1), (protocol_compression s1); cbn; unfold zlen in *; simpl; lia. }
  exists f1, f2. fold rest. unfold decompress.
  destruct (ac_field_compression s1), (protocol_compression s1); cbn [negb app];
    try (rewrite Hac by done); try (rewrite Hpc by done);
    rewrite vec_at_0; cbn [res_bind Z.eqb Pos.eqb negb andb]; by rewrite vec_at_2.
Qed.

Lemma opponent_bytes_good m n i :
  good m → af m = mac → 0 ≤ i → i + Z.of_nat n ≤ 6 → ∃ l, opponent_bytes n i m = Ok l ∧ length l = n ∧ bytes_ok l.
Proof.
  intros Hg Hf. revert i. induction n as [|n IH]; intros i Hi Hn; cbn [opponent_bytes].
  { exists []. split_and!; [done|done|constructor]. }
  destruct (at_good m i Hg) as (b & -> & Hb); [rewrite Hf; simpl; lia|]. cbn [res_bind].
  destruct (IH (i + 1)) as (l & -> & Hl & Hlb); [lia..|]. cbn [res_bind].
  eexists. split_and!; [done|simpl; lia|]. constructor; [|done].
  pose proof (key_bytes_ok m Hg) as Hk. unfold bytes_ok in Hk. rewrite Forall_lookup in Hk. specialize (Hk _ _ Hb).
  apply (lxor_bound b _ 8); [lia|done|]. destruct (Z.odd i); lia.
Qed.

Lemma gen_opponent_mac_good m : good m → af m = mac → ∃ x, gen_opponent_mac m = Ok x.
Proof.
  intros Hg Hf. unfold gen_opponent_mac.
  destruct (opponent_bytes_good m 6 0 Hg Hf) as (l & -> & Hl & Hb); [lia..|]. cbn [res_bind].
  destruct (mk_addr_spec mac l) as (x & -> & _); [done|unfold zlen; rewrite Hl; simpl; lia|]. by exists x.
Qed.

Lemma process_ip s q a payload f1 f2 src content :
  pp_ipv4 s = Some (q, a) → gen_opponent_mac (pp_my_mac s) = Ok src →
  4 ≤ zlen content → decompress s content = Ok ([0xff; 0x03; 0x00; 0x21] ++ payload ++ [f1; f2]) →
  process_incoming_packet s content =
    Ok (set_ipv4 s (Some (queue_incoming_packet q (pp_interface s) (Packet src src (pp_my_mac s) payload [] false), a)), []).
Proof.
  intros Hq Hsrc Hl Hd. unfold process_incoming_packet. rewrite (proj2 (Z.ltb_ge _ 4)) by lia.
  rewrite Hd. cbn [res_bind]. pose proof (zlen_nonneg (payload ++ [f1; f2])) as Hn.
  rewrite vec_at_nth by (rewrite zlen_app; unfold zlen in *; simpl; lia).
  rewrite vec_at_nth by (rewrite zlen_app; unfold zlen in *; simpl; lia).
  change (nth (Z.to_nat 2) _ 0) with 0. change (nth (Z.to_nat 3) _ 0) with 0x21. cbn [res_bind].
  change (join16 0 33 =? 33) with true. cbn iota. rewrite Hsrc, Hq. cbn [res_bind].
  rewrite ptr_at_app by done. unfold new_packet.
  replace (zlen ([255; 3; 0; 33] ++ payload ++ [f1; f2]) - (4 + 2)) with (zlen payload)
    by (rewrite !zlen_app; unfold zlen; simpl; lia).
  rewrite rd_range_app by done. done.
Qed.

(** C22: An IP packet goes over a PPP line: what [transmit_packet] of one end writes,
    with or without compression of the protocol and of the address and control
    fields and whatever its map of characters to escape is (the one for which no
    escape can produce a flag), is read by the thread of the other end as one frame
    when that end agreed to the compression, and the packet is put in the queue of
    IPv4, byte for byte; the reader is ready for the next frame. *)
Theorem ppp_delivery em s1 s2 r q a payload reads :
  ACCM_ok (ACCM_tx s1) → bytes_ok payload → payload ≠ [] →
  (protocol_compression s1 = true → protocol_compression s2 = true) →
  (ac_field_compression s1 = true → ac_field_compression s2 = true) →
  good (pp_my_mac s2) → af (pp_my_mac s2) = mac → pp_ipv4 s2 = Some (q, a) → pr_packet_buffer r = [] →
  ∃ wire src w, ppp_transmit_packet s1 payload = Ok wire ∧ gen_opponent_mac (pp_my_mac s2) = Ok src ∧
    (em = false → w = []) ∧
    ppp_run em s2 r ((read_byte <$> wire) ++ reads) =
      let* '(s', r', w') :=
        ppp_run em (set_ipv4 s2 (Some (queue_incoming_packet q (pp_interface s2)
                                         (Packet src src (pp_my_mac s2) payload [] false), a))) no_reader reads in
      Ok (s', r', w ++ w').
Proof.
  intros Ha Hp Hne Hpc Hac Hg Hf Hq Hr.
  destruct (wrap_unwrap s1 payload 0x0021 (ACCM_tx s1) true Ha Hp) as (e & E & N & Ne & U).
  destruct (decompress_ip s1 s2 payload Hpc Hac Hne) as (Hl & f1 & f2 & D).
  destruct (gen_opponent_mac_good (pp_my_mac s2) Hg Hf) as [src Hsrc].
  destruct (ppp_run_frame em s2 r e _ reads Hr N Ne U) as (w & W & R).
  exists ([0x7e] ++ e ++ [0x7e]), src, w. split_and!; [done|done|done|]. rewrite R.
  rewrite (process_ip s2 q a payload f1 f2 src) by done. done.
Qed.
End PppDelivery.

Definition ex_ppp (pc ac : bool) : ppp (fifo (Z * packet)) :=
  set_compression (new_ppp (ex_mac 1) (ex_v4 10 0 0 2) 3 (Some (new_fifo 4, ex_v4 10 0 0 1))) pc ac.

Lemma ppp_delivery_witness :
  ∃ wire src w, ppp_transmit_packet (ex_ppp true false) [0x7e; 0x7d; 0x11; 65; 84] = Ok wire ∧
    gen_opponent_mac (ex_mac 1) = Ok src ∧ (true = false → w = []) ∧
    ppp_run true (ex_ppp true true) no_reader ((read_byte <$> wire) ++ []) =
      let* '(s', r', w') :=
        ppp_run true (set_ipv4 (ex_ppp true true) (Some (queue_incoming_packet (new_fifo 4) 3
                                  (Packet src src (ex_mac 1) [0x7e; 0x7d; 0x11; 65; 84] [] false), ex_v4 10 0 0 1)))
          no_reader [] in
      Ok (s', r', w ++ w').
Proof.
  apply (ppp_delivery true (ex_ppp true false) (ex_ppp true true) no_reader (new_fifo 4) (ex_v4 10 0 0 1));
    try done; [apply initial_ACCM_ok|solve_bytes|split; [split_and!; [done|solve_bytes|done]|done]].
Defined.

(** ** The loop over options *)

(** the options behind offset [o] are read until the end or until one that does not
    fit, and none of them has length 0 *)
Inductive no_zero_option (data : list Z) : Z → Prop :=
  | nz_end o : zlen data - 2 ≤ o → no_zero_option data o
  | nz_stop o len : vec_at data (o + 1) = Ok len → zlen data - o < len → no_zero_option data o
  | nz_next o len : vec_at data (o + 1) = Ok len → 0 < len → no_zero_option data (o + len) → no_zero_option data o.

Lemma ends_vec_at v i : ends (vec_at v i).
Proof. unfold vec_at. solve_ends. Qed.
#[export] Hint Resolve ends_vec_at : ends.

Lemma options_loop_ends {A} fuel data (step : A → Z → Z → Z → res A) o acc :
  (∀ acc t l o, ends (step acc t l o)) → no_zero_option data o → Z.max 0 (zlen data - o) < Z.of_nat fuel →
  ends (options_loop fuel data step o acc).
Proof.
  intros Hstep Hz. revert fuel acc.
  induction Hz as [o Ho|o len Hlen Hs|o len Hlen Hpos _ IH]; intros [|fuel] acc Hf; try lia; cbn [options_loop];
    destruct (Z.ltb_spec o (zlen data - 2)); try apply ends_Ok; try lia.
  - apply ends_bind; [auto with ends|intros t _]. rewrite Hlen. cbn [res_bind].
    rewrite (proj2 (Z.ltb_lt _ len)) by lia. apply ends_Ok.
  - apply ends_bind; [auto with ends|intros t _]. rewrite Hlen. cbn [res_bind].
    destruct (Z.ltb_spec (zlen data - o) len); [apply ends_Ok|].
    apply ends_bind; [apply Hstep|intros acc' _]. apply IH. lia.
Qed.

(** an option of length 0 in front of the check sequence is read over and over *)
Lemma options_loop_zero {A} fuel data (step : A → Z → Z → Z → res A) o t acc :
  o < zlen data - 2 → vec_at data o = Ok t → vec_at data (o + 1) = Ok 0 →
  (∀ acc, ∃ acc', step acc t 0 o = Ok acc') → options_loop fuel data step o acc = Err out_of_fuel.
Proof.
  intros Ho Ht Hl Hs. revert acc. induction fuel as [|fuel IH]; intros acc; [done|]. cbn [options_loop].
  rewrite (proj2 (Z.ltb_lt o _)) by lia. rewrite Ht, Hl. cbn [res_bind].
  rewrite (proj2 (Z.ltb_ge _ 0)) by lia. destruct (Hs acc) as [acc' ->]. cbn [res_bind].
  rewrite Z.add_0_r. apply IH.
Qed.

(** well-formed options: a type and a body *)
Definition opt_bytes (o : Z * list Z) : list Z := o.1 :: zlen o.2 + 2 :: o.2.
Definition opts_bytes (opts : list (Z * list Z)) : list Z := opts ≫= opt_bytes.
Definition opt_ok (o : Z * list Z) : Prop := byte_ok o.1 ∧ zlen o.2 ≤ 253 ∧ bytes_ok o.2.

Lemma zlen_opt_bytes o : zlen (opt_bytes o) = zlen o.2 + 2.
Proof. unfold opt_bytes. rewrite !zlen_cons. lia. Qed.

Lemma opt_bytes_ok o : opt_ok o → bytes_ok (opt_bytes o).
Proof.
  intros (Ht & Hl & Hb). pose proof (zlen_nonneg o.2). unfold opt_bytes.
  constructor; [done|]. constructor; [unfold byte_ok; lia|done].
Qed.

Lemma opts_bytes_ok opts : Forall opt_ok opts → bytes_ok (opts_bytes opts).
Proof.
  induction 1 as [|o opts Ho _ IH]; [constructor|]. unfold opts_bytes. rewrite bind_cons.
  apply bytes_ok_app; [by apply opt_bytes_ok|done].
Qed.

Section OptionsLoop.
Context {A : Type} (step : A → Z → Z → Z → res A).

(** one option *)
Lemma options_loop_cons fuel data pre o rest acc :
  data = pre ++ opt_bytes o ++ rest → 2 ≤ zlen rest →
  options_loop (S fuel) data step (zlen pre) acc =
    let* acc := step acc o.1 (zlen o.2 + 2) (zlen pre) in
    options_loop fuel data step (zlen (pre ++ opt_bytes o)) acc.
Proof.
  intros Ed Hr. pose proof (zlen_nonneg pre). pose proof (zlen_nonneg o.2). cbn [options_loop].
  assert (zlen data = zlen pre + (zlen o.2 + 2 + zlen rest)) as Hz by (by rewrite Ed, !zlen_app, zlen_opt_bytes).
  rewrite Hz, (proj2 (Z.ltb_lt (zlen pre) _)) by lia. rewrite !vec_at_Ok by lia.
  assert (rd data (zlen pre) = Ok o.1) as -> by (rewrite Ed; by apply rd_mid).
  assert (rd data (zlen pre + 1) = Ok (zlen o.2 + 2)) as ->.
  { rewrite Ed. unfold opt_bytes. cbn [app]. rewrite cons_middle, app_assoc. apply rd_mid. by rewrite zlen_app. }
  cbn [res_bind]. rewrite (proj2 (Z.ltb_ge _ (zlen o.2 + 2))) by lia. by rewrite zlen_app, zlen_opt_bytes.
Qed.

Lemma options_loop_nil fuel data pre tail acc :
  data = pre ++ tail → zlen tail = 2 → options_loop (S fuel) data step (zlen pre) acc = Ok acc.
Proof.
  intros -> Ht. cbn [options_loop]. rewrite zlen_app, Ht. by rewrite (proj2 (Z.ltb_ge (zlen pre) _)) by lia.
Qed.
End OptionsLoop.

(** ** Negotiation ends *)

Lemma ends_ppp_escape_all ACCM m l : ends (ppp_escape_all ACCM m l).
Proof. induction l as [|b l IH]; cbn [ppp_escape_all]; unfold ppp_escape; solve_ends. Qed.
#[export] Hint Resolve ends_ppp_escape_all : ends.

Section PppEnds.
Context {Q : Type} `{!BoundedQueue (Z * packet) Q}.
Implicit Types s : ppp Q.

Lemma ends_transmit_low s p pr m : ends (transmit_low s p pr m).
Proof. unfold transmit_low, wrap_in_ppp_frame. solve_ends. Qed.
Lemma ends_send_Xcp s c i p d : ends (send_Xcp s c i p d).
Proof. apply ends_transmit_low. Qed.
Lemma ends_cp_header d : ends (cp_header d).
Proof. unfold cp_header. solve_ends. Qed.
#[local] Hint Resolve ends_transmit_low ends_send_Xcp ends_cp_header : ends.

Lemma ends_accm_loop n i s data o : ends (accm_loop n i s data o).
Proof. revert i s. induction n as [|n IH]; intros i s; cbn [accm_loop]; unfold vec_at_set; solve_ends. Qed.
#[local] Hint Resolve ends_accm_loop : ends.

Lemma ends_options {A} data (step : A → Z → Z → Z → res A) acc :
  (∀ acc t l o, ends (step acc t l o)) → no_zero_option data 8 → ends (options_loop (options_fuel data) data step 8 acc).
Proof. intros Hs Hz. apply options_loop_ends; [done|done|]. unfold options_fuel, zlen. lia. Qed.

(** The handlers of LCP, IPCP, IPV6CP and CCP return for every packet in which no
    option has length 0, whatever else it holds; an option of length 0 before the
    check sequence, of a type whose handling does not fail, makes the loop run
    for ever. *)
Theorem ppp_negotiation_ends s data :
  (no_zero_option data 8 →
   ends (handle_lcp s data) ∧ ends (handle_ipcp s data) ∧ ends (handle_ipv6cp s data) ∧ ends (handle_ccp s data)) ∧
  (∀ fuel o t rej, 0 ≤ o < zlen data - 2 → vec_at data o = Ok t → vec_at data (o + 1) = Ok 0 →
   options_loop fuel data (ccp_option data) o rej = Err out_of_fuel).
Proof.
  split.
  - intros Hz. split_and!.
    + unfold handle_lcp, send_rej, send_ack, lcp_request. apply ends_bind; [auto with ends|].
      intros [[code id] len] _. destruct (_ <? _); [done|]. destruct (code =? 1); [|solve_ends].
      apply ends_bind; [|intros [[s' ack] rej] _; solve_ends].
      apply ends_options; [|done]. intros [[x1 x2] x3] t ln o. unfold lcp_option, option_bytes. solve_ends.
    + unfold handle_ipcp. apply ends_bind; [auto with ends|].
      intros [[code id] len] _. destruct (_ <? _); [done|]. destruct (code =? 1); [|destruct (code =? 2); [done|destruct (code =? 4); [|done]]].
      * apply ends_bind.
        { apply ends_options; [|done]. intros [[x1 x2] x3] t ln o. unfold ipcp_option, option_bytes. solve_ends. }
        intros acc _. unfold ipcp_answer, ipcp_request, address_option, send_nak, send_rej, send_ack. solve_ends.
      * apply ends_bind; [|intros _ _; done]. by apply ends_options.
    + unfold handle_ipv6cp, send_rej, send_ack. apply ends_bind; [auto with ends|].
      intros [[code id] len] _. destruct (_ <? _); [done|]. destruct (code =? 1); [|solve_ends].
      apply ends_bind; [|intros rej _; solve_ends]. apply ends_options; [|done].
      intros x1 t ln o. unfold ipv6cp_option, option_bytes. solve_ends.
    + unfold handle_ccp, send_rej, send_ack. apply ends_bind; [auto with ends|].
      intros [[code id] len] _. destruct (_ <? _); [done|]. destruct (code =? 1); [|solve_ends].
      apply ends_bind; [|intros rej _; solve_ends]. apply ends_options; [|done].
      intros x1 t ln o. unfold ccp_option, option_bytes. solve_ends.
  - intros fuel o t rej Ho Ht Hl. apply (options_loop_zero fuel data (ccp_option data) o t); [lia|done|done|].
    intros acc. unfold ccp_option, option_bytes. rewrite rd_range_Ok by lia. by eexists.
Qed.
End PppEnds.

(** ** LCP: the answer to a configure request *)

Definition lcp_supported (o : Z * list Z) : Prop := o.1 = 1 ∨ o.1 = 2 ∨ o.1 = 5 ∨ o.1 = 7 ∨ o.1 = 8.
#[global] Instance lcp_supported_dec o : Decision (lcp_supported o).
Proof. unfold lcp_supported. apply _. Defined.

(** well-formed, and the map of characters has its four bytes *)
Definition lcp_opt_ok (o : Z * list Z) : Prop := opt_ok o ∧ (o.1 = 2 → zlen o.2 = 4).

Lemma ACCM_ok_insert a i b : ACCM_ok a → 0 ≤ i < 11 → byte_ok b → ∃ a', vec_at_set a i b = Ok a' ∧ ACCM_ok a'.
Proof.
  intros (Hl & Hb & H5) Hi Hbk. unfold vec_at_set, zlen. rewrite Hl.
  rewrite (proj2 (Z.ltb_ge i 0)), (proj2 (Z.leb_gt _ i)) by lia. cbn [orb]. eexists. split; [done|].
  split_and!; [by rewrite length_insert| |].
  - apply Forall_insert; [done|apply u8_ok].
  - rewrite nth_lookup, list_lookup_insert_ne by lia. by rewrite <- nth_lookup.
Qed.

Section Lcp.
Context {Q : Type} `{!BoundedQueue (Z * packet) Q}.
Implicit Types s : ppp Q.

(** the loop of the ACCM option reads six bytes: the four of the map and two more *)
Lemma accm_loop_ok n i s data o :
  bytes_ok data → ACCM_ok (ACCM_tx s) → ACCM_ok (ACCM_rx s) → 0 ≤ i → 0 ≤ o → i + Z.of_nat n ≤ 11 →
  o + i + Z.of_nat n ≤ zlen data →
  ∃ tx rx, accm_loop n i s data o = Ok (set_ACCM s tx rx) ∧ ACCM_ok tx ∧ ACCM_ok rx.
Proof.
  intros Hd. revert i s. induction n as [|n IH]; intros i s Ht Hr Hi Ho Hn Hl; cbn [accm_loop].
  { exists (ACCM_tx s), (ACCM_rx s). split_and!; [|done|done]. by destruct s. }
  rewrite vec_at_Ok by lia. destruct (rd_in_range data (o + i)) as [b Eb]; [lia|]. rewrite Eb. cbn [res_bind].
  pose proof (rd_byte_ok _ _ _ Hd Eb) as Hb.
  destruct (ACCM_ok_insert _ i b Ht) as (tx & -> & Htx); [lia|done|]. cbn [res_bind].
  destruct (ACCM_ok_insert _ i b Hr) as (rx & -> & Hrx); [lia|done|]. cbn [res_bind].
  destruct (IH (i + 1) (set_ACCM s tx rx) Htx Hrx) as (tx' & rx' & -> & H1 & H2); [lia..|].
  exists tx', rx'. split_and!; [|done|done]. done.
Qed.

Definition has_type (t : Z) (opts : list (Z * list Z)) : bool := existsb (λ o, o.1 =? t) opts.

(** what the options of a request did to the state *)
Definition lcp_state s (s' : ppp Q) (opts : list (Z * list Z)) : Prop :=
  protocol_compression s' = protocol_compression s || has_type 7 opts ∧
  ac_field_compression s' = ac_field_compression s || has_type 8 opts ∧
  lcp_options_acked s' = lcp_options_acked s ∧ ipcp_options_acked s' = ipcp_options_acked s ∧
  ipv6cp_options_acked s' = ipv6cp_options_acked s ∧ magic s' = magic s ∧ pp_ipv4 s' = pp_ipv4 s ∧
  ACCM_ok (ACCM_tx s') ∧ ACCM_ok (ACCM_rx s').

Lemma lcp_option_step pre o rest s ack rej :
  lcp_opt_ok o → bytes_ok pre → bytes_ok rest → 2 ≤ zlen rest → ACCM_ok (ACCM_tx s) → ACCM_ok (ACCM_rx s) →
  ∃ s', lcp_option (pre ++ opt_bytes o ++ rest) (s, ack, rej) o.1 (zlen o.2 + 2) (zlen pre) =
      Ok (s', if decide (lcp_supported o) then ack ++ opt_bytes o else ack,
          if decide (lcp_supported o) then rej else rej ++ opt_bytes o) ∧
    lcp_state s s' [o].
Proof.
  intros [Ho H2] Hp Hr Hl Ht Hx. unfold lcp_option, option_bytes.
  rewrite rd_range_mid by (done || by rewrite zlen_opt_bytes). cbn [res_bind].
  assert (∀ s', lcp_state s s' [o] ↔
    protocol_compression s' = protocol_compression s || (o.1 =? 7) ∧
    ac_field_compression s' = ac_field_compression s || (o.1 =? 8) ∧
    lcp_options_acked s' = lcp_options_acked s ∧ ipcp_options_acked s' = ipcp_options_acked s ∧
    ipv6cp_options_acked s' = ipv6cp_options_acked s ∧ magic s' = magic s ∧ pp_ipv4 s' = pp_ipv4 s ∧
    ACCM_ok (ACCM_tx s') ∧ ACCM_ok (ACCM_rx s')) as Hst.
  { intros s'. unfold lcp_state, has_type. cbn [existsb]. by rewrite !orb_false_r. }
  destruct (Z.eqb_spec o.1 1) as [E|N1].
  { rewrite !decide_True by (by left). exists s. split; [done|]. apply Hst. rewrite E. cbn. by rewrite !orb_false_r. }
  destruct (Z.eqb_spec o.1 2) as [E|N2].
  { rewrite !decide_True by (by right; left). rewrite (H2 E).
    assert (bytes_ok (pre ++ opt_bytes o ++ rest)) as Hd by (pose proof (opt_bytes_ok o Ho); auto with myip).
    pose proof (zlen_nonneg pre).
    destruct (accm_loop_ok (Z.to_nat (4 + 2)) 0 s _ (zlen pre + 2) Hd Ht Hx) as (tx & rx & -> & Htx & Hrx);
      [lia|lia|lia|rewrite !zlen_app, zlen_opt_bytes, (H2 E); lia|]. cbn [res_bind].
    exists (set_ACCM s tx rx). split; [done|]. apply Hst. rewrite E. cbn. by rewrite !orb_false_r. }
  destruct (Z.eqb_spec o.1 5) as [E|N5].
  { rewrite !decide_True by (by do 2 right; left). exists s. split; [done|]. apply Hst. rewrite E. cbn. by rewrite !orb_false_r. }
  destruct (Z.eqb_spec o.1 7) as [E|N7].
  { rewrite !decide_True by (by do 3 right; left). eexists. split; [done|]. apply Hst. rewrite E. cbn. by rewrite !orb_false_r, orb_true_r. }
  destruct (Z.eqb_spec o.1 8) as [E|N8].
  { rewrite !decide_True by (by do 4 right). eexists. split; [done|]. apply Hst. cbn. by rewrite !orb_false_r, orb_true_r. }
  rewrite !decide_False by (unfold lcp_supported; tauto). exists s. split; [done|]. apply Hst.
  by rewrite !orb_false_r.
Qed.

Lemma lcp_state_trans s s1 s2 o opts : lcp_state s s1 [o] → lcp_state s1 s2 opts → lcp_state s s2 (o :: opts).
Proof.
  intros (P1 & A1 & L1 & I1 & V1 & M1 & Q1 & _ & _) (P2 & A2 & L2 & I2 & V2 & M2 & Q2 & T2 & R2).
  unfold lcp_state, has_type in *. cbn [existsb] in *. rewrite !orb_false_r in *.
  split_and!; [rewrite P2, P1; by rewrite orb_assoc|rewrite A2, A1; by rewrite orb_assoc|congruence..|done|done].
Qed.

Lemma lcp_options_all fuel data pre opts tail s ack rej :
  data = pre ++ opts_bytes opts ++ tail → Forall lcp_opt_ok opts → bytes_ok pre → bytes_ok tail → zlen tail = 2 →
  ACCM_ok (ACCM_tx s) → ACCM_ok (ACCM_rx s) → (length opts < fuel)%nat →
  ∃ s', options_loop fuel data (lcp_option data) (zlen pre) (s, ack, rej) =
      Ok (s', ack ++ opts_bytes (filter lcp_supported opts), rej ++ opts_bytes (filter (λ o, ¬ lcp_supported o) opts)) ∧
    lcp_state s s' opts.
Proof.
  intros Ed Hopts. revert fuel pre s ack rej Ed.
  induction Hopts as [|o opts Ho Hopts IH]; intros [|fuel] pre s ack rej Ed Hp Ht Hl Htx Hrx Hf;
    cbn [length] in Hf; try lia.
  { rewrite (options_loop_nil _ fuel data pre tail) by done. exists s.
    unfold opts_bytes. cbn. rewrite !app_nil_r. split; [done|]. unfold lcp_state, has_type. cbn. by rewrite !orb_false_r. }
  unfold opts_bytes in Ed. rewrite bind_cons, <- app_assoc in Ed. fold (opts_bytes opts) in Ed.
  pose proof (opt_bytes_ok o (proj1 Ho)) as Hob.
  assert (Forall opt_ok opts) as Hok by (eapply Forall_impl; [exact Hopts|by intros ? [? _]]).
  assert (2 ≤ zlen (opts_bytes opts ++ tail)) as H2 by (rewrite zlen_app; pose proof (zlen_nonneg (opts_bytes opts)); lia).
  rewrite (options_loop_cons _ fuel data pre o (opts_bytes opts ++ tail)) by done.
  destruct (lcp_option_step pre o (opts_bytes opts ++ tail) s ack rej) as (s1 & E1 & S1);
    [done|done|apply bytes_ok_app; [by apply opts_bytes_ok|done]|done|done|done|].
  rewrite <- Ed in E1. rewrite E1. cbn [res_bind]. pose proof S1 as (_ & _ & _ & _ & _ & _ & _ & T1 & R1).
  destruct (IH fuel (pre ++ opt_bytes o) s1 (if decide (lcp_supported o) then ack ++ opt_bytes o else ack)
              (if decide (lcp_supported o) then rej else rej ++ opt_bytes o)) as (s' & -> & S');
    [by rewrite <- app_assoc|auto with myip|done|done|done|done|lia|].
  exists s'. split; [|by eapply lcp_state_trans]. unfold opts_bytes.
  destruct (decide (lcp_supported o)) as [Hs|Hs].
  - rewrite filter_cons_True, filter_cons_False by (done || naive_solver). by rewrite bind_cons, <- app_assoc.
  - rewrite filter_cons_False, filter_cons_True by done. by rewrite bind_cons, <- app_assoc.
Qed.

(** a frame of the negotiation can always be sent *)
Lemma transmit_low_total s payload protocol m :
  ACCM_ok (ACCM_tx s) → bytes_ok payload → ∃ w, transmit_low s payload protocol m = Ok w.
Proof.
  intros Ha Hp. destruct (wrap_unwrap s payload protocol (ACCM_tx s) m Ha Hp) as (e & E & _). eexists. exact E.
Qed.

(** the data of a packet of a control protocol, as it is handled *)
Definition cp_packet (p1 p2 code identifier : Z) (content : list Z) (f1 f2 : Z) : list Z :=
  [0xff; 0x03; p1; p2; code; identifier] ++ be16 (4 + zlen content) ++ content ++ [f1; f2].

Lemma cp_header_packet p1 p2 code identifier content f1 f2 :
  4 + zlen content < 65536 →
  cp_header (cp_packet p1 p2 code identifier content f1 f2) = Ok (code, identifier, 4 + zlen content) ∧
  (zlen (cp_packet p1 p2 code identifier content f1 f2) <? 4 + (4 + zlen content)) = false.
Proof.
  intros Hl. pose proof (zlen_nonneg content).
  assert (zlen (cp_packet p1 p2 code identifier content f1 f2) = 10 + zlen content) as Hz.
  { unfold cp_packet. rewrite !zlen_app. unfold zlen. cbn [length be16]. lia. }
  split; [|rewrite Hz; apply Z.ltb_ge; lia].
  unfold cp_header. rewrite !vec_at_nth by lia. cbn [res_bind].
  change (nth (Z.to_nat 4) (cp_packet _ _ _ _ _ _ _) 0) with code.
  change (nth (Z.to_nat 5) (cp_packet _ _ _ _ _ _ _) 0) with identifier.
  change (nth (Z.to_nat 6) (cp_packet _ _ _ _ _ _ _) 0) with (u8 (Z.shiftr (4 + zlen content) 8)).
  change (nth (Z.to_nat 7) (cp_packet _ _ _ _ _ _ _) 0) with (u8 (4 + zlen content)).
  by rewrite join16_be16 by lia.
Qed.

(** the reply to a request with acceptable options [ack] and others [rej] *)
Definition lcp_reply s (identifier : Z) (ack rej : list Z) : res (list (list Z)) :=
  if decide (rej = []) then
    if decide (ack = []) then Ok [] else res_map (λ w, [w]) (send_ack s 0xc021 identifier ack)
  else res_map (λ w, [w]) (send_rej s 0xc021 identifier rej).

Lemma length_opts_bytes opts : (length opts ≤ length (opts_bytes opts))%nat.
Proof.
  induction opts as [|o opts IH]; [done|]. unfold opts_bytes. rewrite bind_cons, length_app. fold (opts_bytes opts).
  unfold opt_bytes. cbn [length]. lia.
Qed.

Lemma opts_bytes_filter_ok P `{∀ o : Z * list Z, Decision (P o)} opts :
  Forall opt_ok opts → bytes_ok (opts_bytes (filter P opts)).
Proof.
  intros Ho. apply opts_bytes_ok. rewrite Forall_forall in *. intros o [_ Hin]%list_elem_of_filter. by apply Ho.
Qed.

Lemma send_Xcp_total s code identifier protocol data :
  ACCM_ok (ACCM_tx s) → byte_ok code → byte_ok identifier → bytes_ok data →
  ∃ w, send_Xcp s code identifier protocol data = Ok w.
Proof.
  intros Ha Hc Hi Hd. apply transmit_low_total; [done|]. constructor; [done|]. constructor; [done|].
  constructor; [apply u8_ok|]. constructor; [apply land_255|done].
Qed.

(** The answer to an LCP configure request: a request with well-formed options
    is answered by a reject of exactly the options that are not known, in order,
    when there are any, and otherwise by an acknowledgement of all of them; the own
    request follows.  Compression of the protocol and of the address and control
    fields is on afterwards exactly when the request asked for it, and the map of
    characters to escape stays one that cannot produce a flag. *)
Theorem lcp_request_answered s identifier opts f1 f2 :
  Forall lcp_opt_ok opts → 4 + zlen (opts_bytes opts) < 65536 →
  byte_ok identifier → byte_ok f1 → byte_ok f2 → ACCM_ok (ACCM_tx s) → ACCM_ok (ACCM_rx s) →
  let ack := opts_bytes (filter lcp_supported opts) in
  let rej := opts_bytes (filter (λ o, ¬ lcp_supported o) opts) in
  ∃ s' reply request,
    handle_lcp s (cp_packet 0xc0 0x21 0x01 identifier (opts_bytes opts) f1 f2) = Ok (s', reply ++ request) ∧
    lcp_reply s' identifier ack rej = Ok reply ∧ lcp_request s' = Ok request ∧ length request = 1%nat ∧
    protocol_compression s' = has_type 7 opts ∧ ac_field_compression s' = has_type 8 opts ∧
    lcp_options_acked s' = false ∧ ACCM_ok (ACCM_tx s') ∧ ACCM_ok (ACCM_rx s').
Proof.
  intros Hopts Hlen Hid Hf1 Hf2 Ht Hr ack rej.
  assert (Forall opt_ok opts) as Hok by (eapply Forall_impl; [exact Hopts|by intros ? [? _]]).
  unfold handle_lcp. destruct (cp_header_packet 0xc0 0x21 0x01 identifier (opts_bytes opts) f1 f2 Hlen) as [-> Hz].
  cbn [res_bind]. rewrite Hz. change (1 =? 1) with true. cbn iota. clear Hz.
  set (s0 := set_lcp_acked (set_compression s false false) false).
  set (pre := [0xff; 0x03; 0xc0; 0x21; 0x01; identifier] ++ be16 (4 + zlen (opts_bytes opts))).
  destruct (lcp_options_all (options_fuel (cp_packet 0xc0 0x21 0x01 identifier (opts_bytes opts) f1 f2))
              (cp_packet 0xc0 0x21 0x01 identifier (opts_bytes opts) f1 f2) pre opts [f1; f2] s0 [] []) as (s' & E & S');
    [done|done| |solve_bytes|done|done|done| |].
  { apply (bytes_ok_app [0xff; 0x03; 0xc0; 0x21; 0x01; identifier]); [solve_bytes|apply bytes_ok_be16]. }
  { unfold options_fuel, cp_packet. rewrite !length_app. pose proof (length_opts_bytes opts). lia. }
  change (zlen pre) with 8 in E. rewrite E. cbn [app res_bind]. fold ack rej.
  destruct S' as (P' & A' & L' & _ & _ & M' & _ & T' & R').
  assert (∃ request, lcp_request s' = Ok request ∧ length request = 1%nat) as (request & Er & Hn).
  { unfold lcp_request. rewrite L'. cbn [s0 lcp_options_acked set_lcp_acked].
    rewrite !vec_at_nth by (unfold zlen; rewrite (proj1 R'); lia). cbn [res_bind].
    assert (∀ n, byte_ok (nth n (ACCM_rx s') 0)) as Hb.
    { intros n. destruct (nth_lookup_or_length (ACCM_rx s') n 0) as [El|El].
      - destruct R' as (_ & Hb & _). unfold bytes_ok in Hb. rewrite Forall_lookup in Hb. by eapply Hb.
      - rewrite nth_overflow by done. done. }
    edestruct (transmit_low_total s' ([1; 1; 0; 20] ++ [2; 6; nth (Z.to_nat 0) (ACCM_rx s') 0; nth (Z.to_nat 1) (ACCM_rx s') 0;
       nth (Z.to_nat 2) (ACCM_rx s') 0; nth (Z.to_nat 3) (ACCM_rx s') 0] ++ [5; 6] ++ magic_bytes s' ++ [7; 2] ++ [8; 2])
       0xC021 false T') as [w ->]; [|by eexists].
    unfold magic_bytes. repeat (apply bytes_ok_app); try apply bytes_ok_be32; repeat constructor; apply Hb || (unfold byte_ok; lia). }
  assert (∃ reply, lcp_reply s' identifier ack rej = Ok reply) as [reply Ey].
  { unfold lcp_reply, send_ack, send_rej. destruct (decide (rej = [])); [destruct (decide (ack = [])); [by eexists|]|].
    - destruct (send_Xcp_total s' 2 identifier 0xc021 ack) as [w ->]; [done|done|done|by apply opts_bytes_filter_ok|by eexists].
    - destruct (send_Xcp_total s' 4 identifier 0xc021 rej) as [w ->]; [done|done|done|by apply opts_bytes_filter_ok|by eexists]. }
  exists s', reply, request. rewrite Er. split_and!; try done.
  replace (if negb (bool_decide (rej = [])) then _ else _) with (lcp_reply s' identifier ack rej).
  - by rewrite Ey.
  - unfold lcp_reply. repeat case_bool_decide; rewrite ?decide_True, ?decide_False by done; cbn [negb]; try done;
      unfold res_map; by destruct (send_Xcp s' _ identifier 49185 _).
Qed.

(** ** IPCP: the address of the peer *)

Lemma address_option_good a : good a → af a = ipv4 → address_option a = Ok (opt_bytes (3, (key a).2)) ∧ get_len a = 4.
Proof.
  intros Hg Hf. pose proof (length_key a Hg) as Hl. rewrite Hf in Hl. change (Z.to_nat (family_size ipv4)) with 4%nat in Hl.
  destruct (good_size a Hg) as [Hs _]. rewrite Hf in Hs. split; [|exact Hs].
  unfold address_option.
  destruct (at_good a 0 Hg) as (b0 & -> & K0); [rewrite Hf; simpl; lia|]. cbn [res_bind].
  destruct (at_good a 1 Hg) as (b1 & -> & K1); [rewrite Hf; simpl; lia|]. cbn [res_bind].
  destruct (at_good a 2 Hg) as (b2 & -> & K2); [rewrite Hf; simpl; lia|]. cbn [res_bind].
  destruct (at_good a 3 Hg) as (b3 & -> & K3); [rewrite Hf; simpl; lia|]. cbn [res_bind].
  destruct (key a).2 as [|c0 [|c1 [|c2 [|c3 [|]]]]]; try discriminate Hl. by simplify_eq/=.
Qed.

Lemma ipcp_request_total s :
  ACCM_ok (ACCM_tx s) → (∀ q a, pp_ipv4 s = Some (q, a) → good a ∧ af a = ipv4) → ∃ request, ipcp_request s = Ok request.
Proof.
  intros Ha Hi. unfold ipcp_request. destruct (ipcp_options_acked s); [by eexists|].
  destruct (pp_ipv4 s) as [[q a]|]; [|by eexists]. destruct (Hi q a eq_refl) as [Hg Hf].
  destruct (address_option_good a Hg Hf) as [-> ->]. cbn [Z.eqb Pos.eqb assert_ res_bind].
  edestruct (transmit_low_total s ([1; 1; 0; 10] ++ opt_bytes (3, (key a).2)) 0x8021 false Ha) as [w ->]; [|by eexists].
  apply bytes_ok_app; [solve_bytes|]. apply opt_bytes_ok. split_and!; [done| |by apply key_bytes_ok].
  cbn [snd]. unfold zlen. rewrite (length_key a Hg), Hf. simpl. lia.
Qed.

(** the loop over the options of a request with just an address *)
Lemma ipcp_address_loop s identifier bytes f1 f2 :
  good (opponent_address s) → af (opponent_address s) = ipv4 → length bytes = 4%nat → bytes_ok bytes → byte_ok f1 → byte_ok f2 →
  let data := cp_packet 0x80 0x21 0x01 identifier (opt_bytes (3, bytes)) f1 f2 in
  options_loop (options_fuel data) data (ipcp_option s data) 8 ([], [], false) =
    Ok (if decide (bytes = (key (opponent_address s)).2) then (opt_bytes (3, bytes), [], false) else ([], [], true)).
Proof.
  intros Ho Hf Hl Hb Hf1 Hf2 data. set (offer := (key (opponent_address s)).2).
  assert (zlen (opt_bytes (3, bytes)) = 6) as Hz by (rewrite zlen_opt_bytes; cbn [snd]; unfold zlen; lia).
  set (pre := [0xff; 0x03; 0x80; 0x21; 0x01; identifier] ++ be16 (4 + zlen (opt_bytes (3, bytes)))).
  assert (data = pre ++ opt_bytes (3, bytes) ++ [f1; f2]) as Ed by done.
  assert (zlen pre = 8) as Hpre by done.
  assert (bytes_ok (bytes ++ [f1; f2])) as Hbf by (apply bytes_ok_app; [done|solve_bytes]).
  destruct (mk_addr_spec ipv4 (bytes ++ [f1; f2])) as (theirs & Et & Gt & Kt); [done| |].
  { rewrite zlen_app. unfold zlen. rewrite Hl. simpl. lia. }
  change (Z.to_nat (family_size ipv4)) with 4%nat in Kt. rewrite <- Hl, take_app_length in Kt.
  assert (ipcp_option s data ([], [], false) 3 6 8 =
          Ok (if decide (bytes = offer) then (opt_bytes (3, bytes), [], false) else ([], [], true))) as Estep.
  { unfold ipcp_option, option_bytes. change (3 =? 3) with true. cbn iota.
    assert (ptr_at data (8 + 2) = bytes ++ [f1; f2]) as ->.
    { rewrite Ed. change (pre ++ opt_bytes (3, bytes) ++ [f1; f2]) with ((pre ++ [3; zlen bytes + 2]) ++ bytes ++ [f1; f2]).
      by apply ptr_at_app. }
    rewrite Et. cbn [res_bind]. rewrite same_addr_is_eqb by done. cbn [res_bind]. unfold same_addr. rewrite Kt.
    assert (key (opponent_address s) = (ipv4, offer)) as -> by (unfold offer; rewrite <- Hf; done).
    destruct (decide (bytes = offer)) as [->|N].
    - rewrite bool_decide_eq_true_2 by done. rewrite Ed. rewrite rd_range_mid by done. done.
    - rewrite bool_decide_eq_false_2 by congruence. done. }
  unfold options_fuel. rewrite <- Hpre. rewrite (options_loop_cons _ _ data pre (3, bytes) [f1; f2]) by done.
  cbn [fst snd]. replace (zlen bytes + 2) with 6 by (unfold zlen; lia). rewrite Hpre, Estep. cbn [res_bind].
  destruct (length data) as [|n] eqn:El; [rewrite Ed in El; discriminate El|].
  apply (options_loop_nil _ n data (pre ++ opt_bytes (3, bytes)) [f1; f2]); [by rewrite <- app_assoc|done].
Qed.

(** The peer gets the address it is configured to have: an IPCP request for any
    other address is answered by a NAK that proposes the configured address, and a
    request for that address (which is what the peer asks for then) by an
    acknowledgement of it; the own request follows as long as it was not
    acknowledged. *)
Theorem ipcp_assigns_address s identifier bytes f1 f2 :
  good (opponent_address s) → af (opponent_address s) = ipv4 → length bytes = 4%nat → bytes_ok bytes →
  byte_ok identifier → byte_ok f1 → byte_ok f2 → ACCM_ok (ACCM_tx s) →
  (∀ q a, pp_ipv4 s = Some (q, a) → good a ∧ af a = ipv4) →
  let offer := (key (opponent_address s)).2 in
  ∃ reply request,
    handle_ipcp s (cp_packet 0x80 0x21 0x01 identifier (opt_bytes (3, bytes)) f1 f2) = Ok (s, [reply] ++ request) ∧
    (if decide (bytes = offer) then send_ack s 0x8021 identifier (opt_bytes (3, offer))
     else send_nak s 0x8021 identifier (opt_bytes (3, offer))) = Ok reply ∧
    ipcp_request s = Ok request.
Proof.
  intros Ho Hf Hl Hb Hid Hf1 Hf2 Ha Hi offer.
  destruct (ipcp_request_total s Ha Hi) as [request Er].
  destruct (address_option_good _ Ho Hf) as [Eo Len].
  assert (zlen (opt_bytes (3, bytes)) = 6) as Hz by (rewrite zlen_opt_bytes; cbn [snd]; unfold zlen; lia).
  pose proof (ipcp_address_loop s identifier bytes f1 f2 Ho Hf Hl Hb Hf1 Hf2) as Eloop. cbv zeta in Eloop. fold offer in Eloop.
  set (data := cp_packet 0x80 0x21 0x01 identifier (opt_bytes (3, bytes)) f1 f2) in *.
  unfold handle_ipcp. destruct (cp_header_packet 0x80 0x21 0x01 identifier (opt_bytes (3, bytes)) f1 f2) as [Eh Hlt];
    [rewrite Hz; lia|]. fold data in Eh, Hlt. rewrite Eh. cbn [res_bind]. rewrite Hlt. change (1 =? 1) with true. cbn iota.
  rewrite Eloop. cbn [res_bind].
  assert (opt_ok (3, offer)) as Hok.
  { split_and!; [done| |by apply key_bytes_ok]. cbn [snd]. unfold offer, zlen. rewrite (length_key _ Ho), Hf. simpl. lia. }
  unfold ipcp_answer, send_ack, send_nak. destruct (decide (bytes = offer)) as [E|N].
  - rewrite E. rewrite bool_decide_eq_true_2, bool_decide_eq_false_2 by done. cbn [negb].
    destruct (send_Xcp_total s 2 identifier 0x8021 (opt_bytes (3, offer))) as [w Ew]; [done|done|done|by apply opt_bytes_ok|].
    unfold send_ack. rewrite Ew. cbn [res_bind]. exists w, request. rewrite Er. done.
  - rewrite Len, Eo. cbn [Z.eqb Pos.eqb assert_ res_bind]. fold offer.
    destruct (send_Xcp_total s 3 identifier 0x8021 (opt_bytes (3, offer))) as [w Ew]; [done|done|done|by apply opt_bytes_ok|].
    unfold send_nak. rewrite Ew. cbn [res_bind]. exists w, request. rewrite Er. done.
Qed.
End Lcp.

Definition ex_options : list (Z * list Z) := [(2, [0; 0; 0; 0]); (7, []); (99, [1])].

Lemma lcp_request_answered_witness :
  ∃ s' reply request,
    handle_lcp (ex_ppp false true) (cp_packet 0xc0 0x21 0x01 5 (opts_bytes ex_options) 0 0) = Ok (s', reply ++ request) ∧
    lcp_reply s' 5 [2; 6; 0; 0; 0; 0; 7; 2] [99; 3; 1] = Ok reply ∧ lcp_request s' = Ok request ∧ length request = 1%nat ∧
    protocol_compression s' = true ∧ ac_field_compression s' = false ∧
    lcp_options_acked s' = false ∧ ACCM_ok (ACCM_tx s') ∧ ACCM_ok (ACCM_rx s').
Proof.
  apply (lcp_request_answered (ex_ppp false true) 5 ex_options 0 0); try done; try apply initial_ACCM_ok.
  repeat (apply Forall_cons_2; [split; [split_and!; [done|done|solve_bytes]|done]|]). apply Forall_nil_2.
Defined.

Lemma ipcp_assigns_address_witness :
  ∃ reply request,
    handle_ipcp (ex_ppp false false) (cp_packet 0x80 0x21 0x01 7 (opt_bytes (3, [0; 0; 0; 0])) 0 0) =
      Ok (ex_ppp false false, [reply] ++ request) ∧
    (if decide ([0; 0; 0; 0] = [10; 0; 0; 2]) then send_ack (ex_ppp false false) 0x8021 7 (opt_bytes (3, [10; 0; 0; 2]))
     else send_nak (ex_ppp false false) 0x8021 7 (opt_bytes (3, [10; 0; 0; 2]))) = Ok reply ∧
    ipcp_request (ex_ppp false false) = Ok request.
Proof.
  apply (ipcp_assigns_address (ex_ppp false false) 7 [0; 0; 0; 0] 0 0); try done; try apply initial_ACCM_ok; try solve_bytes.
  - split; [split_and!; [done|solve_bytes|done]|done].
  - intros q a [= <- <-]. split; [split; [split_and!; [done|solve_bytes|done]|done]|done].
Defined.

(** ** Faults *)

(** the abort sequence of RFC 1662, an escape in front of a flag, makes the reader
    throw *)
Lemma abort_sequence_throws em (s : ppp (fifo (Z * packet))) :
  ppp_run em s no_reader (read_byte <$> [0x7e; 0xff; 0x7d; 0x7e]) = Err out_of_range.
Proof. destruct em; reflexivity. Qed.

(** the check sequence is not looked at *)
Lemma bad_fcs_accepted :
  ∃ s', process_incoming_packet (ex_ppp false false) [0xff; 0x03; 0x00; 0x21; 69; 0; 0] = Ok (s', []) ∧
    s' ≠ ex_ppp false false.
Proof. eexists. split; [vm_compute; reflexivity|]. intros E. apply (f_equal pp_ipv4) in E. vm_compute in E. discriminate E. Qed.

(** "ATDT" gets the answer to "AT", so a modem never connects; and what a PPP frame
    holds is taken for commands *)
Lemma modem_never_connects modem buffer :
  find str_AT modem = None → modem_byte modem buffer ≠ ([], [str_CONNECT]).
Proof.
  intros Hn. unfold modem_byte. destruct (_ || _); [|done].
  destruct (bool_decide_reflect (is_Some (find str_ATDT (modem ++ [buffer])))) as [[n H]|]; [|by repeat case_bool_decide].
  exfalso. apply find_Some in H as E. pose proof (find_bound _ _ _ H) as Hb. cbn [length str_ATDT] in *.
  rewrite length_app in Hb. cbn [length] in Hb.
  assert (is_prefix str_AT (drop n modem) = true) as Hp.
  { assert (drop n (modem ++ [buffer]) = str_ATDT ++ drop (n + 4) (modem ++ [buffer])) as Ed.
    { rewrite E at 1. rewrite drop_app_length' by (rewrite length_take, length_app; simpl; lia). done. }
    rewrite drop_app_le in Ed by lia.
    destruct (drop n modem) as [|x [|y l]] eqn:El;
      [apply (f_equal length) in El; rewrite length_drop in El; simpl in El; lia
      |apply (f_equal length) in El; rewrite length_drop in El; simpl in El; lia|].
    cbn [app str_ATDT] in Ed. injection Ed as -> -> _. reflexivity. }
  assert (∀ l k, is_prefix str_AT (drop k l) = true → find str_AT l ≠ None) as Hf.
  { clear. induction l as [|x l IH]; intros k Hk; [by destruct k|]. cbn [find].
    destruct (is_prefix str_AT (x :: l)) eqn:E; [done|]. destruct k as [|k]; [rewrite drop_0 in Hk; congruence|].
    specialize (IH k Hk). by destruct (find str_AT l). }
  by apply (Hf modem n Hp).
Qed.

Lemma ppp_negotiation_ends_witness :
  ends (handle_ccp (ex_ppp false false) (cp_packet 0x80 0xfd 1 9 [18; 6; 0; 0; 0; 1] 0 0)) ∧
  options_loop 1000 (cp_packet 0x80 0xfd 1 9 [18; 0] 0 0) (ccp_option (cp_packet 0x80 0xfd 1 9 [18; 0] 0 0)) 8 [] =
    Err out_of_fuel.
Proof.
  split.
  - apply (proj1 (ppp_negotiation_ends (ex_ppp false false) (cp_packet 0x80 0xfd 1 9 [18; 6; 0; 0; 0; 1] 0 0))).
    apply (nz_next _ 8 6); [reflexivity|lia|]. apply nz_end. vm_compute. discriminate.
  - apply (proj2 (ppp_negotiation_ends (ex_ppp false false) (cp_packet 0x80 0xfd 1 9 [18; 0] 0 0)) 1000%nat 8 18 []);
      [vm_compute; split; [discriminate|reflexivity]|reflexivity|reflexivity].
Defined.
