(* ===== verification/SnmpElem.v ===== *)
(** * SNMP elements (src/snmp_elem.cpp, src/snmp_elem.h)

    The elements of an SNMP message and their encoding with BER.  Sizes are
    [uint8_t]s and wrap around; a sequence is built in a buffer of 256 bytes.
    Memory that was allocated and not yet written is zero in the model.

    Shown: the encoding of an element whose parts fit is its type, its length and
    its content; the text of an object identifier survives encoding and the
    decoding of the agent (in Snmp.v); sizes that do not fit are stated. *)
From S2P Require Import Prelude Str AnyAddr Ax25.

Inductive snmp_integer_type := si_counter32 | si_integer | si_counter64 | si_ticks.

#[global] Instance snmp_integer_type_eq_dec : EqDecision snmp_integer_type.
Proof. solve_decision. Defined.

#[local] Unset Elimination Schemes.

(** an element; [len] is the size with type and length *)
Inductive snmp_elem :=
  | snmp_integer (type : snmp_integer_type) (v len : Z)
  | snmp_sequence (sequence : list snmp_elem)
  | snmp_null
  | snmp_octet_string (v : list Z) (len : Z)
  | snmp_oid (v : list Z) (len : Z)
  | snmp_pdu (type : Z) (sequence : list snmp_elem).

#[local] Set Elimination Schemes.

Section Induction.
Context (P : snmp_elem → Prop).
Context (Hint : ∀ t v len, P (snmp_integer t v len)) (Hseq : ∀ l, Forall P l → P (snmp_sequence l)) (Hnull : P snmp_null).
Context (Hstr : ∀ v len, P (snmp_octet_string v len)) (Hoid : ∀ v len, P (snmp_oid v len)).
Context (Hpdu : ∀ t l, Forall P l → P (snmp_pdu t l)).

(** induction over an element and its parts *)
Fixpoint snmp_elem_ind (e : snmp_elem) : P e :=
  let fix go l : Forall P l :=
    match l with [] => Forall_nil_2 P | x :: l' => Forall_cons_2 P x l' (snmp_elem_ind x) (go l') end in
  match e with
  | snmp_integer t v len => Hint t v len
  | snmp_sequence l => Hseq l (go l)
  | snmp_null => Hnull
  | snmp_octet_string v len => Hstr v len
  | snmp_oid v len => Hoid v len
  | snmp_pdu t l => Hpdu t l (go l)
  end.
End Induction.

(** ** Constructors *)

Definition new_snmp_integer_len (type : snmp_integer_type) (v len : Z) : snmp_elem := snmp_integer type v (u8 (len + 2)).

Definition new_snmp_integer (type : snmp_integer_type) (v : Z) : snmp_elem :=
  if v <=? 0xffffffff then snmp_integer type v (4 + 2) else snmp_integer type v (8 + 2).

Definition new_snmp_octet_string (v : list Z) (len : Z) : res snmp_elem :=
  let* bytes := rd_range v 0 len in
  Ok (snmp_octet_string bytes (u8 (len + 2))).

(** [snmp_sequence::add] *)
Definition sequence_add (s e : snmp_elem) : snmp_elem :=
  match s with
  | snmp_sequence l => snmp_sequence (l ++ [e])
  | snmp_pdu t l => snmp_pdu t (l ++ [e])
  | _ => s
  end.

(** [temp] for a number: groups of seven bits, the lowest first; it has room for ten *)
Fixpoint oid_groups (room : nat) (v : Z) : res (list Z) :=
  if v =? 0 then Ok []
  else
    match room with
    | O => Err bad_access
    | S room' =>
        let* rest := oid_groups room' (Z.shiftr v 7) in
        Ok (Z.land v 127 :: rest)
    end.

Definition oid_temp (v : Z) : res (list Z) := if v =? 0 then Ok [0] else oid_groups 10 v.

(** what is put for [temp]: the highest group first, a bit set in all but the last *)
Definition oid_number (temp : list Z) : list Z :=
  match temp with
  | [] => []
  | lo :: his => rev (Z.lor 128 <$> his) ++ [lo]
  end.

(** [*p++ = ...] in an allocation of [size] bytes *)
Definition put_bytes (size : Z) (v bytes : list Z) : res (list Z) :=
  if size <? zlen v + zlen bytes then Err bad_access else Ok (v ++ bytes).

(** the loop over the parts of the text; [atoll] stops at a dot *)
Fixpoint oid_loop (fuel : nat) (size : Z) (v : list Z) (work : str) : res (list Z) :=
  match fuel with
  | O => Err out_of_fuel
  | S fuel' =>
      if bool_decide (work = []) then Ok v
      else
        let* temp := oid_temp (u64 (strtol work 10)) in
        let* v := put_bytes size v (oid_number temp) in
        match find [dot] work with
        | None => Ok v
        | Some d => oid_loop fuel' size v (drop (S d) work)
        end
  end.

(** "1.3." *)
Definition str_1_3_dot : str := [49; 46; 51; 46].

Definition new_snmp_oid (oid : str) : res snmp_elem :=
  let new_size := zlen oid in
  let* v :=
    (if bool_decide (take 4 oid = str_1_3_dot) then
       let* v := put_bytes new_size [] [43] in
       oid_loop (S (length oid)) new_size v (drop 4 oid)
     else oid_loop (S (length oid)) new_size [] oid) in
  Ok (snmp_oid v (u8 (zlen v + 2))).

(** ** Encoding *)

Definition integer_tag (type : snmp_integer_type) : Z :=
  match type with si_integer => 0x02 | si_counter32 => 0x41 | si_counter64 => 0x46 | si_ticks => 0x43 end.

(** the loop over the bytes of an integer, the [n] last ones to go *)
Fixpoint put_integer (n : nat) (i pl_len v : Z) (out : list Z) : res (list Z) :=
  match n with
  | O => Ok out
  | S n' =>
      let* out := wr out (i + 2) (Z.shiftr v (pl_len * 8 - (i + 1) * 8)) in
      put_integer n' (i + 1) pl_len v out
  end.

(** the content of an octet string or object identifier, behind type and length *)
Definition string_payload (tag : Z) (v : list Z) (len : Z) : res (list Z * Z) :=
  let pl_len := u8 (len - 2) in
  let out := replicate (Z.to_nat len) 0 in
  let* bytes := rd_range v 0 pl_len in
  let* out := wr_range out 2 bytes in
  let* out := wr out 0 tag in
  let* out := wr out 1 pl_len in
  Ok (out, len).

(** [get_payload]: the memory and the size that is returned *)
Fixpoint get_payload (e : snmp_elem) : res (list Z * Z) :=
  let fix sequence_payload (l : list snmp_elem) (out : list Z) (o : Z) : res (list Z * Z) :=
    match l with
    | [] => Ok (out, o)
    | e :: l' =>
        let* '(pl, n) := get_payload e in
        if 256 <? o + n then Ok (out, o)
        else
          let* bytes := rd_range pl 0 n in
          let* out := wr_range out o bytes in
          sequence_payload l' out (u8 (o + n))
    end in
  let finish (tag : Z) (l : list snmp_elem) :=
    let* out := wr (replicate 256 0) 0 0x30 in
    let* '(out, o) := sequence_payload l out 2 in
    let* out := wr out 1 (o - 2) in
    let* out := wr out 0 tag in
    Ok (out, o) in
  match e with
  | snmp_integer type v len =>
      let pl_len := u8 (len - 2) in
      let out := replicate (Z.to_nat len) 0 in
      let* out := wr out 0 (integer_tag type) in
      let* out := wr out 1 pl_len in
      let* out := put_integer (Z.to_nat pl_len) 0 pl_len v out in
      Ok (out, len)
  | snmp_null => Ok ([0x05; 0x00], 2)
  | snmp_octet_string v len => string_payload 0x04 v len
  | snmp_oid v len => string_payload 0x06 v len
  | snmp_sequence l => finish 0x30 l
  | snmp_pdu type l => finish type l
  end.

(** [get_size] *)
Definition get_size (e : snmp_elem) : res Z :=
  match e with
  | snmp_integer _ _ len | snmp_octet_string _ len | snmp_oid _ len => Ok len
  | snmp_null => Ok 0
  | snmp_sequence _ | snmp_pdu _ _ => let* '(_, n) := get_payload e in Ok n
  end.

(** ** The encoding, when everything fits *)

(** the same loop on its own *)
Fixpoint sequence_payload (l : list snmp_elem) (out : list Z) (o : Z) : res (list Z * Z) :=
  match l with
  | [] => Ok (out, o)
  | e :: l' =>
      let* '(pl, n) := get_payload e in
      if 256 <? o + n then Ok (out, o)
      else
        let* bytes := rd_range pl 0 n in
        let* out := wr_range out o bytes in
        sequence_payload l' out (u8 (o + n))
  end.

Definition finish_payload (tag : Z) (l : list snmp_elem) : res (list Z * Z) :=
  let* out := wr (replicate 256 0) 0 0x30 in
  let* '(out, o) := sequence_payload l out 2 in
  let* out := wr out 1 (o - 2) in
  let* out := wr out 0 tag in
  Ok (out, o).

Lemma get_payload_sequence l : get_payload (snmp_sequence l) = finish_payload 0x30 l.
Proof. reflexivity. Qed.
Lemma get_payload_pdu t l : get_payload (snmp_pdu t l) = finish_payload t l.
Proof. reflexivity. Qed.

(** type, length, content *)
Definition tlv (tag : Z) (content : list Z) : list Z := tag :: zlen content :: content.

(** [n] bytes of a number, the highest first *)
Fixpoint be_bytes (n : nat) (v : Z) : list Z :=
  match n with O => [] | S n' => u8 (Z.shiftr v (8 * Z.of_nat n')) :: be_bytes n' v end.

Fixpoint ber (e : snmp_elem) : list Z :=
  match e with
  | snmp_integer type v len => tlv (integer_tag type) (be_bytes (Z.to_nat (len - 2)) v)
  | snmp_null => tlv 0x05 []
  | snmp_octet_string v _ => tlv 0x04 v
  | snmp_oid v _ => tlv 0x06 v
  | snmp_sequence l => tlv 0x30 (l ≫= ber)
  | snmp_pdu t l => tlv t (l ≫= ber)
  end.

(** the sizes of an element and of its parts fit in a byte *)
Fixpoint fits (e : snmp_elem) : Prop :=
  match e with
  | snmp_integer _ v len => 2 ≤ len ≤ 255 ∧ 0 ≤ v
  | snmp_null => True
  | snmp_octet_string v len | snmp_oid v len => len = zlen v + 2 ∧ len ≤ 255
  | snmp_sequence l => foldr (λ e P, fits e ∧ P) True l ∧ zlen (l ≫= ber) ≤ 253
  | snmp_pdu t l => byte_ok t ∧ foldr (λ e P, fits e ∧ P) True l ∧ zlen (l ≫= ber) ≤ 253
  end.

Lemma fits_Forall l : foldr (λ e P, fits e ∧ P) True l ↔ Forall fits l.
Proof. induction l as [|e l IH]; cbn [foldr]; [by rewrite Forall_nil|]. by rewrite Forall_cons, IH. Qed.

Lemma length_be_bytes n v : length (be_bytes n v) = n.
Proof. induction n as [|n IH]; simpl; congruence. Qed.

Lemma put_integer_spec n i pl_len v a :
  0 ≤ i → pl_len = i + Z.of_nat n → zlen a = i + 2 →
  put_integer n i pl_len v (a ++ replicate n 0) = Ok (a ++ be_bytes n v).
Proof.
  revert i a. induction n as [|n IH]; intros i a Hi Hp Ha; cbn [put_integer be_bytes replicate]; [done|].
  change (a ++ 0 :: replicate n 0) with (a ++ replicate (S n) 0). rewrite put_byte_app by (lia || done). cbn [res_bind].
  replace (S n - 1)%nat with n by lia.
  rewrite IH by (rewrite ?zlen_app; unfold zlen in *; simpl; lia). rewrite <- app_assoc. cbn [app].
  by replace (pl_len * 8 - (i + 1) * 8) with (8 * Z.of_nat n) by lia.
Qed.

Lemma string_payload_spec tag v len :
  byte_ok tag → len = zlen v + 2 → len ≤ 255 → string_payload tag v len = Ok (tlv tag v, len).
Proof.
  intros Ht -> Hl. pose proof (zlen_nonneg v). unfold string_payload.
  replace (u8 (zlen v + 2 - 2)) with (zlen v) by (unfold u8; rewrite Z.mod_small; lia).
  assert (rd_range v 0 (zlen v) = Ok v) as ->.
  { rewrite rd_range_Ok by lia. unfold zlen. rewrite Nat2Z.id. by rewrite drop_0, firstn_all. }
  cbn [res_bind].
  replace (Z.to_nat (zlen v + 2)) with (2 + length v)%nat by (unfold zlen; lia).
  change (replicate (2 + length v) 0) with ([0; 0] ++ replicate (length v) 0).
  rewrite put_app by done. cbn [res_bind]. rewrite Nat.sub_diag, app_nil_r.
  rewrite wr_Ok by (rewrite zlen_app; unfold zlen; simpl; lia). cbn [res_bind].
  rewrite wr_Ok by (unfold zlen; simpl; lia). cbn [res_bind].
  rewrite !u8_id by (unfold byte_ok in *; lia). done.
Qed.

Lemma zlen_be_bytes n v : zlen (be_bytes n v) = Z.of_nat n.
Proof. unfold zlen. by rewrite length_be_bytes. Qed.

Lemma integer_payload_spec type v len :
  2 ≤ len ≤ 255 → get_payload (snmp_integer type v len) = Ok (ber (snmp_integer type v len), len).
Proof.
  intros Hl. cbn [get_payload ber]. replace (u8 (len - 2)) with (len - 2) by (unfold u8; rewrite Z.mod_small; lia).
  replace (Z.to_nat len) with (2 + Z.to_nat (len - 2))%nat by lia.
  rewrite wr_Ok by (unfold zlen; rewrite length_replicate; lia). cbn [res_bind].
  rewrite wr_Ok by (unfold zlen; rewrite length_insert, length_replicate; lia). cbn [res_bind].
  change (<[Z.to_nat 1:=u8 (len - 2)]> (<[Z.to_nat 0:=u8 (integer_tag type)]> (replicate (2 + Z.to_nat (len - 2)) 0)))
    with ([u8 (integer_tag type); u8 (len - 2)] ++ replicate (Z.to_nat (len - 2)) 0).
  rewrite put_integer_spec by (done || lia). cbn [res_bind]. unfold tlv. rewrite zlen_be_bytes, Z2Nat.id by lia.
  rewrite !u8_id by (unfold byte_ok; destruct type; simpl; lia). done.
Qed.

(** an element of which every part fits *)
Definition encodes (e : snmp_elem) : Prop :=
  ∃ out, get_payload e = Ok (out, zlen (ber e)) ∧ rd_range out 0 (zlen (ber e)) = Ok (ber e).

Lemma sequence_payload_spec l a k :
  Forall encodes l → zlen a + zlen (l ≫= ber) ≤ 255 → (length (l ≫= ber) ≤ k)%nat → zlen a + Z.of_nat k = 256 →
  ∃ k', sequence_payload l (a ++ replicate k 0) (zlen a) =
    Ok ((a ++ (l ≫= ber)) ++ replicate k' 0, zlen (a ++ (l ≫= ber))) ∧ zlen (a ++ (l ≫= ber)) + Z.of_nat k' = 256.
Proof.
  intros Hl. revert a k. induction Hl as [|e l He _ IH]; intros a k Hz Hk Hs.
  { exists k. cbn [sequence_payload]. change (@nil snmp_elem ≫= ber) with (@nil Z). rewrite app_nil_r. done. }
  rewrite bind_cons in *. rewrite zlen_app in Hz. rewrite length_app in Hk. destruct He as (out & E & R).
  pose proof (zlen_nonneg a). pose proof (zlen_nonneg (l ≫= ber)). pose proof (zlen_nonneg (ber e)).
  cbn [sequence_payload]. rewrite E. cbn [res_bind]. rewrite (proj2 (Z.ltb_ge 256 _)) by lia. rewrite R. cbn [res_bind].
  rewrite put_app by (done || (unfold zlen in *; lia)). cbn [res_bind].
  replace (u8 (zlen a + zlen (ber e))) with (zlen (a ++ ber e)) by (rewrite zlen_app; unfold u8; rewrite Z.mod_small; lia).
  destruct (IH (a ++ ber e) (k - length (ber e))%nat) as (k' & E' & S'); [rewrite ?zlen_app; unfold zlen in *; lia..|].
  exists k'. rewrite E'. rewrite <- !(app_assoc a) in *. done.
Qed.

Lemma finish_payload_spec tag l :
  byte_ok tag → Forall encodes l → zlen (l ≫= ber) ≤ 253 →
  ∃ out, finish_payload tag l = Ok (out, zlen (tlv tag (l ≫= ber))) ∧
    rd_range out 0 (zlen (tlv tag (l ≫= ber))) = Ok (tlv tag (l ≫= ber)).
Proof.
  intros Ht Hl Hz. unfold finish_payload. rewrite wr_Ok by (unfold zlen; rewrite length_replicate; lia). cbn [res_bind].
  change (<[Z.to_nat 0:=u8 48]> (replicate 256 0)) with ([48; 0] ++ replicate 254 0). pose proof (zlen_nonneg (l ≫= ber)).
  destruct (sequence_payload_spec l [48; 0] 254 Hl) as (k' & E & S); [unfold zlen in *; simpl; lia..|].
  change (zlen [48; 0]) with 2 in E. rewrite E. cbn [res_bind].
  assert (zlen ([48; 0] ++ (l ≫= ber)) = zlen (l ≫= ber) + 2) as L by (rewrite zlen_app; unfold zlen; simpl; lia).
  rewrite L in *. rewrite wr_Ok by (rewrite zlen_app, L; unfold zlen in *; rewrite length_replicate; lia). cbn [res_bind].
  rewrite wr_Ok by (unfold zlen; rewrite length_insert; unfold zlen in *; simpl; lia). cbn [res_bind].
  assert (zlen (tlv tag (l ≫= ber)) = zlen (l ≫= ber) + 2) as L2 by (unfold tlv; rewrite !zlen_cons; lia).
  rewrite L2. eexists. split; [done|]. cbn [app].
  replace (u8 (zlen (l ≫= ber) + 2 - 2)) with (zlen (l ≫= ber)) by (unfold u8; rewrite Z.mod_small; lia).
  rewrite u8_id by done. change (Z.to_nat 1) with 1%nat. change (Z.to_nat 0) with 0%nat. cbn [insert list_insert].
  change (tag :: zlen (l ≫= ber) :: (l ≫= ber) ++ replicate k' 0) with (tlv tag (l ≫= ber) ++ replicate k' 0).
  by apply rd_range_app.
Qed.

Lemma rd_range_all l : rd_range l 0 (zlen l) = Ok l.
Proof. rewrite <- (app_nil_r l) at 1. by apply rd_range_app. Qed.

(** an element that fits is encoded as its type, length and content, and the size
    returned is the size of this *)
Lemma get_payload_ber e : fits e → encodes e.
Proof.
  assert (∀ l, Forall (λ e, fits e → encodes e) l → foldr (λ e P, fits e ∧ P) True l → Forall encodes l) as Hall.
  { intros l Hl Hf. rewrite fits_Forall in Hf. rewrite Forall_forall in *. auto. }
  induction e using snmp_elem_ind; intros Hf; cbn [fits] in Hf.
  - exists (ber (snmp_integer t v len)). rewrite integer_payload_spec by lia.
    assert (zlen (ber (snmp_integer t v len)) = len) as Hz.
    { cbn [ber]. unfold tlv. rewrite !zlen_cons, zlen_be_bytes. lia. }
    split; [by rewrite Hz|apply rd_range_all].
  - destruct Hf as [Hf Hz]. apply (finish_payload_spec 0x30 l); [done|by apply Hall|done].
  - exists [5; 0]. split; reflexivity.
  - destruct Hf as (Hlen & Hl). exists (tlv 4 v). cbn [get_payload ber].
    rewrite string_payload_spec by done. replace len with (zlen (tlv 4 v)) by (unfold tlv; rewrite !zlen_cons; lia).
    split; [done|]. apply rd_range_all.
  - destruct Hf as (Hlen & Hl). exists (tlv 6 v). cbn [get_payload ber].
    rewrite string_payload_spec by done. replace len with (zlen (tlv 6 v)) by (unfold tlv; rewrite !zlen_cons; lia).
    split; [done|]. apply rd_range_all.
  - destruct Hf as (Ht & Hf & Hz). apply (finish_payload_spec t l); [done|by apply Hall|done].
Qed.

(** a community string of 254 bytes: the size wraps to 0, and the string is copied
    into an allocation of no bytes *)
Lemma long_octet_string_overrun v : length v = 254%nat → get_payload (snmp_octet_string v (u8 (zlen v + 2))) = Err bad_access.
Proof.
  intros Hv. cbn [get_payload]. unfold string_payload. unfold zlen. rewrite Hv.
  change (u8 (Z.of_nat 254 + 2)) with 0. change (u8 (0 - 2)) with 254.
  rewrite rd_range_Ok by (unfold zlen; lia). cbn [res_bind]. set (bytes := take _ _). unfold wr_range.
  change (zlen (replicate (Z.to_nat 0) 0)) with 0. pose proof (zlen_nonneg bytes).
  by rewrite (proj2 (Z.ltb_ge 2 0)), (proj2 (Z.ltb_lt 0 _)) by lia.
Qed.

(** a sequence of exactly 256 bytes: the size returned is 0 *)
Lemma sequence_256_is_lost :
  res_map snd (get_payload (snmp_sequence [snmp_octet_string (replicate 250 0) 252; snmp_null])) = Ok 0.
Proof. vm_compute. reflexivity. Qed.

(** ** Object identifiers *)

(** a number that can be printed with [%d] and is read back *)
Definition id_ok (c : Z) : Prop := 0 ≤ c < 2147483648.

Definition oid_text (ids : list Z) : str := join [dot] (fmt_dec <$> ids).

(** the groups of a number *)
Fixpoint groups (n : nat) (v : Z) : list Z :=
  match n with O => [] | S n' => if v =? 0 then [] else v mod 128 :: groups n' (v / 128) end.

Lemma oid_groups_spec n v : 0 ≤ v < 128 ^ Z.of_nat n → oid_groups n v = Ok (groups n v).
Proof.
  revert v. induction n as [|n IH]; intros v Hv; cbn [oid_groups groups].
  { simpl in Hv. by replace v with 0 by lia. }
  destruct (Z.eqb_spec v 0) as [->|N]; [done|].
  rewrite Nat2Z.inj_succ, Z.pow_succ_r in Hv by lia.
  rewrite Z.shiftr_div_pow2 by lia. change (2 ^ 7) with 128.
  rewrite IH by (split; [apply Z.div_pos; lia|apply Z.div_lt_upper_bound; lia]). cbn [res_bind].
  change 127 with (Z.ones 7). by rewrite Z.land_ones by lia.
Qed.

Lemma groups_pow n v : 0 < v → (1 ≤ length (groups n v))%nat → 128 ^ (zlen (groups n v) - 1) ≤ v.
Proof.
  revert v. induction n as [|n IH]; intros v Hv Hl; cbn [groups] in *; [simpl in Hl; lia|].
  rewrite (proj2 (Z.eqb_neq v 0)) in * by lia. rewrite zlen_cons.
  destruct (decide (length (groups n (v / 128)) = 0%nat)) as [E|E].
  { unfold zlen. rewrite E. simpl. lia. }
  assert (0 < v / 128) as Hd.
  { destruct (decide (v / 128 = 0)) as [Z0|]; [|pose proof (Z.div_pos v 128 ltac:(lia)); lia].
    rewrite Z0 in E. destruct n; done. }
  specialize (IH (v / 128) Hd ltac:(lia)). replace (zlen (groups n (v / 128)) + 1 - 1) with (Z.succ (zlen (groups n (v / 128)) - 1)) by lia.
  rewrite Z.pow_succ_r by (unfold zlen; lia). pose proof (Z.mul_div_le v 128 ltac:(lia)). lia.
Qed.

Lemma digits_pow fuel base n acc :
  2 ≤ base → 0 ≤ n < base ^ Z.of_nat fuel → n < base ^ (zlen (digits_loop fuel base n acc) - zlen acc).
Proof.
  intros Hb. revert n acc. induction fuel as [|fuel IH]; intros n acc Hn; cbn [digits_loop].
  { rewrite Z.sub_diag. exact (proj2 Hn). }
  rewrite Nat2Z.inj_succ, Z.pow_succ_r in Hn by lia.
  pose proof (Z.div_mod n base ltac:(lia)) as E. pose proof (Z.mod_pos_bound n base ltac:(lia)) as B.
  destruct (Z.eqb_spec (n / base) 0) as [Z0|N].
  { rewrite zlen_cons. replace (zlen acc + 1 - zlen acc) with 1 by lia. rewrite Z.pow_1_r. lia. }
  assert (0 ≤ n / base < base ^ Z.of_nat fuel) as Hd by (split; [apply Z.div_pos; lia|apply Z.div_lt_upper_bound; lia]).
  specialize (IH (n / base) (digit_char (n mod base) :: acc) Hd). rewrite zlen_cons in IH.
  set (l := zlen (digits_loop fuel base (n / base) (digit_char (n mod base) :: acc))) in *.
  assert (0 ≤ l - (zlen acc + 1)) as Hl.
  { destruct (Z.le_gt_cases 0 (l - (zlen acc + 1))) as [|Hneg]; [done|].
    rewrite (Z.pow_neg_r base) in IH by lia. lia. }
  replace (l - zlen acc) with (Z.succ (l - (zlen acc + 1))) by lia. rewrite Z.pow_succ_r by lia. nia.
Qed.

(** a number takes no more bytes than digits *)
Lemma groups_digits v : 0 < v < 128 ^ 10 → (length (groups 10 v) ≤ length (fmt_dec v))%nat.
Proof.
  intros Hv. assert (v < 10 ^ zlen (fmt_dec v)) as Hd.
  { pose proof (digits_pow 32 10 v [] ltac:(lia)) as H. change (zlen (@nil Z)) with 0 in H. rewrite Z.sub_0_r in H.
    apply H. split; [lia|]. eapply Z.lt_le_trans; [apply Hv|]. vm_compute. discriminate. }
  destruct (decide (length (groups 10 v) ≤ length (fmt_dec v))%nat) as [|N]; [done|]. exfalso.
  pose proof (groups_pow 10 v ltac:(lia) ltac:(lia)) as Hg.
  assert (10 ^ zlen (fmt_dec v) ≤ 128 ^ (zlen (groups 10 v) - 1)) as Hp; [|lia].
  etrans; [apply (Z.pow_le_mono_l 10 128); lia|]. apply Z.pow_le_mono_r; unfold zlen in *; lia.
Qed.

(** the bytes of one number *)
Definition id_bytes (c : Z) : list Z := oid_number (if c =? 0 then [0] else groups 10 c).

Lemma length_id_bytes c : id_ok c → (1 ≤ length (id_bytes c) ≤ length (fmt_dec c))%nat.
Proof.
  intros Hc. unfold id_ok in Hc. unfold id_bytes.
  destruct (Z.eqb_spec c 0) as [->|N]; [vm_compute; lia|].
  pose proof (groups_digits c) as Hg. destruct (groups 10 c) as [|lo his] eqn:E.
  { cbn [groups] in E. by rewrite (proj2 (Z.eqb_neq c 0)) in E. }
  unfold oid_number. rewrite length_app, length_rev, length_fmap. cbn [length] in *.
  assert (128 ^ 10 = 1180591620717411303424) as P by reflexivity. lia.
Qed.

(** [atoll] stops at the dot behind a number *)
Lemma strtol_digits_dot s rest acc :
  Forall (is_digit 10) s → strtol_digits (s ++ dot :: rest) 10 acc = strtol_digits s 10 acc.
Proof.
  intros Hs. revert acc. induction Hs as [|c s (d & Hd & ->) _ IH]; intros acc; [reflexivity|].
  cbn [app strtol_digits]. destruct (digit_char_spec d) as [-> _]; [lia|].
  rewrite (proj2 (Z.ltb_lt d 10)) by lia. apply IH.
Qed.

Lemma strtol_10 s : (∀ c s', s = c :: s' → isspace c = false ∧ (c =? 45) = false ∧ (c =? 43) = false) →
  strtol s 10 = Z.max (-9223372036854775808) (Z.min (strtol_digits s 10 0) 9223372036854775807).
Proof.
  intros H. unfold strtol. destruct s as [|c s]; [reflexivity|]. destruct (H c s eq_refl) as (E1 & E2 & E3).
  cbn [skip_isspace]. rewrite E1, E2, E3. destruct s as [|x [|d s]]; reflexivity.
Qed.

Lemma strtol_id c rest : id_ok c → strtol (fmt_dec c ++ rest) 10 = c ∨ (∀ r, rest ≠ dot :: r) ∧ rest ≠ [].
Proof.
  intros Hc. unfold id_ok in Hc. destruct (digits_loop_shape 10 ltac:(lia) 32 c [] ltac:(lia) ltac:(constructor)) as [HF Hne].
  specialize (Hne ltac:(done)). fold (fmt_dec c) in HF, Hne.
  assert (strtol_digits (fmt_dec c) 10 0 = c) as Hd.
  { unfold fmt_dec. rewrite (strtol_digits_loop 10 ltac:(lia) 32 c []); [done|]. split; [lia|].
    eapply Z.lt_le_trans; [apply Hc|]. vm_compute. discriminate. }
  assert (∀ r, (r = [] ∨ ∃ r', r = dot :: r') → strtol (fmt_dec c ++ r) 10 = c) as Hall.
  { intros r Hr. rewrite strtol_10.
    - assert (strtol_digits (fmt_dec c ++ r) 10 0 = c) as ->; [|lia].
      destruct Hr as [->|[r' ->]]; [by rewrite app_nil_r|]. by rewrite strtol_digits_dot.
    - intros x s' E. destruct (fmt_dec c) as [|y l]; [done|]. injection E as -> _.
      apply Forall_inv in HF as (d & Hd' & ->). destruct (digit_char_spec d) as (_ & ? & ? & ? & _); [lia|]. done. }
  destruct rest as [|x r]; [left; apply Hall; by left|]. destruct (decide (x = dot)) as [->|N].
  - left. apply Hall. right. by eexists.
  - right. split; [|done]. intros r' [= -> _]. done.
Qed.

Lemma fmt_dec_field c : id_ok c → (dot ∉ fmt_dec c) ∧ fmt_dec c ≠ [].
Proof.
  intros Hc. unfold id_ok in Hc.
  destruct (digits_field_ok 10 ltac:(lia) dot 9 c) as (_ & H1 & H2 & _); [by left| |lia|lia|done].
  split; [lia|]. eapply Z.lt_le_trans; [apply Hc|]. vm_compute. discriminate.
Qed.

Lemma oid_loop_spec ids fuel size v :
  Forall id_ok ids → zlen v + zlen (oid_text ids) ≤ size → (length (oid_text ids) < fuel)%nat →
  oid_loop fuel size v (oid_text ids) = Ok (v ++ (ids ≫= id_bytes)).
Proof.
  intros Hids. revert fuel v. induction Hids as [|c ids Hc Hids IH]; intros fuel v Hs Hf.
  { destruct fuel as [|fuel]; [simpl in Hf; lia|]. cbn. by rewrite app_nil_r. }
  destruct fuel as [|fuel]; [lia|]. destruct (fmt_dec_field c Hc) as [Hdot Hne].
  pose proof (length_id_bytes c Hc) as Hlen.
  assert (oid_temp (u64 c) = Ok (if c =? 0 then [0] else groups 10 c)) as Et.
  { unfold id_ok in Hc. replace (u64 c) with c by (unfold u64; rewrite Z.mod_small; lia). unfold oid_temp.
    destruct (Z.eqb_spec c 0); [done|]. apply oid_groups_spec. split; [lia|]. eapply Z.lt_le_trans; [apply Hc|]. vm_compute. discriminate. }
  assert (∃ rest, oid_text (c :: ids) = fmt_dec c ++ rest ∧
    (ids = [] ∧ rest = [] ∨ ids ≠ [] ∧ rest = dot :: oid_text ids)) as (rest & Ew & Hrest).
  { unfold oid_text. destruct ids as [|c2 ids]; [exists []; cbn; rewrite app_nil_r; auto|].
    exists (dot :: join [dot] (fmt_dec <$> c2 :: ids)). split; [|by right]. by rewrite fmap_cons, join_cons. }
  rewrite Ew in *. cbn [oid_loop]. rewrite bool_decide_eq_false_2 by (by destruct (fmt_dec c)).
  assert (strtol (fmt_dec c ++ rest) 10 = c) as ->.
  { destruct (strtol_id c rest Hc) as [|[H1 H2]]; [done|]. destruct Hrest as [[_ ->]|[_ ->]]; [done|by destruct (H1 (oid_text ids))]. }
  rewrite Et. cbn [res_bind]. fold (id_bytes c). unfold put_bytes.
  rewrite zlen_app in Hs. rewrite length_app in Hf. pose proof (zlen_nonneg rest).
  rewrite (proj2 (Z.ltb_ge size _)) by (unfold zlen in *; lia). cbn [res_bind]. rewrite bind_cons.
  destruct Hrest as [[-> ->]|[Hids' ->]].
  - rewrite app_nil_r, find_char_None by done. change (@nil Z ≫= id_bytes) with (@nil Z). by rewrite app_nil_r.
  - rewrite find_char_app by done.
    replace (drop (S (length (fmt_dec c))) (fmt_dec c ++ dot :: oid_text ids)) with (oid_text ids)
      by (rewrite cons_middle, app_assoc; symmetry; apply drop_app_length'; rewrite length_app; simpl; lia).
    rewrite IH; [by rewrite <- app_assoc|rewrite zlen_app; rewrite zlen_cons in Hs; unfold zlen in *; lia|simpl in Hf; lia].
Qed.

(** the object identifiers of the Internet: 1.3 and numbers *)
Lemma new_snmp_oid_spec ids :
  Forall id_ok ids → ids ≠ [] →
  new_snmp_oid (oid_text (1 :: 3 :: ids)) = Ok (snmp_oid (43 :: (ids ≫= id_bytes)) (u8 (zlen (43 :: (ids ≫= id_bytes)) + 2))).
Proof.
  intros Hids Hne. unfold new_snmp_oid.
  assert (oid_text (1 :: 3 :: ids) = str_1_3_dot ++ oid_text ids) as E.
  { destruct ids as [|c ids]; [done|]. unfold oid_text. rewrite !fmap_cons. rewrite (join_cons _ (fmt_dec 1)), join_cons by done. done. }
  rewrite E. rewrite take_app_length' by done. rewrite bool_decide_eq_true_2 by done.
  pose proof (zlen_nonneg (oid_text ids)). unfold put_bytes at 1.
  rewrite (proj2 (Z.ltb_ge _ _)) by (rewrite zlen_app; unfold zlen in *; simpl; lia). cbn [res_bind app].
  rewrite drop_app_length' by done.
  rewrite oid_loop_spec; [done|done|rewrite zlen_app; unfold zlen in *; simpl; lia|rewrite length_app; simpl; lia].
Qed.
