(* ===== verification/SnmpData.v ===== *)
(** * The tree of SNMP values (src/snmp_data.cpp, src/snmp_data.h)

    Values are registered under object identifiers in text form, in a tree with a
    node per part of the identifier.  A node is its identifier, the number of its
    last part, what [get_data] of its class returns, and its children.  The
    mutex makes every operation one step.  The value of a counter in shared memory
    and the time are arguments.

    Shown: registering keeps the tree well formed and its levels sorted; the tree is
    a map from identifiers to values; GETNEXT returns the identifier of the next
    leaf, so that a walk visits every leaf once, in order. *)
From stdpp Require Import sorting.
From S2P Require Import Prelude Str AnyAddr Ax25 SnmpElem.
Open Scope Z_scope.

(** the subclasses of [snmp_data_type] *)
Inductive tree_value :=
  | tv_none                                        (* snmp_data_type *)
  | tv_string (content : str)                      (* snmp_data_type_static *)
  | tv_integer (content : Z)
  | tv_stats (type : snmp_integer_type) (counter : Z)   (* snmp_data_type_stats, the address of the counter *)
  | tv_running_since (running_since : Z)
  | tv_oid (oid : str).

#[local] Unset Elimination Schemes.

Inductive snmp_data_type := SnmpNode (nd_oid : str) (nd_oid_idx : Z) (nd_value : tree_value) (nd_data : list snmp_data_type).

#[local] Set Elimination Schemes.

Definition get_oid (n : snmp_data_type) : str := let 'SnmpNode o _ _ _ := n in o.
Definition get_oid_idx (n : snmp_data_type) : Z := let 'SnmpNode _ i _ _ := n in i.
Definition node_value (n : snmp_data_type) : tree_value := let 'SnmpNode _ _ v _ := n in v.
Definition get_children (n : snmp_data_type) : list snmp_data_type := let 'SnmpNode _ _ _ d := n in d.

Fixpoint snmp_data_type_ind (P : snmp_data_type → Prop)
    (H : ∀ o i v d, Forall P d → P (SnmpNode o i v d)) (n : snmp_data_type) : P n :=
  let fix go l : Forall P l :=
    match l with [] => Forall_nil_2 P | x :: l' => Forall_cons_2 P x l' (snmp_data_type_ind P H x) (go l') end in
  match n with SnmpNode o i v d => H o i v d (go d) end.

(** [get_data]; [None] is the null pointer.  [type] of a static integer is not used,
    and an [int] becomes an [uint64_t]. *)
Definition get_data (counters : Z → Z) (now : Z) (v : tree_value) : res (option snmp_elem) :=
  match v with
  | tv_none => Ok None
  | tv_string s => res_map Some (new_snmp_octet_string s (zlen s))
  | tv_integer n => Ok (Some (new_snmp_integer si_integer (u64 n)))
  | tv_stats t c => Ok (Some (new_snmp_integer t (counters c)))
  | tv_running_since t0 => Ok (Some (new_snmp_integer si_ticks (u64 (now - t0))))
  | tv_oid s => res_map Some (new_snmp_oid s)
  end.

(** ** Searching *)

Fixpoint find_oid_in_vector (vec : list snmp_data_type) (oid : str) : option nat :=
  match vec with
  | [] => None
  | n :: vec' => if bool_decide (get_oid n = oid) then Some O else S <$> find_oid_in_vector vec' oid
  end.

(** [if (cur_oid.empty() == false) cur_oid += "."; cur_oid += part;] *)
Definition extend_oid (cur_oid part : str) : str :=
  (if bool_decide (cur_oid = []) then [] else cur_oid ++ [dot]) ++ part.

(** [oid.rfind('.')], what is behind it *)
Fixpoint behind_last_dot (oid : str) : option str :=
  match oid with
  | [] => None
  | c :: oid' =>
      match behind_last_dot oid' with
      | Some s => Some s
      | None => if c =? dot then Some oid' else None
      end
  end.

(** [set_tree_data] of a node that was just made *)
Definition new_node (v : tree_value) (oid : str) (data : list snmp_data_type) : snmp_data_type :=
  SnmpNode oid (match behind_last_dot oid with Some s => s32 (strtol s 10) | None => 0 end) v data.

(** ** Registering *)

(** the loop that looks for the place of a new node *)
Fixpoint insert_node (e : snmp_data_type) (lut : list snmp_data_type) : list snmp_data_type :=
  match lut with
  | [] => [e]
  | n :: lut' => if get_oid_idx e <? get_oid_idx n then e :: lut else n :: insert_node e lut'
  end.

Definition set_children (n : snmp_data_type) (data : list snmp_data_type) : snmp_data_type :=
  let 'SnmpNode o i v _ := n in SnmpNode o i v data.

(** the loop over the parts.  A node that is there keeps its value, also the last
    one. *)
Fixpoint register_parts (parts : list str) (cur_oid : str) (lut : list snmp_data_type) (e : tree_value)
  : list snmp_data_type :=
  match parts with
  | [] => lut
  | part :: parts' =>
      let cur_oid := extend_oid cur_oid part in
      match find_oid_in_vector lut cur_oid with
      | None =>
          let v := if bool_decide (parts' = []) then e else tv_none in
          insert_node (new_node v cur_oid (register_parts parts' cur_oid [] e)) lut
      | Some idx =>
          match lut !! idx with
          | Some n => <[idx := set_children n (register_parts parts' cur_oid (get_children n) e)]> lut
          | None => lut
          end
      end
  end.

Definition register_oid (data : list snmp_data_type) (oid : str) (e : tree_value) : res (list snmp_data_type) :=
  let* parts := split oid [dot] in
  Ok (register_parts parts [] data e).

(** ** [find_by_oid] *)

Fixpoint find_parts (parts : list str) (cur_oid : str) (lut : list snmp_data_type) : option tree_value :=
  match parts with
  | [] => None
  | part :: parts' =>
      let cur_oid := extend_oid cur_oid part in
      match find_oid_in_vector lut cur_oid ≫= (λ idx, lut !! idx) with
      | None => None
      | Some n => if bool_decide (parts' = []) then Some (node_value n) else find_parts parts' cur_oid (get_children n)
      end
  end.

(** the outer option is the [std::optional] *)
Definition find_by_oid (counters : Z → Z) (now : Z) (data : list snmp_data_type) (oid : str)
  : res (option (option snmp_elem)) :=
  let* parts := split oid [dot] in
  match find_parts parts [] data with
  | Some v => res_map Some (get_data counters now v)
  | None => Ok None
  end.

(** ** [find_next_oid] *)

(** [branch], its end first: the element and the index of the child taken *)
Definition branch_t : Type := list (option snmp_data_type * nat).

Fixpoint descend (parts : list str) (cur_oid : str) (parent : option snmp_data_type) (lut : list snmp_data_type)
    (branch : branch_t) : option snmp_data_type * list snmp_data_type * branch_t :=
  match parts with
  | [] => (parent, lut, branch)
  | part :: parts' =>
      let cur_oid := extend_oid cur_oid part in
      match find_oid_in_vector lut cur_oid with
      | None => (parent, lut, branch)
      | Some idx =>
          match lut !! idx with
          | None => (parent, lut, branch)
          | Some n => descend parts' cur_oid (Some n) (get_children n) ((parent, idx) :: branch)
          end
      end
  end.

(** "search for end of branch" below a node *)
Fixpoint end_of_branch (n : snmp_data_type) (branch : branch_t) : snmp_data_type * branch_t :=
  match n with
  | SnmpNode _ _ _ [] => (n, branch)
  | SnmpNode _ _ _ (c :: _) => end_of_branch c ((Some n, O) :: branch)
  end.

(** the first leaf below a node *)
Fixpoint first_leaf (n : snmp_data_type) : str :=
  match n with
  | SnmpNode o _ _ [] => o
  | SnmpNode _ _ _ (c :: _) => first_leaf c
  end.

(** "go to a sibbling" *)
Fixpoint go_sibling (branch : branch_t) : res str :=
  match branch with
  | [] => Ok []
  | (None, _) :: branch' => let* _ := assert_ (bool_decide (branch' = [])) in Ok []
  | (Some element, index) :: branch' =>
      match get_children element !! S index with
      | Some c => Ok (first_leaf c)
      | None => go_sibling branch'
      end
  end.

Definition find_next_oid (data : list snmp_data_type) (oid : str) : res str :=
  let* parts := split oid [dot] in
  let '(parent, lut, branch) := descend parts [] None data [] in
  let '(parent, branch) :=
    match lut with
    | [] => (parent, branch)
    | c :: _ => let '(n, branch) := end_of_branch c ((parent, O) :: branch) in (Some n, branch)
    end in
  match parent with
  | None => Err bad_access   (* nothing was registered: the null pointer is followed *)
  | Some parent =>
      if negb (bool_decide (get_oid parent = oid)) then Ok (get_oid parent)
      else go_sibling ((Some parent, O) :: branch)
  end.

(** ** Well-formed trees *)

Definition part_ok (p : str) : Prop := (dot ∉ p) ∧ p ≠ [].

(** the node for the parts [path], below it nodes for longer paths, one for every
    part, sorted by number *)
Fixpoint node_wf (path : list str) (n : snmp_data_type) : Prop :=
  let fix children_wf (l : list snmp_data_type) : Prop :=
    match l with [] => True | c :: l' => (∃ p, part_ok p ∧ node_wf (path ++ [p]) c) ∧ children_wf l' end in
  match n with
  | SnmpNode o i _ d => o = join [dot] path ∧ children_wf d ∧ NoDup (get_oid <$> d) ∧ Sorted Z.le (get_oid_idx <$> d)
  end.

Definition forest_wf (path : list str) (d : list snmp_data_type) : Prop :=
  Forall (λ c, ∃ p, part_ok p ∧ node_wf (path ++ [p]) c) d ∧ NoDup (get_oid <$> d) ∧ Sorted Z.le (get_oid_idx <$> d).

Lemma node_wf_eq path n :
  node_wf path n ↔ get_oid n = join [dot] path ∧ forest_wf path (get_children n).
Proof.
  destruct n as [o i v d]. unfold forest_wf. cbn [node_wf get_oid get_children].
  assert (∀ l, (fix children_wf (l : list snmp_data_type) : Prop :=
      match l with [] => True | c :: l' => (∃ p, part_ok p ∧ node_wf (path ++ [p]) c) ∧ children_wf l' end) l ↔
    Forall (λ c, ∃ p, part_ok p ∧ node_wf (path ++ [p]) c) l) as ->; [|done].
  induction l as [|c l IH]; [by rewrite Forall_nil|]. by rewrite Forall_cons, IH.
Qed.

Lemma join_snoc path p : path ≠ [] → join [dot] (path ++ [p]) = join [dot] path ++ dot :: p.
Proof.
  induction path as [|q path IH]; intros H; [done|]. destruct path as [|r path]; [done|].
  change ((q :: r :: path) ++ [p]) with (q :: (r :: path) ++ [p]).
  rewrite join_cons by done. rewrite IH, (join_cons _ q) by done. by rewrite <- !app_assoc.
Qed.

Lemma join_parts_nonempty path : Forall part_ok path → path ≠ [] → join [dot] path ≠ [].
Proof.
  intros Hp Hne. destruct path as [|q [|r path]]; [done|cbn; apply Forall_inv in Hp; apply Hp|].
  rewrite join_cons by done. destruct q; done.
Qed.

Lemma extend_join path p : Forall part_ok path → extend_oid (join [dot] path) p = join [dot] (path ++ [p]).
Proof.
  intros Hp. unfold extend_oid. destruct path as [|q path]; [done|].
  rewrite bool_decide_eq_false_2 by (by apply join_parts_nonempty). rewrite join_snoc by done. by rewrite <- app_assoc.
Qed.

Lemma join_snoc_inj path p q : join [dot] (path ++ [p]) = join [dot] (path ++ [q]) → p = q.
Proof.
  destruct path as [|r path]; [done|]. rewrite !join_snoc by done. intros E. apply app_inv_head in E. by injection E.
Qed.

Lemma find_vec_Some d o idx :
  find_oid_in_vector d o = Some idx → ∃ n, d !! idx = Some n ∧ get_oid n = o.
Proof.
  revert idx. induction d as [|n d IH]; intros idx; cbn [find_oid_in_vector]; [done|].
  destruct (bool_decide_reflect (get_oid n = o)) as [E|N]; [intros [= <-]; by exists n|].
  destruct (find_oid_in_vector d o) as [k|]; [|done]. intros [= <-]. by apply IH.
Qed.

Lemma find_vec_None d o : find_oid_in_vector d o = None ↔ o ∉ get_oid <$> d.
Proof.
  induction d as [|n d IH]; cbn [find_oid_in_vector fmap list_fmap]; [split; [intros _; apply not_elem_of_nil|done]|].
  rewrite not_elem_of_cons. destruct (bool_decide_reflect (get_oid n = o)) as [E|N]; [split; [done|intros [? _]; congruence]|].
  rewrite fmap_None, IH. split; [intros H; split; [congruence|done]|by intros [_ ?]].
Qed.

(** the index of a node of which the identifier occurs once *)
Lemma find_vec_lookup d i n :
  NoDup (get_oid <$> d) → d !! i = Some n → find_oid_in_vector d (get_oid n) = Some i.
Proof.
  intros Hd Hi. destruct (find_oid_in_vector d (get_oid n)) as [j|] eqn:E.
  - apply find_vec_Some in E as (m & Hm & Eo). f_equal.
    eapply (NoDup_lookup (get_oid <$> d)); [done|rewrite list_lookup_fmap, Hm; simpl; by rewrite Eo|].
    by rewrite list_lookup_fmap, Hi.
  - apply find_vec_None in E. destruct E. apply list_elem_of_fmap. exists n. split; [done|]. by eapply list_elem_of_lookup_2.
Qed.

(** what [extend_oid] finds below a path: the node for the longer path *)
Lemma find_child path d p idx :
  Forall part_ok path → forest_wf path d → find_oid_in_vector d (join [dot] (path ++ [p])) = Some idx →
  ∃ n, d !! idx = Some n ∧ node_wf (path ++ [p]) n.
Proof.
  intros Hp (Hd & _ & _) (n & Hn & Eo)%find_vec_Some. exists n. split; [done|].
  rewrite Forall_lookup in Hd. destruct (Hd _ _ Hn) as (q & Hq & Hw).
  pose proof (proj1 (proj1 (node_wf_eq _ _) Hw)) as E. rewrite Eo in E. by apply join_snoc_inj in E as ->.
Qed.

(** ** Registering keeps the tree well formed *)

Lemma insert_node_perm e d : insert_node e d ≡ₚ e :: d.
Proof.
  induction d as [|n d IH]; cbn [insert_node]; [done|]. destruct (get_oid_idx e <? get_oid_idx n); [done|].
  rewrite IH. by constructor.
Qed.

Lemma insert_node_sorted e d : Sorted Z.le (get_oid_idx <$> d) → Sorted Z.le (get_oid_idx <$> insert_node e d).
Proof.
  induction d as [|n d IH]; intros Hs; cbn [insert_node]; [by repeat constructor|].
  destruct (Z.ltb_spec (get_oid_idx e) (get_oid_idx n)); [constructor; [done|constructor; lia]|].
  cbn [fmap list_fmap] in *. inversion Hs as [|x l Hs' Hh]; subst. constructor; [by apply IH|].
  destruct d as [|m d]; cbn [insert_node fmap list_fmap]; [constructor; lia|].
  destruct (get_oid_idx e <? get_oid_idx m); constructor; [lia|]. by inversion Hh.
Qed.

Lemma set_children_wf path n d :
  node_wf path n → forest_wf path d → node_wf path (set_children n d).
Proof. rewrite !node_wf_eq. destruct n as [o i v d']. cbn. intros [-> _]. done. Qed.

Lemma register_parts_wf parts path d e :
  Forall part_ok path → Forall part_ok parts → forest_wf path d →
  forest_wf path (register_parts parts (join [dot] path) d e).
Proof.
  intros Hpath Hparts. revert path d Hpath.
  induction Hparts as [|p parts Hp Hparts IH]; intros path d Hpath Hd; cbn [register_parts]; [done|].
  rewrite extend_join by done.
  assert (Forall part_ok (path ++ [p])) as Hpp by (apply Forall_app; split; [done|by apply Forall_singleton]).
  destruct (find_oid_in_vector d (join [dot] (path ++ [p]))) as [idx|] eqn:E.
  - destruct (find_child path d p idx) as (n & Hn & Hw); [done|done|done|]. rewrite Hn.
    destruct Hd as (Hd & Hnd & Hs). apply node_wf_eq in Hw as Hw'. destruct Hw' as [Eo Hcs].
    split_and!.
    + apply Forall_insert; [done|]. exists p. split; [done|]. apply set_children_wf; [done|by apply IH].
    + rewrite list_fmap_insert, list_insert_id; [done|]. rewrite list_lookup_fmap, Hn. by destruct n.
    + rewrite list_fmap_insert, list_insert_id; [done|]. rewrite list_lookup_fmap, Hn. by destruct n.
  - destruct Hd as (Hd & Hnd & Hs). apply find_vec_None in E.
    set (e' := new_node _ _ _). assert (get_oid e' = join [dot] (path ++ [p])) as Eo by done.
    split_and!.
    + rewrite (insert_node_perm e' d). constructor; [|done]. exists p. split; [done|]. apply node_wf_eq. split; [done|].
      apply IH; [done|]. split_and!; [constructor|constructor|constructor].
    + rewrite (insert_node_perm e' d). cbn [fmap list_fmap]. rewrite Eo. by constructor.
    + by apply insert_node_sorted.
Qed.

(** ** The tree is a map *)

(** the node with an identifier *)
Definition find_node (d : list snmp_data_type) (o : str) : option snmp_data_type :=
  find_oid_in_vector d o ≫= (λ idx, d !! idx).

Lemma find_node_spec d o n :
  NoDup (get_oid <$> d) → find_node d o = Some n ↔ n ∈ d ∧ get_oid n = o.
Proof.
  intros Hd. unfold find_node. split.
  - intros (idx & E & Hn)%bind_Some. destruct (find_vec_Some _ _ _ E) as (m & Hm & Eo).
    assert (m = n) as -> by congruence. split; [|done]. by eapply list_elem_of_lookup_2.
  - intros [(i & Hi)%list_elem_of_lookup_1 <-]. by rewrite (find_vec_lookup d i n).
Qed.

Lemma find_node_None d o : find_node d o = None ↔ o ∉ get_oid <$> d.
Proof.
  unfold find_node. rewrite <- find_vec_None. destruct (find_oid_in_vector d o) as [idx|] eqn:E; [|done].
  apply find_vec_Some in E as (n & Hn & _). simpl. rewrite Hn. done.
Qed.

Lemma find_parts_cons p parts path d :
  Forall part_ok path →
  find_parts (p :: parts) (join [dot] path) d =
    match find_node d (join [dot] (path ++ [p])) with
    | None => None
    | Some n => if bool_decide (parts = []) then Some (node_value n)
                else find_parts parts (join [dot] (path ++ [p])) (get_children n)
    end.
Proof. intros Hp. cbn [find_parts]. by rewrite extend_join. Qed.

(** how the nodes of one level change *)
Lemma find_node_register p parts path d e o :
  Forall part_ok path → part_ok p → Forall part_ok parts → forest_wf path d →
  find_node (register_parts (p :: parts) (join [dot] path) d e) o =
    if decide (o = join [dot] (path ++ [p])) then
      match find_node d o with
      | Some n => Some (set_children n (register_parts parts o (get_children n) e))
      | None => Some (new_node (if bool_decide (parts = []) then e else tv_none) o (register_parts parts o [] e))
      end
    else find_node d o.
Proof.
  intros Hpath Hp Hparts Hd. pose proof Hd as (_ & Hnd & _).
  assert (forest_wf path (register_parts (p :: parts) (join [dot] path) d e)) as (_ & Hnd' & _)
    by (apply register_parts_wf; [done|by constructor|done]).
  cbn [register_parts] in *. rewrite extend_join in * by done. set (o1 := join [dot] (path ++ [p])) in *.
  unfold find_node at 2 3. destruct (find_oid_in_vector d o1) as [idx|] eqn:E.
  - destruct (find_vec_Some _ _ _ E) as (n & Hn & Eo). rewrite Hn in *. set (n' := set_children n _) in *.
    assert (get_oid n' = o1) as Eo' by (unfold n'; by destruct n).
    destruct (decide (o = o1)) as [->|N].
    + rewrite E. simpl. rewrite Hn. apply find_node_spec; [done|]. split; [|done].
      eapply list_elem_of_lookup_2, list_lookup_insert_eq. by eapply lookup_lt_Some.
    + fold (find_node d o). destruct (find_node d o) as [m|] eqn:Em.
      * apply find_node_spec in Em as [(j & Hj)%list_elem_of_lookup_1 Em]; [|done]. apply find_node_spec; [done|].
        split; [|done]. apply list_elem_of_lookup_2 with j. rewrite list_lookup_insert_ne; [done|]. intros ->. congruence.
      * apply find_node_None in Em. apply find_node_None. intros Hin. destruct Em.
        by rewrite list_fmap_insert, list_insert_id in Hin by (rewrite list_lookup_fmap, Hn; simpl; congruence).
  - set (e' := new_node _ _ _) in *. assert (get_oid e' = o1) as Eo' by done.
    destruct (decide (o = o1)) as [->|N].
    + rewrite E. simpl. apply find_node_spec; [done|]. split; [|done]. rewrite (insert_node_perm e' d). by constructor.
    + fold (find_node d o). destruct (find_node d o) as [m|] eqn:Em.
      * apply find_node_spec in Em as [Hin Em]; [|done]. apply find_node_spec; [done|]. split; [|done].
        rewrite (insert_node_perm e' d). by constructor.
      * apply find_node_None in Em. apply find_node_None. rewrite (insert_node_perm e' d). cbn [fmap list_fmap].
        rewrite not_elem_of_cons. split; [congruence|done].
Qed.

Lemma find_parts_nil parts cur : find_parts parts cur [] = None.
Proof. by destruct parts. Qed.

Lemma forest_wf_nil path : forest_wf path [].
Proof. split_and!; constructor. Qed.

Lemma node_value_children n d : node_value (set_children n d) = node_value n ∧ get_children (set_children n d) = d.
Proof. by destruct n. Qed.

Lemma find_register parts qs path d e :
  Forall part_ok path → Forall part_ok parts → forest_wf path d → qs ≠ [] →
  find_parts qs (join [dot] path) (register_parts parts (join [dot] path) d e) =
    match find_parts qs (join [dot] path) d with
    | Some v => Some v
    | None => if decide (qs = parts) then Some e else if decide (qs `prefix_of` parts) then Some tv_none else None
    end.
Proof.
  intros Hpath Hparts. revert qs path d Hpath.
  induction Hparts as [|p parts Hp Hparts IH]; intros qs path d Hpath Hd Hne.
  { cbn [register_parts]. rewrite decide_False by done. rewrite decide_False by (intros ?%prefix_nil_inv; done).
    by destruct (find_parts qs (join [dot] path) d). }
  assert (Forall part_ok (path ++ [p])) as Hpp by (apply Forall_app; split; [done|by apply Forall_singleton]).
  destruct qs as [|q qs]; [done|]. rewrite !find_parts_cons by done. rewrite find_node_register by done.
  destruct (decide (q = p)) as [->|N].
  - rewrite decide_True by done. destruct (find_node d (join [dot] (path ++ [p]))) as [n|] eqn:E.
    + destruct (node_value_children n (register_parts parts (join [dot] (path ++ [p])) (get_children n) e)) as [-> ->].
      case_bool_decide as Hq; [done|]. apply find_node_spec in E as [(j & Hj)%list_elem_of_lookup_1 Eo]; [|apply Hd].
      assert (node_wf (path ++ [p]) n) as Hw.
      { destruct (find_child path d p j) as (m & Hm & Hw); [done|done| |congruence].
        rewrite <- Eo. apply find_vec_lookup; [apply Hd|done]. }
      apply node_wf_eq in Hw as [_ Hw]. rewrite IH by done.
      destruct (find_parts qs _ (get_children n)); [done|].
      repeat case_decide; try done; naive_solver (eauto using prefix_cons, prefix_cons_inv_2).
    + cbn [new_node node_value get_children]. unfold new_node. cbn [node_value get_children].
      case_bool_decide as Hq.
      * subst qs. case_bool_decide as Hparts'; [subst parts; by rewrite decide_True|].
        rewrite decide_False by congruence. rewrite decide_True by (apply prefix_cons, prefix_nil). done.
      * rewrite IH by (done || apply forest_wf_nil). rewrite find_parts_nil.
        repeat case_decide; try done; naive_solver (eauto using prefix_cons, prefix_cons_inv_2).
  - rewrite decide_False by (intros E%join_snoc_inj; done).
    destruct (find_node d (join [dot] (path ++ [q]))) as [n|].
    + case_bool_decide; [done|]. destruct (find_parts qs _ (get_children n)); [done|].
      rewrite decide_False by congruence. rewrite decide_False by (intros ?%prefix_cons_inv_1; done). done.
    + rewrite decide_False by congruence. rewrite decide_False by (intros ?%prefix_cons_inv_1; done). done.
Qed.

(** an identifier with its parts *)
Lemma split_oid parts : Forall part_ok parts → split (join [dot] parts) [dot] = Ok parts.
Proof. apply split_join. Qed.

(** The tree behaves as a map from object identifiers to values: registering a
    value keeps the tree well formed (one node per identifier, sorted), a lookup
    of the identifier then returns the value, unless the identifier was there before,
    whose value is kept; lookups of identifiers that were found before do not change;
    and of the other identifiers exactly the proper prefixes of the new one are
    found now, without a value. *)
Theorem register_find counters now t parts e qs :
  forest_wf [] t → Forall part_ok parts → Forall part_ok qs → qs ≠ [] →
  ∃ t', register_oid t (join [dot] parts) e = Ok t' ∧ forest_wf [] t' ∧
    find_by_oid counters now t' (join [dot] qs) =
      match find_by_oid counters now t (join [dot] qs) with
      | Ok None =>
          if decide (qs = parts) then res_map Some (get_data counters now e)
          else if decide (qs `prefix_of` parts) then Ok (Some None) else Ok None
      | r => r
      end.
Proof.
  intros Ht Hparts Hqs Hne. unfold register_oid. rewrite split_oid by done. cbn [res_bind].
  exists (register_parts parts [] t e). split; [done|].
  split; [by apply (register_parts_wf parts [] t e)|].
  unfold find_by_oid. rewrite !split_oid by done. cbn [res_bind].
  pose proof (find_register parts qs [] t e ltac:(constructor) Hparts Ht Hne) as E.
  change (join [dot] []) with (@nil Z) in E. rewrite E. destruct (find_parts qs [] t) as [v|].
  - destruct (get_data counters now v); done.
  - repeat case_decide; done.
Qed.

(** "1.3.6.1" and so on *)
Definition ex_parts (ids : list Z) : list str := fmt_dec <$> ids.
Definition ex_tree : list snmp_data_type :=
  register_parts (ex_parts [1; 3; 6; 2]) [] (register_parts (ex_parts [1; 3; 6; 1; 5]) [] [] (tv_integer 7)) (tv_string [88]).

Lemma ex_parts_ok ids : Forall id_ok ids → Forall part_ok (ex_parts ids).
Proof. intros H. apply Forall_fmap. eapply Forall_impl; [exact H|]. intros c Hc. by apply fmt_dec_field. Qed.

Lemma ex_tree_wf : forest_wf [] ex_tree.
Proof.
  apply (register_parts_wf (ex_parts [1; 3; 6; 2]) []); [constructor|apply ex_parts_ok; repeat constructor; done|].
  apply (register_parts_wf (ex_parts [1; 3; 6; 1; 5]) []); [constructor|apply ex_parts_ok; repeat constructor; done|].
  apply forest_wf_nil.
Qed.

Lemma register_find_witness :
  ∃ t', register_oid ex_tree (join [dot] (ex_parts [1; 3; 6; 1; 4])) (tv_integer 9) = Ok t' ∧ forest_wf [] t' ∧
    find_by_oid (λ _, 0) 0 t' (join [dot] (ex_parts [1; 3; 6; 1; 4])) = Ok (Some (Some (new_snmp_integer si_integer 9))).
Proof.
  apply (register_find (λ _, 0) 0 ex_tree (ex_parts [1; 3; 6; 1; 4]) (tv_integer 9) (ex_parts [1; 3; 6; 1; 4]));
    [apply ex_tree_wf|apply ex_parts_ok; repeat constructor; done|apply ex_parts_ok; repeat constructor; done|done].
Defined.

(** ** A walk over the tree *)

(** the identifiers of the leaves, in the order of the tree *)
Fixpoint leaves (n : snmp_data_type) : list str :=
  match n with
  | SnmpNode o _ _ [] => [o]
  | SnmpNode _ _ _ d => d ≫= leaves
  end.

Lemma leaves_eq n : leaves n = match get_children n with [] => [get_oid n] | d => d ≫= leaves end.
Proof. by destruct n as [o i v [|c d]]. Qed.

Lemma leaves_first n : ∃ rest, leaves n = first_leaf n :: rest.
Proof.
  induction n as [o i v d Hd] using snmp_data_type_ind. destruct d as [|c d]; [by exists []|].
  apply Forall_inv in Hd as [rest E]. cbn [leaves first_leaf]. rewrite bind_cons, E. by eexists.
Qed.

(** the way to a leaf: the indices of the children, and the leaves before and
    behind it *)
Inductive leaf_path : snmp_data_type → list nat → list str → str → list str → Prop :=
  | lp_here n : get_children n = [] → leaf_path n [] [] (get_oid n) []
  | lp_child n i c idxs b l a :
      get_children n !! i = Some c → leaf_path c idxs b l a →
      leaf_path n (i :: idxs) ((take i (get_children n) ≫= leaves) ++ b) l (a ++ (drop (S i) (get_children n) ≫= leaves)).

(** an element of a concatenation is in one of the lists *)
Lemma bind_split {A B} (f : A → list B) l b x a :
  l ≫= f = b ++ x :: a →
  ∃ i c b1 a1, l !! i = Some c ∧ f c = b1 ++ x :: a1 ∧ b = (take i l ≫= f) ++ b1 ∧ a = a1 ++ (drop (S i) l ≫= f).
Proof.
  revert b. induction l as [|y l IH]; intros b E; [by destruct b|]. rewrite bind_cons in E.
  destruct (decide (length b < length (f y))%nat) as [Hlt|Hge].
  - exists O, y, b, (drop (S (length b)) (f y)). cbn [take drop lookup list_lookup].
    assert (f y = b ++ x :: drop (S (length b)) (f y)) as Ef.
    { pose proof (f_equal (take (length (f y))) E) as Et. rewrite take_app_length in Et.
      rewrite take_app_ge in Et by lia. destruct (length (f y) - length b)%nat as [|k] eqn:Ek; [lia|].
      cbn [take] in Et. rewrite Et at 1. do 2 f_equal. rewrite Et. rewrite cons_middle, app_assoc, drop_app_length'; [done|].
      rewrite length_app. simpl. lia. }
    split_and!; [done|exact Ef|by rewrite app_nil_r || done|].
    apply (f_equal (drop (S (length b)))) in E. rewrite (cons_middle x), (app_assoc b), (drop_app_length' (b ++ [x])) in E
      by (rewrite length_app; simpl; lia). rewrite <- E. rewrite drop_app_le by lia. by rewrite drop_0.
  - apply Nat.nlt_ge in Hge.
    assert (b = f y ++ drop (length (f y)) b) as Eb.
    { pose proof (f_equal (take (length (f y))) E) as Et. rewrite take_app_length, take_app_le in Et by lia.
      rewrite <- (take_drop (length (f y)) b) at 1. by rewrite <- Et. }
    rewrite Eb, <- app_assoc in E. apply app_inv_head in E.
    destruct (IH _ E) as (i & c & b1 & a1 & H1 & H2 & H3 & H4). exists (S i), c, b1, a1.
    split_and!; [done|done| |done]. rewrite Eb, H3. cbn [take]. rewrite bind_cons. by rewrite app_assoc.
Qed.

Lemma leaf_path_exists n b l a : leaves n = b ++ l :: a → ∃ idxs, leaf_path n idxs b l a.
Proof.
  revert b l a. induction n as [o i v d Hd] using snmp_data_type_ind. intros b l a E.
  destruct d as [|c d].
  { cbn [leaves] in E. destruct b as [|x [|y b]]; [|discriminate E|discriminate E].
    injection E as <- <-. exists []. by apply (lp_here (SnmpNode o i v [])). }
  destruct (bind_split leaves (c :: d) b l a E) as (k & n & b1 & a1 & Hk & En & -> & ->).
  rewrite Forall_lookup in Hd. destruct (Hd k n Hk b1 l a1 En) as [idxs Hp].
  exists (k :: idxs). by apply (lp_child (SnmpNode o i v (c :: d)) k n idxs b1 l a1).
Qed.

(** what [branch] holds for a way below [n], the end first *)
Fixpoint branch_of (n : snmp_data_type) (idxs : list nat) : branch_t :=
  match idxs with
  | [] => []
  | i :: idxs' =>
      match get_children n !! i with
      | Some c => branch_of c idxs' ++ [(Some n, i)]
      | None => []
      end
  end.

(** the parts of the identifier of a leaf lead to it *)
Lemma descend_leaf_path n idxs b l a path :
  leaf_path n idxs b l a → Forall part_ok path → node_wf path n →
  ∃ parts leaf, Forall part_ok parts ∧ l = join [dot] (path ++ parts) ∧ get_oid leaf = l ∧ get_children leaf = [] ∧
    ∀ br, descend parts (join [dot] path) (Some n) (get_children n) br = (Some leaf, [], branch_of n idxs ++ br).
Proof.
  intros Hl. revert path. induction Hl as [n Hn|n i c idxs b l a Hc _ IH]; intros path Hpath Hw.
  - exists [], n. apply node_wf_eq in Hw as [Ho _]. rewrite app_nil_r. split_and!; try done. intros br. by rewrite Hn.
  - apply node_wf_eq in Hw as (_ & Hd & Hnd & _). rewrite Forall_lookup in Hd. destruct (Hd _ _ Hc) as (p & Hp & Hwc).
    destruct (IH (path ++ [p])) as (parts & leaf & Hparts & El & Eo & Ech & Hdesc);
      [apply Forall_app; split; [done|by apply Forall_singleton]|done|].
    exists (p :: parts), leaf. rewrite <- app_assoc in El. split_and!; [by constructor|done|done|done|].
    intros br. cbn [descend]. rewrite extend_join by done.
    rewrite <- (proj1 (proj1 (node_wf_eq _ _) Hwc)). rewrite (find_vec_lookup _ i c) by done. rewrite Hc.
    rewrite (proj1 (proj1 (node_wf_eq _ _) Hwc)), Hdesc. cbn [branch_of]. rewrite Hc. by rewrite <- app_assoc.
Qed.

(** the sibling that is found is the next leaf *)
Lemma go_sibling_next n idxs b l a rest :
  leaf_path n idxs b l a →
  go_sibling (branch_of n idxs ++ rest) = match a with [] => go_sibling rest | x :: _ => Ok x end.
Proof.
  intros Hl. revert rest. induction Hl as [n Hn|n i c idxs b l a Hc _ IH]; intros rest; [done|].
  cbn [branch_of]. rewrite Hc, <- app_assoc, IH. destruct a as [|x a]; [|done]. cbn [app go_sibling].
  destruct (get_children n !! S i) as [c'|] eqn:E.
  - rewrite (drop_S _ c') by done. rewrite bind_cons. by destruct (leaves_first c') as [r ->].
  - apply lookup_ge_None in E. rewrite drop_ge by done. done.
Qed.

(** the end of a branch is the first leaf *)
Lemma end_of_branch_leaf n br : get_oid (end_of_branch n br).1 = first_leaf n.
Proof.
  revert br. induction n as [o i v d Hd] using snmp_data_type_ind. intros br. destruct d as [|c d]; [done|].
  apply Forall_inv in Hd. cbn [end_of_branch first_leaf]. apply Hd.
Qed.

(** GETNEXT on a tree with one root *)
Lemma find_next_leaf root p b l a :
  part_ok p → node_wf [p] root → leaves root = b ++ l :: a →
  find_next_oid [root] l = Ok (match a with [] => [] | x :: _ => x end).
Proof.
  intros Hp Hw Hl. destruct (leaf_path_exists root b l a Hl) as [idxs Hlp].
  destruct (descend_leaf_path root idxs b l a [p] Hlp) as (parts & leaf & Hparts & El & Eo & Ech & Hdesc);
    [by apply Forall_singleton|done|].
  apply node_wf_eq in Hw as [Hro _]. unfold find_next_oid. rewrite El, split_oid by (by constructor). cbn [res_bind app].
  cbn [descend]. change (extend_oid [] p) with p. cbn [find_oid_in_vector].
  rewrite bool_decide_eq_true_2 by done. cbn [lookup list_lookup].
  change (join [dot] [p]) with p in Hdesc. rewrite Hdesc. rewrite Eo, El.
  rewrite bool_decide_eq_true_2 by done. cbn [negb go_sibling]. rewrite Ech. cbn [lookup list_lookup].
  rewrite (go_sibling_next root idxs b l a [(None, O)] Hlp). by destruct a.
Qed.

(** a walk: GETNEXT again and again, until there is nothing left *)
Fixpoint walk (fuel : nat) (data : list snmp_data_type) (oid : str) : res (list str) :=
  match fuel with
  | O => Err out_of_fuel
  | S fuel' =>
      let* next := find_next_oid data oid in
      if bool_decide (next = []) then Ok [] else let* rest := walk fuel' data next in Ok (next :: rest)
  end.

Lemma walk_S fuel data oid :
  walk (S fuel) data oid =
    let* next := find_next_oid data oid in
    if bool_decide (next = []) then Ok [] else let* rest := walk fuel data next in Ok (next :: rest).
Proof. reflexivity. Qed.

Lemma leaf_nonempty path n l : Forall part_ok path → path ≠ [] → node_wf path n → l ∈ leaves n → l ≠ [].
Proof.
  intros Hpath Hne Hw (b & a & E)%list_elem_of_split.
  destruct (leaf_path_exists n b l a E) as [idxs Hlp].
  destruct (descend_leaf_path n idxs b l a path Hlp Hpath Hw) as (parts & _ & Hparts & -> & _).
  apply join_parts_nonempty; [by apply Forall_app|]. by destruct path.
Qed.

(** GETNEXT of an identifier that is not a leaf returns the first leaf below it *)
Lemma find_next_inner root p path n :
  part_ok p → node_wf [p] root → Forall part_ok path →
  descend path p (Some root) (get_children root) [(None, O)] = (Some n, get_children n, (descend path p (Some root) (get_children root) [(None, O)]).2) →
  get_children n ≠ [] → first_leaf n ≠ join [dot] (p :: path) →
  find_next_oid [root] (join [dot] (p :: path)) = Ok (first_leaf n).
Proof.
  intros Hp Hw Hpath Hdesc Hne Hdiff. apply node_wf_eq in Hw as [Hro _].
  unfold find_next_oid. rewrite split_oid by (by constructor). cbn [res_bind descend]. change (extend_oid [] p) with p.
  cbn [find_oid_in_vector]. rewrite bool_decide_eq_true_2 by done. cbn [lookup list_lookup]. rewrite Hdesc.
  destruct (get_children n) as [|c d] eqn:Ec; [done|].
  assert (first_leaf n = first_leaf c) as Ef by (destruct n as [o i v d']; cbn in *; by subst).
  destruct (end_of_branch c _) as [m br] eqn:Em. pose proof (end_of_branch_leaf c ((Some n, O) :: (descend path p (Some root) (get_children root) [(None, O)]).2)) as El.
  rewrite Em in El. cbn [fst] in El. rewrite El, <- Ef. rewrite bool_decide_eq_false_2 by done. done.
Qed.

(** C25: An SNMP walk is complete and ends: GETNEXT of the identifier of a leaf returns
    the identifier of the next leaf of the tree, and the empty identifier for the
    last one; so a walk that starts at a leaf visits all leaves behind it once, in
    the order of the tree, and stops. *)
Theorem snmp_walk_complete root p b l a :
  part_ok p → node_wf [p] root → leaves root = b ++ l :: a →
  find_next_oid [root] l = Ok (match a with [] => [] | x :: _ => x end) ∧
  walk (S (length a)) [root] l = Ok a.
Proof.
  intros Hp Hw Hl. split; [by apply (find_next_leaf root p b)|].
  revert b l Hl. induction a as [|x a IH]; intros b l Hl; cbn [length]; rewrite walk_S.
  - rewrite (find_next_leaf root p b l []) by done. done.
  - rewrite (find_next_leaf root p b l (x :: a)) by done. cbn [res_bind].
    rewrite bool_decide_eq_false_2.
    + rewrite (IH (b ++ [l]) x); [done|].
      by rewrite <- app_assoc.
    + apply (leaf_nonempty [p] root); [by apply Forall_singleton|done|done|]. rewrite Hl.
      apply elem_of_app. right. constructor. constructor.
Qed.

Lemma ex_tree_root : ∃ root, ex_tree = [root] ∧ node_wf [fmt_dec 1] root.
Proof.
  pose proof ex_tree_wf as (Hd & _ & _). eexists. split; [vm_compute; reflexivity|].
  apply Forall_inv in Hd as (p & Hp & Hw).
  pose proof (proj1 (proj1 (node_wf_eq _ _) Hw)) as E. change ([] ++ [p]) with [p] in *.
  change (join [dot] [p]) with p in E. vm_compute in E. subst p. exact Hw.
Qed.

Lemma snmp_walk_complete_witness :
  find_next_oid ex_tree (join [dot] (ex_parts [1; 3; 6; 1; 5])) = Ok (join [dot] (ex_parts [1; 3; 6; 2])) ∧
  walk 2 ex_tree (join [dot] (ex_parts [1; 3; 6; 1; 5])) = Ok [join [dot] (ex_parts [1; 3; 6; 2])].
Proof.
  destruct ex_tree_root as (root & E & Hw). rewrite E.
  apply (snmp_walk_complete root (fmt_dec 1) [] (join [dot] (ex_parts [1; 3; 6; 1; 5])) [join [dot] (ex_parts [1; 3; 6; 2])]);
    [by apply fmt_dec_field|done|].
  assert (root = hd (SnmpNode [] 0 tv_none []) ex_tree) as -> by (by rewrite E). vm_compute. reflexivity.
Defined.

(** GETNEXT of an identifier that is not in the tree returns the first leaf below its
    longest known prefix, also when that is not behind it: 1.3.6.9 is behind all
    leaves *)
Lemma unknown_oid_goes_back :
  find_next_oid ex_tree (join [dot] (ex_parts [1; 3; 6; 9])) = Ok (join [dot] (ex_parts [1; 3; 6; 1; 5])).
Proof. vm_compute. reflexivity. Qed.
