(* ===== verification/Ipv4.v ===== *)
(** * IPv4 (src/ipv4.cpp, src/network_layer.cpp)

    [transmit_packet] and the loop body of [ipv4::operator()], with the address
    cache it fills, the queues of the transport layers it delivers to and the
    queue of the router.  The queues are any [BoundedQueue].  A statistics
    counter that is incremented is an element of the returned list. *)
From S2P Require Import Prelude AnyAddr Fifo Checksum Net AddressCache Arp Router.

(** what a transport layer hands to [transmit_packet] *)
Record datagram := Datagram {
  dg_dst_mac : option any_addr;
  dg_dst : any_addr;
  dg_src : any_addr;
  dg_protocol : Z;
  dg_payload : list Z;
  dg_header_template : option (list Z);
}.

Inductive ip_stat :=
  | ip_n_pkt | ip_n_disc | ip_n_del | ip_n_out_req
  | ipvx_n_pkt | ipvx_not_me | ipvx_ttl_ex | ipvx_unk_prot | ipvx_n_tx.

#[global] Instance ip_stat_eq_dec : EqDecision ip_stat.
Proof. solve_decision. Defined.

Section Ipv4.
Context {QT QR : Type} `{!BoundedQueue packet QT} `{!BoundedQueue queued_packet QR}.

Record ipv4_state := Ipv4State {
  i4_myip : any_addr;
  i4_forward : bool;
  i4_arp : address_cache;
  i4_prot_map : gmap Z QT;
  i4_router : QR;
}.

Definition i4_with_arp (s : ipv4_state) (c : address_cache) : ipv4_state :=
  Ipv4State (i4_myip s) (i4_forward s) c (i4_prot_map s) (i4_router s).
Definition i4_with_prot (s : ipv4_state) (m : gmap Z QT) : ipv4_state :=
  Ipv4State (i4_myip s) (i4_forward s) (i4_arp s) m (i4_router s).
Definition i4_with_router (s : ipv4_state) (q : QR) : ipv4_state :=
  Ipv4State (i4_myip s) (i4_forward s) (i4_arp s) (i4_prot_map s) q.

(** [network_layer::register_protocol]: [std::map::insert] *)
Definition register_protocol (s : ipv4_state) (protocol : Z) (q : QT) : ipv4_state :=
  match i4_prot_map s !! protocol with
  | Some _ => s
  | None => i4_with_prot s (<[protocol := q]> (i4_prot_map s))
  end.

(** ** Sending *)

(** the packet before its checksum is stored *)
Definition ipv4_header (qos protocol out_size : Z) (src dst : list Z) : list Z :=
  [0x45; u8 qos; u8 (Z.shiftr out_size 8); u8 out_size; 0; 0; 0x40; 0; 64; u8 protocol; 0; 0] ++ src ++ dst.

Definition ipv4_packet (s : ipv4_state) (dg : datagram) : res (list Z) :=
  let* qos := match dg_header_template dg with Some t => rd t 1 | None => Ok 0 end in
  let out_size := 20 + zlen (dg_payload dg) in
  let* src := get_exp (if set_ (dg_src dg) then dg_src dg else i4_myip s) 4 in
  let* dst := get_exp (dg_dst dg) 4 in
  let out := ipv4_header qos (dg_protocol dg) out_size src dst ++ dg_payload dg in
  let* checksum := ip_checksum out 10 in
  Ok (put16 out 10 checksum).

Definition ipv4_transmit_packet (s : ipv4_state) (dg : datagram) : res (bool * ipv4_state * list ip_stat) :=
  let* _ := assert_ (bool_decide (get_family (dg_dst dg) = ipv4)) in
  let* _ := assert_ (bool_decide (get_family (dg_src dg) = ipv4)) in
  let* out := ipv4_packet s dg in
  let* q_addr := copy (if set_ (dg_src dg) then dg_src dg else i4_myip s) in
  let* '(rc, q) := route_packet (i4_router s) (dg_dst_mac dg) 0x0800 (dg_dst dg) None q_addr out in
  Ok (rc, i4_with_router s q, [ipvx_n_tx; ip_n_out_req]).

(** ** Receiving *)

(** a packet for this host, or one to forward; [ip_size] is the size the header
    gives *)
Definition ipv4_deliver (s : ipv4_state) (pkt : packet) (src dst : any_addr) (header_size ip_size protocol : Z)
    (st : list ip_stat) : res (ipv4_state * list ip_stat) :=
  let p := pkt_data pkt in
  match i4_prot_map s !! protocol with
  | None => Ok (s, st ++ [ipvx_unk_prot; ip_n_disc])
  | Some q =>
      let payload_size := ip_size - header_size in
      if negb (same_addr dst (i4_myip s)) then
        let* d0 := at_ dst 0 in
        if i4_forward s && negb (Z.land d0 0xf0 =? 224) then
          let* data := rd_range p 0 ip_size in
          let* '(_, rq) := route_packet (i4_router s) None 0x0800 dst (Some (pkt_src_mac pkt)) src data in
          Ok (i4_with_router s rq, st ++ [ipvx_not_me])
        else Ok (s, st ++ [ip_n_disc; ipvx_not_me])
      else
        let* ip_p := new_packet (pkt_src_mac pkt) src dst (ptr_at p header_size) payload_size p header_size false in
        Ok (i4_with_prot s (<[protocol := queue_packet q ip_p]> (i4_prot_map s)), st ++ [ip_n_del])
  end.

(** the loop body of [ipv4::operator()] *)
Definition ipv4_handle (now : Z) (s : ipv4_state) (interface : Z) (pkt : packet)
  : res (ipv4_state * list ip_stat) :=
  let p := pkt_data pkt in
  let size := pkt_size pkt in
  if size <? 20 then Ok (s, [])
  else
    let st := [ip_n_pkt; ipvx_n_pkt] in
    let* b0 := rd p 0 in
    let version := Z.shiftr b0 4 in
    if negb (version =? 4) then Ok (s, st ++ [ip_n_disc])
    else
      let* dst := mk_addr ipv4 (ptr_at p 16) in
      let* src := mk_addr ipv4 (ptr_at p 12) in
      let* s :=
        (if negb (pkt_forwarded pkt) then
           let* c := update_cache now (i4_arp s) (pkt_src pkt) src interface false in Ok (i4_with_arp s c)
         else Ok s) in
      let* ttl := rd p 8 in
      if ttl <=? 1 then Ok (s, st ++ [ip_n_disc; ipvx_ttl_ex])
      else
        let header_size := Z.land b0 15 * 4 in
        let* b2 := rd p 2 in
        let* b3 := rd p 3 in
        let ip_size := join16 b2 b3 in
        if size <? ip_size then Ok (s, st ++ [ip_n_disc])
        else if ip_size <? header_size then Ok (s, st ++ [ip_n_disc])
        else
          let* protocol := rd p 9 in
          ipv4_deliver s pkt src dst header_size ip_size protocol st.
End Ipv4.
Arguments ipv4_state : clear implicits.

Section Ipv4Spec.
Context {QT QR : Type} `{!BoundedQueue packet QT} `{!BoundedQueue queued_packet QR}.
Implicit Types s : ipv4_state QT QR.

(** what a link layer puts in the queue: addresses are set, data are bytes *)
Definition link_packet (pkt : packet) : Prop :=
  good (pkt_src pkt) ∧ is_mac_family (af (pkt_src pkt)) = true ∧
  good (pkt_src_mac pkt) ∧ is_mac_family (af (pkt_src_mac pkt)) = true ∧ bytes_ok (pkt_data pkt).

Lemma copy_good a : good a → ∃ b, copy a = Ok b ∧ good b ∧ key b = key a.
Proof. intros. apply assign_spec; [apply unset_addr_wf|done]. Qed.

(** [route_packet] accepts set addresses of the right families *)
Lemma make_queued_ok dm et di sm si p :
  (∀ m, dm = Some m → good m ∧ is_mac_family (af m) = true) →
  (∀ m, sm = Some m → good m ∧ is_mac_family (af m) = true) →
  good di → is_ip_family (af di) = true → good si → is_ip_family (af si) = true → et ≠ 0x08ff →
  ∃ qp di' si', make_queued dm et di sm si p = Ok qp ∧ qp_data qp = p ∧ qp_ether_type qp = et ∧
    qp_dst_ip qp = Some di' ∧ key di' = key di ∧ qp_src_ip qp = Some si' ∧ key si' = key si ∧
    key <$> qp_dst_mac qp = key <$> dm ∧ key <$> qp_src_mac qp = key <$> sm.
Proof.
  intros Hdm Hsm Gd Fd Gs Fs Het.
  assert (∀ o, (∀ m, o = Some m → good m ∧ is_mac_family (af m) = true) →
    is_hw o = true ∧ ∃ o', copy_opt o = Ok o' ∧ key <$> o' = key <$> o) as Hopt.
  { intros [m|] Ho; [|by split; [|exists None]]. destruct (Ho m eq_refl) as [Gm Fm].
    destruct (copy_good m Gm) as (b & Hb & _ & Kb). split.
    - unfold is_hw, get_family. by destruct (af m).
    - exists (Some b). simpl. rewrite Hb. simpl. by rewrite Kb. }
  destruct (Hopt dm Hdm) as (H1 & dm' & C1 & K1). destruct (Hopt sm Hsm) as (H2 & sm' & C2 & K2).
  destruct (copy_good di Gd) as (di' & C3 & _ & K3). destruct (copy_good si Gs) as (si' & C4 & _ & K4).
  assert (∀ a, is_ip_family (af a) = true → is_ip a = true) as Hip
    by (intros a; unfold is_ip, get_family; by destruct (af a)).
  exists (QueuedPacket dm' sm' et (Some di') (Some si') p), di', si'. split; [|done].
  unfold make_queued. rewrite H1, C1, H2, C2. cbn [res_bind assert_].
  by rewrite (proj2 (Z.eqb_neq _ _) Het), (Hip di), C3, (Hip si), C4 by done.
Qed.

Lemma mk_addr_at f p k :
  bytes_ok p → 0 ≤ k → k + family_size f ≤ zlen p →
  ∃ a, mk_addr f (ptr_at p k) = Ok a ∧ good a ∧ key a = (f, take (Z.to_nat (family_size f)) (drop (Z.to_nat k) p)).
Proof.
  intros HB Hk Hl. apply mk_addr_spec; [by apply bytes_ok_drop|].
  unfold ptr_at, zlen in *. rewrite length_drop. lia.
Qed.

Lemma zlen_ptr_at (p : list Z) k : 0 ≤ k ≤ zlen p → zlen (ptr_at p k) = zlen p - k.
Proof. intros. unfold ptr_at, zlen in *. rewrite length_drop. lia. Qed.

(** the fields of the header of a packet of at least 20 bytes *)
Definition ip_hlen (p : list Z) : Z := Z.land (p !!! 0%nat) 15 * 4.
Definition ip_total (p : list Z) : Z := join16 (p !!! 2%nat) (p !!! 3%nat).
Definition ip_from (p : list Z) : addr_family * list Z := (ipv4, take 4 (drop 12 p)).
Definition ip_to (p : list Z) : addr_family * list Z := (ipv4, take 4 (drop 16 p)).
Definition multicast (p : list Z) : Prop := Z.land (p !!! 16%nat) 0xf0 = 224.

(** an IPv4 header that may live one more hop, with its lengths inside the
    packet, of a protocol that is registered *)
Definition acceptable (s : ipv4_state QT QR) (p : list Z) : Prop :=
  Z.shiftr (p !!! 0%nat) 4 = 4 ∧ 1 < p !!! 8%nat ∧ ip_hlen p ≤ ip_total p ≤ zlen p ∧
  is_Some (i4_prot_map s !! (p !!! 9%nat)).

(** how a packet ended: delivered, discarded or forwarded *)
Definition accounted (s s' : ipv4_state QT QR) (p : list Z) (st : list ip_stat) : Prop :=
  (∃ q ip, acceptable s p ∧ ip_to p = key (i4_myip s) ∧ st = [ip_n_pkt; ipvx_n_pkt; ip_n_del] ∧
     i4_router s' = i4_router s ∧ i4_prot_map s !! (p !!! 9%nat) = Some q ∧
     i4_prot_map s' = <[p !!! 9%nat := queue_packet q ip]> (i4_prot_map s) ∧
     pkt_data ip = take (Z.to_nat (ip_total p - ip_hlen p)) (drop (Z.to_nat (ip_hlen p)) p) ∧
     key (pkt_src ip) = ip_from p ∧ key (pkt_dst ip) = ip_to p) ∨
  (¬ (acceptable s p ∧ (ip_to p = key (i4_myip s) ∨ i4_forward s = true ∧ ¬ multicast p)) ∧
     ip_n_disc ∈ st ∧ (ip_n_del ∉ st) ∧ i4_router s' = i4_router s ∧ i4_prot_map s' = i4_prot_map s) ∨
  (∃ qp, acceptable s p ∧ ip_to p ≠ key (i4_myip s) ∧ i4_forward s = true ∧ ¬ multicast p ∧
     st = [ip_n_pkt; ipvx_n_pkt; ipvx_not_me] ∧ i4_router s' = (q_try_put (i4_router s) qp).2 ∧
     i4_prot_map s' = i4_prot_map s ∧ qp_ether_type qp = 0x0800 ∧
     qp_data qp = take (Z.to_nat (ip_total p)) p ∧
     key <$> qp_dst_ip qp = Some (ip_to p) ∧ key <$> qp_src_ip qp = Some (ip_from p)).

Lemma rd_total p i b : rd p i = Ok b → p !!! Z.to_nat i = b.
Proof. intros [_ H]%rd_Ok. by apply list_lookup_total_correct. Qed.

(** discarded before it is looked at any further *)
Lemma accounted_discard s c p st :
  ¬ acceptable s p → ip_n_disc ∈ st → ip_n_del ∉ st →
  accounted s s p st ∧ accounted s (i4_with_arp s c) p st.
Proof. intros Hn Hin Hnin. split; (right; left; split_and!; naive_solver). Qed.

Lemma new_packet_ok sm src d p n h m f :
  0 ≤ n ≤ zlen p → 0 ≤ m ≤ zlen h →
  new_packet sm src d p n h m f = Ok (Packet sm src d (take (Z.to_nat n) p) (take (Z.to_nat m) h) f).
Proof. intros. unfold new_packet. by rewrite !rd_range_Ok by lia. Qed.

Lemma ipv4_deliver_ok s pkt src dst :
  link_packet pkt → 20 ≤ zlen (pkt_data pkt) →
  good src → key src = ip_from (pkt_data pkt) → good dst → key dst = ip_to (pkt_data pkt) →
  Z.shiftr (pkt_data pkt !!! 0%nat) 4 = 4 → 1 < pkt_data pkt !!! 8%nat →
  0 ≤ ip_hlen (pkt_data pkt) ≤ ip_total (pkt_data pkt) → ip_total (pkt_data pkt) ≤ zlen (pkt_data pkt) →
  ∃ s' st, ipv4_deliver s pkt src dst (ip_hlen (pkt_data pkt)) (ip_total (pkt_data pkt)) (pkt_data pkt !!! 9%nat)
      [ip_n_pkt; ipvx_n_pkt] = Ok (s', st) ∧ accounted s s' (pkt_data pkt) st.
Proof.
  intros (_ & _ & Gsm & Fsm & HB) H20 Gs Ks Gd Kd Hv Ht Hhs Hn. unfold ipv4_deliver.
  assert (af src = ipv4) as Fs by exact (f_equal fst Ks). assert (af dst = ipv4) as Fd by exact (f_equal fst Kd).
  set (p := pkt_data pkt) in *. destruct (i4_prot_map s !! (p !!! 9%nat)) as [q|] eqn:Hq.
  2:{ eexists _, _. split; [done|]. apply (accounted_discard s (i4_arp s)); [|set_solver..].
      intros (_ & _ & _ & Hs). rewrite Hq in Hs. by destruct Hs. }
  assert (acceptable s p) as Hacc by (split_and!; try done; rewrite ?Hq; eauto; lia).
  unfold same_addr. case_bool_decide as Hme; cbn [negb].
  - rewrite new_packet_ok by (rewrite ?zlen_ptr_at by lia; lia). cbn [res_bind].
    eexists _, _. split; [done|]. left. eexists q, _. split_and!; try done; congruence.
  - destruct (at_good dst 0) as (d0 & Hd0 & Hd0k); [done|by rewrite Fd|]. rewrite Hd0. cbn [res_bind].
    assert (p !!! 16%nat = d0) as H16.
    { rewrite Kd in Hd0k. apply list_lookup_total_correct.
      change (take 4 (drop 16 p) !! 0%nat = Some d0) in Hd0k.
      rewrite lookup_take_lt, lookup_drop in Hd0k by lia. done. }
    assert (ip_to p ≠ key (i4_myip s)) as Hnme by congruence.
    destruct (i4_forward s) eqn:Hf; cbn [andb].
    2:{ eexists _, _. split; [done|]. right. left. split_and!; [intuition congruence|set_solver|set_solver|done|done]. }
    destruct (Z.eqb_spec (Z.land d0 240) 224) as [Hmc|Hmc]; cbn [negb].
    { eexists _, _. split; [done|]. right. left. unfold multicast. rewrite H16.
      split_and!; [intuition congruence|set_solver|set_solver|done|done]. }
    rewrite rd_range_Ok by lia. cbn [res_bind].
    destruct (make_queued_ok None 0x0800 dst (Some (pkt_src_mac pkt)) src (take (Z.to_nat (ip_total p)) (drop (Z.to_nat 0) p)))
      as (qp & di & si & Hqp & Hdat & Het & Hdi & Kdi & Hsi & Ksi & _);
      [done|naive_solver|done|by rewrite Fd|done|by rewrite Fs|done|].
    unfold route_packet. rewrite Hqp. cbn [res_bind]. destruct (q_try_put (i4_router s) qp) as [b rq] eqn:Hput.
    eexists _, _. split; [done|]. right. right. exists qp. rewrite Hput, Hdi, Hsi. unfold multicast. rewrite H16.
    split_and!; try done; simpl; congruence.
Qed.

Lemma byte_nibble b : byte_ok b → 0 ≤ Z.land b 15 < 16.
Proof. intros. change 15 with (Z.ones 4). rewrite Z.land_ones by lia. apply Z.mod_pos_bound. lia. Qed.

(** C9: whatever bytes a link layer delivers, the IPv4 handler reads nothing
    outside the packet and does not fault.  A packet of fewer than 20 bytes is
    dropped: it changes nothing and no counter counts it.  Any other packet is
    counted and ends in exactly one way.  When its header is acceptable (version
    4, more than one hop to live, header length and total length inside the
    packet, a registered protocol) and it is addressed to this host, its
    payload is put, with its two addresses, in the queue of its protocol; when
    it is acceptable, for another host, not multicast and forwarding is on, the
    packet without the padding goes to the router; in every other case, and only
    then, it is counted as discarded and no queue changes. *)
Theorem ipv4_handle_total now s i pkt :
  link_packet pkt → good (i4_myip s) →
  ∃ s' st, ipv4_handle now s i pkt = Ok (s', st) ∧
    (if pkt_size pkt <? 20 then s' = s ∧ st = [] else accounted s s' (pkt_data pkt) st).
Proof.
  intros Hp Gm. pose proof Hp as (Gsrc & Fsrc & _ & _ & HB). unfold ipv4_handle, pkt_size.
  destruct (Z.ltb_spec (zlen (pkt_data pkt)) 20) as [H20|H20].
  { by eexists _, _. }
  set (p := pkt_data pkt) in *.
  assert (∀ k, 0 ≤ k < 20 → rd p k = Ok (p !!! Z.to_nat k) ∧ byte_ok (p !!! Z.to_nat k)) as Hrd.
  { intros k Hk. destruct (rd_in_range p k) as [b Hb]; [lia|].
    rewrite (rd_total _ _ _ Hb). split; [done|]. by eapply rd_byte_ok. }
  destruct (Hrd 0) as (-> & B0); [lia|]. change (Z.to_nat 0) with 0%nat in *. cbn [res_bind].
  assert (∀ st' c, ¬ acceptable s p → ip_n_disc ∈ st' → ip_n_del ∉ st' → accounted s (i4_with_arp s c) p st') as Hdisc
    by (intros; by apply accounted_discard).
  destruct (Z.eqb_spec (Z.shiftr (p !!! 0%nat) 4) 4) as [Hv|Hv]; cbn [negb].
  2:{ eexists _, _. split; [done|]. apply (accounted_discard s (i4_arp s)); [by intros (? & _)|set_solver..]. }
  destruct (mk_addr_at ipv4 p 16) as (dst & -> & Gd & Kd); [done|lia|simpl; lia|].
  destruct (mk_addr_at ipv4 p 12) as (src & -> & Gs & Ks); [done|lia|simpl; lia|].
  cbn [res_bind].
  assert (∃ s1, (if negb (pkt_forwarded pkt) then
           let* c := update_cache now (i4_arp s) (pkt_src pkt) src i false in Ok (i4_with_arp s c)
         else Ok s) = Ok s1 ∧ ∃ c, s1 = i4_with_arp s c) as (s1 & -> & c & ->).
  { destruct (pkt_forwarded pkt); cbn [negb]; [by exists s; split; [|exists (i4_arp s); destruct s]|].
    assert (af src = ipv4) as Fs by exact (f_equal fst Ks).
    unfold update_cache, get_family. rewrite Fs, Fsrc. cbn [res_bind assert_ is_ip_family]. eauto. }
  cbn [res_bind]. destruct (Hrd 8) as (-> & _); [lia|]. change (Z.to_nat 8) with 8%nat. cbn [res_bind].
  destruct (Z.leb_spec (p !!! 8%nat) 1).
  { eexists _, _; split; [done|]; apply Hdisc; [intros (_ & ? & _); lia|set_solver..]. }
  destruct (Hrd 2) as (-> & _); [lia|]. destruct (Hrd 3) as (-> & _); [lia|].
  change (Z.to_nat 2) with 2%nat. change (Z.to_nat 3) with 3%nat. cbn [res_bind].
  fold (ip_total p) (ip_hlen p). pose proof (byte_nibble _ B0) as Hnib.
  assert (0 ≤ ip_hlen p) by (unfold ip_hlen; lia).
  destruct (Z.ltb_spec (zlen p) (ip_total p)).
  { eexists _, _; split; [done|]; apply Hdisc; [intros (_ & _ & ? & _); lia|set_solver..]. }
  destruct (Z.ltb_spec (ip_total p) (ip_hlen p)).
  { eexists _, _; split; [done|]; apply Hdisc; [intros (_ & _ & ? & _); lia|set_solver..]. }
  destruct (Hrd 9) as (-> & _); [lia|]. cbn [res_bind].
  destruct (ipv4_deliver_ok (i4_with_arp s c) pkt src dst) as (s' & st & Hd & Hacc); [done..|by split|done|].
  exists s', st. by split.
Qed.

(** ** From one host to the other *)

Definition ipv4_addr (a : any_addr) : Prop := good a ∧ af a = ipv4.

Lemma ipv4_key a : ipv4_addr a → ∃ b0 b1 b2 b3, key a = (ipv4, [b0; b1; b2; b3]) ∧ bytes_ok [b0; b1; b2; b3].
Proof.
  intros [G F]. pose proof (length_key a G) as L. pose proof (key_bytes_ok a G) as B. rewrite F in L.
  rewrite key_pair, F. generalize dependent (key a).2. intros l L B.
  change (Z.to_nat (family_size ipv4)) with 4%nat in L.
  do 4 (destruct l as [|? l]; [discriminate L|]). destruct l; [|discriminate L]. by eexists _, _, _, _.
Qed.

(** the bytes of a transmitted packet; [c] is the checksum of the header *)
Lemma ipv4_packet_bytes s dg qos :
  ipv4_addr (dg_src dg) → ipv4_addr (dg_dst dg) →
  match dg_header_template dg with Some t => rd t 1 | None => Ok 0 end = Ok qos →
  bytes_ok (dg_payload dg) →
  ∃ c, let h := put16 (ipv4_header qos (dg_protocol dg) (20 + zlen (dg_payload dg)) (key (dg_src dg)).2 (key (dg_dst dg)).2) 10 c in
    ipv4_packet s dg = Ok (h ++ dg_payload dg) ∧ zlen h = 20 ∧ bytes_ok h ∧ ip_checksum h 10 = Ok 0.
Proof.
  intros Hs Hd Ht HB. destruct (ipv4_key _ Hs) as (s0 & s1 & s2 & s3 & Ks & Bs).
  destruct (ipv4_key _ Hd) as (d0 & d1 & d2 & d3 & Kd & Bd).
  set (n := 20 + zlen (dg_payload dg)).
  set (h0 := ipv4_header qos (dg_protocol dg) n [s0; s1; s2; s3] [d0; d1; d2; d3]).
  assert (bytes_ok h0) as HBh.
  { unfold h0, ipv4_header. apply bytes_ok_app; [|by apply bytes_ok_app].
    repeat (apply Forall_cons_2; [apply u8_ok || (unfold byte_ok; lia)|]). apply Forall_nil_2. }
  exists (65535 - norm (wsum h0)). rewrite Ks, Kd. cbn [snd]. fold h0. cbv zeta.
  assert (ip_checksum h0 10 = Ok (65535 - norm (wsum h0))) as Hc by (apply ip_checksum_norm; done || lia).
  pose proof (put16_bytes_ok h0 10 (65535 - norm (wsum h0)) HBh) as HBp.
  split_and!; [|done|done|].
  - unfold ipv4_packet. rewrite Ht. cbn [res_bind]. destruct Hs as [Gs Fs], Hd as [Gd Fd].
    rewrite (proj2 Gs), !(get_exp_key _ ipv4) by done. cbn [res_bind]. rewrite Ks, Kd. cbn [snd]. fold n. fold h0.
    rewrite ip_checksum_app by done. rewrite Hc. done.
  - apply put16_verifies; done || (unfold h0, ipv4_header; simpl; lia).
Qed.

(** the handler on a header written by [transmit_packet] *)
Lemma ipv4_handle_wellformed now s i pkt qos h pl pad pr n src dst c q :
  link_packet pkt → ipv4_addr (i4_myip s) →
  length src = 4%nat → length dst = 4%nat → (ipv4, dst) = key (i4_myip s) → 0 ≤ pr < 256 →
  h = put16 (ipv4_header qos pr n src dst) 10 c → n = 20 + zlen pl → n ≤ 65535 →
  pkt_data pkt = h ++ pl ++ pad → i4_prot_map s !! pr = Some q →
  ∃ s' p, ipv4_handle now s i pkt = Ok (s', [ip_n_pkt; ipvx_n_pkt; ip_n_del]) ∧
    i4_prot_map s' = <[pr := queue_packet q p]> (i4_prot_map s) ∧
    pkt_data p = pl ∧ pkt_header p = h ∧ key (pkt_src p) = (ipv4, src) ∧ key (pkt_dst p) = (ipv4, dst).
Proof.
  intros Hp Hm Ls Ld Kd Hpr Hh Hn Hn2 Hdata Hq. pose proof Hp as (Gsrc & Fsrc & _ & _ & HB).
  pose proof (zlen_nonneg pl). pose proof (zlen_nonneg pad).
  do 4 (destruct src as [|? src]; [discriminate Ls|]). destruct src; [|discriminate Ls].
  do 4 (destruct dst as [|? dst]; [discriminate Ld|]). destruct dst; [|discriminate Ld].
  unfold put16, ipv4_header in Hh. simpl in Hh.
  assert (zlen h = 20) as Lh by (by rewrite Hh).
  assert (zlen (pkt_data pkt) = 20 + zlen pl + zlen pad) as Lp by (rewrite Hdata, !zlen_app; lia).
  destruct (mk_addr_at ipv4 (pkt_data pkt) 16) as (da & Md & Gd & Kda); [done|lia|simpl; lia|].
  destruct (mk_addr_at ipv4 (pkt_data pkt) 12) as (sa & Ms & Gs & Ksa); [done|lia|simpl; lia|].
  assert (key da = (ipv4, [z3; z4; z5; z6]) ∧ key sa = (ipv4, [z; z0; z1; z2])) as [Ed Es]
    by (rewrite Kda, Ksa, Hdata, Hh; done).
  assert (∀ k, 0 ≤ k < 20 → rd (pkt_data pkt) k = rd h k) as Hrd.
  { intros k Hk. unfold rd. rewrite (proj2 (Z.ltb_ge k 0)), Hdata by lia.
    rewrite lookup_app_l by (unfold zlen in Lh; lia). done. }
  assert (rd h 0 = Ok 0x45 ∧ rd h 8 = Ok 64 ∧ rd h 9 = Ok (u8 pr) ∧ rd h 2 = Ok (u8 (Z.shiftr n 8)) ∧
    rd h 3 = Ok (u8 n)) as (R0 & R8 & R9 & R2 & R3) by (rewrite Hh; done).
  unfold ipv4_handle, pkt_size. rewrite Lp, (proj2 (Z.ltb_ge _ 20)) by lia.
  rewrite Md, Ms, !Hrd, R0, R8, R9, R2, R3 by lia. cbn [res_bind]. change (negb (Z.shiftr 69 4 =? 4)) with false.
  assert (∃ c, (if negb (pkt_forwarded pkt) then
           let* c := update_cache now (i4_arp s) (pkt_src pkt) sa i false in Ok (i4_with_arp s c)
         else Ok s) = Ok (i4_with_arp s c)) as (ac & ->).
  { destruct (pkt_forwarded pkt); cbn [negb]; [by exists (i4_arp s); destruct s|].
    unfold update_cache, get_family. rewrite (f_equal fst Es : af sa = ipv4), Fsrc.
    cbn [res_bind assert_ is_ip_family]. eauto. }
  cbn [res_bind]. change (64 <=? 1) with false. change (Z.land 69 15 * 4) with 20. rewrite join16_be16 by lia.
  rewrite !(proj2 (Z.ltb_ge _ _)) by lia. rewrite u8_id by done.
  unfold ipv4_deliver. cbn [i4_prot_map i4_with_arp i4_myip]. rewrite Hq.
  unfold same_addr. rewrite Ed, bool_decide_eq_true_2 by done. cbn [negb].
  rewrite new_packet_ok by (rewrite ?zlen_ptr_at by lia; lia). cbn [res_bind].
  eexists _, _. split; [done|]. split; [done|]. cbn [pkt_data pkt_header pkt_src pkt_dst]. rewrite Hdata.
  split_and!; [|by apply take_app_length'; unfold zlen in Lh; lia|done|done].
  unfold ptr_at. rewrite drop_app_length' by (unfold zlen in Lh; lia).
  apply take_app_length'. unfold zlen in *. lia.
Qed.

(** C10: what one host sends with [transmit_packet], another host with the
    destination address receives: the header checksum of the packet verifies,
    and the handler puts exactly the payload, with the source and
    destination address, in the queue of the protocol, also when the link layer
    padded the packet. *)
Theorem ipv4_transmit_receive now (A B : ipv4_state QT QR) i pkt dg pad q :
  ipv4_addr (dg_src dg) → ipv4_addr (dg_dst dg) →
  match dg_header_template dg with Some t => 2 ≤ zlen t | None => True end →
  bytes_ok (dg_payload dg) → zlen (dg_payload dg) ≤ 65515 → 0 ≤ dg_protocol dg < 256 →
  ipv4_addr (i4_myip B) → key (dg_dst dg) = key (i4_myip B) → link_packet pkt →
  i4_prot_map B !! dg_protocol dg = Some q →
  ∃ out, ipv4_packet A dg = Ok out ∧ ip_checksum out 10 = Ok 0 ∧
    (pkt_data pkt = out ++ pad →
     ∃ B' p, ipv4_handle now B i pkt = Ok (B', [ip_n_pkt; ipvx_n_pkt; ip_n_del]) ∧
       i4_prot_map B' = <[dg_protocol dg := queue_packet q p]> (i4_prot_map B) ∧
       pkt_data p = dg_payload dg ∧ key (pkt_src p) = key (dg_src dg) ∧ key (pkt_dst p) = key (dg_dst dg)).
Proof.
  intros Hs Hd Ht HB Hl Hpr Hm Kd Hp Hq.
  assert (∃ qos, match dg_header_template dg with Some t => rd t 1 | None => Ok 0 end = Ok qos) as [qos Hqos]
    by (destruct (dg_header_template dg); [apply rd_in_range; lia|eauto]).
  destruct (ipv4_packet_bytes A dg qos Hs Hd Hqos HB) as (c & Hout & Lh & _ & Hck).
  eexists. split; [exact Hout|]. split; [by rewrite ip_checksum_app|]. intros Hdata.
  destruct (ipv4_key _ Hs) as (s0 & s1 & s2 & s3 & Ks & _). destruct (ipv4_key _ Hd) as (d0 & d1 & d2 & d3 & Kd' & _).
  rewrite <- app_assoc in Hdata.
  set (h := put16 _ 10 c) in *.
  destruct (ipv4_handle_wellformed now B i pkt qos h (dg_payload dg) pad (dg_protocol dg) (20 + zlen (dg_payload dg))
    (key (dg_src dg)).2 (key (dg_dst dg)).2 c q Hp Hm) as (B' & p & H1 & H2 & H3 & _ & H5 & H6);
    [by rewrite Ks|by rewrite Kd'|by rewrite <- Kd, Kd'|done|done|done|lia|exact Hdata|done|].
  exists B', p. split_and!; try done; [by rewrite H5, Ks|by rewrite H6, Kd'].
Qed.
End Ipv4Spec.

(** ** Examples *)

Definition ex_ipv4 (n : Z) : ipv4_state (fifo packet) (fifo queued_packet) :=
  Ipv4State (ex_v4 10 0 0 n) true empty_cache {[ 17 := new_fifo 4 ]} (new_fifo 4).

Lemma ex_v4_addr a b c d : byte_ok a → byte_ok b → byte_ok c → byte_ok d → ipv4_addr (ex_v4 a b c d).
Proof. intros. split; [by apply ex_v4_good|done]. Qed.

Lemma ex_mac_good a : byte_ok a → good (ex_mac a).
Proof. intros. split; [split_and!; [done|solve_bytes|done]|done]. Qed.

Definition ex_link (p : list Z) : packet := Packet (ex_mac 1) (ex_mac 1) (ex_mac 2) p [] false.

Lemma ex_link_ok p : bytes_ok p → link_packet (ex_link p).
Proof. intros. split_and!; try done; by apply ex_mac_good. Qed.

(** a UDP packet of 29 bytes for the host, with one byte of padding *)
Definition ex_udp_frame : list Z :=
  [0x45; 0; 0; 29; 0; 0; 0x40; 0; 64; 17; 38; 206; 10; 0; 0; 1; 10; 0; 0; 2; 0; 80; 4; 1; 0; 9; 0; 0; 65; 0].

Lemma ipv4_handle_total_witness :
  acceptable (ex_ipv4 2) ex_udp_frame ∧ ip_to ex_udp_frame = key (i4_myip (ex_ipv4 2)) ∧
  ∃ s' st, ipv4_handle 5 (ex_ipv4 2) 7 (ex_link ex_udp_frame) = Ok (s', st) ∧
    accounted (ex_ipv4 2) s' ex_udp_frame st.
Proof.
  split; [repeat split; [by vm_compute..|by eexists]|]. split; [done|].
  apply (ipv4_handle_total 5 (ex_ipv4 2) 7 (ex_link ex_udp_frame)).
  - apply ex_link_ok. solve_bytes.
  - apply ex_v4_good; unfold byte_ok; lia.
Defined.

Definition ex_datagram : datagram :=
  Datagram None (ex_v4 10 0 0 2) (ex_v4 10 0 0 1) 17 [0; 80; 4; 1; 0; 9; 0; 0; 65] None.

Lemma ipv4_transmit_receive_witness :
  ∃ out, ipv4_packet (ex_ipv4 1) ex_datagram = Ok out ∧ ip_checksum out 10 = Ok 0 ∧
    (pkt_data (ex_link ex_udp_frame) = out ++ [0] →
     ∃ B' p, ipv4_handle 5 (ex_ipv4 2) 7 (ex_link ex_udp_frame) = Ok (B', [ip_n_pkt; ipvx_n_pkt; ip_n_del]) ∧
       i4_prot_map B' = <[17 := queue_packet (new_fifo 4) p]> (i4_prot_map (ex_ipv4 2)) ∧
       pkt_data p = [0; 80; 4; 1; 0; 9; 0; 0; 65] ∧ key (pkt_src p) = key (ex_v4 10 0 0 1) ∧
       key (pkt_dst p) = key (ex_v4 10 0 0 2)).
Proof.
  apply (ipv4_transmit_receive 5 (ex_ipv4 1) (ex_ipv4 2) 7 (ex_link _) ex_datagram [0]);
    try (apply ex_v4_addr; unfold byte_ok; lia); try done; try solve_bytes.
  apply ex_link_ok. solve_bytes.
Defined.

(** the hypothetical frame of the witness is the one that is sent *)
Example ex_transmitted :
  ipv4_packet (ex_ipv4 1) ex_datagram =
    Ok [0x45; 0; 0; 29; 0; 0; 0x40; 0; 64; 17; 38; 206; 10; 0; 0; 1; 10; 0; 0; 2; 0; 80; 4; 1; 0; 9; 0; 0; 65].
Proof. reflexivity. Qed.

(** The address of the host is never filled in for an unset source address: its
    family is not IPv4 and the assertion before it fails. *)
Lemma unset_source_faults {QT QR} `{!BoundedQueue packet QT} `{!BoundedQueue queued_packet QR}
    (s : ipv4_state QT QR) dm dst pr pl :
  af dst = ipv4 → ipv4_transmit_packet s (Datagram dm dst unset_addr pr pl None) = Err assert_failed.
Proof. intros F. unfold ipv4_transmit_packet, get_family. simpl. by rewrite F. Qed.
