(* ===== verification/Sctp.v ===== *)
(** * SCTP (src/sctp.cpp, src/sctp.h, session::get_hash of src/session.cpp)

    The loop body of [sctp::operator()] with all the chunks it knows, [send_data],
    [end_session] and [add_handler].  A packet is parsed with [buffer_in], which
    throws when it ends too early; what was done to the sessions before the
    exception stays done, so the chunks are handled in a monad whose state
    survives an error.  The HMAC of OpenSSL and the key and time it is
    used with are parameters; so are the random numbers that are drawn and what the
    [new_data] of an application returns.  As for TCP, the callbacks of an
    application only hand their data to its threads.

    Shown: the handler ends and stays inside the packet for every packet; the
    four-way handshake, through the code of both packets, makes the session the INIT
    asked for; a session only comes to be with a cookie this host made; what
    [send_data] sends is delivered in order.  *)
From S2P Require Import Prelude Hash AnyAddr Buffers Checksum Net AddressCache Arp Router Ipv4.
Open Scope Z_scope.

Record sctp_session := SctpSession {
  ss_my_addr : any_addr; ss_my_port : Z; ss_their_addr : any_addr; ss_their_port : Z;
  my_tsn : Z;
  their_tsn : Z;
  my_stream_sequence_nr : Z;
  their_verification_tag : Z;
}.

Definition inc_my_tsn (s : sctp_session) (how_much : Z) : sctp_session :=
  SctpSession (ss_my_addr s) (ss_my_port s) (ss_their_addr s) (ss_their_port s)
    (u32 (my_tsn s + how_much)) (their_tsn s) (my_stream_sequence_nr s) (their_verification_tag s).
Definition inc_their_tsn (s : sctp_session) (how_much : Z) : sctp_session :=
  SctpSession (ss_my_addr s) (ss_my_port s) (ss_their_addr s) (ss_their_port s)
    (my_tsn s) (u32 (their_tsn s + how_much)) (my_stream_sequence_nr s) (their_verification_tag s).
Definition inc_my_stream_sequence_nr (s : sctp_session) : sctp_session :=
  SctpSession (ss_my_addr s) (ss_my_port s) (ss_their_addr s) (ss_their_port s)
    (my_tsn s) (their_tsn s) (u16 (my_stream_sequence_nr s + 1)) (their_verification_tag s).

(** a listener: which of its callbacks are set *)
Record sctp_handler := SctpHandler { sh_id : Z; sh_new_session : bool; sh_new_data : bool }.

Record sctp := Sctp { sctp_sessions : gmap Z sctp_session; sctp_listeners : gmap Z sctp_handler }.

Definition put_session (st : sctp) (hash : Z) (s : sctp_session) : sctp :=
  Sctp (<[hash := s]> (sctp_sessions st)) (sctp_listeners st).
Definition erase_session (st : sctp) (hash : Z) : sctp := Sctp (delete hash (sctp_sessions st)) (sctp_listeners st).

Definition sctp_add_handler (st : sctp) (port : Z) (h : sctp_handler) : sctp :=
  match sctp_listeners st !! port with
  | Some _ => st
  | None => Sctp (sctp_sessions st) (<[port := h]> (sctp_listeners st))
  end.

Inductive sctp_event :=
  | sctp_new_session (handler hash : Z)
  | sctp_new_data (handler hash : Z) (data : list Z).

(** [session::get_hash] *)
Definition session_hash (their_addr : any_addr) (their_port my_port : Z) : res Z :=
  let* temp := add_any_addr [] their_addr in
  let temp := add_net_short (add_net_short temp their_port) my_port in
  MurmurHash64A temp (zlen temp) 99194853094755497.

(** ** Actions that keep the state when they throw *)

(** the sessions and listeners, the callbacks made, and the random numbers to come *)
Record world := World { sw_sctp : sctp; sw_events : list sctp_event; sw_draws : list Z }.

Definition action (A : Type) : Type := world → world * res A.

Definition act_ret {A} (x : A) : action A := λ w, (w, Ok x).
Definition act_bind {A B} (m : action A) (k : A → action B) : action B :=
  λ w, match m w with
       | (w', Ok x) => k x w'
       | (w', Err e) => (w', Err e)
       end.
Definition act_res {A} (r : res A) : action A := λ w, (w, r).
Definition get_sctp : action sctp := λ w, (w, Ok (sw_sctp w)).
Definition modify_sctp (f : sctp → sctp) : action unit := λ w, (World (f (sw_sctp w)) (sw_events w) (sw_draws w), Ok tt).
Definition emit (e : sctp_event) : action unit := λ w, (World (sw_sctp w) (sw_events w ++ [e]) (sw_draws w), Ok tt).
(** [get_random] of an [uint32_t] *)
Definition draw : action Z :=
  λ w, match sw_draws w with
       | [] => (w, Err out_of_fuel)
       | x :: l => (World (sw_sctp w) (sw_events w) l, Ok (u32 x))
       end.

Notation "'let!' x := m 'in' k" := (act_bind m (λ x, k)) (at level 10, x name, m at level 100, k at level 200).
Notation "'let!' ' p := m 'in' k" := (act_bind m (λ p, k)) (at level 10, p strict pattern, m at level 100, k at level 200).

(** ** Chunks *)

Definition get_parameter (chunk_payload : buffer_in) : res (Z * buffer_in * buffer_in) :=
  let* '(type, b) := get_net_short chunk_payload in
  let* '(len, b) := get_net_short b in
  if len <? 4 then Err out_of_range
  else
    let* '(value, b) := get_segment b (len - 4) in
    let padding := Z.land len 3 in
    let* b := (if negb (padding =? 0) then seek b (4 - padding) else Ok b) in
    Ok (type, value, b).

(** the loop of [chunk_init] over the parameters *)
Fixpoint skip_parameters (fuel : nat) (b : buffer_in) : res buffer_in :=
  match fuel with
  | O => Err out_of_fuel
  | S fuel' =>
      if end_reached b then Ok b
      else
        let* '(_, b) := get_parameter b in
        skip_parameters fuel' b
  end.

Definition chunk_gen_abort : list Z := add_net_short (add_net_byte (add_net_byte [] 6) 0) 4.
Definition chunk_gen_shutdown : list Z := add_net_short (add_net_byte (add_net_byte [] 7) 0) 4.
Definition chunk_gen_cookie_ack : list Z := add_net_short (add_net_byte (add_net_byte [] 11) 0) 4.

Definition chunk_heartbeat_request (chunk_payload : buffer_in) : res (list Z) :=
  let out := add_net_byte (add_net_byte [] 5) 0 in
  let* '(length_offset, out) := add_net_short_at out 4 (-1) in
  let* '(out, _) := add_buffer_in out chunk_payload in
  let* '(_, out) := add_net_short_at out (zlen out) length_offset in
  Ok (add_padding out 4).

Inductive sctp_data_handling_result := dcb_close | dcb_abort | dcb_continue.

#[global] Instance dcb_eq_dec : EqDecision sctp_data_handling_result.
Proof. solve_decision. Defined.

(** the selective acknowledgement *)
Definition sack_chunk (tsn_before : Z) : res (list Z) :=
  let chunk_out := add_net_byte (add_net_byte [] 3) 3 in
  let* '(length_offset, chunk_out) := add_net_short_at chunk_out 0 (-1) in
  let chunk_out := add_net_long (add_net_long chunk_out tsn_before) 4096 in
  let chunk_out := add_net_short (add_net_short chunk_out 0) 0 in
  let* '(_, chunk_out) := add_net_short_at chunk_out (zlen chunk_out) length_offset in
  Ok (add_buffer_out [] chunk_out).

(** what has been collected while the chunks of a packet are handled *)
Record chunk_state := ChunkState { cs_reply : list Z; cs_send_reply : bool; cs_terminate : bool }.

Definition cs_add (cs : chunk_state) (out : list Z) : chunk_state :=
  ChunkState (add_buffer_out (cs_reply cs) out) (cs_send_reply cs) (cs_terminate cs).
Definition cs_set_terminate (cs : chunk_state) : chunk_state := ChunkState (cs_reply cs) (cs_send_reply cs) true.
Definition cs_no_reply (cs : chunk_state) : chunk_state := ChunkState (cs_reply cs) false (cs_terminate cs).
(** [reply.add_net_long(tag, their_verification_tag_offset)] *)
Definition cs_tag (cs : chunk_state) (tag offset : Z) : res chunk_state :=
  let* '(_, r) := add_net_long_at (cs_reply cs) tag offset in
  Ok (ChunkState r (cs_send_reply cs) (cs_terminate cs)).

Section Sctp.
Context (hmac : list Z → list Z → list Z).   (* HMAC(EVP_sha3_224(), key, data) *)
Context (state_cookie_key : list Z) (state_cookie_key_timestamp : Z).
Context (ndr : list Z → bool).               (* what [new_data] returns *)

Definition generate_state_cookie (their_addr : any_addr)
    (their_port local_port their_verification_tag their_initial_tsn my_initial_tsn : Z) : res (list Z) :=
  let sc := add_net_long [] their_verification_tag in
  let sc := add_net_long sc their_initial_tsn in
  let sc := add_net_long sc my_initial_tsn in
  let sc := add_net_byte sc (get_len their_addr) in
  let* sc := add_any_addr sc their_addr in
  let sc := add_net_short sc their_port in
  let sc := add_net_short sc local_port in
  let sc := add_net_long sc state_cookie_key_timestamp in
  let hash := hmac state_cookie_key sc in
  add_buffer sc hash 28.

(** the INIT ACK, and the tag of the other side *)
Definition chunk_init (chunk_payload : buffer_in) (my_verification_tag buffer_size : Z) (their_addr : any_addr)
    (their_port local_port : Z) : action (list Z * Z) :=
  let! '(initiate_tag, b) := act_res (get_net_long chunk_payload) in
  let! '(_, b) := act_res (get_net_long b) in
  let! '(_, b) := act_res (get_net_short b) in
  let! '(_, b) := act_res (get_net_short b) in
  let! '(their_initial_tsn, b) := act_res (get_net_long b) in
  let! _ := act_res (skip_parameters (S (length (bi_p b))) b) in
  let out := add_net_byte (add_net_byte [] 2) 0 in
  let! '(length_offset, out) := act_res (add_net_short_at out 0 (-1)) in
  let out := add_net_long (add_net_long out my_verification_tag) buffer_size in
  let out := add_net_short (add_net_short out 1) 1 in
  let! my_initial_tsn := draw in
  let out := add_net_long out my_initial_tsn in
  let out := add_net_short out 7 in
  let! state_cookie := act_res (generate_state_cookie their_addr their_port local_port initiate_tag their_initial_tsn my_initial_tsn) in
  let out := add_net_short out (4 + zlen state_cookie) in
  let out := add_buffer_out out state_cookie in
  let! '(_, out) := act_res (add_net_short_at out (zlen out) length_offset) in
  act_ret (add_padding out 4, initiate_tag).

(** whether the cookie is one of ours, their tag, and both initial TSNs *)
Definition chunk_cookie_echo (chunk_payload : buffer_in) (their_addr : any_addr) (their_port local_port : Z)
  : res (bool * Z * Z * Z) :=
  let* '(cookie_data, _) := get_segment chunk_payload (get_n_bytes_left chunk_payload) in
  let temp := copy_buffer_in cookie_data in
  let* '(their_verification_tag, temp) := get_net_long temp in
  let* '(their_initial_tsn, temp) := get_net_long temp in
  let* '(my_initial_tsn, _) := get_net_long temp in
  let* state_cookie := generate_state_cookie their_addr their_port local_port their_verification_tag their_initial_tsn my_initial_tsn in
  let* ok := compare state_cookie cookie_data in
  Ok (ok, their_verification_tag, their_initial_tsn, my_initial_tsn).

Definition chunk_data (hash : Z) (s : sctp_session) (h : sctp_handler) (chunk : buffer_in)
  : action (sctp_data_handling_result * list Z) :=
  let! '(current_tsn, b) := act_res (get_net_long chunk) in
  let! '(_, b) := act_res (get_net_short b) in
  let! '(_, b) := act_res (get_net_short b) in
  let! '(_, b) := act_res (get_net_long b) in
  let tsn_before := their_tsn s in
  let! result :=
    (if current_tsn =? their_tsn s then
       let payload_size := get_n_bytes_left b in
       let! _ := modify_sctp (λ st, put_session st hash (inc_their_tsn s 1)) in
       let! '(temp, _) := act_res (get_segment b payload_size) in
       let! data := act_res (peek (copy_buffer_in temp)) in
       let! _ := emit (sctp_new_data (sh_id h) hash data) in
       act_ret (if ndr data then dcb_continue else dcb_close)
     else act_ret dcb_continue) in
  let! out := act_res (sack_chunk tsn_before) in
  act_ret (result, out).

(** ** The chunks of a packet *)

Section Packet.
Context (pkt : packet) (source_port destination_port hash tag_offset : Z).

(** DATA; the boolean is [break] *)
Definition handle_data (chunk : buffer_in) (cs : chunk_state) : action (chunk_state * bool) :=
  let! st := get_sctp in
  match sctp_listeners st !! destination_port with
  | Some h =>
      if sh_new_data h then
        match sctp_sessions st !! hash with
        | Some s =>
            let! '(result, out) := chunk_data hash s h chunk in
            if decide (result = dcb_abort) then act_ret (cs_add (cs_set_terminate cs) chunk_gen_abort, true)
            else
              let cs := cs_add cs out in
              let cs := if decide (result = dcb_close) then cs_add cs chunk_gen_shutdown else cs in
              let! cs := act_res (cs_tag cs (their_verification_tag s) tag_offset) in
              act_ret (cs, false)
        | None => act_ret (cs, false)
        end
      else act_ret (cs_set_terminate (cs_add cs chunk_gen_abort), false)
  | None => act_ret (cs_set_terminate (cs_add cs chunk_gen_abort), false)
  end.

(** [do ... while(my_new_verification_tag == 0)] *)
Fixpoint draw_nonzero (fuel : nat) : action Z :=
  match fuel with
  | O => act_res (Err out_of_fuel)
  | S fuel' =>
      let! tag := draw in
      if tag =? 0 then draw_nonzero fuel' else act_ret tag
  end.

Definition handle_init (chunk : buffer_in) (cs : chunk_state) : action (chunk_state * bool) :=
  let! st := get_sctp in
  let has_listener := bool_decide (is_Some (sctp_listeners st !! destination_port)) in
  let! my_new_verification_tag := (λ w, draw_nonzero (S (length (sw_draws w))) w) in
  let! '(temp, their_initial_verification_tag) :=
    chunk_init chunk my_new_verification_tag 4096 (pkt_src pkt) source_port destination_port in
  let! cs := act_res (cs_tag cs their_initial_verification_tag tag_offset) in
  act_ret (if has_listener then cs_add cs temp else cs_set_terminate (cs_add cs chunk_gen_abort), false).

Definition handle_cookie_echo (chunk : buffer_in) (cs : chunk_state) : action (chunk_state * bool) :=
  let! '(cookie_ok, their_tag, their_initial_tsn, my_initial_tsn) :=
    act_res (chunk_cookie_echo chunk (pkt_src pkt) source_port destination_port) in
  let! st := get_sctp in
  let! cs :=
    (match sctp_listeners st !! destination_port with
     | Some h =>
         if cookie_ok && sh_new_session h then
           let! _ :=
             (match sctp_sessions st !! hash with
              | Some _ => act_ret tt
              | None =>
                  let s := SctpSession (pkt_dst pkt) destination_port (pkt_src pkt) source_port
                             my_initial_tsn their_initial_tsn 0 their_tag in
                  let! _ := emit (sctp_new_session (sh_id h) hash) in
                  modify_sctp (λ st, put_session st hash s)
              end) in
           act_ret (cs_add cs chunk_gen_cookie_ack)
         else act_ret (cs_set_terminate (cs_add cs chunk_gen_abort))
     | None => act_ret (cs_set_terminate (cs_add cs chunk_gen_abort))
     end) in
  let! cs := act_res (cs_tag cs their_tag tag_offset) in
  act_ret (cs, false).

Definition handle_chunk (type : Z) (chunk : buffer_in) (cs : chunk_state) : action (chunk_state * bool) :=
  if type =? 0 then handle_data chunk cs
  else if type =? 1 then handle_init chunk cs
  else if type =? 4 then
    let! out := act_res (chunk_heartbeat_request chunk) in
    act_ret (cs_add cs out, false)
  else if type =? 6 then act_ret (cs_no_reply (cs_set_terminate cs), true)
  else if type =? 10 then handle_cookie_echo chunk cs
  else act_ret (cs_no_reply cs, false).

Fixpoint chunk_loop (fuel : nat) (b : buffer_in) (cs : chunk_state) : action chunk_state :=
  match fuel with
  | O => act_res (Err out_of_fuel)
  | S fuel' =>
      if end_reached b then act_ret cs
      else
        let! '(type, b) := act_res (get_net_byte b) in
        let! '(_, b) := act_res (get_net_byte b) in
        let! '(len, b) := act_res (get_net_short b) in
        if len <? 4 then act_ret (cs_set_terminate cs)
        else
          let! '(chunk, b) := act_res (get_segment b (len - 4)) in
          let! '(cs, break) := handle_chunk type chunk cs in
          if break then act_ret cs
          else
            let padding := Z.land len 3 in
            let! b := act_res (if negb (padding =? 0) then seek b (4 - padding) else Ok b) in
            chunk_loop fuel' b cs
  end.
End Packet.

(** the [try] block *)
Definition sctp_packet (pkt : packet) : action (option datagram) :=
  let size := zlen (pkt_data pkt) in
  let b := mk_buffer_in (pkt_data pkt) size in
  let! '(source_port, b) := act_res (get_net_short b) in
  let! '(destination_port, b) := act_res (get_net_short b) in
  let! '(my_verification_tag, b) := act_res (get_net_long b) in
  let! '(checksum, b) := act_res (get_net_long b) in
  let! hash := act_res (session_hash (pkt_src pkt) source_port destination_port) in
  let reply := add_net_short (add_net_short [] destination_port) source_port in
  let! '(tag_offset, reply) := act_res (add_net_long_at reply (-1) (-1)) in
  let! '(crc_offset, reply) := act_res (add_net_long_at reply 0 (-1)) in
  let! cs := chunk_loop pkt source_port destination_port hash tag_offset (S (length (pkt_data pkt))) b
               (ChunkState reply true false) in
  let! out :=
    (if cs_send_reply cs then
       let! '(_, reply) := act_res (add_net_long_at (cs_reply cs) (generate_crc32c (cs_reply cs)) crc_offset) in
       act_ret (Some (Datagram None (pkt_src pkt) (pkt_dst pkt) 0x84 reply None))
     else act_ret None) in
  let! _ := (if cs_terminate cs then modify_sctp (λ st, erase_session st hash) else act_ret tt) in
  act_ret out.

(** the loop body of [operator()]; a packet that ends too early is caught *)
Definition sctp_handle (pkt : packet) (w : world) : res (world * option datagram) :=
  if zlen (pkt_data pkt) <? 12 then Ok (w, None)
  else
    match sctp_packet pkt w with
    | (w', Ok out) => Ok (w', out)
    | (w', Err out_of_range) => Ok (w', None)
    | (_, Err e) => Err e
    end.
End Sctp.

(** ** Sending *)

(** a DATA packet for [n_bytes_to_add] bytes: the packet, the session, the rest *)
Definition data_packet (s : sctp_session) (payload : buffer_in) (max_packet_size : Z)
  : res (list Z * sctp_session * buffer_in) :=
  let out := add_net_short (add_net_short [] (ss_my_port s)) (ss_their_port s) in
  let out := add_net_long out (their_verification_tag s) in
  let* '(crc_offset, out) := add_net_long_at out 0 (-1) in
  let out := add_net_byte (add_net_byte out 0) 3 in
  let n_bytes_to_add := Z.min (get_n_bytes_left payload) (max_packet_size - 50) in
  let out := add_net_short out (n_bytes_to_add + 16) in
  let out := add_net_long out (my_tsn s) in
  let s := inc_my_tsn s 1 in
  let out := add_net_short out 0 in
  let out := add_net_short out (my_stream_sequence_nr s) in
  let s := inc_my_stream_sequence_nr s in
  let out := add_net_long out 0 in
  let* '(temp_payload, payload) := get_segment payload n_bytes_to_add in
  let* '(out, _) := add_buffer_in out (copy_buffer_in temp_payload) in
  let out := add_padding out 4 in
  let* '(_, out) := add_net_long_at out (generate_crc32c out) crc_offset in
  Ok (out, s, payload).

Section Send.
Context {S : Type} (idev : S → datagram → res (bool * S)) (max_packet_size : Z).

Definition sctp_transmit_packet (ip : S) (dst_ip src_ip : any_addr) (payload : list Z) : res (bool * S) :=
  idev ip (Datagram None dst_ip src_ip 0x84 payload None).

Fixpoint sctp_send_loop (fuel : nat) (s : sctp_session) (payload : buffer_in) (ip : S) : res (bool * sctp_session * S) :=
  match fuel with
  | O => Err out_of_fuel
  | Datatypes.S fuel' =>
      if end_reached payload then Ok (true, s, ip)
      else
        let* '(out, s, payload) := data_packet s payload max_packet_size in
        let* '(ok, ip) := sctp_transmit_packet ip (ss_their_addr s) (ss_my_addr s) out in
        if negb ok then Ok (false, s, ip) else sctp_send_loop fuel' s payload ip
  end.

Definition sctp_send_data (s : sctp_session) (data : list Z) (ip : S) : res (bool * sctp_session * S) :=
  sctp_send_loop (Datatypes.S (length data)) s (mk_buffer_in data (zlen data)) ip.

Definition sctp_end_session (s : sctp_session) (ip : S) : res S :=
  let out := add_net_short (add_net_short [] (ss_my_port s)) (ss_their_port s) in
  let out := add_net_long out (their_verification_tag s) in
  let* '(crc_offset, out) := add_net_long_at out 0 (-1) in
  let out := add_buffer_out out chunk_gen_shutdown in
  let* '(_, out) := add_net_long_at out (generate_crc32c out) crc_offset in
  let* '(_, ip) := sctp_transmit_packet ip (ss_their_addr s) (ss_my_addr s) out in
  Ok ip.
End Send.

(** ** Reasoning about actions *)

(** from a state with [P], [m] returns with [Q] or throws [std::out_of_range] with [E];
    no other fault happens *)
Definition triple (P : world → Prop) {A} (m : action A) (Q : A → world → Prop) (E : world → Prop) : Prop :=
  ∀ w, P w → match m w with (w', Ok x) => Q x w' | (w', Err e) => e = out_of_range ∧ E w' end.

Section Triples.
Context (P E : world → Prop).

Lemma triple_ret {A} (x : A) (Q : A → world → Prop) : (∀ w, P w → Q x w) → triple P (act_ret x) Q E.
Proof. intros H w Hw. by apply H. Qed.

Lemma triple_bind {A B} (m : action A) (k : A → action B) (R : A → world → Prop) (Q : B → world → Prop) :
  triple P m R E → (∀ x, triple (R x) (k x) Q E) → triple P (act_bind m k) Q E.
Proof.
  intros Hm Hk w Hw. unfold act_bind. specialize (Hm w Hw). destruct (m w) as [w' [x|e]]; [|done]. by apply Hk.
Qed.

Lemma triple_res {A B} (r : res A) (k : A → action B) (Q : B → world → Prop) :
  (∀ w, P w → E w) → (r = Err out_of_range ∨ ∃ x, r = Ok x ∧ triple P (k x) Q E) → triple P (act_bind (act_res r) k) Q E.
Proof.
  intros HE [->|(x & -> & Hk)] w Hw; unfold act_bind, act_res; [split; [done|by apply HE]|by apply Hk].
Qed.

Lemma triple_get {B} (k : sctp → action B) (Q : B → world → Prop) :
  (∀ st, triple (λ w, P w ∧ sw_sctp w = st) (k st) Q E) → triple P (act_bind get_sctp k) Q E.
Proof. intros Hk w Hw. unfold act_bind, get_sctp. by apply Hk. Qed.

Lemma triple_conseq {A} (m : action A) (Q Q' : A → world → Prop) (P' : world → Prop) :
  triple P m Q E → (∀ w, P' w → P w) → (∀ x w, Q x w → Q' x w) → triple P' m Q' E.
Proof. intros Hm HP HQ w Hw. specialize (Hm w (HP w Hw)). destruct (m w) as [w' [x|e]]; auto. Qed.

Lemma triple_and {A} (C : Prop) (m : action A) (Q : A → world → Prop) : (C → triple P m Q E) → triple (λ w, P w ∧ C) m Q E.
Proof. intros H w [Hw HC]. by apply H. Qed.
End Triples.

Lemma run_res {A B} {r : res A} {x : A} {k : A → action B} {w} : r = Ok x → act_bind (act_res r) k w = k x w.
Proof. by intros ->. Qed.

(** a reader of a buffer that has room for what it reads, or throws *)
Lemma triple_reads P E {A B} (r : res (A * buffer_in)) (k : A * buffer_in → action B) Q b n :
  bi_wf b → reads b r n → 0 ≤ n → (∀ w, P w → E w) →
  (∀ v b', r = Ok (v, b') → bi_wf b' → remaining b' = drop (Z.to_nat n) (remaining b) →
     zlen (remaining b') = zlen (remaining b) - n → bi_size b' = bi_size b → triple P (k (v, b')) Q E) →
  triple P (act_bind (act_res r) k) Q E.
Proof.
  intros Hb Hr Hn HE Hk. apply triple_res; [done|]. unfold reads in Hr. case_decide as D; [|by left].
  destruct Hr as (v & -> & Hw & Hrem). right. eexists. split; [done|]. apply Hk; [done|done|done| |done].
  rewrite Hrem. unfold zlen in *. rewrite length_drop. lia.
Qed.

Lemma get_net_short_range b v b' : get_net_short b = Ok (v, b') → 0 ≤ v < 65536.
Proof.
  unfold get_net_short. destruct (check_room b 2); [|done]. cbn [res_bind]. unfold ptr_net_short.
  destruct (rd (bi_p b) (bi_o b)) as [x|]; [|done]. destruct (rd (bi_p b) (bi_o b + 1)) as [y|]; [|done].
  cbn [res_bind]. intros [= <- _]. apply u16_range.
Qed.

(** the values read from the packet are the bytes of the packet *)
Definition within (b : buffer_in) (data : list Z) : Prop :=
  bi_wf b ∧ bi_o b = 0 ∧ zlen (remaining b) ≤ 65535 ∧ ∃ pre post, data = pre ++ remaining b ++ post.

Lemma get_segment_reads_within b len data seg b' :
  bi_wf b → 0 ≤ len → (∃ pre post, data = pre ++ remaining b ++ post) → zlen data ≤ 65535 →
  get_segment b len = Ok (seg, b') → zlen (remaining b') = zlen (remaining b) - len →
  within seg data ∧ remaining seg = take (Z.to_nat len) (remaining b).
Proof.
  intros Hb Hl (pre & post & Ed) Hd Es Hz. pose proof (zlen_nonneg (remaining b')).
  set (l := take (Z.to_nat len) (remaining b)). set (rest := drop (Z.to_nat len) (remaining b)).
  assert (remaining b = l ++ rest) as E by (unfold l, rest; by rewrite take_drop).
  assert (zlen l = len) as Hll by (unfold l, zlen in *; rewrite length_take; lia).
  destruct (get_segment_spec b l rest Hb E) as (seg' & b'' & Es' & _ & _ & Ws & Rs & Os). rewrite Hll, Es in Es'.
  injection Es' as <- _. split; [|done]. split_and!; [done|done| |].
  - rewrite Rs. rewrite Ed, E in Hd. rewrite !zlen_app in Hd. pose proof (zlen_nonneg pre). pose proof (zlen_nonneg rest).
    pose proof (zlen_nonneg post). lia.
  - exists pre, (rest ++ post). rewrite Rs, Ed, E. by rewrite <- app_assoc.
Qed.

(** a result, or the exception *)
Definition throws_or {A} (r : res A) (P : A → Prop) : Prop := match r with Ok x => P x | Err e => e = out_of_range end.

Lemma throws_bind {A B} (r : res A) (k : A → res B) P Q :
  throws_or r P → (∀ x, P x → throws_or (k x) Q) → throws_or (res_bind r k) Q.
Proof. destruct r as [x|e]; cbn; auto. Qed.

Lemma throws_reads {A} b (r : res (A * buffer_in)) n :
  bi_wf b → 0 ≤ n → reads b r n →
  throws_or r (λ vb, bi_wf vb.2 ∧ zlen (remaining vb.2) = zlen (remaining b) - n ∧ bi_size vb.2 = bi_size b ∧ r = Ok vb).
Proof.
  intros Hb Hn Hr. unfold reads in Hr. case_decide as D; [|by rewrite Hr].
  destruct Hr as (v & -> & Hw & Hrem). cbn. split_and!; try done. rewrite Hrem. unfold zlen in *. rewrite length_drop. lia.
Qed.

Lemma seek_throws b n :
  bi_wf b → 0 ≤ n → bi_o b + n ≤ int_max →
  throws_or (seek b n) (λ b', bi_wf b' ∧ remaining b' = drop (Z.to_nat n) (remaining b) ∧ bi_size b' = bi_size b ∧
    zlen (remaining b') = zlen (remaining b) - n).
Proof.
  intros Hb Hn Hi. pose proof (seek_reads b Hb n Hn Hi) as Hr. unfold reads in Hr. case_decide as D.
  - destruct Hr as (v & E & Hw & Hrem). destruct (seek b n) as [b'|]; [|done]. cbn in E. injection E as _ ->. cbn.
    split_and!; try done. rewrite Hrem. unfold zlen in *. rewrite length_drop. lia.
  - destruct (seek b n) as [b'|]; [done|]. cbn in *. congruence.
Qed.

Lemma get_parameter_total b :
  bi_wf b → bi_size b ≤ 65535 →
  throws_or (get_parameter b) (λ p, bi_wf p.2 ∧ zlen (remaining p.2) < zlen (remaining b) ∧ bi_size p.2 = bi_size b).
Proof.
  intros Hb Hs. unfold get_parameter. pose proof Hb as ([? ?] & _).
  eapply throws_bind; [apply (throws_reads b _ 2 Hb ltac:(lia)), get_net_short_reads, Hb|].
  intros [type b1] (W1 & Z1 & S1 & _). cbn [snd] in *.
  eapply throws_bind; [apply (throws_reads b1 _ 2 W1 ltac:(lia)), get_net_short_reads, W1|].
  intros [len b2] (W2 & Z2 & S2 & E2). cbn [snd] in *. apply get_net_short_range in E2.
  destruct (Z.ltb_spec len 4) as [|Hlen]; [done|]. pose proof W2 as ([? ?] & _).
  eapply throws_bind; [apply (throws_reads b2 _ (len - 4) W2 ltac:(lia)), get_segment_reads; [done|lia|unfold int_max; lia]|].
  intros [value b3] (W3 & Z3 & S3 & _). cbn [snd] in *. pose proof W3 as ([? ?] & _).
  assert (0 ≤ Z.land len 3 < 4) as Hpad by (change 3 with (Z.ones 2); rewrite Z.land_ones by lia; apply Z.mod_pos_bound; lia).
  destruct (negb (Z.land len 3 =? 0)); [|cbn; split_and!; (done || lia)].
  pose proof (seek_throws b3 (4 - Z.land len 3) W3 ltac:(lia) ltac:(unfold int_max; lia)) as Hseek.
  destruct (seek b3 (4 - Z.land len 3)) as [b4|]; [|exact Hseek]. cbn in *. destruct Hseek as (? & ? & ? & ?). split_and!; (done || lia).
Qed.

(** the loop over the parameters, on any bytes *)
Lemma skip_parameters_total fuel b :
  bi_wf b → zlen (remaining b) < Z.of_nat fuel → bi_size b ≤ 65535 → throws_or (skip_parameters fuel b) (λ _, True).
Proof.
  revert b. induction fuel as [|fuel IH]; intros b Hb Hf Hs; [pose proof (zlen_nonneg (remaining b)); lia|].
  cbn [skip_parameters]. destruct (end_reached b); [done|].
  eapply throws_bind; [by apply get_parameter_total|]. intros [[t v] b'] (W & Zl & Sz). cbn in *. apply IH; [done|lia|lia].
Qed.

Lemma triple_throws P E {A B} (r : res A) (R : A → Prop) (k : A → action B) Q :
  throws_or r R → (∀ w, P w → E w) → (∀ x, r = Ok x → R x → triple P (k x) Q E) → triple P (act_bind (act_res r) k) Q E.
Proof. intros Hr HE Hk. apply triple_res; [done|]. destruct r as [x|e]; cbn in Hr; [right; eauto|left; congruence]. Qed.

(** ** Cookies *)

Section Cookie.
Context (hmac : list Z → list Z → list Z) (cookie_key : list Z) (timestamp : Z) (ndr : list Z → bool).
Context (Hhmac : ∀ k m, length (hmac k m) = 28%nat ∧ bytes_ok (hmac k m)).

Definition cookie_body (a : any_addr) (their_port local_port tag their_initial_tsn my_initial_tsn : Z) : list Z :=
  be32 tag ++ be32 their_initial_tsn ++ be32 my_initial_tsn ++ [get_len a] ++ (key a).2 ++
  be16 their_port ++ be16 local_port ++ be32 timestamp.

Lemma generate_state_cookie_eq a tp lp tag t1 t2 :
  good a →
  generate_state_cookie hmac cookie_key timestamp a tp lp tag t1 t2 =
    Ok (cookie_body a tp lp tag t1 t2 ++ hmac cookie_key (cookie_body a tp lp tag t1 t2)).
Proof.
  intros Hg. unfold generate_state_cookie. rewrite add_any_addr_good by done. cbn [res_bind].
  assert (add_net_long (add_net_short (add_net_short (add_net_byte (add_net_long (add_net_long (add_net_long [] tag) t1) t2)
            (get_len a) ++ (key a).2) tp) lp) timestamp = cookie_body a tp lp tag t1 t2) as ->.
  { unfold add_net_byte. rewrite u8_id; [unfold add_net_long, add_net_short; by rewrite <- !app_assoc|]. unfold get_len, byte_ok. destruct (good_size a Hg) as [-> _].
    pose proof (family_size_bound (af a)). lia. }
  unfold add_buffer. destruct (Hhmac cookie_key (cookie_body a tp lp tag t1 t2)) as [Hl _].
  rewrite rd_range_Ok by (unfold zlen; lia). cbn [res_bind]. change (Z.to_nat 0) with 0%nat. rewrite drop_0, take_ge by lia. done.
Qed.

Lemma session_hash_total a tp lp : good a → ∃ h, session_hash a tp lp = Ok h.
Proof.
  intros Hg. unfold session_hash. rewrite add_any_addr_good by done. cbn [res_bind]. apply MurmurHash64A_total.
  pose proof (zlen_nonneg (add_net_short (add_net_short ([] ++ (key a).2) tp) lp)). lia.
Qed.

(** ** A packet of any bytes *)

Section Safety.
Context (pkt : packet) (w0 : world) (sp dp hash : Z).
Context (Hsrc : good (pkt_src pkt)) (Hdata : bytes_ok (pkt_data pkt)) (Hsize : zlen (pkt_data pkt) ≤ 65535).

(** the session in the state before, up to the TSN that is expected *)
Definition same_session (s s0 : sctp_session) : Prop :=
  ∃ v, s = SctpSession (ss_my_addr s0) (ss_my_port s0) (ss_their_addr s0) (ss_their_port s0) (my_tsn s0) v
             (my_stream_sequence_nr s0) (their_verification_tag s0).

(** a session that was made for a cookie in the packet *)
Definition from_cookie (h : Z) (s : sctp_session) : Prop :=
  h = hash ∧
  ∃ pre cookie post t1, pkt_data pkt = pre ++ cookie ++ post ∧
    generate_state_cookie hmac cookie_key timestamp (pkt_src pkt) sp dp (their_verification_tag s) t1 (my_tsn s) = Ok cookie ∧
    ss_my_addr s = pkt_dst pkt ∧ ss_my_port s = dp ∧ ss_their_addr s = pkt_src pkt ∧ ss_their_port s = sp.

Definition sessions_ok (m : gmap Z sctp_session) : Prop :=
  ∀ h s, m !! h = Some s → (∃ s0, sctp_sessions (sw_sctp w0) !! h = Some s0 ∧ same_session s s0) ∨ from_cookie h s.

(** with [n] random numbers left, none of them 0 *)
Definition winv (n : nat) (w : world) : Prop :=
  sessions_ok (sctp_sessions (sw_sctp w)) ∧ sctp_listeners (sw_sctp w) = sctp_listeners (sw_sctp w0) ∧
  Forall (λ x, u32 x ≠ 0) (sw_draws w) ∧ (n ≤ length (sw_draws w))%nat.

Lemma winv_le n m w : (m ≤ n)%nat → winv n w → winv m w.
Proof. intros Hle (? & ? & ? & ?). split_and!; try done; lia. Qed.

Lemma same_session_inc s s0 n : same_session s s0 → same_session (inc_their_tsn s n) s0.
Proof. intros [v ->]. eexists. unfold inc_their_tsn. cbn. done. Qed.

Lemma from_cookie_inc h s n : from_cookie h s → from_cookie h (inc_their_tsn s n).
Proof. done. Qed.

Lemma winv_inc_tsn n w s :
  winv n w → sctp_sessions (sw_sctp w) !! hash = Some s →
  winv n (World (put_session (sw_sctp w) hash (inc_their_tsn s 1)) (sw_events w) (sw_draws w)).
Proof.
  intros (Hs & Hl & Hd & Hn) E. split_and!; try done. intros h s' H. unfold put_session in H. cbn in H.
  destruct (decide (h = hash)) as [->|N].
  - rewrite lookup_insert_eq in H. injection H as <-. destruct (Hs hash s E) as [(s0 & E0 & R)|F].
    + left. exists s0. split; [done|by apply same_session_inc].
    + right. by apply from_cookie_inc.
  - rewrite lookup_insert_ne in H by done. by apply Hs.
Qed.

Lemma sack_chunk_Ok tsn : ∃ out, sack_chunk tsn = Ok out.
Proof. by eexists. Qed.

Lemma chunk_data_safe n s h chunk :
  within chunk (pkt_data pkt) →
  triple (λ w, winv n w ∧ sctp_sessions (sw_sctp w) !! hash = Some s) (chunk_data ndr hash s h chunk)
    (λ r w, winv n w ∧ r.1 ≠ dcb_abort) (winv 0).
Proof.
  intros (W & _ & Hz & _). unfold chunk_data.
  assert (∀ w, winv n w ∧ sctp_sessions (sw_sctp w) !! hash = Some s → winv 0 w) as HE by (intros w [Hw _]; eapply winv_le, Hw; lia).
  eapply triple_reads; [done|apply get_net_long_reads, W|lia|done|]. intros tsn b1 _ W1 _ Z1 S1.
  eapply triple_reads; [done|apply get_net_short_reads, W1|lia|done|]. intros x2 b2 _ W2 _ Z2 S2.
  eapply triple_reads; [done|apply get_net_short_reads, W2|lia|done|]. intros x3 b3 _ W3 _ Z3 S3.
  eapply triple_reads; [done|apply get_net_long_reads, W3|lia|done|]. intros x4 b4 _ W4 _ Z4 S4.
  apply (triple_bind _ _ _ _ (λ r w, winv n w ∧ r ≠ dcb_abort)).
  - destruct (tsn =? their_tsn s); [|by apply triple_ret; intros w [? _]].
    eapply (triple_bind _ _ _ _ (λ _, winv n)); [intros w [Hw E]; by apply winv_inc_tsn|]. intros _.
    unfold get_n_bytes_left. rewrite <- (zlen_remaining b4 W4).
    destruct (get_segment_spec b4 (remaining b4) [] W4) as (seg & b5 & -> & _ & _ & Ws & Rs & Os); [by rewrite app_nil_r|].
    apply triple_res; [intros w Hw; eapply winv_le, Hw; lia|]. right. eexists. split; [done|].
    destruct (copy_spec seg Ws Os) as [Wc Rc]. rewrite peek_spec by done.
    apply triple_res; [intros w Hw; eapply winv_le, Hw; lia|]. right. eexists. split; [done|].
    eapply (triple_bind _ _ _ _ (λ _, winv n)); [intros w Hw; exact Hw|]. intros _.
    apply triple_ret. intros w Hw. split; [done|]. by destruct (ndr _).
  - intros r. destruct (sack_chunk_Ok (their_tsn s)) as [out ->]. apply triple_res.
    + intros w [Hw _]. eapply winv_le, Hw. lia.
    + right. eexists. split; [done|]. by apply triple_ret.
Qed.

(** the reply has its header *)
Definition cs_ok (cs : chunk_state) : Prop := 12 ≤ zlen (cs_reply cs).

Lemma cs_tag_ok cs tag : cs_ok cs → ∃ cs', cs_tag cs tag 4 = Ok cs' ∧ cs_ok cs'.
Proof.
  unfold cs_ok, cs_tag. destruct cs as [r sd te]. cbn [cs_reply]. intros Hr. rewrite add_net_long_at_Ok by lia. cbn [res_bind].
  eexists. split; [done|]. cbn [cs_reply]. unfold zlen in *. rewrite !length_app, length_take, length_drop. cbn [be32 length]. lia.
Qed.

Lemma cs_add_ok cs out : cs_ok cs → cs_ok (cs_add cs out).
Proof. unfold cs_ok, cs_add, add_buffer_out. cbn. rewrite zlen_app. pose proof (zlen_nonneg out). lia. Qed.

(** what a handler of chunks does *)
Definition chunk_safe (n : nat) (m : action (chunk_state * bool)) : Prop :=
  triple (winv (S (S n))) m (λ r w, winv n w ∧ cs_ok r.1) (winv 0).

Lemma handle_data_safe n chunk cs :
  within chunk (pkt_data pkt) → cs_ok cs → chunk_safe n (handle_data ndr dp hash 4 chunk cs).
Proof.
  intros Hc Hcs. unfold handle_data, chunk_safe.
  assert (∀ w, winv (S (S n)) w → winv n w) as Hn by (intros w; apply winv_le; lia).
  apply triple_get. intros st. destruct (sctp_listeners st !! dp) as [h|]; [destruct (sh_new_data h)|].
  - destruct (sctp_sessions st !! hash) as [s|] eqn:Es.
    + eapply (triple_bind _ _ _ _ (λ r w, winv n w ∧ r.1 ≠ dcb_abort)).
      * eapply triple_conseq; [by apply (chunk_data_safe n s h chunk)| |done]. intros w [Hw <-]. auto.
      * intros [result out]. cbn [fst]. destruct (decide (result = dcb_abort)) as [->|N]; [by intros w [_ []]|].
        destruct (cs_tag_ok (if decide (result = dcb_close) then cs_add (cs_add cs out) chunk_gen_shutdown else cs_add cs out) (their_verification_tag s))
          as (cs' & -> & Hcs'); [case_decide; by repeat apply cs_add_ok|].
        apply triple_res; [intros w [Hw _]; eapply winv_le, Hw; lia|]. right. eexists. split; [done|].
        apply triple_ret. by intros w [Hw _].
    + apply triple_ret. intros w [Hw _]. auto.
  - apply triple_ret. intros w [Hw _]. split; [auto|by apply cs_add_ok].
  - apply triple_ret. intros w [Hw _]. split; [auto|by apply cs_add_ok].
Qed.

Lemma draw_safe n : triple (winv (S n)) draw (λ x w, winv n w ∧ x ≠ 0) (winv 0).
Proof.
  intros [st ev l] (Hs & Hl & Hd & Hn). unfold draw. cbn [sw_sctp sw_events sw_draws] in *. destruct l as [|x l]; [simpl in Hn; lia|].
  pose proof (Forall_inv Hd) as Hx. apply Forall_inv_tail in Hd. cbn [length] in Hn. unfold winv. cbn. split_and!; try done. lia.
Qed.

Lemma chunk_init_safe n chunk tag bs :
  within chunk (pkt_data pkt) →
  triple (winv (S n)) (chunk_init hmac cookie_key timestamp chunk tag bs (pkt_src pkt) sp dp) (λ _, winv n) (winv 0).
Proof.
  intros (W & Ho & Hz & _). unfold chunk_init. assert (∀ m w, winv m w → winv 0 w) as HE by (intros m w; apply winv_le; lia).
  pose proof (zlen_remaining chunk W) as Hr.
  eapply triple_reads; [done|apply get_net_long_reads, W|lia|apply HE|]. intros tg b1 E1 W1 _ Z1 S1.
  eapply triple_reads; [done|apply get_net_long_reads, W1|lia|apply HE|]. intros x2 b2 E2 W2 _ Z2 S2.
  eapply triple_reads; [done|apply get_net_short_reads, W2|lia|apply HE|]. intros x3 b3 E3 W3 _ Z3 S3.
  eapply triple_reads; [done|apply get_net_short_reads, W3|lia|apply HE|]. intros x4 b4 E4 W4 _ Z4 S4.
  eapply triple_reads; [done|apply get_net_long_reads, W4|lia|apply HE|]. intros t1 b5 E5 W5 _ Z5 S5.
  eapply triple_throws; [apply (skip_parameters_total _ b5 W5)|apply HE|].
  { pose proof (zlen_remaining b5 W5). destruct W5 as ([? ?] & ? & _). unfold zlen in *. lia. }
  { destruct W as (_ & _ & _ & _). lia. }
  intros b6 _ _. eapply triple_res; [apply HE|]. right. eexists. split; [done|].
  eapply triple_bind; [apply draw_safe|]. intros t2.
  rewrite generate_state_cookie_eq by done. eapply triple_res; [intros w [Hw _]; by eapply HE|]. right. eexists. split; [done|].
  rewrite add_net_short_at_Ok; [|done|].
  - eapply triple_res; [intros w [Hw _]; by eapply HE|]. right. eexists. split; [done|]. apply triple_ret. by intros w [Hw _].
  - unfold add_buffer_out, add_net_short, add_net_long, add_net_byte, zlen. rewrite !length_app. cbn [length]. lia.
Qed.

Lemma handle_init_safe n chunk cs :
  within chunk (pkt_data pkt) → cs_ok cs →
  chunk_safe n (handle_init hmac cookie_key timestamp pkt sp dp 4 chunk cs).
Proof.
  intros Hc Hcs. unfold handle_init, chunk_safe. apply triple_get. intros st.
  apply (triple_bind _ _ _ _ (λ _, winv (S n))).
  { intros w [Hw _]. pose proof (draw_safe (S n) w Hw) as Hd. cbn [draw_nonzero]. unfold act_bind.
    destruct (draw w) as [w' [x|e]]; [|done]. destruct Hd as [Hw' Hx]. by rewrite (proj2 (Z.eqb_neq x 0)) by done. }
  intros tag. eapply triple_bind; [by apply chunk_init_safe|]. intros [temp itag].
  destruct (cs_tag_ok cs itag Hcs) as (cs' & -> & Hcs').
  apply triple_res; [intros w; apply winv_le; lia|]. right. eexists. split; [done|]. apply triple_ret. intros w Hw. split; [done|].
  cbn [fst]. case_bool_decide; by apply cs_add_ok.
Qed.

Lemma compare_spec l b : bi_wf b → compare l b = Ok (bool_decide (remaining b = l)).
Proof. intros Hb. unfold compare. by rewrite peek_spec. Qed.

Lemma chunk_cookie_echo_total chunk :
  within chunk (pkt_data pkt) →
  throws_or (chunk_cookie_echo hmac cookie_key timestamp chunk (pkt_src pkt) sp dp) (λ '(ok, tag, t1, t2),
    ok = true → ∃ pre cookie post, pkt_data pkt = pre ++ cookie ++ post ∧
      generate_state_cookie hmac cookie_key timestamp (pkt_src pkt) sp dp tag t1 t2 = Ok cookie).
Proof.
  intros (W & Ho & Hz & pre & post & Ed). unfold chunk_cookie_echo, get_n_bytes_left. rewrite <- (zlen_remaining chunk W).
  destruct (get_segment_spec chunk (remaining chunk) [] W) as (seg & b' & -> & _ & _ & Ws & Rs & Os); [by rewrite app_nil_r|].
  cbn [res_bind]. destruct (copy_spec seg Ws Os) as [Wc Rc].
  eapply throws_bind; [apply (throws_reads _ _ 4 Wc ltac:(lia)), get_net_long_reads, Wc|]. intros [tag b1] (W1 & _). cbn [snd] in *.
  eapply throws_bind; [apply (throws_reads _ _ 4 W1 ltac:(lia)), get_net_long_reads, W1|]. intros [t1 b2] (W2 & _). cbn [snd] in *.
  eapply throws_bind; [apply (throws_reads _ _ 4 W2 ltac:(lia)), get_net_long_reads, W2|]. intros [t2 b3] _.
  rewrite generate_state_cookie_eq by done. cbn [res_bind]. rewrite compare_spec by done.
  cbn [res_bind throws_or]. intros E%bool_decide_eq_true. rewrite Rs in E. exists pre, (remaining chunk), post. split; [done|]. by rewrite generate_state_cookie_eq, E.
Qed.

Lemma winv_new_session n w s h :
  winv n w → from_cookie hash s →
  winv n (World (put_session (sw_sctp w) hash s) (sw_events w ++ [sctp_new_session h hash]) (sw_draws w)).
Proof.
  intros (Hs & Hl & Hd & Hn) Hc. split_and!; try done. intros h' s' H. unfold put_session in H. cbn in H.
  destruct (decide (h' = hash)) as [->|N].
  - rewrite lookup_insert_eq in H. injection H as <-. by right.
  - rewrite lookup_insert_ne in H by done. by apply Hs.
Qed.

Lemma handle_cookie_echo_safe n chunk cs :
  within chunk (pkt_data pkt) → cs_ok cs →
  chunk_safe n (handle_cookie_echo hmac cookie_key timestamp pkt sp dp hash 4 chunk cs).
Proof.
  intros Hc Hcs. unfold handle_cookie_echo, chunk_safe. assert (∀ m w, winv m w → winv 0 w) as HE by (intros m w; apply winv_le; lia).
  assert (∀ w, winv (S (S n)) w → winv n w) as Hn by (intros w; apply winv_le; lia).
  eapply triple_throws; [by apply chunk_cookie_echo_total|apply HE|]. intros [[[ok tag] t1] t2] _ Hok.
  apply triple_get. intros st. apply (triple_bind _ _ _ _ (λ cs w, winv n w ∧ cs_ok cs)).
  - destruct (sctp_listeners st !! dp) as [h|].
    + destruct ok; [destruct (sh_new_session h)|]; cbn [andb].
      * apply (triple_bind _ _ _ _ (λ _, winv n)); [|intros _; apply triple_ret; intros w Hw; split; [done|by apply cs_add_ok]].
        destruct (sctp_sessions st !! hash); [apply triple_ret; by intros w [Hw _]; auto|].
        intros w [Hw _]. cbn. apply winv_new_session; [by apply Hn|]. split; [done|].
        destruct (Hok eq_refl) as (pre & cookie & post & Ed & Eg). exists pre, cookie, post, t1. done.
      * apply triple_ret. intros w [Hw _]. split; [by apply Hn|by apply cs_add_ok].
      * apply triple_ret. intros w [Hw _]. split; [by apply Hn|by apply cs_add_ok].
    + apply triple_ret. intros w [Hw _]. split; [by apply Hn|by apply cs_add_ok].
  - intros cs1 w [Hw Hcs1]. destruct (cs_tag_ok cs1 tag Hcs1) as (cs' & -> & Hcs'). by cbn.
Qed.

(** a heartbeat is answered with its own information *)
Lemma heartbeat_spec chunk :
  bi_wf chunk →
  chunk_heartbeat_request chunk = Ok (add_padding ([5; 0] ++ be16 (4 + zlen (remaining chunk)) ++ remaining chunk) 4).
Proof.
  intros W. unfold chunk_heartbeat_request.
  change (add_net_short_at (add_net_byte (add_net_byte [] 5) 0) 4 (-1)) with (@Ok (Z * list Z) (2, [5; 0; 0; 4])). cbn [res_bind].
  destruct (add_buffer_in_spec chunk [5; 0; 0; 4] W) as [b' ->]. cbn [res_bind].
  change ([5; 0; 0; 4] ++ remaining chunk) with ([5; 0] ++ [0; 4] ++ remaining chunk). change 2 with (zlen [5; 0]).
  rewrite add_net_short_at_mid by done. cbn [res_bind].
  by replace (zlen ([5; 0] ++ [0; 4] ++ remaining chunk)) with (4 + zlen (remaining chunk)) by (unfold zlen; simpl; lia).
Qed.

Lemma handle_chunk_safe n type chunk cs :
  within chunk (pkt_data pkt) → cs_ok cs →
  chunk_safe n (handle_chunk hmac cookie_key timestamp ndr pkt sp dp hash 4 type chunk cs).
Proof.
  intros Hc Hcs. unfold handle_chunk.
  assert (∀ w, winv (S (S n)) w → winv n w) as Hn by (intros w; apply winv_le; lia).
  destruct (type =? 0); [by apply handle_data_safe|]. destruct (type =? 1); [by apply handle_init_safe|].
  destruct (type =? 4).
  { destruct Hc as (W & _). rewrite heartbeat_spec by done. apply triple_res; [intros w; apply winv_le; lia|].
    right. eexists. split; [done|]. apply triple_ret. intros w Hw. split; [auto|by apply cs_add_ok]. }
  destruct (type =? 6); [apply triple_ret; auto|]. destruct (type =? 10); [by apply handle_cookie_echo_safe|]. apply triple_ret; auto.
Qed.

Lemma chunk_loop_safe fuel b cs :
  bi_wf b → (∃ pre post, pkt_data pkt = pre ++ remaining b ++ post) → bi_size b ≤ 65535 → cs_ok cs →
  zlen (remaining b) < Z.of_nat fuel →
  triple (winv (2 * fuel)) (chunk_loop hmac cookie_key timestamp ndr pkt sp dp hash 4 fuel b cs) (λ cs w, winv 0 w ∧ cs_ok cs) (winv 0).
Proof.
  revert b cs. induction fuel as [|fuel IH]; intros b cs W (pre & post & Ed) Hs Hcs Hf; [pose proof (zlen_nonneg (remaining b)); lia|].
  assert (∀ m w, winv m w → winv 0 w) as HE by (intros m w; apply winv_le; lia).
  cbn [chunk_loop]. destruct (end_reached b); [apply triple_ret; intros w Hw; by eauto|].
  eapply triple_reads; [done|apply get_net_byte_reads, W|lia|apply HE|]. intros type b1 _ W1 R1 Z1 S1.
  eapply triple_reads; [done|apply get_net_byte_reads, W1|lia|apply HE|]. intros x2 b2 _ W2 R2 Z2 S2.
  eapply triple_reads; [done|apply get_net_short_reads, W2|lia|apply HE|]. intros len b3 E3 W3 R3 Z3 S3.
  apply get_net_short_range in E3. destruct (Z.ltb_spec len 4) as [|Hlen]; [apply triple_ret; intros w Hw; by eauto|].
  pose proof W3 as ([? ?] & _).
  eapply triple_reads; [done|apply get_segment_reads; [done|lia|unfold int_max; lia]|lia|apply HE|]. intros chunk b4 E4 W4 R4 Z4 S4.
  assert (pkt_data pkt = (pre ++ take 4 (remaining b)) ++ remaining b3 ++ post) as E34.
  { rewrite <- app_assoc, Ed. f_equal. rewrite app_assoc. f_equal. rewrite R3, R2, R1, !drop_drop.
    change (Z.to_nat 1 + (Z.to_nat 1 + Z.to_nat 2))%nat with 4%nat. by rewrite take_drop. }
  destruct (get_segment_reads_within b3 (len - 4) (pkt_data pkt) chunk b4) as [Hc Rc]; [done|lia|by do 2 eexists|done|done|done|].
  apply (triple_bind _ _ _ _ (λ r w, winv (2 * fuel) w ∧ cs_ok r.1)).
  { eapply triple_conseq; [by apply (handle_chunk_safe (2 * fuel))|intros w; apply winv_le; lia|done]. }
  intros [cs' brk]. cbn [fst]. destruct brk; [apply triple_ret; intros w [Hw ?]; by eauto|].
  apply triple_and. intros Hcs'.
  assert (∃ pre post, pkt_data pkt = pre ++ remaining b4 ++ post) as Hsub4.
  { exists ((pre ++ take 4 (remaining b)) ++ take (Z.to_nat (len - 4)) (remaining b3)), post.
    rewrite E34, R4, <- !app_assoc. do 2 f_equal. rewrite (app_assoc (take _ _)). by rewrite take_drop. }
  refine (triple_throws (winv (2 * fuel)) (winv 0) _
    (λ b5, bi_wf b5 ∧ (∃ pre post, pkt_data pkt = pre ++ remaining b5 ++ post) ∧ bi_size b5 = bi_size b4 ∧
           zlen (remaining b5) ≤ zlen (remaining b4)) _ _ _ (HE _) _).
  - destruct (negb (Z.land len 3 =? 0)); [|split_and!; done || lia].
    assert (0 ≤ Z.land len 3 < 4) as Hpad by (change 3 with (Z.ones 2); rewrite Z.land_ones by lia; apply Z.mod_pos_bound; lia).
    pose proof W4 as ([? ?] & _). pose proof (seek_throws b4 (4 - Z.land len 3) W4 ltac:(lia) ltac:(unfold int_max; lia)) as Hk.
    destruct (seek b4 (4 - Z.land len 3)) as [b5|]; [|exact Hk]. cbn in *. destruct Hk as (W5 & R5 & S5 & Z5).
    split_and!; [done| |done|lia]. destruct Hsub4 as (p4 & q4 & ->).
    exists (p4 ++ take (Z.to_nat (4 - Z.land len 3)) (remaining b4)), q4. rewrite R5, <- !app_assoc. f_equal.
    rewrite app_assoc. by rewrite take_drop.
  - intros b5 _ (W5 & Hsub5 & S5 & Z5). apply IH; [done|done|lia|done|lia].
Qed.

Lemma winv_erase n w : winv n w → winv n (World (erase_session (sw_sctp w) hash) (sw_events w) (sw_draws w)).
Proof.
  intros (Hs & Hl & Hd & Hn). split_and!; try done. intros h s H. unfold erase_session in H. cbn in H.
  apply lookup_delete_Some in H as [_ H]. by apply Hs.
Qed.
End Safety.

Lemma get_net_short_ptr b v b' : get_net_short b = Ok (v, b') → ptr_net_short (bi_p b) (bi_o b) = Ok v ∧ bi_p b' = bi_p b ∧ bi_o b' = bi_o b + 2.
Proof.
  unfold get_net_short. destruct (check_room b 2); [|done]. cbn [res_bind].
  destruct (ptr_net_short (bi_p b) (bi_o b)); [|done]. cbn [res_bind]. by intros [= -> <-].
Qed.

(** the [try] block; the ports are those of the packet *)
Lemma sctp_packet_safe pkt w0 :
  good (pkt_src pkt) → bytes_ok (pkt_data pkt) → 12 ≤ zlen (pkt_data pkt) ≤ 65535 →
  Forall (λ x, u32 x ≠ 0) (sw_draws w0) → (2 * length (pkt_data pkt) + 2 ≤ length (sw_draws w0))%nat →
  ∃ sp dp hash, ptr_net_short (pkt_data pkt) 0 = Ok sp ∧ ptr_net_short (pkt_data pkt) 2 = Ok dp ∧
    session_hash (pkt_src pkt) sp dp = Ok hash ∧
    triple (λ w, w = w0) (sctp_packet hmac cookie_key timestamp ndr pkt) (λ _, winv pkt w0 sp dp hash 0) (winv pkt w0 sp dp hash 0).
Proof.
  intros Hg HB [Hl1 Hl2] Hd Hn. set (data := pkt_data pkt) in *.
  destruct (mk_buffer_wf data HB) as [W R]; [unfold int_max; lia|]. set (b := mk_buffer_in data (zlen data)) in *.
  pose proof (throws_reads b _ 2 W ltac:(lia) (get_net_short_reads b W)) as H1.
  pose proof (get_net_short_reads b W) as G1. unfold reads in G1. rewrite decide_True in G1 by (rewrite R; lia).
  destruct G1 as (sp & E1 & _). rewrite E1 in H1. destruct H1 as (W1 & Z1 & S1 & _). cbn [snd] in *. set (b1 := move b (bi_o b + 2)) in *.
  pose proof (get_net_short_reads b1 W1) as G2. unfold reads in G2. rewrite decide_True in G2 by (rewrite Z1, R; lia).
  destruct G2 as (dp & E2 & W2 & _). destruct (session_hash_total (pkt_src pkt) sp dp Hg) as [hash Eh].
  destruct (get_net_short_ptr b sp b1 E1) as (P1 & Pp1 & Po1). destruct (get_net_short_ptr b1 dp _ E2) as (P2 & _ & _).
  exists sp, dp, hash. split_and!; [exact P1|rewrite Pp1, Po1 in P2; exact P2|done|].
  assert (∀ w, w = w0 → winv pkt w0 sp dp hash (2 * S (length data)) w) as Hinit.
  { intros w ->. split_and!; [|done|done|lia]. intros h s H. left. exists s. split; [done|]. exists (their_tsn s). by destruct s. }
  unfold sctp_packet. fold data. fold b. rewrite E1.
  apply (triple_conseq (winv pkt w0 sp dp hash (2 * S (length data))) (winv pkt w0 sp dp hash 0) _ (λ _, winv pkt w0 sp dp hash 0));
    [|exact Hinit|done].
  assert (∀ m w, winv pkt w0 sp dp hash m w → winv pkt w0 sp dp hash 0 w) as HE by (intros m w; apply winv_le; lia).
  apply triple_res; [apply HE|]. right. eexists. split; [done|]. cbv beta iota. rewrite E2.
  apply triple_res; [apply HE|]. right. eexists. split; [done|]. cbv beta iota.
  eapply triple_reads; [exact W2|apply get_net_long_reads, W2|lia|apply HE|]. intros tag b3 _ W3 R3 Z3 S3.
  eapply triple_reads; [exact W3|apply get_net_long_reads, W3|lia|apply HE|]. intros crc b4 _ W4 R4 Z4 S4.
  rewrite Eh. apply triple_res; [apply HE|]. right. eexists. split; [done|].
  apply triple_res; [apply HE|]. right. exists (4, be16 dp ++ be16 sp ++ be32 (-1)). split; [done|].
  apply triple_res; [apply HE|]. right. exists (8, be16 dp ++ be16 sp ++ be32 (-1) ++ be32 0). split; [done|].
  assert (zlen (remaining b4) < Z.of_nat (S (length data))) as Hfuel.
  { rewrite Z4, Z3. pose proof (zlen_remaining _ W2) as Z2. pose proof W2 as ([? ?] & _). cbn in *. unfold zlen in *. lia. }
  assert (∃ pre post, data = pre ++ remaining b4 ++ post) as Hsub.
  { exists (take 12 data), []. rewrite app_nil_r, R4, R3. rewrite remaining_move by (done || (rewrite ?Z1, ?R; lia)).
    unfold b1. rewrite remaining_move by (done || (rewrite ?R; lia)). rewrite R, !drop_drop. by rewrite take_drop. }
  assert (bi_size b4 ≤ 65535) as Hs4 by (rewrite S4, S3; exact Hl2).
  eapply triple_bind; [apply chunk_loop_safe; [done|done|done|done|done|done|exact Hfuel]|].
  intros cs. apply (triple_bind _ _ _ _ (λ _, winv pkt w0 sp dp hash 0)).
  - apply triple_and. intros Hcs. destruct (cs_send_reply cs); [|by apply triple_ret].
    rewrite add_net_long_at_Ok by (unfold cs_ok in Hcs; lia). apply triple_res; [done|]. right. eexists. split; [done|]. by apply triple_ret.
  - intros out. apply (triple_bind _ _ _ _ (λ _, winv pkt w0 sp dp hash 0)); [|intros _; by apply triple_ret].
    destruct (cs_terminate cs); [|by apply triple_ret]. intros w Hw. by apply winv_erase.
Qed.

(** C26: Whatever bytes a packet holds, the SCTP handler returns: it never leaves
    the packet, never loops, and a packet that ends too early is dropped.  After it
    every session was there before, with at most another expected TSN, or was made
    for the addresses and ports of this packet from a cookie in the packet that this
    host made for them; so nobody can open a session without a cookie.  (The
    HMAC of OpenSSL gives 28 bytes; the random numbers are not 0.) *)
Theorem sctp_handle_safe pkt w0 :
  good (pkt_src pkt) → bytes_ok (pkt_data pkt) → zlen (pkt_data pkt) ≤ 65535 →
  Forall (λ x, u32 x ≠ 0) (sw_draws w0) → (2 * length (pkt_data pkt) + 2 ≤ length (sw_draws w0))%nat →
  ∃ w' out, sctp_handle hmac cookie_key timestamp ndr pkt w0 = Ok (w', out) ∧
    sctp_listeners (sw_sctp w') = sctp_listeners (sw_sctp w0) ∧
    ∀ h s, sctp_sessions (sw_sctp w') !! h = Some s →
      (∃ s0, sctp_sessions (sw_sctp w0) !! h = Some s0 ∧ same_session s s0) ∨
      (∃ sp dp, ptr_net_short (pkt_data pkt) 0 = Ok sp ∧ ptr_net_short (pkt_data pkt) 2 = Ok dp ∧
                session_hash (pkt_src pkt) sp dp = Ok h ∧ from_cookie pkt sp dp h h s).
Proof.
  intros Hg HB Hl Hd Hn. unfold sctp_handle. destruct (Z.ltb_spec (zlen (pkt_data pkt)) 12) as [|H12].
  { exists w0, None. split_and!; try done. intros h s Hh. left. exists s. split; [done|]. exists (their_tsn s). by destruct s. }
  destruct (sctp_packet_safe pkt w0 Hg HB (conj H12 Hl) Hd Hn) as (sp & dp & hash & E1 & E2 & Eh & Ht).
  specialize (Ht w0 eq_refl). destruct (sctp_packet hmac cookie_key timestamp ndr pkt w0) as [w' [out|e]]; [|destruct Ht as [-> Ht]];
    destruct Ht as (Hs & Hls & _); do 2 eexists; (split; [done|]); (split; [done|]); intros h s H;
    (destruct (Hs h s H) as [?|F]; [by left|right]); destruct F as [-> F]; exists sp, dp; done.
Qed.

(** ** Packets with one chunk *)

(** the bytes that pad a length to a multiple of four *)
Definition pad4 (n : Z) : list Z := replicate (Z.to_nat ((- n) mod 4)) 0.

Lemma zlen_pad4 n : zlen (pad4 n) = if Z.land n 3 =? 0 then 0 else 4 - Z.land n 3.
Proof.
  unfold pad4, zlen. rewrite length_replicate. change 3 with (Z.ones 2). rewrite Z.land_ones by lia. change (2 ^ 2) with 4.
  pose proof (Z.mod_pos_bound n 4 ltac:(lia)). destruct (Z.eqb_spec (n mod 4) 0) as [E|N].
  - rewrite Z.mod_opp_l_z by done. done.
  - rewrite Z.mod_opp_l_nz by done. lia.
Qed.

Lemma seek_pad b len rest :
  bi_wf b → remaining b = pad4 len ++ rest →
  ∃ b', (if negb (Z.land len 3 =? 0) then seek b (4 - Z.land len 3) else Ok b) = Ok b' ∧ bi_wf b' ∧ remaining b' = rest.
Proof.
  intros Hb E. pose proof (zlen_pad4 len) as Z4. destruct (Z.land len 3 =? 0); cbn [negb].
  - exists b. assert (pad4 len = []) as E0 by (destruct (pad4 len) as [|x l]; [done|rewrite zlen_cons in Z4; pose proof (zlen_nonneg l); lia]).
    by rewrite E0 in E.
  - rewrite <- Z4. by apply seek_spec.
Qed.

Lemma add_padding_pad4 l : add_padding l 4 = l ++ pad4 (zlen l).
Proof.
  unfold add_padding, pad4. pose proof (Z.mod_pos_bound (zlen l) 4 ltac:(lia)).
  destruct (Z.eqb_spec (4 - zlen l mod 4) 4) as [E|N]; cbn [negb].
  - rewrite Z.mod_opp_l_z by lia. by rewrite app_nil_r.
  - by rewrite Z.mod_opp_l_nz by lia.
Qed.

Definition chunk_bytes (type flags : Z) (v : list Z) : list Z := [type; flags] ++ be16 (4 + zlen v) ++ v ++ pad4 (4 + zlen v).
Definition sctp_bytes (sp dp tag crc : Z) (chunks : list Z) : list Z := be16 sp ++ be16 dp ++ be32 tag ++ be32 crc ++ chunks.

(** what is sent: the CRC is that of the packet with the field 0 *)
Definition sctp_out (sp dp tag : Z) (chunks : list Z) : list Z :=
  sctp_bytes sp dp tag (generate_crc32c (sctp_bytes sp dp tag 0 chunks)) chunks.

Definition u16_ok (x : Z) : Prop := 0 ≤ x < 65536.
Definition u32_ok (x : Z) : Prop := 0 ≤ x < 4294967296.

Lemma bytes_ok_pad4 n : bytes_ok (pad4 n).
Proof. apply bytes_ok_replicate. unfold byte_ok. lia. Qed.

Lemma chunk_bytes_ok type flags v : byte_ok type → byte_ok flags → bytes_ok v → bytes_ok (chunk_bytes type flags v).
Proof.
  intros. unfold chunk_bytes. bytes_fields; [solve_bytes|done|apply bytes_ok_pad4].
Qed.

Lemma sctp_bytes_ok sp dp tag crc chunks : bytes_ok chunks → bytes_ok (sctp_bytes sp dp tag crc chunks).
Proof. intros. unfold sctp_bytes. by bytes_fields. Qed.

(** the last chunk of a packet *)
Lemma chunk_loop_last pkt sp dp hash o fuel b cs w type flags v :
  bi_wf b → byte_ok type → byte_ok flags → remaining b = chunk_bytes type flags v → 4 + zlen v < 65536 →
  ∃ seg, bi_wf seg ∧ remaining seg = v ∧ bi_o seg = 0 ∧
    chunk_loop hmac cookie_key timestamp ndr pkt sp dp hash o (S (S fuel)) b cs w =
      match handle_chunk hmac cookie_key timestamp ndr pkt sp dp hash o type seg cs w with
      | (w', Ok r) => (w', Ok r.1)
      | (w', Err e) => (w', Err e)
      end.
Proof.
  intros W Ht Hf R Hl. pose proof (zlen_nonneg v). unfold chunk_bytes in R. cbn [app] in R.
  destruct (get_net_byte_spec b type _ W R) as (b1 & E1 & W1 & R1). destruct (get_net_byte_spec b1 flags _ W1 R1) as (b2 & E2 & W2 & R2).
  destruct (get_net_short_spec b2 (4 + zlen v) _ W2 ltac:(lia) R2) as (b3 & E3 & W3 & R3).
  destruct (get_segment_spec b3 v _ W3 R3) as (seg & b4 & E4 & W4 & R4 & Ws & Rs & Os). exists seg. split_and!; [done..|].
  cbn [chunk_loop]. rewrite end_reached_spec by done. rewrite R, bool_decide_eq_false_2 by done.
  unfold act_bind, act_res. rewrite E1, E2, E3. rewrite (proj2 (Z.ltb_ge (4 + zlen v) 4)) by lia.
  replace (4 + zlen v - 4) with (zlen v) by lia. rewrite E4.
  destruct (handle_chunk hmac cookie_key timestamp ndr pkt sp dp hash o type seg cs w) as [w' [[cs' brk]|e]]; [|done].
  destruct brk; [done|]. rewrite <- (app_nil_r (pad4 _)) in R4. destruct (seek_pad b4 _ [] W4 R4) as (b5 & E5 & W5 & R5).
  rewrite E5. cbn [fst]. rewrite end_reached_spec by done. rewrite R5. by rewrite bool_decide_eq_true_2.
Qed.

(** the reply before its first chunk *)
Definition reply_start (sp dp : Z) : chunk_state := ChunkState (sctp_bytes dp sp (-1) 0 []) true false.

Lemma put_crc sp dp tag chunks :
  add_net_long_at (sctp_bytes sp dp tag 0 chunks) (generate_crc32c (sctp_bytes sp dp tag 0 chunks)) 8 =
    Ok (8, sctp_out sp dp tag chunks).
Proof.
  unfold sctp_out. set (crc := generate_crc32c _). unfold sctp_bytes. rewrite !app_assoc.
  rewrite <- (app_assoc _ (be32 0)). change 8 with (zlen ((be16 sp ++ be16 dp) ++ be32 tag)). rewrite add_net_long_at_mid by done.
  by rewrite <- !app_assoc.
Qed.

Lemma put_tag sp dp old tag chunks sd te :
  cs_tag (ChunkState (sctp_bytes sp dp old 0 chunks) sd te) tag 4 = Ok (ChunkState (sctp_bytes sp dp tag 0 chunks) sd te).
Proof.
  unfold cs_tag. cbn [cs_reply]. unfold sctp_bytes. rewrite (app_assoc (be16 sp)). change 4 with (zlen (be16 sp ++ be16 dp)).
  rewrite add_net_long_at_mid by done. done.
Qed.

Lemma cs_add_bytes sp dp tag chunks sd te more :
  cs_add (ChunkState (sctp_bytes sp dp tag 0 chunks) sd te) more = ChunkState (sctp_bytes sp dp tag 0 (chunks ++ more)) sd te.
Proof. unfold cs_add, add_buffer_out, sctp_bytes. cbn [cs_reply cs_send_reply cs_terminate]. by rewrite <- !app_assoc. Qed.

Lemma sctp_packet_last pkt sp dp tag crc type flags v hash w :
  pkt_data pkt = sctp_bytes sp dp tag crc (chunk_bytes type flags v) → bytes_ok (pkt_data pkt) → zlen (pkt_data pkt) ≤ 65535 →
  u16_ok sp → u16_ok dp → u32_ok tag → u32_ok crc → byte_ok type → byte_ok flags →
  session_hash (pkt_src pkt) sp dp = Ok hash →
  ∃ seg, bi_wf seg ∧ remaining seg = v ∧ bi_o seg = 0 ∧
    ∀ w' cs brk,
      handle_chunk hmac cookie_key timestamp ndr pkt sp dp hash 4 type seg (reply_start sp dp) w = (w', Ok (cs, brk)) →
      ∀ t out, cs = ChunkState (sctp_bytes dp sp t 0 out) true false →
      sctp_handle hmac cookie_key timestamp ndr pkt w = Ok (w', Some (Datagram None (pkt_src pkt) (pkt_dst pkt) 0x84 (sctp_out dp sp t out) None)).
Proof.
  intros Ed HB Hl Hsp Hdp Htag Hcrc Ht Hf Eh. destruct (mk_buffer_wf (pkt_data pkt) HB) as [W R]; [unfold int_max; lia|].
  set (b := mk_buffer_in (pkt_data pkt) (zlen (pkt_data pkt))) in *. rewrite Ed in R. unfold sctp_bytes in R.
  destruct (get_net_short_spec b sp _ W Hsp R) as (b1 & E1 & W1 & R1). destruct (get_net_short_spec b1 dp _ W1 Hdp R1) as (b2 & E2 & W2 & R2).
  destruct (get_net_long_spec b2 tag _ W2 Htag R2) as (b3 & E3 & W3 & R3). destruct (get_net_long_spec b3 crc _ W3 Hcrc R3) as (b4 & E4 & W4 & R4).
  assert (4 + zlen v < 65536 ∧ ∃ n, length (pkt_data pkt) = S n ∧ 12 ≤ zlen (pkt_data pkt)) as (Hv & n & Hn & H12).
  { rewrite Ed in Hl. unfold sctp_bytes, chunk_bytes in Hl. rewrite !zlen_app in Hl. change (zlen (be16 _)) with 2 in Hl.
    change (zlen (be32 _)) with 4 in Hl. change (zlen [type; flags]) with 2 in Hl. pose proof (zlen_nonneg (pad4 (4 + zlen v))).
    split; [lia|]. rewrite Ed. unfold sctp_bytes, chunk_bytes. cbn [app be16 be32 length]. eexists. split; [reflexivity|].
    unfold zlen. cbn [length]. lia. }
  destruct (chunk_loop_last pkt sp dp hash 4 n b4 (reply_start sp dp) w type flags v W4 Ht Hf R4 Hv) as (seg & Ws & Rs & Os & Eloop).
  exists seg. split_and!; [done..|]. intros w' cs brk Ehc t out Ecs. unfold sctp_handle.
  rewrite (proj2 (Z.ltb_ge _ 12)) by done. unfold sctp_packet. fold b.
  rewrite (run_res E1), (run_res E2), (run_res E3), (run_res E4), (run_res Eh).
  rewrite (run_res (x := (4, be16 dp ++ be16 sp ++ be32 (-1)))) by done.
  rewrite (run_res (x := (8, sctp_bytes dp sp (-1) 0 []))) by done. cbv beta iota zeta. fold (reply_start sp dp).
  unfold act_bind at 1. rewrite Hn, Eloop, Ehc. subst cs. cbn [fst cs_send_reply cs_reply cs_terminate].
  unfold act_bind at 1. rewrite (run_res (put_crc _ _ _ _)). done.
Qed.

(** ** The handshake *)

Definition param_bytes (p : Z * list Z) : list Z := be16 p.1 ++ be16 (4 + zlen p.2) ++ p.2 ++ pad4 (4 + zlen p.2).
Definition param_ok (p : Z * list Z) : Prop := u16_ok p.1 ∧ bytes_ok p.2 ∧ 4 + zlen p.2 < 65536.

Lemma param_bytes_ok ps : Forall param_ok ps → bytes_ok (ps ≫= param_bytes).
Proof.
  induction 1 as [|p ps (_ & H & _) _ IH]; [constructor|]. rewrite bind_cons. apply bytes_ok_app; [|done].
  unfold param_bytes. bytes_fields; [done|apply bytes_ok_pad4].
Qed.

Lemma skip_parameters_spec ps fuel b :
  Forall param_ok ps → bi_wf b → remaining b = ps ≫= param_bytes → (length ps < fuel)%nat → ∃ b', skip_parameters fuel b = Ok b'.
Proof.
  intros Hps. revert fuel b. induction Hps as [|p ps (H1 & H2 & H3) Hps IH]; intros fuel b W R Hf;
    (destruct fuel as [|fuel]; [simpl in Hf; lia|]); cbn [skip_parameters]; rewrite end_reached_spec, R by done.
  { rewrite bool_decide_eq_true_2 by done. by eexists. }
  rewrite bind_cons in *. rewrite bool_decide_eq_false_2 by done. unfold param_bytes in R. rewrite <- !app_assoc in R.
  pose proof (zlen_nonneg p.2). unfold get_parameter.
  destruct (get_net_short_spec b p.1 _ W H1 R) as (b1 & -> & W1 & R1). cbn [res_bind].
  destruct (get_net_short_spec b1 (4 + zlen p.2) _ W1 ltac:(lia) R1) as (b2 & -> & W2 & R2). cbn [res_bind].
  rewrite (proj2 (Z.ltb_ge _ 4)) by lia. replace (4 + zlen p.2 - 4) with (zlen p.2) by lia.
  destruct (get_segment_spec b2 p.2 _ W2 R2) as (seg & b3 & -> & W3 & R3 & _). cbn [res_bind].
  destruct (seek_pad b3 _ _ W3 R3) as (b4 & -> & W4 & R4). cbn [res_bind]. apply IH; [done|done|cbn [length] in Hf; lia].
Qed.

Definition init_body (tag rwnd outs ins tsn : Z) (ps : list (Z * list Z)) : list Z :=
  be32 tag ++ be32 rwnd ++ be16 outs ++ be16 ins ++ be32 tsn ++ (ps ≫= param_bytes).

(** the value of an INIT ACK *)
Definition init_ack_body (tag tsn : Z) (cookie : list Z) : list Z :=
  be32 tag ++ be32 4096 ++ be16 1 ++ be16 1 ++ be32 tsn ++ be16 7 ++ be16 (4 + zlen cookie) ++ cookie.

Lemma params_length ps : (length ps ≤ length (ps ≫= param_bytes))%nat.
Proof. induction ps as [|p ps IH]; [done|]. rewrite bind_cons, length_app. unfold param_bytes at 1. rewrite length_app. cbn [be16 length]. lia. Qed.

Lemma chunk_init_spec chunk mytag a sp dp tag rwnd outs ins tsn ps w d ds :
  good a → bi_wf chunk → remaining chunk = init_body tag rwnd outs ins tsn ps →
  u32_ok tag → u32_ok rwnd → u16_ok outs → u16_ok ins → u32_ok tsn → Forall param_ok ps → sw_draws w = d :: ds →
  chunk_init hmac cookie_key timestamp chunk mytag 4096 a sp dp w =
    (World (sw_sctp w) (sw_events w) ds,
     Ok (chunk_bytes 2 0 (init_ack_body mytag (u32 d) (cookie_body a sp dp tag tsn (u32 d) ++ hmac cookie_key (cookie_body a sp dp tag tsn (u32 d)))), tag)).
Proof.
  intros Hg W R Htag Hrw Ho Hi Htsn Hps Hd. unfold init_body in R. unfold chunk_init.
  destruct (get_net_long_spec chunk tag _ W Htag R) as (b1 & E1 & W1 & R1). destruct (get_net_long_spec b1 rwnd _ W1 Hrw R1) as (b2 & E2 & W2 & R2).
  destruct (get_net_short_spec b2 outs _ W2 Ho R2) as (b3 & E3 & W3 & R3). destruct (get_net_short_spec b3 ins _ W3 Hi R3) as (b4 & E4 & W4 & R4).
  destruct (get_net_long_spec b4 tsn _ W4 Htsn R4) as (b5 & E5 & W5 & R5).
  destruct (skip_parameters_spec ps (S (length (bi_p b5))) b5) as [b6 E6]; [done|done|done| |].
  { pose proof (params_length ps) as Hp. rewrite <- R5 in Hp. pose proof (zlen_remaining b5 W5). destruct W5 as ([? ?] & ? & _). unfold zlen in *. lia. }
  rewrite (run_res E1), (run_res E2), (run_res E3), (run_res E4), (run_res E5), (run_res E6).
  rewrite (run_res (x := (2, [2; 0; 0; 0]))) by done. cbv beta iota zeta. unfold act_bind at 1. unfold draw at 1. rewrite Hd.
  rewrite (run_res (generate_state_cookie_eq a sp dp tag tsn (u32 d) Hg)).
  set (cookie := cookie_body a sp dp tag tsn (u32 d) ++ _).
  assert (add_buffer_out (add_net_short (add_net_short (add_net_long (add_net_short (add_net_short (add_net_long (add_net_long [2; 0; 0; 0] mytag) 4096) 1) 1) (u32 d)) 7)
            (4 + zlen cookie)) cookie = [2; 0] ++ [0; 0] ++ init_ack_body mytag (u32 d) cookie) as ->.
  { unfold add_buffer_out, add_net_short, add_net_long, init_ack_body. by rewrite <- !app_assoc. }
  set (body := init_ack_body mytag (u32 d) cookie).
  rewrite (run_res (add_net_short_at_mid [2; 0] [0; 0] body _ eq_refl)). unfold act_ret. do 3 f_equal. rewrite add_padding_pad4. unfold chunk_bytes.
  replace (zlen ([2; 0] ++ [0; 0] ++ body)) with (4 + zlen body) by (rewrite !zlen_app; unfold zlen; simpl; lia).
  replace (zlen ([2; 0] ++ be16 (4 + zlen body) ++ body)) with (4 + zlen body) by (rewrite !zlen_app; unfold zlen; simpl; lia).
  by rewrite <- !app_assoc.
Qed.

Definition cookie_for (a : any_addr) (sp dp tag t1 t2 : Z) : list Z :=
  cookie_body a sp dp tag t1 t2 ++ hmac cookie_key (cookie_body a sp dp tag t1 t2).

Lemma cookie_for_ok a sp dp tag t1 t2 : good a → bytes_ok (cookie_for a sp dp tag t1 t2) ∧ zlen (cookie_for a sp dp tag t1 t2) ≤ 65.
Proof.
  intros Hg. destruct (Hhmac cookie_key (cookie_body a sp dp tag t1 t2)) as [L B]. pose proof (family_size_bound (af a)).
  destruct (good_size a Hg) as [Hs _]. pose proof (length_key a Hg) as Hk. unfold cookie_for. split.
  - apply bytes_ok_app; [|done]. unfold cookie_body. bytes_fields;
      [apply Forall_singleton; unfold get_len, byte_ok; lia|by apply key_bytes_ok].
  - set (mac := hmac _ _) in *. unfold cookie_body, zlen. rewrite !length_app, L, Hk. cbn [be32 be16 length]. lia.
Qed.

Lemma handle_init_spec pkt sp dp chunk tag rwnd outs ins tsn ps w d1 d2 ds h :
  good (pkt_src pkt) → bi_wf chunk → remaining chunk = init_body tag rwnd outs ins tsn ps →
  u32_ok tag → u32_ok rwnd → u16_ok outs → u16_ok ins → u32_ok tsn → Forall param_ok ps →
  sw_draws w = d1 :: d2 :: ds → u32 d1 ≠ 0 → sctp_listeners (sw_sctp w) !! dp = Some h →
  handle_init hmac cookie_key timestamp pkt sp dp 4 chunk (reply_start sp dp) w =
    (World (sw_sctp w) (sw_events w) ds,
     Ok (ChunkState (sctp_bytes dp sp tag 0 (chunk_bytes 2 0 (init_ack_body (u32 d1) (u32 d2) (cookie_for (pkt_src pkt) sp dp tag tsn (u32 d2))))) true false, false)).
Proof.
  intros Hg W R Htag Hrw Ho Hi Htsn Hps Hd Hd1 Hh. unfold handle_init. unfold act_bind at 1, get_sctp at 1.
  unfold act_bind at 1. cbn [draw_nonzero]. unfold act_bind at 1, draw at 1. rewrite Hd.
  rewrite (proj2 (Z.eqb_neq (u32 d1) 0)) by done. unfold act_ret at 1. unfold act_bind at 1.
  rewrite (chunk_init_spec chunk (u32 d1) (pkt_src pkt) sp dp tag rwnd outs ins tsn ps _ d2 ds) by done.
  unfold reply_start. rewrite (run_res (put_tag _ _ _ _ _ _ _)). unfold act_ret. rewrite bool_decide_eq_true_2 by (by rewrite Hh).
  rewrite cs_add_bytes. done.
Qed.

Lemma handle_cookie_echo_spec pkt sp dp hash chunk tag t1 t2 w h :
  good (pkt_src pkt) → bi_wf chunk → bi_o chunk = 0 → remaining chunk = cookie_for (pkt_src pkt) sp dp tag t1 t2 →
  u32_ok tag → u32_ok t1 → u32_ok t2 →
  sctp_listeners (sw_sctp w) !! dp = Some h → sh_new_session h = true → sctp_sessions (sw_sctp w) !! hash = None →
  handle_cookie_echo hmac cookie_key timestamp pkt sp dp hash 4 chunk (reply_start sp dp) w =
    (World (put_session (sw_sctp w) hash (SctpSession (pkt_dst pkt) dp (pkt_src pkt) sp t2 t1 0 tag))
       (sw_events w ++ [sctp_new_session (sh_id h) hash]) (sw_draws w),
     Ok (ChunkState (sctp_bytes dp sp tag 0 (chunk_bytes 11 0 [])) true false, false)).
Proof.
  intros Hg W O R Htag Ht1 Ht2 Hh Hns Hnone. unfold handle_cookie_echo.
  assert (chunk_cookie_echo hmac cookie_key timestamp chunk (pkt_src pkt) sp dp = Ok (true, tag, t1, t2)) as E.
  { unfold chunk_cookie_echo, get_n_bytes_left. rewrite <- (zlen_remaining chunk W).
    destruct (get_segment_spec chunk (remaining chunk) [] W) as (seg & b' & -> & _ & _ & Ws & Rs & Os); [by rewrite app_nil_r|].
    cbn [res_bind]. destruct (copy_spec seg Ws Os) as [Wc Rc]. rewrite Rs, R in Rc. unfold cookie_for, cookie_body in Rc. rewrite <- !app_assoc in Rc.
    destruct (get_net_long_spec _ tag _ Wc Htag Rc) as (b1 & -> & W1 & R1). cbn [res_bind].
    destruct (get_net_long_spec b1 t1 _ W1 Ht1 R1) as (b2 & -> & W2 & R2). cbn [res_bind].
    destruct (get_net_long_spec b2 t2 _ W2 Ht2 R2) as (b3 & -> & W3 & R3). cbn [res_bind].
    rewrite generate_state_cookie_eq by done. cbn [res_bind]. rewrite compare_spec by done. rewrite Rs, R.
    unfold cookie_for. by rewrite bool_decide_eq_true_2. }
  rewrite (run_res E). unfold act_bind at 1, get_sctp at 1. rewrite Hh, Hns. cbn [andb].
  unfold act_bind at 1. unfold act_bind at 1. rewrite Hnone. unfold act_bind at 1, emit, modify_sctp. cbn [sw_sctp sw_events sw_draws].
  unfold act_ret at 1, reply_start. rewrite cs_add_bytes. rewrite (run_res (put_tag _ _ _ _ _ _ _)). done.
Qed.

(** C27: The four-way handshake: an INIT for a port that is listened on, with any
    parameters, is answered by an INIT ACK to the tag of the INIT, with a cookie, and
    nothing is remembered; when the cookie comes back in a COOKIE ECHO from the
    same address and ports, at any later state without that session, the
    session is made with the tag and the TSN of the INIT and the TSN of the INIT
    ACK, the application is told, and a COOKIE ACK is sent. *)
Theorem sctp_handshake pkt1 pkt2 sp dp tag rwnd outs ins tsn ps crc1 vtag2 crc2 w1 w2 d1 d2 ds h1 h2 :
  good (pkt_src pkt1) → u16_ok sp → u16_ok dp → u32_ok tag → u32_ok rwnd → u16_ok outs → u16_ok ins → u32_ok tsn →
  u32_ok crc1 → u32_ok vtag2 → u32_ok crc2 → Forall param_ok ps → zlen (pkt_data pkt1) ≤ 65535 →
  pkt_data pkt1 = sctp_bytes sp dp 0 crc1 (chunk_bytes 1 0 (init_body tag rwnd outs ins tsn ps)) →
  sctp_listeners (sw_sctp w1) !! dp = Some h1 → sw_draws w1 = d1 :: d2 :: ds → u32 d1 ≠ 0 →
  let cookie := cookie_for (pkt_src pkt1) sp dp tag tsn (u32 d2) in
  pkt_src pkt2 = pkt_src pkt1 → pkt_data pkt2 = sctp_bytes sp dp vtag2 crc2 (chunk_bytes 10 0 cookie) →
  sctp_listeners (sw_sctp w2) !! dp = Some h2 → sh_new_session h2 = true →
  ∃ hash, session_hash (pkt_src pkt1) sp dp = Ok hash ∧
    sctp_handle hmac cookie_key timestamp ndr pkt1 w1 =
      Ok (World (sw_sctp w1) (sw_events w1) ds,
          Some (Datagram None (pkt_src pkt1) (pkt_dst pkt1) 0x84
                  (sctp_out dp sp tag (chunk_bytes 2 0 (init_ack_body (u32 d1) (u32 d2) cookie))) None)) ∧
    (sctp_sessions (sw_sctp w2) !! hash = None →
     sctp_handle hmac cookie_key timestamp ndr pkt2 w2 =
       Ok (World (put_session (sw_sctp w2) hash (SctpSession (pkt_dst pkt2) dp (pkt_src pkt1) sp (u32 d2) tsn 0 tag))
             (sw_events w2 ++ [sctp_new_session (sh_id h2) hash]) (sw_draws w2),
           Some (Datagram None (pkt_src pkt1) (pkt_dst pkt2) 0x84 (sctp_out dp sp tag (chunk_bytes 11 0 [])) None))).
Proof.
  intros Hg Hsp Hdp Htag Hrw Ho Hi Htsn Hc1 Hv2 Hc2 Hps Hl E1 Hh1 Hd Hd1 cookie Esrc E2 Hh2 Hns.
  destruct (session_hash_total (pkt_src pkt1) sp dp Hg) as [hash Eh]. exists hash. split; [done|].
  assert (byte_ok 0 ∧ byte_ok 1 ∧ byte_ok 10) as (B0 & B1 & B10) by (unfold byte_ok; lia).
  assert (bytes_ok (init_body tag rwnd outs ins tsn ps)) as HB1.
  { unfold init_body. bytes_fields. by apply param_bytes_ok. }
  destruct (cookie_for_ok (pkt_src pkt1) sp dp tag tsn (u32 d2) Hg) as [HB2 Hl2]. fold cookie in HB2, Hl2.
  split.
  - destruct (sctp_packet_last pkt1 sp dp 0 crc1 1 0 _ hash w1 E1) as (seg & Ws & Rs & Os & Hrun);
      [rewrite E1; by apply sctp_bytes_ok, chunk_bytes_ok|done..|].
    eapply Hrun; [|reflexivity]. by apply handle_init_spec with (rwnd := rwnd) (outs := outs) (ins := ins) (ps := ps) (h := h1).
  - intros Hnone. rewrite <- Esrc in Eh |- *.
    destruct (sctp_packet_last pkt2 sp dp vtag2 crc2 10 0 cookie hash w2 E2) as (seg & Ws & Rs & Os & Hrun);
      [rewrite E2; by apply sctp_bytes_ok, chunk_bytes_ok| |done..|].
    { rewrite E2. unfold sctp_bytes, chunk_bytes. rewrite !zlen_app. unfold zlen in *. cbn [be16 be32 length].
      pose proof (zlen_pad4 (4 + Z.of_nat (length cookie))) as Hp. unfold zlen in Hp. rewrite Hp.
      pose proof (Z.land_nonneg (4 + Z.of_nat (length cookie)) 3). destruct (_ =? 0); lia. }
    eapply Hrun; [|reflexivity]. apply handle_cookie_echo_spec; rewrite ?Esrc; try done. unfold u32_ok. pose proof (u32_range d2). lia.
Qed.

(** ** Data from one host to the other *)

Definition data_body (tsn seq : Z) (l : list Z) : list Z := be32 tsn ++ be16 0 ++ be16 seq ++ be32 0 ++ l.

Lemma zlen_data_body tsn seq l : zlen (data_body tsn seq l) = 12 + zlen l.
Proof. unfold data_body. rewrite !zlen_app. unfold zlen. cbn [be16 be32 length]. lia. Qed.

(** the sender: a DATA chunk of as many bytes as fit *)
Lemma data_packet_spec s b max l rest :
  bi_wf b → remaining b = l ++ rest → zlen l = Z.min (zlen (remaining b)) (max - 50) →
  ∃ b', data_packet s b max =
      Ok (sctp_out (ss_my_port s) (ss_their_port s) (their_verification_tag s)
            (chunk_bytes 0 3 (data_body (my_tsn s) (my_stream_sequence_nr s) l)),
          inc_my_stream_sequence_nr (inc_my_tsn s 1), b') ∧
    bi_wf b' ∧ remaining b' = rest.
Proof.
  intros W R Hl. unfold data_packet, get_n_bytes_left. rewrite <- (zlen_remaining b W), <- Hl.
  set (mp := ss_my_port s). set (tp := ss_their_port s). set (tag := their_verification_tag s).
  change (add_net_long_at (add_net_long (add_net_short (add_net_short [] mp) tp) tag) 0 (-1)) with (@Ok (Z * list Z) (8, sctp_bytes mp tp tag 0 [])).
  cbn [res_bind]. destruct (get_segment_spec b l rest W R) as (seg & b' & -> & W' & R' & Ws & Rs & Os). cbn [res_bind].
  destruct (copy_spec seg Ws Os) as [Wc Rc]. set (head := add_net_long _ 0).
  destruct (add_buffer_in_spec (copy_buffer_in seg) head Wc) as [b2 ->]. cbn [res_bind]. rewrite Rc, Rs.
  set (v := data_body (my_tsn s) (my_stream_sequence_nr s) l).
  assert (add_padding (head ++ l) 4 = sctp_bytes mp tp tag 0 (chunk_bytes 0 3 v)) as ->.
  { assert (head ++ l = sctp_bytes mp tp tag 0 ([0; 3] ++ be16 (4 + zlen v) ++ v)) as ->.
    { unfold v. rewrite zlen_data_body. replace (4 + (12 + zlen l)) with (zlen l + 16) by lia.
      unfold head, add_net_long, add_net_short, add_net_byte, sctp_bytes, data_body. by rewrite <- !app_assoc. }
    rewrite add_padding_pad4. unfold chunk_bytes. set (c := [0; 3] ++ be16 (4 + zlen v) ++ v).
    assert (pad4 (zlen (sctp_bytes mp tp tag 0 c)) = pad4 (4 + zlen v)) as ->.
    { unfold pad4. do 2 f_equal. replace (zlen (sctp_bytes mp tp tag 0 c)) with (4 + zlen v + 3 * 4)
        by (unfold sctp_bytes, c; rewrite !zlen_app; unfold zlen; cbn [be16 be32 length]; lia).
      replace (- (4 + zlen v + 3 * 4)) with (- (4 + zlen v) + (-3) * 4) by lia. by rewrite Z.mod_add. }
    unfold sctp_bytes, c. by rewrite <- !app_assoc. }
  rewrite put_crc. cbn [res_bind]. by exists b'.
Qed.

(** the SACK for a TSN *)
Definition sack_bytes (tsn : Z) : list Z := [3; 3; 0; 16] ++ be32 tsn ++ be32 4096 ++ be16 0 ++ be16 0.

Lemma sack_chunk_eq tsn : sack_chunk tsn = Ok (sack_bytes tsn).
Proof. reflexivity. Qed.

(** the receiver: the data with the expected TSN *)
Lemma handle_data_spec pkt sp dp hash chunk tsn seq l w h s :
  bi_wf chunk → remaining chunk = data_body tsn seq l → u32_ok tsn → u16_ok seq →
  sctp_listeners (sw_sctp w) !! dp = Some h → sh_new_data h = true → sctp_sessions (sw_sctp w) !! hash = Some s → their_tsn s = tsn →
  handle_chunk hmac cookie_key timestamp ndr pkt sp dp hash 4 0 chunk (reply_start sp dp) w =
    (World (put_session (sw_sctp w) hash (inc_their_tsn s 1)) (sw_events w ++ [sctp_new_data (sh_id h) hash l]) (sw_draws w),
     Ok (ChunkState (sctp_bytes dp sp (their_verification_tag s) 0 (sack_bytes tsn ++ (if ndr l then [] else chunk_bytes 7 0 []))) true false, false)).
Proof.
  intros W R Ht Hq Hh Hnd Hs Htsn. unfold handle_chunk. change (0 =? 0) with true. cbn iota. unfold handle_data.
  unfold act_bind at 1, get_sctp at 1. rewrite Hh, Hnd, Hs. unfold act_bind at 1. unfold chunk_data, data_body in *.
  destruct (get_net_long_spec chunk tsn _ W Ht R) as (b1 & E1 & W1 & R1).
  destruct (get_net_short_spec b1 0 _ W1 ltac:(lia) R1) as (b2 & E2 & W2 & R2). destruct (get_net_short_spec b2 seq _ W2 Hq R2) as (b3 & E3 & W3 & R3).
  destruct (get_net_long_spec b3 0 _ W3 ltac:(lia) R3) as (b4 & E4 & W4 & R4).
  rewrite (run_res E1), (run_res E2), (run_res E3), (run_res E4). rewrite Htsn, Z.eqb_refl.
  unfold get_n_bytes_left. rewrite <- (zlen_remaining b4 W4).
  destruct (get_segment_spec b4 (remaining b4) [] W4) as (seg & b5 & E5 & _ & _ & Ws & Rs & Os); [by rewrite app_nil_r|].
  destruct (copy_spec seg Ws Os) as [Wc Rc]. pose proof (peek_spec _ Wc) as Ep. rewrite Rc, Rs, R4 in Ep.
  unfold act_bind at 1. unfold act_bind at 1, modify_sctp at 1. rewrite (run_res E5), (run_res Ep).
  unfold act_bind at 1, emit at 1. unfold act_ret at 1. rewrite sack_chunk_eq. unfold act_bind at 1, act_res at 1, act_ret at 1.
  cbn [sw_sctp sw_events sw_draws]. rewrite decide_False by (by destruct (ndr l)). unfold reply_start.
  destruct (ndr l); [rewrite decide_False by done|rewrite decide_True by done]; rewrite !cs_add_bytes, (run_res (put_tag _ _ _ _ _ _ _)); done.
Qed.

(** data with another TSN is not delivered, but the SACK is for the TSN that is
    expected, so for data that never arrived *)
Lemma out_of_order_acked hash s h chunk tsn seq l w :
  bi_wf chunk → remaining chunk = data_body tsn seq l → u32_ok tsn → u16_ok seq → tsn ≠ their_tsn s →
  chunk_data ndr hash s h chunk w = (w, Ok (dcb_continue, sack_bytes (their_tsn s))).
Proof.
  intros W R Ht Hq N. unfold chunk_data, data_body in *.
  destruct (get_net_long_spec chunk tsn _ W Ht R) as (b1 & E1 & W1 & R1).
  destruct (get_net_short_spec b1 0 _ W1 ltac:(lia) R1) as (b2 & E2 & W2 & R2). destruct (get_net_short_spec b2 seq _ W2 Hq R2) as (b3 & E3 & W3 & R3).
  destruct (get_net_long_spec b3 0 _ W3 ltac:(lia) R3) as (b4 & E4 & W4 & R4).
  rewrite (run_res E1), (run_res E2), (run_res E3), (run_res E4). rewrite (proj2 (Z.eqb_neq tsn (their_tsn s))) by done. done.
Qed.

(** a datagram as it arrives *)
Definition arrives (dg : datagram) : packet := Packet unset_addr (dg_src dg) (dg_dst dg) (dg_payload dg) [] false.

(** the receiver handles the datagrams one after the other *)
Fixpoint receive_all (dgs : list datagram) (w : world) : res world :=
  match dgs with
  | [] => Ok w
  | dg :: dgs' =>
      let* '(w, _) := sctp_handle hmac cookie_key timestamp ndr (arrives dg) w in
      receive_all dgs' w
  end.

(** a network that delivers everything *)
Definition collect (l : list datagram) (dg : datagram) : res (bool * list datagram) := Ok (true, l ++ [dg]).

Section Stream.
Context (hash max : Z) (h : sctp_handler) (Hmax : 50 < max ≤ 65000).

(** the sender [s] and the session of the receiver belong together *)
Definition paired (s : sctp_session) (w : world) : Prop :=
  good (ss_my_addr s) ∧ u16_ok (ss_my_port s) ∧ u16_ok (ss_their_port s) ∧ u32_ok (their_verification_tag s) ∧
  u32_ok (my_tsn s) ∧ u16_ok (my_stream_sequence_nr s) ∧
  session_hash (ss_my_addr s) (ss_my_port s) (ss_their_port s) = Ok hash ∧
  sctp_listeners (sw_sctp w) !! ss_their_port s = Some h ∧
  ∃ r, sctp_sessions (sw_sctp w) !! hash = Some r ∧ their_tsn r = my_tsn s.

Lemma one_data_packet s w l :
  paired s w → bytes_ok l → zlen l ≤ max - 50 → sh_new_data h = true →
  let s' := inc_my_stream_sequence_nr (inc_my_tsn s 1) in
  let out := sctp_out (ss_my_port s) (ss_their_port s) (their_verification_tag s)
               (chunk_bytes 0 3 (data_body (my_tsn s) (my_stream_sequence_nr s) l)) in
  ∃ w' reply, sctp_handle hmac cookie_key timestamp ndr (arrives (Datagram None (ss_their_addr s) (ss_my_addr s) 0x84 out None)) w = Ok (w', reply) ∧
    sw_events w' = sw_events w ++ [sctp_new_data (sh_id h) hash l] ∧ paired s' w'.
Proof.
  intros (Hg & Hmp & Htp & Htag & Htsn & Hseq & Eh & Hh & r & Hr & Er) HB Hl Hnd s' out.
  set (pkt := arrives _). set (v := data_body (my_tsn s) (my_stream_sequence_nr s) l) in *.
  assert (bytes_ok v) as HBv by (unfold v, data_body; by bytes_fields).
  assert (byte_ok 0 ∧ byte_ok 3) as [B0 B3] by (unfold byte_ok; lia).
  assert (zlen (pkt_data pkt) ≤ 65535) as Hlen.
  { unfold pkt, out, sctp_out, sctp_bytes, chunk_bytes. cbn [arrives pkt_data dg_payload]. rewrite !zlen_app.
    assert (zlen v = 12 + zlen l) as -> by apply zlen_data_body. pose proof (zlen_pad4 (4 + (12 + zlen l))) as Hp.
    pose proof (Z.land_nonneg (4 + (12 + zlen l)) 3). unfold zlen in *. cbn [be16 be32 length]. destruct (_ =? 0); lia. }
  destruct (sctp_packet_last pkt (ss_my_port s) (ss_their_port s) (their_verification_tag s) _ 0 3 v hash w eq_refl) as (seg & Ws & Rs & Os & Hrun);
    [by apply sctp_bytes_ok, chunk_bytes_ok|done|done|done|done|apply u32_range|done|done|done|].
  pose proof (handle_data_spec pkt (ss_my_port s) (ss_their_port s) hash seg (my_tsn s) (my_stream_sequence_nr s) l w h r
    Ws Rs Htsn Hseq Hh Hnd Hr Er) as Ehc.
  specialize (Hrun _ _ _ Ehc _ _ eq_refl). do 2 eexists. split; [exact Hrun|]. cbn [sw_events]. split; [done|].
  split_and!; try done; [apply u32_range|apply u16_range|]. exists (inc_their_tsn r 1). unfold put_session. cbn [sw_sctp sctp_sessions].
  rewrite lookup_insert_eq. split; [done|]. unfold inc_their_tsn, s'. cbn. by rewrite Er.
Qed.

Lemma send_receive fuel s b ip w :
  bi_wf b → paired s w → sh_new_data h = true → (length (remaining b) < fuel)%nat →
  ∃ s' dgs w' evs,
    sctp_send_loop collect max fuel s b ip = Ok (true, s', ip ++ dgs) ∧ receive_all dgs w = Ok w' ∧
    sw_events w' = sw_events w ++ (sctp_new_data (sh_id h) hash <$> evs) ∧ concat evs = remaining b ∧
    Forall (λ l, l ≠ []) evs ∧ paired s' w'.
Proof.
  revert s b ip w. induction fuel as [|fuel IH]; intros s b ip w W Hp Hnd Hf; [lia|]. cbn [sctp_send_loop].
  rewrite end_reached_spec by done. destruct (bool_decide_reflect (remaining b = [])) as [E|N].
  { exists s, [], w, []. rewrite !app_nil_r, E. split_and!; try done. }
  set (n := Z.to_nat (Z.min (zlen (remaining b)) (max - 50))). pose proof (zlen_nonneg (remaining b)).
  assert (0 < length (remaining b))%nat as Hpos by (destruct (remaining b); [done|simpl; lia]).
  assert (zlen (take n (remaining b)) = Z.min (zlen (remaining b)) (max - 50)) as Hn
    by (unfold n, zlen in *; rewrite length_take; lia).
  destruct (data_packet_spec s b max (take n (remaining b)) (drop n (remaining b)) W) as (b' & -> & W' & R'); [by rewrite take_drop|done|].
  cbn [res_bind]. unfold sctp_transmit_packet, collect at 1. cbn [res_bind negb].
  destruct (one_data_packet s w (take n (remaining b)) Hp) as (w1 & reply & Eh & Ev & Hp1); [by apply bytes_ok_take, remaining_bytes_ok|lia|done|].
  set (dg := Datagram None (ss_their_addr s) (ss_my_addr s) 132
      (sctp_out (ss_my_port s) (ss_their_port s) (their_verification_tag s) (chunk_bytes 0 3 (data_body (my_tsn s) (my_stream_sequence_nr s) (take n (remaining b))))) None).
  destruct (IH (inc_my_stream_sequence_nr (inc_my_tsn s 1)) b' (ip ++ [dg]) w1)
    as (s' & dgs & w' & evs & Es & Er & Ee & Ec & Hne & Hp'); [done|done|done|rewrite R', length_drop; unfold n, zlen in *; lia|].
  exists s', (dg :: dgs), w', (take n (remaining b) :: evs).
  split_and!; [etrans; [exact Es|by rewrite <- app_assoc]| |by rewrite Ee, Ev, <- app_assoc|cbn; rewrite Ec, R'; by rewrite take_drop| |done].
  - cbn [receive_all]. unfold dg. rewrite Eh. done.
  - constructor; [|done]. intros E0. rewrite E0 in Hn. change (zlen (@nil Z)) with 0 in Hn. unfold zlen in *. lia.
Qed.
End Stream.

(** C28: Data arrives: for the two ends of a session over a network that delivers in
    order, [send_data] returns for data of any size and sends packets that the
    handler of the other end takes one by one; the application there gets the
    data, in order and complete, in pieces that are not empty, and afterwards both
    ends still agree on the TSN. *)
Theorem sctp_stream_delivery hash max h s w data :
  50 < max ≤ 65000 → sh_new_data h = true → paired hash h s w → bytes_ok data → zlen data ≤ int_max - 8 →
  ∃ s' dgs w' evs,
    sctp_send_data collect max s data [] = Ok (true, s', dgs) ∧ receive_all dgs w = Ok w' ∧
    sw_events w' = sw_events w ++ (sctp_new_data (sh_id h) hash <$> evs) ∧ concat evs = data ∧
    Forall (λ l, l ≠ []) evs ∧ paired hash h s' w'.
Proof.
  intros Hmax Hnd Hp HB Hl. destruct (mk_buffer_wf data HB Hl) as [W R]. unfold sctp_send_data.
  destruct (send_receive hash max h Hmax (S (length data)) s (mk_buffer_in data (zlen data)) [] w W Hp Hnd) as (s' & dgs & w' & evs & H);
    [rewrite R; lia|]. rewrite R in H. by exists s', dgs, w', evs.
Qed.
End Cookie.

(** ** Examples *)

Definition ex_hmac (_ m : list Z) : list Z := replicate 28 (u8 (foldl Z.add 0 m)).

Lemma ex_hmac_ok k m : length (ex_hmac k m) = 28%nat ∧ bytes_ok (ex_hmac k m).
Proof. split; [apply length_replicate|apply bytes_ok_replicate, u8_ok]. Qed.

Definition ex_sctp_listener : sctp_handler := SctpHandler 5 true true.
Definition ex_sctp_world (draws : list Z) : world := World (Sctp ∅ {[ 7 := ex_sctp_listener ]}) [] draws.
Definition ex_sctp_peer : any_addr := ex_v4 10 0 0 1.
Definition ex_sctp_packet (data : list Z) : packet := Packet unset_addr ex_sctp_peer (ex_v4 10 0 0 2) data [] false.

Lemma ex_sctp_peer_good : good ex_sctp_peer.
Proof. apply ex_v4_good; unfold byte_ok; lia. Qed.

(** an INIT in a packet of which the last chunk is cut off *)
Definition ex_cut_packet : packet := ex_sctp_packet (sctp_bytes 1000 7 0 0 [1; 0; 0; 20; 0; 0; 0; 9]).

Lemma sctp_handle_safe_witness :
  ∃ w' out, sctp_handle ex_hmac [1; 2; 3] 99 (λ _, true) ex_cut_packet (ex_sctp_world (replicate 42 7)) = Ok (w', out) ∧
    sctp_listeners (sw_sctp w') = {[ 7 := ex_sctp_listener ]} ∧
    ∀ h s, sctp_sessions (sw_sctp w') !! h = Some s →
      (∃ s0, sctp_sessions (sw_sctp (ex_sctp_world (replicate 42 7))) !! h = Some s0 ∧ same_session s s0) ∨
      (∃ sp dp, ptr_net_short (pkt_data ex_cut_packet) 0 = Ok sp ∧ ptr_net_short (pkt_data ex_cut_packet) 2 = Ok dp ∧
                session_hash (pkt_src ex_cut_packet) sp dp = Ok h ∧ from_cookie ex_hmac [1; 2; 3] 99 ex_cut_packet sp dp h h s).
Proof.
  apply (sctp_handle_safe ex_hmac [1; 2; 3] 99 (λ _, true) ex_hmac_ok ex_cut_packet (ex_sctp_world (replicate 42 7)));
    [apply ex_sctp_peer_good|apply sctp_bytes_ok; solve_bytes|vm_compute; discriminate| |vm_compute; lia].
  apply Forall_replicate. done.
Defined.

Definition ex_params : list (Z * list Z) := [(12, [0; 5]); (0x8000, [])].
Definition ex_init_packet : packet := ex_sctp_packet (sctp_bytes 1000 7 0 0 (chunk_bytes 1 0 (init_body 77 65535 1 1 500 ex_params))).
Definition ex_cookie : list Z := cookie_for ex_hmac [1; 2; 3] 99 ex_sctp_peer 1000 7 77 500 600.
Definition ex_echo_packet : packet := ex_sctp_packet (sctp_bytes 1000 7 41 0 (chunk_bytes 10 0 ex_cookie)).

Lemma sctp_handshake_witness :
  ∃ hash, session_hash ex_sctp_peer 1000 7 = Ok hash ∧
    sctp_handle ex_hmac [1; 2; 3] 99 (λ _, true) ex_init_packet (ex_sctp_world [41; 600]) =
      Ok (ex_sctp_world [],
          Some (Datagram None ex_sctp_peer (ex_v4 10 0 0 2) 0x84
                  (sctp_out 7 1000 77 (chunk_bytes 2 0 (init_ack_body 41 600 ex_cookie))) None)) ∧
    (sctp_sessions (sw_sctp (ex_sctp_world [])) !! hash = None →
     sctp_handle ex_hmac [1; 2; 3] 99 (λ _, true) ex_echo_packet (ex_sctp_world []) =
       Ok (World (put_session (sw_sctp (ex_sctp_world [])) hash (SctpSession (ex_v4 10 0 0 2) 7 ex_sctp_peer 1000 600 500 0 77))
             [sctp_new_session 5 hash] [],
           Some (Datagram None ex_sctp_peer (ex_v4 10 0 0 2) 0x84 (sctp_out 7 1000 77 (chunk_bytes 11 0 [])) None))).
Proof.
  apply (sctp_handshake ex_hmac [1; 2; 3] 99 (λ _, true) ex_hmac_ok ex_init_packet ex_echo_packet 1000 7 77 65535 1 1 500 ex_params
    0 41 0 (ex_sctp_world [41; 600]) (ex_sctp_world []) 41 600 [] ex_sctp_listener ex_sctp_listener);
    try done; try (unfold u16_ok, u32_ok; lia); [apply ex_sctp_peer_good|].
  unfold ex_params. repeat (apply Forall_cons_2; [split; [unfold u16_ok; simpl; lia|split; [solve_bytes|unfold zlen; simpl; lia]]|]).
  apply Forall_nil_2.
Defined.

Definition ex_sender : sctp_session := SctpSession ex_sctp_peer 1000 (ex_v4 10 0 0 2) 7 500 600 0 41.
Definition ex_receiver : sctp_session := SctpSession (ex_v4 10 0 0 2) 7 ex_sctp_peer 1000 600 500 0 77.
Definition ex_sctp_hash : Z := match session_hash ex_sctp_peer 1000 7 with Ok h => h | Err _ => 0 end.
Definition ex_stream_world : world := World (Sctp {[ ex_sctp_hash := ex_receiver ]} {[ 7 := ex_sctp_listener ]}) [] [].

Lemma sctp_stream_delivery_witness :
  ∃ s' dgs w' evs,
    sctp_send_data collect 60 ex_sender (replicate 25 65) [] = Ok (true, s', dgs) ∧
    receive_all ex_hmac [1; 2; 3] 99 (λ _, true) dgs ex_stream_world = Ok w' ∧
    sw_events w' = [] ++ (sctp_new_data 5 ex_sctp_hash <$> evs) ∧ concat evs = replicate 25 65 ∧
    Forall (λ l, l ≠ []) evs ∧ paired ex_sctp_hash ex_sctp_listener s' w'.
Proof.
  apply (sctp_stream_delivery ex_hmac [1; 2; 3] 99 (λ _, true) ex_sctp_hash 60 ex_sctp_listener ex_sender ex_stream_world (replicate 25 65));
    [lia|done| |apply bytes_ok_replicate; unfold byte_ok; lia|vm_compute; discriminate].
  split_and!; try (unfold u16_ok, u32_ok; cbn; lia); [apply ex_sctp_peer_good|vm_compute; reflexivity|done|].
  exists ex_receiver. split; [|done]. unfold ex_stream_world. cbn [sw_sctp sctp_sessions]. by rewrite lookup_singleton_eq.
Defined.
