(* ===== verification/Ipv6.v ===== *)
(** * IPv6 (src/ipv6.cpp)

    [transmit_packet] and the loop body of [ipv6::operator()]: the neighbour
    cache it fills, the loop over extension headers and the delivery to the
    queues of the transport layers.  The random flow label is an argument; the
    statistics counters are those of Ipv4.v. *)
From S2P Require Import Prelude AnyAddr Fifo Checksum Net AddressCache Arp Router Ipv4.

Section Ipv6.
Context {QT QR : Type} `{!BoundedQueue packet QT} `{!BoundedQueue queued_packet QR}.

Record ipv6_state := Ipv6State {
  i6_myip : any_addr;
  i6_ndp : address_cache;
  i6_prot_map : gmap Z QT;
  i6_router : QR;
}.

Definition i6_with_ndp (s : ipv6_state) (c : address_cache) : ipv6_state :=
  Ipv6State (i6_myip s) c (i6_prot_map s) (i6_router s).
Definition i6_with_prot (s : ipv6_state) (m : gmap Z QT) : ipv6_state :=
  Ipv6State (i6_myip s) (i6_ndp s) m (i6_router s).
Definition i6_with_router (s : ipv6_state) (q : QR) : ipv6_state :=
  Ipv6State (i6_myip s) (i6_ndp s) (i6_prot_map s) q.

(** ** Sending *)

Definition ipv6_header (flow_label protocol pl_size : Z) (src dst : list Z) : list Z :=
  [0x60; Z.land (Z.shiftr flow_label 16) 0x0f; u8 (Z.shiftr flow_label 8); u8 flow_label;
   u8 (Z.shiftr pl_size 8); u8 pl_size; u8 protocol; 255] ++ src ++ dst.

Definition ipv6_packet (flow_label : Z) (dg : datagram) : res (list Z) :=
  let* src := get_exp (dg_src dg) 16 in
  let* dst := get_exp (dg_dst dg) 16 in
  Ok (ipv6_header flow_label (dg_protocol dg) (zlen (dg_payload dg)) src dst ++ dg_payload dg).

Definition ipv6_transmit_packet (flow_label : Z) (s : ipv6_state) (dg : datagram)
  : res (bool * ipv6_state * list ip_stat) :=
  let* out := ipv6_packet flow_label dg in
  let* '(rc, q) := route_packet (i6_router s) (dg_dst_mac dg) 0x86dd (dg_dst dg) None (dg_src dg) out in
  Ok (rc, i6_with_router s q, [ipvx_n_tx; ip_n_out_req]).

(** ** Receiving *)

(** [while(eh - nh >= 8) ...]: the protocol and the end of the headers, as
    offsets in the packet *)
Fixpoint extension_headers (fuel : nat) (p : list Z) (eh nh protocol : Z) : res (Z * Z) :=
  if 8 <=? eh - nh then
    match fuel with
    | O => Err out_of_fuel
    | S fuel =>
        let* protocol := rd p nh in
        let* len := rd p (nh + 1) in
        extension_headers fuel p eh (nh + (len + 1) * 8) protocol
    end
  else Ok (protocol, nh).

(** from the look-up of the protocol on *)
Definition ipv6_deliver (s : ipv6_state) (pkt : packet) (src dst : any_addr) (header_size ip_size protocol : Z)
    (st : list ip_stat) : res (ipv6_state * list ip_stat) :=
  let p := pkt_data pkt in
  match i6_prot_map s !! protocol with
  | None => Ok (s, st ++ [ipvx_unk_prot; ip_n_disc])
  | Some q =>
      let* ip_p := new_packet (pkt_src_mac pkt) src dst (ptr_at p header_size) ip_size p header_size false in
      Ok (i6_with_prot s (<[protocol := queue_packet q ip_p]> (i6_prot_map s)), st ++ [ip_n_del])
  end.

(** the loop body of [ipv6::operator()] *)
Definition ipv6_handle (now : Z) (s : ipv6_state) (interface : Z) (pkt : packet)
  : res (ipv6_state * list ip_stat) :=
  let p := pkt_data pkt in
  let size := pkt_size pkt in
  if size <? 40 then Ok (s, [ip_n_pkt; ip_n_disc])
  else
    let* b0 := rd p 0 in
    let version := Z.shiftr b0 4 in
    if negb (version =? 6) then Ok (s, [ip_n_pkt; ip_n_disc])
    else
      let st := [ip_n_pkt; ipvx_n_pkt] in
      let* dst := mk_addr ipv6 (ptr_at p 24) in
      let* src := mk_addr ipv6 (ptr_at p 8) in
      let* d0 := at_ dst 0 in
      let* d1 := at_ dst 1 in
      let link_local_scope_multicast_adress := (d0 =? 0xff) && (d1 =? 0x02) in
      if negb (same_addr dst (i6_myip s)) && negb link_local_scope_multicast_adress
      then Ok (s, st ++ [ipvx_not_me; ip_n_disc])
      else
        let* s :=
          (if negb (pkt_forwarded pkt) then
             let* c := update_cache now (i6_ndp s) (pkt_src pkt) src interface false in Ok (i6_with_ndp s c)
           else Ok s) in
        let* b4 := rd p 4 in
        let* b5 := rd p 5 in
        let ip_size := join16 b4 b5 in
        let ip_size := if size <? ip_size then size else ip_size in
        let* protocol := rd p 6 in
        let* '(protocol, header_size) := extension_headers (length p) p (size - ip_size) 40 protocol in
        if size <? ip_size then Ok (s, st ++ [ip_n_disc])
        else ipv6_deliver s pkt src dst header_size ip_size protocol st.
End Ipv6.
Arguments ipv6_state : clear implicits.

Section Ipv6Spec.
Context {QT QR : Type} `{!BoundedQueue packet QT} `{!BoundedQueue queued_packet QR}.
Implicit Types s : ipv6_state QT QR.

(** The loop over the extension headers ends and reads inside the packet: every
    round moves on by at least eight bytes. *)
Lemma extension_headers_ok fuel p eh nh pr :
  bytes_ok p → 0 ≤ nh → eh ≤ zlen p → eh - nh < 8 * (Z.of_nat fuel + 1) →
  ∃ pr' hs, extension_headers fuel p eh nh pr = Ok (pr', hs) ∧ nh ≤ hs.
Proof.
  intros HB. revert nh pr. induction fuel as [|fuel IH]; intros nh pr Hn He Hf; simpl.
  { rewrite (proj2 (Z.leb_gt _ _)) by lia. by eexists _, _. }
  destruct (Z.leb_spec 8 (eh - nh)); [|by eexists _, _].
  destruct (rd_in_range p nh) as [t ->]; [lia|]. destruct (rd_in_range p (nh + 1)) as [l Hl]; [lia|].
  rewrite Hl. cbn [res_bind]. pose proof (rd_byte_ok _ _ _ HB Hl) as Bl. unfold byte_ok in Bl.
  destruct (IH (nh + (l + 1) * 8) t) as (pr' & hs & -> & ?); [lia|lia|lia|]. exists pr', hs. split; [done|lia].
Qed.

(** the length the header gives, limited by the size of the packet *)
Definition ip_length (p : list Z) : Z := Z.min (join16 (nth 4 p 0) (nth 5 p 0)) (zlen p).

(** the payload the headers describe does not lie inside the packet *)
Definition payload_overrun (p : list Z) : Prop :=
  ∃ pr hs, extension_headers (length p) p (zlen p - ip_length p) 40 (nth 6 p 0) = Ok (pr, hs) ∧
    zlen p < hs + ip_length p.

(** how a packet ended *)
Definition accounted6 s s' (st : list ip_stat) : Prop :=
  i6_router s' = i6_router s ∧ i6_myip s' = i6_myip s ∧
  ((∃ pr q p, last st = Some ip_n_del ∧ (ip_n_disc ∉ st) ∧ i6_prot_map s !! pr = Some q ∧
      i6_prot_map s' = <[pr := queue_packet q p]> (i6_prot_map s) ∧
      (key (pkt_dst p) = key (i6_myip s) ∨ take 2 (key (pkt_dst p)).2 = [0xff; 0x02])) ∨
   (ip_n_disc ∈ st ∧ (ip_n_del ∉ st) ∧ i6_prot_map s' = i6_prot_map s)).

Lemma accounted6_discard s c st :
  ip_n_disc ∈ st → ip_n_del ∉ st → accounted6 s s st ∧ accounted6 s (i6_with_ndp s c) st.
Proof. intros. split; (split_and!; [done|done|right; done]). Qed.

Lemma ipv6_update_cache now s pkt src i :
  link_packet pkt → af src = ipv6 →
  ∃ c, (if negb (pkt_forwarded pkt) then
           let* c := update_cache now (i6_ndp s) (pkt_src pkt) src i false in Ok (i6_with_ndp s c)
         else Ok s) = Ok (i6_with_ndp s c) ∧
    (pkt_forwarded pkt = false → update_cache now (i6_ndp s) (pkt_src pkt) src i false = Ok c).
Proof.
  intros (_ & Fp & _) Fs. destruct (pkt_forwarded pkt); cbn [negb]; [by exists (i6_ndp s); destruct s|].
  unfold update_cache, get_family. rewrite Fs, Fp. cbn [res_bind assert_ is_ip_family]. eauto.
Qed.

Lemma ipv6_deliver_safe s pkt src dst hs n pr st :
  0 ≤ n ≤ zlen (pkt_data pkt) → 40 ≤ hs → st = [ip_n_pkt; ipvx_n_pkt] →
  key dst = key (i6_myip s) ∨ take 2 (key dst).2 = [0xff; 0x02] →
  (∃ s' st', ipv6_deliver s pkt src dst hs n pr st = Ok (s', st') ∧ accounted6 s s' st') ∨
  (ipv6_deliver s pkt src dst hs n pr st = Err bad_access ∧ zlen (pkt_data pkt) < hs + n).
Proof.
  intros Hn Hhs -> Hd. unfold ipv6_deliver. destruct (i6_prot_map s !! pr) as [q|] eqn:Hq.
  2:{ left. eexists _, _. split; [done|]. apply (accounted6_discard s (i6_ndp s)); set_solver. }
  destruct (decide (hs + n ≤ zlen (pkt_data pkt))) as [Hin|Hout].
  - left. rewrite new_packet_ok by (rewrite ?zlen_ptr_at by lia; lia). cbn [res_bind].
    eexists _, _. split; [done|]. split_and!; try done. left. eexists pr, q, _. split_and!; try done. set_solver.
  - right. split; [|lia]. unfold new_packet, rd_range, ptr_at.
    assert (zlen (drop (Z.to_nat hs) (pkt_data pkt)) = Z.max 0 (zlen (pkt_data pkt) - hs)) as ->
      by (unfold zlen; rewrite length_drop; lia).
    rewrite (proj2 (Z.ltb_ge n 0)), (proj2 (Z.ltb_ge hs 0)) by lia. cbn [orb Z.ltb Z.compare].
    destruct (Z.ltb_spec (Z.max 0 (zlen (pkt_data pkt) - hs)) (0 + n)); [done|]. cbn [res_bind].
    by rewrite (proj2 (Z.ltb_lt _ (0 + hs))) by lia.
Qed.

Definition ipv6_addr (a : any_addr) : Prop := good a ∧ af a = ipv6.

Lemma rd_nth p k : (k < length p)%nat → rd p (Z.of_nat k) = Ok (nth k p 0).
Proof.
  intros Hk. destruct (lookup_lt_is_Some_2 p k Hk) as [b Hb]. apply rd_Ok. split; [lia|].
  rewrite Nat2Z.id, Hb. f_equal. symmetry. by apply nth_lookup_Some.
Qed.

Lemma join16_nonneg a b : byte_ok a → byte_ok b → 0 ≤ join16 a b.
Proof. intros. rewrite join16_eq by done. unfold byte_ok in *. lia. Qed.

(** the first two bytes of an IPv6 address *)
Lemma ipv6_first2 a :
  ipv6_addr a → ∃ x y, at_ a 0 = Ok x ∧ at_ a 1 = Ok y ∧ take 2 (key a).2 = [x; y].
Proof.
  intros [G F]. destruct (at_good a 0) as (x & Hx & Lx); [done|rewrite F; simpl; lia|].
  destruct (at_good a 1) as (y & Hy & Ly); [done|rewrite F; simpl; lia|]. exists x, y. split_and!; [done..|].
  destruct (key a).2 as [|x' [|y' l]]; try done. simpl in *. by simplify_eq.
Qed.

(** C21: whatever bytes a link layer delivers, the IPv6 handler and its loop over
    extension headers end, and read nothing outside the packet but in one case:
    when the lengths in the headers describe a payload that goes on behind the
    end of the packet.  Otherwise the packet is delivered to the queue of one
    registered protocol (only when it is addressed to this host or to a
    link-local multicast group) or counted as discarded. *)
Theorem ipv6_handle_safe now s i pkt :
  link_packet pkt → good (i6_myip s) →
  (∃ s' st, ipv6_handle now s i pkt = Ok (s', st) ∧ accounted6 s s' st) ∨
  (ipv6_handle now s i pkt = Err bad_access ∧ 40 ≤ pkt_size pkt ∧ payload_overrun (pkt_data pkt)).
Proof.
  intros Hp Gm. pose proof Hp as (_ & _ & _ & _ & HB). unfold ipv6_handle, pkt_size.
  destruct (Z.ltb_spec (zlen (pkt_data pkt)) 40) as [H40|H40].
  { left. eexists _, _. split; [done|]. apply (accounted6_discard s (i6_ndp s)); set_solver. }
  set (p := pkt_data pkt) in *.
  assert (∀ k, (k < 40)%nat → rd p (Z.of_nat k) = Ok (nth k p 0)) as Hrd by (intros; apply rd_nth; unfold zlen in H40; lia).
  assert (∀ k, (k < 40)%nat → byte_ok (nth k p 0)) as Hby by (intros k Hk; eapply rd_byte_ok; [done|by apply Hrd]).
  rewrite (Hrd 0%nat ltac:(lia) : rd p 0 = _). cbn [res_bind].
  destruct (negb (Z.shiftr (nth 0 p 0) 4 =? 6)).
  { left. eexists _, _. split; [done|]. apply (accounted6_discard s (i6_ndp s)); set_solver. }
  destruct (mk_addr_at ipv6 p 24) as (dst & -> & Gd & Kd); [done|lia|simpl; lia|].
  destruct (mk_addr_at ipv6 p 8) as (src & -> & Gs & Ks); [done|lia|simpl; lia|]. cbn [res_bind].
  destruct (ipv6_first2 dst) as (x & y & -> & -> & Hxy); [split; [done|exact (f_equal fst Kd)]|]. cbn [res_bind].
  destruct (negb (same_addr dst (i6_myip s)) && negb ((x =? 255) && (y =? 2))) eqn:Hme.
  { left. eexists _, _. split; [done|]. apply (accounted6_discard s (i6_ndp s)); set_solver. }
  destruct (ipv6_update_cache now s pkt src i Hp (f_equal fst Ks)) as (c & -> & _). cbn [res_bind].
  rewrite (Hrd 4%nat ltac:(lia) : rd p 4 = _), (Hrd 5%nat ltac:(lia) : rd p 5 = _), (Hrd 6%nat ltac:(lia) : rd p 6 = _). cbn [res_bind].
  assert ((if zlen p <? join16 (nth 4 p 0) (nth 5 p 0) then zlen p else join16 (nth 4 p 0) (nth 5 p 0)) = ip_length p) as ->
    by (unfold ip_length; destruct (Z.ltb_spec (zlen p) (join16 (nth 4 p 0) (nth 5 p 0))); lia).
  pose proof (join16_nonneg _ _ (Hby 4%nat ltac:(lia)) (Hby 5%nat ltac:(lia))).
  destruct (extension_headers_ok (length p) p (zlen p - ip_length p) 40 (nth 6 p 0)) as (pr & hs & He & Hhs);
    [done|lia|unfold ip_length, zlen; lia|unfold ip_length, zlen; lia|].
  rewrite He. cbn [res_bind]. rewrite (proj2 (Z.ltb_ge (zlen p) (ip_length p))) by (unfold ip_length; lia).
  destruct (ipv6_deliver_safe (i6_with_ndp s c) pkt src dst hs (ip_length p) pr [ip_n_pkt; ipvx_n_pkt])
    as [(s' & st & Hd & Ha)|[Hd Ho]]; [unfold ip_length; unfold zlen in *; fold p; lia|lia|done| | |].
  - unfold same_addr in Hme. case_bool_decide as Hk; [by left|right]. cbn in Hme. rewrite Hxy.
    destruct (Z.eqb_spec x 255), (Z.eqb_spec y 2); try done. by subst.
  - left. exists s', st. by split.
  - right. split; [done|]. split; [done|]. by exists pr, hs.
Qed.

(** ** From one host to the other *)

Lemma ipv6_key a : ipv6_addr a → key a = (ipv6, (key a).2) ∧ length (key a).2 = 16%nat ∧ bytes_ok (key a).2.
Proof.
  intros [G F]. pose proof (length_key a G) as L. pose proof (key_bytes_ok a G) as B. rewrite F in L.
  split_and!; [rewrite (key_pair a), F; done|done|done].
Qed.

Lemma ipv6_packet_bytes fl dg :
  ipv6_addr (dg_src dg) → ipv6_addr (dg_dst dg) →
  ipv6_packet fl dg = Ok (ipv6_header fl (dg_protocol dg) (zlen (dg_payload dg)) (key (dg_src dg)).2 (key (dg_dst dg)).2
                          ++ dg_payload dg).
Proof. intros [Gs Fs] [Gd Fd]. unfold ipv6_packet. by rewrite !(get_exp_key _ ipv6) by done. Qed.

Lemma zlen_ipv6_header fl pr n src dst :
  length src = 16%nat → length dst = 16%nat → zlen (ipv6_header fl pr n src dst) = 40.
Proof. intros Ls Ld. unfold ipv6_header, zlen. rewrite !length_app, Ls, Ld. done. Qed.

(** the fields of a header written by [transmit_packet] *)
Lemma ipv6_header_fields fl pr n src dst rest :
  length src = 16%nat → length dst = 16%nat →
  let p := ipv6_header fl pr n src dst ++ rest in
  rd p 0 = Ok 0x60 ∧ rd p 4 = Ok (u8 (Z.shiftr n 8)) ∧ rd p 5 = Ok (u8 n) ∧ rd p 6 = Ok (u8 pr) ∧
  take 16 (drop 8 p) = src ∧ take 16 (drop 24 p) = dst ∧ drop 40 p = rest.
Proof.
  intros Ls Ld p. subst p. unfold ipv6_header. rewrite <- !app_assoc. split_and!; try done.
  - simpl. rewrite drop_0. by apply take_app_length'.
  - change (drop 24 ?l) with (drop (8 + 16) l). rewrite <- drop_drop. simpl. rewrite drop_0, drop_app_length' by done.
    by apply take_app_length'.
  - change (drop 40 ?l) with (drop (8 + 32) l). rewrite <- drop_drop. simpl. rewrite drop_0, app_assoc.
    apply drop_app_length'. rewrite length_app, Ls, Ld. done.
Qed.

(** the handler on such a packet, followed by less than eight bytes of padding *)
Lemma ipv6_handle_wellformed now s i pkt fl pr src dst pl pad q :
  link_packet pkt → length src = 16%nat → length dst = 16%nat →
  (ipv6, dst) = key (i6_myip s) ∨ take 2 dst = [0xff; 0x02] → 0 ≤ pr < 256 → zlen pl ≤ 65535 → zlen pad < 8 →
  pkt_data pkt = ipv6_header fl pr (zlen pl) src dst ++ pl ++ pad → i6_prot_map s !! pr = Some q →
  ∃ s' p, ipv6_handle now s i pkt = Ok (s', [ip_n_pkt; ipvx_n_pkt; ip_n_del]) ∧
    i6_prot_map s' = <[pr := queue_packet q p]> (i6_prot_map s) ∧ i6_router s' = i6_router s ∧
    pkt_data p = pl ∧ pkt_src_mac p = pkt_src_mac pkt ∧ key (pkt_src p) = (ipv6, src) ∧ key (pkt_dst p) = (ipv6, dst) ∧
    good (pkt_src p) ∧ good (pkt_dst p) ∧
    (pkt_forwarded pkt = false → update_cache now (i6_ndp s) (pkt_src pkt) (pkt_src p) i false = Ok (i6_ndp s')).
Proof.
  intros Hp Ls Ld Hme Hpr Hn Hpad Hdata Hq. pose proof Hp as (_ & _ & _ & _ & HB).
  pose proof (zlen_nonneg pl). pose proof (zlen_nonneg pad).
  destruct (ipv6_header_fields fl pr (zlen pl) src dst (pl ++ pad) Ls Ld) as (R0 & R4 & R5 & R6 & T8 & T24 & D40).
  rewrite <- Hdata in R0, R4, R5, R6, T8, T24, D40.
  assert (zlen (pkt_data pkt) = 40 + zlen pl + zlen pad) as Lp
    by (rewrite Hdata, !zlen_app, zlen_ipv6_header by done; lia).
  destruct (mk_addr_at ipv6 (pkt_data pkt) 24) as (da & Md & Gd & Kd); [done|lia|simpl; lia|].
  destruct (mk_addr_at ipv6 (pkt_data pkt) 8) as (sa & Ms & Gs & Ks); [done|lia|simpl; lia|].
  change (Z.to_nat (family_size ipv6)) with 16%nat in Kd, Ks. change (Z.to_nat 24) with 24%nat in Kd.
  change (Z.to_nat 8) with 8%nat in Ks. rewrite T24 in Kd. rewrite T8 in Ks.
  unfold ipv6_handle, pkt_size. rewrite Lp, (proj2 (Z.ltb_ge _ 40)) by lia.
  rewrite R0, R4, R5, R6, Md, Ms. cbn [res_bind]. change (negb (Z.shiftr 96 4 =? 6)) with false. cbn iota.
  destruct (ipv6_first2 da) as (x & y & -> & -> & Hxy); [split; [done|exact (f_equal fst Kd)]|]. cbn [res_bind].
  assert (negb (same_addr da (i6_myip s)) && negb ((x =? 255) && (y =? 2)) = false) as ->.
  { unfold same_addr. rewrite Kd in *. destruct Hme as [->|Hme]; [by rewrite bool_decide_eq_true_2|].
    cbn [snd] in Hxy. rewrite Hme in Hxy. injection Hxy as <- <-. by rewrite andb_false_r. }
  destruct (ipv6_update_cache now s pkt sa i Hp (f_equal fst Ks)) as (c & -> & Hc). cbn [res_bind].
  rewrite join16_be16 by lia. rewrite (proj2 (Z.ltb_ge _ (zlen pl))) by lia. rewrite u8_id by done.
  assert (extension_headers (length (pkt_data pkt)) (pkt_data pkt) (40 + zlen pl + zlen pad - zlen pl) 40 pr = Ok (pr, 40)) as ->
    by (destruct (length (pkt_data pkt)); simpl; by rewrite (proj2 (Z.leb_gt _ _)) by lia).
  cbn [res_bind]. unfold ipv6_deliver. cbn [i6_prot_map i6_with_ndp]. rewrite Hq.
  rewrite new_packet_ok by (rewrite ?zlen_ptr_at by lia; lia). cbn [res_bind].
  eexists _, _. split; [by rewrite (proj2 (Z.ltb_ge _ (zlen pl))) by lia|]. cbn [pkt_data pkt_src pkt_dst pkt_src_mac i6_prot_map i6_router i6_ndp i6_with_ndp i6_with_prot].
  split_and!; try done. unfold ptr_at. change (Z.to_nat 40) with 40%nat. rewrite D40.
  apply take_app_length'. unfold zlen. lia.
Qed.

(** What one host sends with [transmit_packet] is queued for the router as an
    IPv6 packet, unchanged, with its addresses, and another host with the
    destination address, or any host for a link-local multicast group, puts
    exactly the payload in the queue of the protocol and remembers the MAC address
    of the sender, also when the link layer padded the packet by less than
    eight bytes. *)
Theorem ipv6_transmit_receive now fl (A B : ipv6_state QT QR) i pkt dg pad q :
  ipv6_addr (dg_src dg) → ipv6_addr (dg_dst dg) → dg_dst_mac dg = None → zlen (dg_payload dg) ≤ 65535 → 0 ≤ dg_protocol dg < 256 →
  link_packet pkt → pkt_forwarded pkt = false →
  key (dg_dst dg) = key (i6_myip B) ∨ take 2 (key (dg_dst dg)).2 = [0xff; 0x02] →
  i6_prot_map B !! dg_protocol dg = Some q → zlen pad < 8 →
  ∃ qp rc, ipv6_transmit_packet fl A dg =
      Ok (rc, i6_with_router A (q_try_put (i6_router A) qp).2, [ipvx_n_tx; ip_n_out_req]) ∧
    qp_ether_type qp = 0x86dd ∧ key <$> qp_dst_ip qp = Some (key (dg_dst dg)) ∧ key <$> qp_src_ip qp = Some (key (dg_src dg)) ∧
    (pkt_data pkt = qp_data qp ++ pad →
     ∃ B' p, ipv6_handle now B i pkt = Ok (B', [ip_n_pkt; ipvx_n_pkt; ip_n_del]) ∧
       i6_prot_map B' = <[dg_protocol dg := queue_packet q p]> (i6_prot_map B) ∧
       pkt_data p = dg_payload dg ∧ key (pkt_src p) = key (dg_src dg) ∧ key (pkt_dst p) = key (dg_dst dg) ∧
       update_cache now (i6_ndp B) (pkt_src pkt) (pkt_src p) i false = Ok (i6_ndp B')).
Proof.
  intros Hs Hd Hmac Hl Hpr Hp Hf Hme Hq Hpad.
  destruct (ipv6_key _ Hs) as (Ks & Ls & _), (ipv6_key _ Hd) as (Kd & Ld & _).
  unfold ipv6_transmit_packet. rewrite ipv6_packet_bytes by done. cbn [res_bind]. unfold route_packet. rewrite Hmac.
  match goal with |- context [make_queued None _ _ _ _ ?out] =>
    destruct (make_queued_ok None 0x86dd (dg_dst dg) None (dg_src dg) out) as (qp & di & si & Hqp & Hdat & Het & Hdi & Kdi & Hsi & Ksi & _)
  end; [done|done|by destruct Hd|by rewrite (proj2 Hd)|by destruct Hs|by rewrite (proj2 Hs)|done|].
  rewrite Hqp. cbn [res_bind]. exists qp, (q_try_put (i6_router A) qp).1. split; [by destruct (q_try_put (i6_router A) qp)|].
  rewrite Hdi, Hsi. simpl. rewrite Kdi, Ksi. split_and!; [done..|]. rewrite Hdat, <- app_assoc. intros Hdata.
  destruct (ipv6_handle_wellformed now B i pkt fl (dg_protocol dg) (key (dg_src dg)).2 (key (dg_dst dg)).2 (dg_payload dg) pad q)
    as (B' & p & H1 & H2 & _ & H3 & _ & H4 & H5 & _ & _ & H6); try done; [by rewrite <- Kd|].
  exists B', p. split_and!; try done; [by rewrite H4, Ks|by rewrite H5, Kd|by apply H6].
Qed.
End Ipv6Spec.

(** ** Examples *)

Definition ex_ipv6 (n : Z) : ipv6_state (fifo packet) (fifo queued_packet) :=
  Ipv6State (ex_v6 32 1 13 n) empty_cache {[ 17 := new_fifo 4; 58 := new_fifo 4 ]} (new_fifo 4).

Lemma ex_v6_addr a b c d : byte_ok a → byte_ok b → byte_ok c → byte_ok d → ipv6_addr (ex_v6 a b c d).
Proof. intros. split; [split; [split_and!; [done|solve_bytes|done]|done]|done]. Qed.

Lemma ipv6_handle_safe_witness :
  (∃ s' st, ipv6_handle 5 (ex_ipv6 2) 7 (ex_link (replicate 48 96)) = Ok (s', st) ∧ accounted6 (ex_ipv6 2) s' st) ∨
  (ipv6_handle 5 (ex_ipv6 2) 7 (ex_link (replicate 48 96)) = Err bad_access ∧
   40 ≤ pkt_size (ex_link (replicate 48 96)) ∧ payload_overrun (replicate 48 96)).
Proof.
  apply (ipv6_handle_safe 5 (ex_ipv6 2) 7 (ex_link (replicate 48 96))).
  - apply ex_link_ok. solve_bytes.
  - apply ex_v6_addr; unfold byte_ok; lia.
Defined.

Definition ex_datagram6 : datagram :=
  Datagram None (ex_v6 32 1 13 2) (ex_v6 32 1 13 1) 17 [0; 80; 4; 1; 0; 9; 0; 0; 65] None.

Definition ex_packet6 : list Z :=
  ipv6_header 7 17 9 (addr (ex_v6 32 1 13 1)) (addr (ex_v6 32 1 13 2)) ++ [0; 80; 4; 1; 0; 9; 0; 0; 65].

Lemma ipv6_transmit_receive_witness :
  ∃ qp rc, ipv6_transmit_packet 7 (ex_ipv6 1) ex_datagram6 =
      Ok (rc, i6_with_router (ex_ipv6 1) (q_try_put (i6_router (ex_ipv6 1)) qp).2, [ipvx_n_tx; ip_n_out_req]) ∧
    qp_ether_type qp = 0x86dd ∧ key <$> qp_dst_ip qp = Some (key (ex_v6 32 1 13 2)) ∧
    key <$> qp_src_ip qp = Some (key (ex_v6 32 1 13 1)) ∧
    (ex_packet6 ++ [0] = qp_data qp ++ [0] →
     ∃ B' p, ipv6_handle 5 (ex_ipv6 2) 7 (ex_link (ex_packet6 ++ [0])) = Ok (B', [ip_n_pkt; ipvx_n_pkt; ip_n_del]) ∧
       i6_prot_map B' = <[17 := queue_packet (new_fifo 4) p]> (i6_prot_map (ex_ipv6 2)) ∧
       pkt_data p = [0; 80; 4; 1; 0; 9; 0; 0; 65] ∧ key (pkt_src p) = key (ex_v6 32 1 13 1) ∧
       key (pkt_dst p) = key (ex_v6 32 1 13 2) ∧
       update_cache 5 (i6_ndp (ex_ipv6 2)) (ex_mac 1) (pkt_src p) 7 false = Ok (i6_ndp B')).
Proof.
  apply (ipv6_transmit_receive 5 7 (ex_ipv6 1) (ex_ipv6 2) 7 (ex_link (ex_packet6 ++ [0])) ex_datagram6 [0]);
    try (apply ex_v6_addr; unfold byte_ok; lia); try done.
  - apply ex_link_ok. apply (bool_decide_unpack _). reflexivity.
  - by left.
Defined.

(** that packet is the one that is sent *)
Example ex_transmitted6 : ipv6_packet 7 ex_datagram6 = Ok ex_packet6.
Proof. reflexivity. Qed.

(** A packet that says it is longer than it is: the length is limited to the
    size of the whole packet, but the payload starts behind the header, so forty
    bytes behind the end are read. *)
Lemma truncated_packet_overread :
  ipv6_handle 5 (ex_ipv6 2) 7
    (ex_link (ipv6_header 7 17 200 (addr (ex_v6 32 1 13 1)) (addr (ex_v6 32 1 13 2)) ++ [0; 80; 4; 1; 0; 9; 0; 0; 65])) =
  Err bad_access.
Proof. reflexivity. Qed.

(** Extension headers of a packet without padding are not looked at: the end
    of the loop is computed from the size of the payload.  A packet with a
    hop-by-hop header before its UDP datagram is dropped. *)
Lemma extension_header_ignored :
  ∃ s', ipv6_handle 5 (ex_ipv6 2) 7
    (ex_link (ipv6_header 7 0 17 (addr (ex_v6 32 1 13 1)) (addr (ex_v6 32 1 13 2)) ++
              [17; 0; 1; 4; 0; 0; 0; 0] ++ [0; 80; 4; 1; 0; 9; 0; 0; 65])) =
    Ok (s', [ip_n_pkt; ipvx_n_pkt; ipvx_unk_prot; ip_n_disc]).
Proof. eexists. reflexivity. Qed.
