(* ===== verification/Icmp4.v ===== *)
(** * ICMP for IPv4 (src/icmp4.cpp)

    The loop body of [icmp4::operator()] and the error messages.  The result is
    the datagram given to [transmit_packet] of the IP layer, if any; [idev] says
    whether a network layer is attached, [now] is [ms_since_midnight()]. *)
From S2P Require Import Prelude AnyAddr Checksum Net AddressCache Arp Router Ipv4.

Inductive icmp_stat := icmp_requests | icmp_req_ping | icmp_transmit.

(** the packet changed to a reply; [None]: not a request *)
Definition icmp4_reply (p : list Z) (size now : Z) : res (option (list Z * list icmp_stat)) :=
  let* type := rd p 0 in
  if type =? 8 then
    let* reply := wr p 0 0 in Ok (Some (reply, [icmp_req_ping]))
  else if type =? 13 then
    if 20 <=? size then
      let* reply := wr p 0 14 in
      let reply_ts := be32 now in
      let* reply := wr_range reply 12 reply_ts in
      let* reply := wr_range reply 16 reply_ts in
      Ok (Some (reply, []))
    else Ok (Some (p, []))
  else Ok None.

(** the copy of the header of the request, its identification incremented *)
Definition next_header (header : list Z) : res (list Z) :=
  let* i0 := rd header 4 in
  let* i1 := rd header 5 in
  let identification := u16 (join16 i0 i1 + 1) in
  let* h := wr header 4 (Z.shiftr identification 8) in
  wr h 5 identification.

(** [p[2] = p[3] = 0; ... p[2] = checksum >> 8; p[3] = checksum;] *)
Definition icmp_checksum (p : list Z) (n : Z) : res (list Z) :=
  let* p := wr p 2 0 in
  let* p := wr p 3 0 in
  let* checksum := ip_checksum p n in
  let* p := wr p 2 (Z.shiftr checksum 8) in
  wr p 3 checksum.

(** the loop body of [icmp4::operator()] *)
Definition icmp4_handle (idev : bool) (now : Z) (pkt : packet) : res (list icmp_stat * option datagram) :=
  let p := pkt_data pkt in
  let size := pkt_size pkt in
  if size <? 8 then Ok ([], None)
  else
    let* r := icmp4_reply p size now in
    match r with
    | None => Ok ([icmp_requests], None)
    | Some (reply, st) =>
        if idev then
          let* header_copy := next_header (pkt_header pkt) in
          let* reply := icmp_checksum reply (size / 2) in
          Ok (icmp_requests :: st,
              Some (Datagram None (pkt_src pkt) (pkt_dst pkt) 0x01 reply (Some header_copy)))
        else Ok (icmp_requests :: st, None)
    end.

(** [send_packet]; [mtu] is [idev->get_max_packet_size()] *)
Definition icmp4_send_packet (idev : bool) (mtu : Z) (dst_ip src_ip : any_addr) (type code : Z) (p : packet)
  : res (list icmp_stat * option datagram) :=
  if negb idev then Ok ([], None)
  else
    let out := [u8 type; u8 code; 0; 0; 0; 0; u8 (Z.shiftr mtu 8); Z.land mtu 255] ++ replicate 568 0 in
    let* out := wr_range out 8 (pkt_header p) in
    let pl_size := Z.min 8 (pkt_size p) in
    let* pl := rd_range (pkt_data p) 0 pl_size in
    let* out := wr_range out (8 + zlen (pkt_header p)) pl in
    let out_size := 8 + zlen (pkt_header p) + pl_size in
    let out_size := out_size + Z.land out_size 1 in
    let* checksum := ip_checksum out ((out_size + 1) / 2) in
    let out := put16 out 2 checksum in
    let* payload := rd_range out 0 out_size in
    Ok ([icmp_transmit], Some (Datagram None dst_ip src_ip 0x01 payload None)).

Definition send_destination_port_unreachable (idev : bool) (mtu : Z) (dst_ip src_ip : any_addr) (p : packet) :=
  icmp4_send_packet idev mtu dst_ip src_ip 3 3 p.

Definition send_ttl_exceeded (idev : bool) (mtu : Z) (pkt : packet) :=
  icmp4_send_packet idev mtu (pkt_src pkt) (pkt_dst pkt) 11 0 pkt.

(** ** What is sent *)

(** the checksum of an ICMP message of an even number of bytes *)
Lemma icmp_checksum_spec a b x y rest n :
  byte_ok a → byte_ok b → bytes_ok rest → zlen rest + 4 = 2 * n → n ≤ 65536 →
  ∃ c, icmp_checksum (a :: b :: x :: y :: rest) n = Ok (a :: b :: be16 c ++ rest) ∧
    ip_checksum (a :: b :: be16 c ++ rest) n = Ok 0.
Proof.
  intros Ha Hb HB Hl Hn. set (p0 := a :: b :: 0 :: 0 :: rest).
  assert (bytes_ok p0) as HB0 by (repeat (apply Forall_cons_2; [done || (unfold byte_ok; lia)|]); done).
  assert (zlen p0 = 2 * n) as L0 by (unfold p0; rewrite !zlen_cons; lia).
  set (c := 65535 - norm (wsum p0)). exists c.
  assert (a :: b :: be16 c ++ rest = put16 p0 2 c) as -> by (unfold p0, put16; simpl; by rewrite drop_0).
  pose proof (zlen_nonneg rest). split.
  - unfold icmp_checksum. rewrite wr_Ok by (rewrite !zlen_cons; lia). cbn [res_bind].
    change (<[Z.to_nat 2:=u8 0]> (a :: b :: x :: y :: rest)) with (a :: b :: 0 :: y :: rest).
    rewrite wr_Ok by (rewrite !zlen_cons; lia). cbn [res_bind].
    change (<[Z.to_nat 3:=u8 0]> (a :: b :: 0 :: y :: rest)) with p0.
    rewrite ip_checksum_norm by done. cbn [res_bind]. fold c. rewrite wr_Ok by lia. cbn [res_bind].
    rewrite wr_Ok by (unfold zlen in *; rewrite length_insert; lia).
    unfold p0, put16. simpl. by rewrite drop_0.
  - apply put16_verifies; done || (unfold zlen in *; lia).
Qed.

Lemma next_header_ok h : bytes_ok h → 6 ≤ zlen h → ∃ h', next_header h = Ok h' ∧ zlen h' = zlen h.
Proof.
  intros HB Hl. unfold next_header.
  destruct (rd_in_range h 4) as [x ->]; [lia|]. destruct (rd_in_range h 5) as [y ->]; [lia|]. cbn [res_bind].
  rewrite wr_Ok by lia. cbn [res_bind]. rewrite wr_Ok by (unfold zlen in *; rewrite length_insert; lia).
  eexists. split; [done|]. unfold zlen. by rewrite !length_insert.
Qed.

(** an echo request is answered by an echo reply to its sender, from the
    address it was sent to, with the same code, identifier, sequence number and
    data, and with a checksum that verifies (for messages of an even size). *)
Theorem echo_reply now pkt code x y rest :
  pkt_data pkt = 8 :: code :: x :: y :: rest → byte_ok code → bytes_ok rest →
  4 ≤ zlen rest ≤ 65531 → zlen rest mod 2 = 0 → bytes_ok (pkt_header pkt) → 20 ≤ zlen (pkt_header pkt) →
  ∃ c h, icmp4_handle true now pkt =
      Ok ([icmp_requests; icmp_req_ping],
          Some (Datagram None (pkt_src pkt) (pkt_dst pkt) 1 (0 :: code :: be16 c ++ rest) (Some h))) ∧
    ip_checksum (0 :: code :: be16 c ++ rest) ((4 + zlen rest) / 2) = Ok 0 ∧ 2 ≤ zlen h.
Proof.
  intros Hp Hc HB Hl He HBh Hlh. unfold icmp4_handle, pkt_size. rewrite Hp, !zlen_cons.
  rewrite (proj2 (Z.ltb_ge _ 8)) by lia. unfold icmp4_reply. cbn [rd].
  change (rd (8 :: code :: x :: y :: rest) 0) with (@Ok Z 8). cbn [res_bind]. change (8 =? 8) with true. cbn iota.
  rewrite wr_Ok by (rewrite !zlen_cons; lia). cbn [res_bind].
  change (<[Z.to_nat 0:=u8 0]> (8 :: code :: x :: y :: rest)) with (0 :: code :: x :: y :: rest).
  destruct (next_header_ok (pkt_header pkt) HBh) as (h & -> & Lh); [lia|]. cbn [res_bind].
  assert (zlen rest + 1 + 1 + 1 + 1 = 4 + zlen rest) as -> by lia.
  destruct (icmp_checksum_spec 0 code x y rest ((4 + zlen rest) / 2)) as (c & -> & Hv);
    [unfold byte_ok; lia|done|done|Z.to_euclidean_division_equations; lia|Z.to_euclidean_division_equations; lia|].
  exists c, h. split; [done|]. split; [done|lia].
Qed.

Lemma echo_reply_witness :
  ∃ c h, icmp4_handle true 0 (Packet (ex_mac 1) (ex_v4 10 0 0 1) (ex_v4 10 0 0 2)
             [8; 0; 1; 2; 0; 7; 0; 1; 65; 66] (replicate 20 69) false) =
      Ok ([icmp_requests; icmp_req_ping],
          Some (Datagram None (ex_v4 10 0 0 1) (ex_v4 10 0 0 2) 1 (0 :: 0 :: be16 c ++ [0; 7; 0; 1; 65; 66]) (Some h))) ∧
    ip_checksum (0 :: 0 :: be16 c ++ [0; 7; 0; 1; 65; 66]) 5 = Ok 0 ∧ 2 ≤ zlen h.
Proof.
  apply (echo_reply 0 (Packet (ex_mac 1) (ex_v4 10 0 0 1) (ex_v4 10 0 0 2)
             [8; 0; 1; 2; 0; 7; 0; 1; 65; 66] (replicate 20 69) false) 0 1 2 [0; 7; 0; 1; 65; 66]);
    try done; try solve_bytes; unfold byte_ok; simpl; lia.
Defined.

(** For an odd size the last byte is missing in the sum. *)
Lemma odd_echo_checksum_wrong :
  ∃ c h, icmp4_handle true 0 (Packet (ex_mac 1) (ex_v4 10 0 0 1) (ex_v4 10 0 0 2)
             [8; 0; 1; 2; 0; 7; 0; 1; 65] (replicate 20 69) false) =
      Ok ([icmp_requests; icmp_req_ping],
          Some (Datagram None (ex_v4 10 0 0 1) (ex_v4 10 0 0 2) 1 (0 :: 0 :: be16 c ++ [0; 7; 0; 1; 65]) (Some h))) ∧
    rfc1071 (0 :: 0 :: be16 c ++ [0; 7; 0; 1; 65]) ≠ 0.
Proof.
  exists 65527, (match next_header (replicate 20 69) with Ok h => h | Err _ => [] end).
  split; [reflexivity|done].
Qed.

(** The header of an IPv4 packet may be shorter than 20 bytes (the header
    length field is only compared with the packet size): an echo request whose
    header is 4 bytes makes the reply code read and write past its copy. *)
Lemma short_header_overrun now sm s d :
  icmp4_handle true now (Packet sm s d [8; 0; 1; 2; 0; 7; 0; 1] [65; 0; 0; 12] false) = Err bad_access.
Proof. reflexivity. Qed.

(** the buffer of [send_packet]: the header and the first bytes of the data of
    the packet behind the first eight bytes, followed by zeros *)
Lemma error_buffer pre h d :
  zlen pre = 8 → zlen h ≤ 60 →
  let pl := take 8 d in
  let n := 8 + zlen h + zlen pl in
  (let* out := wr_range (pre ++ replicate 568 0) 8 h in
   let* pl := rd_range d 0 (Z.min 8 (zlen d)) in
   wr_range out (8 + zlen h) pl) =
  Ok ((pre ++ h ++ pl ++ replicate (Z.to_nat (n mod 2)) 0) ++
      replicate (568 - length h - length pl - Z.to_nat (n mod 2)) 0) ∧
  zlen pl = Z.min 8 (zlen d) ∧ zlen (pre ++ h ++ pl ++ replicate (Z.to_nat (n mod 2)) 0) = n + n mod 2.
Proof.
  intros Lpre Lh pl n. assert (zlen pl = Z.min 8 (zlen d)) as Lpl by (unfold zlen, pl; rewrite length_take; lia).
  pose proof (zlen_nonneg h). pose proof (zlen_nonneg d). pose proof (zlen_nonneg pl).
  assert (0 ≤ n mod 2 < 2) as Hn2 by (apply Z.mod_pos_bound; lia). split_and!; [|done|].
  - rewrite wr_range_app by (done || (change (zlen (replicate 568 0)) with 568; lia)). cbn [res_bind].
    rewrite rd_range_Ok by lia. cbn [res_bind].
    replace (take (Z.to_nat (Z.min 8 (zlen d))) (drop (Z.to_nat 0) d)) with pl.
    2:{ unfold pl. rewrite drop_0. destruct (decide (8 ≤ zlen d)).
        - by rewrite Z.min_l by done.
        - rewrite Z.min_r by lia. unfold zlen in *. by rewrite !take_ge by lia. }
    rewrite app_assoc, drop_replicate.
    rewrite wr_range_app by (rewrite ?zlen_app; done || lia || (unfold zlen in *; rewrite ?length_replicate; lia)).
    rewrite drop_replicate, <- !app_assoc. do 4 f_equal. rewrite <- replicate_add. f_equal. unfold zlen in *. lia.
  - rewrite !zlen_app, Lpre. unfold zlen at 3. rewrite length_replicate. lia.
Qed.

(** an ICMP error message quotes the header of the packet it is about and
    the first eight bytes of its data, and its checksum verifies. *)
Theorem error_quotes_packet mtu dst src type code p :
  byte_ok type → byte_ok code → 0 ≤ mtu < 65536 → bytes_ok (pkt_header p) → zlen (pkt_header p) ≤ 60 →
  bytes_ok (pkt_data p) →
  ∃ c pad, let msg := [type; code] ++ be16 c ++ [0; 0] ++ be16 mtu ++ pkt_header p ++ take 8 (pkt_data p) ++ pad in
    icmp4_send_packet true mtu dst src type code p =
      Ok ([icmp_transmit], Some (Datagram None dst src 1 msg None)) ∧
    zlen pad ≤ 1 ∧ ip_checksum msg (zlen msg / 2) = Ok 0.
Proof.
  intros Ht Hc Hm HBh Lh HBd. unfold icmp4_send_packet, pkt_size. cbn [negb].
  assert (Z.land mtu 255 = u8 mtu) as -> by (apply (Z.land_ones mtu 8); lia). rewrite !u8_id by done.
  set (pre := [type; code; 0; 0; 0; 0; u8 (Z.shiftr mtu 8); u8 mtu]).
  destruct (error_buffer pre (pkt_header p) (pkt_data p) eq_refl Lh) as (Hbuf & Lpl & L0).
  set (h := pkt_header p) in *. set (pl := take 8 (pkt_data p)) in *. set (n := 8 + zlen h + zlen pl) in *.
  set (pad := replicate (Z.to_nat (n mod 2)) 0) in *. set (z := replicate (568 - _ - _ - _) 0) in Hbuf.
  set (p0 := pre ++ h ++ pl ++ pad) in *. assert (0 ≤ n mod 2 < 2) as Hn2 by (apply Z.mod_pos_bound; lia).
  destruct (wr_range (pre ++ replicate 568 0) 8 h) as [o|]; cbn [res_bind] in Hbuf |- *; [|done].
  destruct (rd_range (pkt_data p) 0 (Z.min 8 (zlen (pkt_data p)))) as [d|]; cbn [res_bind] in Hbuf |- *; [|done].
  rewrite Hbuf. cbn [res_bind]. rewrite <- Lpl, land_1. fold n.
  assert (zlen pad = n mod 2) as Lpad by (unfold zlen, pad; rewrite length_replicate; lia).
  assert (bytes_ok pre) as HBpre
    by (repeat (apply Forall_cons_2; [done || apply u8_ok || (unfold byte_ok; lia)|]); done).
  assert (bytes_ok p0) as HB0
    by (repeat apply bytes_ok_app; try done; [by apply bytes_ok_take|by apply bytes_ok_replicate]).
  pose proof (zlen_nonneg h). pose proof (zlen_nonneg pl).
  assert ((n + n mod 2 + 1) / 2 = (n + n mod 2) / 2 ∧ n + n mod 2 = 2 * ((n + n mod 2) / 2)) as [-> He]
    by (Z.to_euclidean_division_equations; lia).
  rewrite ip_checksum_app by lia. rewrite ip_checksum_norm by (done || lia). cbn [res_bind].
  set (c := 65535 - norm (wsum p0)).
  assert (put16 (p0 ++ z) 2 c = put16 p0 2 c ++ z) as -> by (unfold put16; simpl; rewrite <- ?app_assoc; done).
  assert (zlen (put16 p0 2 c) = n + n mod 2) as Lp by (unfold zlen in *; rewrite length_put16; lia).
  rewrite rd_range_app by done. cbn [res_bind].
  exists c, pad. cbv zeta. change ([type; code] ++ be16 c ++ _) with (put16 p0 2 c). split; [done|]. split; [lia|].
  rewrite Lp. apply put16_verifies; done || (unfold zlen in *; lia).
Qed.

Lemma error_quotes_packet_witness :
  ∃ c pad, let msg := [3; 3] ++ be16 c ++ [0; 0] ++ be16 1500 ++ replicate 20 69 ++ [0; 80; 4; 1; 0; 9; 0; 0] ++ pad in
    icmp4_send_packet true 1500 (ex_v4 10 0 0 1) (ex_v4 10 0 0 2) 3 3
      (Packet (ex_mac 1) (ex_v4 10 0 0 1) (ex_v4 10 0 0 2) ex_segment (replicate 20 69) false) =
      Ok ([icmp_transmit], Some (Datagram None (ex_v4 10 0 0 1) (ex_v4 10 0 0 2) 1 msg None)) ∧
    zlen pad ≤ 1 ∧ ip_checksum msg (zlen msg / 2) = Ok 0.
Proof.
  apply (error_quotes_packet 1500 (ex_v4 10 0 0 1) (ex_v4 10 0 0 2) 3 3
      (Packet (ex_mac 1) (ex_v4 10 0 0 1) (ex_v4 10 0 0 2) ex_segment (replicate 20 69) false));
    try solve_bytes; unfold byte_ok; simpl; lia || done.
Defined.
