(* ===== verification/Icmp6.v ===== *)
(** * ICMPv6 and neighbour discovery (src/icmp6.cpp, src/ndp.cpp)

    The loop body of [icmp6::operator()] with the messages it answers, the router
    advertisements that fill the routing table, and the address resolver of IPv6.
    [i6c_idev] is [get_max_packet_size()] of the attached network layer, if there
    is one.  The pointer [indp] that [icmp6] gives to the routes it adds is
    never assigned: it is the null pointer. *)
From S2P Require Import Prelude Str AnyAddr Fifo Checksum Net AddressCache Arp Router Ipv4 Ipv6.

Record icmp6 := Icmp6 {
  i6c_my_mac : any_addr;
  i6c_my_ip : any_addr;
  i6c_interface : Z;
  i6c_idev : option Z;
}.

Inductive icmp6_stat := icmp6_requests | icmp6_transmit | icmp6_error.

Definition null_ptr : Z := 0.

(** "FF02:0000:0000:0000:000:" and a last part; the groups of the text *)
Definition multicast_text (groups : list str) : str :=
  join [colon] ([[70; 70; 48; 50]; [48; 48; 48; 48]; [48; 48; 48; 48]; [48; 48; 48; 48]; [48; 48; 48]] ++ groups).

Definition all_router_multicast_addr : res any_addr :=
  parse_address (multicast_text [[48; 48; 48; 48]; [48; 48; 48; 48]; [48; 48; 48; 50]]) 16 [colon] 16.

(** [send_packet]: the counters and the datagram for the IPv6 layer *)
Definition icmp6_send_packet (s : icmp6) (dst_mac : option any_addr) (dst_ip src_ip : any_addr)
    (type code reserved : Z) (payload : list Z) (payload_size : Z) : res (list icmp6_stat * option datagram) :=
  match i6c_idev s with
  | None => Ok ([icmp6_transmit; icmp6_error], None)
  | Some max_packet_size =>
      let max_size := max_packet_size - 8 in
      if max_size <? payload_size then Ok ([icmp6_transmit; icmp6_error], None)
      else
        let out := replicate (Z.to_nat max_size) 0 in
        let* out := wr_range out 0 ([u8 type; u8 code; 0; 0] ++ be32 reserved) in
        let* out :=
          (if negb (payload_size =? 0) then
             let* bytes := rd_range payload 0 payload_size in wr_range out 8 bytes
           else Ok out) in
        let out_size := 8 + payload_size in
        let out_size :=
          if negb (Z.land out_size 7 =? 0) then out_size + (8 - Z.land out_size 7) else out_size in
        let* src := get_exp src_ip 16 in
        let* dst := get_exp dst_ip 16 in
        let* body := rd_range out 0 out_size in
        let temp := src ++ dst ++ be32 out_size ++ [0; 0; 0; 58] ++ body in
        let* checksum := ip_checksum temp ((40 + out_size) / 2) in
        let out := put16 out 2 checksum in
        let* payload := rd_range out 0 out_size in
        Ok ([icmp6_transmit], Some (Datagram dst_mac dst_ip src_ip 0x3a payload None))
  end.

(** the multicast MAC address of [all_router_multicast_addr] *)
Definition all_router_mac (group : any_addr) : res any_addr :=
  let* b12 := at_ group 12 in
  let* b13 := at_ group 13 in
  let* b14 := at_ group 14 in
  let* b15 := at_ group 15 in
  mk_addr mac [0x33; 0x33; b12; b13; b14; b15].

Definition send_packet_router_soliciation (s : icmp6) : res (list icmp6_stat * option datagram) :=
  let* group := all_router_multicast_addr in
  let* adst_mac := all_router_mac group in
  let* m := get_exp (i6c_my_mac s) 6 in
  icmp6_send_packet s (Some adst_mac) group (i6c_my_ip s) 133 0 0 ([0x01; 0x01] ++ m) 8.

Definition send_packet_neighbor_advertisement (s : icmp6) (peer_mac peer_ip : any_addr)
  : res (list icmp6_stat * option datagram) :=
  let* m := get_exp (i6c_my_mac s) 6 in
  let* ip := get_exp (i6c_my_ip s) 16 in
  icmp6_send_packet s (Some peer_mac) peer_ip (i6c_my_ip s) 136 0 0x60000000 (ip ++ [0x02; 0x01] ++ m) 24.

Definition send_packet_neighbor_solicitation (s : icmp6) (check_ip : any_addr)
  : res (list icmp6_stat * option datagram) :=
  let* group := all_router_multicast_addr in
  let* adst_mac := all_router_mac group in
  let* payload := get_exp check_ip 16 in
  let* b12 := at_ check_ip 12 in
  let* b13 := at_ check_ip 13 in
  let* b14 := at_ check_ip 14 in
  let* b15 := at_ check_ip 15 in
  let buffer := snprintf 128 (multicast_text [[48; 48; 48; 49]; fmt_02x b12 ++ fmt_02x b13; fmt_02x b14 ++ fmt_02x b15]) in
  let* peer_ip := parse_address buffer 16 [colon] 16 in
  icmp6_send_packet s (Some adst_mac) peer_ip (i6c_my_ip s) 135 0 0 payload 16.

Definition send_ping_reply (s : icmp6) (pkt : packet) : res (list icmp6_stat * option datagram) :=
  let p := pkt_data pkt in
  let* b4 := rd p 4 in
  let* b5 := rd p 5 in
  let* b6 := rd p 6 in
  let* b7 := rd p 7 in
  let id_seq_nr := join32 b4 b5 b6 b7 in
  let payload := if 8 <? pkt_size pkt then ptr_at p 8 else [] in
  icmp6_send_packet s (Some (pkt_src_mac pkt)) (pkt_src pkt) (i6c_my_ip s) 129 0 id_seq_nr payload (pkt_size pkt - 8).

Definition icmp6_port_unreachable (s : icmp6) (pkt : packet) : res (list icmp6_stat * option datagram) :=
  icmp6_send_packet s (Some (pkt_src_mac pkt)) (pkt_src pkt) (i6c_my_ip s) 1 4 0 [] 0.

Definition icmp6_ttl_exceeded (s : icmp6) (pkt : packet) : res (list icmp6_stat * option datagram) :=
  icmp6_send_packet s (Some (pkt_src_mac pkt)) (pkt_src pkt) (i6c_my_ip s) 11 0 0 (pkt_data pkt) (pkt_size pkt).

(** the loop of [process_router_advertisement] over the options *)
Fixpoint advertised_options (fuel : nat) (s : icmp6) (ip_table : list ip_router_entry) (p : list Z) (work_p : Z)
  : res (list ip_router_entry) :=
  if work_p <? zlen p then
    match fuel with
    | O => Err out_of_fuel
    | S fuel =>
        let* type := rd p work_p in
        if negb (type =? 3) then
          let* len := rd p (work_p + 1) in
          advertised_options fuel s ip_table p (work_p + len)
        else
          let* prefix_length := rd p (work_p + 2) in
          let* prefix := mk_addr ipv6 (ptr_at p (work_p + 16)) in
          add_router_ipv6 ip_table (i6c_my_ip s) prefix prefix_length 0 (i6c_interface s) null_ptr
    end
  else Ok ip_table.

Definition process_router_advertisement (s : icmp6) (ip_table : list ip_router_entry) (pkt : packet)
  : res (list ip_router_entry) :=
  if pkt_size pkt <=? 18 then Ok ip_table
  else advertised_options (length (pkt_data pkt)) s ip_table (pkt_data pkt) 16.

(** the loop body of [icmp6::operator()] *)
Definition icmp6_handle (s : icmp6) (ip_table : list ip_router_entry) (pkt : packet)
  : res (list ip_router_entry * list icmp6_stat * option datagram) :=
  let* type := rd (pkt_data pkt) 0 in
  if type =? 128 then
    let* '(st, dg) := send_ping_reply s pkt in Ok (ip_table, icmp6_requests :: st, dg)
  else if type =? 133 then Ok (ip_table, [icmp6_requests], None)
  else if type =? 134 then
    let* ip_table := process_router_advertisement s ip_table pkt in Ok (ip_table, [icmp6_requests], None)
  else if type =? 135 then
    let* '(st, dg) := send_packet_neighbor_advertisement s (pkt_src_mac pkt) (pkt_src pkt) in
    Ok (ip_table, icmp6_requests :: st, dg)
  else Ok (ip_table, [icmp6_requests], None).

(** ** The resolver of IPv6 *)

Record ndp := Ndp {
  ndp_cache : address_cache;
  ndp_work : gmap (addr_family * list Z) (option (option any_addr));
  ndp_icmp6 : option icmp6;
}.

(** [ndp::send_request] *)
Definition ndp_send_request (s : ndp) (ip : any_addr) : res (bool * list icmp6_stat * option datagram) :=
  match ndp_icmp6 s with
  | Some i => let* '(st, dg) := send_packet_neighbor_solicitation i ip in Ok (true, st, dg)
  | None => Ok (false, [], None)
  end.

(** [mac_resolver::get_mac] of an [ndp], up to the first wait: no address is special *)
Definition ndp_get_mac_begin (s : ndp) (interface : Z) (ip : any_addr)
  : res (get_mac_status * ndp * option datagram) :=
  let '(cache_result, c) := query_cache (ndp_cache s) ip false in
  let s := Ndp c (ndp_work s) (ndp_icmp6 s) in
  match cache_result with
  | Some (i, m) => Ok (Resolved i m, s, None)
  | None =>
      let* '(ok, _, dg) := ndp_send_request s ip in
      if ok then
        let w := match ndp_work s !! key ip with
                 | Some _ => ndp_work s
                 | None => <[key ip := None]> (ndp_work s)
                 end in
        Ok (Waiting, Ndp c w (ndp_icmp6 s), dg)
      else Ok (Failed, s, dg)
  end.

(** ** The messages *)

(** the payload is filled up to a multiple of eight bytes *)
Definition fill (n : Z) : list Z := replicate (Z.to_nat ((- n) mod 8)) 0.
Definition icmp6_message (type code c reserved : Z) (payload : list Z) : list Z :=
  [type; code] ++ be16 c ++ be32 reserved ++ payload ++ fill (zlen payload).
Definition pseudo6 (src dst : list Z) (n : Z) : list Z := src ++ dst ++ be32 n ++ [0; 0; 0; 58].

(** the checksum of a message verifies *)
Definition icmp6_verifies (src dst : any_addr) (msg : list Z) : Prop :=
  ip_checksum (pseudo6 (key src).2 (key dst).2 (zlen msg) ++ msg) ((40 + zlen msg) / 2) = Ok 0.

Lemma zlen_fill n : zlen (fill n) = (- n) mod 8.
Proof. unfold fill, zlen. rewrite length_replicate. pose proof (Z.mod_pos_bound (- n) 8). lia. Qed.

Lemma round_up n : 0 ≤ n →
  (if negb (Z.land n 7 =? 0) then n + (8 - Z.land n 7) else n) = n + (- n) mod 8.
Proof.
  intros Hn. change 7 with (Z.ones 3). rewrite Z.land_ones by lia. change (2 ^ 3) with 8.
  destruct (Z.eqb_spec (n mod 8) 0); cbn [negb]; Z.to_euclidean_division_equations; lia.
Qed.

Lemma zlen_replicate {A} (x : A) n : 0 ≤ n → zlen (replicate (Z.to_nat n) x) = n.
Proof. intros. unfold zlen. rewrite length_replicate. lia. Qed.

(** the message in the buffer of [send_packet], before the checksum is stored *)
Lemma icmp6_buffer type code reserved payload max_size :
  byte_ok type → byte_ok code → 8 + zlen payload + (- zlen payload) mod 8 ≤ max_size →
  ∃ rest, (let* out := wr_range (replicate (Z.to_nat max_size) 0) 0 ([u8 type; u8 code; 0; 0] ++ be32 reserved) in
      if negb (zlen payload =? 0) then
        let* bytes := rd_range payload 0 (zlen payload) in wr_range out 8 bytes
      else Ok out) = Ok (icmp6_message type code 0 reserved payload ++ rest).
Proof.
  intros Ht Hc Hm. pose proof (zlen_nonneg payload). pose proof (Z.mod_pos_bound (- zlen payload) 8 ltac:(lia)).
  set (hd := [u8 type; u8 code; 0; 0] ++ be32 reserved).
  pose proof (wr_range_app [] (replicate (Z.to_nat max_size) 0) 0 hd eq_refl) as W. rewrite !app_nil_l in W.
  rewrite W by (rewrite zlen_replicate by lia; unfold zlen; simpl; lia). cbn [res_bind].
  change (length hd) with 8%nat. rewrite drop_replicate.
  exists (replicate (Z.to_nat max_size - 8 - length payload - length (fill (zlen payload))) 0).
  assert (hd ++ payload ++ replicate (Z.to_nat max_size - 8 - length payload) 0 =
    icmp6_message type code 0 reserved payload ++
      replicate (Z.to_nat max_size - 8 - length payload - length (fill (zlen payload))) 0) as <-.
  { assert (replicate (Z.to_nat max_size - 8 - length payload) 0 = fill (zlen payload) ++
      replicate (Z.to_nat max_size - 8 - length payload - length (fill (zlen payload))) 0) as ->.
    { unfold fill. rewrite length_replicate, <- replicate_add. f_equal. unfold zlen in *. lia. }
    unfold icmp6_message, hd. rewrite !u8_id by done. simpl. by rewrite <- app_assoc. }
  destruct (Z.eqb_spec (zlen payload) 0) as [E|E]; cbn [negb].
  - destruct payload; [|unfold zlen in E; simpl in E; lia]. simpl. by rewrite Nat.sub_0_r.
  - pose proof (rd_range_app payload [] _ eq_refl) as R. rewrite app_nil_r in R. rewrite R. cbn [res_bind].
    rewrite wr_range_app; [by rewrite drop_replicate|done|].
    unfold zlen in *. rewrite length_replicate. lia.
Qed.

Lemma icmp6_message_shape type code c reserved payload :
  byte_ok type → byte_ok code → bytes_ok payload →
  let msg := icmp6_message type code c reserved payload in
  bytes_ok msg ∧ zlen msg = 8 + zlen payload + (- zlen payload) mod 8 ∧ zlen msg mod 8 = 0 ∧
  msg = put16 (icmp6_message type code 0 reserved payload) 2 c.
Proof.
  intros Ht Hc HB msg. assert (zlen msg = 8 + zlen payload + (- zlen payload) mod 8) as L.
  { unfold msg, icmp6_message. rewrite !zlen_app, zlen_fill. change (zlen [type; code]) with 2.
    change (zlen (be16 c)) with 2. change (zlen (be32 reserved)) with 4. lia. }
  split_and!; [|done|rewrite L; Z.to_euclidean_division_equations; lia|done].
  unfold msg, icmp6_message, fill.
  apply bytes_ok_app; [by repeat (apply Forall_cons_2; [done|])|].
  repeat (apply bytes_ok_app; [auto with myip|]). apply bytes_ok_replicate. unfold byte_ok. lia.
Qed.

(** [send_packet] builds the message with a checksum that verifies, when it
    fits in the buffer. *)
Lemma icmp6_send_packet_spec s m dst_mac dst src type code reserved payload :
  i6c_idev s = Some m → ipv6_addr dst → ipv6_addr src → byte_ok type → byte_ok code → bytes_ok payload →
  8 + zlen payload + (- zlen payload) mod 8 ≤ m - 8 → m ≤ 65536 →
  ∃ c, icmp6_send_packet s dst_mac dst src type code reserved payload (zlen payload) =
      Ok ([icmp6_transmit], Some (Datagram dst_mac dst src 0x3a (icmp6_message type code c reserved payload) None)) ∧
    icmp6_verifies src dst (icmp6_message type code c reserved payload).
Proof.
  intros Hi Hd Hs Ht Hc HB Hm Hm2. pose proof (zlen_nonneg payload). pose proof (Z.mod_pos_bound (- zlen payload) 8 ltac:(lia)).
  destruct (ipv6_key _ Hs) as (_ & Ls & Bs), (ipv6_key _ Hd) as (_ & Ld & Bd).
  destruct (icmp6_message_shape type code 0 reserved payload Ht Hc HB) as (HB0 & L0 & M0 & _).
  set (body := icmp6_message type code 0 reserved payload) in *.
  set (pre := pseudo6 (key src).2 (key dst).2 (zlen body)).
  assert (zlen pre = 40) as Lpre by (unfold pre, pseudo6; rewrite !zlen_app; unfold zlen; rewrite Ls, Ld; done).
  assert (bytes_ok pre) as Bpre.
  { unfold pre, pseudo6. repeat (apply bytes_ok_app; [auto with myip|]). solve_bytes. }
  set (c := 65535 - norm (wsum (pre ++ body))). exists c.
  destruct (icmp6_message_shape type code c reserved payload Ht Hc HB) as (HBc & Lc & _ & Ec).
  fold body in Ec. rewrite <- L0 in Lc.
  assert (∀ l, zlen l = zlen body → bytes_ok l → ip_checksum (pre ++ l) ((40 + zlen body) / 2) =
    Ok (65535 - norm (wsum (pre ++ l)))) as Hck.
  { intros l Ll Bl. apply ip_checksum_norm; [by apply bytes_ok_app|rewrite zlen_app|];
      Z.to_euclidean_division_equations; lia. }
  split.
  - unfold icmp6_send_packet. rewrite Hi. rewrite (proj2 (Z.ltb_ge _ _)) by lia.
    destruct (icmp6_buffer type code reserved payload (m - 8) Ht Hc) as [rest Hb]; [lia|]. fold body in Hb.
    destruct (wr_range _ 0 _) as [out|] eqn:Hw; cbn [res_bind] in Hb; [|done]. cbn [res_bind]. rewrite Hb.
    cbn [res_bind]. rewrite round_up by lia.
    replace (8 + zlen payload + - (8 + zlen payload) mod 8) with (zlen body) by (rewrite L0; Z.to_euclidean_division_equations; lia).
    destruct Hs as [Gs Fs], Hd as [Gd Fd]. rewrite !(get_exp_key _ ipv6) by done. cbn [res_bind].
    rewrite rd_range_app by done. cbn [res_bind].
    replace ((key src).2 ++ (key dst).2 ++ be32 (zlen body) ++ [0; 0; 0; 58] ++ body) with (pre ++ body)
      by (unfold pre, pseudo6; by rewrite <- !app_assoc).
    rewrite Hck by done. cbn [res_bind]. fold c.
    assert (put16 (body ++ rest) 2 c = icmp6_message type code c reserved payload ++ rest) as ->
      by (unfold body, icmp6_message, put16; simpl; by rewrite ?drop_0).
    rewrite rd_range_app by done. done.
  - unfold icmp6_verifies. rewrite Lc. fold pre. rewrite Hck by done. rewrite Ec.
    rewrite (stored_checksum pre body 2 c); try done; [apply even_of_mod; by rewrite Lpre|unfold zlen in *; lia].
Qed.

Lemma be32_join32 a b c d :
  byte_ok a → byte_ok b → byte_ok c → byte_ok d → be32 (join32 a b c d) = [a; b; c; d].
Proof. intros. rewrite join32_eq by done. unfold be32. repeat f_equal; zlia. Qed.

(** an ICMPv6 echo request whose reply fits in a packet is answered to its
    sender, from the own address, with the identifier, the sequence number and
    the data of the request, filled with zeros up to a multiple of eight bytes,
    and with a checksum that verifies for the pseudo header of the reply. *)
Theorem ping6_reply s t pkt m code x y i0 i1 i2 i3 data :
  i6c_idev s = Some m → m ≤ 65536 → ipv6_addr (pkt_src pkt) → ipv6_addr (i6c_my_ip s) →
  pkt_data pkt = [128; code; x; y; i0; i1; i2; i3] ++ data → bytes_ok [i0; i1; i2; i3] → bytes_ok data →
  8 + zlen data + (- zlen data) mod 8 ≤ m - 8 →
  ∃ c, let msg := [129; 0] ++ be16 c ++ [i0; i1; i2; i3] ++ data ++ fill (zlen data) in
    icmp6_handle s t pkt =
      Ok (t, [icmp6_requests; icmp6_transmit],
          Some (Datagram (Some (pkt_src_mac pkt)) (pkt_src pkt) (i6c_my_ip s) 0x3a msg None)) ∧
    icmp6_verifies (i6c_my_ip s) (pkt_src pkt) msg.
Proof.
  intros Hi Hm Hs Hme Hp Hid HB Hl. do 4 (apply Forall_cons in Hid as [? Hid]).
  destruct (icmp6_send_packet_spec s m (Some (pkt_src_mac pkt)) (pkt_src pkt) (i6c_my_ip s) 129 0
    (join32 i0 i1 i2 i3) data Hi Hs Hme) as (c & Hc & Hv); [unfold byte_ok; lia|unfold byte_ok; lia|done|done|done|].
  exists c. unfold icmp6_message in Hc, Hv. rewrite be32_join32 in Hc, Hv by done. split; [|done].
  unfold icmp6_handle. rewrite Hp. change (rd ([128; code; x; y; i0; i1; i2; i3] ++ data) 0) with (@Ok Z 128).
  cbn [res_bind]. change (128 =? 128) with true. cbn iota. unfold send_ping_reply, pkt_size. rewrite Hp.
  change (rd (?l ++ data) 4) with (@Ok Z i0). change (rd (?l ++ data) 5) with (@Ok Z i1).
  change (rd (?l ++ data) 6) with (@Ok Z i2). change (rd (?l ++ data) 7) with (@Ok Z i3). cbn [res_bind].
  rewrite zlen_app. change (zlen [128; code; x; y; i0; i1; i2; i3]) with 8.
  replace (8 + zlen data - 8) with (zlen data) by lia.
  assert ((if 8 <? 8 + zlen data then ptr_at ([128; code; x; y; i0; i1; i2; i3] ++ data) 8 else []) = data) as ->.
  { destruct (Z.ltb_spec 8 (8 + zlen data)); [done|]. destruct data; [done|]. unfold zlen in *. simpl in *. lia. }
  rewrite Hc. done.
Qed.

(** ** Resolving an address *)

Lemma strtol_hex4 a b : byte_ok a → byte_ok b → strtol (fmt_02x a ++ fmt_02x b) 16 = a * 256 + b.
Proof.
  intros Ha Hb. unfold byte_ok in *.
  assert (∀ x, 0 ≤ x < 256 → 0 ≤ x / 16 < 16 ∧ 0 ≤ x mod 16 < 16) as Hx
    by (intros; Z.to_euclidean_division_equations; lia).
  assert (∀ m l k, 0 ≤ m < 16 → strtol_digits (digit_char m :: l) 16 k = strtol_digits l 16 (k * 16 + m)) as D.
  { intros m l k Hm. cbn [strtol_digits]. destruct (digit_char_spec m Hm) as [-> _].
    by rewrite (proj2 (Z.ltb_lt m 16)) by lia. }
  assert (strtol_digits (fmt_02x a ++ fmt_02x b) 16 0 = a * 256 + b) as E.
  { unfold fmt_02x. cbn [app]. rewrite !D by (apply Hx; lia). cbn [strtol_digits].
    Z.to_euclidean_division_equations. lia. }
  rewrite (strtol_of_digits 16), E; [done|lia| |lia].
  unfold fmt_02x. repeat (apply Forall_cons_2; [eexists; split; [|done]; apply Hx; lia|]). apply Forall_nil_2.
Qed.

(** the group the solicitation for an address goes to *)
Definition solicited_group (b12 b13 b14 b15 : Z) : list Z :=
  [0xff; 0x02; 0; 0; 0; 0; 0; 0; 0; 0; 0; 1; b12; b13; b14; b15].

Lemma parse_solicited_group b12 b13 b14 b15 :
  bytes_ok [b12; b13; b14; b15] →
  ∃ a, parse_address (snprintf 128 (multicast_text [[48; 48; 48; 49]; fmt_02x b12 ++ fmt_02x b13; fmt_02x b14 ++ fmt_02x b15]))
      16 [colon] 16 = Ok a ∧ good a ∧ key a = (ipv6, solicited_group b12 b13 b14 b15).
Proof.
  intros HB. do 4 (apply Forall_cons in HB as [? HB]). rewrite snprintf_id by (simpl; lia).
  assert (∀ x, byte_ok x → (colon ∉ fmt_02x x) ∧ (fmt_02x x ≠ [])) as Hf
    by (intros x Hx; destruct (hex2_field x Hx) as (_ & ? & ? & _); done).
  unfold parse_address, multicast_text.
  rewrite split_join; [|repeat (apply Forall_cons_2; [split; [|done]|])]; try (by apply (bool_decide_unpack _); vm_compute);
    try apply Forall_nil_2; try (apply not_elem_of_app; split; by apply Hf).
  cbn [res_bind app]. cbn [length]. rewrite bool_decide_eq_false_2, !bool_decide_eq_true_2 by done. cbn [negb andb].
  rewrite decide_True by done. cbn [parse_words part_at]. unfold part_at. cbn [lookup list_lookup res_bind].
  rewrite !strtol_hex4 by done.
  destruct (mk_addr_spec ipv6 (solicited_group b12 b13 b14 b15)) as (a & Ha & G & K);
    [by repeat (apply Forall_cons_2; [done|])|done|].
  exists a. split; [|done]. rewrite <- Ha. unfold solicited_group. f_equal. unfold byte_ok in *.
  repeat (apply (f_equal2 cons); [done || zlia|]). done.
Qed.

Definition mac_addr (a : any_addr) : Prop := good a ∧ af a = mac.

Lemma all_router_mac_ok :
  ∃ g m, all_router_multicast_addr = Ok g ∧ all_router_mac g = Ok m ∧ key m = (mac, [0x33; 0x33; 0; 0; 0; 2]).
Proof. eexists _, _. split; [vm_compute; reflexivity|]. split; [vm_compute; reflexivity|]. reflexivity. Qed.

Lemma at_byte a k : ipv6_addr a → 0 ≤ k < 16 → ∃ b, at_ a k = Ok b ∧ byte_ok b.
Proof.
  intros [G F] Hk. destruct (at_good a k) as (b & Hb & Lb); [done|by rewrite F|]. exists b. split; [done|].
  pose proof (key_bytes_ok a G) as B. unfold bytes_ok in B. rewrite Forall_lookup in B. eauto.
Qed.

(** the solicitation for [ip]: to a link-local group, with the address in question *)
Lemma solicitation_spec s m ip :
  i6c_idev s = Some m → 32 ≤ m ≤ 65536 → ipv6_addr (i6c_my_ip s) → ipv6_addr ip →
  ∃ dm dst c, send_packet_neighbor_solicitation s ip =
      Ok ([icmp6_transmit], Some (Datagram (Some dm) dst (i6c_my_ip s) 0x3a (icmp6_message 135 0 c 0 (key ip).2) None)) ∧
    ipv6_addr dst ∧ take 2 (key dst).2 = [0xff; 0x02] ∧
    icmp6_verifies (i6c_my_ip s) dst (icmp6_message 135 0 c 0 (key ip).2).
Proof.
  intros Hi Hm Hme Hip. destruct (ipv6_key _ Hip) as (_ & Lip & Bip).
  destruct all_router_mac_ok as (g & dm & Hg & Hgm & _).
  destruct (at_byte ip 12 Hip) as (b12 & E12 & ?); [lia|]. destruct (at_byte ip 13 Hip) as (b13 & E13 & ?); [lia|].
  destruct (at_byte ip 14 Hip) as (b14 & E14 & ?); [lia|]. destruct (at_byte ip 15 Hip) as (b15 & E15 & ?); [lia|].
  destruct (parse_solicited_group b12 b13 b14 b15) as (dst & Hdst & Gdst & Kdst);
    [repeat (apply Forall_cons_2; [done|]); apply Forall_nil_2|].
  assert (ipv6_addr dst) as Ad by (split; [done|exact (f_equal fst Kdst)]).
  assert (zlen (key ip).2 = 16) as Zip by (unfold zlen; by rewrite Lip).
  destruct (icmp6_send_packet_spec s m (Some dm) dst (i6c_my_ip s) 135 0 0 (key ip).2 Hi Ad Hme) as (c & Hc & Hv);
    [unfold byte_ok; lia|unfold byte_ok; lia|done|rewrite Zip; change (- (16) mod 8) with 0; lia|lia|].
  exists dm, dst, c. split_and!; try done; [|by rewrite Kdst]. rewrite Zip in Hc.
  unfold send_packet_neighbor_solicitation. rewrite Hg. cbn [res_bind]. rewrite Hgm. cbn [res_bind].
  rewrite (get_exp_key ip ipv6) by (apply Hip || done). cbn [res_bind]. rewrite E12, E13, E14, E15. cbn [res_bind].
  rewrite Hdst. exact Hc.
Qed.

(** the answer to a solicitation *)
Lemma solicitation_answered s t m p c r pl :
  i6c_idev s = Some m → 48 ≤ m ≤ 65536 → ipv6_addr (i6c_my_ip s) → mac_addr (i6c_my_mac s) → ipv6_addr (pkt_src p) →
  pkt_data p = icmp6_message 135 0 c r pl →
  ∃ c', icmp6_handle s t p =
    Ok (t, [icmp6_requests; icmp6_transmit],
        Some (Datagram (Some (pkt_src_mac p)) (pkt_src p) (i6c_my_ip s) 0x3a
                (icmp6_message 136 0 c' 0x60000000 ((key (i6c_my_ip s)).2 ++ [2; 1] ++ (key (i6c_my_mac s)).2)) None)).
Proof.
  intros Hi Hm Hme [Gm Fm] Hs Hp. destruct (ipv6_key _ Hme) as (_ & Lip & Bip).
  pose proof (length_key _ Gm) as Lm. rewrite Fm in Lm. pose proof (key_bytes_ok _ Gm) as Bm.
  set (body := (key (i6c_my_ip s)).2 ++ [2; 1] ++ (key (i6c_my_mac s)).2).
  assert (zlen body = 24) as Zb by (unfold body, zlen; rewrite !length_app, Lip, Lm; done).
  destruct (icmp6_send_packet_spec s m (Some (pkt_src_mac p)) (pkt_src p) (i6c_my_ip s) 136 0 0x60000000 body Hi Hs Hme)
    as (c' & Hc & _); [unfold byte_ok; lia|unfold byte_ok; lia| |rewrite Zb; change (- (24) mod 8) with 0; lia|lia|].
  { apply bytes_ok_app; [done|]. apply bytes_ok_app; [solve_bytes|done]. }
  exists c'. unfold icmp6_handle. rewrite Hp. change (rd (icmp6_message 135 0 c r pl) 0) with (@Ok Z 135).
  cbn [res_bind]. change (135 =? 128) with false. change (135 =? 133) with false. change (135 =? 134) with false.
  change (135 =? 135) with true. cbn iota. unfold send_packet_neighbor_advertisement.
  rewrite (get_exp_key (i6c_my_mac s) mac), (get_exp_key (i6c_my_ip s) ipv6) by (apply Hme || done). cbn [res_bind].
  fold body. rewrite Zb in Hc. rewrite Hc. done.
Qed.

Section Discovery.
Context {QT QR : Type} `{!BoundedQueue packet QT} `{!BoundedQueue queued_packet QR}.
Implicit Types S : ipv6_state QT QR.

(** an IPv6 host: its ICMPv6 and its IPv6 layer agree on the address *)
Definition host6_ok (i : icmp6) S : Prop :=
  ipv6_addr (i6c_my_ip i) ∧ mac_addr (i6c_my_mac i) ∧ key (i6c_my_ip i) = key (i6_myip S) ∧
  (∃ m, i6c_idev i = Some m ∧ 48 ≤ m ≤ 65536) ∧ is_Some (i6_prot_map S !! 58).

(** the packet carries a datagram, at its receiver *)
Definition carries (fl : Z) (dg : datagram) (from : any_addr) (pkt : packet) : Prop :=
  link_packet pkt ∧ pkt_forwarded pkt = false ∧ pkt_src pkt = from ∧ ipv6_packet fl dg = Ok (pkt_data pkt).

(** a datagram of ICMPv6 arrives in the queue of its protocol *)
Lemma icmp6_arrives now S i pkt fl dg from q :
  carries fl dg from pkt → ipv6_addr (dg_src dg) → ipv6_addr (dg_dst dg) → dg_protocol dg = 58 →
  zlen (dg_payload dg) ≤ 65535 → key (dg_dst dg) = key (i6_myip S) ∨ take 2 (key (dg_dst dg)).2 = [0xff; 0x02] →
  i6_prot_map S !! 58 = Some q →
  ∃ S' p, ipv6_handle now S i pkt = Ok (S', [ip_n_pkt; ipvx_n_pkt; ip_n_del]) ∧
    i6_prot_map S' = <[58 := queue_packet q p]> (i6_prot_map S) ∧ pkt_data p = dg_payload dg ∧
    pkt_src_mac p = pkt_src_mac pkt ∧ key (pkt_src p) = key (dg_src dg) ∧ ipv6_addr (pkt_src p) ∧
    update_cache now (i6_ndp S) from (pkt_src p) i false = Ok (i6_ndp S').
Proof.
  intros (Hl & Hf & <- & Hb) Hs Hd Hpr Hn Hme Hq. rewrite ipv6_packet_bytes in Hb by done. injection Hb as Hb.
  destruct (ipv6_key _ Hs) as (Ks & Ls & _), (ipv6_key _ Hd) as (Kd & Ld & _).
  destruct (ipv6_handle_wellformed now S i pkt fl 58 (key (dg_src dg)).2 (key (dg_dst dg)).2 (dg_payload dg) [] q)
    as (S' & p & H1 & H2 & _ & H3 & H4 & H5 & _ & H6 & _ & H7); try done; [by rewrite <- Kd| |].
  { rewrite app_nil_r. by rewrite <- Hb, Hpr. }
  exists S', p. split_and!; try done; [by rewrite H5|split; [done|exact (f_equal fst H5)]|by apply H7].
Qed.

(** C20: neighbour discovery works end to end between two hosts [A] and [B] of one
    link: when [A] does not know the MAC address for [B]'s address, it
    solicits it from a multicast group; [B] receives the solicitation and
    answers with an advertisement to [A]'s MAC and IP address; once [A] received
    the advertisement, the next [get_mac] returns [B]'s MAC address without
    sending anything. *)
Theorem ndp_resolves now1 now2 fl1 fl2 a b SA SB t w ip ia ib pa pb :
  host6_ok a SA → host6_ok b SB → ipv6_addr ip → key ip = key (i6c_my_ip b) → cache (i6_ndp SA) !! key ip = None →
  ∃ N sol, ndp_get_mac_begin (Ndp (i6_ndp SA) w (Some a)) ia ip = Ok (Waiting, N, Some sol) ∧
    take 2 (key (dg_dst sol)).2 = [0xff; 0x02] ∧
    (carries fl1 sol (i6c_my_mac a) pb →
     ∃ SB' p adv, ipv6_handle now1 SB ib pb = Ok (SB', [ip_n_pkt; ipvx_n_pkt; ip_n_del]) ∧
       (∃ q, i6_prot_map SB !! 58 = Some q ∧ i6_prot_map SB' = <[58 := queue_packet q p]> (i6_prot_map SB)) ∧
       icmp6_handle b t p = Ok (t, [icmp6_requests; icmp6_transmit], Some adv) ∧
       dg_dst_mac adv = Some (pkt_src_mac pb) ∧ key (dg_dst adv) = key (i6c_my_ip a) ∧
       (carries fl2 adv (i6c_my_mac b) pa →
        ∃ SA', ipv6_handle now2 SA ia pa = Ok (SA', [ip_n_pkt; ipvx_n_pkt; ip_n_del]) ∧
          ∃ N', ndp_get_mac_begin (Ndp (i6_ndp SA') w (Some a)) ia ip = Ok (Resolved ia (i6c_my_mac b), N', None))).
Proof.
  intros (Ia & _ & Ka & (ma & Hma & ?) & [qa Hqa]) (Ib & Mb & _ & (mb & Hmb & ?) & [qb Hqb]) Hip Kip Hnone.
  destruct (solicitation_spec a ma ip) as (dm & dst & c & Hsol & Hd & Hmc & _); [done|lia|done|done|].
  destruct (ipv6_key _ Hip) as (_ & Lip & _). destruct (ipv6_key _ Ib) as (_ & Lib & _).
  assert (∀ c' ty co r pl, zlen pl ≤ 65000 → zlen (icmp6_message ty co c' r pl) ≤ 65535) as Hsmall.
  { intros c' ty co r pl Hpl. unfold icmp6_message. rewrite !zlen_app, zlen_fill. change (zlen [ty; co]) with 2.
    change (zlen (be16 c')) with 2. change (zlen (be32 r)) with 4. pose proof (Z.mod_pos_bound (- zlen pl) 8). lia. }
  unfold ndp_get_mac_begin at 1, query_cache, ndp_send_request. cbn [ndp_cache ndp_icmp6 ndp_work]. cbn [cache count_req].
  rewrite Hnone, Hsol. cbn [res_bind]. eexists _, _. split; [done|]. split; [done|]. intros Hc1.
  destruct (icmp6_arrives now1 SB ib pb fl1 _ _ qb Hc1) as (SB' & p & E1 & E2 & E3 & E4 & E5 & E6 & _);
    [done|done|done|apply Hsmall; unfold zlen; lia|by right|done|].
  destruct (solicitation_answered b t mb p c 0 (key ip).2) as (c' & Hadv); [done|lia|done|done|done|done|].
  eexists SB', p, _. split_and!; [done|by exists qb|exact Hadv|by rewrite <- E4|exact E5|]. intros Hc2.
  destruct (icmp6_arrives now2 SA ia pa fl2 _ _ qa Hc2) as (SA' & p' & F1 & _ & _ & _ & F5 & _ & F7);
    [done|done|done| |left; cbn [dg_dst]; by rewrite E5|done|].
  { apply Hsmall. unfold zlen. rewrite !length_app, Lib, (length_key _ (proj1 Mb)), (proj2 Mb). simpl. lia. }
  exists SA'. split; [exact F1|]. pose proof (update_cache_lookup _ _ _ _ _ _ _ (key ip) F7) as L.
  cbn [dg_src] in F5. rewrite decide_True, Hnone in L by (by rewrite F5).
  unfold ndp_get_mac_begin, query_cache. cbn [ndp_cache]. cbn [cache count_req]. rewrite L. by eexists.
Qed.
End Discovery.

(** ** Examples *)

Definition ex_icmp6 (n : Z) : icmp6 := Icmp6 (ex_mac n) (ex_v6 32 1 13 n) 7 (Some 1460).
Definition ex_ping6 : packet :=
  Packet (ex_mac 1) (ex_v6 32 1 13 1) (ex_v6 32 1 13 2) [128; 0; 1; 2; 0; 7; 0; 1; 65; 66; 67] [] false.

Lemma ping6_reply_witness :
  ∃ c, let msg := [129; 0] ++ be16 c ++ [0; 7; 0; 1] ++ [65; 66; 67] ++ fill 3 in
    icmp6_handle (ex_icmp6 2) [] ex_ping6 =
      Ok ([], [icmp6_requests; icmp6_transmit],
          Some (Datagram (Some (ex_mac 1)) (ex_v6 32 1 13 1) (ex_v6 32 1 13 2) 0x3a msg None)) ∧
    icmp6_verifies (ex_v6 32 1 13 2) (ex_v6 32 1 13 1) msg.
Proof.
  apply (ping6_reply (ex_icmp6 2) [] ex_ping6 1460 0 1 2 0 7 0 1 [65; 66; 67]);
    try (apply ex_v6_addr; unfold byte_ok; lia); try done; try solve_bytes; vm_compute; discriminate.
Defined.

Definition sent (r : res (list icmp6_stat * option datagram)) (fl : Z) : list Z :=
  match r with Ok (_, Some dg) => ok_or [] (ipv6_packet fl dg) | _ => [] end.
Definition ex_solicitation : packet :=
  Packet (ex_mac 1) (ex_mac 1) (ex_mac 2) (sent (send_packet_neighbor_solicitation (ex_icmp6 1) (ex_v6 32 1 13 2)) 11) [] false.
Definition ex_advertisement : packet :=
  Packet (ex_mac 2) (ex_mac 2) (ex_mac 1)
    (sent (send_packet_neighbor_advertisement (ex_icmp6 2) (ex_mac 1) (ex_v6 32 1 13 1)) 12) [] false.

Lemma ex_host6_ok n : byte_ok n → host6_ok (ex_icmp6 n) (ex_ipv6 n).
Proof.
  intros. split_and!; [apply ex_v6_addr; unfold byte_ok in *; lia|split; [by apply ex_mac_good|done]|done| |by eexists].
  exists 1460. split; [done|lia].
Qed.

Lemma ndp_resolves_witness :
  ∃ N sol, ndp_get_mac_begin (Ndp empty_cache ∅ (Some (ex_icmp6 1))) 7 (ex_v6 32 1 13 2) = Ok (Waiting, N, Some sol) ∧
    take 2 (key (dg_dst sol)).2 = [0xff; 0x02] ∧
    (carries 11 sol (ex_mac 1) ex_solicitation →
     ∃ SB' p adv, ipv6_handle 5 (ex_ipv6 2) 8 ex_solicitation = Ok (SB', [ip_n_pkt; ipvx_n_pkt; ip_n_del]) ∧
       (∃ q, i6_prot_map (ex_ipv6 2) !! 58 = Some q ∧ i6_prot_map SB' = <[58 := queue_packet q p]> (i6_prot_map (ex_ipv6 2))) ∧
       icmp6_handle (ex_icmp6 2) [] p = Ok ([], [icmp6_requests; icmp6_transmit], Some adv) ∧
       dg_dst_mac adv = Some (ex_mac 1) ∧ key (dg_dst adv) = key (ex_v6 32 1 13 1) ∧
       (carries 12 adv (ex_mac 2) ex_advertisement →
        ∃ SA', ipv6_handle 6 (ex_ipv6 1) 7 ex_advertisement = Ok (SA', [ip_n_pkt; ipvx_n_pkt; ip_n_del]) ∧
          ∃ N', ndp_get_mac_begin (Ndp (i6_ndp SA') ∅ (Some (ex_icmp6 1))) 7 (ex_v6 32 1 13 2) =
                  Ok (Resolved 7 (ex_mac 2), N', None))).
Proof.
  apply (ndp_resolves 5 6 11 12 (ex_icmp6 1) (ex_icmp6 2) (ex_ipv6 1) (ex_ipv6 2) [] ∅ (ex_v6 32 1 13 2) 7 8
    ex_advertisement ex_solicitation); [apply ex_host6_ok|apply ex_host6_ok|apply ex_v6_addr|done|done];
    unfold byte_ok; lia.
Defined.

(** the packet of the example carries the solicitation *)
Example ex_solicitation_carries :
  ∃ N sol, ndp_get_mac_begin (Ndp empty_cache ∅ (Some (ex_icmp6 1))) 7 (ex_v6 32 1 13 2) = Ok (Waiting, N, Some sol) ∧
    carries 11 sol (ex_mac 1) ex_solicitation.
Proof.
  eexists _, _. split; [vm_compute; reflexivity|]. split_and!; try done.
  split_and!; try done; try (apply ex_mac_good; unfold byte_ok; lia).
  apply (bool_decide_unpack _). vm_compute. exact I.
Qed.

(** ** What goes wrong *)

(** An advertisement is not handled, so the thread that waits in [get_mac] is never
    told: the first call for an address always times out. *)
Lemma advertisement_ignored s t p rest : pkt_data p = 136 :: rest → icmp6_handle s t p = Ok (t, [icmp6_requests], None).
Proof. intros H. unfold icmp6_handle. rewrite H. done. Qed.

(** The buffer of [send_packet] is eight bytes smaller than the largest packet,
    but a payload of that size is accepted and copied behind the header: the
    reply to a large echo request is written behind the end of the buffer. *)
Lemma large_ping_overrun s t pkt m data :
  i6c_idev s = Some m → 24 ≤ m → pkt_data pkt = [128; 0; 1; 2; 0; 7; 0; 1] ++ data → zlen data = m - 8 →
  icmp6_handle s t pkt = Err bad_access.
Proof.
  intros Hi Hm Hp Hl. unfold icmp6_handle. rewrite Hp. change (rd ([128; 0; 1; 2; 0; 7; 0; 1] ++ data) 0) with (@Ok Z 128).
  cbn [res_bind]. change (128 =? 128) with true. cbn iota. unfold send_ping_reply, pkt_size. rewrite Hp, zlen_app, Hl.
  change (zlen [128; 0; 1; 2; 0; 7; 0; 1]) with 8.
  change (rd (?l ++ data) 4) with (@Ok Z 0). change (rd (?l ++ data) 5) with (@Ok Z 7).
  change (rd (?l ++ data) 6) with (@Ok Z 0). change (rd (?l ++ data) 7) with (@Ok Z 1). cbn [res_bind].
  replace (8 + (m - 8) - 8) with (m - 8) by lia. rewrite (proj2 (Z.ltb_lt 8 _)) by lia.
  change (ptr_at ([128; 0; 1; 2; 0; 7; 0; 1] ++ data) 8) with data.
  unfold icmp6_send_packet. rewrite Hi, (proj2 (Z.ltb_ge _ _)) by lia.
  match goal with |- context [wr_range _ 0 ?h] => set (hd := h) end.
  pose proof (wr_range_app [] (replicate (Z.to_nat (m - 8)) 0) 0 hd eq_refl) as W. rewrite !app_nil_l in W.
  rewrite W by (rewrite zlen_replicate by lia; unfold zlen; simpl; lia). cbn [res_bind].
  rewrite (proj2 (Z.eqb_neq (m - 8) 0)) by lia. cbn [negb].
  pose proof (rd_range_app data [] (m - 8) (eq_sym Hl)) as R. rewrite app_nil_r in R. rewrite R. cbn [res_bind].
  unfold wr_range. rewrite zlen_app, drop_replicate, Hl. change (zlen hd) with 8. change (length hd) with 8%nat.
  replace (zlen (replicate (Z.to_nat (m - 8) - 8) 0)) with (m - 16) by (unfold zlen; rewrite length_replicate; lia).
  rewrite (proj2 (Z.ltb_lt (8 + (m - 16)) _)) by lia. done.
Qed.

(** An option of length 0 in a router advertisement keeps the handler busy for ever. *)
Lemma zero_length_advertisement_loops fuel s t :
  advertised_options fuel s t (replicate 16 0 ++ [1; 0; 0; 0]) 16 = Err out_of_fuel.
Proof. induction fuel as [|fuel IH]; [done|]. exact IH. Qed.
