(* ===== verification/Udp.v ===== *)
(** * UDP (src/udp.cpp)

    The loop body of [udp::operator()], the handlers of the ports,
    [transmit_packet] and the allocation of ports.  A handler is identified by a
    number; the result of the loop body says which handler is called with what,
    or which ICMP message is asked for.  [callbacks] is a [std::map], whose
    [insert] keeps an existing entry. *)
From S2P Require Import Prelude AnyAddr Checksum Net AddressCache Arp Router Ipv4.

Inductive udp_event :=
  | udp_ignored
  | udp_unreachable (dst src : any_addr) (p : packet)    (* icmp_->send_destination_port_unreachable *)
  | udp_refused_silently
  | udp_call (handler : Z) (src : any_addr) (src_port : Z) (dst : any_addr) (dst_port : Z) (up : packet).

Record udp := Udp {
  callbacks : gmap Z Z;
  allocated_ports : gmap Z Z;
  udp_requests : Z;
  udp_refused : Z;
}.

Definition with_callbacks (s : udp) (c : gmap Z Z) : udp := Udp c (allocated_ports s) (udp_requests s) (udp_refused s).
Definition with_ports (s : udp) (c : gmap Z Z) : udp := Udp (callbacks s) c (udp_requests s) (udp_refused s).

(** the loop body of [udp::operator()]; [has_icmp] is [icmp_ != nullptr] *)
Definition udp_handle (s : udp) (has_icmp : bool) (pkt : packet) : res (udp * udp_event) :=
  let p := pkt_data pkt in
  let size := pkt_size pkt in
  if size <? 8 then Ok (s, udp_ignored)
  else
    let* s0 := rd p 0 in
    let* s1 := rd p 1 in
    let* d0 := rd p 2 in
    let* d1 := rd p 3 in
    let src_port := join16 s0 s1 in
    let dst_port := join16 d0 d1 in
    let s := Udp (callbacks s) (allocated_ports s) (u64 (udp_requests s + 1)) (udp_refused s) in
    match callbacks s !! dst_port with
    | None =>
        Ok (Udp (callbacks s) (allocated_ports s) (udp_requests s) (u64 (udp_refused s + 1)),
            if has_icmp then udp_unreachable (pkt_src pkt) (pkt_dst pkt) pkt else udp_refused_silently)
    | Some h =>
        let* up := new_packet (pkt_src_mac pkt) (pkt_src pkt) (pkt_dst pkt) (ptr_at p 8) (size - 8)
                     (pkt_header pkt) (zlen (pkt_header pkt)) false in
        Ok (s, udp_call h (pkt_src pkt) src_port (pkt_dst pkt) dst_port up)
    end.

Definition udp_add_handler (s : udp) (port h : Z) : udp :=
  match callbacks s !! port with Some _ => s | None => with_callbacks s (<[port := h]> (callbacks s)) end.
Definition remove_handler (s : udp) (port : Z) : udp := with_callbacks s (delete port (callbacks s)).

(** the segment before its checksum is stored *)
Definition udp_header (dst_port src_port out_size : Z) : list Z :=
  be16 src_port ++ be16 dst_port ++ be16 out_size ++ [0; 0].

(** [None]: [transmit_packet] returns false before it sends anything *)
Definition udp_segment (dst_ip : any_addr) (dst_port : Z) (src_ip : any_addr) (src_port : Z) (payload : list Z)
  : res (option datagram) :=
  if negb (get_len dst_ip =? get_len src_ip) then Ok None
  else
    let out_size := 8 + zlen payload in
    let out := udp_header dst_port src_port out_size ++ payload in
    let* checksum := tcp_udp_checksum dst_ip src_ip false out out_size in
    Ok (Some (Datagram None dst_ip src_ip 0x11 (put16 out 6 checksum) None)).

(** [idev] is given by its [transmit_packet] *)
Definition udp_transmit_packet {S : Type} (idev : option (S → datagram → res (bool * S))) (ip : S)
    (dst_ip : any_addr) (dst_port : Z) (src_ip : any_addr) (src_port : Z) (payload : list Z) : res (bool * S) :=
  let* dg := udp_segment dst_ip dst_port src_ip src_port payload in
  match dg, idev with
  | Some dg, Some tx => tx ip dg
  | _, _ => Ok (false, ip)
  end.

(** ** Ports *)

(** the loop of [allocate_port] over the random numbers it draws *)
Fixpoint allocate_port (s : udp) (draws : list Z) (now : Z) : Z * udp :=
  match draws with
  | [] => (-1, s)
  | rnd :: draws =>
      let test_port := Z.land rnd 32767 + 1000 in
      match allocated_ports s !! test_port with
      | None => (test_port, with_ports s (<[test_port := now]> (allocated_ports s)))
      | Some _ => allocate_port s draws now
      end
  end.

Definition unallocate_port (s : udp) (port : Z) : udp := with_ports s (delete port (allocated_ports s)).

Definition update_port_ts (s : udp) (port now : Z) : udp :=
  match allocated_ports s !! port with
  | Some _ => with_ports s (<[port := now]> (allocated_ports s))
  | None => s
  end.

(** ** From one host to the other *)

Lemma ip_addr_len f a : ip_addr f a → get_len a = family_size f.
Proof. intros (G & <- & _). by apply good_size. Qed.

(** the bytes sent *)
Lemma udp_segment_bytes f dst dport src sport pl :
  ip_addr f dst → ip_addr f src → bytes_ok pl → zlen pl ≤ 65527 →
  ∃ c, let out := be16 sport ++ be16 dport ++ be16 (8 + zlen pl) ++ be16 c ++ pl in
    udp_segment dst dport src sport pl = Ok (Some (Datagram None dst src 0x11 out None)) ∧
    tcp_udp_checksum src dst false out (8 + zlen pl) = Ok 0 ∧ bytes_ok out.
Proof.
  intros Hd Hs HB Hl. set (n := 8 + zlen pl).
  set (p0 := udp_header dport sport n ++ pl).
  assert (bytes_ok p0) as HB0.
  { apply bytes_ok_app; [|done]. unfold udp_header. repeat apply bytes_ok_app; auto with myip. solve_bytes. }
  assert (zlen p0 = n) as L0 by (unfold p0, n; rewrite zlen_app; done).
  destruct (tcp_udp_stored f src dst false p0 6 Hs Hd HB0) as (c & Hc & Hv);
    [lia|done|unfold zlen in *; lia|done|].
  exists c. cbv zeta. change (be16 sport ++ be16 dport ++ be16 n ++ be16 c ++ pl) with (put16 p0 6 c).
  rewrite L0 in *. split_and!; [|done|by apply put16_bytes_ok].
  unfold udp_segment. rewrite (ip_addr_len f dst), (ip_addr_len f src), Z.eqb_refl by done. cbn [negb].
  fold n. fold p0. by rewrite Hc.
Qed.

(** what one host sends with [transmit_packet] from a port to a port, for
    IPv4 and IPv6, has a checksum that verifies, and when it arrives, the
    handler registered for the destination port is called with the payload,
    the addresses and the ports; without a handler the packet is refused
    and, with ICMP, the sender is told. *)
Theorem udp_transmit_receive f dst dport src sport pl s icmp pkt :
  ip_addr f dst → ip_addr f src → bytes_ok pl → zlen pl ≤ 65527 → 0 ≤ dport < 65536 → 0 ≤ sport < 65536 →
  ∃ out, udp_segment dst dport src sport pl = Ok (Some (Datagram None dst src 0x11 out None)) ∧
    tcp_udp_checksum src dst false out (zlen out) = Ok 0 ∧
    (pkt_data pkt = out →
     ∃ s', callbacks s' = callbacks s ∧ udp_requests s' = u64 (udp_requests s + 1) ∧
       match callbacks s !! dport with
       | Some h => udp_handle s icmp pkt =
           Ok (s', udp_call h (pkt_src pkt) sport (pkt_dst pkt) dport
                 (Packet (pkt_src_mac pkt) (pkt_src pkt) (pkt_dst pkt) pl (pkt_header pkt) false))
       | None => udp_handle s icmp pkt =
           Ok (s', if icmp then udp_unreachable (pkt_src pkt) (pkt_dst pkt) pkt else udp_refused_silently)
       end).
Proof.
  intros Hd Hs HB Hl Hdp Hsp.
  destruct (udp_segment_bytes f dst dport src sport pl Hd Hs HB Hl) as (c & Hout & Hck & HBo).
  eexists. split; [exact Hout|]. pose proof (zlen_nonneg pl).
  set (out := be16 sport ++ be16 dport ++ be16 (8 + zlen pl) ++ be16 c ++ pl) in *.
  assert (zlen out = 8 + zlen pl) as Lo by (unfold out; rewrite !zlen_app; change (zlen (be16 _)) with 2; lia).
  rewrite Lo. split; [done|]. intros Hp.
  unfold udp_handle, pkt_size. rewrite Hp, Lo, (proj2 (Z.ltb_ge _ 8)) by lia.
  change (rd out 0) with (Ok (u8 (Z.shiftr sport 8))). change (rd out 1) with (Ok (u8 sport)).
  change (rd out 2) with (Ok (u8 (Z.shiftr dport 8))). change (rd out 3) with (Ok (u8 dport)).
  cbn [res_bind callbacks]. rewrite !join16_be16 by done.
  destruct (callbacks s !! dport) as [h|]; [|by eexists; split; [|split; [|reflexivity]]].
  rewrite new_packet_ok; [|rewrite zlen_ptr_at; lia|pose proof (zlen_nonneg (pkt_header pkt)); lia].
  cbn [res_bind]. change (ptr_at out 8) with pl.
  replace (take (Z.to_nat (8 + zlen pl - 8)) pl) with pl by (unfold zlen; rewrite take_ge by lia; done).
  replace (take (Z.to_nat (zlen (pkt_header pkt))) (pkt_header pkt)) with (pkt_header pkt)
    by (unfold zlen; rewrite take_ge by lia; done).
  by eexists; split; [|split; [|reflexivity]].
Qed.

(** [allocate_port] returns a port that was not allocated, in the range 1000
    to 33767, and marks it; it returns -1, and changes nothing, only when every
    port it drew is allocated.  Ports that are in use stay so until they are
    given back. *)
Theorem allocate_port_fresh s draws now :
  let '(port, s') := allocate_port s draws now in
  (port ≠ -1 → 1000 ≤ port ≤ 33767 ∧ allocated_ports s !! port = None ∧
     allocated_ports s' = <[port := now]> (allocated_ports s) ∧
     allocated_ports (unallocate_port s' port) = allocated_ports s) ∧
  (port = -1 → s' = s ∧ ∀ r, r ∈ draws → is_Some (allocated_ports s !! (Z.land r 32767 + 1000))).
Proof.
  induction draws as [|r draws IH]; cbn [allocate_port].
  { split; [done|]. intros _. split; [done|]. intros r Hr. by apply not_elem_of_nil in Hr. }
  assert (Z.land r 32767 = r mod 32768) as Hr by (apply (Z.land_ones r 15); lia).
  pose proof (Z.mod_pos_bound r 32768).
  destruct (allocated_ports s !! (Z.land r 32767 + 1000)) as [t|] eqn:E.
  - destruct (allocate_port s draws now) as [port s']. destruct IH as [IH1 IH2]. split; [done|].
    intros Hp. destruct (IH2 Hp) as [-> IH]. split; [done|]. intros r' [->|Hr']%elem_of_cons; [by rewrite E|auto].
  - split; [|lia]. intros _. split_and!; [lia|lia|done|done|].
    unfold unallocate_port, with_ports. cbn [allocated_ports]. by rewrite delete_insert_id.
Qed.

Definition ex_udp : udp := Udp {[ 80 := 5 ]} ∅ 0 0.

Lemma udp_transmit_receive_witness :
  ∃ out, udp_segment (ex_v4 10 0 0 2) 80 (ex_v4 10 0 0 1) 1025 [65] =
      Ok (Some (Datagram None (ex_v4 10 0 0 2) (ex_v4 10 0 0 1) 0x11 out None)) ∧
    tcp_udp_checksum (ex_v4 10 0 0 1) (ex_v4 10 0 0 2) false out (zlen out) = Ok 0 ∧
    (pkt_data (ex_link [4; 1; 0; 80; 0; 9; 166; 136; 65]) = out →
     ∃ s', callbacks s' = callbacks ex_udp ∧ udp_requests s' = 1 ∧
       udp_handle ex_udp true (ex_link [4; 1; 0; 80; 0; 9; 166; 136; 65]) =
           Ok (s', udp_call 5 (ex_mac 1) 1025 (ex_mac 2) 80
                 (Packet (ex_mac 1) (ex_mac 1) (ex_mac 2) [65] [] false))).
Proof.
  apply (udp_transmit_receive ipv4 (ex_v4 10 0 0 2) 80 (ex_v4 10 0 0 1) 1025 [65] ex_udp true (ex_link _));
    try (apply ex_v4_ip; unfold byte_ok; lia); [solve_bytes|done|lia|lia].
Defined.

Example ex_udp_segment :
  udp_segment (ex_v4 10 0 0 2) 80 (ex_v4 10 0 0 1) 1025 [65] =
    Ok (Some (Datagram None (ex_v4 10 0 0 2) (ex_v4 10 0 0 1) 0x11 [4; 1; 0; 80; 0; 9; 166; 136; 65] None)).
Proof. reflexivity. Qed.
