(* ===== verification/Dns.v ===== *)
(** * DNS and mDNS (src/dns.cpp, src/dns.h, src/mdns.cpp)

    The resolver: the parser of names and of responses, the cache, the rounds of
    [query] and the cleaner; and the announcements of mDNS.  A response is parsed
    through pointers that are not checked: a pointer is an offset in the packet, and
    leaving it is a fault.  Requests and announcements are built in arrays of 256
    bytes.  The mutex makes every operation, and every round of [query] between two
    waits, one step; the time is an argument.

    Shown: a name with its lookup, end to end: the request that is sent, the response
    to it and the lookup in the cache; the parser ends on any bytes; what mDNS
    sends, record by record.  The parser does not step over the data of a record, so
    of a response with several answers only the first is understood. *)
From S2P Require Import Prelude Str Hash AnyAddr Buffers Ax25 Net Router Ipv4 Udp.
Open Scope Z_scope.

(** ** Names *)

(** [get_name], from [buffer + tl]; [first]: a pointer is followed *)
Fixpoint get_name (fuel : nat) (mem : list Z) (buffer : Z) (first : bool) (name : str) (tl : Z) : res (str * Z) :=
  match fuel with
  | O => Err out_of_fuel
  | S fuel' =>
      let* len := rd mem (buffer + tl) in
      let tl := tl + 1 in
      if len =? 0 then Ok (name, tl)
      else if negb (Z.land len 0xc0 =? 0) then
        let* lo := rd mem (buffer + tl) in
        let offset := Z.lor (Z.shiftl (Z.land len 0x3f) 8) lo in
        let tl := tl + 1 in
        let* _ := rd mem offset in
        if first then
          let* '(sub, _) := get_name fuel' mem offset false [] 0 in
          Ok (name ++ sub, tl)
        else Ok (name, tl)
      else
        let* out := rd_range mem (buffer + tl) len in
        get_name fuel' mem buffer first (name ++ out ++ [dot]) (tl + len)
  end.

(** enough for a name and the name it points to *)
Definition name_fuel (mem : list Z) : nat := 2 * length mem + 2.

Definition dns_name (mem : list Z) (buffer : Z) : res (str * Z) := get_name (name_fuel mem) mem buffer true [] 0.

(** [name.substr(0, name.size() - 1)]: for the empty name the size wraps and all of
    it is taken *)
Definition without_dot (name : str) : str := take (length name - 1) name.

(** [(p[0] << 8) | p[1]] *)
Definition rd16 (mem : list Z) (p : Z) : res Z :=
  let* a := rd mem p in
  let* b := rd mem (p + 1) in
  Ok (join16 a b).

Definition rd32 (mem : list Z) (p : Z) : res Z :=
  let* a := rd mem p in
  let* b := rd mem (p + 1) in
  let* c := rd mem (p + 2) in
  let* d := rd mem (p + 3) in
  Ok (join32 a b c d).

(** ** The cache *)

Record dns_a_rec_t := ARec { ar_a : any_addr; ar_t : Z; ar_max_age : Z }.
Record dns_cname_rec_t := CnameRec { cr_name : str; cr_t : Z; cr_max_age : Z }.

Record dns := Dns { a_aaaa_cache : gmap str dns_a_rec_t; cname_cache : gmap str dns_cname_rec_t }.

Definition insert_a (s : dns) (name : str) (r : dns_a_rec_t) : dns := Dns (<[name := r]> (a_aaaa_cache s)) (cname_cache s).
Definition insert_cname (s : dns) (name : str) (r : dns_cname_rec_t) : dns := Dns (a_aaaa_cache s) (<[name := r]> (cname_cache s)).

Inductive dns_stat := dns_queries | dns_queries_hit | dns_queries_alien_reply | dns_queries_to.

(** ** Responses *)

(** the loop over the questions *)
Fixpoint skip_questions (n : nat) (mem : list Z) (work_p : Z) : res Z :=
  match n with
  | O => Ok work_p
  | S n' =>
      let* '(_, l) := dns_name mem work_p in
      let work_p := work_p + l in
      let* _ := rd16 mem work_p in
      let work_p := work_p + 2 in
      let* _ := rd16 mem work_p in
      skip_questions n' mem (work_p + 2)
  end.

(** an answer; [work_p] is moved to its data and not behind it *)
Definition dns_answer (mem : list Z) (recv_ts work_p : Z) (s : dns) : res (Z * dns) :=
  let* '(name, l) := dns_name mem work_p in
  let work_p := work_p + l in
  let* type := rd16 mem work_p in
  let work_p := work_p + 2 in
  let* _ := rd16 mem work_p in
  let work_p := work_p + 2 in
  let* ttl := rd32 mem work_p in
  let ttl := s32 ttl in
  let work_p := work_p + 4 in
  let* len := rd16 mem work_p in
  let work_p := work_p + 2 in
  if (len =? 4) && (type =? 0x0001) then
    let* a := mk_addr ipv4 (ptr_at mem work_p) in
    Ok (work_p, insert_a s (without_dot name) (ARec a recv_ts ttl))
  else if type =? 0x0005 then
    let* '(cname, _) := dns_name mem work_p in
    Ok (work_p, insert_cname s (without_dot name) (CnameRec (without_dot cname) recv_ts ttl))
  else if (len =? 16) && (type =? 0x001c) then
    let* a := mk_addr ipv6 (ptr_at mem work_p) in
    Ok (work_p, insert_a s (without_dot name) (ARec a recv_ts ttl))
  else Ok (work_p, s).

Fixpoint dns_answers (n : nat) (mem : list Z) (recv_ts work_p : Z) (s : dns) : res dns :=
  match n with
  | O => Ok s
  | S n' =>
      let* '(work_p, s) := dns_answer mem recv_ts work_p s in
      dns_answers n' mem recv_ts work_p s
  end.

Definition dns_input (s : dns) (dns_ip src_ip : any_addr) (mem : list Z) (recv_ts : Z) : res (dns * list dns_stat) :=
  let* alien := neqb src_ip dns_ip in
  if alien then Ok (s, [dns_queries_alien_reply])
  else
    let* flags := rd16 mem 2 in
    if flags =? 0x8400 then Ok (s, [])
    else
      let* qdcount := rd16 mem 4 in
      let* ancount := rd16 mem 6 in
      let* work_p := skip_questions (Z.to_nat qdcount) mem 12 in
      let* s := dns_answers (Z.to_nat ancount) mem recv_ts work_p s in
      Ok (s, []).

(** ** Messages in an array of 256 bytes *)

(** the array and the offset *)
Definition out_buffer : Type := list Z * Z.

Definition new_out : out_buffer := (replicate 256 0, 0).

(** [buffer[offset++] = b] *)
Definition put1 (w : out_buffer) (b : Z) : res out_buffer :=
  let* buf := wr w.1 w.2 b in
  Ok (buf, w.2 + 1).

Fixpoint puts (w : out_buffer) (bytes : list Z) : res out_buffer :=
  match bytes with
  | [] => Ok w
  | b :: bytes' => let* w := put1 w b in puts w bytes'
  end.

(** [memcpy(&buffer[offset], p.data(), p.size()); offset += p.size();] *)
Definition put_data (w : out_buffer) (s : list Z) : res out_buffer :=
  let* buf := wr_range w.1 w.2 s in
  Ok (buf, w.2 + zlen s).

(** [o += sprintf(&tgt[o], "%s", s.c_str())], which also writes a NUL *)
Definition put_sprintf (w : out_buffer) (s : str) : res out_buffer :=
  let* buf := wr_range w.1 w.2 (c_str s ++ [0]) in
  Ok (buf, w.2 + zlen (c_str s)).

(** ** Queries *)

Fixpoint put_labels (w : out_buffer) (parts : list str) : res out_buffer :=
  match parts with
  | [] => Ok w
  | p :: parts' =>
      let* w := put1 w (zlen p) in
      let* w := put_data w p in
      put_labels w parts'
  end.

(** the request for a name *)
Definition dns_request (work : str) : res (list Z) :=
  let* w := puts new_out [0; 0; 1; 0; 0; 1; 0; 0; 0; 0; 0; 0] in
  let* parts := split work [dot] in
  let* w := put_labels w parts in
  let* '(buffer, offset) := puts w [0; 0; 1; 0; 1] in
  rd_range buffer 0 offset.

(** "cname max depth is 8 here": the name that is left, and whether there was any *)
Fixpoint follow_cname (n : nat) (s : dns) (now : Z) (work : str) (send_req : bool) : str * bool :=
  match n with
  | O => (work, send_req)
  | S n' =>
      match cname_cache s !! work with
      | None => (work, send_req)
      | Some r => if cr_max_age r <=? now - cr_t r then (work, send_req) else follow_cname n' s now (cr_name r) true
      end
  end.

(** one round of the loop of [query]: the address, or the name and the flag to go on
    with and the request that is sent *)
Inductive query_result :=
  | query_hit (a : any_addr)
  | query_wait (work : str) (request : option (list Z)).

Definition query_round (s : dns) (now : Z) (work : str) (send_req : bool) : res query_result :=
  let '(work, send_req) := follow_cname 8 s now work send_req in
  let hit :=
    match a_aaaa_cache s !! work with
    | Some r => if s32 (now - ar_t r) <? ar_max_age r then Some (ar_a r) else None
    | None => None
    end in
  match hit with
  | Some a => Ok (query_hit a)
  | None =>
      if send_req then
        let* request := dns_request work in
        Ok (query_wait work (Some request))
      else Ok (query_wait work None)
  end.

(** [query]: the cache and the time at every round, the last one before the time-out *)
Fixpoint query_rounds (rounds : list (dns * Z)) (work : str) (send_req : bool)
  : res (option any_addr * list (list Z) * list dns_stat) :=
  match rounds with
  | [] => Ok (None, [], [dns_queries_to])
  | (s, now) :: rounds' =>
      let* r := query_round s now work send_req in
      match r with
      | query_hit a => Ok (Some a, [], [dns_queries_hit])
      | query_wait work request =>
          let* '(a, reqs, st) := query_rounds rounds' work false in
          Ok (a, match request with Some q => [q] | None => [] end ++ reqs, st)
      end
  end.

Definition dns_query (name : str) (rounds : list (dns * Z)) : res (option any_addr * list (list Z) * list dns_stat) :=
  let* '(a, reqs, st) := query_rounds rounds (str_tolower name) true in
  Ok (a, reqs, dns_queries :: st).

(** the loop body of [dns::operator()] *)
Definition dns_clean (s : dns) (now : Z) : dns :=
  Dns (filter (λ kv, now - ar_t kv.2 < ar_max_age kv.2) (a_aaaa_cache s))
      (filter (λ kv, now - cr_t kv.2 < cr_max_age kv.2) (cname_cache s)).

(** ** mDNS *)

Definition mdns_ttl : Z := 5.

(** [tgt[o++] = name.size(); o += sprintf(...)] for the names of a list *)
Fixpoint put_names (w : out_buffer) (name : list str) : res out_buffer :=
  match name with
  | [] => Ok w
  | p :: name' =>
      let* w := put1 w (zlen p) in
      let* w := put_sprintf w p in
      put_names w name'
  end.

Definition put_ttl (w : out_buffer) : res out_buffer :=
  puts w [Z.shiftr mdns_ttl 24; Z.shiftr mdns_ttl 16; Z.shiftr mdns_ttl 8; mdns_ttl].

(** [ptr_data_len] *)
Definition names_len (name : list str) : Z := u16 (foldl (λ n p, n + (zlen p + 1)) 1 name).

Definition add_ptr (w : out_buffer) (name : list str) : res out_buffer :=
  let* w := put_names w (drop 1 name) in
  let* w := puts w [0; 0; 0x0c; 0; 0x01] in
  let* w := put_ttl w in
  let ptr_data_len := names_len name in
  let* w := puts w [Z.shiftr ptr_data_len 8; ptr_data_len] in
  let* w := put_names w name in
  put1 w 0.

(** "local" *)
Definition str_local : str := [108; 111; 99; 97; 108].

(** [name.at(0)] *)
Definition name_at0 (name : list str) : res str := match name with [] => Err out_of_range | p :: _ => Ok p end.

Definition add_srv (w : out_buffer) (name : list str) (port : Z) : res out_buffer :=
  let* w := put_names w name in
  let* w := puts w [0; 0; 0x21; 0x80; 0x01] in
  let* w := put_ttl w in
  let* n0 := name_at0 name in
  let srv_data_len := u16 (2 + 2 + 2 + 1 + zlen n0 + 1 + 5 + 1) in
  let* w := puts w [Z.shiftr srv_data_len 8; srv_data_len; 0; 0; 0; 0; Z.shiftr port 8; port] in
  let* w := put_names w [n0; str_local] in
  put1 w 0.

Fixpoint put_addr (n : nat) (i : Z) (w : out_buffer) (a : any_addr) : res out_buffer :=
  match n with
  | O => Ok w
  | S n' =>
      let* b := at_ a i in
      let* w := put1 w b in
      put_addr n' (i + 1) w a
  end.

Definition add_a (w : out_buffer) (name : list str) (a : any_addr) : res out_buffer :=
  let* n0 := name_at0 name in
  let* w := put_names w [n0; str_local] in
  let* w := puts w [0; 0; 0x01; 0x80; 0x01] in
  let* w := put_ttl w in
  let* w := puts w [0; get_len a] in
  put_addr (Z.to_nat (get_len a)) 0 w a.

Definition add_txt (w : out_buffer) (name : list str) : res out_buffer :=
  let* w := put_names w name in
  let* w := puts w [0; 0; 0x10; 0x80; 0x01] in
  let* w := put_ttl w in
  puts w [0; 0].

(** [add_nsec], which is not called; the bitmap of the types A, PTR, TXT, SRV and
    NSEC *)
Definition nsec_bits : list Z :=
  [Z.shiftl 1 (7 - 1); Z.shiftl 1 (7 - 4); Z.shiftl 1 (7 - 0); 0; Z.shiftl 1 (7 - 1); Z.shiftl 1 (7 - 7)].

Definition add_nsec (w : out_buffer) (name : list str) : res out_buffer :=
  let* n0 := name_at0 name in
  let* w := put_names w [n0; str_local] in
  let* w := puts w [0; 0; 0x2f; 0; 0x01] in
  let* w := put_ttl w in
  let data_len := u16 (1 + zlen n0 + 1 + 5 + 1 + 2 + 6) in
  let* w := puts w [Z.shiftr data_len 8; data_len] in
  let* w := put_names w [n0; str_local] in
  puts w ([0; 0; 6] ++ nsec_bits).

(** [if (hostname[last_char] == '.') hostname.erase(last_char)]; for the empty name
    the index wraps *)
Definition erase_last_dot (hostname : str) : res str :=
  match last hostname with
  | None => Err bad_access
  | Some c => Ok (if c =? dot then take (length hostname - 1) hostname else hostname)
  end.

(** the message for one entry of [protocols] *)
Definition mdns_message (hostname : str) (port : Z) (src_addr : any_addr) : res (list Z) :=
  let* w := puts new_out [0; 0; 0x84; 0; 0; 0; 0; 3; 0; 0; 0; 0] in
  let* hostname := erase_last_dot hostname in
  let* name := split hostname [dot] in
  let* w := add_ptr w name in
  let* w := add_txt w name in
  let* w := add_srv w name port in
  let* '(buffer, ro) := add_a w name src_addr in
  rd_range buffer 0 ro.

(** [add_protocol]: an interface is given by its number *)
Record mdns_entry := MdnsEntry { me_interface : Z; me_port : Z; me_hostname : str }.

Definition add_protocol (protocols : list mdns_entry) (e : mdns_entry) : list mdns_entry := protocols ++ [e].

(** the loop body of [mdns::operator()]: what is sent through which interface *)
Fixpoint mdns_round (ip_of : Z → any_addr) (dst_ip : any_addr) (protocols : list mdns_entry)
  : res (list (Z * any_addr * any_addr * list Z)) :=
  match protocols with
  | [] => Ok []
  | e :: protocols' =>
      let src_addr := ip_of (me_interface e) in
      let* msg := mdns_message (me_hostname e) (me_port e) src_addr in
      let* rest := mdns_round ip_of dst_ip protocols' in
      Ok ((me_interface e, dst_ip, src_addr, msg) :: rest)
  end.

Definition mdns_announce (ip_of : Z → any_addr) (protocols : list mdns_entry) : res (list (Z * any_addr * any_addr * list Z)) :=
  let* dst_ip := mk_addr ipv4 [224; 0; 0; 251] in
  mdns_round ip_of dst_ip protocols.

(** ** Parsing ends *)

Lemma get_name_ends mem (first : bool) fuel buffer name tl :
  bytes_ok mem → 0 ≤ buffer → 0 ≤ tl →
  (length mem - Z.to_nat (buffer + tl) + (if first then length mem + 1 else 0) < fuel)%nat →
  ends (get_name fuel mem buffer first name tl).
Proof.
  intros HB. revert first buffer name tl. induction fuel as [|fuel IH]; intros first buffer name tl Hb Ht Hf; [lia|]. cbn [get_name].
  apply ends_bind; [auto with ends|]. intros len El. pose proof (rd_byte_ok _ _ _ HB El) as Hlen. unfold byte_ok in Hlen.
  apply rd_Ok in El as [_ El]. apply lookup_lt_Some in El.
  destruct (len =? 0); [done|]. destruct (negb (Z.land len 192 =? 0)).
  - apply ends_bind; [auto with ends|]. intros lo Elo. pose proof (rd_byte_ok _ _ _ HB Elo) as Hlo. unfold byte_ok in Hlo.
    apply ends_bind; [auto with ends|]. intros _ _. destruct first; [|done].
    apply ends_bind; [|by intros [sub n] _]. apply IH; [|lia|lia].
    apply Z.lor_nonneg. split; [|lia]. apply Z.shiftl_nonneg, Z.land_nonneg. lia.
  - apply ends_bind; [auto with ends|]. intros out _. apply IH; [done|lia|]. destruct first; lia.
Qed.

Lemma ends_dns_name mem buffer : bytes_ok mem → 0 ≤ buffer → ends (dns_name mem buffer).
Proof. intros HB Hb. unfold dns_name, name_fuel. apply get_name_ends; [done|done|lia|lia]. Qed.

(** the pointer stays in front of where it was *)
Lemma get_name_len fuel mem buffer first name tl name' tl' :
  bytes_ok mem → 0 ≤ tl → get_name fuel mem buffer first name tl = Ok (name', tl') → 0 ≤ tl'.
Proof.
  intros HB. revert first name tl. induction fuel as [|fuel IH]; intros first name tl Ht; [done|]. cbn [get_name].
  destruct (rd mem (buffer + tl)) as [len|] eqn:El; [|done]. cbn [res_bind]. pose proof (rd_byte_ok _ _ _ HB El) as Hlen. unfold byte_ok in Hlen.
  destruct (len =? 0); [intros [= _ <-]; lia|]. destruct (negb (Z.land len 192 =? 0)).
  - destruct (rd mem (buffer + (tl + 1))) as [lo|]; [|done]. cbn [res_bind]. destruct (rd mem (Z.lor _ lo)); [|done]. cbn [res_bind].
    destruct first; [|intros [= _ <-]; lia]. destruct (get_name fuel mem _ false [] 0) as [[sub n]|]; [|done]. cbn [res_bind]. intros [= _ <-]. lia.
  - destruct (rd_range mem (buffer + (tl + 1)) len) as [out|]; [|done]. cbn [res_bind]. apply IH. lia.
Qed.

Lemma ends_rd16 mem p : ends (rd16 mem p).
Proof. unfold rd16. solve_ends. Qed.
Lemma ends_rd32 mem p : ends (rd32 mem p).
Proof. unfold rd32. solve_ends. Qed.
#[export] Hint Resolve ends_rd16 ends_rd32 : ends.

Lemma dns_answer_ends mem t p s :
  bytes_ok mem → 0 ≤ p → ends (dns_answer mem t p s) ∧ (∀ p' s', dns_answer mem t p s = Ok (p', s') → 0 ≤ p').
Proof.
  intros HB Hp. unfold dns_answer. pose proof (ends_dns_name mem p HB Hp) as Hn.
  destruct (dns_name mem p) as [[name l]|e] eqn:En; [|by destruct e; split]. cbn [res_bind]. apply (get_name_len _ _ _ _ _ _ _ _ HB) in En; [|lia].
  split.
  - apply ends_bind; [auto with ends|intros type _]. apply ends_bind; [auto with ends|intros class_ _].
    apply ends_bind; [auto with ends|intros ttl _]. apply ends_bind; [auto with ends|intros len _].
    destruct ((len =? 4) && (type =? 1)); [solve_ends|]. destruct (type =? 5); [|solve_ends].
    apply ends_bind; [apply ends_dns_name; [done|lia]|by intros [? ?] _].
  - intros p' s'. destruct (rd16 mem (p + l)) as [type|]; [|done]. cbn [res_bind]. destruct (rd16 mem (p + l + 2)); [|done]. cbn [res_bind].
    destruct (rd32 mem (p + l + 2 + 2)); [|done]. cbn [res_bind]. destruct (rd16 mem (p + l + 2 + 2 + 4)) as [len|]; [|done]. cbn [res_bind].
    destruct ((len =? 4) && (type =? 1)); [destruct (mk_addr _ _); [|done]; intros [= <- _]; lia|].
    destruct (type =? 5); [destruct (dns_name _ _) as [[? ?]|]; [|done]; intros [= <- _]; lia|].
    destruct ((len =? 16) && (type =? 28)); [destruct (mk_addr _ _); [|done]; intros [= <- _]; lia|]. intros [= <- _]. lia.
Qed.

(** Handling a response ends, whatever its bytes: pointers of names are followed once. *)
Lemma dns_input_ends s dns_ip src_ip mem t : bytes_ok mem → ends (dns_input s dns_ip src_ip mem t).
Proof.
  intros HB. unfold dns_input. apply ends_bind; [auto with ends|]. intros alien _. destruct alien; [done|].
  apply ends_bind; [auto with ends|]. intros flags _. destruct (flags =? 33792); [done|].
  apply ends_bind; [auto with ends|intros x _]. apply ends_bind; [auto with ends|intros x0 _].
  assert (∀ n p, 0 ≤ p → ends (skip_questions n mem p) ∧ (∀ p', skip_questions n mem p = Ok p' → 0 ≤ p')) as Hq.
  { induction n as [|n IH]; intros p Hp; cbn [skip_questions]; [split; [done|by intros p' [= <-]]|].
    pose proof (ends_dns_name mem p HB Hp) as Hn. destruct (dns_name mem p) as [[name l]|e] eqn:En; [|by destruct e; split]. cbn [res_bind].
    apply (get_name_len _ _ _ _ _ _ _ _ HB) in En; [|lia]. destruct (IH (p + l + 2 + 2) ltac:(lia)) as [I1 I2]. split.
    - do 2 (apply ends_bind; [auto with ends|intros ? _]). done.
    - intros p'. destruct (rd16 mem (p + l)); [|done]. cbn [res_bind]. destruct (rd16 mem (p + l + 2)); [|done]. cbn [res_bind]. apply I2. }
  destruct (Hq (Z.to_nat x) 12 ltac:(lia)) as [Q1 Q2]. apply ends_bind; [done|]. intros p Ep. specialize (Q2 p Ep).
  apply ends_bind; [|by intros ? _]. clear Ep. revert s p Q2. induction (Z.to_nat x0) as [|n IH]; intros s p Hp; cbn [dns_answers]; [done|].
  destruct (dns_answer_ends mem t p s HB Hp) as [A1 A2]. apply ends_bind; [done|]. intros [p' s'] E. apply IH. by eapply A2.
Qed.

(** ** Names survive *)

Definition label_ok (p : str) : Prop := 1 ≤ zlen p ≤ 63 ∧ (dot ∉ p) ∧ bytes_ok p.
Definition label_bytes (p : str) : list Z := zlen p :: p.
Definition name_bytes (parts : list str) : list Z := (parts ≫= label_bytes) ++ [0].
Definition dotted (parts : list str) : str := parts ≫= (λ p, p ++ [dot]).

Lemma land_label len : 0 ≤ len ≤ 63 → Z.land len 192 = 0.
Proof.
  intros Hl. apply Z.bits_inj'. intros i Hi. rewrite Z.land_spec, Z.bits_0.
  destruct (Z.lt_ge_cases i 6) as [Hlt|Hge].
  - change 192 with (Z.shiftl 3 6). rewrite Z.shiftl_spec_low by done. apply andb_false_r.
  - destruct (decide (len = 0)) as [->|]; [by rewrite Z.bits_0|]. rewrite Z.bits_above_log2; [done|lia|].
    assert (Z.log2 len < 6); [|lia]. apply Z.log2_lt_pow2; [lia|]. change (2 ^ 6) with 64. lia.
Qed.

Lemma zlen_label p : zlen (label_bytes p) = 1 + zlen p.
Proof. unfold label_bytes. rewrite zlen_cons. lia. Qed.

Lemma get_name_labels parts fuel mem pre rest buffer first name tl :
  Forall label_ok parts → mem = pre ++ (parts ≫= label_bytes) ++ rest → zlen pre = buffer + tl →
  get_name (length parts + fuel) mem buffer first name tl =
    get_name fuel mem buffer first (name ++ dotted parts) (tl + zlen (parts ≫= label_bytes)).
Proof.
  intros Hp. revert pre name tl. induction Hp as [|p parts (Hl & _) _ IH]; intros pre name tl Em Hpre.
  { cbn. by rewrite app_nil_r, Z.add_0_r. }
  rewrite bind_cons in Em. unfold label_bytes at 1 in Em. cbn [app] in Em. cbn [length Nat.add get_name].
  assert (rd mem (buffer + tl) = Ok (zlen p)) as -> by (rewrite Em; by apply rd_mid). cbn [res_bind].
  rewrite (proj2 (Z.eqb_neq (zlen p) 0)) by lia. rewrite land_label by lia. cbn [Z.eqb negb].
  assert (rd_range mem (buffer + (tl + 1)) (zlen p) = Ok p) as ->.
  { replace mem with ((pre ++ [zlen p]) ++ p ++ (parts ≫= label_bytes) ++ rest) by (rewrite Em, <- !app_assoc; done).
    apply rd_range_mid; [rewrite zlen_app; unfold zlen in *; simpl; lia|done]. }
  cbn [res_bind]. rewrite (IH (pre ++ label_bytes p)).
  - unfold dotted. rewrite !bind_cons, zlen_app, zlen_label, <- !app_assoc. f_equal. lia.
  - rewrite Em, <- !app_assoc. done.
  - rewrite zlen_app, zlen_label. lia.
Qed.

Lemma length_labels parts : (length parts ≤ length (parts ≫= label_bytes))%nat.
Proof. induction parts as [|p parts IH]; [done|]. rewrite bind_cons, length_app. unfold label_bytes at 1. cbn [length]. lia. Qed.

Lemma zlen_name parts : zlen (name_bytes parts) = zlen (parts ≫= label_bytes) + 1.
Proof. unfold name_bytes. by rewrite zlen_app. Qed.

(** a name without pointers, at a place in a message *)
Lemma get_name_spec parts fuel mem pre rest first :
  Forall label_ok parts → mem = pre ++ name_bytes parts ++ rest → (length parts < fuel)%nat →
  get_name fuel mem (zlen pre) first [] 0 = Ok (dotted parts, zlen (name_bytes parts)).
Proof.
  intros Hp Em Hf. unfold name_bytes in Em. rewrite <- app_assoc in Em. replace fuel with (length parts + S (fuel - length parts - 1))%nat by lia.
  rewrite (get_name_labels parts _ mem pre ([0] ++ rest)) by (done || lia). cbn [app get_name].
  assert (rd mem (zlen pre + (0 + zlen (parts ≫= label_bytes))) = Ok 0) as ->.
  { rewrite Em, app_assoc. cbn [app]. apply rd_mid. rewrite zlen_app. lia. }
  cbn [res_bind Z.eqb]. by rewrite zlen_name.
Qed.

Lemma dns_name_spec parts mem pre rest :
  Forall label_ok parts → mem = pre ++ name_bytes parts ++ rest →
  dns_name mem (zlen pre) = Ok (dotted parts, zlen (name_bytes parts)).
Proof.
  intros Hp Em. apply (get_name_spec parts _ mem pre rest); [done|done|]. unfold name_fuel. rewrite Em, !length_app.
  pose proof (length_labels parts). unfold name_bytes. rewrite length_app. lia.
Qed.

(** a pointer to an earlier name *)
Lemma dns_name_pointer parts mem pre rest pre2 rest2 :
  Forall label_ok parts → mem = pre ++ name_bytes parts ++ rest → mem = pre2 ++ [0xc0; zlen pre] ++ rest2 → zlen pre < 256 →
  dns_name mem (zlen pre2) = Ok (dotted parts, 2).
Proof.
  intros Hp Em Em2 Hlt. pose proof (zlen_nonneg pre). unfold dns_name, name_fuel. cbn [Nat.add get_name].
  replace (2 * length mem + 2)%nat with (S (2 * length mem + 1)) by lia. cbn [get_name].
  rewrite Z.add_0_r. assert (rd mem (zlen pre2) = Ok 192) as -> by (rewrite Em2; by apply rd_mid). cbn [res_bind Z.eqb].
  change (negb (Z.land 192 192 =? 0)) with true. cbn iota.
  assert (rd mem (zlen pre2 + (0 + 1)) = Ok (zlen pre)) as ->.
  { rewrite Em2. change (pre2 ++ [192; zlen pre] ++ rest2) with (pre2 ++ [192] ++ zlen pre :: rest2). rewrite app_assoc.
    apply rd_mid. by rewrite zlen_app. }
  cbn [res_bind]. change (Z.land 192 63) with 0. change (Z.shiftl 0 8) with 0. rewrite Z.lor_0_l.
  assert (∃ x, rd mem (zlen pre) = Ok x) as [x ->].
  { apply rd_in_range. rewrite Em, !zlen_app. pose proof (zlen_nonneg rest). rewrite zlen_name. pose proof (zlen_nonneg (parts ≫= label_bytes)). lia. }
  cbn [res_bind]. rewrite (get_name_spec parts _ mem pre rest); [done|done|done|].
  rewrite Em, !length_app. pose proof (length_labels parts). unfold name_bytes. rewrite length_app. lia.
Qed.

Lemma without_dot_dotted parts : parts ≠ [] → without_dot (dotted parts) = join [dot] parts.
Proof.
  intros Hne. unfold without_dot.
  assert (dotted parts = join [dot] parts ++ [dot]) as ->.
  { induction parts as [|p parts IH]; [done|]. unfold dotted in *. rewrite bind_cons. destruct parts as [|q parts]; [cbn; by rewrite app_nil_r|].
    rewrite IH by done. rewrite (join_cons [dot] p (q :: parts)) by done. rewrite <- !app_assoc. done. }
  rewrite length_app. cbn [length]. replace (length (join [dot] parts) + 1 - 1)%nat with (length (join [dot] parts)) by lia.
  by rewrite take_app_length.
Qed.

(** ** Requests *)

(** an array that was filled up to the offset *)
Definition filled (w : out_buffer) (a : list Z) : Prop :=
  ∃ k, w.1 = a ++ replicate k 0 ∧ w.2 = zlen a ∧ zlen a + Z.of_nat k = 256.

Lemma filled_new : filled new_out [].
Proof. by exists 256%nat. Qed.

Lemma put1_filled w a b : filled w a → zlen a < 256 → ∃ w', put1 w b = Ok w' ∧ filled w' (a ++ [u8 b]).
Proof.
  intros (k & E1 & E2 & Hk) Ha. unfold put1. rewrite E1, E2. rewrite put_byte_app by (done || lia). cbn [res_bind].
  eexists. split; [done|]. exists (k - 1)%nat. cbn [fst snd]. rewrite zlen_app. change (zlen [u8 b]) with 1. split_and!; [done|done|lia].
Qed.

Lemma puts_filled w a bytes :
  filled w a → bytes_ok bytes → zlen a + zlen bytes ≤ 256 → ∃ w', puts w bytes = Ok w' ∧ filled w' (a ++ bytes).
Proof.
  intros Hw HB. revert w a Hw. induction HB as [|b bytes Hb _ IH]; intros w a Hw Hz.
  { exists w. by rewrite app_nil_r. }
  rewrite zlen_cons in Hz. pose proof (zlen_nonneg bytes). cbn [puts].
  destruct (put1_filled w a b Hw) as (w1 & -> & H1); [lia|]. cbn [res_bind]. rewrite u8_id in H1 by done.
  destruct (IH w1 (a ++ [b]) H1) as (w' & -> & H'); [rewrite zlen_app; change (zlen [b]) with 1; lia|].
  exists w'. split; [done|]. by rewrite <- app_assoc in H'.
Qed.

Lemma put_data_filled w a s : filled w a → zlen a + zlen s ≤ 256 → ∃ w', put_data w s = Ok w' ∧ filled w' (a ++ s).
Proof.
  intros (k & E1 & E2 & Hk) Hz. unfold put_data. rewrite E1, E2. rewrite put_app by (done || (unfold zlen in *; lia)). cbn [res_bind].
  eexists. split; [done|]. exists (k - length s)%nat. cbn [fst snd]. rewrite zlen_app. split_and!; [done|done|unfold zlen in *; lia].
Qed.

Lemma put_labels_filled w a parts :
  filled w a → Forall label_ok parts → zlen a + zlen (parts ≫= label_bytes) ≤ 256 →
  ∃ w', put_labels w parts = Ok w' ∧ filled w' (a ++ (parts ≫= label_bytes)).
Proof.
  intros Hw Hp. revert w a Hw. induction Hp as [|p parts (Hl & _ & HB) _ IH]; intros w a Hw Hz.
  { exists w. by rewrite app_nil_r. }
  rewrite bind_cons, zlen_app, zlen_label in Hz. pose proof (zlen_nonneg (parts ≫= label_bytes)). cbn [put_labels].
  destruct (put1_filled w a (zlen p) Hw) as (w1 & -> & H1); [lia|]. cbn [res_bind]. rewrite u8_id in H1 by (unfold byte_ok; lia).
  destruct (put_data_filled w1 _ p H1) as (w2 & -> & H2); [rewrite zlen_app; change (zlen [zlen p]) with 1; lia|]. cbn [res_bind].
  assert ((a ++ [zlen p]) ++ p = a ++ label_bytes p) as E by (by rewrite <- app_assoc). rewrite E in H2.
  destruct (IH w2 _ H2) as (w3 & -> & H3); [rewrite zlen_app, zlen_label; lia|]. exists w3. split; [done|].
  rewrite bind_cons. by rewrite <- app_assoc in H3.
Qed.

Lemma filled_read w a : filled w a → rd_range w.1 0 w.2 = Ok a.
Proof. intros (k & -> & -> & _). by apply rd_range_app. Qed.

Definition dns_header (id flags qd an ns ar : Z) : list Z := be16 id ++ be16 flags ++ be16 qd ++ be16 an ++ be16 ns ++ be16 ar.
Definition question (parts : list str) : list Z := name_bytes parts ++ be16 1 ++ be16 1.

Lemma dns_request_spec parts :
  Forall label_ok parts → zlen (name_bytes parts) ≤ 240 →
  dns_request (join [dot] parts) = Ok (dns_header 0 0x0100 1 0 0 0 ++ question parts).
Proof.
  intros Hp Hz. rewrite zlen_name in Hz. pose proof (zlen_nonneg (parts ≫= label_bytes)). unfold dns_request.
  destruct (puts_filled new_out [] [0; 0; 1; 0; 0; 1; 0; 0; 0; 0; 0; 0] filled_new) as (w1 & -> & H1); [solve_bytes|vm_compute; discriminate|].
  cbn [res_bind]. rewrite split_join.
  2: { eapply Forall_impl; [exact Hp|]. intros p (Hl & Hd & _). split; [done|]. intros ->. unfold zlen in Hl. simpl in Hl. lia. }
  cbn [res_bind]. destruct (put_labels_filled w1 _ parts H1 Hp) as (w2 & -> & H2); [rewrite zlen_app; unfold zlen in *; simpl; lia|].
  cbn [res_bind]. destruct (puts_filled w2 _ [0; 0; 1; 0; 1] H2) as ([buf o] & -> & H3); [solve_bytes|rewrite !zlen_app; unfold zlen in *; simpl; lia|].
  cbn [res_bind]. etrans; [exact (filled_read _ _ H3)|]. f_equal. unfold dns_header, question, name_bytes. by rewrite <- !app_assoc.
Qed.

(** a name whose request does not fit: the array of 256 bytes is overrun *)
Lemma long_name_overrun : dns_request (join [dot] (replicate 5 (replicate 63 97))) = Err bad_access.
Proof. vm_compute. reflexivity. Qed.

(** ** A lookup, end to end *)

Lemma rd16_mid mem pre x rest : 0 ≤ x < 65536 → mem = pre ++ be16 x ++ rest → rd16 mem (zlen pre) = Ok x.
Proof.
  intros Hx Em. unfold rd16. assert (rd mem (zlen pre) = Ok (u8 (Z.shiftr x 8))) as -> by (rewrite Em; by apply rd_mid). cbn [res_bind].
  assert (rd mem (zlen pre + 1) = Ok (u8 x)) as ->.
  { replace mem with ((pre ++ [u8 (Z.shiftr x 8)]) ++ u8 x :: rest) by (rewrite Em, <- app_assoc; done). apply rd_mid. by rewrite zlen_app. }
  cbn [res_bind]. by rewrite join16_be16.
Qed.

Lemma rd32_mid mem pre x rest : 0 ≤ x < 4294967296 → mem = pre ++ be32 x ++ rest → rd32 mem (zlen pre) = Ok x.
Proof.
  intros Hx Em. unfold rd32.
  assert (∀ l b r i, mem = (pre ++ l) ++ b :: r → i = zlen l → rd mem (zlen pre + i) = Ok b) as H.
  { intros l b r i -> ->. apply rd_mid. by rewrite zlen_app. }
  unfold be32 in Em. rewrite <- (Z.add_0_r (zlen pre)) at 1.
  rewrite (H [] (u8 (Z.shiftr x 24)) ([u8 (Z.shiftr x 16); u8 (Z.shiftr x 8); u8 x] ++ rest) 0); [|by rewrite app_nil_r|done]. cbn [res_bind].
  rewrite (H [u8 (Z.shiftr x 24)] (u8 (Z.shiftr x 16)) ([u8 (Z.shiftr x 8); u8 x] ++ rest) 1); [|by rewrite <- app_assoc|done]. cbn [res_bind].
  rewrite (H [u8 (Z.shiftr x 24); u8 (Z.shiftr x 16)] (u8 (Z.shiftr x 8)) (u8 x :: rest) 2); [|by rewrite <- app_assoc|done]. cbn [res_bind].
  rewrite (H [u8 (Z.shiftr x 24); u8 (Z.shiftr x 16); u8 (Z.shiftr x 8)] (u8 x) rest 3); [|by rewrite <- app_assoc|done]. cbn [res_bind].
  by rewrite join32_be32, u32_id.
Qed.

(** the type of an address record *)
Definition rr_type (f : addr_family) : Z := match f with ipv4 => 1 | _ => 0x1c end.
Definition ip_family (f : addr_family) : Prop := f = ipv4 ∨ f = ipv6.

(** an answer for the name of the question *)
Definition address_answer (f : addr_family) (ttl : Z) (bytes : list Z) : list Z :=
  [0xc0; 12] ++ be16 (rr_type f) ++ be16 1 ++ be32 ttl ++ be16 (family_size f) ++ bytes.

Definition response (id flags ns ar : Z) (parts : list str) (answer more : list Z) : list Z :=
  dns_header id flags 1 1 ns ar ++ question parts ++ answer ++ more.

Lemma dns_answer_spec f parts mem head pre rest ttl bytes t s :
  ip_family f → Forall label_ok parts → parts ≠ [] → mem = head ++ name_bytes parts ++ rest → zlen head = 12 →
  (∃ more, mem = pre ++ address_answer f ttl bytes ++ more) → bytes_ok mem → 0 ≤ ttl < 2147483648 → zlen bytes = family_size f →
  ∃ a p, dns_answer mem t (zlen pre) s = Ok (p, insert_a s (join [dot] parts) (ARec a t ttl)) ∧ good a ∧ key a = (f, bytes).
Proof.
  intros Hf Hp Hne Em Hh (more & Em2) HB Ht Hl. unfold address_answer in Em2. unfold dns_answer.
  assert (∃ r, mem = pre ++ [192; zlen head] ++ r) as [r Er] by (eexists; rewrite Hh, Em2, <- app_assoc; reflexivity).
  rewrite (dns_name_pointer parts mem head rest pre r Hp Em Er ltac:(lia)). cbn [res_bind].
  rewrite <- !app_assoc in Em2. rewrite app_assoc in Em2.
  replace (zlen pre + 2) with (zlen (pre ++ [192; 12])) by (by rewrite zlen_app).
  rewrite (rd16_mid mem _ (rr_type f) _ ltac:(destruct f; simpl; lia) Em2). cbn [res_bind]. rewrite app_assoc in Em2.
  assert (∀ (q l : list Z) n, zlen l = n → zlen q + n = zlen (q ++ l)) as Hadd by (intros q l n <-; by rewrite zlen_app).
  rewrite (Hadd _ (be16 (rr_type f)) 2 eq_refl). rewrite (rd16_mid mem _ 1 _ ltac:(lia) Em2). cbn [res_bind]. rewrite app_assoc in Em2.
  rewrite (Hadd _ (be16 1) 2 eq_refl). rewrite (rd32_mid mem _ ttl _ ltac:(lia) Em2). cbn [res_bind]. rewrite app_assoc in Em2.
  rewrite (Hadd _ (be32 ttl) 4 eq_refl).
  rewrite (rd16_mid mem _ (family_size f) _ ltac:(pose proof (family_size_bound f); lia) Em2). cbn [res_bind]. rewrite app_assoc in Em2.
  rewrite (Hadd _ (be16 (family_size f)) 2 eq_refl). set (q := _ ++ be16 (family_size f)) in *.
  rewrite (without_dot_dotted parts Hne). replace (s32 ttl) with ttl by (unfold s32; rewrite Z.mod_small; lia).
  assert (ptr_at mem (zlen q) = bytes ++ more) as Eptr by (rewrite Em2; by apply ptr_at_app).
  assert (bytes_ok (bytes ++ more)) as HBm by (rewrite <- Eptr; by apply bytes_ok_drop).
  destruct (mk_addr_spec f (bytes ++ more) HBm) as (a & Ea & Ga & Ka); [rewrite zlen_app; pose proof (zlen_nonneg more); lia|].
  rewrite take_app_length' in Ka by (unfold zlen in Hl; lia).
  destruct Hf as [-> | ->]; cbn [rr_type family_size Z.eqb Pos.eqb andb]; rewrite Eptr, Ea; by exists a, (zlen q).
Qed.

(** the response to the question is put in the cache *)
Lemma dns_input_spec s dns_ip src_ip f parts id flags ns ar ttl bytes more t :
  ip_family f → Forall label_ok parts → parts ≠ [] → good dns_ip → good src_ip → key src_ip = key dns_ip →
  0 ≤ flags < 65536 → flags ≠ 0x8400 → 0 ≤ ttl < 2147483648 → bytes_ok bytes → bytes_ok more → zlen bytes = family_size f →
  ∃ a, dns_input s dns_ip src_ip (response id flags ns ar parts (address_answer f ttl bytes) more) t =
         Ok (insert_a s (join [dot] parts) (ARec a t ttl), []) ∧ good a ∧ key a = (f, bytes).
Proof.
  intros Hf Hp Hne Gd Gs Ek Hfl Hn Ht HB HBm Hl. set (mem := response _ _ _ _ _ _ _). unfold dns_input.
  rewrite neqb_same by done. cbn [res_bind].
  assert (∀ pre x rest, 0 ≤ x < 65536 → mem = pre ++ be16 x ++ rest → rd16 mem (zlen pre) = Ok x) as R16 by (intros; by eapply rd16_mid).
  change 2 with (zlen (be16 id)). rewrite (R16 (be16 id) flags (drop 4 mem)); [|done|done]. cbn [res_bind].
  rewrite (proj2 (Z.eqb_neq flags 33792)) by done.
  change 4 with (zlen (be16 id ++ be16 flags)). rewrite (R16 _ 1 (drop 6 mem)); [|lia|done]. cbn [res_bind].
  change 6 with (zlen (be16 id ++ be16 flags ++ be16 1)). rewrite (R16 _ 1 (drop 8 mem)); [|lia|done]. cbn [res_bind].
  change (Z.to_nat 1) with 1%nat. cbn [skip_questions dns_answers]. set (head := dns_header id flags 1 1 ns ar).
  assert (zlen head = 12) as Hh by done. assert (mem = head ++ name_bytes parts ++ be16 1 ++ be16 1 ++ address_answer f ttl bytes ++ more) as Em
    by (unfold mem, response, question, head; by rewrite <- !app_assoc).
  rewrite <- Hh. rewrite (dns_name_spec parts mem head _ Hp Em). cbn [res_bind].
  assert (∀ (q l : list Z) n, zlen l = n → zlen q + n = zlen (q ++ l)) as Hadd by (intros q l n <-; by rewrite zlen_app).
  pose proof Em as Em1. rewrite app_assoc in Em1. rewrite (Hadd head (name_bytes parts) _ eq_refl).
  rewrite (R16 _ 1 _ ltac:(lia) Em1). cbn [res_bind]. rewrite app_assoc in Em1. rewrite (Hadd _ (be16 1) 2 eq_refl).
  rewrite (R16 _ 1 _ ltac:(lia) Em1). cbn [res_bind]. rewrite app_assoc in Em1. rewrite (Hadd _ (be16 1) 2 eq_refl).
  assert (bytes_ok (name_bytes parts)) as HBn.
  { unfold name_bytes. apply bytes_ok_app; [|solve_bytes]. clear -Hp. induction Hp as [|p parts (Hl & _ & HB) _ IH]; [constructor|].
    rewrite bind_cons. apply bytes_ok_app; [|done]. apply Forall_cons_2; [unfold byte_ok; lia|done]. }
  assert (bytes_ok mem) as HBmem.
  { rewrite Em. unfold head, dns_header, address_answer. bytes_fields; try done. solve_bytes. }
  set (pre := ((head ++ name_bytes parts) ++ be16 1) ++ be16 1) in *.
  destruct (dns_answer_spec f parts mem head pre _ ttl bytes t s Hf Hp Hne Em Hh) as (a & p & -> & Ga & Ka); [by exists more|done|done|done|].
  cbn [res_bind]. by exists a.
Qed.


(** "www.a.nl" *)
Definition ex_dns_parts : list str := [[119; 119; 119]; [97]; [110; 108]].
Definition ex_server : any_addr := ex_v4 10 0 0 53.

Lemma ex_dns_parts_ok : Forall label_ok ex_dns_parts.
Proof.
  unfold ex_dns_parts. repeat (apply Forall_cons_2; [split_and!; [vm_compute; discriminate|vm_compute; discriminate|rewrite list_elem_of_In; simpl; unfold dot; lia|solve_bytes]|]).
  apply Forall_nil_2.
Qed.


(** a response with a CNAME and the address of that name, as servers send it: the
    parser does not step over the data of the CNAME, so the address is lost *)
Lemma second_answer_lost :
  match dns_input (Dns ∅ ∅) ex_server ex_server
    (dns_header 0 0x8180 1 2 0 0 ++ question [[119]; [97]] ++
     [0xc0; 12] ++ be16 5 ++ be16 1 ++ be32 300 ++ be16 4 ++ [1; 98; 0xc0; 14] ++
     [0xc0; 33] ++ be16 1 ++ be16 1 ++ be32 300 ++ be16 4 ++ [192; 0; 2; 1]) 1000 with
  | Ok (s, _) => a_aaaa_cache s !! [98; 46; 97] = None ∧ cname_cache s !! [119; 46; 97] ≠ None
  | Err _ => False
  end.
Proof. vm_compute. split; [reflexivity|discriminate]. Qed.

(** ** What mDNS sends *)

Definition nul_free (p : str) : Prop := label_ok p ∧ (0 ∉ p).

Lemma put_sprintf_filled w a p :
  filled w a → (0 ∉ p) → zlen a + zlen p < 256 → ∃ w', put_sprintf w p = Ok w' ∧ filled w' (a ++ p).
Proof.
  intros (k & E1 & E2 & Hk) Hn Hz. unfold put_sprintf. rewrite c_str_nul_free, E1, E2 by done.
  assert (length p < k)%nat as Hlt by (unfold zlen in *; lia).
  rewrite put_app by (done || (rewrite length_app; simpl; lia)). cbn [res_bind]. eexists. split; [done|].
  exists (k - length p)%nat. cbn [fst snd]. rewrite zlen_app. split_and!; [|done|unfold zlen in *; lia].
  rewrite length_app, <- !app_assoc. cbn [length app]. f_equal. f_equal.
  replace (k - length p)%nat with (S (k - (length p + 1))) by lia. done.
Qed.

Lemma put_names_filled w a parts :
  filled w a → Forall nul_free parts → zlen a + zlen (parts ≫= label_bytes) < 256 →
  ∃ w', put_names w parts = Ok w' ∧ filled w' (a ++ (parts ≫= label_bytes)).
Proof.
  intros Hw Hp. revert w a Hw. induction Hp as [|p parts ((Hl & _ & HB) & Hn) _ IH]; intros w a Hw Hz.
  { exists w. by rewrite app_nil_r. }
  rewrite bind_cons, zlen_app, zlen_label in Hz. pose proof (zlen_nonneg (parts ≫= label_bytes)). cbn [put_names].
  destruct (put1_filled w a (zlen p) Hw) as (w1 & -> & H1); [lia|]. cbn [res_bind]. rewrite u8_id in H1 by (unfold byte_ok; lia).
  destruct (put_sprintf_filled w1 _ p H1 Hn) as (w2 & -> & H2); [rewrite zlen_app; change (zlen [zlen p]) with 1; lia|]. cbn [res_bind].
  assert ((a ++ [zlen p]) ++ p = a ++ label_bytes p) as E by (by rewrite <- app_assoc). rewrite E in H2.
  destruct (IH w2 _ H2) as (w3 & -> & H3); [rewrite zlen_app, zlen_label; lia|]. exists w3. split; [done|].
  rewrite bind_cons. by rewrite <- app_assoc in H3.
Qed.

(** a resource record as RFC 1035 has it *)
Definition record (name : list str) (type class_ : Z) (data : list Z) : list Z :=
  name_bytes name ++ be16 type ++ be16 class_ ++ be32 mdns_ttl ++ be16 (zlen data) ++ data.

Lemma zlen_record name type class_ data : zlen (record name type class_ data) = zlen (name_bytes name) + 10 + zlen data.
Proof. unfold record. rewrite !zlen_app. unfold zlen. cbn [be16 be32 length]. lia. Qed.

(** name, type, class and time to live *)
Lemma put_record_head w a name t0 t1 c0 c1 :
  filled w a → Forall nul_free name → bytes_ok [t0; t1; c0; c1] → zlen a + zlen (name_bytes name) + 8 ≤ 256 →
  ∃ w1 w2 w3, put_names w name = Ok w1 ∧ puts w1 [0; t0; t1; c0; c1] = Ok w2 ∧ put_ttl w2 = Ok w3 ∧
    filled w3 (a ++ name_bytes name ++ [t0; t1; c0; c1] ++ be32 mdns_ttl).
Proof.
  intros Hw Hn HB Hz. rewrite zlen_name in Hz. pose proof (zlen_nonneg (name ≫= label_bytes)).
  destruct (put_names_filled w a name Hw Hn) as (w1 & E1 & H1); [lia|].
  destruct (puts_filled w1 _ [0; t0; t1; c0; c1] H1) as (w2 & E2 & H2); [apply Forall_cons_2; [unfold byte_ok; lia|exact HB]|rewrite zlen_app; unfold zlen in *; simpl; lia|].
  destruct (puts_filled w2 _ (be32 mdns_ttl) H2) as (w3 & E3 & H3); [apply bytes_ok_be32|rewrite !zlen_app; unfold zlen in *; simpl; lia|].
  exists w1, w2, w3. split_and!; [done|done|exact E3|]. unfold name_bytes. rewrite <- !app_assoc in *. exact H3.
Qed.

Lemma names_len_spec name :
  zlen (name_bytes name) < 65536 → names_len name = zlen (name_bytes name).
Proof.
  intros Hz. unfold names_len.
  assert (∀ n, foldl (λ n p, n + (zlen p + 1)) n name = n + zlen (name ≫= label_bytes)) as H.
  { induction name as [|p name IH]; intros n; cbn [foldl]; [by rewrite Z.add_0_r|].
    rewrite IH; [rewrite bind_cons, zlen_app, zlen_label; lia|].
    rewrite zlen_name, bind_cons, zlen_app in Hz. pose proof (zlen_nonneg (label_bytes p)). rewrite zlen_name. lia. }
  rewrite H, zlen_name in *. rewrite u16_id; [lia|]. pose proof (zlen_nonneg (name ≫= label_bytes)). lia.
Qed.

(** the length of the data *)
Lemma put_len w a n rest :
  filled w a → 0 ≤ n < 65536 → bytes_ok rest → zlen a + 2 + zlen rest ≤ 256 →
  ∃ w', puts w ([Z.shiftr n 8; n] ++ rest) = Ok w' ∧ filled w' (a ++ be16 n ++ rest).
Proof.
  intros Hw Hn HB Hz. pose proof (zlen_nonneg rest). cbn [app puts].
  destruct (put1_filled w a (Z.shiftr n 8) Hw) as (w1 & -> & H1); [lia|]. cbn [res_bind].
  destruct (put1_filled w1 _ n H1) as (w2 & -> & H2); [rewrite zlen_app; unfold zlen in *; simpl; lia|]. cbn [res_bind].
  destruct (puts_filled w2 _ rest H2 HB) as (w3 & -> & H3); [rewrite !zlen_app; unfold zlen in *; simpl; lia|].
  exists w3. split; [done|]. unfold be16. rewrite <- !app_assoc in *. exact H3.
Qed.

Lemma add_ptr_spec w a name :
  filled w a → Forall nul_free name → zlen a + zlen (record (drop 1 name) 12 1 (name_bytes name)) ≤ 256 →
  ∃ w', add_ptr w name = Ok w' ∧ filled w' (a ++ record (drop 1 name) 12 1 (name_bytes name)).
Proof.
  intros Hw Hn Hz. rewrite zlen_record in Hz. pose proof (zlen_nonneg a). pose proof (zlen_nonneg (name ≫= label_bytes)).
  pose proof (zlen_nonneg (drop 1 name ≫= label_bytes)). pose proof (zlen_name name) as Zn. pose proof (zlen_name (drop 1 name)) as Zd.
  destruct (put_record_head w a (drop 1 name) 0 12 0 1 Hw) as (w1 & w2 & w3 & E1 & E2 & E3 & H3); [by apply Forall_drop|solve_bytes|lia|].
  unfold add_ptr. rewrite E1. cbn [res_bind]. rewrite E2. cbn [res_bind]. rewrite E3. cbn [res_bind]. rewrite names_len_spec by lia.
  assert (zlen (a ++ name_bytes (drop 1 name) ++ [0; 12; 0; 1] ++ be32 mdns_ttl) = zlen a + zlen (name_bytes (drop 1 name)) + 8) as Z3
    by (rewrite !zlen_app; unfold zlen; simpl; lia).
  destruct (put_len w3 _ (zlen (name_bytes name)) [] H3) as (w4 & E4 & H4); [lia|constructor|change (zlen (@nil Z)) with 0; lia|].
  rewrite app_nil_r in E4, H4. rewrite E4. cbn [res_bind].
  destruct (put_names_filled w4 _ name H4 Hn) as (w5 & -> & H5); [rewrite zlen_app, Z3; change (zlen (be16 _)) with 2; lia|]. cbn [res_bind].
  destruct (put1_filled w5 _ 0 H5) as (w6 & -> & H6); [rewrite !zlen_app in *; change (zlen (be16 _)) with 2; lia|].
  exists w6. split; [done|]. unfold record, name_bytes at 2. change (be16 12 ++ be16 1 ++ be32 mdns_ttl ++ ?x) with ([0; 12; 0; 1] ++ be32 mdns_ttl ++ x).
  rewrite <- !app_assoc in *. exact H6.
Qed.

Lemma add_txt_spec w a name :
  filled w a → Forall nul_free name → zlen a + zlen (record name 16 0x8001 []) ≤ 256 →
  ∃ w', add_txt w name = Ok w' ∧ filled w' (a ++ record name 16 0x8001 []).
Proof.
  intros Hw Hn Hz. rewrite zlen_record in Hz. change (zlen (@nil Z)) with 0 in Hz. pose proof (zlen_nonneg a).
  destruct (put_record_head w a name 0 16 128 1 Hw Hn) as (w1 & w2 & w3 & E1 & E2 & E3 & H3); [solve_bytes|lia|].
  unfold add_txt. rewrite E1. cbn [res_bind]. rewrite E2. cbn [res_bind]. rewrite E3. cbn [res_bind].
  destruct (puts_filled w3 _ [0; 0] H3) as (w4 & -> & H4); [solve_bytes|rewrite !zlen_app; unfold zlen in *; simpl; lia|].
  exists w4. split; [done|]. unfold record. rewrite <- !app_assoc in *. exact H4.
Qed.

Lemma local_nul_free : nul_free str_local.
Proof. split; [split_and!; [vm_compute; discriminate|vm_compute; discriminate|rewrite list_elem_of_In; simpl; unfold dot; lia|solve_bytes]|rewrite list_elem_of_In; simpl; lia]. Qed.

Definition srv_data (n0 : str) (port : Z) : list Z := be16 0 ++ be16 0 ++ be16 port ++ name_bytes [n0; str_local].

Lemma zlen_local n0 : zlen (name_bytes [n0; str_local]) = zlen n0 + 8.
Proof. rewrite zlen_name, !bind_cons, !zlen_app, !zlen_label. change (zlen (@nil str ≫= label_bytes)) with 0. change (zlen str_local) with 5. lia. Qed.

Lemma puts_app w l1 l2 : puts w (l1 ++ l2) = (let* w := puts w l1 in puts w l2).
Proof. revert w. induction l1 as [|b l1 IH]; intros w; [done|]. cbn [app puts]. destruct (put1 w b); [|done]. apply IH. Qed.

Lemma add_srv_spec w a n0 name port :
  filled w a → Forall nul_free (n0 :: name) → 0 ≤ port < 65536 → zlen a + zlen (record (n0 :: name) 33 0x8001 (srv_data n0 port)) ≤ 256 →
  ∃ w', add_srv w (n0 :: name) port = Ok w' ∧ filled w' (a ++ record (n0 :: name) 33 0x8001 (srv_data n0 port)).
Proof.
  intros Hw Hn Hport Hz. rewrite zlen_record in Hz. pose proof (zlen_nonneg a). pose proof (zlen_nonneg n0).
  assert (zlen (srv_data n0 port) = zlen n0 + 14) as Zd by (unfold srv_data; rewrite !zlen_app, zlen_local; unfold zlen; simpl; lia).
  pose proof (zlen_nonneg ((n0 :: name) ≫= label_bytes)). pose proof (zlen_name (n0 :: name)) as Zn.
  destruct (put_record_head w a (n0 :: name) 0 33 128 1 Hw Hn) as (w1 & w2 & w3 & E1 & E2 & E3 & H3); [solve_bytes|lia|].
  unfold add_srv. rewrite E1. cbn [res_bind]. rewrite E2. cbn [res_bind]. rewrite E3. cbn [res_bind name_at0].
  replace (2 + 2 + 2 + 1 + zlen n0 + 1 + 5 + 1) with (zlen n0 + 14) by lia. rewrite u16_id by lia.
  assert (zlen (a ++ name_bytes (n0 :: name) ++ [0; 33; 128; 1] ++ be32 mdns_ttl) = zlen a + zlen (name_bytes (n0 :: name)) + 8) as Z3
    by (rewrite !zlen_app; unfold zlen; simpl; lia).
  destruct (put_len w3 _ (zlen n0 + 14) [0; 0; 0; 0] H3) as (w4 & E4 & H4); [lia|solve_bytes|rewrite Z3; unfold zlen at 3; simpl; lia|].
  change [Z.shiftr (zlen n0 + 14) 8; zlen n0 + 14; 0; 0; 0; 0; Z.shiftr port 8; port] with
    (([Z.shiftr (zlen n0 + 14) 8; zlen n0 + 14] ++ [0; 0; 0; 0]) ++ ([Z.shiftr port 8; port] ++ [])).
  rewrite puts_app, E4. cbn [res_bind].
  destruct (put_len w4 _ port [] H4) as (w5 & -> & H5); [lia|constructor|rewrite !zlen_app in *; unfold zlen in *; simpl in *; lia|]. cbn [res_bind].
  destruct (put_names_filled w5 _ [n0; str_local] H5) as (w6 & -> & H6).
  { apply Forall_cons_2; [by apply Forall_inv in Hn|apply Forall_cons_2; [apply local_nul_free|apply Forall_nil_2]]. }
  { pose proof (zlen_local n0) as Zl. rewrite zlen_name in Zl. rewrite !zlen_app in *. unfold zlen in *. simpl in *. lia. }
  cbn [res_bind]. destruct (put1_filled w6 _ 0 H6) as (w7 & -> & H7).
  { pose proof (zlen_local n0) as Zl. rewrite zlen_name in Zl. rewrite !zlen_app in *. unfold zlen in *. simpl in *. lia. }
  exists w7. split; [done|]. unfold record. rewrite Zd. unfold srv_data, name_bytes at 2. rewrite <- !app_assoc in *. exact H7.
Qed.

Lemma put_addr_filled w a x :
  filled w a → good x → zlen a + family_size (af x) ≤ 256 →
  ∃ w', put_addr (Z.to_nat (get_len x)) 0 w x = Ok w' ∧ filled w' (a ++ (key x).2).
Proof.
  intros Hw Hg Hz. unfold get_len. destruct (good_size x Hg) as [-> _]. pose proof (length_key x Hg) as Hk. pose proof (key_bytes_ok x Hg) as HB.
  set (n := Z.to_nat (family_size (af x))) in *.
  assert (∀ k w, (k ≤ n)%nat → filled w (a ++ take (n - k) (key x).2) →
    ∃ w', put_addr k (Z.of_nat (n - k)) w x = Ok w' ∧ filled w' (a ++ (key x).2)) as H.
  { induction k as [|k IH]; intros w0 Hle H0; cbn [put_addr].
    - exists w0. split; [done|]. by rewrite Nat.sub_0_r, take_ge in H0 by lia.
    - destruct (at_good x (Z.of_nat (n - S k)) Hg) as (b & -> & L); [pose proof (family_size_bound (af x)); lia|]. cbn [res_bind].
      rewrite Nat2Z.id in L. destruct (put1_filled w0 _ b H0) as (w1 & -> & H1).
      { rewrite zlen_app. unfold zlen in *. rewrite length_take. pose proof (family_size_bound (af x)). lia. }
      cbn [res_bind]. replace (Z.of_nat (n - S k) + 1) with (Z.of_nat (n - k)) by lia. apply IH; [lia|].
      rewrite u8_id in H1 by (unfold bytes_ok in HB; rewrite Forall_forall in HB; apply HB; by eapply list_elem_of_lookup_2). rewrite <- app_assoc in H1.
      replace (n - k)%nat with (S (n - S k)) by lia. by rewrite (take_S_r _ _ _ L). }
  destruct (H n w ltac:(lia)) as (w' & E & Hw'); [by rewrite Nat.sub_diag, app_nil_r|]. exists w'. by rewrite Nat.sub_diag in E.
Qed.

Lemma add_a_spec w a n0 name x :
  filled w a → nul_free n0 → good x → zlen a + zlen (record [n0; str_local] 1 0x8001 (key x).2) ≤ 256 →
  ∃ w', add_a w (n0 :: name) x = Ok w' ∧ filled w' (a ++ record [n0; str_local] 1 0x8001 (key x).2).
Proof.
  intros Hw Hn Hg Hz. rewrite zlen_record in Hz. pose proof (zlen_nonneg a). pose proof (family_size_bound (af x)).
  assert (zlen (key x).2 = family_size (af x)) as Zk by (unfold zlen; rewrite length_key by done; lia).
  assert (get_len x = family_size (af x)) as Gl by (by apply good_size). unfold add_a. cbn [name_at0 res_bind].
  destruct (put_record_head w a [n0; str_local] 0 1 128 1 Hw) as (w1 & w2 & w3 & E1 & E2 & E3 & H3);
    [apply Forall_cons_2; [done|apply Forall_cons_2; [apply local_nul_free|apply Forall_nil_2]]|solve_bytes|lia|].
  rewrite E1. cbn [res_bind]. rewrite E2. cbn [res_bind]. rewrite E3. cbn [res_bind].
  assert (zlen (a ++ name_bytes [n0; str_local] ++ [0; 1; 128; 1] ++ be32 mdns_ttl) = zlen a + zlen (name_bytes [n0; str_local]) + 8) as Z3.
  { rewrite !zlen_app. change (zlen [0; 1; 128; 1]) with 4. change (zlen (be32 mdns_ttl)) with 4. lia. }
  destruct (puts_filled w3 _ [0; get_len x] H3) as (w4 & -> & H4); [solve_bytes|rewrite Z3; change (zlen [0; get_len x]) with 2; lia|]. cbn [res_bind].
  destruct (put_addr_filled w4 _ x H4 Hg) as (w5 & -> & H5); [rewrite zlen_app, Z3; change (zlen [0; get_len x]) with 2; lia|].
  exists w5. split; [done|]. unfold record. rewrite Zk, <- Gl. rewrite <- !app_assoc in *.
  replace (be16 (get_len x)) with [0; get_len x]; [exact H5|]. rewrite Gl. by destruct (af x).
Qed.

Lemma last_join parts :
  Forall (λ q, (dot ∉ q) ∧ q ≠ []) parts → parts ≠ [] → ∃ c, last (join [dot] parts) = Some c ∧ c ≠ dot.
Proof.
  induction 1 as [|p parts (Hd & Hne) Hp IH]; intros H; [done|]. destruct parts as [|q parts].
  - cbn [join]. destruct (last p) as [c|] eqn:El; [|by apply last_None in El]. exists c. split; [done|]. intros ->.
    apply Hd. apply last_Some in El as [l ->]. apply elem_of_app. right. by left.
  - destruct (IH ltac:(done)) as (c & E & Hc). exists c. split; [|done]. rewrite join_cons by done. rewrite app_assoc, last_app, E. done.
Qed.

(** Announcements are well formed: for a service with at least two labels (without
    NUL and with at most 63 bytes) whose message fits in the array, what is sent is a
    response with a PTR record for the service, a TXT and an SRV record for the name
    and an address record for the host, all lengths right. *)
Theorem mdns_message_spec n0 name port x :
  Forall nul_free (n0 :: name) → 0 ≤ port < 65536 → good x →
  let msg := dns_header 0 0x8400 0 3 0 0 ++ record name 12 1 (name_bytes (n0 :: name)) ++ record (n0 :: name) 16 0x8001 [] ++
             record (n0 :: name) 33 0x8001 (srv_data n0 port) ++ record [n0; str_local] 1 0x8001 (key x).2 in
  zlen msg ≤ 256 → mdns_message (join [dot] (n0 :: name)) port x = Ok msg.
Proof.
  intros Hn Hport Hg msg Hz. set (hd := dns_header 0 0x8400 0 3 0 0) in *. set (r1 := record name 12 1 _) in *. set (r2 := record (n0 :: name) 16 _ _) in *.
  set (r3 := record (n0 :: name) 33 _ _) in *. set (r4 := record [n0; str_local] _ _ _) in *. unfold msg in Hz. rewrite !zlen_app in Hz.
  pose proof (zlen_nonneg r1). pose proof (zlen_nonneg r2). pose proof (zlen_nonneg r3). pose proof (zlen_nonneg r4).
  assert (Forall (λ q, (dot ∉ q) ∧ q ≠ []) (n0 :: name)) as Hq.
  { eapply Forall_impl; [exact Hn|]. intros p ((Hl & Hd & _) & _). split; [done|]. intros ->. unfold zlen in Hl. simpl in Hl. lia. }
  unfold mdns_message. destruct (puts_filled new_out [] [0; 0; 0x84; 0; 0; 0; 0; 3; 0; 0; 0; 0] filled_new) as (w0 & -> & Hw0); [solve_bytes|vm_compute; discriminate|].
  cbn [res_bind app] in Hw0 |- *. change [0; 0; 132; 0; 0; 0; 0; 3; 0; 0; 0; 0] with hd in Hw0.
  assert (erase_last_dot (join [dot] (n0 :: name)) = Ok (join [dot] (n0 :: name))) as ->.
  { unfold erase_last_dot. destruct (last_join (n0 :: name) Hq ltac:(done)) as (c & -> & Hc). by rewrite (proj2 (Z.eqb_neq c dot)). }
  cbn [res_bind]. rewrite split_join by done. cbn [res_bind].
  destruct (add_ptr_spec w0 hd (n0 :: name) Hw0 Hn) as (w1 & -> & H1'); [change (drop 1 (n0 :: name)) with name; fold r1; lia|]. cbn [res_bind].
  change (drop 1 (n0 :: name)) with name in H1'. fold r1 in H1'.
  destruct (add_txt_spec w1 _ (n0 :: name) H1' Hn) as (w2 & -> & H2'); [fold r2; rewrite !zlen_app; lia|]. cbn [res_bind]. fold r2 in H2'.
  destruct (add_srv_spec w2 _ n0 name port H2' Hn Hport) as (w3 & -> & H3'); [fold r3; rewrite !zlen_app; lia|]. cbn [res_bind]. fold r3 in H3'.
  destruct (add_a_spec w3 _ n0 name x H3') as ([buf o] & -> & H4'); [by apply Forall_inv in Hn|done|fold r4; rewrite !zlen_app; lia|].
  cbn [res_bind]. etrans; [exact (filled_read _ _ H4')|]. fold r4. f_equal. unfold msg. by rewrite <- !app_assoc.
Qed.
