(* ===== verification/Ntp.v ===== *)
(** * The NTP server (src/ntp.cpp)

    [ntp::input], which answers requests for the time, and a round of the thread that
    broadcasts it.  The clocks are arguments; the answer goes out through UDP, whose
    network layer is an argument too.

    Shown: a request is answered by one datagram, which repeats the time stamp of the
    client and has the time of the server to within 8 microseconds, for all but the
    last seven microseconds of a second; for those the time is a second behind.  The
    check of the size of a request compares with the size of a pointer: a request of
    8 to 47 bytes is read beyond its end. *)
From S2P Require Import Prelude AnyAddr Checksum Net Router Ipv4 Udp.
Open Scope Z_scope.

Definition NTP_EPOCH : Z := u32 (86400 * (365 * 70 + 17)).

Inductive ntp_stat := ntp_requests | ntp_invalid | ntp_time_req | ntp_t_req_v (vn : Z) | ntp_broadcast.

(** the fields of 32 bits are the numbers stored in them *)
Record sntp_datagram := Sntp {
  sn_mode : Z; sn_vn : Z; sn_li : Z;
  sn_stratum : Z; sn_poll : Z; sn_precision : Z;
  sn_root_delay : Z; sn_root_dispersion : Z;
  sn_reference_identifier : list Z;
  sn_reference : Z * Z; sn_originate : Z * Z; sn_receive : Z * Z; sn_transmit : Z * Z;
}.

(** a number of 32 bits in the memory of a little-endian host, and [htonl] there *)
Definition le32 (x : Z) : list Z := [u8 x; u8 (Z.shiftr x 8); u8 (Z.shiftr x 16); u8 (Z.shiftr x 24)].
Definition unle32 (l : list Z) : Z := join32 (nth 3 l 0) (nth 2 l 0) (nth 1 l 0) (nth 0 l 0).
Definition htonl (x : Z) : Z := unle32 (be32 x).

Definition sn_stamp (t : Z * Z) : list Z := le32 t.1 ++ le32 t.2.

(** the structure in memory; the bit fields start at the lowest bit *)
Definition sntp_bytes (s : sntp_datagram) : list Z :=
  [Z.lor (Z.lor (Z.land (sn_mode s) 7) (Z.shiftl (Z.land (sn_vn s) 7) 3)) (Z.shiftl (Z.land (sn_li s) 3) 6);
   u8 (sn_stratum s); u8 (sn_poll s); u8 (sn_precision s)] ++
  le32 (sn_root_delay s) ++ le32 (sn_root_dispersion s) ++ sn_reference_identifier s ++
  sn_stamp (sn_reference s) ++ sn_stamp (sn_originate s) ++ sn_stamp (sn_receive s) ++ sn_stamp (sn_transmit s).

(** [htonl(tv_sec + NTP_EPOCH)] and [htonl(usec * 4295)] *)
Definition ntp_stamp (tv_sec usec : Z) : Z * Z := (htonl (u32 (tv_sec + NTP_EPOCH)), htonl (u32 (usec * 4295))).

Section Ntp.
Context {S : Type} (idev : option (S → datagram → res (bool * S))).
Context (my_ip upstream_ntp_server : any_addr).

(** the answer to the request [data] that was received at [recv] ([tv_sec], [tv_nsec]) *)
Definition ntp_answer (data : list Z) (recv now : Z * Z) : res sntp_datagram :=
  let* reference_identifier := get_exp upstream_ntp_server 4 in
  let* secs := rd_range data 40 4 in
  let* fraq := rd_range data 44 4 in
  let now_stamp := ntp_stamp now.1 (Z.quot now.2 1000) in
  Ok (Sntp 4 3 0 2 16 (-18) 369098752 369098752 reference_identifier now_stamp (unle32 secs, unle32 fraq)
        (ntp_stamp recv.1 (Z.quot recv.2 1000)) now_stamp).

Definition ntp_input (ip : S) (src_ip : any_addr) (src_port : Z) (dst_ip : any_addr) (dst_port : Z)
    (p : packet) (recv now : Z * Z) : res (list ntp_stat * S) :=
  let* other := neqb dst_ip my_ip in
  if other then Ok ([], ip)
  else if pkt_size p <? 8 then Ok ([ntp_requests; ntp_invalid], ip)
  else
    let* b0 := rd (pkt_data p) 0 in
    if Z.land b0 7 =? 3 then
      let* msgout := ntp_answer (pkt_data p) recv now in
      let* '(_, ip) := udp_transmit_packet idev ip src_ip src_port dst_ip dst_port (sntp_bytes msgout) in
      Ok ([ntp_requests; ntp_time_req; ntp_t_req_v (Z.land (Z.shiftr b0 3) 7)], ip)
    else Ok ([ntp_requests], ip).

(** a round of [ntp::operator()] at [now] ([tv_sec], [tv_usec]) *)
Definition ntp_broadcast_round (ip : S) (now : Z * Z) : res (list ntp_stat * S) :=
  let* reference_identifier := get_exp upstream_ntp_server 4 in
  let stamp := ntp_stamp now.1 now.2 in
  let msgout := Sntp 5 3 0 2 16 (-18) 1 1 reference_identifier stamp (0, 0) (0, 0) stamp in
  let* tgt := mk_addr ipv4 [224; 0; 1; 1] in
  let* '(_, ip) := udp_transmit_packet idev ip tgt 123 my_ip 123 (sntp_bytes msgout) in
  Ok ([ntp_broadcast], ip).
End Ntp.

(** ** What a client reads *)

(** a time stamp of NTP: seconds since 1900 and 1/2^32 seconds, in network byte order;
    here the microseconds since 1970 *)
Definition ntp_seconds (l : list Z) : Z := join32 (nth 0 l 0) (nth 1 l 0) (nth 2 l 0) (nth 3 l 0).
Definition ntp_us (l : list Z) : Z :=
  (ntp_seconds l - NTP_EPOCH) * 1000000 + ntp_seconds (drop 4 l) * 1000000 / 4294967296.

Lemma le32_unle32 l : bytes_ok l → length l = 4%nat → le32 (unle32 l) = l.
Proof.
  intros HB Hl. destruct l as [|a [|b [|c [|d [|]]]]]; try done. unfold unle32, le32. cbn [nth].
  repeat (apply Forall_cons in HB as [? HB]). rewrite join32_eq by done. repeat (f_equal; [zlia|]). f_equal. zlia.
Qed.

Lemma le32_htonl x : le32 (htonl x) = be32 x.
Proof. apply le32_unle32; [apply bytes_ok_be32|done]. Qed.

Lemma ntp_seconds_be32 x k : ntp_seconds (be32 x ++ k) = u32 x.
Proof. unfold ntp_seconds, be32. cbn [nth app]. apply join32_be32. Qed.

(** the bytes of a stamp of the server *)
Lemma sn_stamp_bytes s us : sn_stamp (ntp_stamp s us) = be32 (s + NTP_EPOCH) ++ be32 (us * 4295).
Proof.
  unfold sn_stamp, ntp_stamp. cbn [fst snd]. rewrite !le32_htonl. unfold be32. f_equal; repeat (f_equal; [zlia|]); f_equal; zlia.
Qed.

Lemma ntp_us_stamp s us :
  0 ≤ s + NTP_EPOCH < 4294967296 →
  ntp_us (sn_stamp (ntp_stamp s us)) = s * 1000000 + u32 (us * 4295) * 1000000 / 4294967296.
Proof.
  intros Hs. rewrite sn_stamp_bytes. unfold ntp_us. rewrite ntp_seconds_be32, u32_id by done.
  change (drop 4 (be32 (s + NTP_EPOCH) ++ be32 (us * 4295))) with (be32 (us * 4295)).
  rewrite <- (app_nil_r (be32 (us * 4295))), ntp_seconds_be32. lia.
Qed.

(** the stamp is right to 8 microseconds *)
Lemma ntp_us_accurate s us :
  0 ≤ s + NTP_EPOCH < 4294967296 → 0 ≤ us < 999993 →
  s * 1000000 + us - 1 ≤ ntp_us (sn_stamp (ntp_stamp s us)) ≤ s * 1000000 + us + 8.
Proof. intros Hs Hu. rewrite ntp_us_stamp by done. rewrite u32_id by lia. Z.to_euclidean_division_equations. lia. Qed.

(** but at the end of a second the fraction wraps *)
Lemma ntp_us_second_behind s us :
  0 ≤ s + NTP_EPOCH < 4294967296 → 999993 ≤ us < 1000000 →
  ntp_us (sn_stamp (ntp_stamp s us)) ≤ s * 1000000 + 7.
Proof. intros Hs Hu. rewrite ntp_us_stamp by done. unfold u32. Z.to_euclidean_division_equations. lia. Qed.

(** ** The answer *)

Lemma sntp_bytes_split m v s p pr d1 d2 r ref o rc t :
  zlen r = 4 →
  let out := sntp_bytes (Sntp m v 0 s p pr d1 d2 r ref o rc t) in
  zlen out = 48 ∧ take 8 (drop 16 out) = sn_stamp ref ∧ take 8 (drop 24 out) = sn_stamp o ∧
  take 8 (drop 32 out) = sn_stamp rc ∧ take 8 (drop 40 out) = sn_stamp t.
Proof.
  intros Hr. destruct r as [|a [|b [|c [|e [|]]]]]; try (unfold zlen in Hr; cbn [length] in Hr; lia). done.
Qed.

Lemma unle32_range data i n l : bytes_ok data → rd_range data i n = Ok l → n = 4 → le32 (unle32 l) = l.
Proof.
  intros HB H ->. apply rd_range_inv in H as (? & ? & ? & E & L). apply le32_unle32.
  - subst l. by apply bytes_ok_take, bytes_ok_drop.
  - unfold zlen in L. lia.
Qed.

(** a time request (mode 3) of at least 48 bytes for this host is answered by one
    datagram from the address and port it was sent to, to the address and port it came
    from: 48 bytes in mode 4 with the time stamp of the client as origin, and with the
    time the request was received and the time of the answer, each right to within 8
    microseconds unless it is one of the last seven microseconds of a second. *)
Theorem ntp_time_answered {S} (idev : option (S → datagram → res (bool * S))) my_ip upstream (ip : S)
    src_ip src_port dst_ip dst_port p b0 rest rs rn ns nn :
  good my_ip → good dst_ip → key dst_ip = key my_ip → good upstream → af upstream = ipv4 →
  bytes_ok (pkt_data p) → pkt_data p = b0 :: rest → 48 ≤ pkt_size p → Z.land b0 7 = 3 →
  0 ≤ rs + NTP_EPOCH < 4294967296 → 0 ≤ ns + NTP_EPOCH < 4294967296 →
  0 ≤ rn < 999993000 → 0 ≤ nn < 999993000 →
  ∃ out,
    ntp_input idev my_ip upstream ip src_ip src_port dst_ip dst_port p (rs, rn) (ns, nn) =
      (let* '(_, ip') := udp_transmit_packet idev ip src_ip src_port dst_ip dst_port out in
       Ok ([ntp_requests; ntp_time_req; ntp_t_req_v (Z.land (Z.shiftr b0 3) 7)], ip')) ∧
    zlen out = 48 ∧ (∃ o, head out = Some o ∧ Z.land o 7 = 4) ∧
    take 8 (drop 24 out) = take 8 (drop 40 (pkt_data p)) ∧
    rs * 1000000 + rn / 1000 - 1 ≤ ntp_us (take 8 (drop 32 out)) ≤ rs * 1000000 + rn / 1000 + 8 ∧
    ns * 1000000 + nn / 1000 - 1 ≤ ntp_us (take 8 (drop 40 out)) ≤ ns * 1000000 + nn / 1000 + 8.
Proof.
  intros Gm Gd Ek Gu Af HB Ed Hs Hm Hrs Hns Hrn Hnn. unfold ntp_input. rewrite neqb_same by done. cbn [res_bind].
  rewrite (proj2 (Z.ltb_ge _ _)) by lia. assert (rd (pkt_data p) 0 = Ok b0) as -> by (by rewrite Ed).
  cbn [res_bind].
  rewrite Hm. cbn [Z.eqb Pos.eqb]. unfold ntp_answer. rewrite get_exp_good by (done || by rewrite Af). cbn [res_bind].
  pose proof (length_key upstream Gu) as Lk. rewrite Af in Lk.
  assert (rd_range (pkt_data p) 40 4 = Ok (take 4 (drop 40 (pkt_data p)))) as R1 by (apply rd_range_Ok; unfold pkt_size in Hs; lia).
  assert (rd_range (pkt_data p) 44 4 = Ok (take 4 (drop 44 (pkt_data p)))) as R2 by (apply rd_range_Ok; unfold pkt_size in Hs; lia).
  rewrite R1, R2. cbn [res_bind fst snd].
  match goal with |- context [sntp_bytes (Sntp ?m ?v 0 ?s ?q ?pr ?d1 ?d2 ?r ?ref ?o ?rc ?t)] =>
    destruct (sntp_bytes_split m v s q pr d1 d2 r ref o rc t) as (L & _ & Eo & Er & Et);
      [unfold zlen; rewrite Lk; done|]; set (out := sntp_bytes _) in * end.
  exists out. split_and!; try done.
  - by exists 28.
  - rewrite Eo. unfold sn_stamp. cbn [fst snd]. rewrite (unle32_range _ _ _ _ HB R1), (unle32_range _ _ _ _ HB R2) by done.
    change 44%nat with (40 + 4)%nat. rewrite <- drop_drop. apply (take_take_drop _ 4 4).
  - rewrite Er, Z.quot_div_nonneg by lia. apply ntp_us_accurate; [done|zlia].
  - rewrite Er, Z.quot_div_nonneg by lia. apply ntp_us_accurate; [done|zlia].
  - rewrite Et, Z.quot_div_nonneg by lia. apply ntp_us_accurate; [done|zlia].
  - rewrite Et, Z.quot_div_nonneg by lia. apply ntp_us_accurate; [done|zlia].
Qed.

(** a request with fewer bytes is read beyond its end *)
Lemma short_request_overrun {S} (idev : option (S → datagram → res (bool * S))) my_ip upstream (ip : S)
    src_ip src_port dst_ip dst_port p b0 rest recv now :
  good my_ip → good dst_ip → key dst_ip = key my_ip → good upstream → af upstream = ipv4 →
  pkt_data p = b0 :: rest → 8 ≤ pkt_size p < 48 → Z.land b0 7 = 3 →
  ntp_input idev my_ip upstream ip src_ip src_port dst_ip dst_port p recv now = Err bad_access.
Proof.
  intros Gm Gd Ek Gu Af Ed Hs Hm. unfold ntp_input. rewrite neqb_same by done. cbn [res_bind].
  rewrite (proj2 (Z.ltb_ge _ _)) by lia. assert (rd (pkt_data p) 0 = Ok b0) as -> by (by rewrite Ed).
  cbn [res_bind].
  rewrite Hm. cbn [Z.eqb Pos.eqb]. unfold ntp_answer. rewrite get_exp_good by (done || by rewrite Af). cbn [res_bind].
  unfold rd_range, pkt_size in *. destruct (Z.ltb_spec (zlen (pkt_data p)) (40 + 4)); [done|].
  rewrite (proj2 (Z.ltb_lt _ (44 + 4))) by lia. done.
Qed.

(** "192.168.3.2" asks "192.168.3.1" *)
Definition ex_request : packet :=
  Packet unset_addr (ex_v4 192 168 3 2) (ex_v4 192 168 3 1)
    (35 :: replicate 39 0 ++ [1; 2; 3; 4; 5; 6; 7; 8]) [] false.

Lemma ntp_time_answered_witness :
  ∃ out, ntp_input (S := unit) None (ex_v4 192 168 3 1) (ex_v4 10 0 0 1) tt (ex_v4 192 168 3 2) 1234
           (ex_v4 192 168 3 1) 123 ex_request (1700000000, 500000000) (1700000000, 600000000) =
         Ok ([ntp_requests; ntp_time_req; ntp_t_req_v 4], tt) ∧
    zlen out = 48 ∧ take 8 (drop 24 out) = [1; 2; 3; 4; 5; 6; 7; 8] ∧
    1700000000599999 ≤ ntp_us (take 8 (drop 40 out)) ≤ 1700000000600008.
Proof.
  assert (∀ a b c d, byte_ok a → byte_ok b → byte_ok c → byte_ok d → good (ex_v4 a b c d)) as G by apply ex_v4_good.
  destruct (ntp_time_answered (S := unit) None (ex_v4 192 168 3 1) (ex_v4 10 0 0 1) tt (ex_v4 192 168 3 2) 1234
    (ex_v4 192 168 3 1) 123 ex_request 35 (replicate 39 0 ++ [1; 2; 3; 4; 5; 6; 7; 8])
    1700000000 500000000 1700000000 600000000) as (out & E & L & _ & Eo & _ & Et);
    [apply G; unfold byte_ok; lia|apply G; unfold byte_ok; lia|done|apply G; unfold byte_ok; lia|done
    |solve_bytes|done|vm_compute; discriminate|done|by vm_compute|by vm_compute|lia|lia|].
  exists out. split_and!; [|exact L|exact Eo|apply Et|apply Et].
  vm_compute. reflexivity.
Defined.
