(* ===== verification/Lldp.v ===== *)
(** * LLDP (src/lldp.cpp)

    The packet that announces this host: its type-length-value fields, and a round of
    the thread that sends it every 15 seconds through the default interface.  What is
    received is dropped.

    Shown: the fields are read back, in the order of IEEE 802.1AB, from the frame that
    is sent, and they name the MAC address, the management address and the interface of
    the host. *)
From S2P Require Import Prelude AnyAddr Buffers Router.
Open Scope Z_scope.

(** [add_tlv]: [header] has 16 bits *)
Definition add_tlv (target : list Z) (type : Z) (payload : list Z) : list Z :=
  let header := u16 (Z.lor (Z.shiftl type 9) (zlen payload)) in
  target ++ [Z.shiftr header 8; u8 header] ++ payload.

(** [str_to_uvec] *)
Definition str_to_uvec (in_ : list Z) : list Z := u8 <$> in_.

(** "MyIP - www.vanheusden.com" *)
Definition lldp_description : list Z :=
  [77; 121; 73; 80; 32; 45; 32; 119; 119; 119; 46; 118; 97; 110; 104; 101; 117; 115; 100; 101; 110; 46; 99; 111; 109].

(** [for(int i=0; i<n; i++) v.push_back(a[i]);] *)
Definition push_addr (v : list Z) (n : Z) (a : any_addr) : res (list Z) := add_any_addr_loop (Z.to_nat n) 0 v a.

Definition generate_lldp_packet (my_mac mgmt_addr : any_addr) (interface_idx : Z) : res (list Z) :=
  let* chassis_id := push_addr [4] 6 my_mac in
  let out := add_tlv [] 1 chassis_id in
  let* port_id := push_addr [3] 6 my_mac in
  let out := add_tlv out 2 port_id in
  let out := add_tlv out 3 [0; 30] in
  let out := add_tlv out 6 (str_to_uvec lldp_description) in
  let capabilities := Z.lor (Z.lor 0x01 0x10) 0x80 in
  let out := add_tlv out 7 [Z.shiftr capabilities 8; u8 capabilities; 0; 0] in
  let mgmt := [u8 (1 + get_len mgmt_addr)] ++ [if get_len mgmt_addr =? 4 then 1 else 6] in
  let* mgmt := push_addr mgmt (get_len mgmt_addr) mgmt_addr in
  let mgmt := mgmt ++ [2] ++ [u8 (Z.shiftr interface_idx 24)] ++ [u8 (Z.shiftr interface_idx 16)] ++
    [u8 (Z.shiftr interface_idx 8)] ++ [u8 interface_idx] ++ [0] in
  let out := add_tlv out 8 mgmt in
  Ok (add_tlv out 0 []).

(** a round of [lldp::operator()]; [pdev] is [default_pdev->transmit_packet], of the
    destination, the source, the type and the payload *)
Definition lldp_round {S : Type} (pdev : option (S → any_addr → any_addr → Z → list Z → S)) (phys : S)
    (my_mac : any_addr) (payload : list Z) : res S :=
  let* dest_mac := mk_addr mac [0x01; 0x80; 0xc2; 0x00; 0x00; 0x0e] in
  Ok (match pdev with Some tx => tx phys dest_mac my_mac 0x88cc payload | None => phys end).

(** [lldp::transmit_packet] is not to be called *)
Definition lldp_transmit_packet : res bool := let* _ := assert_ false in Ok false.

(** ** Reading the fields *)

(** the fields of IEEE 802.1AB: seven bits of type and nine of length *)
Fixpoint read_tlvs (fuel : nat) (l : list Z) : option (list (Z * list Z)) :=
  match fuel, l with
  | O, _ => None
  | S _, [] => Some []
  | S fuel', a :: b :: l' =>
      let type := a / 2 in
      let len := Z.to_nat (a mod 2 * 256 + b) in
      if decide (len ≤ length l')%nat then cons (type, take len l') <$> read_tlvs fuel' (drop len l') else None
  | S _, [_] => None
  end.

Lemma add_tlv_app target type payload : add_tlv target type payload = target ++ add_tlv [] type payload.
Proof. done. Qed.

(** a field is read back, and the next ones after it *)
Lemma read_tlvs_add fuel type payload more :
  0 ≤ type < 128 → zlen payload < 512 →
  read_tlvs (S fuel) (add_tlv [] type payload ++ more) = cons (type, payload) <$> read_tlvs fuel more.
Proof.
  intros Ht Hp. unfold add_tlv. cbv zeta. pose proof (zlen_nonneg payload).
  rewrite lor_shiftl_add by (change (2 ^ 9) with 512; lia). change (2 ^ 9) with 512.
  rewrite u16_id by lia. set (h := type * 512 + zlen payload). cbn [app read_tlvs].
  replace (Z.shiftr h 8 mod 2 * 256 + u8 h) with (zlen payload) by (unfold h; zlia).
  replace (Z.to_nat (zlen payload)) with (length payload) by (unfold zlen; lia). rewrite decide_True by (rewrite length_app; lia).
  rewrite take_app_length, drop_app_length. replace (Z.shiftr h 8 / 2) with type by (unfold h; zlia). done.
Qed.

Lemma add_tlv_bytes type payload : bytes_ok payload → bytes_ok (add_tlv [] type payload).
Proof.
  intros HB. unfold add_tlv. cbn [app]. set (h := Z.lor _ _). pose proof (u16_range h).
  do 2 (apply Forall_cons_2; [zlia|]). done.
Qed.

Lemma zlen_add_tlv type payload : zlen (add_tlv [] type payload) = zlen payload + 2.
Proof. unfold add_tlv. cbn [app]. rewrite !zlen_cons. lia. Qed.

(** The LLDP frame of a host names, in this order and as IEEE 802.1AB writes them,
    its MAC address as chassis and as port, a lifetime of 30 seconds, the description,
    its capabilities and its management address with the interface, and ends with the
    end marker; it fits in a frame. *)
Theorem lldp_packet_read my_mac mgmt_addr idx :
  good my_mac → af my_mac = mac → good mgmt_addr →
  ∃ out, generate_lldp_packet my_mac mgmt_addr idx = Ok out ∧ bytes_ok out ∧ zlen out ≤ 96 ∧
    read_tlvs 8 out = Some
      [(1, 4 :: (key my_mac).2); (2, 3 :: (key my_mac).2); (3, be16 30); (6, lldp_description);
       (7, be16 0x91 ++ be16 0);
       (8, [1 + family_size (af mgmt_addr); if family_size (af mgmt_addr) =? 4 then 1 else 6] ++
           (key mgmt_addr).2 ++ [2] ++ be32 idx ++ [0]);
       (0, [])].
Proof.
  intros Gm Am Gg. destruct (good_size mgmt_addr Gg) as [Sg _]. pose proof (family_size_bound (af mgmt_addr)) as Fb.
  destruct (good_size my_mac Gm) as [Sm _]. rewrite Am in Sm. cbn [family_size] in Sm.
  assert (∀ v, push_addr v 6 my_mac = Ok (v ++ (key my_mac).2)) as P1.
  { intros v. pose proof (add_any_addr_good my_mac v Gm) as A. unfold add_any_addr, get_len in A. by rewrite Sm in A. }
  assert (∀ v, push_addr v (get_len mgmt_addr) mgmt_addr = Ok (v ++ (key mgmt_addr).2)) as P2.
  { intros v. apply (add_any_addr_good mgmt_addr v Gg). }
  unfold generate_lldp_packet. rewrite !P1. cbn [res_bind]. rewrite P2. cbn [res_bind]. unfold get_len. rewrite Sg.
  assert (zlen (key my_mac).2 = 6) as L1.
  { unfold zlen. rewrite length_key by done. by rewrite Am. }
  assert (zlen (key mgmt_addr).2 = family_size (af mgmt_addr)) as L2 by (unfold zlen; rewrite length_key by done; lia).
  assert (str_to_uvec lldp_description = lldp_description) as -> by done.
  rewrite (u8_id (1 + family_size _)) by (unfold byte_ok; lia).
  eexists. split; [reflexivity|]. rewrite !(add_tlv_app (add_tlv _ _ _)).
  set (m8 := ([1 + family_size (af mgmt_addr); if family_size (af mgmt_addr) =? 4 then 1 else 6] ++
    (key mgmt_addr).2 ++ [2] ++ be32 idx ++ [0])).
  change ([1 + family_size (af mgmt_addr)] ++ [if family_size (af mgmt_addr) =? 4 then 1 else 6])
    with [1 + family_size (af mgmt_addr); if family_size (af mgmt_addr) =? 4 then 1 else 6].
  rewrite <- (app_assoc [_; _] (key mgmt_addr).2). change (_ ++ (key mgmt_addr).2 ++ _) with m8.
  assert (zlen m8 ≤ 24) as L8 by (unfold m8; rewrite !zlen_app, L2; unfold zlen; cbn [length be32]; lia).
  rewrite <- !app_assoc. split_and!.
  - bytes_fields; apply add_tlv_bytes; try solve_bytes; [..|unfold m8]; bytes_fields; try solve_bytes;
      try (by apply key_bytes_ok).
    + repeat constructor; done.
    + apply Forall_cons_2; [unfold byte_ok; lia|]. apply Forall_singleton. by case_match.
  - rewrite !zlen_app, !zlen_add_tlv, !zlen_app, L1. change (zlen lldp_description) with 25. unfold zlen in *; cbn [length]; lia.
  - rewrite <- (app_nil_r (add_tlv [] 0 [])).
    rewrite !read_tlvs_add by (rewrite ?zlen_app, ?L1; done || lia). done.
Qed.

Definition ex_mac : any_addr := ok_or unset_addr (mk_addr mac [0; 26; 17; 1; 2; 3]).

Lemma lldp_packet_read_witness :
  ∃ out, generate_lldp_packet ex_mac (ex_v4 192 168 3 1) 2 = Ok out ∧
    option_map (map fst) (read_tlvs 8 out) = Some [1; 2; 3; 6; 7; 8; 0].
Proof.
  destruct (lldp_packet_read ex_mac (ex_v4 192 168 3 1) 2) as (out & E & _ & _ & R);
    [split; [split_and!; [done|solve_bytes|done]|done]|done|apply ex_v4_good; unfold byte_ok; lia|].
  exists out. split; [exact E|]. rewrite R. reflexivity.
Defined.
