(* ===== verification/Vnc.v ===== *)
(** * The VNC server (src/vnc.cpp, [get_from_buffer] of src/utils.cpp, the session of src/types.h)

    The frame buffer, its drawing and its encodings, the messages of the RFB protocol and
    the thread of a session.  A part of the thread is one round of its loop: it takes one
    entry from the work queue and goes through the tests of the state from top to bottom.
    Memory that is written one byte after the other is a list with a capacity.  zlib and
    JPEG are functions the model is given; the table of glyphs is an argument of
    [draw_text].

    Shown: the handshake, in whatever pieces its bytes arrive; a request for the screen is
    answered, and a client that decodes the hextile or the raw encoding as RFC 6143 says, in
    a pixel format with the lowest byte first, has the contents of the frame buffer (and
    other, stated colours in the format that ServerInit announces); what is drawn stays inside of it; the frame
    buffer only calls sessions that exist.  Lemmas state where the code leaves its arrays
    or fails an assertion. *)
From S2P Require Import Prelude.
Open Scope Z_scope.

(** ** [get_from_buffer] (src/utils.cpp): [None] when there are too few bytes; the size is
    unsigned *)
Definition get_from_buffer (p : list Z) (get_len : Z) : option (list Z * list Z) :=
  if (get_len <? 0) || (zlen p <? get_len) then None
  else Some (take (Z.to_nat get_len) p, drop (Z.to_nat get_len) p).

(** ** The frame buffer *)

Record frame_buffer_t := FrameBuffer {
  fb_w : Z;
  fb_h : Z;
  fb_buffer : option (list Z);
  callbacks : gset Z;
}.

Definition no_frame_buffer : frame_buffer_t := FrameBuffer 0 0 None ∅.

(** [vnc_init], [vnc_deinit] *)
Definition vnc_init (fb : frame_buffer_t) : frame_buffer_t :=
  match fb_buffer fb with
  | None => FrameBuffer 640 480 (Some (replicate (Z.to_nat (640 * 480 * 3)) 0)) (callbacks fb)
  | Some _ => fb
  end.
Definition vnc_deinit (fb : frame_buffer_t) : frame_buffer_t := FrameBuffer (fb_w fb) (fb_h fb) None (callbacks fb).

Definition has_listeners (fb : frame_buffer_t) : bool := negb (bool_decide (callbacks fb = ∅)).
Definition register_callback (fb : frame_buffer_t) (p : Z) : res frame_buffer_t :=
  let* _ := assert_ (bool_decide (p ∉ callbacks fb)) in
  Ok (FrameBuffer (fb_w fb) (fb_h fb) (fb_buffer fb) ({[ p ]} ∪ callbacks fb)).
Definition unregister_callback (fb : frame_buffer_t) (p : Z) : frame_buffer_t :=
  FrameBuffer (fb_w fb) (fb_h fb) (fb_buffer fb) (callbacks fb ∖ {[ p ]}).

(** *** Drawing *)

(** one pixel of a glyph *)
Definition draw_pixel (on : bool) (o r g b : Z) (buf : list Z) : res (list Z) :=
  let* buf := wr buf (o + 0) (if on then r else 0) in
  let* buf := wr buf (o + 1) (if on then g else 0) in
  wr buf (o + 2) (if on then b else 0).

(** a row of a glyph; [break] leaves the rest of the row *)
Fixpoint draw_row (font : Z → Z → Z → Z) (w maxo x y i c cy r g b : Z) (buf : list Z) (cxs : list Z) : res (list Z) :=
  match cxs with
  | [] => Ok buf
  | cx :: cxs' =>
      let o := (cy + y) * w * 3 + (x + i * 8 + cx) * 3 in
      if maxo <=? o then Ok buf
      else
        let* buf := draw_pixel (negb (font c cy cx =? 0)) o r g b buf in
        draw_row font w maxo x y i c cy r g b buf cxs'
  end.

(** [text[i] & 127] *)
Definition draw_char (font : Z → Z → Z → Z) (w maxo x y r g b : Z) (text : list Z) (buf : list Z) (i : Z) : res (list Z) :=
  let* ch := rd text i in
  res_fold (λ buf cy, draw_row font w maxo x y i (Z.land ch 127) cy r g b buf (zrange 8)) buf (zrange 8).

(** [text] is what is before the first NUL *)
Definition draw_text (font : Z → Z → Z → Z) (w h : Z) (buf : list Z) (x y : Z) (text : list Z) (r g b : Z) : res (list Z) :=
  res_fold (draw_char font w (w * h * 3) x y r g b text) buf (zrange (zlen text)).

(** where the clock is: [rx], [ry] are the random numbers *)
Record bouncing := Bouncing { bo_x : Z; bo_y : Z; bo_dx : Z; bo_dy : Z }.

Definition bounce_one (size p d rnd1 rnd2 : Z) : Z * Z :=
  let p := p + d in
  let '(p, d) := if size <=? p then (size - 1, - (Z.rem rnd1 3 + 1)) else (p, d) in
  if p <? 0 then (0, Z.rem rnd2 3 + 1) else (p, d).

Definition bounce (w h : Z) (s : bouncing) (r1 r2 r3 r4 : Z) : bouncing :=
  let '(x, dx) := bounce_one w (bo_x s) (bo_dx s) r1 r3 in
  let '(y, dy) := bounce_one h (bo_y s) (bo_dy s) r2 r4 in
  Bouncing x y dx dy.

(** red fades *)
Definition fade_pixel (w subn : Z) (buf : list Z) (yx : Z * Z) : res (list Z) :=
  let ox := yx.1 * w * 3 + yx.2 * 3 in
  let* v := rd buf ox in
  if subn <=? v then wr buf ox (v - subn) else Ok buf.

(** all pairs, the first changing slowest *)
Definition pairs (rows cols : list Z) : list (Z * Z) := rows ≫= λ y, (λ x, (y, x)) <$> cols.

(** the update of the picture in [frame_buffer_thread]: [clock] and [btc] are the texts *)
Definition redraw (font : Z → Z → Z → Z) (w h : Z) (buf : list Z) (rnd x y : Z) (clock btc : list Z) : res (list Z) :=
  let subn := Z.rem rnd 5 + 1 in
  let* buf := res_fold (fade_pixel w subn) buf (pairs (zrange h) (zrange w)) in
  let* buf := draw_text font w h buf x y clock 255 255 255 in
  draw_text font w h buf 0 8 btc 0 255 0.

(** the local variables of [frame_buffer_thread] *)
Record fb_thread := FbThread { ft_pos : bouncing; latest_update : Z; latest_btc : list Z }.

Definition fb_thread_start (fb : frame_buffer_t) : fb_thread := FbThread (Bouncing (fb_w fb / 2) (fb_h fb / 2) 1 1) 0 [].

(** ["BTC price: "] *)
Definition btc_price : list Z := [66; 84; 67; 32; 112; 114; 105; 99; 101; 58; 32].

(** one round of [frame_buffer_thread]: what the MQTT client received, the time in
    microseconds, the text of the clock and the random numbers are arguments; the flag says
    that the sessions are told *)
Definition frame_buffer_round (font : Z → Z → Z → Z) (t : fb_thread) (fb : frame_buffer_t) (mqtt : option (list Z))
    (now : Z) (clock : list Z) (r1 r2 r3 r4 rnd : Z) : res (fb_thread * frame_buffer_t * bool) :=
  let btc := match mqtt with Some v => btc_price ++ v | None => latest_btc t end in
  let pos := bounce (fb_w fb) (fb_h fb) (ft_pos t) r1 r2 r3 r4 in
  if has_listeners fb && (999999 <=? u64 (now - latest_update t)) then
    match fb_buffer fb with
    | None => Err bad_access
    | Some buf =>
        let* buf := redraw font (fb_w fb) (fb_h fb) buf rnd (bo_x pos) (bo_y pos) clock btc in
        Ok (FbThread pos now btc, FrameBuffer (fb_w fb) (fb_h fb) (Some buf) (callbacks fb), true)
    end
  else Ok (FbThread pos (latest_update t) btc, fb, false).

(** ** Encodings *)

(** [out[o++] = v] *)
Definition put_byte (cap : Z) (out : list Z) (v : Z) : res (list Z) :=
  if zlen out <? cap then Ok (out ++ [u8 v]) else Err bad_access.

(** [memcpy] to the end *)
Definition put_block (cap : Z) (out l : list Z) : res (list Z) :=
  if zlen out + zlen l <=? cap then Ok (out ++ l) else Err bad_access.

Definition pixel8 (r g b : Z) : Z := Z.lor (Z.lor (Z.land r 0xe0) (Z.land (Z.shiftr g 3) 0x1c)) (Z.shiftr b 6).

Definition encode_pixel (cap depth : Z) (out : list Z) (rgb : Z * Z * Z) : res (list Z) :=
  let '(r, g, b) := rgb in
  if (depth =? 32) || (depth =? 24) then
    let* out := put_byte cap out b in
    let* out := put_byte cap out g in
    let* out := put_byte cap out r in
    put_byte cap out 255
  else if depth =? 8 then put_byte cap out (pixel8 r g b)
  else Ok out.

(** the three bytes at an offset *)
Definition rd_rgb (p : list Z) (o : Z) : res (Z * Z * Z) :=
  let* r := rd p (o + 0) in
  let* g := rd p (o + 1) in
  let* b := rd p (o + 2) in
  Ok (r, g, b).

#[global] Instance rgb_eq_dec : EqDecision (Z * Z * Z) := _.

(** a pixel of the tile at [x], [y] *)
Definition tile_pixel (in_ : list Z) (w x y : Z) (t : Z * Z) : res (Z * Z * Z) :=
  rd_rgb in_ ((y + t.1) * w * 3 + (x + t.2) * 3).

(** the positions in a tile, row by row *)
Definition tile_positions : list (Z * Z) := pairs (zrange 16) (zrange 16).

(** is there a pixel of another colour?  The scan stops at the first *)
Fixpoint tile_scan (in_ : list Z) (w x y : Z) (solid : Z * Z * Z) (l : list (Z * Z)) : res bool :=
  match l with
  | [] => Ok false
  | t :: l' =>
      let* c := tile_pixel in_ w x y t in
      if decide (c = solid) then tile_scan in_ w x y solid l' else Ok true
  end.

Definition hextile_tile (cap : Z) (in_ : list Z) (w depth : Z) (out : list Z) (yx : Z * Z) : res (list Z) :=
  let '(y, x) := yx in
  let* solid := rd_rgb in_ (y * w * 3 + x * 3) in
  let* different := tile_scan in_ w x y solid tile_positions in
  if different then
    let* out := put_byte cap out 1 in
    res_fold (λ out t, let* c := tile_pixel in_ w x y t in encode_pixel cap depth out c) out tile_positions
  else
    let* out := put_byte cap out 2 in
    encode_pixel cap depth out solid.

(** [for(int i=0; i<n; i += 16)] *)
Definition steps16 (n : Z) : list Z := (λ i, 16 * i) <$> zrange ((n + 15) / 16).

Definition hextile (cap : Z) (out in_ : list Z) (w h depth : Z) : res (list Z) :=
  res_fold (hextile_tile cap in_ w depth) out (pairs (steps16 h) (steps16 w)).

(** the first encoding of the client that is known; 0 is raw *)
Fixpoint choose_encoding (encodings : list Z) : Z :=
  match encodings with
  | [] => 0
  | e :: l => if (e =? 5) || (e =? 6) || (e =? 21) then e else choose_encoding l
  end.

(** [temp], the pixels of the rectangle; the row has the width of the rectangle *)
Definition raw_pixel (cap depth : Z) (buffer : list Z) (w : Z) (temp : list Z) (yx : Z * Z) : res (list Z) :=
  let* c := rd_rgb buffer (yx.1 * w * 3 + yx.2 * 3) in
  encode_pixel cap depth temp c.

(** one bit per pixel: [temp], [b_out], [b_n] *)
Definition mono_pixel (cap : Z) (buffer : list Z) (w : Z) (s : list Z * Z * Z) (yx : Z * Z) : res (list Z * Z * Z) :=
  let '(temp, b_out, b_n) := s in
  let* '(r, g, b) := rd_rgb buffer (yx.1 * w * 3 + yx.2 * 3) in
  let bit := if 128 <=? (r + g + b) / 3 then 1 else 0 in
  let b_out := Z.lor (u8 (Z.shiftl b_out 1)) bit in
  let b_n := b_n + 1 in
  if b_n =? 8 then (let* temp := put_byte cap temp b_out in Ok (temp, b_out, 0)) else Ok (temp, b_out, b_n).

(** [for(int yo=y; yo<y + h; yo++) for(int xo=x; xo<x + w; xo++)] *)
Definition rectangle (x y w h : Z) : list (Z * Z) := pairs ((λ i, y + i) <$> zrange h) ((λ i, x + i) <$> zrange w).

(** the pixels, and how often [vnc_err] is counted *)
Definition raw_pixels (buffer : list Z) (x y w h depth : Z) : res (list Z * Z) :=
  let cap := w * h * 3 * 2 in
  if (depth =? 32) || (depth =? 24) || (depth =? 8) then
    let* temp := res_fold (raw_pixel cap depth buffer w) [] (rectangle x y w h) in
    Ok (temp, 0)
  else if depth =? 1 then
    let* '(temp, _, b_n) := res_fold (mono_pixel cap buffer w) ([], 0, 0) (rectangle x y w h) in
    Ok (temp, if b_n =? 0 then 0 else 1)
  else Ok ([], 1).

Definition update_header (x y w h ce : Z) : list Z :=
  [0; 0; 0; 1] ++ [u8 (Z.shiftr x 8); Z.land x 255; u8 (Z.shiftr y 8); Z.land y 255;
                   u8 (Z.shiftr w 8); Z.land w 255; u8 (Z.shiftr h 8); Z.land h 255] ++ be32 ce.

Section Update.
(** the state of a zlib stream; [deflate] gives what it writes to an array of the given
    size, [jpeg] the compressed picture of so many columns and rows *)
Context {Zs : Type} (deflate : Zs → list Z → Z → Zs * list Z) (jpeg : list Z → Z → Z → list Z).

(** [None]: nothing is written to [message] *)
Definition calculate_fb_update (fb : frame_buffer_t) (encodings : list Z) (x y w h depth : Z) (strm : Zs)
  : res (option (list Z) * Zs * Z) :=
  if (fb_w fb <? x + w) || (fb_h fb <? y + h) then Ok (None, strm, 0)
  else
    let ce := choose_encoding encodings in
    match fb_buffer fb with
    | None => Ok (None, strm, 0)
    | Some buffer =>
        let cap := 16 + w * h * 4 in
        let out := update_header x y w h ce in
        let* '(temp, errs) := if negb (ce =? 5) && negb (ce =? 21) then raw_pixels buffer x y w h depth else Ok ([], 0) in
        if ce =? 0 then (let* out := put_block cap out temp in Ok (Some out, strm, errs))
        else if ce =? 5 then (let* out := hextile cap out buffer w h depth in Ok (Some out, strm, errs))
        else if ce =? 6 then
          let '(strm, z) := deflate strm temp (w * h * 3 * 2) in
          let* out := put_block cap out (be32 (zlen z) ++ z) in
          Ok (Some out, strm, errs)
        else
          let* out := put_block cap out (jpeg buffer w h) in
          Ok (Some out, strm, errs)
    end.

(** ** The session *)

Inductive vnc_state_t :=
  | vs_initial_handshake_server_send
  | vs_initial_handshake_client_resp
  | vs_security_handshake_server
  | vs_security_handshake_client_resp
  | vs_client_init
  | vs_server_init
  | vs_running_waiting_cmd
  | vs_running_waiting_data
  | vs_running_waiting_data_extra
  | vs_running_waiting_data_ignore
  | vs_terminate.

#[global] Instance vnc_state_eq_dec : EqDecision vnc_state_t.
Proof. solve_decision. Defined.

(** an entry of the work queue: [None] is a null pointer, no data asks for an update *)
Definition vnc_thread_work_t : Type := option (list Z).

(** the session and the local variables of its thread; [ended]: the thread returned *)
Record vnc_session_data := VncSession {
  vs_buffer : list Z;
  vs_state : vnc_state_t;
  vs_depth : Z;
  wq : list vnc_thread_work_t;
  vs_strm : Zs;
  first : bool;
  vs_rc : bool;
  vs_encodings : list Z;
  n_encodings : Z;
  continuous_updates : bool;
  running_cmd : Z;
  ignore_data_n : Z;
  ended : bool;
}.

Definition vnc_new_session (strm : Zs) : vnc_session_data :=
  VncSession [] vs_initial_handshake_server_send 32 [] strm true true [0] (-1) false (-1) (-1) false.

Definition with_buffer (b : list Z) (v : vnc_session_data) : vnc_session_data :=
  VncSession b (vs_state v) (vs_depth v) (wq v) (vs_strm v) (first v) (vs_rc v) (vs_encodings v) (n_encodings v)
    (continuous_updates v) (running_cmd v) (ignore_data_n v) (ended v).
Definition with_state (s : vnc_state_t) (v : vnc_session_data) : vnc_session_data :=
  VncSession (vs_buffer v) s (vs_depth v) (wq v) (vs_strm v) (first v) (vs_rc v) (vs_encodings v) (n_encodings v)
    (continuous_updates v) (running_cmd v) (ignore_data_n v) (ended v).
Definition with_depth (d : Z) (v : vnc_session_data) : vnc_session_data :=
  VncSession (vs_buffer v) (vs_state v) d (wq v) (vs_strm v) (first v) (vs_rc v) (vs_encodings v) (n_encodings v)
    (continuous_updates v) (running_cmd v) (ignore_data_n v) (ended v).
Definition with_wq (q : list vnc_thread_work_t) (v : vnc_session_data) : vnc_session_data :=
  VncSession (vs_buffer v) (vs_state v) (vs_depth v) q (vs_strm v) (first v) (vs_rc v) (vs_encodings v) (n_encodings v)
    (continuous_updates v) (running_cmd v) (ignore_data_n v) (ended v).
Definition with_strm (z : Zs) (v : vnc_session_data) : vnc_session_data :=
  VncSession (vs_buffer v) (vs_state v) (vs_depth v) (wq v) z (first v) (vs_rc v) (vs_encodings v) (n_encodings v)
    (continuous_updates v) (running_cmd v) (ignore_data_n v) (ended v).
Definition not_first (v : vnc_session_data) : vnc_session_data :=
  VncSession (vs_buffer v) (vs_state v) (vs_depth v) (wq v) (vs_strm v) false (vs_rc v) (vs_encodings v) (n_encodings v)
    (continuous_updates v) (running_cmd v) (ignore_data_n v) (ended v).
Definition rc_false (v : vnc_session_data) : vnc_session_data :=
  VncSession (vs_buffer v) (vs_state v) (vs_depth v) (wq v) (vs_strm v) (first v) false (vs_encodings v) (n_encodings v)
    (continuous_updates v) (running_cmd v) (ignore_data_n v) (ended v).
Definition with_encodings (e : list Z) (n : Z) (cont : bool) (v : vnc_session_data) : vnc_session_data :=
  VncSession (vs_buffer v) (vs_state v) (vs_depth v) (wq v) (vs_strm v) (first v) (vs_rc v) e n
    cont (running_cmd v) (ignore_data_n v) (ended v).
Definition with_cmd (c : Z) (v : vnc_session_data) : vnc_session_data :=
  VncSession (vs_buffer v) (vs_state v) (vs_depth v) (wq v) (vs_strm v) (first v) (vs_rc v) (vs_encodings v) (n_encodings v)
    (continuous_updates v) c (ignore_data_n v) (ended v).
Definition with_ignore (n : Z) (v : vnc_session_data) : vnc_session_data :=
  VncSession (vs_buffer v) (vs_state v) (vs_depth v) (wq v) (vs_strm v) (first v) (vs_rc v) (vs_encodings v) (n_encodings v)
    (continuous_updates v) (running_cmd v) n (ended v).
Definition with_ended (v : vnc_session_data) : vnc_session_data :=
  VncSession (vs_buffer v) (vs_state v) (vs_depth v) (wq v) (vs_strm v) (first v) (vs_rc v) (vs_encodings v) (n_encodings v)
    (continuous_updates v) (running_cmd v) (ignore_data_n v) true.

(** [vnc_new_data]; the first half of [vnc_close_session_2], until it waits for the thread *)
Definition vnc_new_data (v : vnc_session_data) (data : list Z) : vnc_session_data :=
  match data with [] => v | _ => with_wq (wq v ++ [Some data]) v end.
Definition vnc_close_begin (v : vnc_session_data) : vnc_session_data :=
  with_wq (wq v ++ [None]) (with_state vs_terminate v).
Definition vnc_ask_update (v : vnc_session_data) : vnc_session_data := with_wq (wq v ++ [Some []]) v.

(** *** The thread *)

(** a round: the session, the frame buffer, what was sent and the counted errors *)
Record pass := Pass { p_vs : vnc_session_data; p_fb : frame_buffer_t; p_sent : list (list Z); p_err : Z }.

Definition upd (f : vnc_session_data → vnc_session_data) (p : pass) : pass := Pass (f (p_vs p)) (p_fb p) (p_sent p) (p_err p).
Definition send_msg (m : list Z) (p : pass) : pass := Pass (p_vs p) (p_fb p) (p_sent p ++ [m]) (p_err p).
Definition count_err (n : Z) (p : pass) : pass := Pass (p_vs p) (p_fb p) (p_sent p) (p_err p + n).

(** [if (vs->state == s)] *)
Definition when_state (s : vnc_state_t) (k : pass → res pass) (p : pass) : res pass :=
  if decide (vs_state (p_vs p) = s) then k p else Ok p.
(** [data = get_from_buffer(n); if (data)] *)
Definition with_data (n : Z) (k : list Z → pass → res pass) (p : pass) : res pass :=
  match get_from_buffer (vs_buffer (p_vs p)) n with
  | None => Ok p
  | Some (d, rest) => k d (upd (with_buffer rest) p)
  end.

Definition initial_message : list Z := [82; 70; 66; 32; 48; 48; 51; 46; 48; 48; 56; 10].

Definition stage_server_send : pass → res pass :=
  when_state vs_initial_handshake_server_send (λ p,
    Ok (upd (with_state vs_initial_handshake_client_resp) (send_msg initial_message p))).

Definition stage_client_resp : pass → res pass :=
  when_state vs_initial_handshake_client_resp (with_data 12 (λ handshake p,
    if bool_decide (take 3 handshake = [82; 70; 66]) then Ok (upd (with_state vs_security_handshake_server) p)
    else Ok (count_err 1 (upd rc_false p)))).

Definition stage_security_server : pass → res pass :=
  when_state vs_security_handshake_server (λ p,
    Ok (upd (with_state vs_security_handshake_client_resp) (send_msg [1; 1] p))).

Definition stage_security_resp : pass → res pass :=
  when_state vs_security_handshake_client_resp (with_data 1 (λ sec p,
    let* c := rd sec 0 in
    if c =? 1 then Ok (upd (with_state vs_client_init) (send_msg [0; 0; 0; 0] p))
    else Ok (count_err 1 (send_msg [0; 0; 0; 1] (upd rc_false p))))).

Definition stage_client_init : pass → res pass :=
  when_state vs_client_init (with_data 1 (λ _ p, Ok (upd (with_state vs_server_init) p))).

Definition server_init (w h : Z) : list Z :=
  [u8 (Z.shiftr w 8); Z.land w 255; u8 (Z.shiftr h 8); Z.land h 255] ++
  [32; 24; 1; 1; 0; 255; 0; 255; 0; 255; 16; 8; 0; 0; 0; 0] ++ [0; 0; 0; 4; 77; 121; 73; 80].

Definition stage_server_init (id : Z) : pass → res pass :=
  when_state vs_server_init (λ p,
    let p := send_msg (server_init (fb_w (p_fb p)) (fb_h (p_fb p))) p in
    let* fb := register_callback (p_fb p) id in
    Ok (upd (with_state vs_running_waiting_cmd) (Pass (p_vs p) fb (p_sent p) (p_err p)))).

(** [calculate_fb_update] and sending the result; without one it sends no bytes *)
Definition send_update (x y w h depth : Z) (p : pass) : res pass :=
  let* '(m, strm, errs) := calculate_fb_update (p_fb p) (vs_encodings (p_vs p)) x y w h depth (vs_strm (p_vs p)) in
  Ok (count_err errs (send_msg (default [] m) (upd (with_strm strm) p))).

Definition stage_continuous (cont : bool) (p : pass) : res pass :=
  if cont then send_update 0 0 (fb_w (p_fb p)) (fb_h (p_fb p)) 24 p else Ok p.

Definition stage_waiting_cmd : pass → res pass :=
  when_state vs_running_waiting_cmd (with_data 1 (λ cmd p,
    let* c := rd cmd 0 in
    Ok (upd (with_state vs_running_waiting_data) (upd (with_cmd c) p)))).

(** the commands: [SetPixelFormat], [SetEncodings], [FramebufferUpdateRequest],
    [KeyEvent], [PointerEvent] and [ClientCutText] *)
Definition proceed (p : pass) : pass := upd (with_cmd (-1)) (upd (with_state vs_running_waiting_cmd) p).

Definition stage_waiting_data : pass → res pass :=
  when_state vs_running_waiting_data (λ p,
    let cmd := running_cmd (p_vs p) in
    if cmd =? 0 then
      with_data 19 (λ pf p,
        let* d := rd (drop 3 pf) 1 in
        Ok (upd (with_state vs_running_waiting_cmd) (upd (with_depth d) p))) p
    else if cmd =? 2 then
      with_data 3 (λ par p,
        let* a := rd par 1 in
        let* b := rd par 2 in
        Ok (upd (with_state vs_running_waiting_data_extra)
              (upd (λ v, with_encodings (vs_encodings v) (join16 a b) (continuous_updates v) v) p))) p
    else if cmd =? 3 then
      with_data 9 (λ par p,
        let* x1 := rd par 1 in let* x2 := rd par 2 in
        let* y1 := rd par 3 in let* y2 := rd par 4 in
        let* w1 := rd par 5 in let* w2 := rd par 6 in
        let* h1 := rd par 7 in let* h2 := rd par 8 in
        let* p := send_update (join16 x1 x2) (join16 y1 y2) (join16 w1 w2) (join16 h1 h2) (vs_depth (p_vs p)) p in
        Ok (proceed p)) p
    else if cmd =? 4 then with_data 7 (λ _ p, Ok (proceed p)) p
    else if cmd =? 5 then with_data 5 (λ _ p, Ok (proceed p)) p
    else if cmd =? 6 then
      with_data 7 (λ par p,
        let* a := rd par 3 in let* b := rd par 4 in let* c := rd par 5 in let* d := rd par 6 in
        Ok (upd (with_state vs_running_waiting_data_ignore) (upd (with_ignore (s32 (join32 a b c d))) p))) p
    else Ok (count_err 1 (upd rc_false p))).

Definition stage_ignore : pass → res pass :=
  when_state vs_running_waiting_data_ignore (λ p,
    let* _ := assert_ (0 <? ignore_data_n (p_vs p)) in
    with_data (ignore_data_n (p_vs p)) (λ _ p,
      Ok (upd (with_ignore (-1)) (upd (with_state vs_running_waiting_cmd) p))) p).

(** an [int32_t] for every four bytes *)
Fixpoint read_encodings (l : list Z) : list Z :=
  match l with
  | a :: b :: c :: d :: l' => s32 (join32 a b c d) :: read_encodings l'
  | _ => []
  end.

Definition stage_data_extra : pass → res pass :=
  when_state vs_running_waiting_data_extra (λ p,
    if running_cmd (p_vs p) =? 2 then
      with_data (n_encodings (p_vs p) * 4) (λ bin p,
        let es := read_encodings bin in
        Ok (upd (with_state vs_running_waiting_cmd) (upd (with_encodings es (-1) (bool_decide (-313 ∈ es))) p))) p
    else Ok (count_err 1 (upd rc_false p))).

Definition stage_rc (p : pass) : pass := if vs_rc (p_vs p) then p else upd (with_state vs_terminate) p.

(** the body of the loop after the work was taken *)
Definition vnc_pass (id : Z) (cont : bool) (p : pass) : res pass :=
  let* p := stage_server_send p in
  let* p := stage_client_resp p in
  let* p := stage_security_server p in
  let* p := stage_security_resp p in
  let* p := stage_client_init p in
  let* p := stage_server_init id p in
  let* p := stage_continuous cont p in
  let* p := stage_waiting_cmd p in
  let* p := stage_waiting_data p in
  let* p := stage_ignore p in
  let* p := stage_data_extra p in
  Ok (stage_rc p).

(** after the loop *)
Definition vnc_finish (id : Z) (v : vnc_session_data) (fb : frame_buffer_t) : pass :=
  Pass (with_ended v) (unregister_callback fb id) [] 0.

(** one round of the loop; without work the thread waits *)
Definition vnc_thread (stop : bool) (id : Z) (v : vnc_session_data) (fb : frame_buffer_t) : res pass :=
  if ended v then Ok (Pass v fb [] 0)
  else if bool_decide (vs_state v = vs_terminate) || stop then Ok (vnc_finish id v fb)
  else if first v then vnc_pass id false (Pass (not_first v) fb [] 0)
  else
    match wq v with
    | [] => Ok (Pass v fb [] 0)
    | None :: q => Ok (vnc_finish id (with_wq q v) fb)
    | Some data :: q =>
        let v := with_wq q v in
        let cont := bool_decide (data = []) && continuous_updates v in
        vnc_pass id cont (Pass (with_buffer (vs_buffer v ++ data) v) fb [] 0)
    end.

(** rounds one after the other *)
Fixpoint vnc_rounds (n : nat) (id : Z) (p : pass) : res pass :=
  match n with
  | O => Ok p
  | S n' =>
      let* q := vnc_thread false id (p_vs p) (p_fb p) in
      vnc_rounds n' id (Pass (p_vs q) (p_fb q) (p_sent p ++ p_sent q) (p_err p + p_err q))
  end.
End Update.

Arguments vnc_session_data : clear implicits.
Arguments pass : clear implicits.

(** ** Loops *)

Lemma res_fold_inv {A S} (P : S → Prop) (f : S → A → res S) s l :
  P s → (∀ s x, P s → x ∈ l → ∃ s', f s x = Ok s' ∧ P s') → ∃ s', res_fold f s l = Ok s' ∧ P s'.
Proof.
  revert s. induction l as [|x l IH]; intros s Hs H; [by exists s|].
  destruct (H s x Hs) as (s' & E & Hs'); [set_solver|]. cbn. rewrite E. cbn.
  apply IH; [done|]. intros. apply H; [done|set_solver].
Qed.

Lemma elem_of_pairs rows cols y x : (y, x) ∈ pairs rows cols ↔ y ∈ rows ∧ x ∈ cols.
Proof.
  unfold pairs. rewrite list_elem_of_bind. split.
  - intros (y' & (x' & [= -> ->] & Hx)%list_elem_of_fmap & Hy). done.
  - intros [Hy Hx]. exists y. split; [|done]. apply list_elem_of_fmap. by exists x.
Qed.

(** ** Drawing stays in the frame buffer *)

(** an array of [n] bytes *)
Definition is_array (n : Z) (buf : list Z) : Prop := zlen buf = n ∧ bytes_ok buf.

Lemma wr_array n buf i v : is_array n buf → 0 ≤ i < n → ∃ buf', wr buf i v = Ok buf' ∧ is_array n buf'.
Proof.
  intros [Hl Hb] Hi. rewrite wr_Ok by lia. eexists. split; [done|]. split.
  - unfold zlen in *. by rewrite length_insert.
  - apply Forall_insert; [done|apply u8_ok].
Qed.

Lemma draw_pixel_array n on o r g b buf :
  is_array n buf → 0 ≤ o → o + 2 < n → ∃ buf', draw_pixel on o r g b buf = Ok buf' ∧ is_array n buf'.
Proof.
  intros Ha H1 H2. unfold draw_pixel.
  destruct (wr_array n buf (o + 0) (if on then r else 0)) as (b1 & -> & A1); [done|lia|]. cbn [res_bind].
  destruct (wr_array n b1 (o + 1) (if on then g else 0)) as (b2 & -> & A2); [done|lia|]. cbn [res_bind].
  apply wr_array; [done|lia].
Qed.

Lemma draw_row_array font w h x y i c cy r g b cxs buf :
  is_array (w * h * 3) buf → 0 ≤ w → 0 ≤ x → 0 ≤ y → 0 ≤ i → 0 ≤ cy → Forall (λ cx, 0 ≤ cx) cxs →
  ∃ buf', draw_row font w (w * h * 3) x y i c cy r g b buf cxs = Ok buf' ∧ is_array (w * h * 3) buf'.
Proof.
  intros Ha Hw Hx Hy Hi Hcy Hcx. revert buf Ha. induction Hcx as [|cx cxs Hcx _ IH]; intros buf Ha; [by exists buf|].
  cbn [draw_row]. destruct (Z.leb_spec (w * h * 3) ((cy + y) * w * 3 + (x + i * 8 + cx) * 3)) as [?|Ho]; [by exists buf|].
  destruct (draw_pixel_array (w * h * 3) (negb (font c cy cx =? 0)) ((cy + y) * w * 3 + (x + i * 8 + cx) * 3) r g b buf)
    as (b' & -> & A'); [done|nia|lia|]. cbn [res_bind]. by apply IH.
Qed.

Lemma draw_text_array font w h buf x y text r g b :
  is_array (w * h * 3) buf → 0 ≤ w → 0 ≤ x → 0 ≤ y →
  ∃ buf', draw_text font w h buf x y text r g b = Ok buf' ∧ is_array (w * h * 3) buf'.
Proof.
  intros Ha Hw Hx Hy. unfold draw_text. apply (res_fold_inv (is_array (w * h * 3))); [done|].
  intros s i Hs [Hi Hi']%elem_of_zrange. unfold draw_char.
  destruct (rd_in_range text i) as [ch ->]; [lia|]. cbn [res_bind].
  apply (res_fold_inv (is_array (w * h * 3))); [done|]. intros s' cy Hs' [Hcy _]%elem_of_zrange.
  apply draw_row_array; try done. apply Forall_forall. intros cx Hcx%elem_of_zrange. lia.
Qed.

Lemma fade_pixel_array w h subn buf y x :
  is_array (w * h * 3) buf → 1 ≤ subn → 0 ≤ y < h → 0 ≤ x < w →
  ∃ buf', fade_pixel w subn buf (y, x) = Ok buf' ∧ is_array (w * h * 3) buf'.
Proof.
  intros Ha Hs Hy Hx. unfold fade_pixel. cbn [fst snd].
  assert (0 ≤ y * w * 3 + x * 3 < w * h * 3) as Ho by nia.
  destruct (rd_in_range buf (y * w * 3 + x * 3)) as [v ->]; [by destruct Ha as [-> _]|]. cbn [res_bind].
  destruct (subn <=? v); [|by exists buf]. by apply wr_array.
Qed.

Lemma fade_array w h rnd buf :
  is_array (w * h * 3) buf → 0 ≤ rnd →
  ∃ buf', res_fold (fade_pixel w (Z.rem rnd 5 + 1)) buf (pairs (zrange h) (zrange w)) = Ok buf' ∧ is_array (w * h * 3) buf'.
Proof.
  intros Ha Hr. apply (res_fold_inv (is_array (w * h * 3))); [done|].
  intros s [y' x'] Hs [Hy' Hx']%elem_of_pairs. apply elem_of_zrange in Hy', Hx'.
  apply fade_pixel_array; try done. pose proof (Z.rem_nonneg rnd 5). lia.
Qed.

(** a round of drawing never leaves the frame buffer, wherever the text is *)
Lemma redraw_array font w h buf rnd x y clock btc :
  is_array (w * h * 3) buf → 0 ≤ w → 0 ≤ rnd → 0 ≤ x → 0 ≤ y →
  ∃ buf', redraw font w h buf rnd x y clock btc = Ok buf' ∧ is_array (w * h * 3) buf'.
Proof.
  intros Ha Hw Hr Hx Hy. unfold redraw. destruct (fade_array w h rnd buf) as (b1 & -> & A1); [done..|].
  cbn [res_bind]. destruct (draw_text_array font w h b1 x y clock 255 255 255) as (b2 & -> & A2); try done.
  cbn [res_bind]. by apply draw_text_array.
Qed.

(** the clock stays on the screen *)
Lemma bounce_one_range size p d r1 r2 :
  0 < size → 0 ≤ r1 → 0 ≤ r2 → (bounce_one size p d r1 r2).1 < size ∧ 0 ≤ (bounce_one size p d r1 r2).1.
Proof.
  intros. unfold bounce_one. destruct (Z.leb_spec size (p + d)) as [?|?].
  - destruct (Z.ltb_spec (size - 1) 0); cbn; lia.
  - destruct (Z.ltb_spec (p + d) 0); cbn; lia.
Qed.

Lemma bounce_range w h s r1 r2 r3 r4 :
  0 < w → 0 < h → 0 ≤ r1 → 0 ≤ r2 → 0 ≤ r3 → 0 ≤ r4 →
  0 ≤ bo_x (bounce w h s r1 r2 r3 r4) < w ∧ 0 ≤ bo_y (bounce w h s r1 r2 r3 r4) < h.
Proof.
  intros. unfold bounce.
  pose proof (bounce_one_range w (bo_x s) (bo_dx s) r1 r3). pose proof (bounce_one_range h (bo_y s) (bo_dy s) r2 r4).
  destruct (bounce_one w _ _ _ _), (bounce_one h _ _ _ _). cbn in *. lia.
Qed.

(** the frame buffer keeps its size, and no round of its thread faults *)
Definition fb_ok (fb : frame_buffer_t) : Prop :=
  0 < fb_w fb ∧ 0 < fb_h fb ∧ match fb_buffer fb with Some buf => is_array (fb_w fb * fb_h fb * 3) buf | None => False end.

Lemma vnc_init_ok : fb_ok (vnc_init no_frame_buffer).
Proof.
  split_and!; [done|done|]. cbn [vnc_init no_frame_buffer fb_buffer fb_w fb_h]. split.
  - unfold zlen. rewrite length_replicate. lia.
  - apply bytes_ok_replicate. unfold byte_ok. lia.
Qed.

Lemma frame_buffer_round_ok font t fb mqtt now clock r1 r2 r3 r4 rnd :
  fb_ok fb → 0 ≤ r1 → 0 ≤ r2 → 0 ≤ r3 → 0 ≤ r4 → 0 ≤ rnd →
  ∃ t' fb' told, frame_buffer_round font t fb mqtt now clock r1 r2 r3 r4 rnd = Ok (t', fb', told) ∧
    fb_ok fb' ∧ fb_w fb' = fb_w fb ∧ fb_h fb' = fb_h fb ∧ callbacks fb' = callbacks fb ∧
    0 ≤ bo_x (ft_pos t') < fb_w fb ∧ 0 ≤ bo_y (ft_pos t') < fb_h fb.
Proof.
  intros (Hw & Hh & Hb) ?????. unfold frame_buffer_round.
  pose proof (bounce_range (fb_w fb) (fb_h fb) (ft_pos t) r1 r2 r3 r4) as Hp.
  destruct (fb_buffer fb) as [buf|] eqn:Eb; [|done].
  destruct (has_listeners fb && _).
  - destruct (redraw_array font (fb_w fb) (fb_h fb) buf rnd (bo_x (bounce (fb_w fb) (fb_h fb) (ft_pos t) r1 r2 r3 r4))
      (bo_y (bounce (fb_w fb) (fb_h fb) (ft_pos t) r1 r2 r3 r4)) clock
      (match mqtt with Some v => btc_price ++ v | None => latest_btc t end)) as (b' & -> & A'); try done; try lia.
    cbn [res_bind]. do 3 eexists. split; [done|]. cbn. by split_and!; try lia.
  - do 3 eexists. split; [done|]. cbn. split; [|by split_and!; try lia]. unfold fb_ok. by rewrite Eb.
Qed.

(** ** The encodings are those of RFC 6143 *)

(** the colour of a pixel in memory *)
Definition pixel (buf : list Z) (w y x : Z) : Z * Z * Z :=
  let o := y * w * 3 + x * 3 in
  let at_ i := default 0 (buf !! Z.to_nat i) in (at_ (o + 0), at_ (o + 1), at_ (o + 2)).

(** four bytes per pixel *)
Definition enc32 (c : Z * Z * Z) : list Z := let '(r, g, b) := c in [b; g; r; 255].
Definition rgb_ok (c : Z * Z * Z) : Prop := let '(r, g, b) := c in byte_ok r ∧ byte_ok g ∧ byte_ok b.
Definition depth32 (depth : Z) : Prop := depth = 32 ∨ depth = 24.

Lemma rd_default n buf i : is_array n buf → 0 ≤ i < n → rd buf i = Ok (default 0 (buf !! Z.to_nat i)) ∧ byte_ok (default 0 (buf !! Z.to_nat i)).
Proof.
  intros [Hl Hb] Hi. destruct (rd_in_range buf i) as [b E]; [lia|]. rewrite E.
  pose proof (rd_byte_ok _ _ _ Hb E). apply rd_Ok in E as [_ ->]. done.
Qed.

Lemma rd_rgb_pixel n buf w y x :
  is_array n buf → 0 ≤ y * w * 3 + x * 3 → y * w * 3 + x * 3 + 2 < n →
  rd_rgb buf (y * w * 3 + x * 3) = Ok (pixel buf w y x) ∧ rgb_ok (pixel buf w y x).
Proof.
  intros Ha H1 H2. unfold rd_rgb, pixel, rgb_ok. set (o := y * w * 3 + x * 3) in *.
  destruct (rd_default n buf (o + 0)) as [-> ?]; [done|lia|].
  destruct (rd_default n buf (o + 1)) as [-> ?]; [done|lia|].
  destruct (rd_default n buf (o + 2)) as [-> ?]; [done|lia|]. done.
Qed.

Lemma pixel_rgb_ok buf w y x : bytes_ok buf → rgb_ok (pixel buf w y x).
Proof.
  intros HB. assert (∀ i, byte_ok (default 0 (buf !! i))) as H; [|by split_and!].
  intros i. destruct (buf !! i) as [v|] eqn:E; cbn; [|unfold byte_ok; lia]. unfold bytes_ok in HB. rewrite Forall_lookup in HB. by eapply HB.
Qed.

(** lengths of concatenations *)
Ltac zlen_lia := rewrite ?zlen_app, ?zlen_cons in *; change (zlen (@nil Z)) with 0 in *; lia.

Lemma put_byte_end cap out v : byte_ok v → zlen out + 1 ≤ cap → put_byte cap out v = Ok (out ++ [v]).
Proof. intros Hv Hc. unfold put_byte. rewrite (proj2 (Z.ltb_lt _ _)) by lia. by rewrite u8_id. Qed.

Lemma encode_pixel_32 cap depth out c :
  depth32 depth → rgb_ok c → zlen out + 4 ≤ cap → encode_pixel cap depth out c = Ok (out ++ enc32 c).
Proof.
  destruct c as [[r g] b]. intros Hd (Hr & Hg & Hb) Hc. unfold encode_pixel.
  rewrite (proj2 (orb_true_iff _ _)) by (destruct Hd; subst; auto).
  rewrite (put_byte_end cap out b) by (done || lia). cbn [res_bind].
  rewrite (put_byte_end cap (out ++ [b]) g) by (done || zlen_lia). cbn [res_bind].
  rewrite (put_byte_end cap ((out ++ [b]) ++ [g]) r) by (done || zlen_lia). cbn [res_bind].
  rewrite (put_byte_end cap (((out ++ [b]) ++ [g]) ++ [r]) 255) by (unfold byte_ok; zlen_lia).
  by rewrite <- !app_assoc.
Qed.

Lemma zlen_enc32 c : zlen (enc32 c) = 4.
Proof. by destruct c as [[r g] b]. Qed.

Lemma zlen_enc32_bind {A} (f : A → Z * Z * Z) l : zlen (l ≫= λ t, enc32 (f t)) = 4 * zlen l.
Proof.
  induction l as [|a l IH]; [done|]. rewrite bind_cons, zlen_app, zlen_cons, IH, zlen_enc32. lia.
Qed.

(** a tile: its pixels, whether they all have the colour of the first, and its bytes *)
Definition tile_pixels (buf : list Z) (w y x : Z) : list (Z * Z * Z) :=
  (λ t, pixel buf w (y + t.1) (x + t.2)) <$> tile_positions.
Definition tile_solid (buf : list Z) (w y x : Z) : bool :=
  bool_decide (Forall (λ t, pixel buf w (y + t.1) (x + t.2) = pixel buf w y x) tile_positions).
Definition tile_bytes (buf : list Z) (w : Z) (yx : Z * Z) : list Z :=
  let '(y, x) := yx in
  if tile_solid buf w y x then 2 :: enc32 (pixel buf w y x)
  else 1 :: (tile_positions ≫= λ t, enc32 (pixel buf w (y + t.1) (x + t.2))).

(** the tile is on the screen *)
Definition tile_in (w h : Z) (yx : Z * Z) : Prop := 0 ≤ yx.1 ∧ yx.1 + 16 ≤ h ∧ 0 ≤ yx.2 ∧ yx.2 + 16 ≤ w.

Lemma elem_of_tile_positions t : t ∈ tile_positions ↔ 0 ≤ t.1 < 16 ∧ 0 ≤ t.2 < 16.
Proof. destruct t as [a b]. unfold tile_positions. by rewrite elem_of_pairs, !elem_of_zrange. Qed.

Lemma tile_pixel_in w h buf y x t :
  is_array (w * h * 3) buf → tile_in w h (y, x) → t ∈ tile_positions →
  tile_pixel buf w x y t = Ok (pixel buf w (y + t.1) (x + t.2)) ∧ rgb_ok (pixel buf w (y + t.1) (x + t.2)).
Proof.
  intros Ha (H1 & H2 & H3 & H4) [Ht1 Ht2]%elem_of_tile_positions. cbn in *. unfold tile_pixel.
  apply (rd_rgb_pixel (w * h * 3)); [done|nia|nia].
Qed.

Lemma tile_scan_spec w h buf y x solid l :
  is_array (w * h * 3) buf → tile_in w h (y, x) → (∀ t, t ∈ l → t ∈ tile_positions) →
  tile_scan buf w x y solid l = Ok (negb (bool_decide (Forall (λ t, pixel buf w (y + t.1) (x + t.2) = solid) l))).
Proof.
  intros Ha Hi. induction l as [|t l IH]; intros Hl; [by rewrite bool_decide_eq_true_2 by constructor|].
  cbn [tile_scan]. destruct (tile_pixel_in w h buf y x t) as [-> _]; [done|done|set_solver|]. cbn [res_bind].
  destruct (decide (pixel buf w (y + t.1) (x + t.2) = solid)) as [E|E].
  - rewrite IH by set_solver. do 2 f_equal. apply bool_decide_ext. rewrite Forall_cons. tauto.
  - rewrite bool_decide_eq_false_2; [done|]. by rewrite Forall_cons; intros [? _].
Qed.

Lemma hextile_tile_spec cap w h buf depth out y x :
  is_array (w * h * 3) buf → depth32 depth → tile_in w h (y, x) → zlen out + zlen (tile_bytes buf w (y, x)) ≤ cap →
  hextile_tile cap buf w depth out (y, x) = Ok (out ++ tile_bytes buf w (y, x)).
Proof.
  intros Ha Hd Hi Hc. unfold hextile_tile.
  destruct (tile_pixel_in w h buf y x (0, 0)) as [E0 O0]; [done|done|by apply elem_of_tile_positions|].
  cbn [fst snd] in E0, O0. rewrite !Z.add_0_r in *. unfold tile_pixel in E0. cbn [fst snd] in E0. rewrite !Z.add_0_r in E0.
  rewrite E0. cbn [res_bind]. rewrite (tile_scan_spec w h) by done. cbn [res_bind]. fold (tile_solid buf w y x).
  cbn [tile_bytes] in *. destruct (tile_solid buf w y x) eqn:Es; cbn [negb].
  - rewrite zlen_cons in Hc. pose proof (zlen_enc32 (pixel buf w y x)).
    rewrite put_byte_end by (unfold byte_ok; lia). cbn [res_bind].
    rewrite encode_pixel_32 by (done || (rewrite zlen_app; change (zlen [2]) with 1; lia)). by rewrite <- app_assoc.
  - rewrite zlen_cons, zlen_enc32_bind in Hc. pose proof (zlen_nonneg tile_positions).
    rewrite put_byte_end by (unfold byte_ok; lia). cbn [res_bind].
    rewrite (res_fold_appends _ (λ t, enc32 (pixel buf w (y + t.1) (x + t.2)))); [by rewrite <- app_assoc|].
    intros pre t post El. destruct (tile_pixel_in w h buf y x t) as [-> Ot]; [done|done|rewrite El; set_solver|].
    cbn [res_bind]. rewrite encode_pixel_32; [by rewrite <- app_assoc|done|done|].
    rewrite !zlen_app, zlen_enc32_bind. change (zlen [1]) with 1.
    rewrite El, zlen_app, zlen_cons in Hc. pose proof (zlen_nonneg post). lia.
Qed.

(** the corners of the tiles *)
Definition tiles (w h : Z) : list (Z * Z) := pairs (steps16 h) (steps16 w).

Lemma tiles_in w h yx : w mod 16 = 0 → h mod 16 = 0 → yx ∈ tiles w h → tile_in w h yx.
Proof.
  destruct yx as [y x]. intros Hw Hh [Hy Hx]%elem_of_pairs. unfold steps16 in *.
  apply list_elem_of_fmap in Hy as (i & -> & Hi%elem_of_zrange), Hx as (j & -> & Hj%elem_of_zrange).
  unfold tile_in. cbn. Z.to_euclidean_division_equations. lia.
Qed.

Lemma hextile_spec cap out buf w h depth :
  is_array (w * h * 3) buf → depth32 depth → w mod 16 = 0 → h mod 16 = 0 →
  zlen out + zlen (tiles w h ≫= tile_bytes buf w) ≤ cap →
  hextile cap out buf w h depth = Ok (out ++ (tiles w h ≫= tile_bytes buf w)).
Proof.
  intros Ha Hd Hw Hh Hc. unfold hextile. fold (tiles w h). apply res_fold_appends. intros pre [y x] post El.
  rewrite (hextile_tile_spec cap w h); [by rewrite <- app_assoc|done|done| |].
  - apply tiles_in; [done|done|]. rewrite El. set_solver.
  - rewrite El, bind_app, bind_cons, !zlen_app in Hc. rewrite zlen_app. pose proof (zlen_nonneg (post ≫= tile_bytes buf w)). lia.
Qed.

(** *** A client that reads RFC 6143

    It decodes pixels with a format (7.4) of 32 bits per pixel and true colours, and gives
    the pixels it paints, in their order. *)

Definition paint : Type := (Z * Z) * (Z * Z * Z).

Record pixel_format := PixelFormat {
  pf_bpp : Z; pf_depth : Z; pf_big_endian : bool; pf_true_colour : bool;
  pf_red_max : Z; pf_green_max : Z; pf_blue_max : Z;
  pf_red_shift : Z; pf_green_shift : Z; pf_blue_shift : Z;
}.

(** the 16 bytes of a format *)
Definition read_format (l : list Z) : option pixel_format :=
  match l with
  | [bpp; depth; be; tc; r1; r2; g1; g2; b1; b2; rs; gs; bs; _; _; _] =>
      Some (PixelFormat bpp depth (negb (be =? 0)) (negb (tc =? 0)) (join16 r1 r2) (join16 g1 g2) (join16 b1 b2) rs gs bs)
  | _ => None
  end.

(** ServerInit (7.3.2): the size of the screen and the format of its pixels; the name that
    follows has the length that is given *)
Definition read_server_init (m : list Z) : option (Z * Z * pixel_format) :=
  match m with
  | w1 :: w2 :: h1 :: h2 :: l =>
      pf ← read_format (take 16 l);
      match drop 16 l with
      | n1 :: n2 :: n3 :: n4 :: name =>
          if join32 n1 n2 n3 n4 =? zlen name then Some (join16 w1 w2, join16 h1 h2, pf) else None
      | _ => None
      end
  | _ => None
  end.

Definition read_pixel (pf : pixel_format) (l : list Z) : option ((Z * Z * Z) * list Z) :=
  match l with
  | a :: b :: c :: d :: l' =>
      let v := if pf_big_endian pf then join32 a b c d else join32 d c b a in
      let channel shift max := Z.land (Z.shiftr v shift) max in
      if (pf_bpp pf =? 32) && pf_true_colour pf then
        Some ((channel (pf_red_shift pf) (pf_red_max pf), channel (pf_green_shift pf) (pf_green_max pf),
               channel (pf_blue_shift pf) (pf_blue_max pf)), l')
      else None
  | _ => None
  end.

(** the format that ServerInit announces, and the one that most clients ask for: the lowest
    byte first *)
Definition announced_format : pixel_format := PixelFormat 32 24 true true 255 255 255 16 8 0.
Definition little_endian_format : pixel_format := PixelFormat 32 24 false true 255 255 255 16 8 0.
Definition little_endian_bytes : list Z := [32; 24; 0; 1; 0; 255; 0; 255; 0; 255; 16; 8; 0; 0; 0; 0].

(** what the bytes of a colour are taken for *)
Definition announced_colour (c : Z * Z * Z) : Z * Z * Z := let '(r, g, b) := c in (g, r, 255).

Section Reader.
Context (pf : pixel_format).

Fixpoint read_pixels (ps : list (Z * Z)) (l : list Z) : option (list paint * list Z) :=
  match ps with
  | [] => Some ([], l)
  | p :: ps' =>
      '(c, l) ← read_pixel pf l;
      '(out, l) ← read_pixels ps' l;
      Some ((p, c) :: out, l)
  end.

(** the pixels of the tile at a corner; tiles at the edge are smaller *)
Definition tile_area (w h : Z) (yx : Z * Z) : list (Z * Z) :=
  (λ t, (yx.1 + t.1, yx.2 + t.2)) <$> pairs (zrange (Z.min 16 (h - yx.1))) (zrange (Z.min 16 (w - yx.2))).

(** 7.7.4: bit 0 is raw, bit 1 gives a background; the other bits, for foreground and
    subrectangles, this client does not read *)
Definition read_tile (w h : Z) (bg : option (Z * Z * Z)) (yx : Z * Z) (l : list Z)
  : option (list paint * option (Z * Z * Z) * list Z) :=
  match l with
  | [] => None
  | m :: l =>
      if Z.testbit m 0 then
        '(out, l) ← read_pixels (tile_area w h yx) l;
        Some (out, bg, l)
      else if negb (Z.land m 28 =? 0) then None
      else
        '(c, l) ← (if Z.testbit m 1 then read_pixel pf l else c ← bg; Some (c, l));
        Some ((λ p, (p, c)) <$> tile_area w h yx, Some c, l)
  end.

Fixpoint read_hextile (w h : Z) (bg : option (Z * Z * Z)) (ts : list (Z * Z)) (l : list Z) : option (list paint * list Z) :=
  match ts with
  | [] => Some ([], l)
  | t :: ts' =>
      '(out, bg, l) ← read_tile w h bg t l;
      '(out', l) ← read_hextile w h bg ts' l;
      Some (out ++ out', l)
  end.

(** a FramebufferUpdate of one rectangle: its corner, its size and what is painted, from
    its corner on *)
Definition read_update (m : list Z) : option (Z * Z * Z * Z * list paint) :=
  match m with
  | 0 :: _ :: 0 :: 1 :: x1 :: x2 :: y1 :: y2 :: w1 :: w2 :: h1 :: h2 :: e1 :: e2 :: e3 :: e4 :: l =>
      let w := join16 w1 w2 in
      let h := join16 h1 h2 in
      '(out, l) ← (if join32 e1 e2 e3 e4 =? 0 then read_pixels (rectangle 0 0 w h) l
                   else if join32 e1 e2 e3 e4 =? 5 then read_hextile w h None (tiles w h) l
                   else None);
      match l with [] => Some (join16 x1 x2, join16 y1 y2, w, h, out) | _ => None end
  | _ => None
  end.

(** what is on the screen of the client *)
Definition screen (out : list paint) : gmap (Z * Z) (Z * Z * Z) := list_to_map out.

Context (colour : Z * Z * Z → Z * Z * Z) (Hcol : ∀ c l, rgb_ok c → read_pixel pf (enc32 c ++ l) = Some (colour c, l)).

Lemma read_pixels_enc (f : Z * Z → Z * Z * Z) ps l :
  (∀ p, rgb_ok (f p)) → read_pixels ps ((ps ≫= λ p, enc32 (f p)) ++ l) = Some ((λ p, (p, colour (f p))) <$> ps, l).
Proof.
  intros Hf. induction ps as [|p ps IH]; [done|]. rewrite bind_cons, <- app_assoc. cbn [read_pixels fmap list_fmap].
  rewrite Hcol by done. cbn. by rewrite IH.
Qed.

Lemma tile_area_full w h y x : tile_in w h (y, x) → tile_area w h (y, x) = (λ t, (y + t.1, x + t.2)) <$> tile_positions.
Proof. intros (H1 & H2 & H3 & H4). cbn in *. unfold tile_area. cbn. rewrite !Z.min_l by lia. done. Qed.

Lemma bind_fmap_l {A B C} (f : A → B) (g : B → list C) l : (f <$> l) ≫= g = l ≫= λ a, g (f a).
Proof. induction l as [|a l IH]; [done|]. rewrite fmap_cons, !bind_cons. by rewrite IH. Qed.

Lemma read_tile_bytes w h buf bg y x l :
  bytes_ok buf → tile_in w h (y, x) →
  ∃ bg', read_tile w h bg (y, x) (tile_bytes buf w (y, x) ++ l) =
    Some ((λ p, (p, colour (pixel buf w p.1 p.2))) <$> tile_area w h (y, x), bg', l).
Proof.
  intros HB Hi. cbn [tile_bytes]. destruct (tile_solid buf w y x) eqn:Es.
  - cbn [app read_tile]. change (Z.testbit 2 0) with false. change (Z.testbit 2 1) with true. cbn [negb Z.land Z.eqb].
    rewrite Hcol by by apply pixel_rgb_ok. cbn [mbind option_bind]. eexists. do 3 f_equal.
    apply list_fmap_ext. intros i p Hp%list_elem_of_lookup_2. rewrite (tile_area_full _ _ _ _ Hi) in Hp.
    apply list_elem_of_fmap in Hp as (t & -> & Ht). apply bool_decide_eq_true_1 in Es. rewrite Forall_forall in Es.
    cbn. by rewrite (Es t Ht).
  - cbn [app read_tile]. change (Z.testbit 1 0) with true. exists bg.
    pose proof (read_pixels_enc (λ p, pixel buf w p.1 p.2) (tile_area w h (y, x)) l (λ p, pixel_rgb_ok buf w p.1 p.2 HB)) as E.
    rewrite (tile_area_full _ _ _ _ Hi) in *. rewrite bind_fmap_l in E. cbn [fst snd] in E. rewrite E. done.
Qed.

Lemma read_hextile_bytes w h buf bg ts l :
  bytes_ok buf → Forall (tile_in w h) ts →
  read_hextile w h bg ts ((ts ≫= tile_bytes buf w) ++ l) =
  Some ((λ p, (p, colour (pixel buf w p.1 p.2))) <$> (ts ≫= tile_area w h), l).
Proof.
  intros HB Ht. revert bg. induction Ht as [|[y x] ts Hi _ IH]; intros bg; [done|].
  rewrite !bind_cons, <- app_assoc, fmap_app. cbn [read_hextile].
  destruct (read_tile_bytes w h buf bg y x ((ts ≫= tile_bytes buf w) ++ l) HB Hi) as [bg' ->]. cbn [mbind option_bind].
  by rewrite IH.
Qed.

(** every pixel is painted with its colour *)
Lemma screen_painted (f : Z * Z → Z * Z * Z) ps p : p ∈ ps → screen ((λ p, (p, f p)) <$> ps) !! p = Some (f p).
Proof.
  intros Hp. unfold screen. destruct (list_to_map ((λ p, (p, f p)) <$> ps) !! p) as [c|] eqn:E.
  - apply elem_of_list_to_map_2, list_elem_of_fmap in E as (q & [= -> ->] & _). done.
  - apply not_elem_of_list_to_map_2 in E. destruct E. rewrite <- list_fmap_compose. apply list_elem_of_fmap. by exists p.
Qed.

Lemma tiles_cover w h y x :
  w mod 16 = 0 → h mod 16 = 0 → 0 ≤ y < h → 0 ≤ x < w → (y, x) ∈ (tiles w h ≫= tile_area w h).
Proof.
  intros Hw Hh Hy Hx. apply list_elem_of_bind. exists (16 * (y / 16), 16 * (x / 16)).
  assert ((16 * (y / 16), 16 * (x / 16)) ∈ tiles w h) as Ht.
  { apply elem_of_pairs. unfold steps16. split; apply list_elem_of_fmap; eexists; (split; [done|]);
      apply elem_of_zrange; Z.to_euclidean_division_equations; lia. }
  split; [|done]. rewrite tile_area_full by (by apply tiles_in). apply list_elem_of_fmap.
  exists (y mod 16, x mod 16). cbn. split; [f_equal; Z.to_euclidean_division_equations; lia|].
  apply elem_of_tile_positions. cbn. Z.to_euclidean_division_equations. lia.
Qed.

(** *** A full update *)

Lemma length_pairs rows cols : length (pairs rows cols) = (length rows * length cols)%nat.
Proof.
  unfold pairs. induction rows as [|y rows IH]; [done|]. rewrite bind_cons, length_app, length_fmap, IH. done.
Qed.

Lemma elem_of_rectangle x y w h p : p ∈ rectangle x y w h ↔ y ≤ p.1 < y + h ∧ x ≤ p.2 < x + w.
Proof.
  destruct p as [a b]. unfold rectangle. rewrite elem_of_pairs, !list_elem_of_fmap. cbn. split.
  - intros [(i & -> & Hi%elem_of_zrange) (j & -> & Hj%elem_of_zrange)]. lia.
  - intros [??]. split; [exists (a - y)|exists (b - x)]; rewrite elem_of_zrange; lia.
Qed.

Lemma zlen_rectangle x y w h : 0 ≤ w → 0 ≤ h → zlen (rectangle x y w h) = w * h.
Proof. intros. unfold rectangle, zlen. rewrite length_pairs, !length_fmap, !length_zrange. nia. Qed.

(** the bytes of the picture, in rows *)
Definition raw_bytes (buf : list Z) (w h : Z) : list Z := rectangle 0 0 w h ≫= λ p, enc32 (pixel buf w p.1 p.2).

Lemma raw_pixels_spec w h buf depth :
  is_array (w * h * 3) buf → depth32 depth → 0 ≤ w → 0 ≤ h → raw_pixels buf 0 0 w h depth = Ok (raw_bytes buf w h, 0).
Proof.
  intros Ha Hd Hw Hh. unfold raw_pixels. rewrite (proj2 (orb_true_iff _ _)) by (destruct Hd; subst; auto).
  rewrite (res_fold_appends _ (λ p, enc32 (pixel buf w p.1 p.2))); [done|].
  intros pre [a b] post El. unfold raw_pixel. cbn [fst snd].
  assert ((a, b) ∈ rectangle 0 0 w h) as Hab by (rewrite El; set_solver).
  apply elem_of_rectangle in Hab as [H1 H2]. cbn in H1, H2.
  destruct (rd_rgb_pixel (w * h * 3) buf w a b) as [-> Ho]; [done|nia|nia|]. cbn [res_bind].
  rewrite encode_pixel_32; [by rewrite app_nil_l|done|done|]. rewrite app_nil_l, zlen_enc32_bind.
  pose proof (zlen_rectangle 0 0 w h Hw Hh) as El'. rewrite El in El'. pose proof (zlen_nonneg post). zlen_lia.
Qed.

(** [m] shows the contents of the frame buffer, in the colours [f] *)
Definition shows (f : Z * Z * Z → Z * Z * Z) (m : list Z) (buf : list Z) (w h : Z) : Prop :=
  ∃ out, read_update m = Some (0, 0, w, h, out) ∧
    ∀ y x, 0 ≤ y < h → 0 ≤ x < w → screen out !! (y, x) = Some (f (pixel buf w y x)).

(** the hextile encoding fits in the message *)
Definition hextile_fits (buf : list Z) (w h : Z) : Prop :=
  w mod 16 = 0 ∧ h mod 16 = 0 ∧ zlen (tiles w h ≫= tile_bytes buf w) ≤ w * h * 4.

Lemma read_update_header w h ce l :
  0 ≤ w < 65536 → 0 ≤ h < 65536 → ce = 0 ∨ ce = 5 →
  read_update (update_header 0 0 w h ce ++ l) =
    '(out, l) ← (if ce =? 0 then read_pixels (rectangle 0 0 w h) l else read_hextile w h None (tiles w h) l);
    match l with [] => Some (0, 0, w, h, out) | _ => None end.
Proof.
  intros Hw Hh Hce. unfold update_header, be32. cbn [app read_update].
  rewrite join32_be32, (u32_id ce) by lia.
  rewrite !(Z.land_ones _ 8) by lia. change (2 ^ 8) with 256. fold (u8 w) (u8 h).
  rewrite !join16_be16 by lia. change (join16 (u8 (Z.shiftr 0 8)) (0 mod 256)) with 0. by destruct Hce; subst.
Qed.

Lemma full_update_shows {Zs : Type} (deflate : Zs → list Z → Z → Zs * list Z) (jpeg : list Z → Z → Z → list Z) fb buf encs depth strm :
  fb_buffer fb = Some buf → is_array (fb_w fb * fb_h fb * 3) buf →
  0 ≤ fb_w fb < 65536 → 0 ≤ fb_h fb < 65536 → depth32 depth →
  choose_encoding encs = 0 ∨ (choose_encoding encs = 5 ∧ hextile_fits buf (fb_w fb) (fb_h fb)) →
  ∃ m, calculate_fb_update deflate jpeg fb encs 0 0 (fb_w fb) (fb_h fb) depth strm = Ok (Some m, strm, 0) ∧
    shows colour m buf (fb_w fb) (fb_h fb).
Proof.
  intros Eb Ha Hw Hh Hd He. pose proof (proj2 Ha) as HB. unfold calculate_fb_update. rewrite Eb, !Z.add_0_l, !Z.ltb_irrefl. cbn [orb].
  set (w := fb_w fb) in *. set (h := fb_h fb) in *.
  assert (zlen (update_header 0 0 w h (choose_encoding encs)) = 16) as Eh by done.
  destruct He as [He|(He & Hw16 & Hh16 & Hfit)]; rewrite He in *; cbn [negb andb Z.eqb Pos.eqb].
  - rewrite raw_pixels_spec by (done || lia). cbn [res_bind]. unfold put_block.
    rewrite (proj2 (Z.leb_le _ _)). 2:{ rewrite Eh. unfold raw_bytes. rewrite zlen_enc32_bind, zlen_rectangle by lia. lia. }
    cbn [res_bind]. eexists. split; [done|]. unfold shows. rewrite read_update_header by auto. cbn [Z.eqb].
    unfold raw_bytes. rewrite <- (app_nil_r (_ ≫= _)), (read_pixels_enc (λ p, pixel buf w p.1 p.2)) by (intros; by apply pixel_rgb_ok). cbn [mbind option_bind].
    eexists. split; [done|]. intros y x Hy Hx. rewrite (screen_painted (λ p, colour (pixel buf w p.1 p.2))); [done|].
    apply elem_of_rectangle. cbn. lia.
  - cbn [res_bind]. rewrite hextile_spec by (done || (rewrite ?Eh; lia)). cbn [res_bind].
    eexists. split; [done|]. unfold shows. rewrite read_update_header by auto. cbn [Z.eqb].
    rewrite <- (app_nil_r (_ ≫= _)), read_hextile_bytes; [|done|].
    2:{ apply Forall_forall. intros t Ht. by apply tiles_in. }
    cbn [mbind option_bind]. eexists. split; [done|]. intros y x Hy Hx.
    rewrite (screen_painted (λ p, colour (pixel buf w p.1 p.2))); [done|]. by apply tiles_cover.
Qed.
End Reader.

(** what the two formats make of the bytes of a colour *)
Lemma read_little_endian c l : rgb_ok c → read_pixel little_endian_format (enc32 c ++ l) = Some (c, l).
Proof.
  destruct c as [[r g] b]. intros (Hr & Hg & Hb). cbn [enc32 app read_pixel little_endian_format pf_big_endian pf_bpp
    pf_true_colour pf_red_shift pf_green_shift pf_blue_shift pf_red_max pf_green_max pf_blue_max Z.eqb Pos.eqb andb].
  rewrite join32_eq by (done || unfold byte_ok; lia). unfold byte_ok in *.
  rewrite !(Z.land_ones _ 8), !Z.shiftr_div_pow2 by lia. change (2 ^ 8) with 256. change (2 ^ 16) with 65536. change (2 ^ 0) with 1.
  repeat f_equal; Z.to_euclidean_division_equations; lia.
Qed.

Lemma read_announced c l : rgb_ok c → read_pixel announced_format (enc32 c ++ l) = Some (announced_colour c, l).
Proof.
  destruct c as [[r g] b]. intros (Hr & Hg & Hb). cbn [enc32 app read_pixel announced_format announced_colour pf_big_endian pf_bpp
    pf_true_colour pf_red_shift pf_green_shift pf_blue_shift pf_red_max pf_green_max pf_blue_max Z.eqb Pos.eqb andb].
  rewrite join32_eq by (done || unfold byte_ok; lia). unfold byte_ok in *.
  rewrite !(Z.land_ones _ 8), !Z.shiftr_div_pow2 by lia. change (2 ^ 8) with 256. change (2 ^ 16) with 65536. change (2 ^ 0) with 1.
  repeat f_equal; Z.to_euclidean_division_equations; lia.
Qed.

(** the format is the one in the bytes that are sent *)
Lemma server_init_announces w h : 0 ≤ w < 65536 → 0 ≤ h < 65536 → read_server_init (server_init w h) = Some (w, h, announced_format).
Proof.
  intros Hw Hh. unfold server_init. rewrite !(Z.land_ones _ 8) by lia. change (2 ^ 8) with 256. fold (u8 w) (u8 h).
  cbn [app read_server_init take drop read_format mbind option_bind].
  change (join32 0 0 0 4 =? zlen [77; 121; 73; 80]) with true. cbn iota. by rewrite !join16_be16.
Qed.

Section Served.
Context {Zs : Type} (deflate : Zs → list Z → Z → Zs * list Z) (jpeg : list Z → Z → Z → list Z).

(** *** From the connection to the picture *)

(** what the client sends until its first request: its version, the security type, whether
    to share, and a request for the rectangle *)
Definition client_script (version : list Z) (shared inc x y w h : Z) : list Z :=
  version ++ [1; shared] ++ [3; inc] ++ be16 x ++ be16 y ++ be16 w ++ be16 h.

(** where the session is after so many bytes of it *)
Definition script_state (n : nat) : vnc_state_t :=
  if (n <? 12)%nat then vs_initial_handshake_client_resp
  else if (n =? 12)%nat then vs_security_handshake_client_resp
  else if (n =? 13)%nat then vs_client_init
  else if (n =? 14)%nat || (n =? 24)%nat then vs_running_waiting_cmd
  else vs_running_waiting_data.
Definition script_used (n : nat) : nat := if (n <? 12)%nat then 0 else if (n <? 15)%nat then n else if (n <? 24)%nat then 15 else 24.
Definition script_sent (n : nat) : nat :=
  if (n <? 12)%nat then 1 else if (n =? 12)%nat then 2 else if (n =? 13)%nat then 3 else if (n <? 24)%nat then 4 else 5.
Definition script_cmd (n : nat) : Z := if (n <? 15)%nat then -1 else if (n <? 24)%nat then 3 else -1.

Definition script_session (msg : list Z) (q : list vnc_thread_work_t) (strm : Zs) (n : nat) : vnc_session_data Zs :=
  VncSession (drop (script_used n) (take n msg)) (script_state n) 32 q strm false true [0] (-1) false (script_cmd n) (-1) false.
Definition script_fb (fb fb' : frame_buffer_t) (n : nat) : frame_buffer_t := if (n <? 14)%nat then fb else fb'.

Ltac split_nat_tests :=
  repeat match goal with
  | H : (_ <? _)%nat = true |- _ => apply Nat.ltb_lt in H
  | H : (_ <? _)%nat = false |- _ => apply Nat.ltb_ge in H
  | H : (_ =? _)%nat = true |- _ => apply Nat.eqb_eq in H
  | H : (_ =? _)%nat = false |- _ => apply Nat.eqb_neq in H
  end.

Lemma script_used_le n : (script_used n ≤ n)%nat.
Proof. unfold script_used. repeat case_match; split_nat_tests; lia. Qed.

(** there are five places to wait for bytes *)
Lemma script_phase fb fb' n k :
  (n < k)%nat → (k ≤ 24)%nat →
  ∃ r, r ∈ [0; 12; 13; 14; 15]%nat ∧ (r < k)%nat ∧ script_used n = script_used r ∧ script_state n = script_state r ∧
    script_sent n = script_sent r ∧ script_cmd n = script_cmd r ∧ script_fb fb fb' n = script_fb fb fb' r.
Proof.
  intros Hn Hk. exists (if n <? 12 then 0 else if n <? 15 then n else 15)%nat.
  destruct (Nat.ltb_spec n 12); [|destruct (Nat.ltb_spec n 15)].
  - do 12 (destruct n as [|n]; [split_and!; try done; try lia; set_solver|]). lia.
  - do 15 (destruct n as [|n]; [split_and!; try done; try lia; set_solver|]). lia.
  - do 24 (destruct n as [|n]; [try lia; split_and!; try done; try lia; set_solver|]). lia.
Qed.

(** runs the parts of a round one after the other *)
Ltac run_stages Ereg Ecalc :=
  repeat (match goal with
  | |- res_bind ?c ?k = ?r =>
      let c' := eval cbv -[calculate_fb_update register_callback server_init u8 join16 Z.shiftr] in c in
      change (res_bind c' k = r); rewrite ?Ereg; cbn [res_bind]; rewrite ?Ecalc; cbn [res_bind]
  end).

Lemma script_pass version shared inc x y w h id q strm fb fb' m (sent : list (list Z)) chunk n :
  zlen version = 12 → take 3 version = [82; 70; 66] →
  register_callback fb id = Ok fb' →
  calculate_fb_update deflate jpeg fb' [0] (join16 (u8 (Z.shiftr x 8)) (u8 x)) (join16 (u8 (Z.shiftr y 8)) (u8 y))
    (join16 (u8 (Z.shiftr w 8)) (u8 w)) (join16 (u8 (Z.shiftr h 8)) (u8 h)) 32 strm = Ok (Some m, strm, 0) →
  chunk ≠ [] → take (n + length chunk) (client_script version shared inc x y w h) = take n (client_script version shared inc x y w h) ++ chunk →
  (n + length chunk ≤ 24)%nat →
  sent = [initial_message; [1; 1]; [0; 0; 0; 0]; server_init (fb_w fb) (fb_h fb); m] →
  vnc_pass deflate jpeg id false
    (Pass (with_buffer (vs_buffer (script_session (client_script version shared inc x y w h) q strm n) ++ chunk)
       (script_session (client_script version shared inc x y w h) q strm n)) (script_fb fb fb' n) [] 0) =
  Ok (Pass (script_session (client_script version shared inc x y w h) q strm (n + length chunk)) (script_fb fb fb' (n + length chunk))
        (drop (script_sent n) (take (script_sent (n + length chunk)) sent)) 0).
Proof.
  intros Hv Hr Ereg Ecalc Hc Htk Hle ->.
  set (msg := client_script version shared inc x y w h) in *.
  assert (vs_buffer (script_session msg q strm n) ++ chunk = drop (script_used n) (take (n + length chunk) msg)) as ->.
  { cbn [script_session vs_buffer]. rewrite Htk, drop_app_le; [done|]. rewrite length_take.
    assert (length msg = 24%nat) by (subst msg; unfold client_script; rewrite length_app; unfold zlen in Hv; cbn [length app be16]; lia).
    pose proof (script_used_le n). lia. }
  destruct chunk as [|c0 chunk]; [done|]. clear Htk Hc.
  remember (n + length (c0 :: chunk))%nat as k eqn:Ek. assert (n < k)%nat as Hnk by (cbn in Ek; lia). clear Ek.
  subst msg. unfold zlen in Hv.
  destruct version as [|v0 [|v1 [|v2 [|v3 [|v4 [|v5 [|v6 [|v7 [|v8 [|v9 [|v10 [|v11 [|? ?]]]]]]]]]]]]]; cbn in Hv; try lia.
  cbn in Hr. injection Hr as -> -> ->.
  assert (∃ r, r ∈ [0; 12; 13; 14; 15]%nat ∧ r < k ∧ script_used n = script_used r ∧ script_state n = script_state r ∧
    script_sent n = script_sent r ∧ script_cmd n = script_cmd r ∧ script_fb fb fb' n = script_fb fb fb' r)%nat
    as (r & Hin & Hrk & -> & Est & -> & Ecmd & ->).
  { by apply script_phase. }
  unfold script_session. rewrite Est, Ecmd. clear Hnk Est Ecmd.
  assert (r = 0 ∨ r = 12 ∨ r = 13 ∨ r = 14 ∨ r = 15)%nat as Hr by set_solver. clear Hin. 
  destruct Hr as [->|[->|[->|[->| ->]]]]. 
  all: do 25 (destruct k as [|k]; [first [lia|unfold vnc_pass; run_stages Ereg Ecalc; reflexivity]|]); lia.
Qed.

Lemma vnc_rounds_S n id p q :
  vnc_thread deflate jpeg false id (p_vs p) (p_fb p) = Ok q →
  vnc_rounds deflate jpeg (S n) id p = vnc_rounds deflate jpeg n id (Pass (p_vs q) (p_fb q) (p_sent p ++ p_sent q) (p_err p + p_err q)).
Proof. intros E. cbn [vnc_rounds]. by rewrite E. Qed.

Lemma take_le_drop {A} (l : list A) n k : (n ≤ k)%nat → take n l ++ drop n (take k l) = take k l.
Proof. intros H. rewrite <- (take_drop n (take k l)) at 2. by rewrite take_take, Nat.min_l. Qed.

Lemma script_sent_le n k : (n ≤ k)%nat → (k ≤ 24)%nat → (script_sent n ≤ script_sent k)%nat.
Proof. intros. unfold script_sent. repeat case_match; split_nat_tests; lia. Qed.

(** from one place of the script to another, in pieces *)
Lemma script_rounds version shared inc x y w h id strm fb fb' m q chunks n e :
  zlen version = 12 → take 3 version = [82; 70; 66] →
  register_callback fb id = Ok fb' →
  calculate_fb_update deflate jpeg fb' [0] (join16 (u8 (Z.shiftr x 8)) (u8 x)) (join16 (u8 (Z.shiftr y 8)) (u8 y))
    (join16 (u8 (Z.shiftr w 8)) (u8 w)) (join16 (u8 (Z.shiftr h 8)) (u8 h)) 32 strm = Ok (Some m, strm, 0) →
  let msg := client_script version shared inc x y w h in
  let sent := [initial_message; [1; 1]; [0; 0; 0; 0]; server_init (fb_w fb) (fb_h fb); m] in
  Forall (λ c, c ≠ []) chunks → (n ≤ e ≤ 24)%nat → drop n (take e msg) = concat chunks →
  vnc_rounds deflate jpeg (length chunks) id
    (Pass (script_session msg ((Some <$> chunks) ++ q) strm n) (script_fb fb fb' n) (take (script_sent n) sent) 0) =
  Ok (Pass (script_session msg q strm e) (script_fb fb fb' e) (take (script_sent e) sent) 0).
Proof.
  intros Hv Hr Ereg Ecalc msg sent Hne. revert n.
  assert (length msg = 24%nat) as Hm by (subst msg; unfold client_script; rewrite length_app; unfold zlen in Hv; cbn [length app be16]; lia).
  induction Hne as [|c chunks Hc Hne IH]; intros n Hn Hd.
  - assert (n = e)%nat as ->; [|done]. apply (f_equal length) in Hd. rewrite length_drop, length_take in Hd. cbn in Hd. lia.
  - assert (n + length c ≤ e)%nat as Hle.
    { apply (f_equal length) in Hd. rewrite length_drop, length_take in Hd. cbn [concat] in Hd. rewrite length_app in Hd. lia. }
    assert (take (n + length c) msg = take n msg ++ c) as Htk.
    { replace (take (n + length c) msg) with (take (n + length c) (take e msg)) by (rewrite take_take; f_equal; lia).
      replace (take n msg) with (take n (take e msg)) by (rewrite take_take; f_equal; lia).
      rewrite <- (take_drop n (take e msg)) at 1. rewrite Hd. cbn [concat].
      rewrite take_app_add' by (rewrite length_take, length_take; lia). by rewrite take_app_length. }
    cbn [length]. erewrite vnc_rounds_S.
    2:{ cbn [p_vs p_fb]. unfold vnc_thread. cbn [script_session ended vs_state first wq fmap list_fmap app].
        rewrite bool_decide_eq_false_2 by (unfold script_state; repeat case_match; done). cbn [orb].
        rewrite (bool_decide_eq_false_2 (c = [])) by done. cbn [andb].
        apply (script_pass version shared inc x y w h id ((Some <$> chunks) ++ q) strm fb fb' m sent c n); (done || lia). }
    cbn [p_vs p_fb p_sent p_err]. rewrite take_le_drop by (apply script_sent_le; lia).
    apply IH; [lia|]. rewrite <- drop_drop, Hd. cbn [concat]. by rewrite drop_app_length.
Qed.

(** after the handshake the client sets a format with 24 bits of colour, and then asks for
    the rectangle, each in one piece *)
Lemma format_rounds version shared inc x y w h id strm fb fb' m sent :
  calculate_fb_update deflate jpeg fb' [0] (join16 (u8 (Z.shiftr x 8)) (u8 x)) (join16 (u8 (Z.shiftr y 8)) (u8 y))
    (join16 (u8 (Z.shiftr w 8)) (u8 w)) (join16 (u8 (Z.shiftr h 8)) (u8 h)) 24 strm = Ok (Some m, strm, 0) →
  zlen version = 12 →
  ∃ v', vnc_rounds deflate jpeg 2 id
      (Pass (script_session (client_script version shared inc x y w h)
               (Some <$> [[0; 0; 0; 0] ++ little_endian_bytes; [3; inc] ++ be16 x ++ be16 y ++ be16 w ++ be16 h]) strm 14)
            (script_fb fb fb' 14) sent 0) =
      Ok (Pass v' fb' (sent ++ [m]) 0) ∧ vs_state v' = vs_running_waiting_cmd ∧ vs_buffer v' = [] ∧ wq v' = [] ∧ vs_depth v' = 24.
Proof.
  intros Ecalc Hv. unfold script_session. replace (drop (script_used 14) (take 14 (client_script version shared inc x y w h))) with (@nil Z).
  2:{ rewrite drop_ge; [done|]. rewrite length_take. change (script_used 14) with 14%nat. lia. }
  change (script_state 14) with vs_running_waiting_cmd. change (script_cmd 14) with (-1). change (script_fb fb fb' 14) with fb'.
  set (rq := [3; inc] ++ be16 x ++ be16 y ++ be16 w ++ be16 h).
  exists (VncSession [] vs_running_waiting_cmd 24 [] strm false true [0] (-1) false (-1) (-1) false). split; [|done].
  rewrite (vnc_rounds_S 1 _ _ (Pass (VncSession [] vs_running_waiting_cmd 24 [Some rq] strm false true [0] (-1) false 0 (-1) false) fb' [] 0))
    by reflexivity.
  rewrite (vnc_rounds_S 0 _ _ (Pass (VncSession [] vs_running_waiting_cmd 24 [] strm false true [0] (-1) false (-1) (-1) false) fb' [m] 0)).
  - cbn [p_vs p_fb p_sent p_err vnc_rounds]. by rewrite app_nil_r.
  - cbn [p_vs p_fb]. unfold vnc_thread. cbn [ended vs_state first wq].
    rewrite bool_decide_eq_false_2 by done. cbn [orb]. rewrite (bool_decide_eq_false_2 (rq = [])) by done. cbn [andb].
    unfold rq, vnc_pass. run_stages Ecalc Ecalc. reflexivity.
Qed.
End Served.

Lemma new_data_queue {Zs} pieces (v : vnc_session_data Zs) :
  Forall (λ c, c ≠ []) pieces → foldl vnc_new_data v pieces = with_wq (wq v ++ (Some <$> pieces)) v.
Proof.
  intros Hne. revert v. induction Hne as [|c cs Hc _ IH]; intros v.
  - cbn. rewrite app_nil_r. by destruct v.
  - cbn [foldl]. rewrite IH. destruct c; [done|]. cbn. by rewrite <- app_assoc.
Qed.

Lemma vnc_rounds_add {Zs} (deflate : Zs → list Z → Z → Zs * list Z) jpeg n k id p :
  vnc_rounds deflate jpeg (n + k) id p = let* q := vnc_rounds deflate jpeg n id p in vnc_rounds deflate jpeg k id q.
Proof.
  revert p. induction n as [|n IH]; intros p; [done|]. cbn [Nat.add vnc_rounds].
  destruct (vnc_thread deflate jpeg false id (p_vs p) (p_fb p)); [|done]. apply IH.
Qed.

(** what the client sends first: its version, the security type and whether to share *)
Definition client_hello (version : list Z) (shared : Z) : list Z := version ++ [1; shared].
Definition client_request (inc w h : Z) : list Z := [3; inc] ++ be16 0 ++ be16 0 ++ be16 w ++ be16 h.



(** ** Sessions and the frame buffer *)

(** the states before the session is registered *)
Definition handshaking (s : vnc_state_t) : bool :=
  match s with
  | vs_initial_handshake_server_send | vs_initial_handshake_client_resp | vs_security_handshake_server
  | vs_security_handshake_client_resp | vs_client_init | vs_server_init => true
  | _ => false
  end.

Section Callbacks.
Context {Zs : Type} (deflate : Zs → list Z → Z → Zs * list Z) (jpeg : list Z → Z → Z → list Z) (id : Z).

(** only a session that has finished the handshake is registered *)
Definition registered_late (p : pass Zs) : Prop := id ∈ callbacks (p_fb p) → handshaking (vs_state (p_vs p)) = false.

(** what a part of a round leaves alone *)
Definition keeps (p p' : pass Zs) : Prop :=
  wq (p_vs p') = wq (p_vs p) ∧ ended (p_vs p') = ended (p_vs p) ∧ first (p_vs p') = first (p_vs p) ∧
  (∀ j, j ≠ id → j ∈ callbacks (p_fb p') ↔ j ∈ callbacks (p_fb p)) ∧
  (registered_late p → registered_late p').

#[local] Instance keeps_preorder : PreOrder keeps.
Proof.
  split; [by intros p|]. intros p q r (E1 & E2 & E3 & E4 & E5) (F1 & F2 & F3 & F4 & F5).
  split_and!; try congruence; [|auto]. intros j Hj. by rewrite F4, E4.
Qed.

(** splits a part of a round into its cases *)
Ltac stage_cases H :=
  unfold when_state, with_data in H;
  repeat match type of H with
  | res_bind _ _ = Ok _ => res_step H
  | (if ?b then _ else _) = _ => destruct b eqn:?
  | match ?x with _ => _ end = _ => destruct x eqn:?
  end; try discriminate H.

(** the callbacks are untouched and the new state is not one of the handshake unless the
    old one was *)
Lemma keeps_same (p p' : pass Zs) :
  wq (p_vs p') = wq (p_vs p) → ended (p_vs p') = ended (p_vs p) → first (p_vs p') = first (p_vs p) →
  callbacks (p_fb p') = callbacks (p_fb p) →
  (handshaking (vs_state (p_vs p)) = false → handshaking (vs_state (p_vs p')) = false) → keeps p p'.
Proof.
  intros E1 E2 E3 E4 E5. unfold keeps, registered_late. rewrite E1, E2, E3, E4. split_and!; try done. intros H Hi. auto.
Qed.

Ltac solve_keeps H :=
  stage_cases H; injection H as <-; try reflexivity; apply keeps_same; try done;
  cbn in *; repeat match goal with E : vs_state _ = _ |- _ => rewrite E in * end; done.

Lemma keeps_send_update x y w h d (p p' : pass Zs) : send_update deflate jpeg x y w h d p = Ok p' → keeps p p'.
Proof. unfold send_update. intros H. res_step H. destruct a as [[m s] e]. injection H as <-. by apply keeps_same. Qed.

Lemma keeps_server_init p p' : stage_server_init id p = Ok p' → keeps p p'.
Proof.
  unfold stage_server_init, register_callback. intros H. stage_cases H; [|injection H as <-; reflexivity].
  res_step E. injection E as <-. injection H as <-. split_and!; try done.
  intros j Hj. cbn. set_solver.
Qed.

Lemma keeps_waiting_data p p' : stage_waiting_data deflate jpeg p = Ok p' → keeps p p'.
Proof.
  unfold stage_waiting_data. intros H. stage_cases H; try (injection H as <-; try reflexivity; by apply keeps_same).
  injection H as <-. apply keeps_send_update in E7. etrans; [|etrans; [exact E7|]]; by apply keeps_same.
Qed.

Lemma keeps_pass cont p p' : vnc_pass deflate jpeg id cont p = Ok p' → keeps p p'.
Proof.
  unfold vnc_pass. intros H. repeat res_step H. injection H as <-.
  assert (keeps p a) by (unfold stage_server_send in E; solve_keeps E).
  assert (keeps a a0) by (unfold stage_client_resp in E0; solve_keeps E0).
  assert (keeps a0 a1) by (unfold stage_security_server in E1; solve_keeps E1).
  assert (keeps a1 a2) by (unfold stage_security_resp in E2; solve_keeps E2).
  assert (keeps a2 a3) by (unfold stage_client_init in E3; solve_keeps E3).
  assert (keeps a3 a4) by (by apply keeps_server_init).
  assert (keeps a4 a5).
  { unfold stage_continuous in E5. destruct cont; [by eapply keeps_send_update|]. injection E5 as <-. reflexivity. }
  assert (keeps a5 a6) by (unfold stage_waiting_cmd in E6; solve_keeps E6).
  assert (keeps a6 a7) by (by apply keeps_waiting_data).
  assert (keeps a7 a8) by (unfold stage_ignore in E8; solve_keeps E8).
  assert (keeps a8 a9) by (unfold stage_data_extra in E9; solve_keeps E9).
  assert (keeps a9 (stage_rc a9)).
  { unfold stage_rc. destruct (vs_rc (p_vs a9)); [reflexivity|]. by apply keeps_same. }
  repeat (etrans; [eassumption|]). reflexivity.
Qed.
End Callbacks.

Section Server.
Context {Zs : Type} (deflate : Zs → list Z → Z → Zs * list Z) (jpeg : list Z → Z → Z → list Z).

(** the frame buffer and the sessions that exist, by their addresses *)
Record vnc_server := VncServer { sv_fb : frame_buffer_t; sv_sessions : gmap Z (vnc_session_data Zs) }.

(** [callback]: the work queue of every registered session gets an entry *)
Definition vnc_callback (sv : vnc_server) : res vnc_server :=
  let* ss := res_fold (λ ss i, match ss !! i with Some v => Ok (<[i := vnc_ask_update v]> ss) | None => Err bad_access end)
               (sv_sessions sv) (elements (callbacks (sv_fb sv))) in
  Ok (VncServer (sv_fb sv) ss).

(** a connection that is closed while a round runs may find its [vs_terminate] overwritten;
    the null pointer in the queue stays *)
Inductive vnc_step : vnc_server → vnc_server → Prop :=
  | vnc_step_connect fb ss i strm :
      ss !! i = None → vnc_step (VncServer fb ss) (VncServer fb (<[i := vnc_new_session strm]> ss))
  | vnc_step_data fb ss i v data :
      ss !! i = Some v → vnc_step (VncServer fb ss) (VncServer fb (<[i := vnc_new_data v data]> ss))
  | vnc_step_thread stop fb ss i v p :
      ss !! i = Some v → vnc_thread deflate jpeg stop i v fb = Ok p →
      vnc_step (VncServer fb ss) (VncServer (p_fb p) (<[i := p_vs p]> ss))
  | vnc_step_draw fb ss buf :
      vnc_step (VncServer fb ss) (VncServer (FrameBuffer (fb_w fb) (fb_h fb) buf (callbacks fb)) ss)
  | vnc_step_callback sv sv' : vnc_callback sv = Ok sv' → vnc_step sv sv'
  | vnc_step_close fb ss i v v' :
      ss !! i = Some v → v' = vnc_close_begin v ∨ v' = with_wq (wq v ++ [None]) v →
      vnc_step (VncServer fb ss) (VncServer fb (<[i := v']> ss))
  | vnc_step_closed fb ss i v :
      ss !! i = Some v → ended v = true → vnc_step (VncServer fb ss) (VncServer fb (delete i ss)).

Inductive vnc_reachable : vnc_server → Prop :=
  | vnc_start : vnc_reachable (VncServer (vnc_init no_frame_buffer) ∅)
  | vnc_next sv sv' : vnc_reachable sv → vnc_step sv sv' → vnc_reachable sv'.

(** who is registered exists, runs and has finished the handshake *)
Definition vnc_inv (sv : vnc_server) : Prop :=
  ∀ i, i ∈ callbacks (sv_fb sv) →
    ∃ v, sv_sessions sv !! i = Some v ∧ ended v = false ∧ handshaking (vs_state v) = false.

Lemma vnc_callback_spec sv :
  vnc_inv sv →
  vnc_callback sv = Ok (VncServer (sv_fb sv)
    (map_imap (λ i v, Some (if decide (i ∈ callbacks (sv_fb sv)) then vnc_ask_update v else v)) (sv_sessions sv))).
Proof.
  intros Hi. unfold vnc_callback. set (cb := callbacks (sv_fb sv)).
  assert (∀ (l : list Z) (ss : gmap Z (vnc_session_data Zs)), NoDup l → (∀ i, i ∈ l → is_Some (ss !! i)) →
    res_fold (λ ss i, match ss !! i with Some v => Ok (<[i := vnc_ask_update v]> ss) | None => Err bad_access end) ss l =
    Ok (map_imap (λ i v, Some (if decide (i ∈ l) then vnc_ask_update v else v)) ss)) as G.
  { induction l as [|j l IH]; intros ss Hnd Hl.
    - cbn. f_equal. apply map_eq. intros i. rewrite map_lookup_imap. by destruct (ss !! i).
    - apply NoDup_cons in Hnd as [Hj Hnd]. cbn. destruct (Hl j) as [v Ev]; [set_solver|]. rewrite Ev. cbn.
      rewrite IH; [|done|]. 2:{ intros i Hil. destruct (decide (j = i)) as [->|]; [by rewrite lookup_insert_eq|].
        rewrite lookup_insert_ne by done. apply Hl. set_solver. }
      f_equal. apply map_eq. intros i. rewrite !map_lookup_imap. destruct (decide (i = j)) as [->|Hne].
      + rewrite lookup_insert_eq, Ev. cbn. rewrite decide_False by done. by rewrite decide_True by set_solver.
      + rewrite lookup_insert_ne by done. destruct (ss !! i); [|done]. cbn.
        f_equal. apply decide_ext. set_solver. }
  rewrite G; [|apply NoDup_elements|].
  - cbn. do 2 f_equal. apply map_imap_ext. intros i. destruct (sv_sessions sv !! i); [|done]. cbn.
    do 2 f_equal. apply decide_ext. apply elem_of_elements.
  - intros i Hel%elem_of_elements. destruct (Hi i Hel) as (v & -> & _). done.
Qed.

Lemma vnc_thread_inv stop i v fb p :
  (i ∈ callbacks fb → ended v = false ∧ handshaking (vs_state v) = false) →
  vnc_thread deflate jpeg stop i v fb = Ok p →
  (∀ j, j ≠ i → j ∈ callbacks (p_fb p) → j ∈ callbacks fb) ∧
  (i ∈ callbacks (p_fb p) → ended (p_vs p) = false ∧ handshaking (vs_state (p_vs p)) = false).
Proof.
  intros Hi. unfold vnc_thread. destruct (ended v) eqn:Ee; [intros [= <-]; cbn; rewrite Ee; split; [done|auto]|].
  assert (∀ w : vnc_session_data Zs, (∀ j, j ≠ i → j ∈ callbacks (p_fb (vnc_finish i w fb)) → j ∈ callbacks fb) ∧
    (i ∈ callbacks (p_fb (vnc_finish i w fb)) → ended (p_vs (vnc_finish i w fb)) = false ∧
      handshaking (vs_state (p_vs (vnc_finish i w fb))) = false)) as Hf.
  { intros w. cbn. split; [set_solver|]. set_solver. }
  assert (∀ cont w, ended w = false → vs_state w = vs_state v →
    vnc_pass deflate jpeg i cont (Pass w fb [] 0) = Ok p →
    (∀ j, j ≠ i → j ∈ callbacks (p_fb p) → j ∈ callbacks fb) ∧
    (i ∈ callbacks (p_fb p) → ended (p_vs p) = false ∧ handshaking (vs_state (p_vs p)) = false)) as Hp.
  { intros cont w Ew Es (_ & K2 & _ & K4 & K5)%keeps_pass. cbn in K2, K4, K5. split; [intros j Hj; by apply K4|].
    intros Hin. split; [congruence|]. apply K5; [|done]. intros Hc. cbn in *. rewrite Es. by apply Hi. }
  destruct (bool_decide _ || stop); [intros [= <-]; apply Hf|].
  destruct (first v); [by apply Hp|].
  destruct (wq v) as [|[d|] q]; [intros [= <-]; cbn; rewrite Ee; split; [done|auto]|by apply Hp|intros [= <-]; apply Hf].
Qed.

Lemma vnc_inv_step sv sv' : vnc_inv sv → vnc_step sv sv' → vnc_inv sv'.
Proof.
  intros Hi Hs. destruct Hs as [fb ss i strm E|fb ss i v data E|stop fb ss i v p E Et|fb ss buf|sv sv' E|fb ss i v v' E Ev|fb ss i v E Ee];
    unfold vnc_inv in *; cbn [sv_fb sv_sessions] in *.
  - intros j Hj. destruct (Hi j Hj) as (v & Ev & ?). exists v. rewrite lookup_insert_ne by congruence. done.
  - intros j Hj. destruct (Hi j Hj) as (w & Ew & ? & ?). destruct (decide (i = j)) as [->|].
    + rewrite lookup_insert_eq. assert (w = v) as -> by congruence. exists (vnc_new_data v data). by destruct data.
    + rewrite lookup_insert_ne by done. eauto.
  - destruct (vnc_thread_inv stop i v fb p) as [H1 H2]; [|done|].
    { intros Hj. destruct (Hi i Hj) as (w & Ew & ?). by assert (w = v) as -> by congruence. }
    intros j Hj. destruct (decide (i = j)) as [->|]; [rewrite lookup_insert_eq; eauto|].
    rewrite lookup_insert_ne by done. apply Hi, H1; [congruence|done].
  - exact Hi.
  - rewrite vnc_callback_spec in E by exact Hi. injection E as <-. cbn. intros j Hj. destruct (Hi j Hj) as (v & Ev & H1 & H2).
    rewrite map_lookup_imap, Ev. cbn. rewrite decide_True by done. by exists (vnc_ask_update v).
  - intros j Hj. destruct (Hi j Hj) as (w & Ew & ? & ?). destruct (decide (i = j)) as [->|].
    + rewrite lookup_insert_eq. assert (w = v) as -> by congruence. exists v'. by destruct Ev; subst.
    + rewrite lookup_insert_ne by done. eauto.
  - intros j Hj. destruct (Hi j Hj) as (w & Ew & ? & ?). rewrite lookup_delete_ne; [eauto|]. intros ->. congruence.
Qed.

Lemma vnc_reachable_inv sv : vnc_reachable sv → vnc_inv sv.
Proof.
  induction 1 as [|sv sv' _ IH Hs]; [|by eapply vnc_inv_step]. intros i Hi. cbn in Hi. set_solver.
Qed.
End Server.

(** whatever the clients send and whenever they come and go, the frame buffer only knows
    sessions that exist and whose thread runs: telling them of a new picture is safe and
    puts one entry in the queue of every registered session and of no other; and a session
    that finishes its handshake is not yet registered, so the assertion of
    [register_callback] holds. *)
Theorem vnc_callbacks_live {Zs} (deflate : Zs → list Z → Z → Zs * list Z) (jpeg : list Z → Z → Z → list Z) sv :
  vnc_reachable deflate jpeg sv →
  vnc_callback sv = Ok (VncServer (sv_fb sv)
    (map_imap (λ i v, Some (if decide (i ∈ callbacks (sv_fb sv)) then vnc_ask_update v else v)) (sv_sessions sv))) ∧
  (∀ i, i ∈ callbacks (sv_fb sv) → ∃ v, sv_sessions sv !! i = Some v ∧ ended v = false) ∧
  (∀ i v, sv_sessions sv !! i = Some v → handshaking (vs_state v) = true → ∃ fb, register_callback (sv_fb sv) i = Ok fb).
Proof.
  intros Hi%vnc_reachable_inv. split; [by apply vnc_callback_spec|]. split.
  - intros i Hin. destruct (Hi i Hin) as (v & ? & ? & _). eauto.
  - intros i v Ev Hh. unfold register_callback. rewrite bool_decide_eq_true_2; [cbn; eauto|].
    intros Hin. destruct (Hi i Hin) as (w & Ew & _ & ?). congruence.
Qed.
Lemma vnc_callbacks_live_witness :
  vnc_callback (VncServer (Zs := unit) (vnc_init no_frame_buffer) (<[7 := vnc_new_session tt]> ∅)) =
    Ok (VncServer (vnc_init no_frame_buffer)
      (map_imap (λ i v, Some (if decide (i ∈ callbacks (vnc_init no_frame_buffer)) then vnc_ask_update v else v)) (<[7 := vnc_new_session tt]> ∅))).
Proof.
  apply (vnc_callbacks_live (λ s _ _, (s, [])) (λ _ _ _, [])).
  eapply vnc_next; [apply vnc_start|]. by apply vnc_step_connect.
Defined.

(** ** The end of a session *)

Section Ending.
Context {Zs : Type} (deflate : Zs → list Z → Z → Zs * list Z) (jpeg : list Z → Z → Z → list Z).

Lemma vnc_rounds_ended n id p p' :
  ended (p_vs p) = true → vnc_rounds deflate jpeg n id p = Ok p' → p_vs p' = p_vs p ∧ p_fb p' = p_fb p.
Proof.
  revert p. induction n as [|n IH]; intros p He; cbn [vnc_rounds]; [by intros [= <-]|].
  unfold vnc_thread at 1. rewrite He. cbn [res_bind p_vs p_fb]. intros H. apply IH in H; [|done]. done.
Qed.

(** a round takes one entry of the queue, the first one none *)
Lemma vnc_thread_progress id v fb p pre post :
  wq v = pre ++ None :: post → ended v = false → vnc_thread deflate jpeg false id v fb = Ok p →
  (ended (p_vs p) = true ∧ id ∉ callbacks (p_fb p)) ∨
  (ended (p_vs p) = false ∧ first (p_vs p) = false ∧
    ∃ pre', wq (p_vs p) = pre' ++ None :: post ∧ (length pre' + (if first v then 0 else 1) = length pre)%nat).
Proof.
  intros Eq Ee. unfold vnc_thread. rewrite Ee.
  destruct (bool_decide _ || false); [intros [= <-]; left; cbn; split; [done|set_solver]|].
  destruct (first v) eqn:Ef.
  - intros (K1 & K2 & K3 & _)%keeps_pass. right. cbn in *. split_and!; try congruence.
    exists pre. split; [congruence|lia].
  - rewrite Eq. destruct pre as [|[d|] pre]; cbn [app].
    + intros [= <-]; left; cbn; split; [done|set_solver].
    + intros (K1 & K2 & K3 & _)%keeps_pass. right. cbn in *. split_and!; try congruence.
      exists pre. split; [done|lia].
    + intros [= <-]; left; cbn; split; [done|set_solver].
Qed.

(** closing a connection ends its thread: whatever is still in the queue, and also when
    the state it set was overwritten by a round that was running, after one round per
    entry the null pointer is reached, the thread has left its loop and the frame buffer
    does not know the session any more, unless a round faults. *)
Theorem vnc_close_ends id v fb pre post sent err n :
  wq v = pre ++ None :: post → (length pre + 2 ≤ n)%nat → ended v = false →
  match vnc_rounds deflate jpeg n id (Pass v fb sent err) with
  | Ok p => ended (p_vs p) = true ∧ id ∉ callbacks (p_fb p)
  | Err _ => ∃ k p, (k < length pre + 2)%nat ∧ vnc_rounds deflate jpeg k id (Pass v fb sent err) = Ok p ∧
      ∃ f, vnc_thread deflate jpeg false id (p_vs p) (p_fb p) = Err f
  end.
Proof.
  intros Eq Hn Ee.
  assert (∀ m v fb sent err pre, wq v = pre ++ None :: post → ended v = false → (length pre + (if first v then 2 else 1) ≤ m)%nat →
    match vnc_rounds deflate jpeg m id (Pass v fb sent err) with
    | Ok p => ended (p_vs p) = true ∧ id ∉ callbacks (p_fb p)
    | Err _ => ∃ k p, (k < length pre + (if first v then 2 else 1))%nat ∧ vnc_rounds deflate jpeg k id (Pass v fb sent err) = Ok p ∧
        ∃ f, vnc_thread deflate jpeg false id (p_vs p) (p_fb p) = Err f
    end) as G.
  { clear -deflate. induction m as [|m IH]; intros v fb sent err pre Eq Ee Hm; [destruct (first v); lia|].
    cbn [vnc_rounds p_vs p_fb]. destruct (vnc_thread deflate jpeg false id v fb) as [q|f] eqn:Et; cbn [res_bind].
    2:{ exists O, (Pass v fb sent err). split; [destruct (first v); lia|]. split; [done|]. by exists f. }
    destruct (vnc_thread_progress id v fb q pre post Eq Ee Et) as [[Hq1 Hq2]|(Hq1 & Hq2 & pre' & Hq3 & Hq4)].
    - destruct (vnc_rounds _ _ m id _) as [p|f] eqn:Er.
      + apply vnc_rounds_ended in Er as [-> ->]; [|done]. done.
      + exfalso. clear -Er Hq1. revert Er. generalize (p_sent (Pass v fb sent err) ++ p_sent q), (p_err (Pass v fb sent err) + p_err q).
        induction m as [|m IH]; intros s e; [done|]. cbn [vnc_rounds p_vs p_fb]. unfold vnc_thread at 1. rewrite Hq1. cbn [res_bind p_vs p_fb].
        apply IH.
    - specialize (IH (p_vs q) (p_fb q) (sent ++ p_sent q) (err + p_err q) pre' Hq3 Hq1). rewrite Hq2 in IH.
      cbn [p_sent p_err]. destruct (vnc_rounds _ _ m id _) as [p|f] eqn:Er; [apply IH; destruct (first v); lia|].
      destruct IH as (k & p & Hk & Ek & Hf); [destruct (first v); lia|].
      exists (S k), p. split; [destruct (first v); lia|]. split; [|done]. cbn [vnc_rounds p_vs p_fb]. rewrite Et. done. }
  specialize (G n v fb sent err pre Eq Ee). destruct (vnc_rounds _ _ n id _); [apply G; destruct (first v); lia|].
  destruct G as (k & p & Hk & Hr); [destruct (first v); lia|]. exists k, p. split; [destruct (first v); lia|done].
Qed.
End Ending.
Lemma vnc_close_ends_witness :
  match vnc_rounds (Zs := unit) (λ s _ _, (s, [])) (λ _ _ _, []) 4 7
          (Pass (vnc_close_begin (vnc_new_data (vnc_new_session tt) [65])) no_frame_buffer [] 0) with
  | Ok p => ended (p_vs p) = true ∧ 7 ∉ callbacks (p_fb p)
  | Err _ => ∃ k p, (k < 3)%nat ∧
      vnc_rounds (Zs := unit) (λ s _ _, (s, [])) (λ _ _ _, []) k 7
          (Pass (vnc_close_begin (vnc_new_data (vnc_new_session tt) [65])) no_frame_buffer [] 0) = Ok p ∧
      ∃ f, vnc_thread (λ s _ _, (s, [])) (λ _ _ _, []) false 7 (p_vs p) (p_fb p) = Err f
  end.
Proof. apply (vnc_close_ends _ _ 7 _ no_frame_buffer [Some [65]] []); [done|cbn; lia|done]. Defined.

(** ** What goes wrong *)

(** a session that waits for a command *)
Definition waiting (encs : list Z) (q : list vnc_thread_work_t) : vnc_session_data unit :=
  VncSession [] vs_running_waiting_cmd 32 q tt false true encs (-1) false (-1) (-1) false.
Definition small_fb : frame_buffer_t := FrameBuffer 16 16 (Some (replicate 768 0)) {[ 7 ]}.
Definition vnc_round1 (v : vnc_session_data unit) (fb : frame_buffer_t) : res (pass unit) :=
  vnc_thread (λ s _ _, (s, [])) (λ _ _ _, []) false 7 v fb.

(** a text of no bytes fails an assertion *)
Lemma cut_text_aborts : vnc_round1 (waiting [0] [Some [6; 0; 0; 0; 0; 0; 0; 0]]) small_fb = Err assert_failed.
Proof. vm_compute. done. Qed.

(** a rectangle of one pixel in hextile needs five bytes, four are allocated *)
Lemma small_hextile_overrun : vnc_round1 (waiting [5] [Some ([3; 0] ++ be16 0 ++ be16 0 ++ be16 1 ++ be16 1)]) small_fb = Err bad_access.
Proof. vm_compute. done. Qed.

(** a tile of several colours needs 1025 bytes, 1024 are allocated *)
Lemma raw_tile_overrun :
  vnc_round1 (waiting [5] [Some ([3; 0] ++ be16 0 ++ be16 0 ++ be16 16 ++ be16 16)]) (FrameBuffer 16 16 (Some (1 :: replicate 767 0)) {[ 7 ]}) = Err bad_access.
Proof. vm_compute. done. Qed.

(** the rows of a rectangle are taken to be as wide as the rectangle: of a screen of 2 x 2
    pixels the right column shows the pixels 1 and 2 instead of 1 and 3 *)
Lemma narrow_rectangle_wrong :
  (let* '(m, _, _) := calculate_fb_update (Zs := unit) (λ s _ _, (s, [])) (λ _ _ _, [])
         (FrameBuffer 2 2 (Some [0; 0; 0; 1; 1; 1; 2; 2; 2; 3; 3; 3]) ∅) [0] 1 0 1 2 32 tt in Ok (m ≫= read_update little_endian_format)) =
  Ok (Some (1, 0, 1, 2, [((0, 0), (1, 1, 1)); ((1, 0), (2, 2, 2))])).
Proof. vm_compute. done. Qed.

(** of two commands that arrive together only the first is handled, the other waits for
    more data or a new picture *)
Lemma second_command_waits :
  (let* p := vnc_round1 (waiting [0] [Some ([5; 0; 0; 0; 0; 0] ++ [3; 0] ++ be16 0 ++ be16 0 ++ be16 1 ++ be16 1)]) small_fb in
   Ok (p_sent p, zlen (vs_buffer (p_vs p)), wq (p_vs p))) = Ok ([], 10, []).
Proof. vm_compute. done. Qed.
