(* ===== verification/Mqtt.v ===== *)
(** * The MQTT broker (src/mqtt.cpp, [mqtt_session_data] of src/types.h)

    The tables of subscriptions, [publish], the callbacks of TCP and the thread of a
    session.  A session is a number, the pointer to its [mqtt_session_data]; the tables
    hold such pointers, and queueing a message for one that was deleted is a fault.
    The thread is cut at its tests of [terminate], which another thread sets without a
    lock, and at every round of the wait in [mqtt_get_bytes].  [mqtt_get_bytes] never
    returns false, so that [finished] in the receiver stays false.

    Shown: in every reachable state the subscribers are sessions that exist, so that
    publishing is safe; a PUBLISH packet is forwarded byte for byte, once for every
    matching subscription; SUBSCRIBE adds what it names; a closed session that is
    between two packets ends.  Packets of more than 127 bytes and packets that are
    cut off by the end of a session are not handled as MQTT says; lemmas show how. *)
From S2P Require Import Prelude Str.
Open Scope Z_scope.

(** ** State *)

(** where the thread of a session is *)
Inductive thread_at :=
  | at_loop                             (* the test of the outer loop *)
  | at_control                          (* in [mqtt_get_byte] for the control byte *)
  | at_length (control len : Z)         (* the test of the loop over the length *)
  | at_length_byte (control len : Z)    (* in [mqtt_get_byte] for a byte of the length *)
  | at_body (control len : Z)           (* in [mqtt_get_bytes] for the message *)
  | at_end.                             (* the thread has returned *)

(** [data] with its [data_len] bytes, and the variable [identifier] of the thread *)
Record mqtt_session_data := Msd {
  msd_data : list Z;
  msgs_out : list (list Z);
  session_name : str;
  terminate : bool;
  identifier : str;
  msd_at : thread_at;
}.

Definition set_data (m : mqtt_session_data) (d : list Z) :=
  Msd d (msgs_out m) (session_name m) (terminate m) (identifier m) (msd_at m).
Definition set_msgs_out (m : mqtt_session_data) (o : list (list Z)) :=
  Msd (msd_data m) o (session_name m) (terminate m) (identifier m) (msd_at m).
Definition set_at (m : mqtt_session_data) (a : thread_at) :=
  Msd (msd_data m) (msgs_out m) (session_name m) (terminate m) (identifier m) a.
Definition set_terminate (m : mqtt_session_data) :=
  Msd (msd_data m) (msgs_out m) (session_name m) true (identifier m) (msd_at m).
Definition set_names (m : mqtt_session_data) (name ident : str) :=
  Msd (msd_data m) (msgs_out m) name (terminate m) ident (msd_at m).

(** the static variables and the sessions that exist *)
Record broker := Broker {
  topic_subscriptions : gmap str (gset Z);
  topic_wc_subscriptions : list (str * gset Z);
  msds : gmap Z mqtt_session_data;
}.

Definition mqtt_start : broker := Broker ∅ [] ∅.
Definition set_msds (b : broker) (ms : gmap Z mqtt_session_data) : broker :=
  Broker (topic_subscriptions b) (topic_wc_subscriptions b) ms.
Definition put_msd (b : broker) (id : Z) (m : mqtt_session_data) : broker := set_msds b (<[id := m]> (msds b)).

(** ** Topics *)

(** ['#'] *)
Definition wildcard : Z := 35.

Fixpoint wc_insert (l : list (str * gset Z)) (topic : str) (id : Z) : list (str * gset Z) :=
  match l with
  | [] => [(topic, {[ id ]})]
  | (t, s) :: l' => if decide (t = topic) then (t, {[ id ]} ∪ s) :: l' else (t, s) :: wc_insert l' topic id
  end.

Definition register_topic (b : broker) (topic : str) (id : Z) : broker :=
  match find [wildcard] topic with
  | None =>
      let s := match topic_subscriptions b !! topic with Some s => {[ id ]} ∪ s | None => {[ id ]} end in
      Broker (<[topic := s]> (topic_subscriptions b)) (topic_wc_subscriptions b) (msds b)
  | Some _ => Broker (topic_subscriptions b) (wc_insert (topic_wc_subscriptions b) topic id) (msds b)
  end.

Fixpoint wc_erase (l : list (str * gset Z)) (topic : str) (id : Z) : list (str * gset Z) :=
  match l with
  | [] => []
  | (t, s) :: l' => if decide (t = topic) then (t, s ∖ {[ id ]}) :: l' else (t, s) :: wc_erase l' topic id
  end.

Definition unregister_topic (b : broker) (topic : str) (id : Z) : broker :=
  let subs :=
    match topic_subscriptions b !! topic with
    | Some s => <[topic := s ∖ {[ id ]}]> (topic_subscriptions b)
    | None => topic_subscriptions b
    end in
  Broker subs (wc_erase (topic_wc_subscriptions b) topic id) (msds b).

Definition unregister_all_topics (b : broker) (id : Z) : broker :=
  Broker ((λ s, s ∖ {[ id ]}) <$> topic_subscriptions b)
         ((λ p, (p.1, p.2 ∖ {[ id ]})) <$> topic_wc_subscriptions b) (msds b).

(** ** Publishing *)

(** the loop over [rem_len], an [int] of at most 31 bits: five rounds *)
Fixpoint length_bytes (fuel : nat) (rem_len : Z) : res (list Z) :=
  if 0 <? rem_len then
    match fuel with
    | O => Err out_of_fuel
    | S fuel' =>
        let* l := length_bytes fuel' (Z.shiftr rem_len 7) in
        Ok ((if 127 <? rem_len then Z.lor 127 128 else rem_len) :: l)
    end
  else Ok [].

Definition publish_message (topic : str) (data : list Z) : res (list Z) :=
  let var_header_len := 2 + zlen topic in
  let* rem := length_bytes 5 (s32 (var_header_len + zlen data)) in
  Ok ([Z.shiftl 3 4] ++ rem ++ [u8 (Z.shiftr (zlen topic) 8); Z.land (zlen topic) 255] ++ topic ++ data).

(** [s_it->msgs_out.push_back(...)] for the sessions of a set *)
Fixpoint queue_for_all (ms : gmap Z mqtt_session_data) (ids : list Z) (msg : list Z) : res (gmap Z mqtt_session_data) :=
  match ids with
  | [] => Ok ms
  | id :: ids' =>
      match ms !! id with
      | None => Err bad_access
      | Some m => queue_for_all (<[id := set_msgs_out m (msgs_out m ++ [msg])]> ms) ids' msg
      end
  end.

Fixpoint queue_wildcards (ms : gmap Z mqtt_session_data) (l : list (str * gset Z)) (topic : str) (msg : list Z)
  : res (gmap Z mqtt_session_data) :=
  match l with
  | [] => Ok ms
  | (t, s) :: l' =>
      match find [wildcard] t with
      | None => Err assert_failed
      | Some wc =>
          let* ms := if decide (take wc topic = take wc t) then queue_for_all ms (elements s) msg else Ok ms in
          queue_wildcards ms l' topic msg
      end
  end.

(** no two entries of the map have the same topic *)
Definition publish (b : broker) (topic : str) (data : list Z) : res broker :=
  let* msg := publish_message topic data in
  let* ms :=
    match topic_subscriptions b !! topic with
    | None => Ok (msds b)
    | Some s => queue_for_all (msds b) (elements s) msg
    end in
  let* ms := queue_wildcards ms (topic_wc_subscriptions b) topic msg in
  Ok (set_msds b ms).

(** ** The callbacks of TCP *)

Definition mqtt_new_session (b : broker) (id : Z) (their_addr : str) : broker :=
  put_msd b id (Msd [] [] their_addr false [] at_loop).

(** without data the thread is only woken *)
Definition mqtt_new_data (b : broker) (id : Z) (bytes : list Z) : bool * broker :=
  match msds b !! id with
  | None => (false, b)
  | Some m => (true, put_msd b id (set_data m (msd_data m ++ bytes)))
  end.

(** [mqtt_close_session_2] up to the join, and after it *)
Definition mqtt_close_begin (b : broker) (id : Z) : broker :=
  match msds b !! id with Some m => put_msd b id (set_terminate m) | None => b end.
Definition mqtt_close_end (b : broker) (id : Z) : broker := set_msds b (delete id (msds b)).

(** ** The thread of a session *)

Inductive get_result :=
  | waits                   (* until [w_cond] is notified *)
  | gives_up                (* returns true; the target is as it was *)
  | gets (bytes : list Z).

(** one round of [mqtt_get_bytes]: the messages that are sent, the session, the result *)
Definition mqtt_get_bytes (m : mqtt_session_data) (n : Z) : list (list Z) * mqtt_session_data * get_result :=
  if terminate m then ([], m, gives_up)
  else
    let sent := msgs_out m in
    let m := set_msgs_out m [] in
    if n <=? zlen (msd_data m) then
      (sent, set_data m (drop (Z.to_nat n) (msd_data m)), gets (take (Z.to_nat n) (msd_data m)))
    else (sent, m, waits).

(** the byte in a variable that is 0 before the call *)
Definition got_byte (r : get_result) : Z := match r with gets (c :: _) => c | _ => 0 end.

(** [new uint8_t[n]]: what is in it is what was there *)
Definition new_memory (heap : Z → Z) (n : Z) : list Z := (λ i, u8 (heap (Z.of_nat i))) <$> seq 0 (Z.to_nat n).

(** [len <<= 7; len |= b & 127;] *)
Definition add_length (len b : Z) : Z := Z.lor (u32 (Z.shiftl len 7)) (Z.land b 127).

(** [std::string(p + o, n)]: a negative [n] is a huge one *)
Definition string_at (mem : list Z) (o n : Z) : res str := if n <? 0 then Err length_error else rd_range mem o n.

(** [(mqtt_msg[o] << 8) | mqtt_msg[o + 1]] *)
Definition msg_short (mem : list Z) (o : Z) : res Z :=
  let* a := rd mem o in
  let* b := rd mem (o + 1) in
  Ok (join16 a b).

(** CONNECT *)
Definition mqtt_connect (b : broker) (id : Z) (mem : list Z) (len : Z) : res (broker * list Z) :=
  match msds b !! id with
  | None => Err bad_access
  | Some m =>
      let* ident := if 12 <? len then (let* text := rd_range mem 12 (zlen mem - 12) in Ok (c_str text))
                    else Ok (identifier m) in
      let name := if decide (ident = []) then session_name m else ident in
      Ok (put_msd b id (set_names m name ident), [0x20; 0x02; 0x00; 0x00])
  end.

(** PUBLISH *)
Definition mqtt_publish (b : broker) (control : Z) (mem : list Z) (len : Z) : res (broker * list Z) :=
  let* l := msg_short mem 0 in
  let topic_len := Z.min l (s32 len) in
  let* topic := string_at mem 2 topic_len in
  let o := 2 + topic_len in
  let* '(msg_id, o) :=
    if negb (Z.land (Z.shiftr control 1) 3 =? 0) then (let* i := msg_short mem o in Ok (i, o + 2)) else Ok (0, o) in
  let payload_len := s32 (len - o) in
  let* b :=
    if 0 <? payload_len then (let* payload := rd_range mem o payload_len in publish b topic payload) else Ok b in
  Ok (b, [Z.shiftl 4 4; 2; Z.shiftr msg_id 8; Z.land msg_id 255]).

(** the topic at [o] *)
Definition topic_at (mem : list Z) (len o : Z) : res (str * Z) :=
  let* l := msg_short mem o in
  let topic_len := Z.min l (s32 (len - o)) in
  let* topic := string_at mem (o + 2) topic_len in
  Ok (topic, topic_len).

(** the loop of SUBSCRIBE *)
Fixpoint subscribe_loop (fuel : nat) (b : broker) (id : Z) (mem : list Z) (len o : Z) (reply : list Z)
  : res (broker * list Z) :=
  if o <? len then
    match fuel with
    | O => Err out_of_fuel
    | S fuel' =>
        let* '(topic, topic_len) := topic_at mem len o in
        subscribe_loop fuel' (register_topic b topic id) id mem len (u32 (u32 (o + (2 + topic_len)) + 1)) (reply ++ [2])
    end
  else Ok (b, reply).

(** the loop of UNSUBSCRIBE *)
Fixpoint unsubscribe_loop (fuel : nat) (b : broker) (id : Z) (mem : list Z) (len o : Z) (reply : list Z)
  : res (broker * list Z) :=
  if o <? len then
    match fuel with
    | O => Err out_of_fuel
    | S fuel' =>
        let* '(topic, topic_len) := topic_at mem len o in
        unsubscribe_loop fuel' (unregister_topic b topic id) id mem len (u32 (o + (2 + topic_len))) (reply ++ [0])
    end
  else Ok (b, reply).

(** [reply.at(1) = reply.size() - 2;] *)
Definition reply_length (reply : list Z) : list Z := <[1%nat := u8 (zlen reply - 2)]> reply.

Definition mqtt_subscribe (b : broker) (id : Z) (mem : list Z) (len : Z) : res (broker * list Z) :=
  let* m0 := rd mem 0 in
  let* m1 := rd mem 1 in
  let* '(b, reply) := subscribe_loop (Z.to_nat len) b id mem len 2 [Z.shiftl 9 4; 0; m0; m1] in
  Ok (b, reply_length reply).

Definition mqtt_unsubscribe (b : broker) (id : Z) (mem : list Z) (len : Z) : res (broker * list Z) :=
  let* m0 := rd mem 0 in
  let* m1 := rd mem 1 in
  let* '(b, reply) := unsubscribe_loop (Z.to_nat len) b id mem len 2 [Z.shiftl 11 4; 0; m0; m1] in
  Ok (b, reply_length reply).

(** what is done with a message, and the replies that are sent *)
Definition mqtt_message (b : broker) (id control len : Z) (mem : list Z) : res (broker * list (list Z)) :=
  let cmsg := Z.shiftr control 4 in
  let reply_with (r : res (broker * list Z)) := res_map (λ p, (p.1, [p.2])) r in
  if cmsg =? 1 then reply_with (mqtt_connect b id mem len)
  else if cmsg =? 3 then reply_with (mqtt_publish b control mem len)
  else if cmsg =? 8 then reply_with (mqtt_subscribe b id mem len)
  else if cmsg =? 10 then reply_with (mqtt_unsubscribe b id mem len)
  else if cmsg =? 12 then Ok (b, [[Z.shiftl 13 4; 0]])
  else Ok (b, []).

Inductive mqtt_out :=
  | mqtt_send (id : Z) (bytes : list Z)
  | mqtt_end_session (id : Z).

(** the state of the thread, when the session still exists *)
Definition move_to (b : broker) (id : Z) (a : thread_at) : broker :=
  set_msds b (alter (λ m, set_at m a) id (msds b)).

(** the message is complete, or [mqtt_get_bytes] gave up: it is handled *)
Definition body_done (heap : Z → Z) (b : broker) (id control len : Z) (bytes : list Z) : res (broker * list (list Z)) :=
  let* mem := wr_range (new_memory heap (u32 (len + 1))) 0 bytes in
  let* mem := wr mem len 0 in
  let* '(b, replies) := mqtt_message b id control len mem in
  Ok (move_to b id at_loop, replies).

Definition after_get (b : broker) (id : Z) (m : mqtt_session_data) (n : Z)
    (next : broker → list Z → Z → res (broker * list (list Z))) : res (broker * list mqtt_out) :=
  let '(sent, m, r) := mqtt_get_bytes m n in
  let b := put_msd b id m in
  let* '(b, replies) :=
    match r with
    | waits => Ok (b, [])
    | gives_up => next b [] 0
    | gets bytes => next b bytes (got_byte r)
    end in
  Ok (b, mqtt_send id <$> sent ++ replies).

(** the next part of [mqtt_recv_thread] *)
Definition mqtt_thread (heap : Z → Z) (b : broker) (id : Z) : res (broker * list mqtt_out) :=
  match msds b !! id with
  | None => Ok (b, [])
  | Some m =>
      match msd_at m with
      | at_loop =>
          if terminate m then Ok (move_to (unregister_all_topics b id) id at_end, [mqtt_end_session id])
          else Ok (move_to b id at_control, [])
      | at_control => after_get b id m 1 (λ b _ c, Ok (move_to b id (at_length c 0), []))
      | at_length control len =>
          Ok (move_to b id (if terminate m then at_body control len else at_length_byte control len), [])
      | at_length_byte control len =>
          after_get b id m 1 (λ b _ c,
            let len := add_length len c in
            Ok (move_to b id (if Z.land c 128 =? 0 then at_body control len else at_length control len), []))
      | at_body control len => after_get b id m len (λ b bytes _, body_done heap b id control len bytes)
      | at_end => Ok (b, [])
      end
  end.

(** ** All interleavings *)

Inductive mqtt_step : broker → broker → Prop :=
  | step_new_session b id their_addr :
      msds b !! id = None → mqtt_step b (mqtt_new_session b id their_addr)
  | step_new_data b id bytes : mqtt_step b (mqtt_new_data b id bytes).2
  | step_thread b id heap b' out : mqtt_thread heap b id = Ok (b', out) → mqtt_step b b'
  | step_close_begin b id : mqtt_step b (mqtt_close_begin b id)
  | step_close_end b id m :
      msds b !! id = Some m → terminate m = true → msd_at m = at_end → mqtt_step b (mqtt_close_end b id).

Fixpoint mqtt_run (n : nat) (heap : Z → Z) (b : broker) (id : Z) : res (broker * list mqtt_out) :=
  match n with
  | O => Ok (b, [])
  | S n' =>
      let* '(b, o1) := mqtt_thread heap b id in
      let* '(b, o2) := mqtt_run n' heap b id in
      Ok (b, o1 ++ o2)
  end.

(** ** The subscribers exist *)

Definition at_of (b : broker) (id : Z) : option thread_at := msd_at <$> msds b !! id.
Definition live (b : broker) (id : Z) : Prop := ∃ a, at_of b id = Some a ∧ a ≠ at_end.

Definition subscribed (b : broker) (id : Z) : Prop :=
  (∃ t s, topic_subscriptions b !! t = Some s ∧ id ∈ s) ∨ (∃ p, p ∈ topic_wc_subscriptions b ∧ id ∈ p.2).

Definition broker_ok (b : broker) : Prop :=
  (∀ id, subscribed b id → live b id) ∧ Forall (λ p, is_Some (find [wildcard] p.1)) (topic_wc_subscriptions b).

(** [n] copies of a message are queued *)
Definition add_copies (n : nat) (msg : list Z) (m : mqtt_session_data) : mqtt_session_data :=
  set_msgs_out m (msgs_out m ++ replicate n msg).

Definition wc_matches (t topic : str) : Prop :=
  match find [wildcard] t with Some wc => take wc topic = take wc t | None => False end.
#[global] Instance wc_matches_dec t topic : Decision (wc_matches t topic).
Proof. unfold wc_matches. destruct (find [wildcard] t); apply _. Defined.

(** the subscriptions of a session that match a topic *)
Fixpoint wc_copies (l : list (str * gset Z)) (topic : str) (id : Z) : nat :=
  match l with
  | [] => 0
  | (t, s) :: l' => ((if decide (wc_matches t topic ∧ id ∈ s) then 1 else 0) + wc_copies l' topic id)%nat
  end.

Definition exact_copies (o : option (gset Z)) (id : Z) : nat :=
  match o with Some s => if decide (id ∈ s) then 1 else 0 | None => 0 end.
Definition copies (b : broker) (topic : str) (id : Z) : nat :=
  (exact_copies (topic_subscriptions b !! topic) id + wc_copies (topic_wc_subscriptions b) topic id)%nat.

Lemma add_copies_add m msg i j : add_copies i msg (add_copies j msg m) = add_copies (j + i) msg m.
Proof. unfold add_copies, set_msgs_out. simpl. by rewrite <- app_assoc, <- replicate_add. Qed.

Lemma add_copies_0 m msg : add_copies 0 msg m = m.
Proof. destruct m. unfold add_copies, set_msgs_out. simpl. by rewrite app_nil_r. Qed.

Lemma queue_for_all_spec ids ms msg :
  NoDup ids → (∀ id, id ∈ ids → is_Some (ms !! id)) →
  ∃ ms', queue_for_all ms ids msg = Ok ms' ∧
    ∀ id, ms' !! id = add_copies (if decide (id ∈ ids) then 1 else 0) msg <$> ms !! id.
Proof.
  revert ms. induction ids as [|x ids IH]; intros ms N Hs.
  - exists ms. split; [done|]. intros id. rewrite decide_False by set_solver. destruct (ms !! id); simpl; [|done].
    by rewrite add_copies_0.
  - apply NoDup_cons in N as [Nx N]. destruct (Hs x) as [m Em]; [set_solver|]. simpl. rewrite Em.
    destruct (IH (<[x := set_msgs_out m (msgs_out m ++ [msg])]> ms)) as (ms' & -> & E); [done| |].
    { intros id Hid. rewrite lookup_insert_ne by set_solver. apply Hs. set_solver. }
    exists ms'. split; [done|]. intros id. rewrite E. destruct (decide (id = x)) as [->|Ne].
    + rewrite lookup_insert_eq, Em, (decide_True (P := x ∈ x :: ids)), decide_False by set_solver. simpl.
      by rewrite add_copies_0.
    + rewrite lookup_insert_ne by done. do 2 f_equal. destruct (decide (id ∈ ids)).
      * by rewrite decide_True by set_solver.
      * by rewrite decide_False by set_solver.
Qed.

Lemma queue_wildcards_spec l ms topic msg :
  Forall (λ p, is_Some (find [wildcard] p.1)) l → (∀ p id, p ∈ l → id ∈ p.2 → is_Some (ms !! id)) →
  ∃ ms', queue_wildcards ms l topic msg = Ok ms' ∧
    ∀ id, ms' !! id = add_copies (wc_copies l topic id) msg <$> ms !! id.
Proof.
  revert ms. induction l as [|[t s] l IH]; intros ms F Hs.
  - exists ms. split; [done|]. intros id. destruct (ms !! id); simpl; [|done]. by rewrite add_copies_0.
  - apply Forall_cons in F as [[wc Ewc] F]. simpl in Ewc. cbn [queue_wildcards]. rewrite Ewc.
    assert (∃ ms1, (if decide (take wc topic = take wc t) then queue_for_all ms (elements s) msg else Ok ms) = Ok ms1 ∧
      ∀ id, ms1 !! id = add_copies (if decide (wc_matches t topic ∧ id ∈ s) then 1 else 0) msg <$> ms !! id)
      as (ms1 & -> & E1).
    { assert (wc_matches t topic ↔ take wc topic = take wc t) as Em by (unfold wc_matches; by rewrite Ewc).
      case_decide.
      - destruct (queue_for_all_spec (elements s) ms msg) as (ms1 & -> & E1); [apply NoDup_elements| |].
        { intros id Hid. apply (Hs (t, s)); set_solver. }
        exists ms1. split; [done|]. intros id. rewrite E1. do 2 f_equal.
        apply decide_ext. set_solver.
      - exists ms. split; [done|]. intros id. rewrite decide_False by naive_solver.
        destruct (ms !! id); simpl; [|done]. by rewrite add_copies_0. }
    cbn [res_bind]. destruct (IH ms1) as (ms' & -> & E2); [done| |].
    { intros p id Hp Hid. rewrite E1, fmap_is_Some. apply (Hs p); set_solver. }
    exists ms'. split; [done|]. intros id. rewrite E2, E1. cbn [wc_copies].
    destruct (ms !! id); simpl; [|done]. by rewrite add_copies_add.
Qed.

Lemma length_bytes_ends fuel r : r < 2 ^ (7 * Z.of_nat fuel) → ∃ l, length_bytes fuel r = Ok l.
Proof.
  revert r. induction fuel as [|fuel IH]; intros r H; cbn [length_bytes]; destruct (Z.ltb_spec 0 r); try (by eexists).
  - change (7 * Z.of_nat 0) with 0 in H. lia.
  - destruct (IH (Z.shiftr r 7)) as [l ->]; [|by eexists].
    rewrite Z.shiftr_div_pow2 by lia. apply Z.div_lt_upper_bound; [lia|].
    rewrite <- Z.pow_add_r by lia. replace (7 + 7 * Z.of_nat fuel) with (7 * Z.of_nat (S fuel)) by lia. done.
Qed.

Lemma publish_message_ends topic data : ∃ msg, publish_message topic data = Ok msg.
Proof.
  unfold publish_message. destruct (length_bytes_ends 5 (s32 (2 + zlen topic + zlen data))) as [l ->]; [|by eexists].
  change (2 ^ (7 * Z.of_nat 5)) with 34359738368. zlia.
Qed.

Lemma live_lookup b id : live b id → is_Some (msds b !! id).
Proof. intros (a & E & _). unfold at_of in E. destruct (msds b !! id); [by eexists|done]. Qed.

Lemma publish_spec b topic data msg :
  broker_ok b → publish_message topic data = Ok msg →
  ∃ ms', publish b topic data = Ok (set_msds b ms') ∧
    ∀ id, ms' !! id = add_copies (copies b topic id) msg <$> msds b !! id.
Proof.
  intros [HL HW] Em. unfold publish. rewrite Em. cbn [res_bind].
  assert (∃ ms1, (match topic_subscriptions b !! topic with
      None => Ok (msds b) | Some s => queue_for_all (msds b) (elements s) msg end) = Ok ms1 ∧
    ∀ id, ms1 !! id = add_copies (exact_copies (topic_subscriptions b !! topic) id) msg <$> msds b !! id)
    as (ms1 & -> & E1).
  { destruct (topic_subscriptions b !! topic) as [s|] eqn:Es.
    - destruct (queue_for_all_spec (elements s) (msds b) msg) as (ms1 & -> & E1); [apply NoDup_elements| |].
      { intros id Hid. apply live_lookup, HL. left. exists topic, s. set_solver. }
      exists ms1. split; [done|]. intros id. rewrite E1. cbn [exact_copies]. do 2 f_equal. apply decide_ext. set_solver.
    - exists (msds b). split; [done|]. intros id. simpl. destruct (msds b !! id); simpl; [|done]. by rewrite add_copies_0. }
  cbn [res_bind]. destruct (queue_wildcards_spec (topic_wc_subscriptions b) ms1 topic msg) as (ms' & -> & E2); [done| |].
  { intros p id Hp Hid. rewrite E1, fmap_is_Some. apply live_lookup, HL. right. by exists p. }
  exists ms'. split; [done|]. intros id. rewrite E2, E1. unfold copies.
  destruct (msds b !! id); simpl; [|done]. by rewrite add_copies_add.
Qed.

(** *** The invariant *)

Definition same_tables (b b' : broker) : Prop :=
  topic_subscriptions b' = topic_subscriptions b ∧ topic_wc_subscriptions b' = topic_wc_subscriptions b.

Lemma broker_ok_threads b b' :
  same_tables b b' → (∀ id, live b id → live b' id) → broker_ok b → broker_ok b'.
Proof.
  intros [Es Ew] HL [H1 H2]. split; [|by rewrite Ew]. intros id Hs. apply HL, H1.
  unfold subscribed in *. by rewrite Es, Ew in Hs.
Qed.

Lemma live_same b b' id : at_of b' id = at_of b id → live b id → live b' id.
Proof. unfold live. by intros ->. Qed.

Lemma live_put b id m id' : (id' = id → msd_at m ≠ at_end) → live b id' → live (put_msd b id m) id'.
Proof.
  intros Hm (a & E & Ha). unfold live, at_of, put_msd. simpl. destruct (decide (id' = id)) as [->|Ne].
  - rewrite lookup_insert_eq. exists (msd_at m). split; [done|auto].
  - rewrite lookup_insert_ne by done. by exists a.
Qed.

Lemma live_move b id a id' : a ≠ at_end → live b id' → live (move_to b id a) id'.
Proof.
  intros Ha (a' & E & Ha'). unfold live, at_of, move_to in *. simpl. destruct (decide (id' = id)) as [->|Ne].
  - rewrite lookup_alter_eq. destruct (msds b !! id); [|done]. by exists a.
  - rewrite lookup_alter_ne by done. by exists a'.
Qed.

Lemma broker_ok_put b id m : msd_at m ≠ at_end → broker_ok b → broker_ok (put_msd b id m).
Proof. intros Hm. apply broker_ok_threads; [done|]. intros id'. by apply live_put. Qed.

Lemma broker_ok_move b id a : a ≠ at_end → broker_ok b → broker_ok (move_to b id a).
Proof. intros Ha. apply broker_ok_threads; [done|]. intros id'. by apply live_move. Qed.

Lemma elem_of_wc_insert l topic id p :
  p ∈ wc_insert l topic id → (p ∈ l) ∨ (p.1 = topic ∧ ∀ x, x ∈ p.2 → x = id ∨ ∃ s, (topic, s) ∈ l ∧ x ∈ s).
Proof.
  induction l as [|[t s] l IH]; simpl; intros Hp.
  - right. apply list_elem_of_singleton in Hp as ->. set_solver.
  - case_decide; apply elem_of_cons in Hp as [->|Hp]; [|set_solver|set_solver|].
    { right. subst. split; [done|]. simpl. intros x [->%elem_of_singleton|]%elem_of_union; [by left|].
      right. exists s. set_solver. }
    destruct (IH Hp) as [|[E Hs]]; [set_solver|]. right. split; [done|]. intros x Hx. destruct (Hs x Hx) as [|(s' & ? & ?)]; [by left|].
    right. exists s'. set_solver.
Qed.

Lemma elem_of_wc_erase l topic id p : p ∈ wc_erase l topic id → ∃ s, (p.1, s) ∈ l ∧ p.2 ⊆ s.
Proof.
  induction l as [|[t s] l IH]; simpl; intros Hp; [set_solver|].
  case_decide; apply elem_of_cons in Hp as [->|Hp].
  - exists s. set_solver.
  - exists p.2. destruct p. set_solver.
  - exists s. set_solver.
  - destruct (IH Hp) as (s' & ? & ?). exists s'. set_solver.
Qed.

Lemma register_topic_ok b topic id : broker_ok b → live b id → broker_ok (register_topic b topic id).
Proof.
  intros [H1 H2] HL. unfold register_topic. destruct (find [wildcard] topic) eqn:Ef.
  - split; simpl.
    + intros x [(t & s & Hs & Hx)|(p & Hp & Hx)]; [apply H1; left; by exists t, s|]. simpl in *.
      apply elem_of_wc_insert in Hp as [Hp|[E Hp]]; [apply H1; right; by exists p|].
      destruct (Hp x Hx) as [->|(s & ? & ?)]; [done|]. apply H1. right. by exists (topic, s).
    + apply Forall_forall. intros p [Hp|[-> _]]%elem_of_wc_insert; [|by rewrite Ef].
      by apply (proj1 (Forall_forall _ _) H2).
  - split; [|done]. simpl. intros x [(t & s & Hs & Hx)|(p & Hp & Hx)]; [|apply H1; right; by exists p]. simpl in *.
    apply lookup_insert_Some in Hs as [[<- <-]|[_ Hs]]; [|apply H1; left; by exists t, s].
    destruct (topic_subscriptions b !! topic) as [s|] eqn:Es; [|set_solver].
    apply elem_of_union in Hx as [->%elem_of_singleton|Hx]; [done|]. apply H1. left. by exists topic, s.
Qed.

Lemma unregister_topic_ok b topic id : broker_ok b → broker_ok (unregister_topic b topic id).
Proof.
  intros [H1 H2]. split; simpl.
  - intros x [(t & s & Hs & Hx)|(p & Hp & Hx)]; simpl in *; apply H1.
    + left. destruct (topic_subscriptions b !! topic) as [s'|] eqn:Es; [|by exists t, s].
      apply lookup_insert_Some in Hs as [[<- <-]|[_ Hs]]; [exists topic, s'; set_solver|by exists t, s].
    + right. apply elem_of_wc_erase in Hp as (s & ? & ?). exists (p.1, s). set_solver.
  - apply Forall_forall. intros p (s & Hp & _)%elem_of_wc_erase. by apply (proj1 (Forall_forall _ _) H2) in Hp.
Qed.

Lemma unregister_all_subscribed b id x : subscribed (unregister_all_topics b id) x → subscribed b x ∧ x ≠ id.
Proof.
  intros [(t & s & Hs & Hx)|(p & Hp & Hx)]; simpl in *.
  - apply lookup_fmap_Some in Hs as (s' & <- & Hs). split; [left; exists t, s'|]; set_solver.
  - apply list_elem_of_fmap in Hp as (p' & -> & Hp). simpl in Hx. split; [right; exists p'|]; set_solver.
Qed.

Lemma thread_end_ok b id : broker_ok b → broker_ok (move_to (unregister_all_topics b id) id at_end).
Proof.
  intros [H1 H2]. split.
  - intros x [Hs Ne]%unregister_all_subscribed. destruct (H1 x Hs) as (a & E & Ha). exists a. split; [|done].
    unfold at_of, move_to in *. simpl. by rewrite lookup_alter_ne.
  - simpl. apply Forall_fmap. by eapply Forall_impl.
Qed.

(** handling a message leaves the threads where they are *)
Definition keeps (b b' : broker) : Prop := broker_ok b' ∧ ∀ x, at_of b' x = at_of b x.

Lemma keeps_refl b : broker_ok b → keeps b b.
Proof. done. Qed.

Lemma keeps_trans b c d : keeps b c → keeps c d → keeps b d.
Proof. intros [_ E1] [H E2]. split; [done|]. intros x. by rewrite E2, E1. Qed.

Lemma keeps_live b b' id : keeps b b' → live b id → live b' id.
Proof. intros [_ E]. by apply live_same. Qed.

Lemma at_of_register b topic id x : at_of (register_topic b topic id) x = at_of b x.
Proof. unfold register_topic. by destruct (find [wildcard] topic). Qed.

Lemma publish_keeps b topic data b' : broker_ok b → publish b topic data = Ok b' → keeps b b'.
Proof.
  intros Hb H. destruct (publish_message_ends topic data) as [msg Em].
  destruct (publish_spec b topic data msg Hb Em) as (ms' & E & Hms). rewrite E in H. injection H as <-.
  assert (∀ x, at_of (set_msds b ms') x = at_of b x) as Ea.
  { intros x. unfold at_of. simpl. rewrite Hms. by destruct (msds b !! x). }
  split; [|done]. apply (broker_ok_threads b); [done| |done]. intros x. by apply live_same.
Qed.

Lemma connect_keeps b id mem len b' r :
  broker_ok b → live b id → mqtt_connect b id mem len = Ok (b', r) → keeps b b'.
Proof.
  unfold mqtt_connect. intros Hb HL H. destruct (msds b !! id) as [m|] eqn:Em; [|done].
  res_step H. injection H as <- _.
  destruct HL as (x & E1 & E2). unfold at_of in E1. rewrite Em in E1. injection E1 as <-.
  split; [by apply broker_ok_put|]. intros x. unfold at_of. simpl. destruct (decide (x = id)) as [->|Ne].
  - by rewrite lookup_insert_eq, Em.
  - by rewrite lookup_insert_ne.
Qed.

Lemma mqtt_publish_keeps b control mem len b' r :
  broker_ok b → mqtt_publish b control mem len = Ok (b', r) → keeps b b'.
Proof.
  unfold mqtt_publish. cbv zeta. intros Hb H. do 3 res_step H. destruct a1 as [msg_id o].
  destruct (0 <? s32 (len - o)).
  - res_step H. res_step E2; injection H as <- _. eauto using publish_keeps.
  - cbn [res_bind] in H. injection H as <- _. by apply keeps_refl.
Qed.

Lemma subscribe_loop_keeps fuel b id mem len o reply b' r :
  broker_ok b → live b id → subscribe_loop fuel b id mem len o reply = Ok (b', r) → keeps b b'.
Proof.
  revert b o reply. induction fuel as [|fuel IH]; intros b o reply Hb HL H; cbn [subscribe_loop] in H;
    destruct (o <? len); try done; try (injection H as <- _; by apply keeps_refl).
  res_step H. destruct a as [topic topic_len].
  assert (keeps b (register_topic b topic id)) as K by (split; [by apply register_topic_ok|]; apply at_of_register).
  eapply keeps_trans; [done|]. eapply IH, H; [apply K|by eapply keeps_live].
Qed.

Lemma unsubscribe_loop_keeps fuel b id mem len o reply b' r :
  broker_ok b → unsubscribe_loop fuel b id mem len o reply = Ok (b', r) → keeps b b'.
Proof.
  revert b o reply. induction fuel as [|fuel IH]; intros b o reply Hb H; cbn [unsubscribe_loop] in H;
    destruct (o <? len); try done; try (injection H as <- _; by apply keeps_refl).
  res_step H. destruct a as [topic topic_len].
  assert (keeps b (unregister_topic b topic id)) as K by (split; [by apply unregister_topic_ok|done]).
  eapply keeps_trans; [done|]. eapply IH, H. apply K.
Qed.

Lemma mqtt_message_keeps b id control len mem b' rs :
  broker_ok b → live b id → mqtt_message b id control len mem = Ok (b', rs) → keeps b b'.
Proof.
  unfold mqtt_message. intros Hb HL H.
  repeat match type of H with (if ?c then _ else _) = _ => destruct c end;
    try (injection H as <- _; by apply keeps_refl);
    match type of H with res_map _ ?c = _ => destruct c as [[b1 r]|] eqn:E; [|done] end; injection H as <- _.
  - eauto using connect_keeps.
  - eauto using mqtt_publish_keeps.
  - unfold mqtt_subscribe in E. do 2 res_step E. res_step E. destruct a1 as [b2 r2]. injection E as <- _.
    eauto using subscribe_loop_keeps.
  - unfold mqtt_unsubscribe in E. do 2 res_step E. res_step E. destruct a1 as [b2 r2]. injection E as <- _.
    eauto using unsubscribe_loop_keeps.
Qed.

Lemma msd_at_get m n : msd_at (mqtt_get_bytes m n).1.2 = msd_at m.
Proof. unfold mqtt_get_bytes. destruct (terminate m); [done|]. simpl. by destruct (n <=? zlen (msd_data m)). Qed.

(** what is done after a wait is done in a state like the one before it *)
Lemma after_get_ok b id m n next b' out :
  broker_ok b → msds b !! id = Some m → msd_at m ≠ at_end →
  (∀ b1 bytes c b2 r, broker_ok b1 → live b1 id → next b1 bytes c = Ok (b2, r) → broker_ok b2) →
  after_get b id m n next = Ok (b', out) → broker_ok b'.
Proof.
  intros Hb Em Ha Hn H. unfold after_get in H. pose proof (msd_at_get m n) as Ea.
  destruct (mqtt_get_bytes m n) as [[sent m'] g]. simpl in Ea.
  assert (broker_ok (put_msd b id m')) as Hb' by (apply broker_ok_put; [by rewrite Ea|done]).
  assert (live (put_msd b id m') id) as HL.
  { exists (msd_at m'). unfold at_of. simpl. rewrite lookup_insert_eq. split; [done|by rewrite Ea]. }
  res_step H. destruct a as [b1 r]. injection H as <- _.
  destruct g; [injection E as <- _; done| |]; eauto.
Qed.

Lemma mqtt_thread_ok heap b id b' out : broker_ok b → mqtt_thread heap b id = Ok (b', out) → broker_ok b'.
Proof.
  unfold mqtt_thread. intros Hb H. destruct (msds b !! id) as [m|] eqn:Em; [|by injection H as <- _].
  destruct (msd_at m) as [| |c len|c len|c len|] eqn:Ea.
  - destruct (terminate m); injection H as <- _; [by apply thread_end_ok|by apply broker_ok_move].
  - eapply after_get_ok, H; [done..|by rewrite Ea|]. intros b1 bytes c b2 r H1 _ [= <- _]. by apply broker_ok_move.
  - injection H as <- _. by apply broker_ok_move; [destruct (terminate m)|].
  - eapply after_get_ok, H; [done..|by rewrite Ea|]. intros b1 bytes x b2 r H1 _ [= <- _].
    apply broker_ok_move; [|done]. by destruct (Z.land x 128 =? 0).
  - eapply after_get_ok, H; [done..|by rewrite Ea|]. intros b1 bytes x b2 r H1 H2 H3. unfold body_done in H3.
    do 2 res_step H3. res_step H3. destruct a1 as [b3 r3]. injection H3 as <- _. apply broker_ok_move; [done|].
    by eapply mqtt_message_keeps.
  - by injection H as <- _.
Qed.

Lemma mqtt_step_ok b b' : mqtt_step b b' → broker_ok b → broker_ok b'.
Proof.
  intros [b0 id addr Hn|b0 id bytes|b0 id heap b1 out H|b0 id|b0 id m Em _ Ea] Hb.
  - by apply broker_ok_put.
  - unfold mqtt_new_data. destruct (msds b0 !! id) as [m|] eqn:Em; [|done]. simpl.
    apply (broker_ok_threads b0); [done| |done]. intros x Hx. apply live_put; [|done]. intros ->.
    destruct Hx as (a & E & Ha). unfold at_of in E. rewrite Em in E. by injection E as <-.
  - by eapply mqtt_thread_ok.
  - unfold mqtt_close_begin. destruct (msds b0 !! id) as [m|] eqn:Em; [|done].
    apply (broker_ok_threads b0); [done| |done]. intros x Hx. apply live_put; [|done]. intros ->.
    destruct Hx as (a & E & Ha). unfold at_of in E. rewrite Em in E. by injection E as <-.
  - apply (broker_ok_threads b0); [done| |done]. intros x (a & E & Ha). exists a. split; [|done].
    unfold at_of in *. simpl. rewrite lookup_delete_ne; [done|]. intros ->. rewrite Em in E. injection E as <-. done.
Qed.

Lemma mqtt_reachable_ok b : rtc mqtt_step mqtt_start b → broker_ok b.
Proof.
  intros R. assert (broker_ok mqtt_start) as H0.
  { split; [|constructor]. intros id [(t & s & E & _)|(p & E & _)]; simpl in E; [by rewrite lookup_empty in E|set_solver]. }
  induction R as [b|b b1 b2 Hs _ IH]; [done|]. apply IH. by eapply mqtt_step_ok.
Qed.

(** C30: whatever sessions, packets and threads do, in every order, the sessions in the
    tables of topics exist and their threads have not ended, so that publishing to any
    topic never touches a deleted session and never fails its assertion: it queues the
    message once for every matching subscription and changes nothing else. *)
Theorem mqtt_publish_safe b :
  rtc mqtt_step mqtt_start b →
  (∀ id, subscribed b id → ∃ m, msds b !! id = Some m ∧ msd_at m ≠ at_end) ∧
  ∀ topic data, ∃ msg ms',
    publish_message topic data = Ok msg ∧ publish b topic data = Ok (set_msds b ms') ∧
    ∀ id, ms' !! id = add_copies (copies b topic id) msg <$> msds b !! id.
Proof.
  intros Hb%mqtt_reachable_ok. split.
  - intros id Hs. destruct (proj1 Hb id Hs) as (a & E & Ha). unfold at_of in E.
    destruct (msds b !! id) as [m|]; [|done]. injection E as <-. by exists m.
  - intros topic data. destruct (publish_message_ends topic data) as [msg Em].
    destruct (publish_spec b topic data msg Hb Em) as (ms' & ? & ?). by exists msg, ms'.
Qed.

Lemma mqtt_run_steps n heap b id b' out : mqtt_run n heap b id = Ok (b', out) → rtc mqtt_step b b'.
Proof.
  revert b out. induction n as [|n IH]; intros b out H; simpl in H; [by injection H as <- _|].
  res_step H. destruct a as [b1 o1]. res_step H. destruct a as [b2 o2]. injection H as <- _.
  eapply rtc_l; [by eapply step_thread|by eapply IH].
Qed.

(** ** Packets of at most 127 bytes *)

(** a packet: control byte, length, message *)
Definition mqtt_packet (control : Z) (body : list Z) : list Z := [control; zlen body] ++ body.

Definition with_qos (control : Z) : bool := negb (Z.land (Z.shiftr control 1) 3 =? 0).
Definition publish_body (control : Z) (topic : str) (msg_id : Z) (payload : list Z) : list Z :=
  be16 (zlen topic) ++ topic ++ (if with_qos control then be16 msg_id else []) ++ payload.
Definition topics_bytes (topics : list (str * Z)) : list Z := topics ≫= λ p, be16 (zlen p.1) ++ p.1 ++ [p.2].
Definition subscribe_body (msg_id : Z) (topics : list (str * Z)) : list Z :=
  be16 msg_id ++ topics_bytes topics.

Lemma put_msd_put b id m1 m2 : put_msd (put_msd b id m1) id m2 = put_msd b id m2.
Proof. unfold put_msd, set_msds. simpl. by rewrite insert_insert_eq. Qed.
Lemma move_to_put b id m a : move_to (put_msd b id m) id a = put_msd b id (set_at m a).
Proof. unfold put_msd, move_to, set_msds. simpl. by rewrite alter_insert_eq. Qed.
Lemma move_to_some b id m a : msds b !! id = Some m → move_to b id a = put_msd b id (set_at m a).
Proof.
  intros E. unfold put_msd, move_to, set_msds. f_equal. apply map_eq. intros i. destruct (decide (i = id)) as [->|Ne].
  - by rewrite lookup_alter_eq, lookup_insert_eq, E.
  - by rewrite lookup_alter_ne, lookup_insert_ne.
Qed.
Lemma lookup_put b id m : msds (put_msd b id m) !! id = Some m.
Proof. apply lookup_insert_eq. Qed.

Lemma length_new_memory heap n : 0 ≤ n → zlen (new_memory heap n) = n.
Proof. intros. unfold new_memory, zlen. rewrite length_fmap, length_seq. lia. Qed.

Lemma body_done_complete heap b id control len body :
  zlen body = len → len ≤ 127 →
  body_done heap b id control len body =
    let* '(b', replies) := mqtt_message b id control len (body ++ [0]) in Ok (move_to b' id at_loop, replies).
Proof.
  intros L1 L2. unfold body_done. pose proof (zlen_nonneg body). rewrite u32_id by lia.
  pose proof (length_new_memory heap (len + 1) ltac:(lia)) as Lm. set (mem := new_memory heap (len + 1)) in *.
  change mem with ([] ++ mem). rewrite wr_range_app by (done || lia). cbn [res_bind app].
  assert (∃ x, drop (length body) mem = [x]) as [x ->].
  { assert (length (drop (length body) mem) = 1%nat) as L by (rewrite length_drop; unfold zlen in *; lia).
    destruct (drop (length body) mem) as [|x [|]]; try done. by exists x. }
  rewrite wr_Ok by (rewrite zlen_app; change (zlen [x]) with 1; lia). cbn [res_bind].
  rewrite insert_app_r_alt by (unfold zlen in *; lia). replace (Z.to_nat len - length body)%nat with 0%nat by (unfold zlen in *; lia).
  done.
Qed.

Lemma after_get_gets b id m n next bytes rest :
  terminate m = false → msd_data m = bytes ++ rest → zlen bytes = n →
  after_get b id m n next =
    let* '(b', replies) := next (put_msd b id (set_data (set_msgs_out m []) rest)) bytes (got_byte (gets bytes)) in
    Ok (b', mqtt_send id <$> msgs_out m ++ replies).
Proof.
  intros Et Ed <-. unfold after_get, mqtt_get_bytes. rewrite Et. cbn [msd_data set_msgs_out]. rewrite Ed.
  rewrite (proj2 (Z.leb_le _ _)) by (rewrite zlen_app; pose proof (zlen_nonneg rest); lia).
  unfold zlen. by rewrite Nat2Z.id, take_app_length, drop_app_length.
Qed.

Section Thread.
Context (heap : Z → Z) (b : broker) (id : Z) (outs : list (list Z)) (name ident : str).

Lemma thread_loop d :
  msds b !! id = Some (Msd d outs name false ident at_loop) →
  mqtt_thread heap b id = Ok (put_msd b id (Msd d outs name false ident at_control), []).
Proof. intros E. unfold mqtt_thread. rewrite E. cbn [msd_at terminate]. by rewrite (move_to_some _ _ _ _ E). Qed.

Lemma thread_control c d :
  msds b !! id = Some (Msd (c :: d) outs name false ident at_control) →
  mqtt_thread heap b id = Ok (put_msd b id (Msd d [] name false ident (at_length c 0)), mqtt_send id <$> outs).
Proof.
  intros E. unfold mqtt_thread. rewrite E. cbn [msd_at]. rewrite (after_get_gets _ _ _ _ _ [c] d) by done.
  cbn [res_bind got_byte msgs_out]. by rewrite move_to_put, app_nil_r.
Qed.

(** no data: what was queued is sent *)
Lemma thread_control_waits :
  msds b !! id = Some (Msd [] outs name false ident at_control) →
  mqtt_thread heap b id = Ok (put_msd b id (Msd [] [] name false ident at_control), mqtt_send id <$> outs).
Proof.
  intros E. unfold mqtt_thread. rewrite E. cbn [msd_at]. unfold after_get, mqtt_get_bytes. cbn [terminate].
  change (1 <=? zlen (msd_data (set_msgs_out (Msd [] outs name false ident at_control) []))) with false.
  cbn [res_bind msgs_out]. by rewrite app_nil_r.
Qed.

Lemma thread_length c len d :
  msds b !! id = Some (Msd d outs name false ident (at_length c len)) →
  mqtt_thread heap b id = Ok (put_msd b id (Msd d outs name false ident (at_length_byte c len)), []).
Proof. intros E. unfold mqtt_thread. rewrite E. cbn [msd_at terminate]. by rewrite (move_to_some _ _ _ _ E). Qed.

Lemma thread_length_byte c x d :
  0 ≤ x ≤ 127 → msds b !! id = Some (Msd (x :: d) [] name false ident (at_length_byte c 0)) →
  mqtt_thread heap b id = Ok (put_msd b id (Msd d [] name false ident (at_body c x)), []).
Proof.
  intros Hx E. unfold mqtt_thread. rewrite E. cbn [msd_at]. rewrite (after_get_gets _ _ _ _ _ [x] d) by done.
  cbn [res_bind got_byte msgs_out]. assert (Z.land x 127 = x) as Hx7.
  { change 127 with (Z.ones 7). rewrite Z.land_ones by lia. apply Z.mod_small. lia. }
  assert (Z.land x 128 = 0) as ->.
  { rewrite <- Hx7, <- Z.land_assoc. apply Z.land_0_r. }
  unfold add_length. rewrite Hx7. cbn. by rewrite move_to_put.
Qed.

Lemma thread_body c body d :
  zlen body ≤ 127 → msds b !! id = Some (Msd (body ++ d) [] name false ident (at_body c (zlen body))) →
  mqtt_thread heap b id =
    let* '(b', replies) := mqtt_message (put_msd b id (Msd d [] name false ident (at_body c (zlen body)))) id c
                             (zlen body) (body ++ [0]) in
    Ok (move_to b' id at_loop, mqtt_send id <$> replies).
Proof.
  intros Hl E. unfold mqtt_thread. rewrite E. cbn [msd_at]. rewrite (after_get_gets _ _ _ _ _ body d) by done.
  rewrite body_done_complete by done. unfold set_data, set_msgs_out. cbn.
  by destruct (mqtt_message _ id c (zlen body) (body ++ [0])) as [[b' r]|].
Qed.
End Thread.

(** five parts of the thread receive a packet and handle it *)
Lemma receive_packet heap b id outs name ident control body rest :
  msds b !! id = Some (Msd (mqtt_packet control body ++ rest) outs name false ident at_loop) → zlen body ≤ 127 →
  mqtt_run 5 heap b id =
    let* '(b', replies) := mqtt_message (put_msd b id (Msd rest [] name false ident (at_body control (zlen body))))
                             id control (zlen body) (body ++ [0]) in
    Ok (move_to b' id at_loop, mqtt_send id <$> outs ++ replies).
Proof.
  intros Em Hl. pose proof (zlen_nonneg body). cbn [mqtt_run].
  change (mqtt_packet control body ++ rest) with (control :: zlen body :: body ++ rest) in Em.
  rewrite (thread_loop _ _ _ _ _ _ _ Em). cbn [res_bind].
  rewrite (thread_control _ _ _ _ _ _ _ _ (lookup_put _ _ _)). cbn [res_bind]. rewrite put_msd_put.
  rewrite (thread_length _ _ _ _ _ _ _ _ _ (lookup_put _ _ _)). cbn [res_bind]. rewrite put_msd_put.
  rewrite (thread_length_byte _ _ _ _ _ control (zlen body) (body ++ rest)) by (apply lookup_put || lia).
  cbn [res_bind]. rewrite put_msd_put.
  rewrite (thread_body _ _ _ _ _ control body rest) by (apply lookup_put || done). rewrite put_msd_put.
  destruct (mqtt_message _ id control _ _) as [[b' r]|]; [|done]. cbn [res_bind].
  by rewrite fmap_app, !app_nil_r.
Qed.

Lemma msg_short_mid a x c o : o = zlen a → 0 ≤ x < 65536 → msg_short (a ++ be16 x ++ c) o = Ok x.
Proof.
  intros -> Hx. unfold msg_short, be16. cbn [app]. rewrite rd_mid by done. cbn [res_bind].
  rewrite cons_middle, app_assoc, rd_mid by (rewrite zlen_app; done). cbn [res_bind]. by rewrite join16_be16.
Qed.

Lemma msg_short_head x c : 0 ≤ x < 65536 → msg_short (be16 x ++ c) 0 = Ok x.
Proof. by apply (msg_short_mid []). Qed.

Lemma zlen_be16 x : zlen (be16 x) = 2.
Proof. done. Qed.

Lemma string_at_mid a t c o : o = zlen a → string_at (a ++ t ++ c) o (zlen t) = Ok t.
Proof.
  intros ->. unfold string_at. rewrite (proj2 (Z.ltb_ge _ _)) by apply zlen_nonneg. by apply rd_range_mid.
Qed.

Lemma s32_id x : int_min ≤ x ≤ int_max → s32 x = x.
Proof. intros. zlia. Qed.

Lemma length_bytes_small fuel r : 0 < r ≤ 127 → length_bytes (S fuel) r = Ok [r].
Proof.
  intros Hr. cbn [length_bytes]. rewrite (proj2 (Z.ltb_lt 0 r)), (proj2 (Z.ltb_ge 127 r)) by lia.
  rewrite Z.shiftr_div_pow2, Z.div_small by (change (2 ^ 7) with 128; lia). by destruct fuel.
Qed.

Lemma publish_message_small topic data :
  2 + zlen topic + zlen data ≤ 127 →
  publish_message topic data = Ok (mqtt_packet 48 (publish_body 48 topic 0 data)).
Proof.
  intros Hl. unfold publish_message. pose proof (zlen_nonneg topic). pose proof (zlen_nonneg data).
  rewrite s32_id by (unfold int_min, int_max; lia). rewrite length_bytes_small by lia.
  cbn [res_bind]. f_equal. unfold mqtt_packet, publish_body. change (with_qos 48) with false. cbn [app].
  rewrite !zlen_app, zlen_be16. change (Z.shiftl 3 4) with 48. f_equal. f_equal; [lia|].
  unfold be16. cbn [app]. do 2 f_equal. change 255 with (Z.ones 8). rewrite Z.land_ones by lia. done.
Qed.

Lemma mqtt_publish_packet b control topic msg_id payload :
  broker_ok b → 0 ≤ msg_id < 65536 → 0 < zlen payload → zlen (publish_body control topic msg_id payload) ≤ 127 →
  ∃ ms', let body := publish_body control topic msg_id payload in
    mqtt_publish b control (body ++ [0]) (zlen body) =
      Ok (set_msds b ms', 64 :: 2 :: (if with_qos control then be16 msg_id else [0; 0])) ∧
    ∀ x, ms' !! x = add_copies (copies b topic x) (mqtt_packet 48 (publish_body 48 topic 0 payload)) <$> msds b !! x.
Proof.
  intros Hb Hid Hp Hl. cbv zeta. unfold publish_body in *. rewrite !zlen_app, zlen_be16 in Hl.
  set (qf := if with_qos control then be16 msg_id else []) in *.
  pose proof (zlen_nonneg topic). pose proof (zlen_nonneg qf).
  assert (2 + zlen topic + zlen payload ≤ 127) as Hl' by lia.
  destruct (publish_spec b topic payload _ Hb (publish_message_small _ _ Hl')) as (ms' & E & Hms).
  exists ms'. split; [|done]. unfold mqtt_publish.
  rewrite <- !app_assoc. rewrite msg_short_head by lia. cbn [res_bind].
  rewrite !zlen_app, zlen_be16, s32_id by (unfold int_min, int_max; lia). rewrite Z.min_l by lia.
  rewrite (string_at_mid (be16 (zlen topic))) by done. cbn [res_bind]. fold (with_qos control).
  assert ((if with_qos control
    then let* i := msg_short (be16 (zlen topic) ++ topic ++ qf ++ payload ++ [0]) (2 + zlen topic) in Ok (i, 2 + zlen topic + 2)
    else Ok (0, 2 + zlen topic)) = Ok (if with_qos control then msg_id else 0, 2 + zlen topic + zlen qf)) as ->.
  { unfold qf. destruct (with_qos control).
    - rewrite (app_assoc (be16 (zlen topic)) topic), msg_short_mid by (rewrite ?zlen_app, ?zlen_be16; lia). done.
    - by rewrite Z.add_0_r. }
  cbn [res_bind]. rewrite s32_id by (unfold int_min, int_max; lia).
  replace (2 + (zlen topic + (zlen qf + zlen payload)) - (2 + zlen topic + zlen qf)) with (zlen payload) by lia.
  rewrite (proj2 (Z.ltb_lt 0 _)) by lia.
  rewrite !app_assoc, <- (app_assoc _ payload [0]), rd_range_mid by (rewrite ?zlen_app, ?zlen_be16; lia).
  cbn [res_bind]. rewrite E. cbn [res_bind]. do 3 f_equal. unfold qf. destruct (with_qos control); [|done].
  unfold be16. change 255 with (Z.ones 8). rewrite Z.land_ones by lia. do 3 f_equal. zlia.
Qed.

(** ** Subscribing *)

Definition register_all (b : broker) (id : Z) (topics : list (str * Z)) : broker :=
  foldl (λ b p, register_topic b p.1 id) b topics.

(** a subscription to [t] gets what is published to [topic] *)
Definition covers (t topic : str) : Prop := (t = topic ∧ find [wildcard] t = None) ∨ wc_matches t topic.
#[global] Instance covers_dec t topic : Decision (covers t topic).
Proof. unfold covers. apply _. Defined.

Lemma wc_copies_insert_ne l t id topic x : x ≠ id → wc_copies (wc_insert l t id) topic x = wc_copies l topic x.
Proof.
  intros Ne. induction l as [|[t' s] l IH]; simpl.
  - rewrite decide_False by set_solver. done.
  - case_decide; simpl; [|by rewrite IH]. f_equal.
    rewrite (decide_ext (wc_matches t' topic ∧ x ∈ {[id]} ∪ s) (wc_matches t' topic ∧ x ∈ s)) by set_solver. done.
Qed.

Lemma wc_copies_insert_eq l t id topic :
  (wc_copies l topic id ≤ wc_copies (wc_insert l t id) topic id)%nat ∧
  (wc_matches t topic → 1 ≤ wc_copies (wc_insert l t id) topic id)%nat.
Proof.
  induction l as [|[t' s] l [IH1 IH2]]; simpl.
  - split; [lia|]. intros H. rewrite decide_True by set_solver. lia.
  - destruct (decide (t' = t)) as [->|]; simpl.
    + destruct (decide (wc_matches t topic ∧ id ∈ {[id]} ∪ s)) as [H|H].
      * case_decide; lia.
      * rewrite decide_False by set_solver. split; [lia|]. intros Hm. exfalso. set_solver.
    + split; [lia|]. intros H. apply IH2 in H. lia.
Qed.

Lemma copies_register_ne b t id topic x : x ≠ id → copies (register_topic b t id) topic x = copies b topic x.
Proof.
  intros Ne. unfold copies, register_topic. destruct (find [wildcard] t); simpl; [by rewrite wc_copies_insert_ne|].
  f_equal. destruct (decide (topic = t)) as [->|]; [|by rewrite lookup_insert_ne].
  rewrite lookup_insert_eq. destruct (topic_subscriptions b !! t) as [s|]; cbn [exact_copies];
    [|by rewrite decide_False by (by rewrite elem_of_singleton)].
  rewrite (decide_ext (x ∈ {[id]} ∪ s) (x ∈ s)) by set_solver. done.
Qed.

Lemma copies_register_eq b t id topic :
  (copies b topic id ≤ copies (register_topic b t id) topic id)%nat ∧
  (covers t topic → 1 ≤ copies (register_topic b t id) topic id)%nat.
Proof.
  unfold copies, register_topic, covers. destruct (find [wildcard] t) eqn:Ef; simpl.
  - destruct (wc_copies_insert_eq (topic_wc_subscriptions b) t id topic) as [H1 H2]. split; [lia|].
    intros [[_ H]|H]; [done|]. apply H2 in H. lia.
  - destruct (decide (topic = t)) as [->|Ne].
    + rewrite lookup_insert_eq. destruct (topic_subscriptions b !! t) as [s|]; cbn [exact_copies].
      * rewrite (decide_True (P := id ∈ {[id]} ∪ s)) by set_solver. case_decide; lia.
      * rewrite decide_True by set_solver. lia.
    + rewrite lookup_insert_ne by done. split; [lia|]. intros [[-> _]|H]; [done|].
      unfold wc_matches in H. by rewrite Ef in H.
Qed.

Lemma copies_register_all b id topics topic :
  (∀ x, x ≠ id → copies (register_all b id topics) topic x = copies b topic x) ∧
  (copies b topic id ≤ copies (register_all b id topics) topic id)%nat ∧
  (Exists (λ p, covers p.1 topic) topics → 1 ≤ copies (register_all b id topics) topic id)%nat.
Proof.
  revert b. induction topics as [|[t q] topics IH]; intros b.
  - split_and!; [done|exact (Nat.le_refl _)|]. intros H. by apply Exists_nil in H.
  - destruct (IH (register_topic b t id)) as (I1 & I2 & I3).
    change (register_all b id ((t, q) :: topics)) with (register_all (register_topic b t id) id topics).
    destruct (copies_register_eq b t id topic) as [R1 R2]. split_and!.
    + intros x Ne. rewrite I1 by done. by apply copies_register_ne.
    + lia.
    + intros [H|H]%Exists_cons; simpl in *; [apply R2 in H; lia|auto].
Qed.

Lemma register_all_same b id topics :
  msds (register_all b id topics) = msds b ∧ (broker_ok b → live b id → broker_ok (register_all b id topics)).
Proof.
  revert b. induction topics as [|[t q] topics IH]; intros b; [done|].
  change (register_all b id ((t, q) :: topics)) with (register_all (register_topic b t id) id topics). destruct (IH (register_topic b t id)) as [E H]. split.
  - rewrite E. unfold register_topic. by destruct (find [wildcard] t).
  - intros Hb HL. apply H; [by apply register_topic_ok|]. eapply live_same, HL. apply at_of_register.
Qed.

Lemma subscribe_loop_topics fuel b id pre topics len reply :
  (length topics ≤ fuel)%nat → len = zlen pre + zlen (topics_bytes topics) → len ≤ 127 →
  subscribe_loop fuel b id (pre ++ topics_bytes topics ++ [0]) len (zlen pre) reply =
    Ok (register_all b id topics, reply ++ replicate (length topics) 2).
Proof.
  revert fuel b pre reply. induction topics as [|[t q] topics IH]; intros fuel b pre reply Hf -> Hl.
  - change (zlen (topics_bytes [])) with 0. rewrite Z.add_0_r, app_nil_r.
    destruct fuel; cbn [subscribe_loop]; by rewrite Z.ltb_irrefl.
  - destruct fuel as [|fuel]; [simpl in Hf; lia|]. unfold topics_bytes in *. rewrite bind_cons in *. cbn [fst snd] in *.
    rewrite !zlen_app, zlen_be16 in Hl. rewrite !zlen_app, zlen_be16. change (zlen [q]) with 1 in *.
    set (more := topics ≫= λ p, be16 (zlen p.1) ++ p.1 ++ [p.2]) in *.
    pose proof (zlen_nonneg pre). pose proof (zlen_nonneg t). pose proof (zlen_nonneg more).
    cbn [subscribe_loop]. rewrite (proj2 (Z.ltb_lt _ _)) by lia. unfold topic_at.
    rewrite <- !app_assoc, msg_short_mid by (done || lia). cbn [res_bind].
    rewrite s32_id, Z.min_l by (unfold int_min, int_max; lia).
    rewrite (app_assoc pre (be16 (zlen t))), string_at_mid by (rewrite zlen_app, zlen_be16; lia). cbn [res_bind].
    rewrite !u32_id by (rewrite ?u32_id; lia).
    specialize (IH fuel (register_topic b t id) ((pre ++ be16 (zlen t)) ++ t ++ [q]) (reply ++ [2])).
    rewrite <- !(app_assoc _ _ (more ++ [0])) in IH.
    replace (zlen ((pre ++ be16 (zlen t)) ++ t ++ [q])) with (zlen pre + (2 + zlen t) + 1) in IH
      by (rewrite !zlen_app, zlen_be16; change (zlen [q]) with 1; lia).
    rewrite !zlen_app, zlen_be16 in IH. change (zlen [q]) with 1 in IH.
    rewrite IH by (simpl in Hf; lia). cbn [length replicate]. by rewrite <- app_assoc.
Qed.

Definition suback (msg_id : Z) (n : nat) : list Z := [0x90; Z.of_nat n + 2] ++ be16 msg_id ++ replicate n 2.
Definition puback (control msg_id : Z) : list Z := [0x40; 2] ++ (if with_qos control then be16 msg_id else [0; 0]).

Lemma length_topics_bytes topics : (length topics ≤ length (topics_bytes topics))%nat.
Proof.
  unfold topics_bytes. induction topics as [|[t q] topics IH]; [done|]. rewrite bind_cons, !length_app.
  cbn [length fst snd]. lia.
Qed.

Lemma mqtt_subscribe_packet b id msg_id topics :
  zlen (subscribe_body msg_id topics) ≤ 127 →
  let body := subscribe_body msg_id topics in
  mqtt_subscribe b id (body ++ [0]) (zlen body) = Ok (register_all b id topics, suback msg_id (length topics)).
Proof.
  intros Hl. cbv zeta. unfold mqtt_subscribe, subscribe_body in *. pose proof (length_topics_bytes topics) as Ht.
  rewrite <- app_assoc, zlen_app, zlen_be16 in *.
  change (rd (be16 msg_id ++ topics_bytes topics ++ [0]) 0) with (Ok (u8 (Z.shiftr msg_id 8))).
  change (rd (be16 msg_id ++ topics_bytes topics ++ [0]) 1) with (Ok (u8 msg_id)). cbn [res_bind]. change 2 with (zlen (be16 msg_id)) at 2.
  rewrite subscribe_loop_topics by (rewrite ?zlen_be16; unfold zlen in *; lia).
  cbn [res_bind]. unfold reply_length. do 2 f_equal.
  assert (u8 (zlen ([Z.shiftl 9 4; 0; u8 (Z.shiftr msg_id 8); u8 msg_id] ++ replicate (length topics) 2) - 2)
    = Z.of_nat (length topics) + 2) as ->; [|done].
  rewrite zlen_app. unfold zlen in *. rewrite length_replicate. cbn [length]. rewrite u8_id; unfold byte_ok; lia.
Qed.

Lemma register_all_put b x m id topics :
  register_all (put_msd b x m) id topics = put_msd (register_all b id topics) x m.
Proof.
  revert b. induction topics as [|[t q] topics IH]; intros b; [done|].
  change (register_all (register_topic (put_msd b x m) t id) id topics
    = put_msd (register_all (register_topic b t id) id topics) x m).
  rewrite <- IH. f_equal. unfold register_topic. cbn. by destruct (find [wildcard] t).
Qed.

(** a session that reads a SUBSCRIBE packet *)
Lemma subscribe_run heap b id control msg_id topics outs name ident rest :
  let body := subscribe_body msg_id topics in
  msds b !! id = Some (Msd (mqtt_packet control body ++ rest) outs name false ident at_loop) →
  Z.shiftr control 4 = 8 → zlen body ≤ 127 →
  mqtt_run 5 heap b id =
    Ok (put_msd (register_all b id topics) id (Msd rest [] name false ident at_loop),
        mqtt_send id <$> outs ++ [suback msg_id (length topics)]).
Proof.
  intros body Em Ec Hl. rewrite (receive_packet _ _ _ _ _ _ _ _ _ Em Hl). unfold mqtt_message. rewrite Ec.
  cbn [Z.eqb Pos.eqb]. unfold body. rewrite mqtt_subscribe_packet by done. cbn [res_map res_bind fst snd].
  set (m := Msd rest [] name false ident _).
  by rewrite register_all_put, move_to_put.
Qed.

(** a session that reads a PUBLISH packet *)
Lemma publish_run heap b id control topic msg_id payload outs name ident rest :
  let body := publish_body control topic msg_id payload in
  let pkt := mqtt_packet 48 (publish_body 48 topic 0 payload) in
  broker_ok b → msds b !! id = Some (Msd (mqtt_packet control body ++ rest) outs name false ident at_loop) →
  Z.shiftr control 4 = 3 → zlen body ≤ 127 → 0 ≤ msg_id < 65536 → 0 < zlen payload →
  ∃ b', mqtt_run 5 heap b id = Ok (b', mqtt_send id <$> outs ++ [puback control msg_id]) ∧
    msds b' !! id = Some (add_copies (copies b topic id) pkt (Msd rest [] name false ident at_loop)) ∧
    ∀ x, x ≠ id → msds b' !! x = add_copies (copies b topic x) pkt <$> msds b !! x.
Proof.
  intros body pkt Hb Em Ec Hl Hid Hp. rewrite (receive_packet _ _ _ _ _ _ _ _ _ Em Hl). unfold mqtt_message.
  rewrite Ec. cbn [Z.eqb Pos.eqb]. set (m := Msd rest [] name false ident (at_body control (zlen body))).
  assert (broker_ok (put_msd b id m)) as Hb1 by by apply broker_ok_put.
  destruct (mqtt_publish_packet (put_msd b id m) control topic msg_id payload Hb1 Hid Hp Hl) as (ms' & E & Hms).
  unfold body. rewrite E. cbn [res_map res_bind fst snd].
  exists (move_to (set_msds (put_msd b id m) ms') id at_loop). split_and!; [done| |].
  - unfold move_to. cbn [msds set_msds]. rewrite lookup_alter_eq, Hms, lookup_put. done.
  - intros x Ne. unfold move_to. cbn [msds set_msds]. rewrite lookup_alter_ne, Hms by done.
    unfold put_msd. cbn [msds set_msds]. by rewrite lookup_insert_ne.
Qed.

(** a client that subscribes to topics gets what another client publishes to a
    topic that one of them covers: the SUBSCRIBE packet is acknowledged with an entry
    for every topic, the PUBLISH packet is acknowledged (with its identifier, if it
    has one), and then the thread of the subscriber sends the PUBLISH packet with the
    same topic and payload, once for every subscription of it that matches.  All other
    sessions have the packet queued once for each of their matching subscriptions. *)
Theorem mqtt_publish_subscribe heap b s p cs cp ids idp topics topic payload outs ns is_ outp np ip :
  rtc mqtt_step mqtt_start b → s ≠ p →
  msds b !! s = Some (Msd (mqtt_packet cs (subscribe_body ids topics)) outs ns false is_ at_loop) →
  msds b !! p = Some (Msd (mqtt_packet cp (publish_body cp topic idp payload)) outp np false ip at_loop) →
  Z.shiftr cs 4 = 8 → zlen (subscribe_body ids topics) ≤ 127 →
  Z.shiftr cp 4 = 3 → zlen (publish_body cp topic idp payload) ≤ 127 → 0 ≤ idp < 65536 → 0 < zlen payload →
  Exists (λ t, covers t.1 topic) topics →
  let pkt := mqtt_packet 48 (publish_body 48 topic 0 payload) in
  ∃ b1 b2 b3 n,
    mqtt_run 5 heap b s = Ok (b1, mqtt_send s <$> outs ++ [suback ids (length topics)]) ∧
    mqtt_run 5 heap b1 p = Ok (b2, mqtt_send p <$> outp ++ [puback cp idp]) ∧
    mqtt_run 2 heap b2 s = Ok (b3, mqtt_send s <$> replicate n pkt) ∧ (1 ≤ n)%nat ∧
    ∀ x, x ≠ s → x ≠ p → msds b3 !! x = add_copies (copies b topic x) pkt <$> msds b !! x.
Proof.
  intros Hb%mqtt_reachable_ok Ne Es Ep Ecs Hls Ecp Hlp Hid Hpl Hex pkt.
  rewrite <- (app_nil_r (mqtt_packet cs _)) in Es. rewrite <- (app_nil_r (mqtt_packet cp _)) in Ep.
  pose proof (subscribe_run heap b s _ _ _ _ _ _ _ Es Ecs Hls) as R1.
  destruct (register_all_same b s topics) as [Ems Hok].
  set (m1 := Msd [] [] ns false is_ at_loop) in *. set (b1 := put_msd (register_all b s topics) s m1) in *.
  assert (live b s) as HL by (exists at_loop; unfold at_of; by rewrite Es).
  assert (broker_ok b1) as Hb1 by (apply broker_ok_put; auto).
  assert (∀ x, x ≠ s → msds b1 !! x = msds b !! x) as Eo.
  { intros x Hx. unfold b1, put_msd. cbn [msds set_msds]. by rewrite lookup_insert_ne, Ems. }
  rewrite <- (Eo p) in Ep by done.
  destruct (publish_run heap b1 p _ _ _ _ _ _ _ _ Hb1 Ep Ecp Hlp Hid Hpl) as (b2 & R2 & _ & Hx). fold pkt in Hx.
  destruct (copies_register_all b s topics topic) as (C1 & _ & C2).
  exists b1, b2. pose proof (Hx s ltac:(done)) as Es2. unfold b1 in Es2 at 2. rewrite lookup_put in Es2.
  set (n := copies b1 topic s) in Es2. eexists _, n. split_and!; [done|done| |by apply C2|].
  - cbn [mqtt_run]. rewrite (thread_loop _ _ _ _ _ _ _ Es2). cbn [res_bind].
    rewrite (thread_control_waits _ _ _ _ _ _ (lookup_put _ _ _)). cbn [res_bind app]. by rewrite app_nil_r.
  - intros x N1 N2. cbn. rewrite !lookup_insert_ne by done. rewrite Hx, Eo by done. do 2 f_equal. by apply C1.
Qed.

(** ** The end of a session *)

Lemma mqtt_run_add n k heap b id b1 o1 :
  mqtt_run n heap b id = Ok (b1, o1) →
  mqtt_run (n + k) heap b id = let* '(b2, o2) := mqtt_run k heap b1 id in Ok (b2, o1 ++ o2).
Proof.
  revert b o1. induction n as [|n IH]; intros b o1 H; cbn [mqtt_run Nat.add] in *.
  - injection H as <- <-. by destruct (mqtt_run k heap b id) as [[]|].
  - res_step H. destruct a as [b2 o2]. res_step H. destruct a as [b3 o3]. injection H as <- <-.
    cbn [res_bind]. rewrite (IH _ _ E0). destruct (mqtt_run k heap b3 id) as [[b4 o4]|]; [|done]. cbn [res_bind]. by rewrite app_assoc.
Qed.

(** [mqtt_get_bytes] gives up, and a packet with control byte 0 is ignored *)
Lemma terminate_control heap b id d outs name ident :
  let m a := Msd d outs name true ident a in
  mqtt_run 3 heap (put_msd b id (m at_control)) id = Ok (put_msd b id (m at_loop), []).
Proof.
  intros m. assert (∀ a, msds (put_msd b id (m a)) !! id = Some (m a)) as EL by (intros; apply lookup_put).
  assert (mqtt_thread heap (put_msd b id (m at_control)) id = Ok (put_msd b id (m (at_length 0 0)), [])) as E1.
  { unfold mqtt_thread. rewrite EL. unfold after_get, mqtt_get_bytes. cbn. by rewrite move_to_put, put_msd_put. }
  assert (mqtt_thread heap (put_msd b id (m (at_length 0 0))) id = Ok (put_msd b id (m (at_body 0 0)), [])) as E2.
  { unfold mqtt_thread. rewrite EL. cbn. by rewrite move_to_put. }
  assert (mqtt_thread heap (put_msd b id (m (at_body 0 0))) id = Ok (put_msd b id (m at_loop), [])) as E3.
  { unfold mqtt_thread. rewrite EL. cbn [msd_at m]. unfold after_get, mqtt_get_bytes. cbn [terminate m].
    rewrite body_done_complete by done. rewrite put_msd_put. cbn [app].
    change (mqtt_message ?b id 0 0 [0]) with (Ok (b, @nil (list Z))). cbn [res_bind]. by rewrite move_to_put. }
  cbn [mqtt_run]. by rewrite E1; cbn [res_bind]; rewrite E2; cbn [res_bind]; rewrite E3.
Qed.

Lemma copies_unregister_all b id x topic :
  x ≠ id → copies (unregister_all_topics b id) topic x = copies b topic x.
Proof.
  intros Ne. unfold copies. f_equal.
  - cbn [topic_subscriptions unregister_all_topics]. rewrite lookup_fmap.
    destruct (topic_subscriptions b !! topic) as [s|]; [|done]. cbn [fmap option_fmap option_map exact_copies].
    rewrite (decide_ext (x ∈ s ∖ {[id]}) (x ∈ s)) by set_solver. done.
  - cbn [topic_wc_subscriptions unregister_all_topics].
    induction (topic_wc_subscriptions b) as [|[t' s] l IH]; [done|]. cbn [fmap list_fmap wc_copies fst snd].
    rewrite IH. f_equal.
    rewrite (decide_ext (wc_matches t' topic ∧ x ∈ s ∖ {[id]}) (wc_matches t' topic ∧ x ∈ s)) by set_solver. done.
Qed.

(** When TCP closes a session whose thread is between two packets, the thread
    ends, without sending or handling anything more, within four of its parts; no
    table refers to the session any more, the session of TCP is ended, and the join in
    [mqtt_close_session_2] returns. *)
Theorem mqtt_close_ends heap b id m :
  msds b !! id = Some m → msd_at m = at_loop ∨ msd_at m = at_control →
  ∃ b', mqtt_run 4 heap (mqtt_close_begin b id) id = Ok (b', [mqtt_end_session id]) ∧
    (¬ subscribed b' id) ∧ mqtt_step b' (mqtt_close_end b' id) ∧ msds (mqtt_close_end b' id) !! id = None ∧
    ∀ x, x ≠ id → msds (mqtt_close_end b' id) !! x = msds b !! x ∧ ∀ topic, copies b' topic x = copies b topic x.
Proof.
  destruct m as [d outs name t ident a]. intros Em Ha. cbn [msd_at] in Ha.
  set (m a := Msd d outs name true ident a). set (e := put_msd (unregister_all_topics b id) id (m at_end)).
  assert (mqtt_thread heap (put_msd b id (m at_loop)) id = Ok (e, [mqtt_end_session id])) as Last.
  { unfold mqtt_thread. rewrite lookup_put. cbn [msd_at terminate m]. do 2 f_equal.
    exact (move_to_put (unregister_all_topics b id) id (m at_loop) at_end). }
  assert (∀ n, mqtt_run n heap e id = Ok (e, [])) as Rest.
  { induction n as [|n IH]; [done|]. cbn [mqtt_run]. unfold mqtt_thread, e at 1. rewrite lookup_put.
    cbn [msd_at m res_bind]. by rewrite IH. }
  assert (∀ n, mqtt_run (1 + n) heap (put_msd b id (m at_loop)) id = Ok (e, [mqtt_end_session id])) as Loop.
  { intros n. cbn [mqtt_run Nat.add]. rewrite Last. cbn [res_bind]. by rewrite Rest. }
  exists e. split_and!.
  - unfold mqtt_close_begin. rewrite Em. destruct Ha as [->| ->]; [by apply (Loop 3%nat)|].
    pose proof (mqtt_run_add 3 1 _ _ _ _ _ (terminate_control heap b id d outs name ident)) as R. cbv zeta in R.
    fold m in R. pose proof (Loop 0%nat) as L. cbn [Nat.add] in L. by rewrite L in R.
  - intros H. by apply (unregister_all_subscribed b id id) in H as [_ ?].
  - eapply step_close_end; [apply lookup_put|done..].
  - apply lookup_delete_eq.
  - intros x Ne. split; [|intros; by apply (copies_unregister_all b)].
    unfold mqtt_close_end, e, put_msd. cbn [msds set_msds unregister_all_topics].
    by rewrite lookup_delete_ne, lookup_insert_ne.
Qed.

(** ** What differs from MQTT *)

(** a length of more than 127 bytes is sent as 255 and the number of blocks: the same
    bytes for every length of a block of 128 *)
Lemma long_length_lost r : 128 ≤ r < 16384 → length_bytes 5 r = Ok [255; r / 128].
Proof.
  intros Hr. cbn [length_bytes]. rewrite (proj2 (Z.ltb_lt 0 r)), (proj2 (Z.ltb_lt 127 r)) by lia.
  fold (length_bytes 4 (Z.shiftr r 7)). rewrite Z.shiftr_div_pow2 by lia. change (2 ^ 7) with 128.
  rewrite length_bytes_small by zlia. done.
Qed.

(** the bytes of a length are read with the first as the highest; MQTT has it the other
    way round: 200 becomes 9217 *)
Lemma long_length_misread : add_length (add_length 0 (128 + 200 mod 128)) (200 / 128) = 9217.
Proof. reflexivity. Qed.

(** a topic said to be at least as long as the packet is read from behind its end *)
Lemma publish_topic_overrun b control mem len l :
  msg_short mem 0 = Ok l → zlen mem = len + 1 → 0 ≤ len ≤ l → len ≤ int_max → mqtt_publish b control mem len = Err bad_access.
Proof.
  intros E Hm Hl Hi. unfold mqtt_publish. rewrite E. cbn [res_bind]. rewrite s32_id by (unfold int_min; lia).
  rewrite Z.min_r by lia. unfold string_at, rd_range. rewrite (proj2 (Z.ltb_ge len 0)) by lia.
  rewrite (proj2 (Z.ltb_lt (zlen mem) _)) by lia. done.
Qed.

(** closed between the control byte and the length of a PUBLISH packet: a message of one
    byte is handled as if it had a topic *)
Lemma closed_in_packet heap b id d outs name ident control :
  Z.shiftr control 4 = 3 →
  msds b !! id = Some (Msd d outs name true ident (at_length control 0)) → mqtt_run 2 heap b id = Err bad_access.
Proof.
  intros Hc E. cbn [mqtt_run]. unfold mqtt_thread at 1. rewrite E. cbn [msd_at terminate res_bind].
  rewrite (move_to_some _ _ _ _ E). unfold mqtt_thread. rewrite lookup_put. cbn [msd_at set_at].
  unfold after_get, mqtt_get_bytes. cbn [terminate set_at]. rewrite body_done_complete by done. unfold mqtt_message.
  rewrite Hc. reflexivity.
Qed.

(** ** Witnesses *)

(** "home/lamp", "home/#" and the packets of two clients *)
Definition ex_lamp : str := [104; 111; 109; 101; 47; 108; 97; 109; 112].
Definition ex_home : str := [104; 111; 109; 101; 47; 35].
Definition ex_subscribe : list Z := mqtt_packet 0x82 (subscribe_body 7 [(ex_home, 0); (ex_lamp, 0)]).
Definition ex_publish : list Z := mqtt_packet 0x32 (publish_body 0x32 ex_lamp 9 [111; 110]).
Definition ex_broker : broker :=
  (mqtt_new_data (mqtt_new_data (mqtt_new_session (mqtt_new_session mqtt_start 1 []) 2 []) 1 ex_subscribe).2 2 ex_publish).2.

Lemma ex_broker_reachable : rtc mqtt_step mqtt_start ex_broker.
Proof.
  eapply rtc_l; [by apply (step_new_session mqtt_start 1 [])|].
  eapply rtc_l; [by apply (step_new_session _ 2 [])|].
  eapply rtc_l; [apply (step_new_data _ 1 ex_subscribe)|].
  eapply rtc_once, (step_new_data _ 2 ex_publish).
Qed.

Lemma mqtt_publish_subscribe_witness :
  ∃ b1 b2 b3 n,
    mqtt_run 5 (λ _, 0) ex_broker 1 = Ok (b1, [mqtt_send 1 [0x90; 4; 0; 7; 2; 2]]) ∧
    mqtt_run 5 (λ _, 0) b1 2 = Ok (b2, [mqtt_send 2 [0x40; 2; 0; 9]]) ∧
    mqtt_run 2 (λ _, 0) b2 1 = Ok (b3, mqtt_send 1 <$> replicate n (mqtt_packet 48 (be16 9 ++ ex_lamp ++ [111; 110]))) ∧
    (1 ≤ n)%nat.
Proof.
  destruct (mqtt_publish_subscribe (λ _, 0) ex_broker 1 2 0x82 0x32 7 9 [(ex_home, 0); (ex_lamp, 0)] ex_lamp [111; 110]
    [] [] [] [] [] []) as (b1 & b2 & b3 & n & R1 & R2 & R3 & Hn & _);
    [apply ex_broker_reachable|done|reflexivity|reflexivity|done|done|done|done|done|done| |].
  { apply Exists_cons_hd. right. reflexivity. }
  exists b1, b2, b3, n. split_and!; [exact R1|exact R2|exact R3|exact Hn].
Defined.

Lemma mqtt_publish_safe_witness :
  ∃ b msg ms', mqtt_run 5 (λ _, 0) ex_broker 1 = Ok (b, [mqtt_send 1 [0x90; 4; 0; 7; 2; 2]]) ∧
    publish_message ex_lamp [111; 110] = Ok msg ∧ publish b ex_lamp [111; 110] = Ok (set_msds b ms') ∧
    (msgs_out <$> ms' !! 1) = Some [msg; msg] ∧ (msgs_out <$> ms' !! 2) = Some [].
Proof.
  set (b := (ok_or (mqtt_start, []) (mqtt_run 5 (λ _, 0) ex_broker 1)).1).
  assert (mqtt_run 5 (λ _, 0) ex_broker 1 = Ok (b, [mqtt_send 1 [0x90; 4; 0; 7; 2; 2]])) as R by (vm_compute; reflexivity).
  destruct (mqtt_publish_safe b) as [_ H].
  { etrans; [apply ex_broker_reachable|]. eapply mqtt_run_steps, R. }
  destruct (H ex_lamp [111; 110]) as (msg & ms' & E1 & E2 & E3).
  exists b, msg, ms'. split_and!; [done|done|done| |]; rewrite E3; reflexivity.
Defined.

Lemma mqtt_close_ends_witness :
  ∃ b', mqtt_run 4 (λ _, 0) (mqtt_close_begin ex_broker 1) 1 = Ok (b', [mqtt_end_session 1]) ∧
    ¬ subscribed b' 1.
Proof.
  destruct (mqtt_close_ends (λ _, 0) ex_broker 1 (Msd ex_subscribe [] [] false [] at_loop)) as (b' & H1 & H2 & _);
    [reflexivity|by left|]. by exists b'.
Defined.
