(* ===== verification/Irc.v ===== *)
(** * The IRC server (src/irc.cpp, [irc_session_data] of src/types.h)

    The table of nicknames, the topics, [process_line] with all its commands, and the
    thread of a session.  A session is a number; a person in the table of nicknames
    points to one, and sending to a session that was deleted is a fault, as is the use
    of [nicknames.find(...)] when nothing was found.  The thread is cut where a command
    gives up the lock on the nicknames: after a rename, in JOIN, PART, TOPIC and LIST.
    [can_send] says for which sessions [send_data] succeeds; the clock is an argument.
    A [std::map] is walked through in the order of its keys.

    Shown: while sending succeeds and no client asks for the empty nickname, every
    person in the table is a session that exists, under its own nickname, in every
    interleaving, and no command leaves the tables; a message reaches everybody it is
    for exactly once; a silent client is removed.  A lemma shows how a failing send
    during a rename leaves a person behind whose session is deleted. *)
From stdpp Require Import strings sorting.
From S2P Require Import Prelude Str.
Open Scope Z_scope.

(** ** State *)

Record person := Person { real_name : str; channels : gset str; tcp_session : Z }.

(** where the thread of a session is: at the top of its loop, in a command, or ended *)
Inductive irc_at :=
  | irc_top
  | irc_renamed (new_nick : str)
  | irc_joined (chans : list str)
  | irc_parted (chans : list str)
  | irc_topic_set (channel : str)
  | irc_listed (chans : list (str * Z))
  | irc_ended.

(** with the variables of the thread *)
Record irc_session_data := Isd {
  isd_input : str;
  isd_username : str;
  isd_nick : str;
  isd_terminate : bool;
  isd_addr : str;            (* [get_their_addr().to_str()] *)
  seen_nick : bool;
  seen_user : bool;
  last_ping : Z;
  last_msg : Z;
  isd_at : irc_at;
}.

Record irc := Irc {
  nicknames : gmap str person;
  topicnames : gmap str str;
  irc_sessions : gmap Z irc_session_data;
}.

Definition irc_start : irc := Irc ∅ ∅ ∅.

Definition with_nicknames (s : irc) (n : gmap str person) : irc := Irc n (topicnames s) (irc_sessions s).
Definition with_topicnames (s : irc) (t : gmap str str) : irc := Irc (nicknames s) t (irc_sessions s).
Definition put_isd (s : irc) (id : Z) (d : irc_session_data) : irc :=
  Irc (nicknames s) (topicnames s) (<[id := d]> (irc_sessions s)).

Definition isd_set_input (d : irc_session_data) (i : str) : irc_session_data :=
  Isd i (isd_username d) (isd_nick d) (isd_terminate d) (isd_addr d) (seen_nick d) (seen_user d) (last_ping d) (last_msg d) (isd_at d).
Definition isd_set_nick (d : irc_session_data) (n : str) : irc_session_data :=
  Isd (isd_input d) (isd_username d) n (isd_terminate d) (isd_addr d) true (seen_user d) (last_ping d) (last_msg d) (isd_at d).
Definition isd_set_user (d : irc_session_data) (u : str) : irc_session_data :=
  Isd (isd_input d) u (isd_nick d) (isd_terminate d) (isd_addr d) (seen_nick d) true (last_ping d) (last_msg d) (isd_at d).
Definition isd_set_terminate (d : irc_session_data) : irc_session_data :=
  Isd (isd_input d) (isd_username d) (isd_nick d) true (isd_addr d) (seen_nick d) (seen_user d) (last_ping d) (last_msg d) (isd_at d).
Definition isd_set_ping (d : irc_session_data) (now : Z) : irc_session_data :=
  Isd (isd_input d) (isd_username d) (isd_nick d) (isd_terminate d) (isd_addr d) (seen_nick d) (seen_user d) now (last_msg d) (isd_at d).
Definition isd_set_msg (d : irc_session_data) (now : Z) : irc_session_data :=
  Isd (isd_input d) (isd_username d) (isd_nick d) (isd_terminate d) (isd_addr d) (seen_nick d) (seen_user d) (last_ping d) now (isd_at d).
Definition isd_set_at (d : irc_session_data) (a : irc_at) : irc_session_data :=
  Isd (isd_input d) (isd_username d) (isd_nick d) (isd_terminate d) (isd_addr d) (seen_nick d) (seen_user d) (last_ping d) (last_msg d) a.

(** ** Sending *)

Inductive irc_out :=
  | irc_send (id : Z) (line : str)
  | irc_end_session (id : Z).

Definition crlf : str := [13; 10].

(** [process_line] returns, or goes on when it has the lock again *)
Inductive line_next :=
  | next_return (ok : bool)
  | next_at (a : irc_at).

Abbreviation line_result := (res (irc * list irc_out * line_next)).

Section Irc.
Context (local_host : str) (can_send : Z → bool).

(** [work.begin() + work.find(...)] is outside of [work] when nothing is found *)
Definition transmit_to_client (s : irc) (id : Z) (line : str) : res (bool * list irc_out) :=
  match irc_sessions s !! id, find crlf line with
  | Some _, Some _ => Ok (can_send id, if can_send id then [irc_send id line] else [])
  | _, _ => Err bad_access
  end.

(** messages that are sent until one fails, and messages that are all tried *)
Fixpoint transmit_until (s : irc) (msgs : list (Z * str)) : res (bool * list irc_out) :=
  match msgs with
  | [] => Ok (true, [])
  | (id, line) :: msgs' =>
      let* '(ok, o1) := transmit_to_client s id line in
      if ok then (let* '(ok, o2) := transmit_until s msgs' in Ok (ok, o1 ++ o2)) else Ok (false, o1)
  end.

Fixpoint transmit_each (s : irc) (msgs : list (Z * str)) : res (list irc_out) :=
  match msgs with
  | [] => Ok []
  | (id, line) :: msgs' =>
      let* '(_, o1) := transmit_to_client s id line in
      let* o2 := transmit_each s msgs' in
      Ok (o1 ++ o2)
  end.

(** who is addressed by a channel, or by a nickname *)
Definition addressed (channel sender_nick : str) (x : str * person) : Prop :=
  x.1 ≠ sender_nick ∧ (channel ∈ channels x.2 ∨ channel = x.1).
#[global] Instance addressed_dec channel sender_nick x : Decision (addressed channel sender_nick x).
Proof. unfold addressed. apply _. Defined.

Definition transmit_to_channel (s : irc) (channel msg_line sender_nick : str) : res (list irc_out) :=
  transmit_each s ((λ x, (tcp_session x.2, msg_line)) <$> filter (addressed channel sender_nick) (in_order (nicknames s))).

Definition in_channel (channel : str) (x : str * person) : Prop := channel ∈ channels x.2.
#[global] Instance in_channel_dec channel x : Decision (in_channel channel x).
Proof. unfold in_channel. apply _. Defined.

Definition names_line (channel nick : str) (members : list (str * person)) : str :=
  lit ":" ++ local_host ++ lit " 353 " ++ nick ++ lit " @ " ++ channel ++ lit " :" ++
  join [32] members.*1 ++ crlf ++ lit ": 366 * " ++ channel ++ lit " :End of /NAMES list." ++ crlf.

Definition send_user_for_channel (s : irc) (channel nick : str) : res (list irc_out) :=
  let members := filter (in_channel channel) (in_order (nicknames s)) in
  transmit_each s ((λ x, (tcp_session x.2, names_line channel nick members)) <$> members).

(** [get_channel_list], walked through in order *)
Definition count_channel (m : gmap str Z) (ch : str) : gmap str Z :=
  match m !! ch with Some n => <[ch := n + 1]> m | None => <[ch := 1]> m end.
Definition get_channel_list (s : irc) : list (str * Z) :=
  in_order (foldl (λ m x, foldl count_channel m (set_in_order (channels x.2))) ∅ (in_order (nicknames s))).

Definition get_topic (s : irc) (channel : str) : str := default [] (topicnames s !! channel).

Definition topic_line (s : irc) (channel : str) : str :=
  lit ": TOPIC " ++ channel ++ lit " :" ++ get_topic s channel ++ crlf.
Definition send_topic (s : irc) (id : Z) (channel : str) : res (bool * list irc_out) :=
  transmit_to_client s id (topic_line s channel).

(** ** [process_line] *)

(** [return transmit_to_client(...)] *)
Definition reply_and_return (s : irc) (id : Z) (line : str) : line_result :=
  let* '(ok, o) := transmit_to_client s id line in Ok (s, o, next_return ok).

(** the part of a line behind the first of some text *)
Definition behind (what line : str) : str :=
  match find what line with Some n => drop (n + 1) line | None => [] end.

Definition irc_nick (s : irc) (id : Z) (d : irc_session_data) (arg : str) : line_result :=
  let new_nick := str_tolower arg in
  match nicknames s !! new_nick with
  | None =>
      match nicknames s !! isd_nick d with
      | Some p =>
          Ok (with_nicknames s (<[new_nick := p]> (delete (isd_nick d) (nicknames s))), [], next_at (irc_renamed new_nick))
      | None =>
          let s := with_nicknames s (<[new_nick := Person [] ∅ id]> (nicknames s)) in
          Ok (put_isd s id (isd_set_nick d new_nick), [], next_return true)
      end
  | Some _ => reply_and_return s id (lit ": 433 * " ++ new_nick ++ lit " :Nickname is already in use." ++ crlf)
  end.

(** after the table was changed: everybody is told *)
Definition irc_rename (s : irc) (id : Z) (d : irc_session_data) (new_nick : str) : line_result :=
  let nick_line := lit ":" ++ isd_nick d ++ lit " NICK " ++ new_nick ++ crlf in
  let* '(ok, o) := transmit_until s ((λ x, (tcp_session x.2, nick_line)) <$> in_order (nicknames s)) in
  if ok then Ok (put_isd s id (isd_set_nick d new_nick), o, next_return true) else Ok (s, o, next_return false).

Definition welcome (nick : str) (users n_channels : Z) : list str :=
  let w (code text : str) := lit ": " ++ code ++ lit " " ++ nick ++ text ++ crlf in
  [w (lit "001") (lit " :Welcome"); w (lit "002") (lit " :Your host runs MyIP"); w (lit "003") (lit " :");
   w (lit "004") (lit " "); w (lit "005") (lit " :"); w (lit "005") (lit " :"); w (lit "251") (lit " :");
   w (lit "252") (lit " 0 :operator(s) online"); w (lit "253") (lit " 0 :unknown connections");
   w (lit "254") (lit " " ++ fmt_dec n_channels ++ lit " :channels formed");
   w (lit "255") (lit " :I have " ++ fmt_dec users ++ lit " clients and 1 server");
   w (lit "265") (lit " :Current local users: " ++ fmt_dec users ++ lit " Max: -1");
   w (lit "266") (lit " :Current global users: " ++ fmt_dec users ++ lit "  Max: -1");
   w (lit "375") (lit " :message of the day"); w (lit "372") (lit " :");
   w (lit "376") (lit " :End of message of the day.")].

Definition irc_user (s : irc) (id : Z) (d : irc_session_data) (name line : str) : line_result :=
  match nicknames s !! isd_nick d with
  | None => reply_and_return s id (lit ": 401 * :What is your nick?" ++ crlf)
  | Some p =>
      let s := with_nicknames s (<[isd_nick d := Person (behind (lit ":") line) (channels p) (tcp_session p)]> (nicknames s)) in
      let users := Z.of_nat (size (nicknames s)) in
      let lines := welcome (isd_nick d) users (zlen (get_channel_list s)) in
      let s := put_isd s id (isd_set_user d name) in
      let* '(ok, o) := transmit_until s ((λ l, (id, l)) <$> lines) in
      Ok (s, o, next_return ok)
  end.

(** [it->second.channels], changed for every channel of the command *)
Definition change_channels (s : irc) (d : irc_session_data) (chans : list str) (f : gset str → str → gset str) : res irc :=
  match nicknames s !! isd_nick d, chans with
  | Some p, _ =>
      Ok (with_nicknames s (<[isd_nick d := Person (real_name p) (foldl f (channels p) (str_tolower <$> chans)) (tcp_session p)]>
            (nicknames s)))
  | None, [] => Ok s
  | None, _ => Err bad_access
  end.

(** ":nick!user@address " *)
Definition origin (d : irc_session_data) : str :=
  lit ":" ++ isd_nick d ++ lit "!" ++ isd_username d ++ lit "@" ++ isd_addr d ++ lit " ".

(** "___", 3, "invalid" *)
Definition no_nick : str := lit "___" ++ [3] ++ lit "invalid".

Fixpoint irc_join_announce (s : irc) (id : Z) (d : irc_session_data) (chans : list str) : res (bool * list irc_out) :=
  match chans with
  | [] => Ok (true, [])
  | channel :: chans' =>
      let* o1 := transmit_to_channel s channel (origin d ++ lit "JOIN " ++ channel ++ crlf) no_nick in
      let* o2 := send_user_for_channel s channel (isd_nick d) in
      let* '(ok, o3) := send_topic s id channel in
      if ok then (let* '(ok, o4) := irc_join_announce s id d chans' in Ok (ok, o1 ++ o2 ++ o3 ++ o4))
      else Ok (false, o1 ++ o2 ++ o3)
  end.

Fixpoint irc_part_announce (s : irc) (d : irc_session_data) (chans : list str) : res (list irc_out) :=
  match chans with
  | [] => Ok []
  | channel :: chans' =>
      let* o1 := transmit_to_channel s channel (origin d ++ lit "PART " ++ channel ++ crlf) (isd_nick d) in
      let* o2 := send_user_for_channel s channel no_nick in
      let* o3 := irc_part_announce s d chans' in
      Ok (o1 ++ o2 ++ o3)
  end.

Definition list_lines (s : irc) (d : irc_session_data) (chans : list (str * Z)) : list str :=
  let w (code text : str) := lit ":" ++ local_host ++ lit " " ++ code ++ lit " " ++ isd_nick d ++ text ++ crlf in
  [w (lit "321") (lit " Channel :Users Name")] ++
  ((λ x, w (lit "322") (lit " " ++ x.1 ++ lit " " ++ fmt_dec x.2 ++ lit " :[+nt] " ++ get_topic s x.1)) <$> chans) ++
  [w (lit "323") (lit " :End of channel list.")].

Definition process_line (s : irc) (id : Z) (d : irc_session_data) (line : str) : line_result :=
  let return_true := Ok (s, [], next_return true) : line_result in
  if decide (line = []) then return_true
  else
    let* parts := split line [32] in
    match parts with
    | [] => return_true
    | cmd :: args =>
        let n := zlen parts in
        let arg := nth 0 args [] in
        if decide (cmd = lit "NICK" ∧ 2 ≤ n) then irc_nick s id d arg
        else if decide (cmd = lit "USER" ∧ 5 ≤ n) then irc_user s id d arg line
        else if negb (seen_user d) || negb (seen_nick d) then return_true
        else if decide (cmd = lit "JOIN" ∧ 2 ≤ n) then
          let* chans := split arg [44] in
          let* s := change_channels s d chans (λ c x, {[ x ]} ∪ c) in
          Ok (s, [], next_at (irc_joined chans))
        else if decide (cmd = lit "PART" ∧ 2 ≤ n) then
          let* chans := split arg [44] in
          let* s := change_channels s d chans (λ c x, c ∖ {[ x ]}) in
          Ok (s, [], next_at (irc_parted chans))
        else if decide ((cmd = lit "PRIVMSG" ∨ cmd = lit "NOTICE") ∧ 2 ≤ n) then
          let* o := transmit_to_channel s (str_tolower arg) (origin d ++ line ++ crlf) (isd_nick d) in
          Ok (s, o, next_return true)
        else if decide (cmd = lit "PING") then
          reply_and_return s id (lit ":" ++ local_host ++ lit " PONG " ++ local_host ++ lit " :" ++ behind [32] line ++ crlf)
        else if decide (cmd = lit "TOPIC" ∧ 3 ≤ n) then
          Ok (with_topicnames s (<[arg := behind (lit ":") line]> (topicnames s)), [], next_at (irc_topic_set arg))
        else if decide (cmd = lit "LIST") then Ok (s, [], next_at (irc_listed (get_channel_list s)))
        else if decide (cmd = lit "QUIT") then Ok (s, [], next_return false)
        else return_true
    end.

(** ** The thread *)

Definition irc_set_at (s : irc) (id : Z) (a : irc_at) : irc :=
  Irc (nicknames s) (topicnames s) (alter (λ d, isd_set_at d a) id (irc_sessions s)).

(** behind the loop *)
Definition irc_leave (s : irc) (id : Z) : irc * list irc_out :=
  match irc_sessions s !! id with
  | None => (s, [])
  | Some d =>
      (irc_set_at (with_nicknames s (delete (isd_nick d) (nicknames s))) id irc_ended, [irc_end_session id])
  end.

(** [last_msg = get_ms();] after a line, or the end of the loop *)
Definition line_done (now : Z) (id : Z) (r : line_result) : res (irc * list irc_out) :=
  let* '(s, o, next) := r in
  match next with
  | next_return true =>
      Ok (irc_set_at (Irc (nicknames s) (topicnames s) (alter (λ d, isd_set_msg d now) id (irc_sessions s))) id irc_top, o)
  | next_return false => let '(s, o2) := irc_leave s id in Ok (s, o ++ o2)
  | next_at a => Ok (irc_set_at s id a, o)
  end.

(** no line: [now - last_ping] and [now - last_msg] are unsigned *)
Definition irc_idle (now : Z) (s : irc) (id : Z) (d : irc_session_data) : res (irc * list irc_out) :=
  let* '(ok, d, o) :=
    if 5000 <? u64 (now - last_ping d) then
      let* '(ok, o) := transmit_to_client s id (lit "PING :" ++ local_host ++ crlf) in
      Ok (ok, isd_set_ping d now, o)
    else Ok (true, d, []) in
  let s := put_isd s id d in
  if negb ok || (16000 <? u64 (now - last_msg d)) then (let '(s, o2) := irc_leave s id in Ok (s, o ++ o2))
  else Ok (s, o).

(** the next part of [irc_thread] *)
Definition irc_thread (now : Z) (s : irc) (id : Z) : res (irc * list irc_out) :=
  match irc_sessions s !! id with
  | None => Ok (s, [])
  | Some d =>
      match isd_at d with
      | irc_top =>
          if isd_terminate d then Ok (irc_leave s id)
          else
            match find crlf (isd_input d) with
            | Some n =>
                let line := take n (isd_input d) in
                let d := isd_set_input d (drop (n + 2) (isd_input d)) in
                line_done now id (process_line (put_isd s id d) id d line)
            | None => irc_idle now s id d
            end
      | irc_renamed new_nick => line_done now id (irc_rename s id d new_nick)
      | irc_joined chans =>
          line_done now id (let* '(ok, o) := irc_join_announce s id d chans in Ok (s, o, next_return ok))
      | irc_parted chans =>
          line_done now id (let* o := irc_part_announce s d chans in Ok (s, o, next_return true))
      | irc_topic_set channel => line_done now id (reply_and_return s id (topic_line s channel))
      | irc_listed chans =>
          line_done now id (let* '(ok, o) := transmit_until s ((λ l, (id, l)) <$> list_lines s d chans) in
                            Ok (s, o, next_return ok))
      | irc_ended => Ok (s, [])
      end
  end.
End Irc.

(** ** The callbacks of TCP *)

Definition irc_new_session (s : irc) (id : Z) (addr : str) (now : Z) : irc :=
  put_isd s id (Isd [] [] [] false addr false false now now irc_top).

Definition irc_new_data (s : irc) (id : Z) (bytes : list Z) : res irc :=
  match bytes, irc_sessions s !! id with
  | [], _ => Ok s
  | _, Some d => Ok (put_isd s id (isd_set_input d (isd_input d ++ bytes)))
  | _, None => Err bad_access
  end.

(** [irc_close_session_2] up to the join, and after it *)
Definition irc_close_begin (s : irc) (id : Z) : irc :=
  match irc_sessions s !! id with Some d => put_isd s id (isd_set_terminate d) | None => s end.
Definition irc_close_end (s : irc) (id : Z) : irc := Irc (nicknames s) (topicnames s) (delete id (irc_sessions s)).

(** ** All interleavings in which sending succeeds *)

(** "NICK" and an empty nickname *)
Definition empty_nick (line : str) : Prop := ∃ args, split line [32] = Ok (lit "NICK" :: [] :: args).

Definition next_line (s : irc) (id : Z) (line : str) : Prop :=
  ∃ d n, irc_sessions s !! id = Some d ∧ find crlf (isd_input d) = Some n ∧ line = take n (isd_input d).

Inductive irc_step (local_host : str) : irc → irc → Prop :=
  | irc_step_new s id addr now :
      irc_sessions s !! id = None → irc_step local_host s (irc_new_session s id addr now)
  | irc_step_data s id bytes s' : irc_new_data s id bytes = Ok s' → irc_step local_host s s'
  | irc_step_thread s id can_send now s' o :
      (∀ x, can_send x = true) → (∀ line, next_line s id line → ¬ empty_nick line) →
      irc_thread local_host can_send now s id = Ok (s', o) → irc_step local_host s s'
  | irc_step_close s id : irc_step local_host s (irc_close_begin s id)
  | irc_step_closed s id d :
      irc_sessions s !! id = Some d → isd_terminate d = true → isd_at d = irc_ended →
      irc_step local_host s (irc_close_end s id).

(** the nickname a session has in the table *)
Definition owned (d : irc_session_data) : str :=
  match isd_at d with irc_renamed n => n | _ => isd_nick d end.
Definition renaming (d : irc_session_data) : bool := match isd_at d with irc_renamed _ => true | _ => false end.
Definition running (d : irc_session_data) : Prop := isd_at d ≠ irc_ended.

Record irc_ok (s : irc) : Prop := IrcOk {
  ok_person n p : nicknames s !! n = Some p →
    ∃ d, irc_sessions s !! tcp_session p = Some d ∧ running d ∧ owned d = n;
  ok_session id d : irc_sessions s !! id = Some d → running d → seen_nick d = true →
    ∃ p, nicknames s !! owned d = Some p ∧ tcp_session p = id;
  ok_fresh id d : irc_sessions s !! id = Some d → seen_nick d = false → isd_nick d = [] ∧ renaming d = false;
  ok_named : nicknames s !! [] = None;
}.

(** what a running session has in the table is its own *)
Lemma owner_unique s id d p :
  irc_ok s → irc_sessions s !! id = Some d → running d → nicknames s !! owned d = Some p → tcp_session p = id.
Proof.
  intros K Ed Rd Ep. destruct (seen_nick d) eqn:Sd.
  - destruct (ok_session s K id d Ed Rd Sd) as (p' & Ep' & <-). rewrite Ep in Ep'. by injection Ep' as ->.
  - destruct (ok_fresh s K id d Ed Sd) as [En Hr]. exfalso.
    assert (owned d = []) as Eo by (unfold owned, renaming in *; by destruct (isd_at d)).
    rewrite Eo, (ok_named s K) in Ep. done.
Qed.

(** a session changes, but not its nickname *)
Lemma irc_ok_put s id d d' :
  irc_ok s → irc_sessions s !! id = Some d → running d → running d' →
  owned d' = owned d → seen_nick d' = seen_nick d → (seen_nick d = false → isd_nick d' = [] ∧ renaming d' = false) →
  irc_ok (put_isd s id d').
Proof.
  intros K Ed Rd Rd' Eo Es Ef. split; cbn [put_isd nicknames irc_sessions].
  - intros n p Ep. destruct (ok_person s K n p Ep) as (dp & E1 & E2 & E3).
    destruct (decide (tcp_session p = id)) as [Ei|]; [|rewrite lookup_insert_ne by done; eauto].
    rewrite Ei in *. rewrite lookup_insert_eq. exists d'. rewrite Ed in E1. injection E1 as <-. by rewrite Eo.
  - intros x dx Ex Rx Sx. destruct (decide (x = id)) as [->|].
    + rewrite lookup_insert_eq in Ex. injection Ex as <-. rewrite Eo. rewrite Es in Sx. by apply (ok_session s K).
    + rewrite lookup_insert_ne in Ex by done. by apply (ok_session s K).
  - intros x dx Ex Sx. destruct (decide (x = id)) as [->|].
    + rewrite lookup_insert_eq in Ex. injection Ex as <-. apply Ef. by rewrite <- Es.
    + rewrite lookup_insert_ne in Ex by done. by apply (ok_fresh s K x).
  - apply K.
Qed.

Lemma irc_set_at_some s id d a : irc_sessions s !! id = Some d → irc_set_at s id a = put_isd s id (isd_set_at d a).
Proof.
  intros E. unfold irc_set_at, put_isd. f_equal. apply map_eq. intros i. destruct (decide (i = id)) as [->|].
  - by rewrite lookup_alter_eq, lookup_insert_eq, E.
  - by rewrite lookup_alter_ne, lookup_insert_ne.
Qed.

Lemma put_isd_put s id d1 d2 : put_isd (put_isd s id d1) id d2 = put_isd s id d2.
Proof. unfold put_isd. cbn. by rewrite insert_insert_eq. Qed.
Lemma lookup_put_isd s id d : irc_sessions (put_isd s id d) !! id = Some d.
Proof. apply lookup_insert_eq. Qed.

(** another place in the code *)
Lemma irc_ok_set_at s id d a :
  irc_ok s → irc_sessions s !! id = Some d → running d → a ≠ irc_ended → owned (isd_set_at d a) = owned d →
  (renaming (isd_set_at d a) = true → seen_nick d = true) → irc_ok (irc_set_at s id a).
Proof.
  intros K Ed Rd Ha Eo Hr. rewrite (irc_set_at_some _ _ _ _ Ed). apply (irc_ok_put s id d); try done.
  intros Sd. split; [by apply (ok_fresh s K id d)|]. destruct (renaming (isd_set_at d a)) eqn:E; [|done].
  rewrite Hr in Sd by done. done.
Qed.

(** a person changes, but not its session *)
Lemma irc_ok_person s n p p' :
  irc_ok s → nicknames s !! n = Some p → tcp_session p' = tcp_session p →
  irc_ok (with_nicknames s (<[n := p']> (nicknames s))).
Proof.
  intros K Ep Et. split; cbn [with_nicknames nicknames irc_sessions].
  - intros m q [[<- <-]|[Nm Eq]]%lookup_insert_Some; [rewrite Et; by apply K|by apply K].
  - intros id d Ed Rd Sd. destruct (ok_session s K id d Ed Rd Sd) as (q & Eq & <-).
    destruct (decide (owned d = n)) as [E|]; [|rewrite lookup_insert_ne by done; eauto].
    exists p'. rewrite E in *. rewrite lookup_insert_eq. split; [done|]. rewrite Et. rewrite Ep in Eq. by injection Eq as ->.
  - intros id d. apply K.
  - rewrite lookup_insert_ne; [apply K|]. intros ->. by rewrite (ok_named s K) in Ep.
Qed.

(** a session changes in what does not matter for the table *)
Lemma irc_ok_same s id d d' :
  irc_ok s → irc_sessions s !! id = Some d → isd_at d' = isd_at d → isd_nick d' = isd_nick d → seen_nick d' = seen_nick d →
  irc_ok (put_isd s id d').
Proof.
  intros K Ed Ea En Es. assert (owned d' = owned d) as Eo by (unfold owned; by rewrite Ea, En).
  split; cbn [put_isd nicknames irc_sessions].
  - intros n p Ep. destruct (ok_person s K n p Ep) as (dp & E1 & E2 & E3).
    destruct (decide (tcp_session p = id)) as [Ei|]; [|rewrite lookup_insert_ne by done; eauto].
    rewrite Ei in *. rewrite lookup_insert_eq. exists d'. rewrite Ed in E1. injection E1 as <-.
    unfold running in *. by rewrite Eo, Ea.
  - intros x dx [[<- <-]|[Nx Ex]]%lookup_insert_Some Rx Sx; [|by apply (ok_session s K)].
    rewrite Eo. unfold running in Rx. rewrite Ea in Rx. rewrite Es in Sx. by apply (ok_session s K).
  - intros x dx [[<- <-]|[Nx Ex]]%lookup_insert_Some Sx; [|by apply (ok_fresh s K x)].
    unfold renaming. rewrite Ea, En. rewrite Es in Sx. by apply (ok_fresh s K id d).
  - apply K.
Qed.

(** the table of topics does not matter *)
Lemma irc_ok_topics s t : irc_ok s → irc_ok (with_topicnames s t).
Proof. intros K. split; apply K. Qed.

(** a new person *)
Lemma irc_ok_new_nick s id d new_nick :
  irc_ok s → irc_sessions s !! id = Some d → isd_at d = irc_top → new_nick ≠ [] → nicknames s !! new_nick = None →
  nicknames s !! isd_nick d = None →
  irc_ok (put_isd (with_nicknames s (<[new_nick := Person [] ∅ id]> (nicknames s))) id (isd_set_nick d new_nick)).
Proof.
  intros K Ed Ea Hn En Eo. assert (owned d = isd_nick d) as Od by (unfold owned; by rewrite Ea).
  assert (owned (isd_set_nick d new_nick) = new_nick) as On by (unfold owned; cbn; by rewrite Ea).
  split; cbn [put_isd with_nicknames nicknames irc_sessions].
  - intros n p [[<- <-]|[Nn Ep]]%lookup_insert_Some.
    + exists (isd_set_nick d new_nick). cbn [tcp_session]. rewrite lookup_insert_eq. split_and!; [done| |done].
      unfold running. cbn. by rewrite Ea.
    + destruct (ok_person s K n p Ep) as (dp & E1 & E2 & E3). exists dp. rewrite lookup_insert_ne; [done|].
      intros Ei. rewrite <- Ei, Ed in E1. injection E1 as <-. rewrite <- E3, Od, Eo in Ep. done.
  - intros x dx Ex Rx Sx. destruct (decide (x = id)) as [->|].
    + rewrite lookup_insert_eq in Ex. injection Ex as <-. rewrite On, lookup_insert_eq. by eexists.
    + rewrite lookup_insert_ne in Ex by done. destruct (ok_session s K x dx Ex Rx Sx) as (p & Ep & <-).
      exists p. rewrite lookup_insert_ne; [done|]. intros E. by rewrite <- E, En in Ep.
  - intros x dx Ex Sx. destruct (decide (x = id)) as [->|].
    + rewrite lookup_insert_eq in Ex. by injection Ex as <-.
    + rewrite lookup_insert_ne in Ex by done. by apply (ok_fresh s K x).
  - rewrite lookup_insert_ne by done. apply K.
Qed.

(** a person under another key, while its session knows *)
Lemma irc_ok_rename s id d new_nick p :
  irc_ok s → irc_sessions s !! id = Some d → isd_at d = irc_top → new_nick ≠ [] → nicknames s !! new_nick = None →
  nicknames s !! isd_nick d = Some p →
  irc_ok (irc_set_at (with_nicknames s (<[new_nick := p]> (delete (isd_nick d) (nicknames s)))) id (irc_renamed new_nick)).
Proof.
  intros K Ed Ea Hn En Ep. assert (owned d = isd_nick d) as Od by (unfold owned; by rewrite Ea).
  assert (running d) as Rd by (unfold running; by rewrite Ea).
  assert (tcp_session p = id) as Tp by (apply (owner_unique s id d p); [done|done|done|by rewrite Od]).
  rewrite (irc_set_at_some _ id d) by done. split; cbn [put_isd with_nicknames nicknames irc_sessions].
  - intros n q [[<- <-]|[Nn Eq]]%lookup_insert_Some.
    + rewrite Tp, lookup_insert_eq. by eexists.
    + apply lookup_delete_Some in Eq as [Nq Eq]. destruct (ok_person s K n q Eq) as (dq & E1 & E2 & E3). exists dq.
      rewrite lookup_insert_ne; [done|]. intros Ei. rewrite <- Ei, Ed in E1. injection E1 as <-. by rewrite <- E3, Od in Nq.
  - intros x dx Ex Rx Sx. destruct (decide (x = id)) as [->|Nx].
    + rewrite lookup_insert_eq in Ex. injection Ex as <-. exists p. by rewrite lookup_insert_eq.
    + rewrite lookup_insert_ne in Ex by done. destruct (ok_session s K x dx Ex Rx Sx) as (q & Eq & <-).
      exists q. rewrite lookup_insert_ne by (intros E; by rewrite <- E, En in Eq).
      rewrite lookup_delete_ne; [done|]. intros E. rewrite <- E, Ep in Eq. injection Eq as ->. done.
  - intros x dx Ex Sx. destruct (decide (x = id)) as [->|].
    + rewrite lookup_insert_eq in Ex. injection Ex as <-. cbn in Sx. destruct (ok_fresh s K id d Ed Sx) as [E _].
      by rewrite E, (ok_named s K) in Ep.
    + rewrite lookup_insert_ne in Ex by done. by apply (ok_fresh s K x).
  - rewrite lookup_insert_ne, lookup_delete_None by done. right. apply K.
Qed.

(** the end of a thread *)
Lemma irc_ok_leave s id d :
  irc_ok s → irc_sessions s !! id = Some d → running d → renaming d = false → irc_ok (irc_leave s id).1.
Proof.
  intros K Ed Rd Hr. unfold irc_leave. rewrite Ed. cbn [fst].
  assert (owned d = isd_nick d) as Od by (unfold owned, renaming in *; by destruct (isd_at d)).
  rewrite (irc_set_at_some _ id d) by done. split; cbn [put_isd with_nicknames nicknames irc_sessions].
  - intros n q [Nq Eq]%lookup_delete_Some. destruct (ok_person s K n q Eq) as (dq & E1 & E2 & E3). exists dq.
    rewrite lookup_insert_ne; [done|]. intros Ei. rewrite <- Ei, Ed in E1. injection E1 as <-. by rewrite <- E3, Od in Nq.
  - intros x dx Ex Rx Sx. destruct (decide (x = id)) as [->|Nx].
    + rewrite lookup_insert_eq in Ex. by injection Ex as <-.
    + rewrite lookup_insert_ne in Ex by done. destruct (ok_session s K x dx Ex Rx Sx) as (q & Eq & Tq).
      exists q. rewrite lookup_delete_ne; [done|]. intros E. rewrite <- Od in E. rewrite <- E in Eq.
      apply Nx. rewrite <- Tq. by apply (owner_unique s id d q).
  - intros x dx Ex Sx. destruct (decide (x = id)) as [->|].
    + rewrite lookup_insert_eq in Ex. injection Ex as <-. cbn in Sx. split; [|done]. by apply (ok_fresh s K id d).
    + rewrite lookup_insert_ne in Ex by done. by apply (ok_fresh s K x).
  - rewrite lookup_delete_None. right. apply K.
Qed.

(** ** Lines and their receivers *)

Definition has_crlf (line : str) : Prop := is_Some (find crlf line).

Lemma find_app_r w a b : is_Some (find w b) → is_Some (find w (a ++ b)).
Proof.
  intros H. induction a as [|x a IH]; [done|]. cbn [app find]. destruct (is_prefix w (x :: a ++ b)); [by eexists|].
  by apply fmap_is_Some.
Qed.
Lemma has_crlf_app a b : has_crlf b → has_crlf (a ++ b).
Proof. apply find_app_r. Qed.
Lemma has_crlf_front b : has_crlf (crlf ++ b).
Proof. by eexists. Qed.
Lemma has_crlf_end : has_crlf crlf.
Proof. by eexists. Qed.
Ltac solve_crlf := repeat (apply has_crlf_front || apply has_crlf_end || apply has_crlf_app).

Section Transmit.
Context (local_host : str) (can_send : Z → bool) (s : irc).

Definition deliverable (m : Z * str) : Prop := is_Some (irc_sessions s !! m.1) ∧ has_crlf m.2.
Definition sent (m : Z * str) : list irc_out := if can_send m.1 then [irc_send m.1 m.2] else [].

Lemma transmit_ok id line :
  deliverable (id, line) → transmit_to_client can_send s id line = Ok (can_send id, sent (id, line)).
Proof. intros [[d Ed] [n En]]. unfold transmit_to_client. cbn in *. by rewrite Ed, En. Qed.

Lemma transmit_each_ok msgs : Forall deliverable msgs → transmit_each can_send s msgs = Ok (msgs ≫= sent).
Proof.
  induction 1 as [|[id line] msgs H _ IH]; [done|]. cbn [transmit_each]. rewrite transmit_ok by done. cbn [res_bind].
  rewrite IH. done.
Qed.

Lemma transmit_until_ok msgs : Forall deliverable msgs → ∃ ok o, transmit_until can_send s msgs = Ok (ok, o).
Proof.
  induction 1 as [|[id line] msgs H _ (ok & o & IH)]; [by eexists _, _|]. cbn [transmit_until].
  rewrite transmit_ok by done. cbn [res_bind]. destruct (can_send id); [|by eexists _, _]. rewrite IH. by eexists _, _.
Qed.

Lemma transmit_until_all msgs :
  (∀ x, can_send x = true) → Forall deliverable msgs →
  transmit_until can_send s msgs = Ok (true, (λ m, irc_send m.1 m.2) <$> msgs).
Proof.
  intros Hc. induction 1 as [|[id line] msgs H _ IH]; [done|]. cbn [transmit_until]. rewrite transmit_ok by done.
  unfold sent. cbn [res_bind fst snd]. rewrite Hc, IH. done.
Qed.

Hypothesis K : irc_ok s.

(** everybody in the table has a session *)
Lemma persons_deliverable line (l : list (str * person)) :
  has_crlf line → (∀ x, x ∈ l → x ∈ in_order (nicknames s)) → Forall deliverable ((λ x, (tcp_session x.2, line)) <$> l).
Proof.
  intros Hl Hs. apply Forall_fmap, Forall_forall. intros x Hx. split; [|done].
  apply Hs, elem_of_in_order in Hx. destruct (ok_person s K _ _ Hx) as (d & E & _). by exists d.
Qed.

Lemma to_channel_ok channel line sender :
  has_crlf line → ∃ o, transmit_to_channel can_send s channel line sender = Ok o.
Proof.
  intros Hl. unfold transmit_to_channel. rewrite transmit_each_ok; [by eexists|]. apply persons_deliverable; [done|].
  intros x [_ Hx]%list_elem_of_filter. done.
Qed.

Lemma names_ok channel nick : ∃ o, send_user_for_channel local_host can_send s channel nick = Ok o.
Proof.
  unfold send_user_for_channel. rewrite transmit_each_ok; [by eexists|]. apply persons_deliverable.
  - unfold names_line. solve_crlf.
  - intros x [_ Hx]%list_elem_of_filter. done.
Qed.

Lemma own_lines_ok id d (lines : list str) :
  irc_sessions s !! id = Some d → Forall has_crlf lines → Forall deliverable ((λ l, (id, l)) <$> lines).
Proof. intros Ed Hl. apply Forall_fmap. eapply Forall_impl; [done|]. intros l Hc. split; [by eexists|done]. Qed.

Lemma join_announce_ok id d chans :
  irc_sessions s !! id = Some d → ∃ ok o, irc_join_announce local_host can_send s id d chans = Ok (ok, o).
Proof.
  intros Ed. induction chans as [|c chans (ok & o & IH)]; [by eexists _, _|]. cbn [irc_join_announce].
  destruct (to_channel_ok c (origin d ++ lit "JOIN " ++ c ++ crlf) no_nick) as [o1 ->]; [solve_crlf|].
  destruct (names_ok c (isd_nick d)) as [o2 ->]. cbn [res_bind]. unfold send_topic. rewrite transmit_ok.
  - cbn [res_bind]. destruct (can_send id); [|by eexists _, _]. rewrite IH. by eexists _, _.
  - split; [by eexists|]. unfold topic_line. cbn [snd]. solve_crlf.
Qed.

Lemma part_announce_ok d chans : ∃ o, irc_part_announce local_host can_send s d chans = Ok o.
Proof.
  induction chans as [|c chans (o & IH)]; [by eexists|]. cbn [irc_part_announce].
  destruct (to_channel_ok c (origin d ++ lit "PART " ++ c ++ crlf) (isd_nick d)) as [o1 ->]; [solve_crlf|].
  destruct (names_ok c no_nick) as [o2 ->]. cbn [res_bind]. rewrite IH. by eexists.
Qed.
End Transmit.

Lemma welcome_crlf nick u n : Forall has_crlf (welcome nick u n).
Proof. unfold welcome. repeat (apply Forall_cons_2; [solve_crlf|]). constructor. Qed.

Lemma list_lines_crlf lh s d chans : Forall has_crlf (list_lines lh s d chans).
Proof.
  unfold list_lines. apply Forall_cons_2; [solve_crlf|]. apply Forall_app_2.
  - apply Forall_fmap, Forall_forall. intros x _. unfold compose. solve_crlf.
  - apply Forall_cons_2; [solve_crlf|constructor].
Qed.

(** ** Every part of a thread *)

Definition phase_of (next : line_next) : irc_at := match next with next_at a => a | next_return _ => irc_top end.

(** a part of a command runs, and the thread can go on from where it leaves *)
Definition line_ok (id : Z) (r : line_result) (P : Prop) : Prop :=
  ∃ s1 o next, r = Ok (s1, o, next) ∧ is_Some (irc_sessions s1 !! id) ∧ phase_of next ≠ irc_ended ∧
    (P → irc_ok (irc_set_at s1 id (phase_of next))).

Lemma line_ok_weaken id r (P Q : Prop) : line_ok id r P → (Q → P) → line_ok id r Q.
Proof. intros (s1 & o & n & ? & ? & ? & H) HQ. exists s1, o, n. split_and!; auto. Qed.

(** nothing is changed but the place *)
Lemma line_ok_same id s d o next :
  irc_ok s → irc_sessions s !! id = Some d → running d → renaming d = false → phase_of next ≠ irc_ended →
  (∀ n, phase_of next ≠ irc_renamed n) → line_ok id (Ok (s, o, next)) True.
Proof.
  intros K Ed Rd Hr He Hn. exists s, o, next. split_and!; [done|by eexists|done|]. intros _.
  apply (irc_ok_set_at s id d); try done.
  - unfold owned, renaming in *. cbn. destruct (phase_of next), (isd_at d); try done; by destruct (Hn new_nick).
  - unfold renaming. cbn. destruct (phase_of next); try done. by destruct (Hn new_nick).
Qed.

Lemma reply_ok id s d can_send line :
  irc_ok s → irc_sessions s !! id = Some d → running d → renaming d = false → has_crlf line →
  line_ok id (reply_and_return can_send s id line) True.
Proof.
  intros K Ed Rd Hr Hl. unfold reply_and_return. rewrite transmit_ok by (split; [by eexists|done]). cbn [res_bind].
  by apply (line_ok_same id s d).
Qed.

Lemma nick_ok id s d can_send arg :
  irc_ok s → irc_sessions s !! id = Some d → isd_at d = irc_top →
  line_ok id (irc_nick can_send s id d arg) (arg ≠ []).
Proof.
  intros K Ed Ea. assert (running d) as Rd by (unfold running; by rewrite Ea).
  assert (arg ≠ [] → str_tolower arg ≠ []) as Hlow by (by destruct arg). unfold irc_nick.
  destruct (nicknames s !! str_tolower arg) eqn:En.
  { apply (line_ok_weaken _ _ True); [|done]. apply (reply_ok id s d); try done; [unfold renaming; by rewrite Ea|solve_crlf]. }
  destruct (nicknames s !! isd_nick d) as [p|] eqn:Eo.
  - eexists _, _, _. split_and!; [done|by eexists|done|]. intros Ha. cbn [phase_of]. apply irc_ok_rename; auto.
  - eexists _, _, _. split_and!; [done|rewrite lookup_put_isd; by eexists|done|]. intros Ha. cbn [phase_of].
    pose proof (irc_ok_new_nick s id d _ K Ed Ea (Hlow Ha) En Eo) as K'.
    eapply irc_ok_set_at; [done|apply lookup_put_isd|by unfold running; cbn; rewrite Ea|done| |done].
    unfold owned. cbn. by rewrite Ea.
Qed.

Lemma user_ok id s d can_send name line :
  irc_ok s → irc_sessions s !! id = Some d → isd_at d = irc_top →
  line_ok id (irc_user can_send s id d name line) True.
Proof.
  intros K Ed Ea. assert (running d) as Rd by (unfold running; by rewrite Ea). unfold irc_user.
  destruct (nicknames s !! isd_nick d) as [p|] eqn:Eo.
  2: { apply (reply_ok id s d); try done; [unfold renaming; by rewrite Ea|solve_crlf]. }
  set (s1 := with_nicknames s _). assert (irc_ok s1) as K1 by (by apply (irc_ok_person s _ p)).
  set (s2 := put_isd s1 id (isd_set_user d name)).
  assert (irc_ok s2) as K2.
  { apply (irc_ok_put s1 id d); try done. intros Sd. split; [by apply (ok_fresh s K id d)|]. unfold renaming. cbn. by rewrite Ea. }
  match goal with |- context [transmit_until can_send s2 ?l] =>
    destruct (transmit_until_ok can_send s2 l) as (ok & o & ->) end.
  { eapply own_lines_ok; [apply lookup_put_isd|apply welcome_crlf]. }
  cbn [res_bind]. apply (line_ok_same id s2 (isd_set_user d name)); try done.
  - apply lookup_put_isd.
  - unfold renaming. cbn. by rewrite Ea.
Qed.

Lemma change_channels_ok s id d chans f :
  irc_ok s → irc_sessions s !! id = Some d → isd_at d = irc_top → seen_nick d = true →
  ∃ s', change_channels s d chans f = Ok s' ∧ irc_ok s' ∧ irc_sessions s' = irc_sessions s.
Proof.
  intros K Ed Ea Sd. destruct (ok_session s K id d Ed) as (p & Ep & _); [unfold running; by rewrite Ea|done|].
  unfold owned in Ep. rewrite Ea in Ep. unfold change_channels. rewrite Ep. eexists. split_and!; [done| |done].
  by apply (irc_ok_person s _ p).
Qed.

Lemma split_Ok inp c : ∃ parts, split inp [c] = Ok parts.
Proof. destruct (split_spec inp [c]) as (parts & ? & _); [done|]. by exists parts. Qed.

Lemma process_line_ok lh can_send s id d line :
  irc_ok s → irc_sessions s !! id = Some d → isd_at d = irc_top →
  line_ok id (process_line lh can_send s id d line) (¬ empty_nick line).
Proof.
  intros K Ed Ea. assert (running d) as Rd by (unfold running; by rewrite Ea).
  assert (renaming d = false) as Hr by (unfold renaming; by rewrite Ea).
  assert (∀ o next, phase_of next ≠ irc_ended → (∀ n, phase_of next ≠ irc_renamed n) →
    line_ok id (Ok (s, o, next)) (¬ empty_nick line)) as Same.
  { intros o next H1 H2. eapply line_ok_weaken; [by apply (line_ok_same id s d)|done]. }
  unfold process_line. case_decide; [by apply Same|]. destruct (split_Ok line 32) as [parts Es]. rewrite Es. cbn [res_bind].
  destruct parts as [|cmd args]; [by apply Same|]. cbv zeta.
  case_decide as Hnick; [|clear Hnick].
  { eapply line_ok_weaken; [by apply nick_ok|]. intros He Ha. destruct Hnick as [-> Hn]. apply He.
    destruct args as [|a args]; [unfold zlen in Hn; cbn in Hn; lia|]. cbn in Ha. subst a. by exists args. }
  case_decide; [eapply line_ok_weaken; [by apply user_ok|done]|].
  destruct (negb (seen_user d) || negb (seen_nick d)) eqn:Hseen; [by apply Same|].
  apply orb_false_elim in Hseen as [_ Sn]. apply negb_false_iff in Sn.
  case_decide.
  { destruct (split_Ok (nth 0 args []) 44) as [chans ->]. cbn [res_bind].
    destruct (change_channels_ok s id d chans (λ c x, {[ x ]} ∪ c) K Ed Ea Sn) as (s' & -> & K' & Ess). cbn [res_bind].
    eapply line_ok_weaken; [apply (line_ok_same id s' d); try done; by rewrite Ess|done]. }
  case_decide.
  { destruct (split_Ok (nth 0 args []) 44) as [chans ->]. cbn [res_bind].
    destruct (change_channels_ok s id d chans (λ c x, c ∖ {[ x ]}) K Ed Ea Sn) as (s' & -> & K' & Ess). cbn [res_bind].
    eapply line_ok_weaken; [apply (line_ok_same id s' d); try done; by rewrite Ess|done]. }
  case_decide.
  { destruct (to_channel_ok can_send s K (str_tolower (nth 0 args [])) (origin d ++ line ++ crlf) (isd_nick d)) as [o ->];
      [solve_crlf|]. by apply Same. }
  case_decide; [eapply line_ok_weaken; [apply (reply_ok id s d); try done; solve_crlf|done]|].
  case_decide.
  { apply (line_ok_weaken _ _ True); [|done]. apply (line_ok_same id _ d); try done. by apply irc_ok_topics. }
  case_decide; [by apply Same|]. case_decide; by apply Same.
Qed.

Lemma irc_leave_at s id a : (irc_leave (irc_set_at s id a) id).1 = (irc_leave s id).1.
Proof.
  unfold irc_leave, irc_set_at, with_nicknames. cbn [irc_sessions nicknames topicnames]. rewrite lookup_alter_eq.
  destruct (irc_sessions s !! id) as [d|] eqn:Ed; cbn.
  - f_equal. apply map_eq. intros i. destruct (decide (i = id)) as [->|].
    + by rewrite !lookup_alter_eq, Ed.
    + by rewrite !lookup_alter_ne.
  - destruct s. cbn in *. f_equal. apply map_eq. intros i. destruct (decide (i = id)) as [->|].
    + by rewrite lookup_alter_eq, Ed.
    + by rewrite lookup_alter_ne.
Qed.

Lemma line_done_ok now id r P :
  line_ok id r P → ∃ s' o, line_done now id r = Ok (s', o) ∧ (P → irc_ok s').
Proof.
  intros (s1 & o & next & -> & [d Ed] & He & H). unfold line_done. cbn [res_bind].
  assert (irc_sessions (irc_set_at s1 id (phase_of next)) !! id = Some (isd_set_at d (phase_of next))) as Ed1.
  { cbn. by rewrite lookup_alter_eq, Ed. }
  destruct next as [[]|a]; cbn [phase_of] in *.
  - eexists _, _. split; [done|]. intros HP. specialize (H HP).
    replace (irc_set_at _ id irc_top) with (put_isd (irc_set_at s1 id irc_top) id (isd_set_msg (isd_set_at d irc_top) now)).
    + eapply irc_ok_put; try done. intros Sd. by apply (ok_fresh _ H id _ Ed1).
    + unfold irc_set_at, put_isd. cbn. f_equal. apply map_eq. intros i. destruct (decide (i = id)) as [->|].
      * by rewrite lookup_insert_eq, !lookup_alter_eq, Ed.
      * by rewrite lookup_insert_ne, !lookup_alter_ne.
  - rewrite (surjective_pairing (irc_leave s1 id)). eexists _, _. split; [done|]. intros HP.
    rewrite <- (irc_leave_at s1 id irc_top). by eapply irc_ok_leave; [apply H| | |].
  - eexists _, _. split; [done|]. done.
Qed.

Lemma irc_idle_ok lh can_send now s id d :
  irc_ok s → irc_sessions s !! id = Some d → isd_at d = irc_top →
  ∃ s' o, irc_idle lh can_send now s id d = Ok (s', o) ∧ irc_ok s'.
Proof.
  intros K Ed Ea. unfold irc_idle.
  assert (∃ ok d' o, (if 5000 <? u64 (now - last_ping d) then
      let* '(ok, o) := transmit_to_client can_send s id (lit "PING :" ++ lh ++ crlf) in Ok (ok, isd_set_ping d now, o)
    else Ok (true, d, [])) = Ok (ok, d', o) ∧ (d' = d ∨ d' = isd_set_ping d now)) as (ok & d' & o & -> & Hd').
  { destruct (5000 <? u64 (now - last_ping d)); [|by eexists _, _, _; split; [|left]].
    rewrite transmit_ok by (split; [by eexists|cbn [snd]; solve_crlf]). eexists _, _, _. split; [done|by right]. }
  cbn [res_bind]. assert (isd_at d' = irc_top) as Ea' by (by destruct Hd' as [->| ->]).
  assert (irc_ok (put_isd s id d')) as K'.
  { apply (irc_ok_put s id d); try done; try (by unfold running; rewrite ?Ea, ?Ea'); try (by destruct Hd' as [->| ->]).
    intros Sd. split; [|unfold renaming; by rewrite Ea'].
    destruct Hd' as [->| ->]; by apply (ok_fresh s K id d). }
  destruct (negb ok || (16000 <? u64 (now - last_msg d'))); [|by eexists _, _].
  rewrite (surjective_pairing (irc_leave _ id)). eexists _, _. split; [done|].
  eapply irc_ok_leave; [done|apply lookup_put_isd|by unfold running; rewrite Ea'|unfold renaming; by rewrite Ea'].
Qed.

(** the parts of a thread run; and they keep the table while sending succeeds *)
Lemma irc_thread_ok lh can_send now s id :
  irc_ok s →
  ∃ s' o, irc_thread lh can_send now s id = Ok (s', o) ∧
    ((∀ x, can_send x = true) → (∀ line, next_line s id line → ¬ empty_nick line) → irc_ok s').
Proof.
  intros K. unfold irc_thread. destruct (irc_sessions s !! id) as [d|] eqn:Ed; [|by eexists _, _].
  assert (∀ r (P : Prop), line_ok id r P → ((∀ x, can_send x = true) → (∀ line, next_line s id line → ¬ empty_nick line) → P) →
    ∃ s' o, line_done now id r = Ok (s', o) ∧
      ((∀ x, can_send x = true) → (∀ line, next_line s id line → ¬ empty_nick line) → irc_ok s')) as Done.
  { intros r P Hr HP. destruct (line_done_ok now id r P Hr) as (s' & o & E & Hk). exists s', o. auto. }
  destruct (isd_at d) as [|new_nick|chans|chans|channel|chans|] eqn:Ea.
  - destruct (isd_terminate d).
    { rewrite (surjective_pairing (irc_leave s id)). eexists _, _. split; [done|]. intros _ _.
      eapply irc_ok_leave; [done|done|by unfold running; rewrite Ea|unfold renaming; by rewrite Ea]. }
    destruct (find crlf (isd_input d)) as [n|] eqn:Ef.
    + eapply Done; [apply process_line_ok; [|apply lookup_put_isd|done]|].
      * apply (irc_ok_put s id d); try done; try (by unfold running; cbn; rewrite Ea).
        intros Sd. by apply (ok_fresh s K id d).
      * intros _ Hl. apply Hl. by exists d, n.
    + destruct (irc_idle_ok lh can_send now s id d K Ed Ea) as (s' & o & E & K'). by exists s', o.
  - assert (running d) as Rd by (unfold running; by rewrite Ea). unfold irc_rename.
    assert (Forall (deliverable s) ((λ x, (tcp_session x.2, lit ":" ++ isd_nick d ++ lit " NICK " ++ new_nick ++ crlf)) <$>
      in_order (nicknames s))) as HF by (apply persons_deliverable; [done|solve_crlf|done]).
    destruct (transmit_until_ok can_send s _ HF) as (ok & o & E). rewrite E. cbn [res_bind].
    apply (Done _ (∀ x, can_send x = true)); [|done]. destruct ok.
    + eexists _, _, _. split_and!; [done|rewrite lookup_put_isd; by eexists|done|]. intros _. cbn [phase_of].
      rewrite (irc_set_at_some _ _ _ _ (lookup_put_isd _ _ _)), put_isd_put.
      destruct (seen_nick d) eqn:Sd.
      * apply (irc_ok_put s id d); [done|done|done|done| |by rewrite Sd|by rewrite Sd]. unfold owned. cbn. by rewrite Ea.
      * destruct (ok_fresh s K id d Ed Sd) as [_ Hr]. unfold renaming in Hr. by rewrite Ea in Hr.
    + eexists _, _, _. split_and!; [done|by eexists|done|]. intros Hc. rewrite transmit_until_all in E by done. done.
  - apply (Done _ True); [|done]. destruct (join_announce_ok lh can_send s K id d chans Ed) as (ok & o & ->). cbn [res_bind].
    apply (line_ok_same id s d); try done; [by unfold running; rewrite Ea|unfold renaming; by rewrite Ea].
  - apply (Done _ True); [|done]. destruct (part_announce_ok lh can_send s K d chans) as (o & ->). cbn [res_bind].
    apply (line_ok_same id s d); try done; [by unfold running; rewrite Ea|unfold renaming; by rewrite Ea].
  - apply (Done _ True); [|done]. apply (reply_ok id s d); try done; [by unfold running; rewrite Ea|unfold renaming; by rewrite Ea|].
    unfold topic_line. solve_crlf.
  - apply (Done _ True); [|done]. destruct (transmit_until_ok can_send s ((λ l, (id, l)) <$> list_lines lh s d chans)) as (ok & o & ->).
    { eapply own_lines_ok; [done|apply list_lines_crlf]. }
    cbn [res_bind]. apply (line_ok_same id s d); try done; [by unfold running; rewrite Ea|unfold renaming; by rewrite Ea].
  - by eexists _, _.
Qed.

Lemma irc_step_ok lh s s' : irc_step lh s s' → irc_ok s → irc_ok s'.
Proof.
  intros [s0 id addr now Hn|s0 id bytes s1 H|s0 id can_send now s1 o Hc Hl H|s0 id|s0 id d Ed _ Ea] K.
  - split; cbn.
    + intros n p Ep. destruct (ok_person s0 K n p Ep) as (d & E & ?). exists d. rewrite lookup_insert_ne; [done|].
      intros E'. by rewrite <- E', Hn in E.
    + intros x dx [[<- <-]|[Nx Ex]]%lookup_insert_Some; [done|]. by apply (ok_session s0 K).
    + intros x dx [[<- <-]|[Nx Ex]]%lookup_insert_Some; [done|]. by apply (ok_fresh s0 K x).
    + apply K.
  - unfold irc_new_data in H. destruct bytes as [|b bytes]; [by injection H as <-|].
    destruct (irc_sessions s0 !! id) as [d|] eqn:Ed; [|done]. injection H as <-. by apply (irc_ok_same s0 id d).
  - destruct (irc_thread_ok lh can_send now s0 id K) as (s2 & o2 & E & Hk). rewrite E in H. injection H as <- _. auto.
  - unfold irc_close_begin. destruct (irc_sessions s0 !! id) as [d|] eqn:Ed; [|done]. by apply (irc_ok_same s0 id d).
  - split; cbn; [|intros x dx [Nx Ex]%lookup_delete_Some..|]; [|by apply (ok_session s0 K)|by apply (ok_fresh s0 K x)|apply K].
    intros n p Ep. destruct (ok_person s0 K n p Ep) as (dp & E & Rp & ?). exists dp. rewrite lookup_delete_ne; [done|].
    intros E'. rewrite <- E', Ed in E. injection E as <-. done.
Qed.

Lemma irc_reachable_ok lh s : rtc (irc_step lh) irc_start s → irc_ok s.
Proof.
  intros R. assert (irc_ok irc_start) as K0 by (split; intros *; cbn; rewrite ?lookup_empty; done).
  induction R as [s|s s1 s2 Hs _ IH]; [done|]. apply IH. by eapply irc_step_ok.
Qed.

Lemma persons_unique s n m p q :
  irc_ok s → nicknames s !! n = Some p → nicknames s !! m = Some q → tcp_session p = tcp_session q → n = m.
Proof.
  intros K Ep Eq E. destruct (ok_person s K n p Ep) as (d & E1 & _ & <-). destruct (ok_person s K m q Eq) as (d' & E2 & _ & <-).
  rewrite E, E2 in E1. by injection E1 as ->.
Qed.

(** C31: as long as sending succeeds and nobody asks for an empty nickname, then whatever
    clients send, in every interleaving of the threads: a person in the table of
    nicknames has a session that exists and whose thread is running, under the
    nickname that session has (also in the middle of a rename), no session has two
    nicknames, and every part of every thread runs without touching a deleted session
    or a person that is not there, whether or not it can send. *)
Theorem irc_tables_safe lh s :
  rtc (irc_step lh) irc_start s →
  (∀ n p, nicknames s !! n = Some p →
     ∃ d, irc_sessions s !! tcp_session p = Some d ∧ isd_at d ≠ irc_ended ∧ owned d = n) ∧
  (∀ n m p q, nicknames s !! n = Some p → nicknames s !! m = Some q → tcp_session p = tcp_session q → n = m) ∧
  ∀ can_send now id, ∃ s' o, irc_thread lh can_send now s id = Ok (s', o).
Proof.
  intros K%irc_reachable_ok. split_and!.
  - apply K.
  - intros n m p q. by apply persons_unique.
  - intros can_send now id. destruct (irc_thread_ok lh can_send now s id K) as (s' & o & E & _). by exists s', o.
Qed.

(** ** Messages *)

Lemma find_char_None_inv c l : find [c] l = None → c ∉ l.
Proof.
  intros H Hc. apply list_elem_of_split in Hc as (a & b & ->).
  destruct (find_app_r [c] a (c :: b)) as [n E]; [exists 0%nat; cbn; by rewrite Z.eqb_refl|]. by rewrite H in E.
Qed.

(** the first word of a text *)
Lemma join_head c p ps a rest :
  (c ∉ p) → (c ∉ a) → join [c] (p :: ps) = a ++ c :: rest → p = a ∧ join [c] ps = rest ∧ ps ≠ [].
Proof.
  intros Hp Ha E. destruct ps as [|q ps].
  - cbn in E. subst p. exfalso. apply Hp. set_solver.
  - rewrite join_cons in E by done. cbn [app] in E.
    assert (Some (length p) = Some (length a)) as [= El].
    { rewrite <- (find_char_app c p (join [c] (q :: ps))), <- (find_char_app c a rest) by done. by rewrite E. }
    apply app_inj_1 in E as [-> E]; [|done]. by injection E as <-.
Qed.

Lemma split_words a b rest :
  (32 ∉ a) → (32 ∉ b) → ∃ more, split (a ++ 32 :: b ++ 32 :: rest) [32] = Ok (a :: b :: more).
Proof.
  intros Ha Hb. destruct (split_spec (a ++ 32 :: b ++ 32 :: rest) [32]) as (parts & -> & Ej & HF); [done|].
  assert (∀ l r, join [32] parts = l ++ 32 :: r → parts ≠ []) as Hne by (intros l r E ->; by destruct l).
  destruct parts as [|p parts]; [by destruct (Hne _ _ Ej)|]. apply Forall_cons in HF as [Hp%find_char_None_inv HF].
  apply join_head in Ej as (-> & Ej & N1); [|done..]. destruct parts as [|q parts]; [done|].
  apply Forall_cons in HF as [Hq%find_char_None_inv _]. apply join_head in Ej as (-> & _ & _); [|done..]. by exists parts.
Qed.

(** the line and its sender *)
Definition privmsg (target text : str) : str := lit "PRIVMSG" ++ 32 :: target ++ 32 :: text.

Lemma process_privmsg lh can_send s id d target text :
  irc_ok s → seen_user d = true → seen_nick d = true → (32 ∉ target) →
  process_line lh can_send s id d (privmsg target text) =
    let* o := transmit_to_channel can_send s (str_tolower target) (origin d ++ privmsg target text ++ crlf) (isd_nick d) in
    Ok (s, o, next_return true).
Proof.
  intros K Su Sn Ht. unfold process_line. rewrite decide_False by done.
  destruct (split_words (lit "PRIVMSG") target text) as [more E]; [|done|].
  { rewrite list_elem_of_In. cbn. intuition lia. }
  unfold privmsg at 1. rewrite E. cbn [res_bind nth]. cbv zeta. rewrite Su, Sn. cbn [negb orb].
  do 2 (rewrite decide_False by (intros [? _]; done)). do 2 (rewrite decide_False by (intros [? _]; done)).
  rewrite decide_True; [done|]. split; [by left|]. rewrite !zlen_cons. pose proof (zlen_nonneg more). lia.
Qed.

(** C32: a message of a user, to a channel or to a nickname, is sent to everybody who is
    in the channel or has the nickname, except to the sender, once to each, with the
    nickname, user name and address of the sender in front, and to nobody else; the
    sender stays connected. *)
Theorem irc_message_delivered lh can_send now s id d target text rest :
  rtc (irc_step lh) irc_start s → (∀ x, can_send x = true) →
  irc_sessions s !! id = Some d → isd_at d = irc_top → isd_terminate d = false →
  seen_user d = true → seen_nick d = true → (32 ∉ target) →
  isd_input d = privmsg target text ++ crlf ++ rest → find crlf (isd_input d) = Some (length (privmsg target text)) →
  let msg := lit ":" ++ isd_nick d ++ lit "!" ++ isd_username d ++ lit "@" ++ isd_addr d ++ lit " " ++
             privmsg target text ++ crlf in
  ∃ s' o, irc_thread lh can_send now s id = Ok (s', o) ∧ NoDup o ∧
    (∀ e, e ∈ o ↔ ∃ n p, nicknames s !! n = Some p ∧ n ≠ isd_nick d ∧
       (str_tolower target ∈ channels p ∨ str_tolower target = n) ∧ e = irc_send (tcp_session p) msg) ∧
    nicknames s' = nicknames s ∧ ∃ d', irc_sessions s' !! id = Some d' ∧ isd_at d' = irc_top ∧ isd_input d' = rest.
Proof.
  intros K%irc_reachable_ok Hc Ed Ea Et Su Sn Ht Ei Ef msg. unfold irc_thread. rewrite Ed, Ea, Et, Ef.
  assert (drop (length (privmsg target text) + 2) (isd_input d) = rest) as Er.
  { rewrite Ei, app_assoc. replace (length (privmsg target text) + 2)%nat with (length (privmsg target text ++ crlf))
      by (by rewrite length_app). apply drop_app_length. }
  set (d1 := isd_set_input d _). set (s1 := put_isd s id d1).
  assert (irc_ok s1) as K1 by (by apply (irc_ok_same s id d)).
  assert (take (length (privmsg target text)) (isd_input d) = privmsg target text) as -> by (rewrite Ei; apply take_app_length).
  rewrite process_privmsg by done. unfold transmit_to_channel.
  change (nicknames s1) with (nicknames s). change (isd_nick d1) with (isd_nick d).
  set (to := filter (addressed (str_tolower target) (isd_nick d)) (in_order (nicknames s))).
  rewrite transmit_each_ok.
  2: { apply persons_deliverable; [done|solve_crlf|]. intros x [_ Hx]%list_elem_of_filter. done. }
  assert (origin d1 ++ privmsg target text ++ crlf = msg) as -> by (unfold msg, origin; by rewrite <- !app_assoc).
  cbn [res_bind line_done]. eexists _, _. split; [reflexivity|].
  assert (((λ x, (tcp_session x.2, msg)) <$> to) ≫= sent can_send = (λ x, irc_send (tcp_session x.2) msg) <$> to) as ->.
  { clear -Hc. induction to as [|x to IH]; [done|]. rewrite fmap_cons, bind_cons, IH. unfold sent. cbn. by rewrite Hc. }
  assert (∀ x, x ∈ to ↔ nicknames s !! x.1 = Some x.2 ∧ addressed (str_tolower target) (isd_nick d) x) as Hto.
  { intros x. unfold to. rewrite list_elem_of_filter, elem_of_in_order. tauto. }
  split_and!.
  - apply NoDup_fmap_2_strong.
    + intros x y Hx%Hto Hy%Hto [= E]. destruct x as [n p], y as [m q], Hx as [Hx _], Hy as [Hy _]. cbn in *.
      assert (n = m) as -> by (by apply (persons_unique s n m p q)). rewrite Hx in Hy. by injection Hy as ->.
    + unfold to. apply NoDup_filter. unfold in_order. rewrite merge_sort_Permutation. apply NoDup_map_to_list.
  - intros e. rewrite list_elem_of_fmap. split.
    + intros ([n p] & -> & Hx%Hto). destruct Hx as (? & ? & ?). by exists n, p.
    + intros (n & p & E1 & E2 & E3 & ->). exists (n, p). split; [done|]. by apply Hto.
  - done.
  - cbn. rewrite !lookup_alter_eq, lookup_insert_eq. eexists. split_and!; [done|done|exact Er].
Qed.

(** ** Clients that go away *)

(** A client that has not sent a line for more than 16 seconds is removed: its nickname
    is free again and its session is ended; before that it is asked with a PING when the
    last one is more than five seconds ago. *)
Theorem irc_silent_removed lh can_send now s id d :
  irc_ok s → irc_sessions s !! id = Some d → isd_at d = irc_top → isd_terminate d = false →
  find crlf (isd_input d) = None → 16000 < u64 (now - last_msg d) →
  ∃ s' o, irc_thread lh can_send now s id = Ok (s', o ++ [irc_end_session id]) ∧
    nicknames s' = delete (isd_nick d) (nicknames s) ∧
    isd_at <$> irc_sessions s' !! id = Some irc_ended ∧
    (o = if (5000 <? u64 (now - last_ping d)) && can_send id then [irc_send id (lit "PING :" ++ lh ++ crlf)] else []).
Proof.
  intros K Ed Ea Et Ef Hm. unfold irc_thread. rewrite Ed, Ea, Et, Ef. unfold irc_idle.
  destruct (5000 <? u64 (now - last_ping d)); cbn [andb].
  - rewrite transmit_ok by (split; [by eexists|cbn [snd]; solve_crlf]). cbn [res_bind]. cbn [last_msg isd_set_ping].
    rewrite (proj2 (Z.ltb_lt _ _) Hm), orb_true_r. unfold irc_leave. rewrite lookup_put_isd.
    eexists _, _. split_and!; [reflexivity|done| |done]. cbn. by rewrite lookup_alter_eq, lookup_insert_eq.
  - cbn [res_bind]. rewrite (proj2 (Z.ltb_lt _ _) Hm), orb_true_r. unfold irc_leave. rewrite lookup_put_isd.
    eexists _, []. split_and!; [reflexivity|done| |done]. cbn. by rewrite lookup_alter_eq, lookup_insert_eq.
Qed.

(** When telling somebody of a rename fails, the thread of the renamed user ends but
    erases the old nickname: the person stays in the table under the new one, and when
    the session is deleted, everything that is sent to that person is sent to a deleted
    session. *)
Lemma rename_leaves_person lh can_send now s id d new_nick o line :
  irc_ok s → irc_sessions s !! id = Some d → isd_at d = irc_renamed new_nick → seen_nick d = true → isd_nick d ≠ new_nick →
  irc_rename can_send s id d new_nick = Ok (s, o, next_return false) →
  ∃ s' p, irc_thread lh can_send now s id = Ok (s', o ++ [irc_end_session id]) ∧
    nicknames s' !! new_nick = Some p ∧ tcp_session p = id ∧ isd_at <$> irc_sessions s' !! id = Some irc_ended ∧
    transmit_to_client can_send (irc_close_end s' id) (tcp_session p) line = Err bad_access.
Proof.
  intros K Ed Ea Sd Ne Er. destruct (ok_session s K id d Ed) as (p & Ep & Tp); [unfold running; by rewrite Ea|done|].
  unfold owned in Ep. rewrite Ea in Ep. unfold irc_thread. rewrite Ed, Ea, Er. cbn [line_done res_bind]. unfold irc_leave.
  rewrite Ed. eexists _, p. split_and!; [reflexivity| |done| |].
  - cbn. by rewrite lookup_delete_ne.
  - cbn. by rewrite lookup_alter_eq, Ed.
  - unfold transmit_to_client, irc_close_end. cbn [irc_sessions]. by rewrite Tp, lookup_delete_eq.
Qed.

(** ** Runs *)

Definition polite (s : irc) (id : Z) : bool :=
  match irc_sessions s !! id with
  | Some d =>
      match find crlf (isd_input d) with
      | Some n => match split (take n (isd_input d)) [32] with Ok (c :: [] :: _) => negb (bool_decide (c = lit "NICK")) | _ => true end
      | None => true
      end
  | None => true
  end.

Lemma polite_spec s id : polite s id = true → ∀ line, next_line s id line → ¬ empty_nick line.
Proof.
  unfold polite. intros H line (d & n & Ed & Ef & ->) [args Es]. rewrite Ed, Ef, Es in H.
  by rewrite bool_decide_eq_true_2 in H.
Qed.

(** parts of a thread, while it is polite *)
Fixpoint irc_run (lh : str) (now : Z) (n : nat) (s : irc) (id : Z) : res irc :=
  match n with
  | O => Ok s
  | S n' =>
      if polite s id then
        let* '(s, _) := irc_thread lh (λ _, true) now s id in irc_run lh now n' s id
      else Err assert_failed
  end.

Lemma irc_run_steps lh now n s id s' : irc_run lh now n s id = Ok s' → rtc (irc_step lh) s s'.
Proof.
  revert s. induction n as [|n IH]; intros s H; cbn [irc_run] in H; [by injection H as <-|].
  destruct (polite s id) eqn:Hp; [|done]. res_step H. destruct a as [s1 o]. eapply rtc_l; [|by apply IH].
  eapply irc_step_thread; [by intros|by apply polite_spec|done].
Qed.

(** what a client sends *)
Definition irc_lines (l : list str) : str := l ≫= λ x, x ++ crlf.
Definition feed (s : irc) (id : Z) (l : list str) : irc := ok_or s (irc_new_data s id (irc_lines l)).

(** ann and bob in #x, and what bob has to say *)
Definition ex_host : str := lit "myip".
Definition ex_irc0 : irc := irc_new_session (irc_new_session irc_start 1 (lit "10.0.0.1") 0) 2 (lit "10.0.0.2") 0.
Definition ex_ann : list str := [lit "NICK ann"; lit "USER a x x :Ann"; lit "JOIN #x"].
Definition ex_bob : list str := [lit "NICK bob"; lit "USER b x x :Bob"; lit "JOIN #x"; privmsg (lit "#x") (lit ":hi")].
Definition ex_irc1 : irc := feed ex_irc0 1 ex_ann.
Definition ex_irc2 : irc := feed ex_irc1 2 ex_bob.
Definition ex_irc3 : irc := ok_or ex_irc2 (irc_run ex_host 0 4 ex_irc2 1).
Definition ex_irc : irc := ok_or ex_irc3 (irc_run ex_host 0 4 ex_irc3 2).

Lemma ex_irc_reachable : rtc (irc_step ex_host) irc_start ex_irc.
Proof.
  eapply rtc_l; [by apply (irc_step_new _ irc_start 1 (lit "10.0.0.1") 0)|].
  eapply rtc_l; [by apply (irc_step_new _ _ 2 (lit "10.0.0.2") 0)|]. fold ex_irc0.
  eapply rtc_l; [apply (irc_step_data _ ex_irc0 1 (irc_lines ex_ann) ex_irc1); by vm_compute|].
  eapply rtc_l; [apply (irc_step_data _ ex_irc1 2 (irc_lines ex_bob) ex_irc2); by vm_compute|].
  etrans; [apply (irc_run_steps ex_host 0 4 ex_irc2 1 ex_irc3); by vm_compute|].
  apply (irc_run_steps ex_host 0 4 ex_irc3 2 ex_irc). by vm_compute.
Qed.

Lemma irc_tables_safe_witness :
  (tcp_session <$> nicknames ex_irc !! lit "ann") = Some 1 ∧
  (∃ d, irc_sessions ex_irc !! 1 = Some d ∧ isd_at d ≠ irc_ended ∧ owned d = lit "ann") ∧
  ∃ s' o, irc_thread ex_host (λ _, false) 30000 ex_irc 1 = Ok (s', o).
Proof.
  destruct (irc_tables_safe ex_host ex_irc ex_irc_reachable) as (H1 & _ & H3).
  split; [vm_compute; reflexivity|]. split; [|apply H3].
  destruct (nicknames ex_irc !! lit "ann") as [p|] eqn:E; [|vm_compute in E; discriminate E].
  destruct (H1 _ _ E) as (d & Ed & Hd). exists d. split; [|exact Hd]. rewrite <- Ed. f_equal.
  assert (tcp_session <$> nicknames ex_irc !! lit "ann" = Some 1) as Et by (vm_compute; reflexivity).
  rewrite E in Et. injection Et as ->. reflexivity.
Defined.

Lemma irc_message_delivered_witness :
  ∃ s' o, irc_thread ex_host (λ _, true) 0 ex_irc 2 = Ok (s', o) ∧
    irc_send 1 (lit ":bob!b@10.0.0.2 PRIVMSG #x :hi" ++ crlf) ∈ o.
Proof.
  set (d := Isd (privmsg (lit "#x") (lit ":hi") ++ crlf) (lit "b") (lit "bob") false (lit "10.0.0.2") true true 0 0 irc_top).
  assert (irc_sessions ex_irc !! 2 = Some d) as Ed by (vm_compute; reflexivity).
  destruct (irc_message_delivered ex_host (λ _, true) 0 ex_irc 2 d (lit "#x") (lit ":hi") []) as (s' & o & E & _ & Ho & _);
    [apply ex_irc_reachable|done|exact Ed|done|done|done|done| |vm_compute; reflexivity|vm_compute; reflexivity|].
  { rewrite list_elem_of_In. cbn. intuition lia. }
  exists s', o. split; [exact E|]. apply Ho.
  destruct (nicknames ex_irc !! lit "ann") as [p|] eqn:Ep; [|vm_compute in Ep; discriminate Ep].
  exists (lit "ann"), p. vm_compute in Ep. injection Ep as <-. split_and!; [vm_compute; reflexivity|done|left; vm_compute; reflexivity|reflexivity].
Defined.

(** ** What else the code does *)

(** a channel is joined in lower case but announced as it was written: ann, alone in #y,
    is not told who is in it *)
Lemma join_case_silent :
  let s := feed ex_irc 1 [lit "JOIN #Y"] in
  let s := ok_or s (irc_run ex_host 0 1 s 1) in
  res_map snd (irc_thread ex_host (λ _, true) 0 s 1) = Ok [irc_send 1 (lit ": TOPIC #Y :" ++ crlf)].
Proof. vm_compute. reflexivity. Qed.

(** the empty nickname of one client is taken for that of every client without one: bob
    gets the person of the first client *)
Lemma empty_nick_taken :
  let s := feed (feed ex_irc0 1 [lit "NICK "]) 2 [lit "NICK bob"] in
  let s := (ok_or (s, []) (irc_thread ex_host (λ _, true) 0 s 1)).1 in
  let s := (ok_or (s, []) (irc_thread ex_host (λ _, true) 0 s 2)).1 in
  tcp_session <$> nicknames s !! lit "bob" = Some 1.
Proof. vm_compute. reflexivity. Qed.
