(* ===== verification/MqttClient.v ===== *)
(** * The MQTT client (src/mqtt_client.cpp, src/mqtt_client.h, [determine_value_size] of src/utils.cpp)

    The state of the client, its messages and its thread.  The thread is cut at every test
    of the state, at every round of the wait in [read] and around the calls of the DNS and
    TCP layers, whose results are arguments; other threads bring data, close the session,
    subscribe and unsubscribe in between.  The queues the application reads are those of
    Fifo.v.

    Shown: what the client writes is MQTT and its lengths are read back by a reader of
    the standard; a message of the broker of Mqtt.v, of at most 127 bytes and with a payload of three or
    more, reaches the queue of its topic, in whatever pieces TCP delivers it; and from a subscription of this client over the broker
    to a message of another client, end to end. *)
From S2P Require Import Prelude Str Fifo Mqtt.
Open Scope Z_scope.

(** ** State *)

Inductive mc_state_t :=
  | mc_resolve
  | mc_setup
  | mc_connect
  | mc_setup_mqtt_session_connect_req
  | mc_setup_mqtt_session_connect_ackwait
  | mc_setup_mqtt_subscribe
  | mc_running
  | mc_disconnect.

#[global] Instance mc_state_eq_dec : EqDecision mc_state_t.
Proof. solve_decision. Defined.

(** where the thread is: before the test for a state, or in [read] with what it has read *)
Inductive mc_at :=
  | mc_loop                                   (* the test of the loop *)
  | mc_test (s : mc_state_t)                  (* [if (state == s)] *)
  | mc_ack (got : list Z)                     (* reading the CONNACK *)
  | mc_cmd                                    (* reading the command *)
  | mc_len (cmd v : Z)                        (* reading the length *)
  | mc_body (cmd len : Z) (got : list Z)      (* reading the message *)
  | mc_process (cmd : Z) (pl : list Z)        (* the last test of [mc_running] *)
  | mc_end.                                   (* the thread has returned *)

#[global] Instance mc_at_eq_dec : EqDecision mc_at.
Proof. solve_decision. Defined.

Record mqtt_client := Mc {
  mc_state : mc_state_t;
  stop_flag : bool;
  data_in : list Z;
  msg_id : Z;
  mc_topics : gmap str (fifo str);
  src_port : Z;
  mc_addr : option (list Z);     (* the variable [addr] of the thread *)
  mc_pos : mc_at;
}.

Definition new_mqtt_client : mqtt_client := Mc mc_resolve false [] 0 ∅ 0 None mc_loop.

Definition mc_set_state (c : mqtt_client) (s : mc_state_t) : mqtt_client :=
  Mc s (stop_flag c) (data_in c) (msg_id c) (mc_topics c) (src_port c) (mc_addr c) (mc_pos c).
Definition mc_set_data (c : mqtt_client) (d : list Z) : mqtt_client :=
  Mc (mc_state c) (stop_flag c) d (msg_id c) (mc_topics c) (src_port c) (mc_addr c) (mc_pos c).
Definition mc_set_id (c : mqtt_client) (i : Z) : mqtt_client :=
  Mc (mc_state c) (stop_flag c) (data_in c) i (mc_topics c) (src_port c) (mc_addr c) (mc_pos c).
Definition mc_set_topics (c : mqtt_client) (t : gmap str (fifo str)) : mqtt_client :=
  Mc (mc_state c) (stop_flag c) (data_in c) (msg_id c) t (src_port c) (mc_addr c) (mc_pos c).
Definition mc_set_port (c : mqtt_client) (p : Z) : mqtt_client :=
  Mc (mc_state c) (stop_flag c) (data_in c) (msg_id c) (mc_topics c) p (mc_addr c) (mc_pos c).
Definition mc_set_addr (c : mqtt_client) (a : option (list Z)) : mqtt_client :=
  Mc (mc_state c) (stop_flag c) (data_in c) (msg_id c) (mc_topics c) (src_port c) a (mc_pos c).
Definition mc_move (c : mqtt_client) (a : mc_at) : mqtt_client :=
  Mc (mc_state c) (stop_flag c) (data_in c) (msg_id c) (mc_topics c) (src_port c) (mc_addr c) a.

(** ** Callbacks of TCP *)

Definition mc_new_data (c : mqtt_client) (data : list Z) : mqtt_client := mc_set_data c (data_in c ++ data).
Definition mc_close_session (c : mqtt_client) : mqtt_client := mc_set_state c mc_disconnect.
(** [~mqtt_client], before it waits for the thread *)
Definition mc_stop (c : mqtt_client) : mqtt_client :=
  Mc (mc_state c) true (data_in c) (msg_id c) (mc_topics c) (src_port c) (mc_addr c) (mc_pos c).

(** ** Lengths *)

(** the number of rounds is the number of bits, at most 32 *)
Fixpoint determine_value_size_fuel (fuel : nat) (n : Z) : Z :=
  match fuel with
  | O => 0
  | S fuel' => if n =? 0 then 0 else 1 + determine_value_size_fuel fuel' (Z.shiftr n 1)
  end.
Definition determine_value_size (n : Z) : Z := determine_value_size_fuel 33 n.

Fixpoint put_length_fuel (fuel : nat) (bits v : Z) : list Z :=
  match fuel with
  | O => []
  | S fuel' =>
      if 0 <? bits then
        let cur := Z.land v 127 in
        if 7 <? bits then Z.lor cur 128 :: put_length_fuel fuel' (bits - 7) (Z.shiftr v 7) else [cur]
      else []
  end.
(** seven bits per round: five rounds for 32 bits *)
Definition put_variable_length (v : Z) : list Z := put_length_fuel 5 (determine_value_size v) v.

(** [get_variable_length], one byte: [v <<= 7; v |= ...] *)
Definition get_length_byte (v byte : Z) : Z := Z.lor (u32 (Z.shiftl v 7)) (Z.land byte 127).

(** ** Messages *)

Definition topic_bytes (topic : str) : list Z := [u8 (Z.shiftr (zlen topic) 8); u8 (zlen topic)] ++ topic ++ [1].

Definition create_subscribe_message (c : mqtt_client) (topic : option str) : list Z * mqtt_client :=
  let payload := [u8 (Z.shiftr (msg_id c) 8); u8 (msg_id c)] ++
    match topic with
    | Some t => topic_bytes t
    | None => in_order (mc_topics c) ≫= λ t, topic_bytes t.1
    end in
  ([0x80] ++ put_variable_length (zlen payload) ++ payload, mc_set_id c (u16 (msg_id c + 1))).

(** the payload is not part of the message *)
Definition create_unsubscribe_message (c : mqtt_client) (topic : str) : list Z * mqtt_client :=
  let payload := [u8 (Z.shiftr (msg_id c) 8); u8 (msg_id c)] ++
    [u8 (Z.shiftr (zlen topic) 8); u8 (zlen topic)] ++ topic in
  ([0xa0] ++ put_variable_length (zlen payload), mc_set_id c (u16 (msg_id c + 1))).

(** [id] is the text of the client identifier, 16 bytes *)
Definition connect_message (id : list Z) : list Z :=
  [0x10; 12 + 2 + 16] ++ [0; 6; 77; 81; 73; 115; 100; 112] ++ [3] ++ [0x02] ++ [0xff; 0xff] ++ [0; 16] ++ id.

(** ** What the thread does *)

Inductive mc_out :=
  | mc_allocate (addr : list Z) (port : Z)   (* allocate_client_session *)
  | mc_send (port : Z) (bytes : list Z)      (* client_session_send_data *)
  | mc_close (port : Z).                     (* close_client_session *)

(** what the other layers return: the address of the broker, the local port, whether the
    session is connected, whether sending worked, and the client identifier *)
Record mc_env := McEnv { e_addr : option (list Z); e_port : Z; e_connected : bool; e_sent : bool; e_id : list Z }.

Definition process_command (e : mc_env) (c : mqtt_client) (cmd : Z) (pl : list Z) : res (mqtt_client * bool * list mc_out) :=
  if (cmd =? 0x30) && (4 <=? zlen pl) then
    let* a := rd pl 0 in
    let* b := rd pl 1 in
    let topic_name_len := join16 a b in
    if zlen pl <=? topic_name_len + 4 then Ok (c, false, [])
    else
      let* topic_name := rd_range pl 2 topic_name_len in
      match mc_topics c !! topic_name with
      | None => Ok (c, false, [])
      | Some f =>
          let* msg := rd_range pl (2 + topic_name_len) (zlen pl - (2 + topic_name_len)) in
          let c := mc_set_topics c (<[topic_name := (try_put f msg).2]> (mc_topics c)) in
          let* i1 := rd pl (2 + topic_name_len + 0) in
          let* i2 := rd pl (2 + topic_name_len + 1) in
          Ok (c, e_sent e, [mc_send (src_port c) [0x40; 0x02; i1; i2]])
      end
  else Ok (c, true, []).

(** [read] until it waits: [None] when the session or the client ends *)
Definition mc_read (c : mqtt_client) (got : list Z) (n : Z) : mqtt_client * option (list Z) :=
  if n <=? zlen got then (c, Some got)
  else if bool_decide (mc_state c = mc_disconnect) || stop_flag c then (c, None)
  else
    let cur_n := Z.min (n - zlen got) (zlen (data_in c)) in
    (mc_set_data c (drop (Z.to_nat cur_n) (data_in c)), Some (got ++ take (Z.to_nat cur_n) (data_in c))).

(** the state after an assignment, and the next test *)
Definition mc_goto (c : mqtt_client) (s : mc_state_t) (a : mc_at) : mqtt_client := mc_move (mc_set_state c s) a.

(** after the command and its length were read: memory of [pl_len] bytes, or none *)
Definition mc_have_length (c : mqtt_client) (cmd len : Z) : mqtt_client :=
  if bool_decide (mc_state c = mc_running) && negb (len =? 0) then mc_move c (mc_body cmd len []) else mc_move c (mc_process cmd []).

(** the part of [operator()] from one of its cuts to the next *)
Definition mc_thread (e : mc_env) (c : mqtt_client) : res (mqtt_client * list mc_out) :=
  match mc_pos c with
  | mc_end => Ok (c, [])
  | mc_loop => Ok (mc_move c (if stop_flag c then mc_end else mc_test mc_resolve), [])
  | mc_test mc_resolve =>
      if decide (mc_state c = mc_resolve) then
        let c := mc_set_addr c (e_addr e) in
        match mc_addr c with
        | Some _ => Ok (mc_goto c mc_setup (mc_test mc_setup), [])
        | None => Ok (mc_move c (mc_test mc_setup), [])
        end
      else Ok (mc_move c (mc_test mc_setup), [])
  | mc_test mc_setup =>
      if decide (mc_state c = mc_setup) then
        match mc_addr c with
        | None => Err bad_optional
        | Some addr => Ok (mc_goto (mc_set_data (mc_set_port c (e_port e)) []) mc_connect (mc_test mc_connect),
                           [mc_allocate addr (e_port e)])
        end
      else Ok (mc_move c (mc_test mc_connect), [])
  | mc_test mc_connect =>
      if decide (mc_state c = mc_connect) then
        Ok (mc_goto c (if e_connected e then mc_setup_mqtt_session_connect_req else mc_disconnect)
              (mc_test mc_setup_mqtt_session_connect_req), [])
      else Ok (mc_move c (mc_test mc_setup_mqtt_session_connect_req), [])
  | mc_test mc_setup_mqtt_session_connect_req =>
      if decide (mc_state c = mc_setup_mqtt_session_connect_req) then
        Ok (mc_goto c (if e_sent e then mc_setup_mqtt_session_connect_ackwait else mc_disconnect)
              (mc_test mc_setup_mqtt_session_connect_ackwait), [mc_send (src_port c) (connect_message (e_id e))])
      else Ok (mc_move c (mc_test mc_setup_mqtt_session_connect_ackwait), [])
  | mc_test mc_setup_mqtt_session_connect_ackwait =>
      if decide (mc_state c = mc_setup_mqtt_session_connect_ackwait) then Ok (mc_move c (mc_ack []), [])
      else Ok (mc_move c (mc_test mc_setup_mqtt_subscribe), [])
  | mc_ack got =>
      match mc_read c got 4 with
      | (c, None) => Ok (mc_goto c mc_disconnect (mc_test mc_setup_mqtt_subscribe), [])
      | (c, Some got) =>
          if zlen got <? 4 then Ok (mc_move c (mc_ack got), [])
          else
            let* b0 := rd got 0 in
            let* b3 := rd got 3 in
            Ok (mc_goto c (if (b0 =? 0x20) && (b3 =? 0x00) then mc_setup_mqtt_subscribe else mc_disconnect)
                  (mc_test mc_setup_mqtt_subscribe), [])
      end
  | mc_test mc_setup_mqtt_subscribe =>
      if decide (mc_state c = mc_setup_mqtt_subscribe) then
        let '(b, c) := create_subscribe_message c None in
        Ok (mc_goto c (if e_sent e then mc_running else mc_disconnect) (mc_test mc_running), [mc_send (src_port c) b])
      else Ok (mc_move c (mc_test mc_running), [])
  | mc_test mc_running =>
      if decide (mc_state c = mc_running) then Ok (mc_move c mc_cmd, []) else Ok (mc_move c (mc_test mc_disconnect), [])
  | mc_cmd =>
      match mc_read c [] 1 with
      | (c, None) => Ok (mc_have_length c 0 0, [])
      | (c, Some []) => Ok (c, [])
      | (c, Some (cmd :: _)) => Ok (mc_move c (mc_len cmd 0), [])
      end
  | mc_len cmd v =>
      match mc_read c [] 1 with
      | (c, None) => Ok (mc_have_length (mc_set_state c mc_disconnect) cmd 0, [])
      | (c, Some []) => Ok (c, [])
      | (c, Some (byte :: _)) =>
          let v := get_length_byte v byte in
          if Z.land byte 128 =? 0 then Ok (mc_have_length c cmd v, []) else Ok (mc_move c (mc_len cmd v), [])
      end
  | mc_body cmd len got =>
      match mc_read c got len with
      | (c, None) => Ok (mc_goto c mc_disconnect (mc_process cmd got), [])
      | (c, Some got) => if zlen got <? len then Ok (mc_move c (mc_body cmd len got), []) else Ok (mc_move c (mc_process cmd got), [])
      end
  | mc_process cmd pl =>
      if decide (mc_state c = mc_running) then
        let* '(c, ok, out) := process_command e c cmd pl in
        Ok (if ok then mc_move c (mc_test mc_disconnect) else mc_goto c mc_disconnect (mc_test mc_disconnect), out)
      else Ok (mc_move c (mc_test mc_disconnect), [])
  | mc_test mc_disconnect =>
      if decide (mc_state c = mc_disconnect) then Ok (mc_goto c mc_resolve mc_loop, [mc_close (src_port c)])
      else Ok (mc_move c mc_loop, [])
  end.

(** ** The interface for applications *)

(** [None] is a null pointer; [Some false]: the topic has a queue already, and the one that
    is returned is not in the table *)
Definition subscribe (sent : bool) (c : mqtt_client) (topic : str) : mqtt_client * option bool * list mc_out :=
  let '(b, c) := create_subscribe_message c (Some topic) in
  let '(out, ok) := if decide (mc_state c = mc_running) then ([mc_send (src_port c) b], sent) else ([], true) in
  if ok then
    match mc_topics c !! topic with
    | Some _ => (c, Some false, out)
    | None => (mc_set_topics c (<[topic := new_fifo 128]> (mc_topics c)), Some true, out)
    end
  else (c, None, out).

(** the queue is deleted first: until it is erased the table holds a dangling pointer *)
Definition unsubscribe (sent : bool) (c : mqtt_client) (topic : str) : mqtt_client * list mc_out :=
  let '(b, c) := create_unsubscribe_message c topic in
  (if sent then mc_set_topics c (delete topic (mc_topics c)) else c, [mc_send (src_port c) b]).

(** ** Runs *)

(** parts of the thread one after the other *)
Fixpoint mc_run (n : nat) (e : mc_env) (c : mqtt_client) : res (mqtt_client * list mc_out) :=
  match n with
  | O => Ok (c, [])
  | S n' =>
      let* '(c, o1) := mc_thread e c in
      let* '(c, o2) := mc_run n' e c in
      Ok (c, o1 ++ o2)
  end.

(** data mc_arrives in pieces, and after each the thread gets so many turns *)
Fixpoint mc_feed (n : nat) (e : mc_env) (c : mqtt_client) (pieces : list (list Z)) : res (mqtt_client * list mc_out) :=
  match pieces with
  | [] => Ok (c, [])
  | d :: pieces' =>
      let* '(c, o1) := mc_run n e (mc_new_data c d) in
      let* '(c, o2) := mc_feed n e c pieces' in
      Ok (c, o1 ++ o2)
  end.

(** ** The client never faults, and stops *)

(** [addr] has a value when the session is set up *)
Definition mc_ok (c : mqtt_client) : Prop := mc_state c = mc_setup → is_Some (mc_addr c).

Lemma process_command_total e c cmd pl :
  bytes_ok pl → ∃ c' ok out, process_command e c cmd pl = Ok (c', ok, out) ∧
    mc_state c' = mc_state c ∧ mc_addr c' = mc_addr c ∧ stop_flag c' = stop_flag c ∧ data_in c' = data_in c.
Proof.
  intros Hb. unfold process_command. destruct ((cmd =? 0x30) && (4 <=? zlen pl)) eqn:Eg; [|by do 3 eexists].
  apply andb_true_iff in Eg as [_ Hl%Z.leb_le].
  destruct (rd_in_range pl 0) as [a Ea]; [lia|]. destruct (rd_in_range pl 1) as [b Eb]; [lia|]. rewrite Ea, Eb. cbn [res_bind].
  assert (0 ≤ join16 a b) as Hj.
  { pose proof (rd_byte_ok _ _ _ Hb Ea). pose proof (rd_byte_ok _ _ _ Hb Eb). rewrite join16_eq by done. unfold byte_ok in *. lia. }
  destruct (Z.leb_spec (zlen pl) (join16 a b + 4)) as [?|Ht]; [by do 3 eexists|].
  rewrite rd_range_Ok by lia. cbn [res_bind]. destruct (mc_topics c !! _) as [f|]; [|by do 3 eexists].
  rewrite rd_range_Ok by lia. cbn [res_bind].
  destruct (rd_in_range pl (2 + join16 a b + 0)) as [i1 ->]; [lia|].
  destruct (rd_in_range pl (2 + join16 a b + 1)) as [i2 ->]; [lia|]. cbn [res_bind]. by do 3 eexists.
Qed.

(** the bytes of the messages are bytes *)
Definition mc_bytes (c : mqtt_client) : Prop :=
  bytes_ok (data_in c) ∧ match mc_pos c with mc_ack got | mc_body _ _ got | mc_process _ got => bytes_ok got | _ => True end.

(** how far the thread is from its end when it is told to stop *)
Definition mc_rank (a : mc_at) : nat :=
  match a with
  | mc_end => 0 | mc_loop => 1 | mc_test mc_disconnect => 2 | mc_process _ _ => 3 | mc_body _ _ _ => 4 | mc_len _ _ => 5
  | mc_cmd => 6 | mc_test mc_running => 7 | mc_test mc_setup_mqtt_subscribe => 8 | mc_ack _ => 9
  | mc_test mc_setup_mqtt_session_connect_ackwait => 10 | mc_test mc_setup_mqtt_session_connect_req => 11
  | mc_test mc_connect => 12 | mc_test mc_setup => 13 | mc_test mc_resolve => 14
  end.

Lemma mc_read_cases c got n :
  bytes_ok got → bytes_ok (data_in c) →
  match mc_read c got n with
  | (c', None) => c' = c ∧ zlen got < n
  | (c', Some g) => bytes_ok g ∧ (∃ d, c' = mc_set_data c d ∧ bytes_ok d) ∧ (stop_flag c = true → n ≤ zlen got ∧ g = got)
  end.
Proof.
  intros Hg Hd. unfold mc_read. destruct (Z.leb_spec n (zlen got)).
  { split_and!; [done| |done]. exists (data_in c). split; [by destruct c|done]. }
  destruct (bool_decide _ || stop_flag c) eqn:E; [done|].
  apply orb_false_iff in E as [_ E]. split_and!; [apply bytes_ok_app; [done|by apply bytes_ok_take]| |congruence].
  eexists. split; [done|]. by apply bytes_ok_drop.
Qed.

Definition mc_inv (c : mqtt_client) : Prop := mc_ok c ∧ mc_bytes c.

(** a part of the thread: it does not fault, keeps the invariant, and comes closer to its
    end when the client is told to stop *)
Lemma mc_thread_total e c :
  mc_inv c → ∃ c' out, mc_thread e c = Ok (c', out) ∧ mc_inv c' ∧ stop_flag c' = stop_flag c ∧
    (stop_flag c = true → mc_pos c ≠ mc_end → (mc_rank (mc_pos c') < mc_rank (mc_pos c))%nat).
Proof.
  intros [Hok [Hd Hp]]. unfold mc_thread. destruct (mc_pos c) as [|s|got| |cmd v|cmd len got|cmd pl|] eqn:Epos.
  - do 2 eexists. split; [done|]. unfold mc_inv, mc_ok, mc_bytes in *. cbn. destruct (stop_flag c); cbn; split_and!; try done; lia.
  - destruct s; cbn [mc_rank]; case_decide as Hs;
      try (do 2 eexists; split; [reflexivity|]; unfold mc_inv, mc_ok, mc_bytes in *; cbn; rewrite ?Hs; split_and!; (done || lia)).
    + destruct (e_addr e); cbn [mc_set_addr mc_addr]; do 2 eexists; (split; [reflexivity|]);
        unfold mc_inv, mc_ok, mc_bytes in *; cbn; rewrite ?Hs; split_and!; (done || lia).
    + destruct (Hok Hs) as [addr ->]. do 2 eexists. split; [reflexivity|].
      unfold mc_inv, mc_ok, mc_bytes. cbn. split_and!; (done || lia || constructor).
    + do 2 eexists. split; [reflexivity|]. unfold mc_inv, mc_ok, mc_bytes. cbn. destruct (e_connected e); split_and!; (done || lia).
    + do 2 eexists. split; [reflexivity|]. unfold mc_inv, mc_ok, mc_bytes. cbn. destruct (e_sent e); split_and!; (done || lia).
    + do 2 eexists. split; [reflexivity|]. unfold mc_inv, mc_ok, mc_bytes in *. cbn. rewrite Hs. split_and!; (done || lia || constructor).
    + do 2 eexists. split; [reflexivity|]. unfold mc_inv, mc_ok, mc_bytes. cbn. destruct (e_sent e); split_and!; (done || lia).
  - pose proof (mc_read_cases c got 4 Hp Hd) as Hr. destruct (mc_read c got 4) as [c' [g|]].
    2:{ destruct Hr as [-> Hr]. do 2 eexists. split; [reflexivity|]. unfold mc_inv, mc_ok, mc_bytes. cbn. split_and!; (done || lia). }
    destruct Hr as (Hg & (d & -> & Hd') & Hst). destruct (Z.ltb_spec (zlen g) 4) as [Hl|Hl].
    + do 2 eexists. split; [reflexivity|]. unfold mc_inv, mc_ok, mc_bytes in *. cbn. split_and!; try done.
      intros H. destruct (Hst H) as [? ->]. lia.
    + destruct (rd_in_range g 0) as [b0 ->]; [lia|]. destruct (rd_in_range g 3) as [b3 ->]; [lia|]. cbn [res_bind].
      do 2 eexists. split; [reflexivity|]. unfold mc_inv, mc_ok, mc_bytes. cbn. destruct (_ && _); split_and!; (done || lia).
  - pose proof (mc_read_cases c [] 1 ltac:(constructor) Hd) as Hr. destruct (mc_read c [] 1) as [c' [g|]].
    2:{ destruct Hr as [-> Hr]. do 2 eexists. split; [reflexivity|]. unfold mc_inv, mc_ok, mc_bytes, mc_have_length in *.
        rewrite andb_false_r. cbn. split_and!; (done || lia || constructor). }
    destruct Hr as (Hg & (d & -> & Hd') & Hst). destruct g as [|x g].
    + do 2 eexists. split; [reflexivity|]. unfold mc_inv, mc_ok, mc_bytes in *. cbn. rewrite Epos. split_and!; try done.
      intros H. by destruct (Hst H).
    + do 2 eexists. split; [reflexivity|]. unfold mc_inv, mc_ok, mc_bytes in *. cbn. split_and!; (done || lia).
  - pose proof (mc_read_cases c [] 1 ltac:(constructor) Hd) as Hr. destruct (mc_read c [] 1) as [c' [g|]].
    2:{ destruct Hr as [-> Hr]. do 2 eexists. split; [reflexivity|]. unfold mc_inv, mc_ok, mc_bytes, mc_have_length in *.
        rewrite andb_false_r. cbn. split_and!; (done || lia || constructor). }
    destruct Hr as (Hg & (d & -> & Hd') & Hst). destruct g as [|x g].
    + do 2 eexists. split; [reflexivity|]. unfold mc_inv, mc_ok, mc_bytes in *. cbn. rewrite Epos. split_and!; try done.
      intros H. by destruct (Hst H).
    + assert (stop_flag c = true → False) as Hns by (intros H; destruct (Hst H) as [? ?]; done).
      unfold mc_have_length. destruct (Z.land x 128 =? 0); [destruct (bool_decide _ && _)|]; (do 2 eexists; split; [reflexivity|]);
        unfold mc_inv, mc_ok, mc_bytes in *; cbn; (split_and!; [done|done|try constructor; done|done|]); intros H; by apply Hns in H.
  - pose proof (mc_read_cases c got len Hp Hd) as Hr. destruct (mc_read c got len) as [c' [g|]].
    2:{ destruct Hr as [-> Hr]. do 2 eexists. split; [reflexivity|]. unfold mc_inv, mc_ok, mc_bytes. cbn. split_and!; (done || lia). }
    destruct Hr as (Hg & (d & -> & Hd') & Hst). destruct (Z.ltb_spec (zlen g) len) as [Hl|Hl].
    + do 2 eexists. split; [reflexivity|]. unfold mc_inv, mc_ok, mc_bytes in *. cbn. split_and!; try done.
      intros H. destruct (Hst H) as [? ->]. lia.
    + do 2 eexists. split; [reflexivity|]. unfold mc_inv, mc_ok, mc_bytes in *. cbn. split_and!; (done || lia).
  - case_decide as Hs.
    + destruct (process_command_total e c cmd pl Hp) as (c' & ok & out & -> & E1 & E2 & E3 & E4). cbn [res_bind].
      do 2 eexists. split; [reflexivity|]. unfold mc_inv, mc_ok, mc_bytes in *.
      destruct ok; cbn; rewrite ?E1, ?E2, ?E3, ?E4, ?Hs; split_and!; (done || lia).
    + do 2 eexists. split; [reflexivity|]. unfold mc_inv, mc_ok, mc_bytes in *. cbn. split_and!; (done || lia).
  - do 2 eexists. split; [reflexivity|]. unfold mc_inv, mc_ok, mc_bytes. rewrite Epos. by split_and!.
Qed.

(** ** Lengths are written as the standard says *)

(** a reader of MQTT: the low seven bits first *)
Fixpoint read_length (l : list Z) : option (Z * list Z) :=
  match l with
  | [] => None
  | b :: l' => if b <? 128 then Some (b, l') else '(v, r) ← read_length l'; Some (b - 128 + 128 * v, r)
  end.

Lemma determine_value_size_spec fuel n : 0 < n < 2 ^ Z.of_nat fuel → determine_value_size_fuel fuel n = Z.log2 n + 1.
Proof.
  revert n. induction fuel as [|fuel IH]; intros n Hn; [change (2 ^ Z.of_nat 0) with 1 in Hn; lia|].
  cbn [determine_value_size_fuel]. rewrite (proj2 (Z.eqb_neq n 0)) by lia.
  rewrite Nat2Z.inj_succ, Z.pow_succ_r in Hn by lia. rewrite Z.shiftr_div_pow2 by lia. change (2 ^ 1) with 2.
  destruct (decide (n = 1)) as [->|Hn1].
  { change (1 / 2) with 0. by destruct fuel. }
  rewrite IH by (Z.to_euclidean_division_equations; lia).
  rewrite <- Z.shiftr_div_pow2 with (n := 1) by lia. rewrite Z.log2_shiftr by lia.
  assert (1 ≤ Z.log2 n) by (apply Z.log2_le_pow2; lia). lia.
Qed.

Lemma put_length_spec fuel v rest :
  0 < v → Z.log2 v + 1 ≤ 7 * Z.of_nat fuel → read_length (put_length_fuel fuel (Z.log2 v + 1) v ++ rest) = Some (v, rest).
Proof.
  revert v. induction fuel as [|fuel IH]; intros v Hv Hb; [pose proof (Z.log2_nonneg v); lia|].
  cbn [put_length_fuel]. pose proof (Z.log2_nonneg v). rewrite (proj2 (Z.ltb_lt 0 _)) by lia.
  change 127 with (Z.ones 7). rewrite Z.land_ones by lia. change (2 ^ 7) with 128.
  destruct (Z.ltb_spec 7 (Z.log2 v + 1)) as [Hl|Hl].
  - assert (128 ≤ v) by (apply (Z.log2_le_pow2 v 7); lia).
    assert (Z.lor (v mod 128) 128 = 128 + v mod 128) as ->.
    { rewrite Z.lor_comm. change 128 with (Z.shiftl 1 7) at 1. rewrite lor_shiftl_add; [done|lia|].
      change (2 ^ 7) with 128. apply Z.mod_pos_bound. lia. }
    cbn [app read_length]. rewrite (proj2 (Z.ltb_ge _ 128)) by (pose proof (Z.mod_pos_bound v 128); lia).
    assert (Z.log2 v + 1 - 7 = Z.log2 (Z.shiftr v 7) + 1) as -> by (rewrite Z.log2_shiftr by lia; lia).
    rewrite IH; [|rewrite Z.shiftr_div_pow2 by lia; change (2 ^ 7) with 128; Z.to_euclidean_division_equations; lia
                 |rewrite Z.log2_shiftr by lia; lia].
    cbn. do 2 f_equal. rewrite Z.shiftr_div_pow2 by lia. change (2 ^ 7) with 128. Z.to_euclidean_division_equations. lia.
  - assert (v < 128) by (apply (Z.log2_lt_pow2 v 7); lia). rewrite Z.mod_small by lia.
    cbn. by rewrite (proj2 (Z.ltb_lt v 128)).
Qed.

Lemma put_variable_length_spec v rest : 0 < v < 4294967296 → read_length (put_variable_length v ++ rest) = Some (v, rest).
Proof.
  intros Hv. unfold put_variable_length, determine_value_size. rewrite determine_value_size_spec by (change (2 ^ Z.of_nat 33) with 8589934592; lia).
  apply put_length_spec; [lia|]. assert (Z.log2 v < 32) by (apply Z.log2_lt_pow2; lia). lia.
Qed.

Lemma put_variable_length_small v : 0 < v ≤ 127 → put_variable_length v = [v].
Proof.
  intros Hv. unfold put_variable_length, determine_value_size. rewrite determine_value_size_spec by (change (2 ^ Z.of_nat 33) with 8589934592; lia).
  assert (Z.log2 v < 7) by (apply Z.log2_lt_pow2; lia). pose proof (Z.log2_nonneg v). cbn [put_length_fuel].
  rewrite (proj2 (Z.ltb_lt 0 _)), (proj2 (Z.ltb_ge 7 _)) by lia. f_equal. change 127 with (Z.ones 7).
  rewrite Z.land_ones by lia. change (2 ^ 7) with 128. rewrite Z.mod_small; lia.
Qed.

(** but the reader of the client, like that of the broker, takes the high bits first *)
Lemma client_length_misread : put_variable_length 200 = [200; 1] ∧ get_length_byte (get_length_byte 0 200) 1 = 9217.
Proof. vm_compute. done. Qed.

(** ** Messages *)

Lemma be16_eq x : [u8 (Z.shiftr x 8); u8 x] = be16 x.
Proof. done. Qed.

(** the message for all topics is the packet a broker reads *)
Lemma subscribe_message_packet c :
  let topics := (λ t, (t.1, 1)) <$> in_order (mc_topics c) in
  zlen (subscribe_body (msg_id c) topics) ≤ 127 →
  (create_subscribe_message c None).1 = mqtt_packet 0x80 (subscribe_body (msg_id c) topics).
Proof.
  cbv zeta. intros Hl. unfold create_subscribe_message. cbn [fst]. rewrite be16_eq.
  assert ((in_order (mc_topics c) ≫= λ t, topic_bytes t.1) = topics_bytes ((λ t, (t.1, 1)) <$> in_order (mc_topics c))) as ->.
  { clear Hl. unfold topics_bytes. induction (in_order (mc_topics c)) as [|t l IH]; [done|].
    rewrite fmap_cons, !bind_cons, IH. done. }
  fold (subscribe_body (msg_id c) ((λ t, (t.1, 1)) <$> in_order (mc_topics c))).
  rewrite put_variable_length_small; [done|]. split; [|done]. unfold subscribe_body. rewrite zlen_app, zlen_be16.
  pose proof (zlen_nonneg (topics_bytes ((λ t, (t.1, 1)) <$> in_order (mc_topics c)))). lia.
Qed.

(** a single topic *)
Lemma subscribe_topic_packet c topic :
  zlen (subscribe_body (msg_id c) [(topic, 1)]) ≤ 127 →
  (create_subscribe_message c (Some topic)).1 = mqtt_packet 0x80 (subscribe_body (msg_id c) [(topic, 1)]).
Proof.
  intros Hl. unfold create_subscribe_message. cbn [fst]. rewrite be16_eq.
  assert (topic_bytes topic = topics_bytes [(topic, 1)]) as -> by (unfold topics_bytes; rewrite bind_cons; cbn; by rewrite app_nil_r).
  fold (subscribe_body (msg_id c) [(topic, 1)]).
  rewrite put_variable_length_small; [done|]. split; [|done]. unfold subscribe_body. rewrite zlen_app, zlen_be16.
  pose proof (zlen_nonneg (topics_bytes [(topic, 1)])). lia.
Qed.

(** an UNSUBSCRIBE message announces bytes that do not follow *)
Lemma unsubscribe_payload_missing : (create_unsubscribe_message new_mqtt_client [97; 98]).1 = [0xa0; 6].
Proof. vm_compute. done. Qed.

(** ** Receiving *)

(** the thread waits for data *)
Definition mc_idle (e : mc_env) (c : mqtt_client) : Prop := mc_thread e c = Ok (c, []).
(** after [k] turns or more, [c'] *)
Definition settles (e : mc_env) (k : nat) (c c' : mqtt_client) (out : list mc_out) : Prop :=
  ∀ n, (k ≤ n)%nat → mc_run n e c = Ok (c', out).

Lemma settles_idle e c : mc_idle e c → settles e 0 c c [].
Proof. intros Hi n _. induction n as [|n IH]; [done|]. cbn. rewrite Hi. cbn. by rewrite IH. Qed.

Lemma settles_step e k c c1 c2 o1 o2 :
  mc_thread e c = Ok (c1, o1) → settles e k c1 c2 o2 → settles e (S k) c c2 (o1 ++ o2).
Proof. intros E S [|n] Hn; [lia|]. cbn. rewrite E. cbn. rewrite S by lia. done. Qed.

Lemma settles_le e k k' c c' out : settles e k c c' out → (k ≤ k')%nat → settles e k' c c' out.
Proof. intros S Hk n Hn. apply S. lia. Qed.

Lemma mc_read_byte c x d :
  data_in c = x :: d → mc_state c = mc_running → stop_flag c = false → mc_read c [] 1 = (mc_set_data c d, Some [x]).
Proof.
  intros Ed Es Ef. unfold mc_read. change (1 <=? zlen []) with false. rewrite Ed, Es, Ef. rewrite bool_decide_eq_false_2 by done.
  cbn [orb]. change (1 - zlen []) with 1. rewrite Z.min_l by (rewrite zlen_cons; pose proof (zlen_nonneg d); lia). done.
Qed.

(** a client that has closed its session and sets up the next one: it has no data *)
Definition mc_reconnecting (c : mqtt_client) : Prop :=
  data_in c = [] ∧ mc_ok c ∧ mc_state c ≠ mc_setup_mqtt_subscribe ∧ mc_state c ≠ mc_running ∧
  match mc_pos c with mc_end | mc_loop | mc_test _ => True | mc_ack got => got = [] | _ => False end.

Lemma mc_reconnecting_thread e c :
  mc_reconnecting c → ∃ c' out, mc_thread e c = Ok (c', out) ∧ mc_reconnecting c' ∧ mc_topics c' = mc_topics c.
Proof.
  intros (Hd & Hok & Hs1 & Hs2 & Hp). unfold mc_thread. destruct (mc_pos c) as [|s|got| | | | |] eqn:Epos; try done.
  - do 2 eexists. split; [done|]. unfold mc_reconnecting, mc_ok in *. cbn. by destruct (stop_flag c).
  - destruct s; case_decide as Hs; try done;
      try (do 2 eexists; split; [reflexivity|]; unfold mc_reconnecting, mc_ok in *; cbn; rewrite ?Hs; by split_and!).
    + cbn [mc_addr mc_set_addr]. destruct (e_addr e); (do 2 eexists; split; [reflexivity|]);
        unfold mc_reconnecting, mc_ok in *; cbn; rewrite ?Hs; by split_and!.
    + destruct (Hok Hs) as [addr ->]. do 2 eexists. split; [reflexivity|]. unfold mc_reconnecting, mc_ok in *. cbn. by split_and!.
    + do 2 eexists. split; [reflexivity|]. unfold mc_reconnecting, mc_ok in *. cbn. destruct (e_connected e); by split_and!.
    + do 2 eexists. split; [reflexivity|]. unfold mc_reconnecting, mc_ok in *. cbn. destruct (e_sent e); by split_and!.
  - subst got. unfold mc_read. cbn. rewrite Hd. destruct (_ || _); cbn;
      (do 2 eexists; split; [reflexivity|]); unfold mc_reconnecting, mc_ok in *; cbn; by split_and!.
  - do 2 eexists. split; [done|]. split; [|done]. unfold mc_reconnecting. rewrite Epos. by split_and!.
Qed.

Lemma mc_reconnecting_run n e c :
  mc_reconnecting c → ∃ c' out, mc_run n e c = Ok (c', out) ∧ mc_topics c' = mc_topics c.
Proof.
  revert c. induction n as [|n IH]; intros c Hc; [by do 2 eexists|]. cbn [mc_run].
  destruct (mc_reconnecting_thread e c Hc) as (c1 & o1 & -> & H1 & E1). cbn [res_bind].
  destruct (IH c1 H1) as (c2 & o2 & -> & E2). do 2 eexists. split; [done|]. congruence.
Qed.

Section Receive.
Context (e : mc_env) (id port : Z) (addr : option (list Z)) (ts : gmap str (fifo str)) (cmd : Z) (body : list Z).
Context (Hlen : 0 < zlen body ≤ 127).

Let pkt := mqtt_packet cmd body.
Let at_ (t : gmap str (fifo str)) (d : list Z) (a : mc_at) : mqtt_client := Mc mc_running false d id t port addr a.

(** after [n] bytes of the packet, not all of them *)
Definition mc_after (n : nat) : mqtt_client :=
  at_ ts [] match n with O => mc_cmd | 1%nat => mc_len cmd 0 | S (S k) => mc_body cmd (zlen body) (take k body) end.

(** within [k] turns the thread waits for the rest of the packet, or has all of it *)
Definition mc_arrives (k : nat) (c : mqtt_client) (n : nat) : Prop :=
  if decide (n < length pkt)%nat then settles e k c (mc_after n) []
  else ∃ i, (i ≤ k)%nat ∧ ∀ j, mc_run (i + j) e c = mc_run j e (at_ ts [] (mc_process cmd body)).

Lemma mc_run_step n c c1 : mc_thread e c = Ok (c1, []) → mc_run (S n) e c = mc_run n e c1.
Proof. intros E. cbn [mc_run]. rewrite E. cbn [res_bind]. by destruct (mc_run n e c1) as [[c2 o2]|]. Qed.

Lemma arrives_step k c c1 n : mc_thread e c = Ok (c1, []) → mc_arrives k c1 n → mc_arrives (S k) c n.
Proof.
  intros E. unfold mc_arrives. case_decide; intros H1; [by apply (settles_step e k c c1 _ [] [])|].
  destruct H1 as (i & Hi & H1). exists (S i). split; [lia|]. intros j. cbn [Nat.add]. by rewrite (mc_run_step _ _ _ E).
Qed.

Lemma arrives_body got d :
  (length got < length body)%nat → got ++ d = take (length got + length d) body → (length got + length d ≤ length body)%nat →
  mc_arrives 1 (at_ ts d (mc_body cmd (zlen body) got)) (2 + (length got + length d)).
Proof.
  intros Hg Hd Hl.
  assert (mc_read (at_ ts d (mc_body cmd (zlen body) got)) got (zlen body) =
    (at_ ts [] (mc_body cmd (zlen body) got), Some (take (length got + length d) body))) as Er.
  { unfold mc_read. rewrite (proj2 (Z.leb_gt _ _)) by (unfold zlen; lia).
    cbn [at_ mc_state stop_flag data_in]. rewrite bool_decide_eq_false_2 by done. cbn [orb].
    rewrite Z.min_r by (unfold zlen; lia). unfold zlen. rewrite Nat2Z.id, drop_all, firstn_all, Hd. done. }
  assert (zlen (take (length got + length d) body) = Z.of_nat (length got + length d)) as El
    by (unfold zlen; rewrite length_take; lia).
  destruct (decide (length got + length d < length body)%nat) as [Hlt|Hge].
  - eapply (arrives_step 0 _ (mc_after (2 + (length got + length d)))).
    + unfold mc_thread. cbn [at_ mc_pos]. fold (at_ ts d (mc_body cmd (zlen body) got)). rewrite Er.
      rewrite (proj2 (Z.ltb_lt _ _)) by (rewrite El; unfold zlen; lia). done.
    + unfold mc_arrives. rewrite decide_True by (change (length pkt) with (S (S (length body))); lia).
      apply settles_idle. unfold mc_after. cbn [Nat.add]. unfold mc_idle, mc_thread. cbn [at_ mc_pos]. unfold mc_read.
      rewrite (proj2 (Z.leb_gt _ _)) by (rewrite El; unfold zlen; lia). cbn [at_ mc_state stop_flag data_in].
      rewrite bool_decide_eq_false_2 by done. cbn [orb]. change (zlen (@nil Z)) with 0. rewrite Z.min_r by (rewrite El; unfold zlen; lia).
      cbn [Z.to_nat drop take]. rewrite app_nil_r, (proj2 (Z.ltb_lt _ _)) by (rewrite El; unfold zlen; lia). done.
  - unfold mc_arrives. rewrite decide_False by (change (length pkt) with (S (S (length body))); lia).
    assert (length got + length d = length body)%nat as E by lia. rewrite E, firstn_all in Er.
    exists 1%nat. split; [done|]. intros j. apply mc_run_step.
    unfold mc_thread. cbn [at_ mc_pos]. fold (at_ ts d (mc_body cmd (zlen body) got)). rewrite Er. by rewrite Z.ltb_irrefl.
Qed.

Lemma arrives_len d : d = take (length d) body → (length d ≤ length body)%nat →
  mc_arrives 2 (at_ ts (zlen body :: d) (mc_len cmd 0)) (2 + length d).
Proof.
  intros Hd Hl. apply (arrives_step 1 _ (at_ ts d (mc_body cmd (zlen body) []))).
  - unfold mc_thread. cbn [at_ mc_pos]. rewrite (mc_read_byte _ (zlen body) d) by done.
    assert ((Z.land (zlen body) 128 =? 0) = true) as ->.
    { apply Z.eqb_eq. change 128 with (2 ^ 7). apply Z.bits_inj'. intros i Hi. rewrite Z.land_spec, Z.bits_0, Z.pow2_bits_eqb by lia.
      destruct (Z.eqb_spec 7 i) as [<-|]; [|by rewrite andb_false_r]. rewrite andb_true_r. apply Z.bits_above_log2; [lia|].
      apply Z.log2_lt_pow2; lia. }
    assert (get_length_byte 0 (zlen body) = zlen body) as ->.
    { unfold get_length_byte. change (u32 (Z.shiftl 0 7)) with 0. rewrite Z.lor_0_l. change 127 with (Z.ones 7).
      rewrite Z.land_ones by lia. change (2 ^ 7) with 128. apply Z.mod_small. lia. }
    unfold mc_have_length. cbn [mc_state mc_set_data at_]. rewrite bool_decide_eq_true_2 by done. rewrite (proj2 (Z.eqb_neq (zlen body) 0)) by lia. done.
  - apply (arrives_body [] d); [unfold zlen in *; cbn; lia|done|done].
Qed.

Lemma arrives_cmd d : d = take (length d) (zlen body :: body) → (length d ≤ S (length body))%nat →
  mc_arrives 3 (at_ ts (cmd :: d) mc_cmd) (1 + length d).
Proof.
  intros Hd Hl. apply (arrives_step 2 _ (at_ ts d (mc_len cmd 0))).
  { unfold mc_thread. cbn [at_ mc_pos]. by rewrite (mc_read_byte _ cmd d). }
  destruct d as [|x d]; cbn [length take] in *.
  - unfold mc_arrives. rewrite decide_True by (change (length pkt) with (S (S (length body))); lia).
    eapply settles_le; [|apply Nat.le_0_l]. by apply settles_idle.
  - injection Hd as -> Hd. apply arrives_len; [done|lia].
Qed.

Lemma arrives_le k k' c n : mc_arrives k c n → (k ≤ k')%nat → mc_arrives k' c n.
Proof.
  unfold mc_arrives. case_decide; intros H1 Hk; [by eapply settles_le|]. destruct H1 as (i & Hi & H1). exists i. split; [lia|done].
Qed.

(** a piece of the packet *)
Lemma arrives_piece n d :
  d ≠ [] → take (n + length d) pkt = take n pkt ++ d → (n < length pkt)%nat → (n + length d ≤ length pkt)%nat →
  mc_arrives 3 (mc_new_data (mc_after n) d) (n + length d).
Proof.
  intros Hne Hd Hn Hl. change (length pkt) with (S (S (length body))) in *.
  destruct n as [|[|n]].
  - change pkt with (cmd :: zlen body :: body) in Hd. destruct d as [|x d]; [done|]. cbn [Nat.add length take app] in *.
    injection Hd as <- Hd. apply (arrives_cmd d); [done|lia].
  - cbn [Nat.add length take] in Hd. change pkt with (cmd :: zlen body :: body) in Hd. destruct d as [|x d]; [done|].
    cbn [app take length] in Hd. injection Hd as <- Hd. cbn [Nat.add length] in *. apply (arrives_le 2); [apply (arrives_len d); [done|lia]|lia].
  - change pkt with (cmd :: zlen body :: body) in Hd. cbn [Nat.add take app] in Hd. injection Hd as Hd.
    assert (length (take n body) = n) as En by (rewrite length_take; lia).
    pose proof (arrives_body (take n body) d) as S. rewrite En in S. apply (arrives_le 1); [apply S; [lia|done|lia]|lia].
Qed.

(** the whole packet, with turns left *)
Lemma feed_arrives pieces n :
  Forall (λ c, c ≠ []) pieces → drop n pkt = concat pieces → (n < length pkt)%nat →
  ∃ j, (13 ≤ j)%nat ∧ mc_feed 16 e (mc_after n) pieces = mc_run j e (at_ ts [] (mc_process cmd body)).
Proof.
  intros Hne. revert n. induction Hne as [|d pieces Hd Hne IH]; intros n Hc Hn.
  - apply (f_equal length) in Hc. rewrite length_drop in Hc. cbn [concat length] in Hc. lia.
  - assert (n + length d ≤ length pkt)%nat as Hle.
    { apply (f_equal length) in Hc. rewrite length_drop in Hc. cbn [concat] in Hc. rewrite length_app in Hc. lia. }
    assert (take (n + length d) pkt = take n pkt ++ d) as Htk.
    { rewrite <- (take_drop n pkt) at 1. rewrite Hc. cbn [concat].
      rewrite take_app_add' by (rewrite length_take; lia). by rewrite take_app_length. }
    assert (drop (n + length d) pkt = concat pieces) as Hc'.
    { rewrite <- drop_drop, Hc. cbn [concat]. by rewrite drop_app_length. }
    cbn [mc_feed]. pose proof (arrives_piece n d Hd Htk Hn Hle) as Ha. unfold mc_arrives in Ha.
    destruct (decide (n + length d < length pkt)%nat) as [Hlt|Hge].
    + rewrite (Ha 16%nat) by lia. cbn [res_bind]. destruct (IH _ Hc' Hlt) as (j & Hj & ->). exists j. split; [done|].
      by destruct (mc_run j e _) as [[??]|].
    + rewrite drop_ge in Hc' by lia. destruct Hne as [|d' pieces' Hd' _]; [|by destruct d'].
      destruct Ha as (i & Hi & Ha). exists (16 - i)%nat. split; [lia|]. specialize (Ha (16 - i)%nat).
      replace (i + (16 - i))%nat with 16%nat in Ha by lia. rewrite Ha. cbn [mc_feed].
      destruct (mc_run (16 - i) e _) as [[??]|]; [|done]. cbn [res_bind]. by rewrite app_nil_r.
Qed.

(** a packet that is processed: the client waits for the next one *)
Lemma feed_packet ts' ack pieces :
  process_command e (at_ ts [] (mc_process cmd body)) cmd body = Ok (at_ ts' [] (mc_process cmd body), true, ack) →
  Forall (λ c, c ≠ []) pieces → concat pieces = pkt →
  mc_feed 16 e (mc_after 0) pieces = Ok (at_ ts' [] mc_cmd, ack).
Proof.
  intros Hproc Hne Hc. destruct (feed_arrives pieces 0 Hne ltac:(done) ltac:(cbn; lia)) as (j & Hj & ->).
  enough (settles e 10 (at_ ts [] (mc_process cmd body)) (at_ ts' [] mc_cmd) ack) as HS by (apply HS; lia).
  rewrite <- (app_nil_r ack). eapply settles_step.
  { unfold mc_thread. cbn [at_ mc_pos mc_state]. fold (at_ ts [] (mc_process cmd body)). rewrite decide_True by done. by rewrite Hproc. }
  do 9 (eapply (settles_step e _ _ _ _ [] []); [reflexivity|]). by apply settles_idle.
Qed.

(** a packet that is refused: the session is closed *)
Lemma feed_refused pieces :
  process_command e (at_ ts [] (mc_process cmd body)) cmd body = Ok (at_ ts [] (mc_process cmd body), false, []) →
  Forall (λ c, c ≠ []) pieces → concat pieces = pkt →
  ∃ c out, mc_feed 16 e (mc_after 0) pieces = Ok (c, mc_close port :: out) ∧ mc_topics c = ts.
Proof.
  intros Hproc Hne Hc. destruct (feed_arrives pieces 0 Hne ltac:(done) ltac:(cbn; lia)) as (j & Hj & ->).
  destruct j as [|[|j]]; [lia|lia|]. cbn [mc_run].
  assert (mc_thread e (at_ ts [] (mc_process cmd body)) = Ok (mc_goto (at_ ts [] (mc_process cmd body)) mc_disconnect (mc_test mc_disconnect), [])) as ->.
  { unfold mc_thread. cbn [at_ mc_pos mc_state]. fold (at_ ts [] (mc_process cmd body)). rewrite decide_True by done. by rewrite Hproc. }
  cbn [res_bind]. change (mc_thread e (mc_goto _ _ _)) with (Ok (Mc mc_resolve false [] id ts port addr mc_loop, [mc_close port])). cbn [res_bind].
  destruct (mc_reconnecting_run j e (Mc mc_resolve false [] id ts port addr mc_loop)) as (c' & out & -> & Et); [done|].
  cbn [res_bind app]. by do 2 eexists.
Qed.
End Receive.

(** a publication of three bytes or more for a topic with a queue *)
Lemma process_publish e c topic payload f :
  mc_topics c !! topic = Some f → zlen (publish_body 48 topic 0 payload) ≤ 127 → 3 ≤ zlen payload → e_sent e = true →
  process_command e c 48 (publish_body 48 topic 0 payload) =
    Ok (mc_set_topics c (<[topic := (try_put f payload).2]> (mc_topics c)), true, [mc_send (src_port c) ([0x40; 0x02] ++ take 2 payload)]).
Proof.
  intros Hf Hlen Hpl Hsent. pose proof (zlen_nonneg topic).
  assert (publish_body 48 topic 0 payload = be16 (zlen topic) ++ topic ++ payload) as E by done. rewrite E in *.
  assert (zlen (be16 (zlen topic) ++ topic ++ payload) = 2 + zlen topic + zlen payload) as El by (rewrite !zlen_app, zlen_be16; lia).
  rewrite El in Hlen. unfold process_command. rewrite El.
  rewrite (proj2 (Z.leb_le 4 _)) by lia. cbn [Z.eqb Pos.eqb andb].
  change (rd (be16 (zlen topic) ++ topic ++ payload) 0) with (Ok (u8 (Z.shiftr (zlen topic) 8))).
  change (rd (be16 (zlen topic) ++ topic ++ payload) 1) with (Ok (u8 (zlen topic))). cbn [res_bind].
  rewrite join16_be16 by lia. rewrite (proj2 (Z.leb_gt _ (zlen topic + 4))) by lia.
  rewrite (rd_range_mid (be16 (zlen topic)) topic payload) by done. cbn [res_bind].
  rewrite Hf. rewrite app_assoc.
  rewrite <- (app_nil_r payload) at 1. rewrite rd_range_mid by (rewrite ?zlen_app, ?zlen_be16; lia). cbn [res_bind].
  destruct payload as [|p0 [|p1 pl]]; [by cbn in *|by cbn in *|]. rewrite Hsent.
  rewrite (rd_mid _ p0) by (rewrite !zlen_app, ?zlen_be16; lia). cbn [res_bind].
  rewrite (cons_middle p0), app_assoc. rewrite (rd_mid _ p1) by (rewrite !zlen_app, ?zlen_be16; change (zlen [p0]) with 1; lia). done.
Qed.

(** a shorter one is refused; when the message is shorter than four bytes it is ignored *)
Lemma process_publish_short e c topic payload :
  zlen (publish_body 48 topic 0 payload) ≤ 127 → zlen payload < 3 →
  process_command e c 48 (publish_body 48 topic 0 payload) = Ok (c, zlen topic + zlen payload <? 2, []).
Proof.
  intros Hlen Hpl. pose proof (zlen_nonneg topic). pose proof (zlen_nonneg payload).
  assert (publish_body 48 topic 0 payload = be16 (zlen topic) ++ topic ++ payload) as E by done. rewrite E in *.
  assert (zlen (be16 (zlen topic) ++ topic ++ payload) = 2 + zlen topic + zlen payload) as El by (rewrite !zlen_app, zlen_be16; lia).
  rewrite El in Hlen. unfold process_command. rewrite El. cbn [Z.eqb Pos.eqb andb].
  destruct (Z.leb_spec 4 (2 + zlen topic + zlen payload)); destruct (Z.ltb_spec (zlen topic + zlen payload) 2); (lia || done || idtac).
  change (rd (be16 (zlen topic) ++ topic ++ payload) 0) with (Ok (u8 (Z.shiftr (zlen topic) 8))).
  change (rd (be16 (zlen topic) ++ topic ++ payload) 1) with (Ok (u8 (zlen topic))). cbn [res_bind].
  rewrite join16_be16 by lia. by rewrite (proj2 (Z.leb_le _ (zlen topic + 4))) by lia.
Qed.

(** ** Client and broker *)

(** a session without subscriptions that subscribes to topics without wildcards gets what
    is published to one of them once *)
Lemma copies_register_first b topics topic id :
  Forall (λ t, find [wildcard] t.1 = None) topics → topic ∈ topics.*1 → copies b topic id = O →
  copies (register_all b id topics) topic id = 1%nat.
Proof.
  intros Hw Hin H0. destruct (copies_register_all b id topics topic) as (_ & _ & Hge).
  assert (1 ≤ copies (register_all b id topics) topic id)%nat as H1.
  { apply Hge, Exists_exists. apply list_elem_of_fmap in Hin as (t & -> & Ht). exists t. split; [done|]. left. split; [done|].
    by eapply Forall_forall in Hw. }
  assert (topic_wc_subscriptions (register_all b id topics) = topic_wc_subscriptions b) as Ewc.
  { clear -Hw. revert b. induction Hw as [|[t q] topics Ht _ IH]; intros b; [done|].
    change (register_all b id ((t, q) :: topics)) with (register_all (register_topic b t id) id topics). rewrite IH.
    unfold register_topic. cbn in Ht. by rewrite Ht. }
  unfold copies in *. rewrite Ewc in *. assert (∀ o, exact_copies o id ≤ 1)%nat as Hx.
  { intros [s|]; cbn; [case_decide|]; lia. }
  specialize (Hx (topic_subscriptions (register_all b id topics) !! topic)). lia.
Qed.

Lemma mc_feed_app n e c l1 l2 c1 o1 :
  mc_feed n e c l1 = Ok (c1, o1) → mc_feed n e c (l1 ++ l2) = let* '(c2, o2) := mc_feed n e c1 l2 in Ok (c2, o1 ++ o2).
Proof.
  revert c o1. induction l1 as [|d l1 IH]; intros c o1; cbn [mc_feed app].
  - intros [= <- <-]. by destruct (mc_feed n e c l2) as [[? ?]|].
  - destruct (mc_run n e (mc_new_data c d)) as [[c' o']|]; [|done]. cbn [res_bind].
    destruct (mc_feed n e c' l1) as [[c'' o'']|] eqn:E; [|done]. cbn [res_bind]. intros [= <- <-].
    rewrite (IH _ _ E). destruct (mc_feed n e c'' l2) as [[? ?]|]; [|done]. cbn [res_bind]. by rewrite app_assoc.
Qed.

(** what the client asks for: its topics, each with quality 1 *)
Definition asked (ts : gmap str (fifo str)) : list (str * Z) := (λ t, (t.1, 1)) <$> in_order ts.

Lemma asked_topics ts topic f : ts !! topic = Some f → topic ∈ (asked ts).*1.
Proof.
  intros H. unfold asked. rewrite <- list_fmap_compose. apply list_elem_of_fmap. exists (topic, f). split; [done|].
  by apply elem_of_in_order.
Qed.

(** a client that is about to subscribe to its topics, and one that waits for commands *)
Definition mc_subscribing (id port : Z) (addr : option (list Z)) (ts : gmap str (fifo str)) : mqtt_client :=
  Mc mc_setup_mqtt_subscribe false [] id ts port addr (mc_test mc_setup_mqtt_subscribe).
Definition mc_waiting (id port : Z) (addr : option (list Z)) (ts : gmap str (fifo str)) : mqtt_client :=
  Mc mc_running false [] id ts port addr mc_cmd.

Lemma subscribing_run e id port addr ts :
  zlen (subscribe_body id (asked ts)) ≤ 127 → e_sent e = true →
  mc_run 2 e (mc_subscribing id port addr ts) =
    Ok (mc_waiting (u16 (id + 1)) port addr ts, [mc_send port (mqtt_packet 0x80 (subscribe_body id (asked ts)))]).
Proof.
  intros Hl Hs. pose proof (subscribe_message_packet (mc_subscribing id port addr ts)) as E. cbv zeta in E.
  cbn [mc_subscribing mc_topics msg_id] in E. fold (asked ts) in E.
  specialize (E Hl). cbn [mc_run]. unfold mc_thread at 1. cbn [mc_subscribing mc_pos mc_state]. rewrite decide_True by done.
  destruct (create_subscribe_message _ None) as [m c'] eqn:Ec. cbn [fst] in E. subst m.
  unfold create_subscribe_message in Ec. injection Ec as _ <-. rewrite Hs. done.
Qed.

(** the acknowledgement is read and changes nothing *)
Lemma feed_suback e id port addr ts mid n pieces :
  (n ≤ 125)%nat → Forall (λ d, d ≠ []) pieces → concat pieces = suback mid n →
  mc_feed 16 e (mc_waiting id port addr ts) pieces = Ok (mc_waiting id port addr ts, []).
Proof.
  intros Hn Hne Hc. assert (zlen (be16 mid ++ replicate n 2) = Z.of_nat n + 2) as El.
  { rewrite zlen_app, zlen_be16. unfold zlen. rewrite length_replicate. lia. }
  apply (feed_packet e id port addr ts 0x90 (be16 mid ++ replicate n 2)); [lia|done|done|].
  rewrite Hc. unfold suback, mqtt_packet. by rewrite El.
Qed.

(** what the client does with a publication of [payload] to [topic], from what it sent, the
    client [c2] it is then and the queue it had *)
Definition client_gets (port : Z) (ts : gmap str (fifo str)) (topic payload : str) (f : fifo str) (q : list str)
  (c2 : mqtt_client) (out : list mc_out) : Prop :=
  if decide (3 ≤ zlen payload) then
    out = [mc_send port ([0x40; 0x02] ++ take 2 payload)] ∧ mc_pos c2 = mc_cmd ∧ data_in c2 = [] ∧
    ∃ f', mc_topics c2 = <[topic := f']> ts ∧ fifo_rep f' (if decide (zlen q < n_elements f) then q ++ [payload] else q)
  else if decide (2 ≤ zlen topic + zlen payload) then
    head out = Some (mc_close port) ∧ mc_topics c2 = ts
  else out = [] ∧ mc_pos c2 = mc_cmd ∧ data_in c2 = [] ∧ mc_topics c2 = ts.

Lemma feed_publish e id port addr ts topic payload f q pieces :
  ts !! topic = Some f → fifo_rep f q → 2 + zlen topic + zlen payload ≤ 127 → e_sent e = true →
  Forall (λ d, d ≠ []) pieces → concat pieces = mqtt_packet 48 (publish_body 48 topic 0 payload) →
  ∃ c2 out, mc_feed 16 e (mc_waiting id port addr ts) pieces = Ok (c2, out) ∧ client_gets port ts topic payload f q c2 out.
Proof.
  intros Hf Hq Hl Hs Hne Hc. pose proof (zlen_nonneg topic). pose proof (zlen_nonneg payload).
  assert (zlen (publish_body 48 topic 0 payload) = 2 + zlen topic + zlen payload) as Epb
    by (unfold publish_body; change (with_qos 48) with false; rewrite !zlen_app, zlen_be16; change (zlen (@nil Z)) with 0; lia).
  pose proof (feed_packet e id port addr ts 48 (publish_body 48 topic 0 payload) ltac:(lia)) as F.
  unfold client_gets. case_decide as Hp.
  - do 2 eexists. split; [apply F; [|done|done]; rewrite (process_publish e _ topic payload f); [done|done|lia|done|done]|].
    split_and!; [done..|]. eexists. split; [done|]. destruct (try_put_spec f q payload Hq) as (Hrep & Hput & _).
    destruct (try_put f payload).1; case_decide; (done || tauto || idtac); apply Hput in H1; done.
  - case_decide as Ht.
    + destruct (feed_refused e id port addr ts 48 (publish_body 48 topic 0 payload) ltac:(lia) pieces) as (c & out & E & Et); [|done|done|].
      { rewrite process_publish_short by lia. by rewrite (proj2 (Z.ltb_ge _ _)) by lia. }
      do 2 eexists. split; [exact E|]. done.
    + do 2 eexists. split; [apply F; [|done|done]; rewrite process_publish_short by lia; by rewrite (proj2 (Z.ltb_lt _ _)) by lia|]. done.
Qed.


(** ** All interleavings *)

Inductive mc_step : mqtt_client → mqtt_client → Prop :=
  | mc_step_data c data : bytes_ok data → mc_step c (mc_new_data c data)
  | mc_step_close c : mc_step c (mc_close_session c)
  | mc_step_stop c : mc_step c (mc_stop c)
  | mc_step_thread e c c' out : mc_thread e c = Ok (c', out) → mc_step c c'
  | mc_step_subscribe sent c topic : mc_step c (subscribe sent c topic).1.1
  | mc_step_unsubscribe sent c topic : mc_step c (unsubscribe sent c topic).1.

Lemma mc_inv_step c c' : mc_inv c → mc_step c c' → mc_inv c'.
Proof.
  intros Hi Hs. destruct Hs as [c data Hb|c|c|e c c' out E|sent c topic|sent c topic].
  - destruct Hi as [H1 [H2 H3]]. split; [done|]. split; [by apply bytes_ok_app|done].
  - destruct Hi as [H1 [H2 H3]]. by split.
  - exact Hi.
  - destruct (mc_thread_total e c Hi) as (c1 & o1 & E1 & Hi1 & _). congruence.
  - unfold subscribe. cbn. destruct (decide _); [destruct sent|]; cbn; try destruct (mc_topics c !! topic); exact Hi.
  - unfold unsubscribe. cbn. destruct sent; exact Hi.
Qed.

Lemma mc_run_stops n e c :
  mc_inv c → stop_flag c = true → (mc_rank (mc_pos c) ≤ n)%nat → ∃ c' out, mc_run n e c = Ok (c', out) ∧ mc_pos c' = mc_end.
Proof.
  revert c. induction n as [|n IH]; intros c Hi Hs Hr; cbn [mc_run].
  - do 2 eexists. split; [done|]. destruct (mc_pos c) as [|[]| | | | | |]; cbn in Hr; (done || lia).
  - destruct (mc_thread_total e c Hi) as (c1 & o1 & E1 & Hi1 & Hs1 & Hr1). rewrite E1. cbn [res_bind].
    destruct (IH c1 Hi1) as (c2 & o2 & E2 & He); [congruence| |rewrite E2; cbn; eauto].
    destruct (decide (mc_pos c = mc_end)) as [Hend|Hne].
    + unfold mc_thread in E1. rewrite Hend in E1. injection E1 as <- <-. rewrite Hend. cbn. lia.
    + specialize (Hr1 Hs Hne). lia.
Qed.

(** whatever the broker sends, in whatever pieces, and whenever the session is closed,
    topics are subscribed and the client is told to stop, no part of its thread faults: it
    never reads outside of a message, and never asks for the address before it is known.
    Once it is told to stop, its thread ends within fourteen parts, so that the destructor
    returns. *)
Theorem mqtt_client_total e c :
  rtc mc_step new_mqtt_client c →
  (∃ c' out, mc_thread e c = Ok (c', out)) ∧
  (stop_flag c = true → ∃ c' out, mc_run 14 e c = Ok (c', out) ∧ mc_pos c' = mc_end).
Proof.
  intros Hr. assert (mc_inv c) as Hi.
  { assert (mc_inv new_mqtt_client) as H0 by (split; [done|]; split; [constructor|done]).
    induction Hr as [c|c1 c2 c3 Hs _ IH]; [done|]. apply IH. by eapply mc_inv_step. }
  split; [destruct (mc_thread_total e c Hi) as (c1 & o1 & E1 & _); eauto|].
  intros Hs. apply mc_run_stops; [done|done|]. destruct (mc_pos c) as [|[]| | | | | |]; cbn; lia.
Qed.
Lemma mqtt_client_total_witness :
  ∃ c' out, mc_run 14 (McEnv None 0 false false []) (mc_stop new_mqtt_client) = Ok (c', out) ∧ mc_pos c' = mc_end.
Proof.
  apply (mqtt_client_total (McEnv None 0 false false []) (mc_stop new_mqtt_client)); [|reflexivity].
  eapply rtc_once, mc_step_stop.
Defined.

(** the messages of the example: the broker has two sessions, the second one publishes *)
Definition ex_payload : list Z := [111; 102; 102].
Definition ex_broker2 (payload : list Z) : broker :=
  (mqtt_new_data (mqtt_new_session (mqtt_new_session mqtt_start 1 []) 2 []) 2 (mqtt_packet 0x32 (publish_body 0x32 ex_lamp 9 payload))).2.
Definition ex_topics : gmap str (fifo str) := {[ ex_lamp := new_fifo 128; [116] := new_fifo 128 ]}.

Lemma ex_broker2_reachable payload : rtc mqtt_step mqtt_start (ex_broker2 payload).
Proof.
  eapply rtc_l; [by apply (step_new_session mqtt_start 1 [])|].
  eapply rtc_l; [by apply (step_new_session _ 2 [])|].
  eapply rtc_once, (step_new_data _ 2 _).
Qed.


(** a payload of two bytes ends the session *)
Lemma short_payload_disconnects :
  let c := Mc mc_running false (mqtt_packet 48 (publish_body 48 ex_lamp 0 [111; 110])) 1 {[ ex_lamp := new_fifo 128 ]} 1024 None mc_cmd in
  let e := McEnv None 0 true true [] in
  (let* '(c, out) := mc_run 5 e c in Ok (mc_state c, out)) = Ok (mc_resolve, [mc_close 1024]).
Proof. vm_compute. done. Qed.

(** the queue that a second subscription to a topic returns never gets a message *)
Lemma second_subscription_deaf c topic f :
  mc_topics c !! topic = Some f → mc_state c ≠ mc_running →
  ∃ c' out, subscribe true c topic = (c', Some false, out) ∧ mc_topics c' = mc_topics c.
Proof.
  intros Ht Hs. unfold subscribe. cbn. rewrite decide_False by done. rewrite Ht. do 2 eexists. done.
Qed.
