(* ===== verification/Sip.v ===== *)
(** * The SIP server with its voice mail box (src/sip.cpp, src/sip.h)

    The messages, the choice of a codec, A-law, the packets of RTP, the recording of what
    the caller says and the sessions.  What is sent is a list of datagrams.  The MD5 sum,
    the resampler, the speex codec and the beep, which is computed with floating point,
    are functions the model is given; the time, the random numbers and the port that UDP
    allocates are arguments.  The file a call is recorded to is the list of its samples.

    Shown: the handler returns for every packet that does not start with an empty line;
    an INVITE is answered with the headers of the request and a description whose length
    is announced correctly; and what one side says is what the other side records, to
    within the precision of A-law.  Lemmas state what goes wrong with other packets. *)
From stdpp Require Import strings.
From S2P Require Import Prelude Str AnyAddr Lines.
Open Scope Z_scope.

(** ** A-law *)

Definition s16 (x : Z) : Z := (x + 32768) mod 65536 - 32768.
Definition alaw_s8 (x : Z) : Z := (x + 128) mod 256 - 128.

(** [for(; ((number & mask) != mask && position >= 5); mask >>= 1, position--)]: [position]
    starts with 11, so there are at most seven rounds *)
Fixpoint alaw_position (fuel : nat) (number mask position : Z) : Z :=
  match fuel with
  | O => position
  | S fuel' =>
      if negb (Z.land number mask =? mask) && (5 <=? position) then alaw_position fuel' number (Z.shiftr mask 1) (position - 1)
      else position
  end.

(** the byte; the C function returns it as an [int8_t] *)
Definition encode_alaw (number : Z) : Z :=
  let '(number, sign) := if number <? 0 then (s16 (- number), 0x80) else (number, 0) in
  let number := Z.shiftr number 4 in
  let position := alaw_position 8 number 0x800 11 in
  let lsb := Z.land (Z.shiftr number (if position =? 4 then 1 else position - 4)) 0x0f in
  u8 (Z.lxor (Z.lor (Z.lor sign (Z.shiftl (position - 4) 4)) lsb) 0x55).

(** [b] is the byte of the packet *)
Definition decode_alaw (b : Z) : Z :=
  let number := alaw_s8 (Z.lxor (alaw_s8 b) 0x55) in
  let '(number, negative) :=
    if negb (Z.land number 0x80 =? 0) then (alaw_s8 (Z.land number (Z.lnot 128)), true) else (number, false) in
  let position := Z.shiftr (Z.land number 0xf0) 4 + 4 in
  let decoded :=
    if negb (position =? 4) then
      Z.lor (Z.lor (Z.shiftl 1 position) (Z.shiftl (Z.land number 0x0f) (position - 4))) (Z.shiftl 1 (position - 5))
    else Z.lor (Z.shiftl number 1) 1 in
  if negative then s16 (- s16 decoded) else s16 decoded.

(** ** Strings *)

(** [s.substr(pos, n)] and [s.substr(pos)] *)
Definition substr (s : str) (pos n : Z) : res str :=
  if (pos <? 0) || (zlen s <? pos) then Err out_of_range else Ok (take (Z.to_nat n) (drop (Z.to_nat pos) s)).
(** [atoi] *)
Definition atoi (s : str) : Z := s32 (strtol s 10).
(** [%08lx] *)
Definition fmt_08lx (n : Z) : str := let h := fmt_hex n in replicate (8 - length h) 48 ++ h.

(** ** State *)

Record codec_t := Codec { codec_id : Z; codec_name : str; org_name : str; codec_rate : Z; frame_size : Z }.

(** [ss_sf] is the recording; [None] when the file could not be made *)
Record sip_session_data := SipSession {
  finished : bool;
  sip_addr_peer : any_addr;
  sip_port_peer : Z;
  sip_addr_me : any_addr;
  sip_port_me : Z;
  ss_headers : list str;
  ss_schema : codec_t;
  ss_sf : option (list Z);
  stats_done : bool;
  latest_pkt : Z;
}.

(** [samples] has an extra element when [n_samples] is odd; sessions are filed by their threads *)
Record sip := Sip {
  samplerate : Z;
  n_samples : Z;
  samples : list Z;
  upstream_server : str;
  username : str;
  password : str;
  myip : any_addr;
  myport : Z;
  ddos_protection : Z;
  sip_sessions : gmap Z sip_session_data;
}.

Definition with_ddos (s : sip) (now : Z) : sip :=
  Sip (samplerate s) (n_samples s) (samples s) (upstream_server s) (username s) (password s) (myip s) (myport s) now (sip_sessions s).
Definition with_calls (s : sip) (ss : gmap Z sip_session_data) : sip :=
  Sip (samplerate s) (n_samples s) (samples s) (upstream_server s) (username s) (password s) (myip s) (myport s) (ddos_protection s) ss.

(** [transmit_packet] of UDP, the counters, and the thread of a call with the address and port
    it sends to, its own and the session *)
Inductive sip_out :=
  | sip_send (dst_ip : any_addr) (dst_port : Z) (src_ip : any_addr) (src_port : Z) (bytes : list Z)
  | sip_count_request
  | sip_count_unknown
  | sip_count_rtp_session
  | sip_count_codec (n : Z)
  | sip_start (tgt_addr : any_addr) (tgt_port : Z) (src_addr : any_addr) (src_port : Z) (th : Z).

(** ** Messages *)

Definition push_header (name : str) (v : option str) : list str :=
  match v with Some x => [name ++ x] | None => [] end.

Definition contact_header (to : option str) : res (list str) :=
  match to with
  | None => Ok []
  | Some t =>
      match rfind 60 t, rfind 62 t with
      | Some lt, Some gt =>
          let* contact := substr t (Z.of_nat lt) (u64 (Z.of_nat gt - Z.of_nat lt + 1)) in
          Ok [lit "Contact: " ++ c_str contact]
      | _, _ => Ok []
      end
  end.

Definition cseq_header (request : str) (upd_cseq : bool) (cseq : option str) : res (list str) :=
  match cseq with
  | None => Ok []
  | Some c =>
      if upd_cseq then
        let request_method := match find [32] request with Some i => take i request | None => request end in
        let* next := int_add (atoi c) 1 in
        Ok [lit "CSeq: " ++ fmt_dec (u32 next) ++ [32] ++ c_str request_method]
      else Ok [lit "CSeq: " ++ c]
  end.

Definition create_response_headers (request : str) (upd_cseq : bool) (source : list str) (c_size : Z) (my_ip : any_addr)
  : res (list str) :=
  let* str_via := find_header source (lit "Via") (lit ":") in
  let* str_from := find_header source (lit "From") (lit ":") in
  let* str_to := find_header source (lit "To") (lit ":") in
  let* str_call_id := find_header source (lit "Call-ID") (lit ":") in
  let* str_cseq := find_header source (lit "CSeq") (lit ":") in
  let* cseq := cseq_header request upd_cseq str_cseq in
  let* me := to_str my_ip in
  let* contact := contact_header str_to in
  Ok ([request] ++ push_header (lit "Via: ") str_via ++ push_header (lit "From: ") str_from ++ push_header (lit "To: ") str_to ++
      push_header (lit "Call-ID: ") str_call_id ++ cseq ++
      [lit "Server: " ++ me] ++
      [lit "Allow: INVITE, ACK, CANCEL, OPTIONS, BYE, REFER, SUBSCRIBE, NOTIFY, INFO, PUBLISH, MESSAGE"] ++
      contact ++
      [lit "User-Agent: MyIP - https://github.com/folkertvanheusden/myip"] ++
      (if 0 <? c_size then [lit "Content-Type: application/sdp"] else []) ++
      [lit "Content-Length: " ++ fmt_dec c_size]).

(** the lines that start every description *)
Definition sdp_start (dst_ip : any_addr) : res (list str) :=
  let proto := if get_len dst_ip =? 4 then lit "IP4" else lit "IP6" in
  let* ip := to_str dst_ip in
  Ok [lit "v=0"; lit "o=jdoe 0 0 IN " ++ proto ++ [32] ++ ip; lit "c=IN " ++ proto ++ [32] ++ ip; lit "s=MyIP"; lit "t=0 0"].

(** the quotes of a string *)
Definition quote : str := [34].

(** a response with a description *)
Definition sdp_response (headers : list str) (content : list str) (dst_ip : any_addr) : res (list Z) :=
  let content_out := merge content line_end in
  let* hout := create_response_headers (lit "SIP/2.0 200 OK") false headers (zlen content_out) dst_ip in
  Ok (merge hout line_end ++ line_end ++ content_out).

Definition reply_to_OPTIONS (s : sip) (src_ip : any_addr) (src_port : Z) (dst_ip : any_addr) (dst_port : Z) (headers : list str)
  : res (list sip_out) :=
  let* start := sdp_start dst_ip in
  let rate := fmt_dec (u32 (samplerate s)) in
  let content := start ++
    [lit "m=audio 1234 RTP/AVP 8 11"; lit "a=sendrecv"; lit "a=rtpmap:8 PCMA/" ++ rate; lit "a=rtpmap:11 L16/" ++ rate;
     lit "a=rtpmap:97 speex/" ++ rate; lit "a=fmtp:97 mode=" ++ quote ++ lit "1,any" ++ quote ++ lit ";vbr=on"] in
  let* out := sdp_response headers content dst_ip in
  Ok [sip_send src_ip src_port dst_ip dst_port out].

(** ** The choice of a codec *)

Definition is_speex (name : str) : bool := bool_decide (take 5 name = lit "speex").
Definition is_alaw (name : str) : bool := bool_decide (name = lit "alaw") || bool_decide (name = lit "pcma").
Definition is_l16 (name : str) : bool := bool_decide (name = lit "l16").

(** a line of the description: [best] or the codec of the line *)
Definition pick_codec (max_rate : Z) (best : codec_t) (line : str) : codec_t :=
  if negb (bool_decide (take 9 line = lit "a=rtpmap:")) then best
  else
    let pars := drop 9 line in
    match find [32] pars with
    | None => best
    | Some lspace =>
        let type_rate := drop (lspace + 1) pars in
        match find [47] type_rate with
        | None => best
        | Some slash =>
            let id := u8 (atoi (take lspace pars)) in
            let name := str_tolower (take slash type_rate) in
            let rate := atoi (drop (slash + 1) type_rate) in
            let pick :=
              if (max_rate <=? rate) && (is_l16 name || is_speex name || is_alaw name) then
                (Z.abs (s32 (rate - max_rate)) <? Z.abs (s32 (rate - codec_rate best))) || (codec_rate best =? -1)
              else if rate =? codec_rate best then is_l16 name || is_speex name || (codec_id best =? 255)
              else false in
            if pick then Codec id name (take slash type_rate) rate (frame_size best) else best
        end
    end.

(** what a call to [voicemailbox] needs of the libraries: the frame size of speex, its
    encoder (at most so many bytes) and decoder, the number of samples of the resampler,
    the beep for a rate *)
Record sip_libs := SipLibs {
  md5hex : str → str;
  speex_frame_size : Z;
  speex_encode : list Z → Z → list Z;
  speex_decode : list Z → list Z;
  resampled_n : Z → Z → Z → Z;
  beep : Z → list Z;
}.

Definition select_schema (libs : sip_libs) (body : list str) (max_rate : Z) : codec_t :=
  let best := foldl (pick_codec max_rate) (Codec 255 [] [] (-1) 0) body in
  let best := if codec_id best =? 255 then Codec 8 (lit "pcma") (lit "PCMA") 8000 (frame_size best) else best in
  let size := if is_speex (codec_name best) then speex_frame_size libs else Z.quot (s32 (codec_rate best * 20)) 1000 in
  Codec (codec_id best) (codec_name best) (org_name best) (codec_rate best) size.

(** [recv_port] is the port that UDP allocates, [th] the thread of the call *)
Definition reply_to_INVITE (libs : sip_libs) (s : sip) (src_ip : any_addr) (src_port : Z) (dst_ip : any_addr) (dst_port : Z)
    (headers body : list str) (recv_port th now : Z) : res (sip * list sip_out) :=
  let* start := sdp_start dst_ip in
  let* m := find_header body (lit "m") (lit "=") in
  match m with
  | None => Ok (s, [])
  | Some m =>
      let* m_parts := split m [32] in
      let schema := select_schema libs body (samplerate s) in
      if codec_id schema =? 255 then Ok (s, [])
      else
        let id := fmt_dec (codec_id schema) in
        let content := start ++
          [lit "a=sendrecv"; lit "a=rtpmap:" ++ id ++ [32] ++ c_str (org_name schema) ++ [47] ++ fmt_dec (u32 (codec_rate schema))] ++
          (if is_speex (codec_name schema) then [lit "a=fmtp:" ++ id ++ lit " mode=" ++ quote ++ lit "1,any" ++ quote ++ lit ";vbr=on"] else []) ++
          [lit "m=audio " ++ fmt_dec recv_port ++ lit " RTP/AVP " ++ id] in
        let* out := sdp_response headers content dst_ip in
        let tgt_rtp_port := match m_parts with _ :: p :: _ => atoi p | _ => 8000 end in
        let ss := SipSession false src_ip src_port dst_ip dst_port headers schema None false 0 in
        Ok (with_calls s (<[th := ss]> (sip_sessions s)),
            [sip_send src_ip src_port dst_ip dst_port out; sip_start src_ip tgt_rtp_port dst_ip recv_port th])
  end.

Definition send_ACK (src_ip : any_addr) (src_port : Z) (dst_ip : any_addr) (dst_port : Z) (headers : list str) : res (list sip_out) :=
  let* hout := create_response_headers (lit "SIP/2.0 200 OK") false headers 0 src_ip in
  Ok [sip_send src_ip src_port dst_ip dst_port (merge hout line_end)].

(** [r] is the random number *)
Definition send_REGISTER (s : sip) (call_id authorize : str) (r : Z) : res (list sip_out) :=
  let work := upstream_server s in
  let '(tgt_port, work) :=
    match find [58] work with
    | Some colon => (atoi (drop (colon + 1) work), take colon work)
    | None => (5060, work)
    end in
  let* tgt_addr := parse_address work 4 [46] 10 in
  let* _ := assert_ (bool_decide (get_family tgt_addr = ipv4) || bool_decide (get_family tgt_addr = ipv6)) in
  let* tgt := to_str tgt_addr in
  let* me := to_str (myip s) in
  let out := lit "REGISTER sip:" ++ tgt ++ lit " SIP/2.0" ++ line_end ++
    match authorize with
    | [] => lit "CSeq: 1 REGISTER" ++ line_end ++ lit "Call-ID: " ++ fmt_08lx r ++ lit "@" ++ me ++ line_end
    | _ => authorize ++ line_end ++ lit "CSeq: 2 REGISTER" ++ line_end ++ lit "Call-ID: " ++ call_id ++ line_end
    end ++
    lit "Via: SIP/2.0/UDP " ++ me ++ lit ":" ++ fmt_dec (myport s) ++ line_end ++
    lit "User-Agent: MyIP" ++ line_end ++
    lit "From: <sip:" ++ username s ++ lit "@" ++ tgt ++ lit ">;tag=277FD9F0-2607D15D" ++ line_end ++
    lit "To: <sip:" ++ username s ++ lit "@" ++ tgt ++ lit ">" ++ line_end ++
    lit "Contact: <sip:" ++ username s ++ lit "@" ++ me ++ lit ">;q=1" ++ line_end ++
    lit "Allow: INVITE,ACK,OPTIONS,BYE,CANCEL,SUBSCRIBE,NOTIFY,REFER,MESSAGE,INFO,PING" ++ line_end ++
    lit "Expires: 60" ++ line_end ++ lit "Content-Length: 0" ++ line_end ++ lit "Max-Forwards: 70" ++ line_end ++ line_end in
  Ok [sip_send tgt_addr tgt_port (myip s) (myport s) out].

(** the value of a parameter without its quotes *)
Definition unquoted (parameters : list str) (name : str) : res str :=
  let* v := find_header parameters name (lit "=") in
  match v with Some x => replace x quote [] | None => Ok [] end.

Definition reply_to_UNAUTHORIZED (libs : sip_libs) (s : sip) (src_ip : any_addr) (headers : list str) (r : Z) : res (list sip_out) :=
  let* str_wa := find_header headers (lit "WWW-Authenticate") (lit ":") in
  match str_wa with
  | None => Ok []
  | Some wa =>
      let* call_id := find_header headers (lit "Call-ID") (lit ":") in
      let* work := replace wa (lit ",") (lit " ") in
      let* parameters := split work [32] in
      let* _ := find_header parameters (lit "algorithm") (lit "=") in
      let* realm := unquoted parameters (lit "realm") in
      let* nonce := unquoted parameters (lit "nonce") in
      let* src := to_str src_ip in
      let a1 := md5hex libs (username s ++ lit ":" ++ realm ++ lit ":" ++ password s) in
      let a2 := md5hex libs (lit "REGISTER:sip:" ++ src) in
      let digest := md5hex libs (a1 ++ lit ":" ++ nonce ++ lit ":" ++ a2) in
      let authorize := lit "Authorization: Digest username=" ++ quote ++ username s ++ quote ++ lit ",realm=" ++ quote ++ realm ++ quote ++
        lit ",nonce=" ++ quote ++ nonce ++ quote ++ lit ",uri=" ++ quote ++ lit "sip:" ++ src ++ quote ++
        lit ",algorithm=MD5,response=" ++ quote ++ digest ++ quote in
      send_REGISTER s (default [] call_id) authorize r
  end.

Definition send_BYE (tgt_addr : any_addr) (tgt_port : Z) (src_addr : any_addr) (src_port : Z) (headers : list str) : res (list sip_out) :=
  let* str_to := find_header headers (lit "To") (lit ":") in
  let* number :=
    match str_to with
    | Some t =>
        match rfind 60 t, rfind 62 t with
        | Some lt, Some gt => substr t (Z.of_nat lt + 1) (u64 (Z.of_nat gt - Z.of_nat lt - 1))
        | _, _ => Ok (lit "0")
        end
    | None => Ok (lit "0")
    end in
  let* hout := create_response_headers (lit "BYE " ++ c_str number ++ lit " SIP/2.0") true headers 0 src_addr in
  Ok [sip_send tgt_addr tgt_port src_addr src_port (merge hout line_end ++ line_end)].

(** ** The handler of packets *)

(** [parts] has this many elements and these at the places *)
Definition request_is (parts : list str) (method : str) : bool :=
  match parts with [p0; _; p2] => bool_decide (p0 = method) && bool_decide (p2 = lit "SIP/2.0") | _ => false end.
Definition is_unauthorized (parts : list str) : bool :=
  match parts with p0 :: p1 :: _ => bool_decide (p0 = lit "SIP/2.0") && bool_decide (p1 = lit "401") | _ => false end.

Definition sip_input (libs : sip_libs) (s : sip) (src_ip : any_addr) (src_port : Z) (dst_ip : any_addr) (dst_port : Z) (pl : list Z)
    (now recv_port th r : Z) : res (sip * list sip_out) :=
  match pl with
  | [] => Ok (s, [])
  | _ =>
      let* header_body := split pl blank_line in
      let* header := str_at header_body 0 in
      let* header_lines := split header line_end in
      let* line0 := str_at header_lines 0 in
      let* parts := split line0 [32] in
      let counted (o : list sip_out) := sip_count_request :: o in
      if request_is parts (lit "OPTIONS") then
        let* o := reply_to_OPTIONS s src_ip src_port dst_ip dst_port header_lines in Ok (s, counted o)
      else if request_is parts (lit "INVITE") && bool_decide (length header_body = 2%nat) then
        let* body := str_at header_body 1 in
        let* body_lines := split body line_end in
        let* '(s, o) := reply_to_INVITE libs s src_ip src_port dst_ip dst_port header_lines body_lines recv_port th now in
        Ok (s, counted o)
      else if request_is parts (lit "BYE") then
        let* o := send_ACK src_ip src_port dst_ip dst_port header_lines in Ok (s, counted o)
      else if is_unauthorized parts then
        if 1000000 <? u64 (now - ddos_protection s) then
          let* o := reply_to_UNAUTHORIZED libs s src_ip header_lines r in
          Ok (with_ddos s now, counted o)
        else Ok (s, counted [])
      else Ok (s, counted [sip_count_unknown])
  end.

(** ** Audio *)

Definition rtp_header (ssrc seq_nr t id : Z) : list Z := [128; id] ++ be16 seq_nr ++ be32 t ++ be32 ssrc.

(** [None]: no packet *)
Definition create_rtp_packet (libs : sip_libs) (ssrc seq_nr t : Z) (schema : codec_t) (audio : list Z) : option (list Z) :=
  let name := codec_name schema in
  let header := rtp_header ssrc seq_nr t (codec_id schema) in
  if is_alaw name then Some (header ++ (encode_alaw <$> audio))
  else if is_l16 name then Some (header ++ (audio ≫= λ x, [u8 (Z.shiftr x 8); u8 x]))
  else if is_speex name then
    let size := 12 + zlen audio in
    let bytes := speex_encode libs audio (size - 12) in
    if size <? 12 + zlen bytes then None else Some (header ++ bytes)
  else None.

(** the loop; [stop] is asked after the frame that ends at an offset *)
Fixpoint transmit_loop (fuel : nat) (libs : sip_libs) (rate : Z) (schema : codec_t) (audio : list Z) (stop : Z → bool) (ssrc : Z)
    (n_work offset seq_nr t : Z) : res (list (list Z) * Z * Z) :=
  if 0 <? n_work then
    match fuel with
    | O => Err out_of_fuel
    | S fuel' =>
        let cur_n_before := Z.min n_work (frame_size schema) in
        let cur_n := if negb (rate =? codec_rate schema) then resampled_n libs rate cur_n_before (codec_rate schema) else cur_n_before in
        let* frame := rd_range audio offset (cur_n + Z.land cur_n 1) in
        let sent := match create_rtp_packet libs ssrc seq_nr t schema frame with Some p => [p] | None => [] end in
        let offset := offset + cur_n_before in
        let t := u32 (t + cur_n) in
        let seq_nr := u16 (seq_nr + 1) in
        if stop offset then Ok (sent, seq_nr, t)
        else
          let* '(more, seq_nr, t) := transmit_loop fuel' libs rate schema audio stop ssrc (n_work - cur_n_before) offset seq_nr t in
          Ok (sent ++ more, seq_nr, t)
    end
  else Ok ([], seq_nr, t).

(** every round takes a sample at least, when the frames are not empty *)
Definition transmit_audio (libs : sip_libs) (rate : Z) (schema : codec_t) (audio : list Z) (n_audio : Z) (stop : Z → bool) (ssrc seq_nr t : Z)
  : res (list (list Z) * Z * Z) :=
  transmit_loop (Z.to_nat n_audio) libs rate schema audio stop ssrc n_audio 0 seq_nr t.

Definition ss_with (ss : sip_session_data) (fin : bool) (sf : option (list Z)) (stats : bool) (latest : Z) : sip_session_data :=
  SipSession fin (sip_addr_peer ss) (sip_port_peer ss) (sip_addr_me ss) (sip_port_me ss) (ss_headers ss) (ss_schema ss) sf stats latest.

(** [voicemailbox] makes the file for the recording, if it can *)
Definition voicemailbox_open (ss : sip_session_data) (opened : bool) : sip_session_data :=
  ss_with ss (finished ss) (if opened then Some [] else None) (stats_done ss) (latest_pkt ss).

(** until it waits: the message and the beep *)
Definition voicemailbox_speak (libs : sip_libs) (s : sip) (ss : sip_session_data) (stop1 stop2 : Z → bool)
    (tgt_addr : any_addr) (tgt_port : Z) (src_addr : any_addr) (src_port : Z) (ssrc : Z) : res (list sip_out) :=
  let send p := sip_send tgt_addr tgt_port src_addr src_port p in
  let* '(p1, seq_nr, t) := transmit_audio libs (samplerate s) (ss_schema ss) (samples s) (n_samples s) stop1 ssrc 0 0 in
  let b := beep libs (codec_rate (ss_schema ss)) in
  let* '(p2, _, _) := transmit_audio libs (samplerate s) (ss_schema ss) b (zlen b) stop2 ssrc seq_nr t in
  Ok (send <$> p1 ++ p2).

(** [while(get_us() - ss->latest_pkt < 5000000l && ...)] *)
Definition call_goes_on (ss : sip_session_data) (now : Z) : bool := u64 (now - latest_pkt ss) <? 5000000.

(** [ss->latest_pkt = get_us()] *)
Definition voicemailbox_listen (ss : sip_session_data) (now : Z) : sip_session_data :=
  ss_with ss (finished ss) (ss_sf ss) (stats_done ss) now.

(** [voicemailbox] after it waited; running the command is left out *)
Definition voicemailbox_end (s : sip) (ss : sip_session_data) (r : Z) : res (sip_session_data * list sip_out) :=
  let* bye := send_BYE (sip_addr_peer ss) (sip_port_peer ss) (sip_addr_me ss) (sip_port_me ss) (ss_headers ss) in
  let* reg := send_REGISTER s [] [] r in
  Ok (ss_with ss true (ss_sf ss) (stats_done ss) (latest_pkt ss), bye ++ reg).

(** a [short] of the host, low byte first *)
Fixpoint host_shorts (l : list Z) : list Z :=
  match l with lo :: hi :: l' => s16 (hi * 256 + lo) :: host_shorts l' | _ => [] end.

Definition codec_counter (name : str) : list sip_out :=
  if is_alaw name then [sip_count_codec 8] else if is_l16 name then [sip_count_codec 11]
  else if is_speex name then [sip_count_codec 97] else [].

(** what a packet adds to the recording *)
Definition rtp_samples (libs : sip_libs) (name : str) (pl : list Z) : res (list Z) :=
  if is_alaw name then
    let n := zlen pl - 12 in
    if 0 <? n then let* l := rd_range pl 12 n in Ok (decode_alaw <$> l) else Ok []
  else if is_l16 name then
    let n := Z.quot (zlen pl - 12) 2 in
    if 0 <? n then let* l := rd_range pl 12 (n * 2) in Ok (host_shorts l) else Ok []
  else if is_speex name then let* l := rd_range pl 12 (zlen pl - 12) in Ok (speex_decode libs l)
  else Ok [].

Definition input_recv (libs : sip_libs) (ss : sip_session_data) (pl : list Z) (now : Z) : res (sip_session_data * list sip_out) :=
  match ss_sf ss with
  | None => Ok (ss, [])
  | Some sf =>
      let name := codec_name (ss_schema ss) in
      let counts := if stats_done ss then [] else sip_count_rtp_session :: codec_counter name in
      let* more := rtp_samples libs name pl in
      Ok (ss_with ss (finished ss) (Some (sf ++ more)) true now, counts)
  end.

(** a round of [operator()]: finished calls are removed *)
Definition sip_clean (s : sip) : sip := with_calls s (filter (λ p, finished p.2 = false) (sip_sessions s)).

(** a round of [register_thread]: the sleep depends on whether sending worked *)
Definition register_round (s : sip) (r : Z) (sent : bool) : res (list sip_out * Z) :=
  let* o := send_REGISTER s [] [] r in Ok (o, if sent then 15000 else 30000).

(** ** A-law *)

(** a sample and what is left of it after it was sent and recorded *)
Definition alaw_close (n : Z) : bool :=
  let d := decode_alaw (encode_alaw n) in
  (Z.abs (d - Z.quot n 16) <=? Z.max 1 (Z.abs n / 512)) && (if n <? 0 then d <? 0 else 0 <? d).

Lemma alaw_close_all : all_from (Z.to_nat 65535) (-32767) alaw_close = true.
Proof. vm_compute. reflexivity. Qed.

(** the sign is kept, and the value to within a 32nd; it is a sixteenth of the sample *)
Lemma alaw_precision n :
  -32768 < n < 32768 →
  let d := decode_alaw (encode_alaw n) in
  Z.abs (d - Z.quot n 16) ≤ Z.max 1 (Z.abs n / 512) ∧ (n < 0 ↔ d < 0).
Proof.
  intros Hn. pose proof (all_from_spec _ _ _ n alaw_close_all ltac:(lia)) as H.
  unfold alaw_close in H. apply andb_true_iff in H as [H1%Z.leb_le H2].
  split; [done|]. destruct (Z.ltb_spec n 0); [apply Z.ltb_lt in H2|apply Z.ltb_lt in H2]; lia.
Qed.

Lemma encode_alaw_byte n : byte_ok (encode_alaw n).
Proof. unfold encode_alaw. destruct (if n <? 0 then _ else _). apply u8_ok. Qed.

(** the upper of the eight segments is never used: 16 bits are cut to twelve where A-law has
    thirteen *)
Lemma alaw_segment_unused : all_from (Z.to_nat 32768) 0 (λ i, Z.shiftr (Z.lxor (encode_alaw i) 0x55) 4 <? 7) = true.
Proof. vm_compute. reflexivity. Qed.

(** ** From one telephone to the other *)

(** the packets for frames: numbered, with the time in samples *)
Fixpoint rtp_stream (ssrc seq_nr t id : Z) (frames : list (list Z)) : list (list Z) :=
  match frames with
  | [] => []
  | f :: frames' => (rtp_header ssrc seq_nr t id ++ (encode_alaw <$> f)) :: rtp_stream ssrc (u16 (seq_nr + 1)) (u32 (t + zlen f)) id frames'
  end.

Lemma even_land x : Z.even x = true → Z.land x 1 = 0.
Proof. intros H. change 1 with (Z.ones 1). rewrite Z.land_ones by lia. rewrite Zmod_even, H. done. Qed.

Section Audio.
Context (libs : sip_libs) (schema : codec_t) (ssrc : Z).
Context (Halaw : is_alaw (codec_name schema) = true) (Hsize : 0 < frame_size schema) (Heven : Z.even (frame_size schema) = true).

Lemma transmit_loop_spec fuel pre rest seq_nr t :
  Z.even (zlen rest) = true → (length rest ≤ fuel)%nat →
  ∃ frames seq_nr' t',
    transmit_loop fuel libs (codec_rate schema) schema (pre ++ rest) (λ _, false) ssrc (zlen rest) (zlen pre) seq_nr t =
      Ok (rtp_stream ssrc seq_nr t (codec_id schema) frames, seq_nr', t') ∧
    concat frames = rest ∧ Forall (λ f, 0 < zlen f ≤ frame_size schema) frames.
Proof.
  revert pre rest seq_nr t. induction fuel as [|fuel IH]; intros pre rest seq_nr t He Hf.
  - destruct rest; [|cbn in Hf; lia]. exists [], seq_nr, t. by split_and!.
  - cbn [transmit_loop]. destruct (Z.ltb_spec 0 (zlen rest)) as [Hp|Hp].
    2:{ destruct rest; [|rewrite zlen_cons in Hp; pose proof (zlen_nonneg rest); lia]. exists [], seq_nr, t. by split_and!. }
    set (n := Z.min (zlen rest) (frame_size schema)). rewrite Z.eqb_refl. cbn [negb].
    assert (Z.even n = true) as Hn by (unfold n; destruct (Z.min_spec (zlen rest) (frame_size schema)) as [[_ ->]|[_ ->]]; done).
    rewrite (even_land n Hn), Z.add_0_r.
    set (f := take (Z.to_nat n) rest). set (rest' := drop (Z.to_nat n) rest).
    assert (rest = f ++ rest') as Er by (symmetry; apply take_drop).
    assert (zlen f = n) as Elf.
    { assert (0 ≤ n ≤ zlen rest) as Hb by (unfold n; lia). clearbody n. unfold f, zlen in *. rewrite length_take. lia. }
    assert (zlen rest' = zlen rest - n) as Elr by (pose proof (zlen_app f rest') as H; rewrite <- Er in H; lia).
    assert (rd_range (pre ++ rest) (zlen pre) n = Ok f) as -> by (rewrite Er; by apply rd_range_mid). cbn [res_bind].
    unfold create_rtp_packet. rewrite Halaw.
    destruct (IH (pre ++ f) rest' (u16 (seq_nr + 1)) (u32 (t + n))) as (frames & seq' & t' & E & Ec & HF).
    { rewrite Elr, Z.even_sub, He, Hn. done. }
    { unfold zlen in *. lia. }
    rewrite <- app_assoc, <- Er, zlen_app, Elf, Elr in E. rewrite E. cbn [res_bind].
    exists (f :: frames), seq', t'. cbn [rtp_stream concat]. rewrite Elf, Ec. split_and!; [done|by symmetry|].
    constructor; [lia|done].
Qed.

Lemma record_packet ss sf h f now :
  ss_sf ss = Some sf → codec_name (ss_schema ss) = codec_name schema → zlen h = 12 →
  ∃ o, input_recv libs ss (h ++ (encode_alaw <$> f)) now =
    Ok (ss_with ss (finished ss) (Some (sf ++ (decode_alaw <$> (encode_alaw <$> f)))) true now, o).
Proof.
  intros Es En Hh. unfold input_recv. rewrite Es, En. unfold rtp_samples. rewrite Halaw.
  assert (zlen (h ++ (encode_alaw <$> f)) - 12 = zlen f) as -> by (rewrite zlen_app, Hh; unfold zlen; rewrite length_fmap; lia).
  destruct (Z.ltb_spec 0 (zlen f)) as [Hp|Hp].
  - pose proof (rd_range_mid h (encode_alaw <$> f) [] 12 (zlen f)) as H. rewrite app_nil_r in H.
    rewrite H by (done || (unfold zlen; by rewrite length_fmap)). by eexists.
  - destruct f; [by eexists|]. rewrite zlen_cons in Hp. pose proof (zlen_nonneg f). lia.
Qed.

(** the packets of a call arrive one after the other *)
Definition record_all (ss : sip_session_data) (now : Z) (packets : list (list Z)) : res sip_session_data :=
  res_fold (λ ss p, res_map fst (input_recv libs ss p now)) ss packets.

Lemma record_stream ss sf now seq_nr t id frames :
  ss_sf ss = Some sf → codec_name (ss_schema ss) = codec_name schema →
  ∃ ss', record_all ss now (rtp_stream ssrc seq_nr t id frames) = Ok ss' ∧
    ss_sf ss' = Some (sf ++ ((λ x, decode_alaw (encode_alaw x)) <$> concat frames)).
Proof.
  unfold record_all. revert ss sf seq_nr t. induction frames as [|f frames IH]; intros ss sf seq_nr t Es En.
  - exists ss. split; [done|]. by rewrite Es, app_nil_r.
  - cbn [rtp_stream res_fold]. destruct (record_packet ss sf (rtp_header ssrc seq_nr t id) f now Es En) as [o ->]; [done|].
    cbn [res_map res_bind fst].
    destruct (IH (ss_with ss (finished ss) (Some (sf ++ (decode_alaw <$> (encode_alaw <$> f)))) true now)
      (sf ++ (decode_alaw <$> (encode_alaw <$> f))) (u16 (seq_nr + 1)) (u32 (t + zlen f))) as (ss' & E & Es'); [done|done|].
    exists ss'. split; [done|]. rewrite Es'. cbn [concat]. rewrite fmap_app, <- list_fmap_compose, app_assoc. done.
Qed.
End Audio.

(** what one side of a call plays is what the other side records.  With A-law at the
    rate of the audio and frames of an even size, all samples are sent, in packets with
    consecutive sequence numbers and the time in samples, and the loop ends; the other
    side, which gets these packets, appends one sample for every sample, in order, each
    with its sign and to within a 32nd of its value (or one unit), on a scale that is
    sixteen times smaller. *)
Theorem sip_audio_recorded libs schema ssrc audio seq_nr t ss sf now :
  is_alaw (codec_name schema) = true → 0 < frame_size schema → Z.even (frame_size schema) = true →
  Z.even (zlen audio) = true → Forall (λ x, -32768 < x < 32768) audio →
  ss_sf ss = Some sf → codec_name (ss_schema ss) = codec_name schema →
  ∃ frames seq_nr' t' ss' recorded,
    transmit_audio libs (codec_rate schema) schema audio (zlen audio) (λ _, false) ssrc seq_nr t =
      Ok (rtp_stream ssrc seq_nr t (codec_id schema) frames, seq_nr', t') ∧
    concat frames = audio ∧
    record_all libs ss now (rtp_stream ssrc seq_nr t (codec_id schema) frames) = Ok ss' ∧
    ss_sf ss' = Some (sf ++ recorded) ∧
    Forall2 (λ x d, Z.abs (d - Z.quot x 16) ≤ Z.max 1 (Z.abs x / 512) ∧ (x < 0 ↔ d < 0)) audio recorded.
Proof.
  intros Ha Hs He Hn Hr Es En.
  destruct (transmit_loop_spec libs schema ssrc Ha Hs He (Z.to_nat (zlen audio)) [] audio seq_nr t)
    as (frames & seq' & t' & E & Ec & _); [done|unfold zlen; lia|].
  destruct (record_stream libs schema ssrc Ha ss sf now seq_nr t (codec_id schema) frames Es En) as (ss' & E2 & E3).
  rewrite Ec in E3. exists frames, seq', t', ss', ((λ x, decode_alaw (encode_alaw x)) <$> audio). split_and!; try done.
  apply Forall2_fmap_r. clear -Hr. induction Hr as [|x l Hx _ IH]; constructor; [by apply alaw_precision|done].
Qed.

Definition ex_codec : codec_t := Codec 8 (lit "pcma") (lit "PCMA") 8000 4.
Definition ex_libs : sip_libs := SipLibs (λ s, s) 160 (λ _ _, []) (λ _, []) (λ _ n _, n) (λ _, []).
Definition ex_recording : sip_session_data :=
  SipSession false (AnyAddr ipv4 [10; 0; 0; 1] 4 true) 5060 (AnyAddr ipv4 [10; 0; 0; 2] 4 true) 5060 [] ex_codec (Some []) false 0.
Lemma sip_audio_recorded_witness :
  ∃ frames seq_nr' t' ss' recorded,
    transmit_audio ex_libs 8000 ex_codec [1000; -1000; 32767; 0; 5; -7] 6 (λ _, false) 77 0 0 =
      Ok (rtp_stream 77 0 0 8 frames, seq_nr', t') ∧
    concat frames = [1000; -1000; 32767; 0; 5; -7] ∧
    record_all ex_libs ex_recording 9 (rtp_stream 77 0 0 8 frames) = Ok ss' ∧
    ss_sf ss' = Some ([] ++ recorded) ∧
    Forall2 (λ x d, Z.abs (d - Z.quot x 16) ≤ Z.max 1 (Z.abs x / 512) ∧ (x < 0 ↔ d < 0)) [1000; -1000; 32767; 0; 5; -7] recorded.
Proof.
  apply (sip_audio_recorded ex_libs ex_codec 77 [1000; -1000; 32767; 0; 5; -7] 0 0 ex_recording [] 9);
    [reflexivity|reflexivity|reflexivity|reflexivity| |reflexivity|reflexivity].
  repeat constructor; lia.
Defined.

(** ** Every packet is handled *)

Lemma contact_header_total to : ∃ l, contact_header to = Ok l.
Proof.
  destruct to as [t|]; [|by eexists]. cbn. destruct (rfind 60 t) as [lt|] eqn:E1; [|by eexists].
  destruct (rfind 62 t) as [gt|]; [|by eexists]. apply rfind_bound in E1. unfold substr.
  rewrite (proj2 (Z.ltb_ge _ 0)), (proj2 (Z.ltb_ge _ _)) by (unfold zlen; lia). by eexists.
Qed.

(** the lines of a response to a request: what is copied from it *)
Lemma response_headers_total request source c_size ip me :
  to_str ip = Ok me →
  ∃ via from to call_id cseq contact,
    find_header source (lit "Via") (lit ":") = Ok via ∧ find_header source (lit "From") (lit ":") = Ok from ∧
    find_header source (lit "To") (lit ":") = Ok to ∧ find_header source (lit "Call-ID") (lit ":") = Ok call_id ∧
    find_header source (lit "CSeq") (lit ":") = Ok cseq ∧ contact_header to = Ok contact ∧
    create_response_headers request false source c_size ip =
      Ok ([request] ++ push_header (lit "Via: ") via ++ push_header (lit "From: ") from ++ push_header (lit "To: ") to ++
          push_header (lit "Call-ID: ") call_id ++ push_header (lit "CSeq: ") cseq ++ [lit "Server: " ++ me] ++
          [lit "Allow: INVITE, ACK, CANCEL, OPTIONS, BYE, REFER, SUBSCRIBE, NOTIFY, INFO, PUBLISH, MESSAGE"] ++
          contact ++ [lit "User-Agent: MyIP - https://github.com/folkertvanheusden/myip"] ++
          (if 0 <? c_size then [lit "Content-Type: application/sdp"] else []) ++ [lit "Content-Length: " ++ fmt_dec c_size]).
Proof.
  intros Eme. unfold create_response_headers.
  destruct (find_header_total source (lit "Via") 58) as [via E1]. destruct (find_header_total source (lit "From") 58) as [from E2].
  destruct (find_header_total source (lit "To") 58) as [to E3]. destruct (find_header_total source (lit "Call-ID") 58) as [cid E4].
  destruct (find_header_total source (lit "CSeq") 58) as [cseq E5]. destruct (contact_header_total to) as [contact E6].
  change (lit ":") with [58]. rewrite E1, E2, E3, E4, E5. cbn [res_bind]. exists via, from, to, cid, cseq, contact. split_and!; try done.
  unfold cseq_header. destruct cseq; cbn [res_bind]; rewrite Eme, E6; done.
Qed.

(** the address of the server one registers with, and the own address, can be written *)
Definition sip_config_ok (s : sip) : Prop :=
  ∃ tgt me t,
    parse_address (match find [58] (upstream_server s) with Some i => take i (upstream_server s) | None => upstream_server s end) 4 [46] 10 = Ok tgt ∧
    (get_family tgt = ipv4 ∨ get_family tgt = ipv6) ∧ to_str tgt = Ok t ∧ to_str (myip s) = Ok me.

Lemma send_REGISTER_total s call_id auth r : sip_config_ok s → ∃ o, send_REGISTER s call_id auth r = Ok o.
Proof.
  intros (tgt & me & t & Ep & Hf & Et & Em). unfold send_REGISTER.
  destruct (find [58] (upstream_server s)) as [i|]; rewrite Ep; cbn [res_bind];
    (destruct Hf as [Hf|Hf]; rewrite Hf; cbn [assert_ orb]; rewrite ?bool_decide_eq_true_2 by done);
    cbn [res_bind assert_ orb]; rewrite ?orb_true_r; cbn [res_bind assert_]; rewrite Et, Em; by eexists.
Qed.

Lemma replace_char_total t c by_what : (c ∉ by_what) → ∃ r, replace t [c] by_what = Ok r.
Proof.
  intros Hc. unfold replace. rewrite replace_loop_char; [by eexists|done|].
  unfold occurrences. pose proof (length_filter (c =.) t). lia.
Qed.

Lemma unquoted_total ps name : ∃ r, unquoted ps name = Ok r.
Proof.
  unfold unquoted. change (lit "=") with [61]. destruct (find_header_total ps name 61) as [[v|] ->]; cbn [res_bind]; [|by eexists].
  apply replace_char_total. set_solver.
Qed.

Lemma reply_to_UNAUTHORIZED_total libs s src headers r t :
  sip_config_ok s → to_str src = Ok t → ∃ o, reply_to_UNAUTHORIZED libs s src headers r = Ok o.
Proof.
  intros Hc Et. unfold reply_to_UNAUTHORIZED. change (lit ":") with [58]. change (lit ",") with [44]. change (lit "=") with [61].
  destruct (find_header_total headers (lit "WWW-Authenticate") 58) as [[wa|] ->]; cbn [res_bind]; [|by eexists].
  destruct (find_header_total headers (lit "Call-ID") 58) as [cid ->]; cbn [res_bind].
  destruct (replace_char_total wa 44 (lit " ")) as [work ->]; [by vm_compute; set_solver|]. cbn [res_bind].
  destruct (split_total work [32]) as [ps ->]; [done|]. cbn [res_bind].
  destruct (find_header_total ps (lit "algorithm") 61) as [alg ->]. cbn [res_bind].
  destruct (unquoted_total ps (lit "realm")) as [realm ->]. destruct (unquoted_total ps (lit "nonce")) as [nonce ->]. cbn [res_bind].
  rewrite Et. cbn [res_bind]. by apply send_REGISTER_total.
Qed.

Lemma sdp_response_total headers content ip t : to_str ip = Ok t → ∃ out, sdp_response headers content ip = Ok out.
Proof.
  intros Et. unfold sdp_response.
  destruct (response_headers_total (lit "SIP/2.0 200 OK") headers (zlen (merge content line_end)) ip t Et) as (? & ? & ? & ? & ? & ? & _ & _ & _ & _ & _ & _ & ->).
  by eexists.
Qed.

Lemma sdp_start_total ip t : to_str ip = Ok t → ∃ l, sdp_start ip = Ok l.
Proof. intros Et. unfold sdp_start. rewrite Et. by eexists. Qed.

Lemma reply_to_INVITE_total libs s src sp dst dp headers body rp th now t :
  to_str dst = Ok t → ∃ s' o, reply_to_INVITE libs s src sp dst dp headers body rp th now = Ok (s', o).
Proof.
  intros Et. unfold reply_to_INVITE. destruct (sdp_start_total dst t Et) as [start ->]. cbn [res_bind].
  change (lit "=") with [61]. destruct (find_header_total body (lit "m") 61) as [[m|] ->]; cbn [res_bind]; [|by do 2 eexists].
  destruct (split_total m [32]) as [mp ->]; [done|]. cbn [res_bind]. destruct (codec_id _ =? 255); [by do 2 eexists|].
  match goal with |- context [sdp_response headers ?c dst] => destruct (sdp_response_total headers c dst t Et) as [out ->] end.
  by do 2 eexists.
Qed.

(** The handler of SIP packets returns for every packet, whatever its bytes, with one
    exception: a packet that starts with an empty line, of which the first header line is
    asked for although there is none; the exception it throws is caught by nobody. *)
Theorem sip_input_safe libs s src_ip src_port dst_ip dst_port pl now recv_port th r src dst :
  sip_config_ok s → to_str src_ip = Ok src → to_str dst_ip = Ok dst →
  if is_prefix blank_line pl
  then sip_input libs s src_ip src_port dst_ip dst_port pl now recv_port th r = Err out_of_range
  else ∃ s' o, sip_input libs s src_ip src_port dst_ip dst_port pl now recv_port th r = Ok (s', o).
Proof.
  intros Hc Es Ed. destruct pl as [|x pl]; [by do 2 eexists|]. cbn [sip_input].
  destruct (split_head (x :: pl) blank_line) as [rest Eh]; [done|done|]. rewrite Eh. cbn [res_bind str_at lookup list_lookup].
  destruct (is_prefix blank_line (x :: pl)) eqn:Ep.
  { assert (find blank_line (x :: pl) = Some O) as -> by (unfold find; by rewrite Ep). done. }
  set (header := match find blank_line (x :: pl) with Some n => take n (x :: pl) | None => x :: pl end) in *.
  assert (header ≠ []) as Hne.
  { unfold header. destruct (find blank_line (x :: pl)) as [n|] eqn:E; [|done]. apply find_not_prefix in E; [|done]. by destruct n; [lia|]. }
  destruct (split_head header line_end) as [lines El]; [done|done|]. rewrite El. cbn [res_bind str_at lookup list_lookup].
  set (line0 := match find line_end header with Some n => take n header | None => header end).
  destruct (split_total line0 [32]) as [parts ->]; [done|]. cbn [res_bind].
  destruct (request_is parts (lit "OPTIONS")).
  { unfold reply_to_OPTIONS. destruct (sdp_start_total dst_ip dst Ed) as [start ->]. cbn [res_bind].
    match goal with |- context [sdp_response ?h ?c dst_ip] => destruct (sdp_response_total h c dst_ip dst Ed) as [out ->] end. by do 2 eexists. }
  destruct (request_is parts (lit "INVITE") && _) eqn:Ei.
  { apply andb_true_iff in Ei as [_ Hl%bool_decide_eq_true_1]. destruct rest as [|body [|]]; [done| |done]. cbn [res_bind str_at lookup list_lookup].
    destruct (split_total body line_end) as [bl ->]; [done|]. cbn [res_bind].
    destruct (reply_to_INVITE_total libs s src_ip src_port dst_ip dst_port (line0 :: lines) bl recv_port th now dst Ed) as (s' & o & ->). by do 2 eexists. }
  destruct (request_is parts (lit "BYE")).
  { unfold send_ACK. destruct (response_headers_total (lit "SIP/2.0 200 OK") (line0 :: lines) 0 src_ip src Es) as (? & ? & ? & ? & ? & ? & _ & _ & _ & _ & _ & _ & ->).
    by do 2 eexists. }
  destruct (is_unauthorized parts); [|by do 2 eexists]. destruct (1000000 <? _); [|by do 2 eexists].
  destruct (reply_to_UNAUTHORIZED_total libs s src_ip (line0 :: lines) r src Hc Es) as [o ->]. by do 2 eexists.
Qed.

Lemma contact_header_lines to l :
  (∀ v, to = Some v → crlf_free v) → contact_header to = Ok l →
  l = [] ∨ ∃ v, l = [named (lit "Contact", v)] ∧ crlf_free v.
Proof.
  intros Ht. unfold contact_header. destruct to as [t|]; [|intros [= <-]; by left].
  destruct (rfind 60 t) as [lt|]; [|intros [= <-]; by left]. destruct (rfind 62 t) as [gt|]; [|intros [= <-]; by left].
  unfold substr. destruct (_ || _); [done|]. cbn [res_bind]. intros [= <-]. right. eexists. split; [done|].
  by apply crlf_free_c_str, crlf_free_take, crlf_free_drop, Ht.
Qed.

(** the fields of a response *)
Definition opt_field (name : str) (v : option str) : list (str * str) := match v with Some x => [(name, x)] | None => [] end.
Definition response_fields (via from to call_id cseq : option str) (me : str) (contact : option str) (with_body : bool) (size : str) : list (str * str) :=
  opt_field (lit "Via") via ++ opt_field (lit "From") from ++ opt_field (lit "To") to ++ opt_field (lit "Call-ID") call_id ++
  opt_field (lit "CSeq") cseq ++ [(lit "Server", me)] ++
  [(lit "Allow", lit "INVITE, ACK, CANCEL, OPTIONS, BYE, REFER, SUBSCRIBE, NOTIFY, INFO, PUBLISH, MESSAGE")] ++
  opt_field (lit "Contact") contact ++ [(lit "User-Agent", lit "MyIP - https://github.com/folkertvanheusden/myip")] ++
  (if with_body then [(lit "Content-Type", lit "application/sdp")] else []) ++ [(lit "Content-Length", size)].

Lemma fields_named via from to call_id cseq me contact with_body size :
  Forall (λ f, 58 ∉ f.1) (response_fields via from to call_id cseq me contact with_body size).
Proof.
  unfold response_fields.
  assert (∀ name v, (58 ∉ name) → Forall (λ f : str * str, 58 ∉ f.1) (opt_field name v)) as H
    by (intros name v Hn; destruct v; repeat constructor; done).
  repeat apply Forall_app_2; try (apply H; no_char); try (destruct with_body); try (constructor; [cbn [fst]; no_char|]); try apply Forall_nil_2.
Qed.

(** what a reader of the response finds *)
Lemma response_values via from to call_id cseq me contact with_body size :
  let fs := response_fields via from to call_id cseq me contact with_body size in
  let val v := drop_spaces <$> v in
  foldl (field_value (lit "Via")) None fs = val via ∧ foldl (field_value (lit "From")) None fs = val from ∧
  foldl (field_value (lit "To")) None fs = val to ∧ foldl (field_value (lit "Call-ID")) None fs = val call_id ∧
  foldl (field_value (lit "CSeq")) None fs = val cseq ∧
  foldl (field_value (lit "Content-Length")) None fs = Some (drop_spaces size).
Proof.
  cbv zeta. unfold response_fields. destruct with_body, via, from, to, call_id, cseq, contact; by vm_compute.
Qed.

(** the lines of a response, as fields *)
Lemma response_lines request source c_size ip me :
  Forall crlf_free source → to_str ip = Ok me →
  ∃ via from to call_id cseq contact,
    find_header source (lit "Via") (lit ":") = Ok via ∧ find_header source (lit "From") (lit ":") = Ok from ∧
    find_header source (lit "To") (lit ":") = Ok to ∧ find_header source (lit "Call-ID") (lit ":") = Ok call_id ∧
    find_header source (lit "CSeq") (lit ":") = Ok cseq ∧ (∀ v, contact = Some v → crlf_free v) ∧
    create_response_headers request false source c_size ip =
      Ok (request :: (named <$> response_fields via from to call_id cseq me contact (0 <? c_size) (fmt_dec c_size))).
Proof.
  intros HF Eme. destruct (response_headers_total request source c_size ip me Eme)
    as (via & from & to & cid & cseq & contact & E1 & E2 & E3 & E4 & E5 & E6 & E).
  destruct (contact_header_lines to contact) as [->|(v & -> & Hv)]; [|done| |].
  { intros v ->. by destruct (find_header_value source (lit "To") 58 v). }
  - exists via, from, to, cid, cseq, None. split_and!; try done. rewrite E. clear.
    unfold response_fields. destruct via, from, to, cid, cseq, (0 <? c_size); reflexivity.
  - exists via, from, to, cid, cseq, (Some v). split_and!; try done; [by intros ? [= <-]|]. rewrite E. clear.
    unfold response_fields. destruct via, from, to, cid, cseq, (0 <? c_size); reflexivity.
Qed.

Lemma response_lines_ok via from to call_id cseq me contact b size :
  (∀ v, v ∈ [via; from; to; call_id; cseq; contact] → ∀ x, v = Some x → crlf_free x) → (13 ∉ me) → (13 ∉ size) →
  Forall (λ l, crlf_free l ∧ l ≠ []) (named <$> response_fields via from to call_id cseq me contact b size).
Proof.
  intros Hv Hme Hsize.
  assert (∀ name v, (13 ∉ name) → v ∈ [via; from; to; call_id; cseq; contact] →
    Forall (λ l, crlf_free l ∧ l ≠ []) (named <$> opt_field name v)) as Ho.
  { intros name v Hnm Hin. destruct v as [x|]; [|constructor]. constructor; [|constructor]. apply named_line; [done|]. by apply (Hv _ Hin). }
  assert (∀ name v, (13 ∉ name) → (13 ∉ v) → Forall (λ l, crlf_free l ∧ l ≠ []) (named <$> [(name, v)])) as H1.
  { intros name v Hnm Hv'. constructor; [|constructor]. apply named_line; [done|by apply no_cr_crlf_free]. }
  unfold response_fields. rewrite !fmap_app.
  repeat apply Forall_app_2; try (apply Ho; [no_char|set_solver]); try (apply H1; [no_char|done || no_char]).
  destruct b; [apply H1; no_char|constructor].
Qed.

(** what a reader finds in such lines *)
Lemma response_read request fs key :
  (58 ∉ request) → Forall (λ f, 58 ∉ f.1) fs →
  find_header (request :: (named <$> fs)) key (lit ":") = Ok (foldl (field_value key) None fs).
Proof.
  intros Hr Hf. unfold find_header. cbn [find_header_loop]. change (lit ":") with [58].
  rewrite find_header_line_none by done. cbn [res_bind]. by apply find_header_fields.
Qed.

Lemma select_schema_id libs body rate : (codec_id (select_schema libs body rate) =? 255) = false.
Proof.
  unfold select_schema. cbn [codec_id]. destruct (codec_id (foldl _ _ body) =? 255) eqn:E; [done|]. exact E.
Qed.

Definition echoed_names : list str := [lit "Via"; lit "From"; lit "To"; lit "Call-ID"; lit "CSeq"].

(** C40: an INVITE with a description that has a line for the media is answered and starts a
    call: a session with the headers of the request is filed under its thread, and the
    sender gets a message of which the first line says 200 OK; read by the same rules, its
    header ends at the first blank line, its fields Via, From, To, Call-ID and CSeq are those
    of the request, and Content-Length is the size of the description behind it. *)
Theorem sip_invite_answered libs s src_ip src_port dst_ip dst_port uri hs bl now recv_port th r dst m :
  let hl := (lit "INVITE " ++ uri ++ lit " SIP/2.0") :: hs in
  Forall (λ l, crlf_free l ∧ l ≠ []) hl → Forall (λ l, crlf_free l ∧ l ≠ []) bl → (32 ∉ uri) → uri ≠ [] →
  find_header bl (lit "m") (lit "=") = Ok (Some m) → to_str dst_ip = Ok dst → (13 ∉ dst) →
  ∃ out hd content lines s' ss tgt_port,
    sip_input libs s src_ip src_port dst_ip dst_port (merge hl line_end ++ line_end ++ merge bl line_end) now recv_port th r =
      Ok (s', [sip_count_request; sip_send src_ip src_port dst_ip dst_port out; sip_start src_ip tgt_port dst_ip recv_port th]) ∧
    sip_sessions s' = <[th := ss]> (sip_sessions s) ∧ finished ss = false ∧ ss_headers ss = hl ∧
    out = hd ++ blank_line ++ content ∧ find blank_line out = Some (length hd) ∧
    split hd line_end = Ok lines ∧ head lines = Some (lit "SIP/2.0 200 OK") ∧
    find_header lines (lit "Content-Length") (lit ":") = Ok (Some (fmt_dec (zlen content))) ∧
    Forall (λ name, find_header lines name (lit ":") = find_header hl name (lit ":")) echoed_names.
Proof.
  intros hl Hhl Hbl Hu Hue Hm Ed Hcr.
  assert (bl ≠ []) as Hbne by (intros ->; done).
  assert (merge bl line_end ≠ []) as Hmb by (destruct bl as [|l bl']; [done|]; intros [_ [? _]%app_nil]%app_nil; done).
  unfold sip_input. destruct (merge hl line_end ++ line_end ++ merge bl line_end) as [|x pl] eqn:Epl.
  { apply app_nil in Epl as [_ Epl]. done. }
  rewrite <- Epl. rewrite split_message by (done || by apply find_blank_none). cbn [res_bind str_at lookup list_lookup].
  rewrite split_lines by done. cbn [res_bind str_at lookup list_lookup hl].
  change (lit "INVITE " ++ uri ++ lit " SIP/2.0") with (lit "INVITE" ++ [32] ++ uri ++ [32] ++ lit "SIP/2.0").
  rewrite split_request by (done || no_char). cbn [res_bind].
  change (request_is [lit "INVITE"; uri; lit "SIP/2.0"] (lit "OPTIONS")) with false.
  change (request_is [lit "INVITE"; uri; lit "SIP/2.0"] (lit "INVITE")) with true. cbn [andb length].
  rewrite bool_decide_eq_true_2 by done. rewrite split_merged by done. cbn [res_bind].
  change (lit "INVITE" ++ [32] ++ uri ++ [32] ++ lit "SIP/2.0") with (lit "INVITE " ++ uri ++ lit " SIP/2.0"). fold hl.
  unfold reply_to_INVITE, sdp_start. rewrite Ed. cbn [res_bind].
  assert (find_header (bl ++ [[]]) (lit "m") (lit "=") = Ok (Some m)) as ->.
  { unfold find_header in *. rewrite find_header_loop_app, Hm. done. }
  cbn [res_bind]. destruct (split_total m [32]) as [mp Emp]; [done|]. rewrite Emp. cbn [res_bind]. rewrite select_schema_id.
  match goal with |- context [sdp_response hl ?c dst_ip] => set (content := c) end.
  unfold sdp_response. destruct (response_lines (lit "SIP/2.0 200 OK") hl (zlen (merge content line_end)) dst_ip dst)
    as (via & from & to & cid & cseq & contact & E1 & E2 & E3 & E4 & E5 & Hc & ->);
    [eapply Forall_impl; [exact Hhl|]; by intros ? []|done|].
  cbn [res_bind]. set (fs := response_fields _ _ _ _ _ _ _ _ _).
  assert (Forall (λ l, crlf_free l ∧ l ≠ []) (lit "SIP/2.0 200 OK" :: (named <$> fs))) as Hok.
  { constructor; [split; [by vm_compute|done]|]. assert (Forall crlf_free hl) as Hcf by (eapply Forall_impl; [exact Hhl|]; by intros ? []).
    apply response_lines_ok; [|done|apply digits_no_cr; [lia|apply not_elem_of_nil]].
    change (lit ":") with [58] in *. intros v Hv y ->.
    repeat (apply elem_of_cons in Hv as [<-|Hv]; [first [by eapply find_header_value|by apply Hc]|]). by apply not_elem_of_nil in Hv. }
  exists (merge (lit "SIP/2.0 200 OK" :: (named <$> fs)) line_end ++ line_end ++ merge content line_end),
    (join line_end (lit "SIP/2.0 200 OK" :: (named <$> fs))), (merge content line_end), (lit "SIP/2.0 200 OK" :: (named <$> fs)).
  do 3 eexists. split_and!; [reflexivity|reflexivity|reflexivity|reflexivity| | | |reflexivity| |].
  - rewrite merge_join by done. by rewrite <- app_assoc.
  - by apply find_blank_line.
  - by apply split_lines.
  - rewrite response_read; [|no_char|apply fields_named].
    destruct (response_values via from to cid cseq dst contact (0 <? zlen (merge content line_end)) (fmt_dec (zlen (merge content line_end))))
      as (_ & _ & _ & _ & _ & V). unfold fs. by rewrite V, drop_spaces_fmt_dec.
  - destruct (response_values via from to cid cseq dst contact (0 <? zlen (merge content line_end)) (fmt_dec (zlen (merge content line_end))))
      as (V1 & V2 & V3 & V4 & V5 & _). fold fs in V1, V2, V3, V4, V5.
    assert (∀ v name, find_header hl name (lit ":") = Ok v → drop_spaces <$> v = v) as Hid.
    { intros [v|] name H; [|done]. cbn. f_equal. eapply (find_header_value hl name 58); [eapply Forall_impl; [exact Hhl|]; by intros ? []|done]. }
    repeat constructor; (rewrite response_read; [|no_char|apply fields_named]); rewrite ?V1, ?V2, ?V3, ?V4, ?V5, ?E1, ?E2, ?E3, ?E4, ?E5; f_equal; by eapply Hid.
Qed.

(** ** Examples and what goes wrong *)

Definition ex_me : any_addr := AnyAddr ipv4 [10; 0; 0; 2] 4 true.
Definition ex_peer : any_addr := AnyAddr ipv4 [10; 0; 0; 1] 4 true.
Definition ex_sip : sip := Sip 8000 4 [1; 2; 3; 4] (lit "10.0.0.9") (lit "me") (lit "secret") ex_me 5060 0 ∅.

Lemma ex_sip_config : sip_config_ok ex_sip.
Proof.
  eexists _, _, _. split_and!; [vm_compute; reflexivity|by left|vm_compute; reflexivity|vm_compute; reflexivity].
Qed.

Definition ex_headers : list str := [lit "Via: SIP/2.0/UDP 10.0.0.1"; lit "From: <sip:a@b>"; lit "To: <sip:c@d>"; lit "Call-ID: 42"; lit "CSeq: 1 INVITE"].
Definition ex_body : list str := [lit "v=0"; lit "m=audio 4000 RTP/AVP 8"; lit "a=rtpmap:8 PCMA/8000"].

Lemma sip_input_safe_witness :
  ∃ s' o, sip_input ex_libs ex_sip ex_peer 5060 ex_me 5060 (lit "OPTIONS sip:x SIP/2.0") 0 0 0 0 = Ok (s', o).
Proof.
  exact (sip_input_safe ex_libs ex_sip ex_peer 5060 ex_me 5060 (lit "OPTIONS sip:x SIP/2.0") 0 0 0 0 (lit "10.0.0.1") (lit "10.0.0.2")
    ex_sip_config ltac:(vm_compute; reflexivity) ltac:(vm_compute; reflexivity)).
Defined.

Lemma sip_invite_answered_witness :
  ∃ out hd content lines s' ss tgt_port,
    sip_input ex_libs ex_sip ex_peer 5060 ex_me 5060
      (merge ((lit "INVITE " ++ lit "sip:c@d" ++ lit " SIP/2.0") :: ex_headers) line_end ++ line_end ++ merge ex_body line_end) 0 2000 1 0 =
      Ok (s', [sip_count_request; sip_send ex_peer 5060 ex_me 5060 out; sip_start ex_peer tgt_port ex_me 2000 1]) ∧
    sip_sessions s' = <[1 := ss]> ∅ ∧ finished ss = false ∧ ss_headers ss = (lit "INVITE " ++ lit "sip:c@d" ++ lit " SIP/2.0") :: ex_headers ∧
    out = hd ++ blank_line ++ content ∧ find blank_line out = Some (length hd) ∧
    split hd line_end = Ok lines ∧ head lines = Some (lit "SIP/2.0 200 OK") ∧
    find_header lines (lit "Content-Length") (lit ":") = Ok (Some (fmt_dec (zlen content))) ∧
    Forall (λ name, find_header lines name (lit ":") =
      find_header ((lit "INVITE " ++ lit "sip:c@d" ++ lit " SIP/2.0") :: ex_headers) name (lit ":")) echoed_names.
Proof.
  apply (sip_invite_answered ex_libs ex_sip ex_peer 5060 ex_me 5060 (lit "sip:c@d") ex_headers ex_body 0 2000 1 0 (lit "10.0.0.2") (lit "audio 4000 RTP/AVP 8")).
  - repeat constructor; (vm_compute; reflexivity) || discriminate.
  - repeat constructor; (vm_compute; reflexivity) || discriminate.
  - no_char.
  - discriminate.
  - vm_compute. reflexivity.
  - vm_compute. reflexivity.
  - no_char.
Defined.

(** a packet of four bytes ends the program *)
Lemma blank_packet_throws libs s a ap b bp now rp th r :
  sip_input libs s a ap b bp blank_line now rp th r = Err out_of_range.
Proof. done. Qed.

(** the samples of L16 are sent with the high byte first and recorded with the low byte first *)
Lemma l16_swapped libs ssrc seq_nr t x :
  let c := Codec 11 (lit "l16") (lit "L16") 8000 160 in
  -32768 ≤ x < 32768 →
  ∃ p, create_rtp_packet libs ssrc seq_nr t c [x] = Some p ∧
    rtp_samples libs (lit "l16") p = Ok [s16 (u8 x * 256 + u8 (Z.shiftr x 8))].
Proof. intros c Hx. eexists. split; [reflexivity|]. reflexivity. Qed.

(** a codec with the rate -1 is accepted: its frames have no samples *)
Lemma negative_rate_picked :
  let c := select_schema ex_libs [lit "a=rtpmap:0 l16/-1"] 8000 in codec_rate c = -1 ∧ frame_size c = 0.
Proof. by vm_compute. Qed.

(** then the loop that sends the message sends packets for ever *)
Lemma empty_frames_flood fuel libs schema audio ssrc n offset seq_nr t :
  frame_size schema = 0 → 0 < n → codec_rate schema ≠ 8000 → (∀ i, resampled_n libs 8000 0 i = 0) → 0 ≤ offset ≤ zlen audio →
  transmit_loop fuel libs 8000 schema audio (λ _, false) ssrc n offset seq_nr t = Err out_of_fuel.
Proof.
  intros Hf Hn Hr Hz Ho. revert seq_nr t. induction fuel as [|fuel IH]; intros seq_nr t; cbn [transmit_loop];
    rewrite (proj2 (Z.ltb_lt 0 n)) by done; [done|].
  rewrite Hf, Z.min_r by lia. rewrite (proj2 (Z.eqb_neq _ _)) by done. cbn [negb]. rewrite Hz. change (0 + Z.land 0 1) with 0.
  rewrite rd_range_Ok by lia. cbn [res_bind]. rewrite Z.sub_0_r, Z.add_0_r, IH. done.
Qed.

(** frames of an odd size overlap, and the last one of the beep is read beyond its end *)
Lemma odd_frame_overrun :
  transmit_audio ex_libs 22050 (Codec 8 (lit "pcma") (lit "PCMA") 22050 3) [1; 2; 3] 3 (λ _, false) 0 0 0 = Err bad_access.
Proof. by vm_compute. Qed.

(** audio at another rate is resampled, but the original samples are sent, as many as there
    are resampled ones: more than there are at the end *)
Lemma resampled_overrun :
  transmit_audio (SipLibs (λ s, s) 160 (λ _ _, []) (λ _, []) (λ _ n _, 2 * n) (λ _, [])) 8000
    (Codec 8 (lit "pcma") (lit "PCMA") 16000 4) [1; 2; 3; 4] 4 (λ _, false) 0 0 0 = Err bad_access.
Proof. by vm_compute. Qed.

(** the answer to a BYE has no blank line at the end of its header *)
Lemma bye_answer_unfinished :
  ∃ out, send_ACK ex_peer 5060 ex_me 5060 ex_headers = Ok [sip_send ex_peer 5060 ex_me 5060 out] ∧ find blank_line out = None.
Proof. eexists. split; [reflexivity|]. by vm_compute. Qed.
