(* ===== verification/Http.v ===== *)
(** * The HTTP server (src/http.cpp, the session of src/types.h)

    Requests are read until their first blank line, answered, and the session ends.  Files,
    the output of a CGI program and the statistics are what the environment gives; a file
    is what [file_exists], [fopen] and [fread] say about its path.  The thread of a session
    is cut at its waits; data arrives in between.  TLS is a sequence of texts that
    [br_sslio_read] returns.

    Shown: a request, in whatever pieces it arrives, is answered once and by the file its
    path names, with its exact length in the header; files are never named by a path with
    two dots in the address; every request is answered or counted as an error.  Lemmas show
    what the name of the host and the output of CGI programs do. *)
From stdpp Require Import strings.
From S2P Require Import Prelude Str AnyAddr Lines.
Open Scope Z_scope.

(** ** The environment of a CGI program *)

(** [toupper] in the "C" locale *)
Definition toupper (c : Z) : Z := if (97 <=? c) && (c <=? 122) then c - 32 else c.

Definition env_key (key : str) : str := lit "HTTP_" ++ ((λ c, if c =? 45 then 95 else toupper c) <$> key).

Fixpoint request_lines_to_env (lines : list str) : res (list str) :=
  match lines with
  | [] => Ok []
  | line :: lines' =>
      let* kv := split line [58] in
      let* out := request_lines_to_env lines' in
      match kv with
      | [k; v] => Ok ((env_key k ++ [61] ++ drop_spaces v) :: out)
      | _ => Ok out
      end
  end.
Definition request_to_env (request : str) : res (list str) :=
  let* lines := split request line_end in
  request_lines_to_env lines.

(** a [read] from the pipe: the end (or [EIO]), another error, or text of at most 4096 bytes *)
Inductive pipe_read := pipe_end | pipe_error | pipe_text (bytes : list Z).

(** [out += buffer] appends the text up to its first NUL *)
Fixpoint read_pipe (reads : list pipe_read) (out : str) : option str :=
  match reads with
  | [] | pipe_end :: _ => Some out
  | pipe_error :: _ => None
  | pipe_text b :: reads' => read_pipe reads' (out ++ c_str b)
  end.

(** the command, its environment and what comes of it *)
Definition invoke_cgi (bin path request : str) (pipe : str → list str → list pipe_read) : res (option str) :=
  let* env := request_to_env request in
  Ok (read_pipe (pipe (bin ++ lit " -e " ++ path) env) []).

(** ** Responses *)

Record http_private_data := HttpPd { web_root : str; php_cgi : str }.

(** what is outside of the program *)
Record http_world := HttpWorld {
  file_exists : str → option Z;              (* the size *)
  file_read : str → Z → option (list Z);     (* at most so many bytes; [None]: it cannot be opened *)
  stats_json : str;
  cgi_pipe : str → list str → list pipe_read;
}.

Inductive http_count := http_r_200 | http_r_404 | http_r_500 | http_r_err.

(** the end of the header of a CGI program: two of each line end, without other text between *)
Fixpoint cgi_header_end (text : str) (i cr lf : Z) : option Z :=
  match text with
  | [] => None
  | c :: text' =>
      let '(cr, lf) := if c =? 13 then (cr + 1, lf) else if c =? 10 then (cr, lf + 1) else (0, 0) in
      if (2 <=? cr) && (2 <=? lf) then Some i else cgi_header_end text' (i + 1) cr lf
  end.

(** status, header and content before the header is completed *)
Definition cgi_response (reply : option str) : Z * str * list Z :=
  match reply with
  | None => (500, [], [])
  | Some text =>
      match cgi_header_end text 0 0 0 with
      | Some i => (200, take (Z.to_nat i) text, drop (Z.to_nat i) text)
      | None => (500, [], [])
      end
  end.

Definition file_response (file_size : Z) (content : option (list Z)) : Z * list Z :=
  match content with
  | Some c => if zlen c =? file_size then (200, c) else (500, lit "Cannot read file.")
  | None => (500, lit "File disappeared before it could be read.")
  end.

Definition mime_of (url : str) : str :=
  let ext := match rfind 46 url with Some dot => drop dot url | None => [] end in
  if bool_decide (ext = lit ".html") then lit "text/html"
  else if bool_decide (ext = lit ".ico") then lit "image/x-icon"
  else lit "text/plain".

Definition request_path (pd : http_private_data) (host : option str) (url : str) : str :=
  web_root pd ++ lit "/" ++ default (lit "default") host ++ lit "/" ++ url.

Definition ok_header (mime : str) (size : Z) : str :=
  merge [lit "HTTP/1.0 200 OK"; lit "Server: MyIP"; lit "Content-Type: " ++ mime; lit "Content-Length: " ++ fmt_dec size;
         lit "Connection: close"] line_end ++ line_end.
Definition cgi_header (header : str) : str :=
  merge [lit "HTTP/1.0 200 OK"; lit "Server: MyIP"; lit "Connection: close"] line_end ++ c_str header ++ line_end.
Definition error_header (rc : Z) : str :=
  merge [lit "HTTP/1.0 " ++ fmt_dec rc ++ lit " Something is wrong"; lit "Server: MyIP"; lit "Connection: close"] line_end ++ line_end.

(** status, header, content and type for an address *)
Definition answer_url (w : http_world) (pd : http_private_data) (host : option str) (url request : str) : res (Z * str * list Z * str) :=
  let path := request_path pd host url in
  match find (lit "..") url with
  | Some _ => Ok (500, [], lit "Server error.", mime_of url)
  | None =>
      if bool_decide (url = lit "/stats.json") then Ok (200, [], stats_json w, lit "application/json")
      else
        match file_exists w path with
        | None => Ok (404, [], lit "File does not exist.", mime_of url)
        | Some file_size =>
            match find (lit ".php") url with
            | Some _ =>
                if bool_decide (php_cgi pd = []) then
                  let '(rc, content) := file_response file_size (file_read w path file_size) in Ok (rc, [], content, mime_of url)
                else
                  let* reply := invoke_cgi (php_cgi pd) path request (cgi_pipe w) in
                  let '(rc, header, content) := cgi_response reply in
                  Ok (rc, header, content, mime_of url)
            | None =>
                let '(rc, content) := file_response file_size (file_read w path file_size) in Ok (rc, [], content, mime_of url)
            end
        end
  end.

(** the header and the counter *)
Definition finish_response (rc : Z) (header content mime : str) : str * list http_count :=
  if rc =? 200 then
    match header with
    | [] => (ok_header mime (zlen content), [http_r_200])
    | _ => (cgi_header header, [])
    end
  else (error_header rc, if rc =? 404 then [http_r_404] else if rc =? 500 then [http_r_500] else []).

(** the line in the log is left out *)
Definition generate_response (w : http_world) (pd : http_private_data) (request : str) : res (option (str * list Z) * list http_count) :=
  match find blank_line request with
  | None => Ok (None, [http_r_err])
  | Some end_marker =>
      let* lines := split (take end_marker request) line_end in
      match lines with
      | [] => Ok (None, [http_r_err])
      | line0 :: _ =>
          let* parts := split line0 [32] in
          match parts with
          | _ :: url :: _ :: _ =>
              let* host := find_header lines (lit "Host") (lit ":") in
              let url := if bool_decide (url = []) || bool_decide (url = lit "/") then lit "index.html" else url in
              let* '(rc, header, content, mime) := answer_url w pd host url request in
              let '(header, counts) := finish_response rc header content mime in
              Ok (Some (header, content), counts)
          | _ => Ok (None, [http_r_err])
          end
      end
  end.

(** ** Sessions *)

(** [req_data] with its [req_len] bytes; [http_done]: the thread returned *)
Record http_session_data := HttpSession { http_req : list Z; http_terminate : bool; http_done : bool }.

Definition http_new_session : http_session_data := HttpSession [] false false.
Definition http_new_data (hs : http_session_data) (data : list Z) : http_session_data :=
  match data with [] => hs | _ => HttpSession (http_req hs ++ data) (http_terminate hs) (http_done hs) end.
(** [http_close_session_2] until it waits for the thread *)
Definition http_close_begin (hs : http_session_data) : http_session_data := HttpSession (http_req hs) true (http_done hs).

Inductive http_out := http_send (bytes : list Z) | http_end_session | http_counted (c : http_count).

Definition http_finish (hs : http_session_data) : http_session_data := HttpSession (http_req hs) (http_terminate hs) true.

(** one round of [http_thread]; [sent]: sending the header worked.  [strstr] stops at the first
    NUL, and so does the request *)
Definition http_thread (w : http_world) (pd : http_private_data) (sent : bool) (hs : http_session_data) : res (http_session_data * list http_out) :=
  if http_done hs then Ok (hs, [])
  else if http_terminate hs then Ok (http_finish hs, [])
  else
    match find blank_line (c_str (http_req hs)) with
    | None => Ok (hs, [])
    | Some _ =>
        let* '(rc, counts) := generate_response w pd (c_str (http_req hs)) in
        let sends :=
          match rc with
          | Some (header, content) =>
              http_send header :: (if sent then match content with [] => [] | _ => [http_send content] end else [])
          | None => []
          end in
        Ok (http_finish hs, (http_counted <$> counts) ++ sends ++ [http_end_session])
    end.

(** [sock_read]: some bytes for TLS, or none yet; [None] is -1 *)
Definition sock_read (hs : http_session_data) (is_terminating : bool) (len : Z) : option (list Z) * http_session_data :=
  if is_terminating then (None, hs)
  else
    match http_req hs with
    | [] => if http_terminate hs then (None, hs) else (Some [], hs)
    | req =>
        let n_todo := Z.min len (zlen req) in
        (Some (take (Z.to_nat n_todo) req), HttpSession (drop (Z.to_nat n_todo) req) (http_terminate hs) (http_done hs))
    end.

(** the loop of [https_thread]: what [br_sslio_read] returns, [None] for an error; the result is
    what is written, and whether the session is closed orderly *)
Fixpoint https_loop (w : http_world) (pd : http_private_data) (reads : list (option (list Z))) (headers : str)
  : res (option (str * list Z) * list http_count * bool) :=
  match reads with
  | [] => Ok (None, [], true)
  | None :: _ => Ok (None, [], false)
  | Some buffer :: reads' =>
      let headers := headers ++ c_str buffer in
      match find blank_line headers with
      | None => https_loop w pd reads' headers
      | Some _ =>
          let* '(rc, counts) := generate_response w pd headers in
          Ok (rc, counts, match rc with Some _ => true | None => false end)
      end
  end.

(** data in pieces, and the thread looks after each of them *)
Fixpoint http_feed (w : http_world) (pd : http_private_data) (hs : http_session_data) (pieces : list (list Z)) : res (http_session_data * list http_out) :=
  match pieces with
  | [] => Ok (hs, [])
  | d :: pieces' =>
      let* '(hs, o1) := http_thread w pd true (http_new_data hs d) in
      let* '(hs, o2) := http_feed w pd hs pieces' in
      Ok (hs, o1 ++ o2)
  end.

(** ** Every request gets an answer *)

Lemma request_lines_to_env_total lines : ∃ l, request_lines_to_env lines = Ok l.
Proof.
  induction lines as [|line lines [l IH]]; [by eexists|]. cbn [request_lines_to_env].
  destruct (split_total line [58]) as [kv ->]; [done|]. cbn [res_bind]. rewrite IH. cbn [res_bind].
  destruct kv as [|k [|v [|]]]; by eexists.
Qed.

Lemma request_to_env_total request : ∃ l, request_to_env request = Ok l.
Proof.
  unfold request_to_env. destruct (split_total request line_end) as [lines ->]; [done|]. apply request_lines_to_env_total.
Qed.

(** the status is one of three *)
Lemma answer_url_total w pd host url request :
  ∃ rc header content mime, answer_url w pd host url request = Ok (rc, header, content, mime) ∧ (rc = 200 ∨ rc = 404 ∨ rc = 500).
Proof.
  unfold answer_url. destruct (find (lit "..") url); [do 4 eexists; split; [done|auto]|].
  destruct (bool_decide _); [do 4 eexists; split; [done|auto]|].
  assert (∀ size c, ∃ rc content, file_response size c = (rc, content) ∧ (rc = 200 ∨ rc = 404 ∨ rc = 500)) as Hf.
  { intros size [c|]; cbn; [destruct (zlen c =? size)|]; do 2 eexists; (split; [done|auto]). }
  destruct (file_exists w (request_path pd host url)) as [size|]; [|do 4 eexists; split; [done|auto]].
  destruct (Hf size (file_read w (request_path pd host url) size)) as (rc & content & E & Hrc).
  destruct (find (lit ".php") url); [|rewrite E; do 4 eexists; split; [done|auto]].
  destruct (bool_decide (php_cgi pd = [])); [rewrite E; do 4 eexists; split; [done|auto]|].
  unfold invoke_cgi. destruct (request_to_env_total request) as [env ->]. cbn [res_bind].
  destruct (read_pipe _ []) as [text|]; cbn; [destruct (cgi_header_end text 0 0 0)|]; do 4 eexists; (split; [done|auto]).
Qed.

Lemma generate_response_total w pd request :
  ∃ r counts, generate_response w pd request = Ok (r, counts) ∧ (r = None → counts = [http_r_err]).
Proof.
  unfold generate_response. destruct (find blank_line request) as [e|]; [|by do 2 eexists].
  destruct (split_total (take e request) line_end) as [lines ->]; [done|]. cbn [res_bind]. destruct lines as [|line0 lines]; [by do 2 eexists|].
  destruct (split_total line0 [32]) as [parts ->]; [done|]. cbn [res_bind]. destruct parts as [|m [|url [|v parts]]]; [by do 2 eexists..|].
  destruct (find_header_total (line0 :: lines) (lit "Host") 58) as [host E]. change (lit ":") with [58]. rewrite E. cbn [res_bind].
  match goal with |- context [answer_url w pd host ?u request] => destruct (answer_url_total w pd host u request) as (rc & h & c & mime & -> & _) end.
  cbn [res_bind]. destruct (finish_response rc h c mime). by do 2 eexists.
Qed.

(** ** From the request to the file *)

Lemma http_thread_waits w pd sent data :
  find blank_line (c_str data) = None → http_thread w pd sent (HttpSession data false false) = Ok (HttpSession data false false, []).
Proof. intros E. unfold http_thread. cbn [http_done http_terminate http_req]. by rewrite E. Qed.

Lemma c_str_take n l : (0 ∉ l) → c_str (take n l) = take n l.
Proof. intros H. apply c_str_nul_free. intros Hin. apply H. by apply elem_of_take in Hin as (i & Hi%list_elem_of_lookup_2 & _). Qed.

(** before the blank line is complete nothing happens, then the thread answers and ends *)
Lemma http_feed_request w pd request n pieces r counts :
  (0 ∉ request) → find blank_line request = Some (length request - 4)%nat → (4 ≤ length request)%nat →
  generate_response w pd request = Ok (r, counts) →
  Forall (λ d, d ≠ []) pieces → pieces ≠ [] → concat pieces = drop n request → (n ≤ length request)%nat →
  http_feed w pd (HttpSession (take n request) false false) pieces =
    Ok (HttpSession request false true,
        (http_counted <$> counts) ++
        match r with
        | Some (header, content) => http_send header :: match content with [] => [] | _ => [http_send content] end
        | None => []
        end ++ [http_end_session]).
Proof.
  intros Hz Hb H4 Hg Hne. revert n. induction Hne as [|d pieces Hd Hne IH]; intros n Hnn Hc Hn; [done|].
  cbn [http_feed]. assert (http_new_data (HttpSession (take n request) false false) d = HttpSession (take (n + length d) request) false false) as ->.
  { destruct d as [|x d]; [done|]. cbn [http_new_data http_req http_terminate http_done]. f_equal.
    rewrite <- (take_drop n request) at 2. rewrite <- Hc. cbn [concat].
    rewrite take_app_add' by (rewrite length_take; lia). by rewrite take_app_length. }
  assert (concat pieces = drop (n + length d) request) as Hc'.
  { rewrite <- drop_drop, <- Hc. cbn [concat]. by rewrite drop_app_length. }
  assert (n + length d ≤ length request)%nat as Hle.
  { apply (f_equal length) in Hc. rewrite length_drop in Hc. cbn [concat] in Hc. rewrite length_app in Hc. lia. }
  destruct pieces as [|d' pieces].
  - cbn [concat] in Hc'. assert (n + length d = length request)%nat as ->.
    { apply (f_equal length) in Hc'. rewrite length_drop in Hc'. cbn in Hc'. lia. }
    rewrite firstn_all. unfold http_thread. cbn [http_done http_terminate http_req]. rewrite c_str_nul_free by done.
    rewrite Hb, Hg. cbn [res_bind http_feed]. rewrite app_nil_r. by destruct r as [[header content]|].
  - assert (n + length d < length request)%nat as Hlt.
    { apply (f_equal length) in Hc'. rewrite length_drop in Hc'. apply Forall_cons in Hne as [Hd' _]. cbn [concat] in Hc'.
      rewrite length_app in Hc'. destruct d'; [done|]. cbn in Hc'. lia. }
    rewrite http_thread_waits.
    2:{ rewrite c_str_take by done. eapply find_take_None; [exact Hb|]. cbn [length blank_line]. lia. }
    cbn [res_bind]. rewrite (IH (n + length d)%nat) by (done || lia). done.
Qed.

Lemma mime_no_cr url : (13 ∉ mime_of url).
Proof. unfold mime_of. cbv zeta. destruct (bool_decide _); [no_char|]. destruct (bool_decide _); no_char. Qed.

(** the header of a response, read by its lines *)
Lemma ok_header_read mime size :
  (13 ∉ mime) →
  ∃ lines, ok_header mime size = join line_end lines ++ blank_line ∧
    find blank_line (ok_header mime size) = Some (length (join line_end lines)) ∧
    split (join line_end lines) line_end = Ok lines ∧ head lines = Some (lit "HTTP/1.0 200 OK") ∧
    find_header lines (lit "Content-Length") (lit ":") = Ok (Some (fmt_dec size)).
Proof.
  intros Hm.
  set (fs := [(lit "Server", lit "MyIP"); (lit "Content-Type", mime); (lit "Content-Length", fmt_dec size); (lit "Connection", lit "close")]).
  set (lines := lit "HTTP/1.0 200 OK" :: (named <$> fs)).
  assert (ok_header mime size = merge lines line_end ++ line_end) as E by reflexivity.
  assert (Forall (λ l, crlf_free l ∧ l ≠ []) lines) as HF.
  { unfold lines, fs. cbn [fmap list_fmap]. constructor; [split; [apply no_cr_crlf_free; no_char|discriminate]|].
    constructor; [apply named_line; [no_char|apply no_cr_crlf_free; no_char]|].
    constructor; [apply named_line; [no_char|by apply no_cr_crlf_free]|].
    constructor; [apply named_line; [no_char|apply no_cr_crlf_free, digits_no_cr; [lia|apply not_elem_of_nil]]|].
    constructor; [apply named_line; [no_char|apply no_cr_crlf_free; no_char]|constructor]. }
  destruct (find_blank_end lines) as (H1 & H2 & H3); [done|done|].
  exists lines. rewrite E. split_and!; [|done|by apply split_lines|done|].
  - rewrite merge_join by done. by rewrite <- app_assoc.
  - unfold find_header, lines. cbn [find_header_loop]. change (lit ":") with [58]. rewrite find_header_line_none by no_char. cbn [res_bind].
    rewrite find_header_fields by (repeat constructor; no_char).
    assert (foldl (field_value (lit "Content-Length")) None fs = Some (drop_spaces (fmt_dec size))) as ->; [|by rewrite drop_spaces_fmt_dec].
    unfold fs. generalize (fmt_dec size). intros d. by vm_compute.
Qed.

(** C38: a request for a file, in whatever pieces it arrives, is answered by that file: the file
    is the one of the host and the address under the root of the server, the header says
    200 OK and ends at its first blank line, Content-Length is the number of bytes that
    follow, those bytes are the contents of the file, and then the session ends.  Nothing is
    sent before the request is complete, and the request is counted once. *)
Theorem http_serves_file w pd method url version hs host size content pieces :
  let lines := (method ++ [32] ++ url ++ [32] ++ version) :: hs in
  let request := merge lines line_end ++ line_end in
  Forall (λ l, crlf_free l ∧ l ≠ []) lines → (0 ∉ request) →
  (32 ∉ method) → method ≠ [] → (32 ∉ version) → version ≠ [] → (32 ∉ url) → url ≠ [] → url ≠ lit "/" → url ≠ lit "/stats.json" →
  find (lit "..") url = None → find (lit ".php") url = None →
  find_header lines (lit "Host") (lit ":") = Ok host →
  file_exists w (request_path pd host url) = Some size → file_read w (request_path pd host url) size = Some content →
  zlen content = size → content ≠ [] →
  Forall (λ d, d ≠ []) pieces → concat pieces = request →
  ∃ header hl,
    http_feed w pd http_new_session pieces =
      Ok (HttpSession request false true, [http_counted http_r_200; http_send header; http_send content; http_end_session]) ∧
    header = join line_end hl ++ blank_line ∧ find blank_line header = Some (length (join line_end hl)) ∧
    split (join line_end hl) line_end = Ok hl ∧ head hl = Some (lit "HTTP/1.0 200 OK") ∧
    find_header hl (lit "Content-Length") (lit ":") = Ok (Some (fmt_dec (zlen content))).
Proof.
  intros lines request HF Hz Hm Hme Hv Hve Hu Hue Hu1 Hu2 Hdd Hphp Hh Hfe Hfr Hsize Hcne Hp Hc.
  destruct (find_blank_end lines) as (B1 & B2 & B3); [done|done|]. fold request in B1, B2, B3.
  destruct (ok_header_read (mime_of url) (zlen content) (mime_no_cr url)) as (hl & E1 & E2 & E3 & E4 & E5).
  assert (generate_response w pd request = Ok (Some (ok_header (mime_of url) (zlen content), content), [http_r_200])) as Hg.
  { unfold generate_response. rewrite B1, B2, split_lines by done. cbn [res_bind lines].
    rewrite split_request by done. cbn [res_bind]. fold lines. rewrite Hh. cbn [res_bind].
    rewrite (bool_decide_eq_false_2 (url = [])), (bool_decide_eq_false_2 (url = lit "/")) by done. cbn [orb].
    unfold answer_url. rewrite Hdd, (bool_decide_eq_false_2 (url = lit "/stats.json")), Hfe, Hphp, Hfr by done.
    unfold file_response. rewrite Hsize, Z.eqb_refl. cbn [res_bind finish_response Z.eqb Pos.eqb]. by rewrite Hsize. }
  exists (ok_header (mime_of url) (zlen content)), hl. split_and!; try done.
  pose proof (http_feed_request w pd request 0 pieces _ _ Hz ltac:(rewrite B1, B3; f_equal; lia) ltac:(lia) Hg Hp) as F.
  change (take 0 request) with (@nil Z) in F. change (drop 0 request) with request in F. unfold http_new_session. rewrite F; [by destruct content|intros ->; apply (f_equal length) in Hc; rewrite B3 in Hc; cbn [concat length] in Hc; lia|done|lia].
Qed.

(** every request that is complete ends the session *)
Lemma http_answers_all w pd sent data n :
  find blank_line (c_str data) = Some n →
  ∃ hs out, http_thread w pd sent (HttpSession data false false) = Ok (hs, out ++ [http_end_session]) ∧ http_done hs = true.
Proof.
  intros E. unfold http_thread. cbn [http_done http_terminate http_req]. rewrite E.
  destruct (generate_response_total w pd (c_str data)) as (r & counts & -> & _). cbn [res_bind].
  rewrite app_assoc. do 2 eexists. split; reflexivity.
Qed.

(** the address never leads out of the directory of the host: with two dots in it, no file is
    asked for *)
Lemma dots_refused w pd host url request n :
  find (lit "..") url = Some n → answer_url w pd host url request = Ok (500, [], lit "Server error.", mime_of url).
Proof. intros E. unfold answer_url. by rewrite E. Qed.

(** ** What goes wrong *)

Definition ex_pd : http_private_data := HttpPd (lit "/www") [].
(** a world with one file *)
Definition ex_world (path content : str) : http_world :=
  HttpWorld (λ p, if decide (p = path) then Some (zlen content) else None) (λ p _, if decide (p = path) then Some content else None) [] (λ _ _, []).

(** but the name of the host is not looked at *)
Lemma host_traversal :
  generate_response (ex_world (lit "/www/../../etc/passwd") (lit "root")) ex_pd
    (merge [lit "GET passwd HTTP/1.0"; lit "Host: ../../etc"] line_end ++ line_end) =
  Ok (Some (ok_header (lit "text/plain") 4, lit "root"), [http_r_200]).
Proof. vm_compute. reflexivity. Qed.

(** the answer of a CGI program: its header is cut before its last character, so that the end of
    the header is not a blank line and the content starts with a line feed *)
Lemma cgi_header_cut :
  cgi_response (Some (lit "A: b" ++ blank_line ++ lit "text")) = (200, lit "A: b" ++ [13; 10; 13], 10 :: lit "text") ∧
  find blank_line (cgi_header (lit "A: b" ++ [13; 10; 13])) = None.
Proof. split; vm_compute; reflexivity. Qed.

(** an error has content, but its header does not say how much *)
Lemma error_without_length :
  ∃ header content, generate_response (ex_world (lit "/x") []) ex_pd (merge [lit "GET /a HTTP/1.0"] line_end ++ line_end) =
    Ok (Some (header, content), [http_r_404]) ∧ content ≠ [] ∧
    (let* lines := split header line_end in find_header lines (lit "Content-Length") (lit ":")) = Ok None.
Proof. do 2 eexists. split_and!; [vm_compute; reflexivity|discriminate|vm_compute; reflexivity]. Qed.

Definition ex_get : list Z := merge [lit "GET" ++ [32] ++ lit "/a.html" ++ [32] ++ lit "HTTP/1.0"; lit "Host: h"] line_end ++ line_end.
Lemma http_serves_file_witness :
  ∃ header hl,
    http_feed (ex_world (lit "/www/h//a.html") (lit "<p>")) ex_pd http_new_session [take 9 ex_get; drop 9 ex_get] =
      Ok (HttpSession ex_get false true, [http_counted http_r_200; http_send header; http_send (lit "<p>"); http_end_session]) ∧
    header = join line_end hl ++ blank_line ∧ find blank_line header = Some (length (join line_end hl)) ∧
    split (join line_end hl) line_end = Ok hl ∧ head hl = Some (lit "HTTP/1.0 200 OK") ∧
    find_header hl (lit "Content-Length") (lit ":") = Ok (Some (fmt_dec (zlen (lit "<p>")))).
Proof.
  apply (http_serves_file (ex_world (lit "/www/h//a.html") (lit "<p>")) ex_pd (lit "GET") (lit "/a.html") (lit "HTTP/1.0") [lit "Host: h"]
    (Some (lit "h")) 3 (lit "<p>") [take 9 ex_get; drop 9 ex_get]).
  - repeat constructor; (vm_compute; reflexivity) || discriminate.
  - no_char.
  - no_char.
  - discriminate.
  - no_char.
  - discriminate.
  - no_char.
  - discriminate.
  - discriminate.
  - discriminate.
  - vm_compute. reflexivity.
  - vm_compute. reflexivity.
  - vm_compute. reflexivity.
  - vm_compute. reflexivity.
  - vm_compute. reflexivity.
  - vm_compute. reflexivity.
  - discriminate.
  - repeat constructor; discriminate.
  - vm_compute. reflexivity.
Defined.
