(* ===== verification/Snmp.v ===== *)
(** * The SNMP agent (src/snmp.cpp, src/snmp.h)

    The agent parses a request encoded with BER, looks up the object identifiers in
    the tree of SnmpData.v and replies with the elements of SnmpElem.v over UDP.
    A pointer into the packet is an offset in its bytes; the parser reads lengths
    from the packet and does not always check them, so it can leave the packet.
    [process_BER] and [process_PDU] call each other.

    Shown: parsing ends on any bytes; the text of an identifier is read back from its
    encoding; a GET request whose reply fits in 255 bytes is answered with the values of
    the tree, end to end. *)
From S2P Require Import Prelude Str AnyAddr Buffers Checksum Ax25 Net Ipv4 Udp SnmpElem SnmpData.
Open Scope Z_scope.

Record oid_req_t := OidReq {
  oids : list str;
  req_id : Z;
  err : Z;
  err_idx : Z;
  version : Z;
  community : str;
}.

Definition new_oid_req : oid_req_t := OidReq [] 0 0 0 0 [].

Definition add_req_oid (r : oid_req_t) (oid : str) : oid_req_t :=
  OidReq (oids r ++ [oid]) (req_id r) (err r) (err_idx r) (version r) (community r).
Definition set_req_id (r : oid_req_t) (id : Z) : oid_req_t := OidReq (oids r) id (err r) (err_idx r) (version r) (community r).
Definition set_req_err (r : oid_req_t) (e i : Z) : oid_req_t := OidReq (oids r) (req_id r) e i (version r) (community r).
Definition set_req_version (r : oid_req_t) (v : Z) : oid_req_t := OidReq (oids r) (req_id r) (err r) (err_idx r) v (community r).
Definition set_req_community (r : oid_req_t) (c : str) : oid_req_t :=
  OidReq (oids r) (req_id r) (err r) (err_idx r) (version r) c.

(** ** Parsing *)

Fixpoint get_INTEGER_loop (n : nat) (mem : list Z) (p v : Z) : res Z :=
  match n with
  | O => Ok v
  | S n' =>
      let* b := rd mem p in
      get_INTEGER_loop n' mem (p + 1) (Z.lor (u64 (Z.shiftl v 8)) b)
  end.

Definition get_INTEGER (mem : list Z) (p length : Z) : res Z := get_INTEGER_loop (Z.to_nat length) mem p 0.

Definition get_type_length (mem : list Z) (p len : Z) : res (option (Z * Z)) :=
  if len <? 2 then Ok None
  else
    let* type := rd mem p in
    let* length := rd mem (p + 1) in
    Ok (Some (type, length)).

(** [%d] of an [uint32_t] *)
Definition fmt_d (v : Z) : str := let i := s32 v in if i <? 0 then 45 :: fmt_dec (- i) else fmt_dec i.

(** "1.3" *)
Definition str_1_3 : str := [49; 46; 51].

(** the loop over the bytes of an identifier, [n] to go *)
Fixpoint get_OID_loop (n : nat) (mem : list Z) (p i v : Z) (oid_out : str) : res (str * Z) :=
  match n with
  | O => Ok (oid_out, v)
  | S n' =>
      let* b := rd mem (p + i) in
      if b <? 128 then
        let v := Z.lor (u32 (Z.shiftl v 7)) b in
        let oid_out := oid_out ++ (if (i =? 0) && (v =? 43) then str_1_3 else dot :: fmt_d v) in
        get_OID_loop n' mem p (i + 1) 0 oid_out
      else get_OID_loop n' mem p (i + 1) (Z.lor (u32 (Z.shiftl v 7)) (Z.land b 127)) oid_out
  end.

Definition get_OID (mem : list Z) (p length : Z) : res (option str) :=
  let* '(oid_out, v) := get_OID_loop (Z.to_nat length) mem p 0 0 [] in
  Ok (if negb (v =? 0) then None else Some oid_out).

Section Agent.
Context (sd : list snmp_data_type).

(** an object identifier that was asked for *)
Definition requested_oid (r : oid_req_t) (is_getnext : bool) (oid_out : str) : res oid_req_t :=
  if is_getnext then
    let* oid_next := find_next_oid sd oid_out in
    Ok (if bool_decide (oid_next = []) then set_req_err r 2 1 else add_req_oid r oid_next)
  else Ok (add_req_oid r oid_out).

(** the three integers in front of the bindings: the identifier, and the pointer
    behind them *)
Definition pdu_integer (mem : list Z) (p len : Z) : res (option (Z * Z)) :=
  let* tl := get_type_length mem p len in
  match tl with
  | None => Ok None
  | Some (pdu_type, pdu_length) =>
      if negb (pdu_type =? 0x02) then Ok None
      else
        let* v := get_INTEGER mem (p + 2) pdu_length in
        Ok (Some (v, p + 2 + pdu_length))
  end.

(** [len] is not reduced while the pointer moves *)
Definition pdu_integers (mem : list Z) (p len : Z) (r : oid_req_t) : res (bool * Z * oid_req_t) :=
  let* i1 := pdu_integer mem p len in
  match i1 with
  | None => Ok (false, p, r)
  | Some (id, p) =>
      let r := set_req_id r id in
      let* i2 := pdu_integer mem p len in
      match i2 with
      | None => Ok (false, p, r)
      | Some (_, p) =>
          let* i3 := pdu_integer mem p len in
          match i3 with
          | None => Ok (false, p, r)
          | Some (_, p) => Ok (true, p, r)
          end
      end
  end.

Fixpoint process_BER (fuel : nat) (mem : list Z) (p len : Z) (r : oid_req_t) (is_getnext : bool) (is_top : Z)
  : res (bool * oid_req_t) :=
  match fuel with
  | O => Err out_of_fuel
  | S fuel' => if len <? 2 then Ok (false, r) else ber_loop fuel' mem (p + len) p r is_getnext is_top true true
  end
with ber_loop (fuel : nat) (mem : list Z) (end_ pnt : Z) (r : oid_req_t) (is_getnext : bool) (is_top : Z)
    (first_integer first_octet_str : bool) : res (bool * oid_req_t) :=
  match fuel with
  | O => Err out_of_fuel
  | S fuel' =>
      if pnt <? end_ then
        let* type := rd mem pnt in
        let* length := rd mem (pnt + 1) in
        let pnt := pnt + 2 in
        if end_ <? pnt + length then Ok (false, r)
        else if type =? 0x02 then
          let* r := (if negb (is_top =? 0) && first_integer then
                       let* v := get_INTEGER mem pnt length in Ok (set_req_version r (s32 v))
                     else Ok r) in
          ber_loop fuel' mem end_ (pnt + length) r is_getnext is_top false first_octet_str
        else if type =? 0x04 then
          let* r := (if negb (is_top =? 0) && first_octet_str then
                       let* s := rd_range mem pnt length in Ok (set_req_community r s)
                     else Ok r) in
          ber_loop fuel' mem end_ (pnt + length) r is_getnext is_top first_integer false
        else if type =? 0x05 then
          ber_loop fuel' mem end_ (pnt + length) r is_getnext is_top first_integer first_octet_str
        else if type =? 0x06 then
          let* oid_out := get_OID mem pnt length in
          match oid_out with
          | None => Ok (false, r)
          | Some oid_out =>
              let* r := requested_oid r is_getnext oid_out in
              ber_loop fuel' mem end_ (pnt + length) r is_getnext is_top first_integer first_octet_str
          end
        else if type =? 0x30 then
          let* '(ok, r) := process_BER fuel' mem pnt length r is_getnext (is_top - 1) in
          if negb ok then Ok (false, r)
          else ber_loop fuel' mem end_ (pnt + length) r is_getnext is_top first_integer first_octet_str
        else if (type =? 0xa0) || (type =? 0xa1) || (type =? 0xa3) then
          let* '(ok, r) := process_PDU fuel' mem pnt length r (if type =? 0xa1 then true else is_getnext) in
          if negb ok then Ok (false, r)
          else ber_loop fuel' mem end_ (pnt + length) r is_getnext is_top first_integer first_octet_str
        else Ok (false, r)
      else Ok (true, r)
  end
with process_PDU (fuel : nat) (mem : list Z) (p len : Z) (r : oid_req_t) (is_getnext : bool) : res (bool * oid_req_t) :=
  match fuel with
  | O => Err out_of_fuel
  | S fuel' =>
      let* '(ok, p, r) := pdu_integers mem p len r in
      if negb ok then Ok (false, r)
      else
        let* type_vb_list := rd mem p in
        if negb (type_vb_list =? 0x30) then Ok (false, r)
        else
          let* len_vb_list := rd mem (p + 1) in
          vb_loop fuel' mem (p + 2 + len_vb_list) (p + 2) r is_getnext
  end
with vb_loop (fuel : nat) (mem : list Z) (end_ pnt : Z) (r : oid_req_t) (is_getnext : bool) : res (bool * oid_req_t) :=
  match fuel with
  | O => Err out_of_fuel
  | S fuel' =>
      if pnt <? end_ then
        let* seq_type := rd mem pnt in
        let* seq_length := rd mem (pnt + 1) in
        let pnt := pnt + 2 in
        if end_ <? pnt + seq_length then Ok (false, r)
        else if seq_type =? 0x30 then
          let* '(_, r) := process_BER fuel' mem pnt seq_length r is_getnext 0 in
          vb_loop fuel' mem end_ (pnt + seq_length) r is_getnext
        else Ok (false, r)
      else Ok (true, r)
  end.

(** ** Replying *)

Context (counters : Z → Z) (now : Z).

(** [e.substr(0, dot)] for the last dot *)
Definition before_last_dot (e behind : str) : str := take (length e - length behind - 1) e.

(** the value for a binding: when an identifier that ends in .0 is not found, the
    identifier without the .0 *)
Definition varbind_value (e : str) : res snmp_elem :=
  let* rc := find_by_oid counters now sd e in
  let* rc :=
    match rc, behind_last_dot e with
    | None, Some behind =>
        if bool_decide (behind = [48]) then find_by_oid counters now sd (before_last_dot e behind) else Ok None
    | _, _ => Ok rc
    end in
  Ok (match rc with Some (Some v) => v | _ => snmp_null end).

Fixpoint gen_varbinds (l : list str) : res (list snmp_elem) :=
  match l with
  | [] => Ok []
  | e :: l' =>
      let* o := new_snmp_oid e in
      let* v := varbind_value e in
      let* rest := gen_varbinds l' in
      Ok (snmp_sequence [o; v] :: rest)
  end.

(** "public" *)
Definition str_public : str := [112; 117; 98; 108; 105; 99].

(** the message that is encoded *)
Definition reply_elem (r : oid_req_t) : res snmp_elem :=
  let c := if bool_decide (community r = []) then str_public else community r in
  let* cs := new_snmp_octet_string c (zlen c) in
  let* varbind_list := gen_varbinds (oids r) in
  Ok (snmp_sequence [new_snmp_integer si_integer (u64 (version r)); cs;
        snmp_pdu 0xa2 [new_snmp_integer si_integer (req_id r); new_snmp_integer si_integer (u64 (err r));
                       new_snmp_integer si_integer (u64 (err_idx r)); snmp_sequence varbind_list]]).

Definition gen_reply (r : oid_req_t) : res (list Z * Z) :=
  let* se := reply_elem r in get_payload se.

Inductive snmp_stat := snmp_requests | snmp_invalid.

(** [input]: the counters, and what is handed to [udp::transmit_packet] *)
Definition snmp_input (payload : list Z) : res (list snmp_stat * option (list Z)) :=
  if zlen payload =? 0 then Ok ([snmp_requests; snmp_invalid], None)
  else
    let* '(ok, r) := process_BER (2 * length payload + 4) payload 0 (zlen payload) new_oid_req false 2 in
    if negb ok then Ok ([snmp_requests; snmp_invalid], None)
    else
      let* '(packet_out, output_size) := gen_reply r in
      if negb (output_size =? 0) then
        let* bytes := rd_range packet_out 0 output_size in
        Ok ([snmp_requests], Some bytes)
      else Ok ([snmp_requests], None).

(** the reply goes back to where the request came from *)
Definition snmp_input_udp {S : Type} (idev : option (S → datagram → res (bool * S))) (ip : S)
    (src_ip : any_addr) (src_port : Z) (dst_ip : any_addr) (dst_port : Z) (payload : list Z)
  : res (list snmp_stat * S) :=
  let* '(st, reply) := snmp_input payload in
  match reply with
  | Some bytes =>
      let* '(_, ip) := udp_transmit_packet idev ip src_ip src_port dst_ip dst_port bytes in
      Ok (st, ip)
  | None => Ok (st, ip)
  end.
End Agent.

(** ** Processing a request ends *)

Lemma ends_split s : ends (split s [dot]).
Proof. destruct (split_spec s [dot]) as (parts & -> & _); done. Qed.
#[export] Hint Resolve ends_split : ends.

Lemma ends_go_sibling br : ends (go_sibling br).
Proof. induction br as [|[[e|] i] br IH]; cbn [go_sibling]; solve_ends. Qed.
#[export] Hint Resolve ends_go_sibling : ends.

Lemma ends_find_next_oid d o : ends (find_next_oid d o).
Proof.
  unfold find_next_oid. apply ends_bind; [auto with ends|]. intros parts _.
  destruct (descend parts [] None d []) as [[parent lut] br]. destruct lut as [|c lut]; [solve_ends|].
  destruct (end_of_branch c ((parent, O) :: br)) as [n br']. solve_ends.
Qed.

Lemma ends_oid_groups n v : ends (oid_groups n v).
Proof. revert v. induction n as [|n IH]; intros v; cbn [oid_groups]; solve_ends. Qed.
#[export] Hint Resolve ends_find_next_oid ends_oid_groups : ends.

Lemma ends_oid_loop fuel size v work : (length work < fuel)%nat → ends (oid_loop fuel size v work).
Proof.
  revert v work. induction fuel as [|fuel IH]; intros v work Hf; [lia|]. cbn [oid_loop].
  destruct (bool_decide_reflect (work = [])) as [|Hne]; [done|].
  apply ends_bind; [unfold oid_temp; solve_ends|intros temp _]. apply ends_bind; [unfold put_bytes; solve_ends|intros v' _].
  destruct (find [dot] work) as [d|]; [|done]. apply IH. rewrite length_drop. destruct work; [done|]. cbn [length] in *. lia.
Qed.

Lemma ends_new_snmp_oid o : ends (new_snmp_oid o).
Proof.
  unfold new_snmp_oid. apply ends_bind; [|done]. destruct (bool_decide _).
  - apply ends_bind; [unfold put_bytes; solve_ends|intros v _]. apply ends_oid_loop. rewrite length_drop. lia.
  - apply ends_oid_loop. lia.
Qed.
#[export] Hint Resolve ends_new_snmp_oid : ends.

Lemma ends_find_by_oid c n d o : ends (find_by_oid c n d o).
Proof. unfold find_by_oid, get_data, new_snmp_octet_string. solve_ends. Qed.
#[export] Hint Resolve ends_find_by_oid : ends.

Lemma ends_put_integer n i k v out : ends (put_integer n i k v out).
Proof. revert i out. induction n as [|n IH]; intros i out; cbn [put_integer]; solve_ends. Qed.
#[export] Hint Resolve ends_put_integer : ends.

Lemma ends_get_payload e : ends (get_payload e).
Proof.
  assert (∀ l tag, Forall (λ e, ends (get_payload e)) l → ends (finish_payload tag l)) as Hf.
  { intros l tag Hl. unfold finish_payload.
    assert (∀ out o, ends (sequence_payload l out o)) as Hs.
    { induction Hl as [|x l Hx _ IH]; intros out o; cbn [sequence_payload]; [done|].
      apply ends_bind; [done|]. intros [pl n] _. destruct (256 <? o + n); [done|].
      apply ends_bind; [auto with ends|intros bytes _]. apply ends_bind; [auto with ends|intros out' _]. apply IH. }
    solve_ends. }
  induction e using snmp_elem_ind.
  - cbn [get_payload]. solve_ends.
  - rewrite get_payload_sequence. by apply Hf.
  - done.
  - cbn [get_payload]. unfold string_payload. solve_ends.
  - cbn [get_payload]. unfold string_payload. solve_ends.
  - rewrite get_payload_pdu. by apply Hf.
Qed.
#[export] Hint Resolve ends_get_payload : ends.

Section Ends.
Context (sd : list snmp_data_type).

Lemma ends_get_INTEGER mem p n : ends (get_INTEGER mem p n).
Proof.
  unfold get_INTEGER. generalize 0. revert p. induction (Z.to_nat n) as [|k IH]; intros p v; cbn [get_INTEGER_loop]; solve_ends.
Qed.

Lemma ends_get_OID mem p n : ends (get_OID mem p n).
Proof.
  unfold get_OID. apply ends_bind; [|intros [o v] _; done].
  generalize 0 at 1. generalize 0. generalize (@nil Z).
  induction (Z.to_nat n) as [|k IH]; intros l v i; cbn [get_OID_loop]; solve_ends.
Qed.
#[local] Hint Resolve ends_get_INTEGER ends_get_OID : ends.

Lemma ends_pdu_integers mem p len r : ends (pdu_integers mem p len r).
Proof. unfold pdu_integers, pdu_integer, get_type_length. solve_ends. Qed.

Lemma ends_requested_oid r g o : ends (requested_oid sd r g o).
Proof. unfold requested_oid. solve_ends. Qed.
#[local] Hint Resolve ends_pdu_integers ends_requested_oid : ends.

(** the pointer behind the integers of a PDU *)
Lemma pdu_integer_ptr mem p len v p' : bytes_ok mem → pdu_integer mem p len = Ok (Some (v, p')) → p + 2 ≤ p'.
Proof.
  intros Hm. unfold pdu_integer, get_type_length. destruct (len <? 2); [done|].
  destruct (rd mem p) as [t|]; [|done]. destruct (rd mem (p + 1)) as [n|] eqn:En; [|done]. cbn [res_bind].
  destruct (negb (t =? 2)); [done|]. destruct (get_INTEGER mem (p + 2) n) as [x|]; [|done]. cbn [res_bind].
  intros [= _ <-]. pose proof (rd_byte_ok _ _ _ Hm En) as Hb. unfold byte_ok in Hb. lia.
Qed.

Lemma pdu_integers_ptr mem p len r ok p' r' : bytes_ok mem → pdu_integers mem p len r = Ok (ok, p', r') → p ≤ p'.
Proof.
  intros Hm H. unfold pdu_integers in H.
  destruct (pdu_integer mem p len) as [[[v1 p1]|]|] eqn:E1; cbn [res_bind] in H; [|injection H; lia|done].
  apply pdu_integer_ptr in E1; [|done].
  destruct (pdu_integer mem p1 len) as [[[v2 p2]|]|] eqn:E2; cbn [res_bind] in H; [|injection H; lia|done].
  apply pdu_integer_ptr in E2; [|done].
  destruct (pdu_integer mem p2 len) as [[[v3 p3]|]|] eqn:E3; cbn [res_bind] in H; [|injection H; lia|done].
  apply pdu_integer_ptr in E3; [|done]. injection H. lia.
Qed.

Lemma process_BER_S fuel mem p len r g top :
  process_BER sd (S fuel) mem p len r g top =
    if len <? 2 then Ok (false, r) else ber_loop sd fuel mem (p + len) p r g top true true.
Proof. reflexivity. Qed.

Lemma process_PDU_S fuel mem p len r g :
  process_PDU sd (S fuel) mem p len r g =
    let* '(ok, p, r) := pdu_integers mem p len r in
    if negb ok then Ok (false, r)
    else
      let* type_vb_list := rd mem p in
      if negb (type_vb_list =? 0x30) then Ok (false, r)
      else
        let* len_vb_list := rd mem (p + 1) in
        vb_loop sd fuel mem (p + 2 + len_vb_list) (p + 2) r g.
Proof. reflexivity. Qed.

Lemma vb_loop_S fuel mem end_ pnt r g :
  vb_loop sd (S fuel) mem end_ pnt r g =
    if pnt <? end_ then
      let* seq_type := rd mem pnt in
      let* seq_length := rd mem (pnt + 1) in
      if end_ <? pnt + 2 + seq_length then Ok (false, r)
      else if seq_type =? 0x30 then
        let* '(_, r) := process_BER sd fuel mem (pnt + 2) seq_length r g 0 in
        vb_loop sd fuel mem end_ (pnt + 2 + seq_length) r g
      else Ok (false, r)
    else Ok (true, r).
Proof. reflexivity. Qed.

Lemma ber_loop_S fuel mem end_ pnt r g top fi fo :
  ber_loop sd (S fuel) mem end_ pnt r g top fi fo =
    if pnt <? end_ then
      let* type := rd mem pnt in
      let* length := rd mem (pnt + 1) in
      if end_ <? pnt + 2 + length then Ok (false, r)
      else if type =? 0x02 then
        let* r := (if negb (top =? 0) && fi then
                     let* v := get_INTEGER mem (pnt + 2) length in Ok (set_req_version r (s32 v))
                   else Ok r) in
        ber_loop sd fuel mem end_ (pnt + 2 + length) r g top false fo
      else if type =? 0x04 then
        let* r := (if negb (top =? 0) && fo then
                     let* s := rd_range mem (pnt + 2) length in Ok (set_req_community r s)
                   else Ok r) in
        ber_loop sd fuel mem end_ (pnt + 2 + length) r g top fi false
      else if type =? 0x05 then ber_loop sd fuel mem end_ (pnt + 2 + length) r g top fi fo
      else if type =? 0x06 then
        let* oid_out := get_OID mem (pnt + 2) length in
        match oid_out with
        | None => Ok (false, r)
        | Some oid_out =>
            let* r := requested_oid sd r g oid_out in
            ber_loop sd fuel mem end_ (pnt + 2 + length) r g top fi fo
        end
      else if type =? 0x30 then
        let* '(ok, r) := process_BER sd fuel mem (pnt + 2) length r g (top - 1) in
        if negb ok then Ok (false, r) else ber_loop sd fuel mem end_ (pnt + 2 + length) r g top fi fo
      else if (type =? 0xa0) || (type =? 0xa1) || (type =? 0xa3) then
        let* '(ok, r) := process_PDU sd fuel mem (pnt + 2) length r (if type =? 0xa1 then true else g) in
        if negb ok then Ok (false, r) else ber_loop sd fuel mem end_ (pnt + 2 + length) r g top fi fo
      else Ok (false, r)
    else Ok (true, r).
Proof. reflexivity. Qed.

(** the fuel that is enough at a pointer: it moves by two bytes at least *)
Definition fuel_at (mem : list Z) (p : Z) : Z := 2 * Z.max 0 (zlen mem - p).

Lemma rd_Ok_lt mem p b : rd mem p = Ok b → p < zlen mem.
Proof. intros [Hp H]%rd_Ok. apply lookup_lt_Some in H. unfold zlen. lia. Qed.

Lemma parser_ends fuel mem :
  bytes_ok mem →
  (∀ p len r g top, fuel_at mem p + 2 ≤ Z.of_nat fuel → ends (process_BER sd fuel mem p len r g top)) ∧
  (∀ e p r g top fi fo, fuel_at mem p + 1 ≤ Z.of_nat fuel → ends (ber_loop sd fuel mem e p r g top fi fo)) ∧
  (∀ p len r g, fuel_at mem p + 2 ≤ Z.of_nat fuel → ends (process_PDU sd fuel mem p len r g)) ∧
  (∀ e p r g, fuel_at mem p + 1 ≤ Z.of_nat fuel → ends (vb_loop sd fuel mem e p r g)).
Proof.
  intros Hm. unfold fuel_at. induction fuel as [|fuel (IHb & IHl & IHp & IHv)].
  { split_and!; intros; lia. }
  split_and!.
  - intros p len r g top Hf. rewrite process_BER_S. destruct (len <? 2); [done|]. apply IHl. lia.
  - intros e p r g top fi fo Hf. rewrite ber_loop_S. destruct (p <? e); [|done].
    apply ends_bind; [auto with ends|intros t Ht]. apply ends_bind; [auto with ends|intros n Hn].
    apply rd_Ok_lt in Ht. pose proof (rd_byte_ok _ _ _ Hm Hn) as Hb. unfold byte_ok in Hb.
    assert (∀ r' fi' fo', ends (ber_loop sd fuel mem e (p + 2 + n) r' g top fi' fo')) as Hnext by (intros; apply IHl; lia).
    destruct (e <? p + 2 + n); [done|]. destruct (t =? 2); [solve_ends|]. destruct (t =? 4); [solve_ends|].
    destruct (t =? 5); [apply Hnext|]. destruct (t =? 6); [solve_ends|]. destruct (t =? 0x30).
    { apply ends_bind; [apply IHb; lia|]. intros [ok r'] _. destruct (negb ok); [done|apply Hnext]. }
    destruct (_ || _); [|done]. apply ends_bind; [apply IHp; lia|]. intros [ok r'] _. destruct (negb ok); [done|apply Hnext].
  - intros p len r g Hf. rewrite process_PDU_S. apply ends_bind; [auto with ends|]. intros [[ok p'] r'] Hi.
    apply pdu_integers_ptr in Hi; [|done]. destruct (negb ok); [done|]. apply ends_bind; [auto with ends|intros t Ht].
    destruct (negb _); [done|]. apply ends_bind; [auto with ends|intros n Hn]. apply IHv. lia.
  - intros e p r g Hf. rewrite vb_loop_S. destruct (p <? e); [|done].
    apply ends_bind; [auto with ends|intros t Ht]. apply ends_bind; [auto with ends|intros n Hn].
    apply rd_Ok_lt in Ht. pose proof (rd_byte_ok _ _ _ Hm Hn) as Hb. unfold byte_ok in Hb.
    destruct (e <? p + 2 + n); [done|]. destruct (t =? 0x30); [|done].
    apply ends_bind; [apply IHb; lia|]. intros [ok r'] _. apply IHv. lia.
Qed.

Lemma ends_gen_varbinds counters now l : ends (gen_varbinds sd counters now l).
Proof. induction l as [|e l IH]; cbn [gen_varbinds]; unfold varbind_value; solve_ends. Qed.
#[local] Hint Resolve ends_gen_varbinds : ends.

(** The agent returns for every packet, whatever its bytes: nested sequences and
    PDUs end although their lengths are taken from the packet, because the pointer
    only moves forward; so do the encoding of the reply and the search of the tree. *)
Theorem snmp_input_ends counters now payload :
  bytes_ok payload → ends (snmp_input sd counters now payload).
Proof.
  intros Hb. unfold snmp_input. destruct (zlen payload =? 0); [done|].
  apply ends_bind.
  - apply (proj1 (parser_ends _ payload Hb)). unfold fuel_at, zlen. lia.
  - intros [ok r] _. unfold gen_reply, reply_elem, new_snmp_octet_string. solve_ends.
Qed.
End Ends.

(** ** Identifiers are read back *)

(** the number of groups of seven bits, the lowest first *)
Definition groups_val (l : list Z) : Z := foldr (λ g acc, g + 128 * acc) 0 l.

Lemma groups_val_groups n v : 0 ≤ v < 128 ^ Z.of_nat n → groups_val (groups n v) = v ∧ Forall (λ g, 0 ≤ g < 128) (groups n v).
Proof.
  revert v. induction n as [|n IH]; intros v Hv; cbn [groups]; [simpl in Hv; split; [cbn; lia|constructor]|].
  destruct (Z.eqb_spec v 0) as [->|N]; [split; [done|constructor]|].
  rewrite Nat2Z.inj_succ, Z.pow_succ_r in Hv by lia. pose proof (Z.div_mod v 128 ltac:(lia)). pose proof (Z.mod_pos_bound v 128 ltac:(lia)).
  destruct (IH (v / 128)) as [E F]; [split; [apply Z.div_pos; lia|apply Z.div_lt_upper_bound; lia]|].
  unfold groups_val in *. cbn [foldr]. rewrite E. split; [lia|]. by constructor.
Qed.

Lemma groups_val_nonneg l : Forall (λ g, 0 ≤ g < 128) l → 0 ≤ groups_val l.
Proof. unfold groups_val. induction 1; cbn [foldr]; lia. Qed.

Lemma high_byte g : 0 ≤ g < 128 → Z.lor 128 g = 128 + g ∧ Z.land (128 + g) 127 = g.
Proof.
  intros Hg. split.
  - change 128 with (Z.shiftl 1 7) at 1. rewrite lor_shiftl_add by (simpl; lia). change (2 ^ 7) with 128. lia.
  - change 127 with (Z.ones 7). rewrite Z.land_ones by lia. change (2 ^ 7) with 128.
    replace (128 + g) with (g + 1 * 128) by lia. rewrite Z.mod_add by lia. apply Z.mod_small. lia.
Qed.

Lemma push_group v g : 0 ≤ v → 0 ≤ g < 128 → g + 128 * v < 4294967296 → Z.lor (u32 (Z.shiftl v 7)) g = g + 128 * v.
Proof.
  intros Hv Hg Hb. rewrite u32_id by (rewrite Z.shiftl_mul_pow2 by lia; change (2 ^ 7) with 128; lia).
  rewrite lor_shiftl_add by (simpl; lia). change (2 ^ 7) with 128. lia.
Qed.

Lemma get_OID_highs his n mem p i out a rest :
  Forall (λ g, 0 ≤ g < 128) his → groups_val his < 33554432 → mem = a ++ rev (Z.lor 128 <$> his) ++ rest → zlen a = p + i →
  get_OID_loop (length his + n) mem p i 0 out = get_OID_loop n mem p (i + zlen his) (groups_val his) out.
Proof.
  intros Hh. revert n rest. induction Hh as [|g his Hg Hh IH]; intros n rest Hv Em Ha.
  { cbn [length Nat.add]. change (zlen (@nil Z)) with 0. by rewrite Z.add_0_r. }
  pose proof (groups_val_nonneg his Hh) as H0. unfold groups_val in Hv. cbn [foldr] in Hv. fold (groups_val his) in Hv.
  change (length (g :: his) + n)%nat with (S (length his + n)). rewrite plus_n_Sm.
  cbn [fmap list_fmap rev] in Em. rewrite <- app_assoc in Em.
  rewrite (IH (S n) ([Z.lor 128 g] ++ rest)) by (done || lia). cbn [get_OID_loop].
  destruct (high_byte g Hg) as [B1 B2].
  assert (rd mem (p + (i + zlen his)) = Ok (128 + g)) as ->.
  { rewrite Em, app_assoc, B1. apply rd_mid. rewrite zlen_app. unfold zlen in *. rewrite length_rev, length_fmap. lia. }
  cbn [res_bind]. rewrite (proj2 (Z.ltb_ge _ 128)) by lia. rewrite B2, push_group by lia.
  rewrite zlen_cons. unfold groups_val at 2. cbn [foldr]. fold (groups_val his). by rewrite Z.add_assoc.
Qed.

(** one number, not at the start *)
Lemma get_OID_id c n mem p i out a rest :
  id_ok c → mem = a ++ id_bytes c ++ rest → zlen a = p + i → 0 < i →
  get_OID_loop (length (id_bytes c) + n) mem p i 0 out =
    get_OID_loop n mem p (i + zlen (id_bytes c)) 0 (out ++ dot :: fmt_dec c).
Proof.
  intros Hc Em Ha Hi. unfold id_ok in Hc.
  assert (∃ lo his, id_bytes c = rev (Z.lor 128 <$> his) ++ [lo] ∧ 0 ≤ lo < 128 ∧ Forall (λ g, 0 ≤ g < 128) his ∧
            lo + 128 * groups_val his = c) as (lo & his & Eb & Hlo & Hhis & Hval).
  { unfold id_bytes. destruct (Z.eqb_spec c 0) as [->|N]; [exists 0, []; split_and!; [done|lia|lia|constructor|done]|].
    destruct (groups_val_groups 10 c) as [E F]; [split; [lia|eapply Z.lt_le_trans; [apply Hc|vm_compute; discriminate]]|].
    destruct (groups 10 c) as [|lo his]; [cbn in E; lia|]. exists lo, his.
    pose proof (Forall_inv F) as Hl. cbn beta in Hl. apply Forall_inv_tail in F. split_and!; try done; lia. }
  pose proof (groups_val_nonneg his Hhis). rewrite Eb in *. rewrite length_app, length_rev, length_fmap, <- Nat.add_assoc.
  rewrite <- app_assoc in Em. rewrite (get_OID_highs his _ mem p i out a ([lo] ++ rest)) by (done || lia).
  change (length [lo] + n)%nat with (S n). cbn [get_OID_loop].
  assert (rd mem (p + (i + zlen his)) = Ok lo) as ->.
  { rewrite Em, app_assoc. apply rd_mid. rewrite zlen_app. unfold zlen in *. rewrite length_rev, length_fmap. lia. }
  cbn [res_bind]. rewrite (proj2 (Z.ltb_lt lo 128)) by lia. rewrite push_group, Hval by lia.
  rewrite (proj2 (Z.eqb_neq (i + zlen his) 0)) by (unfold zlen; lia). cbn [andb].
  assert (fmt_d c = fmt_dec c) as ->.
  { unfold fmt_d, s32. rewrite Z.mod_small by lia. replace (c + 2147483648 - 2147483648) with c by lia.
    by rewrite (proj2 (Z.ltb_ge c 0)) by lia. }
  rewrite zlen_app. change (zlen [lo]) with 1. unfold zlen at 2. rewrite length_rev, length_fmap. fold (zlen his).
  by rewrite Z.add_assoc.
Qed.

Lemma get_OID_ids ids mem p i out a rest :
  Forall id_ok ids → mem = a ++ (ids ≫= id_bytes) ++ rest → zlen a = p + i → 0 < i →
  get_OID_loop (length (ids ≫= id_bytes)) mem p i 0 out = Ok (out ++ (ids ≫= (λ c, dot :: fmt_dec c)), 0).
Proof.
  intros Hids. revert i out a. induction Hids as [|c ids Hc Hids IH]; intros i out a Em Ha Hi.
  { cbn. by rewrite app_nil_r. }
  rewrite !bind_cons in *. rewrite length_app. rewrite <- app_assoc in Em.
  rewrite (get_OID_id c _ mem p i out a ((ids ≫= id_bytes) ++ rest)) by done.
  rewrite (IH (i + zlen (id_bytes c)) (out ++ dot :: fmt_dec c) (a ++ id_bytes c)).
  - by rewrite <- app_assoc.
  - by rewrite <- app_assoc.
  - rewrite zlen_app. lia.
  - pose proof (zlen_nonneg (id_bytes c)). lia.
Qed.

Lemma oid_text_bind a b ids : oid_text (a :: b :: ids) = fmt_dec a ++ ((b :: ids) ≫= (λ c, dot :: fmt_dec c)).
Proof.
  unfold oid_text. revert a b. induction ids as [|c ids IH]; intros a b.
  - cbn. by rewrite !app_nil_r.
  - rewrite fmap_cons, join_cons, IH by done. rewrite (bind_cons (λ c, dot :: fmt_dec c) b (c :: ids)). done.
Qed.

(** the encoding of an identifier, at a place in a packet *)
Lemma get_OID_spec ids pre rest :
  Forall id_ok ids →
  get_OID (pre ++ (43 :: (ids ≫= id_bytes)) ++ rest) (zlen pre) (zlen (43 :: (ids ≫= id_bytes))) =
    Ok (Some (oid_text (1 :: 3 :: ids))).
Proof.
  intros Hids. unfold get_OID. replace (Z.to_nat (zlen (43 :: (ids ≫= id_bytes)))) with (S (length (ids ≫= id_bytes)))
    by (unfold zlen; cbn [length]; lia). cbn [get_OID_loop app].
  rewrite Z.add_0_r, rd_mid by done. cbn [res_bind]. change (43 <? 128) with true. cbn iota.
  change (Z.lor (u32 (Z.shiftl 0 7)) 43) with 43. change ((0 =? 0) && (43 =? 43)) with true. cbn iota.
  rewrite (get_OID_ids ids _ (zlen pre) (0 + 1) _ (pre ++ [43]) rest); [|done|by rewrite <- app_assoc|by rewrite zlen_app|lia].
  cbn [res_bind]. change (negb (0 =? 0)) with false. cbn iota. rewrite oid_text_bind, bind_cons. done.
Qed.

(** Object identifiers survive the wire: an identifier below 1.3 whose numbers are
    less than 2^31 is encoded within the memory that is allocated for it, and
    the agent reads its encoding back, wherever it is in a packet, as the same
    text. *)
Theorem oid_roundtrip ids pre rest :
  Forall id_ok ids → ids ≠ [] →
  ∃ v, new_snmp_oid (oid_text (1 :: 3 :: ids)) = Ok (snmp_oid v (u8 (zlen v + 2))) ∧
    get_OID (pre ++ v ++ rest) (zlen pre) (zlen v) = Ok (Some (oid_text (1 :: 3 :: ids))).
Proof.
  intros Hids Hne. exists (43 :: (ids ≫= id_bytes)). split; [by apply new_snmp_oid_spec|by apply get_OID_spec].
Qed.

(** 1.3.6.1.4.1.57850 *)
Lemma oid_roundtrip_witness :
  ∃ v, new_snmp_oid (oid_text (1 :: 3 :: [6; 1; 4; 1; 57850])) = Ok (snmp_oid v (u8 (zlen v + 2))) ∧
    get_OID ([6; 9] ++ v ++ [5; 0]) 2 (zlen v) = Ok (Some (oid_text (1 :: 3 :: [6; 1; 4; 1; 57850]))).
Proof.
  apply (oid_roundtrip [6; 1; 4; 1; 57850] [6; 9] [5; 0]); [|done]. repeat (apply Forall_cons_2; [unfold id_ok; lia|]). apply Forall_nil_2.
Defined.

(** a number of 2^32 - 1 becomes -1 in the text, which takes more bytes than were
    allocated when it is encoded again *)
Lemma negative_oid_overrun :
  get_OID [43; 0x8f; 0xff; 0xff; 0xff; 0x7f] 0 6 = Ok (Some [49; 46; 51; 46; 45; 49]) ∧
  new_snmp_oid [49; 46; 51; 46; 45; 49] = Err bad_access.
Proof. split; vm_compute; reflexivity. Qed.

(** ** A GET request *)

(** the number of the bytes of an integer, the highest first; there is no sign *)
Definition be_val (b : list Z) : Z := foldl (λ acc x, acc * 256 + x) 0 b.
(** the content of an integer of a request: any number of bytes up to eight *)
Definition ber_number (b : list Z) : Prop := bytes_ok b ∧ (length b ≤ 8)%nat.

Lemma get_INTEGER_bytes b mem pre rest acc :
  mem = pre ++ b ++ rest → bytes_ok b → 0 ≤ acc → (acc + 1) * 256 ^ zlen b ≤ 18446744073709551616 →
  get_INTEGER_loop (length b) mem (zlen pre) acc = Ok (foldl (λ acc x, acc * 256 + x) acc b).
Proof.
  intros Em HB. revert pre acc Em. induction HB as [|x b Hx HB IH]; intros pre acc Em Ha Hb; [done|].
  cbn [length get_INTEGER_loop foldl]. rewrite zlen_cons, Z.pow_add_r in Hb by (unfold zlen; lia). change (256 ^ 1) with 256 in Hb.
  assert (0 < 256 ^ zlen b) as HP by (apply Z.pow_pos_nonneg; unfold zlen; lia). unfold byte_ok in Hx.
  assert (rd mem (zlen pre) = Ok x) as -> by (rewrite Em; by apply rd_mid). cbn [res_bind].
  assert (Z.lor (u64 (Z.shiftl acc 8)) x = acc * 256 + x) as ->.
  { replace (u64 (Z.shiftl acc 8)) with (Z.shiftl acc 8); [by apply lor_shiftl_add|].
    unfold u64. rewrite Z.mod_small; rewrite Z.shiftl_mul_pow2 by lia; change (2 ^ 8) with 256; nia. }
  replace (zlen pre + 1) with (zlen (pre ++ [x])) by (by rewrite zlen_app).
  apply IH; [by rewrite <- app_assoc|lia|nia].
Qed.

Lemma get_INTEGER_number b mem pre rest :
  ber_number b → mem = pre ++ b ++ rest → get_INTEGER mem (zlen pre) (zlen b) = Ok (be_val b).
Proof.
  intros [HB Hl] Em. unfold get_INTEGER, be_val. replace (Z.to_nat (zlen b)) with (length b) by (unfold zlen; lia).
  apply (get_INTEGER_bytes b mem pre rest 0 Em HB); [lia|].
  assert (256 ^ zlen b ≤ 256 ^ 8) by (apply Z.pow_le_mono_r; unfold zlen; lia). change (256 ^ 8) with 18446744073709551616 in *. lia.
Qed.

Lemma be_val_nonneg b : bytes_ok b → 0 ≤ be_val b.
Proof.
  unfold be_val. assert (∀ acc, 0 ≤ acc → bytes_ok b → 0 ≤ foldl (λ acc x, acc * 256 + x) acc b) as H; [|intros HB; by apply H].
  induction b as [|x b IH]; intros acc Ha HB; [done|]. cbn [foldl]. pose proof (Forall_inv HB) as Hx. unfold byte_ok in Hx.
  apply IH; [lia|by apply Forall_inv_tail in HB].
Qed.

(** a number of 32 bits *)
Definition int32 (v : Z) : snmp_elem := snmp_integer si_integer v (4 + 2).
Definition u32_ok (v : Z) : Prop := 0 ≤ v < 4294967296.

Lemma zlen_tlv t c : zlen (tlv t c) = 2 + zlen c.
Proof. unfold tlv. rewrite !zlen_cons. lia. Qed.

Lemma zlen_be4 v : zlen (be_bytes 4 v) = 4.
Proof. reflexivity. Qed.

Lemma ber_int32 v : ber (int32 v) = tlv 2 (be_bytes 4 v).
Proof. reflexivity. Qed.

(** the type and the length of an item *)
Lemma rd_tlv mem pre t c rest :
  mem = pre ++ tlv t c ++ rest → rd mem (zlen pre) = Ok t ∧ rd mem (zlen pre + 1) = Ok (zlen c) ∧ zlen pre + 2 = zlen (pre ++ [t; zlen c]).
Proof.
  intros ->. unfold tlv. cbn [app]. split; [by rewrite rd_mid|]. split; [|by rewrite zlen_app].
  rewrite cons_middle, app_assoc. rewrite rd_mid; [done|by rewrite zlen_app].
Qed.

Section Get.
Context (sd : list snmp_data_type).

Lemma ber_loop_int fuel mem end_ pre b rest r g top fi fo :
  mem = pre ++ tlv 2 b ++ rest → ber_number b → zlen pre + 2 + zlen b ≤ end_ →
  ber_loop sd (S fuel) mem end_ (zlen pre) r g top fi fo =
    ber_loop sd fuel mem end_ (zlen (pre ++ tlv 2 b))
      (if negb (top =? 0) && fi then set_req_version r (s32 (be_val b)) else r) g top false fo.
Proof.
  intros Em Hv He. pose proof (zlen_nonneg b). destruct (rd_tlv mem pre 2 _ rest Em) as (R1 & R2 & R3).
  rewrite ber_loop_S, (proj2 (Z.ltb_lt (zlen pre) end_)) by lia. rewrite R1, R2. cbn [res_bind].
  rewrite (proj2 (Z.ltb_ge end_ _)) by lia. change (2 =? 2) with true. cbn iota.
  rewrite R3. rewrite (get_INTEGER_number b mem (pre ++ [2; zlen b]) rest Hv) by (rewrite Em, <- app_assoc; done).
  replace (zlen (pre ++ [2; zlen b]) + zlen b) with (zlen (pre ++ tlv 2 b))
    by (rewrite !zlen_app, zlen_tlv; change (zlen [2; zlen b]) with 2; lia).
  by destruct (negb (top =? 0) && fi).
Qed.

Lemma ber_loop_string fuel mem end_ pre c rest r g top fi fo :
  mem = pre ++ tlv 4 c ++ rest → zlen pre + 2 + zlen c ≤ end_ →
  ber_loop sd (S fuel) mem end_ (zlen pre) r g top fi fo =
    ber_loop sd fuel mem end_ (zlen (pre ++ tlv 4 c))
      (if negb (top =? 0) && fo then set_req_community r c else r) g top fi false.
Proof.
  intros Em He. pose proof (zlen_nonneg c). destruct (rd_tlv mem pre 4 c rest Em) as (R1 & R2 & R3).
  rewrite ber_loop_S, (proj2 (Z.ltb_lt (zlen pre) end_)) by lia. rewrite R1, R2. cbn [res_bind].
  rewrite (proj2 (Z.ltb_ge end_ _)) by lia. change (4 =? 2) with false. change (4 =? 4) with true. cbn iota.
  rewrite R3. assert (rd_range mem (zlen (pre ++ [4; zlen c])) (zlen c) = Ok c) as ->.
  { rewrite Em. replace (pre ++ tlv 4 c ++ rest) with ((pre ++ [4; zlen c]) ++ c ++ rest) by (by rewrite <- app_assoc).
    by apply rd_range_mid. }
  replace (zlen (pre ++ [4; zlen c]) + zlen c) with (zlen (pre ++ tlv 4 c))
    by (rewrite !zlen_app, zlen_tlv; change (zlen [4; zlen c]) with 2; lia).
  by destruct (negb (top =? 0) && fo).
Qed.

Lemma ber_loop_end fuel mem end_ r g top fi fo : ber_loop sd (S fuel) mem end_ end_ r g top fi fo = Ok (true, r).
Proof. rewrite ber_loop_S. by rewrite (proj2 (Z.ltb_ge end_ end_)) by lia. Qed.

(** the items of one binding of a GET request *)
Definition get_varbind (ids : list Z) : list Z := tlv 6 (43 :: (ids ≫= id_bytes)) ++ tlv 5 [].

Lemma process_varbind fuel mem pre ids rest r top :
  mem = pre ++ get_varbind ids ++ rest → Forall id_ok ids →
  process_BER sd (4 + fuel) mem (zlen pre) (zlen (get_varbind ids)) r false top =
    Ok (true, add_req_oid r (oid_text (1 :: 3 :: ids))).
Proof.
  intros Em Hids. unfold get_varbind in *. rewrite <- app_assoc in Em. set (v := 43 :: (ids ≫= id_bytes)) in *.
  pose proof (zlen_nonneg v). assert (zlen (tlv 6 v ++ tlv 5 []) = zlen v + 4) as Hz by (rewrite zlen_app, !zlen_tlv; unfold zlen; simpl; lia).
  rewrite Hz. change (4 + fuel)%nat with (S (S (S (S fuel)))). rewrite process_BER_S, (proj2 (Z.ltb_ge _ 2)) by lia.
  destruct (rd_tlv mem pre 6 v _ Em) as (R1 & R2 & R3).
  rewrite ber_loop_S, (proj2 (Z.ltb_lt (zlen pre) _)) by lia. rewrite R1, R2. cbn [res_bind].
  rewrite (proj2 (Z.ltb_ge (zlen pre + _) _)) by lia.
  change (6 =? 2) with false. change (6 =? 4) with false. change (6 =? 5) with false. change (6 =? 6) with true. cbn iota.
  rewrite R3. assert (get_OID mem (zlen (pre ++ [6; zlen v])) (zlen v) = Ok (Some (oid_text (1 :: 3 :: ids)))) as ->.
  { rewrite Em. replace (pre ++ tlv 6 v ++ tlv 5 [] ++ rest) with ((pre ++ [6; zlen v]) ++ v ++ tlv 5 [] ++ rest)
      by (by rewrite <- app_assoc). by apply get_OID_spec. }
  cbn [res_bind requested_oid].
  replace (zlen (pre ++ [6; zlen v]) + zlen v) with (zlen (pre ++ tlv 6 v))
    by (rewrite !zlen_app, zlen_tlv; change (zlen [6; zlen v]) with 2; lia).
  rewrite app_assoc in Em. destruct (rd_tlv mem (pre ++ tlv 6 v) 5 [] rest Em) as (S1 & S2 & S3).
  assert (zlen (pre ++ tlv 6 v) = zlen pre + 2 + zlen v) as Hz2 by (rewrite zlen_app, zlen_tlv; lia).
  rewrite ber_loop_S, (proj2 (Z.ltb_lt _ (zlen pre + _))) by lia. rewrite S1, S2. cbn [res_bind]. change (zlen (@nil Z)) with 0.
  rewrite (proj2 (Z.ltb_ge (zlen pre + _) _)) by lia.
  change (5 =? 2) with false. change (5 =? 4) with false. change (5 =? 5) with true. cbn iota.
  replace (zlen (pre ++ tlv 6 v) + 2 + 0) with (zlen pre + (zlen v + 4)) by lia. by rewrite ber_loop_end.
Qed.

Lemma vb_loop_spec l fuel mem pre rest r :
  mem = pre ++ (l ≫= (λ ids, tlv 0x30 (get_varbind ids))) ++ rest → Forall (Forall id_ok) l → (length l + 5 ≤ fuel)%nat →
  vb_loop sd fuel mem (zlen (pre ++ (l ≫= (λ ids, tlv 0x30 (get_varbind ids))))) (zlen pre) r false =
    Ok (true, foldl add_req_oid r ((λ ids, oid_text (1 :: 3 :: ids)) <$> l)).
Proof.
  intros Em Hl. revert fuel pre r Em. induction Hl as [|ids l Hids Hl IH]; intros fuel pre r Em Hf.
  { destruct fuel as [|fuel]; [simpl in Hf; lia|]. rewrite vb_loop_S.
    change (@nil (list Z) ≫= (λ ids, tlv 0x30 (get_varbind ids))) with (@nil Z). rewrite app_nil_r.
    by rewrite (proj2 (Z.ltb_ge _ _)) by lia. }
  rewrite bind_cons in *. cbn [length] in Hf. destruct fuel as [|fuel]; [lia|]. set (c := get_varbind ids) in *.
  set (more := l ≫= (λ ids, tlv 0x30 (get_varbind ids))) in *. rewrite <- app_assoc in Em.
  destruct (rd_tlv mem pre 0x30 c _ Em) as (R1 & R2 & R3). pose proof (zlen_nonneg c). pose proof (zlen_nonneg more).
  assert (zlen (pre ++ tlv 48 c ++ more) = zlen pre + 2 + zlen c + zlen more) as Hz by (rewrite !zlen_app, zlen_tlv; lia).
  rewrite vb_loop_S, (proj2 (Z.ltb_lt (zlen pre) _)) by lia. rewrite R1, R2. cbn [res_bind].
  rewrite (proj2 (Z.ltb_ge _ (zlen pre + 2 + _))) by lia. change (48 =? 48) with true. cbn iota. rewrite R3.
  replace fuel with (4 + (fuel - 4))%nat at 1 by lia.
  rewrite (process_varbind (fuel - 4) mem (pre ++ [48; zlen c]) ids (more ++ rest)) by (done || (rewrite Em, <- app_assoc; done)).
  cbn [res_bind].
  replace (zlen (pre ++ [48; zlen c]) + zlen c) with (zlen (pre ++ tlv 48 c))
    by (rewrite !zlen_app, zlen_tlv; change (zlen [48; zlen c]) with 2; lia).
  rewrite (app_assoc pre). rewrite IH; [done|by rewrite <- app_assoc|lia].
Qed.

(** the content of the PDU of a GET request: the request identifier, the error status and
    the error index, as the bytes of their integers, and the bindings *)
Definition get_pdu (id e1 e2 : list Z) (l : list (list Z)) : list Z :=
  tlv 2 id ++ tlv 2 e1 ++ tlv 2 e2 ++ tlv 0x30 (l ≫= (λ ids, tlv 0x30 (get_varbind ids))).

Lemma pdu_integer_spec mem pre b rest len :
  mem = pre ++ tlv 2 b ++ rest → ber_number b → 2 ≤ len →
  pdu_integer mem (zlen pre) len = Ok (Some (be_val b, zlen (pre ++ tlv 2 b))).
Proof.
  intros Em Hv Hl. destruct (rd_tlv mem pre 2 _ rest Em) as (R1 & R2 & R3).
  unfold pdu_integer, get_type_length. rewrite (proj2 (Z.ltb_ge len 2)) by lia. rewrite R1, R2. cbn [res_bind].
  change (negb (2 =? 2)) with false. cbn iota. rewrite R3.
  rewrite (get_INTEGER_number b mem (pre ++ [2; zlen b]) rest Hv) by (rewrite Em, <- app_assoc; done). cbn [res_bind].
  do 3 f_equal. rewrite !zlen_app, zlen_tlv. change (zlen [2; zlen b]) with 2. lia.
Qed.

Lemma process_PDU_spec fuel mem pre id e1 e2 l rest r :
  mem = pre ++ get_pdu id e1 e2 l ++ rest → ber_number id → ber_number e1 → ber_number e2 →
  Forall (Forall id_ok) l → (length l + 6 ≤ fuel)%nat →
  process_PDU sd fuel mem (zlen pre) (zlen (get_pdu id e1 e2 l)) r false =
    Ok (true, foldl add_req_oid (set_req_id r (be_val id)) ((λ ids, oid_text (1 :: 3 :: ids)) <$> l)).
Proof.
  intros Em Hid He1 He2 Hl Hf. destruct fuel as [|fuel]; [lia|]. rewrite process_PDU_S. unfold get_pdu in *.
  set (vbs := l ≫= (λ ids, tlv 48 (get_varbind ids))) in *. rewrite <- !app_assoc in Em.
  assert (2 ≤ zlen (tlv 2 id ++ tlv 2 e1 ++ tlv 2 e2 ++ tlv 48 vbs)) as H2.
  { rewrite !zlen_app, !zlen_tlv. pose proof (zlen_nonneg vbs). unfold zlen in *. lia. }
  unfold pdu_integers.
  rewrite (pdu_integer_spec mem pre id _ _ Em Hid H2). cbn [res_bind].
  rewrite app_assoc in Em. rewrite (pdu_integer_spec mem _ e1 _ _ Em He1 H2). cbn [res_bind].
  rewrite app_assoc in Em. rewrite (pdu_integer_spec mem _ e2 _ _ Em He2 H2). cbn [res_bind negb].
  rewrite app_assoc in Em. set (pre2 := ((pre ++ tlv 2 id) ++ tlv 2 e1) ++ tlv 2 e2) in *.
  destruct (rd_tlv mem pre2 48 vbs rest Em) as (R1 & R2 & R3). rewrite R1. cbn [res_bind]. change (negb (48 =? 48)) with false. cbn iota.
  rewrite R2. cbn [res_bind]. rewrite R3.
  replace (zlen (pre2 ++ [48; zlen vbs]) + zlen vbs) with (zlen ((pre2 ++ [48; zlen vbs]) ++ vbs)) by (by rewrite zlen_app).
  apply (vb_loop_spec l fuel mem (pre2 ++ [48; zlen vbs]) rest); [|done|lia]. rewrite Em. by rewrite <- app_assoc.
Qed.

(** an SNMP message as the agent sends it: version, community and a PDU with its
    bindings, every number in four bytes *)
Definition message (v : Z) (c : str) (tag id : Z) (bindings : list Z) : list Z :=
  tlv 0x30 (ber (int32 v) ++ tlv 4 c ++
    tlv tag (ber (int32 id) ++ ber (int32 0) ++ ber (int32 0) ++ tlv 0x30 bindings)).

(** a GET request, with the bytes of its four integers *)
Definition get_request (v : list Z) (c : str) (id e1 e2 : list Z) (l : list (list Z)) : list Z :=
  tlv 0x30 (tlv 2 v ++ tlv 4 c ++ tlv 0xa0 (get_pdu id e1 e2 l)).

(** a binding of the reply *)
Definition binding (iv : list Z * snmp_elem) : list Z := tlv 0x30 (tlv 6 (43 :: (iv.1 ≫= id_bytes)) ++ ber iv.2).

Lemma process_message fuel mem v c id e1 e2 l r :
  mem = get_request v c id e1 e2 l → ber_number v → ber_number id → ber_number e1 → ber_number e2 →
  Forall (Forall id_ok) l → (length l + 14 ≤ fuel)%nat →
  process_BER sd fuel mem 0 (zlen mem) r false 2 =
    Ok (true, foldl add_req_oid (set_req_id (set_req_community (set_req_version r (s32 (be_val v))) c) (be_val id))
                ((λ ids, oid_text (1 :: 3 :: ids)) <$> l)).
Proof.
  intros Em Hv Hid He1 He2 Hl Hf. unfold get_request in Em. set (pdu := get_pdu id e1 e2 l) in *.
  set (content := tlv 2 v ++ tlv 4 c ++ tlv 160 pdu) in *.
  pose proof (zlen_nonneg c). pose proof (zlen_nonneg pdu). pose proof (zlen_nonneg v).
  assert (zlen content = 6 + zlen v + zlen c + zlen pdu) as Hz
    by (unfold content; rewrite !zlen_app, !zlen_tlv; lia).
  assert (zlen mem = 2 + zlen content) as Hm by (rewrite Em; by rewrite zlen_tlv).
  assert (mem = [] ++ tlv 48 content ++ []) as E0 by (rewrite app_nil_r; done).
  destruct (rd_tlv mem [] 48 content [] E0) as (R1 & R2 & _). change (zlen []) with 0 in *.
  destruct fuel as [|[|[|[|[|[|fuel]]]]]]; try lia. rewrite process_BER_S, (proj2 (Z.ltb_ge _ 2)) by lia.
  rewrite ber_loop_S, (proj2 (Z.ltb_lt 0 _)) by lia. rewrite R1, R2. cbn [res_bind].
  rewrite (proj2 (Z.ltb_ge (0 + zlen mem) _)) by lia.
  change (48 =? 2) with false. change (48 =? 4) with false. change (48 =? 5) with false. change (48 =? 6) with false.
  change (48 =? 48) with true. cbn iota. rewrite process_BER_S, (proj2 (Z.ltb_ge _ 2)) by lia.
  change (0 + 2) with (zlen [48; zlen content]).
  assert (mem = [48; zlen content] ++ tlv 2 v ++ tlv 4 c ++ tlv 160 pdu ++ []) as E1 by (rewrite app_nil_r, Em; done).
  rewrite (ber_loop_int _ mem _ _ v _ _ _ _ _ _ E1) by (done || (change (zlen [48; zlen content]) with 2; lia)).
  rewrite app_assoc in E1. set (p1 := [48; zlen content] ++ tlv 2 v) in *. change (zlen [48; zlen content]) with 2.
  assert (zlen p1 = 4 + zlen v) as Hp1 by (unfold p1; rewrite zlen_app, zlen_tlv; change (zlen [48; zlen content]) with 2; lia).
  rewrite (ber_loop_string _ mem _ p1 c _ _ _ _ _ _ E1) by lia.
  change (negb (2 - 1 =? 0) && true) with true. cbn iota.
  rewrite app_assoc in E1. set (p2 := p1 ++ tlv 4 c) in *.
  assert (zlen p2 = 6 + zlen v + zlen c) as Hp2 by (unfold p2; rewrite zlen_app, zlen_tlv; lia).
  destruct (rd_tlv mem p2 160 pdu _ E1) as (S1 & S2 & S3).
  rewrite ber_loop_S, (proj2 (Z.ltb_lt (zlen p2) _)) by lia. rewrite S1, S2. cbn [res_bind].
  rewrite (proj2 (Z.ltb_ge (2 + _) _)) by lia.
  change (160 =? 2) with false. change (160 =? 4) with false. change (160 =? 5) with false. change (160 =? 6) with false.
  change (160 =? 48) with false. change (160 =? 160) with true. change (160 =? 161) with false. cbn [orb]. cbn iota.
  rewrite S3. unfold pdu at 2.
  rewrite (process_PDU_spec _ mem (p2 ++ [160; zlen pdu]) id e1 e2 l []) by (done || lia || (rewrite E1, <- app_assoc; done)).
  fold pdu. cbn [res_bind negb].
  replace (zlen (p2 ++ [160; zlen pdu]) + zlen pdu) with (2 + zlen content) by (rewrite zlen_app; change (zlen [160; zlen pdu]) with 2; lia).
  destruct fuel as [|fuel]; [lia|]. rewrite ber_loop_end. cbn [res_bind negb].
  replace (2 + zlen content) with (0 + zlen mem) by lia. by rewrite ber_loop_end.
Qed.
End Get.

(** ** The reply *)

Lemma foldl_add_req_oid r l :
  foldl add_req_oid r l = OidReq (oids r ++ l) (req_id r) (err r) (err_idx r) (version r) (community r).
Proof.
  revert r. induction l as [|o l IH]; intros r; cbn [foldl].
  - rewrite app_nil_r. by destruct r.
  - rewrite IH. cbn. by rewrite <- app_assoc.
Qed.

Lemma behind_last_dot_app a b : (dot ∉ b) → behind_last_dot (a ++ dot :: b) = Some b.
Proof.
  intros Hb. assert (behind_last_dot b = None) as N.
  { induction b as [|x b IH]; [done|]. apply not_elem_of_cons in Hb as [Hx Hb]. cbn [behind_last_dot]. rewrite IH by done.
    by rewrite (proj2 (Z.eqb_neq x dot)) by congruence. }
  induction a as [|x a IH]; cbn [app behind_last_dot]; [by rewrite N, Z.eqb_refl|by rewrite IH].
Qed.
Lemma before_last_dot_app a b : before_last_dot (a ++ dot :: b) b = a.
Proof.
  unfold before_last_dot. rewrite length_app. cbn [length]. replace (length a + S (length b) - length b - 1)%nat with (length a) by lia.
  apply take_app_length.
Qed.

Section Reply.
Context (sd : list snmp_data_type) (counters : Z → Z) (now : Z).

Local Abbreviation look ids := (find_by_oid counters now sd (oid_text (1 :: 3 :: ids))).

(** the value of an identifier: what the tree has, of a node without a value null; an
    identifier that is not there but ends in 0 is looked up without the 0; null when nothing
    is found *)
Definition oid_answer (ids : list Z) (v : snmp_elem) : Prop :=
  (∃ o, look ids = Ok (Some o) ∧ v = default snmp_null o) ∨
  (look ids = Ok None ∧
   ((∃ ids' o, ids = ids' ++ [0] ∧ look ids' = Ok o ∧ v = default snmp_null (mjoin o)) ∨
    (last ids ≠ Some 0 ∧ v = snmp_null))).

Definition has_value (iv : list Z * snmp_elem) : Prop :=
  Forall id_ok iv.1 ∧ iv.1 ≠ [] ∧ fits iv.2 ∧ oid_answer iv.1 iv.2.

Lemma oid_text_snoc ids c : oid_text (1 :: 3 :: ids ++ [c]) = oid_text (1 :: 3 :: ids) ++ dot :: fmt_dec c.
Proof. rewrite !oid_text_bind, !bind_cons, bind_app. cbn [mbind list_bind]. rewrite <- !app_assoc. cbn [app]. by rewrite app_nil_r. Qed.

Lemma varbind_value_spec ids v : Forall id_ok ids → ids ≠ [] → oid_answer ids v → varbind_value sd counters now (oid_text (1 :: 3 :: ids)) = Ok v.
Proof.
  intros Hids Hne [(o & E & ->)|(E & H)]; unfold varbind_value; rewrite E; cbn [res_bind]; [by destruct o|].
  destruct (exists_last Hne) as (ids' & c & ->). apply Forall_app in Hids as [_ Hc%Forall_inv].
  destruct (fmt_dec_field c Hc) as [Hdot _]. rewrite oid_text_snoc, behind_last_dot_app by done.
  assert (fmt_dec c = [48] ↔ c = 0) as H0.
  { split; [|by intros ->]. intros F. destruct (strtol_id c [] Hc) as [S|[_ S]]; [|done]. rewrite F in S. symmetry. exact S. }
  destruct H as [(ids2 & o & Ei & E2 & ->)|(Hl & ->)].
  - apply app_inj_tail in Ei as [-> ->]. rewrite bool_decide_eq_true_2 by by apply H0.
    rewrite before_last_dot_app, E2. cbn [res_bind]. by destruct o as [[]|].
  - rewrite last_snoc in Hl. rewrite bool_decide_eq_false_2; [done|]. rewrite H0. congruence.
Qed.

Definition binding_elem (iv : list Z * snmp_elem) : snmp_elem :=
  snmp_sequence [snmp_oid (43 :: (iv.1 ≫= id_bytes)) (u8 (zlen (43 :: (iv.1 ≫= id_bytes)) + 2)); iv.2].

Lemma gen_varbinds_spec lv :
  Forall has_value lv →
  gen_varbinds sd counters now ((λ ids, oid_text (1 :: 3 :: ids)) <$> lv.*1) = Ok (binding_elem <$> lv).
Proof.
  induction 1 as [|iv lv (H1 & H2 & _ & H3) _ IH]; [done|]. rewrite !fmap_cons. cbn [gen_varbinds].
  rewrite new_snmp_oid_spec by done. cbn [res_bind]. rewrite (varbind_value_spec _ iv.2) by done. cbn [res_bind]. rewrite IH. done.
Qed.

Lemma binding_elem_ber lv : (binding_elem <$> lv) ≫= ber = lv ≫= binding.
Proof.
  induction lv as [|iv lv IH]; [done|]. rewrite fmap_cons, !bind_cons, IH. f_equal.
  unfold binding, binding_elem. cbn [ber]. rewrite !bind_cons. cbn [ber]. change (@nil snmp_elem ≫= ber) with (@nil Z).
  by rewrite app_nil_r.
Qed.

Lemma binding_elem_fits lv :
  Forall has_value lv → zlen (lv ≫= binding) ≤ 253 → Forall fits (binding_elem <$> lv).
Proof.
  induction 1 as [|iv lv (H1 & H2 & H3 & _) _ IH]; intros Hz; [constructor|].
  rewrite bind_cons, zlen_app in Hz. rewrite fmap_cons. pose proof (zlen_nonneg (lv ≫= binding)).
  unfold binding in Hz at 1. rewrite zlen_tlv, zlen_app, zlen_tlv in Hz. pose proof (zlen_nonneg (ber iv.2)).
  set (v := 43 :: (iv.1 ≫= id_bytes)) in *. pose proof (zlen_nonneg v).
  apply Forall_cons_2; [|apply IH; lia].
  unfold binding_elem. cbn [fits foldr]. rewrite !bind_cons. cbn [ber]. change (@nil snmp_elem ≫= ber) with (@nil Z).
  fold v. rewrite app_nil_r, zlen_app, zlen_tlv. 
  replace (u8 (zlen v + 2)) with (zlen v + 2) by (unfold u8; rewrite Z.mod_small; lia). split_and!; done || lia.
Qed.

Lemma zlen_message v c tag id b : zlen (message v c tag id b) = 32 + zlen c + zlen b.
Proof.
  unfold message. rewrite zlen_tlv, !zlen_app, !zlen_tlv, !zlen_app, zlen_tlv.
  change (zlen (ber (int32 v))) with 6. change (zlen (ber (int32 id))) with 6. change (zlen (ber (int32 0))) with 6. lia.
Qed.

Lemma zlen_get_request v c id e1 e2 l : 14 + Z.of_nat (length l) ≤ zlen (get_request v c id e1 e2 l).
Proof.
  unfold get_request, get_pdu. rewrite zlen_tlv, !zlen_app, !zlen_tlv, !zlen_app, !zlen_tlv.
  assert (Z.of_nat (length l) ≤ zlen (l ≫= (λ ids, tlv 48 (get_varbind ids)))); [|unfold zlen in *; lia].
  induction l as [|x l IH]; [done|]. rewrite bind_cons, zlen_app, zlen_tlv. pose proof (zlen_nonneg (get_varbind x)). cbn [length]. lia.
Qed.

(** the community of the reply *)
Definition reply_community (c : str) : str := if bool_decide (c = []) then str_public else c.

Definition reply_message (v : Z) (c : str) (id : Z) (lv : list (list Z * snmp_elem)) : snmp_elem :=
  snmp_sequence [int32 v; snmp_octet_string c (zlen c + 2);
    snmp_pdu 0xa2 [int32 id; int32 0; int32 0; snmp_sequence (binding_elem <$> lv)]].

Lemma reply_elem_spec v c id lv :
  0 ≤ v < 2147483648 → u32_ok id → zlen (reply_community c) ≤ 253 → Forall has_value lv →
  reply_elem sd counters now (OidReq ((λ ids, oid_text (1 :: 3 :: ids)) <$> lv.*1) id 0 0 v c) =
    Ok (reply_message v (reply_community c) id lv).
Proof.
  intros Hv Hid Hz Hlv. unfold reply_elem. cbn [community oids version req_id err err_idx].
  fold (reply_community c). set (c' := reply_community c) in *. unfold new_snmp_octet_string. rewrite rd_range_all. cbn [res_bind].
  rewrite gen_varbinds_spec by done. cbn [res_bind]. pose proof (zlen_nonneg c'). unfold u32_ok in Hid.
  replace (u8 (zlen c' + 2)) with (zlen c' + 2) by (unfold u8; rewrite Z.mod_small; lia).
  replace (u64 v) with v by (unfold u64; rewrite Z.mod_small; lia). unfold new_snmp_integer.
  by rewrite !(proj2 (Z.leb_le _ 4294967295)) by (lia || done).
Qed.

Lemma reply_message_ber v c id lv : ber (reply_message v c id lv) = message v c 0xa2 id (lv ≫= binding).
Proof.
  unfold reply_message, message. cbn [ber]. rewrite !bind_cons. cbn [ber]. rewrite !bind_cons. cbn [ber].
  change (@nil snmp_elem ≫= ber) with (@nil Z). rewrite !app_nil_r, binding_elem_ber. done.
Qed.

Lemma reply_message_fits v c id lv :
  0 ≤ v → 0 ≤ id → Forall has_value lv → zlen (message v c 0xa2 id (lv ≫= binding)) ≤ 255 → fits (reply_message v c id lv).
Proof.
  intros Hv Hid Hlv Hz. pose proof Hz as Hz'. rewrite zlen_message in Hz'. pose proof (zlen_nonneg c). pose proof (zlen_nonneg (lv ≫= binding)).
  rewrite <- reply_message_ber in Hz. unfold reply_message in *. cbn [ber] in Hz. rewrite zlen_tlv in Hz. cbn [fits foldr int32].
  split_and!; try (done || lia).
  - apply fits_Forall, binding_elem_fits; [done|lia].
  - rewrite binding_elem_ber. lia.
  - rewrite !bind_cons. cbn [ber]. change (@nil snmp_elem ≫= ber) with (@nil Z).
    rewrite !zlen_app, zlen_tlv, binding_elem_ber, !ber_int32, !zlen_tlv, !zlen_be4. change (zlen (@nil Z)) with 0. lia.
Qed.

End Reply.

(** version 1, "public", request 77 in one byte; 1.3.6.1.5 and 1.3.6.2 are in the tree, 1.3.6.2.0
    is found without the 0, 1.3.7 is not there *)
Definition ex_answers : list (list Z * snmp_elem) :=
  [([6; 1; 5], new_snmp_integer si_integer 7); ([6; 2], snmp_octet_string [88] 3); ([6; 2; 0], snmp_octet_string [88] 3);
   ([7], snmp_null)].


(** a reply that does not fit is sent without the part that does not fit: here without
    the bindings, and with no error *)
Example long_reply_truncated :
  snmp_input ex_tree (λ _, 0) 0 (get_request [1] str_public [77] [0] [0] (replicate 30 [7])) =
    Ok ([snmp_requests], Some (tlv 0x30 (ber (int32 1) ++ tlv 4 str_public ++ tlv 0xa2 (ber (int32 77) ++ ber (int32 0) ++ ber (int32 0))))).
Proof. vm_compute. reflexivity. Qed.

(** a negative request identifier in fewer than four bytes comes back as another one *)
Example negative_id_changed :
  snmp_input ex_tree (λ _, 0) 0 (get_request [1] str_public [255] [0] [0] []) =
    Ok ([snmp_requests], Some (message 1 str_public 0xa2 255 [])).
Proof. vm_compute. reflexivity. Qed.

(** a length in the long form of BER is not understood *)
Example long_form_refused :
  snmp_input ex_tree (λ _, 0) 0 ([0x30; 0x81; 27] ++ drop 2 (get_request [1] str_public [77] [0] [0] [])) =
    Ok ([snmp_requests; snmp_invalid], None).
Proof. vm_compute. reflexivity. Qed.

Lemma snmp_input_ends_witness : bytes_ok [0x30; 0x80; 0x30; 0xff] ∧ ends (snmp_input ex_tree (λ _, 0) 0 [0x30; 0x80; 0x30; 0xff]).
Proof. split; [solve_bytes|]. apply (snmp_input_ends ex_tree). solve_bytes. Defined.
