(* ===== verification/TcpSegment.v ===== *)
(** * TCP segments (src/tcp.cpp)

    The header of a received segment, the options, [send_segment] and
    [send_rst_for_port].  What the code takes from its environment while it
    handles one event is in [tcp_env]: the network layer ([None]: not attached
    yet) with its address, its maximum packet size and the result of its
    [transmit_packet], and the clocks, which stand still during an event. *)
From S2P Require Import Prelude AnyAddr Checksum Net AddressCache Arp Router Ipv4.

Record network := Network { nw_addr : any_addr; nw_max_packet_size : Z; nw_transmit : datagram → bool }.
Record tcp_env := TcpEnv { env_idev : option network; env_us : Z; env_time : Z }.

Definition FLAG_ACK : Z := 16.
Definition FLAG_RST : Z := 4.
Definition FLAG_SYN : Z := 2.
Definition FLAG_FIN : Z := 1.

(** ** Receiving *)

Record segment := Segment {
  sg_src_port : Z; sg_dst_port : Z;
  sg_seq : Z; sg_ack_to : Z;
  sg_header_size : Z; sg_win_size : Z;
  sg_fin : bool; sg_syn : bool; sg_rst : bool; sg_ack : bool;
}.

(** the fields at the start of [packet_handler] *)
Definition parse_segment (p : list Z) : res segment :=
  let* f := rd p 13 in
  let* p0 := rd p 0 in
  let* p1 := rd p 1 in
  let* p2 := rd p 2 in
  let* p3 := rd p 3 in
  let* p4 := rd p 4 in
  let* p5 := rd p 5 in
  let* p6 := rd p 6 in
  let* p7 := rd p 7 in
  let* p8 := rd p 8 in
  let* p9 := rd p 9 in
  let* p10 := rd p 10 in
  let* p11 := rd p 11 in
  let* p12 := rd p 12 in
  let* p14 := rd p 14 in
  let* p15 := rd p 15 in
  Ok (Segment (join16 p0 p1) (join16 p2 p3) (join32 p4 p5 p6 p7) (join32 p8 p9 p10 p11)
        (Z.shiftr p12 4 * 4) (join16 p14 p15)
        (negb (Z.land f 1 =? 0)) (negb (Z.land f 2 =? 0)) (negb (Z.land f 4 =? 0)) (negb (Z.land f 16 =? 0))).

(** the loop over the options: [cur] and [end_] are offsets in the packet *)
Fixpoint parse_options (fuel : nat) (p : list Z) (flag_ack : bool) (end_ cur TSecr : Z) : res Z :=
  if end_ - 2 <? cur then Ok TSecr
  else
    match fuel with
    | O => Err out_of_fuel
    | S fuel =>
        let* kind := rd p cur in
        let* TSecr :=
          (if (kind =? 8) && flag_ack && (6 <=? end_ - cur) then
             let* b2 := rd p (cur + 2) in
             let* b3 := rd p (cur + 3) in
             let* b4 := rd p (cur + 4) in
             let* b5 := rd p (cur + 5) in
             Ok (join32 b2 b3 b4 b5)
           else Ok TSecr) in
        if (kind =? 0) || (kind =? 1) then parse_options fuel p flag_ack end_ (cur + 1) TSecr
        else
          let* len := rd p (cur + 1) in
          parse_options fuel p flag_ack end_ (cur + len) TSecr
    end.

(** a header has at most 60 bytes, so at most 39 options *)
Definition options_fuel : nat := 64.

Definition segment_options (p : list Z) (sg : segment) : res Z :=
  parse_options options_fuel p (sg_ack sg) (sg_header_size sg) 20 0.

(** ** Sending *)

(** the segment before its checksum is stored; [my_seq_nr] may be a null pointer *)
Definition segment_header (my_port peer_port : Z) (my_seq_nr : option Z) (ack_to flags us TSecr : Z) : list Z :=
  [u8 (Z.shiftr my_port 8); Z.land my_port 255; u8 (Z.shiftr peer_port 8); Z.land peer_port 255] ++
  match my_seq_nr with Some nr => be32 nr | None => [0; 0; 0; 0] end ++
  be32 ack_to ++ [128; u8 flags; 255; 255; 0; 0; 0; 0] ++
  [8; 10] ++ be32 us ++ be32 TSecr ++ [1; 0].

Definition segment_bytes (env : tcp_env) (my_addr : any_addr) (my_port : Z) (peer_addr : any_addr) (peer_port : Z)
    (flags ack_to : Z) (my_seq_nr : option Z) (data : list Z) (TSecr : Z) : res (list Z) :=
  let temp := segment_header my_port peer_port my_seq_nr ack_to flags (env_us env) TSecr ++ data in
  let temp_len := 20 + 12 + zlen data in
  let* checksum := tcp_udp_checksum peer_addr my_addr true temp temp_len in
  Ok (put16 temp 16 checksum).

(** [*my_seq_nr] after the segment *)
Definition advance_seq (my_seq_nr : option Z) (flags data_len : Z) : option Z :=
  match my_seq_nr with
  | Some nr =>
      let nr := u32 (nr + data_len) in
      Some (if negb (Z.land flags FLAG_FIN =? 0) || negb (Z.land flags FLAG_SYN =? 0) then u32 (nr + 1) else nr)
  | None => None
  end.

(** the result, the datagram that was sent, [*my_seq_nr] and the new
    [e_last_pkt_ts] ([None]: not changed) *)
Definition send_segment (env : tcp_env) (my_addr : any_addr) (my_port : Z) (peer_addr : any_addr) (peer_port : Z)
    (flags ack_to : Z) (my_seq_nr : option Z) (data : list Z) (TSecr : Z)
  : res (bool * list datagram * option Z * option Z) :=
  match env_idev env with
  | None => Ok (false, [], my_seq_nr, None)
  | Some idev =>
      let* temp := segment_bytes env my_addr my_port peer_addr peer_port flags ack_to my_seq_nr data TSecr in
      let dg := Datagram None peer_addr my_addr 0x06 temp None in
      Ok (nw_transmit idev dg, [dg], advance_seq my_seq_nr flags (zlen data), Some (env_us env))
  end.

(** a RST for a segment that belongs to no session *)
Definition send_rst_for_port (env : tcp_env) (pkt : packet) (dst_port src_port : Z) : res (list datagram) :=
  match env_idev env with
  | None => Ok []
  | Some idev =>
      let p := pkt_data pkt in
      let* seq := rd_range p 8 4 in
      let* p4 := rd p 4 in
      let* p5 := rd p 5 in
      let* p6 := rd p 6 in
      let* p7 := rd p 7 in
      let new_ack_nr := u32 (join32 p4 p5 p6 p7 + 1) in
      let temp := [u8 (Z.shiftr dst_port 8); Z.land dst_port 255; u8 (Z.shiftr src_port 8); Z.land src_port 255] ++
        seq ++ be32 new_ack_nr ++ [80; FLAG_RST; 0; 0; 0; 0; 0; 0] in
      let* checksum := tcp_udp_checksum (pkt_src pkt) (pkt_dst pkt) true temp 20 in
      Ok [Datagram None (pkt_src pkt) (pkt_dst pkt) 0x06 (put16 temp 16 checksum) None]
  end.

(** [hash_address], the id of a session *)
Definition hash_address (a : any_addr) (local_port peer_port : Z) : res Z :=
  let* h := get_hash a in
  Ok (Z.lxor (Z.lxor h (u64 (Z.shiftl (u64 local_port) 32))) (u64 (Z.shiftl (u64 peer_port) 48))).

(** ** The option loop *)

Section Options.
Context (p : list Z) (ack : bool) (end_ : Z).

(** the time stamp that an iteration at [cur] reads, if it reads one, lies in
    the packet *)
Definition stamp_inside (kind cur : Z) : Prop :=
  kind = 8 → ack = true → 6 ≤ end_ - cur → cur + 6 ≤ zlen p.

(** an iteration that reads nothing outside the packet goes from [cur] to
    [cur'] *)
Inductive option_step (cur : Z) : Z → Prop :=
  | step_pad kind :
      cur ≤ end_ - 2 → rd p cur = Ok kind → kind = 0 ∨ kind = 1 → option_step cur (cur + 1)
  | step_option kind len :
      cur ≤ end_ - 2 → rd p cur = Ok kind → kind ≠ 0 → kind ≠ 1 → stamp_inside kind cur →
      rd p (cur + 1) = Ok len → option_step cur (cur + len).

Definition option_next (cur cur' : Z) : Prop := option_step cur cur' ∧ cur < cur'.

(** what the options from [cur] on lead to: the end of the header, an option
    of length 0, or a byte that is not in the packet *)
Definition options_end (cur : Z) : Prop := ∃ c, rtc option_next cur c ∧ end_ - 2 < c.
Definition options_stuck (cur : Z) : Prop := ∃ c, rtc option_next cur c ∧ option_step c c.
Definition options_overrun (cur : Z) : Prop :=
  ∃ c, rtc option_next cur c ∧ c ≤ end_ - 2 ∧ ∀ c', ¬ option_step c c'.

Context (HB : bytes_ok p).

Lemma rd_or k : 0 ≤ k → (k < zlen p ∧ ∃ b, rd p k = Ok b ∧ byte_ok b) ∨ (zlen p ≤ k ∧ rd p k = Err bad_access).
Proof.
  intros Hk. destruct (Z.lt_ge_cases k (zlen p)) as [H|H].
  - left. destruct (rd_in_range p k) as [b Hb]; [lia|]. split; [done|]. exists b. split; [done|]. by eapply rd_byte_ok.
  - right. split; [done|]. unfold rd, zlen in *. rewrite (proj2 (Z.ltb_ge _ _)) by lia.
    by rewrite lookup_ge_None_2 by lia.
Qed.

Lemma option_step_below cur cur' : option_step cur cur' → cur ≤ end_ - 2.
Proof. by destruct 1. Qed.

Lemma option_step_ge cur cur' : option_step cur cur' → cur ≤ cur'.
Proof.
  destruct 1 as [|kind len _ _ _ _ _ Hl]; [lia|]. assert (byte_ok len) by (by eapply rd_byte_ok).
  unfold byte_ok in *. lia.
Qed.

Lemma option_next_le cur c : rtc option_next cur c → cur ≤ c.
Proof. induction 1 as [|? ? ? [_ ?] _ ?]; lia. Qed.

(** the time stamp part of an iteration, of which the loop keeps the result *)
Definition option_stamp (kind cur ts : Z) : res Z :=
  if (kind =? 8) && ack && (6 <=? end_ - cur) then
    let* b2 := rd p (cur + 2) in
    let* b3 := rd p (cur + 3) in
    let* b4 := rd p (cur + 4) in
    let* b5 := rd p (cur + 5) in Ok (join32 b2 b3 b4 b5)
  else Ok ts.

Lemma option_stamp_cases kind cur ts :
  0 ≤ cur →
  (stamp_inside kind cur ∧ ∃ ts', option_stamp kind cur ts = Ok ts') ∨
  (¬ stamp_inside kind cur ∧ kind = 8 ∧ option_stamp kind cur ts = Err bad_access).
Proof.
  intros Hc. unfold option_stamp, stamp_inside.
  destruct (Z.eqb_spec kind 8) as [->|]; cbn [andb]; [|left; split; [done|eauto]].
  destruct ack; cbn [andb]; [|left; split; [done|eauto]].
  destruct (Z.leb_spec 6 (end_ - cur)); [|left; split; [lia|eauto]].
  destruct (rd_or (cur + 2)) as [(? & ? & -> & _)|(? & ->)]; [lia| |right; split_and!; [lia|done..]].
  destruct (rd_or (cur + 3)) as [(? & ? & -> & _)|(? & ->)]; [lia| |right; split_and!; [lia|done..]].
  destruct (rd_or (cur + 4)) as [(? & ? & -> & _)|(? & ->)]; [lia| |right; split_and!; [lia|done..]].
  destruct (rd_or (cur + 5)) as [(? & ? & -> & _)|(? & ->)]; [lia| |right; split_and!; [lia|done..]].
  left. split; [lia|]. cbn [res_bind]. eauto.
Qed.

Lemma parse_options_unfold fuel cur ts :
  cur ≤ end_ - 2 →
  parse_options (S fuel) p ack end_ cur ts =
    (let* kind := rd p cur in
     let* ts' := option_stamp kind cur ts in
     if (kind =? 0) || (kind =? 1) then parse_options fuel p ack end_ (cur + 1) ts'
     else let* len := rd p (cur + 1) in parse_options fuel p ack end_ (cur + len) ts').
Proof. intros H. cbn [parse_options]. by rewrite (proj2 (Z.ltb_ge _ _)). Qed.

(** an iteration moves on, or reads outside the packet *)
Lemma option_iteration cur ts :
  0 ≤ cur ≤ end_ - 2 →
  (∃ cur' ts', option_step cur cur' ∧
     ∀ fuel, parse_options (S fuel) p ack end_ cur ts = parse_options fuel p ack end_ cur' ts') ∨
  ((∀ cur', ¬ option_step cur cur') ∧ zlen p < end_ ∧
     ∀ fuel, parse_options (S fuel) p ack end_ cur ts = Err bad_access).
Proof.
  intros Hc. setoid_rewrite parse_options_unfold; [|lia..].
  destruct (rd_or cur) as [(Hin & kind & Hk & _)|(? & Hk)]; [lia| |]; rewrite Hk; cbn [res_bind].
  2:{ right. split_and!; [|lia|done]. intros c' Hs. destruct Hs; congruence. }
  destruct (option_stamp_cases kind cur ts) as [(Hst & ts' & ->)|(Hst & -> & ->)]; [lia| |]; cbn [res_bind].
  2:{ right. split_and!; [|unfold stamp_inside in Hst; destruct ack; lia|done].
      intros c' Hs. destruct Hs as [? _ Hk' ?|? ? _ Hk' _ _ ? _]; rewrite Hk in Hk'; injection Hk' as <-; [lia|done]. }
  destruct ((kind =? 0) || (kind =? 1)) eqn:E.
  { left. exists (cur + 1), ts'. split; [|done]. apply (step_pad _ kind); [lia|done|].
    apply orb_true_iff in E as [E|E]; apply Z.eqb_eq in E; auto. }
  apply orb_false_iff in E as [E0%Z.eqb_neq E1%Z.eqb_neq].
  destruct (rd_or (cur + 1)) as [(? & len & Hl & _)|(? & Hl)]; [lia| |]; rewrite Hl; cbn [res_bind].
  - left. exists (cur + len), ts'. split; [|done]. apply (step_option _ kind); [lia|done..].
  - right. split_and!; [|lia|done]. intros c' Hs. destruct Hs as [? _ Hk' ?|? ? _ Hk' _ _ _ ?]; rewrite Hk in Hk'; injection Hk' as <-; [lia|congruence].
Qed.

Lemma option_step_inj cur c1 c2 : option_step cur c1 → option_step cur c2 → c1 = c2.
Proof.
  intros Hs1 Hs2. destruct Hs1 as [? _ E1 ?|? ? _ E1 ? ? _ L1], Hs2 as [? _ E2 ?|? ? _ E2 ? ? _ L2];
    rewrite E1 in E2; injection E2 as <-; [done|lia|lia|congruence].
Qed.

(** the loop follows the options *)
Lemma parse_options_next cur c ts :
  rtc option_next cur c → 0 ≤ cur →
  ∃ n ts', Z.of_nat n ≤ c - cur ∧ cur ≤ c ∧
    ∀ fuel, parse_options (n + fuel) p ack end_ cur ts = parse_options fuel p ack end_ c ts'.
Proof.
  intros Hr. revert ts. induction Hr as [c|cur c1 c [Hs Hlt] _ IH]; intros ts Hpos.
  { exists 0%nat, ts. split_and!; [lia|lia|done]. }
  pose proof (option_step_below _ _ Hs).
  destruct (option_iteration cur ts) as [(c' & ts' & Hs' & Hp)|(Hno & _)]; [lia| |by destruct (Hno c1)].
  rewrite (option_step_inj _ _ _ Hs' Hs) in Hp. destruct (IH ts') as (n & ts2 & Hn & Hle & Hq); [lia|].
  exists (S n), ts2. split_and!; [lia|lia|]. intros fuel. cbn [plus]. by rewrite Hp, Hq.
Qed.

(** within the fuel the loop ends, at the end of the header *)
Lemma parse_options_end cur ts fuel :
  options_end cur → 0 ≤ cur → end_ - cur ≤ Z.of_nat fuel → ∃ ts', parse_options fuel p ack end_ cur ts = Ok ts'.
Proof.
  intros (c & Hr & He) Hpos. revert ts fuel. induction Hr as [c|cur c1 c [Hs Hlt] _ IH]; intros ts fuel Hf.
  { exists ts. destruct fuel; cbn [parse_options]; by rewrite (proj2 (Z.ltb_lt _ _)). }
  pose proof (option_step_below _ _ Hs). destruct fuel as [|fuel]; [lia|].
  destruct (option_iteration cur ts) as [(c' & ts' & Hs' & Hp)|(Hno & _)]; [lia| |by destruct (Hno c1)].
  rewrite Hp, (option_step_inj _ _ _ Hs' Hs). apply IH; lia.
Qed.

Lemma parse_options_stuck cur ts fuel :
  options_stuck cur → 0 ≤ cur → parse_options fuel p ack end_ cur ts = Err out_of_fuel.
Proof.
  intros (c & Hr & Hs0) Hpos.
  assert (∀ cur, rtc option_next cur c → cur ≤ end_ - 2 ∧ cur ≤ c) as Hbelow.
  { intros d Hd%option_next_le. pose proof (option_step_below _ _ Hs0). lia. }
  revert cur ts Hr Hpos. induction fuel as [|fuel IH]; intros cur ts Hr Hpos.
  { cbn [parse_options]. rewrite (proj2 (Z.ltb_ge _ _)); [done|]. by apply Hbelow. }
  destruct (Hbelow cur Hr) as [Hb _].
  assert (∃ c', option_step cur c' ∧ cur ≤ c' ∧ rtc option_next c' c) as (c' & Hs & Hle & Hr').
  { inversion Hr as [|? c1 ? [Hs Hlt] Hr1]; subst; [by exists c; split_and!; [|lia|constructor]|].
    exists c1. split_and!; [done|lia|done]. }
  destruct (option_iteration cur ts) as [(c2 & ts' & Hs' & Hp)|(Hno & _)]; [lia| |by destruct (Hno c')].
  rewrite Hp, (option_step_inj _ _ _ Hs' Hs). apply IH; [done|lia].
Qed.

Lemma parse_options_overrun cur ts fuel :
  options_overrun cur → 0 ≤ cur → end_ - cur ≤ Z.of_nat fuel →
  zlen p < end_ ∧ parse_options fuel p ack end_ cur ts = Err bad_access.
Proof.
  intros (c & Hr & He & Hno) Hpos Hf. destruct (parse_options_next cur c ts Hr Hpos) as (n & ts' & Hn & Hle & Hp).
  destruct (option_iteration c ts') as [(c' & _ & Hs & _)|(_ & Hl & Hbad)]; [lia|by destruct (Hno c')|].
  split; [done|]. replace fuel with (n + S (fuel - n - 1))%nat by lia. by rewrite Hp, Hbad.
Qed.

Lemma options_cases cur : 0 ≤ cur → options_end cur ∨ options_stuck cur ∨ options_overrun cur.
Proof.
  remember (Z.to_nat (end_ - cur)) as n eqn:Hn. revert cur Hn.
  induction (lt_wf n) as [n _ IH]; intros cur -> Hpos.
  destruct (Z.lt_ge_cases (end_ - 2) cur) as [He|He]; [left; by exists cur; split; [constructor|]|].
  destruct (option_iteration cur 0) as [(c & _ & Hs & _)|(Hno & _)]; [lia| |right; right; exists cur; by split; [constructor|]].
  pose proof (option_step_ge _ _ Hs). destruct (decide (c = cur)) as [->|Hne].
  { right. left. by exists cur; split; [constructor|]. }
  assert (∀ d, rtc option_next c d → rtc option_next cur d) as Hl by (intros d; apply rtc_l; split; [done|lia]).
  destruct (IH (Z.to_nat (end_ - c)) ltac:(lia) c eq_refl ltac:(lia)) as [(d & ? & ?)|[(d & ? & ?)|(d & ? & ? & ?)]];
    [left|right; left|right; right]; exists d; eauto.
Qed.
End Options.

Lemma parse_segment_header_size p sg : bytes_ok p → parse_segment p = Ok sg → 0 ≤ sg_header_size sg ≤ 60.
Proof.
  intros HB. unfold parse_segment.
  repeat match goal with |- context [rd p ?i] => destruct (rd p i) eqn:?; [|done]; cbn [res_bind] end.
  intros [= <-]. cbn [sg_header_size].
  match goal with H : rd p 12 = Ok _ |- _ => apply rd_byte_ok in H as Hb; [|done] end.
  unfold byte_ok in Hb. rewrite Z.shiftr_div_pow2 by lia. change (2 ^ 4) with 16.
  Z.to_euclidean_division_equations. lia.
Qed.

(** C13: what the loop over the options, which runs before the size of the
    header is compared with that of the packet, does with any segment whose
    fixed fields can be read.  There are three cases.  The options lead to
    the end of the header: the loop ends, within the fuel of the model.  They
    lead to an option of length 0: it never ends, whatever the fuel.  They lead
    to a byte that is not in the packet: then the header is longer than the
    packet, and the loop reads beyond it.  So a header that lies inside the
    packet never makes it read outside. *)
Theorem options_loop_terminates p sg :
  bytes_ok p → parse_segment p = Ok sg →
  let ack := sg_ack sg in
  let end_ := sg_header_size sg in
  (options_end p ack end_ 20 ∨ options_stuck p ack end_ 20 ∨ options_overrun p ack end_ 20) ∧
  (options_end p ack end_ 20 → ∃ ts, segment_options p sg = Ok ts) ∧
  (options_stuck p ack end_ 20 → ∀ fuel, parse_options fuel p ack end_ 20 0 = Err out_of_fuel) ∧
  (options_overrun p ack end_ 20 → zlen p < end_ ∧ segment_options p sg = Err bad_access).
Proof.
  intros HB Hsg ack end_. pose proof (parse_segment_header_size p sg HB Hsg) as Hh. fold end_ in Hh.
  split_and!.
  - by apply options_cases.
  - intros W. apply parse_options_end; try done. fold end_. unfold options_fuel. lia.
  - intros W fuel. by apply parse_options_stuck.
  - intros W. apply parse_options_overrun; try done. fold end_. unfold options_fuel. lia.
Qed.

(** a segment with the header length [hl] in words, the flags [fl] and the
    options [o] *)
Definition ex_with_options (hl fl : Z) (o : list Z) : list Z :=
  [0; 80; 4; 1; 0; 0; 0; 1; 0; 0; 0; 2; hl * 16; fl; 0; 100; 0; 0; 0; 0] ++ o.

Definition ex_segment_fields (hs : Z) : segment := Segment 80 1025 1 2 hs 100 false false false true.

(** maximum segment size, a pad byte, a time stamp *)
Definition ex_options : list Z := ex_with_options 9 16 [2; 4; 5; 180; 1; 8; 10; 0; 0; 1; 2; 0; 0; 0; 0; 0].

(** one iteration of an example, at an option and at a pad byte *)
Local Ltac next_at len tac := lazymatch goal with |- rtc _ ?c _ =>
  let c' := eval vm_compute in (c + len) in
  apply (rtc_l _ c c'); [split; [change c' with (c + len); tac tt; solve [lia|reflexivity|intros; vm_compute; congruence]|lia]|] end.
Local Ltac opt_step k len := next_at len ltac:(fun _ => apply (step_option _ _ _ _ k)).
Local Ltac pad_step k := next_at 1 ltac:(fun _ => apply (step_pad _ _ _ _ k)).

(** a maximum segment size option that gives its length as 0 *)
Definition ex_zero_option : list Z := ex_with_options 6 16 [2; 0; 5; 180].

(** a header of 24 bytes in a packet of 20 *)
Definition ex_long_header : list Z := ex_with_options 6 16 [].

Lemma options_loop_terminates_witness :
  (options_end ex_options true 36 20 ∧ ∃ ts, segment_options ex_options (ex_segment_fields 36) = Ok ts) ∧
  (options_stuck ex_zero_option true 24 20 ∧
   ∀ fuel, parse_options fuel ex_zero_option true 24 20 0 = Err out_of_fuel) ∧
  (options_overrun ex_long_header true 24 20 ∧
   segment_options ex_long_header (ex_segment_fields 24) = Err bad_access).
Proof.
  split; [|split].
  - assert (options_end ex_options true 36 20) as H
      by (exists 35; split; [opt_step 2 4; pad_step 1; opt_step 8 10; constructor|lia]).
    split; [exact H|].
    exact (proj1 (proj2 (options_loop_terminates ex_options (ex_segment_fields 36) ltac:(solve_bytes) eq_refl)) H).
  - assert (options_stuck ex_zero_option true 24 20) as H
      by (exists 20; split; [constructor|apply (step_option _ _ _ 20 2 0); by vm_compute]).
    split; [exact H|].
    exact (proj1 (proj2 (proj2 (options_loop_terminates ex_zero_option (ex_segment_fields 24) ltac:(solve_bytes) eq_refl))) H).
  - assert (options_overrun ex_long_header true 24 20) as H
      by (exists 20; split_and!; [constructor|by vm_compute|by intros c' Hs; destruct Hs]).
    split; [exact H|].
    exact (proj2 (proj2 (proj2 (proj2 (options_loop_terminates ex_long_header (ex_segment_fields 24) ltac:(solve_bytes) eq_refl))) H)).
Defined.

(** the header size is compared with the packet size after the loop *)
Example long_header_overruns : segment_options ex_long_header (ex_segment_fields 24) = Err bad_access.
Proof. reflexivity. Qed.

(** a maximum segment size option with length 0 *)
Lemma zero_length_option_loops fuel :
  parse_options fuel (replicate 20 0 ++ [2; 0; 5; 180]) true 24 20 0 = Err out_of_fuel.
Proof. induction fuel as [|fuel IH]; [done|]. exact IH. Qed.

(** ** What is sent is what is received *)

Lemma u8_port_hi x : 0 ≤ x < 65536 → Z.land x 255 = u8 x.
Proof. intros. apply (Z.land_ones x 8). lia. Qed.

Lemma segment_parses env f my_addr my_port peer_addr peer_port flags ack_to nr data TSecr :
  ip_addr f my_addr → ip_addr f peer_addr → 0 ≤ my_port < 65536 → 0 ≤ peer_port < 65536 → byte_ok flags →
  bytes_ok data → zlen data ≤ 65503 →
  ∃ out sg,
    segment_bytes env my_addr my_port peer_addr peer_port flags ack_to (Some nr) data TSecr = Ok out ∧
    tcp_udp_checksum my_addr peer_addr true out (zlen out) = Ok 0 ∧
    parse_segment out = Ok sg ∧
    sg = Segment my_port peer_port (u32 nr) (u32 ack_to) 32 65535 (negb (Z.land flags 1 =? 0))
           (negb (Z.land flags 2 =? 0)) (negb (Z.land flags 4 =? 0)) (negb (Z.land flags 16 =? 0)) ∧
    segment_options out sg = Ok (if sg_ack sg then u32 (env_us env) else 0) ∧ drop 32 out = data.
Proof.
  intros Hm Hp Hmp Hpp Hf HB Hl.
  set (h := segment_header my_port peer_port (Some nr) ack_to flags (env_us env) TSecr).
  assert (bytes_ok h) as HBh.
  { unfold h, segment_header. rewrite !u8_port_hi by done.
    repeat apply bytes_ok_app; auto with myip; repeat (apply Forall_cons_2; [apply u8_ok || (unfold byte_ok; lia)|]); apply Forall_nil_2. }
  assert (zlen (h ++ data) = 32 + zlen data) as L by (rewrite zlen_app; done).
  pose proof (zlen_nonneg data).
  destruct (tcp_udp_stored f my_addr peer_addr true (h ++ data) 16 Hm Hp) as (c & Hc & Hv);
    [by apply bytes_ok_app|lia|done|unfold zlen in *; lia|done|].
  exists (put16 (h ++ data) 16 c). eexists. split_and!; [| | |reflexivity| |].
  - unfold segment_bytes. fold h. replace (20 + 12 + zlen data) with (zlen (h ++ data)) by lia. by rewrite Hc.
  - replace (zlen (put16 (h ++ data) 16 c)) with (zlen (h ++ data)); [done|].
    unfold zlen in *. rewrite length_put16; lia.
  - unfold h, segment_header. rewrite !u8_port_hi by done.
    change (parse_segment _) with (Ok (Segment (join16 (u8 (Z.shiftr my_port 8)) (u8 my_port))
      (join16 (u8 (Z.shiftr peer_port 8)) (u8 peer_port))
      (join32 (u8 (Z.shiftr nr 24)) (u8 (Z.shiftr nr 16)) (u8 (Z.shiftr nr 8)) (u8 nr))
      (join32 (u8 (Z.shiftr ack_to 24)) (u8 (Z.shiftr ack_to 16)) (u8 (Z.shiftr ack_to 8)) (u8 ack_to)) 32 65535
      (negb (Z.land (u8 flags) 1 =? 0)) (negb (Z.land (u8 flags) 2 =? 0)) (negb (Z.land (u8 flags) 4 =? 0))
      (negb (Z.land (u8 flags) 16 =? 0)))).
    by rewrite !join16_be16, !join32_be32, u8_id by done.
  - cbn [sg_ack]. unfold segment_options. cbn [sg_ack sg_header_size].
    destruct (negb (Z.land flags 16 =? 0)).
    + change (parse_options _ _ true 32 20 0) with (Ok (join32 (u8 (Z.shiftr (env_us env) 24)) (u8 (Z.shiftr (env_us env) 16)) (u8 (Z.shiftr (env_us env) 8)) (u8 (env_us env)))).
      by rewrite join32_be32.
    + reflexivity.
  - reflexivity.
Qed.

(** C14: a segment built by [send_segment] has a checksum that verifies, and
    [packet_handler] reads back from it the ports, the sequence and
    acknowledgement numbers modulo 2^32, a 32-byte header, the flags and the
    data; its option loop ends and finds the time stamp. *)
Theorem segment_roundtrip env f my_addr my_port peer_addr peer_port flags ack_to nr data TSecr :
  ip_addr f my_addr → ip_addr f peer_addr → 0 ≤ my_port < 65536 → 0 ≤ peer_port < 65536 → byte_ok flags →
  bytes_ok data → zlen data ≤ 65503 →
  ∃ out sg,
    segment_bytes env my_addr my_port peer_addr peer_port flags ack_to (Some nr) data TSecr = Ok out ∧
    tcp_udp_checksum my_addr peer_addr true out (zlen out) = Ok 0 ∧
    parse_segment out = Ok sg ∧
    sg = Segment my_port peer_port (u32 nr) (u32 ack_to) 32 65535 (negb (Z.land flags 1 =? 0))
           (negb (Z.land flags 2 =? 0)) (negb (Z.land flags 4 =? 0)) (negb (Z.land flags 16 =? 0)) ∧
    segment_options out sg = Ok (if sg_ack sg then u32 (env_us env) else 0) ∧ drop 32 out = data.
Proof. apply segment_parses. Qed.

Definition ex_network (ok : bool) (n : Z) : network := Network (ex_v4 10 0 0 n) 1500 (λ _, ok).
Definition ex_env : tcp_env := TcpEnv (Some (ex_network true 2)) 123456 1000.

Lemma segment_roundtrip_witness :
  ∃ out sg,
    segment_bytes ex_env (ex_v4 10 0 0 2) 80 (ex_v4 10 0 0 1) 1025 18 7 (Some 99) [65; 66; 67] 5 = Ok out ∧
    tcp_udp_checksum (ex_v4 10 0 0 2) (ex_v4 10 0 0 1) true out (zlen out) = Ok 0 ∧
    parse_segment out = Ok sg ∧
    sg = Segment 80 1025 99 7 32 65535 false true false true ∧
    segment_options out sg = Ok (if sg_ack sg then 123456 else 0) ∧ drop 32 out = [65; 66; 67].
Proof.
  apply (segment_roundtrip ex_env ipv4 (ex_v4 10 0 0 2) 80 (ex_v4 10 0 0 1) 1025 18 7 99 [65; 66; 67] 5);
    try (apply ex_v4_ip; unfold byte_ok; lia); try lia; [unfold byte_ok; lia|solve_bytes|done].
Defined.
