(* ===== verification/TcpSession.v ===== *)
(** * A TCP session (src/tcp.cpp, src/tcp.h, src/session.h)

    The state of a session and what [packet_handler] does with it under its lock:
    RST, SYN, ACK, FIN, payload and the failure path, in this order; the sender
    of unacknowledged data, [send_data] and [end_session].

    Callbacks of the application are given by their result; they are called
    with the session locked and hand their data to threads of the
    application, so they do not change the session.  [port_handler] says which
    of them are set. *)
From S2P Require Import Prelude AnyAddr Checksum Net AddressCache Arp Router Ipv4 TcpSegment.

Inductive tcp_state :=
  | tcp_closed | tcp_listen | tcp_syn_rcvd | tcp_syn_sent | tcp_established | tcp_fin_wait_1
  | tcp_fin_wait_2 | tcp_close_wait | tcp_last_ack | tcp_closing | tcp_time_wait | tcp_rst_act.

#[global] Instance tcp_state_eq_dec : EqDecision tcp_state.
Proof. solve_decision. Defined.

(** the value of the enum *)
Definition state_nr (s : tcp_state) : Z :=
  match s with
  | tcp_closed => 0 | tcp_listen => 1 | tcp_syn_rcvd => 2 | tcp_syn_sent => 3 | tcp_established => 4
  | tcp_fin_wait_1 => 5 | tcp_fin_wait_2 => 6 | tcp_close_wait => 7 | tcp_last_ack => 8
  | tcp_closing => 9 | tcp_time_wait => 10 | tcp_rst_act => 11
  end.

(** the part of a session that does not change *)
Record session := Session {
  my_addr : any_addr; my_port : Z; their_addr : any_addr; their_port : Z;
  session_timeout : Z; session_id : Z; is_client : bool;
}.

Record tcp_session := TcpSession {
  base : session;
  in_init : bool;
  is_terminating : bool;
  window_size : Z;
  state : tcp_state;
  state_since : Z;
  e_last_pkt_ts : Z;
  r_last_pkt_ts : Z;
  my_seq_nr : Z;
  their_seq_nr : Z;
  initial_my_seq_nr : Z;
  initial_their_seq_nr : Z;
  unacked : list Z;
  unacked_start_seq_nr : Z;
  data_since_last_ack : Z;
  unacked_size : Z;
  fin_after_unacked_empty : bool;
  seq_for_fin_when_all_received : Z;
  flag_fin_when_all_received : bool;
}.

(** assignments to the fields *)
Definition set_in_init (s : tcp_session) (v : bool) : tcp_session :=
  TcpSession (base s) v (is_terminating s) (window_size s) (state s) (state_since s) (e_last_pkt_ts s) (r_last_pkt_ts s) (my_seq_nr s) (their_seq_nr s) (initial_my_seq_nr s) (initial_their_seq_nr s) (unacked s) (unacked_start_seq_nr s) (data_since_last_ack s) (unacked_size s) (fin_after_unacked_empty s) (seq_for_fin_when_all_received s) (flag_fin_when_all_received s).
Definition set_is_terminating (s : tcp_session) (v : bool) : tcp_session :=
  TcpSession (base s) (in_init s) v (window_size s) (state s) (state_since s) (e_last_pkt_ts s) (r_last_pkt_ts s) (my_seq_nr s) (their_seq_nr s) (initial_my_seq_nr s) (initial_their_seq_nr s) (unacked s) (unacked_start_seq_nr s) (data_since_last_ack s) (unacked_size s) (fin_after_unacked_empty s) (seq_for_fin_when_all_received s) (flag_fin_when_all_received s).
Definition set_window_size (s : tcp_session) (v : Z) : tcp_session :=
  TcpSession (base s) (in_init s) (is_terminating s) v (state s) (state_since s) (e_last_pkt_ts s) (r_last_pkt_ts s) (my_seq_nr s) (their_seq_nr s) (initial_my_seq_nr s) (initial_their_seq_nr s) (unacked s) (unacked_start_seq_nr s) (data_since_last_ack s) (unacked_size s) (fin_after_unacked_empty s) (seq_for_fin_when_all_received s) (flag_fin_when_all_received s).
Definition set_state (s : tcp_session) (v : tcp_state) : tcp_session :=
  TcpSession (base s) (in_init s) (is_terminating s) (window_size s) v (state_since s) (e_last_pkt_ts s) (r_last_pkt_ts s) (my_seq_nr s) (their_seq_nr s) (initial_my_seq_nr s) (initial_their_seq_nr s) (unacked s) (unacked_start_seq_nr s) (data_since_last_ack s) (unacked_size s) (fin_after_unacked_empty s) (seq_for_fin_when_all_received s) (flag_fin_when_all_received s).
Definition set_state_since (s : tcp_session) (v : Z) : tcp_session :=
  TcpSession (base s) (in_init s) (is_terminating s) (window_size s) (state s) v (e_last_pkt_ts s) (r_last_pkt_ts s) (my_seq_nr s) (their_seq_nr s) (initial_my_seq_nr s) (initial_their_seq_nr s) (unacked s) (unacked_start_seq_nr s) (data_since_last_ack s) (unacked_size s) (fin_after_unacked_empty s) (seq_for_fin_when_all_received s) (flag_fin_when_all_received s).
Definition set_e_last_pkt_ts (s : tcp_session) (v : Z) : tcp_session :=
  TcpSession (base s) (in_init s) (is_terminating s) (window_size s) (state s) (state_since s) v (r_last_pkt_ts s) (my_seq_nr s) (their_seq_nr s) (initial_my_seq_nr s) (initial_their_seq_nr s) (unacked s) (unacked_start_seq_nr s) (data_since_last_ack s) (unacked_size s) (fin_after_unacked_empty s) (seq_for_fin_when_all_received s) (flag_fin_when_all_received s).
Definition set_r_last_pkt_ts (s : tcp_session) (v : Z) : tcp_session :=
  TcpSession (base s) (in_init s) (is_terminating s) (window_size s) (state s) (state_since s) (e_last_pkt_ts s) v (my_seq_nr s) (their_seq_nr s) (initial_my_seq_nr s) (initial_their_seq_nr s) (unacked s) (unacked_start_seq_nr s) (data_since_last_ack s) (unacked_size s) (fin_after_unacked_empty s) (seq_for_fin_when_all_received s) (flag_fin_when_all_received s).
Definition set_my_seq_nr (s : tcp_session) (v : Z) : tcp_session :=
  TcpSession (base s) (in_init s) (is_terminating s) (window_size s) (state s) (state_since s) (e_last_pkt_ts s) (r_last_pkt_ts s) v (their_seq_nr s) (initial_my_seq_nr s) (initial_their_seq_nr s) (unacked s) (unacked_start_seq_nr s) (data_since_last_ack s) (unacked_size s) (fin_after_unacked_empty s) (seq_for_fin_when_all_received s) (flag_fin_when_all_received s).
Definition set_their_seq_nr (s : tcp_session) (v : Z) : tcp_session :=
  TcpSession (base s) (in_init s) (is_terminating s) (window_size s) (state s) (state_since s) (e_last_pkt_ts s) (r_last_pkt_ts s) (my_seq_nr s) v (initial_my_seq_nr s) (initial_their_seq_nr s) (unacked s) (unacked_start_seq_nr s) (data_since_last_ack s) (unacked_size s) (fin_after_unacked_empty s) (seq_for_fin_when_all_received s) (flag_fin_when_all_received s).
Definition set_initial_their_seq_nr (s : tcp_session) (v : Z) : tcp_session :=
  TcpSession (base s) (in_init s) (is_terminating s) (window_size s) (state s) (state_since s) (e_last_pkt_ts s) (r_last_pkt_ts s) (my_seq_nr s) (their_seq_nr s) (initial_my_seq_nr s) v (unacked s) (unacked_start_seq_nr s) (data_since_last_ack s) (unacked_size s) (fin_after_unacked_empty s) (seq_for_fin_when_all_received s) (flag_fin_when_all_received s).
Definition set_unacked (s : tcp_session) (v : list Z) : tcp_session :=
  TcpSession (base s) (in_init s) (is_terminating s) (window_size s) (state s) (state_since s) (e_last_pkt_ts s) (r_last_pkt_ts s) (my_seq_nr s) (their_seq_nr s) (initial_my_seq_nr s) (initial_their_seq_nr s) v (unacked_start_seq_nr s) (data_since_last_ack s) (unacked_size s) (fin_after_unacked_empty s) (seq_for_fin_when_all_received s) (flag_fin_when_all_received s).
Definition set_unacked_start_seq_nr (s : tcp_session) (v : Z) : tcp_session :=
  TcpSession (base s) (in_init s) (is_terminating s) (window_size s) (state s) (state_since s) (e_last_pkt_ts s) (r_last_pkt_ts s) (my_seq_nr s) (their_seq_nr s) (initial_my_seq_nr s) (initial_their_seq_nr s) (unacked s) v (data_since_last_ack s) (unacked_size s) (fin_after_unacked_empty s) (seq_for_fin_when_all_received s) (flag_fin_when_all_received s).
Definition set_data_since_last_ack (s : tcp_session) (v : Z) : tcp_session :=
  TcpSession (base s) (in_init s) (is_terminating s) (window_size s) (state s) (state_since s) (e_last_pkt_ts s) (r_last_pkt_ts s) (my_seq_nr s) (their_seq_nr s) (initial_my_seq_nr s) (initial_their_seq_nr s) (unacked s) (unacked_start_seq_nr s) v (unacked_size s) (fin_after_unacked_empty s) (seq_for_fin_when_all_received s) (flag_fin_when_all_received s).
Definition set_unacked_size (s : tcp_session) (v : Z) : tcp_session :=
  TcpSession (base s) (in_init s) (is_terminating s) (window_size s) (state s) (state_since s) (e_last_pkt_ts s) (r_last_pkt_ts s) (my_seq_nr s) (their_seq_nr s) (initial_my_seq_nr s) (initial_their_seq_nr s) (unacked s) (unacked_start_seq_nr s) (data_since_last_ack s) v (fin_after_unacked_empty s) (seq_for_fin_when_all_received s) (flag_fin_when_all_received s).
Definition set_fin_after_unacked_empty (s : tcp_session) (v : bool) : tcp_session :=
  TcpSession (base s) (in_init s) (is_terminating s) (window_size s) (state s) (state_since s) (e_last_pkt_ts s) (r_last_pkt_ts s) (my_seq_nr s) (their_seq_nr s) (initial_my_seq_nr s) (initial_their_seq_nr s) (unacked s) (unacked_start_seq_nr s) (data_since_last_ack s) (unacked_size s) v (seq_for_fin_when_all_received s) (flag_fin_when_all_received s).
Definition set_seq_for_fin_when_all_received (s : tcp_session) (v : Z) : tcp_session :=
  TcpSession (base s) (in_init s) (is_terminating s) (window_size s) (state s) (state_since s) (e_last_pkt_ts s) (r_last_pkt_ts s) (my_seq_nr s) (their_seq_nr s) (initial_my_seq_nr s) (initial_their_seq_nr s) (unacked s) (unacked_start_seq_nr s) (data_since_last_ack s) (unacked_size s) (fin_after_unacked_empty s) v (flag_fin_when_all_received s).
Definition set_flag_fin_when_all_received (s : tcp_session) (v : bool) : tcp_session :=
  TcpSession (base s) (in_init s) (is_terminating s) (window_size s) (state s) (state_since s) (e_last_pkt_ts s) (r_last_pkt_ts s) (my_seq_nr s) (their_seq_nr s) (initial_my_seq_nr s) (initial_their_seq_nr s) (unacked s) (unacked_start_seq_nr s) (data_since_last_ack s) (unacked_size s) (fin_after_unacked_empty s) (seq_for_fin_when_all_received s) v.

(** [tcp::set_state] *)
Definition set_state_to (env : tcp_env) (s : tcp_session) (new_state : tcp_state) : tcp_session :=
  set_state_since (set_state s new_state) (env_time env).

(** which callbacks a listener has *)
Record port_handler := PortHandler {
  ph_id : Z; ph_new_session : bool; ph_session_closed_1 : bool; ph_session_closed_2 : bool;
}.

Inductive tcp_event :=
  | ev_new_session (handler id : Z)
  | ev_new_data (handler id : Z) (data : list Z)
  | ev_session_closed_1 (handler id : Z)
  | ev_session_closed_2 (handler id : Z).

Inductive tcp_stat := tcp_errors | tcp_syn | tcp_succ_estab | tcp_new_sessions | tcp_sessions_rem | tcp_sessions_to.

(** what [packet_handler] works on: its local flags, the session and what went out *)
Record work_item := Work {
  w_session : tcp_session;
  w_fail : bool;
  w_delete : bool;         (* delete_entry *)
  w_notify : bool;         (* notify_unacked_cv *)
  w_out : list datagram;
  w_events : list tcp_event;
  w_stats : list tcp_stat;
}.

Definition w_set_session (w : work_item) (s : tcp_session) : work_item :=
  Work s (w_fail w) (w_delete w) (w_notify w) (w_out w) (w_events w) (w_stats w).
Definition w_set_fail (w : work_item) : work_item :=
  Work (w_session w) true (w_delete w) (w_notify w) (w_out w) (w_events w) (w_stats w).
Definition w_set_delete (w : work_item) : work_item :=
  Work (w_session w) (w_fail w) true (w_notify w) (w_out w) (w_events w) (w_stats w).
Definition w_set_notify (w : work_item) : work_item :=
  Work (w_session w) (w_fail w) (w_delete w) true (w_out w) (w_events w) (w_stats w).
Definition w_add_event (w : work_item) (e : tcp_event) : work_item :=
  Work (w_session w) (w_fail w) (w_delete w) (w_notify w) (w_out w) (w_events w ++ [e]) (w_stats w).
Definition w_add_stat (w : work_item) (e : tcp_stat) : work_item :=
  Work (w_session w) (w_fail w) (w_delete w) (w_notify w) (w_out w) (w_events w) (w_stats w ++ [e]).
Definition w_add_out (w : work_item) (o : list datagram) : work_item :=
  Work (w_session w) (w_fail w) (w_delete w) (w_notify w) (w_out w ++ o) (w_events w) (w_stats w).

(** [send_segment(s, id, my_addr, my_port, their_addr, their_port, ..., &s->my_seq_nr, nullptr, 0, TSecr)],
    and the same with the two ends exchanged *)
Definition after_send (s : tcp_session) (nr ts : option Z) : tcp_session :=
  let s := match nr with Some nr => set_my_seq_nr s nr | None => s end in
  match ts with Some ts => set_e_last_pkt_ts s ts | None => s end.

Definition send_control (env : tcp_env) (s : tcp_session) (flags ack_to TSecr : Z)
  : res (tcp_session * list datagram) :=
  let b := base s in
  let* '(_, out, nr, ts) := send_segment env (my_addr b) (my_port b) (their_addr b) (their_port b)
                              flags ack_to (Some (my_seq_nr s)) [] TSecr in
  Ok (after_send s nr ts, out).

Definition send_control_swapped (env : tcp_env) (s : tcp_session) (flags ack_to TSecr : Z)
  : res (tcp_session * list datagram) :=
  let b := base s in
  let* '(_, out, nr, ts) := send_segment env (their_addr b) (their_port b) (my_addr b) (my_port b)
                              flags ack_to (Some (my_seq_nr s)) [] TSecr in
  Ok (after_send s nr ts, out).

Definition w_send (env : tcp_env) (w : work_item) (flags ack_to TSecr : Z) : res work_item :=
  let* '(s, out) := send_control env (w_session w) flags ack_to TSecr in
  Ok (w_add_out (w_set_session w s) out).

Definition w_state (env : tcp_env) (w : work_item) (st : tcp_state) : work_item :=
  w_set_session w (set_state_to env (w_session w) st).

(** ** The phases of [packet_handler] *)

Section Phases.
Context (env : tcp_env) (TSecr : Z) (sg : segment).
(** [get_lock_listener(dst_port)] and the results of the callbacks *)
Context (listener : option port_handler).
Context (new_session_result : bool) (new_data_result : list Z → bool).

Definition process_rst (w : work_item) : work_item :=
  if sg_rst sg then
    if state_nr tcp_syn_rcvd <=? state_nr (state (w_session w))
    then w_set_delete (w_state env w tcp_closing) else w
  else w.

Definition process_syn (w : work_item) : res work_item :=
  if sg_syn sg && negb (w_delete w) then
    let w := w_add_stat w tcp_syn in
    match state (w_session w) with
    | tcp_listen | tcp_syn_rcvd =>
        let* w := w_send env w (Z.lor FLAG_SYN FLAG_ACK) (their_seq_nr (w_session w)) TSecr in
        Ok (w_state env w tcp_syn_rcvd)
    | _ => Ok w
    end
  else Ok w.

(** the acknowledgement of a client's SYN *)
Definition ack_syn_sent (w : work_item) : res work_item :=
  let s := set_initial_their_seq_nr (w_session w) (sg_seq sg) in
  let s := set_their_seq_nr s (u32 (sg_seq sg + 1)) in
  let* '(s, out) := send_control_swapped env s FLAG_ACK (their_seq_nr s) TSecr in
  Ok (w_state env (w_add_out (w_set_session w s) out) tcp_established).

(** the acknowledgement that completes the session of a server *)
Definition ack_syn_rcvd (w : work_item) : work_item :=
  let w := w_add_stat (w_state env w tcp_established) tcp_succ_estab in
  match listener with
  | Some cb =>
      if ph_new_session cb then
        let w := w_add_event w (ev_new_session (ph_id cb) (session_id (base (w_session w)))) in
        if new_session_result then w else w_set_fail w
      else w
  | None => w_set_fail w
  end.

(** [memmove(&unacked[0], &unacked[n], left)] *)
Definition move_down (u : list Z) (n left : Z) : res (list Z) :=
  let* moved := rd_range u n left in
  wr_range u 0 moved.

(** an acknowledgement of data *)
Definition ack_data (w : work_item) : res work_item :=
  let s := w_session w in
  let ack_n := s32 (sg_ack_to sg - unacked_start_seq_nr s) in
  let* w :=
    (if (0 <? ack_n) && (0 <? unacked_size s) then
       let left_n := s32 (unacked_size s - ack_n) in
       let* u := (if 0 <? left_n then move_down (unacked s) ack_n left_n else Ok (unacked s)) in
       let w := if left_n <? 0 then w_set_fail (w_set_delete w) else w in
       let s := set_unacked s u in
       let s := set_unacked_size s (u64 (unacked_size s - ack_n)) in
       let s := set_unacked_start_seq_nr s (u32 (unacked_start_seq_nr s + ack_n)) in
       let s := set_my_seq_nr s (u32 (my_seq_nr s + ack_n)) in
       let w := w_set_session w s in
       let* w :=
         (if (unacked_size s =? 0) && fin_after_unacked_empty s then
            let* w := w_send env w (Z.lor FLAG_ACK FLAG_FIN) (their_seq_nr s) TSecr in
            Ok (w_state env w tcp_fin_wait_1)
          else Ok w) in
       Ok (if 0 <? unacked_size (w_session w) then w_set_session w (set_r_last_pkt_ts (w_session w) 0) else w)
     else Ok w) in
  Ok (w_set_notify w).

Definition process_ack (w : work_item) : res work_item :=
  if sg_ack sg && negb (w_delete w) then
    let* w :=
      match state (w_session w) with
      | tcp_syn_sent => ack_syn_sent w
      | tcp_syn_rcvd => Ok (ack_syn_rcvd w)
      | tcp_last_ack => Ok (w_set_delete (w_state env w tcp_listen))
      | tcp_established => ack_data w
      | _ => Ok w
      end in
    Ok (w_set_session w (set_data_since_last_ack (w_session w) 0))
  else Ok w.

Definition process_fin (w : work_item) : work_item :=
  if sg_fin sg then
    match state (w_session w) with
    | tcp_established =>
        let s := set_seq_for_fin_when_all_received (w_session w) (sg_seq sg) in
        let s := set_flag_fin_when_all_received s true in
        let s := set_is_terminating s true in
        w_state env (w_set_session w s) tcp_fin_wait_1
    | _ => w
    end
  else w.

(** the FIN of the peer is answered when everything before it was received *)
Definition process_all_received (w : work_item) : res work_item :=
  let s := w_session w in
  if flag_fin_when_all_received s && (seq_for_fin_when_all_received s =? their_seq_nr s) then
    let* w := w_send env w (Z.lor FLAG_ACK FLAG_FIN) (u32 (their_seq_nr s + 1)) TSecr in
    Ok (w_set_delete (w_state env w tcp_fin_wait_2))
  else Ok w.

(** payload [data] of the segment *)
Definition process_payload (w : work_item) (data : list Z) : res work_item :=
  let s := w_session w in
  if sg_seq sg =? their_seq_nr s then
    let w :=
      match listener with
      | Some cb =>
          let w := w_add_event w (ev_new_data (ph_id cb) (session_id (base s)) data) in
          if new_data_result data then w else w_set_fail w
      | None => w_set_fail w
      end in
    if w_fail w then Ok w
    else
      let w := w_set_session w (set_their_seq_nr (w_session w) (u32 (their_seq_nr s + zlen data))) in
      if unacked_size s =? 0 then w_send env w FLAG_ACK (their_seq_nr (w_session w)) TSecr else Ok w
  else
    let ack_to := if their_seq_nr s <? sg_seq sg then their_seq_nr s else sg_seq sg in
    w_send env w FLAG_ACK ack_to TSecr.

(** [if (fail) ...] *)
Definition process_fail (w : work_item) : res work_item :=
  if w_fail w then
    let b := base (w_session w) in
    let* w :=
      match listener with
      | Some cb =>
          if ph_session_closed_1 cb then Ok (w_add_event w (ev_session_closed_1 (ph_id cb) (session_id b)))
          else Err bad_function
      | None => Ok w
      end in
    let w := w_set_delete (w_add_stat w tcp_errors) in
    let* '(_, out, nr, ts) := send_segment env (my_addr b) (my_port b) (their_addr b) (their_port b)
                                (Z.lor FLAG_RST FLAG_ACK) (u32 (sg_seq sg + 1)) None [] TSecr in
    Ok (w_add_out (w_set_session w (after_send (w_session w) nr ts)) out)
  else Ok w.

(** the part of [packet_handler] under the session's lock; [p] is the packet *)
Definition process_session (p : list Z) (s : tcp_session) : res work_item :=
  let size := zlen p in
  let s := set_e_last_pkt_ts s (env_us env) in
  let s := set_window_size s (Z.max 1 (sg_win_size sg)) in
  let w := Work s (size <? sg_header_size sg) false false [] [] [] in
  let* w :=
    (if negb (w_fail w) then
       let w := process_rst w in
       let* w := process_syn w in
       let* w := process_ack w in
       let w := process_fin w in
       process_all_received w
     else Ok w) in
  let data_len := size - sg_header_size sg in
  let* w := (if (0 <? data_len) && negb (w_fail w)
             then process_payload w (ptr_at p (sg_header_size sg)) else Ok w) in
  let* w := process_fail w in
  Ok (if w_delete w then w_set_session w (set_is_terminating (w_session w) true) else w).
End Phases.

(** ** Sending data *)

(** the loop of [unacked_sender] over the segments of one session: the segments,
    and what was added to [data_since_last_ack] *)
Fixpoint send_loop (fuel : nat) (env : tcp_env) (s : tcp_session) (packet_size to_send i resend_nr : Z)
    (out : list datagram) : res (tcp_session * list datagram) :=
  if to_send <=? i then Ok (s, out)
  else
    match fuel with
    | O => Err out_of_fuel
    | S fuel =>
        let send_n := Z.min packet_size (to_send - i) in
        let b := base s in
        let* data := rd_range (unacked s) i send_n in
        let* '(rc, o, nr, ts) := send_segment env (my_addr b) (my_port b) (their_addr b) (their_port b)
                                   FLAG_ACK (their_seq_nr s) (Some resend_nr) data 0 in
        let s := after_send s None ts in
        if rc then
          send_loop fuel env (set_data_since_last_ack s (u64 (data_since_last_ack s + send_n))) packet_size to_send
            (i + packet_size) (default resend_nr nr) (out ++ o)
        else Ok (s, out ++ o)
    end.

(** one session in a round of [unacked_sender]; [now] is the start of the round *)
Definition unacked_send (env : tcp_env) (idev : network) (now : Z) (s : tcp_session)
  : res (tcp_session * list datagram) :=
  if 1000000 <=? u64 (now - r_last_pkt_ts s) then
    let to_send := s32 (Z.min (u64 (window_size s - data_since_last_ack s)) (unacked_size s)) in
    let packet_size := nw_max_packet_size idev - (20 + 12) in
    let* '(s, out) := send_loop (Z.to_nat to_send) env s packet_size to_send 0 (my_seq_nr s) [] in
    Ok (if 0 <? to_send then set_r_last_pkt_ts s now else s, out)
  else Ok (s, []).

(** what one evaluation of the loop of [send_data] decides *)
Inductive send_data_status := sd_done (s : tcp_session) | sd_wait.

Definition send_data (s : tcp_session) (data : list Z) : res send_data_status :=
  if unacked_size s <? 1024 * 1024 then
    match state s with
    | tcp_established =>
        let s := if unacked_size s =? 0 then set_unacked_start_seq_nr s (my_seq_nr s) else s in
        (* realloc, memcpy *)
        let* old := rd_range (unacked s) 0 (unacked_size s) in
        let s := set_unacked s (old ++ data) in
        let s := set_unacked_size s (u64 (unacked_size s + zlen data)) in
        Ok (sd_done (set_r_last_pkt_ts s 0))
    | _ => Ok (sd_done s)
    end
  else if negb (bool_decide (state s = tcp_established)) then Ok (sd_done s)
  else if negb (is_terminating s) then Ok (sd_done s)
  else Ok sd_wait.

Definition end_session (env : tcp_env) (s : tcp_session) : res (tcp_session * list datagram) :=
  if unacked_size s =? 0 then
    let* '(s, out) := send_control env s FLAG_FIN (their_seq_nr s) 0 in
    Ok (set_state_to env s tcp_fin_wait_1, out)
  else Ok (set_fin_after_unacked_empty s true, []).

(** ** The flags of [packet_handler] *)

Section Flags.
Context (env : tcp_env) (TSecr : Z) (sg : segment).
Context (listener : option port_handler) (nsr : bool) (ndr : list Z → bool).

Lemma w_send_inv w flags ack w' :
  w_send env w flags ack TSecr = Ok w' →
  w_fail w' = w_fail w ∧ w_delete w' = w_delete w ∧ w_events w' = w_events w ∧
  ∃ nr e out, nr = match env_idev env with
      | Some _ => default (my_seq_nr (w_session w)) (advance_seq (Some (my_seq_nr (w_session w))) flags 0)
      | None => my_seq_nr (w_session w)
      end ∧
    w_session w' = set_e_last_pkt_ts (set_my_seq_nr (w_session w) nr) e ∧ w_out w' = w_out w ++ out.
Proof.
  unfold w_send, send_control, send_segment. intros H. destruct (env_idev env) as [idev|] eqn:Hi.
  - destruct (segment_bytes _ _ _ _ _ _ _ _ _ _); cbn [res_bind] in H; [|done]. injection H as <-.
    split_and!; try done. by eexists _, _, _.
  - injection H as <-. split_and!; try done. exists (my_seq_nr (w_session w)), (e_last_pkt_ts (w_session w)), [].
    split; [done|]. split; [by destruct w as [[]]|done].
Qed.

Lemma process_syn_delete w w' : process_syn env TSecr sg w = Ok w' → w_delete w = true → w' = w.
Proof. unfold process_syn. intros H D. rewrite D, andb_false_r in H. by injection H as <-. Qed.

Lemma process_ack_delete w w' : process_ack env TSecr sg listener nsr w = Ok w' → w_delete w = true → w' = w.
Proof. unfold process_ack. intros H D. rewrite D, andb_false_r in H. by injection H as <-. Qed.

Lemma process_fin_flags w :
  w_delete (process_fin env sg w) = w_delete w ∧ w_fail (process_fin env sg w) = w_fail w ∧
  w_events (process_fin env sg w) = w_events w.
Proof. unfold process_fin. destruct (sg_fin sg), (state (w_session w)); done. Qed.

Lemma process_all_received_inv w w' :
  process_all_received env TSecr w = Ok w' →
  w_events w' = w_events w ∧ w_fail w' = w_fail w ∧ (w' = w ∨ w_delete w' = true).
Proof.
  unfold process_all_received. intros H. destruct (_ && _); [|injection H as <-; auto].
  res_step H. injection H as <-. apply w_send_inv in E as (? & ? & ? & _). auto.
Qed.

Lemma process_payload_delete w d w' :
  process_payload env TSecr sg listener ndr w d = Ok w' → w_delete w' = w_delete w.
Proof.
  unfold process_payload. destruct (sg_seq sg =? _).
  - intros H. set (w1 := match listener with Some _ => _ | None => _ end) in H.
    assert (w_delete w1 = w_delete w) as E1 by (subst w1; destruct listener; [destruct (ndr d)|]; done).
    destruct (w_fail w1); [by injection H as <-|].
    destruct (unacked_size (w_session w) =? 0); [|by injection H as <-].
    apply w_send_inv in H as (_ & -> & _). done.
  - intros (_ & -> & _)%w_send_inv. done.
Qed.

Lemma process_fail_inv w w' :
  process_fail env TSecr sg listener w = Ok w' → (w_fail w = false ∧ w' = w) ∨ (w_fail w = true ∧ w_fail w' = true ∧ w_delete w' = true).
Proof.
  unfold process_fail. destruct (w_fail w) eqn:F; [|intros [= <-]; auto]. intros H. right. split; [done|].
  res_step H. destruct (send_segment _ _ _ _ _ _ _ _ _ _) as [[[[? ?] ?] ?]|]; [|done]. injection H as <-.
  split; [|done]. destruct listener as [cb|]; [destruct (ph_session_closed_1 cb); [|done]|]; by injection E as <-.
Qed.

(** a segment after which the session goes on: every phase of it *)
Lemma process_session_alive p s w :
  process_session env TSecr sg listener nsr ndr p s = Ok w → w_delete w = false →
  let s0 := set_window_size (set_e_last_pkt_ts s (env_us env)) (Z.max 1 (sg_win_size sg)) in
  let w0 := Work s0 false false false [] [] [] in
  ∃ w1 w2, process_rst env sg w0 = w0 ∧ process_syn env TSecr sg w0 = Ok w1 ∧
    process_ack env TSecr sg listener nsr w1 = Ok w2 ∧ w_delete w2 = false ∧ w_fail w2 = false ∧ w_fail w = false ∧
    process_all_received env TSecr (process_fin env sg w2) = Ok (process_fin env sg w2) ∧
    (if 0 <? zlen p - sg_header_size sg
     then process_payload env TSecr sg listener ndr (process_fin env sg w2) (ptr_at p (sg_header_size sg)) = Ok w
     else w = process_fin env sg w2).
Proof.
  intros H Hdel s0 w0. unfold process_session in H. fold s0 in H. cbn [w_fail negb] in H.
  destruct (zlen p <? sg_header_size sg) eqn:Hsz; cbn [negb] in H.
  { cbn [res_bind] in H. cbn [w_fail] in H. rewrite andb_false_r in H. cbn [res_bind] in H. res_step H.
    apply process_fail_inv in E as [[? _]|(_ & _ & D)]; [done|]. rewrite D in H. injection H as <-. simpl in Hdel. congruence. }
  fold w0 in H. res_step H.
  destruct (process_syn env TSecr sg (process_rst env sg w0)) as [w1|] eqn:E1; [|done]. cbn [res_bind] in E.
  destruct (process_ack env TSecr sg listener nsr w1) as [w2|] eqn:E2; [|done]. cbn [res_bind] in E.
  res_step H. rename a0 into w4, E0 into E4. res_step H. rename a0 into w5, E0 into E5. injection H as H.
  assert (w_delete w5 = false) as D5 by (destruct (w_delete w5) eqn:D; [rewrite <- H in Hdel; simpl in Hdel; congruence|done]).
  rewrite D5 in H. subst w5.
  apply process_fail_inv in E5 as [[F4 ->]|(_ & _ & ?)]; [|congruence].
  assert (w_delete a = false ∧ w_fail a = false ∧
    (if 0 <? zlen p - sg_header_size sg
     then process_payload env TSecr sg listener ndr a (ptr_at p (sg_header_size sg)) = Ok w4 else w4 = a)) as (Da & Fa & E4').
  { destruct (0 <? zlen p - sg_header_size sg).
    - destruct (w_fail a) eqn:Fa; cbn [andb negb] in E4; [injection E4 as ->; congruence|].
      pose proof (process_payload_delete _ _ _ E4). split; [congruence|]. split; [done|exact E4].
    - cbn [andb] in E4. injection E4 as ->. done. }
  destruct (process_fin_flags w2) as (Fd & Ff & _).
  destruct (process_all_received_inv _ _ E) as (_ & Fr & [->|?]); [|congruence].
  assert (w_delete w2 = false) as D2 by congruence.
  assert (w_delete w1 = false) as D1.
  { destruct (w_delete w1) eqn:D; [|done]. by rewrite (process_ack_delete _ _ E2 D) in D2; congruence. }
  assert (process_rst env sg w0 = w0) as R0.
  { unfold process_rst in *. destruct (sg_rst sg); [|done].
    destruct (_ <=? _); [|done]. rewrite (process_syn_delete _ _ E1) in D1 by done. done. }
  rewrite R0 in E1. exists w1, w2. split_and!; try done; congruence.
Qed.
End Flags.

(** ** The sender *)

(** The application gave the bytes [stream] to [send_data], of which the peer
    acknowledged the first [a]; [b] is the sequence number of the first byte.
    The first [unacked_size] bytes of the buffer are the rest of the stream. *)
Definition sender_inv (s : tcp_session) (stream : list Z) (b a : Z) : Prop :=
  0 ≤ a ≤ zlen stream ∧ unacked_size s = zlen stream - a ∧ unacked_size s < 2147483648 ∧
  unacked_size s ≤ zlen (unacked s) ∧
  take (Z.to_nat (unacked_size s)) (unacked s) = drop (Z.to_nat a) stream ∧
  my_seq_nr s = u32 (b + a) ∧ (0 < unacked_size s → unacked_start_seq_nr s = my_seq_nr s).

Lemma sender_inv_ext s s' stream b a :
  unacked s' = unacked s → unacked_size s' = unacked_size s → unacked_start_seq_nr s' = unacked_start_seq_nr s →
  my_seq_nr s' = my_seq_nr s → sender_inv s stream b a → sender_inv s' stream b a.
Proof. unfold sender_inv. intros -> -> -> ->. done. Qed.

Lemma move_down_spec u n left u' :
  move_down u n left = Ok u' → 0 ≤ left →
  zlen u' = zlen u ∧ take (Z.to_nat left) u' = take (Z.to_nat left) (drop (Z.to_nat n) u).
Proof.
  unfold move_down. intros H Hl. res_step H. apply rd_range_inv in E as (Hn & _ & Hb & -> & Hz).
  unfold wr_range in H. rewrite Hz in H. cbn [orb] in H.
  rewrite (proj2 (Z.ltb_ge 0 0)), (proj2 (Z.ltb_ge (zlen u) (0 + left))) in H by lia. cbn [orb] in H.
  injection H as <-. change (Z.to_nat 0) with 0%nat. unfold zlen in *. rewrite ?take_0. cbn [app]. split.
  - rewrite length_app, length_drop. lia.
  - rewrite take_app_le by lia. by rewrite take_take, Nat.min_id.
Qed.

Section Sender.
Context (env : tcp_env) (TSecr : Z) (sg : segment).
Context (listener : option port_handler) (nsr : bool) (ndr : list Z → bool).

(** the buffer after an acknowledgement of [n] of its bytes *)
Lemma acknowledge_inv s stream b a n u :
  sender_inv s stream b a → 0 < n ≤ unacked_size s →
  (if 0 <? unacked_size s - n then move_down (unacked s) n (unacked_size s - n) else Ok (unacked s)) = Ok u →
  sender_inv
    (set_my_seq_nr (set_unacked_start_seq_nr (set_unacked_size (set_unacked s u) (u64 (unacked_size s - n)))
       (u32 (unacked_start_seq_nr s + n))) (u32 (my_seq_nr s + n))) stream b (a + n).
Proof.
  intros (Ha & Hs & Hb & Hl & Ht & Hm & Hst) Hn Hu. unfold sender_inv. simpl.
  assert (u64 (unacked_size s - n) = unacked_size s - n) as -> by (unfold u64; rewrite Z.mod_small; lia).
  assert (zlen u = zlen (unacked s) ∧ take (Z.to_nat (unacked_size s - n)) u =
    take (Z.to_nat (unacked_size s - n)) (drop (Z.to_nat n) (unacked s))) as [Lu Tu].
  { destruct (Z.ltb_spec 0 (unacked_size s - n)); [apply move_down_spec; [done|lia]|].
    injection Hu as ->. replace (Z.to_nat (unacked_size s - n)) with 0%nat by lia. by rewrite !take_0. }
  split_and!; try lia.
  - rewrite Tu, Z2Nat.inj_sub by lia. rewrite <- skipn_firstn_comm, Ht, drop_drop. f_equal. lia.
  - rewrite Hm. unfold u32. rewrite Zplus_mod_idemp_l. f_equal. lia.
  - intros _. by rewrite Hst by lia.
Qed.

Lemma ack_data_sender w w' stream b a :
  sender_inv (w_session w) stream b a → ack_data env TSecr sg w = Ok w' →
  w_delete w' = false → state (w_session w') = tcp_established →
  ∃ a', a ≤ a' ∧ sender_inv (w_session w') stream b a' ∧ their_seq_nr (w_session w') = their_seq_nr (w_session w) ∧
    base (w_session w') = base (w_session w).
Proof.
  intros Hinv H Hdel Hst. unfold ack_data in H. res_step H. injection H as H. rename a0 into w1.
  assert (w_session w' = w_session w1 ∧ w_delete w1 = false) as [-> Hdel1] by (subst w'; done).
  assert (state (w_session w1) = tcp_established) as Hst1 by (subst w'; done). clear H Hst Hdel.
  set (n := s32 (sg_ack_to sg - unacked_start_seq_nr (w_session w))) in *.
  destruct ((0 <? n) && (0 <? unacked_size (w_session w))) eqn:G;
    [|injection E as <-; exists a; split; [lia|done]].
  apply andb_true_iff in G as [G1%Z.ltb_lt G2%Z.ltb_lt].
  assert (n < 2147483648) as Hn by (subst n; clear; zlia).
  assert (s32 (unacked_size (w_session w) - n) = unacked_size (w_session w) - n) as El
    by (destruct Hinv as (_ & _ & ? & _); clear -G1 G2 Hn H; zlia).
  rewrite El in E. res_step E. rename a0 into u, E0 into Eu.
  set (s1 := set_my_seq_nr _ _) in E.
  destruct (Z.ltb_spec (unacked_size (w_session w) - n) 0) as [Hneg|Hpos].
  - (* acknowledges more than was sent *)
    res_step E. injection E as <-. assert (w_delete a0 = true) as D.
    { destruct (_ && _); [|by injection E0 as <-]. res_step E0. injection E0 as <-.
      apply w_send_inv in E as (_ & D & _). simpl. by rewrite D. }
    revert Hdel1. destruct (0 <? unacked_size (w_session a0)); simpl; congruence.
  - assert (0 < n ≤ unacked_size (w_session w)) as Hn2 by lia.
    pose proof (acknowledge_inv _ _ _ _ n u Hinv Hn2 Eu) as Hinv1. fold s1 in Hinv1.
    res_step E. injection E as <-.
    destruct ((unacked_size s1 =? 0) && fin_after_unacked_empty s1).
    { res_step E0. injection E0 as <-. exfalso. revert Hst1.
      destruct (0 <? unacked_size _); simpl; discriminate. }
    injection E0 as <-. exists (a + n). split; [lia|].
    destruct (0 <? unacked_size _); (split; [|done]); [|done]. by apply (sender_inv_ext s1).
Qed.
End Sender.

Section Streams.
Context (env : tcp_env) (TSecr : Z) (sg : segment).
Context (listener : option port_handler) (nsr : bool) (ndr : list Z → bool).

(** an acknowledgement without data does not use a sequence number *)
Lemma w_send_ack w ack w' :
  w_send env w FLAG_ACK ack TSecr = Ok w' → 0 ≤ my_seq_nr (w_session w) < 4294967296 →
  ∃ e, w_session w' = set_e_last_pkt_ts (w_session w) e.
Proof.
  intros (_ & _ & _ & nr & e & out & Hnr & Hs & _)%w_send_inv Hr. exists e. rewrite Hs.
  assert (nr = my_seq_nr (w_session w)) as ->.
  { destruct (env_idev env); [|done]. rewrite Hnr. unfold advance_seq. simpl. rewrite Z.add_0_r. by apply u32_id. }
  by destruct w as [[]].
Qed.

Lemma process_payload_spec w d w' :
  process_payload env TSecr sg listener ndr w d = Ok w' → 0 ≤ my_seq_nr (w_session w) < 4294967296 → w_fail w' = false →
  ∃ e, if sg_seq sg =? their_seq_nr (w_session w) then
      w_session w' = set_e_last_pkt_ts (set_their_seq_nr (w_session w) (u32 (their_seq_nr (w_session w) + zlen d))) e ∧
      ∃ cb, listener = Some cb ∧
        w_events w' = w_events w ++ [ev_new_data (ph_id cb) (session_id (base (w_session w))) d]
    else w_session w' = set_e_last_pkt_ts (w_session w) e ∧ w_events w' = w_events w.
Proof.
  unfold process_payload. intros H Hr Hf. destruct (sg_seq sg =? their_seq_nr (w_session w)).
  - destruct listener as [cb|]; [|simpl in H; injection H as <-; done].
    destruct (ndr d); cbn [w_fail w_set_fail w_add_event] in H; [|injection H as <-; done].
    destruct (w_fail w) eqn:Fw; [injection H as <-; simpl in Hf; congruence|].
    destruct (unacked_size (w_session w) =? 0).
    + pose proof (w_send_inv _ _ _ _ _ _ H) as (_ & _ & Hev & _). apply w_send_ack in H as [e He]; [|done].
      exists e. split; [exact He|]. exists cb. split; [done|]. by rewrite Hev.
    + injection H as <-. exists (e_last_pkt_ts (w_session w)). split; [by destruct w as [[]]|]. by exists cb.
  - pose proof (w_send_inv _ _ _ _ _ _ H) as (_ & _ & Hev & _). apply w_send_ack in H as [e He]; [|done].
    by exists e.
Qed.

Lemma sender_inv_seq s stream b a : sender_inv s stream b a → 0 ≤ my_seq_nr s < 4294967296.
Proof. intros (_ & _ & _ & _ & _ & -> & _). apply u32_range. Qed.

Lemma process_payload_state w d w' :
  process_payload env TSecr sg listener ndr w d = Ok w' → state (w_session w') = state (w_session w).
Proof.
  unfold process_payload. destruct (sg_seq sg =? _).
  - intros H. set (w1 := match listener with Some _ => _ | None => _ end) in H.
    assert (w_session w1 = w_session w) as E1 by (subst w1; destruct listener; [destruct (ndr d)|]; done).
    destruct (w_fail w1); [injection H as <-; by rewrite E1|].
    destruct (unacked_size (w_session w) =? 0); [|injection H as <-; simpl; by rewrite E1].
    apply w_send_inv in H as (_ & _ & _ & nr & e & out & _ & -> & _). simpl. by rewrite E1.
  - intros (_ & _ & _ & nr & e & out & _ & -> & _)%w_send_inv. done.
Qed.

(** what a segment does to an established session that stays established *)
Lemma process_session_established p s w :
  state s = tcp_established → process_session env TSecr sg listener nsr ndr p s = Ok w → w_delete w = false →
  state (w_session w) = tcp_established →
  let s0 := set_window_size (set_e_last_pkt_ts s (env_us env)) (Z.max 1 (sg_win_size sg)) in
  ∃ w1 w2, w_session w1 = s0 ∧ w_events w1 = [] ∧
    (if sg_ack sg then ∃ w', ack_data env TSecr sg w1 = Ok w' ∧ w_delete w' = false ∧
        w_session w2 = set_data_since_last_ack (w_session w') 0 ∧ w_events w2 = w_events w'
     else w2 = w1) ∧
    state (w_session w2) = tcp_established ∧ w_fail w = false ∧
    (if 0 <? zlen p - sg_header_size sg
     then process_payload env TSecr sg listener ndr w2 (ptr_at p (sg_header_size sg)) = Ok w else w = w2).
Proof.
  intros Hst H Hdel Hstw s0.
  destruct (process_session_alive _ _ _ _ _ _ _ _ _ H Hdel) as (w1 & w2 & _ & Hsyn & Hack & Hd2 & _ & Hfw & _ & Hpay).
  fold s0 in Hsyn.
  assert (w_session w1 = s0 ∧ w_delete w1 = false ∧ w_events w1 = []) as (Hs1 & Hd1 & He1).
  { unfold process_syn in Hsyn. destruct (sg_syn sg && _); [|by injection Hsyn as <-]. simpl in Hsyn.
    rewrite Hst in Hsyn. by injection Hsyn as <-. }
  assert (process_fin env sg w2 = w2 ∧ state (w_session w2) = tcp_established) as [Hfin Hst2].
  { assert (state (w_session (process_fin env sg w2)) = tcp_established) as Hsf.
    { destruct (0 <? _); [by rewrite <- (process_payload_state _ _ _ Hpay)|by subst w]. }
    unfold process_fin in *. destruct (sg_fin sg); [|done]. destruct (state (w_session w2)) eqn:X; simpl in *; congruence. }
  rewrite Hfin in Hpay. exists w1, w2. split_and!; try done.
  unfold process_ack in Hack. rewrite Hd1, andb_true_r in Hack. destruct (sg_ack sg); [|by injection Hack as <-].
  rewrite Hs1 in Hack. simpl state in Hack. rewrite Hst in Hack. res_step Hack. injection Hack as <-.
  exists a. split_and!; done.
Qed.

(** a segment that does not end the session leaves what is still to be sent as it is *)
Lemma process_session_sender p s w stream b a :
  state s = tcp_established → sender_inv s stream b a →
  process_session env TSecr sg listener nsr ndr p s = Ok w → w_delete w = false →
  state (w_session w) = tcp_established →
  base (w_session w) = base s ∧ ∃ a', a ≤ a' ∧ sender_inv (w_session w) stream b a'.
Proof.
  intros Hst Hinv H Hdel Hstw.
  destruct (process_session_established p s w Hst H Hdel Hstw) as (w1 & w2 & Hs1 & _ & Hack & Hst2 & Hfw & Hpay).
  assert (sender_inv (w_session w1) stream b a) as Hinv1 by (rewrite Hs1; by apply (sender_inv_ext s)).
  assert (base (w_session w2) = base s ∧ ∃ a', a ≤ a' ∧ sender_inv (w_session w2) stream b a') as (Hb2 & a' & Ha & Hinv2).
  { destruct (sg_ack sg); [|subst w2; rewrite Hs1 in *; split; [done|]; exists a; split; [lia|done]].
    destruct Hack as (w' & Hw' & Hd' & Hs2 & _). rewrite Hs2 in Hst2.
    destruct (ack_data_sender env TSecr sg w1 w' stream b a) as (a' & Ha & Hi & _ & Hb'); [done..|].
    rewrite Hs2. split; [simpl; by rewrite Hb', Hs1|].
    exists a'. split; [done|]. by apply (sender_inv_ext (w_session w')). }
  destruct (0 <? _); [|subst w; eauto].
  destruct (process_payload_spec _ _ _ Hpay (sender_inv_seq _ _ _ _ Hinv2) Hfw) as [e He].
  destruct (sg_seq sg =? _); destruct He as [-> _]; (split; [done|]); exists a'; (split; [done|]);
    by apply (sender_inv_ext (w_session w2)).
Qed.
End Streams.

Lemma send_data_sender s data stream b a s' :
  state s = tcp_established → sender_inv s stream b a → unacked_size s + zlen data < 2147483648 →
  send_data s data = Ok (sd_done s') →
  state s' = tcp_established ∧ base s' = base s ∧
  if unacked_size s <? 1024 * 1024 then sender_inv s' (stream ++ data) b a else s' = s.
Proof.
  intros Hst (Ha & Hs & Hb & Hl & Ht & Hm & Hq) Hlen H. unfold send_data in H. rewrite Hst in H.
  pose proof (zlen_nonneg data). destruct (unacked_size s <? 1024 * 1024).
  2:{ rewrite bool_decide_eq_true_2 in H by done. cbn [negb] in H.
      destruct (is_terminating s); [done|]. by injection H as <-. }
  set (s1 := if unacked_size s =? 0 then _ else s) in H.
  assert (unacked s1 = unacked s ∧ unacked_size s1 = unacked_size s ∧ my_seq_nr s1 = my_seq_nr s ∧
    unacked_start_seq_nr s1 = my_seq_nr s ∧ state s1 = state s ∧ base s1 = base s) as (E1 & E2 & E3 & E4 & E5 & E6).
  { subst s1. destruct (Z.eqb_spec (unacked_size s) 0); [done|]. split_and!; try done. apply Hq. lia. }
  res_step H. injection H as <-. rewrite E1, E2 in *. apply rd_range_inv in E as (_ & _ & _ & -> & Hz).
  rewrite drop_0 in *.
  split; [simpl; congruence|]. split; [done|]. unfold sender_inv. simpl. rewrite ?E2, E3, E4.
  assert (u64 (unacked_size s + zlen data) = unacked_size s + zlen data) as -> by (unfold u64; rewrite Z.mod_small; lia).
  rewrite !zlen_app, Hz. split_and!; try lia; try done.
  rewrite drop_app_le by (unfold zlen in *; lia). rewrite Ht, take_ge; [done|].
  rewrite length_app, length_drop. unfold zlen in *. lia.
Qed.

(** ** The segments of [unacked_sender] *)

(** addresses and ports of a session *)
Definition session_ok (b : session) : Prop :=
  (∃ f, ip_addr f (my_addr b) ∧ ip_addr f (their_addr b)) ∧
  0 ≤ my_port b < 65536 ∧ 0 ≤ their_port b < 65536.

(** [dg] carries the bytes [d] to the peer, with sequence number [nr] *)
Definition carries (b : session) (dg : datagram) (nr : Z) (d : list Z) : Prop :=
  dg_dst dg = their_addr b ∧ dg_src dg = my_addr b ∧ dg_protocol dg = 6 ∧
  ∃ sg, parse_segment (dg_payload dg) = Ok sg ∧ sg_seq sg = u32 nr ∧ sg_src_port sg = my_port b ∧
    sg_dst_port sg = their_port b ∧ sg_header_size sg = 32 ∧ sg_syn sg = false ∧ sg_rst sg = false ∧ sg_fin sg = false ∧
    drop 32 (dg_payload dg) = d.

(** consecutive segments from offset [off] on that together carry [data] *)
Fixpoint segments (b : session) (nr off : Z) (out : list datagram) (data : list Z) : Prop :=
  match out with
  | [] => data = []
  | dg :: rest => ∃ d data', data = d ++ data' ∧ carries b dg (nr + off) d ∧ segments b nr (off + zlen d) rest data'
  end.

(** segments that are as long as [packet_size] and the [left] bytes allow, behind a header of
    32 bytes *)
Fixpoint cut (packet_size left : Z) (out : list datagram) : Prop :=
  match out with
  | [] => True
  | dg :: rest => zlen (dg_payload dg) = 32 + Z.min packet_size left ∧ 0 < left ∧ cut packet_size (left - packet_size) rest
  end.

Lemma carries_length b dg nr d : carries b dg nr d → 0 < zlen d → zlen (dg_payload dg) = 32 + zlen d.
Proof.
  intros (_ & _ & _ & sg & _ & _ & _ & _ & _ & _ & _ & _ & <-). unfold zlen. rewrite length_drop. lia.
Qed.

(** the fields the sender changes *)
Definition resent (s s' : tcp_session) : Prop :=
  ∃ e d r, s' = set_r_last_pkt_ts (set_data_since_last_ack (set_e_last_pkt_ts s e) d) r.

Lemma resent_refl s : resent s s.
Proof. exists (e_last_pkt_ts s), (data_since_last_ack s), (r_last_pkt_ts s). by destruct s. Qed.

Lemma resent_trans s s' s'' : resent s s' → resent s' s'' → resent s s''.
Proof. intros (e & d & r & ->) (e' & d' & r' & ->). by exists e', d', r'. Qed.

Lemma send_segment_data env idev b flags ack nr data ts :
  env_idev env = Some idev → session_ok b → byte_ok flags → bytes_ok data → zlen data ≤ 65503 →
  Z.land flags 7 = 0 →
  ∃ dg, send_segment env (my_addr b) (my_port b) (their_addr b) (their_port b) flags ack (Some nr) data ts =
      Ok (nw_transmit idev dg, [dg], advance_seq (Some nr) flags (zlen data), Some (env_us env)) ∧
    carries b dg nr data.
Proof.
  intros Hi ([f [Hm Ht]] & Hmp & Htp) Hf HB Hl H7. unfold send_segment. rewrite Hi.
  destruct (segment_parses env f (my_addr b) (my_port b) (their_addr b) (their_port b) flags ack nr data ts)
    as (out & sg & -> & _ & Hp & -> & _ & Hd); [done..|].
  cbn [res_bind]. eexists. split; [done|]. split_and!; try done. eexists. split; [exact Hp|]. simpl.
  assert (∀ k, Z.land flags k = Z.land (Z.land flags 7) k ∨ Z.land 7 k ≠ k) as Hk.
  { intros k. rewrite <- Z.land_assoc. destruct (decide (Z.land 7 k = k)) as [->|]; auto. }
  assert (Z.land flags 1 = 0 ∧ Z.land flags 2 = 0 ∧ Z.land flags 4 = 0) as (-> & -> & ->).
  { split_and!; [destruct (Hk 1) as [-> |]|destruct (Hk 2) as [-> |]|destruct (Hk 4) as [-> |]]; try done; by rewrite H7. }
  done.
Qed.

(** one round of the loop: the segment it builds, and what is left after it *)
Lemma send_loop_round env idev s packet_size to_send i b0 :
  env_idev env = Some idev → session_ok (base s) → bytes_ok (take (Z.to_nat to_send) (unacked s)) →
  0 < packet_size ≤ 65503 → 0 ≤ i < to_send → to_send ≤ zlen (unacked s) →
  let n := Z.min packet_size (to_send - i) in
  ∃ d dg, rd_range (unacked s) i n = Ok d ∧ zlen d = n ∧
    send_segment env (my_addr (base s)) (my_port (base s)) (their_addr (base s)) (their_port (base s)) FLAG_ACK
      (their_seq_nr s) (Some (u32 (b0 + i))) d 0 =
      Ok (nw_transmit idev dg, [dg], Some (u32 (u32 (b0 + i) + n)), Some (env_us env)) ∧
    carries (base s) dg (b0 + i) d ∧
    drop (Z.to_nat i) (take (Z.to_nat to_send) (unacked s)) =
      d ++ drop (Z.to_nat (i + n)) (take (Z.to_nat to_send) (unacked s)).
Proof.
  intros Hi Hb HB Hps Hpos Hl n. rewrite rd_range_Ok by lia.
  set (d := take (Z.to_nat n) (drop (Z.to_nat i) (unacked s))).
  assert (zlen d = n) as Ld by (unfold d, zlen in *; rewrite length_take, length_drop; lia).
  assert (take (Z.to_nat n) (drop (Z.to_nat i) (take (Z.to_nat to_send) (unacked s))) = d) as Ed.
  { rewrite skipn_firstn_comm, take_take. unfold d. f_equal. lia. }
  destruct (send_segment_data env idev (base s) FLAG_ACK (their_seq_nr s) (u32 (b0 + i)) d 0)
    as (dg & Hseg & Hc); [done|done|unfold FLAG_ACK, byte_ok; lia|rewrite <- Ed; by apply bytes_ok_take, bytes_ok_drop|lia|done|].
  exists d, dg. split_and!; [done|done| | |].
  - rewrite Hseg. unfold advance_seq. change (negb _ || negb _) with false. cbn iota. by rewrite Ld.
  - destruct Hc as (? & ? & ? & sg & Hp & Hs & Hr). split_and!; try done. exists sg. split; [done|].
    split; [|done]. rewrite Hs. unfold u32. by rewrite Z.mod_mod.
  - rewrite <- Ed. rewrite Z2Nat.inj_add by lia. rewrite <- drop_drop. by rewrite take_drop.
Qed.

Lemma send_loop_end env s packet_size to_send i nr out0 :
  to_send ≤ i →
  (∀ fuel, send_loop fuel env s packet_size to_send i nr out0 = Ok (s, out0)) ∧
  drop (Z.to_nat i) (take (Z.to_nat to_send) (unacked s)) = [].
Proof.
  intros H. split; [intros fuel; destruct fuel; simpl; by rewrite (proj2 (Z.leb_le to_send i)) by done|].
  apply drop_ge. rewrite length_take. lia.
Qed.

Lemma send_loop_spec fuel env idev s packet_size to_send i b0 out0 :
  env_idev env = Some idev → session_ok (base s) → bytes_ok (take (Z.to_nat to_send) (unacked s)) →
  0 < packet_size ≤ 65503 →
  0 ≤ i → to_send ≤ zlen (unacked s) → to_send - i ≤ Z.of_nat fuel →
  ∃ s' out data,
    send_loop fuel env s packet_size to_send i (u32 (b0 + i)) out0 = Ok (s', out0 ++ out) ∧ resent s s' ∧
    segments (base s) b0 i out data ∧ data `prefix_of` drop (Z.to_nat i) (take (Z.to_nat to_send) (unacked s)) ∧
    cut packet_size (to_send - i) out ∧
    ((∀ dg, nw_transmit idev dg = true) → data = drop (Z.to_nat i) (take (Z.to_nat to_send) (unacked s))).
Proof.
  intros Hi Hb HB Hps. revert s i out0 Hb HB. induction fuel as [|fuel IH]; intros s i out0 Hb HB Hpos Hl Hf;
    (destruct (Z.le_gt_cases to_send i) as [Hend|Hmore];
      [destruct (send_loop_end env s packet_size to_send i (u32 (b0 + i)) out0 Hend) as [-> ->];
       exists s, [], []; rewrite app_nil_r; split_and!; [done|apply resent_refl|done|apply prefix_nil|done|done]|]); [lia|].
  destruct (send_loop_round env idev s packet_size to_send i b0) as (d & dg & Hrd & Ld & Hseg & Hc & Esplit); [done..|].
  cbn [send_loop]. rewrite (proj2 (Z.leb_gt to_send i)), Hrd by lia. cbn [res_bind]. rewrite Hseg. cbn [res_bind].
  set (n := Z.min packet_size (to_send - i)) in *.
  assert (zlen (dg_payload dg) = 32 + n) as Lp by (rewrite (carries_length _ _ _ _ Hc); lia).
  destruct (nw_transmit idev dg) eqn:Htx.
  - cbn [default from_option]. unfold id. set (s2 := set_data_since_last_ack _ _).
    assert (resent s s2) as Hr2.
    { exists (env_us env), (u64 (data_since_last_ack s + n)), (r_last_pkt_ts s). by destruct s. }
    destruct (Z.le_gt_cases (to_send - i) packet_size) as [Hlast|Hgoon].
    + destruct (send_loop_end env s2 packet_size to_send (i + packet_size) (u32 (u32 (b0 + i) + n)) (out0 ++ [dg]))
        as [-> _]; [lia|]. exists s2, [dg], d. rewrite Esplit.
      split_and!; [done|done|exists d, []; rewrite app_nil_r; done|by apply prefix_app_r|cbn [cut]; by split_and!; [|lia|]|].
      intros _. rewrite (drop_ge _ (Z.to_nat (i + n))); [by rewrite app_nil_r|]. rewrite length_take. lia.
    + destruct (IH s2 (i + packet_size) (out0 ++ [dg])) as (s' & out & data & Hloop & Hr & Hsegs & Hpre & Hcut & Hall);
        [done|done|lia|done|lia|]. assert (n = packet_size) as En by lia.
      replace (u32 (u32 (b0 + i) + n)) with (u32 (b0 + (i + packet_size)))
        by (unfold u32; rewrite Zplus_mod_idemp_l; f_equal; lia).
      exists s', (dg :: out), (d ++ data). rewrite Hloop, <- app_assoc, Esplit, En.
      split_and!; [done|exact (resent_trans _ _ _ Hr2 Hr)| |by apply prefix_app| |intros Hok; f_equal; by apply Hall].
      { exists d, data. split_and!; [done|done|]. rewrite Ld, En. exact Hsegs. }
      cbn [cut]. split_and!; [done|lia|]. by replace (to_send - i - packet_size) with (to_send - (i + packet_size)) by lia.
  - exists (after_send s None (Some (env_us env))), [dg], d. rewrite Esplit.
    split_and!; [done| |exists d, []; rewrite app_nil_r; done|by apply prefix_app_r|cbn [cut]; by split_and!; [|lia|]|intros Hok; by rewrite Hok in Htx].
    exists (env_us env), (data_since_last_ack s), (r_last_pkt_ts s). by destruct s.
Qed.

Lemma segments_shift b nr k off out data :
  segments b (nr + k) off out data ↔ segments b nr (k + off) out data.
Proof.
  revert off data. induction out as [|dg out IH]; intros off data; simpl; [done|].
  split; intros (d & data' & -> & Hc & Hs); exists d, data'; (split; [done|]);
    (split; [by replace (nr + k + off) with (nr + (k + off)) in * by lia|]).
  - apply IH in Hs. by replace (k + off + zlen d) with (k + (off + zlen d)) by lia.
  - apply IH. by replace (k + (off + zlen d)) with (k + off + zlen d) by lia.
Qed.

(** one round of [unacked_sender] for a session *)
Lemma unacked_send_spec env idev now s stream b a :
  env_idev env = Some idev → session_ok (base s) → bytes_ok stream → sender_inv s stream b a →
  32 < nw_max_packet_size idev ≤ 65535 →
  ∃ s' out data n,
    unacked_send env idev now s = Ok (s', out) ∧ resent s s' ∧ segments (base s) b a out data ∧
    0 ≤ n ≤ unacked_size s ∧ cut (nw_max_packet_size idev - 32) n out ∧
    data `prefix_of` take (Z.to_nat n) (drop (Z.to_nat a) stream) ∧
    ((∀ dg, nw_transmit idev dg = true) → data = take (Z.to_nat n) (drop (Z.to_nat a) stream)) ∧
    (1000000 ≤ u64 (now - r_last_pkt_ts s) → 0 ≤ data_since_last_ack s ≤ window_size s → window_size s < 65536 →
     n = Z.min (window_size s - data_since_last_ack s) (unacked_size s)).
Proof.
  intros Hi Hok HB Hinv Hps. pose proof Hinv as (Ha & Hs & Hb & Hl & Ht & Hm & _).
  unfold unacked_send. destruct (Z.leb_spec 1000000 (u64 (now - r_last_pkt_ts s))) as [Hgo|Hgo].
  2:{ exists s, [], [], 0. split_and!; (done || lia || apply resent_refl || apply prefix_nil). }
  set (w := u64 (window_size s - data_since_last_ack s)).
  assert (0 ≤ w) as Hw0 by (subst w; unfold u64; apply Z.mod_pos_bound; lia).
  assert (s32 (Z.min w (unacked_size s)) = Z.min w (unacked_size s)) as ->.
  { unfold s32. rewrite Z.mod_small; lia. }
  set (n := Z.min w (unacked_size s)).
  assert (take (Z.to_nat n) (unacked s) = take (Z.to_nat n) (drop (Z.to_nat a) stream)) as En.
  { rewrite <- Ht, take_take. f_equal. lia. }
  destruct (send_loop_spec (Z.to_nat n) env idev s (nw_max_packet_size idev - (20 + 12)) n 0 (b + a) [])
    as (s' & out & data & Hloop & Hr & Hseg & Hpre & Hcut & Hall);
    [done|done|rewrite En; by apply bytes_ok_take, bytes_ok_drop|lia|lia|lia|lia|].
  rewrite Z.add_0_r, <- Hm in Hloop. rewrite Hloop. cbn [res_bind app].
  change (Z.to_nat 0) with 0%nat in *. rewrite drop_0 in *.
  rewrite Z.sub_0_r in Hcut. rewrite En in *. eexists _, out, data, n. split; [done|]. split_and!; try done; try lia.
  - destruct (0 <? n); [|done]. destruct Hr as (e & d & r & ->). by exists e, d, now.
  - apply segments_shift in Hseg. by rewrite Z.add_0_r in Hseg.
  - intros _ Hdw Hw. subst n w. f_equal. unfold u64. rewrite Z.mod_small; lia.
Qed.

(** ** The receiver *)

(** the bytes given to the application *)
Definition delivered_by (evs : list tcp_event) : list Z :=
  concat ((λ e, match e with ev_new_data _ _ d => d | _ => [] end) <$> evs).

Lemma delivered_by_app l k : delivered_by (l ++ k) = delivered_by l ++ delivered_by k.
Proof. unfold delivered_by. by rewrite fmap_app, concat_app. Qed.

(** a phase that gives nothing to the application and expects the same byte next *)
Definition quiet (w w' : work_item) : Prop :=
  their_seq_nr (w_session w') = their_seq_nr (w_session w) ∧ delivered_by (w_events w') = delivered_by (w_events w) ∧
  (state (w_session w) ≠ tcp_syn_sent → state (w_session w') ≠ tcp_syn_sent) ∧
  (0 ≤ my_seq_nr (w_session w) < 4294967296 → 0 ≤ my_seq_nr (w_session w') < 4294967296) ∧
  base (w_session w') = base (w_session w).

Lemma quiet_refl w : quiet w w.
Proof. done. Qed.
Lemma quiet_trans w w' w'' : quiet w w' → quiet w' w'' → quiet w w''.
Proof. intros (H1 & H2 & H3 & H4 & H5) (K1 & K2 & K3 & K4 & K5). split_and!; (congruence || auto). Qed.

Section Receiver.
Context (env : tcp_env) (TSecr : Z) (sg : segment).
Context (listener : option port_handler) (nsr : bool) (ndr : list Z → bool).

Lemma w_send_quiet w flags ack w' : w_send env w flags ack TSecr = Ok w' → quiet w w'.
Proof.
  intros (_ & _ & Hev & nr & e & out & Hnr & Hs & _)%w_send_inv. unfold quiet. rewrite Hev, Hs. simpl.
  split_and!; try done. intros Hr. destruct (env_idev env); [|by subst nr].
  subst nr. simpl. destruct (_ || _); apply u32_range.
Qed.

Lemma w_state_quiet w st : st ≠ tcp_syn_sent → quiet w (w_state env w st).
Proof. done. Qed.

Lemma ack_data_quiet w w' : ack_data env TSecr sg w = Ok w' → quiet w w'.
Proof.
  unfold ack_data. intros H. res_step H. injection H as <-.
  assert (quiet w a) as Hq; [|done].
  destruct ((0 <? _) && (0 <? unacked_size _)); [|by injection E as <-]. cbv zeta in E. res_step E. 
  set (w1 := w_set_session _ _) in E. set (s1 := w_session w1) in E.
  assert (quiet w w1) as Q1.
  { unfold quiet. subst s1 w1. cbn. destruct (_ <? 0); split_and!; try done; intros _; apply u32_range. }
  res_step E. assert (quiet w1 a1) as Q2.
  { destruct ((unacked_size _ =? 0) && _) in E1; [|by injection E1 as <-].
    res_step E1. injection E1 as <-. eapply quiet_trans; [by eapply w_send_quiet|done]. }
  injection E as <-. eapply quiet_trans; [exact Q1|]. eapply quiet_trans; [exact Q2|].
  destruct (0 <? unacked_size (w_session a1)); [|apply quiet_refl]. unfold quiet. by split_and!.
Qed.

Lemma process_quiet s w :
  state s ≠ tcp_syn_sent →
  (let* w1 := process_syn env TSecr sg (process_rst env sg (Work s false false false [] [] [])) in
   let* w2 := process_ack env TSecr sg listener nsr w1 in
   process_all_received env TSecr (process_fin env sg w2)) = Ok w → quiet (Work s false false false [] [] []) w.
Proof.
  intros Hs H. set (w0 := Work s false false false [] [] []) in *.
  assert (quiet w0 (process_rst env sg w0)) as Q1
    by (unfold process_rst; destruct (sg_rst sg); [destruct (_ <=? _)|]; done).
  res_step H. rename a into w1. assert (quiet (process_rst env sg w0) w1) as Q2.
  { unfold process_syn in E. destruct (sg_syn sg && _); [|by injection E as <-].
    cbn [w_session w_add_stat] in E.
    destruct (state (w_session (process_rst env sg w0))); try (by injection E as <-); (res_step E; injection E as <-;
      eapply quiet_trans; [|apply w_state_quiet; done]; by apply w_send_quiet in E0). }
  res_step H. rename a into w2. assert (quiet w1 w2) as Q3.
  { assert (state (w_session w1) ≠ tcp_syn_sent) as Hs1 by (apply Q2, Q1; done).
    unfold process_ack in E0. destruct (sg_ack sg && _); [|by injection E0 as <-]. res_step E0.
    injection E0 as <-. enough (quiet w1 a) by done. clear Q1 Q2. destruct (state (w_session w1)) eqn:St; try done; try (by injection E1 as <-).
    - injection E1 as <-. unfold ack_syn_rcvd.
      destruct listener as [cb|]; [|done]. destruct (ph_new_session cb); [|done].
      destruct nsr; unfold quiet; cbn [w_events w_session w_add_event w_add_stat w_state w_set_session w_set_fail];
        rewrite delivered_by_app, (app_nil_r (delivered_by _) : _ ++ delivered_by [ev_new_session _ _] = _); done.
    - by apply ack_data_quiet. }
  assert (quiet w2 (process_fin env sg w2)) as Q4
    by (unfold process_fin; destruct (sg_fin sg); [destruct (state (w_session w2))|]; unfold quiet; by split_and!).
  eapply quiet_trans; [exact Q1|]. eapply quiet_trans; [exact Q2|]. eapply quiet_trans; [exact Q3|].
  eapply quiet_trans; [exact Q4|].
  set (w3 := process_fin env sg w2) in *. unfold process_all_received in H.
  destruct (flag_fin_when_all_received (w_session w3) && _); [|injection H as <-; apply quiet_refl].
  res_step H. injection H as <-. apply w_send_quiet in E1. eapply quiet_trans; [exact E1|]. unfold quiet. by split_and!.
Qed.

(** what the application gets from a segment, and what is expected next *)
Lemma process_session_receives p s w :
  state s ≠ tcp_syn_sent → 0 ≤ my_seq_nr s < 4294967296 →
  process_session env TSecr sg listener nsr ndr p s = Ok w → w_fail w = false →
  state (w_session w) ≠ tcp_syn_sent ∧ 0 ≤ my_seq_nr (w_session w) < 4294967296 ∧
  ((their_seq_nr (w_session w) = their_seq_nr s ∧ delivered_by (w_events w) = []) ∨
   (sg_header_size sg < zlen p ∧ sg_seq sg = their_seq_nr s ∧
    delivered_by (w_events w) = ptr_at p (sg_header_size sg) ∧
    their_seq_nr (w_session w) = u32 (their_seq_nr s + zlen (ptr_at p (sg_header_size sg))))).
Proof.
  intros Hs Hr H Hf. unfold process_session in H. cbn [w_fail] in H.
  set (s0 := set_window_size _ _) in H. 
  destruct (zlen p <? sg_header_size sg) eqn:Hsz; cbn [negb] in H.
  { cbn [res_bind w_fail] in H. rewrite andb_false_r in H. cbn [res_bind] in H. res_step H. injection H as <-.
    apply process_fail_inv in E as [[? _]|(_ & F & _)]; [done|]. destruct (w_delete a); simpl in Hf; congruence. }
  res_step H. rename a into w1. apply process_quiet in E; [|done]. destruct E as (Q1 & Q2 & Q3 & Q4 & _).
  simpl in Q1, Q2, Q3, Q4. specialize (Q3 Hs). specialize (Q4 Hr). cbn in Q2.
  res_step H. rename a into w2. res_step H. rename a into w3. injection H as H.
  assert (w_session w = w_session w3 ∨ w_session w = set_is_terminating (w_session w3) true) as Hw.
  { subst w. destruct (w_delete w3); auto. }
  assert (w_events w = w_events w3 ∧ w_fail w3 = false) as [He Hf3] by (subst w; by destruct (w_delete w3)).
  assert (w_fail w2 = false ∧ w3 = w2) as [Hf2 ->].
  { apply process_fail_inv in E0 as [[? ->]|(_ & ? & _)]; [done|congruence]. }
  assert (state (w_session w) = state (w_session w2) ∧ my_seq_nr (w_session w) = my_seq_nr (w_session w2) ∧
    their_seq_nr (w_session w) = their_seq_nr (w_session w2)) as (-> & -> & ->) by (by destruct Hw as [-> | ->]).
  rewrite He. clear Hw He H w Hf Hf3.
  destruct ((0 <? zlen p - sg_header_size sg) && negb (w_fail w1)) eqn:G; [|injection E as <-; auto].
  apply andb_true_iff in G as [G%Z.ltb_lt _]. pose proof (process_payload_state _ _ _ _ _ _ _ _ E) as Hst.
  destruct (process_payload_spec _ _ _ _ _ _ _ _ E Q4 Hf2) as [e He].
  destruct (Z.eqb_spec (sg_seq sg) (their_seq_nr (w_session w1))) as [Heq|_].
  - destruct He as [Hs2 (cb & _ & Hev)]. rewrite Hst, Hs2, Hev, delivered_by_app, Q2. simpl.
    split_and!; [done|lia|lia|]. right. rewrite Q1 in *. unfold delivered_by. simpl. rewrite app_nil_r.
    split_and!; (done || lia).
  - destruct He as [Hs2 ->]. rewrite Hst, Hs2. simpl. auto.
Qed.
End Receiver.
