(* ===== verification/Tcp.v ===== *)
(** * TCP: sessions, listeners and threads (src/tcp.cpp)

    [packet_handler] with the table of sessions, the session cleaner, the sender of
    unacknowledged data, the session ender, the listeners and the client
    side.  A step is what one thread does with a packet or in one round; the
    handling of a packet, which releases [sessions_lock] between its parts, is
    one step.  The queue
    [ending_sessions] is the list of its elements (Fifo.v): [put] waits until
    there is room.  The threads walk over [std::map]s in the order of the keys. *)
From stdpp Require Import sorting.
From S2P Require Import Prelude AnyAddr Checksum Net AddressCache Arp Router Ipv4 TcpSegment TcpSession.
Open Scope Z_scope.

Record tcp := Tcp {
  sessions : gmap Z tcp_session;
  listeners : gmap Z port_handler;
  tcp_clients : gmap Z Z;
  ending_sessions : list tcp_session;
}.

Definition with_sessions (t : tcp) (m : gmap Z tcp_session) : tcp :=
  Tcp m (listeners t) (tcp_clients t) (ending_sessions t).
Definition with_ending (t : tcp) (q : list tcp_session) : tcp :=
  Tcp (sessions t) (listeners t) (tcp_clients t) q.
Definition with_clients (t : tcp) (c : gmap Z Z) : tcp :=
  Tcp (sessions t) (listeners t) c (ending_sessions t).

(** what a step does besides changing the state *)
Record tcp_output := Output { out_datagrams : list datagram; out_events : list tcp_event; out_stats : list tcp_stat }.
Definition silent : tcp_output := Output [] [] [].

Definition get_listener (t : tcp) (port : Z) : option port_handler := listeners t !! port.

(** [std::map::insert] *)
Definition add_handler (t : tcp) (port : Z) (tph : port_handler) : tcp :=
  match listeners t !! port with
  | Some _ => t
  | None => Tcp (sessions t) (<[port := tph]> (listeners t)) (tcp_clients t) (ending_sessions t)
  end.

(** the keys of a map in ascending order *)
Definition sorted_keys {A} (m : gmap Z A) : list Z := merge_sort Z.le (map_to_list m).*1.

(** ** Receiving *)

(** the session of a SYN; [isn] is the random initial sequence number *)
Definition new_server_session (pkt : packet) (sg : segment) (id isn : Z) : tcp_session :=
  TcpSession (Session (pkt_dst pkt) (sg_dst_port sg) (pkt_src pkt) (sg_src_port sg) 300 id false)
    false false (sg_win_size sg) tcp_listen 0 0 0 isn (u32 (sg_seq sg + 1)) isn (sg_seq sg)
    [] 0 0 0 false 0 false.

(** [sessions.insert]: keeps an existing entry *)
Definition insert_session (m : gmap Z tcp_session) (id : Z) (s : tcp_session) : gmap Z tcp_session :=
  match m !! id with Some _ => m | None => <[id := s]> m end.

(** the first part of [packet_handler], for a SYN; [None]: the handler returns *)
Definition handle_syn (env : tcp_env) (t : tcp) (pkt : packet) (sg : segment) (id isn : Z)
  : res (option tcp * tcp_output) :=
  match get_listener t (sg_dst_port sg) with
  | None =>
      let* out := send_rst_for_port env pkt (sg_dst_port sg) (sg_src_port sg) in
      Ok (None, Output out [] [])
  | Some _ =>
      if 128 <=? Z.of_nat (size (sessions t)) then Ok (None, silent)
      else
        match sessions t !! id with
        | Some _ => Ok (Some t, silent)
        | None =>
            Ok (Some (with_sessions t (insert_session (sessions t) id (new_server_session pkt sg id isn))),
                Output [] [] [tcp_new_sessions])
        end
  end.

(** the last part: the session is taken from the table when it is to be deleted *)
Definition finish_session (t : tcp) (id : Z) (w : work_item) : tcp * list tcp_stat :=
  let m := <[id := w_session w]> (sessions t) in
  if w_delete w then
    if in_init (w_session w) then (with_sessions t m, [tcp_sessions_rem])
    else (Tcp (delete id m) (listeners t) (tcp_clients t) (ending_sessions t ++ [w_session w]), [tcp_sessions_rem])
  else (with_sessions t m, []).

(** the second part, for the session with this id *)
Definition handle_session (env : tcp_env) (t : tcp) (pkt : packet) (sg : segment) (id : Z)
    (new_session_result : bool) (new_data_result : list Z → bool) : res (tcp * tcp_output) :=
  match sessions t !! id with
  | None =>
      let* out := send_rst_for_port env pkt (sg_dst_port sg) (sg_src_port sg) in
      Ok (t, Output out [] [tcp_errors])
  | Some s =>
      let* TSecr := segment_options (pkt_data pkt) sg in
      let* w := process_session env TSecr sg (get_listener t (sg_dst_port sg)) new_session_result new_data_result
                  (pkt_data pkt) s in
      let '(t, st) := finish_session t id w in
      Ok (t, Output (w_out w) (w_events w) (w_stats w ++ st))
  end.

Definition packet_handler (env : tcp_env) (t : tcp) (pkt : packet) (isn : Z) (new_session_result : bool)
    (new_data_result : list Z → bool) : res (tcp * tcp_output) :=
  let p := pkt_data pkt in
  if pkt_size pkt <? 20 then Ok (t, Output [] [] [tcp_errors])
  else
    let* sg := parse_segment p in
    let* id := hash_address (pkt_src pkt) (sg_dst_port sg) (sg_src_port sg) in
    let* '(t1, o1) := (if sg_syn sg then handle_syn env t pkt sg id isn else Ok (Some t, silent)) in
    match t1 with
    | None => Ok (t, o1)
    | Some t1 =>
        let* '(t2, o2) := handle_session env t1 pkt sg id new_session_result new_data_result in
        Ok (t2, Output (out_datagrams o1 ++ out_datagrams o2) (out_events o1 ++ out_events o2)
                  (out_stats o1 ++ out_stats o2))
    end.

(** ** The session cleaner *)

(** is the session closed or timed out? *)
Definition stale (now : Z) (s : tcp_session) : bool :=
  let age := u64 (now - e_last_pkt_ts s) / 1000000 in
  (session_timeout (base s) <=? age) || (state_nr tcp_established <? state_nr (state s)) ||
  (bool_decide (state s = tcp_syn_rcvd) && (5 <=? age)).

(** the loop over the sessions that are left to look at; for a session in
    initialisation the iterator is not advanced *)
Fixpoint clean_loop (fuel : nat) (now : Z) (t : tcp) (ids : list Z) (st : list tcp_stat) : res (tcp * list tcp_stat) :=
  match ids with
  | [] => Ok (t, st)
  | id :: rest =>
      match fuel with
      | O => Err out_of_fuel
      | S fuel =>
          match sessions t !! id with
          | None => Err bad_access
          | Some s =>
              if in_init s then clean_loop fuel now t ids st
              else if stale now s then
                let c := if is_client (base s) then delete (my_port (base s)) (tcp_clients t) else tcp_clients t in
                clean_loop fuel now
                  (Tcp (delete id (sessions t)) (listeners t) c (ending_sessions t ++ [s])) rest (st ++ [tcp_sessions_to])
              else clean_loop fuel now t rest st
          end
      end
  end.

(** one round; every session is looked at once *)
Definition session_cleaner (now : Z) (t : tcp) : res (tcp * list tcp_stat) :=
  clean_loop (size (sessions t)) now t (sorted_keys (sessions t)) [].

(** ** The sender of unacknowledged data *)

Fixpoint unacked_loop (env : tcp_env) (idev : network) (now : Z) (t : tcp) (ids : list Z) (out : list datagram)
  : res (tcp * list datagram) :=
  match ids with
  | [] => Ok (t, out)
  | id :: rest =>
      match sessions t !! id with
      | None => Err bad_access
      | Some s =>
          let* '(s, o) := unacked_send env idev now s in
          unacked_loop env idev now (with_sessions t (<[id := s]> (sessions t))) rest (out ++ o)
      end
  end.

(** one round; without a network layer the code dereferences a null pointer *)
Definition unacked_sender (env : tcp_env) (t : tcp) : res (tcp * list datagram) :=
  match env_idev env with
  | Some idev => unacked_loop env idev (env_us env) t (sorted_keys (sessions t)) []
  | None => if decide (sessions t = ∅) then Ok (t, []) else Err bad_access
  end.

(** ** The session ender *)

(** [free_tcp_session]: the callbacks that are set *)
Definition free_tcp_session (t : tcp) (s : tcp_session) : list tcp_event :=
  match get_listener t (my_port (base s)) with
  | Some cb =>
      (if ph_session_closed_1 cb then [ev_session_closed_1 (ph_id cb) (session_id (base s))] else []) ++
      (if ph_session_closed_2 cb then [ev_session_closed_2 (ph_id cb) (session_id (base s))] else [])
  | None => []
  end.

(** the loop body of [session_ender]; [None]: nothing to do *)
Definition session_ender (t : tcp) : res (tcp * list tcp_event) :=
  match ending_sessions t with
  | [] => Ok (t, [])
  | s :: rest =>
      let* ev :=
        match get_listener t (my_port (base s)) with
        | Some cb =>
            if ph_session_closed_2 cb then Ok [ev_session_closed_2 (ph_id cb) (session_id (base s))]
            else Err bad_function
        | None => Ok []
        end in
      Ok (with_ending t rest, ev ++ free_tcp_session t s)
  end.

(** ** The client side *)

(** the loop that draws a free port *)
Fixpoint draw_port (clients : gmap Z Z) (draws : list Z) : res Z :=
  match draws with
  | [] => Err out_of_fuel
  | local_port :: draws =>
      if (1023 <? local_port) && (local_port <? 65535) && bool_decide (clients !! local_port = None)
      then Ok local_port else draw_port clients draws
  end.

Definition new_client_session (env : tcp_env) (idev : network) (local_port : Z) (dst_addr : any_addr)
    (dst_port id isn : Z) : tcp_session :=
  let nr := Z.land isn 0x7fffffff in
  TcpSession (Session (nw_addr idev) local_port dst_addr (u16 dst_port) 300 id true)
    true false (u16 (nw_max_packet_size idev)) tcp_syn_sent (env_time env) 0 0 nr 0 nr 0
    [] 0 0 0 false 0 false.

Definition allocate_client_session (env : tcp_env) (t : tcp) (handler : Z) (has_closed_2 : bool) (dst_addr : any_addr)
    (dst_port isn : Z) (draws : list Z) : res (Z * tcp * tcp_output) :=
  match env_idev env with
  | None => Err bad_access
  | Some idev =>
      let* local_port := draw_port (tcp_clients t) draws in
      let* id := hash_address dst_addr local_port dst_port in
      let t := with_clients t (<[local_port := id]> (tcp_clients t)) in
      let s := new_client_session env idev local_port dst_addr dst_port id isn in
      let m := sessions t in
      let t := add_handler t local_port (PortHandler handler false false has_closed_2) in
      let* '(s, out) := send_control env s FLAG_SYN (their_seq_nr s) 0 in
      Ok (local_port, with_sessions t (insert_session m id s), Output out [] [tcp_new_sessions])
  end.

(** the session of a client port *)
Definition client_session (t : tcp) (port : Z) : option (Z * tcp_session) :=
  match tcp_clients t !! port with
  | Some id => match sessions t !! id with Some s => Some (id, s) | None => None end
  | None => None
  end.

Definition close_client_session (env : tcp_env) (t : tcp) (port : Z) : res (tcp * list datagram) :=
  match client_session t port with
  | None => Ok (t, [])
  | Some (id, s) =>
      let* '(s, out) := end_session env s in
      Ok (with_sessions t (<[id := s]> (sessions t)), out)
  end.

Inductive wait_status := connected | timed_out | keep_waiting.

(** one iteration of [wait_for_client_connected_state]; [counter] counts up to 3 *)
Definition wait_connected (env : tcp_env) (s : tcp_session) (counter : Z)
  : res (wait_status * Z * tcp_session * list datagram) :=
  if state_nr tcp_established <=? state_nr (state s) then Ok (connected, counter, s, [])
  else if 30 <=? env_time env - state_since s then Ok (timed_out, counter, s, [])
  else
    let counter := counter + 1 in
    if counter =? 3 then
      let b := base s in
      let* '(_, out, _, ts) := send_segment env (their_addr b) (their_port b) (my_addr b) (my_port b)
                                 FLAG_SYN (their_seq_nr s) (Some (my_seq_nr s)) [] 0 in
      Ok (keep_waiting, 0, after_send s None ts, out)
    else Ok (keep_waiting, counter, s, []).

(** its end: from here on the cleaner may purge the session *)
Definition wait_finish (s : tcp_session) : tcp_session := set_in_init s false.

(** the returned value, [None]: [send_data] waits for room *)
Definition client_session_send_data (t : tcp) (port : Z) (data : list Z) : res (option bool * tcp) :=
  match client_session t port with
  | None => Ok (Some false, t)
  | Some (id, s) =>
      let* r := send_data s data in
      match r with
      | sd_done s => Ok (Some true, with_sessions t (<[id := s]> (sessions t)))
      | sd_wait => Ok (None, t)
      end
  end.

(** ** The states of a session *)

(** the transitions made by [packet_handler] and [end_session] *)
Inductive tcp_edge : tcp_state → tcp_state → Prop :=
  | edge_syn : tcp_edge tcp_listen tcp_syn_rcvd
  | edge_connected : tcp_edge tcp_syn_sent tcp_established
  | edge_accepted : tcp_edge tcp_syn_rcvd tcp_established
  | edge_finished : tcp_edge tcp_last_ack tcp_listen
  | edge_fin st : tcp_edge st tcp_fin_wait_1
  | edge_all_received st : tcp_edge st tcp_fin_wait_2
  | edge_rst st : state_nr tcp_syn_rcvd ≤ state_nr st → tcp_edge st tcp_closing.

Section Edges.
Context (env : tcp_env) (TSecr : Z) (sg : segment).
Context (listener : option port_handler) (nsr : bool) (ndr : list Z → bool).

(** the state follows the edges, the identity of the session stays *)
Definition follows (w w' : work_item) : Prop :=
  rtc tcp_edge (state (w_session w)) (state (w_session w')) ∧ base (w_session w') = base (w_session w) ∧
  in_init (w_session w') = in_init (w_session w).

Lemma follows_trans w w' w'' : follows w w' → follows w' w'' → follows w w''.
Proof. intros (H1 & H2 & H3) (K1 & K2 & K3). split_and!; [by etrans|congruence|congruence]. Qed.

Lemma follows_same w w' :
  state (w_session w') = state (w_session w) → base (w_session w') = base (w_session w) →
  in_init (w_session w') = in_init (w_session w) → follows w w'.
Proof. intros H1 H2 H3. split; [by rewrite H1|done]. Qed.

Lemma follows_state w st : tcp_edge (state (w_session w)) st → follows w (w_state env w st).
Proof. intros H. split; [by apply rtc_once|done]. Qed.

Lemma w_send_follows w flags ack w' : w_send env w flags ack TSecr = Ok w' → follows w w'.
Proof. intros (_ & _ & _ & nr & e & out & _ & Hs & _)%w_send_inv. apply follows_same; by rewrite Hs. Qed.

Lemma process_rst_follows w : follows w (process_rst env sg w).
Proof.
  unfold process_rst. destruct (sg_rst sg); [|by apply follows_same].
  destruct (Z.leb_spec (state_nr tcp_syn_rcvd) (state_nr (state (w_session w)))); [|by apply follows_same].
  split; [|done]. apply rtc_once. by constructor.
Qed.

Lemma process_syn_follows w w' : process_syn env TSecr sg w = Ok w' → follows w w'.
Proof.
  unfold process_syn. intros H. destruct (sg_syn sg && _); [|injection H as <-; by apply follows_same].
  cbn [w_session w_add_stat] in H.
  destruct (state (w_session w)) eqn:E; try (injection H as <-; by apply follows_same).
  - res_step H. injection H as <-. pose proof (w_send_follows _ _ _ _ E0) as F. eapply follows_trans; [exact F|].
    apply w_send_inv in E0 as (_ & _ & _ & ? & ? & ? & _ & Hs & _).
    apply follows_state. rewrite Hs. simpl. rewrite E. constructor.
  - res_step H. injection H as <-. pose proof (w_send_follows _ _ _ _ E0) as F. eapply follows_trans; [exact F|].
    apply w_send_inv in E0 as (_ & _ & _ & ? & ? & ? & _ & Hs & _).
    apply follows_same; [|done|done]. simpl. by rewrite Hs; simpl.
Qed.

Lemma ack_data_follows w w' : ack_data env TSecr sg w = Ok w' → follows w w'.
Proof.
  unfold ack_data. intros H. res_step H. injection H as <-.
  assert (follows w a) as Hq; [|exact Hq].
  destruct ((0 <? _) && (0 <? unacked_size _)); [|injection E as <-; by apply follows_same]. cbv zeta in E. res_step E.
  set (w1 := w_set_session _ _) in E.
  assert (follows w w1) as Q1 by (subst w1; by apply follows_same).
  res_step E. assert (follows w1 a1) as Q2.
  { destruct ((unacked_size _ =? 0) && _) in E1; [|injection E1 as <-; by apply follows_same].
    res_step E1. injection E1 as <-. eapply follows_trans; [by eapply w_send_follows|].
    apply follows_state. constructor. }
  injection E as <-. eapply follows_trans; [exact Q1|]. eapply follows_trans; [exact Q2|].
  destruct (0 <? unacked_size (w_session a1)); by apply follows_same.
Qed.

Lemma process_ack_follows w w' : process_ack env TSecr sg listener nsr w = Ok w' → follows w w'.
Proof.
  unfold process_ack. intros H. destruct (sg_ack sg && _); [|injection H as <-; by apply follows_same].
  res_step H. injection H as <-. enough (follows w a) as (F1 & F2 & F3) by done.
  destruct (state (w_session w)) eqn:St; try (injection E as <-; by apply follows_same).
  - injection E as <-. assert (follows w (w_state env w tcp_established)) as F by (apply follows_state; rewrite St; constructor).
    unfold ack_syn_rcvd. destruct listener as [cb|]; [destruct (ph_new_session cb); [destruct nsr|]|]; exact F.
  - unfold ack_syn_sent, send_control_swapped in E.
    destruct (send_segment _ _ _ _ _ _ _ _ _ _) as [[[[? ?] nr] ts]|]; [|done]. injection E as <-.
    split; [simpl; rewrite St; apply rtc_once; constructor|]. unfold after_send. by destruct nr, ts.
  - by apply ack_data_follows.
  - injection E as <-. split; [simpl; rewrite St; apply rtc_once; constructor|done].
Qed.

Lemma process_fin_follows w : follows w (process_fin env sg w).
Proof.
  unfold process_fin. destruct (sg_fin sg); [|by apply follows_same].
  destruct (state (w_session w)) eqn:E; try by apply follows_same.
  split; [|done]. simpl. apply rtc_once. constructor.
Qed.

Lemma process_all_received_follows w w' : process_all_received env TSecr w = Ok w' → follows w w'.
Proof.
  unfold process_all_received. intros H.
  destruct (flag_fin_when_all_received _ && _); [|injection H as <-; by apply follows_same].
  res_step H. injection H as <-. eapply follows_trans; [by eapply w_send_follows|].
  split; [|done]. apply rtc_once. constructor.
Qed.

Lemma process_payload_follows w d w' : process_payload env TSecr sg listener ndr w d = Ok w' → follows w w'.
Proof.
  unfold process_payload. destruct (sg_seq sg =? _); [|apply w_send_follows].
  intros H. set (w1 := match listener with Some _ => _ | None => _ end) in H.
  assert (follows w w1) as F1 by (subst w1; destruct listener; [destruct (ndr d)|]; by apply follows_same).
  destruct (w_fail w1); [by injection H as <-|].
  destruct (unacked_size (w_session w) =? 0); [|by injection H as <-].
  eapply follows_trans; [exact F1|]. apply w_send_follows in H. exact H.
Qed.

Lemma process_fail_follows w w' : process_fail env TSecr sg listener w = Ok w' → follows w w'.
Proof.
  unfold process_fail. intros H. destruct (w_fail w); [|injection H as <-; by apply follows_same].
  res_step H. assert (w_session a = w_session w) as Ea.
  { destruct listener as [cb|]; [destruct (ph_session_closed_1 cb); [|done]|]; by injection E as <-. }
  destruct (send_segment _ _ _ _ _ _ _ _ _ _) as [[[[? ?] nr] ts]|]; [|done]. injection H as <-.
  apply follows_same; simpl; rewrite Ea; unfold after_send; by destruct nr, ts.
Qed.

Lemma process_session_follows p s w :
  process_session env TSecr sg listener nsr ndr p s = Ok w →
  rtc tcp_edge (state s) (state (w_session w)) ∧ base (w_session w) = base s ∧ in_init (w_session w) = in_init s.
Proof.
  unfold process_session. intros H. set (w0 := Work _ _ _ _ _ _ _) in H.
  enough (follows w0 w) as F by exact F.
  res_step H. rename a into w1. assert (follows w0 w1) as F1.
  { destruct (negb _) in E; [|injection E as <-; by apply follows_same].
    res_step E. res_step E. eapply follows_trans; [apply process_rst_follows|].
    eapply follows_trans; [by eapply process_syn_follows|]. eapply follows_trans; [by eapply process_ack_follows|].
    eapply follows_trans; [apply process_fin_follows|]. by eapply process_all_received_follows. }
  res_step H. rename a into w2. assert (follows w1 w2) as F2.
  { destruct (_ && _) in E0; [by eapply process_payload_follows|injection E0 as <-; by apply follows_same]. }
  res_step H. apply process_fail_follows in E1. injection H as <-.
  eapply follows_trans; [exact F1|]. eapply follows_trans; [exact F2|]. eapply follows_trans; [exact E1|].
  destruct (w_delete a); by apply follows_same.
Qed.
End Edges.

(** ** Runs of the TCP layer *)

Inductive tcp_step : tcp → tcp → Prop :=
  | t_packet env t pkt isn nsr ndr t' o : packet_handler env t pkt isn nsr ndr = Ok (t', o) → tcp_step t t'
  | t_clean now t t' st : session_cleaner now t = Ok (t', st) → tcp_step t t'
  | t_unacked env t t' out : unacked_sender env t = Ok (t', out) → tcp_step t t'
  | t_end t t' ev : session_ender t = Ok (t', ev) → tcp_step t t'
  | t_listen t port h : tcp_step t (add_handler t port h)
  | t_client env t h c2 dst port isn draws p t' o :
      allocate_client_session env t h c2 dst port isn draws = Ok (p, t', o) → tcp_step t t'
  | t_close env t port t' out : close_client_session env t port = Ok (t', out) → tcp_step t t'
  | t_client_send t port data r t' : client_session_send_data t port data = Ok (r, t') → tcp_step t t'
  | t_send t id s data s' :
      sessions t !! id = Some s → send_data s data = Ok (sd_done s') →
      tcp_step t (with_sessions t (<[id := s']> (sessions t)))
  | t_end_session env t id s s' out :
      sessions t !! id = Some s → end_session env s = Ok (s', out) →
      tcp_step t (with_sessions t (<[id := s']> (sessions t)))
  | t_wait env t id s counter r counter' s' out :
      sessions t !! id = Some s → wait_connected env s counter = Ok (r, counter', s', out) →
      tcp_step t (with_sessions t (<[id := s']> (sessions t)))
  | t_connected t id s :
      sessions t !! id = Some s → tcp_step t (with_sessions t (<[id := wait_finish s]> (sessions t))).

(** the states sessions are in *)
Definition live_state (st : tcp_state) : bool :=
  match st with
  | tcp_closed | tcp_close_wait | tcp_last_ack | tcp_time_wait | tcp_rst_act => false
  | _ => true
  end.

Definition session_inv (id : Z) (s : tcp_session) : Prop :=
  session_id (base s) = id ∧ live_state (state s) = true.
Definition tcp_inv (t : tcp) : Prop := map_Forall session_inv (sessions t).

Lemma live_edge st st' : tcp_edge st st' → live_state st = true → live_state st' = true.
Proof. by intros []. Qed.

Lemma live_edges st st' : rtc tcp_edge st st' → live_state st = true → live_state st' = true.
Proof. induction 1 as [|x y z H _ IH]; [done|]. intros L. apply IH. by eapply live_edge. Qed.

Lemma tcp_inv_update t id s s' :
  tcp_inv t → sessions t !! id = Some s → base s' = base s → rtc tcp_edge (state s) (state s') →
  map_Forall session_inv (<[id := s']> (sessions t)).
Proof.
  intros Ht Hs Hb He. apply map_Forall_insert_2; [|done]. destruct (Ht id s Hs) as [Hi Hl].
  split; [by rewrite Hb|by eapply live_edges].
Qed.

Lemma after_send_same s nr ts : state (after_send s nr ts) = state s ∧ base (after_send s nr ts) = base s.
Proof. unfold after_send. by destruct nr, ts. Qed.

Lemma insert_session_inv m id s :
  map_Forall session_inv m → session_inv id s → map_Forall session_inv (insert_session m id s).
Proof. intros Hm Hs. unfold insert_session. destruct (m !! id); [done|]. by apply map_Forall_insert_2. Qed.

Lemma send_loop_same fuel env s ps n i nr out0 s' out :
  send_loop fuel env s ps n i nr out0 = Ok (s', out) → state s' = state s ∧ base s' = base s.
Proof.
  revert s i nr out0. induction fuel as [|fuel IH]; intros s i nr out0; cbn [send_loop];
    (destruct (n <=? i); [by intros [= <- _]|]); [done|].
  intros H. res_step H. destruct (send_segment _ _ _ _ _ _ _ _ _ _) as [[[[rc o] nr'] ts]|]; [|done]. cbn [res_bind] in H.
  pose proof (after_send_same s None ts) as [E1 E2].
  destruct rc; [|injection H as <- _; done]. apply IH in H as [H1 H2]. simpl in H1, H2. by rewrite H1, H2, E1, E2.
Qed.

Lemma unacked_send_same env idev now s s' out :
  unacked_send env idev now s = Ok (s', out) → state s' = state s ∧ base s' = base s.
Proof.
  unfold unacked_send. destruct (_ <=? _); [|by intros [= <- _]]. intros H.
  destruct (send_loop _ _ _ _ _ _ _ _) as [[s1 o]|] eqn:E; [|done]. injection H as <- _.
  apply send_loop_same in E as [E1 E2]. by destruct (0 <? _).
Qed.

Lemma unacked_loop_inv env idev now t ids out0 t' out :
  unacked_loop env idev now t ids out0 = Ok (t', out) → tcp_inv t → tcp_inv t'.
Proof.
  revert t out0. induction ids as [|id ids IH]; intros t out0 H Ht; simpl in H; [by injection H as <- _|].
  destruct (sessions t !! id) as [s|] eqn:Hs; [|done].
  destruct (unacked_send env idev now s) as [[s' o]|] eqn:E; [|done]. cbn [res_bind] in H.
  apply unacked_send_same in E as [E1 E2]. apply IH in H; [done|].
  unfold tcp_inv. eapply tcp_inv_update; [done|done|done|by rewrite E1].
Qed.

Lemma clean_loop_inv fuel now t ids st0 t' st :
  clean_loop fuel now t ids st0 = Ok (t', st) → tcp_inv t → tcp_inv t'.
Proof.
  revert t ids st0. induction fuel as [|fuel IH]; intros t ids st0 H Ht;
    (destruct ids as [|id ids]; simpl in H; [by injection H as <- _|]); [done|].
  destruct (sessions t !! id) as [s|]; [|done]. destruct (in_init s); [by eapply IH|].
  destruct (stale now s); [|by eapply IH]. apply IH in H; [done|]. by apply map_Forall_delete.
Qed.

Lemma end_session_follows env s s' out :
  end_session env s = Ok (s', out) → base s' = base s ∧ rtc tcp_edge (state s) (state s').
Proof.
  unfold end_session, send_control. destruct (unacked_size s =? 0); [|intros [= <- _]; done].
  intros H. destruct (send_segment _ _ _ _ _ _ _ _ _ _) as [[[[rc o] nr] ts]|]; [|done]. injection H as <- _.
  pose proof (after_send_same s nr ts) as [E1 E2]. split; [exact E2|]. apply rtc_once. constructor.
Qed.

Lemma send_data_same s data s' : send_data s data = Ok (sd_done s') → base s' = base s ∧ state s' = state s.
Proof.
  unfold send_data. intros H. destruct (unacked_size s <? _).
  - destruct (state s) eqn:E; try (by injection H as <-). res_step H. injection H as <-.
    destruct (unacked_size s =? 0); simpl; by rewrite E.
  - destruct (negb (bool_decide _)); [by injection H as <-|]. destruct (negb (is_terminating s)); [by injection H as <-|done].
Qed.

Lemma packet_handler_inv env t pkt isn nsr ndr t' o :
  packet_handler env t pkt isn nsr ndr = Ok (t', o) → tcp_inv t → tcp_inv t'.
Proof.
  unfold packet_handler. intros H Ht. destruct (pkt_size pkt <? 20); [by injection H as <- _|].
  res_step H. rename a into sg. res_step H. rename a into id.
  destruct (if sg_syn sg then _ else _) as [[t1 o1]|] eqn:E1; [|done]. cbn [res_bind] in H.
  destruct t1 as [t1|]; [|by injection H as <- _].
  assert (tcp_inv t1) as Ht1.
  { destruct (sg_syn sg); [|by injection E1 as <- _]. unfold handle_syn in E1.
    destruct (get_listener t _); [|by destruct (send_rst_for_port _ _ _ _)].
    destruct (128 <=? _); [done|]. destruct (sessions t !! id); injection E1 as <- _; [done|].
    by apply insert_session_inv. }
  destruct (handle_session env t1 pkt sg id nsr ndr) as [[t2 o2]|] eqn:E2; [|done]. injection H as <- _.
  unfold handle_session in E2. destruct (sessions t1 !! id) as [s|] eqn:Hs;
    [|destruct (send_rst_for_port _ _ _ _); [|done]; by injection E2 as <- _].
  res_step E2. res_step E2. apply process_session_follows in E4 as (F1 & F2 & F3).
  pose proof (tcp_inv_update t1 id s (w_session a0) Ht1 Hs F2 F1) as Hm.
  unfold finish_session in E2. destruct (w_delete a0); [destruct (in_init _)|]; injection E2 as <- _; [done| |done].
  by apply map_Forall_delete.
Qed.

(** C2: whatever packets arrive and whatever the threads, the applications and
    the clients do, every session in the table is filed under its own id and is
    in one of the states listen, syn_rcvd, syn_sent, established, fin_wait_1,
    fin_wait_2 and closing: the code never enters closed, close_wait, last_ack,
    time_wait and rst_act. *)
Theorem tcp_states_reachable t : rtc tcp_step (Tcp ∅ ∅ ∅ []) t → tcp_inv t.
Proof.
  intros Hrun. assert (tcp_inv (Tcp ∅ ∅ ∅ [])) as H0 by apply map_Forall_empty. revert H0.
  induction Hrun as [|t1 t2 t3 Hs _ IH]; [done|]. intros Ht. apply IH. clear IH.
  destruct Hs as [env t pkt isn nsr ndr t' o H|now t t' st H|env t t' out H|t t' ev H|t port h
    |env t h c2 dst port isn draws p t' o H|env t port t' out H|t port data r t' H|t id s data s' Hs H
    |env t id s s' out Hs H|env t id s counter r counter' s' out Hs H|t id s Hs].
  - by eapply packet_handler_inv.
  - by eapply clean_loop_inv.
  - unfold unacked_sender in H. destruct (env_idev env); [by eapply unacked_loop_inv|]. case_decide; [|done]. by injection H as <- _.
  - unfold session_ender in H. destruct (ending_sessions t); [by injection H as <- _|]. res_step H. by injection H as <- _.
  - unfold add_handler. by destruct (listeners t !! port).
  - unfold allocate_client_session in H. destruct (env_idev env) as [idev|]; [|done]. res_step H. res_step H.
    destruct (send_control _ _ _ _ _) as [[s1 o1]|] eqn:E1; [|done]. injection H as _ <- _.
    unfold send_control in E1. destruct (send_segment _ _ _ _ _ _ _ _ _ _) as [[[[rc o'] nr] ts]|]; [|done].
    injection E1 as <- _. apply insert_session_inv; [done|].
    split; [by rewrite (proj2 (after_send_same _ _ _))|by rewrite (proj1 (after_send_same _ _ _))].
  - unfold close_client_session, client_session in H. destruct (tcp_clients t !! port) as [id|]; [|by injection H as <- _].
    destruct (sessions t !! id) as [s|] eqn:Hs; [|by injection H as <- _].
    destruct (end_session env s) as [[s' o]|] eqn:E; [|done]. injection H as <- _.
    apply end_session_follows in E as [E1 E2]. by eapply tcp_inv_update.
  - unfold client_session_send_data, client_session in H. destruct (tcp_clients t !! port) as [id|]; [|by injection H as _ <-].
    destruct (sessions t !! id) as [s|] eqn:Hs; [|by injection H as _ <-]. res_step H.
    destruct a as [s'|]; injection H as _ <-; [|done]. apply send_data_same in E as [E1 E2].
    eapply tcp_inv_update; [done|done|done|by rewrite E2].
  - apply send_data_same in H as [E1 E2]. eapply tcp_inv_update; [done|done|done|by rewrite E2].
  - apply end_session_follows in H as [E1 E2]. by eapply tcp_inv_update.
  - eapply (tcp_inv_update t id s); [done|done|..]; unfold wait_connected in H;
      (destruct (_ <=? state_nr (state s)); [by injection H as _ _ <- _|]); (destruct (30 <=? _); [by injection H as _ _ <- _|]);
      (destruct (counter + 1 =? 3); [|by injection H as _ _ <- _]);
      (destruct (send_segment _ _ _ _ _ _ _ _ _ _) as [[[[rc o'] nr] ts]|]; [|done]); injection H as _ _ <- _.
    + apply after_send_same.
    + by rewrite (proj1 (after_send_same _ _ _)).
  - by eapply (tcp_inv_update t id s).
Qed.

Definition ex_tcp : tcp := Tcp ∅ {[ 80 := PortHandler 5 true true true ]} ∅ [].

(** ** The number of sessions *)

Lemma handle_session_size env t pkt sg id nsr ndr t' o :
  handle_session env t pkt sg id nsr ndr = Ok (t', o) → (size (sessions t') ≤ size (sessions t))%nat.
Proof.
  unfold handle_session. destruct (sessions t !! id) as [s|] eqn:Hs;
    [|destruct (send_rst_for_port _ _ _ _); [|done]; by intros [= <- _]].
  intros H. res_step H. res_step H. unfold finish_session in H.
  assert (size (<[id := w_session a0]> (sessions t)) = size (sessions t)) as Esz by (apply map_size_insert_Some; eauto).
  destruct (w_delete a0); [destruct (in_init _)|]; injection H as <- _; simpl; rewrite ?Esz; [done| |done].
  rewrite map_size_delete_Some by (rewrite lookup_insert_eq; eauto). lia.
Qed.

(** C6: a packet never lets the number of sessions grow beyond 128: it opens at
    most one session, and none when there are 128 already. *)
Theorem session_limit env t pkt isn nsr ndr t' o :
  packet_handler env t pkt isn nsr ndr = Ok (t', o) →
  (size (sessions t') ≤ S (size (sessions t)))%nat ∧ (size (sessions t') ≤ size (sessions t) `max` 128)%nat.
Proof.
  unfold packet_handler. intros H. destruct (pkt_size pkt <? 20); [injection H as <- _; lia|].
  res_step H. rename a into sg. res_step H. rename a into id.
  destruct (if sg_syn sg then _ else _) as [[t1 o1]|] eqn:E1; [|done]. cbn [res_bind] in H.
  destruct t1 as [t1|]; [|injection H as <- _; lia].
  assert (size (sessions t1) ≤ S (size (sessions t)) ∧ size (sessions t1) ≤ size (sessions t) `max` 128)%nat as Ht1.
  { destruct (sg_syn sg); [|injection E1 as <- _; lia]. unfold handle_syn in E1.
    destruct (get_listener t _); [|by destruct (send_rst_for_port _ _ _ _)].
    destruct (Z.leb_spec 128 (Z.of_nat (size (sessions t)))); [done|].
    destruct (sessions t !! id) eqn:Hs; injection E1 as <- _; [lia|]. simpl. unfold insert_session. rewrite Hs.
    rewrite map_size_insert_None by done. lia. }
  destruct (handle_session env t1 pkt sg id nsr ndr) as [[t2 o2]|] eqn:E2; [|done]. injection H as <- _.
  apply handle_session_size in E2. lia.
Qed.

(** ** The session cleaner *)

Definition purge (now : Z) (s : tcp_session) : option tcp_session := if stale now s then None else Some s.

Lemma omap_ext_in {A B} (f g : A → option B) (l : list A) : (∀ x, x ∈ l → f x = g x) → omap f l = omap g l.
Proof.
  induction l as [|x l IH]; intros H; [done|]. cbn [omap list_omap]. rewrite H by left.
  assert (omap f l = omap g l) as -> by (apply IH; intros; apply H; by right). done.
Qed.

Lemma clean_loop_ok fuel now t ids st0 :
  NoDup ids → (∀ id, id ∈ ids → ∃ s, sessions t !! id = Some s ∧ in_init s = false) → (length ids ≤ fuel)%nat →
  ∃ t' st, clean_loop fuel now t ids st0 = Ok (t', st) ∧ listeners t' = listeners t ∧
    (∀ id, sessions t' !! id = if decide (id ∈ ids) then sessions t !! id ≫= purge now else sessions t !! id) ∧
    ending_sessions t' = ending_sessions t ++
      omap (λ id, s ← sessions t !! id; if stale now s then Some s else None) ids.
Proof.
  revert t ids st0. induction fuel as [|fuel IH]; intros t ids st0 Hnd Hin Hf;
    (destruct ids as [|id ids]; [|simpl in Hf; try lia]).
  1,2: exists t, st0; split_and!; [done|done|intros id; by rewrite decide_False by apply not_elem_of_nil|by rewrite app_nil_r].
  apply NoDup_cons in Hnd as [Hni Hnd]. destruct (Hin id) as (s & Hs & Hini); [left|].
  cbn [clean_loop]. rewrite Hs, Hini. cbn [omap list_omap]. rewrite Hs. cbn [mbind option_bind].
  destruct (stale now s) eqn:Hst.
  - set (t1 := Tcp _ _ _ _). destruct (IH t1 ids (st0 ++ [tcp_sessions_to])) as (t' & st & Hloop & Hlis & Hses & Hend);
      [done| |lia|].
    { intros id' Hid'. destruct (Hin id') as (s' & Hs' & Hini'); [by right|]. exists s'. simpl.
      rewrite lookup_delete_ne by (intros ->; done). done. }
    exists t', st. split_and!; [done|done| |].
    + intros k. rewrite Hses. simpl. destruct (decide (k = id)) as [->|Hne].
      * rewrite lookup_delete_eq, decide_False, decide_True by (done || by left). rewrite Hs. simpl. unfold purge. by rewrite Hst.
      * rewrite lookup_delete_ne by done. destruct (decide (k ∈ ids)); [rewrite decide_True by (by right)|rewrite decide_False by set_solver]; done.
    + rewrite Hend. simpl. rewrite <- app_assoc. simpl. do 2 f_equal. 
      apply omap_ext_in. intros x Hx. by rewrite lookup_delete_ne by (intros ->; done).
  - destruct (IH t ids st0) as (t' & st & Hloop & Hlis & Hses & Hend); [done|intros; apply Hin; by right|lia|].
    exists t', st. split_and!; [done|done| |done].
    intros k. rewrite Hses. destruct (decide (k = id)) as [->|Hne].
    + rewrite decide_False, decide_True by (done || by left). rewrite Hs. simpl. unfold purge. by rewrite Hst.
    + destruct (decide (k ∈ ids)); [rewrite decide_True by (by right)|rewrite decide_False by set_solver]; done.
Qed.

Lemma clean_loop_stuck fuel now t ids st0 :
  NoDup ids → (∀ id, id ∈ ids → ∃ s, sessions t !! id = Some s) →
  (∃ id s, id ∈ ids ∧ sessions t !! id = Some s ∧ in_init s = true) →
  clean_loop fuel now t ids st0 = Err out_of_fuel.
Proof.
  revert t ids st0. induction fuel as [|fuel IH]; intros t ids st0 Hnd Hin (x & sx & Hx & Hsx & Hix);
    (destruct ids as [|id ids]; [by apply not_elem_of_nil in Hx|]); [done|].
  cbn [clean_loop]. destruct (Hin id) as [s Hs]; [left|]. rewrite Hs.
  destruct (in_init s) eqn:Hi; [apply IH; eauto 6|].
  assert (x ≠ id) as Hne by congruence. apply elem_of_cons in Hx as [?|Hx]; [done|].
  apply NoDup_cons in Hnd as [Hni Hnd]. destruct (stale now s).
  - apply IH; [done| |exists x, sx; simpl; by rewrite lookup_delete_ne].
    intros k Hk. simpl. rewrite lookup_delete_ne by (intros ->; done). apply Hin. by right.
  - apply IH; [done|intros k Hk; apply Hin; by right|eauto 6].
Qed.

Lemma sorted_keys_spec {A} (m : gmap Z A) :
  NoDup (sorted_keys m) ∧ (∀ k, k ∈ sorted_keys m ↔ is_Some (m !! k)) ∧ length (sorted_keys m) = size m.
Proof.
  assert (sorted_keys m ≡ₚ (map_to_list m).*1) as P by apply merge_sort_Permutation. split_and!.
  - rewrite P. apply NoDup_fst_map_to_list.
  - intros k. rewrite P, list_elem_of_fmap. split.
    + intros ([k' v] & -> & H%elem_of_map_to_list). by exists v.
    + intros [v H]. exists (k, v). split; [done|]. by apply elem_of_map_to_list.
  - rewrite P, length_fmap. apply length_map_to_list.
Qed.

(** C12: a round of the session cleaner, when no session is being set up by a
    client, ends and moves exactly the stale sessions (closed, idle for longer
    than their timeout, or 5 seconds in syn_rcvd) to the queue of ending
    sessions, in the order of their ids; when a client session is being
    set up, the round never ends. *)
Theorem cleaner_removes_stale now t :
  ((∀ id s, sessions t !! id = Some s → in_init s = false) →
   ∃ t' st, session_cleaner now t = Ok (t', st) ∧ listeners t' = listeners t ∧
     (∀ id, sessions t' !! id = sessions t !! id ≫= purge now) ∧
     ending_sessions t' = ending_sessions t ++
       omap (λ id, s ← sessions t !! id; if stale now s then Some s else None) (sorted_keys (sessions t))) ∧
  ((∃ id s, sessions t !! id = Some s ∧ in_init s = true) →
   ∀ fuel, clean_loop fuel now t (sorted_keys (sessions t)) [] = Err out_of_fuel).
Proof.
  destruct (sorted_keys_spec (sessions t)) as (Hnd & Hk & Hl). split.
  - intros Hni. destruct (clean_loop_ok (size (sessions t)) now t (sorted_keys (sessions t)) [])
      as (t' & st & H1 & H2 & H3 & H4); [done| |lia|].
    { intros id [s Hs]%Hk. exists s. eauto. }
    exists t', st. split_and!; try done. intros id. rewrite H3. case_decide as D; [done|].
    destruct (sessions t !! id) eqn:E; [|done]. destruct D. apply Hk. eauto.
  - intros (id & s & Hs & Hi) fuel. apply clean_loop_stuck; [done|intros k Hk'; by apply Hk in Hk' as [? ?]; eauto|].
    exists id, s. split_and!; try done. apply Hk. eauto.
Qed.

Definition ex_packet (p : list Z) : packet := Packet (ex_mac 1) (ex_v4 10 0 0 1) (ex_v4 10 0 0 2) p (replicate 20 69) false.
(** a SYN from port 1025 to port 80 with sequence number 500 *)
Definition ex_syn : list Z := [4; 1; 0; 80; 0; 0; 1; 244; 0; 0; 0; 0; 80; 2; 16; 0; 0; 0; 0; 0].
Definition ex_id : Z := match hash_address (ex_v4 10 0 0 1) 80 1025 with Ok id => id | Err _ => 0 end.
Definition ex_after (r : res (tcp * tcp_output)) : tcp := match r with Ok (t, _) => t | Err _ => ex_tcp end.

Lemma session_limit_witness :
  (size (sessions (ex_after (packet_handler ex_env ex_tcp (ex_packet ex_syn) 77 true (λ _, true)))) ≤ 1)%nat ∧
  (size (sessions (ex_after (packet_handler ex_env ex_tcp (ex_packet ex_syn) 77 true (λ _, true)))) ≤ 128)%nat.
Proof.
  destruct (packet_handler ex_env ex_tcp (ex_packet ex_syn) 77 true (λ _, true)) as [[t o]|] eqn:E;
    [|exfalso; vm_compute in E; discriminate].
  exact (session_limit ex_env ex_tcp (ex_packet ex_syn) 77 true (λ _, true) t o E).
Defined.

(** ** Answers of the handler *)

(** what a receiver reads from a datagram *)
Definition is_segment (dg : datagram) (dst src : any_addr) (sg : segment) : Prop :=
  dg_dst dg = dst ∧ dg_src dg = src ∧ dg_protocol dg = 6 ∧ parse_segment (dg_payload dg) = Ok sg ∧
  tcp_udp_checksum src dst true (dg_payload dg) (zlen (dg_payload dg)) = Ok 0.

Lemma send_segment_is env idev f my_addr my_port peer_addr peer_port flags ack nr ts :
  env_idev env = Some idev → ip_addr f my_addr → ip_addr f peer_addr → 0 ≤ my_port < 65536 → 0 ≤ peer_port < 65536 →
  byte_ok flags →
  ∃ dg, send_segment env my_addr my_port peer_addr peer_port flags ack (Some nr) [] ts =
      Ok (nw_transmit idev dg, [dg], advance_seq (Some nr) flags 0, Some (env_us env)) ∧
    is_segment dg peer_addr my_addr (Segment my_port peer_port (u32 nr) (u32 ack) 32 65535 (negb (Z.land flags 1 =? 0))
      (negb (Z.land flags 2 =? 0)) (negb (Z.land flags 4 =? 0)) (negb (Z.land flags 16 =? 0))).
Proof.
  intros Hi Hm Hp Hmp Hpp Hf. unfold send_segment. rewrite Hi.
  destruct (segment_parses env f my_addr my_port peer_addr peer_port flags ack nr [] ts)
    as (out & sg & -> & Hc & Hps & -> & _ & _); [done..|apply Forall_nil_2|done|].
  cbn [res_bind]. by eexists.
Qed.

(** a RST for a segment [sg] *)
Lemma send_rst_is env idev f pkt sg :
  env_idev env = Some idev → ip_addr f (pkt_src pkt) → ip_addr f (pkt_dst pkt) → bytes_ok (pkt_data pkt) →
  20 ≤ pkt_size pkt → parse_segment (pkt_data pkt) = Ok sg →
  ∃ dg, send_rst_for_port env pkt (sg_dst_port sg) (sg_src_port sg) = Ok [dg] ∧
    is_segment dg (pkt_src pkt) (pkt_dst pkt)
      (Segment (sg_dst_port sg) (sg_src_port sg) (sg_ack_to sg) (u32 (sg_seq sg + 1)) 20 0 false false true false).
Proof.
  intros Hi Hs Hd HB Hz Hp. unfold send_rst_for_port. rewrite Hi. unfold pkt_size in Hz.
  assert (∃ q rest, pkt_data pkt = q ++ rest ∧ length q = 20%nat) as (q & rest & Hq & Lq).
  { exists (take 20 (pkt_data pkt)), (drop 20 (pkt_data pkt)). rewrite take_drop, length_take. unfold zlen in Hz. split; [done|lia]. }
  rewrite Hq in *. apply Forall_app in HB as [HBq _]. clear Hz Hq.
  do 20 (destruct q as [|? q]; [discriminate Lq|]). destruct q; [|discriminate Lq]. clear Lq.
  repeat (let H := fresh "B" in apply Forall_cons_1 in HBq as [H HBq]). clear HBq.
  change (parse_segment _) with (Ok (Segment (join16 z z0) (join16 z1 z2) (join32 z3 z4 z5 z6) (join32 z7 z8 z9 z10)
        (Z.shiftr z11 4 * 4) (join16 z13 z14)
        (negb (Z.land z12 1 =? 0)) (negb (Z.land z12 2 =? 0)) (negb (Z.land z12 4 =? 0)) (negb (Z.land z12 16 =? 0)))) in Hp.
  injection Hp as <-. cbn [sg_src_port sg_dst_port sg_seq sg_ack_to].
  rewrite rd_range_Ok; [|lia|lia|unfold zlen; rewrite length_app; simpl; lia].
  change (take _ (drop (Z.to_nat 8) _)) with [z7; z8; z9; z10].
  change (rd _ 4) with (Ok z3). change (rd _ 5) with (Ok z4). change (rd _ 6) with (Ok z5). change (rd _ 7) with (Ok z6).
  cbn [res_bind]. rewrite !join16_eq by done.
  rewrite (u8_port_hi (z1 * 256 + z2)), (u8_port_hi (z * 256 + z0)) by (unfold byte_ok in *; lia).
  set (dp := z1 * 256 + z2). set (sp := z * 256 + z0). set (ack := u32 (join32 z3 z4 z5 z6 + 1)).
  set (temp := [u8 (Z.shiftr dp 8); u8 dp; u8 (Z.shiftr sp 8); u8 sp] ++ [z7; z8; z9; z10] ++ be32 ack ++ [80; FLAG_RST; 0; 0; 0; 0; 0; 0]).
  assert (bytes_ok temp) as HBt.
  { unfold temp, be32. simpl.
    repeat (apply Forall_cons_2; [done || apply u8_ok || (unfold FLAG_RST, byte_ok; lia)|]). apply Forall_nil_2. }
  destruct (tcp_udp_stored f (pkt_dst pkt) (pkt_src pkt) true temp 16 Hd Hs HBt) as (c & Hc & Hv);
    [done|done|simpl; lia|done|].
  change (zlen temp) with 20 in Hc, Hv. rewrite Hc. cbn [res_bind]. eexists. split; [done|].
  split_and!; try done. cbn [dg_payload].
  change (parse_segment (put16 temp 16 c)) with (Ok (Segment (join16 (u8 (Z.shiftr dp 8)) (u8 dp))
    (join16 (u8 (Z.shiftr sp 8)) (u8 sp)) (join32 z7 z8 z9 z10)
    (join32 (u8 (Z.shiftr ack 24)) (u8 (Z.shiftr ack 16)) (u8 (Z.shiftr ack 8)) (u8 ack)) 20 0 false false true false)).
  rewrite join32_be32, !join16_be16 by (unfold dp, sp, byte_ok in *; lia).
  unfold ack. rewrite (u32_id (u32 _)) by apply u32_range. done.
Qed.

(** a segment that belongs to no session, and a SYN for a port nobody listens
    on, are answered with a RST to the sender that repeats the sender's
    acknowledgement number and acknowledges its sequence number plus one, with
    a checksum that verifies; no session is created or changed. *)
Theorem unknown_segment_reset env idev f t pkt isn nsr ndr sg id :
  env_idev env = Some idev → ip_addr f (pkt_src pkt) → ip_addr f (pkt_dst pkt) → bytes_ok (pkt_data pkt) →
  20 ≤ pkt_size pkt → parse_segment (pkt_data pkt) = Ok sg →
  hash_address (pkt_src pkt) (sg_dst_port sg) (sg_src_port sg) = Ok id →
  (sg_syn sg = true ∧ listeners t !! sg_dst_port sg = None) ∨ (sg_syn sg = false ∧ sessions t !! id = None) →
  ∃ dg st, packet_handler env t pkt isn nsr ndr = Ok (t, Output [dg] [] st) ∧
    is_segment dg (pkt_src pkt) (pkt_dst pkt)
      (Segment (sg_dst_port sg) (sg_src_port sg) (sg_ack_to sg) (u32 (sg_seq sg + 1)) 20 0 false false true false).
Proof.
  intros Hi Hs Hd HB Hz Hp Hid Hcase.
  destruct (send_rst_is env idev f pkt sg Hi Hs Hd HB Hz Hp) as (dg & Hrst & Hdg).
  unfold packet_handler. rewrite (proj2 (Z.ltb_ge _ 20)), Hp by done. cbn [res_bind]. rewrite Hid. cbn [res_bind].
  destruct Hcase as [[-> Hl]|[-> Hses]].
  - unfold handle_syn, get_listener. rewrite Hl, Hrst. cbn [res_bind]. by eexists _, _.
  - cbn [res_bind]. unfold handle_session. rewrite Hses, Hrst. cbn [res_bind]. by eexists _, _.
Qed.

Lemma unknown_segment_reset_witness :
  ∃ dg st, packet_handler ex_env (Tcp ∅ ∅ ∅ []) (ex_packet ex_syn) 77 true (λ _, true) = Ok (Tcp ∅ ∅ ∅ [], Output [dg] [] st) ∧
    is_segment dg (ex_v4 10 0 0 1) (ex_v4 10 0 0 2) (Segment 80 1025 0 501 20 0 false false true false).
Proof.
  apply (unknown_segment_reset ex_env (ex_network true 2) ipv4 (Tcp ∅ ∅ ∅ []) (ex_packet ex_syn) 77 true (λ _, true)
    (Segment 1025 80 500 0 20 4096 false true false false) ex_id); try done;
    [apply ex_v4_ip; unfold byte_ok; lia|apply ex_v4_ip; unfold byte_ok; lia|solve_bytes|by left].
Defined.

(** ** Opening a session *)

Lemma send_control_is env idev s flags ack ts :
  env_idev env = Some idev → session_ok (base s) → byte_ok flags →
  ∃ dg, send_control env s flags ack ts =
      Ok (set_e_last_pkt_ts (set_my_seq_nr s (default 0 (advance_seq (Some (my_seq_nr s)) flags 0))) (env_us env), [dg]) ∧
    is_segment dg (their_addr (base s)) (my_addr (base s))
      (Segment (my_port (base s)) (their_port (base s)) (u32 (my_seq_nr s)) (u32 ack) 32 65535 (negb (Z.land flags 1 =? 0))
        (negb (Z.land flags 2 =? 0)) (negb (Z.land flags 4 =? 0)) (negb (Z.land flags 16 =? 0))).
Proof.
  intros Hi ([f [Hm Ht]] & Hmp & Htp) Hf. unfold send_control.
  destruct (send_segment_is env idev f (my_addr (base s)) (my_port (base s)) (their_addr (base s)) (their_port (base s))
    flags ack (my_seq_nr s) ts) as (dg & -> & Hdg); [done..|]. by exists dg.
Qed.

(** C4: a SYN for a listening port opens a session, when there are fewer than
    128: the peer gets a SYN with ACK that carries the initial sequence number
    and acknowledges the SYN, and the session waits in syn_rcvd with both
    sequence numbers one further. *)
Theorem server_syn_answered env idev f t pkt sg id isn ts nsr ndr cb :
  env_idev env = Some idev → ip_addr f (pkt_src pkt) → ip_addr f (pkt_dst pkt) →
  0 ≤ sg_src_port sg < 65536 → 0 ≤ sg_dst_port sg < 65536 → 0 ≤ isn < 4294967296 →
  20 ≤ pkt_size pkt → parse_segment (pkt_data pkt) = Ok sg → segment_options (pkt_data pkt) sg = Ok ts →
  hash_address (pkt_src pkt) (sg_dst_port sg) (sg_src_port sg) = Ok id →
  sg_syn sg = true → sg_ack sg = false → sg_rst sg = false → sg_fin sg = false → sg_header_size sg = pkt_size pkt →
  listeners t !! sg_dst_port sg = Some cb → sessions t !! id = None → Z.of_nat (size (sessions t)) < 128 →
  ∃ t' dg st s, packet_handler env t pkt isn nsr ndr = Ok (t', Output [dg] [] st) ∧
    is_segment dg (pkt_src pkt) (pkt_dst pkt)
      (Segment (sg_dst_port sg) (sg_src_port sg) isn (u32 (sg_seq sg + 1)) 32 65535 false true false true) ∧
    sessions t' = <[id := s]> (sessions t) ∧ state s = tcp_syn_rcvd ∧ base s = Session (pkt_dst pkt) (sg_dst_port sg) (pkt_src pkt) (sg_src_port sg) 300 id false ∧
    my_seq_nr s = u32 (isn + 1) ∧ their_seq_nr s = u32 (sg_seq sg + 1) ∧ unacked_size s = 0.
Proof.
  intros Hi Hs Hd Hsp Hdp Hisn Hz Hp Hts Hid Hsyn Hack Hrst Hfin Hh Hl Hnone Hlim.
  unfold packet_handler. rewrite (proj2 (Z.ltb_ge _ 20)), Hp by done. cbn [res_bind]. rewrite Hid. cbn [res_bind].
  rewrite Hsyn. unfold handle_syn, get_listener. rewrite Hl, (proj2 (Z.leb_gt 128 _)), Hnone by done. cbn [res_bind].
  unfold handle_session, insert_session, with_sessions, get_listener. rewrite Hnone. cbn [sessions listeners]. rewrite lookup_insert_eq, Hts.
  cbn [res_bind]. unfold process_session. set (s0 := set_window_size _ _).
  unfold pkt_size in Hh. rewrite Hh, Z.ltb_irrefl, Z.sub_diag. cbn [negb w_fail].
  unfold process_rst. rewrite Hrst. unfold process_syn. cbn [w_delete]. rewrite Hsyn. cbn [negb andb].
  change (state (w_session (w_add_stat _ _))) with tcp_listen. cbn iota. unfold w_send.
  destruct (send_control_is env idev s0 (Z.lor FLAG_SYN FLAG_ACK) (u32 (sg_seq sg + 1)) ts) as (dg & Hsend & Hdg);
    [done|split; [by exists f|done]|change (Z.lor FLAG_SYN FLAG_ACK) with 18; unfold byte_ok; lia|].
  change (their_seq_nr (w_session (w_add_stat _ _))) with (u32 (sg_seq sg + 1)).
  change (w_session (w_add_stat (Work s0 _ _ _ _ _ _) _)) with s0. rewrite Hsend. cbn [res_bind].
  unfold process_ack. rewrite Hack. cbn [andb res_bind]. unfold process_fin. rewrite Hfin.
  unfold process_all_received. cbn [w_session w_add_out w_set_session w_add_stat w_state set_state_to]. 
  change (flag_fin_when_all_received _) with false. cbn [andb res_bind].
  change (0 <? 0) with false. cbn [andb res_bind]. unfold process_fail. cbn [w_fail w_add_out w_set_session w_add_stat w_state].
  cbn [res_bind w_delete]. unfold finish_session. cbn [w_delete w_add_out w_set_session w_add_stat w_state w_session].
  cbn [res_bind]. eexists _, dg, _, _. split; [reflexivity|]. rewrite u32_id in Hdg by done.
  rewrite (u32_id (u32 _)) in Hdg by apply u32_range. split; [exact Hdg|]. cbn [sessions with_sessions].
  split; [apply insert_insert_eq|]. split_and!; try done.
  cbn. unfold advance_seq. simpl. rewrite Z.add_0_r. by rewrite (u32_id isn) by done.
Qed.

Lemma server_syn_answered_witness :
  ∃ id t' dg st s, packet_handler ex_env ex_tcp (ex_packet ex_syn) 77 true (λ _, true) = Ok (t', Output [dg] [] st) ∧
    is_segment dg (ex_v4 10 0 0 1) (ex_v4 10 0 0 2) (Segment 80 1025 77 501 32 65535 false true false true) ∧
    sessions t' = <[id := s]> (sessions ex_tcp) ∧ state s = tcp_syn_rcvd ∧
    base s = Session (ex_v4 10 0 0 2) 80 (ex_v4 10 0 0 1) 1025 300 id false ∧
    my_seq_nr s = 78 ∧ their_seq_nr s = 501 ∧ unacked_size s = 0.
Proof.
  exists ex_id.
  apply (server_syn_answered ex_env (ex_network true 2) ipv4 ex_tcp (ex_packet ex_syn)
    (Segment 1025 80 500 0 20 4096 false true false false) ex_id 77 0 true (λ _, true) (PortHandler 5 true true true));
    try done; try (simpl; lia); apply ex_v4_ip; unfold byte_ok; lia.
Defined.

(** a segment without data and without SYN, RST and FIN *)
Definition pure_ack (pkt : packet) (sg : segment) (id ts : Z) : Prop :=
  20 ≤ pkt_size pkt ∧ parse_segment (pkt_data pkt) = Ok sg ∧ segment_options (pkt_data pkt) sg = Ok ts ∧
  hash_address (pkt_src pkt) (sg_dst_port sg) (sg_src_port sg) = Ok id ∧
  sg_syn sg = false ∧ sg_ack sg = true ∧ sg_rst sg = false ∧ sg_fin sg = false ∧ sg_header_size sg = pkt_size pkt.

(** C5: the acknowledgement of the SYN completes the session of a server: it is
    established, the application is told once, nothing is sent, and the
    sequence numbers stay as they are. *)
Theorem server_established env t pkt sg id ts isn ndr cb s :
  pure_ack pkt sg id ts → sessions t !! id = Some s → state s = tcp_syn_rcvd → flag_fin_when_all_received s = false →
  listeners t !! sg_dst_port sg = Some cb → ph_new_session cb = true →
  ∃ t' st s', packet_handler env t pkt isn true ndr =
      Ok (t', Output [] [ev_new_session (ph_id cb) (session_id (base s))] st) ∧
    sessions t' = <[id := s']> (sessions t) ∧ state s' = tcp_established ∧ base s' = base s ∧
    my_seq_nr s' = my_seq_nr s ∧ their_seq_nr s' = their_seq_nr s ∧ unacked_size s' = unacked_size s.
Proof.
  intros (Hz & Hp & Hts & Hid & Hsyn & Hack & Hrst & Hfin & Hh) Hs Hst Hff Hl Hns.
  unfold packet_handler. rewrite (proj2 (Z.ltb_ge _ 20)), Hp by done. cbn [res_bind]. rewrite Hid. cbn [res_bind].
  rewrite Hsyn. cbn [res_bind]. unfold handle_session, get_listener. rewrite Hs, Hts, Hl. cbn [res_bind].
  unfold process_session. set (s0 := set_window_size _ _). unfold pkt_size in Hh. rewrite Hh, Z.ltb_irrefl, Z.sub_diag.
  cbn [negb w_fail]. unfold process_rst. rewrite Hrst. unfold process_syn. rewrite Hsyn. cbn [andb res_bind].
  unfold process_ack. rewrite Hack. cbn [w_delete andb negb w_session].
  assert (state s0 = tcp_syn_rcvd) as -> by exact Hst. unfold ack_syn_rcvd. rewrite Hns. cbn [res_bind].
  unfold process_fin. rewrite Hfin. unfold process_all_received.
  cbn [w_session w_add_event w_add_stat w_state w_set_session].
  change (flag_fin_when_all_received _) with (flag_fin_when_all_received s). rewrite Hff. cbn [andb res_bind].
  change (0 <? 0) with false. cbn [andb res_bind]. unfold process_fail. cbn [w_fail w_add_event w_add_stat w_state w_set_session].
  cbn [res_bind w_delete w_add_event w_add_stat w_state w_set_session]. unfold finish_session.
  cbn [res_bind w_delete w_add_event w_add_stat w_state w_set_session w_session].
  eexists _, _, _. split; [reflexivity|]. split; [reflexivity|]. done.
Qed.

Definition ex_ack : list Z := [4; 1; 0; 80; 0; 0; 1; 245; 0; 0; 0; 78; 80; 16; 16; 0; 0; 0; 0; 0].
Definition ex_syn_rcvd : tcp_session :=
  set_state (new_server_session (ex_packet ex_syn) (Segment 1025 80 500 0 20 4096 false true false false) ex_id 78) tcp_syn_rcvd.

Lemma server_established_witness :
  ∃ t' st s', packet_handler ex_env (with_sessions ex_tcp {[ ex_id := ex_syn_rcvd ]}) (ex_packet ex_ack) 0 true (λ _, true) =
      Ok (t', Output [] [ev_new_session 5 (session_id (base ex_syn_rcvd))] st) ∧
    sessions t' = <[ex_id := s']> (sessions (with_sessions ex_tcp {[ ex_id := ex_syn_rcvd ]})) ∧
    state s' = tcp_established ∧ base s' = base ex_syn_rcvd ∧
    my_seq_nr s' = my_seq_nr ex_syn_rcvd ∧ their_seq_nr s' = their_seq_nr ex_syn_rcvd ∧
    unacked_size s' = unacked_size ex_syn_rcvd.
Proof.
  apply (server_established ex_env (with_sessions ex_tcp {[ ex_id := ex_syn_rcvd ]}) (ex_packet ex_ack)
    (Segment 1025 80 501 78 20 4096 false false false true) ex_id 0 0 (λ _, true) (PortHandler 5 true true true) ex_syn_rcvd); done.
Defined.

(** ** Sessions that fail *)


(** one byte of data in sequence *)
Definition ex_data : list Z := [4; 1; 0; 80; 0; 0; 1; 245; 0; 0; 0; 78; 80; 16; 16; 0; 0; 0; 0; 0; 65].
Definition ex_established : tcp_session := set_state ex_syn_rcvd tcp_established.
Definition ex_data_segment : segment := Segment 1025 80 501 78 20 4096 false false false true.
Definition ex_with_session : tcp := with_sessions ex_tcp {[ ex_id := ex_established ]}.
Definition ex_refused : work_item :=
  ok_or (Work ex_established false false false [] [] [])
    (process_session ex_env 0 ex_data_segment (Some (PortHandler 5 true true true)) true (λ _, false) ex_data ex_established).


(** ** The client side *)

Lemma draw_port_spec clients draws port :
  draw_port clients draws = Ok port → 1023 < port < 65535 ∧ clients !! port = None ∧ port ∈ draws.
Proof.
  induction draws as [|x draws IH]; simpl; [done|].
  destruct (Z.ltb_spec 1023 x), (Z.ltb_spec x 65535); simpl; try (intros H'; apply IH in H' as (? & ? & ?); split_and!; [lia|lia|done|by right]).
  case_bool_decide; [intros [= <-]; split_and!; [lia|lia|done|left]|].
  intros H'; apply IH in H' as (? & ? & ?); split_and!; [lia|lia|done|by right].
Qed.

(** a client session gets a port above 1023 that no other client uses, is
    filed under the id that the answers of the server hash to, and a SYN with
    its initial sequence number goes to the server; it then waits in syn_sent
    and is protected from the cleaner. *)
Theorem client_syn_sent env idev f t h c2 dst dst_port isn draws port id :
  env_idev env = Some idev → ip_addr f (nw_addr idev) → ip_addr f dst → 0 ≤ dst_port < 65536 →
  draw_port (tcp_clients t) draws = Ok port → hash_address dst port dst_port = Ok id → sessions t !! id = None →
  ∃ t' dg s, allocate_client_session env t h c2 dst dst_port isn draws = Ok (port, t', Output [dg] [] [tcp_new_sessions]) ∧
    1023 < port < 65535 ∧ tcp_clients t !! port = None ∧ client_session t' port = Some (id, s) ∧
    is_segment dg dst (nw_addr idev) (Segment port dst_port (Z.land isn 0x7fffffff) 0 32 65535 false true false false) ∧
    state s = tcp_syn_sent ∧ in_init s = true ∧ my_seq_nr s = u32 (Z.land isn 0x7fffffff + 1).
Proof.
  intros Hi Hm Hd Hdp Hdraw Hid Hnone. destruct (draw_port_spec _ _ _ Hdraw) as (Hr & Hfree & _).
  unfold allocate_client_session. rewrite Hi, Hdraw. cbn [res_bind]. rewrite Hid. cbn [res_bind].
  set (s0 := new_client_session _ _ _ _ _ _ _).
  assert (0 ≤ Z.land isn 2147483647 < 2147483648) as Hnr.
  { change 2147483647 with (Z.ones 31). rewrite Z.land_ones by lia. apply Z.mod_pos_bound. lia. }
  destruct (send_control_is env idev s0 FLAG_SYN 0 0) as (dg & Hsend & Hdg);
    [done|split; [exists f; done|simpl; rewrite u16_id by done; lia]|unfold FLAG_SYN, byte_ok; lia|].
  change (their_seq_nr s0) with 0. rewrite Hsend. cbn [res_bind].
  eexists _, dg, _. split; [reflexivity|]. split; [done|]. split; [done|].
  unfold client_session, insert_session, add_handler, with_clients. cbn [sessions tcp_clients listeners].
  rewrite Hnone. split.
  { destruct (listeners t !! port); cbn; by rewrite lookup_insert_eq, lookup_insert_eq. }
  split.
  { simpl in Hdg. rewrite (u16_id dst_port) in Hdg by done. change (u32 0) with 0 in Hdg. rewrite u32_id in Hdg by lia. exact Hdg. }
  split_and!; try done. cbn. unfold advance_seq. simpl. rewrite Z.add_0_r. by rewrite (u32_id (Z.land _ _)) by lia.
Qed.

(** The acknowledgement a client sends for the SYN of the server goes to the
    client's own address: the two ends are exchanged. *)
Lemma client_ack_misaddressed env idev ts sg w w' :
  env_idev env = Some idev → session_ok (base (w_session w)) → w_out w = [] → ack_syn_sent env ts sg w = Ok w' →
  ∃ dg, w_out w' = [dg] ∧ dg_dst dg = my_addr (base (w_session w)) ∧ dg_src dg = their_addr (base (w_session w)).
Proof.
  intros Hi _ Ho H. unfold ack_syn_sent, send_control_swapped, send_segment in H. rewrite Hi in H.
  cbn [base set_their_seq_nr set_initial_their_seq_nr] in H.
  destruct (segment_bytes _ _ _ _ _ _ _ _ _ _); [|done]. injection H as <-. simpl. rewrite Ho. by eexists.
Qed.

(** A client session that ends because of a segment keeps its port: only the
    cleaner gives ports back. *)
Lemma ended_client_keeps_port t id w : tcp_clients (finish_session t id w).1 = tcp_clients t.
Proof. unfold finish_session. destruct (w_delete w); [destruct (in_init _)|]; done. Qed.

Definition ex_client_id : Z := ok_or 0 (hash_address (ex_v4 10 0 0 1) 2000 80).

Lemma client_syn_sent_witness :
  ∃ t' dg s, allocate_client_session ex_env ex_tcp 9 true (ex_v4 10 0 0 1) 80 4242 [77; 2000] =
      Ok (2000, t', Output [dg] [] [tcp_new_sessions]) ∧
    1023 < 2000 < 65535 ∧ tcp_clients ex_tcp !! 2000 = None ∧ client_session t' 2000 = Some (ex_client_id, s) ∧
    is_segment dg (ex_v4 10 0 0 1) (ex_v4 10 0 0 2) (Segment 2000 80 (Z.land 4242 0x7fffffff) 0 32 65535 false true false false) ∧
    state s = tcp_syn_sent ∧ in_init s = true ∧ my_seq_nr s = u32 (Z.land 4242 0x7fffffff + 1).
Proof.
  apply (client_syn_sent ex_env (ex_network true 2) ipv4 ex_tcp 9 true (ex_v4 10 0 0 1) 80 4242 [77; 2000] 2000 ex_client_id);
    [done|apply ex_v4_ip; unfold byte_ok; lia|apply ex_v4_ip; unfold byte_ok; lia|lia|reflexivity|reflexivity|apply lookup_empty].
Defined.

(** a server gets a SYN and its acknowledgement, and a client of the same layer opens a session: after
    these steps one session is established and one waits for its SYN to be answered *)
Definition ex_run1 : tcp := ex_after (packet_handler ex_env ex_tcp (ex_packet ex_syn) 77 true (λ _, true)).
Definition ex_run2 : tcp := ex_after (packet_handler ex_env ex_run1 (ex_packet ex_ack) 0 true (λ _, true)).
Definition ex_run3 : tcp :=
  match allocate_client_session ex_env ex_run2 9 true (ex_v4 10 0 0 1) 80 4242 [77; 2000] with Ok (_, t, _) => t | Err _ => ex_tcp end.

Lemma tcp_states_reachable_witness :
  state <$> sessions ex_run1 = {[ ex_id := tcp_syn_rcvd ]} ∧
  state <$> sessions ex_run3 = {[ ex_id := tcp_established; ex_client_id := tcp_syn_sent ]} ∧ tcp_inv ex_run3.
Proof.
  split; [vm_compute; reflexivity|]. split; [vm_compute; reflexivity|].
  apply (tcp_states_reachable ex_run3). apply (rtc_l _ _ ex_tcp).
  { exact (t_listen (Tcp ∅ ∅ ∅ []) 80 (PortHandler 5 true true true)). }
  apply (rtc_l _ _ ex_run1).
  { destruct (packet_handler ex_env ex_tcp (ex_packet ex_syn) 77 true (λ _, true)) as [[t o]|] eqn:E; [|vm_compute in E; discriminate E].
    apply (t_packet ex_env ex_tcp (ex_packet ex_syn) 77 true (λ _, true) ex_run1 o). unfold ex_run1. by rewrite E. }
  apply (rtc_l _ _ ex_run2).
  { destruct (packet_handler ex_env ex_run1 (ex_packet ex_ack) 0 true (λ _, true)) as [[t o]|] eqn:E; [|vm_compute in E; discriminate E].
    apply (t_packet ex_env ex_run1 (ex_packet ex_ack) 0 true (λ _, true) ex_run2 o). unfold ex_run2. by rewrite E. }
  apply rtc_once.
  destruct (allocate_client_session ex_env ex_run2 9 true (ex_v4 10 0 0 1) 80 4242 [77; 2000]) as [[[p t] o]|] eqn:E;
    [|vm_compute in E; discriminate E].
  apply (t_client ex_env ex_run2 9 true (ex_v4 10 0 0 1) 80 4242 [77; 2000] p ex_run3 o). unfold ex_run3. by rewrite E.
Defined.
