(* ===== verification/TcpStream.v ===== *)
(** * TCP as a byte stream

    Two sessions of the code, one that sends and one that receives, and a network
    between them that may lose, duplicate, delay and reorder segments.  What the
    application of the receiver is given is always a prefix of what the
    application of the sender gave to [send_data], less the calls that found the
    buffer full: their data are dropped, although [send_data] returns true. *)
From S2P Require Import Prelude AnyAddr Checksum Net AddressCache Arp Router Ipv4 TcpSegment TcpSession.

(** a call of [send_data]: the data, and how much was unacknowledged *)
Record send_call := SendCall { sc_data : list Z; sc_unacked : Z }.

(** the calls that found room, less than 1 MiB being unacknowledged *)
Definition found_room (c : send_call) : bool := sc_unacked c <? 1024 * 1024.

(** all bytes that were handed to [send_data], and those of the calls that found room *)
Definition handed (cs : list send_call) : list Z := cs ≫= sc_data.
Definition taken (cs : list send_call) : list Z := cs ≫= λ c, if found_room c then sc_data c else [].

Record link := Link {
  sender : tcp_session;
  calls : list send_call;     (* all calls of [send_data], which returned true *)
  in_flight : list datagram;  (* every segment ever sent: any of them may arrive, any number of times *)
  receiver : tcp_session;
  delivered : list Z;         (* given to [new_data] *)
}.

Definition link_stream (l : link) : list Z := taken (calls l).

Lemma taken_snoc cs c : taken (cs ++ [c]) = if found_room c then taken cs ++ sc_data c else taken cs.
Proof.
  unfold taken. rewrite bind_app. cbn [mbind list_bind]. rewrite app_nil_r. destruct (found_room c); [done|apply app_nil_r].
Qed.

(** when no call found the buffer full, everything is taken *)
Lemma taken_all cs : Forall (λ c, sc_unacked c < 1024 * 1024) cs → taken cs = handed cs.
Proof.
  induction 1 as [|c cs Hc _ IH]; [done|]. unfold taken, handed in *. rewrite !bind_cons, IH.
  unfold found_room. by rewrite (proj2 (Z.ltb_lt _ _)).
Qed.

Inductive link_step : link → link → Prop :=
  (** the application sends; [send_data] returns true *)
  | step_app l data s' :
      bytes_ok data → zlen (link_stream l) + zlen data < 4294967296 →
      unacked_size (sender l) + zlen data < 2147483648 →
      send_data (sender l) data = Ok (sd_done s') →
      link_step l (Link s' (calls l ++ [SendCall data (unacked_size (sender l))])
                     (in_flight l) (receiver l) (delivered l))
  (** a round of [unacked_sender] *)
  | step_transmit l env idev now s' out :
      env_idev env = Some idev → 32 < nw_max_packet_size idev ≤ 65535 →
      unacked_send env idev now (sender l) = Ok (s', out) →
      link_step l (Link s' (calls l) (in_flight l ++ out) (receiver l) (delivered l))
  (** any segment arrives at the sender, and the session goes on *)
  | step_ack l env ts sg cb nsr ndr p w :
      process_session env ts sg cb nsr ndr p (sender l) = Ok w → w_delete w = false →
      state (w_session w) = tcp_established →
      link_step l (Link (w_session w) (calls l) (in_flight l) (receiver l) (delivered l))
  (** a segment that was sent arrives at the receiver *)
  | step_arrive l env ts sg cb nsr ndr dg w :
      dg ∈ in_flight l → parse_segment (dg_payload dg) = Ok sg →
      process_session env ts sg cb nsr ndr (dg_payload dg) (receiver l) = Ok w → w_fail w = false →
      link_step l (Link (sender l) (calls l) (in_flight l) (w_session w)
                     (delivered l ++ delivered_by (w_events w)))
  (** a segment without data arrives at the receiver *)
  | step_control l env ts sg cb nsr ndr p w :
      zlen p ≤ sg_header_size sg →
      process_session env ts sg cb nsr ndr p (receiver l) = Ok w → w_fail w = false →
      link_step l (Link (sender l) (calls l) (in_flight l) (w_session w)
                     (delivered l ++ delivered_by (w_events w)))
  (** the receiver's own application and its rounds of [unacked_sender] *)
  | step_reverse l data s' :
      send_data (receiver l) data = Ok (sd_done s') →
      link_step l (Link (sender l) (calls l) (in_flight l) s' (delivered l)).

(** a segment of the stream *)
Definition honest (b : session) (nr : Z) (str : list Z) (dg : datagram) : Prop :=
  ∃ off d, carries b dg (nr + off) d ∧ 0 ≤ off ∧ d `prefix_of` drop (Z.to_nat off) str.

Record link_inv (nr : Z) (b : session) (l : link) : Prop := LinkInv {
  li_base : base (sender l) = b;
  li_ok : session_ok b;
  li_state : state (sender l) = tcp_established;
  li_sender : ∃ a, sender_inv (sender l) (link_stream l) nr a;
  li_bytes : bytes_ok (link_stream l);
  li_size : zlen (link_stream l) < 4294967296;
  li_flight : Forall (honest b nr (link_stream l)) (in_flight l);
  li_receiver : state (receiver l) ≠ tcp_syn_sent ∧ 0 ≤ my_seq_nr (receiver l) < 4294967296;
  li_expected : their_seq_nr (receiver l) = u32 (nr + zlen (delivered l));
  li_prefix : delivered l `prefix_of` link_stream l;
}.

(** segments of a part of the stream are segments of the stream *)
Lemma segments_honest b nr off out data str :
  segments b nr off out data → 0 ≤ off → data `prefix_of` drop (Z.to_nat off) str → Forall (honest b nr str) out.
Proof.
  revert off data. induction out as [|dg out IH]; intros off data Hseg Hoff Hpre; [by constructor|].
  destruct Hseg as (d & data' & -> & Hc & Hseg). apply Forall_cons_2.
  - exists off, d. split; [done|]. split; [done|]. etrans; [|exact Hpre]. by apply prefix_app_r.
  - pose proof (zlen_nonneg d). apply (IH (off + zlen d) data'); [done|lia|].
    destruct Hpre as [k Hk]. exists k. rewrite Z2Nat.inj_add, <- drop_drop, Hk by lia. unfold zlen.
    rewrite Nat2Z.id, <- app_assoc, drop_app_length. done.
Qed.

Lemma honest_mono b nr str str' dg : str `prefix_of` str' → honest b nr str dg → honest b nr str' dg.
Proof.
  intros [k ->] (off & d & Hc & Hoff & [j Hj]). exists off, d. split; [done|]. split; [done|].
  destruct (decide (Z.to_nat off ≤ length str)%nat).
  - exists (j ++ k). rewrite drop_app_le, Hj by done. by rewrite app_assoc.
  - rewrite drop_ge in Hj by lia. symmetry in Hj. apply app_eq_nil in Hj as [-> _]. apply prefix_nil.
Qed.

(** only the next segment of the stream is accepted *)
Lemma honest_accepted b nr str dlv dg sg :
  honest b nr str dg → parse_segment (dg_payload dg) = Ok sg → dlv `prefix_of` str → zlen str < 4294967296 →
  sg_seq sg = u32 (nr + zlen dlv) → sg_header_size sg < zlen (dg_payload dg) →
  (dlv ++ ptr_at (dg_payload dg) (sg_header_size sg)) `prefix_of` str.
Proof.
  intros (off & d & (_ & _ & _ & sg' & Hp & Hseq & _ & _ & Hh & _ & _ & _ & Hd) & Hoff & [j Hj]) Hp' Hdl Hz Hsq Hlt.
  rewrite Hp in Hp'. injection Hp' as ->. rewrite Hh in *.
  change (ptr_at (dg_payload dg) 32) with (drop 32 (dg_payload dg)). rewrite Hd.
  assert (0 < length d)%nat as Hdl0 by (rewrite <- Hd, length_drop; unfold zlen in Hlt; lia).
  assert (off + zlen d ≤ zlen str) as Hin.
  { apply (f_equal length) in Hj. rewrite length_drop, length_app in Hj. unfold zlen. lia. }
  assert (off = zlen dlv) as ->.
  { apply prefix_length in Hdl. rewrite Hseq in Hsq. unfold u32, zlen in *.
    assert ((nr + off - (nr + Z.of_nat (length dlv))) mod 4294967296 = 0) as Hm
      by (rewrite Zminus_mod, Hsq, Z.sub_diag; done).
    apply Z.mod_divide in Hm as [q Hq]; [|lia]. nia. }
  destruct Hdl as [k ->]. exists j. unfold zlen in Hj. rewrite Nat2Z.id, drop_app_length in Hj. rewrite Hj. by rewrite app_assoc.
Qed.

Lemma arrive_inv nr b l env ts sg cb nsr ndr p w :
  link_inv nr b l → process_session env ts sg cb nsr ndr p (receiver l) = Ok w → w_fail w = false →
  (sg_header_size sg < zlen p → sg_seq sg = u32 (nr + zlen (delivered l)) →
   (delivered l ++ ptr_at p (sg_header_size sg)) `prefix_of` link_stream l) →
  link_inv nr b (Link (sender l) (calls l) (in_flight l) (w_session w) (delivered l ++ delivered_by (w_events w))).
Proof.
  intros Hl H Hf Hacc. pose proof (li_receiver _ _ _ Hl) as [Hs Hr].
  destruct (process_session_receives _ _ _ _ _ _ _ _ _ Hs Hr H Hf) as (Hs' & Hr' & Hd).
  destruct Hl. constructor; try done; cbn [receiver delivered];
    destruct Hd as [[Ht ->]|(Hlt & Hsq & -> & Ht)]; rewrite ?app_nil_r; try done.
  - by rewrite Ht.
  - rewrite Ht, li_expected0, zlen_app. unfold u32. rewrite Zplus_mod_idemp_l. f_equal. lia.
  - apply Hacc; [done|]. by rewrite Hsq.
Qed.

Lemma send_data_receiver s data s' :
  send_data s data = Ok (sd_done s') →
  state s' = state s ∧ my_seq_nr s' = my_seq_nr s ∧ their_seq_nr s' = their_seq_nr s.
Proof.
  unfold send_data. intros H. destruct (_ <? _).
  - destruct (state s) eqn:E; try (by injection H as <-). res_step H. injection H as <-.
    destruct (unacked_size s =? 0); simpl; rewrite E; done.
  - destruct (negb (bool_decide _)); [by injection H as <-|]. destruct (negb (is_terminating s)); [by injection H as <-|done].
Qed.

Lemma link_step_inv nr b l l' : link_step l l' → link_inv nr b l → link_inv nr b l'.
Proof.
  intros Hstep Hl. pose proof Hl as [Hb Hok Hst [a Ha] HBs Hz Hfl Hrc Hex Hpre].
  destruct Hstep as [l data s' HB Hlen Hu H|l env idev now s' out Hi Hps H|l env ts sg cb nsr ndr p w H Hdel Hstw
    |l env ts sg cb nsr ndr dg w Hin Hp H Hf|l env ts sg cb nsr ndr p w Hn H Hf|l data s' H].
  - destruct (send_data_sender _ _ _ _ _ _ Hst Ha Hu H) as (Hst' & Hb' & Hs').
    assert (link_stream (Link s' (calls l ++ [SendCall data (unacked_size (sender l))]) (in_flight l) (receiver l) (delivered l)) =
      if unacked_size (sender l) <? 1024 * 1024 then link_stream l ++ data else link_stream l) as Es by apply taken_snoc.
    destruct (unacked_size (sender l) <? 1024 * 1024).
    + assert (link_stream l `prefix_of` link_stream l ++ data) as Hp by (by apply prefix_app_r).
      constructor; rewrite ?Es; cbn [sender in_flight receiver delivered]; try done;
        [congruence|eauto|by apply bytes_ok_app|by rewrite zlen_app| |by transitivity (link_stream l)].
      eapply Forall_impl; [exact Hfl|]. intros dg. by apply honest_mono.
    + subst s'. constructor; rewrite ?Es; cbn [sender in_flight receiver delivered]; try done; eauto.
  - destruct (unacked_send_spec env idev now (sender l) (link_stream l) nr a) as (s1 & out1 & data & n & H1 & Hr & Hseg & Hn & _ & Hp & _);
      [done|by rewrite Hb|done..|].
    rewrite H in H1. injection H1 as <- <-. destruct Hr as (e & d & r & ->).
    constructor; cbn; try done.
    + exists a. by apply (sender_inv_ext (sender l)).
    + apply Forall_app. split; [done|]. rewrite Hb in Hseg.
      apply (segments_honest _ _ _ _ _ _ Hseg); [by destruct Ha as [[? _] _]|]. etrans; [exact Hp|]. apply prefix_take.
  - destruct (process_session_sender _ _ _ _ _ _ _ _ _ _ _ _ Hst Ha H Hdel Hstw) as (Hb' & a' & _ & Ha').
    constructor; cbn; try done; [congruence|eauto].
  - apply (arrive_inv nr b l env ts sg cb nsr ndr (dg_payload dg) w Hl H Hf). intros Hlt Hsq.
    rewrite Forall_forall in Hfl. by apply (honest_accepted b nr (link_stream l) (delivered l) dg sg (Hfl dg Hin)).
  - apply (arrive_inv nr b l env ts sg cb nsr ndr p w Hl H Hf). lia.
  - apply send_data_receiver in H as (E1 & E2 & E3). constructor; cbn; try done; [eauto|by rewrite E1, E2|by rewrite E3].
Qed.

(** a session between two hosts whose three-way handshake is done: the receiver
    expects the first byte of the sender *)
Definition link_start (A B : tcp_session) : link := Link A [] [] B [].

Definition handshake_done (A B : tcp_session) : Prop :=
  session_ok (base A) ∧ state A = tcp_established ∧ unacked_size A = 0 ∧ 0 ≤ my_seq_nr A < 4294967296 ∧
  state B = tcp_established ∧ 0 ≤ my_seq_nr B < 4294967296 ∧ their_seq_nr B = my_seq_nr A.

(** C1: after the handshake, whatever the network does with the segments (loss,
    duplication, reordering, delay) and whatever acknowledgements arrive at the
    sender, the bytes given to the receiving application are a prefix of the bytes
    that were handed to [send_data] in the calls that found less than 1 MiB
    unacknowledged, in their order and each call as a whole.  (A call that finds
    more drops its data and returns true.)  So while the buffer never is full they
    are a prefix of all that was handed to [send_data].  Streams have less than 2^32
    bytes. *)
Theorem tcp_stream_prefix A B l :
  handshake_done A B → rtc link_step (link_start A B) l →
  delivered l `prefix_of` taken (calls l) ∧
  (Forall (λ c, sc_unacked c < 1024 * 1024) (calls l) → delivered l `prefix_of` handed (calls l)).
Proof.
  intros (Hok & HsA & Hu & HmA & HsB & HmB & Heq) Hrun.
  assert (link_inv (my_seq_nr A) (base A) (link_start A B)) as H0.
  { constructor; cbn; try done; try apply Forall_nil_2.
    - exists 0. unfold sender_inv. rewrite Hu, Z.add_0_r, u32_id by done.
      pose proof (zlen_nonneg (unacked A)). split_and!; (done || lia).
    - split; [congruence|done].
    - by rewrite Z.add_0_r, u32_id. }
  enough (delivered l `prefix_of` taken (calls l)) as Hp by (split; [done|]; intros Hf; by rewrite <- taken_all).
  apply (li_prefix (my_seq_nr A) (base A)). revert H0.
  induction Hrun as [|l1 l2 l3 Hs _ IH]; [done|]. intros H0. apply IH. by eapply link_step_inv.
Qed.

Definition ex_session (me peer nr their : Z) : tcp_session :=
  TcpSession (Session (ex_v4 10 0 0 me) (1000 + me) (ex_v4 10 0 0 peer) (1000 + peer) 300 7 false)
    false false 1000 tcp_established 0 0 0 nr their nr their [] 0 0 0 false 0 false.

Lemma ex_session_ok me peer nr their : byte_ok me → byte_ok peer → session_ok (base (ex_session me peer nr their)).
Proof.
  intros. split; [exists ipv4; split; apply ex_v4_ip; done || (unfold byte_ok; lia)|].
  unfold byte_ok in *. simpl. lia.
Qed.

(** the sender queues three bytes, sends them, and the segment arrives twice *)
Definition ex_A : tcp_session := ex_session 1 2 500 900.
Definition ex_B : tcp_session := ex_session 2 1 900 500.
Definition ex_cb : option port_handler := Some (PortHandler 5 true true true).

Definition ex_queued : tcp_session :=
  match send_data ex_A [65; 66; 67] with Ok (sd_done s) => s | _ => ex_A end.
Definition ex_sent : tcp_session * list datagram :=
  ok_or (ex_A, []) (unacked_send ex_env (ex_network true 2) 5000000 ex_queued).
Definition ex_dg : datagram := default (Datagram None unset_addr unset_addr 0 [] None) (head ex_sent.2).
Definition ex_sg : segment := ok_or (ex_segment_fields 0) (parse_segment (dg_payload ex_dg)).
Definition ex_arrival : work_item :=
  ok_or (Work ex_B false false false [] [] [])
    (process_session ex_env 0 ex_sg ex_cb true (λ _, true) (dg_payload ex_dg) ex_B).

Definition ex_link1 : link := Link ex_queued [SendCall [65; 66; 67] 0] [] ex_B [].
Definition ex_link2 : link := Link ex_sent.1 [SendCall [65; 66; 67] 0] ex_sent.2 ex_B [].
Definition ex_link3 : link :=
  Link ex_sent.1 [SendCall [65; 66; 67] 0] ex_sent.2 (w_session ex_arrival) (delivered_by (w_events ex_arrival)).

Lemma tcp_stream_prefix_witness : delivered ex_link3 = [65; 66; 67] ∧ delivered ex_link3 `prefix_of` handed (calls ex_link3).
Proof.
  split; [vm_compute; reflexivity|]. apply (tcp_stream_prefix ex_A ex_B).
  - split_and!; try done; try (simpl; lia). apply ex_session_ok; unfold byte_ok; lia.
  - apply (rtc_l _ _ ex_link1); [|apply (rtc_l _ _ ex_link2); [|apply rtc_once]].
    + apply (step_app (link_start ex_A ex_B) [65; 66; 67] ex_queued); [solve_bytes|done|done|reflexivity].
    + apply (step_transmit ex_link1 ex_env (ex_network true 2) 5000000 ex_sent.1 ex_sent.2); [done|simpl; lia|].
      vm_compute. reflexivity.
    + apply (step_arrive ex_link2 ex_env 0 ex_sg ex_cb true (λ _, true) ex_dg ex_arrival); [|vm_compute; reflexivity..].
      apply list_elem_of_lookup. exists 0%nat. vm_compute. reflexivity.
  - repeat constructor.
Defined.

(** a call that finds 1 MiB or more: the data are dropped, and the caller is told that they were sent *)
Lemma full_buffer_drops s data :
  1024 * 1024 ≤ unacked_size s → state s = tcp_established → is_terminating s = false →
  send_data s data = Ok (sd_done s).
Proof.
  intros Hu Hs Ht. unfold send_data. rewrite (proj2 (Z.ltb_ge _ _)) by done. by rewrite bool_decide_true, Ht.
Qed.

(** a segment that is cut like this fits in a packet *)
Lemma cut_fits mps n out : cut (mps - 32) n out → Forall (λ dg, zlen (dg_payload dg) ≤ mps) out.
Proof.
  revert n. induction out as [|dg out IH]; intros n Hc; [done|]. destruct Hc as (Hl & _ & Hc). constructor; [lia|by eapply IH].
Qed.


(** packets of 34 bytes: two bytes of data in each *)
Definition ex_narrow : network := Network (ex_v4 10 0 0 2) 34 (λ _, true).
Definition ex_narrow_env : tcp_env := TcpEnv (Some ex_narrow) 123456 1000.

