(* ===== verification/Services.v ===== *)
(** * Small stream services (src/echo.cpp, src/nrpe.cpp, src/mynetperf.cpp)

    The three services share the session data of src/types.h: the callback for new data
    appends to a buffer under a lock, and a thread of the session looks at the buffer when it
    is notified and every half second.  The thread holds the lock except while it waits, so
    the callbacks and the rounds of the thread are steps that follow each other in some
    order; what goes to [send_data] is the output of a round.

    Shown: echo sends back exactly what it received, in order, in every interleaving; the
    answer of NRPE is complete and its CRC verifies; the measuring server refines a
    specification that reads the whole stream at once, so that neither the pieces in which
    data arrives nor the moments at which the thread looks matter, and which says when it
    fails. *)
From stdpp Require Import strings.
From S2P Require Import Prelude Str Hash AnyAddr.
Open Scope Z_scope.

(** ** The buffer of a session *)

(** [realloc], [memcpy] and the new length *)
Definition append_request (req : option (list Z)) (data : list Z) : option (list Z) := Some (default [] req ++ data).

(** ** Echo *)

(** [req_data] (null or its [req_len] bytes) and [terminate] *)
Record echo_session_data := EchoSession { echo_req : option (list Z); echo_terminate : bool; echo_client : str }.

Definition echo_new_session (their_addr : any_addr) : res echo_session_data :=
  let* a := to_str their_addr in
  Ok (EchoSession None false a).

(** the result and the new session; no session at all is a failure *)
Definition echo_new_data (session_in : option echo_session_data) (data : list Z) : bool * option echo_session_data :=
  match session_in with
  | None => (false, None)
  | Some s =>
      if zlen data =? 0 then (true, Some s)
      else (true, Some (EchoSession (append_request (echo_req s) data) (echo_terminate s) (echo_client s)))
  end.

(** one round of [echo_thread]: the block given to [send_data], if any *)
Definition echo_round (s : echo_session_data) : list (list Z) * echo_session_data :=
  match echo_req s with
  | Some d => ([d], EchoSession None (echo_terminate s) (echo_client s))
  | None => ([], s)
  end.

(** [echo_session_closed_2] sets the flag; the thread ends when it sees it *)
Definition echo_session_closed_2 (s : echo_session_data) : echo_session_data :=
  EchoSession (echo_req s) true (echo_client s).

(** a session, its thread, what came in and the blocks that went out *)
Record echo_world := EchoWorld { ew_session : echo_session_data; ew_running : bool; ew_received : list Z; ew_sent : list (list Z) }.

(** the steps of the callbacks and of the thread, in any order *)
Inductive echo_step : echo_world → echo_world → Prop :=
  | echo_data w d s' : echo_new_data (Some (ew_session w)) d = (true, Some s') →
      echo_step w (EchoWorld s' (ew_running w) (ew_received w ++ d) (ew_sent w))
  | echo_thread w out s' : ew_running w = true → echo_terminate (ew_session w) = false →
      echo_round (ew_session w) = (out, s') →
      echo_step w (EchoWorld s' true (ew_received w) (ew_sent w ++ out))
  | echo_thread_ends w : ew_running w = true → echo_terminate (ew_session w) = true →
      echo_step w (EchoWorld (ew_session w) false (ew_received w) (ew_sent w))
  | echo_close w : echo_step w (EchoWorld (echo_session_closed_2 (ew_session w)) (ew_running w) (ew_received w) (ew_sent w)).

Definition echo_start (s : echo_session_data) : echo_world := EchoWorld s true [] [].

(** ** NRPE *)

Record nrpe_session_data := NrpeSession { nrpe_req : option (list Z); nrpe_terminate : bool }.

Inductive nrpe_count := nrpe_requests | nrpe_r_err.

Definition nrpe_new_session : nrpe_session_data * list nrpe_count := (NrpeSession None false, [nrpe_requests]).

Definition nrpe_new_data (s : nrpe_session_data) (data : list Z) : nrpe_session_data * list nrpe_count :=
  if zlen data =? 0 then (s, [nrpe_r_err])
  else (NrpeSession (append_request (nrpe_req s) data) (nrpe_terminate s), []).

Definition nrpe_close_session_2 (s : nrpe_session_data) : nrpe_session_data := NrpeSession (nrpe_req s) true.

(** [ru_maxrss] and the text of [%f] for the use of the processor *)
Definition collect_performance_metrics (ru_maxrss : Z) (cpu_usage : str) : str :=
  lit "|rss=" ++ fmt_dec ru_maxrss ++ lit "kB;" ++ lit " cpu-usage=" ++ cpu_usage ++ lit "%;".

(** the code and the text without the metrics *)
Definition nrpe_verdict (version : Z) : Z * str :=
  if (version =? 4) || (version =? 3) then (0, lit "OK") else (3, []).

Definition nrpe_polynomial : Z := 0xedb88320.

Definition put_fields (p : list Z) (kvs : list (Z * Z)) : res (list Z) := res_fold (λ p kv, wr p kv.1 kv.2) p kvs.

(** the bytes given to [send_data]; [end_session] follows *)
Definition send_response (request : list Z) (metrics : str) : res (list Z) :=
  let* r0 := rd request 0 in
  let* r1 := rd request 1 in
  let '(response_code, text) := nrpe_verdict (join16 r0 r1) in
  let response_payload := text ++ metrics in
  let size := zlen response_payload in
  let reply := replicate (16 + 1024) 0 in
  let* reply := put_fields reply [(0, r0); (1, r1); (3, 2); (9, response_code);
                                 (12, Z.shiftr size 24); (13, Z.shiftr size 16); (14, Z.shiftr size 8); (15, size)] in
  let* reply := wr_range reply 16 response_payload in
  let total_size := 16 + size in
  let* protected := rd_range reply 0 (total_size + (if r1 =? 3 then 3 else 0)) in
  let crc := crc32 protected nrpe_polynomial in
  let* reply := put_fields reply [(4, Z.shiftr crc 24); (5, Z.shiftr crc 16); (6, Z.shiftr crc 8); (7, crc)] in
  rd_range reply 0 total_size.

(** one round of [nrpe_thread]: the responses, each followed by [end_session] *)
Definition nrpe_round (s : nrpe_session_data) (metrics : str) : res (list (list Z)) :=
  match nrpe_req s with
  | None => Ok []
  | Some req =>
      if zlen req <? 16 then Ok []
      else
        let* a := rd req 12 in
        let* b := rd req 13 in
        let* c := rd req 14 in
        let* d := rd req 15 in
        let buffer_length := s32 (join32 a b c d) in
        let* total := int_add 16 buffer_length in
        if (u64 total <=? zlen req) && (0 <? buffer_length) then
          let* r := send_response req metrics in Ok [r]
        else Ok []
  end.

(** ** The measuring server *)

(** What the server uses of the JSON library: [json_loadb] (null when the text does not
    parse), [json_object_get] (null when there is no such member) and the two accessors
    (a value that is not a string has no [json_string_value]). *)
Record jansson := Jansson {
  json_t : Type;
  json_loadb : list Z → option json_t;
  json_object_get : json_t → str → option json_t;
  json_integer_value : json_t → Z;
  json_string_value : json_t → option str;
}.

Inductive mnp_state := mnp_receive | mnp_send | mnp_command.

Record mynetperf_session_data := NetperfSession {
  np_req : option (list Z);        (* [req_data] and its [req_len] bytes *)
  np_terminate : bool;
  np_block_size : Z;
  np_state : mnp_state;
  np_transferred : Z;
  np_start : Z;
}.

Definition np_new_session : mynetperf_session_data := NetperfSession None false 0 mnp_command 0 0.

Definition mynetperf_new_data (s : mynetperf_session_data) (data : list Z) : mynetperf_session_data :=
  if zlen data =? 0 then s
  else NetperfSession (append_request (np_req s) data) (np_terminate s) (np_block_size s) (np_state s) (np_transferred s) (np_start s).

Definition np_session_closed_2 (s : mynetperf_session_data) : mynetperf_session_data :=
  NetperfSession (np_req s) true (np_block_size s) (np_state s) (np_transferred s) (np_start s).

Definition np_accepted : str := lit "{ " ++ [34] ++ lit "result" ++ [34] ++ lit " : " ++ [34] ++ lit "ok" ++ [34] ++ lit " }" ++ [10].
Definition np_took (us : Z) : str :=
  lit "{ " ++ [34] ++ lit "result" ++ [34] ++ lit ": " ++ [34] ++ lit "ok" ++ [34] ++ lit ", " ++ [34] ++ lit "took" ++ [34] ++ lit ": "
  ++ fmt_dec us ++ lit ", " ++ [34] ++ lit "unit" ++ [34] ++ lit ": " ++ [34] ++ lit "us" ++ [34] ++ lit " }" ++ [10].

(** what goes to [send_data]: an acceptance, a block of so many bytes, a result *)
Inductive np_output := np_ok | np_block (n : Z) | np_result (us : Z).

(** the bytes of an output; a block is what [malloc] returned, which nothing fills *)
Definition np_bytes (heap : list Z) (o : np_output) : list Z :=
  match o with np_ok => np_accepted | np_block n => take (Z.to_nat n) heap | np_result us => np_took us end.

Section Mynetperf.
Context (J : jansson).

(** the block size, when it was set, and the state the command asks for; without a state the
    session is to end.  The [std::string] of a null pointer is not caught. *)
Definition np_parse (line : list Z) : res (option Z * option mnp_state) :=
  match json_loadb J line with
  | None => Ok (None, None)
  | Some command =>
      match json_object_get J command (lit "block_size"), json_object_get J command (lit "mode") with
      | Some rc1, Some rc2 =>
          let block_size := u64 (json_integer_value J rc1) in
          match json_string_value J rc2 with
          | None => Err bad_access
          | Some mode =>
              Ok (Some block_size,
                  if bool_decide (mode = lit "receive") then Some mnp_receive
                  else if bool_decide (mode = lit "send") then Some mnp_send
                  else None)
          end
      | _, _ => Ok (None, None)
      end
  end.

(** the first part of [mynetperf_handle_data]; the second result is whether it returned *)
Definition np_handle_command (s : mynetperf_session_data) (req : list Z) (start_ts : Z)
    : res (list np_output * bool * mynetperf_session_data) :=
  match find [10] req with
  | Some lf =>
      let* '(size, state) := np_parse (take lf req) in
      let block_size := default (np_block_size s) size in
      match state with
      | None => Ok ([], true, NetperfSession (Some req) true block_size (np_state s) (np_transferred s) (np_start s))
      | Some state =>
          let rest := drop (lf + 1) req in
          let req' := if 0 <? zlen rest then Some rest else None in
          Ok ([np_ok], false, NetperfSession req' (np_terminate s) block_size state 0 start_ts)
      end
  | None =>
      if 1024 * 1024 <? zlen req then
        Ok ([], false, NetperfSession None true (np_block_size s) (np_state s) (np_transferred s) (np_start s))
      else Ok ([], false, s)
  end.

(** the second part *)
Definition np_handle_receive (s : mynetperf_session_data) (now_ts : Z) : list np_output * mynetperf_session_data :=
  let req := default [] (np_req s) in
  let data_left := u64 (np_block_size s - np_transferred s) in
  if data_left <=? zlen req then
    ([np_result (u64 (now_ts - np_start s))],
     NetperfSession (match np_req s with Some r => Some (drop (Z.to_nat data_left) r) | None => None end)
                    (np_terminate s) 0 mnp_command 0 (np_start s))
  else
    ([], NetperfSession None (np_terminate s) (np_block_size s) mnp_receive (np_transferred s + zlen req) (np_start s)).

Definition max_block_size : Z := 65536.

(** the loop over the blocks, and how many bytes were counted as transferred *)
Fixpoint send_blocks (fuel : nat) (data_left : Z) (transferred : Z) : res (list np_output * Z) :=
  match fuel with
  | O => Err out_of_fuel
  | S fuel' =>
      if 0 <? data_left then
        let cur_block_size := Z.min max_block_size data_left in
        let* r := send_blocks fuel' (data_left - cur_block_size) (transferred + cur_block_size) in
        Ok (np_block cur_block_size :: r.1, r.2)
      else Ok ([], transferred)
  end.

(** the third part; data that arrives while the lock is yielded is appended to the request,
    which this part does not look at *)
Definition np_handle_send (s : mynetperf_session_data) (now_ts : Z) : res (list np_output * mynetperf_session_data) :=
  let data_left := u64 (np_block_size s - np_transferred s) in
  let* r := send_blocks (Z.to_nat (data_left / max_block_size) + 2) data_left (np_transferred s) in
  Ok (r.1 ++ [np_result (u64 (now_ts - np_start s))],
      NetperfSession (np_req s) (np_terminate s) (np_block_size s) mnp_command r.2 (np_start s)).

(** [us] are the readings of the clock *)
Definition mynetperf_handle_data (s : mynetperf_session_data) (us : Z * Z * Z) : res (list np_output * mynetperf_session_data) :=
  let '(us0, us1, us2) := us in
  let* r :=
    match np_state s with
    | mnp_command => np_handle_command s (default [] (np_req s)) us0
    | _ => Ok ([], false, s)
    end in
  let '(out1, returned, s) := r in
  if returned : bool then Ok (out1, s)
  else
    let '(out2, s) := match np_state s with mnp_receive => np_handle_receive s us1 | _ => ([], s) end in
    match np_state s with
    | mnp_send => let* r := np_handle_send s us2 in Ok (out1 ++ out2 ++ r.1, r.2)
    | _ => Ok (out1 ++ out2, s)
    end.

(** one round of [mynetperf_thread] *)
Definition mynetperf_round (s : mynetperf_session_data) (us : Z * Z * Z) : res (list np_output * mynetperf_session_data) :=
  match np_req s with
  | Some _ => mynetperf_handle_data s us
  | None => Ok ([], s)
  end.

(** events of a session: data, a round of the thread *)
Inductive np_event := np_data (d : list Z) | np_round (us : Z * Z * Z).

(** [terminate] is the condition of the loop of the thread *)
Definition np_apply (so : list np_output * mynetperf_session_data) (e : np_event) : res (list np_output * mynetperf_session_data) :=
  match e with
  | np_data d => Ok (so.1, mynetperf_new_data so.2 d)
  | np_round us =>
      if np_terminate so.2 then Ok so
      else let* r := mynetperf_round so.2 us in Ok (so.1 ++ r.1, r.2)
  end.

Definition np_run (es : list np_event) : res (list np_output * mynetperf_session_data) :=
  res_fold np_apply ([], np_new_session) es.

(** *** What the server promises: a function of the whole stream *)

(** outputs without the time; [r_abort] stands for the end of the program *)
Inductive np_reply := r_ok | r_block (n : Z) | r_result | r_abort.
Definition untimed (o : np_output) : np_reply :=
  match o with np_ok => r_ok | np_block n => r_block n | np_result _ => r_result end.

(** whole blocks and the remainder *)
Definition blocks_of (n : Z) : list np_reply :=
  replicate (Z.to_nat (n / max_block_size)) (r_block max_block_size) ++
  (if n mod max_block_size =? 0 then [] else [r_block (n mod max_block_size)]).

(** the replies to a stream that starts with a command; a command ends with a line feed, a
    command that is not understood ends the session, one whose mode is not a string the
    program *)
Fixpoint np_serve (fuel : nat) (stream : list Z) : list np_reply :=
  match fuel with
  | O => []
  | S fuel' =>
      match find [10] stream with
      | None => []
      | Some lf =>
          let rest := drop (lf + 1) stream in
          match np_parse (take lf stream) with
          | Ok (Some n, Some mnp_receive) =>
              r_ok :: (if n <=? zlen rest then r_result :: np_serve fuel' (drop (Z.to_nat n) rest) else [])
          | Ok (Some n, Some mnp_send) => r_ok :: blocks_of n ++ r_result :: np_serve fuel' rest
          | Ok _ => []
          | Err _ => [r_abort]
          end
      end
  end.
Definition np_service (stream : list Z) : list np_reply := np_serve (length stream + 1) stream.

(** the data of a run *)
Fixpoint np_received (es : list np_event) : list Z :=
  match es with
  | [] => []
  | np_data d :: es' => d ++ np_received es'
  | np_round _ :: es' => np_received es'
  end.

(** *** The server refines it *)

Lemma np_serve_fuel n m stream : (length stream < n)%nat → (length stream < m)%nat → np_serve n stream = np_serve m stream.
Proof.
  revert m stream. induction n as [|n IH]; intros [|m] stream Hn Hm; try lia. cbn [np_serve].
  destruct (find [10] stream) as [lf|] eqn:Hf; [|done]. apply find_bound in Hf. cbn [length] in Hf.
  assert (∀ k, np_serve n (drop k (drop (lf + 1) stream)) = np_serve m (drop k (drop (lf + 1) stream))) as E.
  { intros k. apply IH; rewrite !length_drop; lia. }
  pose proof (E O) as E0. rewrite drop_0 in E0.
  destruct (np_parse _) as [[[size|] [[| |]|]]|f]; try done; [by rewrite E | by rewrite E0].
Qed.

Lemma np_service_eq stream :
  np_service stream =
  match find [10] stream with
  | None => []
  | Some lf =>
      let rest := drop (lf + 1) stream in
      match np_parse (take lf stream) with
      | Ok (Some n, Some mnp_receive) =>
          r_ok :: (if n <=? zlen rest then r_result :: np_service (drop (Z.to_nat n) rest) else [])
      | Ok (Some n, Some mnp_send) => r_ok :: blocks_of n ++ r_result :: np_service rest
      | Ok _ => []
      | Err _ => [r_abort]
      end
  end.
Proof.
  unfold np_service. rewrite Nat.add_1_r. cbn [np_serve].
  destruct (find [10] stream) as [lf|] eqn:Hf; [|done]. apply find_bound in Hf. cbn [length] in Hf.
  assert (∀ k, np_serve (length stream) (drop k (drop (lf + 1) stream)) =
               np_serve (length (drop k (drop (lf + 1) stream)) + 1) (drop k (drop (lf + 1) stream))) as E.
  { intros k. apply np_serve_fuel; rewrite ?length_drop; lia. }
  pose proof (E O) as E0. rewrite drop_0 in E0. cbv zeta.
  destruct (np_parse _) as [[[size|] [[| |]|]]|f]; try done; [by rewrite E | by rewrite E0].
Qed.

(** a command is found in a longer stream as well *)
Lemma find_longer (what a b : str) n : find what a = Some n → find what (a ++ b) = Some n.
Proof.
  revert n. induction a as [|x a IH]; intros n Hf.
  - cbn in Hf. destruct what; [|done]. cbn in Hf. injection Hf as <-. by destruct b.
  - cbn [find app] in *. destruct (is_prefix what (x :: a)) eqn:Hp.
    + injection Hf as <-. apply is_prefix_spec in Hp as [r Hr].
      assert (is_prefix what (x :: a ++ b) = true) as ->; [|done].
      apply is_prefix_spec. exists (r ++ b). change (x :: a ++ b) with ((x :: a) ++ b). rewrite Hr. by rewrite app_assoc.
    + destruct (find what a) as [k|] eqn:Hk; [|done]. injection Hf as <-.
      pose proof (find_bound _ _ _ Hk) as Hb.
      assert (is_prefix what (x :: a ++ b) = false) as ->; [|by rewrite (IH _ eq_refl)].
      apply not_true_iff_false. intros [r Hr]%is_prefix_spec.
      assert (is_prefix what (x :: a) = true) as Hc; [|congruence].
      apply is_prefix_spec. exists (drop (length what) (x :: a)).
      rewrite <- (take_drop (length what) (x :: a)) at 1. f_equal.
      change (x :: a ++ b) with ((x :: a) ++ b) in Hr. apply (f_equal (take (length what))) in Hr.
      rewrite take_app_le in Hr by (cbn; lia). by rewrite Hr, take_app_length.
Qed.

Lemma send_blocks_spec fuel n t : 0 ≤ n → (n + 65535) / 65536 < Z.of_nat fuel →
  ∃ bs, send_blocks fuel n t = Ok (bs, t + n) ∧ untimed <$> bs = blocks_of n.
Proof.
  unfold blocks_of, max_block_size. revert n t. induction fuel as [|fuel IH]; intros n t Hn Hf; [Z.to_euclidean_division_equations; lia|]. cbn [send_blocks].
  destruct (Z.ltb_spec 0 n) as [Hp|Hz]; [|assert (n = 0) as -> by lia; exists []; split; [by rewrite Z.add_0_r | done]].
  unfold max_block_size. destruct (Z.le_gt_cases 65536 n) as [Hb|Hs].
  - rewrite Z.min_l by lia.
    assert (n / 65536 = (n - 65536) / 65536 + 1) as Eq by (Z.to_euclidean_division_equations; lia).
    assert (n mod 65536 = (n - 65536) mod 65536) as Em by (Z.to_euclidean_division_equations; lia).
    assert (0 ≤ (n - 65536) / 65536) by (apply Z.div_pos; lia).
    destruct (IH (n - 65536) (t + 65536)) as (bs & -> & Hbs); [lia|Z.to_euclidean_division_equations; lia|].
    exists (np_block 65536 :: bs). split; [cbn [res_bind fst snd]; do 2 f_equal; lia|].
    rewrite fmap_cons, Hbs, Eq, Em, Z2Nat.inj_add by lia. rewrite Nat.add_1_r. done.
  - rewrite Z.min_r by lia. rewrite Z.sub_diag.
    destruct (IH 0 (t + n)) as (bs & -> & Hbs); [lia|Z.to_euclidean_division_equations; lia|].
    exists (np_block n :: bs). split; [cbn [res_bind fst snd]; by rewrite Z.add_0_r|].
    rewrite fmap_cons, Hbs, (Z.div_small n), (Z.mod_small n) by lia.
    destruct (Z.eqb_spec n 0); [lia|]. done.
Qed.

(** what is still owed when no more arrives than [req] *)
Definition np_owed (s : mynetperf_session_data) (req : list Z) : list np_reply :=
  match np_state s with
  | mnp_receive =>
      let left := np_block_size s - np_transferred s in
      if left <=? zlen req then r_result :: np_service (drop (Z.to_nat left) req) else []
  | _ => np_service req
  end.

(** between the rounds *)
Definition np_wf (s : mynetperf_session_data) : Prop :=
  match np_state s with
  | mnp_command => True
  | mnp_receive => 0 ≤ np_transferred s < np_block_size s ∧ np_block_size s < 2 ^ 64
  | mnp_send => False
  end.

Definition np_buffered (s : mynetperf_session_data) : list Z := default [] (np_req s).

(** out of the buffer of [s] come the replies [out] and the session [s'] *)
Definition np_progress (s s' : mynetperf_session_data) (out : list np_output) : Prop :=
  np_wf s' ∧
  (∀ f, ∃ tail, np_owed s (np_buffered s ++ f) = (untimed <$> out) ++ tail) ∧
  (np_terminate s' = false → ∀ f, np_owed s (np_buffered s ++ f) = (untimed <$> out) ++ np_owed s' (np_buffered s' ++ f)).

Lemma u64_small x : 0 ≤ x < 2 ^ 64 → u64 x = x.
Proof. intros. unfold u64. by apply Z.mod_small. Qed.

Lemma receive_progress s us out s' :
  np_state s = mnp_receive → 0 ≤ np_transferred s ≤ np_block_size s → np_block_size s < 2 ^ 64 →
  np_handle_receive s us = (out, s') →
  np_wf s' ∧ np_terminate s' = np_terminate s ∧ np_state s' ≠ mnp_send ∧
  (∀ f, np_owed s (np_buffered s ++ f) = (untimed <$> out) ++ np_owed s' (np_buffered s' ++ f)).
Proof.
  intros Es Ht Hb H. unfold np_handle_receive in H. rewrite u64_small in H by lia. fold (np_buffered s) in H.
  destruct (Z.leb_spec (np_block_size s - np_transferred s) (zlen (np_buffered s))) as [Hle|Hgt]; injection H as <- <-.
  - split_and!; try done. intros f. unfold np_owed. rewrite Es. cbn [np_state np_wf].
    rewrite zlen_app. pose proof (zlen_nonneg f). destruct (Z.leb_spec (np_block_size s - np_transferred s) (zlen (np_buffered s) + zlen f)); [|lia].
    cbn. do 2 f_equal. unfold zlen in Hle. rewrite drop_app_le by lia. unfold np_buffered. destruct (np_req s); cbn [default]; by rewrite ?drop_nil.
  - pose proof (zlen_nonneg (np_buffered s)). split_and!; try done; try (cbn; lia).
    intros f. unfold np_owed. rewrite Es. cbn [np_state np_block_size np_transferred np_buffered np_req default app fmap list_fmap].
    rewrite zlen_app. replace (np_block_size s - np_transferred s <=? zlen (np_buffered s) + zlen f)
      with (np_block_size s - (np_transferred s + zlen (np_buffered s)) <=? zlen f) by (apply eq_true_iff_eq; rewrite !Z.leb_le; lia).
    unfold np_buffered at 3. cbn [np_req default app].
    destruct (_ <=? zlen f); [|done]. f_equal. f_equal. unfold zlen in *.
    rewrite drop_app_ge by lia. f_equal. lia.
Qed.

Lemma np_parse_states line size st : np_parse line = Ok (size, Some st) →
  ∃ n, size = Some n ∧ 0 ≤ n < 2 ^ 64 ∧ (st = mnp_receive ∨ st = mnp_send).
Proof.
  unfold np_parse. intros H. destruct (json_loadb J line) as [c|]; [|done].
  destruct (json_object_get J c (lit "block_size")) as [a|]; [|done].
  destruct (json_object_get J c (lit "mode")) as [b|]; [|done].
  destruct (json_string_value J b) as [m|]; [|done]. injection H as <- H.
  eexists. split; [done|]. split; [unfold u64; apply Z.mod_pos_bound; lia|].
  repeat case_bool_decide; try done; injection H as <-; tauto.
Qed.

(** a command, once its line is complete *)
Lemma command_progress s req lf us out s' :
  np_state s = mnp_command → np_terminate s = false → np_req s = Some req → find [10] req = Some lf →
  mynetperf_round s us = Ok (out, s') →
  np_progress s s' out ∧ (np_terminate s' = false → (length (np_buffered s') < length req)%nat).
Proof.
  intros Es Et Er Hf H. unfold mynetperf_round, mynetperf_handle_data, np_handle_command in H. destruct us as [[us0 us1] us2].
  rewrite Er, Es in H. cbn [from_option id] in H. rewrite Hf in H. destruct (np_parse (take lf req)) as [[size [st|]]|] eqn:Hp; [| |done].
  2: { cbn in H. injection H as <- <-. split; [|done]. split; [done|]. split; [|done]. intros f. by eexists. }
  destruct (np_parse_states _ _ _ Hp) as (n & -> & Hn & Hst). cbn [res_bind from_option id] in H.
  pose proof (find_bound _ _ _ Hf) as Hb. cbn [length] in Hb.
  set (rest := drop (lf + 1) req) in *.
  set (s1 := NetperfSession (if 0 <? zlen rest then Some rest else None) (np_terminate s) n st 0 us0) in *.
  assert (np_buffered s1 = rest) as B1.
  { unfold np_buffered, s1. cbn [np_req]. destruct (Z.ltb_spec 0 (zlen rest)) as [|Hz]; [done|]. by destruct rest. }
  assert (∀ f, np_owed s (np_buffered s ++ f) =
    match st with
    | mnp_receive => r_ok :: (if n <=? zlen (rest ++ f) then r_result :: np_service (drop (Z.to_nat n) (rest ++ f)) else [])
    | _ => r_ok :: blocks_of n ++ r_result :: np_service (rest ++ f)
    end) as Ho.
  { intros f. unfold np_owed, np_buffered. rewrite Es, Er. cbn [from_option id]. rewrite np_service_eq, (find_longer _ _ f _ Hf).
    cbv zeta. rewrite take_app_le, drop_app_le, Hp by lia. by destruct Hst as [-> | ->]. }
  assert (length rest < length req)%nat as Hl by (unfold rest; rewrite length_drop; lia).
  destruct Hst as [-> | ->]; cbn [np_state s1] in H.
  - destruct (np_handle_receive s1 us1) as [out2 s2] eqn:H2.
    destruct (receive_progress s1 us1 out2 s2) as (W & T & N & P); [done|cbn; lia|cbn; lia|done|].
    assert (Ok ([np_ok] ++ out2, s2) = Ok (out, s')) as H' by (destruct (np_state s2); [done|by destruct N|done]).
    injection H' as <- <-. split.
    + split; [done|]. assert (∀ f, np_owed s (np_buffered s ++ f) = (untimed <$> np_ok :: out2) ++ np_owed s2 (np_buffered s2 ++ f)) as P'.
      { intros f. rewrite fmap_cons, <- app_comm_cons, <- P, B1, Ho. unfold np_owed. cbn [np_state np_block_size np_transferred s1]. by rewrite Z.sub_0_r. }
      split; [|by intros _]. intros f. eexists. apply P'.
    + intros _. apply Nat.le_lt_trans with (length rest); [|done].
      unfold np_handle_receive in H2. fold (np_buffered s1) in H2. rewrite B1 in H2. destruct (_ <=? _); injection H2 as _ <-; unfold np_buffered; cbn [np_req].
      * destruct (0 <? zlen rest); cbn [from_option id]; rewrite ?length_drop; cbn [length]; lia.
      * cbn; lia.
  - unfold np_handle_send in H. cbn [np_block_size np_transferred s1] in H. rewrite Z.sub_0_r, u64_small in H by lia.
    destruct (send_blocks_spec (Z.to_nat (n / max_block_size) + 2) n 0) as (bs & E & Hbs); [lia|unfold max_block_size; Z.to_euclidean_division_equations; lia|].
    rewrite E in H. cbn [res_bind fst snd] in H. injection H as <- <-. split.
    + split; [done|]. set (s2 := NetperfSession _ _ _ _ _ _).
      assert (∀ f, np_owed s (np_buffered s ++ f) =
        (untimed <$> np_ok :: bs ++ [np_result (u64 (us2 - us0))]) ++ np_owed s2 (np_buffered s2 ++ f)) as P'.
      { intros f. change (np_buffered s2) with (np_buffered s1). rewrite B1, Ho, fmap_cons, fmap_app, Hbs, <- app_comm_cons, <- app_assoc. done. }
      split; [|by intros _]. intros f. eexists. apply P'.
    + intros _. change (np_buffered _) with (np_buffered s1). by rewrite B1.
Qed.

(** a round that has nothing to do *)
Lemma np_progress_refl s : np_wf s → np_progress s s [].
Proof. intros W. split; [done|]. split; [intros f; by eexists | done]. Qed.

Lemma round_progress s us out s' :
  np_wf s → np_terminate s = false → mynetperf_round s us = Ok (out, s') →
  np_progress s s' out ∧
  (np_terminate s' = false → (length (np_buffered s') < length (np_buffered s))%nat ∨ np_owed s (np_buffered s) = []).
Proof.
  intros W T H. destruct (np_req s) as [req|] eqn:Er; unfold np_buffered; rewrite Er; cbn [from_option id].
  2: { unfold mynetperf_round in H. rewrite Er in H. injection H as <- <-. split; [by apply np_progress_refl|]. intros _. right.
       unfold np_owed, np_wf in *. destruct (np_state s); [|done|done].
       destruct (Z.leb_spec (np_block_size s - np_transferred s) (zlen (@nil Z))); [change (zlen (@nil Z)) with 0 in *; lia|done]. }
  destruct (np_state s) eqn:Es; [|by unfold np_wf in W; rewrite Es in W|].
  - unfold mynetperf_round, mynetperf_handle_data in H. destruct us as [[us0 us1] us2]. rewrite Er, Es in H. cbn [res_bind] in H. rewrite Es in H.
    destruct (np_handle_receive s us1) as [out2 s2] eqn:H2.
    unfold np_wf in W. rewrite Es in W.
    destruct (receive_progress s us1 out2 s2) as (W2 & T2 & N & P); [done|lia|lia|done|].
    assert (Ok (out2, s2) = Ok (out, s')) as H' by (destruct (np_state s2); [done|by destruct N|done]). injection H' as <- <-.
    split; [split; [done|]; split; [intros f; eexists; apply P | by intros _]|].
    intros _. unfold np_handle_receive in H2. rewrite Er in H2. cbn [from_option id] in H2. rewrite u64_small in H2 by lia.
    unfold np_owed. rewrite Es. destruct (Z.leb_spec (np_block_size s - np_transferred s) (zlen req)) as [Hle|]; [|by right].
    injection H2 as _ <-. left. cbn [np_req from_option id]. rewrite length_drop. unfold zlen in Hle. lia.
  - destruct (find [10] req) as [lf|] eqn:Hf.
    + destruct (command_progress s req lf us out s') as [P L]; try done. split; [done|]. intros Ht. left. by apply L.
    + unfold mynetperf_round, mynetperf_handle_data, np_handle_command in H. destruct us as [[us0 us1] us2]. rewrite Er, Es in H.
      cbn [from_option id] in H. rewrite Hf in H.
      destruct (1024 * 1024 <? zlen req); cbn [res_bind np_state] in H; rewrite ?Es in H; injection H as <- <-.
      * split; [|done]. split; [done|]. split; [intros f; by eexists | done].
      * split; [by apply np_progress_refl|]. intros _. right. unfold np_owed. by rewrite Es, np_service_eq, Hf.
Qed.

(** the only failure *)
Lemma np_parse_fails line f : np_parse line = Err f → f = bad_access.
Proof.
  unfold np_parse. destruct (json_loadb J line) as [c|]; [|done].
  destruct (json_object_get J c (lit "block_size")), (json_object_get J c (lit "mode")) as [m|]; try done.
  destruct (json_string_value J m); [done|]. congruence.
Qed.

(** the first part fails when the next command is the end of the program *)
Lemma command_total s us0 req : np_req s = Some req → np_state s = mnp_command →
  (∃ r, np_handle_command s req us0 = Ok r) ∨
  (np_handle_command s req us0 = Err bad_access ∧ ∀ f, np_owed s (np_buffered s ++ f) = [r_abort]).
Proof.
  intros Er Es. unfold np_handle_command. destruct (find [10] req) as [lf|] eqn:Hf; [|left; destruct (_ <? _); by eexists].
  destruct (np_parse (take lf req)) as [[size st]|e] eqn:Hp; [left; cbn [res_bind]; destruct st; by eexists|].
  right. rewrite (np_parse_fails _ _ Hp) in *. split; [done|]. intros f. unfold np_owed, np_buffered. rewrite Es, Er. cbn [from_option id].
  rewrite np_service_eq, (find_longer _ _ f _ Hf). cbv zeta. apply find_bound in Hf. cbn [length] in Hf.
  by rewrite take_app_le, Hp by lia.
Qed.

Lemma round_total s us : np_wf s → np_terminate s = false →
  (∃ r, mynetperf_round s us = Ok r) ∨
  (mynetperf_round s us = Err bad_access ∧ ∀ f, np_owed s (np_buffered s ++ f) = [r_abort]).
Proof.
  intros W T. unfold mynetperf_round. destruct (np_req s) as [req|] eqn:Er; [|left; by eexists].
  unfold mynetperf_handle_data. destruct us as [[us0 us1] us2]. rewrite Er. cbn [from_option id].
  assert ((∃ o b s1, match np_state s with mnp_command => np_handle_command s req us0 | _ => Ok ([], false, s) end = Ok (o, b, s1)) ∨
    (match np_state s with mnp_command => np_handle_command s req us0 | _ => Ok ([], false, s) end = Err bad_access ∧
     ∀ f, np_owed s (np_buffered s ++ f) = [r_abort])) as [(o & b & s1 & ->)|(-> & A)]; [| |by right].
  { destruct (np_state s) eqn:Es; [left; by do 3 eexists|left; by do 3 eexists|].
    destruct (command_total s us0 req Er Es) as [([[o b] s1] & ->)|?]; [left; by do 3 eexists|by right]. }
  left. cbn [res_bind]. destruct b; [by eexists|].
  destruct (match np_state s1 with mnp_receive => np_handle_receive s1 us1 | _ => ([], s1) end) as [o2 s2].
  destruct (np_state s2); [by eexists| |by eexists]. unfold np_handle_send.
  destruct (send_blocks_spec (Z.to_nat (u64 (np_block_size s2 - np_transferred s2) / max_block_size) + 2)
    (u64 (np_block_size s2 - np_transferred s2)) (np_transferred s2)) as (bs & -> & _).
  - unfold u64. by apply Z.mod_pos_bound.
  - assert (0 ≤ u64 (np_block_size s2 - np_transferred s2)) by (unfold u64; by apply Z.mod_pos_bound).
    unfold max_block_size. set (x := u64 _) in *. clearbody x. Z.to_euclidean_division_equations. lia.
  - by eexists.
Qed.

(** what came in, what went out and what is left fit together *)
Definition np_inv (received : list Z) (so : list np_output * mynetperf_session_data) : Prop :=
  np_wf so.2 ∧
  (∀ f, ∃ tail, np_service (received ++ f) = (untimed <$> so.1) ++ tail) ∧
  (np_terminate so.2 = false → ∀ f, np_service (received ++ f) = (untimed <$> so.1) ++ np_owed so.2 (np_buffered so.2 ++ f)).

(** the program has ended: the stream has a command that ends it, behind what was answered *)
Definition np_aborted (received : list Z) : Prop := ∃ outs, ∀ f, np_service (received ++ f) = outs ++ [r_abort].

Lemma np_aborted_app received more : np_aborted received → np_aborted (received ++ more).
Proof. intros [outs H]. exists outs. intros f. by rewrite <- app_assoc. Qed.

Lemma np_inv_apply received so e :
  np_inv received so →
  (∃ so', np_apply so e = Ok so' ∧ np_inv (received ++ np_received [e]) so') ∨
  (np_apply so e = Err bad_access ∧ np_aborted received).
Proof.
  intros (W & Pre & Owe). destruct so as [outs s], e as [d|us]; cbn [np_apply fst snd np_received] in *.
  - left. eexists. split; [done|]. rewrite app_nil_r. unfold mynetperf_new_data. destruct (Z.eqb_spec (zlen d) 0) as [Ez|_].
    + destruct d; [|rewrite zlen_cons in Ez; pose proof (zlen_nonneg d); lia]. by rewrite app_nil_r.
    + split; [done|]. split; [intros f; rewrite <- app_assoc; apply Pre|].
      intros T f. cbn [fst snd] in *. rewrite <- app_assoc, (Owe T). unfold np_buffered, append_request. cbn [np_req from_option id].
      by rewrite <- app_assoc.
  - rewrite app_nil_r. destruct (np_terminate s) eqn:T; [left; exists (outs, s); split; [done|]; split; [done|]; split; [done|]; cbn [snd]; congruence|].
    destruct (round_total s us W T) as [[[out s'] H]|[H A]]; rewrite H.
    2: { right. split; [done|]. exists (untimed <$> outs). intros f. by rewrite (Owe eq_refl), A. }
    left. eexists. split; [done|].
    destruct (round_progress _ _ _ _ W T H) as [(W' & P1 & P2) _].
    split; [done|]. cbn [fst snd]. split.
    + intros f. destruct (P1 f) as [tail E]. exists tail. by rewrite (Owe eq_refl), E, fmap_app, app_assoc.
    + intros T' f. by rewrite (Owe eq_refl), (P2 T'), fmap_app, app_assoc.
Qed.

Lemma np_received_app es es' : np_received (es ++ es') = np_received es ++ np_received es'.
Proof. induction es as [|[d|u] es IH]; cbn; rewrite ?IH, ?app_assoc; done. Qed.

Lemma np_received_rounds uss : np_received (np_round <$> uss) = [].
Proof. induction uss; done. Qed.

Lemma np_inv_fold es received so :
  np_inv received so →
  (∃ so', res_fold np_apply so es = Ok so' ∧ np_inv (received ++ np_received es) so') ∨
  (res_fold np_apply so es = Err bad_access ∧ np_aborted (received ++ np_received es)).
Proof.
  revert received so. induction es as [|e es IH]; intros received so I.
  - left. eexists. split; [done|]. by rewrite app_nil_r.
  - cbn [res_fold]. destruct (np_inv_apply _ _ e I) as [(so1 & E1 & I1)|[E1 A]]; rewrite E1.
    2: { right. split; [done|by apply np_aborted_app]. }
    change (e :: es) with ([e] ++ es). rewrite np_received_app, app_assoc.
    destruct (IH _ _ I1) as [(so2 & E2 & I2)|[E2 A]]; [left; by exists so2|by right].
Qed.

(** with the rounds the buffer runs empty of what can be answered *)
Definition np_done (so : list np_output * mynetperf_session_data) : Prop :=
  np_terminate so.2 = true ∨ np_owed so.2 (np_buffered so.2) = [].

Lemma np_round_done so us so' : np_wf so.2 → np_apply so (np_round us) = Ok so' →
  np_done so' ∨ (¬ np_done so ∧ (length (np_buffered so'.2) < length (np_buffered so.2))%nat).
Proof.
  intros W H. cbn [np_apply] in H. destruct (np_terminate so.2) eqn:T; [injection H as <-; by left; left|].
  destruct (mynetperf_round so.2 us) as [[out s']|] eqn:Hr; [|done]. injection H as <-. unfold np_done. cbn [fst snd].
  destruct (round_progress _ _ _ _ W T Hr) as [(_ & _ & P) L].
  destruct (np_terminate s') eqn:T'; [by left; left|]. specialize (P eq_refl []). rewrite !app_nil_r in P.
  destruct (np_owed so.2 (np_buffered so.2)) eqn:Eo.
  - left. right. symmetry in P. by apply app_nil in P as [_ P].
  - right. destruct (L eq_refl) as [?|?]; [|done]. split; [intros [?|?]; [by rewrite T in *|done] | done].
Qed.

Lemma np_rounds_finish uss received so :
  np_inv received so → np_done so ∨ (length (np_buffered so.2) < length uss)%nat →
  (∃ so', res_fold np_apply so (np_round <$> uss) = Ok so' ∧ np_inv received so' ∧ np_done so') ∨
  (res_fold np_apply so (np_round <$> uss) = Err bad_access ∧ np_aborted received).
Proof.
  revert so. induction uss as [|us uss IH]; intros so I L.
  - left. exists so. split_and!; [done|done|]. destruct L as [?|L]; [done|cbn in L; lia].
  - rewrite fmap_cons. cbn [res_fold]. destruct (np_inv_apply _ _ (np_round us) I) as [(so1 & E1 & I1)|[E1 A]]; rewrite E1; [|by right].
    rewrite app_nil_r in I1. apply (IH so1 I1).
    destruct (np_round_done so us so1) as [D|[D Hl]]; [apply I|done|by left|]. right. destruct L as [L|L]; [done|]. cbn [length] in L. lia.
Qed.

Lemma np_inv_start : np_inv [] ([], np_new_session).
Proof. split; [done|]. split; [intros f; by eexists | done]. Qed.
End Mynetperf.


(** a parser that knows four commands: to get 70000 bytes, to send 5, one with a mode that is
    not known and one with a mode that is not a string *)
Definition four_commands : jansson :=
  Jansson Z
    (λ line, if bool_decide (line = lit "get") then Some 70000 else if bool_decide (line = lit "put") then Some 5
             else if bool_decide (line = lit "other") then Some 1 else if bool_decide (line = lit "bad") then Some 0 else None)
    (λ c _, Some c) (λ c, c)
    (λ c, if c =? 5 then Some (lit "receive") else if c =? 1 then Some (lit "other") else if c =? 0 then None else Some (lit "send")).

(** the commands and the data in pieces that cut through them *)
Definition np_example : list np_event :=
  [np_data (lit "pu"); np_round (1, 2, 3); np_data (lit "t" ++ [10; 1; 2]); np_round (4, 5, 6);
   np_data ([3; 4; 5] ++ lit "ge"); np_round (7, 8, 9); np_data (lit "t" ++ [10])].


(** a mode that is not a string ends the program *)
Lemma mode_not_string_aborts us :
  let J := Jansson Z (λ _, Some 1) (λ c _, Some c) (λ c, c) (λ _, None) in
  mynetperf_round J (mynetperf_new_data np_new_session (lit "{}" ++ [10])) us = Err bad_access.
Proof. by destruct us as [[? ?] ?]. Qed.

(** ** Echo sends back what it gets *)

Definition echo_inv (w : echo_world) : Prop :=
  concat (ew_sent w) ++ default [] (echo_req (ew_session w)) = ew_received w ∧ Forall (λ b, b ≠ []) (ew_sent w) ∧
  echo_req (ew_session w) ≠ Some [].

Lemma echo_inv_step w w' : echo_inv w → echo_step w w' → echo_inv w'.
Proof.
  intros (E & F & N). destruct 1 as [w d s' H|w out s' R T H|w R T|w]; [| |done|done].
  - unfold echo_new_data in H. destruct (Z.eqb_spec (zlen d) 0) as [Ez|Ez].
    + injection H as <-. destruct d; [|rewrite zlen_cons in Ez; pose proof (zlen_nonneg d); lia]. unfold echo_inv. cbn. by rewrite app_nil_r.
    + injection H as <-. unfold append_request. split_and!; cbn [ew_sent ew_received ew_session echo_req from_option id]; [|done|].
      * by rewrite app_assoc, E.
      * intros [= [_ ->]%app_nil]. by apply Ez.
  - unfold echo_round in H. destruct (echo_req (ew_session w)) as [d|] eqn:Er; injection H as <- <-.
    + split_and!; cbn [ew_sent ew_received ew_session echo_req from_option id] in *; [|apply Forall_app; split; [done|]; repeat constructor; congruence|done].
      by rewrite concat_app, app_nil_r, <- E; cbn; rewrite app_nil_r.
    + split_and!; cbn; rewrite ?app_nil_r, ?Er; done.
Qed.

(** in every order of the callbacks and the rounds of its thread, what the echo server
    has sent followed by what it still holds is what it received: nothing is lost, doubled
    or reordered, no empty block is sent, and one round of a running session sends the rest. *)
Theorem echo_exact s w :
  echo_req s = None → rtc echo_step (echo_start s) w →
  concat (ew_sent w) ++ default [] (echo_req (ew_session w)) = ew_received w ∧ Forall (λ b, b ≠ []) (ew_sent w) ∧
  (ew_running w = true → echo_terminate (ew_session w) = false →
   ∃ w', echo_step w w' ∧ concat (ew_sent w') = ew_received w' ∧ ew_received w' = ew_received w).
Proof.
  intros Es R. assert (echo_inv (echo_start s)) as I0 by (split_and!; cbn; rewrite ?Es; done).
  assert (echo_inv w) as I by (clear Es; induction R; eauto using echo_inv_step). pose proof I as (E & F & N). split_and!; [done|done|].
  intros Hr T. destruct (echo_round (ew_session w)) as [out s'] eqn:H.
  assert (echo_step w (EchoWorld s' true (ew_received w) (ew_sent w ++ out))) as St by (by apply echo_thread).
  exists (EchoWorld s' true (ew_received w) (ew_sent w ++ out)). split_and!; [done| |done].
  destruct (echo_inv_step _ _ I St) as (E' & _). cbn [ew_sent ew_received ew_session] in *. rewrite <- E'.
  unfold echo_round in H. destruct (echo_req (ew_session w)) eqn:Er; injection H as <- <-; cbn [echo_req]; rewrite ?Er; cbn [from_option]; by rewrite ?app_nil_r.
Qed.

Lemma echo_exact_witness :
  let w := EchoWorld (EchoSession (Some [3]) false []) true [1; 2; 3] [[1; 2]] in
  concat (ew_sent w) ++ default [] (echo_req (ew_session w)) = ew_received w ∧ Forall (λ b, b ≠ []) (ew_sent w) ∧
  (ew_running w = true → echo_terminate (ew_session w) = false →
   ∃ w', echo_step w w' ∧ concat (ew_sent w') = ew_received w' ∧ ew_received w' = ew_received w).
Proof.
  intros w. apply (echo_exact (EchoSession None false [])); [reflexivity|].
  eapply rtc_l; [apply (echo_data _ [1] (EchoSession (Some [1]) false [])); reflexivity|].
  eapply rtc_l; [apply (echo_data _ [2] (EchoSession (Some [1; 2]) false [])); reflexivity|].
  eapply rtc_l; [apply (echo_thread _ [[1; 2]] (EchoSession None false [])); reflexivity|].
  eapply rtc_l; [apply (echo_data _ [3] (EchoSession (Some [3]) false [])); reflexivity|].
  apply rtc_refl.
Defined.

(** ** Answers of NRPE *)

(** what a client checks: the CRC over the packet with a zero CRC field, and for version 3
    the three bytes of padding *)
Definition nrpe_crc_ok (p : list Z) : Prop :=
  ∃ crc rest, drop 4 p = be32 crc ++ rest ∧
    crc = crc32 (take 4 p ++ [0; 0; 0; 0] ++ rest ++ replicate (if decide (p !! 1%nat = Some 3) then 3 else 0) 0) nrpe_polynomial.

(** the fields of the answer *)
Definition nrpe_packet (v0 v1 code crc : Z) (text : str) : list Z :=
  [v0; v1; 0; 2] ++ be32 crc ++ [0; code; 0; 0] ++ be32 (zlen text) ++ text.

Lemma crc32_range l p : 0 ≤ crc32 l p < 4294967296.
Proof. unfold crc32. apply u32_range. Qed.

Lemma put_fields_head kvs h t : Forall (λ kv, 0 ≤ kv.1 < zlen h) kvs →
  put_fields (h ++ t) kvs = Ok (foldl (λ p kv, <[Z.to_nat kv.1 := u8 kv.2]> p) h kvs ++ t).
Proof.
  revert h. induction kvs as [|[k v] kvs IH]; intros h F; [done|]. apply Forall_cons in F as [Hk F]. cbn [fst] in Hk.
  unfold put_fields in *. cbn [res_fold fst snd]. rewrite wr_Ok by (rewrite zlen_app; pose proof (zlen_nonneg t); lia).
  cbn [res_bind foldl fst snd]. rewrite insert_app_l by (unfold zlen in Hk; lia). apply IH.
  eapply Forall_impl; [exact F|]. intros kv. unfold zlen. by rewrite length_insert.
Qed.

Lemma send_response_ok request v0 v1 rest metrics :
  request = v0 :: v1 :: rest → byte_ok v0 → byte_ok v1 → zlen metrics ≤ 1019 →
  let '(code, text) := nrpe_verdict (join16 v0 v1) in
  ∃ crc, send_response request metrics = Ok (nrpe_packet v0 v1 code crc (text ++ metrics)) ∧ nrpe_crc_ok (nrpe_packet v0 v1 code crc (text ++ metrics)).
Proof.
  intros -> H0 H1 Hm. destruct (nrpe_verdict (join16 v0 v1)) as [code text] eqn:Hv.
  assert (zlen text ≤ 2 ∧ byte_ok code) as [Ht Hc].
  { unfold nrpe_verdict in Hv. destruct (_ || _); injection Hv as <- <-; split; done. }
  set (pl := text ++ metrics). assert (zlen pl ≤ 1021) as Hp by (unfold pl; rewrite zlen_app; lia).
  pose proof (zlen_nonneg pl) as Hp0.
  unfold send_response. rewrite (rd_mid [] v0 (v1 :: rest)) by done.
  change (rd (v0 :: v1 :: rest) 1) with (rd ([v0] ++ v1 :: rest) 1). rewrite (rd_mid [v0] v1 rest 1) by done.
  cbn [res_bind]. rewrite Hv. fold pl. set (pad := if v1 =? 3 then 3 else 0).
  assert (replicate (16 + 1024) 0 = replicate 16 0 ++ replicate (length pl) 0 ++ replicate (Z.to_nat pad) 0 ++ replicate (1024 - length pl - Z.to_nat pad) 0) as ->.
  { rewrite <- !replicate_add. f_equal. unfold zlen in *. unfold pad. destruct (v1 =? 3); lia. }
  rewrite put_fields_head by (repeat apply Forall_cons_2; try apply Forall_nil_2; done). cbn [res_bind].
  set (h := foldl _ _ _). assert (h = [v0; v1; 0; 2; 0; 0; 0; 0; 0; code; 0; 0] ++ be32 (zlen pl)) as Eh.
  { transitivity ([u8 v0; u8 v1; 0; 2; 0; 0; 0; 0; 0; u8 code; 0; 0] ++ be32 (zlen pl)); [reflexivity|].
    by rewrite (u8_id v0), (u8_id v1), (u8_id code). }
  clearbody h. subst h. rewrite wr_range_app; [|done|rewrite zlen_app; unfold zlen; rewrite length_replicate; lia].
  cbn [res_bind]. rewrite drop_app_length' by (by rewrite length_replicate).
  set (h := [v0; v1; 0; 2; 0; 0; 0; 0; 0; code; 0; 0] ++ be32 (zlen pl)).
  rewrite !app_assoc, rd_range_app by (rewrite !zlen_app; unfold h, zlen; rewrite length_replicate; unfold pad; destruct (v1 =? 3); cbn; lia).
  cbn [res_bind]. set (crc := crc32 _ nrpe_polynomial). pose proof (crc32_range ((h ++ pl) ++ replicate (Z.to_nat pad) 0) nrpe_polynomial) as Hr.
  fold crc in Hr. rewrite <- !app_assoc, put_fields_head by (repeat apply Forall_cons_2; try apply Forall_nil_2; done). cbn [res_bind].
  set (h' := foldl _ _ _). assert (h' = [v0; v1; 0; 2] ++ be32 crc ++ [0; code; 0; 0] ++ be32 (zlen pl)) as Eh by done.
  clearbody h'. subst h'. exists crc. split.
  - rewrite app_assoc, rd_range_app; [unfold nrpe_packet; f_equal; by rewrite <- !app_assoc|]. rewrite zlen_app. done.
  - exists crc, ([0; code; 0; 0] ++ be32 (zlen pl) ++ pl). split; [done|]. unfold crc, h. rewrite <- !app_assoc. f_equal. 
    unfold nrpe_packet. cbn [lookup list_lookup app take]. unfold pad.
    destruct (Z.eqb_spec v1 3) as [->|Hn]; [rewrite decide_True by done | rewrite decide_False by congruence]; done.
Qed.

Definition nrpe_session_of (pieces : list (list Z)) : nrpe_session_data := foldl (λ s d, (nrpe_new_data s d).1) nrpe_new_session.1 pieces.

Lemma nrpe_pieces pieces s :
  default [] (nrpe_req (foldl (λ s d, (nrpe_new_data s d).1) s pieces)) = default [] (nrpe_req s) ++ concat pieces.
Proof.
  revert s. induction pieces as [|d pieces IH]; intros s; [by rewrite app_nil_r|]. cbn [foldl concat]. rewrite IH.
  unfold nrpe_new_data. destruct (Z.eqb_spec (zlen d) 0) as [Ez|_]; cbn [fst].
  - destruct d; [done|]. rewrite zlen_cons in Ez. pose proof (zlen_nonneg d). lia.
  - unfold append_request. cbn [nrpe_req from_option id]. by rewrite <- app_assoc.
Qed.

(** the rounds of [nrpe_thread] while the session lasts, one for each state of the metrics *)
Definition nrpe_thread (s : nrpe_session_data) (metrics : list str) : res (list (list Z)) :=
  res_fold (λ out m, let* r := nrpe_round s m in Ok (out ++ r)) [] metrics.

(** a request that has arrived completely, in whatever pieces, is answered with a packet
    of the version of the request, of type response, with code and text of that version, the
    metrics, the right length, and a CRC that the client's check accepts; a request that has
    not arrived completely is not answered. *)
Theorem nrpe_answers pieces v0 v1 h n payload metrics :
  byte_ok v0 → byte_ok v1 → zlen h = 10 → 0 < n ≤ 2147483631 → zlen metrics ≤ 1019 →
  concat pieces = [v0; v1] ++ h ++ be32 n ++ payload →
  if zlen payload <? n then nrpe_round (nrpe_session_of pieces) metrics = Ok []
  else
    let '(code, text) := nrpe_verdict (join16 v0 v1) in
    ∃ crc, let packet := nrpe_packet v0 v1 code crc (text ++ metrics) in
      nrpe_round (nrpe_session_of pieces) metrics = Ok [packet] ∧ nrpe_crc_ok packet.
Proof.
  intros H0 H1 Hh Hn Hm Ec. pose proof (nrpe_pieces pieces nrpe_new_session.1) as Hp. fold (nrpe_session_of pieces) in Hp.
  cbn [nrpe_new_session fst nrpe_req from_option app] in Hp. rewrite Ec in Hp.
  unfold nrpe_round. destruct (nrpe_req (nrpe_session_of pieces)) as [req|]; [|done]. cbn [from_option id] in Hp. subst req.
  pose proof (zlen_nonneg payload). unfold be32.
  set (l := [v0; v1] ++ h). assert (zlen l = 12) as El by (unfold l; rewrite zlen_app, Hh; done).
  rewrite app_assoc. fold l. rewrite zlen_app, zlen_app, El. change (zlen [_; _; _; _]) with 4.
  destruct (Z.ltb_spec (12 + (4 + zlen payload)) 16) as [?|_]; [lia|].
  set (a := u8 (Z.shiftr n 24)). set (b := u8 (Z.shiftr n 16)). set (c := u8 (Z.shiftr n 8)). set (d := u8 n).
  assert (∀ i x, 0 ≤ i → [a; b; c; d] !! Z.to_nat i = Some x → rd (l ++ [a; b; c; d] ++ payload) (12 + i) = Ok x) as R.
  { intros i x Hi Hx. unfold zlen in El. apply rd_Ok. split; [lia|]. rewrite lookup_app_r by lia.
    replace (Z.to_nat (12 + i) - length l)%nat with (Z.to_nat i) by lia. by apply lookup_app_l_Some. }
  rewrite (R 0 a ltac:(done) eq_refl : rd _ 12 = _), (R 1 b ltac:(done) eq_refl : rd _ 13 = _),
    (R 2 c ltac:(done) eq_refl : rd _ 14 = _), (R 3 d ltac:(done) eq_refl : rd _ 15 = _). cbn [res_bind].
  unfold a, b, c, d. rewrite join32_be32, u32_id by lia.
  assert (s32 n = n) as -> by (unfold s32; rewrite Z.mod_small; lia).
  unfold int_add, int_min, int_max. rewrite !(proj2 (Z.leb_le _ _)) by lia. cbn [andb res_bind].
  unfold u64. rewrite Z.mod_small by lia. rewrite (proj2 (Z.ltb_lt 0 n)), andb_true_r by lia.
  destruct (Z.ltb_spec (zlen payload) n) as [Hs|Hs].
  - rewrite (proj2 (Z.leb_gt _ _)) by lia. done.
  - rewrite (proj2 (Z.leb_le _ _)) by lia.
    pose proof (send_response_ok (l ++ be32 n ++ payload) v0 v1 (h ++ be32 n ++ payload) metrics eq_refl H0 H1 Hm) as S.
    destruct (nrpe_verdict (join16 v0 v1)) as [code text]. destruct S as (crc & E & C).
    exists crc. unfold be32 in E. rewrite E. done.
Qed.

(** a request of version 4 in two pieces *)
Definition nrpe_example : list (list Z) := [[0; 4; 0; 1; 9; 9; 9; 9; 0; 0]; [0; 0] ++ be32 6 ++ lit "%ALL%" ++ [0]].

Lemma nrpe_answers_witness :
  let '(code, text) := nrpe_verdict 4 in
  ∃ crc, let packet := nrpe_packet 0 4 code crc (text ++ lit "|rss=1kB;") in
    nrpe_round (nrpe_session_of nrpe_example) (lit "|rss=1kB;") = Ok [packet] ∧ nrpe_crc_ok packet.
Proof.
  refine (nrpe_answers nrpe_example 0 4 [0; 1; 9; 9; 9; 9; 0; 0; 0; 0] 6 (lit "%ALL%" ++ [0]) (lit "|rss=1kB;") _ _ _ _ _ _);
    try (vm_compute; intuition congruence); reflexivity.
Defined.

(** the request stays in the buffer: every half second it is answered again *)
Lemma nrpe_answers_again m : nrpe_thread (nrpe_session_of nrpe_example) [m; m] = 
  let* r := nrpe_round (nrpe_session_of nrpe_example) m in Ok (r ++ r).
Proof. unfold nrpe_thread. cbn [res_fold app]. by destruct (nrpe_round _ m) as [r|]. Qed.

(** a length near the end of the range of [int] overflows *)
Lemma nrpe_length_overflow m :
  nrpe_round (nrpe_session_of [[0; 4; 0; 1; 9; 9; 9; 9; 0; 0; 0; 0; 127; 255; 255; 255]]) m = Err signed_overflow.
Proof. reflexivity. Qed.
