(* ===== verification/Socks.v ===== *)
(** * Sockets of the host and the SOCKS proxy (src/utils.cpp, src/socks_proxy.cpp)

    A socket of the host gives its data in pieces of any size, is interrupted and fails;
    [READ] and [WRITE] hide that.  The proxy takes a SOCKS 4 or 4a request from such a
    socket, opens a session of the TCP layer, answers and forwards; its handler is the
    sequence of calls it makes, with what the name server, the TCP layer and the socket
    answer as arguments.

    Shown: [READ] returns exactly the next bytes of the stream and [WRITE] sends exactly its
    bytes, whatever the pieces and interruptions; a request is parsed from any pieces, the
    session goes to the host and port it names, and every byte after it reaches that session
    once and in order. *)
From S2P Require Import Prelude Str AnyAddr.
Open Scope Z_scope.

(** ** [read] and [write] *)

(** what the kernel has for a reader: some bytes, an interruption, an error; then the end *)
Inductive sock_event := ev_data (b : list Z) | ev_intr | ev_error.

Inductive fd_read_result := rr_bytes (b : list Z) | rr_eof | rr_intr | rr_error.

(** [read(fd, p, len)]: at most [len] bytes, the rest of a piece stays *)
Definition fd_read (len : nat) (q : list sock_event) : fd_read_result * list sock_event :=
  match q with
  | [] => (rr_eof, [])
  | ev_intr :: q' => (rr_intr, q')
  | ev_error :: q' => (rr_error, q')
  | ev_data [] :: q' => (rr_eof, q')
  | ev_data b :: q' =>
      if (length b <=? len)%nat then (rr_bytes b, q') else (rr_bytes (take len b), ev_data (drop len b) :: q')
  end.

(** the bytes read; [None]: it returned -1 *)
Fixpoint READ_loop (fuel : nat) (len : nat) (q : list sock_event) : res (option (list Z) * list sock_event) :=
  match fuel with
  | O => Err out_of_fuel
  | S fuel' =>
      match len with
      | O => Ok (Some [], q)
      | _ =>
          match fd_read len q with
          | (rr_intr, q') => READ_loop fuel' len q'
          | (rr_error, q') => Ok (None, q')
          | (rr_eof, q') => Ok (Some [], q')
          | (rr_bytes b, q') =>
              let* '(r, q'') := READ_loop fuel' (len - length b) q' in
              Ok (match r with Some r => Some (b ++ r) | None => None end, q'')
          end
      end
  end.
Definition READ (len : nat) (q : list sock_event) : res (option (list Z) * list sock_event) := READ_loop (length q + 2) len q.

(** what [write] does: takes some bytes, nothing, is interrupted, fails; when nothing is
    said it takes all *)
Inductive write_event := we_some (n : positive) | we_zero | we_intr | we_error.

(** whether all bytes went out (or -1), the bytes that did, the events left *)
Fixpoint WRITE (data : list Z) (w : list write_event) : bool * list Z * list write_event :=
  match data, w with
  | [], _ => (true, [], w)
  | _, [] => (true, data, [])
  | _, we_intr :: w' => WRITE data w'
  | _, we_error :: w' => (false, [], w')
  | _, we_zero :: w' => (false, [], w')
  | _, we_some n :: w' =>
      let '(ok, sent, w'') := WRITE (drop (Pos.to_nat n) data) w' in
      (ok, take (Pos.to_nat n) data ++ sent, w'')
  end.

(** ** The handler of a client *)

(** reads of one byte until a zero byte, the end or an error *)
Fixpoint get_0x00_terminated_string (fuel : nat) (q : list sock_event) (acc : str) : res (str * list sock_event) :=
  match fuel with
  | O => Err out_of_fuel
  | S fuel' =>
      let* '(r, q) := READ 1 q in
      match r with
      | Some [buffer] => if buffer =? 0 then Ok (acc, q) else get_0x00_terminated_string fuel' q (acc ++ [buffer])
      | _ => Ok (acc, q)
      end
  end.

Definition pending_bytes (q : list sock_event) : nat :=
  sum_list_with (λ e, match e with ev_data b => length b | _ => 0%nat end) q.
Definition socks_string (q : list sock_event) : res (str * list sock_event) :=
  get_0x00_terminated_string (pending_bytes q + 1) q [].

(** the calls of the handler that matter outside *)
Inductive socks_call :=
  | call_resolve (host : str)
  | call_allocate (dest : any_addr) (port : Z)
  | call_wait (src_port : Z)
  | call_write (sent : list Z)
  | call_send (src_port : Z) (data : list Z)
  | call_close_session (src_port : Z)
  | call_close_fd.

(** the answers: of the name server (if there is one), of [allocate_client_session], of the
    socket to the response and of [client_session_send_data] *)
Record socks_env := SocksEnv {
  dns_query : option (str → option any_addr);
  new_port : Z;
  response_writes : list write_event;
  send_ok : nat → bool;
}.

(** the loop that forwards; the result of the [k]th send is [send_ok k] *)
Fixpoint socks_forward (fuel : nat) (e : socks_env) (k : nat) (q : list sock_event) : res (list socks_call) :=
  match fuel with
  | O => Err out_of_fuel
  | S fuel' =>
      match fd_read 512 q with
      | (rr_bytes n, q') =>
          if send_ok e k then
            let* r := socks_forward fuel' e (S k) q' in Ok (call_send (new_port e) n :: r)
          else Ok [call_send (new_port e) n]
      | _ => Ok []
      end
  end.

(** [{ 0, 0x5a, uint8_t(port >> 8), uint8_t(port), 0 }] of eight bytes *)
Definition socks_response (port : Z) : list Z := [0; 0x5a; u8 (Z.shiftr port 8); u8 port; 0; 0; 0; 0].

(** from the allocation of the session on *)
Definition socks_connect (e : socks_env) (dest : any_addr) (port : Z) (q : list sock_event) : res (list socks_call) :=
  let src_port := new_port e in
  let '(ok, sent, _) := WRITE (socks_response port) (response_writes e) in
  let calls := [call_allocate dest port; call_wait src_port; call_write sent] in
  if ok : bool then
    let* fw := socks_forward (pending_bytes q + length q + 1) e 0 q in
    Ok (calls ++ fw ++ [call_close_session src_port])
  else Ok (calls ++ [call_close_fd]).

(** an address 0.0.0.x with x not zero: SOCKS 4a *)
Definition is_socks4a (dest : any_addr) : res bool :=
  let* d0 := at_ dest 0 in
  let* d1 := at_ dest 1 in
  let* d2 := at_ dest 2 in
  let* d3 := at_ dest 3 in
  Ok ((d0 =? 0) && (d1 =? 0) && (d2 =? 0) && negb (d3 =? 0)).

Definition socks_handler (e : socks_env) (q : list sock_event) : res (list socks_call) :=
  let* '(header, q) := READ 8 q in
  match header with
  | Some [h0; h1; h2; h3; h4; h5; h6; h7] =>
      if negb (h0 =? 4) then Ok [call_close_fd]
      else if negb (h1 =? 1) then Ok [call_close_fd]
      else
        let port := join16 h2 h3 in
        let* dest := mk_addr ipv4 [h4; h5; h6; h7] in
        let* '(id, q) := socks_string q in
        let* four_a := is_socks4a dest in
        if four_a : bool then
          let* '(host, q) := socks_string q in
          match dns_query e with
          | None => Err bad_access
          | Some query =>
              match query host with
              | None => Ok [call_resolve host; call_close_fd]
              | Some a => let* r := socks_connect e a port q in Ok (call_resolve host :: r)
              end
          end
        else socks_connect e dest port q
  | _ => Ok [call_close_fd]
  end.

(** data from the session goes to the socket of the client *)
Definition socks_new_data (data : list Z) (w : list write_event) : bool * list Z :=
  let '(ok, sent, _) := WRITE data w in (ok, sent).

Definition socks_session_closed_2 : list socks_call := [call_close_fd].

(** ** Reading and writing whole *)

(** the bytes that are to come *)
Definition ev_bytes (e : sock_event) : list Z := match e with ev_data b => b | _ => [] end.
Definition stream (q : list sock_event) : list Z := q ≫= ev_bytes.

(** data and interruptions; only data *)
Definition calm (e : sock_event) : Prop := match e with ev_data b => b ≠ [] | ev_intr => True | ev_error => False end.
Definition is_data (e : sock_event) : Prop := match e with ev_data b => b ≠ [] | _ => False end.

Lemma pending_stream q : pending_bytes q = length (stream q).
Proof. unfold pending_bytes, stream. induction q as [|e q IH]; [done|]. rewrite bind_cons, length_app, <- IH. by destruct e. Qed.

Lemma fd_read_data len b q : b ≠ [] → (0 < len)%nat →
  ∃ q', fd_read len (ev_data b :: q) = (rr_bytes (take len b), q') ∧ take len b ≠ [] ∧
    stream q' = drop len b ++ stream q ∧ (length q' ≤ length q + 1)%nat ∧
    ((length b ≤ len)%nat → q' = q) ∧ (∀ P : sock_event → Prop, (∀ x, x ≠ [] → P (ev_data x)) → Forall P q → Forall P q').
Proof.
  intros Hb Hl. destruct b as [|x b]; [done|]. cbn [fd_read]. destruct (Nat.leb_spec (length (x :: b)) len) as [Hs|Hs].
  - exists q. rewrite take_ge, drop_ge by done. split_and!; try done. lia.
  - exists (ev_data (drop len (x :: b)) :: q). split_and!; try done.
    + destruct len; [lia|done].
    + cbn [length]; lia.
    + intros; lia.
    + intros P HP F. constructor; [|done]. apply HP. intros E%(f_equal length). rewrite length_drop in E. cbn [length] in *. lia.
Qed.

Lemma READ_loop_spec fuel len q : (length q + 2 ≤ fuel)%nat → Forall calm q →
  ∃ q', READ_loop fuel len q = Ok (Some (take len (stream q)), q') ∧ stream q' = drop len (stream q) ∧
    (∀ P : sock_event → Prop, (∀ x, x ≠ [] → P (ev_data x)) → Forall P q → Forall P q').
Proof.
  revert fuel len. induction q as [|e q IH]; intros [|fuel] len Hf F; cbn [length] in Hf; [lia| |lia|].
  - exists []. destruct len; cbn; by rewrite ?take_nil, ?drop_nil.
  - destruct len as [|len]; [exists (e :: q); cbn [READ_loop]; rewrite take_0, drop_0; by split_and!|].
    apply Forall_cons in F as [He F]. destruct e as [b| |]; [| |done].
    + cbn [READ_loop]. destruct (fd_read_data (S len) b q) as (q' & -> & Hn & Hs & Hl & Hq & HP); [done|lia|]. cbn [res_bind].
      change (stream (ev_data b :: q)) with (b ++ stream q).
      destruct (Nat.le_gt_cases (length b) (S len)) as [Hb|Hb].
      * rewrite (Hq Hb). rewrite take_ge by done.
        destruct (IH fuel (S len - length b)%nat) as (q2 & E2 & S2 & P2); [lia|done|]. rewrite E2. cbn [res_bind].
        exists q2. split_and!; [rewrite take_app, (take_ge b) by lia; done|rewrite S2, drop_app, (drop_ge b) by lia; done|].
        intros P H1 [_ H2]%Forall_cons. by apply P2.
      * replace (S len - length (take (S len) b))%nat with O by (rewrite length_take; lia).
        destruct fuel; [lia|]. cbn [READ_loop res_bind]. exists q'. split_and!.
        -- by rewrite app_nil_r, take_app_le by lia.
        -- by rewrite Hs, drop_app_le by lia.
        -- intros P H1 [_ H2]%Forall_cons. by apply HP.
    + cbn [READ_loop fd_read]. destruct (IH fuel (S len)) as (q2 & E2 & S2 & P2); [lia|done|].
      exists q2. split_and!; [done|done|]. intros P H1 [_ H2]%Forall_cons. by apply P2.
Qed.

Lemma READ_ok len q : Forall calm q →
  ∃ q', READ len q = Ok (Some (take len (stream q)), q') ∧ stream q' = drop len (stream q) ∧
    (∀ P : sock_event → Prop, (∀ x, x ≠ [] → P (ev_data x)) → Forall P q → Forall P q').
Proof. apply READ_loop_spec. done. Qed.

Lemma WRITE_prefix w data ok sent w' : WRITE data w = (ok, sent, w') → sent `prefix_of` data ∧ (ok = true ↔ sent = data).
Proof.
  revert data ok sent w'. induction w as [|e w IH]; intros [|x data] ok sent w' H; try (injection H as <- <- <-; done).
  destruct e as [n| | |]; cbn [WRITE] in H; [|injection H as <- <- <-; split; [apply prefix_nil | done]|by eapply IH|injection H as <- <- <-; split; [apply prefix_nil | done]].
  destruct (WRITE (drop (Pos.to_nat n) (x :: data)) w) as [[ok1 sent1] w1] eqn:E. injection H as <- <- <-.
  destruct (IH _ _ _ _ E) as [[k Hk] Hiff]. split.
  - exists k. rewrite <- app_assoc, <- Hk. by rewrite take_drop.
  - rewrite Hiff. split; [intros ->; by rewrite take_drop|]. intros Heq.
    apply (app_inv_head (take (Pos.to_nat n) (x :: data))). by rewrite take_drop.
Qed.

(** ** A request is served *)

Lemma socks_string_loop fuel q acc s rest : (length s < fuel)%nat → Forall calm q → (0 ∉ s) → stream q = s ++ 0 :: rest →
  ∃ q', get_0x00_terminated_string fuel q acc = Ok (acc ++ s, q') ∧ stream q' = rest ∧
    (∀ P : sock_event → Prop, (∀ x, x ≠ [] → P (ev_data x)) → Forall P q → Forall P q').
Proof.
  revert q acc s. induction fuel as [|fuel IH]; intros q acc s Hf F H0 Hs; [lia|]. cbn [get_0x00_terminated_string].
  destruct (READ_ok 1 q F) as (q1 & -> & S1 & P1). cbn [res_bind]. rewrite Hs in *. destruct s as [|c s]; cbn [app take drop] in *.
  - exists q1. by rewrite app_nil_r.
  - apply not_elem_of_cons in H0 as [Hc H0]. destruct (Z.eqb_spec c 0) as [->|_]; [done|].
    destruct (IH q1 (acc ++ [c]) s) as (q2 & E2 & S2 & P2); [cbn in Hf; lia| |done|done|].
    { apply (P1 calm); [done|exact F]. }
    exists q2. rewrite E2, <- app_assoc. split_and!; [done|done|]. intros P HP FP. apply P2; [done|]. by apply P1.
Qed.

Lemma socks_string_ok q s rest : Forall is_data q → (0 ∉ s) → stream q = s ++ 0 :: rest →
  ∃ q', socks_string q = Ok (s, q') ∧ stream q' = rest ∧ Forall is_data q'.
Proof.
  intros F H0 Hs. unfold socks_string. rewrite pending_stream, Hs.
  destruct (socks_string_loop (length (s ++ 0%Z :: rest) + 1) q [] s rest) as (q' & E & S & P); [rewrite length_app; lia| |done|done|].
  - eapply Forall_impl; [exact F|]. by intros [| |].
  - exists q'. split_and!; [done|done|]. by apply P.
Qed.

(** sends of at most 512 bytes each *)
Definition is_send (p : Z) (c : socks_call) : Prop :=
  match c with call_send p' d => p' = p ∧ (0 < length d ≤ 512)%nat | _ => False end.
Definition sent_data (c : socks_call) : list Z := match c with call_send _ d => d | _ => [] end.

Lemma socks_forward_all fuel e k q : (length (stream q) < fuel)%nat → Forall is_data q → (∀ k, send_ok e k = true) →
  ∃ calls, socks_forward fuel e k q = Ok calls ∧ Forall (is_send (new_port e)) calls ∧ (calls ≫= sent_data) = stream q.
Proof.
  revert k q. induction fuel as [|fuel IH]; intros k q Hf F Hok; [lia|]. cbn [socks_forward].
  destruct q as [|[b| |] q]; [by exists []| | |]; apply Forall_cons in F as [He F]; [|done|done].
  destruct (fd_read_data 512 b q) as (q' & -> & Hn & Hs & _ & _ & HP); [done|lia|]. rewrite Hok.
  change (stream (ev_data b :: q)) with (b ++ stream q) in *.
  destruct (IH (S k) q') as (calls & -> & Fc & Ec); [|by apply HP|done|].
  - rewrite Hs, length_app, length_drop. rewrite length_app in Hf. destruct b; [done|]. cbn [length] in *. lia.
  - cbn [res_bind]. exists (call_send (new_port e) (take 512 b) :: calls). split_and!; [done| |].
    + constructor; [|done]. split; [done|]. split; [|rewrite length_take; lia].
      destruct (take 512 b); [done|]. cbn. lia.
    + rewrite bind_cons, Ec, Hs, app_assoc. cbn [sent_data]. by rewrite take_drop.
Qed.

Lemma socks_connect_ok e dest port q : Forall is_data q → (∀ k, send_ok e k = true) →
  (WRITE (socks_response port) (response_writes e)).1.1 = true →
  ∃ fw, socks_connect e dest port q =
    Ok ([call_allocate dest port; call_wait (new_port e); call_write (socks_response port)] ++ fw ++ [call_close_session (new_port e)]) ∧
    Forall (is_send (new_port e)) fw ∧ (fw ≫= sent_data) = stream q.
Proof.
  intros F Hok Hw. unfold socks_connect. destruct (WRITE _ _) as [[ok sent] w'] eqn:E. cbn [fst] in Hw. subst ok.
  destruct (WRITE_prefix _ _ _ _ _ E) as [_ [Hs _]]. rewrite (Hs eq_refl).
  destruct (socks_forward_all (pending_bytes q + length q + 1) e 0 q) as (fw & -> & Ff & Ef); [rewrite pending_stream; lia|done|done|].
  exists fw. done.
Qed.

(** what a client asks for: an address, or a name with an address that says so *)
Inductive socks_target := by_addr (a b c d : Z) | by_name (x : Z) (host : str).
Definition target_ip (t : socks_target) : list Z := match t with by_addr a b c d => [a; b; c; d] | by_name x _ => [0; 0; 0; x] end.
Definition target_tail (t : socks_target) : list Z := match t with by_addr _ _ _ _ => [] | by_name _ host => host ++ [0] end.
Definition target_ok (t : socks_target) : Prop :=
  match t with
  | by_addr a b c d => a ≠ 0 ∨ b ≠ 0 ∨ c ≠ 0 ∨ d = 0
  | by_name x host => x ≠ 0 ∧ (0 ∉ host)
  end.

Definition socks_request (t : socks_target) (port : Z) (id : str) : list Z :=
  [4; 1] ++ be16 port ++ target_ip t ++ id ++ [0] ++ target_tail t.

(** the address that is meant, and the call that found it *)
Definition target_dest (e : socks_env) (t : socks_target) (dest : any_addr) : Prop :=
  match t with
  | by_addr a b c d => mk_addr ipv4 [a; b; c; d] = Ok dest
  | by_name _ host => ∃ query, dns_query e = Some query ∧ query host = Some dest
  end.
Definition target_calls (t : socks_target) : list socks_call :=
  match t with by_addr _ _ _ _ => [] | by_name _ host => [call_resolve host] end.

Lemma is_socks4a_eq a b c d dest : mk_addr ipv4 [a; b; c; d] = Ok dest →
  is_socks4a dest = Ok ((a =? 0) && (b =? 0) && (c =? 0) && negb (d =? 0)).
Proof. intros H. vm_compute in H. injection H as <-. done. Qed.

Lemma mk_ipv4_Ok a b c d : ∃ dest, mk_addr ipv4 [a; b; c; d] = Ok dest.
Proof. eexists. reflexivity. Qed.

(** a SOCKS 4 or 4a request, in whatever pieces it and the data after it arrive, opens a
    session to the address and port it asks for (for 4a to what the name server answers),
    is answered with eight bytes that grant it and name its port, and every byte that
    follows is given to that session once, in order, in blocks of at most 512 bytes, before
    the session is closed. *)
Theorem socks_serves e q t port id rest dest :
  Forall is_data q → stream q = socks_request t port id ++ rest →
  0 ≤ port < 65536 → (0 ∉ id) → target_ok t → target_dest e t dest →
  (∀ k, send_ok e k = true) → (WRITE (socks_response port) (response_writes e)).1.1 = true →
  ∃ fw, socks_handler e q =
    Ok (target_calls t ++ [call_allocate dest port; call_wait (new_port e); call_write (socks_response port)] ++ fw ++
        [call_close_session (new_port e)]) ∧
    Forall (is_send (new_port e)) fw ∧ (fw ≫= sent_data) = rest.
Proof.
  intros F Hs Hp Hid Ht Hd Hok Hw. unfold socks_handler.
  destruct (READ_ok 8 q) as (q1 & -> & S1 & P1); [eapply Forall_impl; [exact F|]; by intros [| |]|].
  assert (Forall is_data q1) as F1 by (by apply P1). cbn [res_bind].
  unfold socks_request, be16 in Hs. assert (∃ a b c d, target_ip t = [a; b; c; d]) as (a & b & c & d & Eip) by (destruct t; by do 4 eexists).
  rewrite Eip in Hs. cbn [app] in Hs. rewrite Hs in S1 |- *. cbn [take drop] in S1 |- *.
  rewrite !Z.eqb_refl. cbn [negb]. rewrite join16_be16 by lia.
  destruct (mk_ipv4_Ok a b c d) as [ip Hip]. rewrite Hip. cbn [res_bind].
  rewrite <- app_assoc in S1. destruct (socks_string_ok q1 id (target_tail t ++ rest) F1 Hid S1) as (q2 & -> & S2 & F2).
  cbn [res_bind]. rewrite (is_socks4a_eq a b c d ip Hip). cbn [res_bind].
  destruct t as [a' b' c' d'|x host]; cbn [target_ip target_ok target_dest target_tail target_calls] in *; injection Eip as <- <- <- <-.
  - assert ((a' =? 0) && (b' =? 0) && (c' =? 0) && negb (d' =? 0) = false) as ->.
    { apply not_true_iff_false. rewrite !andb_true_iff, negb_true_iff, !Z.eqb_eq, Z.eqb_neq. lia. }
    assert (ip = dest) as -> by congruence.
    destruct (socks_connect_ok e dest port q2 F2 Hok Hw) as (fw & -> & ? & Es). exists fw. split_and!; [done|done|by rewrite Es, S2].
  - destruct Ht as [Hx Hh], Hd as (query & Hq & Ha). rewrite (proj2 (Z.eqb_neq x 0) Hx). cbn [negb andb Z.eqb].
    rewrite <- app_assoc in S2. destruct (socks_string_ok q2 host rest F2 Hh S2) as (q3 & -> & S3 & F3). cbn [res_bind].
    rewrite Hq, Ha. destruct (socks_connect_ok e dest port q3 F3 Hok Hw) as (fw & -> & ? & Es). exists fw. split_and!; [done|done|by rewrite Es, S3].
Qed.

Lemma socks_serves_witness :
  let e := SocksEnv (Some (λ _, Some unset_addr)) 40000 [we_some 3; we_intr] (λ _, true) in
  ∃ fw, socks_handler e [ev_data [4; 1; 0]; ev_data [80; 0; 0; 0; 1; 117; 0; 104]; ev_data [0; 1; 2]; ev_data [3]] =
    Ok ([call_resolve [104]] ++ [call_allocate unset_addr 80; call_wait 40000; call_write (socks_response 80)] ++ fw ++
        [call_close_session 40000]) ∧
    Forall (is_send 40000) fw ∧ (fw ≫= sent_data) = [1; 2; 3].
Proof.
  intros e.
  apply (socks_serves e [ev_data [4; 1; 0]; ev_data [80; 0; 0; 0; 1; 117; 0; 104]; ev_data [0; 1; 2]; ev_data [3]]
    (by_name 1 [104]) 80 [117] [1; 2; 3] unset_addr).
  - repeat constructor; done.
  - reflexivity.
  - lia.
  - set_solver.
  - split; [lia | set_solver].
  - by eexists.
  - done.
  - reflexivity.
Defined.

(** when the response cannot be written, the socket is closed and the session stays open;
    its end closes the same descriptor again *)
Lemma failed_response_closes_twice :
  let e := SocksEnv None 40000 [we_error] (λ _, true) in
  socks_handler e [ev_data [4; 1; 0; 80; 10; 0; 0; 1; 0]] =
    (let* dest := mk_addr ipv4 [10; 0; 0; 1] in
     Ok ([call_allocate dest 80; call_wait 40000; call_write []; call_close_fd])) ∧
  socks_session_closed_2 = [call_close_fd].
Proof. by vm_compute. Qed.
