(* ===== verification/Phys.v ===== *)
(** * Devices: capture files and protocols (src/phys.cpp, src/phys.h)

    A device records its packets in a file between [start_pcap] and [stop_pcap] and knows the
    protocols of its frames.  The dumper of libpcap is a pointer: null, open, or closed but
    still pointed to; using it after its end is an access outside of the program's memory.

    Shown: between a start and a stop exactly the packets of the wanted directions are in the
    file, in order and with their time in microseconds; frames find the protocol that was
    registered first for their type.  Lemmas show what a device does with the pointer that
    [stop_pcap] leaves behind. *)
From stdpp Require Import strings.
From S2P Require Import Prelude Str.
Open Scope Z_scope.

(** a packet in the file: its time in seconds and microseconds, its bytes *)
Record pcap_record := PcapRecord { rec_sec : Z; rec_usec : Z; rec_bytes : list Z }.

(** [pdh]: null, a file with its records, or what is left of one that was closed *)
Inductive dumper := no_dumper | open_dumper (file : str) (records : list pcap_record) | closed_dumper (file : str) (records : list pcap_record).

Record phys := Phys {
  ph_name : str;
  ph_index : Z;
  ph_handle : bool;               (* [ph], opened once *)
  ph_dumper : dumper;
  ph_incoming : bool;
  ph_outgoing : bool;
  ph_protocols : gmap Z Z;        (* [prot_map]: the layer of a type *)
  ph_stop : bool;
}.

Definition new_phys (dev_index : Z) (name : str) : phys := Phys name dev_index false no_dumper false false ∅ false.

Definition phys_to_str (d : phys) : str := ph_name d.

(** [myformat] with one string: [%s] once, [%%]; other conversions take an argument that is
    not there *)
Fixpoint format_one (f : str) (arg : option str) : res str :=
  match f with
  | 37 :: 115 :: f' =>
      match arg with
      | Some a => let* r := format_one f' None in Ok (a ++ r)
      | None => Err bad_access
      end
  | 37 :: 37 :: f' => let* r := format_one f' arg in Ok (37 :: r)
  | 37 :: _ => Err bad_access
  | c :: f' => let* r := format_one f' arg in Ok (c :: r)
  | [] => Ok []
  end.

(** [md5hex] of the name and number and whether [pcap_dump_open] can make the file *)
Record capture_env := CaptureEnv { device_digest : str → str; can_create : str → bool }.

Definition capture_tag (env : capture_env) (d : phys) : str :=
  take 4 (device_digest env (ph_name d ++ lit "-" ++ fmt_dec (ph_index d))).

Definition start_pcap (env : capture_env) (d : phys) (pcap_file : str) (inc out : bool) : res phys :=
  let started dumper := Phys (ph_name d) (ph_index d) true dumper inc out (ph_protocols d) (ph_stop d) in
  match ph_dumper d with
  | no_dumper =>
      if inc || out then
        let* temp := format_one (c_str pcap_file) (Some (c_str (capture_tag env d))) in
        if can_create env (c_str temp) then Ok (started (open_dumper (c_str temp) [])) else Err exit_failure
      else Ok (started no_dumper)
  | p => Ok (started p)
  end.

Definition stop_pcap (d : phys) : res phys :=
  match ph_dumper d with
  | no_dumper => Ok d
  | open_dumper file recs =>
      Ok (Phys (ph_name d) (ph_index d) (ph_handle d) (closed_dumper file recs) (ph_incoming d) (ph_outgoing d) (ph_protocols d) (ph_stop d))
  | closed_dumper _ _ => Err bad_access
  end.

(** [pcap_dump] with the header of a packet *)
Definition pcap_dump (d : phys) (tv_sec tv_nsec : Z) (data : list Z) : res phys :=
  match ph_dumper d with
  | open_dumper file recs =>
      Ok (Phys (ph_name d) (ph_index d) (ph_handle d) (open_dumper file (recs ++ [PcapRecord tv_sec (tv_nsec / 1000) data]))
               (ph_incoming d) (ph_outgoing d) (ph_protocols d) (ph_stop d))
  | _ => Err bad_access
  end.

Definition pcap_write_packet_incoming (d : phys) (tv_sec tv_nsec : Z) (data : list Z) : res phys :=
  if ph_incoming d then pcap_dump d tv_sec tv_nsec data else Ok d.
Definition pcap_write_packet_outgoing (d : phys) (tv_sec tv_nsec : Z) (data : list Z) : res phys :=
  if ph_outgoing d then pcap_dump d tv_sec tv_nsec data else Ok d.

(** [std::map::insert] does not replace *)
Definition phys_register_protocol (d : phys) (ether_type layer : Z) : phys :=
  Phys (ph_name d) (ph_index d) (ph_handle d) (ph_dumper d) (ph_incoming d) (ph_outgoing d)
       (match ph_protocols d !! u16 ether_type with Some _ => ph_protocols d | None => <[u16 ether_type := layer]> (ph_protocols d) end)
       (ph_stop d).
Definition phys_get_protocol (d : phys) (protocol : Z) : option Z := ph_protocols d !! u16 protocol.

Definition phys_ask_to_stop (d : phys) : phys :=
  Phys (ph_name d) (ph_index d) (ph_handle d) (ph_dumper d) (ph_incoming d) (ph_outgoing d) (ph_protocols d) true.

(** [~phys] *)
Definition phys_destroy (d : phys) : res unit := let* _ := stop_pcap d in Ok tt.

(** ** A capture *)

(** a packet of a device: its direction, time and bytes *)
Record traffic := Traffic { tr_incoming : bool; tr_sec : Z; tr_nsec : Z; tr_bytes : list Z }.

Definition pcap_write (d : phys) (t : traffic) : res phys :=
  if tr_incoming t then pcap_write_packet_incoming d (tr_sec t) (tr_nsec t) (tr_bytes t)
  else pcap_write_packet_outgoing d (tr_sec t) (tr_nsec t) (tr_bytes t).

Definition wanted (inc out : bool) (t : traffic) : bool := if tr_incoming t then inc else out.
Definition record_of (t : traffic) : pcap_record := PcapRecord (tr_sec t) (tr_nsec t / 1000) (tr_bytes t).

Lemma pcap_write_open d t file recs :
  ph_dumper d = open_dumper file recs →
  pcap_write d t = Ok (Phys (ph_name d) (ph_index d) (ph_handle d)
    (open_dumper file (recs ++ (if wanted (ph_incoming d) (ph_outgoing d) t then [record_of t] else [])))
    (ph_incoming d) (ph_outgoing d) (ph_protocols d) (ph_stop d)).
Proof.
  intros H. destruct d as [n i h p inc out pr st]. cbn in *. subst p. destruct t as [[|] s ns b]; cbn.
  - destruct inc; cbn; [done|]. by rewrite app_nil_r.
  - destruct out; cbn; [done|]. by rewrite app_nil_r.
Qed.

Lemma pcap_writes d ts file recs :
  ph_dumper d = open_dumper file recs →
  ∃ d', res_fold pcap_write d ts = Ok d' ∧
    ph_dumper d' = open_dumper file (recs ++ (record_of <$> filter (λ t, wanted (ph_incoming d) (ph_outgoing d) t = true) ts)) ∧
    ph_incoming d' = ph_incoming d ∧ ph_outgoing d' = ph_outgoing d.
Proof.
  revert d recs. induction ts as [|t ts IH]; intros d recs H; [exists d; cbn; by rewrite app_nil_r|].
  cbn [res_fold]. rewrite (pcap_write_open _ _ _ _ H). cbn [res_bind].
  edestruct IH as (d' & -> & E & I & O); [reflexivity|]. exists d'. cbn [ph_incoming ph_outgoing] in *. split_and!; try done.
  rewrite E, filter_cons. destruct (wanted _ _ t) eqn:W; [rewrite decide_True by done | rewrite decide_False by done];
    rewrite <- app_assoc; done.
Qed.

(** a capture that is started with a name the format takes and a file that can be made,
    followed by any traffic and a stop, leaves in that file exactly the packets of the
    directions that were asked for, in order, with their time cut to microseconds. *)
Theorem capture_complete env d pcap_file file inc out ts :
  ph_dumper d = no_dumper → inc || out = true →
  format_one (c_str pcap_file) (Some (c_str (capture_tag env d))) = Ok file → can_create env (c_str file) = true →
  ∃ d', (let* d := start_pcap env d pcap_file inc out in let* d := res_fold pcap_write d ts in stop_pcap d) = Ok d' ∧
    ph_dumper d' = closed_dumper (c_str file) (record_of <$> filter (λ t, wanted inc out t = true) ts).
Proof.
  intros Hd Hio Hf Hc. unfold start_pcap. rewrite Hd, Hio, Hf. cbn [res_bind]. rewrite Hc. cbn [res_bind].
  edestruct (pcap_writes (Phys (ph_name d) (ph_index d) true (open_dumper (c_str file) []) inc out (ph_protocols d) (ph_stop d)) ts)
    as (d' & -> & E & _); [reflexivity|]. cbn [res_bind]. unfold stop_pcap. rewrite E. by eexists.
Qed.

Lemma capture_complete_witness :
  let env := CaptureEnv (λ _, lit "0123456789") (λ _, true) in
  ∃ d', (let* d := start_pcap env (new_phys 1 (lit "tap")) (lit "trace-%s.pcap") true false in
         let* d := res_fold pcap_write d [Traffic true 5 2999 [1; 2]; Traffic false 6 0 [3]; Traffic true 7 1000 [4]] in stop_pcap d) = Ok d' ∧
    ph_dumper d' = closed_dumper (lit "trace-0123.pcap") [PcapRecord 5 2 [1; 2]; PcapRecord 7 1 [4]].
Proof.
  intros env.
  apply (capture_complete env (new_phys 1 (lit "tap")) (lit "trace-%s.pcap") (lit "trace-0123.pcap") true false
    [Traffic true 5 2999 [1; 2]; Traffic false 6 0 [3]; Traffic true 7 1000 [4]]); reflexivity.
Defined.

(** after a capture was stopped a packet is written to the closed file, a second stop and the
    end of the device close it again, and no new capture starts *)
Lemma stopped_capture_used d file recs t env name inc out :
  ph_dumper d = closed_dumper file recs → wanted (ph_incoming d) (ph_outgoing d) t = true →
  pcap_write d t = Err bad_access ∧ stop_pcap d = Err bad_access ∧ phys_destroy d = Err bad_access ∧
  (∃ d', start_pcap env d name inc out = Ok d' ∧ ph_dumper d' = closed_dumper file recs).
Proof.
  intros Hd Hw. unfold phys_destroy, stop_pcap, start_pcap, pcap_write, wanted, pcap_write_packet_incoming,
    pcap_write_packet_outgoing, pcap_dump in *. rewrite Hd.
  split_and!; [|done|done|by eexists]. destruct (tr_incoming t); by rewrite Hw.
Qed.

(** the first layer registered for a type keeps it *)
Lemma get_register d et l p :
  phys_get_protocol (phys_register_protocol d et l) p =
  if decide (u16 p = u16 et) then Some (default l (phys_get_protocol d et)) else phys_get_protocol d p.
Proof.
  unfold phys_get_protocol, phys_register_protocol. cbn [ph_protocols]. case_decide as E.
  - rewrite E. destruct (ph_protocols d !! u16 et) eqn:F; [by rewrite F|]. by rewrite lookup_insert_eq.
  - destruct (ph_protocols d !! u16 et); [done|]. by rewrite lookup_insert_ne.
Qed.
