(* ===== verification/Ud.v ===== *)
(** * The control socket (src/ud.cpp, [get_state_json] of src/tcp.cpp and src/sctp.cpp)

    A client of the unix domain socket sends lines; the handler answers with the sessions,
    the devices, the ARP lookups of a device, and starts and stops captures.  JSON is built
    and printed by a library; what it makes of values is an argument.  [read] takes at most
    fifteen bytes at a time (Socks.v has the sockets).

    Shown: a client that sends a command, in whatever pieces, and waits for its answer gets
    the answer of that command, and the devices are as the commands left them.  Lemmas show
    what happens to a second command in the same read and to an empty line. *)
From stdpp Require Import strings.
From S2P Require Import Prelude Str AnyAddr Socks Phys TcpSession.
Open Scope Z_scope.

(** what is used of the JSON library *)
Record json_api := JsonApi {
  jv : Type;
  json_string : str → jv;
  json_integer : Z → jv;
  json_milliseconds : Z → jv;              (* [json_real] of a number of microseconds / 1000. *)
  json_object : list (str * jv) → jv;      (* [json_object_set] of each member *)
  json_array : list jv → jv;
  json_dumps : jv → str;
}.

Section Ud.
Context (J : json_api).

(** ** Sessions *)

Definition tcp_state_name (s : tcp_state) : str :=
  match s with
  | tcp_closed => lit "closed" | tcp_listen => lit "listen" | tcp_syn_rcvd => lit "syn_rcvd" | tcp_syn_sent => lit "syn_sent"
  | tcp_established => lit "established" | tcp_fin_wait_1 => lit "fin_wait_1" | tcp_fin_wait_2 => lit "fin_wait_2"
  | tcp_close_wait => lit "close_wait" | tcp_last_ack => lit "last_ack" | tcp_closing => lit "closing"
  | tcp_time_wait => lit "time_wait" | tcp_rst_act => lit "rst_act"
  end.

Definition json_bool_text (b : bool) : jv J := json_string J (if b then lit "true" else lit "false").

Definition rel_seqnr (ts : tcp_session) (mine : bool) (nr : Z) : Z :=
  s32 (if mine then nr - initial_my_seq_nr ts else nr - initial_their_seq_nr ts).

(** [now] is [time(nullptr)], [now_us] is [get_us()] *)
Definition tcp_state_json (ts : tcp_session) (now now_us : Z) : jv J :=
  json_object J (
    [(lit "state", json_string J (tcp_state_name (state ts)));
     (lit "state-duration", json_integer J (now - state_since ts));
     (lit "unacked_size", json_integer J (unacked_size ts))] ++
    (if unacked_size ts =? 0 then
       [(lit "unacked_start_seq_nr", json_integer J 0); (lit "unacked_time_pending", json_milliseconds J 0)]
     else
       [(lit "unacked_start_seq_nr", json_integer J (unacked_start_seq_nr ts));
        (lit "unacked_time_pending", json_milliseconds J (now_us - r_last_pkt_ts ts))]) ++
    [(lit "data_since_last_ack", json_integer J (data_since_last_ack ts));
     (lit "fin_after_unacked_empty", json_bool_text (fin_after_unacked_empty ts));
     (lit "seq_for_fin_when_all_received", json_integer J (seq_for_fin_when_all_received ts));
     (lit "flag_fin_when_all_received", json_bool_text (flag_fin_when_all_received ts));
     (lit "my_rel_sequence_nr", json_integer J (rel_seqnr ts true (my_seq_nr ts)));
     (lit "opp_rel_sequence_nr", json_integer J (rel_seqnr ts false (their_seq_nr ts)))]).

Definition sctp_state_json : jv J := json_object J [(lit "state", json_string J (lit "established"))].

(** a session as the getters of src/session.h show it; [us_type] is [get_state_json] *)
Record ud_session := UdSession {
  us_their_addr : any_addr; us_my_addr : any_addr; us_their_port : Z; us_my_port : Z;
  us_hash : Z; us_terminating : bool; us_state_name : str; us_created : Z * Z; us_type : jv J;
}.

Definition s64 (x : Z) : Z := (x + 9223372036854775808) mod 18446744073709551616 - 9223372036854775808.

Definition session_record (s : ud_session) : res (jv J) :=
  let* ta := to_str (us_their_addr s) in
  let* ma := to_str (us_my_addr s) in
  Ok (json_object J
    [(lit "their-addr", json_string J ta); (lit "my-addr", json_string J ma);
     (lit "their-port", json_integer J (us_their_port s)); (lit "my-port", json_integer J (us_my_port s));
     (lit "session-hash", json_integer J (s64 (us_hash s)));
     (lit "terminating", json_integer J (if us_terminating s then 1 else 0));
     (lit "state-name", json_string J (us_state_name s));
     (lit "created-at", json_integer J ((us_created s).1 * 1000000 + Z.quot (us_created s).2 1000));
     (lit "type-specific", us_type s)]).

(** the text and the line feed *)
Definition dump_line (v : jv J) : list str := [json_dumps J v; [10]].

(** the sessions of the streams, in the order of each stream's map *)
Definition emit_sessions (streams : list (list ud_session)) : res (list str) :=
  let* records := res_fold (λ acc s, let* r := session_record s in Ok (acc ++ [r])) [] (concat streams) in
  Ok (dump_line (json_array J records)).

(** ** Devices *)

Definition emit_devices (devs : list phys) : list str :=
  dump_line (json_array J ((λ d, json_object J [(lit "name", json_string J (phys_to_str d))]) <$> devs)).

(** sixteen bytes of buffer *)
Definition gen_pcap_name (now : Z) : str := snprintf 16 (fmt_dec now ++ lit ".pcap").

(** what the handler needs of the rest of the program: the sessions at a command, the clock,
    the files, and the lookups of a layer when it is an ARP layer ([dump_state]) *)
Record ud_env := UdEnv {
  ud_streams : list (list ud_session);
  ud_time : Z;
  ud_capture : capture_env;
  ud_arp : Z → option (list (any_addr * option (option any_addr)));
}.

(** the first device of that name, replaced by [f]'s result *)
Fixpoint update_named (devs : list phys) (dev_name : str) (f : phys → res phys) : res (option (list phys)) :=
  match devs with
  | [] => Ok None
  | d :: devs' =>
      if bool_decide (phys_to_str d = dev_name) then let* d' := f d in Ok (Some (d' :: devs'))
      else let* r := update_named devs' dev_name f in Ok (match r with Some ds => Some (d :: ds) | None => None end)
  end.

Definition handle_pcap (env : ud_env) (devs : list phys) (dev_name : str) (open : bool) : res (list str * list phys) :=
  let* r := update_named devs dev_name
    (λ d, if open then start_pcap (ud_capture env) d (gen_pcap_name (ud_time env)) true true else stop_pcap d) in
  match r with
  | Some devs' => Ok ([lit "OK" ++ [10]], devs')
  | None => Ok ([lit "FAIL" ++ [10]], devs)
  end.

Definition arp_record (e : any_addr * option (option any_addr)) : res (jv J) :=
  let* a := to_str e.1 in
  let* m := match e.2 with Some (Some m) => to_str m | _ => Ok [] end in
  Ok (json_object J [(a, json_string J m)]).

Definition emit_arp (env : ud_env) (devs : list phys) (dev_name : str) : res (list str) :=
  match list_find (λ d, phys_to_str d = dev_name) devs with
  | Some (_, d) =>
      match phys_get_protocol d 0x0806 with
      | Some nl =>
          match ud_arp env nl with
          | Some state =>
              let* records := res_fold (λ acc e, let* r := arp_record e in Ok (acc ++ [r])) [] state in
              Ok (dump_line (json_array J records))
          | None => Ok [lit "FAIL" ++ [10]]
          end
      | None => Ok [lit "FAIL" ++ [10]]
      end
  | None => Ok [lit "FAIL" ++ [10]]
  end.

(** ** Commands *)

Definition ud_command (env : ud_env) (devs : list phys) (cmd : str) : res (list str * list phys) :=
  let* parts := split cmd [124] in
  match parts with
  | [] => Err bad_access                      (* [parts[0]] of an empty vector *)
  | p0 :: rest =>
      if bool_decide (p0 = lit "sessions") then let* o := emit_sessions (ud_streams env) in Ok (o, devs)
      else if bool_decide (p0 = lit "list-devices") then Ok (emit_devices devs, devs)
      else
        match rest with
        | [p1] =>
            if bool_decide (p0 = lit "start-pcap") then handle_pcap env devs p1 true
            else if bool_decide (p0 = lit "stop-pcap") then handle_pcap env devs p1 false
            else if bool_decide (p0 = lit "list-arp") then let* o := emit_arp env devs p1 in Ok (o, devs)
            else Ok ([lit "???" ++ [10]], devs)
        | _ => Ok ([lit "???" ++ [10]], devs)
        end
  end.

(** reads until the text has a line feed; [None]: the client is gone.  [cmd += buffer] stops
    at a zero byte, and what follows the line feed is dropped *)
Fixpoint read_command (fuel : nat) (q : list sock_event) (cmd : str) : res (option str * list sock_event) :=
  match fuel with
  | O => Err out_of_fuel
  | S fuel' =>
      match fd_read 15 q with
      | (rr_bytes buffer, q') =>
          let cmd := cmd ++ c_str buffer in
          match find [10] cmd with
          | Some lf => Ok (Some (take lf cmd), q')
          | None => read_command fuel' q' cmd
          end
      | (_, q') => Ok (None, q')
      end
  end.

(** [ud_stats::handler]: the texts written and the devices, when the client leaves *)
Fixpoint ud_handler (fuel : nat) (env : nat → ud_env) (devs : list phys) (q : list sock_event) : res (list str * list phys) :=
  match fuel with
  | O => Err out_of_fuel
  | S fuel' =>
      let* '(cmd, q') := read_command (pending_bytes q + 1) q [] in
      match cmd with
      | None => Ok ([], devs)
      | Some cmd =>
          let* '(out, devs') := ud_command (env O) devs cmd in
          let* '(out', devs'') := ud_handler fuel' (λ k, env (S k)) devs' q' in
          Ok (out ++ out', devs'')
      end
  end.
End Ud.

(** ** A client that waits for its answers *)

(** the commands one after the other *)
Fixpoint ud_dialogue (J : json_api) (env : nat → ud_env J) (devs : list phys) (lines : list str) : res (list str * list phys) :=
  match lines with
  | [] => Ok ([], devs)
  | line :: lines' =>
      let* '(out, devs') := ud_command J (env O) devs line in
      let* '(out', devs'') := ud_dialogue J (λ k, env (S k)) devs' lines' in
      Ok (out ++ out', devs'')
  end.

(** a line without a line feed or zero byte, sent in pieces of at most fifteen bytes *)
Definition line_in_pieces (x : str * list (list Z)) : Prop :=
  (10 ∉ x.1) ∧ (0 ∉ x.1) ∧ concat x.2 = x.1 ++ [10] ∧ Forall (λ p, (0 < length p ≤ 15)%nat) x.2.

Lemma fd_read_piece p q : (0 < length p ≤ 15)%nat → fd_read 15 (ev_data p :: q) = (rr_bytes p, q).
Proof. intros H. destruct p; [cbn in H; lia|]. cbn [fd_read]. destruct (Nat.leb_spec (length (z :: p)) 15); [done|lia]. Qed.

Lemma read_command_pieces ps fuel q cmd line :
  (10 ∉ line) → (0 ∉ line) → cmd ++ concat ps = line ++ [10] → Forall (λ p, (0 < length p ≤ 15)%nat) ps → (10 ∉ cmd) →
  (length ps < fuel)%nat → read_command fuel ((ev_data <$> ps) ++ q) cmd = Ok (Some line, q).
Proof.
  intros H10 H0. revert fuel cmd. induction ps as [|p ps IH]; intros [|fuel] cmd E F Hc Hf; cbn [length] in Hf; [lia| |lia|].
  - exfalso. cbn [concat] in E. rewrite app_nil_r in E. subst cmd. set_solver.
  - apply Forall_cons in F as [Hp F]. rewrite fmap_cons, <- app_comm_cons. cbn [read_command]. rewrite (fd_read_piece _ _ Hp).
    assert (0 ∉ p) as Hz. { intros Hin. assert (0 ∈ line ++ [10]) as [?|?%list_elem_of_singleton]%elem_of_app; [|done|done]. rewrite <- E. set_solver. }
    rewrite (c_str_nul_free _ Hz). cbn [concat] in E. rewrite app_assoc in E.
    destruct ps as [|p' ps'].
    + cbn [concat] in E. rewrite app_nil_r in E. rewrite E, find_char_app by done. by rewrite take_app_length.
    + assert (10 ∉ cmd ++ p) as Hn.
      { destruct (concat (p' :: ps')) as [|x l _] eqn:Ec using rev_ind.
        - apply Forall_cons in F as [Hp' _]. destruct p'; [cbn in Hp'; lia|done].
        - rewrite app_assoc in E. apply app_inj_tail in E as [E _]. set_solver. }
      rewrite (find_char_None _ _ Hn). apply IH; try done. lia.
Qed.

(** a client that sends its commands one at a time, each in any pieces that end with its
    line feed, gets for each command, in order, exactly what that command answers (the
    sessions, the devices, the lookups, the result of starting or stopping a capture, or
    question marks), and the devices are those the commands left. *)
Theorem ud_answers J env devs (lines : list (str * list (list Z))) fuel :
  Forall line_in_pieces lines → (length lines < fuel)%nat →
  ud_handler J fuel env devs (lines ≫= λ x, ev_data <$> x.2) = ud_dialogue J env devs lines.*1.
Proof.
  revert fuel env devs. induction lines as [|[line ps] lines IH]; intros [|fuel] env devs F Hf; cbn [length] in Hf; [lia|done|lia|].
  apply Forall_cons in F as [(H10 & H0 & E & Fp) F]. cbn [fst snd] in *. rewrite bind_cons, fmap_cons. cbn [ud_handler ud_dialogue fst snd].
  rewrite (read_command_pieces ps _ _ [] line); try done; [|set_solver|].
  - cbn [res_bind]. destruct (ud_command J (env 0%nat) devs line) as [[out devs']|]; [|done]. cbn [res_bind].
    rewrite IH by (done || lia). done.
  - rewrite pending_stream. unfold stream. rewrite bind_app, length_app.
    assert (length ps ≤ length ((ev_data <$> ps) ≫= ev_bytes))%nat; [|lia].
    clear -Fp. induction Fp as [|p ps Hp _ IH]; [done|]. rewrite fmap_cons, bind_cons, length_app. cbn [ev_bytes length]. lia.
Qed.

(** a library that keeps the texts *)
Definition text_json : json_api := JsonApi str (λ s, s) fmt_dec fmt_dec (λ ms, ms ≫= λ m, m.1 ++ m.2) (λ vs, concat vs) (λ v, v).
Definition ud_example_env : ud_env text_json := UdEnv text_json [] 1700000000 (CaptureEnv (λ _, lit "abcdef") (λ _, true)) (λ _, None).

Lemma ud_answers_witness :
  ud_handler text_json 3 (λ _, ud_example_env) [new_phys 1 (lit "tap")]
    [ev_data (lit "start-p"); ev_data (lit "cap|tap" ++ [10]); ev_data (lit "list-devices" ++ [10])] =
  ud_dialogue text_json (λ _, ud_example_env) [new_phys 1 (lit "tap")] [lit "start-pcap|tap"; lit "list-devices"] ∧
  (ud_dialogue text_json (λ _, ud_example_env) [new_phys 1 (lit "tap")] [lit "start-pcap|tap"; lit "list-devices"] =
   Ok ([lit "OK" ++ [10]; lit "nametap"; [10]],
       [Phys (lit "tap") 1 true (open_dumper (lit "1700000000.pcap") []) true true ∅ false])).
Proof.
  split; [|vm_compute; reflexivity].
  apply (ud_answers text_json (λ _, ud_example_env) [new_phys 1 (lit "tap")]
    [(lit "start-pcap|tap", [lit "start-p"; lit "cap|tap" ++ [10]]); (lit "list-devices", [lit "list-devices" ++ [10]])] 3).
  - repeat apply Forall_cons_2; [| |by apply Forall_nil_2]; unfold line_in_pieces; cbn [fst snd].
    + split_and!; [by refine (bool_decide_unpack _ _)|by refine (bool_decide_unpack _ _)|reflexivity|by refine (bool_decide_unpack _ _)].
    + split_and!; [by refine (bool_decide_unpack _ _)|by refine (bool_decide_unpack _ _)|reflexivity|by refine (bool_decide_unpack _ _)].
  - cbn. lia.
Defined.

(** of two commands in one read the second is lost *)
Lemma second_command_lost J env devs :
  ud_handler J 2 env devs [ev_data (lit "foo" ++ [10] ++ lit "sessions" ++ [10])] = Ok ([lit "???" ++ [10]], devs).
Proof. reflexivity. Qed.

(** an empty line reads the first of no parts *)
Lemma empty_command_fails J env devs fuel : ud_handler J (S fuel) env devs [ev_data [10]] = Err bad_access.
Proof. reflexivity. Qed.

(** a capture that is stopped twice closes its file twice *)
Lemma capture_stopped_twice :
  ud_dialogue text_json (λ _, ud_example_env) [new_phys 1 (lit "tap")] [lit "start-pcap|tap"; lit "stop-pcap|tap"; lit "stop-pcap|tap"] = Err bad_access.
Proof. vm_compute. reflexivity. Qed.
