(* ===== verification/Stats.v ===== *)
(** * Statistics (src/stats.cpp, src/stats_utils.cpp, src/fifo_stats.cpp, src/duration_events.cpp)

    Counters live in a shared memory segment: slots of 48 bytes with two 64-bit counters of
    the host and a name.  The segment is modelled byte by byte; a counter is the offset of
    its slot.  The histogram of a queue and the list of the slowest events are next to them.

    Shown: the segment refines a table of names and counters under every sequence of
    registrations and updates, and the report prints exactly that table; the slowest events
    are kept in order.  Lemmas show the two ends of the segment and of the histogram that are
    overrun. *)
From stdpp Require Import strings sorting.
From S2P Require Import Prelude Str Hash Fifo SnmpElem SnmpData.
Open Scope Z_scope.

(** ** The histogram of a queue *)

Definition up_size : Z := 100.

Record fifo_stats := FifoStats { fs_counters : list Z; fs_divider : Z }.

Definition new_fifo_stats (range_max : Z) : fifo_stats :=
  FifoStats (replicate (Z.to_nat up_size) 0) (Z.quot (range_max + 1) up_size).

(** [counters[value / divider]++] *)
Definition fs_count (f : fifo_stats) (value : Z) : res fifo_stats :=
  if fs_divider f =? 0 then Err bad_access
  else
    let i := Z.quot value (fs_divider f) in
    if (0 <=? i) && (i <? up_size) then
      Ok (FifoStats (alter (λ c, u64 (c + 1)) (Z.to_nat i) (fs_counters f)) (fs_divider f))
    else Err bad_access.

(** ** The segment *)

(** a 64-bit number of a little-endian host *)
Fixpoint le_split (n : nat) (x : Z) : list Z :=
  match n with O => [] | S n' => u8 x :: le_split n' (Z.shiftr x 8) end.
Definition le64 (x : Z) : list Z := le_split 8 x.

Record stats := Stats {
  st_size : Z;
  st_mem : list Z;
  st_len : Z;
  st_fifos : gmap str fifo_stats;
  st_snmp : list snmp_data_type;
}.

Definition new_stats (size : Z) (sd : list snmp_data_type) : stats := Stats size (replicate (Z.to_nat size) 0) 0 ∅ sd.

Definition with_mem (s : stats) (mem : list Z) : stats := Stats (st_size s) mem (st_len s) (st_fifos s) (st_snmp s).

(** the offset of the new slot, [None]: a null pointer *)
Definition register_stat (s : stats) (name oid : str) (type : snmp_integer_type) : res (option Z * stats) :=
  if st_size s <? st_len s + 48 then Ok (None, s)
  else
    let p_out := st_len s in
    let* mem := wr_range (st_mem s) p_out (le64 0) in
    let* mem := wr_range mem (p_out + 8) (le64 0) in
    let copy_n := Z.min (zlen name) 31 in
    let* mem := wr_range mem (p_out + 16) (take (Z.to_nat copy_n) name) in
    let* mem := wr mem (p_out + 16 + copy_n) 0 in
    let* sd := if bool_decide (oid = []) then Ok (st_snmp s) else register_oid (st_snmp s) oid (tv_stats type p_out) in
    Ok (Some p_out, Stats (st_size s) mem (p_out + 48) (st_fifos s) sd).

Definition register_fifo_stats (s : stats) (name : str) (fs : fifo_stats) : stats :=
  Stats (st_size s) (st_mem s) (st_len s)
    (match st_fifos s !! name with Some _ => st_fifos s | None => <[name := fs]> (st_fifos s) end) (st_snmp s).

(** in the order of [std::map] *)
Definition get_fifo_stats (s : stats) : list (str * fifo_stats) := in_order (st_fifos s).

(** a read and a write of the counter at [p]; a null pointer cannot be used *)
Definition counter_at (mem : list Z) (p : option Z) (d : Z) : res Z :=
  match p with Some p => let* b := rd_range mem (p + d) 8 in Ok (le_join b) | None => Err bad_access end.
Definition set_counter (mem : list Z) (p : option Z) (d v : Z) : res (list Z) :=
  match p with Some p => wr_range mem (p + d) (le64 v) | None => Err bad_access end.

Definition stats_inc_counter (s : stats) (p : option Z) : res stats :=
  let* c := counter_at (st_mem s) p 0 in
  let* mem := set_counter (st_mem s) p 0 (u64 (c + 1)) in
  Ok (with_mem s mem).
Definition stats_add_counter (s : stats) (p : option Z) (value : Z) : res stats :=
  let* c := counter_at (st_mem s) p 0 in
  let* mem := set_counter (st_mem s) p 0 (u64 (c + value)) in
  Ok (with_mem s mem).
Definition stats_set (s : stats) (p : option Z) (value : Z) : res stats :=
  let* mem := set_counter (st_mem s) p 0 (u64 value) in
  Ok (with_mem s mem).
Definition stats_add_average (s : stats) (p : option Z) (val : Z) : res stats :=
  let* n := counter_at (st_mem s) p 8 in
  let* mem := set_counter (st_mem s) p 8 (u64 (n + 1)) in
  let* c := counter_at mem p 0 in
  let* mem := set_counter mem p 0 (u64 (c + val)) in
  Ok (with_mem s mem).

(** ** The report *)

Section Report.
(** the text of [%f] for the quotient of two counters *)
Context (fmt_quotient : Z → Z → str).

Definition stat_text (name : str) (cnt cnt2 : Z) : str :=
  [34] ++ name ++ [34] ++ lit " : " ++ (if cnt2 =? 0 then fmt_dec cnt else fmt_quotient cnt cnt2).

Fixpoint stats_loop (fuel : nat) (p : list Z) (size cur : Z) (first_gen : bool) (out : str) : res str :=
  match fuel with
  | O => Err out_of_fuel
  | S fuel' =>
      if cur <? size then
        let* c := rd p (cur + 16) in
        if c =? 0 then Ok out
        else
          let out := if first_gen then lit "{ " else out ++ lit ", " in
          let* cnt := counter_at p (Some cur) 0 in
          let* cnt2 := counter_at p (Some cur) 8 in
          stats_loop fuel' p size (cur + 48) false (out ++ stat_text (c_str (ptr_at p (cur + 16))) cnt cnt2)
      else Ok out
  end.

Definition fifo_values (f : fifo_stats) : str := join (lit ", ") (fmt_dec <$> fs_counters f).
Definition fifo_text (x : str * fifo_stats) : str :=
  lit "{ " ++ [34] ++ lit "name" ++ [34] ++ lit ":" ++ [34] ++ c_str x.1 ++ [34] ++ lit ", " ++ [34] ++ lit "values" ++ [34] ++ lit ":[" ++
  fifo_values x.2 ++ lit "] }".
Definition fifos_text (fs : list (str * fifo_stats)) : str :=
  lit ", " ++ [34] ++ lit "fifo" ++ [34] ++ lit ":[" ++ join (lit ", ") (fifo_text <$> fs) ++ lit "]" ++ lit " }".

Definition stats_to_json (p : list Z) (fs : list (str * fifo_stats)) (size : Z) : res str :=
  let* out := stats_loop (Z.to_nat size + 1) p size 0 true [] in
  Ok (out ++ fifos_text fs).

Definition stats_report (s : stats) : res str := stats_to_json (st_mem s) (get_fifo_stats s) (st_size s).
End Report.

(** ** The slowest events *)

(** durations and times, the slowest first *)
Record duration_events := DurationEvents { de_events : list (Z * Z); de_max_size : nat }.

(** [std::vector::resize] *)
Definition resize (n : nat) (l : list (Z * Z)) : list (Z * Z) := take n l ++ replicate (n - length l) (0, 0).

Definition new_duration_events (max_size : nat) : duration_events := DurationEvents (resize max_size []) max_size.

Definition de_insert (d : duration_events) (duration now : Z) : res duration_events :=
  match de_events d with
  | [] => Err out_of_range
  | (first, _) :: _ =>
      if first <? duration then Ok (DurationEvents (resize (de_max_size d) ((duration, now) :: de_events d)) (de_max_size d))
      else Ok d
  end.

(** ** The segment is a table *)

Lemma length_le_split n x : length (le_split n x) = n.
Proof. revert x. induction n as [|n IH]; intros x; cbn; [done|]. by rewrite IH. Qed.

Lemma le_join_split n x : 0 ≤ x < 2 ^ (8 * Z.of_nat n) → le_join (le_split n x) = x.
Proof.
  revert x. induction n as [|n IH]; intros x Hx; cbn [le_split le_join].
  - change (2 ^ (8 * Z.of_nat 0)) with 1 in Hx. lia.
  - rewrite IH.
    + rewrite Z.lor_comm, lor_shiftl_add by (zlia || apply u8_ok). zlia.
    + rewrite Z.shiftr_div_pow2 by lia. change (2 ^ 8) with 256.
      replace (8 * Z.of_nat (S n)) with (8 + 8 * Z.of_nat n) in Hx by lia. rewrite Z.pow_add_r in Hx by lia. change (2 ^ 8) with 256 in Hx.
      split; [apply Z.div_pos; lia|]. apply Z.div_lt_upper_bound; lia.
Qed.

Lemma le_join_le64 x : 0 ≤ x < 2 ^ 64 → le_join (le64 x) = x.
Proof. apply (le_join_split 8). Qed.

Lemma zlen_le64 x : zlen (le64 x) = 8.
Proof. unfold zlen, le64. by rewrite length_le_split. Qed.

Lemma wr_range_mid a old b new : zlen new = zlen old → wr_range (a ++ old ++ b) (zlen a) new = Ok (a ++ new ++ b).
Proof.
  intros E. rewrite wr_range_app; [|done|rewrite zlen_app; pose proof (zlen_nonneg b); lia].
  do 3 f_equal. unfold zlen in E. rewrite drop_app_length' by lia. done.
Qed.

(** a slot: a name and two counters *)
Record stat_slot := Slot { sl_name : str; sl_count : Z; sl_n : Z }.
Definition slot_ok (x : stat_slot) : Prop :=
  (0 ∉ sl_name x) ∧ sl_name x ≠ [] ∧ (length (sl_name x) ≤ 31)%nat ∧ 0 ≤ sl_count x < 2 ^ 64 ∧ 0 ≤ sl_n x < 2 ^ 64.

Definition slot_rest (x : stat_slot) : list Z := sl_name x ++ replicate (32 - length (sl_name x)) 0.
Definition slot_bytes (x : stat_slot) : list Z := le64 (sl_count x) ++ le64 (sl_n x) ++ slot_rest x.

Lemma length_slot x : slot_ok x → length (slot_bytes x) = 48%nat.
Proof.
  intros (_ & _ & H & _). unfold slot_bytes, slot_rest, le64. rewrite !length_app, !length_le_split, length_replicate. lia.
Qed.

Lemma length_slots t : Forall slot_ok t → length (t ≫= slot_bytes) = (48 * length t)%nat.
Proof. induction 1 as [|x t Hx _ IH]; [done|]. rewrite bind_cons, length_app, IH, length_slot by done. cbn. lia. Qed.

(** the segment holds the table *)
Definition table_rep (s : stats) (t : list stat_slot) : Prop :=
  Forall slot_ok t ∧ st_len s = 48 * zlen t ∧ 48 * zlen t ≤ st_size s ∧
  st_mem s = (t ≫= slot_bytes) ++ replicate (Z.to_nat (st_size s - 48 * zlen t)) 0.

Lemma new_stats_rep size sd : 0 ≤ size → table_rep (new_stats size sd) [].
Proof. intros. split_and!; try done. cbn. by rewrite Z.sub_0_r. Qed.

(** the updates of a table *)
Inductive stat_op := op_register (name : str) | op_inc (i : nat) | op_add (i : nat) (v : Z) | op_set (i : nat) (v : Z) | op_average (i : nat) (v : Z).

Definition table_op (t : list stat_slot) (o : stat_op) : list stat_slot :=
  match o with
  | op_register name => t ++ [Slot (take 31 name) 0 0]
  | op_inc i => alter (λ x, Slot (sl_name x) (u64 (sl_count x + 1)) (sl_n x)) i t
  | op_add i v => alter (λ x, Slot (sl_name x) (u64 (sl_count x + v)) (sl_n x)) i t
  | op_set i v => alter (λ x, Slot (sl_name x) (u64 v) (sl_n x)) i t
  | op_average i v => alter (λ x, Slot (sl_name x) (u64 (sl_count x + v)) (u64 (sl_n x + 1))) i t
  end.

(** a counter that was registered as the [i]th *)
Definition slot_ptr (i : nat) : option Z := Some (48 * Z.of_nat i).

Definition stats_op (s : stats) (o : stat_op) : res stats :=
  match o with
  | op_register name => let* r := register_stat s name [] si_integer in Ok r.2
  | op_inc i => stats_inc_counter s (slot_ptr i)
  | op_add i v => stats_add_counter s (slot_ptr i) v
  | op_set i v => stats_set s (slot_ptr i) v
  | op_average i v => stats_add_average s (slot_ptr i) v
  end.

(** names are not empty and there is room; counters were registered *)
Definition op_ok (size : Z) (t : list stat_slot) (o : stat_op) : Prop :=
  match o with
  | op_register name => name ≠ [] ∧ (0 ∉ name) ∧ 48 * (zlen t + 1) ≤ size
  | op_inc i | op_add i _ | op_set i _ | op_average i _ => (i < length t)%nat
  end.

Lemma register_rep s t name :
  table_rep s t → op_ok (st_size s) t (op_register name) →
  ∃ s', register_stat s name [] si_integer = Ok (slot_ptr (length t), s') ∧ table_rep s' (table_op t (op_register name)) ∧ st_size s' = st_size s.
Proof.
  intros (F & L & B & M) (Hn & H0 & Hr). unfold register_stat. rewrite L. rewrite (proj2 (Z.ltb_ge _ _)) by lia.
  set (nm := take 31 name). assert (take (Z.to_nat (Z.min (zlen name) 31)) name = nm) as ->.
  { unfold nm, zlen. destruct (Nat.le_gt_cases (length name) 31); [rewrite !take_ge by lia; done|]. f_equal; lia. }
  assert (Z.min (zlen name) 31 = zlen nm) as -> by (unfold nm, zlen; rewrite length_take; lia).
  assert (length nm ≤ 31)%nat as Hl by (unfold nm; rewrite length_take; lia).
  set (k := (31 - length nm)%nat). set (rest := replicate (Z.to_nat (st_size s - 48 * (zlen t + 1))) 0).
  set (pre := t ≫= slot_bytes) in *. assert (zlen pre = 48 * zlen t) as Hp by (unfold zlen, pre; rewrite length_slots by done; lia).
  assert (st_mem s = pre ++ replicate 8 0 ++ replicate 8 0 ++ replicate (length nm) 0 ++ [0] ++ replicate k 0 ++ rest) as ->.
  { rewrite M. f_equal. change [0] with (replicate 1 0). unfold rest. rewrite <- !replicate_add. f_equal. unfold k, zlen in *. lia. }
  change (le64 0) with (replicate 8 0). rewrite <- Hp. rewrite wr_range_mid by done. cbn [res_bind].
  rewrite (app_assoc pre). replace (zlen pre + 8) with (zlen (pre ++ replicate 8 0)) by (by rewrite zlen_app).
  rewrite wr_range_mid by done. cbn [res_bind]. rewrite (app_assoc (pre ++ _)).
  replace (zlen pre + 16) with (zlen ((pre ++ replicate 8 0) ++ replicate 8 0)) by (rewrite !zlen_app; change (zlen (replicate 8 0)) with 8; lia).
  rewrite wr_range_mid by (unfold zlen; by rewrite length_replicate). cbn [res_bind]. rewrite (app_assoc ((pre ++ _) ++ _)), <- zlen_app.
  set (l := ((pre ++ replicate 8 0) ++ replicate 8 0) ++ nm). rewrite wr_Ok by (rewrite zlen_app; cbn [app]; rewrite zlen_cons; pose proof (zlen_nonneg l); pose proof (zlen_nonneg (replicate k 0 ++ rest)); lia).
  cbn [res_bind]. rewrite bool_decide_true by done. cbn [res_bind]. eexists. split; [unfold slot_ptr, zlen in *; f_equal; f_equal; f_equal; lia|].
  split; [|done]. unfold table_op. split_and!.
  - apply Forall_app. split; [done|]. constructor; [|done]. unfold slot_ok. cbn [sl_name sl_count sl_n]. split_and!; try done; try lia.
    + intros Hin. apply H0. apply elem_of_take in Hin as (i & Hi & _). by apply list_elem_of_lookup_2 in Hi.
    + by destruct name.
  - cbn [st_len]. rewrite zlen_app. change (zlen [_]) with 1. unfold zlen in *. lia.
  - cbn [st_size]. rewrite zlen_app. change (zlen [_]) with 1. lia.
  - cbn [st_mem st_size]. rewrite zlen_app. change (zlen [_]) with 1. fold rest. rewrite bind_app. fold pre. cbn [mbind list_bind].
    unfold slot_bytes, slot_rest. cbn [sl_name sl_count sl_n]. change (le64 0) with (replicate 8 0). fold nm.
    replace (32 - length nm)%nat with (S k) by lia. rewrite list_insert_id.
    + unfold l. rewrite app_nil_r, <- !app_assoc. done.
    + unfold zlen. rewrite Nat2Z.id. rewrite lookup_app_r by lia. by rewrite Nat.sub_diag.
Qed.

(** the slot [i] in the segment *)
Lemma slot_split t i x : Forall slot_ok t → t !! i = Some x →
  ∃ pre post, (t ≫= slot_bytes) = pre ++ slot_bytes x ++ post ∧ zlen pre = 48 * Z.of_nat i ∧
    ∀ f : stat_slot → stat_slot, (alter f i t ≫= slot_bytes) = pre ++ slot_bytes (f x) ++ post.
Proof.
  intros F. revert i. induction F as [|y t Hy F IH]; intros [|i] Hi; try done.
  - injection Hi as <-. exists [], (t ≫= slot_bytes). split_and!; done.
  - destruct (IH i Hi) as (pre & post & E & L & A). exists (slot_bytes y ++ pre), post.
    rewrite bind_cons, E, <- app_assoc. split_and!; [done| |].
    + rewrite zlen_app, L. unfold zlen. rewrite length_slot by done. lia.
    + intros f. change (alter f (S i) (y :: t)) with (y :: alter f i t). by rewrite bind_cons, A, <- app_assoc.
Qed.

Lemma u64_bound x : 0 ≤ u64 x < 2 ^ 64.
Proof. unfold u64. apply Z.mod_pos_bound. lia. Qed.

(** a write of counters *)
Lemma alter_rep s t i x f mem :
  table_rep s t → t !! i = Some x → slot_ok (f x) →
  (∀ pre post, st_mem s = pre ++ slot_bytes x ++ post → zlen pre = 48 * Z.of_nat i → mem = pre ++ slot_bytes (f x) ++ post) →
  table_rep (with_mem s mem) (alter f i t).
Proof.
  intros (F & L & B & M) Hx Hf Hm. destruct (slot_split _ _ _ F Hx) as (pre & post & E & Lp & A).
  assert (length (alter f i t) = length t) as El by apply length_alter.
  split_and!; unfold zlen; rewrite ?El; [|done|done|].
  - apply Forall_alter; [done|]. intros y Hy. by simplify_eq.
  - cbn [st_mem st_size with_mem]. rewrite A, <- !app_assoc. rewrite (Hm pre (post ++ replicate (Z.to_nat (st_size s - 48 * zlen t)) 0)); [done| |done].
    by rewrite M, E, <- !app_assoc.
Qed.

Lemma counters_read pre x post : slot_ok x →
  counter_at (pre ++ slot_bytes x ++ post) (Some (zlen pre)) 0 = Ok (sl_count x) ∧
  counter_at (pre ++ slot_bytes x ++ post) (Some (zlen pre)) 8 = Ok (sl_n x).
Proof.
  intros (_ & _ & _ & Hc & Hn). unfold counter_at, slot_bytes. rewrite <- !app_assoc, Z.add_0_r. split.
  - rewrite rd_range_mid by (by rewrite ?zlen_le64). cbn [res_bind]. by rewrite le_join_le64.
  - rewrite (app_assoc pre), rd_range_mid by (by rewrite ?zlen_app, ?zlen_le64). cbn [res_bind]. by rewrite le_join_le64.
Qed.

Lemma counters_write pre x post c n :
  set_counter (pre ++ slot_bytes x ++ post) (Some (zlen pre)) 0 c = Ok (pre ++ slot_bytes (Slot (sl_name x) c (sl_n x)) ++ post) ∧
  set_counter (pre ++ slot_bytes x ++ post) (Some (zlen pre)) 8 n = Ok (pre ++ slot_bytes (Slot (sl_name x) (sl_count x) n) ++ post).
Proof.
  unfold set_counter, slot_bytes, slot_rest. cbn [sl_name sl_count sl_n]. rewrite Z.add_0_r. split.
  - rewrite <- app_assoc, wr_range_mid by (by rewrite !zlen_le64). by rewrite <- app_assoc.
  - rewrite <- !app_assoc, (app_assoc pre). replace (zlen pre + 8) with (zlen (pre ++ le64 (sl_count x))) by (by rewrite zlen_app, zlen_le64).
    rewrite wr_range_mid by (by rewrite !zlen_le64). by rewrite <- !app_assoc.
Qed.

Lemma slot_ok_counters x c n : slot_ok x → 0 ≤ c < 2 ^ 64 → 0 ≤ n < 2 ^ 64 → slot_ok (Slot (sl_name x) c n).
Proof. intros (? & ? & ? & _) ? ?. unfold slot_ok. cbn [sl_name sl_count sl_n]. tauto. Qed.

Lemma stats_op_rep s t o : table_rep s t → op_ok (st_size s) t o →
  ∃ s', stats_op s o = Ok s' ∧ table_rep s' (table_op t o) ∧ st_size s' = st_size s.
Proof.
  intros R Ho. destruct o as [name|i|i v|i v|i v]; cbn [stats_op table_op op_ok] in *.
  1: { destruct (register_rep _ _ _ R Ho) as (s' & -> & ? & ?). by exists s'. }
  all: destruct (lookup_lt_is_Some_2 t i Ho) as [x Hx]; pose proof R as (F & _ & _ & M);
    pose proof (proj1 (Forall_lookup _ _) F _ _ Hx) as Ox; destruct (slot_split _ _ _ F Hx) as (pre & post & E & Lp & _);
    set (rest := post ++ replicate (Z.to_nat (st_size s - 48 * zlen t)) 0);
    assert (st_mem s = pre ++ slot_bytes x ++ rest) as Ms by (unfold rest; by rewrite M, E, <- !app_assoc);
    unfold stats_inc_counter, stats_add_counter, stats_set, stats_add_average, slot_ptr; rewrite Ms, <- Lp.
  all: rewrite ?(proj1 (counters_read pre x rest Ox)), ?(proj2 (counters_read pre x rest Ox)); cbn [res_bind].
  4: { rewrite (proj2 (counters_write pre x rest 0 (u64 (sl_n x + 1)))). cbn [res_bind].
       rewrite (proj1 (counters_read pre _ rest (slot_ok_counters x (sl_count x) _ Ox (proj1 (proj2 (proj2 (proj2 Ox)))) (u64_bound _)))). cbn [res_bind sl_count].
       rewrite (proj1 (counters_write pre _ rest (u64 (sl_count x + v)) 0)). cbn [res_bind sl_name sl_n].
       eexists. split; [done|]. split; [|done]. eapply (alter_rep s t i x); try done.
       - apply slot_ok_counters; [done|apply u64_bound|apply u64_bound].
       - intros pre' post' E1 L1. rewrite Ms in E1. apply app_inj_1 in E1 as [-> E1]; [|unfold zlen in *; lia]. by apply app_inv_head in E1 as ->. }
  all: rewrite (proj1 (counters_write pre x rest _ 0)); cbn [res_bind];
    eexists; split; [done|]; split; [|done]; eapply (alter_rep s t i x); try done;
    [apply slot_ok_counters; [done|apply u64_bound|by apply Ox]|];
    intros pre' post' E1 L1; rewrite Ms in E1; apply app_inj_1 in E1 as [-> E1]; [by apply app_inv_head in E1 as ->|unfold zlen in *; lia].
Qed.

(** ** The report prints the table *)

Lemma c_str_stop p r : (0 ∉ p) → c_str (p ++ 0 :: r) = p.
Proof.
  induction p as [|c p IH]; intros H; [done|]. apply not_elem_of_cons in H as [Hc H]. cbn [app c_str].
  destruct (Z.eqb_spec c 0) as [->|_]; [done|]. by rewrite IH.
Qed.

Section ReportSpec.
Context (fmt_quotient : Z → Z → str).

Definition slot_text (x : stat_slot) : str := stat_text fmt_quotient (sl_name x) (sl_count x) (sl_n x).

(** the table as text *)
Definition table_text (t : list stat_slot) : str := match t with [] => [] | _ => lit "{ " ++ join (lit ", ") (slot_text <$> t) end.

Lemma read_name pre x post : slot_ok x →
  (∃ c, rd (pre ++ slot_bytes x ++ post) (zlen pre + 16) = Ok c ∧ c ≠ 0) ∧
  c_str (ptr_at (pre ++ slot_bytes x ++ post) (zlen pre + 16)) = sl_name x.
Proof.
  intros (H0 & Hn & Hl & _). unfold slot_bytes, slot_rest.
  set (l := pre ++ le64 (sl_count x) ++ le64 (sl_n x)).
  assert (zlen pre + 16 = zlen l) as -> by (unfold l; rewrite !zlen_app, !zlen_le64; lia).
  replace (32 - length (sl_name x))%nat with (S (31 - length (sl_name x))) by lia. cbn [replicate].
  destruct (sl_name x) as [|c nm] eqn:En; [done|]. split.
  - exists c. split; [|by apply not_elem_of_cons in H0 as [? _]]. unfold l.
    replace (pre ++ (le64 (sl_count x) ++ le64 (sl_n x) ++ (c :: nm) ++ 0 :: replicate (31 - length (c :: nm)) 0) ++ post)
      with ((pre ++ le64 (sl_count x) ++ le64 (sl_n x)) ++ c :: (nm ++ 0 :: replicate (31 - length (c :: nm)) 0) ++ post)
      by (by rewrite <- !app_assoc).
    by apply rd_mid.
  - replace (pre ++ (le64 (sl_count x) ++ le64 (sl_n x) ++ (c :: nm) ++ 0 :: replicate (31 - length (c :: nm)) 0) ++ post)
      with (l ++ ((c :: nm) ++ 0 :: replicate (31 - length (c :: nm)) 0 ++ post)) by (unfold l; by rewrite <- !app_assoc).
    rewrite ptr_at_app by done. by rewrite c_str_stop.
Qed.

Lemma stats_loop_spec t fuel pre z size first out :
  Forall slot_ok t → size = zlen pre + 48 * zlen t + Z.of_nat z → (z = O ∨ 17 ≤ z)%nat → (length t < fuel)%nat →
  stats_loop fmt_quotient fuel (pre ++ (t ≫= slot_bytes) ++ replicate z 0) size (zlen pre) first out =
  Ok (match t with
      | [] => out
      | _ => (if first then lit "{ " else out ++ lit ", ") ++ join (lit ", ") (slot_text <$> t)
      end).
Proof.
  intros F. revert fuel pre first out. induction F as [|x t Hx F IH]; intros [|fuel] pre first out Hs Hz Hf; cbn [length] in Hf; try lia.
  - change (zlen (@nil stat_slot)) with 0 in Hs. cbn [stats_loop]. destruct (Z.ltb_spec (zlen pre) size) as [Hlt|_]; [|done]. destruct Hz as [->|Hz]; [lia|].
    rewrite (proj2 (rd_Ok _ _ 0)); [done|]. pose proof (zlen_nonneg pre). split; [lia|]. unfold zlen. cbn [mbind list_bind app].
    rewrite lookup_app_r by lia. apply lookup_replicate_2. lia.
  - rewrite bind_cons, <- app_assoc. cbn [stats_loop]. pose proof (zlen_nonneg t). rewrite zlen_cons in Hs.
    destruct (Z.ltb_spec (zlen pre) size) as [_|?]; [|lia].
    set (post := (t ≫= slot_bytes) ++ replicate z 0).
    destruct (read_name pre x post Hx) as [(c & -> & Hc) En]. cbn [res_bind]. destruct (Z.eqb_spec c 0) as [?|_]; [done|].
    destruct (counters_read pre x post Hx) as [-> ->]. cbn [res_bind]. rewrite En. fold (slot_text x).
    unfold post. rewrite app_assoc.
    replace (zlen pre + 48) with (zlen (pre ++ slot_bytes x)) by (rewrite zlen_app; unfold zlen; rewrite length_slot by done; lia).
    rewrite IH; [|rewrite zlen_app; unfold zlen in *; rewrite length_slot by done; lia|done|lia].
    destruct t as [|y t]; [done|]. rewrite (fmap_cons slot_text x), join_cons by done. by rewrite <- !app_assoc.
Qed.

Lemma report_rep s t : table_rep s t → 48 * zlen t = st_size s ∨ 48 * zlen t + 17 ≤ st_size s →
  stats_report fmt_quotient s = Ok (table_text t ++ fifos_text (get_fifo_stats s)).
Proof.
  intros (F & _ & B & M) Hz. unfold stats_report, stats_to_json. rewrite M.
  pose proof (stats_loop_spec t (Z.to_nat (st_size s) + 1) [] (Z.to_nat (st_size s - 48 * zlen t)) (st_size s) true [] F) as L.
  cbn [app] in L. change (zlen (@nil Z)) with 0 in L. rewrite L; [|lia|lia|unfold zlen in *; lia].
  cbn [res_bind]. unfold table_text. by destruct t.
Qed.
End ReportSpec.

(** the tables along a run are within bounds *)
Fixpoint ops_ok (size : Z) (t : list stat_slot) (ops : list stat_op) : Prop :=
  match ops with [] => True | o :: ops' => op_ok size t o ∧ ops_ok size (table_op t o) ops' end.

Lemma stats_ops_rep ops s t : table_rep s t → ops_ok (st_size s) t ops →
  ∃ s', res_fold stats_op s ops = Ok s' ∧ table_rep s' (foldl table_op t ops) ∧ st_size s' = st_size s.
Proof.
  revert s t. induction ops as [|o ops IH]; intros s t R H; [by exists s|]. destruct H as [Ho H].
  destruct (stats_op_rep _ _ _ R Ho) as (s1 & E1 & R1 & Z1). cbn [res_fold foldl]. rewrite E1.
  destruct (IH s1 (table_op t o)) as (s2 & E2 & R2 & Z2); [done|by rewrite Z1|]. exists s2. split_and!; [done|done|congruence].
Qed.

(** The shared memory of the statistics behaves as a table of names and counters: after
    any sequence of registrations that fit and of updates of registered counters (64-bit
    additions, assignments and averages), the report lists exactly the registered names, cut
    at 31 characters and in the order of their registration, with their counters. *)
Theorem stats_table fmt_quotient size sd ops :
  0 ≤ size → ops_ok size [] ops →
  let t := foldl table_op [] ops in
  48 * zlen t = size ∨ 48 * zlen t + 17 ≤ size →
  ∃ s, res_fold stats_op (new_stats size sd) ops = Ok s ∧
    stats_report fmt_quotient s = Ok (table_text fmt_quotient t ++ fifos_text (get_fifo_stats s)).
Proof.
  intros Hs Ho t Hz. destruct (stats_ops_rep ops (new_stats size sd) [] (new_stats_rep size sd Hs) Ho) as (s & E & R & Z1).
  exists s. split; [done|]. apply report_rep; [done|]. by rewrite Z1.
Qed.

Definition stats_example : list stat_op :=
  [op_register (lit "ip_n_pkt"); op_register (lit "tcp_latency"); op_inc 0; op_add 0 41; op_average 1 7; op_average 1 8; op_set 0 5].

Lemma stats_table_witness :
  foldl table_op [] stats_example = [Slot (lit "ip_n_pkt") 5 0; Slot (lit "tcp_latency") 15 2] ∧
  ∃ s, res_fold stats_op (new_stats 16384 []) stats_example = Ok s ∧
    stats_report (λ _ _, lit "7.500000") s =
    Ok (table_text (λ _ _, lit "7.500000") (foldl table_op [] stats_example) ++ fifos_text (get_fifo_stats s)).
Proof.
  split; [vm_compute; reflexivity|].
  apply (stats_table (λ _ _, lit "7.500000") 16384 [] stats_example).
  - lia.
  - unfold stats_example. cbn [ops_ok op_ok table_op length app].
    repeat split; try (cbn; lia); try (vm_compute; congruence); by refine (bool_decide_unpack _ _).
  - right. vm_compute. congruence.
Defined.

(** a full segment of 16384 bytes: the report looks for a name behind its end *)
Lemma full_segment_overrun fq s t : table_rep s t → st_size s = 16384 → zlen t = 341 → stats_report fq s = Err bad_access.
Proof.
  intros (F & _ & B & M) Hs Ht. unfold stats_report, stats_to_json. rewrite M, Hs, Ht. change (Z.to_nat (16384 - 48 * 341)) with 16%nat.
  assert (∀ t pre fuel first out, Forall slot_ok t → zlen pre + 48 * zlen t = 16368 → (length t < fuel)%nat →
    stats_loop fq fuel (pre ++ (t ≫= slot_bytes) ++ replicate 16 0) 16384 (zlen pre) first out = Err bad_access) as L.
  { clear. induction t as [|x t IH]; intros pre [|fuel] first out F Hz Hf; cbn [length] in Hf; try lia.
    - change (zlen (@nil stat_slot)) with 0 in Hz. cbn [stats_loop mbind list_bind app]. rewrite (proj2 (Z.ltb_lt _ _)) by lia.
      unfold rd. pose proof (zlen_nonneg pre). rewrite (proj2 (Z.ltb_ge _ 0)) by lia.
      rewrite lookup_ge_None_2; [done|]. rewrite length_app, length_replicate. unfold zlen. lia.
    - apply Forall_cons in F as [Hx F]. rewrite zlen_cons in Hz. pose proof (zlen_nonneg t).
      rewrite bind_cons, <- app_assoc. cbn [stats_loop]. rewrite (proj2 (Z.ltb_lt _ _)) by lia.
      set (post := (t ≫= slot_bytes) ++ replicate 16 0).
      destruct (read_name pre x post Hx) as [(c & -> & Hc) ->]. cbn [res_bind]. destruct (Z.eqb_spec c 0) as [?|_]; [done|].
      destruct (counters_read pre x post Hx) as [-> ->]. cbn [res_bind]. unfold post. rewrite app_assoc.
      replace (zlen pre + 48) with (zlen (pre ++ slot_bytes x)) by (rewrite zlen_app; unfold zlen; rewrite length_slot by done; lia).
      apply IH; [done| |lia]. rewrite zlen_app. unfold zlen in *. rewrite length_slot by done. lia. }
  specialize (L t [] (Z.to_nat 16384 + 1)%nat true [] F). cbn [app] in L. change (zlen (@nil Z)) with 0 in L.
  rewrite L; [done|lia|]. unfold zlen in Ht. lia.
Qed.

(** when no slot is free the counter is a null pointer, and counting uses it *)
Lemma no_slot_aborts s name :
  st_size s < st_len s + 48 →
  register_stat s name [] si_integer = Ok (None, s) ∧ stats_inc_counter s None = Err bad_access.
Proof. intros H. unfold register_stat. by rewrite (proj2 (Z.ltb_lt _ _)). Qed.

(** ** The histogram is too small for its queue *)

(** counting is safe for the number of elements exactly below a hundred times the divider *)
Lemma fs_count_safe n value : 99 ≤ n → 0 ≤ value →
  (∃ f, fs_count (new_fifo_stats n) value = Ok f) ↔ value < 100 * ((n + 1) / 100).
Proof.
  intros Hn Hv. unfold fs_count, new_fifo_stats, up_size. cbn [fs_divider fs_counters].
  rewrite (Z.quot_div_nonneg (n + 1)) by lia. assert (1 ≤ (n + 1) / 100) by (apply Z.div_le_lower_bound; lia).
  set (d := (n + 1) / 100) in *. rewrite (proj2 (Z.eqb_neq d 0)) by lia. rewrite Z.quot_div_nonneg by lia.
  assert (0 ≤ value / d) by (apply Z.div_pos; lia). rewrite (proj2 (Z.leb_le 0 _)) by done. cbn [andb].
  destruct (Z.ltb_spec (value / d) 100) as [Hlt|Hge].
  - split; [|by eexists]. intros _. pose proof (Z.mul_succ_div_gt value d ltac:(lia)). nia.
  - split; [intros [f ?]; done|]. intros Hlt. assert (value / d < 100); [|lia]. apply Z.div_lt_upper_bound; lia.
Qed.

(** the queues of the layers hold 128 packets; storing the hundredth writes behind the
    counters of their histogram *)
Lemma hundredth_packet_overruns {T} (f : fifo T) (q : list T) (x : T) :
  fifo_rep f q → n_elements f = 128 → zlen q = 99 →
  n_in (try_put f x).2 = 100 ∧ fs_count (new_fifo_stats 128) (n_in (try_put f x).2) = Err bad_access.
Proof.
  intros (W & C & N & _) Hn Hq. assert (full f = false) as Hf.
  { apply not_true_iff_false. rewrite (count_full_iff f W). lia. }
  assert (n_in (try_put f x).2 = 100) as E.
  { unfold try_put. rewrite Hf. cbn [snd store n_in]. by rewrite N, Hq. }
  by rewrite E.
Qed.

(** ** The slowest events stay in order *)

Definition slowest_first (d : duration_events) : Prop :=
  length (de_events d) = de_max_size d ∧ StronglySorted (λ a b : Z * Z, b.1 ≤ a.1) (de_events d) ∧ Forall (λ a : Z * Z, 0 ≤ a.1) (de_events d).

Lemma length_resize n l : length (resize n l) = n.
Proof. unfold resize. rewrite length_app, length_take, length_replicate. lia. Qed.

Lemma resize_cut n x l : length l = n → resize n (x :: l) = take n (x :: l).
Proof. intros L. unfold resize. cbn [length]. replace (n - S (length l))%nat with O by lia. by rewrite app_nil_r. Qed.

Lemma sorted_take {A} (R : A → A → Prop) n l : StronglySorted R l → StronglySorted R (take n l).
Proof.
  intros H. revert n. induction H as [|x l S IH F]; intros [|n]; cbn [take]; try constructor; [apply IH|].
  by apply Forall_take.
Qed.

Lemma sorted_zeros n : StronglySorted (λ a b : Z * Z, b.1 ≤ a.1) (replicate n (0, 0)).
Proof. induction n; cbn; constructor; [done|]. apply Forall_replicate. cbn. lia. Qed.

Lemma de_insert_ordered d duration now : slowest_first d → (0 < de_max_size d)%nat → 0 ≤ duration →
  ∃ d', de_insert d duration now = Ok d' ∧ slowest_first d' ∧ de_max_size d' = de_max_size d ∧
    ∃ e rest, de_events d' = e :: rest ∧ duration ≤ e.1 ∧ Forall (λ a : Z * Z, a.1 ≤ e.1) (de_events d).
Proof.
  intros (L & S & P) Hm Hd. unfold de_insert. destruct (de_events d) as [|[first t0] l] eqn:E; [cbn in L; lia|].
  apply StronglySorted_inv in S as [S F]. cbn [fst] in F.
  destruct (Z.ltb_spec first duration) as [Hlt|Hge].
  - eexists. split; [done|]. split; [|split; [done|]]; unfold slowest_first; cbn [de_events de_max_size]; rewrite resize_cut by done.
    + split_and!.
      * rewrite length_take. cbn [length] in *. lia.
      * apply sorted_take. constructor; [by constructor|]. constructor; [cbn; lia|]. eapply Forall_impl; [exact F|]. cbn. lia.
      * apply Forall_take. by constructor.
    + destruct (de_max_size d) as [|m] eqn:Em; [lia|]. cbn [take]. do 2 eexists. split; [done|]. cbn [fst]. split; [lia|].
      constructor; [cbn; lia|]. eapply Forall_impl; [exact F|]. cbn. lia.
  - exists d. split; [done|]. split; [unfold slowest_first; rewrite E; split_and!; [done|by constructor|done]|]. split; [done|].
    rewrite E. do 2 eexists. split; [done|]. cbn [fst]. split; [lia|]. constructor; [cbn; lia|done].
Qed.
