(* ===== verification/Vpn.v ===== *)
(** * The VPN (src/vpn.cpp, src/phys_vpn_insertion_point.cpp)

    Frames that go into the insertion point travel in UDP datagrams to a peer: an MD5 sum, a
    header with the addresses and the payload, padded to blocks of eight bytes and encrypted
    with DES in CBC mode; the initialisation vectors of both directions run on over all
    datagrams.  MD5 and DES are libraries: their functions are arguments, and what is relied
    on is that a digest has sixteen bytes and that decrypting a block under the vector it
    was encrypted with gives the block back and the same next vector.

    Shown: a sequence of frames whose sizes fit arrives at the peer completely and in order,
    with the ether type, the addresses and the payload it was sent with, and leaves both
    ends in step.  Lemmas show the sizes that do not fit, and what short datagrams do. *)
From S2P Require Import Prelude AnyAddr Net Phys.
Open Scope Z_scope.

Definition MD5_DIGEST_LENGTH : Z := 16.

(** [MD5] and one block of [DES_ncbc_encrypt]: the block and the next vector *)
Record crypto := Crypto {
  md5bin : list Z → list Z;
  des_encrypt : list Z → list Z → list Z * list Z;
  des_decrypt : list Z → list Z → list Z * list Z;
}.

Record vpn := Vpn { ivec_encrypt : list Z; ivec_decrypt : list Z }.
Definition new_vpn : vpn := Vpn (replicate 8 0) (replicate 8 0).

Section Vpn.
Context (C : crypto).

(** the loops over the blocks *)
Fixpoint cipher_blocks (f : list Z → list Z → list Z * list Z) (n : nat) (iv data : list Z) : list Z * list Z :=
  match n with
  | O => ([], iv)
  | S n' =>
      let '(x, iv') := f iv (take 8 data) in
      let '(r, iv'') := cipher_blocks f n' iv' (drop 8 data) in
      (x ++ r, iv'')
  end.
Definition n_blocks (data : list Z) : nat := Z.to_nat (zlen data / 8).

(** ** Out *)

Definition round_up_8 (n : Z) : Z := if Z.land n 7 =? 0 then n else n + (8 - Z.land n 7).

(** the length counts neither of the two bytes that hold the lengths of the addresses *)
Definition out_len (dst_mac src_mac : any_addr) (pl_size : Z) : Z :=
  round_up_8 (MD5_DIGEST_LENGTH + 2 + 2 + 1 + get_len dst_mac + 1 + get_len src_mac + pl_size).

(** writes at a position that moves on *)
Definition put_at (st : list Z * Z) (bytes : list Z) : res (list Z * Z) :=
  let* p := wr_range st.1 st.2 bytes in Ok (p, st.2 + zlen bytes).

Definition vpn_plain (dst_mac src_mac : any_addr) (ether_type : Z) (payload : list Z) : res (list Z) :=
  let size := out_len dst_mac src_mac (zlen payload) in
  let* d := get dst_mac in
  let* s := get src_mac in
  let* '(out, _) := res_fold put_at (replicate (Z.to_nat size) 0, MD5_DIGEST_LENGTH)
    [[u8 (Z.shiftr ether_type 8)]; [u8 ether_type]; [u8 (Z.shiftr (zlen payload) 8)]; [u8 (zlen payload)];
     [family_rank (get_family dst_mac)]; [u8 (get_len dst_mac)]; d;
     [family_rank (get_family src_mac)]; [u8 (get_len src_mac)]; s; payload] in
  let* covered := rd_range out MD5_DIGEST_LENGTH (size - MD5_DIGEST_LENGTH) in
  wr_range out 0 (md5bin C covered).

(** the datagram for the peer; [sent] is what [udp::transmit_packet] returns *)
Definition vpn_transmit_packet (v : vpn) (dst_mac src_mac : any_addr) (ether_type : Z) (payload : list Z) (sent : bool)
    : res (bool * list Z * vpn) :=
  let* out := vpn_plain dst_mac src_mac ether_type payload in
  let '(datagram, iv) := cipher_blocks (des_encrypt C) (n_blocks out) (ivec_encrypt v) out in
  Ok (sent, datagram, Vpn iv (ivec_decrypt v)).

(** ** In *)

(** a frame for the layer registered for its type; the addresses as [packet] gets them *)
Definition insert_packet (dev : phys) (dst_mac src_mac : any_addr) (ether_type : Z) (payload : list Z) (pl_size : Z)
    : res (option (Z * packet)) :=
  match phys_get_protocol dev ether_type with
  | None => Ok None
  | Some layer =>
      let* p := new_packet dst_mac dst_mac src_mac payload pl_size [] 0 true in
      Ok (Some (layer, p))
  end.

(** [addr_family(temp[o++])]; a family that does not exist has no size *)
Definition family_of (x : Z) : res addr_family :=
  if x =? 0 then Ok ipv4 else if x =? 1 then Ok mac else if x =? 2 then Ok ax25 else if x =? 3 then Ok ipv6 else Err bad_access.

Definition read_addr (temp : list Z) (o : Z) : res (any_addr * Z) :=
  let* f := rd temp o in
  let* len := rd temp (o + 1) in
  let* fam := family_of f in
  let* a := mk_addr fam (ptr_at temp (o + 2)) in
  Ok (a, o + 2 + len).

(** the frame in a decrypted datagram: type, addresses, payload and its size *)
Definition vpn_parse (temp : list Z) : res (any_addr * any_addr * Z * list Z * Z) :=
  let o := MD5_DIGEST_LENGTH in
  let* t0 := rd temp o in
  let* t1 := rd temp (o + 1) in
  let* s0 := rd temp (o + 2) in
  let* s1 := rd temp (o + 3) in
  let* '(dst_mac, o) := read_addr temp (o + 4) in
  let* '(src_mac, o) := read_addr temp o in
  Ok (dst_mac, src_mac, u16 (join16 t0 t1), ptr_at temp o, u16 (join16 s0 s1)).

Definition vpn_input (v : vpn) (dev : phys) (pl : list Z) : res (option (Z * packet) * vpn) :=
  if negb (Z.land (zlen pl) 7 =? 0) then Ok (None, v)
  else
    let '(temp, iv) := cipher_blocks (des_decrypt C) (n_blocks pl) (ivec_decrypt v) pl in
    let v := Vpn (ivec_encrypt v) iv in
    let* covered := rd_range temp MD5_DIGEST_LENGTH (zlen pl - MD5_DIGEST_LENGTH) in
    let* digest := rd_range temp 0 MD5_DIGEST_LENGTH in
    if bool_decide (md5bin C covered = digest) then
      let* '(dst_mac, src_mac, ether_type, payload, pl_size) := vpn_parse temp in
      let* r := insert_packet dev dst_mac src_mac ether_type payload pl_size in
      Ok (r, v)
    else Ok (None, v).

(** [phys_vpn_insertion_point::transmit_packet] with its counters: octets and packets *)
Record vpn_counters := VpnCounters { out_octets : Z; out_hc_octets : Z; out_ucast_pkts : Z }.

Definition count_out (c : vpn_counters) (pl_size : Z) : vpn_counters :=
  VpnCounters (u64 (out_octets c + pl_size)) (u64 (out_hc_octets c + pl_size)) (u64 (out_ucast_pkts c + 1)).

Inductive vpn_effect := loop_back (p : option (Z * packet)) | to_peer (datagram : list Z).

Definition insertion_transmit (v : option vpn) (dev : phys) (my_mac dst_mac src_mac : any_addr) (ether_type : Z) (payload : list Z)
    (sent : bool) (c : vpn_counters) : res (bool * option vpn_effect * option vpn * vpn_counters) :=
  match v with
  | None => Ok (false, None, None, c)
  | Some v =>
      let c := count_out c (zlen payload) in
      let* own := eqb dst_mac my_mac in
      if own : bool then
        let* r := insert_packet dev dst_mac src_mac ether_type payload (zlen payload) in
        Ok (match r with Some _ => true | None => false end, Some (loop_back r), Some v, c)
      else
        let* '(ok, datagram, v') := vpn_transmit_packet v dst_mac src_mac ether_type payload sent in
        Ok (ok, Some (to_peer datagram), Some v', c)
  end.

(** [insert_packet] without addresses: those of the device *)
Definition insert_own (dev : phys) (my_mac : any_addr) (ether_type : Z) (payload : list Z) (pl_size : Z) : res (option (Z * packet)) :=
  let* opponent := gen_opponent_mac my_mac in
  insert_packet dev opponent my_mac ether_type payload pl_size.
End Vpn.

(** ** Frames arrive *)

(** what is relied on of the libraries *)
Definition good_crypto (C : crypto) : Prop :=
  (∀ d, length (md5bin C d) = 16%nat) ∧
  (∀ iv b x iv', length iv = 8%nat → length b = 8%nat → des_encrypt C iv b = (x, iv') →
     length x = 8%nat ∧ length iv' = 8%nat ∧ des_decrypt C iv x = (b, iv')).

Lemma cipher_round_trip C n iv data x iv' : good_crypto C → length iv = 8%nat → length data = (8 * n)%nat →
  cipher_blocks (des_encrypt C) n iv data = (x, iv') →
  length x = (8 * n)%nat ∧ length iv' = 8%nat ∧ cipher_blocks (des_decrypt C) n iv x = (data, iv').
Proof.
  intros [_ HC]. revert iv data x iv'. induction n as [|n IH]; intros iv data x iv' Hiv Hd H; cbn [cipher_blocks] in H.
  - injection H as <- <-. by destruct data.
  - destruct (des_encrypt C iv (take 8 data)) as [x1 iv1] eqn:E1. destruct (cipher_blocks (des_encrypt C) n iv1 (drop 8 data)) as [x2 iv2] eqn:E2.
    injection H as <- <-. destruct (HC iv (take 8 data) x1 iv1) as (L1 & Li & D1); [done|rewrite length_take; lia|done|].
    destruct (IH iv1 (drop 8 data) x2 iv2) as (L2 & Li2 & D2); [done|rewrite length_drop; lia|done|].
    split; [rewrite length_app; lia|]. split; [done|]. cbn [cipher_blocks].
    rewrite take_app_length' by lia. rewrite drop_app_length' by lia. rewrite D1, D2. by rewrite take_drop.
Qed.

(** moving writes into zeros *)
Lemma put_all a m chunks : (length (concat chunks) ≤ m)%nat →
  res_fold put_at (a ++ replicate m 0, zlen a) chunks =
  Ok (a ++ concat chunks ++ replicate (m - length (concat chunks)) 0, zlen (a ++ concat chunks)).
Proof.
  revert a m. induction chunks as [|c chunks IH]; intros a m Hm; cbn [concat] in *.
  - cbn. by rewrite Nat.sub_0_r, app_nil_r.
  - rewrite length_app in Hm. cbn [res_fold]. unfold put_at at 1. cbn [fst snd].
    rewrite wr_range_app; [|done|unfold zlen; rewrite length_replicate; lia]. cbn [res_bind].
    rewrite drop_replicate, app_assoc, <- zlen_app, IH by lia. by rewrite length_app, <- !app_assoc, Nat.sub_add_distr.
Qed.

Lemma put_overrun a m chunks : (m < length (concat chunks))%nat → res_fold put_at (a ++ replicate m 0, zlen a) chunks = Err bad_access.
Proof.
  revert a m. induction chunks as [|c chunks IH]; intros a m Hm; cbn [concat length] in *; [lia|].
  rewrite length_app in Hm. cbn [res_fold]. unfold put_at at 1. cbn [fst snd].
  destruct (Nat.le_gt_cases (length c) m) as [Hc|Hc].
  - rewrite wr_range_app; [|done|unfold zlen; rewrite length_replicate; lia]. cbn [res_bind].
    rewrite drop_replicate, app_assoc, <- zlen_app. apply IH. lia.
  - unfold wr_range. pose proof (zlen_nonneg a). rewrite (proj2 (Z.ltb_ge _ 0)) by lia. cbn [orb].
    rewrite (proj2 (Z.ltb_lt _ _)); [done|]. rewrite zlen_app. unfold zlen. rewrite length_replicate. lia.
Qed.

(** the header and the payload *)
Definition addr_field (a : any_addr) : list Z := [family_rank (af a); family_size (af a)] ++ (key a).2.
Definition vpn_body (dst src : any_addr) (et : Z) (payload : list Z) : list Z :=
  be16 et ++ be16 (zlen payload) ++ addr_field dst ++ addr_field src ++ payload.

(** the length before it is rounded up *)
Definition vpn_size (dst src : any_addr) (n : Z) : Z := 22 + family_size (af dst) + family_size (af src) + n.

Lemma land_7 n : 0 ≤ n → Z.land n 7 = n mod 8.
Proof. intros. change 7 with (Z.ones 3). by rewrite Z.land_ones. Qed.

Lemma round_up_8_eq n : 0 ≤ n → round_up_8 n = 8 * ((n + 7) / 8).
Proof. intros. unfold round_up_8. rewrite land_7 by done. destruct (Z.eqb_spec (n mod 8) 0); Z.to_euclidean_division_equations; lia. Qed.

Lemma zlen_body dst src et payload : good dst → good src → zlen (vpn_body dst src et payload) = vpn_size dst src (zlen payload) - 14.
Proof.
  intros Hd Hs. unfold vpn_body, addr_field, vpn_size. rewrite !zlen_app. unfold zlen.
  rewrite !length_key by done. pose proof (family_size_bound (af dst)). pose proof (family_size_bound (af src)). cbn [length be16]. lia.
Qed.

Lemma out_len_eq dst src n : good dst → good src → 0 ≤ n → out_len dst src n = 8 * ((vpn_size dst src n + 7) / 8).
Proof.
  intros Hd Hs Hn. unfold out_len, get_len. rewrite (proj1 (good_size _ Hd)), (proj1 (good_size _ Hs)).
  pose proof (family_size_bound (af dst)). pose proof (family_size_bound (af src)). unfold MD5_DIGEST_LENGTH.
  rewrite round_up_8_eq by lia. unfold vpn_size. do 2 f_equal. lia.
Qed.

(** the parts of the plain text; sizes that leave one or no byte of padding do not fit *)
Definition vpn_fits (dst src : any_addr) (n : Z) : Prop := 1 ≤ vpn_size dst src n mod 8 ≤ 6.

Lemma vpn_chunks dst src et payload : good dst → good src →
  concat [[u8 (Z.shiftr et 8)]; [u8 et]; [u8 (Z.shiftr (zlen payload) 8)]; [u8 (zlen payload)];
     [family_rank (get_family dst)]; [u8 (get_len dst)]; (key dst).2;
     [family_rank (get_family src)]; [u8 (get_len src)]; (key src).2; payload] = vpn_body dst src et payload.
Proof.
  intros Hd Hs. unfold vpn_body, addr_field, get_len, get_family, be16. rewrite (proj1 (good_size _ Hd)), (proj1 (good_size _ Hs)).
  rewrite (u8_id (family_size (af dst))), (u8_id (family_size (af src))) by (pose proof (family_size_bound (af dst)); pose proof (family_size_bound (af src)); unfold byte_ok; lia).
  cbn [concat app]. by rewrite app_nil_r.
Qed.

Lemma vpn_plain_ok C dst src et payload : good_crypto C → good dst → good src → vpn_fits dst src (zlen payload) →
  ∃ pad covered, covered = vpn_body dst src et payload ++ replicate pad 0 ∧
    vpn_plain C dst src et payload = Ok (md5bin C covered ++ covered) ∧ (16 + zlen covered) mod 8 = 0.
Proof.
  intros [H5 _] Hd Hs Hf. pose proof (zlen_nonneg payload) as Hn. unfold vpn_plain. rewrite out_len_eq by done.
  rewrite !get_good by done. cbn [res_bind]. set (body := vpn_body dst src et payload).
  pose proof (zlen_body dst src et payload Hd Hs) as Lb. fold body in Lb.
  unfold vpn_fits in Hf. set (n := vpn_size dst src (zlen payload)) in *.
  assert (16 + zlen body ≤ 8 * ((n + 7) / 8)) as Hsz by (Z.to_euclidean_division_equations; lia).
  set (size := 8 * ((n + 7) / 8)) in *. set (m := Z.to_nat (size - 16)). pose proof (zlen_nonneg body).
  assert (replicate (Z.to_nat size) 0 = replicate 16 0 ++ replicate m 0) as ->.
  { rewrite <- replicate_add. f_equal. unfold m. lia. }
  change MD5_DIGEST_LENGTH with (zlen (replicate 16 0)) at 1.
  rewrite put_all by (rewrite vpn_chunks by done; fold body; unfold m, zlen in *; lia).
  rewrite vpn_chunks by done. fold body. cbn [res_bind].
  exists (m - length body)%nat, (body ++ replicate (m - length body) 0). split; [done|].
  set (covered := body ++ replicate (m - length body) 0).
  assert (zlen covered = size - 16) as Lc by (unfold covered; rewrite zlen_app; unfold zlen in *; rewrite length_replicate; unfold m; lia).
  replace (replicate 16 0 ++ covered) with (replicate 16 0 ++ covered ++ []) by (by rewrite app_nil_r).
  rewrite (rd_range_mid (replicate 16 0) covered []) by (unfold MD5_DIGEST_LENGTH; rewrite ?Lc; done). cbn [res_bind].
  split.
  - rewrite app_nil_r, wr_range_prefix by (rewrite H5, length_app, length_replicate; lia). rewrite H5.
    by rewrite drop_app_length' by (by rewrite length_replicate).
  - rewrite Lc. replace (16 + (size - 16)) with (((n + 7) / 8) * 8) by (unfold size; lia). apply Z.mod_mul. lia.
Qed.

(** the sizes that do not fit overrun the buffer: two of every eight *)
Lemma vpn_overrun C dst src et payload : good dst → good src → ¬ vpn_fits dst src (zlen payload) →
  vpn_plain C dst src et payload = Err bad_access.
Proof.
  intros Hd Hs Hf. pose proof (zlen_nonneg payload) as Hn. unfold vpn_plain. rewrite out_len_eq by done.
  rewrite !get_good by done. cbn [res_bind].
  pose proof (zlen_body dst src et payload Hd Hs) as Lb. unfold vpn_fits in Hf. set (n := vpn_size dst src (zlen payload)) in *.
  pose proof (family_size_bound (af dst)). pose proof (family_size_bound (af src)).
  assert (22 ≤ n) as Hn22 by (unfold n, vpn_size; lia).
  assert (8 * ((n + 7) / 8) < 16 + zlen (vpn_body dst src et payload)) as Hsz by (Z.to_euclidean_division_equations; lia).
  assert (16 ≤ 8 * ((n + 7) / 8)) by (Z.to_euclidean_division_equations; lia).
  set (size := 8 * ((n + 7) / 8)) in *. set (m := Z.to_nat (size - 16)).
  assert (replicate (Z.to_nat size) 0 = replicate 16 0 ++ replicate m 0) as ->.
  { rewrite <- replicate_add. f_equal. unfold m. lia. }
  change MD5_DIGEST_LENGTH with (zlen (replicate 16 0)) at 1.
  rewrite put_overrun; [done|]. rewrite vpn_chunks by done. unfold m, zlen in *. lia.
Qed.

Lemma family_of_rank f : family_of (family_rank f) = Ok f.
Proof. by destruct f. Qed.

Lemma read_addr_ok a x rest o : good x → bytes_ok rest → o = zlen a →
  ∃ x', read_addr (a ++ addr_field x ++ rest) o = Ok (x', o + zlen (addr_field x)) ∧ good x' ∧ key x' = key x.
Proof.
  intros Hx Hr ->. unfold read_addr, addr_field. set (k := (key x).2 ++ rest).
  assert (a ++ ([family_rank (af x); family_size (af x)] ++ (key x).2) ++ rest = a ++ family_rank (af x) :: family_size (af x) :: k) as ->.
  { by rewrite <- app_assoc. }
  rewrite rd_mid by done.
  replace (a ++ family_rank (af x) :: family_size (af x) :: k) with ((a ++ [family_rank (af x)]) ++ family_size (af x) :: k) by (by rewrite <- app_assoc).
  rewrite rd_mid by (by rewrite zlen_app). cbn [res_bind]. rewrite family_of_rank. cbn [res_bind].
  replace ((a ++ [family_rank (af x)]) ++ family_size (af x) :: k) with ((a ++ [family_rank (af x); family_size (af x)]) ++ k) by (by rewrite <- !app_assoc).
  rewrite ptr_at_app by (by rewrite zlen_app). pose proof (length_key x Hx) as L. pose proof (family_size_bound (af x)).
  destruct (mk_addr_spec (af x) k) as (x' & -> & Gx & Kx).
  - apply bytes_ok_app; [by apply key_bytes_ok | done].
  - unfold k. rewrite zlen_app. pose proof (zlen_nonneg rest). unfold zlen in *. rewrite L. lia.
  - exists x'. cbn [res_bind]. split_and!; [|done|].
    + f_equal. f_equal. rewrite zlen_app. change (zlen [_; _]) with 2. unfold zlen. rewrite L. lia.
    + rewrite Kx. unfold k. rewrite take_app_length' by done. done.
Qed.

Lemma vpn_parse_ok digest dst src et payload pad :
  length digest = 16%nat → good dst → good src → 0 ≤ et < 65536 → zlen payload < 65536 → bytes_ok payload → bytes_ok pad →
  ∃ dst' src', vpn_parse (digest ++ vpn_body dst src et payload ++ pad) = Ok (dst', src', et, payload ++ pad, zlen payload) ∧
    good dst' ∧ key dst' = key dst ∧ good src' ∧ key src' = key src.
Proof.
  intros L5 Hd Hs He Hn Hb Hp. pose proof (zlen_nonneg payload). unfold vpn_parse, vpn_body, MD5_DIGEST_LENGTH.
  assert (zlen digest = 16) as L16 by (unfold zlen; lia).
  set (A := addr_field dst ++ addr_field src ++ payload). set (h := digest ++ be16 et ++ be16 (zlen payload)).
  assert (digest ++ (be16 et ++ be16 (zlen payload) ++ A) ++ pad = h ++ A ++ pad) as -> by (unfold h; by rewrite <- !app_assoc).
  assert (∀ i x, (be16 et ++ be16 (zlen payload)) !! Z.to_nat i = Some x → 0 ≤ i → rd (h ++ A ++ pad) (16 + i) = Ok x) as R.
  { intros i x Hx Hi. apply rd_Ok. split; [lia|]. unfold h. rewrite <- app_assoc. rewrite lookup_app_r by lia.
    replace (Z.to_nat (16 + i) - length digest)%nat with (Z.to_nat i) by lia. by apply lookup_app_l_Some. }
  rewrite (R 0 (u8 (Z.shiftr et 8)) eq_refl ltac:(done) : rd _ 16 = _), (R 1 (u8 et) eq_refl ltac:(done) : rd _ (16 + 1) = _),
    (R 2 (u8 (Z.shiftr (zlen payload) 8)) eq_refl ltac:(done) : rd _ (16 + 2) = _), (R 3 (u8 (zlen payload)) eq_refl ltac:(done) : rd _ (16 + 3) = _).
  cbn [res_bind]. unfold A. rewrite <- !app_assoc.
  destruct (read_addr_ok h dst (addr_field src ++ payload ++ pad) (16 + 4)) as (dst' & -> & Gd & Kd); [done| |unfold h; rewrite !zlen_app, L16; done|].
  { unfold addr_field. repeat apply bytes_ok_app; try done; [|by apply key_bytes_ok].
    pose proof (family_size_bound (af src)). repeat constructor; unfold byte_ok; try lia; destruct (af src); cbn; lia. }
  cbn [res_bind]. rewrite (app_assoc h).
  destruct (read_addr_ok (h ++ addr_field dst) src (payload ++ pad) (16 + 4 + zlen (addr_field dst))) as (src' & -> & Gs & Ks);
    [done|by apply bytes_ok_app|unfold h; rewrite !zlen_app, L16; change (zlen (be16 et)) with 2; change (zlen (be16 _)) with 2; lia|].
  cbn [res_bind]. exists dst', src'. split_and!; try done. f_equal.
  rewrite !join16_be16, !u16_id by lia. do 2 f_equal. rewrite app_assoc, ptr_at_app; [done|].
  unfold h. rewrite !zlen_app, L16. change (zlen (be16 et)) with 2. change (zlen (be16 _)) with 2. lia.
Qed.

(** ** End to end *)

Record vpn_frame := Frame { fr_dst : any_addr; fr_src : any_addr; fr_type : Z; fr_payload : list Z }.

Definition frame_ok (f : vpn_frame) : Prop :=
  good (fr_dst f) ∧ good (fr_src f) ∧ 0 ≤ fr_type f < 65536 ∧ zlen (fr_payload f) < 65536 ∧ bytes_ok (fr_payload f) ∧
  vpn_fits (fr_dst f) (fr_src f) (zlen (fr_payload f)).

(** what the device of the peer gets: the payload with the addresses in exchanged places, for
    the layer of the type, if there is one *)
Definition arrived (dev : phys) (f : vpn_frame) (r : option (Z * packet)) : Prop :=
  match phys_get_protocol dev (fr_type f) with
  | None => r = None
  | Some layer =>
      ∃ p, r = Some (layer, p) ∧ pkt_data p = fr_payload f ∧ key (pkt_src p) = key (fr_dst f) ∧ key (pkt_dst p) = key (fr_src f) ∧
        pkt_forwarded p = true
  end.

(** the vectors of the two ends *)
Definition in_step (a b : vpn) : Prop := ivec_encrypt a = ivec_decrypt b ∧ length (ivec_encrypt a) = 8%nat.

Lemma vpn_frame_arrives C a b dev f sent : good_crypto C → frame_ok f → in_step a b →
  ∃ datagram a' r b',
    vpn_transmit_packet C a (fr_dst f) (fr_src f) (fr_type f) (fr_payload f) sent = Ok (sent, datagram, a') ∧
    vpn_input C b dev datagram = Ok (r, b') ∧ arrived dev f r ∧ in_step a' b'.
Proof.
  intros HC (Hd & Hs & He & Hn & Hb & Hf) [Hv Lv].
  destruct (vpn_plain_ok C _ _ (fr_type f) _ HC Hd Hs Hf) as (pad & covered & Ec & Ep & Em).
  set (out := md5bin C covered ++ covered) in *. pose proof (zlen_nonneg covered).
  assert (zlen out = 16 + zlen covered) as Lo by (unfold out; rewrite zlen_app; unfold zlen at 1; by rewrite (proj1 HC)).
  assert (length out = (8 * n_blocks out)%nat) as Lb.
  { unfold n_blocks. rewrite Lo. change (zlen out) with (Z.of_nat (length out)) in Lo. Z.to_euclidean_division_equations. lia. }
  unfold vpn_transmit_packet. rewrite Ep. cbn [res_bind].
  destruct (cipher_blocks (des_encrypt C) (n_blocks out) (ivec_encrypt a) out) as [dg iv] eqn:Ee.
  destruct (cipher_round_trip C _ _ _ _ _ HC Lv Lb Ee) as (Ld & Li & Dd).
  assert (zlen dg = zlen out) as Lz by (unfold zlen; lia).
  exists dg, (Vpn iv (ivec_decrypt a)). unfold vpn_input.
  rewrite Lz, land_7, Lo, Em by lia. cbn [negb Z.eqb]. assert (n_blocks dg = n_blocks out) as -> by (unfold n_blocks; by rewrite Lz).
  rewrite <- Hv, Dd. unfold MD5_DIGEST_LENGTH.
  assert (rd_range out 16 (16 + zlen covered - 16) = Ok covered) as ->.
  { replace out with (md5bin C covered ++ covered ++ []) by (unfold out; by rewrite app_nil_r). apply rd_range_mid; [unfold zlen; by rewrite (proj1 HC)|lia]. }
  cbn [res_bind]. unfold out at 1. rewrite rd_range_app by (unfold zlen; by rewrite (proj1 HC)). cbn [res_bind].
  rewrite bool_decide_true by done. assert (out = md5bin C covered ++ vpn_body (fr_dst f) (fr_src f) (fr_type f) (fr_payload f) ++ replicate pad 0) as -> by (unfold out; congruence).
  destruct (vpn_parse_ok (md5bin C covered) (fr_dst f) (fr_src f) (fr_type f) (fr_payload f) (replicate pad 0))
    as (dst' & src' & -> & Gd & Kd & Gs & Ks); try done; [apply (proj1 HC)|apply bytes_ok_replicate; unfold byte_ok; lia|].
  cbn [res_bind]. unfold insert_packet, arrived. destruct (phys_get_protocol dev (fr_type f)) as [layer|]; cbn [res_bind].
  - unfold new_packet. rewrite rd_range_app by done. cbn [res_bind]. change (rd_range [] 0 0) with (Ok (@nil Z)). cbn [res_bind].
    do 2 eexists. split_and!; [done|done| |done]. eexists. split_and!; [done|done|done|done|done].
  - do 2 eexists. split_and!; done.
Qed.

(** a run of frames: the sender's datagrams, the receiver's packets *)
Definition vpn_send_all (C : crypto) (a : vpn) (fs : list vpn_frame) : res (list (list Z) * vpn) :=
  res_fold (λ st f, let* '(_, dg, v) := vpn_transmit_packet C st.2 (fr_dst f) (fr_src f) (fr_type f) (fr_payload f) true in Ok (st.1 ++ [dg], v))
    ([], a) fs.
Definition vpn_receive_all (C : crypto) (b : vpn) (dev : phys) (dgs : list (list Z)) : res (list (option (Z * packet)) * vpn) :=
  res_fold (λ st dg, let* '(r, v) := vpn_input C st.2 dev dg in Ok (st.1 ++ [r], v)) ([], b) dgs.

(** C35: frames of sizes that fit, sent one after the other into the VPN, arrive at the peer
    completely and in order when its datagrams do: with their ether type and payload, for the
    layer registered for the type, with the addresses exchanged; both ends stay in step. *)
Theorem vpn_delivers C a b dev fs :
  good_crypto C → Forall frame_ok fs → in_step a b →
  ∃ dgs a' rs b', vpn_send_all C a fs = Ok (dgs, a') ∧ vpn_receive_all C b dev dgs = Ok (rs, b') ∧
    Forall2 (arrived dev) fs rs ∧ in_step a' b'.
Proof.
  intros HC F. unfold vpn_send_all, vpn_receive_all.
  assert (∀ dgs0 rs0 a b, in_step a b → ∃ dgs a' rs b',
    res_fold (λ st f, let* '(_, dg, v) := vpn_transmit_packet C st.2 (fr_dst f) (fr_src f) (fr_type f) (fr_payload f) true in Ok (st.1 ++ [dg], v))
      (dgs0, a) fs = Ok (dgs0 ++ dgs, a') ∧
    res_fold (λ st dg, let* '(r, v) := vpn_input C st.2 dev dg in Ok (st.1 ++ [r], v)) (rs0, b) dgs = Ok (rs0 ++ rs, b') ∧
    Forall2 (arrived dev) fs rs ∧ in_step a' b') as G.
  { induction F as [|f fs Hf F IH]; intros dgs0 rs0 a0 b0 S.
    - exists [], a0, [], b0. by rewrite !app_nil_r.
    - destruct (vpn_frame_arrives C a0 b0 dev f true HC Hf S) as (dg & a1 & r & b1 & Et & Ei & Ar & S1).
      destruct (IH (dgs0 ++ [dg]) (rs0 ++ [r]) a1 b1 S1) as (dgs & a2 & rs & b2 & Es & Er & F2 & S2).
      exists (dg :: dgs), a2, (r :: rs), b2. cbn [res_fold]. cbn [snd fst]. rewrite Et, Ei. cbn [res_bind].
      rewrite Es, Er, <- !app_assoc. split_and!; try done. by constructor. }
  intros S. destruct (G [] [] a b S) as (dgs & a' & rs & b' & ?). by exists dgs, a', rs, b'.
Qed.

(** a cipher that only adds the vector, and a digest of zeros *)
Definition toy_crypto : crypto := Crypto (λ _, replicate 16 0) (λ iv b, (rev b, iv)) (λ iv b, (rev b, iv)).

Lemma toy_crypto_good : good_crypto toy_crypto.
Proof.
  split; [done|]. intros iv b x iv' Hi Hb H. injection H as <- <-. cbn [des_decrypt toy_crypto].
  rewrite length_rev, rev_involutive. done.
Qed.

Definition toy_mac (x : Z) : any_addr := AnyAddr mac ([2; 0; 0; 0; 0; x] ++ replicate 10 0) 6 true.
Lemma toy_mac_good x : byte_ok x → good (toy_mac x).
Proof.
  intros Hx. split; [|done]. split; [done|]. split; [|done]. unfold toy_mac. cbn [addr].
  cbn [app replicate]. unfold bytes_ok, byte_ok in *. repeat (apply Forall_cons_2; [lia|]). apply Forall_nil_2.
Qed.

Lemma vpn_delivers_witness :
  let dev := phys_register_protocol (new_phys 1 []) 0x0800 7 in
  let fs := [Frame (toy_mac 1) (toy_mac 2) 0x0800 [69; 0; 0]; Frame (toy_mac 1) (toy_mac 2) 0x0806 []] in
  ∃ dgs a' rs b', vpn_send_all toy_crypto new_vpn fs = Ok (dgs, a') ∧ vpn_receive_all toy_crypto new_vpn dev dgs = Ok (rs, b') ∧
    Forall2 (arrived dev) fs rs ∧ in_step a' b'.
Proof.
  intros dev fs. apply (vpn_delivers toy_crypto new_vpn new_vpn dev fs); [apply toy_crypto_good| |done].
  assert (good (toy_mac 1)) by (apply toy_mac_good; unfold byte_ok; lia). assert (good (toy_mac 2)) by (apply toy_mac_good; unfold byte_ok; lia).
  repeat apply Forall_cons_2; try apply Forall_nil_2; unfold frame_ok; cbn [fr_dst fr_src fr_type fr_payload]; split_and!;
    first [done | by refine (bool_decide_unpack _ _) | vm_compute; congruence].
Defined.

(** frames between Ethernet addresses whose size leaves five or six modulo eight, such as an
    IPv4 packet of 46 bytes, are written behind the buffer *)
Lemma vpn_frame_overruns C v dst src et payload sent :
  good dst → good src → af dst = mac → af src = mac → zlen payload mod 8 = 5 ∨ zlen payload mod 8 = 6 →
  vpn_transmit_packet C v dst src et payload sent = Err bad_access.
Proof.
  intros Hd Hs Ed Es Hm. unfold vpn_transmit_packet. rewrite vpn_overrun; try done.
  unfold vpn_fits, vpn_size. rewrite Ed, Es. cbn [family_size]. pose proof (zlen_nonneg payload). Z.to_euclidean_division_equations. lia.
Qed.

(** a datagram of eight bytes, from anyone, makes the digest run over all memory *)
Lemma short_datagram_aborts C v dev pl : zlen pl = 8 → vpn_input C v dev pl = Err bad_access.
Proof.
  intros L. unfold vpn_input. rewrite L. change (negb (Z.land 8 7 =? 0)) with false. cbv iota.
  destruct (cipher_blocks _ _ _ _) as [temp iv]. unfold rd_range, MD5_DIGEST_LENGTH. change (8 - 16) with (-8). by cbn.
Qed.
