(* ===== verification/SctpUdp.v ===== *)
(** * SCTP over UDP (src/phys_sctp_udp.cpp)

    A device that carries the payload of IPv4 packets in UDP datagrams (RFC 6951): what goes
    out loses its IPv4 header, what comes in gets a new one made from the addresses of the
    datagram.  The socket is what [sendto] and [recvfrom] do with it.

    Shown: the payload of a packet that is sent arrives at the other end in a packet whose
    header has its length, the protocol SCTP and the addresses of both ends, when it has at
    least twenty bytes; the counters count every datagram.  Lemmas show that the shorter
    packets of SCTP are dropped. *)
From S2P Require Import Prelude AnyAddr Net Phys.
Open Scope Z_scope.

Record su_counters := SuCounters {
  su_out_octets : Z; su_out_pkts : Z; su_recv_frame : Z; su_in_octets : Z; su_in_pkts : Z; su_invl_frame : Z; su_ign_frame : Z;
}.

(** the octets in 32 and in 64 bits are counted alike *)
Definition su_count_out (c : su_counters) (n : Z) : su_counters :=
  SuCounters (u64 (su_out_octets c + n)) (u64 (su_out_pkts c + 1)) (su_recv_frame c) (su_in_octets c) (su_in_pkts c) (su_invl_frame c) (su_ign_frame c).
Definition su_count_in (c : su_counters) (n : Z) : su_counters :=
  SuCounters (su_out_octets c) (su_out_pkts c) (u64 (su_recv_frame c + 1)) (u64 (su_in_octets c + n)) (u64 (su_in_pkts c + 1)) (su_invl_frame c) (su_ign_frame c).
Definition su_count_invl (c : su_counters) : su_counters :=
  SuCounters (su_out_octets c) (su_out_pkts c) (su_recv_frame c) (su_in_octets c) (su_in_pkts c) (u64 (su_invl_frame c + 1)) (su_ign_frame c).
Definition su_count_ign (c : su_counters) : su_counters :=
  SuCounters (su_out_octets c) (su_out_pkts c) (su_recv_frame c) (su_in_octets c) (su_in_pkts c) (su_invl_frame c) (u64 (su_ign_frame c + 1)).

(** the address and the bytes given to [sendto], which returns [rc] *)
Definition sctp_udp_transmit (c : su_counters) (payload : list Z) (rc : Z) : res (bool * option (list Z * list Z) * su_counters) :=
  let pl_size := zlen payload in
  let c := su_count_out c pl_size in
  let* b0 := if pl_size =? 0 then Ok 0 else rd payload 0 in
  let header_size := Z.land b0 0x0f * 4 in
  if pl_size <? header_size then Ok (false, None, c)
  else
    let* to := rd_range payload 16 4 in
    let* data := rd_range payload header_size (pl_size - header_size) in
    Ok (u64 rc =? pl_size - header_size, Some (to, data), c).

(** a datagram: its bytes ([recvfrom] returns their number, or an error), the address of its
    sender and [sin_port] *)
Record datagram_in := DatagramIn { di_bytes : option (list Z); di_addr : option (list Z); di_port : Z }.

Definition SCTP_PROTOCOL : Z := 132.

(** the new header; its checksum stays zero *)
Definition sctp_udp_header (total_length : Z) (from to : list Z) : list Z :=
  [0x45; 0; u8 (Z.shiftr total_length 8); u8 total_length; 0; 0; 0; 0; 63; SCTP_PROTOCOL; 0; 0] ++ from ++ to.

(** one round of the loop: the packet for the layer of IPv4, if any *)
Definition sctp_udp_receive (dev : phys) (my_mac my_addr : any_addr) (c : su_counters) (d : datagram_in)
    : res (option (Z * packet) * su_counters) :=
  match di_addr d with
  | None => Ok (None, c)                                    (* [get_host_as_text] *)
  | Some from =>
      let size := match di_bytes d with Some b => zlen b | None => -1 end in
      let c := su_count_in c size in
      match di_bytes d with
      | Some buffer =>
          if size <? 20 then Ok (None, su_count_invl c)
          else
            match phys_get_protocol dev 0x0800 with
            | None => Ok (None, su_count_ign c)
            | Some layer =>
                let* src_mac := mk_addr mac [0; 0; 0; 0; u8 (Z.shiftr (di_port d) 8); u8 (di_port d)] in
                let total_length := size + 20 in
                let* to := get_exp my_addr 4 in
                let ip_buffer := replicate 1620 0 in
                let* ip_buffer := wr_range ip_buffer 0 (sctp_udp_header total_length from to) in
                let* ip_buffer := wr_range ip_buffer 20 buffer in
                let* p := new_packet src_mac src_mac my_mac ip_buffer total_length [] 0 false in
                Ok (Some (layer, p), c)
            end
      | None => Ok (None, su_count_invl c)
      end
  end.

(** ** A payload arrives *)

(** an IPv4 packet with a header of [4 * words] bytes *)
Definition ip_with_header (b0 : Z) (h : list Z) (data : list Z) : list Z := (b0 :: h) ++ data.

Lemma transmit_strips c b0 h to data rc :
  zlen (b0 :: h) = Z.land b0 15 * 4 → take 4 (drop 15 h) = to → length to = 4%nat →
  sctp_udp_transmit c (ip_with_header b0 h data) rc =
  Ok (u64 rc =? zlen data, Some (to, data), su_count_out c (zlen (ip_with_header b0 h data))).
Proof.
  intros Hh Ht Lt. unfold sctp_udp_transmit, ip_with_header. rewrite zlen_app. pose proof (zlen_nonneg data). pose proof (zlen_nonneg h).
  rewrite zlen_cons in Hh |- *. rewrite (proj2 (Z.eqb_neq _ 0)) by lia. change ((b0 :: h) ++ data) with ([] ++ b0 :: (h ++ data)). rewrite rd_mid by done.
  cbn [res_bind]. rewrite <- Hh. rewrite (proj2 (Z.ltb_ge _ _)) by lia.
  assert (20 ≤ length (b0 :: h))%nat as Lh.
  { apply (f_equal length) in Ht. rewrite length_take, length_drop in Ht. cbn [length]. lia. }
  assert (rd_range ([] ++ b0 :: (h ++ data)) 16 4 = Ok to) as ->.
  { rewrite rd_range_Ok; [|lia|lia|].
    - f_equal. cbn [app]. change (Z.to_nat 16) with (S 15). change (Z.to_nat 4) with 4%nat. cbn [drop]. rewrite drop_app_le by (cbn in Lh; lia).
      rewrite take_app_le; [done|]. rewrite length_drop. cbn [length] in Lh. lia.
    - cbn [app]. rewrite zlen_cons, zlen_app. unfold zlen in *. cbn [length] in Lh. lia. }
  cbn [res_bind]. replace (zlen h + 1 + zlen data - (zlen h + 1)) with (zlen data) by lia.
  change ([] ++ b0 :: (h ++ data)) with ((b0 :: h) ++ data).
  replace ((b0 :: h) ++ data) with ((b0 :: h) ++ data ++ []) by (by rewrite app_nil_r).
  rewrite (rd_range_mid (b0 :: h) data []) by (by rewrite ?zlen_cons). done.
Qed.

(** the payload of an IPv4 packet that leaves through this device arrives, when its
    datagram does, at the layer of IPv4 of the other end behind a header of twenty bytes
    with the right length, the protocol SCTP, the address it came from and the address of
    the device, for payloads of 20 to 1600 bytes. *)
Theorem sctp_udp_arrives c c' b0 h to data rc dev my_mac my_addr from port layer :
  zlen (b0 :: h) = Z.land b0 15 * 4 → take 4 (drop 15 h) = to → length to = 4%nat →
  20 ≤ zlen data ≤ 1600 → good my_addr → af my_addr = ipv4 → length from = 4%nat → phys_get_protocol dev 0x0800 = Some layer →
  ∃ datagram p c1 c2,
    sctp_udp_transmit c (ip_with_header b0 h data) rc = Ok (u64 rc =? zlen data, Some (to, datagram), c1) ∧
    sctp_udp_receive dev my_mac my_addr c' (DatagramIn (Some datagram) (Some from) port) = Ok (Some (layer, p), c2) ∧
    pkt_data p = sctp_udp_header (20 + zlen data) from (key my_addr).2 ++ data ∧ pkt_dst p = my_mac.
Proof.
  intros Hh Ht Lt Hl Gm Fm Lf Hp. rewrite (transmit_strips c b0 h to data rc Hh Ht Lt).
  exists data. unfold sctp_udp_receive. cbn [di_addr di_bytes di_port]. rewrite (proj2 (Z.ltb_ge _ 20)) by lia. rewrite Hp.
  destruct (mk_addr_spec mac [0; 0; 0; 0; u8 (Z.shiftr port 8); u8 port]) as (src_mac & -> & _); [|done|].
  { repeat constructor; try (unfold byte_ok; lia); apply u8_ok. }
  cbn [res_bind]. rewrite get_exp_good by (done || by rewrite Fm). cbn [res_bind].
  pose proof (length_key my_addr Gm) as Lk. rewrite Fm in Lk. change (Z.to_nat (family_size ipv4)) with 4%nat in Lk.
  set (hd := sctp_udp_header (zlen data + 20) from (key my_addr).2).
  assert (length hd = 20%nat) as Lhd by (unfold hd, sctp_udp_header; rewrite !length_app, Lf, Lk; done).
  rewrite wr_range_prefix by (rewrite length_replicate; lia). cbn [res_bind]. rewrite Lhd, drop_replicate.
  rewrite wr_range_app; [|unfold zlen; by rewrite Lhd|unfold zlen in *; rewrite length_replicate; lia]. cbn [res_bind].
  unfold new_packet. rewrite app_assoc, rd_range_app; [|rewrite zlen_app; unfold zlen at 2; rewrite Lhd; lia].
  change (rd_range [] 0 0) with (Ok (@nil Z)). cbn [res_bind]. do 3 eexists. split_and!; try done.
  cbn [pkt_data]. unfold hd. by rewrite Z.add_comm.
Qed.

Lemma sctp_udp_arrives_witness :
  let my_addr := AnyAddr ipv4 ([10; 0; 0; 2] ++ replicate 12 0) 4 true in
  let h := [0; 0; 40; 0; 0; 0; 0; 64; 132; 0; 0; 10; 0; 0; 1; 10; 0; 0; 2] in
  let data := replicate 20 7 in
  let c0 := SuCounters 0 0 0 0 0 0 0 in
  let dev := phys_register_protocol (new_phys 1 []) 0x0800 7 in
  ∃ datagram p c1 c2,
    sctp_udp_transmit c0 (ip_with_header 0x45 h data) 20 = Ok (u64 20 =? zlen data, Some ([10; 0; 0; 2], datagram), c1) ∧
    sctp_udp_receive dev unset_addr my_addr c0 (DatagramIn (Some datagram) (Some [10; 0; 0; 1]) 9899) = Ok (Some (7, p), c2) ∧
    pkt_data p = sctp_udp_header (20 + zlen data) [10; 0; 0; 1] (key my_addr).2 ++ data ∧ pkt_dst p = unset_addr.
Proof.
  intros my_addr h data c0 dev.
  apply (sctp_udp_arrives c0 c0 0x45 h [10; 0; 0; 2] data 20 dev unset_addr my_addr [10; 0; 0; 1] 9899 7); try done.
  split; [|done]. split; [done|]. split; [|done]. by refine (bool_decide_unpack _ _).
Defined.

(** an SCTP packet of sixteen bytes, such as one with only a COOKIE ACK, is counted as invalid *)
Lemma short_sctp_dropped dev my_mac my_addr c b from port : zlen b < 20 →
  ∃ c', sctp_udp_receive dev my_mac my_addr c (DatagramIn (Some b) (Some from) port) = Ok (None, c') ∧ su_invl_frame c' = u64 (su_invl_frame c + 1).
Proof. intros H. unfold sctp_udp_receive. cbn [di_addr di_bytes]. rewrite (proj2 (Z.ltb_lt _ 20)) by done. by eexists. Qed.

(** an empty packet has no address to go to *)
Lemma empty_packet_aborts c rc : sctp_udp_transmit c [] rc = Err bad_access.
Proof. reflexivity. Qed.
