(* ===== verification/Runtime.v ===== *)
(** * Clock, sleeping, random bytes and the log (src/time.cpp, src/utils.cpp, src/log.cpp)

    System calls are lists of what they return.  [nanosleep] is interrupted and says what is
    left; [getrandom] gives a part of what was asked for; a condition variable wakes up
    early, late or without reason.  The log file is a pointer: null, open, or closed but
    still pointed to.

    Shown: the clocks in micro- and milliseconds agree; [myusleep] sleeps exactly the time it
    is given, however often it is interrupted; [get_random] fills its buffer; a sleep that
    can be stopped says so exactly when it was; what is logged is what the levels allow.
    Lemmas show what happens to the pointer of the log file. *)
From S2P Require Import Prelude Str.
Open Scope Z_scope.

(** ** The clock *)

Record timespec := Timespec { tv_sec : Z; tv_nsec : Z }.

Definition get_us (ts : timespec) : Z := u64 (u64 (tv_sec ts) * 1000000 + u64 (Z.quot (tv_nsec ts) 1000)).
Definition get_ms (ts : timespec) : Z := u64 (u64 (tv_sec ts) * 1000 + u64 (Z.quot (tv_nsec ts) 1000000)).

Definition ts_ok (ts : timespec) : Prop := 0 ≤ tv_sec ts < 2 ^ 43 ∧ 0 ≤ tv_nsec ts < 1000000000.

Lemma u64_id x : 0 ≤ x < 18446744073709551616 → u64 x = x.
Proof. apply Z.mod_small. Qed.

Lemma clocks_agree ts : ts_ok ts → get_ms ts = get_us ts / 1000.
Proof.
  intros [Hs Hn]. unfold get_ms, get_us. rewrite !Z.quot_div_nonneg by lia.
  assert (0 ≤ tv_nsec ts / 1000 < 1000000) by (Z.to_euclidean_division_equations; lia).
  assert (tv_nsec ts / 1000000 = (tv_nsec ts / 1000) / 1000) as -> by (rewrite Z.div_div by lia; done).
  set (u := tv_nsec ts / 1000) in *. clearbody u. assert (0 ≤ u / 1000 < 1000) by (Z.to_euclidean_division_equations; lia).
  rewrite !u64_id; try lia; try (rewrite !u64_id; lia). Z.to_euclidean_division_equations; lia.
Qed.

(** ** Sleeping *)

Definition nanoseconds (ts : timespec) : Z := tv_sec ts * 1000000000 + tv_nsec ts.

(** a [nanosleep]: it slept all of its time, was interrupted with a time left, or failed *)
Inductive nap := nap_done | nap_intr (rem : timespec) | nap_error.

(** the times asked for, one for each call; without a further result the sleep is complete *)
Fixpoint sleep_loop (req : timespec) (naps : list nap) : list timespec :=
  match naps with
  | nap_intr rem :: naps' => req :: sleep_loop rem naps'
  | _ => [req]
  end.
Definition myusleep (us : Z) (naps : list nap) : list timespec :=
  sleep_loop (Timespec (us / 1000000) (us mod 1000000 * 1000)) naps.

(** what was slept in the calls: an interrupted one slept up to the time left *)
Fixpoint slept (req : timespec) (naps : list nap) : Z :=
  match naps with
  | nap_intr rem :: naps' => (nanoseconds req - nanoseconds rem) + slept rem naps'
  | nap_error :: _ => 0
  | _ => nanoseconds req
  end.

Lemma myusleep_time us naps : 0 ≤ us → Forall (λ n, n ≠ nap_error) naps →
  slept (Timespec (us / 1000000) (us mod 1000000 * 1000)) naps = us * 1000.
Proof.
  intros Hu F. assert (∀ req, slept req naps = nanoseconds req) as ->.
  - clear Hu us. induction F as [|n naps Hn F IH]; intros req; [done|]. destruct n as [|rem|]; [done| |done].
    cbn [slept]. rewrite IH. lia.
  - unfold nanoseconds. cbn [tv_sec tv_nsec]. Z.to_euclidean_division_equations. lia.
Qed.

(** [wait_until]: woken (after which [stop] is as given) or timed out *)
Inductive wake := woken (stop : bool) | timed_out (stop : bool).

(** the result, [None]: it still waits *)
Fixpoint sleep_waits (stop : bool) (wakes : list wake) : option bool :=
  if stop then Some true
  else match wakes with
       | [] => None
       | woken stop' :: wakes' => sleep_waits stop' wakes'
       | timed_out stop' :: _ => Some stop'
       end.

Definition wake_stop (w : wake) : bool := match w with woken s | timed_out s => s end.

(** a sleep returns true exactly when the flag was set at one of the moments it looked, and
    it returns at the latest when its time is over *)
Lemma sleep_result wakes stop s :
  (∀ i, (i < length wakes)%nat → ∃ b, wakes !! i = Some (woken b)) →
  sleep_waits stop (wakes ++ [timed_out s]) = Some (stop || existsb wake_stop wakes || s).
Proof.
  revert stop. induction wakes as [|w wakes IH]; intros stop H; [by destruct stop|].
  destruct (H O) as [b Hb]; [cbn; lia|]. injection Hb as ->. destruct stop; [done|]. cbn [app sleep_waits existsb wake_stop orb].
  rewrite IH; [done|]. intros i Hi. apply (H (S i)). cbn. lia.
Qed.

(** ** Random bytes *)

(** [getrandom]: some bytes, an interruption, an error *)
Inductive random_read := rnd_bytes (b : list Z) | rnd_intr | rnd_error.

(** fills [n] bytes; a piece has at least one byte and at most what was asked for *)
Fixpoint get_random (n : nat) (reads : list random_read) : res (list Z) :=
  match n with
  | O => Ok []
  | _ =>
      match reads with
      | [] => Err out_of_fuel
      | rnd_intr :: reads' => get_random n reads'
      | rnd_error :: _ => Err exit_failure
      | rnd_bytes b :: reads' => let* r := get_random (n - length (take n b)) reads' in Ok (take n b ++ r)
      end
  end.

Lemma get_random_fills n reads : Forall (λ r, r ≠ rnd_error) reads →
  (n ≤ length (reads ≫= λ r, match r with rnd_bytes b => b | _ => [] end))%nat →
  ∃ b, get_random n reads = Ok b ∧ length b = n.
Proof.
  intros F. revert n. induction F as [|r reads Hr F IH]; intros n Hn.
  - cbn in Hn. destruct n; [|lia]. by exists [].
  - destruct n as [|n]; [by exists []|]. rewrite bind_cons, length_app in Hn. cbn [get_random]. destruct r as [b| |]; [| |done].
    + destruct (IH (S n - length (take (S n) b))%nat) as (r & -> & L); [rewrite length_take; lia|].
      eexists. split; [done|]. rewrite length_app, length_take, L, length_take. lia.
    + apply IH. cbn in Hn. lia.
Qed.

(** ** The log *)

Inductive log_level := ll_debug | ll_info | ll_warning | ll_error.
Definition ll_nr (l : log_level) : Z := match l with ll_debug => 0 | ll_info => 1 | ll_warning => 2 | ll_error => 3 end.

(** [lfh] *)
Inductive log_file := no_file | open_file (name : str) | closed_file (name : str).

Record log := Log { logfile : str; log_level_file : log_level; log_level_screen : log_level; lfh : log_file }.

Definition setlog (l : log) (lf : str) (ll_file ll_screen : log_level) : res log :=
  match lfh l with
  | open_file f => Ok (Log lf ll_file ll_screen (closed_file f))
  | closed_file _ => Err bad_access
  | no_file => Ok (Log lf ll_file ll_screen no_file)
  end.

(** [fclose] of whatever the pointer is *)
Definition closelog (l : log) : res log :=
  match lfh l with
  | open_file _ => Ok (Log (logfile l) (log_level_file l) (log_level_screen l) no_file)
  | _ => Err bad_access
  end.

(** a line: whether it goes to the file (with its name) and to the screen; [creates] says
    whether the file can be opened *)
Definition dolog (creates : str → bool) (l : log) (ll : log_level) : res (option str * bool * log) :=
  if (ll_nr ll <? ll_nr (log_level_file l)) && (ll_nr ll <? ll_nr (log_level_screen l)) then Ok (None, false, l)
  else
    let* l :=
      match lfh l with
      | no_file =>
          if creates (logfile l) then Ok (Log (logfile l) (log_level_file l) (log_level_screen l) (open_file (logfile l)))
          else Err exit_failure
      | _ => Ok l
      end in
    let to_screen := ll_nr (log_level_screen l) <=? ll_nr ll in
    if ll_nr (log_level_file l) <=? ll_nr ll then
      match lfh l with
      | open_file f => Ok (Some f, to_screen, l)
      | _ => Err bad_access
      end
    else Ok (None, to_screen, l).

(** with a file that is open or not yet opened a line goes exactly where its level says *)
Lemma dolog_levels creates l ll :
  creates (logfile l) = true → (∀ f, lfh l ≠ closed_file f) →
  ∃ f l', dolog creates l ll =
    Ok (if ll_nr (log_level_file l) <=? ll_nr ll then Some f else None, ll_nr (log_level_screen l) <=? ll_nr ll, l') ∧
    (∀ f, lfh l' ≠ closed_file f) ∧ f = match lfh l with open_file f => f | _ => logfile l end.
Proof.
  intros Hc Hf. unfold dolog. destruct l as [name lf ls h]. cbn [log_level_file log_level_screen lfh logfile] in *.
  destruct (Z.ltb_spec (ll_nr ll) (ll_nr lf)), (Z.ltb_spec (ll_nr ll) (ll_nr ls)); cbn [andb];
    destruct h as [|f|f]; try (by destruct (Hf f)); rewrite ?Hc; cbn [res_bind log_level_file log_level_screen lfh];
    rewrite ?(proj2 (Z.leb_gt (ll_nr lf) (ll_nr ll))), ?(proj2 (Z.leb_le (ll_nr lf) (ll_nr ll))),
      ?(proj2 (Z.leb_gt (ll_nr ls) (ll_nr ll))), ?(proj2 (Z.leb_le (ll_nr ls) (ll_nr ll))) by lia;
    do 2 eexists; split_and!; try done.
Qed.

(** after [setlog] an open log is written to a closed file *)
Lemma setlog_dangling creates l name ll f :
  lfh l = open_file f → (let* l := setlog l name ll ll in dolog creates l ll) = Err bad_access.
Proof.
  intros H. unfold setlog. rewrite H. cbn [res_bind]. unfold dolog. cbn [log_level_file log_level_screen lfh logfile].
  rewrite Z.ltb_irrefl. cbn [andb res_bind log_level_file log_level_screen lfh]. by rewrite Z.leb_refl.
Qed.

(** when nothing was logged there is no file to close at the end *)
Lemma closelog_unused l : lfh l = no_file → closelog l = Err bad_access.
Proof. intros H. unfold closelog. by rewrite H. Qed.
