(* ===== verification/Config.v ===== *)
(** * Settings and the map of the network (src/main.cpp, src/graphviz.cpp)

    The configuration is read by libconfig, which is the class [Libconfig] here: a setting has
    named parts, elements, and a value of some type.  [cfg_str], [cfg_int] and [cfg_bool] read
    a part with a default; what libconfig throws is either caught by them or ends the program.
    [cvalue] is a small implementation of the class, the syntax tree of a configuration file.

    [graphviz] collects the nodes and connections the program writes as a graph when it is
    configured. *)
From stdpp Require Import strings sorting.
From S2P Require Import Prelude Str Runtime.
Open Scope Z_scope.

(** ** Settings *)

Class Libconfig (setting : Type) := {
  cfg_lookup : setting → str → option setting;   (* [None]: SettingNotFoundException *)
  as_string : setting → option str;              (* [None]: SettingTypeException *)
  as_int : setting → option Z;
  as_bool : setting → option bool;
  cfg_elements : setting → list setting;         (* [getLength] and [operator[]] *)
}.

Section Settings.
Context {setting : Type} `{!Libconfig setting}.

(** [root.lookup(...)] where nothing catches the exception *)
Definition cfg_required (s : setting) (key : str) : res setting :=
  match cfg_lookup s key with Some v => Ok v | None => Err config_exception end.

(** a wrong type is not caught here *)
Definition cfg_str (s : setting) (key : str) (optional : bool) (def : str) : res str :=
  match cfg_lookup s key with
  | Some v => match as_string v with Some t => Ok t | None => Err config_exception end
  | None => if optional then Ok def else Err exit_failure
  end.

Definition cfg_int (s : setting) (key : str) (optional : bool) (def : Z) : res Z :=
  match cfg_lookup s key with
  | Some v => match as_int v with Some n => Ok n | None => Err exit_failure end
  | None => if optional then Ok def else Err exit_failure
  end.

Definition cfg_bool (s : setting) (key : str) (optional : bool) (def : bool) : res bool :=
  match cfg_lookup s key with
  | Some v => match as_bool v with Some b => Ok b | None => Err exit_failure end
  | None => if optional then Ok def else Err exit_failure
  end.

Lemma cfg_str_missing s key def : cfg_lookup s key = None → cfg_str s key false def = Err exit_failure.
Proof. unfold cfg_str. by intros ->. Qed.
End Settings.

#[local] Unset Elimination Schemes.

(** the tree of a file; a part is found by its name *)
Inductive cvalue :=
  | c_string (t : str)
  | c_int (n : Z)
  | c_bool (b : bool)
  | c_group (parts : list (str * cvalue))
  | c_list (elements : list cvalue).

#[local] Set Elimination Schemes.

Fixpoint find_part (parts : list (str * cvalue)) (key : str) : option cvalue :=
  match parts with
  | [] => None
  | (k, v) :: parts' => if bool_decide (k = key) then Some v else find_part parts' key
  end.

#[global] Instance cvalue_config : Libconfig cvalue := {|
  cfg_lookup s key := match s with c_group parts => find_part parts key | _ => None end;
  as_string s := match s with c_string t => Some t | _ => None end;
  as_int s := match s with c_int n => Some n | _ => None end;
  as_bool s := match s with c_bool b => Some b | _ => None end;
  cfg_elements s := match s with c_list l => l | c_group parts => snd <$> parts | _ => [] end;
|}.

(** ** Levels of the log *)

Definition parse_ll (ll : str) : log_level :=
  if bool_decide (ll = lit "debug") then ll_debug
  else if bool_decide (ll = lit "info") then ll_info
  else if bool_decide (ll = lit "warning") then ll_warning
  else if bool_decide (ll = lit "error") then ll_error
  else ll_debug.

(** ** The map *)

(** [std::set] of pairs of names *)
Record graphviz := Graphviz { g_filename : str; g_connections : gset (str * str); g_nodes : gset (str * str) }.

Definition new_graphviz (filename : str) : graphviz := Graphviz filename ∅ ∅.

(** [add_node] returns its name; the connections are made with it *)
Definition add_node (g : graphviz) (name meta : str) : graphviz :=
  Graphviz (g_filename g) (g_connections g) ({[ (name, meta) ]} ∪ g_nodes g).
Definition add_connection (g : graphviz) (from to : str) : graphviz :=
  Graphviz (g_filename g) ({[ (from, to) ]} ∪ g_connections g) (g_nodes g).

(** the order of pairs of strings *)
Definition pair_leb (p q : str * str) : bool :=
  if bool_decide (p.1 = q.1) then str_leb p.2 q.2 else str_leb p.1 q.1.
Definition pair_le (p q : str * str) : Prop := pair_leb p q = true.
#[global] Instance pair_le_dec : RelDecision pair_le.
Proof. intros p q. unfold pair_le. apply _. Defined.

(** the pairs of a set in the order in which a loop finds them *)
Definition pairs_in_order (s : gset (str * str)) : list (str * str) := merge_sort pair_le (elements s).

Definition quoted (t : str) : str := [34] ++ t ++ [34].
Definition node_line (n : str * str) : str := [9] ++ quoted n.1 ++ lit " [label=" ++ quoted n.2 ++ lit "]" ++ [10].
Definition connection_line (c : str * str) : str := [9] ++ quoted c.1 ++ lit " -> " ++ quoted c.2 ++ [10].

(** [~graphviz]: the contents of the file, if one is wanted; [creates] says whether it can be
    made *)
Definition graphviz_file (creates : str → bool) (g : graphviz) : res (option str) :=
  if bool_decide (g_filename g = []) then Ok None
  else if negb (creates (c_str (g_filename g))) then Err exit_failure
  else
    Ok (Some (lit "digraph {" ++ [10] ++ mjoin (node_line <$> pairs_in_order (g_nodes g)) ++
              mjoin (connection_line <$> pairs_in_order (g_connections g)) ++ lit "}" ++ [10])).

(** every pair of the set is there once *)
Lemma pairs_in_order_perm s : pairs_in_order s ≡ₚ elements s.
Proof. apply merge_sort_Permutation. Qed.

Lemma str_leb_total a b : str_leb a b = true ∨ str_leb b a = true.
Proof.
  revert b. induction a as [|x a IH]; intros [|y b]; cbn [str_leb]; auto.
  destruct (Z.ltb_spec x y), (Z.ltb_spec y x), (Z.eqb_spec x y), (Z.eqb_spec y x); cbn; auto; lia.
Qed.

#[global] Instance pair_le_total : Total pair_le.
Proof.
  intros p q. unfold pair_le, pair_leb. destruct (decide (p.1 = q.1)) as [E|E].
  - rewrite !bool_decide_true by done. apply str_leb_total.
  - rewrite !bool_decide_false by done. apply str_leb_total.
Qed.

(** and the lines are in the order of their names *)
Lemma pairs_in_order_sorted s : Sorted pair_le (pairs_in_order s).
Proof. apply (Sorted_merge_sort pair_le). Qed.
