(* ===== verification/Stack.v ===== *)
(** * The objects of the program and how they are linked (src/main.cpp, src/phys.cpp,
    src/network_layer.cpp, src/tcp.cpp, src/udp.cpp, src/sctp.cpp)

    [main] makes devices, network layers, transport layers, applications and services and
    links them by pointers.  The memory is a list per kind of object, in the order in which
    they are made; a pointer is the place in such a list, counted from one, and zero is the
    null pointer.  [program] has the objects and the variables of [main]; the functions that
    change them are in a monad of state and faults.

    Here are the objects, the functions that make and driver them, and the functions of main.cpp
    that offer a service on every device. *)
From stdpp Require Import strings.
From S2P Require Import Prelude Str Runtime AnyAddr Net AddressCache Arp Router SnmpData Dns Phys.
From S2P Require Import Udp Sctp TcpSession Tcp Config.
Open Scope Z_scope.

(** ** Pointers *)

Definition deref {A} (l : list A) (p : Z) : option A := if p <=? 0 then None else l !! Z.to_nat (p - 1).
Definition update_at {A} (l : list A) (p : Z) (f : A → A) : list A := if p <=? 0 then l else alter f (Z.to_nat (p - 1)) l.
(** where the next object will be *)
Definition next {A} (l : list A) : Z := zlen l + 1.
Definition nullptr : Z := 0.

(** ** Devices *)

(** the constructors of the drivers *)
Inductive driver :=
  | phys_tap (dev_name : str) (uid gid mtu_size : Z)
  | phys_promiscuous (dev_name : str)
  | phys_vpn_insertion_point (dev_name : str) (my_mac : any_addr)
  | phys_kiss (descr : str) (my_callsign : any_addr) (beacon : option (str * Z)) (add_callsign_repeaters : bool)
  | phys_slip (dev_name : str) (bps : Z) (my_mac : any_addr)
  | phys_ppp (dev_name : str) (bps : Z) (my_mac : any_addr) (emulate_modem_xp : bool) (opponent_address : any_addr)
  | phys_sctp_udp (my_mac my_addr : any_addr) (port : Z).

(** [%d] *)
Definition fmt_int (n : Z) : str := if n <? 0 then 45 :: fmt_dec (- n) else fmt_dec n.

(** the name given to the constructor of [phys] *)
Definition link_name (l : driver) : str :=
  match l with
  | phys_tap n _ _ _ => lit "tap-" ++ n
  | phys_promiscuous n => lit "promiscuous-" ++ n
  | phys_vpn_insertion_point n _ => lit "vpn-" ++ n
  | phys_kiss d _ _ _ => lit "kiss-" ++ d
  | phys_slip n _ _ => lit "slip-" ++ n
  | phys_ppp n _ _ _ _ => lit "ppp-" ++ n
  | phys_sctp_udp _ _ port => lit "sctp(udp)-" ++ fmt_int port
  end.

(** a device: its base class, its driver, the end point of a VPN, and whether its thread runs *)
Record device := Device { dv_phys : phys; dv_link : driver; dv_endpoint : Z; dv_started : bool }.

(** ** Layers *)

Inductive layer_class :=
  | cl_arp (a : arp)
  | cl_ndp (c : address_cache) (icmp6_ : Z)
  | cl_ipv4 (iarp : Z) (myip : any_addr) (forward : bool) (n_threads : Z)
  | cl_ipv6 (indp : Z) (myip : any_addr) (n_threads : Z)
  | cl_lldp (my_mac mgmt_addr : any_addr) (interface_idx : Z).

(** [network_layer] *)
Record net_layer := NetLayer {
  nl_class : layer_class;
  nl_default_pdev : Z;
  nl_prot_map : gmap Z Z;
  nl_icmp : Z;
}.

Inductive transport_class :=
  | cl_icmp4 (n_threads : Z)
  | cl_icmp6 (my_mac my_ip : any_addr) (interface n_threads : Z)
  | cl_tcp (t : tcp) (icmp_ n_threads : Z)
  | cl_sctp (t : sctp) (icmp_ n_threads : Z)
  | cl_udp (u : udp) (icmp_ n_threads : Z).

(** [transport_layer] *)
Record transport := Transport { tl_class : transport_class; tl_idev : Z }.

(** ** Applications: objects that get datagrams of UDP, and handlers of streams *)

Inductive application :=
  | app_mdns
  | app_dns (u : Z) (my_ip dns_ip : any_addr)
  | app_ntp (u : Z) (my_ip upstream_ntp_server : any_addr) (broadcast : bool)
  | app_vpn (phys u : Z) (my_ip : any_addr) (my_port : Z) (peer_ip : any_addr) (peer_port : Z) (psk : str)
  | app_sip (u : Z) (sample mailbox_path mb_recv_exec upstream_server username password : str)
            (myip : any_addr) (myport interval : Z)
  | app_snmp (u : Z)
  | app_syslog.

Inductive service :=
  | http_service (web_root logfile : str) (is_https : bool) (php_cgi private_key certificate : str)
  | nrpe_service
  | vnc_service
  | mqtt_service
  | echo_service
  | irc_service (local_host : str)
  | mynetperf_service.

#[global] Instance service_eq_dec : EqDecision service.
Proof. solve_decision. Defined.

(** [socks_proxy]: where it listens, its TCP layer and its resolver *)
Record socks_proxy := SocksProxy { so_interface : str; so_port : Z; so_tcp : Z; so_dns : Z }.

(** ** The state of main *)

Record program := Program {
  w_devs : list device;
  w_layers : list net_layer;
  w_transports : list transport;
  w_apps : list application;
  w_services : list service;
  w_socks : list socks_proxy;
  (* used for clean-up *)
  w_protocols : list Z;
  w_transport_layers : list Z;
  w_applications : list Z;
  w_streams : list Z;                              (* stream_session_handlers *)
  (* the router *)
  w_ip_table : list ip_router_entry;
  w_ax25_table : gmap (addr_family * list Z) ax25_router_entry;
  w_ax25_default : Z;
  (* names *)
  w_mdns : list mdns_entry;
  w_dns4 : gmap (addr_family * list Z) Z;
  w_dns6 : gmap (addr_family * list Z) Z;
  w_vpns : list (str * Z);                         (* [std::map], in the order of the names *)
  w_vpn_targets : list Z;
  w_frame_buffer : bool;                           (* [vnc_init] made the frame buffer *)
  w_sd : list snmp_data_type;
  w_graph : graphviz;
}.

Definition empty_world (g : graphviz) : program := Program [] [] [] [] [] [] [] [] [] [] [] ∅ nullptr [] ∅ ∅ [] [] false [] g.

(** changing a field *)
Definition on_devs (f : list device → list device) (w : program) : program :=
  Program (f (w_devs w)) (w_layers w) (w_transports w) (w_apps w) (w_services w) (w_socks w) (w_protocols w) (w_transport_layers w) (w_applications w) (w_streams w) (w_ip_table w) (w_ax25_table w) (w_ax25_default w) (w_mdns w) (w_dns4 w) (w_dns6 w) (w_vpns w) (w_vpn_targets w) (w_frame_buffer w) (w_sd w) (w_graph w).
Definition on_layers (f : list net_layer → list net_layer) (w : program) : program :=
  Program (w_devs w) (f (w_layers w)) (w_transports w) (w_apps w) (w_services w) (w_socks w) (w_protocols w) (w_transport_layers w) (w_applications w) (w_streams w) (w_ip_table w) (w_ax25_table w) (w_ax25_default w) (w_mdns w) (w_dns4 w) (w_dns6 w) (w_vpns w) (w_vpn_targets w) (w_frame_buffer w) (w_sd w) (w_graph w).
Definition on_transports (f : list transport → list transport) (w : program) : program :=
  Program (w_devs w) (w_layers w) (f (w_transports w)) (w_apps w) (w_services w) (w_socks w) (w_protocols w) (w_transport_layers w) (w_applications w) (w_streams w) (w_ip_table w) (w_ax25_table w) (w_ax25_default w) (w_mdns w) (w_dns4 w) (w_dns6 w) (w_vpns w) (w_vpn_targets w) (w_frame_buffer w) (w_sd w) (w_graph w).
Definition on_apps (f : list application → list application) (w : program) : program :=
  Program (w_devs w) (w_layers w) (w_transports w) (f (w_apps w)) (w_services w) (w_socks w) (w_protocols w) (w_transport_layers w) (w_applications w) (w_streams w) (w_ip_table w) (w_ax25_table w) (w_ax25_default w) (w_mdns w) (w_dns4 w) (w_dns6 w) (w_vpns w) (w_vpn_targets w) (w_frame_buffer w) (w_sd w) (w_graph w).
Definition on_services (f : list service → list service) (w : program) : program :=
  Program (w_devs w) (w_layers w) (w_transports w) (w_apps w) (f (w_services w)) (w_socks w) (w_protocols w) (w_transport_layers w) (w_applications w) (w_streams w) (w_ip_table w) (w_ax25_table w) (w_ax25_default w) (w_mdns w) (w_dns4 w) (w_dns6 w) (w_vpns w) (w_vpn_targets w) (w_frame_buffer w) (w_sd w) (w_graph w).
Definition on_socks (f : list socks_proxy → list socks_proxy) (w : program) : program :=
  Program (w_devs w) (w_layers w) (w_transports w) (w_apps w) (w_services w) (f (w_socks w)) (w_protocols w) (w_transport_layers w) (w_applications w) (w_streams w) (w_ip_table w) (w_ax25_table w) (w_ax25_default w) (w_mdns w) (w_dns4 w) (w_dns6 w) (w_vpns w) (w_vpn_targets w) (w_frame_buffer w) (w_sd w) (w_graph w).
Definition on_protocols (f : list Z → list Z) (w : program) : program :=
  Program (w_devs w) (w_layers w) (w_transports w) (w_apps w) (w_services w) (w_socks w) (f (w_protocols w)) (w_transport_layers w) (w_applications w) (w_streams w) (w_ip_table w) (w_ax25_table w) (w_ax25_default w) (w_mdns w) (w_dns4 w) (w_dns6 w) (w_vpns w) (w_vpn_targets w) (w_frame_buffer w) (w_sd w) (w_graph w).
Definition on_transport_layers (f : list Z → list Z) (w : program) : program :=
  Program (w_devs w) (w_layers w) (w_transports w) (w_apps w) (w_services w) (w_socks w) (w_protocols w) (f (w_transport_layers w)) (w_applications w) (w_streams w) (w_ip_table w) (w_ax25_table w) (w_ax25_default w) (w_mdns w) (w_dns4 w) (w_dns6 w) (w_vpns w) (w_vpn_targets w) (w_frame_buffer w) (w_sd w) (w_graph w).
Definition on_applications (f : list Z → list Z) (w : program) : program :=
  Program (w_devs w) (w_layers w) (w_transports w) (w_apps w) (w_services w) (w_socks w) (w_protocols w) (w_transport_layers w) (f (w_applications w)) (w_streams w) (w_ip_table w) (w_ax25_table w) (w_ax25_default w) (w_mdns w) (w_dns4 w) (w_dns6 w) (w_vpns w) (w_vpn_targets w) (w_frame_buffer w) (w_sd w) (w_graph w).
Definition on_streams (f : list Z → list Z) (w : program) : program :=
  Program (w_devs w) (w_layers w) (w_transports w) (w_apps w) (w_services w) (w_socks w) (w_protocols w) (w_transport_layers w) (w_applications w) (f (w_streams w)) (w_ip_table w) (w_ax25_table w) (w_ax25_default w) (w_mdns w) (w_dns4 w) (w_dns6 w) (w_vpns w) (w_vpn_targets w) (w_frame_buffer w) (w_sd w) (w_graph w).
Definition on_ip_table (f : list ip_router_entry → list ip_router_entry) (w : program) : program :=
  Program (w_devs w) (w_layers w) (w_transports w) (w_apps w) (w_services w) (w_socks w) (w_protocols w) (w_transport_layers w) (w_applications w) (w_streams w) (f (w_ip_table w)) (w_ax25_table w) (w_ax25_default w) (w_mdns w) (w_dns4 w) (w_dns6 w) (w_vpns w) (w_vpn_targets w) (w_frame_buffer w) (w_sd w) (w_graph w).
Definition on_ax25_table (f : gmap (addr_family * list Z) ax25_router_entry → gmap (addr_family * list Z) ax25_router_entry) (w : program) : program :=
  Program (w_devs w) (w_layers w) (w_transports w) (w_apps w) (w_services w) (w_socks w) (w_protocols w) (w_transport_layers w) (w_applications w) (w_streams w) (w_ip_table w) (f (w_ax25_table w)) (w_ax25_default w) (w_mdns w) (w_dns4 w) (w_dns6 w) (w_vpns w) (w_vpn_targets w) (w_frame_buffer w) (w_sd w) (w_graph w).
Definition on_ax25_default (f : Z → Z) (w : program) : program :=
  Program (w_devs w) (w_layers w) (w_transports w) (w_apps w) (w_services w) (w_socks w) (w_protocols w) (w_transport_layers w) (w_applications w) (w_streams w) (w_ip_table w) (w_ax25_table w) (f (w_ax25_default w)) (w_mdns w) (w_dns4 w) (w_dns6 w) (w_vpns w) (w_vpn_targets w) (w_frame_buffer w) (w_sd w) (w_graph w).
Definition on_mdns (f : list mdns_entry → list mdns_entry) (w : program) : program :=
  Program (w_devs w) (w_layers w) (w_transports w) (w_apps w) (w_services w) (w_socks w) (w_protocols w) (w_transport_layers w) (w_applications w) (w_streams w) (w_ip_table w) (w_ax25_table w) (w_ax25_default w) (f (w_mdns w)) (w_dns4 w) (w_dns6 w) (w_vpns w) (w_vpn_targets w) (w_frame_buffer w) (w_sd w) (w_graph w).
Definition on_dns4 (f : gmap (addr_family * list Z) Z → gmap (addr_family * list Z) Z) (w : program) : program :=
  Program (w_devs w) (w_layers w) (w_transports w) (w_apps w) (w_services w) (w_socks w) (w_protocols w) (w_transport_layers w) (w_applications w) (w_streams w) (w_ip_table w) (w_ax25_table w) (w_ax25_default w) (w_mdns w) (f (w_dns4 w)) (w_dns6 w) (w_vpns w) (w_vpn_targets w) (w_frame_buffer w) (w_sd w) (w_graph w).
Definition on_dns6 (f : gmap (addr_family * list Z) Z → gmap (addr_family * list Z) Z) (w : program) : program :=
  Program (w_devs w) (w_layers w) (w_transports w) (w_apps w) (w_services w) (w_socks w) (w_protocols w) (w_transport_layers w) (w_applications w) (w_streams w) (w_ip_table w) (w_ax25_table w) (w_ax25_default w) (w_mdns w) (w_dns4 w) (f (w_dns6 w)) (w_vpns w) (w_vpn_targets w) (w_frame_buffer w) (w_sd w) (w_graph w).
Definition on_vpns (f : list (str * Z) → list (str * Z)) (w : program) : program :=
  Program (w_devs w) (w_layers w) (w_transports w) (w_apps w) (w_services w) (w_socks w) (w_protocols w) (w_transport_layers w) (w_applications w) (w_streams w) (w_ip_table w) (w_ax25_table w) (w_ax25_default w) (w_mdns w) (w_dns4 w) (w_dns6 w) (f (w_vpns w)) (w_vpn_targets w) (w_frame_buffer w) (w_sd w) (w_graph w).
Definition on_vpn_targets (f : list Z → list Z) (w : program) : program :=
  Program (w_devs w) (w_layers w) (w_transports w) (w_apps w) (w_services w) (w_socks w) (w_protocols w) (w_transport_layers w) (w_applications w) (w_streams w) (w_ip_table w) (w_ax25_table w) (w_ax25_default w) (w_mdns w) (w_dns4 w) (w_dns6 w) (w_vpns w) (f (w_vpn_targets w)) (w_frame_buffer w) (w_sd w) (w_graph w).
Definition on_frame_buffer (f : bool → bool) (w : program) : program :=
  Program (w_devs w) (w_layers w) (w_transports w) (w_apps w) (w_services w) (w_socks w) (w_protocols w) (w_transport_layers w) (w_applications w) (w_streams w) (w_ip_table w) (w_ax25_table w) (w_ax25_default w) (w_mdns w) (w_dns4 w) (w_dns6 w) (w_vpns w) (w_vpn_targets w) (f (w_frame_buffer w)) (w_sd w) (w_graph w).
Definition on_sd (f : list snmp_data_type → list snmp_data_type) (w : program) : program :=
  Program (w_devs w) (w_layers w) (w_transports w) (w_apps w) (w_services w) (w_socks w) (w_protocols w) (w_transport_layers w) (w_applications w) (w_streams w) (w_ip_table w) (w_ax25_table w) (w_ax25_default w) (w_mdns w) (w_dns4 w) (w_dns6 w) (w_vpns w) (w_vpn_targets w) (w_frame_buffer w) (f (w_sd w)) (w_graph w).
Definition on_graph (f : graphviz → graphviz) (w : program) : program :=
  Program (w_devs w) (w_layers w) (w_transports w) (w_apps w) (w_services w) (w_socks w) (w_protocols w) (w_transport_layers w) (w_applications w) (w_streams w) (w_ip_table w) (w_ax25_table w) (w_ax25_default w) (w_mdns w) (w_dns4 w) (w_dns6 w) (w_vpns w) (w_vpn_targets w) (w_frame_buffer w) (w_sd w) (f (w_graph w)).

(** ** Computations *)

Definition M (A : Type) : Type := program → res (A * program).

#[global] Instance M_ret : MRet M := λ A a w, Ok (a, w).
#[global] Instance M_bind : MBind M := λ A B k m w, res_bind (m w) (λ r, k r.1 r.2).

Definition lift {A} (r : res A) : M A := λ w, res_map (λ a, (a, w)) r.
Definition modify (f : program → program) : M unit := λ w, Ok (tt, f w).
Definition gets {A} (f : program → A) : M A := λ w, Ok (f w, w).
(** a loop *)
Fixpoint for_each {A} (l : list A) (body : A → M unit) : M unit :=
  match l with [] => mret tt | x :: l' => body x ;; for_each l' body end.
Fixpoint for_each_from {A} (i : Z) (l : list A) (body : Z → A → M unit) : M unit :=
  match l with [] => mret tt | x :: l' => body i x ;; for_each_from (i + 1) l' body end.
(** a block that is left when its setting is not found *)
Definition when_some {A} (o : option A) (body : A → M unit) : M unit :=
  match o with Some a => body a | None => mret tt end.

(** ** Making objects *)

Definition new_device (opens : driver → bool) (dev_index : Z) (l : driver) : M Z := λ w,
  if opens l then
    Ok (next (w_devs w), on_devs (λ ds, ds ++ [Device (new_phys dev_index (link_name l)) l nullptr false]) w)
  else Err exit_failure.
Definition new_layer (c : layer_class) : M Z := λ w,
  Ok (next (w_layers w), on_layers (λ ls, ls ++ [NetLayer c nullptr ∅ nullptr]) w).
Definition new_transport (c : transport_class) : M Z := λ w,
  Ok (next (w_transports w), on_transports (λ ts, ts ++ [Transport c nullptr]) w).
Definition new_app (a : application) : M Z := λ w, Ok (next (w_apps w), on_apps (λ l, l ++ [a]) w).
Definition new_service (s : service) : M Z := λ w, Ok (next (w_services w), on_services (λ l, l ++ [s]) w).

Definition new_tcp : tcp := Tcp ∅ ∅ ∅ [].
Definition new_sctp : sctp := Sctp ∅ ∅.
Definition new_udp : udp := Udp ∅ ∅ 0 0.
Definition new_arp (interface : Z) (my_mac my_ip : any_addr) : arp := Arp my_mac my_ip interface empty_cache ∅ 0 0.

(** the node and connection of the map *)
Definition draw_node (name meta : str) : M unit := modify (on_graph (λ g, add_node g name meta)).
Definition draw_connection (from to : str) : M unit := modify (on_graph (λ g, add_connection g from to)).
(** [g->add_connection(g->add_node(name, meta), to)] *)
Definition draw_linked (name meta to : str) : M unit := draw_node name meta ;; draw_connection name to.

Definition sd_register (oid : str) (v : tree_value) : M unit := λ w,
  let* d := register_oid (w_sd w) oid v in Ok (tt, on_sd (λ _, d) w).

(** ** Linking objects *)

Definition with_phys (f : phys → phys) (d : device) : device := Device (f (dv_phys d)) (dv_link d) (dv_endpoint d) (dv_started d).
Definition with_endpoint (v : Z) (d : device) : device := Device (dv_phys d) (dv_link d) v (dv_started d).
Definition started (d : device) : device := Device (dv_phys d) (dv_link d) (dv_endpoint d) true.

Definition with_default_pdev (p : Z) (l : net_layer) : net_layer := NetLayer (nl_class l) p (nl_prot_map l) (nl_icmp l).
Definition with_icmp (p : Z) (l : net_layer) : net_layer := NetLayer (nl_class l) (nl_default_pdev l) (nl_prot_map l) p.
(** [prot_map.insert] *)
Definition with_protocol (protocol p : Z) (l : net_layer) : net_layer :=
  NetLayer (nl_class l) (nl_default_pdev l)
    (match nl_prot_map l !! u8 protocol with Some _ => nl_prot_map l | None => <[u8 protocol := p]> (nl_prot_map l) end)
    (nl_icmp l).
Definition with_class (f : layer_class → layer_class) (l : net_layer) : net_layer :=
  NetLayer (f (nl_class l)) (nl_default_pdev l) (nl_prot_map l) (nl_icmp l).
Definition with_idev (p : Z) (t : transport) : transport := Transport (tl_class t) p.

(** [phys::register_protocol]: the layer is told, also when the type was taken *)
Definition register_layer (dev ether_type layer : Z) : M unit :=
  modify (on_devs (λ ds, update_at ds dev (with_phys (λ d, phys_register_protocol d ether_type layer)))) ;;
  modify (on_layers (λ ls, update_at ls layer (with_default_pdev dev))).
(** [network_layer::register_protocol] *)
Definition register_transport (layer protocol transport : Z) : M unit :=
  modify (on_layers (λ ls, update_at ls layer (with_protocol protocol transport))) ;;
  modify (on_transports (λ ts, update_at ts transport (with_idev layer))).
Definition register_icmp (layer icmp_ : Z) : M unit := modify (on_layers (λ ls, update_at ls layer (with_icmp icmp_))).
(** [ndp::register_icmp6] *)
Definition register_icmp6 (ndp_ icmp6_ : Z) : M unit :=
  modify (on_layers (λ ls, update_at ls ndp_ (with_class (λ c, match c with cl_ndp ca _ => cl_ndp ca icmp6_ | c => c end)))).

(** [add_static_entry] of an [arp] or [ndp] *)
Definition resolver_add_static (now resolver dev : Z) (mac_ ip : any_addr) : M unit := λ w,
  match deref (w_layers w) resolver with
  | Some l =>
      match nl_class l with
      | cl_arp a =>
          let* c := add_static_entry now (acache a) dev mac_ ip in
          Ok (tt, on_layers (λ ls, update_at ls resolver (with_class (λ _, cl_arp (with_cache a c)))) w)
      | cl_ndp ca i =>
          let* c := add_static_entry now ca dev mac_ ip in
          Ok (tt, on_layers (λ ls, update_at ls resolver (with_class (λ _, cl_ndp c i))) w)
      | _ => Err bad_access
      end
  | None => Err bad_access
  end.

(** ** Finding layers *)

(** [dynamic_cast<ipv4 *>(dev->get_protocol(0x0800))] and the like; [None] is the null pointer *)
Definition ipv4_of (w : program) (d : device) : option Z :=
  match phys_get_protocol (dv_phys d) 0x0800 with
  | Some p => match nl_class <$> deref (w_layers w) p with Some (cl_ipv4 _ _ _ _) => Some p | _ => None end
  | None => None
  end.
Definition ipv6_of (w : program) (d : device) : option Z :=
  match phys_get_protocol (dv_phys d) 0x86dd with
  | Some p => match nl_class <$> deref (w_layers w) p with Some (cl_ipv6 _ _ _) => Some p | _ => None end
  | None => None
  end.

Definition get_transport_layer (w : program) (layer protocol : Z) : option Z :=
  match deref (w_layers w) layer with Some l => nl_prot_map l !! u8 protocol | None => None end.

Definition tcp_of (w : program) (layer : Z) : option Z :=
  match get_transport_layer w layer 0x06 with
  | Some p => match tl_class <$> deref (w_transports w) p with Some (cl_tcp _ _ _) => Some p | _ => None end
  | None => None
  end.
Definition udp_of (w : program) (layer : Z) : option Z :=
  match get_transport_layer w layer 0x11 with
  | Some p => match tl_class <$> deref (w_transports w) p with Some (cl_udp _ _ _) => Some p | _ => None end
  | None => None
  end.
Definition sctp_of (w : program) (layer : Z) : option Z :=
  match get_transport_layer w layer 0x84 with
  | Some p => match tl_class <$> deref (w_transports w) p with Some (cl_sctp _ _ _) => Some p | _ => None end
  | None => None
  end.

(** [get_addr] of an IPv4 layer *)
Definition layer_addr (w : program) (layer : Z) : any_addr :=
  match nl_class <$> deref (w_layers w) layer with Some (cl_ipv4 _ a _ _) => a | _ => unset_addr end.

(** ** Handlers of ports *)

Definition stream_handler (s : Z) : port_handler := PortHandler s true true true.
Definition sctp_stream_handler (s : Z) : sctp_handler := SctpHandler s true true.

Definition on_tcp (f : tcp → tcp) (t : transport) : transport :=
  Transport (match tl_class t with cl_tcp u i n => cl_tcp (f u) i n | c => c end) (tl_idev t).
Definition on_sctp (f : sctp → sctp) (t : transport) : transport :=
  Transport (match tl_class t with cl_sctp u i n => cl_sctp (f u) i n | c => c end) (tl_idev t).
Definition on_udp (f : udp → udp) (t : transport) : transport :=
  Transport (match tl_class t with cl_udp u i n => cl_udp (f u) i n | c => c end) (tl_idev t).

(** [tph.init]: only [vnc_init] does something *)
Definition run_init (s : Z) (w : program) : program :=
  match deref (w_services w) s with Some vnc_service => on_frame_buffer (λ _, true) w | _ => w end.

Definition add_tcp_handler (t port s : Z) (w : program) : program :=
  on_transports (λ ts, update_at ts t (on_tcp (λ u, add_handler u port (stream_handler s)))) (run_init s w).
Definition add_sctp_handler (t port s : Z) (w : program) : program :=
  on_transports (λ ts, update_at ts t (on_sctp (λ u, sctp_add_handler u port (sctp_stream_handler s)))) (run_init s w).
Definition add_udp_handler (u port app : Z) (w : program) : program :=
  on_transports (λ ts, update_at ts u (on_udp (λ u, udp_add_handler u port app))) w.

(** [if (t4) t4->add_handler(port, tph)] behind [if (i4)] *)
Definition offer (layer_of : program → device → option Z) (transport_of : program → Z → option Z)
    (add : Z → program → program) (d : device) (w : program) : program :=
  match layer_of w d with
  | Some i => match transport_of w i with Some t => add t w | None => w end
  | None => w
  end.

Definition register_tcp_service (s port : Z) : M unit := modify (λ w,
  foldl (λ w d, offer ipv6_of tcp_of (λ t, add_tcp_handler t port s) d
                  (offer ipv4_of tcp_of (λ t, add_tcp_handler t port s) d w)) w (w_devs w)).
Definition register_sctp_service (s port : Z) : M unit := modify (λ w,
  foldl (λ w d, offer ipv6_of sctp_of (λ t, add_sctp_handler t port s) d
                  (offer ipv4_of sctp_of (λ t, add_sctp_handler t port s) d w)) w (w_devs w)).

(** the settings of a service may name it *)
Definition register_mdns_service {setting} `{!Libconfig setting} (port : Z) (settings : setting) : M unit :=
  match cfg_lookup settings (lit "mdns") with
  | None => mret tt
  | Some v =>
      match as_string v with
      | None => lift (Err config_exception)
      | Some hostname => modify (λ w,
          foldl (λ w d, offer ipv4_of udp_of (λ u, on_mdns (λ l, add_protocol l (MdnsEntry u port hostname))) d w) w (w_devs w))
      end
  end.

(** [get_client_parameters]: the device with an address, its TCP and its UDP *)
Fixpoint get_client_parameters (w : program) (devs : list device) (p : Z) (a : any_addr) : res (Z * Z * Z) :=
  match devs with
  | [] => Ok (nullptr, nullptr, nullptr)
  | d :: devs' =>
      match ipv4_of w d with
      | Some i4 =>
          let* same := AnyAddr.eqb (layer_addr w i4) a in
          if same then Ok (p, default nullptr (tcp_of w i4), default nullptr (udp_of w i4))
          else get_client_parameters w devs' (p + 1) a
      | None => get_client_parameters w devs' (p + 1) a
      end
  end.

Definition get_http_handler {setting} `{!Libconfig setting} (s_http : setting) : M (Z * Z) :=
  web_root ← lift (cfg_str s_http (lit "web-root") false []);
  web_logfile ← lift (cfg_str s_http (lit "web-logfile") false []);
  php_cgi_bin ← lift (cfg_str s_http (lit "php-cgi") true []);
  port ← lift (cfg_int s_http (lit "port") true 80);
  is_https ← lift (cfg_bool s_http (lit "is-https") true false);
  h ← new_service (http_service web_root web_logfile is_https php_cgi_bin [] []);
  mret (h, port).
