(* ===== verification/Main.v ===== *)
(** * The main program (src/main.cpp)

    [configure] makes the stack from a configuration, block by block as [main] does;
    [terminate] is what follows the pressing of a key.  The files, devices and sockets the
    constructors open are in [host].  The lines printed and logged are not modelled, nor are
    the counters the constructors register (Stats.v).

    The properties of what is made are in MainOk.v. *)
From stdpp Require Import strings.
From S2P Require Import Prelude Str Runtime AnyAddr Net AddressCache Ax25 Arp Router SnmpElem SnmpData Dns Phys.
From S2P Require Import Udp Sctp TcpSession Tcp Config Stack.
Open Scope Z_scope.

(** what [main] gets from the system *)
Record host (setting : Type) := Host {
  h_read_file : str → option setting;      (* [readFile]; [None]: it throws *)
  h_opens : driver → bool;                   (* the constructor of a driver returns *)
  h_chdir : str → bool;
  h_load_text_file : str → option str;
  h_sample : str → bool;                   (* a sample that [sip] can read *)
  h_listens : str → Z → bool;              (* [start_listen] *)
  h_binds : str → bool;                    (* the control socket *)
  h_capture : capture_env;
  h_creates : str → bool;
  h_now : Z;
}.
Arguments h_read_file {setting} _ _.
Arguments h_opens {setting} _ _.
Arguments h_chdir {setting} _ _.
Arguments h_load_text_file {setting} _ _.
Arguments h_sample {setting} _ _.
Arguments h_listens {setting} _ _ _.
Arguments h_binds {setting} _ _.
Arguments h_capture {setting} _.
Arguments h_creates {setting} _ _.
Arguments h_now {setting} _.

(** the speeds of a serial line, as <termios.h> numbers them *)
Definition B9600 : Z := 13.
Definition B115200 : Z := 4098.

Definition error_exit {A} : M A := lift (Err exit_failure).
Definition empty_str (s : str) : bool := bool_decide (s = []).

Section Main.
Context {setting : Type} `{!Libconfig setting} (env : host setting).

Definition get_str (s : setting) (key : string) (optional : bool) (def : string) : M str :=
  lift (cfg_str s (lit key) optional (lit def)).
Definition get_int (s : setting) (key : string) (optional : bool) (def : Z) : M Z :=
  lift (cfg_int s (lit key) optional def).
Definition get_bool (s : setting) (key : string) (optional : bool) (def : bool) : M bool :=
  lift (cfg_bool s (lit key) optional def).
Definition parse_ipv4 (s : str) : M any_addr := lift (parse_address s 4 (lit ".") 10).
Definition parse_ipv6 (s : str) : M any_addr := lift (parse_address s 16 (lit ":") 16).
Definition show (a : any_addr) : M str := lift (to_str a).

(** ** The SNMP values of the system *)

Definition system_oids : list (str * tree_value) := [
  (lit "1.3.6.1.2.1.1.1.0", tv_string (lit "MyIP - an IP-stack implemented in C++ running in userspace"));
  (lit "1.3.6.1.2.1.1.2.0", tv_oid (lit "1.3.6.1.4.1.57850.1"));
  (lit "1.3.6.1.2.1.1.3.0", tv_running_since (h_now env));
  (lit "1.3.6.1.2.1.1.4.0", tv_string (lit "Folkert van Heusden <mail@vanheusden.com>"));
  (lit "1.3.6.1.2.1.1.5.0", tv_string (lit "MyIP"));
  (lit "1.3.6.1.2.1.1.6.0", tv_string (lit "The Netherlands, Europe, Earth"));
  (lit "1.3.6.1.2.1.1.7.0", tv_integer 254);
  (lit "1.3.6.1.2.1.1.8.0", tv_integer 0)].

Definition register_system : M unit := for_each system_oids (λ '(oid, v), sd_register oid v).

(** name, description and state of an interface *)
Definition register_interface (n : Z) (name description : str) : M unit :=
  sd_register (lit "1.3.6.1.2.1.31.1.1.1.1." ++ fmt_dec n) (tv_string name) ;;
  sd_register (lit "1.3.6.1.2.1.2.2.1.2.1." ++ fmt_dec n) (tv_string description) ;;
  sd_register (lit "1.3.6.1.2.1.17.1.4.1." ++ fmt_dec n) (tv_integer 1).

(** ** Making a device *)

(** [r->set_default_ax25_interface(dev)] and [dev->start_pcap(...)] *)
Definition start_capture (dev : Z) (file : str) : M unit := λ w,
  match deref (w_devs w) dev with
  | Some d =>
      let* p := start_pcap (h_capture env) (dv_phys d) file true true in
      Ok (tt, on_devs (λ ds, update_at ds dev (with_phys (λ _, p))) w)
  | None => Err bad_access
  end.

(** [vpns.insert]: a [std::map] by name *)
Fixpoint insert_vpn (l : list (str * Z)) (name : str) (dev : Z) : list (str * Z) :=
  match l with
  | [] => [(name, dev)]
  | (n, d) :: l' =>
      if bool_decide (n = name) then l
      else if str_leb n name then (n, d) :: insert_vpn l' name dev else (name, dev) :: l
  end.

Definition kiss_beacon (interface : setting) : M (option (str * Z)) :=
  beacon ← get_str interface "beacon" true "";
  if empty_str beacon then mret None
  else
    interval ← get_int interface "beacon-interval" true 300;
    if interval <=? 0 then error_exit else mret (Some (beacon, interval)).

Definition make_kiss (n : Z) (interface : setting) (my_mac : any_addr) : M Z :=
  descr ← get_str interface "descriptor" false "";
  beacon_option ← kiss_beacon interface;
  is_default_interface ← get_bool interface "default-interface" true false;
  add_callsign_repeaters ← get_bool interface "add-callsign-to-repeaters" true false;
  register_interface n descr (lit "MyIP kiss device") ;;
  dev ← new_device (h_opens env) n (phys_kiss descr my_mac beacon_option add_callsign_repeaters);
  start_capture dev (lit "test-kiss-%s.pcap") ;;
  (if is_default_interface : bool then modify (on_ax25_default (λ _, dev)) else mret tt) ;;
  mret dev.

(** SLIP and PPP; with PPP the address of the other side is known *)
Definition make_serial (n : Z) (interface : setting) (type : str) (my_mac : any_addr)
  : M (Z * list (any_addr * any_addr)) :=
  dev_name ← get_str interface "serial-dev" false "/dev/ttyS0";
  register_interface n dev_name (lit "MyIP " ++ c_str type ++ lit " device") ;;
  baudrate ← get_int interface "baudrate" true 115200;
  bps_setting ← (if baudrate =? 9600 then mret B9600 else if baudrate =? 115200 then mret B115200 else error_exit : M Z);
  if bool_decide (type = lit "slip") then
    lift (assert_ (get_len my_mac =? 6)) ;;
    dev ← new_device (h_opens env) n (phys_slip dev_name bps_setting my_mac);
    mret (dev, [])
  else
    emulate_modem_xp ← get_bool interface "emulate-modem-xp" true false;
    oa_str ← get_str interface "opponent-address" false "192.168.3.2";
    opponent_address ← parse_ipv4 oa_str;
    dev ← new_device (h_opens env) n (phys_ppp dev_name bps_setting my_mac emulate_modem_xp opponent_address);
    opponent_mac ← lift (gen_opponent_mac my_mac);
    mret (dev, [(opponent_mac, opponent_address)]).

(** a device of the given type and the addresses that are known on it *)
Definition make_device (uid gid n : Z) (interface : setting) (type : str) (my_mac : any_addr)
  : M (Z * list (any_addr * any_addr)) :=
  if bool_decide (type = lit "tap") then
    dev_name ← get_str interface "dev-name" true "myip";
    register_interface n dev_name (lit "MyIP Ethernet device") ;;
    mtu_size ← get_int interface "mtu-size" true 1520;
    dev ← new_device (h_opens env) n (phys_tap dev_name uid gid mtu_size);
    mret (dev, [])
  else if bool_decide (type = lit "promiscuous") then
    dev_name ← get_str interface "dev-name" false "eth0";
    register_interface n dev_name (lit "MyIP Ethernet device") ;;
    dev ← new_device (h_opens env) n (phys_promiscuous dev_name);
    mret (dev, [])
  else if bool_decide (type = lit "vpn") then
    dev_name ← get_str interface "dev-name" false "eth0";
    register_interface n dev_name (lit "MyIP Ethernet device") ;;
    dev ← new_device (h_opens env) n (phys_vpn_insertion_point dev_name my_mac);
    modify (on_vpns (λ l, insert_vpn l dev_name dev)) ;;
    mret (dev, [])
  else if bool_decide (type = lit "kiss") then
    dev ← make_kiss n interface my_mac;
    mret (dev, [])
  else if bool_decide (type = lit "slip") || bool_decide (type = lit "ppp") then make_serial n interface type my_mac
  else if bool_decide (type = lit "udp") then
    addr_str ← get_str interface "ip-address" false "192.168.3.1";
    local_addr ← parse_ipv4 addr_str;
    port ← get_int interface "port" true 9899;
    register_interface n (lit "udp-" ++ fmt_int port) (lit "MyIP UDP device") ;;
    dev ← new_device (h_opens env) n (phys_sctp_udp my_mac local_addr port);
    mret (dev, [])
  else error_exit.

(** ** The IPv4 and IPv6 layers of a device *)

Definition clean_transport (t : Z) : M unit := modify (on_transport_layers (λ l, l ++ [t])).
Definition clean_protocol (p : Z) : M unit := modify (on_protocols (λ l, l ++ [p])).
Definition clean_application (a : Z) : M unit := modify (on_applications (λ l, l ++ [a])).
Definition add_stream (t : Z) : M unit := modify (on_streams (λ l, l ++ [t])).

(** the transport layers of an IP layer [ip], whose address is [ma_str] in the configuration
    and [shown] as text; the null pointer when a layer is not wanted.  IPv6 does the same
    things in another order. *)
Definition add_icmp4 (cfg : setting) (ip : Z) (ma_str shown : str) : M Z :=
  use_icmp ← get_bool cfg "use-icmp" true true;
  if use_icmp : bool then
    n_threads ← get_int cfg "n-icmp-threads" true 8;
    icmp_ ← new_transport (cl_icmp4 n_threads);
    register_transport ip 0x01 icmp_ ;;
    register_icmp ip icmp_ ;;
    draw_linked (lit "icmp " ++ shown) (lit "ICMP") ma_str ;;
    clean_transport icmp_ ;;
    mret icmp_
  else mret nullptr.

Definition add_tcp (cfg : setting) (ip icmp_ : Z) (ma_str shown : str) : M Z :=
  use_tcp ← get_bool cfg "use-tcp" true true;
  if use_tcp : bool then
    n_threads ← get_int cfg "n-tcp-threads" true 8;
    t ← new_transport (cl_tcp new_tcp icmp_ n_threads);
    register_transport ip 0x06 t ;;
    draw_linked (lit "tcp " ++ shown) (lit "TCP") ma_str ;;
    clean_transport t ;;
    add_stream t ;;
    mret t
  else mret nullptr.

Definition add_sctp (cfg : setting) (ip icmp_ : Z) (ma_str shown : str) : M unit :=
  use_sctp ← get_bool cfg "use-sctp" true true;
  if use_sctp : bool then
    n_threads ← get_int cfg "n-sctp-threads" true 8;
    draw_linked (lit "sctp " ++ shown) (lit "SCTP") ma_str ;;
    sctp_ ← new_transport (cl_sctp new_sctp icmp_ n_threads);
    register_transport ip 0x84 sctp_ ;;
    clean_transport sctp_ ;;
    add_stream sctp_
  else mret tt.

Definition add_udp (cfg : setting) (ip icmp_ : Z) (ma_str shown : str) : M unit :=
  use_udp ← get_bool cfg "use-udp" true true;
  if use_udp : bool then
    n_threads ← get_int cfg "n-udp-threads" true 8;
    draw_linked (lit "udp " ++ shown) (lit "UDP") ma_str ;;
    u ← new_transport (cl_udp new_udp icmp_ n_threads);
    register_transport ip 0x11 u ;;
    clean_transport u
  else mret tt.

Definition add_icmp6 (cfg : setting) (ip dev ndp_ : Z) (my_mac my_ip : any_addr) (ma_str shown : str) : M Z :=
  use_icmp ← get_bool cfg "use-icmp" true true;
  if use_icmp : bool then
    n_threads ← get_int cfg "n-icmp-threads" true 8;
    icmp6_ ← new_transport (cl_icmp6 my_mac my_ip dev n_threads);
    clean_transport icmp6_ ;;
    register_transport ip 0x3a icmp6_ ;;
    register_icmp ip icmp6_ ;;
    draw_linked (lit "icmp " ++ shown) (lit "ICMP") ma_str ;;
    register_icmp6 ndp_ icmp6_ ;;
    mret icmp6_
  else mret nullptr.

(** the entries of [static_mappings] *)
Definition add_static_mapping (a dev : Z) (shown : str) (se : any_addr * any_addr) : M unit :=
  resolver_add_static (h_now env) a dev se.1 se.2 ;;
  mac_text ← show se.1;
  ip_text ← show se.2;
  draw_connection ip_text mac_text ;;
  draw_connection mac_text shown.

(** the variables a block sets: the resolver, the address, and the TCP layer *)
Record ip_locals := IpLocals { il_resolver : Z; il_address : any_addr; il_tcp : Z }.
Definition no_ip : ip_locals := IpLocals nullptr unset_addr nullptr.

Definition add_ipv4 (dev : Z) (mac_str : str) (my_mac : any_addr) (static_mappings : list (any_addr * any_addr))
    (ipv4_ : setting) : M ip_locals :=
  ma_str ← get_str ipv4_ "my-address" false "192.168.3.2";
  my_ipv4_address ← parse_ipv4 ma_str;
  shown ← show my_ipv4_address;
  draw_node ma_str (lit "IPv4 " ++ ma_str) ;;
  draw_connection ma_str mac_str ;;
  a ← new_layer (cl_arp (new_arp dev my_mac my_ipv4_address));
  resolver_add_static (h_now env) a dev my_mac my_ipv4_address ;;
  for_each static_mappings (add_static_mapping a dev shown) ;;
  register_layer dev 0x0806 a ;;
  n_ipv4_threads ← get_int ipv4_ "n-ipv4-threads" true 4;
  forward ← get_bool ipv4_ "forwarder" true false;
  ipv4_instance ← new_layer (cl_ipv4 a my_ipv4_address forward n_ipv4_threads);
  clean_protocol ipv4_instance ;;
  icmp_ ← add_icmp4 ipv4_ ipv4_instance ma_str shown;
  t ← add_tcp ipv4_ ipv4_instance icmp_ ma_str shown;
  add_sctp ipv4_ ipv4_instance icmp_ ma_str shown ;;
  add_udp ipv4_ ipv4_instance icmp_ ma_str shown ;;
  register_layer dev 0x0800 ipv4_instance ;;
  clean_protocol a ;;
  mret (IpLocals a my_ipv4_address t).

Definition add_ipv6 (dev : Z) (mac_str : str) (my_mac : any_addr) (ipv6_ : setting) : M ip_locals :=
  ma_str ← get_str ipv6_ "my-address" false "2001:980:c324:4242:f588:20f4:4d4e:7c2d";
  my_ipv6_address ← parse_ipv6 ma_str;
  shown ← show my_ipv6_address;
  draw_node ma_str (lit "IPv6 " ++ ma_str) ;;
  draw_connection ma_str mac_str ;;
  ndp_ ← new_layer (cl_ndp empty_cache nullptr);
  resolver_add_static (h_now env) ndp_ dev my_mac my_ipv6_address ;;
  clean_protocol ndp_ ;;
  mac_text ← show my_mac;
  draw_connection mac_text shown ;;
  n_ipv6_threads ← get_int ipv6_ "n-ipv6-threads" true 4;
  ipv6_instance ← new_layer (cl_ipv6 ndp_ my_ipv6_address n_ipv6_threads);
  clean_protocol ipv6_instance ;;
  register_layer dev 0x86dd ipv6_instance ;;
  icmp6_ ← add_icmp6 ipv6_ ipv6_instance dev ndp_ my_mac my_ipv6_address ma_str shown;
  t ← add_tcp ipv6_ ipv6_instance icmp6_ ma_str shown;
  add_udp ipv6_ ipv6_instance icmp6_ ma_str shown ;;
  mret (IpLocals ndp_ my_ipv6_address t).

(** ** Routes *)

Definition route_ipv4 (my_address : any_addr) (network : any_addr) (netmask : list Z) (gateway : option any_addr)
    (priority dev a : Z) : M unit := λ w,
  let* local_ip := copy my_address in
  let* t := add_router_ipv4 (w_ip_table w) local_ip network netmask gateway priority dev a in
  Ok (tt, on_ip_table (λ _, t) w).
Definition route_ipv6 (my_address : any_addr) (network : any_addr) (cidr priority dev ndp_ : Z) : M unit := λ w,
  let* local_ip := copy my_address in
  let* t := add_router_ipv6 (w_ip_table w) local_ip network cidr priority dev ndp_ in
  Ok (tt, on_ip_table (λ _, t) w).

(** both kinds of routes are drawn from the IPv4 address *)
Definition add_route (dev : Z) (v4 v6 : ip_locals) (route : setting) : M unit :=
  family ← get_str route "ip-family" false "ipv4";
  priority ← get_int route "priority" true 0;
  if bool_decide (str_tolower family = lit "ipv4") then
    network_str ← get_str route "network" false "";
    network ← parse_ipv4 network_str;
    netmask_str ← get_str route "netmask" false "";
    netmask ← parse_ipv4 netmask_str;
    netmask_bytes ← lift (get_exp netmask 4);
    gateway_str ← get_str route "gateway" true "";
    gateway ← (if empty_str gateway_str then mret None else g ← parse_ipv4 gateway_str; mret (Some g) : M (option any_addr));
    shown ← show (il_address v4);
    draw_linked (lit "network " ++ network_str) (network_str ++ lit "/" ++ netmask_str) shown ;;
    (if empty_str gateway_str then mret tt else draw_connection gateway_str shown) ;;
    route_ipv4 (il_address v4) network netmask_bytes gateway priority dev (il_resolver v4)
  else if bool_decide (str_tolower family = lit "ipv6") then
    network_str ← get_str route "network" false "";
    network ← parse_ipv6 network_str;
    cidr ← get_int route "cidr" false 0;
    let graphviz_name := network_str ++ lit "/" ++ fmt_int cidr in
    shown ← show (il_address v4);
    draw_linked (lit "network " ++ graphviz_name) graphviz_name shown ;;
    route_ipv6 (il_address v6) network cidr priority dev (il_resolver v6)
  else error_exit.

Definition parse_callsign (s : str) : M any_addr := lift (get_any_addr (address_of_dashed (c_str s) true false)).

Definition add_route_ax25 (dev : Z) (mac_str : str) (route : setting) : M unit :=
  callsign ← get_str route "callsign" false "";
  callsign_aa ← parse_callsign callsign;
  via_callsign ← get_str route "via-callsign" true "";
  if empty_str via_callsign then
    modify (on_ax25_table (λ t, add_ax25_route t callsign_aa (Some dev) None)) ;;
    draw_linked (lit "AX.25 " ++ callsign) callsign mac_str
  else
    via_callsign_aa ← parse_callsign via_callsign;
    modify (on_ax25_table (λ t, add_ax25_route t callsign_aa (Some dev) (Some via_callsign_aa))) ;;
    via_text ← show via_callsign_aa;
    text ← show callsign_aa;
    draw_linked (lit "AX.25 " ++ via_text) via_text mac_str ;;
    draw_linked (lit "AX.25 " ++ text) text via_text.

(** ** Announcements, names and the proxy of a device *)

(** the constructor of [lldp] copies its addresses *)
Definition add_lldp (n dev : Z) (mac_str : str) (my_mac mgmt_addr : any_addr) (interface : setting) : M unit :=
  enable_lldp ← get_bool interface "enable-lldp" true false;
  if enable_lldp : bool then
    mgmt ← lift (copy mgmt_addr);
    lldp_ ← new_layer (cl_lldp my_mac mgmt n);
    clean_protocol lldp_ ;;
    register_layer dev 0x0806 lldp_ ;;
    draw_linked (lit "lldp " ++ mac_str) (lit "LLDP") mac_str
  else mret tt.

(** [dns_instances.insert] *)
Definition insert_dns (m : gmap (addr_family * list Z) Z) (a : any_addr) (p : Z) : gmap (addr_family * list Z) Z :=
  match m !! key a with Some _ => m | None => <[key a := p]> m end.

(** the loop over the devices made so far; [dns_] is the last resolver *)
Fixpoint add_dns_loop (devs : list device) (dns_u_ip_str : str) (upstream v4 v6 : any_addr) (dns_ : Z) : M Z :=
  match devs with
  | [] => mret dns_
  | d :: devs' =>
      found ← gets (λ w, i4 ← ipv4_of w d; u ← udp_of w i4; Some (u, layer_addr w i4));
      match found with
      | None => add_dns_loop devs' dns_u_ip_str upstream v4 v6 dns_
      | Some (u, my_ip) =>
          dns_ ← new_app (app_dns u my_ip upstream);
          modify (add_udp_handler u 53 dns_) ;;
          clean_application dns_ ;;
          (if set_ v4 then
             modify (on_dns4 (λ m, insert_dns m v4 dns_)) ;;
             shown ← show v4;
             draw_linked (lit "upstreamdns " ++ dns_u_ip_str) (lit "upstream DNS " ++ dns_u_ip_str) shown
           else mret tt) ;;
          (if set_ v6 then
             modify (on_dns6 (λ m, insert_dns m v6 dns_)) ;;
             shown ← show v6;
             draw_linked (lit "upstreamdns " ++ dns_u_ip_str) (lit "upstream DNS " ++ dns_u_ip_str) shown
           else mret tt) ;;
          add_dns_loop devs' dns_u_ip_str upstream v4 v6 dns_
      end
  end.

Definition add_dns (interface : setting) (v4 v6 : any_addr) : M Z :=
  dns_u_ip_str ← get_str interface "upstream-dns" false "";
  upstream_dns_server ← parse_ipv4 dns_u_ip_str;
  devs ← gets w_devs;
  add_dns_loop devs dns_u_ip_str upstream_dns_server v4 v6 nullptr.

Definition add_socks (ipv4_tcp dns_ : Z) (socks : setting) : M unit :=
  if ipv4_tcp =? nullptr then error_exit
  else
    interface ← get_str socks "interface" true "0.0.0.0";
    port ← get_int socks "port" true 1080;
    lift (if h_listens env interface port then Ok tt else Err exit_failure) ;;
    if dns_ =? nullptr then error_exit
    else modify (on_socks (λ l, l ++ [SocksProxy interface port ipv4_tcp dns_])).

(** ** An interface *)

Definition when_ip (o : option setting) (body : setting → M ip_locals) : M ip_locals :=
  match o with Some s => body s | None => mret no_ip end.

(** the body of the loop over the interfaces; [n] is [i + 1] *)
Definition add_interface (uid gid n : Z) (interface : setting) : M unit :=
  type ← get_str interface "type" true "ethernet";
  mac_str ← get_str interface "mac-address" true "52:34:84:16:44:22";
  my_mac ← (if bool_decide (type = lit "kiss") then parse_callsign mac_str
            else lift (parse_address mac_str 6 (lit ":") 16));
  draw_node mac_str (type ++ lit " " ++ mac_str) ;;
  sd_register (lit "1.3.6.1.2.1.2.2.1.1." ++ fmt_dec n) (tv_integer n) ;;
  attach_vpn ← get_bool interface "attach-vpn" true false;
  '(dev, static_mappings) ← make_device uid gid n interface type my_mac;
  v4 ← when_ip (cfg_lookup interface (lit "ipv4")) (add_ipv4 dev mac_str my_mac static_mappings);
  v6 ← when_ip (cfg_lookup interface (lit "ipv6")) (add_ipv6 dev mac_str my_mac);
  let mgmt_addr := if set_ (il_address v4) then il_address v4 else il_address v6 in
  when_some (cfg_lookup interface (lit "routes")) (λ routes, for_each (cfg_elements routes) (add_route dev v4 v6)) ;;
  when_some (cfg_lookup interface (lit "routes-ax25")) (λ routes, for_each (cfg_elements routes) (add_route_ax25 dev mac_str)) ;;
  add_lldp n dev mac_str my_mac mgmt_addr interface ;;
  dns_ ← add_dns interface (il_address v4) (il_address v6);
  when_some (cfg_lookup interface (lit "socks")) (add_socks (il_tcp v4) dns_) ;;
  modify (on_devs (λ ds, update_at ds dev started)) ;;
  if attach_vpn : bool then modify (on_vpn_targets (λ l, l ++ [dev])) else mret tt.

(** ** Applications on UDP *)

(** what happens for every device with UDP over IPv4 *)
Definition on_ipv4_udp (body : device → Z → any_addr → M unit) : M unit :=
  devs ← gets w_devs;
  for_each devs (λ d,
    found ← gets (λ w, i4 ← ipv4_of w d; u ← udp_of w i4; Some (u, layer_addr w i4));
    when_some found (λ '(u, my_ip), body d u my_ip)).

Definition setup_ntp (s_ntp : setting) : M unit :=
  ntp_u_ip_str ← get_str s_ntp "upstream-ip-address" false "";
  upstream_ntp_server ← parse_ipv4 ntp_u_ip_str;
  broadcast ← get_bool s_ntp "broadcast" true false;
  port ← get_int s_ntp "port" true 123;
  on_ipv4_udp (λ _ u my_ip,
    ntp_ ← new_app (app_ntp u my_ip upstream_ntp_server broadcast);
    modify (add_udp_handler u port ntp_) ;;
    shown ← show my_ip;
    draw_linked (lit "NTP " ++ ntp_u_ip_str) (lit "NTP " ++ ntp_u_ip_str) shown ;;
    clean_application ntp_).

(** the VPN: every device that is a target carries every insertion point *)
Definition setup_vpn (s_vpn : setting) : M unit :=
  my_ip_str ← get_str s_vpn "my-ip" false "";
  my_ip ← parse_ipv4 my_ip_str;
  my_port ← get_int s_vpn "my-port" false 4000;
  peer_ip_str ← get_str s_vpn "peer-ip" false "";
  peer_ip ← parse_ipv4 peer_ip_str;
  peer_port ← get_int s_vpn "peer-port" false 4000;
  psk ← get_str s_vpn "key" false "";
  targets ← gets w_vpn_targets;
  for_each targets (λ target,
    vpns ← gets w_vpns;
    for_each vpns (λ '(_, vpn_dev),
      found ← gets (λ w, d ← deref (w_devs w) target; i4 ← ipv4_of w d; u ← udp_of w i4; Some (u, layer_addr w i4));
      when_some found (λ '(u, addr),
        v ← new_app (app_vpn vpn_dev u my_ip my_port peer_ip peer_port psk);
        modify (on_devs (λ ds, update_at ds vpn_dev (with_endpoint v))) ;;
        modify (add_udp_handler u my_port v) ;;
        shown ← show addr;
        draw_linked (lit "VPN " ++ shown) (lit "VPN " ++ peer_ip_str) shown ;;
        clean_application v))).

(** the constructor of [sip] ends the program without a usable sample *)
Definition setup_sip (s_sip : setting) : M unit :=
  sample ← get_str s_sip "sample" false "";
  mb_path ← get_str s_sip "mb-path" false "";
  mb_recv_script ← get_str s_sip "mb-recv-script" true "";
  upstream_sip_server ← get_str s_sip "upstream-sip-server" false "";
  upstream_sip_user ← get_str s_sip "upstream-sip-user" false "";
  upstream_sip_password ← get_str s_sip "upstream-sip-password" false "";
  sip_register_interval ← get_int s_sip "sip-register-interval" true 450;
  port ← get_int s_sip "port" true 123;
  on_ipv4_udp (λ _ u my_ip,
    lift (if h_sample env sample then Ok tt else Err exit_failure) ;;
    sip_ ← new_app (app_sip u sample mb_path mb_recv_script upstream_sip_server upstream_sip_user upstream_sip_password
                      my_ip port sip_register_interval);
    modify (add_udp_handler u port sip_) ;;
    clean_application sip_ ;;
    shown ← show my_ip;
    draw_linked (lit "SIP " ++ upstream_sip_server) (lit "SIP " ++ upstream_sip_server) (lit "udp " ++ shown)).

(** UDP over IPv6 of a device that has UDP over IPv4 *)
Definition ipv6_udp (d : device) : M (option Z) := gets (λ w, i6 ← ipv6_of w d; udp_of w i6).

Definition setup_snmp (s_snmp : setting) : M unit :=
  port ← get_int s_snmp "port" true 123;
  on_ipv4_udp (λ d u4 _,
    snmp_4 ← new_app (app_snmp u4);
    modify (add_udp_handler u4 port snmp_4) ;;
    clean_application snmp_4 ;;
    found ← ipv6_udp d;
    when_some found (λ u6,
      snmp_6 ← new_app (app_snmp u6);
      modify (add_udp_handler u6 port snmp_6) ;;
      clean_application snmp_6)).

(** the server of IPv4 is cleaned up only where there is one of IPv6 *)
Definition setup_syslog (s_syslog : setting) : M unit :=
  port ← get_int s_syslog "port" true 123;
  on_ipv4_udp (λ d u4 _,
    syslog_4 ← new_app app_syslog;
    modify (add_udp_handler u4 port syslog_4) ;;
    found ← ipv6_udp d;
    when_some found (λ u6,
      syslog_6 ← new_app app_syslog;
      modify (add_udp_handler u6 port syslog_6) ;;
      clean_application syslog_4 ;;
      clean_application syslog_6)).

(** ** Services on TCP and SCTP *)

(** what every block of a service ends with *)
Definition offer_service (s port : Z) (settings : option setting) : M unit :=
  register_tcp_service s port ;;
  register_sctp_service s port ;;
  when_some settings (register_mdns_service port).

Definition setup_http (s_http : setting) : M unit :=
  '(h, port) ← get_http_handler s_http;
  offer_service h port (Some s_http).

(** [hpd->private_key] and [hpd->certificate] *)
Definition set_keys (private_key certificate : str) (s : service) : service :=
  match s with http_service r l i p _ _ => http_service r l i p private_key certificate | s => s end.

Definition load_file (name : str) : M str := lift (match h_load_text_file env name with Some t => Ok t | None => Err exit_failure end).

Definition setup_https (s_http : setting) : M unit :=
  get_str s_http "web-root" false "" ;;
  get_str s_http "web-logfile" false "" ;;
  '(h, port) ← get_http_handler s_http;
  temppk ← get_str s_http "private-key" false "";
  private_key ← load_file temppk;
  tempc ← get_str s_http "certificate" false "";
  certificate ← load_file tempc;
  modify (on_services (λ l, update_at l h (set_keys private_key certificate))) ;;
  offer_service h port (Some s_http).

(** NRPE and MQTT *)
Definition setup_service (service_ : service) (def_port : Z) (settings : setting) : M unit :=
  port ← get_int settings "port" true def_port;
  h ← new_service service_;
  offer_service h port (Some settings).

(** the VNC server also looks for a resolver, which it does not use *)
Definition setup_vnc (s_vnc : setting) : M unit :=
  setup_service vnc_service 5900 s_vnc ;;
  bind_to_str ← get_str s_vnc "bind-to-ip-address" false "";
  bind_to ← parse_ipv4 bind_to_str;
  w ← gets id;
  lift (get_client_parameters w (w_devs w) 1 bind_to) ;;
  match w_dns4 w !! key bind_to with Some _ => mret tt | None => error_exit end.

(** services that are always there *)
Definition setup_fixed (service_ : service) (port : Z) : M unit :=
  h ← new_service service_;
  offer_service h port None.

Definition local_host : str := lit "myip.vanheusden.com".

(** ** The whole configuration *)

Record environment := Environment {
  e_uid : Z; e_gid : Z; e_ifup : str; e_ifdown : str; e_socket : str; e_router_threads : Z;
}.

Definition read_environment (root : setting) : M environment :=
  environment ← lift (cfg_required root (lit "environment"));
  uid ← get_int environment "run-as" true 1003;
  gid ← get_int environment "run-in" true 1003;
  chdir_path ← get_str environment "chdir-path" true "/tmp";
  lift (if h_chdir env chdir_path then Ok tt else Err exit_failure) ;;
  run_at_started ← get_str environment "ifup" true "";
  run_at_terminate ← get_str environment "ifdown" true "";
  unix_domain_socket ← get_str environment "stats-socket" true "";
  n_router_threads ← get_int environment "n-router-threads" true 8;
  mret (Environment uid gid run_at_started run_at_terminate unix_domain_socket n_router_threads).

Definition read_logging (root : setting) (l : log) : res log :=
  let* logging := cfg_required root (lit "logging") in
  let* llf := cfg_str logging (lit "level_file") true (lit "debug") in
  let* lls := cfg_str logging (lit "level_screen") true (lit "debug") in
  let* log_file := cfg_str logging (lit "file") true (lit "/tmp/myip.log") in
  setlog l (c_str log_file) (parse_ll llf) (parse_ll lls).

(** the resolver [mdns], which is the first application *)
Definition setup_mdns : M unit := mdns_ ← new_app app_mdns; clean_application mdns_.

Definition setup_interfaces (e : environment) (root : setting) : M unit :=
  interfaces ← lift (cfg_required root (lit "interfaces"));
  sd_register (lit "1.3.6.1.2.1.2.1.0") (tv_integer (zlen (cfg_elements interfaces))) ;;
  for_each_from 1 (cfg_elements interfaces) (add_interface (e_uid e) (e_gid e)).

Definition setup_services (root : setting) : M unit :=
  when_some (cfg_lookup root (lit "ntp")) setup_ntp ;;
  when_some (cfg_lookup root (lit "vpn")) setup_vpn ;;
  when_some (cfg_lookup root (lit "http")) setup_http ;;
  when_some (cfg_lookup root (lit "https")) setup_https ;;
  when_some (cfg_lookup root (lit "nrpe")) (setup_service nrpe_service 5666) ;;
  when_some (cfg_lookup root (lit "vnc")) setup_vnc ;;
  when_some (cfg_lookup root (lit "mqtt")) (setup_service mqtt_service 1883) ;;
  when_some (cfg_lookup root (lit "sip")) setup_sip ;;
  when_some (cfg_lookup root (lit "snmp")) setup_snmp ;;
  setup_fixed echo_service 7 ;;
  setup_fixed (irc_service local_host) 6667 ;;
  setup_fixed mynetperf_service 55201 ;;
  when_some (cfg_lookup root (lit "syslog")) setup_syslog.

(** the map is written when everything is there *)
Definition configure (graph_file : str) (root : setting) : res (environment * program) :=
  let m : M environment :=
    register_system ;;
    e ← read_environment root;
    setup_mdns ;;
    setup_interfaces e root ;;
    setup_services root ;;
    lift (if empty_str (e_socket e) || h_binds env (e_socket e) then Ok tt else Err exit_failure) ;;
    mret e in
  m (empty_world (new_graphviz graph_file)).

(** ** The options and the result of main *)

(** the options [getopt] finds *)
Inductive cmd_option := opt_c (file : str) | opt_d (file : str) | opt_h | opt_other.

(** [None]: help was asked for *)
Fixpoint read_options (opts : list cmd_option) (cfg_file graph_file : str) : option (str * str) :=
  match opts with
  | [] => Some (cfg_file, graph_file)
  | opt_c f :: opts' => read_options opts' f graph_file
  | opt_d f :: opts' => read_options opts' cfg_file f
  | opt_h :: _ => None
  | opt_other :: opts' => read_options opts' cfg_file graph_file
  end.

(** what [main] leaves behind when it is ready to run: its exit code, or the stack with the
    log, the contents of the map and the command to run at the start *)
Inductive main_result :=
  | exited (code : Z)
  | running (e : environment) (w : program) (l : log) (graph : option str) (ran : option str).

(** the lines logged open the log *)
Definition main_start (opts : list cmd_option) : res main_result :=
  match read_options opts [] [] with
  | None => Ok (exited 0)
  | Some (cfg_file, graph_file) =>
      if empty_str cfg_file then Ok (exited 1)
      else
        match h_read_file env (c_str cfg_file) with
        | None => Ok (exited 1)
        | Some root =>
            let* l := read_logging root (Log [] ll_debug ll_debug no_file) in
            let* '(_, _, l) := dolog (h_creates env) l ll_info in
            let* '(e, w) := configure graph_file root in
            let* graph := graphviz_file (h_creates env) (w_graph w) in
            Ok (running e w l graph (if empty_str (e_ifup e) then None else Some (e_ifup e)))
        end
  end.
End Main.

(** ** The end *)

(** the number of actions that is printed *)
Definition n_actions (w : program) : Z :=
  2 + zlen (w_devs w) + zlen (w_socks w) + zlen (w_applications w) + zlen (w_transport_layers w) + zlen (w_protocols w).

(** every device is told to stop, then every device is deleted; the other objects are told to
    stop and stay.  The log is closed. *)
Definition terminate (w : program) (l : log) : res (list device * log) :=
  let devs := (λ d, with_phys phys_ask_to_stop d) <$> w_devs w in
  let* _ := foldr (λ d r, let* _ := phys_destroy (dv_phys d) in r) (Ok tt) devs in
  let* l := closelog l in
  Ok (devs, l).
