(* ===== verification/MainOk.v ===== *)
(** * What the main program makes (src/main.cpp)

    Properties of [configure] (Main.v) for every configuration and every behaviour of the
    system.

    - Pointers: [world_typed] says of every pointer of the program that it is null or that its
      object has the class the code uses it as.  Every step of [configure] keeps it, so no cast
      of a layer that is there fails.  [wired] says which links are still to be made; none is
      left at the end.  Together they give [world_ok]: only pointers that the code tests, or
      never uses, are null.
    - Services: every TCP and SCTP layer listens exactly on the ports of the services of the
      configuration; of two services on one port the first is reached.

    The functions are verified with triples [spec P m Q] for the monad of Stack.v; what is
    known about objects survives later steps because objects never change their class
    ([extends]). *)
From stdpp Require Import strings.
From S2P Require Import Prelude Str Runtime AnyAddr Net AddressCache Ax25 Arp Router SnmpElem SnmpData Dns Phys.
From S2P Require Import Udp Sctp TcpSession Tcp Config Stack Main.
Open Scope Z_scope.

(** ** Pointers *)

Section Pointers.
Context {A : Type}.
Implicit Types l : list A.

Lemma deref_bounds l p x : deref l p = Some x → 1 ≤ p ≤ zlen l.
Proof.
  unfold deref, zlen. destruct (Z.leb_spec p 0); [done|]. intros L%lookup_lt_Some. lia.
Qed.

Lemma deref_app l k p x : deref l p = Some x → deref (l ++ k) p = Some x.
Proof. unfold deref. destruct (Z.leb_spec p 0); [done|]. apply lookup_app_l_Some. Qed.

Lemma deref_next l x : deref (l ++ [x]) (next l) = Some x.
Proof.
  unfold deref, next, zlen. destruct (Z.leb_spec (Z.of_nat (length l) + 1) 0); [lia|].
  replace (Z.to_nat (Z.of_nat (length l) + 1 - 1)) with (length l) by lia. by apply list_lookup_middle.
Qed.

Lemma deref_app_inv l x p y : deref (l ++ [x]) p = Some y → deref l p = Some y ∨ p = next l ∧ y = x.
Proof.
  intros E. pose proof (deref_bounds _ _ _ E) as B. unfold zlen in B. rewrite length_app in B. cbn in B.
  destruct (decide (p = next l)) as [->|N].
  - right. rewrite deref_next in E. split; congruence.
  - left. revert E. unfold next, zlen, deref in *. destruct (Z.leb_spec p 0); [done|]. rewrite lookup_app_l; [done|lia].
Qed.

Lemma deref_update l p f q : deref (update_at l p f) q = if decide (q = p) then f <$> deref l q else deref l q.
Proof.
  unfold deref, update_at. destruct (Z.leb_spec q 0), (Z.leb_spec p 0), (decide (q = p)) as [->|N]; try done; try lia.
  - by rewrite list_lookup_alter_eq.
  - rewrite list_lookup_alter_ne by lia. done.
Qed.

Lemma elem_deref l x : x ∈ l → ∃ p, deref l p = Some x.
Proof.
  intros (i & E)%list_elem_of_lookup. exists (Z.of_nat i + 1). unfold deref. destruct (Z.leb_spec (Z.of_nat i + 1) 0); [lia|].
  by replace (Z.to_nat (Z.of_nat i + 1 - 1)) with i by lia.
Qed.

Lemma deref_elem l p x : deref l p = Some x → x ∈ l.
Proof. unfold deref. destruct (p <=? 0); [done|]. apply list_elem_of_lookup_2. Qed.
End Pointers.

(** ** Classes *)

Inductive layer_tag := t_arp | t_ndp | t_ipv4 | t_ipv6 | t_lldp.
Inductive transport_tag := t_icmp4 | t_icmp6 | t_tcp | t_sctp | t_udp.

Definition class_tag (c : layer_class) : layer_tag :=
  match c with cl_arp _ => t_arp | cl_ndp _ _ => t_ndp | cl_ipv4 _ _ _ _ => t_ipv4 | cl_ipv6 _ _ _ => t_ipv6 | cl_lldp _ _ _ => t_lldp end.
Definition tclass_tag (c : transport_class) : transport_tag :=
  match c with cl_icmp4 _ => t_icmp4 | cl_icmp6 _ _ _ _ => t_icmp6 | cl_tcp _ _ _ => t_tcp | cl_sctp _ _ _ => t_sctp | cl_udp _ _ _ => t_udp end.

Definition ltag (w : program) (p : Z) : option layer_tag := (class_tag ∘ nl_class) <$> deref (w_layers w) p.
Definition ttag (w : program) (p : Z) : option transport_tag := (tclass_tag ∘ tl_class) <$> deref (w_transports w) p.
(** the driver of a device, the application and the service behind a pointer *)
Definition dlink (w : program) (p : Z) : option driver := dv_link <$> deref (w_devs w) p.
Definition is_app (w : program) (p : Z) : Prop := is_Some (deref (w_apps w) p).
Definition is_service (w : program) (p : Z) : Prop := is_Some (deref (w_services w) p).
Definition is_dns (w : program) (p : Z) : Prop := ∃ u a b, deref (w_apps w) p = Some (app_dns u a b).
Definition is_vpn (w : program) (p : Z) : Prop :=
  ∃ dev u a pa b pb psk, deref (w_apps w) p = Some (app_vpn dev u a pa b pb psk).

(** later states have the same objects at the same places *)
Record extends (w w' : program) : Prop := {
  ext_layer p t : ltag w p = Some t → ltag w' p = Some t;
  ext_transport p t : ttag w p = Some t → ttag w' p = Some t;
  ext_dev p l : dlink w p = Some l → dlink w' p = Some l;
  ext_app p a : deref (w_apps w) p = Some a → deref (w_apps w') p = Some a;
  ext_service p : is_service w p → is_service w' p;
}.

#[global] Instance extends_preorder : PreOrder extends.
Proof. split; [done|]. intros a b c [] []. split; eauto. Qed.

(** ** What a well-formed program is *)

(** the classes of the layers of a type of frames and of the transports of a protocol *)
Definition ether_ok (ether_type : Z) (t : layer_tag) : Prop :=
  match t with
  | t_arp | t_lldp => ether_type = 0x0806
  | t_ipv4 => ether_type = 0x0800
  | t_ipv6 => ether_type = 0x86dd
  | t_ndp => False
  end.
Definition protocol_ok (l : layer_tag) (protocol : Z) (t : transport_tag) : Prop :=
  match t with
  | t_icmp4 => protocol = 0x01 ∧ l = t_ipv4
  | t_icmp6 => protocol = 0x3a ∧ l = t_ipv6
  | t_tcp => protocol = 0x06
  | t_sctp => protocol = 0x84 ∧ l = t_ipv4
  | t_udp => protocol = 0x11
  end.

(** null or an object of a class *)
Definition null_or (P : Z → Prop) (p : Z) : Prop := p = nullptr ∨ P p.
Definition is_icmp (w : program) (p : Z) : Prop := ttag w p = Some t_icmp4 ∨ ttag w p = Some t_icmp6.
Definition is_dev (w : program) (p : Z) : Prop := is_Some (dlink w p).
Definition is_layer (w : program) (p : Z) : Prop := is_Some (ltag w p).
(** a layer that carries transports *)
Definition is_ip_layer (w : program) (p : Z) : Prop := ltag w p = Some t_ipv4 ∨ ltag w p = Some t_ipv6.
Definition is_transport (w : program) (p : Z) : Prop := is_Some (ttag w p).

Definition device_ok (w : program) (d : device) : Prop :=
  (∀ et q, ph_protocols (dv_phys d) !! et = Some q → ∃ t, ltag w q = Some t ∧ ether_ok et t) ∧
  null_or (is_vpn w) (dv_endpoint d).

Definition layer_typed (w : program) (l : net_layer) : Prop :=
  null_or (is_dev w) (nl_default_pdev l) ∧
  null_or (is_icmp w) (nl_icmp l) ∧
  (∀ k q, nl_prot_map l !! k = Some q → ∃ t, ttag w q = Some t ∧ protocol_ok (class_tag (nl_class l)) k t) ∧
  match nl_class l with
  | cl_arp a => is_dev w (arp_interface a)
  | cl_ndp _ i => null_or (λ p, ttag w p = Some t_icmp6) i
  | cl_ipv4 a my_ip _ _ => ltag w a = Some t_arp ∧ good my_ip ∧ af my_ip = ipv4
  | cl_ipv6 n my_ip _ => ltag w n = Some t_ndp ∧ good my_ip ∧ af my_ip = ipv6
  | cl_lldp _ _ _ => True
  end.

Definition transport_typed (w : program) (t : transport) : Prop :=
  null_or (is_ip_layer w) (tl_idev t) ∧
  match tl_class t with
  | cl_icmp4 _ => True
  | cl_icmp6 _ _ dev _ => is_dev w dev
  | cl_tcp t i _ => null_or (is_icmp w) i ∧ ∀ port h, listeners t !! port = Some h → is_service w (ph_id h)
  | cl_sctp t i _ => null_or (is_icmp w) i ∧ ∀ port h, sctp_listeners t !! port = Some h → is_service w (sh_id h)
  | cl_udp u i _ => null_or (is_icmp w) i ∧ ∀ port a, callbacks u !! port = Some a → is_app w a
  end.

Definition app_ok (w : program) (a : application) : Prop :=
  match a with
  | app_mdns | app_syslog => True
  | app_dns u _ _ | app_ntp u _ _ _ | app_sip u _ _ _ _ _ _ _ _ _ | app_snmp u => ttag w u = Some t_udp
  | app_vpn dev u _ _ _ _ _ => ttag w u = Some t_udp ∧ ∃ n m, dlink w dev = Some (phys_vpn_insertion_point n m)
  end.

(** a route has its device and the resolver of its family *)
Definition route_ok (w : program) (e : ip_router_entry) : Prop :=
  is_dev w (re_interface e) ∧
  match re_mask e with
  | ipv4_netmask _ => ltag w (re_mac_lookup e) = Some t_arp
  | ipv6_prefix_length _ => ltag w (re_mac_lookup e) = Some t_ndp
  end.

Record world_typed (w : program) : Prop := {
  ok_devs : Forall (device_ok w) (w_devs w);
  ok_layers : Forall (layer_typed w) (w_layers w);
  ok_transports : Forall (transport_typed w) (w_transports w);
  ok_apps : Forall (app_ok w) (w_apps w);
  ok_socks : Forall (λ s, ttag w (so_tcp s) = Some t_tcp ∧ is_dns w (so_dns s)) (w_socks w);
  ok_clean : Forall (is_layer w) (w_protocols w) ∧ Forall (is_transport w) (w_transport_layers w) ∧
             Forall (is_app w) (w_applications w);
  ok_streams : Forall (λ p, ttag w p = Some t_tcp ∨ ttag w p = Some t_sctp) (w_streams w);
  ok_routes : Forall (route_ok w) (w_ip_table w);
  ok_ax25 : null_or (is_dev w) (w_ax25_default w) ∧
            map_Forall (λ _ e, ∃ d, ax_interface e = Some d ∧ is_dev w d) (w_ax25_table w);
  ok_mdns : Forall (λ e, ttag w (me_interface e) = Some t_udp) (w_mdns w);
  ok_dns : map_Forall (λ _ p, is_dns w p) (w_dns4 w) ∧ map_Forall (λ _ p, is_dns w p) (w_dns6 w);
  ok_vpns : Forall (λ v, ∃ n m, dlink w v.2 = Some (phys_vpn_insertion_point n m)) (w_vpns w);
  ok_targets : Forall (is_dev w) (w_vpn_targets w);
}.

(** ** What is known stays known *)

Class Stable (P : program → Prop) := stable w w' : extends w w' → P w → P w'.

#[global] Instance stable_const (P : Prop) : Stable (λ _, P).
Proof. by intros w w' _. Qed.
#[global] Instance stable_ltag p t : Stable (λ w, ltag w p = Some t).
Proof. intros w w' []. auto. Qed.
#[global] Instance stable_ttag p t : Stable (λ w, ttag w p = Some t).
Proof. intros w w' []. auto. Qed.
#[global] Instance stable_dlink p l : Stable (λ w, dlink w p = Some l).
Proof. intros w w' []. auto. Qed.
#[global] Instance stable_app p a : Stable (λ w, deref (w_apps w) p = Some a).
Proof. intros w w' []. auto. Qed.
#[global] Instance stable_service p : Stable (λ w, is_service w p).
Proof. intros w w' []. auto. Qed.
#[global] Instance stable_and P Q : Stable P → Stable Q → Stable (λ w, P w ∧ Q w).
Proof. intros HP HQ w w' E [??]. split; [by eapply HP|by eapply HQ]. Qed.
#[global] Instance stable_or P Q : Stable P → Stable Q → Stable (λ w, P w ∨ Q w).
Proof. intros HP HQ w w' E [?|?]; [left; by eapply HP|right; by eapply HQ]. Qed.
#[global] Instance stable_exist {A} (P : A → program → Prop) : (∀ a, Stable (P a)) → Stable (λ w, ∃ a, P a w).
Proof. intros HP w w' E [a ?]. exists a. by eapply HP. Qed.
#[global] Instance stable_forall {A} (P : A → program → Prop) : (∀ a, Stable (P a)) → Stable (λ w, ∀ a, P a w).
Proof. intros HP w w' E H a. by eapply HP. Qed.
#[global] Instance stable_impl (P : Prop) (Q : program → Prop) : Stable Q → Stable (λ w, P → Q w).
Proof. intros HQ w w' E H p. by eapply HQ; [|apply H]. Qed.
#[global] Instance stable_some {A} (f : program → option A) : (∀ a, Stable (λ w, f w = Some a)) → Stable (λ w, is_Some (f w)).
Proof. intros H w w' E [a ?]. exists a. by eapply (H a). Qed.
#[global] Instance stable_is_app p : Stable (λ w, is_app w p).
Proof. unfold is_app. apply _. Qed.
#[global] Instance stable_is_dns p : Stable (λ w, is_dns w p).
Proof. unfold is_dns. apply _. Qed.
#[global] Instance stable_is_vpn p : Stable (λ w, is_vpn w p).
Proof. unfold is_vpn. apply _. Qed.
#[global] Instance stable_is_dev p : Stable (λ w, is_dev w p).
Proof. unfold is_dev. apply _. Qed.
#[global] Instance stable_is_icmp p : Stable (λ w, is_icmp w p).
Proof. unfold is_icmp. apply _. Qed.
#[global] Instance stable_is_layer p : Stable (λ w, is_layer w p).
Proof. unfold is_layer. apply _. Qed.
#[global] Instance stable_is_ip_layer p : Stable (λ w, is_ip_layer w p).
Proof. unfold is_ip_layer. apply _. Qed.
#[global] Instance stable_is_transport p : Stable (λ w, is_transport w p).
Proof. unfold is_transport. apply _. Qed.
#[global] Instance stable_null_or (P : program → Z → Prop) p : (∀ q, Stable (λ w, P w q)) → Stable (λ w, null_or (P w) p).
Proof. intros H. unfold null_or. apply _. Qed.

#[global] Instance stable_device_ok d : Stable (λ w, device_ok w d).
Proof. unfold device_ok. apply _. Qed.
#[global] Instance stable_layer_ok l : Stable (λ w, layer_typed w l).
Proof. unfold layer_typed. destruct (nl_class l); apply _. Qed.
#[global] Instance stable_transport_ok t : Stable (λ w, transport_typed w t).
Proof. unfold transport_typed. destruct (tl_class t); apply _. Qed.
#[global] Instance stable_app_ok a : Stable (λ w, app_ok w a).
Proof. unfold app_ok. destruct a; apply _. Qed.
#[global] Instance stable_route_ok e : Stable (λ w, route_ok w e).
Proof. unfold route_ok. destruct (re_mask e); apply _. Qed.

#[global] Instance stable_Forall {A} (P : program → A → Prop) l : (∀ a, Stable (λ w, P w a)) → Stable (λ w, Forall (P w) l).
Proof. intros H w w' E F. eapply Forall_impl; [exact F|]. intros a. by apply (H a). Qed.
#[global] Instance stable_map_Forall {A} (P : program → A → Prop) (m : gmap (addr_family * list Z) A) :
  (∀ a, Stable (λ w, P w a)) → Stable (λ w, map_Forall (λ _ a, P w a) m).
Proof. intros H w w' E F k a L. eapply (H a); [done|]. by eapply F. Qed.

(** ** Triples *)

Definition spec {A} (P : program → Prop) (m : M A) (Q : A → program → Prop) : Prop :=
  ∀ w a w', world_typed w → P w → m w = Ok (a, w') → world_typed w' ∧ extends w w' ∧ Q a w'.

Lemma spec_ret {A} P (a : A) Q : (∀ w, P w → Q a w) → spec P (mret a) Q.
Proof. intros H w a' w' Hw Hp. injection 1 as <- <-. split_and!; [done|done|auto]. Qed.

(** what was known before a step is known behind it *)
Lemma spec_bind {A B} (P0 P : program → Prop) (m : M A) Q (k : A → M B) R :
  Stable P → spec P0 m Q → (∀ w, P w → P0 w) → (∀ a, spec (λ w, P w ∧ Q a w) (k a) R) → spec P (m ≫= k) R.
Proof.
  intros HS Hm HP Hk w b w2 Hw Hp E. unfold mbind, M_bind in E. destruct (m w) as [[a w1]|] eqn:Em; [|done]. cbn in E.
  destruct (Hm w a w1 Hw (HP _ Hp) Em) as (Hw1 & X1 & HQ).
  destruct (Hk a w1 b w2 Hw1 (conj (HS _ _ X1 Hp) HQ) E) as (Hw2 & X2 & HR). split_and!; [done| |done]. by etransitivity.
Qed.

Lemma spec_weaken {A} (P0 P : program → Prop) (m : M A) Q0 Q :
  spec P0 m Q0 → (∀ w, P w → P0 w) → (∀ a w, Q0 a w → Q a w) → spec P m Q.
Proof. intros H HP HQ w a w' Hw Hp E. destruct (H w a w' Hw (HP _ Hp) E) as (?&?&?). auto. Qed.

Lemma spec_lift {A} P (r : res A) : spec P (lift r) (λ a _, r = Ok a).
Proof. intros w a w' Hw _. unfold lift. destruct r; cbn; [|done]. injection 1 as -> ->. by split_and!. Qed.

Lemma spec_gets {A} P (f : program → A) : spec P (gets f) (λ _ _, True).
Proof. intros w a w' Hw _. injection 1 as <- <-. by split_and!. Qed.

Lemma spec_for_each {A} (P : program → Prop) (l : list A) (body : A → M unit) :
  Stable P → (∀ x, x ∈ l → spec P (body x) (λ _ _, True)) → spec P (for_each l body) (λ _ _, True).
Proof.
  intros HS. induction l as [|x l IH]; intros Hb; cbn [for_each]; [by apply spec_ret|].
  eapply spec_bind; [done|apply Hb; left|done|]. intros []. eapply spec_weaken; [apply IH|tauto|done].
  intros y Hy. apply Hb. by right.
Qed.

Lemma spec_when {A} (P : program → Prop) (o : option A) (body : A → M unit) :
  (∀ x, o = Some x → spec P (body x) (λ _ _, True)) → spec P (when_some o body) (λ _ _, True).
Proof. intros H. destruct o; [by apply H|by apply spec_ret]. Qed.

Lemma spec_exit {A} P Q : spec P (error_exit : M A) Q.
Proof. done. Qed.

(** a change of one field of the state *)
Lemma spec_modify (P : program → Prop) f :
  (∀ w, world_typed w → P w → extends w (f w) ∧ (extends w (f w) → world_typed (f w))) → spec P (modify f) (λ _ _, True).
Proof. intros H w a w' Hw Hp. injection 1 as <- <-. destruct (H w Hw Hp) as [E O]. auto. Qed.

(** the parts of the state a step does not change *)
Lemma keep {w w'} (P : program → Prop) : Stable P → extends w w' → P w → P w'.
Proof. intros S. apply S. Qed.

(** [world_typed] of a changed state, field by field; what was changed is left *)
Ltac world_fields Hw E :=
  let w := match type of Hw with world_typed ?w => w end in
  constructor;
  first
    [ exact (keep (λ v, Forall (device_ok v) (w_devs w)) _ E (ok_devs _ Hw))
    | exact (keep (λ v, Forall (layer_typed v) (w_layers w)) _ E (ok_layers _ Hw))
    | exact (keep (λ v, Forall (transport_typed v) (w_transports w)) _ E (ok_transports _ Hw))
    | exact (keep (λ v, Forall (app_ok v) (w_apps w)) _ E (ok_apps _ Hw))
    | exact (keep (λ v, Forall (λ s, ttag v (so_tcp s) = Some t_tcp ∧ is_dns v (so_dns s)) (w_socks w)) _ E (ok_socks _ Hw))
    | exact (keep (λ v, Forall (is_layer v) (w_protocols w) ∧ Forall (is_transport v) (w_transport_layers w) ∧
                        Forall (is_app v) (w_applications w)) _ E (ok_clean _ Hw))
    | exact (keep (λ v, Forall (λ p, ttag v p = Some t_tcp ∨ ttag v p = Some t_sctp) (w_streams w)) _ E (ok_streams _ Hw))
    | exact (keep (λ v, Forall (route_ok v) (w_ip_table w)) _ E (ok_routes _ Hw))
    | exact (keep (λ v, null_or (is_dev v) (w_ax25_default w) ∧
                        map_Forall (λ _ e, ∃ d, ax_interface e = Some d ∧ is_dev v d) (w_ax25_table w)) _ E (ok_ax25 _ Hw))
    | exact (keep (λ v, Forall (λ e, ttag v (me_interface e) = Some t_udp) (w_mdns w)) _ E (ok_mdns _ Hw))
    | exact (keep (λ v, map_Forall (λ _ p, is_dns v p) (w_dns4 w) ∧ map_Forall (λ _ p, is_dns v p) (w_dns6 w)) _ E (ok_dns _ Hw))
    | exact (keep (λ v, Forall (λ u, ∃ n m, dlink v u.2 = Some (phys_vpn_insertion_point n m)) (w_vpns w)) _ E (ok_vpns _ Hw))
    | exact (keep (λ v, Forall (is_dev v) (w_vpn_targets w)) _ E (ok_targets _ Hw))
    | idtac ].

Lemma extends_refl' w w' : w_devs w' = w_devs w → w_layers w' = w_layers w → w_transports w' = w_transports w →
  w_apps w' = w_apps w → w_services w' = w_services w → extends w w'.
Proof. intros E1 E2 E3 E4 E5. split; unfold ltag, ttag, dlink, is_service; rewrite ?E1, ?E2, ?E3, ?E4, ?E5; done. Qed.

(** fields that have no pointers *)
Lemma spec_graph P f : spec P (modify (on_graph f)) (λ _ _, True).
Proof. apply spec_modify. intros w Hw _. split; [by apply extends_refl'|]. intros E. world_fields Hw E. Qed.

Lemma spec_frame_buffer w b : world_typed w → world_typed (on_frame_buffer b w).
Proof.
  intros Hw. assert (E : extends w (on_frame_buffer b w)) by by apply extends_refl'. world_fields Hw E.
Qed.

(** ** The lists of objects *)

Lemma Forall_update {A} (P : A → Prop) l p f : Forall P l → (∀ x, deref l p = Some x → P x → P (f x)) → Forall P (update_at l p f).
Proof.
  intros F H. apply Forall_forall. intros x (q & E)%elem_deref. rewrite deref_update in E.
  rewrite Forall_forall in F. destruct (decide (q = p)) as [->|].
  - destruct (deref l p) as [y|] eqn:D; [|done]. injection E as <-. apply H; [done|]. apply F. by eapply deref_elem.
  - apply F. by eapply deref_elem.
Qed.

(** an object that is looked at through a function that the change respects *)
Lemma fmap_update {A B} (g : A → B) (l : list A) p f q :
  (∀ x, deref l p = Some x → g (f x) = g x) → g <$> deref (update_at l p f) q = g <$> deref l q.
Proof.
  intros H. rewrite deref_update. destruct (decide (q = p)) as [->|]; [|done].
  destruct (deref l p) eqn:D; [|done]. cbn. f_equal. by apply H.
Qed.

Lemma deref_app_fmap {A B} (g : A → B) (l k : list A) q y : g <$> deref l q = Some y → g <$> deref (l ++ k) q = Some y.
Proof. destruct (deref l q) eqn:D; [|done]. by rewrite (deref_app _ k _ _ D). Qed.

Lemma update_devs w p f : world_typed w → (∀ d, dv_link (f d) = dv_link d) →
  (∀ w' d, extends w w' → deref (w_devs w) p = Some d → device_ok w' d → device_ok w' (f d)) →
  world_typed (on_devs (λ l, update_at l p f) w) ∧ extends w (on_devs (λ l, update_at l p f) w).
Proof.
  intros Hw HL H. assert (E : extends w (on_devs (λ l, update_at l p f) w)).
  { split; try done. intros q l. unfold dlink. cbn [on_devs w_devs]. by rewrite fmap_update. }
  split; [|done]. world_fields Hw E. apply Forall_update; [exact (keep (λ v, Forall (device_ok v) _) _ E (ok_devs _ Hw))|]. auto.
Qed.

Lemma update_layers w p f : world_typed w →
  (∀ l, deref (w_layers w) p = Some l → class_tag (nl_class (f l)) = class_tag (nl_class l)) →
  (∀ w' l, extends w w' → deref (w_layers w) p = Some l → layer_typed w' l → layer_typed w' (f l)) →
  world_typed (on_layers (λ l, update_at l p f) w) ∧ extends w (on_layers (λ l, update_at l p f) w).
Proof.
  intros Hw HL H. assert (E : extends w (on_layers (λ l, update_at l p f) w)).
  { split; try done. intros q l. unfold ltag. cbn [on_layers w_layers]. by rewrite fmap_update. }
  split; [|done]. world_fields Hw E. apply Forall_update; [exact (keep (λ v, Forall (layer_typed v) _) _ E (ok_layers _ Hw))|]. auto.
Qed.

Lemma update_transports w p f : world_typed w →
  (∀ t, tclass_tag (tl_class (f t)) = tclass_tag (tl_class t)) →
  (∀ w' t, extends w w' → transport_typed w' t → transport_typed w' (f t)) →
  world_typed (on_transports (λ l, update_at l p f) w) ∧ extends w (on_transports (λ l, update_at l p f) w).
Proof.
  intros Hw HL H. assert (E : extends w (on_transports (λ l, update_at l p f) w)).
  { split; try done. intros q l. unfold ttag. cbn [on_transports w_transports]. rewrite fmap_update; [done|]. intros t _. apply HL. }
  split; [|done]. world_fields Hw E. apply Forall_update; [exact (keep (λ v, Forall (transport_typed v) _) _ E (ok_transports _ Hw))|]. auto.
Qed.

(** ** New objects *)

Lemma new_device_spec opens n l : spec (λ _, True) (new_device opens n l) (λ p w, dlink w p = Some l).
Proof.
  intros w p w' Hw _. unfold new_device. destruct (opens l); [|done]. injection 1 as <- <-.
  set (w' := on_devs _ w). assert (E : extends w w').
  { split; try done. intros q k. apply deref_app_fmap. }
  split_and!; [|done|].
  - world_fields Hw E. apply Forall_app_2; [exact (keep (λ v, Forall (device_ok v) _) _ E (ok_devs _ Hw))|].
    apply Forall_singleton. split; [|by left]. intros et q. cbn [dv_phys new_phys ph_protocols]. by rewrite lookup_empty.
  - unfold dlink, w'. cbn [on_devs w_devs]. by rewrite deref_next.
Qed.

Lemma new_layer_spec P c : Stable P → (∀ w, P w → layer_typed w (NetLayer c nullptr ∅ nullptr)) →
  spec P (new_layer c) (λ p w, ltag w p = Some (class_tag c)).
Proof.
  intros S H w p w' Hw Hp. injection 1 as <- <-.
  set (w' := on_layers _ w). assert (E : extends w w').
  { split; try done. intros q k. apply deref_app_fmap. }
  split_and!; [|done|].
  - world_fields Hw E. apply Forall_app_2; [exact (keep (λ v, Forall (layer_typed v) _) _ E (ok_layers _ Hw))|].
    apply Forall_singleton. apply H. by apply (S _ _ E).
  - unfold ltag, w'. cbn [on_layers w_layers]. by rewrite deref_next.
Qed.

Lemma new_transport_spec P c : Stable P → (∀ w, P w → transport_typed w (Transport c nullptr)) →
  spec P (new_transport c) (λ p w, ttag w p = Some (tclass_tag c)).
Proof.
  intros S H w p w' Hw Hp. injection 1 as <- <-.
  set (w' := on_transports _ w). assert (E : extends w w').
  { split; try done. intros q k. apply deref_app_fmap. }
  split_and!; [|done|].
  - world_fields Hw E. apply Forall_app_2; [exact (keep (λ v, Forall (transport_typed v) _) _ E (ok_transports _ Hw))|].
    apply Forall_singleton. apply H. by apply (S _ _ E).
  - unfold ttag, w'. cbn [on_transports w_transports]. by rewrite deref_next.
Qed.

Lemma new_app_spec P a : Stable P → (∀ w, P w → app_ok w a) → spec P (new_app a) (λ p w, deref (w_apps w) p = Some a).
Proof.
  intros S H w p w' Hw Hp. injection 1 as <- <-.
  set (w' := on_apps _ w). assert (E : extends w w').
  { split; try done. intros q k. apply deref_app. }
  split_and!; [|done|].
  - world_fields Hw E. apply Forall_app_2; [exact (keep (λ v, Forall (app_ok v) _) _ E (ok_apps _ Hw))|].
    apply Forall_singleton. apply H. by apply (S _ _ E).
  - unfold w'. cbn [on_apps w_apps]. by rewrite deref_next.
Qed.

Lemma new_service_spec s : spec (λ _, True) (new_service s) (λ p w, is_service w p).
Proof.
  intros w p w' Hw _. injection 1 as <- <-.
  set (w' := on_services _ w). assert (E : extends w w').
  { split; try done. intros q [k D]. exists k. by apply deref_app. }
  split_and!; [|done|].
  - world_fields Hw E.
  - unfold is_service, w'. cbn [on_services w_services]. by rewrite deref_next.
Qed.

(** ** Lists of pointers *)

(** the spec of a [modify] that touches no object: a goal per changed field is left *)
Ltac spec_field :=
  let w := fresh "w" in let Hw := fresh "Hw" in let Hp := fresh "Hp" in let E := fresh "E" in
  apply spec_modify; intros w Hw Hp; split; [by apply extends_refl'|]; intros E; world_fields Hw E.

Lemma clean_transport_spec t : spec (λ w, is_transport w t) (clean_transport t) (λ _ _, True).
Proof.
  spec_field. destruct (ok_clean _ Hw) as (A & B & C). split_and!.
  - exact A.
  - apply Forall_app_2; [exact B|]. apply Forall_singleton. exact Hp.
  - exact C.
Qed.

Lemma clean_protocol_spec p : spec (λ w, is_layer w p) (clean_protocol p) (λ _ _, True).
Proof.
  spec_field. destruct (ok_clean _ Hw) as (A & B & C). split_and!.
  - apply Forall_app_2; [exact A|]. apply Forall_singleton. exact Hp.
  - exact B.
  - exact C.
Qed.

Lemma clean_application_spec a : spec (λ w, is_app w a) (clean_application a) (λ _ _, True).
Proof.
  spec_field. destruct (ok_clean _ Hw) as (A & B & C). split_and!.
  - exact A.
  - exact B.
  - apply Forall_app_2; [exact C|]. apply Forall_singleton. exact Hp.
Qed.

Lemma add_stream_spec t : spec (λ w, ttag w t = Some t_tcp ∨ ttag w t = Some t_sctp) (add_stream t) (λ _ _, True).
Proof.
  spec_field. apply Forall_app_2; [exact (ok_streams _ Hw)|]. apply Forall_singleton. exact Hp.
Qed.

Lemma insert_vpn_in l name dev v : v ∈ insert_vpn l name dev → v ∈ l ∨ v = (name, dev).
Proof.
  induction l as [|[n d] l IH]; cbn [insert_vpn]; [rewrite list_elem_of_singleton; auto|].
  destruct (bool_decide (n = name)); [auto|]. destruct (str_leb n name); rewrite !elem_of_cons; naive_solver.
Qed.

Lemma insert_vpn_spec name dev : spec (λ w, ∃ n m, dlink w dev = Some (phys_vpn_insertion_point n m))
  (modify (on_vpns (λ l, insert_vpn l name dev))) (λ _ _, True).
Proof.
  spec_field. apply Forall_forall. intros v [Hv| ->]%insert_vpn_in; [|exact Hp].
  pose proof (ok_vpns _ Hw) as F. rewrite Forall_forall in F. exact (F _ Hv).
Qed.

Lemma vpn_target_spec dev : spec (λ w, is_dev w dev) (modify (on_vpn_targets (λ l, l ++ [dev]))) (λ _ _, True).
Proof. spec_field. apply Forall_app_2; [exact (ok_targets _ Hw)|]. apply Forall_singleton. exact Hp. Qed.

Lemma ax25_default_spec dev : spec (λ w, is_dev w dev) (modify (on_ax25_default (λ _, dev))) (λ _ _, True).
Proof. spec_field. split; [right; exact Hp|exact (proj2 (ok_ax25 _ Hw))]. Qed.

Lemma ax25_route_spec dev callsign via :
  spec (λ w, is_dev w dev) (modify (on_ax25_table (λ t, add_ax25_route t callsign (Some dev) via))) (λ _ _, True).
Proof.
  spec_field. split; [exact (proj1 (ok_ax25 _ Hw))|]. apply map_Forall_insert_2; [by exists dev|exact (proj2 (ok_ax25 _ Hw))].
Qed.

Lemma insert_dns_in m a p (P : Z → Prop) : map_Forall (λ _ q, P q) m → P p → map_Forall (λ _ q, P q) (insert_dns m a p).
Proof. intros F H. unfold insert_dns. destruct (m !! key a); [done|]. by apply map_Forall_insert_2. Qed.

Lemma dns4_spec a p : spec (λ w, is_dns w p) (modify (on_dns4 (λ m, insert_dns m a p))) (λ _ _, True).
Proof. spec_field. split; [apply insert_dns_in; [exact (proj1 (ok_dns _ Hw))|exact Hp]|exact (proj2 (ok_dns _ Hw))]. Qed.
Lemma dns6_spec a p : spec (λ w, is_dns w p) (modify (on_dns6 (λ m, insert_dns m a p))) (λ _ _, True).
Proof. spec_field. split; [exact (proj1 (ok_dns _ Hw))|apply insert_dns_in; [exact (proj2 (ok_dns _ Hw))|exact Hp]]. Qed.

Lemma socks_spec s : spec (λ w, ttag w (so_tcp s) = Some t_tcp ∧ is_dns w (so_dns s)) (modify (on_socks (λ l, l ++ [s]))) (λ _ _, True).
Proof. spec_field. apply Forall_app_2; [exact (ok_socks _ Hw)|]. apply Forall_singleton. exact Hp. Qed.

(** ** Drawing and SNMP *)

Lemma draw_node_spec name meta : spec (λ _, True) (draw_node name meta) (λ _ _, True).
Proof. apply spec_graph. Qed.
Lemma draw_connection_spec from to : spec (λ _, True) (draw_connection from to) (λ _ _, True).
Proof. apply spec_graph. Qed.
Lemma draw_spec name meta to : spec (λ _, True) (draw_linked name meta to) (λ _ _, True).
Proof.
  eapply spec_bind; [apply _|apply draw_node_spec|done|]. intros []. eapply spec_weaken; [apply draw_connection_spec|done|done].
Qed.

Lemma sd_register_spec oid v : spec (λ _, True) (sd_register oid v) (λ _ _, True).
Proof.
  intros w a w' Hw _. unfold sd_register. destruct (register_oid (w_sd w) oid v) as [d|]; [|done]. injection 1 as <- <-.
  assert (E : extends w (on_sd (λ _, d) w)) by by apply extends_refl'. split_and!; [|done|done]. world_fields Hw E.
Qed.

(** ** Links *)

Lemma spec_update_layers (P : program → Prop) p f :
  Stable P →
  (∀ w l, P w → deref (w_layers w) p = Some l → class_tag (nl_class (f l)) = class_tag (nl_class l)) →
  (∀ w l, P w → ltag w p = Some (class_tag (nl_class l)) → layer_typed w l → layer_typed w (f l)) →
  spec P (modify (on_layers (λ ls, update_at ls p f))) (λ _ _, True).
Proof.
  intros S HT HO. apply spec_modify. intros w Hw Hp. destruct (update_layers w p f Hw) as [O E]; [by eauto| |done].
  intros w' l X D. apply HO; [by apply (S _ _ X)|]. apply (ext_layer _ _ X). unfold ltag. by rewrite D.
Qed.

Lemma register_layer_spec dev et layer :
  spec (λ w, is_dev w dev ∧ ∃ t, ltag w layer = Some t ∧ ether_ok (u16 et) t) (register_layer dev et layer) (λ _ _, True).
Proof.
  unfold register_layer. eapply (spec_bind (λ w, is_dev w dev ∧ ∃ t, ltag w layer = Some t ∧ ether_ok (u16 et) t) _ _ (λ _ _, True)); [apply _| |done|].
  - apply spec_modify. intros w Hw Hp.
    destruct (update_devs w dev (with_phys (λ d, phys_register_protocol d et layer)) Hw) as [O E]; [done| |done].
    intros w' d X _ [D1 D2]. split; [|exact D2]. intros t q. cbn [with_phys dv_phys phys_register_protocol ph_protocols].
    destruct (ph_protocols (dv_phys d) !! u16 et) as [p|] eqn:L; [apply D1|].
    destruct (decide (t = u16 et)) as [->|N]; [|rewrite lookup_insert_ne by done; apply D1].
    rewrite lookup_insert_eq. injection 1 as <-. destruct Hp as (_ & t & T & R). exists t. split; [by apply (ext_layer _ _ X)|done].
  - intros []. apply spec_update_layers; [apply _|done|]. intros w l [[D _] _] _ (A & B & C). split; [by right|]. split; [exact B|exact C].
Qed.

Lemma register_transport_spec layer protocol transport lt tt :
  lt = t_ipv4 ∨ lt = t_ipv6 → protocol_ok lt (u8 protocol) tt →
  spec (λ w, ltag w layer = Some lt ∧ ttag w transport = Some tt) (register_transport layer protocol transport) (λ _ _, True).
Proof.
  intros HL PO. unfold register_transport.
  eapply (spec_bind (λ w, ltag w layer = Some lt ∧ ttag w transport = Some tt) _ _ (λ _ _, True)); [apply _| |done|].
  - apply spec_update_layers; [apply _|done|]. intros w l [L T] L2 (A & B & C & D). split_and!; [done|done| |done].
    intros k q. cbn [with_protocol nl_prot_map]. destruct (nl_prot_map l !! u8 protocol) as [p|] eqn:M; [apply C|].
    destruct (decide (k = u8 protocol)) as [->|N]; [|rewrite lookup_insert_ne by done; apply C].
    rewrite lookup_insert_eq. injection 1 as <-. exists tt. split; [done|]. cbn [with_protocol nl_class]. congruence.
  - intros []. apply spec_modify. intros w Hw Hp.
    destruct (update_transports w transport (with_idev layer) Hw) as [O E]; [done| |done].
    intros w' t X [D1 D2]. split; [|exact D2]. right. destruct Hp as [[L _] _]. apply (ext_layer _ _ X) in L. destruct HL as [-> | ->]; [by left|by right].
Qed.

Lemma register_icmp_spec layer i : spec (λ w, is_icmp w i) (register_icmp layer i) (λ _ _, True).
Proof.
  apply spec_update_layers; [apply _|done|]. intros w l H _ (A & B & C). split; [exact A|]. split; [by right|exact C].
Qed.

Lemma register_icmp6_spec n i : spec (λ w, ttag w i = Some t_icmp6) (register_icmp6 n i) (λ _ _, True).
Proof.
  apply spec_update_layers; [apply _| |].
  - intros w l _ _. cbn [with_class nl_class]. by destruct (nl_class l).
  - intros w l H _ (A & B & C & D). split_and!; [done|done| |]; cbn [with_class nl_class nl_prot_map]; destruct (nl_class l); try done. by right.
Qed.

Lemma resolver_add_static_spec now r dev m ip : spec (λ _, True) (resolver_add_static now r dev m ip) (λ _ _, True).
Proof.
  intros w a w' Hw _. unfold resolver_add_static. destruct (deref (w_layers w) r) as [l|] eqn:D; [|done].
  destruct (nl_class l) as [ar|ca i| | |] eqn:C; [| |done|done|done].
  - destruct (add_static_entry now (acache ar) dev m ip) as [c|]; [|done]. cbn [res_bind]. injection 1 as <- <-.
    destruct (update_layers w r (with_class (λ _, cl_arp (with_cache ar c))) Hw) as [O E]; [| |done].
    + intros l' D'. rewrite D in D'. injection D' as <-. cbn. by rewrite C.
    + intros w' l' X D' (A1 & A2 & A3 & A4). rewrite D in D'. injection D' as <-. rewrite C in A3, A4. split_and!; done.
  - destruct (add_static_entry now ca dev m ip) as [c|]; [|done]. cbn [res_bind]. injection 1 as <- <-.
    destruct (update_layers w r (with_class (λ _, cl_ndp c i)) Hw) as [O E]; [| |done].
    + intros l' D'. rewrite D in D'. injection D' as <-. cbn. by rewrite C.
    + intros w' l' X D' (A1 & A2 & A3 & A4). rewrite D in D'. injection D' as <-. rewrite C in A3, A4. split_and!; done.
Qed.

(** ** Handlers *)

Lemma add_udp_handler_spec u port a : spec (λ w, is_app w a) (modify (add_udp_handler u port a)) (λ _ _, True).
Proof.
  apply spec_modify. intros w Hw Hp. unfold add_udp_handler.
  destruct (update_transports w u (on_udp (λ u, udp_add_handler u port a)) Hw) as [O E]; [| |done].
  - intros [[] ?]; done.
  - intros w' [[| | | |v i n] idev] X [A B]; (split; [exact A|]); try exact B. destruct B as [B1 B2]. split; [done|].
    intros k q. unfold udp_add_handler. destruct (callbacks v !! port) as [p|] eqn:L; [apply B2|]. cbn [with_callbacks callbacks].
    destruct (decide (k = port)) as [->|N]; [|rewrite lookup_insert_ne by done; apply B2].
    rewrite lookup_insert_eq. injection 1 as <-. by apply (stable_is_app _ _ _ X).
Qed.

Lemma run_init_ok w s : world_typed w → world_typed (run_init s w) ∧ extends w (run_init s w).
Proof.
  intros Hw. unfold run_init. destruct (deref (w_services w) s) as [[]|]; try done. split; [by apply spec_frame_buffer|by apply extends_refl'].
Qed.

Lemma add_tcp_handler_ok w t port s : world_typed w → is_service w s →
  world_typed (add_tcp_handler t port s w) ∧ extends w (add_tcp_handler t port s w).
Proof.
  intros Hw Hs. destruct (run_init_ok w s Hw) as [O1 E1]. unfold add_tcp_handler.
  destruct (update_transports (run_init s w) t (on_tcp (λ u, add_handler u port (stream_handler s))) O1) as [O E];
    [| |split; [done|by etransitivity]].
  - intros [[] ?]; done.
  - intros w' [[| |v i n| |] idev] X [A B]; (split; [exact A|]); try exact B. destruct B as [B1 B2]. split; [done|].
    intros k q. unfold add_handler. destruct (listeners v !! port) as [p|] eqn:L; [apply B2|]. cbn [listeners].
    destruct (decide (k = port)) as [->|N]; [|rewrite lookup_insert_ne by done; apply B2].
    rewrite lookup_insert_eq. injection 1 as <-. apply (stable_service _ _ _ X). by apply (stable_service _ _ _ E1).
Qed.

Lemma add_sctp_handler_ok w t port s : world_typed w → is_service w s →
  world_typed (add_sctp_handler t port s w) ∧ extends w (add_sctp_handler t port s w).
Proof.
  intros Hw Hs. destruct (run_init_ok w s Hw) as [O1 E1]. unfold add_sctp_handler.
  destruct (update_transports (run_init s w) t (on_sctp (λ u, sctp_add_handler u port (sctp_stream_handler s))) O1) as [O E];
    [| |split; [done|by etransitivity]].
  - intros [[] ?]; done.
  - intros w' [[| | |v i n|] idev] X [A B]; (split; [exact A|]); try exact B. destruct B as [B1 B2]. split; [done|].
    intros k q. unfold sctp_add_handler. destruct (sctp_listeners v !! port) as [p|] eqn:L; [apply B2|]. cbn [sctp_listeners].
    destruct (decide (k = port)) as [->|N]; [|rewrite lookup_insert_ne by done; apply B2].
    rewrite lookup_insert_eq. injection 1 as <-. apply (stable_service _ _ _ X). by apply (stable_service _ _ _ E1).
Qed.

(** a cast gives an object of its class *)
Lemma ipv4_of_tag w d i : ipv4_of w d = Some i → ltag w i = Some t_ipv4.
Proof.
  unfold ipv4_of, ltag. destruct (phys_get_protocol (dv_phys d) 0x0800) as [p|]; [|done].
  destruct (deref (w_layers w) p) as [l|] eqn:D; [|done]. cbn. destruct (nl_class l) eqn:C; try done. injection 1 as <-. rewrite D. cbn. by rewrite C.
Qed.
Lemma ipv6_of_tag w d i : ipv6_of w d = Some i → ltag w i = Some t_ipv6.
Proof.
  unfold ipv6_of, ltag. destruct (phys_get_protocol (dv_phys d) 0x86dd) as [p|]; [|done].
  destruct (deref (w_layers w) p) as [l|] eqn:D; [|done]. cbn. destruct (nl_class l) eqn:C; try done. injection 1 as <-. rewrite D. cbn. by rewrite C.
Qed.
Lemma tcp_of_tag w i t : tcp_of w i = Some t → ttag w t = Some t_tcp.
Proof.
  unfold tcp_of, ttag. destruct (get_transport_layer w i 0x06) as [p|]; [|done].
  destruct (deref (w_transports w) p) as [l|] eqn:D; [|done]. cbn. destruct (tl_class l) eqn:C; try done. injection 1 as <-. rewrite D. cbn. by rewrite C.
Qed.
Lemma udp_of_tag w i t : udp_of w i = Some t → ttag w t = Some t_udp.
Proof.
  unfold udp_of, ttag. destruct (get_transport_layer w i 0x11) as [p|]; [|done].
  destruct (deref (w_transports w) p) as [l|] eqn:D; [|done]. cbn. destruct (tl_class l) eqn:C; try done. injection 1 as <-. rewrite D. cbn. by rewrite C.
Qed.
Lemma sctp_of_tag w i t : sctp_of w i = Some t → ttag w t = Some t_sctp.
Proof.
  unfold sctp_of, ttag. destruct (get_transport_layer w i 0x84) as [p|]; [|done].
  destruct (deref (w_transports w) p) as [l|] eqn:D; [|done]. cbn. destruct (tl_class l) eqn:C; try done. injection 1 as <-. rewrite D. cbn. by rewrite C.
Qed.

(** ** Offering a service *)

Lemma offer_ok lo to add d w :
  world_typed w → (∀ i t, to w i = Some t → world_typed (add t w) ∧ extends w (add t w)) →
  world_typed (offer lo to add d w) ∧ extends w (offer lo to add d w).
Proof. intros Hw H. unfold offer. destruct (lo w d) as [i|]; [|done]. destruct (to w i) as [t|] eqn:T; [|done]. by eapply H. Qed.

Lemma foldl_ok {A} (f : program → A → program) (P : program → Prop) l w : Stable P →
  (∀ w x, world_typed w → P w → world_typed (f w x) ∧ extends w (f w x)) → world_typed w → P w →
  world_typed (foldl f w l) ∧ extends w (foldl f w l).
Proof.
  intros S H. revert w. induction l as [|x l IH]; intros w Hw Hp; [done|]. cbn [foldl].
  destruct (H w x Hw Hp) as [O E]. destruct (IH (f w x) O (S _ _ E Hp)) as [O2 E2]. split; [done|by etransitivity].
Qed.

Lemma spec_fold (P : program → Prop) (f : program → device → program) :
  Stable P → (∀ w d, world_typed w → P w → world_typed (f w d) ∧ extends w (f w d)) →
  spec P (modify (λ w, foldl f w (w_devs w))) (λ _ _, True).
Proof. intros S H. apply spec_modify. intros w Hw Hp. destruct (foldl_ok f P (w_devs w) w S H Hw Hp). done. Qed.

Lemma offer_both_ok (add : Z → program → program) (to : program → Z → option Z) s w d :
  (∀ t w, world_typed w → is_service w s → world_typed (add t w) ∧ extends w (add t w)) → world_typed w → is_service w s →
  world_typed (offer ipv6_of to add d (offer ipv4_of to add d w)) ∧ extends w (offer ipv6_of to add d (offer ipv4_of to add d w)).
Proof.
  intros H Hw Hs. destruct (offer_ok ipv4_of to add d w Hw) as [O E]; [auto|].
  destruct (offer_ok ipv6_of to add d _ O) as [O2 E2]; [|split; [done|by etransitivity]].
  intros i t _. apply H; [done|]. by apply (stable_service _ _ _ E).
Qed.

Lemma register_tcp_service_spec s port : spec (λ w, is_service w s) (register_tcp_service s port) (λ _ _, True).
Proof. apply spec_fold; [apply _|]. intros w d Hw Hs. apply (offer_both_ok _ _ s); auto using add_tcp_handler_ok. Qed.
Lemma register_sctp_service_spec s port : spec (λ w, is_service w s) (register_sctp_service s port) (λ _ _, True).
Proof. apply spec_fold; [apply _|]. intros w d Hw Hs. apply (offer_both_ok _ _ s); auto using add_sctp_handler_ok. Qed.

(** ** Links that are made later

    A transport layer gets its IP layer, and a layer its device, when it is registered, after
    it was made.  [wired ht hl w] says that only the transports [ht] and the layers [hl] still
    wait for that.  Steps that make nothing and link nothing are [Quiet]. *)

Definition lview (l : net_layer) : layer_tag * Z := (class_tag (nl_class l), nl_default_pdev l).
(** neighbor discovery is not registered with a device, and uses none *)
Definition needs_pdev (t : layer_tag) : bool := match t with t_ndp => false | _ => true end.

Definition wired (ht hl : list Z) (w : program) : Prop :=
  (∀ p i, tl_idev <$> deref (w_transports w) p = Some i → p ∈ ht ∨ i ≠ nullptr) ∧
  (∀ p t d, lview <$> deref (w_layers w) p = Some (t, d) → needs_pdev t = true → p ∈ hl ∨ d ≠ nullptr).

Definition same_wiring (w w' : program) : Prop :=
  (∀ p, tl_idev <$> deref (w_transports w') p = tl_idev <$> deref (w_transports w) p) ∧
  (∀ p, lview <$> deref (w_layers w') p = lview <$> deref (w_layers w) p).

#[global] Instance same_wiring_preorder : PreOrder same_wiring.
Proof. split; [by split|]. intros a b c [A B] [A' B']. split; intros p; etransitivity; eauto. Qed.

Lemma wired_same ht hl w w' : same_wiring w w' → wired ht hl w → wired ht hl w'.
Proof. intros [A B] [H K]. split; [intros p i; rewrite A; apply H|intros p t d; rewrite B; apply K]. Qed.

Definition Quiet {A} (m : M A) : Prop := ∀ w a w', m w = Ok (a, w') → same_wiring w w'.
(** a triple *)
Definition wires {A} (ht hl : list Z) (m : M A) (Q : A → program → Prop) : Prop :=
  ∀ w a w', wired ht hl w → m w = Ok (a, w') → Q a w'.

Lemma quiet_ret {A} (a : A) : Quiet (mret a : M A).
Proof. intros w a' w' [= <- <-]. done. Qed.
Lemma quiet_lift {A} (r : res A) : Quiet (lift r).
Proof. intros w a w'. unfold lift. destruct r; cbn; [|done]. by intros [= _ <-]. Qed.
Lemma quiet_gets {A} (f : program → A) : Quiet (gets f).
Proof. intros w a w' [= _ <-]. done. Qed.
Lemma quiet_modify f : (∀ w, same_wiring w (f w)) → Quiet (modify f).
Proof. intros H w a w' [= _ <-]. apply H. Qed.
Lemma quiet_bind {A B} (m : M A) (k : A → M B) : Quiet m → (∀ a, Quiet (k a)) → Quiet (m ≫= k).
Proof.
  intros Hm Hk w b w2 E. unfold mbind, M_bind in E. destruct (m w) as [[a w1]|] eqn:Em; [|done]. cbn in E.
  etransitivity; [by eapply Hm|by eapply Hk].
Qed.
Lemma quiet_for_each {A} (l : list A) (body : A → M unit) : (∀ x, Quiet (body x)) → Quiet (for_each l body).
Proof. intros H. induction l; cbn [for_each]; [apply quiet_ret|]. by apply quiet_bind. Qed.
Lemma quiet_when {A} (o : option A) (body : A → M unit) : (∀ x, Quiet (body x)) → Quiet (when_some o body).
Proof. intros H. destruct o; [apply H|apply quiet_ret]. Qed.

Lemma same_transports w p f : (∀ t, tl_idev (f t) = tl_idev t) → same_wiring w (on_transports (λ l, update_at l p f) w).
Proof. intros H. split; [|done]. intros q. cbn [on_transports w_transports]. by apply fmap_update. Qed.
Lemma same_layers w p f :
  (∀ l, deref (w_layers w) p = Some l → lview (f l) = lview l) → same_wiring w (on_layers (λ l, update_at l p f) w).
Proof. intros H. split; [done|]. intros q. cbn [on_layers w_layers]. by apply fmap_update. Qed.

Lemma quiet_device opens n l : Quiet (new_device opens n l).
Proof. intros w a w'. unfold new_device. destruct (opens l); [|done]. by intros [= _ <-]. Qed.
Lemma quiet_app a : Quiet (new_app a).
Proof. by intros w p w' [= _ <-]. Qed.
Lemma quiet_service s : Quiet (new_service s).
Proof. by intros w p w' [= _ <-]. Qed.
Lemma quiet_sd oid v : Quiet (sd_register oid v).
Proof. intros w a w'. unfold sd_register. destruct (register_oid _ _ _); [|done]. by intros [= _ <-]. Qed.
Lemma quiet_icmp layer i : Quiet (register_icmp layer i).
Proof. apply quiet_modify. intros w. by apply same_layers. Qed.
Lemma quiet_icmp6 n i : Quiet (register_icmp6 n i).
Proof.
  apply quiet_modify. intros w. apply same_layers. intros l _. unfold lview, with_class. cbn. by destruct (nl_class l).
Qed.
Lemma quiet_static now r dev m ip : Quiet (resolver_add_static now r dev m ip).
Proof.
  intros w a w'. unfold resolver_add_static. destruct (deref (w_layers w) r) as [l|] eqn:D; [|done].
  destruct (nl_class l) eqn:C; try done; destruct (add_static_entry _ _ _ _ _); try done; cbn [res_bind];
    intros [= _ <-]; apply same_layers; intros l' D'; rewrite D in D'; injection D' as <-; unfold lview; cbn; by rewrite C.
Qed.
Lemma quiet_udp_handler u port a : Quiet (modify (add_udp_handler u port a)).
Proof. apply quiet_modify. intros w. by apply same_transports. Qed.

Lemma same_init s w : same_wiring w (run_init s w).
Proof. unfold run_init. by destruct (deref (w_services w) s) as [[]|]. Qed.
Lemma same_tcp_handler t port s w : same_wiring w (add_tcp_handler t port s w).
Proof. etransitivity; [apply (same_init s)|]. by apply same_transports. Qed.
Lemma same_sctp_handler t port s w : same_wiring w (add_sctp_handler t port s w).
Proof. etransitivity; [apply (same_init s)|]. by apply same_transports. Qed.
Lemma same_offer lo to add d w : (∀ t w, same_wiring w (add t w)) → same_wiring w (offer lo to add d w).
Proof. intros H. unfold offer. destruct (lo w d); [|done]. by destruct (to w _). Qed.
Lemma same_fold {A} (f : program → A → program) l w : (∀ w x, same_wiring w (f w x)) → same_wiring w (foldl f w l).
Proof. intros H. revert w. induction l as [|x l IH]; intros w; [done|]. cbn [foldl]. etransitivity; [apply H|apply IH]. Qed.
Lemma quiet_tcp_service s port : Quiet (register_tcp_service s port).
Proof.
  apply quiet_modify. intros w. apply same_fold. intros v d. etransitivity; apply same_offer; intros; apply same_tcp_handler.
Qed.
Lemma quiet_sctp_service s port : Quiet (register_sctp_service s port).
Proof.
  apply quiet_modify. intros w. apply same_fold. intros v d. etransitivity; apply same_offer; intros; apply same_sctp_handler.
Qed.

(** ** Rules *)

Lemma wires_bind {A B} ht hl ht' hl' (m : M A) (F : A → Prop) (k : A → M B) R :
  wires ht hl m (λ a w, wired (ht' a) (hl' a) w ∧ F a) → (∀ a, F a → wires (ht' a) (hl' a) (k a) R) → wires ht hl (m ≫= k) R.
Proof.
  intros Hm Hk w b w2 Hw E. unfold mbind, M_bind in E. destruct (m w) as [[a w1]|] eqn:Em; [|done]. cbn in E.
  destruct (Hm _ _ _ Hw Em) as [Hw1 Ha]. by eapply Hk.
Qed.
(** a step that links nothing, and one that leaves the same behind *)
Lemma wires_skip {A B} ht hl (m : M A) (k : A → M B) R : Quiet m → (∀ a, wires ht hl (k a) R) → wires ht hl (m ≫= k) R.
Proof.
  intros Hm Hk. apply (wires_bind ht hl (λ _, ht) (λ _, hl) m (λ _, True)); [|auto].
  intros w a w' Hw E. split; [|done]. eapply wired_same; [by eapply Hm|done].
Qed.
Lemma wires_do {A B} ht hl (m : M A) (k : A → M B) R :
  wires ht hl m (λ _, wired ht hl) → (∀ a, wires ht hl (k a) R) → wires ht hl (m ≫= k) R.
Proof.
  intros Hm Hk. apply (wires_bind ht hl (λ _, ht) (λ _, hl) m (λ _, True)); [|auto].
  intros w a w' Hw E. split; [by eapply Hm|done].
Qed.
Lemma wires_quiet {A} ht hl (m : M A) : Quiet m → wires ht hl m (λ _, wired ht hl).
Proof. intros Hm w a w' Hw E. eapply wired_same; [by eapply Hm|done]. Qed.

Lemma deref_append_cases {A B} (g : A → B) (l : list A) x p y :
  g <$> deref (l ++ [x]) p = Some y → g <$> deref l p = Some y ∨ p = next l ∧ y = g x.
Proof.
  destruct (deref (l ++ [x]) p) as [z|] eqn:D; [|done]. intros [= <-].
  destruct (deref_app_inv _ _ _ _ D) as [-> |[-> ->]]; auto.
Qed.

Lemma next_not_null {A} (l : list A) : next l ≠ nullptr.
Proof. unfold next, zlen, nullptr. lia. Qed.

Lemma wires_transport ht hl c {B} (k : Z → M B) R :
  (∀ p, wires (p :: ht) hl (k p) R) → wires ht hl (new_transport c ≫= k) R.
Proof.
  intros Hk. apply (wires_bind ht hl (λ p, p :: ht) (λ _, hl) (new_transport c) (λ _, True)); [|auto].
  intros w p w' [H K] [= <- <-]. split; [|done]. split; [|exact K].
  intros q i [E|[-> _]]%deref_append_cases; [destruct (H q i E); [left; by right|by right]|left; by left].
Qed.
Lemma wires_layer ht hl c {B} (k : Z → M B) R :
  (∀ p, p ≠ nullptr → wires ht (p :: hl) (k p) R) → wires ht hl (new_layer c ≫= k) R.
Proof.
  intros Hk. apply (wires_bind ht hl (λ _, ht) (λ p, p :: hl) (new_layer c) (λ p, p ≠ nullptr)); [|auto].
  intros w p w' [H K] [= <- <-]. split; [|apply next_not_null]. split; [exact H|].
  intros q t d [E|[-> _]]%deref_append_cases N; [destruct (K q t d E N); [left; by right|by right]|left; by left].
Qed.
Lemma wires_ndp ht hl c i {B} (k : Z → M B) R :
  (∀ p, wires ht hl (k p) R) → wires ht hl (new_layer (cl_ndp c i) ≫= k) R.
Proof.
  intros Hk. apply (wires_bind ht hl (λ _, ht) (λ _, hl) (new_layer _) (λ _, True)); [|auto].
  intros w p w' [H K] [= <- <-]. split; [|done]. split; [exact H|].
  by intros q t d [E|[-> [= -> _]]]%deref_append_cases N; [apply (K q t d E N)|].
Qed.

(** registering a transport layer with an IP layer, and a layer with a device *)
Lemma wires_register_transport ht hl ip protocol t :
  ip ≠ nullptr → wires (t :: ht) hl (register_transport ip protocol t) (λ _, wired ht hl).
Proof.
  intros Hi w a w' Hw [= _ <-].
  assert (wired (t :: ht) hl (on_layers (λ ls, update_at ls ip (with_protocol protocol t)) w)) as [H K]
    by (eapply wired_same; [by apply same_layers|done]).
  split; [|exact K]. intros p i. cbn [on_transports w_transports]. rewrite deref_update.
  destruct (decide (p = t)) as [->|N].
  - destruct (deref _ t); [|done]. intros [= <-]. by right.
  - intros E. destruct (H p i E) as [[->|?]%elem_of_cons|?]; [done|by left|by right].
Qed.
Lemma wires_register_layer ht hl dev et l :
  dev ≠ nullptr → wires ht (l :: hl) (register_layer dev et l) (λ _, wired ht hl).
Proof.
  intros Hd w a w' [H K] [= _ <-]. split; [exact H|]. intros p t d. cbn [on_layers w_layers on_devs]. rewrite deref_update.
  destruct (decide (p = l)) as [->|N].
  - destruct (deref _ l); [|done]. intros [= <- <-] _. by right.
  - intros E M. destruct (K p t d E M) as [[->|?]%elem_of_cons|?]; [done|by left|by right].
Qed.
Lemma wires_then {A B} ht hl ht' hl' (m : M A) (k : A → M B) R :
  wires ht hl m (λ _, wired ht' hl') → (∀ a, wires ht' hl' (k a) R) → wires ht hl (m ≫= k) R.
Proof.
  intros Hm Hk. apply (wires_bind ht hl (λ _, ht') (λ _, hl') m (λ _, True)); [|auto].
  intros w a w' Hw E. split; [by eapply Hm|done].
Qed.

Section Blocks.
Context {setting : Type} `{!Libconfig setting} (env : host setting).

Lemma register_mdns_service_spec port (settings : setting) : spec (λ _, True) (register_mdns_service port settings) (λ _ _, True).
Proof.
  unfold register_mdns_service. destruct (cfg_lookup settings (lit "mdns")) as [v|]; [|by apply spec_ret].
  destruct (as_string v) as [hostname|]; [|done].
  apply spec_fold; [apply _|]. intros w d Hw _. apply offer_ok; [done|]. intros i u U.
  assert (E : extends w (on_mdns (λ l, add_protocol l (MdnsEntry u port hostname)) w)) by by apply extends_refl'.
  split; [|done]. world_fields Hw E. apply Forall_app_2; [exact (ok_mdns _ Hw)|]. apply Forall_singleton. by apply (udp_of_tag w i).
Qed.

(** ** Reading settings and addresses *)

Lemma parse_bytes_good parts base i n l : parse_bytes parts base i n = Ok l → length l = n ∧ bytes_ok l.
Proof.
  revert i l. induction n as [|n IH]; intros i l; cbn [parse_bytes]; [injection 1 as <-; split; [done|constructor]|].
  destruct (part_at parts i) as [s|]; [|done]. cbn [res_bind]. destruct (parse_bytes parts base (S i) n) as [r|] eqn:R; [|done].
  injection 1 as <-. destruct (IH _ _ R) as [L B]. split; [cbn; congruence|]. constructor; [zlia|done].
Qed.

Lemma parse_words_good parts base i n l : parse_words parts base i n = Ok l → length l = (2 * n)%nat ∧ bytes_ok l.
Proof.
  revert i l. induction n as [|n IH]; intros i l; cbn [parse_words]; [injection 1 as <-; split; [done|constructor]|].
  destruct (part_at parts i) as [s|]; [|done]. cbn [res_bind]. destruct (parse_words parts base (S i) n) as [r|] eqn:R; [|done].
  injection 1 as <-. destruct (IH _ _ R) as [L B]. split; [cbn; lia|]. constructor; [zlia|]. constructor; [zlia|done].
Qed.

Lemma parse_ipv4_spec s : spec (λ _, True) (parse_ipv4 s) (λ a _, good a ∧ af a = ipv4).
Proof.
  eapply spec_weaken; [apply (spec_lift (λ _, True))|done|]. intros a w. unfold parse_address. destruct (split s (lit ".")) as [parts|]; [|done]. cbn [res_bind].
  destruct (_ && _); [done|]. rewrite decide_False, decide_True by done. destruct (parse_bytes parts 10 0 4) as [l|] eqn:E; [|done]. cbn [res_bind].
  destruct (parse_bytes_good _ _ _ _ _ E) as [L B]. destruct (mk_addr_spec ipv4 l B) as (b & -> & G & K); [unfold zlen; cbn; lia|]. injection 1 as <-.
  split; [done|]. by injection K.
Qed.

Lemma parse_ipv6_spec s : spec (λ _, True) (parse_ipv6 s) (λ a _, good a ∧ af a = ipv6).
Proof.
  eapply spec_weaken; [apply (spec_lift (λ _, True))|done|]. intros a w. unfold parse_address. destruct (split s (lit ":")) as [parts|]; [|done]. cbn [res_bind].
  destruct (_ && _); [done|]. rewrite decide_True by done. destruct (parse_words parts 16 0 8) as [l|] eqn:E; [|done]. cbn [res_bind].
  destruct (parse_words_good _ _ _ _ _ E) as [L B]. destruct (mk_addr_spec ipv6 l B) as (b & -> & G & K); [unfold zlen; cbn; lia|]. injection 1 as <-.
  split; [done|]. by injection K.
Qed.

Lemma lift_spec {A} (r : res A) : spec (λ _, True) (lift r) (λ _ _, True).
Proof. eapply spec_weaken; [apply (spec_lift (λ _, True))|done|done]. Qed.
Lemma get_str_spec (s : setting) k o d : spec (λ _, True) (get_str s k o d) (λ _ _, True).
Proof. apply lift_spec. Qed.
Lemma get_int_spec (s : setting) k o d : spec (λ _, True) (get_int s k o d) (λ _ _, True).
Proof. apply lift_spec. Qed.
Lemma get_bool_spec (s : setting) k o d : spec (λ _, True) (get_bool s k o d) (λ _ _, True).
Proof. apply lift_spec. Qed.
Lemma show_spec a : spec (λ _, True) (show a) (λ _ _, True).
Proof. apply lift_spec. Qed.
Lemma parse_callsign_spec s : spec (λ _, True) (parse_callsign s) (λ _ _, True).
Proof. apply lift_spec. Qed.

Create HintDb stack.
#[local] Hint Resolve lift_spec get_str_spec get_int_spec get_bool_spec show_spec parse_callsign_spec parse_ipv4_spec parse_ipv6_spec
  draw_node_spec draw_connection_spec draw_spec sd_register_spec new_device_spec clean_transport_spec clean_protocol_spec
  clean_application_spec add_stream_spec insert_vpn_spec vpn_target_spec ax25_default_spec ax25_route_spec dns4_spec dns6_spec
  socks_spec register_layer_spec register_icmp_spec register_icmp6_spec resolver_add_static_spec add_udp_handler_spec
  register_tcp_service_spec register_sctp_service_spec register_mdns_service_spec new_service_spec : stack.

(** what is known implies what a step needs *)
Ltac spec_pre :=
  let w := fresh "w" in
  intros w; cbv beta; cbn [class_tag tclass_tag fst snd];
  unfold null_or, is_transport, is_layer, is_app, is_dns, is_icmp, is_dev; naive_solver.
(** one step of a block: with a rule of the database, or with the given one *)
Ltac spec_next H :=
  let x := fresh "x" in
  eapply spec_bind; [apply _|H|spec_pre|intros x; cbv beta; match type of x with unit => destruct x | _ => idtac end].
Ltac spec_step := spec_next ltac:(solve [eauto 1 with stack]).
Tactic Notation "spec_step" "as" simple_intropattern(x) :=
  eapply spec_bind; [apply _|solve [eauto 1 with stack]|spec_pre|intros x; cbv beta].
Ltac spec_done :=
  first [ apply spec_ret; spec_pre
        | eapply spec_weaken; [solve [eauto 1 with stack]|spec_pre|by intros] ].
(** a block of primitive steps *)
Ltac spec_block := repeat first [spec_step | spec_done].

Lemma register_interface_spec n name description : spec (λ _, True) (register_interface n name description) (λ _ _, True).
Proof. unfold register_interface. spec_block. Qed.
#[local] Hint Resolve register_interface_spec : stack.

Lemma register_system_spec : spec (λ _, True) (register_system env) (λ _ _, True).
Proof. apply spec_for_each; [apply _|]. intros [oid v] _. apply sd_register_spec. Qed.

Lemma start_pcap_protocols cenv d file i o p : start_pcap cenv d file i o = Ok p → ph_protocols p = ph_protocols d.
Proof.
  unfold start_pcap. destruct (ph_dumper d); [|by injection 1 as <-|by injection 1 as <-].
  destruct (i || o); [|by injection 1 as <-]. destruct (format_one _ _) as [t|]; [|done]. cbn [res_bind].
  destruct (can_create _ _); [|done]. by injection 1 as <-.
Qed.

Lemma start_capture_spec dev file : spec (λ _, True) (start_capture env dev file) (λ _ _, True).
Proof.
  intros w a w' Hw _. unfold start_capture. destruct (deref (w_devs w) dev) as [d|] eqn:D; [|done].
  destruct (start_pcap (h_capture env) (dv_phys d) file true true) as [p|] eqn:S; [|done]. cbn [res_bind]. injection 1 as <- <-.
  destruct (update_devs w dev (with_phys (λ _, p)) Hw) as [O E]; [done| |done].
  intros w' d' _ D'. rewrite D in D'. injection D' as <-. intros [A B]. split; [|exact B]. cbn [with_phys dv_phys].
  by rewrite (start_pcap_protocols _ _ _ _ _ _ S).
Qed.
#[local] Hint Resolve start_capture_spec : stack.

(** ** Devices *)

Lemma kiss_beacon_spec (interface : setting) : spec (λ _, True) (kiss_beacon interface) (λ _ _, True).
Proof.
  unfold kiss_beacon. spec_step as beacon. destruct (empty_str beacon); [spec_done|]. spec_step as interval. destruct (_ <=? 0); [done|]. spec_done.
Qed.
#[local] Hint Resolve kiss_beacon_spec : stack.

(** both branches of a step *)
Lemma spec_if {A} (P : program → Prop) (b : bool) (m1 m2 : M A) Q :
  (b = true → spec P m1 Q) → (b = false → spec P m2 Q) → spec P (if b then m1 else m2) Q.
Proof. destruct b; auto. Qed.

Lemma make_kiss_spec n (interface : setting) my_mac : spec (λ _, True) (make_kiss env n interface my_mac) (λ dev w, is_dev w dev).
Proof.
  unfold make_kiss. spec_step as descr. spec_step as beacon. spec_step as b. spec_step as c. spec_step. spec_step as dev. spec_step.
  eapply (spec_bind (λ w, is_dev w dev) _ _ (λ _ _, True)); [apply _| |spec_pre|intros []; spec_done].
  destruct b; spec_done.
Qed.
#[local] Hint Resolve make_kiss_spec : stack.

Lemma make_serial_spec n (interface : setting) type my_mac :
  spec (λ _, True) (make_serial env n interface type my_mac) (λ r w, is_dev w r.1).
Proof.
  unfold make_serial. spec_step as dev_name. spec_step. spec_step as baudrate.
  eapply (spec_bind (λ _, True) _ _ (λ _ _, True)); [apply _| |done|intros bps].
  { destruct (_ =? _); [spec_done|]. destruct (_ =? _); [spec_done|done]. }
  destruct (bool_decide _); spec_block.
Qed.
#[local] Hint Resolve make_serial_spec : stack.

Lemma make_device_spec uid gid n (interface : setting) type my_mac :
  spec (λ _, True) (make_device env uid gid n interface type my_mac) (λ r w, is_dev w r.1).
Proof. unfold make_device. repeat (apply spec_if; intros _); [spec_block..|spec_done|spec_block|apply spec_exit]. Qed.
#[local] Hint Resolve make_device_spec : stack.

(** ** Layers of a device *)

(** new objects *)
Lemma fresh_tcp_ok i n w : null_or (is_icmp w) i → transport_typed w (Transport (cl_tcp new_tcp i n) nullptr).
Proof. intros H. split; [by left|]. split; [done|]. intros port h. cbn. by rewrite lookup_empty. Qed.
Lemma fresh_sctp_ok i n w : null_or (is_icmp w) i → transport_typed w (Transport (cl_sctp new_sctp i n) nullptr).
Proof. intros H. split; [by left|]. split; [done|]. intros port h. cbn. by rewrite lookup_empty. Qed.
Lemma fresh_udp_ok i n w : null_or (is_icmp w) i → transport_typed w (Transport (cl_udp new_udp i n) nullptr).
Proof. intros H. split; [by left|]. split; [done|]. intros port h. cbn. by rewrite lookup_empty. Qed.
(** a new layer is linked to nothing but what its constructor gets *)
Lemma fresh_layer_ok w c :
  match c with
  | cl_arp a => is_dev w (arp_interface a)
  | cl_ndp _ i => null_or (λ p, ttag w p = Some t_icmp6) i
  | cl_ipv4 a my_ip _ _ => ltag w a = Some t_arp ∧ good my_ip ∧ af my_ip = ipv4
  | cl_ipv6 n my_ip _ => ltag w n = Some t_ndp ∧ good my_ip ∧ af my_ip = ipv6
  | cl_lldp _ _ _ => True
  end → layer_typed w (NetLayer c nullptr ∅ nullptr).
Proof. intros H. split; [by left|]. split; [by left|]. split; [|exact H]. intros k q. cbn. by rewrite lookup_empty. Qed.

(** the step that makes an object, and the step that links a transport layer *)
Tactic Notation "spec_new" uconstr(rule) "as" simple_intropattern(x) :=
  eapply spec_bind; [apply _|apply rule; [apply _|]|done|intros x; cbv beta].
Tactic Notation "spec_link" uconstr(rule) := spec_next ltac:(apply rule; solve [done|assumption|by left|by right]).

Lemma add_icmp4_spec (cfg : setting) ip ma shown :
  spec (λ w, ltag w ip = Some t_ipv4) (add_icmp4 cfg ip ma shown) (λ p w, null_or (is_icmp w) p).
Proof.
  unfold add_icmp4. spec_step as use. apply spec_if; intros _; [|spec_done].
  spec_step as n. spec_new (new_transport_spec (λ _, True)) as p; [by split; [left|]|].
  spec_link (register_transport_spec ip 0x01 p t_ipv4 t_icmp4). spec_block.
Qed.

Lemma add_tcp_spec (cfg : setting) ip icmp_ ma shown lt :
  lt = t_ipv4 ∨ lt = t_ipv6 → spec (λ w, ltag w ip = Some lt ∧ null_or (is_icmp w) icmp_) (add_tcp cfg ip icmp_ ma shown) (λ p w, null_or (λ p, ttag w p = Some t_tcp) p).
Proof.
  intros HL. unfold add_tcp. spec_step as use. apply spec_if; intros _; [|spec_done]. spec_step as n.
  eapply spec_bind; [apply _|apply (new_transport_spec (λ w, null_or (is_icmp w) icmp_)); [apply _|by intros; apply fresh_tcp_ok]|spec_pre|intros p; cbv beta].
  spec_link (register_transport_spec ip 0x06 p lt t_tcp). spec_block.
Qed.

Lemma add_sctp_spec (cfg : setting) ip icmp_ ma shown :
  spec (λ w, ltag w ip = Some t_ipv4 ∧ null_or (is_icmp w) icmp_) (add_sctp cfg ip icmp_ ma shown) (λ _ _, True).
Proof.
  unfold add_sctp. spec_step as use. apply spec_if; intros _; [|spec_done]. spec_step as n. spec_step.
  eapply spec_bind; [apply _|apply (new_transport_spec (λ w, null_or (is_icmp w) icmp_)); [apply _|by intros; apply fresh_sctp_ok]|spec_pre|intros p; cbv beta].
  spec_link (register_transport_spec ip 0x84 p t_ipv4 t_sctp). spec_block.
Qed.

Lemma add_udp_spec (cfg : setting) ip icmp_ ma shown lt :
  lt = t_ipv4 ∨ lt = t_ipv6 → spec (λ w, ltag w ip = Some lt ∧ null_or (is_icmp w) icmp_) (add_udp cfg ip icmp_ ma shown) (λ _ _, True).
Proof.
  intros HL. unfold add_udp. spec_step as use. apply spec_if; intros _; [|spec_done]. spec_step as n. spec_step.
  eapply spec_bind; [apply _|apply (new_transport_spec (λ w, null_or (is_icmp w) icmp_)); [apply _|by intros; apply fresh_udp_ok]|spec_pre|intros p; cbv beta].
  spec_link (register_transport_spec ip 0x11 p lt t_udp). spec_block.
Qed.

Lemma add_icmp6_spec (cfg : setting) ip dev ndp_ my_mac my_ip ma shown :
  spec (λ w, ltag w ip = Some t_ipv6 ∧ is_dev w dev) (add_icmp6 cfg ip dev ndp_ my_mac my_ip ma shown) (λ p w, null_or (is_icmp w) p).
Proof.
  unfold add_icmp6. spec_step as use. apply spec_if; intros _; [|spec_done]. spec_step as n.
  eapply spec_bind; [apply _|apply (new_transport_spec (λ w, is_dev w dev)); [apply _|]|spec_pre|intros p; cbv beta].
  { intros w H. split; [by left|done]. }
  spec_step. spec_link (register_transport_spec ip 0x3a p t_ipv6 t_icmp6). spec_block.
Qed.

Lemma add_static_mapping_spec a dev shown se : spec (λ _, True) (add_static_mapping env a dev shown se) (λ _ _, True).
Proof. unfold add_static_mapping. spec_block. Qed.

(** what a block leaves in its variables: no address, or an address and a resolver of its
    kind; an unset address is never copied, so a route always has a resolver *)
Definition locals_ok (w : program) (resolver : layer_tag) (f : addr_family) (v : ip_locals) : Prop :=
  null_or (λ p, ttag w p = Some t_tcp) (il_tcp v) ∧
  (il_address v = unset_addr ∨ ltag w (il_resolver v) = Some resolver ∧ good (il_address v) ∧ af (il_address v) = f).
#[global] Instance stable_locals_ok r f v : Stable (λ w, locals_ok w r f v).
Proof. unfold locals_ok. apply _. Qed.

Lemma add_ipv4_spec dev mac_str my_mac statics (cfg : setting) :
  spec (λ w, is_dev w dev) (add_ipv4 env dev mac_str my_mac statics cfg) (λ v w, locals_ok w t_arp ipv4 v).
Proof.
  unfold add_ipv4. spec_step as ma. spec_step as ip. spec_step as shown. spec_step. spec_step.
  eapply spec_bind; [apply _|apply (new_layer_spec (λ w, is_dev w dev)); [apply _|by intros; apply fresh_layer_ok]|spec_pre|intros a; cbv beta].
  spec_step. spec_next ltac:(apply (spec_for_each (λ _, True)); [apply _|intros; apply add_static_mapping_spec]).
  eapply spec_bind; [apply _|apply (register_layer_spec dev 0x0806 a)| |intros []; cbv beta].
  { intros w H. cbn [class_tag] in *. split; [tauto|]. exists t_arp. split; [tauto|done]. }
  spec_step as n. spec_step as forward.
  eapply spec_bind; [apply _|apply (new_layer_spec (λ w, ltag w a = Some t_arp ∧ good ip ∧ af ip = ipv4)); [apply _|by intros; apply fresh_layer_ok]|spec_pre|intros i; cbv beta].
  spec_step. spec_next ltac:(apply (add_icmp4_spec cfg i)). spec_link (add_tcp_spec cfg i x ma shown t_ipv4).
  spec_next ltac:(apply (add_sctp_spec cfg i x)). spec_link (add_udp_spec cfg i x ma shown t_ipv4).
  eapply spec_bind; [apply _|apply (register_layer_spec dev 0x0800 i)| |intros []; cbv beta].
  { intros w H. cbn [class_tag] in *. split; [tauto|]. exists t_ipv4. split; [tauto|done]. }
  spec_step. apply spec_ret. intros w H. cbn [class_tag] in *. split; [tauto|right; tauto].
Qed.

Lemma add_ipv6_spec dev mac_str my_mac (cfg : setting) :
  spec (λ w, is_dev w dev) (add_ipv6 env dev mac_str my_mac cfg) (λ v w, locals_ok w t_ndp ipv6 v).
Proof.
  unfold add_ipv6. spec_step as ma. spec_step as ip. spec_step as shown. spec_step. spec_step.
  eapply spec_bind; [apply _|apply (new_layer_spec (λ _, True)); [apply _|by intros; apply fresh_layer_ok; left]|done|intros n; cbv beta].
  spec_step. spec_step. spec_step as mac_text. spec_step. spec_step as threads.
  eapply spec_bind; [apply _|apply (new_layer_spec (λ w, ltag w n = Some t_ndp ∧ good ip ∧ af ip = ipv6)); [apply _|by intros; apply fresh_layer_ok]|spec_pre|intros i; cbv beta].
  spec_step.
  eapply spec_bind; [apply _|apply (register_layer_spec dev 0x86dd i)| |intros []; cbv beta].
  { intros w H. cbn [class_tag] in *. split; [tauto|]. exists t_ipv6. split; [tauto|done]. }
  spec_next ltac:(apply (add_icmp6_spec cfg i dev)). spec_link (add_tcp_spec cfg i x ma shown t_ipv6).
  spec_link (add_udp_spec cfg i x ma shown t_ipv6).
  apply spec_ret. intros w H. cbn [class_tag] in *. split; [tauto|right; tauto].
Qed.

(** ** Routes *)

Lemma update_ipv4_ok (P : ip_router_entry → Prop) t re t' :
  Forall P t → P re → (∀ e, P e → re_interface e = re_interface re → re_mask e = re_mask re →
    P (update_entry e (re_mac_lookup re) (re_default_gateway re))) → update_ipv4 t re = Some t' → Forall P t'.
Proof.
  intros F Hre H. revert t'. induction F as [|e t He F IH]; intros t'; [done|]. cbn [update_ipv4].
  destruct (same_addr _ _ && bool_decide (re_mask re = re_mask e) && (re_interface e =? re_interface re)) eqn:C.
  - injection 1 as <-. apply andb_prop in C as [[_ M]%andb_prop I]. apply bool_decide_eq_true in M. apply Z.eqb_eq in I. constructor; auto.
  - destruct (update_ipv4 t re); [|done]. injection 1 as <-. constructor; auto.
Qed.

Lemma add_router_ipv4_ok w local network mask gw prio dev a t :
  world_typed w → is_dev w dev → ltag w a = Some t_arp →
  add_router_ipv4 (w_ip_table w) local network mask gw prio dev a = Ok t → Forall (route_ok w) t.
Proof.
  intros Hw Hd Ha. unfold add_router_ipv4. destruct (assert_ _); [|done]. cbn [res_bind]. pose proof (ok_routes _ Hw) as F.
  destruct (update_ipv4 _ _) as [t'|] eqn:U; injection 1 as <-.
  - eapply update_ipv4_ok; [done| | |exact U]; [done|]. intros e [E1 E2] I M. split; [done|]. cbn in *. by rewrite M.
  - apply Forall_app_2; [done|]. apply Forall_singleton. done.
Qed.

Lemma add_router_ipv6_ok w local network cidr prio dev n t :
  world_typed w → is_dev w dev → ltag w n = Some t_ndp →
  add_router_ipv6 (w_ip_table w) local network cidr prio dev n = Ok t → Forall (route_ok w) t.
Proof.
  intros Hw Hd Ha. unfold add_router_ipv6. destruct (assert_ _); [|done]. cbn [res_bind]. pose proof (ok_routes _ Hw) as F.
  destruct (existsb _ _); injection 1 as <-; [done|]. apply Forall_app_2; [done|]. apply Forall_singleton. done.
Qed.

Lemma ip_table_ok w t : world_typed w → Forall (route_ok w) t → world_typed (on_ip_table (λ _, t) w) ∧ extends w (on_ip_table (λ _, t) w).
Proof.
  intros Hw F. assert (E : extends w (on_ip_table (λ _, t) w)) by by apply extends_refl'. split; [|done]. world_fields Hw E. exact F.
Qed.

Lemma route_ipv4_spec my network mask gw prio dev a :
  spec (λ w, is_dev w dev ∧ (my = unset_addr ∨ ltag w a = Some t_arp)) (route_ipv4 my network mask gw prio dev a) (λ _ _, True).
Proof.
  intros w x w' Hw [Hd [->|Ha]]; [done|]. unfold route_ipv4. destruct (copy my) as [l|]; [|done]. cbn [res_bind].
  destruct (add_router_ipv4 _ _ _ _ _ _ _ _) as [t|] eqn:R; [|done]. injection 1 as <- <-.
  destruct (ip_table_ok w t Hw); [|done]. by eapply add_router_ipv4_ok.
Qed.

Lemma route_ipv6_spec my network cidr prio dev n :
  spec (λ w, is_dev w dev ∧ (my = unset_addr ∨ ltag w n = Some t_ndp)) (route_ipv6 my network cidr prio dev n) (λ _ _, True).
Proof.
  intros w x w' Hw [Hd [->|Ha]]; [done|]. unfold route_ipv6. destruct (copy my) as [l|]; [|done]. cbn [res_bind].
  destruct (add_router_ipv6 _ _ _ _ _ _ _) as [t|] eqn:R; [|done]. injection 1 as <- <-.
  destruct (ip_table_ok w t Hw); [|done]. by eapply add_router_ipv6_ok.
Qed.
#[local] Hint Resolve route_ipv4_spec route_ipv6_spec : stack.

Lemma add_route_spec dev v4 v6 (route : setting) :
  spec (λ w, is_dev w dev ∧ locals_ok w t_arp ipv4 v4 ∧ locals_ok w t_ndp ipv6 v6) (add_route dev v4 v6 route) (λ _ _, True).
Proof.
  unfold add_route. spec_step as family. spec_step as priority. apply spec_if; intros _.
  - spec_step as network_str. spec_step as network. spec_step as mask_str. spec_step as mask. spec_step as bytes. spec_step as gw_str.
    eapply (spec_bind (λ _, True) _ _ (λ _ _, True)); [apply _| |done|intros gw; cbv beta].
    { destruct (empty_str gw_str); [spec_done|]. spec_block. }
    spec_step as shown. spec_step.
    eapply (spec_bind (λ _, True) _ _ (λ _ _, True)); [apply _|destruct (empty_str gw_str); spec_done|done|intros []; cbv beta].
    eapply spec_weaken; [apply route_ipv4_spec| |done]. unfold locals_ok. tauto.
  - apply spec_if; intros _; [|apply spec_exit]. spec_step as network_str. spec_step as network. spec_step as cidr. cbv zeta. spec_step as shown. spec_step.
    eapply spec_weaken; [apply route_ipv6_spec| |done]. unfold locals_ok. tauto.
Qed.

Lemma add_route_ax25_spec dev mac_str (route : setting) : spec (λ w, is_dev w dev) (add_route_ax25 dev mac_str route) (λ _ _, True).
Proof. unfold add_route_ax25. spec_step as c. spec_step as ca. spec_step as via. apply spec_if; intros _; spec_block. Qed.

(** ** Announcements, names and the proxy *)

Lemma add_lldp_spec n dev mac_str my_mac mgmt (interface : setting) :
  spec (λ w, is_dev w dev) (add_lldp n dev mac_str my_mac mgmt interface) (λ _ _, True).
Proof.
  unfold add_lldp. spec_step as enable. apply spec_if; intros _; [|spec_done]. spec_step as m.
  eapply spec_bind; [apply _|apply (new_layer_spec (λ _, True)); [apply _|by intros; apply fresh_layer_ok]|done|intros l; cbv beta].
  spec_step. eapply spec_bind; [apply _|apply (register_layer_spec dev 0x0806 l)| |intros []; cbv beta].
  { intros w H. cbn [class_tag] in *. split; [tauto|]. exists t_lldp. split; [tauto|done]. }
  spec_done.
Qed.

(** the search for UDP over IPv4 *)
Lemma found_udp_spec d :
  spec (λ _, True) (gets (λ w, i4 ← ipv4_of w d; u ← udp_of w i4; Some (u, layer_addr w i4)))
    (λ o w, ∀ u ip, o = Some (u, ip) → ttag w u = Some t_udp).
Proof.
  intros w o w' Hw _. injection 1 as <- <-. split_and!; [done|done|]. intros u ip.
  destruct (ipv4_of w d) as [i|]; [|done]. cbn. destruct (udp_of w i) as [v|] eqn:U; [|done]. cbn. injection 1 as <- _. by eapply udp_of_tag.
Qed.

Lemma found_target_spec target :
  spec (λ _, True) (gets (λ w, d ← deref (w_devs w) target; i4 ← ipv4_of w d; u ← udp_of w i4; Some (u, layer_addr w i4)))
    (λ o w, ∀ u ip, o = Some (u, ip) → ttag w u = Some t_udp).
Proof.
  intros w o w' Hw _. injection 1 as <- <-. split_and!; [done|done|]. intros u ip. destruct (deref (w_devs w) target) as [d|]; [|done]. cbn.
  destruct (ipv4_of w d) as [i|]; [|done]. cbn. destruct (udp_of w i) as [v|] eqn:U; [|done]. cbn. injection 1 as <- _. by eapply udp_of_tag.
Qed.

Lemma ipv6_udp_spec d : spec (λ _, True) (ipv6_udp d) (λ o w, ∀ u, o = Some u → ttag w u = Some t_udp).
Proof.
  intros w o w' Hw _. injection 1 as <- <-. split_and!; [done|done|]. intros u.
  destruct (ipv6_of w d) as [i|]; [|done]. cbn. apply udp_of_tag.
Qed.

(** the step that makes an application on a UDP layer *)
Tactic Notation "spec_app" constr(u) "as" simple_intropattern(x) :=
  eapply spec_bind; [apply _|apply (new_app_spec (λ w, ttag w u = Some t_udp)); [apply _|by intros]|spec_pre|intros x; cbv beta].

Lemma add_dns_loop_spec devs text upstream v4 v6 cur :
  spec (λ w, null_or (is_dns w) cur) (add_dns_loop devs text upstream v4 v6 cur) (λ p w, null_or (is_dns w) p).
Proof.
  revert cur. induction devs as [|d devs IH]; intros cur; cbn [add_dns_loop]; [by apply spec_ret|].
  eapply spec_bind; [apply _|apply found_udp_spec|done|intros [[u my_ip]|]; cbv beta]; [|eapply spec_weaken; [apply IH|tauto|done]].
  eapply (spec_weaken (λ w, ttag w u = Some t_udp) _ _ (λ p w, null_or (is_dns w) p)); [|by intros w [_ H]; apply (H u my_ip)|done].
  spec_app u as p. spec_step. spec_step.
  eapply (spec_bind (λ w, is_dns w p) _ _ (λ _ _, True)); [apply _| |spec_pre|intros []; cbv beta]; [apply spec_if; intros _; spec_block|].
  eapply (spec_bind (λ w, is_dns w p) _ _ (λ _ _, True)); [apply _| |spec_pre|intros []; cbv beta]; [apply spec_if; intros _; spec_block|].
  eapply spec_weaken; [apply IH|spec_pre|done].
Qed.

Lemma add_dns_spec (interface : setting) v4 v6 : spec (λ _, True) (add_dns interface v4 v6) (λ p w, null_or (is_dns w) p).
Proof.
  unfold add_dns. spec_step as text. spec_step as upstream. spec_next ltac:(apply (spec_gets (λ _, True))).
  eapply spec_weaken; [apply add_dns_loop_spec|by left|done].
Qed.

Lemma add_socks_spec tcp_ dns_ (socks : setting) :
  spec (λ w, null_or (λ p, ttag w p = Some t_tcp) tcp_ ∧ null_or (is_dns w) dns_) (add_socks env tcp_ dns_ socks) (λ _ _, True).
Proof.
  unfold add_socks. destruct (Z.eqb_spec tcp_ nullptr); [apply spec_exit|]. spec_step as i. spec_step as port. spec_step.
  destruct (Z.eqb_spec dns_ nullptr); [apply spec_exit|].
  eapply spec_weaken; [apply socks_spec| |done]. intros w H. cbn [so_tcp so_dns]. unfold null_or in H. split; [|]; naive_solver.
Qed.

Lemma when_ip_spec (P : program → Prop) (o : option setting) body r f :
  (∀ s, spec P (body s) (λ v w, locals_ok w r f v)) → spec P (when_ip o body) (λ v w, locals_ok w r f v).
Proof. intros H. destruct o; [apply H|]. apply spec_ret. intros w _. split; by left. Qed.

Lemma started_spec dev : spec (λ _, True) (modify (on_devs (λ ds, update_at ds dev started))) (λ _ _, True).
Proof. apply spec_modify. intros w Hw _. destruct (update_devs w dev started Hw) as [O E]; done. Qed.
#[local] Hint Resolve started_spec : stack.

Lemma add_interface_spec uid gid n (interface : setting) : spec (λ _, True) (add_interface env uid gid n interface) (λ _ _, True).
Proof.
  unfold add_interface. spec_step as type. spec_step as mac_str.
  eapply (spec_bind (λ _, True) _ _ (λ _ _, True)); [apply _|destruct (bool_decide _); solve [eauto 1 with stack]|done|intros my_mac; cbv beta].
  spec_step. spec_step. spec_step as attach. spec_step as [dev statics]. cbn [fst].
  spec_next ltac:(apply (when_ip_spec (λ w, is_dev w dev)); intros; apply add_ipv4_spec).
  rename x into v4.
  spec_next ltac:(apply (when_ip_spec (λ w, is_dev w dev)); intros; apply add_ipv6_spec).
  rename x into v6. cbv zeta.
  spec_next ltac:(apply (spec_when (λ w, is_dev w dev ∧ locals_ok w t_arp ipv4 v4 ∧ locals_ok w t_ndp ipv6 v6)); intros routes _;
    apply spec_for_each; [apply _|intros; apply add_route_spec]).
  spec_next ltac:(apply (spec_when (λ w, is_dev w dev)); intros routes _; apply spec_for_each; [apply _|intros; apply add_route_ax25_spec]).
  spec_next ltac:(apply (add_lldp_spec n dev)). spec_next ltac:(apply add_dns_spec). rename x into dns_.
  eapply spec_bind; [apply _|apply (spec_when (λ w, null_or (λ p, ttag w p = Some t_tcp) (il_tcp v4) ∧ null_or (is_dns w) dns_));
    intros s _; apply add_socks_spec|unfold locals_ok; tauto|intros []; cbv beta].
  spec_step. apply spec_if; intros _; spec_done.
Qed.

(** ** Applications and services *)

Lemma on_ipv4_udp_spec body :
  (∀ d u ip, spec (λ w, ttag w u = Some t_udp) (body d u ip) (λ _ _, True)) → spec (λ _, True) (on_ipv4_udp body) (λ _ _, True).
Proof.
  intros H. unfold on_ipv4_udp. spec_next ltac:(apply (spec_gets (λ _, True))). apply (spec_weaken (λ _, True) _ _ (λ _ _, True)); [|done|done].
  apply (spec_for_each (λ _, True)); [apply _|]. intros d _. spec_next ltac:(apply found_udp_spec).
  apply spec_when. intros [u ip] ->. eapply spec_weaken; [apply H| |done]. intros w [_ K]. by eapply K.
Qed.

Lemma setup_ntp_spec (s : setting) : spec (λ _, True) (setup_ntp s) (λ _ _, True).
Proof.
  unfold setup_ntp. spec_step as text. spec_step as upstream. spec_step as b. spec_step as port.
  eapply spec_weaken; [apply on_ipv4_udp_spec|done|done]. intros d u ip. spec_app u as p. spec_block.
Qed.

Lemma setup_sip_spec (s : setting) : spec (λ _, True) (setup_sip env s) (λ _ _, True).
Proof.
  unfold setup_sip. do 8 spec_step. eapply spec_weaken; [apply on_ipv4_udp_spec|done|done]. intros d u ip.
  spec_step. spec_app u as p. spec_block.
Qed.

Lemma setup_snmp_spec (s : setting) : spec (λ _, True) (setup_snmp s) (λ _ _, True).
Proof.
  unfold setup_snmp. spec_step as port. eapply spec_weaken; [apply on_ipv4_udp_spec|done|done]. intros d u ip.
  spec_app u as p. spec_step. spec_step. eapply spec_bind; [apply _|apply ipv6_udp_spec|done|intros o; cbv beta].
  apply spec_when. intros u6 ->. eapply (spec_weaken (λ w, ttag w u6 = Some t_udp) _ _ (λ _ _, True)); [|by intros w [_ K]; apply K|done].
  spec_app u6 as q. spec_block.
Qed.

Lemma setup_syslog_spec (s : setting) : spec (λ _, True) (setup_syslog s) (λ _ _, True).
Proof.
  unfold setup_syslog. spec_step as port. eapply spec_weaken; [apply on_ipv4_udp_spec|done|done]. intros d u ip.
  spec_new (new_app_spec (λ _, True)) as p; [done|]. spec_step. eapply spec_bind; [apply _|apply ipv6_udp_spec|done|intros o; cbv beta].
  apply spec_when. intros u6 _. spec_new (new_app_spec (λ _, True)) as q; [done|]. spec_block.
Qed.

Lemma endpoint_spec dev v : spec (λ w, is_vpn w v) (modify (on_devs (λ ds, update_at ds dev (with_endpoint v)))) (λ _ _, True).
Proof.
  apply spec_modify. intros w Hw H. destruct (update_devs w dev (with_endpoint v) Hw) as [O E]; [done| |done].
  intros w' d X _ [A _]. split; [exact A|]. right. by apply (stable_is_vpn _ _ _ X).
Qed.

(** the insertion points in the table are devices of that kind *)
Lemma gets_vpns_spec : spec (λ _, True) (gets w_vpns) (λ l w, Forall (λ v, ∃ n m, dlink w v.2 = Some (phys_vpn_insertion_point n m)) l).
Proof. intros w l w' Hw _. injection 1 as <- <-. split_and!; [done|done|]. apply Hw. Qed.

Lemma setup_vpn_spec (s : setting) : spec (λ _, True) (setup_vpn s) (λ _ _, True).
Proof.
  unfold setup_vpn. spec_step as ip_str. spec_step as ip. spec_step as port. spec_step as peer_str. spec_step as peer. spec_step as peer_port. spec_step as psk.
  spec_next ltac:(apply (spec_gets (λ _, True))). apply (spec_weaken (λ _, True) _ _ (λ _ _, True)); [|done|done]. apply (spec_for_each (λ _, True)); [apply _|]. intros target _.
  eapply spec_bind; [apply _|apply gets_vpns_spec|done|intros vpns; cbv beta].
  apply spec_for_each; [apply _|]. intros [name dev] Hin.
  eapply (spec_weaken (λ w, ∃ n m, dlink w dev = Some (phys_vpn_insertion_point n m)) _ _ (λ _ _, True)); [| |done].
  2: { intros w [_ F]. rewrite Forall_forall in F. by apply (F (name, dev)). }
  eapply spec_bind; [apply _|apply found_target_spec|done|intros o; cbv beta]. apply spec_when. intros [u addr] ->.
  eapply spec_bind; [apply _|apply (new_app_spec (λ w, ttag w u = Some t_udp ∧ ∃ n m, dlink w dev = Some (phys_vpn_insertion_point n m)));
    [apply _|done]|intros w [H K]; split; [by eapply K|exact H]|intros v; cbv beta].
  eapply (spec_weaken (λ w, is_vpn w v ∧ is_app w v) _ _ (λ _ _, True)); [|unfold is_vpn; spec_pre|done].
  spec_next ltac:(apply endpoint_spec). spec_block.
Qed.

Lemma offer_service_spec s port (settings : option setting) : spec (λ w, is_service w s) (offer_service s port settings) (λ _ _, True).
Proof.
  unfold offer_service. spec_step. spec_step. apply spec_when. intros x _. spec_done.
Qed.

Lemma get_http_handler_spec (s : setting) : spec (λ _, True) (get_http_handler s) (λ r w, is_service w r.1).
Proof. unfold get_http_handler. spec_block. Qed.

Lemma setup_http_spec (s : setting) : spec (λ _, True) (setup_http s) (λ _ _, True).
Proof.
  unfold setup_http. eapply spec_bind; [apply _|apply get_http_handler_spec|done|intros [h port]; cbn [fst]].
  eapply spec_weaken; [apply offer_service_spec|tauto|done].
Qed.

Lemma set_keys_spec h k c : spec (λ _, True) (modify (on_services (λ l, update_at l h (set_keys k c)))) (λ _ _, True).
Proof.
  apply spec_modify. intros w Hw _. split; [|intros E; world_fields Hw E]. split; try done. intros p [s D].
  unfold is_service. cbn [on_services w_services]. rewrite deref_update. destruct (decide (p = h)); rewrite D; eauto.
Qed.

Lemma setup_https_spec (s : setting) : spec (λ _, True) (setup_https env s) (λ _ _, True).
Proof.
  unfold setup_https, load_file. spec_step as r. spec_step as l.
  eapply spec_bind; [apply _|apply get_http_handler_spec|done|intros [h port]; cbn [fst]].
  spec_step as pk. spec_step as k. spec_step as cf. spec_step as c. spec_next ltac:(apply set_keys_spec).
  eapply spec_weaken; [apply offer_service_spec|tauto|done].
Qed.

Lemma setup_service_spec service_ def_port (s : setting) : spec (λ _, True) (setup_service service_ def_port s) (λ _ _, True).
Proof.
  unfold setup_service. spec_step as port. spec_step as h. eapply spec_weaken; [apply offer_service_spec|tauto|done].
Qed.

Lemma setup_vnc_spec (s : setting) : spec (λ _, True) (setup_vnc s) (λ _ _, True).
Proof.
  unfold setup_vnc. spec_next ltac:(apply setup_service_spec). spec_step as text. spec_step as bind_to.
  spec_next ltac:(apply (spec_gets (λ _, True))). spec_step as r. destruct (w_dns4 x !! key bind_to); [spec_done|apply spec_exit].
Qed.

Lemma setup_fixed_spec service_ port : spec (λ _, True) (setup_fixed (setting := setting) service_ port) (λ _ _, True).
Proof. unfold setup_fixed. spec_step as h. eapply spec_weaken; [apply offer_service_spec|tauto|done]. Qed.

Lemma setup_services_spec (root : setting) : spec (λ _, True) (setup_services env root) (λ _ _, True).
Proof.
  unfold setup_services.
  repeat (eapply (spec_bind (λ _, True) _ _ (λ _ _, True));
    [apply _|first [apply setup_fixed_spec|apply spec_when; intros; auto using setup_ntp_spec, setup_vpn_spec, setup_http_spec, setup_https_spec,
      setup_service_spec, setup_vnc_spec, setup_sip_spec, setup_snmp_spec]|done|intros []]).
  eapply spec_weaken; [apply (spec_when (λ _, True)); intros; apply setup_syslog_spec|done|done].
Qed.

Lemma setup_interfaces_spec e (root : setting) : spec (λ _, True) (setup_interfaces env e root) (λ _ _, True).
Proof.
  unfold setup_interfaces. spec_step as interfaces. spec_step. generalize (cfg_elements interfaces) as l, 1 as n.
  induction l as [|x l IH]; intros n; cbn [for_each_from]; [by apply spec_ret|].
  spec_next ltac:(apply add_interface_spec). eapply spec_weaken; [apply IH|tauto|done].
Qed.

Lemma empty_world_ok g : world_typed (empty_world g).
Proof. split; repeat split; first [exact (Forall_nil_2 _)|apply map_Forall_empty|by left]. Qed.

Lemma configure_ok graph (root : setting) e w : configure env graph root = Ok (e, w) → world_typed w.
Proof.
  intros C. unfold configure in C. refine (proj1 (_ : world_typed w ∧ extends _ w ∧ True)). revert C. set (m := mbind _ _).
  assert (S : spec (λ _, True) m (λ _ _, True)).
  { unfold m, read_environment, setup_mdns. spec_next ltac:(apply register_system_spec).
    eapply (spec_bind (λ _, True) _ _ (λ _ _, True)); [apply _|spec_block|done|intros v; cbv beta].
    eapply (spec_bind (λ _, True) _ _ (λ _ _, True)); [apply _| |done|intros []; cbv beta].
    { spec_new (new_app_spec (λ _, True)) as p; [done|]. spec_done. }
    spec_next ltac:(apply setup_interfaces_spec). spec_next ltac:(apply setup_services_spec). spec_step. spec_done. }
  intros C. exact (S _ _ _ (empty_world_ok _) I C).
Qed.

(** ** Every link is made *)

Create HintDb quiet.
#[local] Hint Resolve quiet_ret quiet_lift quiet_gets quiet_device quiet_app quiet_service quiet_sd quiet_icmp quiet_icmp6
  quiet_static quiet_udp_handler quiet_tcp_service quiet_sctp_service : quiet.

(** a block of quiet steps *)
Ltac quiet :=
  cbv beta zeta;
  lazymatch goal with
  | |- Quiet (_ ≫= _) => apply quiet_bind; [quiet|intros ?; quiet]
  | |- Quiet (match ?x with _ => _ end) => destruct x; quiet
  | |- Quiet (for_each _ _) => apply quiet_for_each; intros ?; quiet
  | |- Quiet (when_some _ _) => apply quiet_when; intros ?; quiet
  | |- Quiet error_exit => apply quiet_lift
  | |- _ => first [solve [eauto 1 with quiet] | by apply quiet_modify]
  end.
(** a step before the rest of a block *)
Ltac skip := apply wires_skip; [unfold get_str, get_int, get_bool, parse_ipv4, parse_ipv6, show, parse_callsign, draw_linked, draw_node,
  draw_connection, clean_transport, clean_protocol, clean_application, add_stream; quiet|intros ?].

Lemma quiet_mdns_service port (settings : setting) : Quiet (register_mdns_service port settings).
Proof.
  unfold register_mdns_service. destruct (cfg_lookup _ _) as [v|]; [|apply quiet_ret]. destruct (as_string v); [|apply quiet_lift].
  apply quiet_modify. intros w. apply same_fold. intros u d. by apply same_offer.
Qed.
#[local] Hint Resolve quiet_mdns_service : quiet.

Lemma quiet_capture dev file : Quiet (start_capture env dev file).
Proof.
  intros w a w'. unfold start_capture. destruct (deref _ _); [|done]. destruct (start_pcap _ _ _ _ _); [|done]. by intros [= _ <-].
Qed.
#[local] Hint Resolve quiet_capture : quiet.

Lemma quiet_make_device uid gid n (interface : setting) type my_mac : Quiet (make_device env uid gid n interface type my_mac).
Proof.
  unfold make_device, make_kiss, make_serial, kiss_beacon, register_interface, get_str, get_int, get_bool, parse_ipv4. quiet.
Qed.

(** the device that is made is not null *)
Definition Gives {A} (m : M A) (F : A → Prop) : Prop := ∀ w a w', m w = Ok (a, w') → F a.

Lemma gives_bind {A B} (m : M A) (k : A → M B) G F : Gives m G → (∀ a, G a → Gives (k a) F) → Gives (m ≫= k) F.
Proof.
  intros Hm Hk w b w2 E. unfold mbind, M_bind in E. destruct (m w) as [[a w1]|] eqn:Em; [|done]. cbn in E. eapply Hk; [by eapply Hm|done].
Qed.
Lemma gives_skip {A B} (m : M A) (k : A → M B) F : (∀ a, Gives (k a) F) → Gives (m ≫= k) F.
Proof. intros H. apply (gives_bind m k (λ _, True)); [done|auto]. Qed.
Lemma gives_ret {A} (a : A) (F : A → Prop) : F a → Gives (mret a) F.
Proof. by intros H w a' w' [= <- _]. Qed.
Lemma gives_device opens n l : Gives (new_device opens n l) (λ p, p ≠ nullptr).
Proof. intros w p w'. unfold new_device. destruct (opens l); [|done]. intros [= <- _]. apply next_not_null. Qed.

Ltac gives :=
  lazymatch goal with
  | |- Gives (new_device _ _ _ ≫= _) _ => eapply gives_bind; [apply gives_device|intros ? ?; gives]
  | |- Gives (make_kiss _ _ _ _ ≫= _) _ => eapply (gives_bind _ _ (λ p, p ≠ nullptr)); [unfold make_kiss; gives|intros ? ?; gives]
  | |- Gives (_ ≫= _) _ => apply gives_skip; intros ?; gives
  | |- Gives (match ?x with _ => _ end) _ => destruct x; gives
  | |- Gives (mret _) _ => by apply gives_ret
  | |- Gives error_exit _ => done
  end.

Lemma make_device_not_null uid gid n (interface : setting) type my_mac :
  Gives (make_device env uid gid n interface type my_mac) (λ r, r.1 ≠ nullptr).
Proof. unfold make_device, make_serial. gives. Qed.

Lemma add_icmp4_wires (cfg : setting) ip ma shown ht hl :
  ip ≠ nullptr → wires ht hl (add_icmp4 cfg ip ma shown) (λ _, wired ht hl).
Proof.
  intros Hi. unfold add_icmp4. skip. destruct a; [|apply wires_quiet; quiet]. skip. apply wires_transport. intros p.
  apply (wires_then _ _ ht hl); [by apply wires_register_transport|]. intros _. do 3 skip. apply wires_quiet. quiet.
Qed.
Lemma add_tcp_wires (cfg : setting) ip icmp_ ma shown ht hl :
  ip ≠ nullptr → wires ht hl (add_tcp cfg ip icmp_ ma shown) (λ _, wired ht hl).
Proof.
  intros Hi. unfold add_tcp. skip. destruct a; [|apply wires_quiet; quiet]. skip. apply wires_transport. intros p.
  apply (wires_then _ _ ht hl); [by apply wires_register_transport|]. intros _. do 3 skip. apply wires_quiet. quiet.
Qed.
Lemma add_sctp_wires (cfg : setting) ip icmp_ ma shown ht hl :
  ip ≠ nullptr → wires ht hl (add_sctp cfg ip icmp_ ma shown) (λ _, wired ht hl).
Proof.
  intros Hi. unfold add_sctp. skip. destruct a; [|apply wires_quiet; quiet]. do 2 skip. apply wires_transport. intros p.
  apply (wires_then _ _ ht hl); [by apply wires_register_transport|]. intros _. skip. apply wires_quiet. by apply quiet_modify.
Qed.
Lemma add_udp_wires (cfg : setting) ip icmp_ ma shown ht hl :
  ip ≠ nullptr → wires ht hl (add_udp cfg ip icmp_ ma shown) (λ _, wired ht hl).
Proof.
  intros Hi. unfold add_udp. skip. destruct a; [|apply wires_quiet; quiet]. do 2 skip. apply wires_transport. intros p.
  apply (wires_then _ _ ht hl); [by apply wires_register_transport|]. intros _. apply wires_quiet. by apply quiet_modify.
Qed.
Lemma add_icmp6_wires (cfg : setting) ip dev ndp_ my_mac my_ip ma shown ht hl :
  ip ≠ nullptr → wires ht hl (add_icmp6 cfg ip dev ndp_ my_mac my_ip ma shown) (λ _, wired ht hl).
Proof.
  intros Hi. unfold add_icmp6. skip. destruct a; [|apply wires_quiet; quiet]. skip. apply wires_transport. intros p. skip.
  apply (wires_then _ _ ht hl); [by apply wires_register_transport|]. intros _. do 3 skip. apply wires_quiet. quiet.
Qed.

Lemma add_ipv4_wires dev mac_str my_mac statics (cfg : setting) ht hl :
  dev ≠ nullptr → wires ht hl (add_ipv4 env dev mac_str my_mac statics cfg) (λ _, wired ht hl).
Proof.
  intros Hd. unfold add_ipv4. do 5 skip. apply wires_layer. intros ar _. skip.
  apply wires_skip; [apply quiet_for_each; intros se; unfold add_static_mapping, show, draw_connection; quiet|intros _].
  apply (wires_then _ _ ht hl); [by apply wires_register_layer|]. intros _. do 2 skip.
  apply wires_layer. intros ip Hip. skip.
  apply wires_do; [by apply add_icmp4_wires|intros ic]. apply wires_do; [by apply add_tcp_wires|intros t].
  apply wires_do; [by apply add_sctp_wires|intros _]. apply wires_do; [by apply add_udp_wires|intros _].
  apply (wires_then _ _ ht hl); [by apply wires_register_layer|]. intros _. skip. apply wires_quiet. quiet.
Qed.

Lemma add_ipv6_wires dev mac_str my_mac (cfg : setting) ht hl :
  dev ≠ nullptr → wires ht hl (add_ipv6 env dev mac_str my_mac cfg) (λ _, wired ht hl).
Proof.
  intros Hd. unfold add_ipv6. do 5 skip. apply wires_ndp. intros nd. do 5 skip.
  apply wires_layer. intros ip Hip. skip. apply (wires_then _ _ ht hl); [by apply wires_register_layer|]. intros _.
  apply wires_do; [by apply add_icmp6_wires|intros ic]. apply wires_do; [by apply add_tcp_wires|intros t].
  apply wires_do; [by apply add_udp_wires|intros _]. apply wires_quiet. quiet.
Qed.

Lemma add_lldp_wires n dev mac_str my_mac mgmt (interface : setting) ht hl :
  dev ≠ nullptr → wires ht hl (add_lldp n dev mac_str my_mac mgmt interface) (λ _, wired ht hl).
Proof.
  intros Hd. unfold add_lldp. skip. destruct a; [|apply wires_quiet; quiet]. skip. apply wires_layer. intros l _. skip.
  apply (wires_then _ _ ht hl); [by apply wires_register_layer|]. intros _. apply wires_quiet. unfold draw_linked, draw_node, draw_connection. quiet.
Qed.

Lemma quiet_route dev v4 v6 (route : setting) : Quiet (add_route dev v4 v6 route).
Proof.
  assert (∀ my n m g p d a, Quiet (route_ipv4 my n m g p d a)) as H4.
  { intros. intros w x w'. unfold route_ipv4. destruct (copy _); [|done]. cbn [res_bind].
    destruct (add_router_ipv4 _ _ _ _ _ _ _ _); [|done]. by intros [= _ <-]. }
  assert (∀ my n c p d a, Quiet (route_ipv6 my n c p d a)) as H6.
  { intros. intros w x w'. unfold route_ipv6. destruct (copy _); [|done]. cbn [res_bind].
    destruct (add_router_ipv6 _ _ _ _ _ _ _); [|done]. by intros [= _ <-]. }
  unfold add_route, get_str, get_int, parse_ipv4, parse_ipv6, show, draw_linked, draw_node, draw_connection. quiet.
Qed.

Lemma quiet_route_ax25 dev mac_str (route : setting) : Quiet (add_route_ax25 dev mac_str route).
Proof. unfold add_route_ax25, get_str, parse_callsign, show, draw_linked, draw_node, draw_connection. quiet. Qed.

Lemma quiet_dns (interface : setting) v4 v6 : Quiet (add_dns interface v4 v6).
Proof.
  assert (∀ devs text up cur, Quiet (add_dns_loop devs text up v4 v6 cur)) as HL.
  { induction devs as [|d devs IH]; intros; cbn [add_dns_loop]; [apply quiet_ret|].
    unfold clean_application, show, draw_linked, draw_node, draw_connection. quiet. }
  unfold add_dns, get_str, parse_ipv4. quiet.
Qed.

Lemma quiet_socks t d (socks : setting) : Quiet (add_socks env t d socks).
Proof. unfold add_socks, get_str, get_int. quiet. Qed.
#[local] Hint Resolve quiet_route quiet_route_ax25 quiet_dns quiet_socks : quiet.

Lemma when_ip_wires ht hl (o : option setting) body :
  (∀ s, wires ht hl (body s) (λ _, wired ht hl)) → wires ht hl (when_ip o body) (λ _, wired ht hl).
Proof. intros H. destruct o; [apply H|apply wires_quiet, quiet_ret]. Qed.

Lemma add_interface_wires uid gid n (interface : setting) : wires [] [] (add_interface env uid gid n interface) (λ _, wired [] []).
Proof.
  unfold add_interface. do 6 skip.
  apply (wires_bind [] [] (λ _, []) (λ _, []) _ (λ r, r.1 ≠ nullptr)).
  { intros w r w' Hw E. split; [|by eapply make_device_not_null]. eapply wired_same; [by eapply quiet_make_device|done]. }
  intros [dev statics] Hd. cbn [fst] in Hd. cbv beta iota.
  apply wires_do; [apply when_ip_wires; intros; by apply add_ipv4_wires|intros v4].
  apply wires_do; [apply when_ip_wires; intros; by apply add_ipv6_wires|intros v6]. cbv zeta. do 2 skip.
  apply wires_do; [by apply add_lldp_wires|intros _]. do 3 skip. apply wires_quiet. quiet.
Qed.

Lemma quiet_services (root : setting) : Quiet (setup_services env root).
Proof.
  unfold setup_services, setup_ntp, setup_vpn, setup_http, setup_https, setup_vnc, setup_service, setup_sip, setup_snmp, setup_syslog, setup_fixed,
    get_http_handler, offer_service, on_ipv4_udp, ipv6_udp, load_file, get_str, get_int, get_bool, parse_ipv4, show, clean_application, draw_linked,
    draw_node, draw_connection.
  quiet.
Qed.

Lemma configure_wired graph (root : setting) e w : configure env graph root = Ok (e, w) → wired [] [] w.
Proof.
  unfold configure. set (m := mbind _ _). assert (wires [] [] m (λ _, wired [] [])) as H.
  { unfold m. apply wires_skip; [unfold register_system; quiet|intros _].
    apply wires_skip; [unfold read_environment, get_str, get_int; quiet|intros ev].
    apply wires_skip; [unfold setup_mdns, clean_application; quiet|intros _].
    apply wires_do.
    - unfold setup_interfaces. do 2 skip. generalize (cfg_elements a) as l, 1 as i.
      induction l as [|x l IH]; intros i; cbn [for_each_from]; [apply wires_quiet, quiet_ret|].
      apply wires_do; [apply add_interface_wires|intros _; apply IH].
    - intros _. apply wires_skip; [apply quiet_services|intros _]. skip. apply wires_quiet. quiet. }
  apply H. split; intros p; unfold deref; cbn; by destruct (p <=? 0).
Qed.

(** ** The program that runs *)

(** every layer but neighbor discovery has its device: [get_max_packet_size] of an IP layer
    asks it without a test *)
Definition layer_ok (w : program) (l : net_layer) : Prop :=
  layer_typed w l ∧ (needs_pdev (class_tag (nl_class l)) = true → is_dev w (nl_default_pdev l)).
(** every transport layer has its IP layer *)
Definition transport_ok (w : program) (t : transport) : Prop := transport_typed w t ∧ is_ip_layer w (tl_idev t).

Record world_ok (w : program) : Prop := {
  wo_typed : world_typed w;
  wo_layers : Forall (layer_ok w) (w_layers w);
  wo_transports : Forall (transport_ok w) (w_transports w);
}.

Lemma world_ok_intro w : world_typed w → wired [] [] w → world_ok w.
Proof.
  intros Hw [H K]. split; [done|..]; apply Forall_forall.
  - intros l (p & D)%elem_deref. pose proof (ok_layers _ Hw) as F. rewrite Forall_forall in F.
    specialize (F l (deref_elem _ _ _ D)). split; [done|]. intros N. destruct F as [[E|?] _]; [|done].
    destruct (K p (class_tag (nl_class l)) (nl_default_pdev l)) as [?%elem_of_nil|?]; [by rewrite D|done..].
  - intros t (p & D)%elem_deref. pose proof (ok_transports _ Hw) as F. rewrite Forall_forall in F.
    specialize (F t (deref_elem _ _ _ D)). split; [done|]. destruct F as [[E|?] _]; [|done].
    destruct (H p (tl_idev t)) as [?%elem_of_nil|?]; [by rewrite D|done..].
Qed.

(** ** Casts *)

Lemma get_protocol_cast w d et q : world_typed w → d ∈ w_devs w → phys_get_protocol (dv_phys d) et = Some q →
  ∃ t, ltag w q = Some t ∧ ether_ok (u16 et) t.
Proof.
  intros Hw Hd. pose proof (ok_devs _ Hw) as F. rewrite Forall_forall in F. destruct (F d Hd) as [H _]. apply H.
Qed.

Lemma get_transport_cast w i k q : world_typed w → get_transport_layer w i k = Some q →
  ∃ l t, ttag w q = Some t ∧ protocol_ok l (u8 k) t.
Proof.
  intros Hw. unfold get_transport_layer. destruct (deref (w_layers w) i) as [l|] eqn:D; [|done]. intros L.
  pose proof (ok_layers _ Hw) as F. rewrite Forall_forall in F. destruct (F l (deref_elem _ _ _ D)) as (_ & _ & H & _).
  destruct (H _ _ L) as (t & T & P). eauto.
Qed.

(** a cast that meets the class it asks for *)
Lemma ipv4_cast w d : world_typed w → d ∈ w_devs w → ipv4_of w d = phys_get_protocol (dv_phys d) 0x0800.
Proof.
  intros Hw Hd. unfold ipv4_of. destruct (phys_get_protocol (dv_phys d) 0x0800) as [q|] eqn:P; [|done].
  destruct (get_protocol_cast _ _ _ _ Hw Hd P) as (t & T & K). unfold ltag in T. destruct (deref (w_layers w) q) as [l|]; [|done].
  cbn in *. injection T as <-. by destruct (nl_class l).
Qed.
Lemma ipv6_cast w d : world_typed w → d ∈ w_devs w → ipv6_of w d = phys_get_protocol (dv_phys d) 0x86dd.
Proof.
  intros Hw Hd. unfold ipv6_of. destruct (phys_get_protocol (dv_phys d) 0x86dd) as [q|] eqn:P; [|done].
  destruct (get_protocol_cast _ _ _ _ Hw Hd P) as (t & T & K). unfold ltag in T. destruct (deref (w_layers w) q) as [l|]; [|done].
  cbn in *. injection T as <-. by destruct (nl_class l).
Qed.
Lemma transport_cast w i :
  world_typed w → tcp_of w i = get_transport_layer w i 0x06 ∧ udp_of w i = get_transport_layer w i 0x11 ∧ sctp_of w i = get_transport_layer w i 0x84.
Proof.
  intros Hw. unfold tcp_of, udp_of, sctp_of. split_and!;
    (destruct (get_transport_layer w i _) as [q|] eqn:P; [|done];
     destruct (get_transport_cast _ _ _ _ Hw P) as (l & t & T & K); unfold ttag in T; destruct (deref (w_transports w) q) as [x|]; [|done];
     cbn in *; injection T as <-; destruct (tl_class x); cbn in K; naive_solver).
Qed.

End Blocks.
