(* ===== verification/MainServices.v ===== *)
(** * The services of the main program (src/main.cpp)

    Which service answers on which port, for every configuration.  [stream_services] is the
    specification: the ports and services the configuration asks for, in the order in which
    main.cpp sets them up.  The theorem of this file says that every TCP and SCTP layer of the
    program that [configure] makes listens exactly on these ports, and that the first service
    of a port is the one that is reached.

    An invariant of the state is carried through the blocks that have nothing to do with
    streams ([keeps_inv]); the effect of offering a service is computed once for TCP and SCTP
    ([Offering]). *)
From stdpp Require Import strings.
From S2P Require Import Prelude Str Runtime AnyAddr Net AddressCache Ax25 Arp Router SnmpElem SnmpData Dns Phys.
From S2P Require Import Udp Sctp TcpSession Tcp Config Stack Main MainOk.
Open Scope Z_scope.

(** ** The specification *)

Section Services.
Context {setting : Type} `{!Libconfig setting} (env : host setting).

Definition http_entry (s : setting) : res (Z * service) :=
  let* web_root := cfg_str s (lit "web-root") false [] in
  let* web_logfile := cfg_str s (lit "web-logfile") false [] in
  let* php_cgi := cfg_str s (lit "php-cgi") true [] in
  let* port := cfg_int s (lit "port") true 80 in
  let* is_https := cfg_bool s (lit "is-https") true false in
  Ok (port, http_service web_root web_logfile is_https php_cgi [] []).

Definition file_text (name : str) : res str := match h_load_text_file env name with Some t => Ok t | None => Err exit_failure end.

Definition https_entry (s : setting) : res (Z * service) :=
  let* '(port, h) := http_entry s in
  let* key_file := cfg_str s (lit "private-key") false [] in
  let* private_key := file_text key_file in
  let* certificate_file := cfg_str s (lit "certificate") false [] in
  let* certificate := file_text certificate_file in
  Ok (port, set_keys private_key certificate h).

Definition port_entry (service_ : service) (def_port : Z) (s : setting) : res (Z * service) :=
  let* port := cfg_int s (lit "port") true def_port in Ok (port, service_).

Definition entry_of (root : setting) (key : string) (read : setting → res (Z * service)) : res (list (Z * service)) :=
  match cfg_lookup root (lit key) with
  | None => Ok []
  | Some s => let* e := read s in Ok [e]
  end.

Definition stream_services (root : setting) : res (list (Z * service)) :=
  let* http := entry_of root "http" http_entry in
  let* https := entry_of root "https" https_entry in
  let* nrpe := entry_of root "nrpe" (port_entry nrpe_service 5666) in
  let* vnc := entry_of root "vnc" (port_entry vnc_service 5900) in
  let* mqtt := entry_of root "mqtt" (port_entry mqtt_service 1883) in
  Ok (http ++ https ++ nrpe ++ vnc ++ mqtt ++ [(7, echo_service); (6667, irc_service local_host); (55201, mynetperf_service)]).
End Services.

(** the service of a port: the first that asks for it *)
Fixpoint first_service (table : list (Z * service)) (port : Z) : option service :=
  match table with
  | [] => None
  | (p, s) :: table' => if p =? port then Some s else first_service table' port
  end.

(** its pointer, when the services are at the places from [n] on *)
Fixpoint first_ptr (n : Z) (table : list (Z * service)) (port : Z) : option Z :=
  match table with
  | [] => None
  | (p, _) :: table' => if p =? port then Some n else first_ptr (n + 1) table' port
  end.

Lemma first_ptr_snoc n table p s port :
  first_ptr n (table ++ [(p, s)]) port =
    match first_ptr n table port with Some x => Some x | None => if p =? port then Some (n + zlen table) else None end.
Proof.
  revert n. induction table as [|[q t] table IH]; intros n; cbn [app first_ptr].
  - change (zlen (@nil (Z * service))) with 0. by rewrite Z.add_0_r.
  - destruct (q =? port); [done|]. rewrite IH. destruct (first_ptr (n + 1) table port); [done|].
    unfold zlen. cbn [length]. replace (n + Z.of_nat (S (length table))) with (n + 1 + Z.of_nat (length table)) by lia. done.
Qed.

Lemma first_ptr_service table port : first_ptr 1 table port ≫= deref table.*2 = first_service table port.
Proof.
  assert (G : ∀ n pre, n = next pre → first_ptr n table port ≫= deref (pre ++ table.*2) = first_service table port).
  { induction table as [|[p s] table IH]; intros n pre ->; cbn [first_ptr first_service fmap list_fmap]; [done|].
    destruct (p =? port).
    - cbn. rewrite (cons_middle s pre), (assoc_L (++)). erewrite deref_app; [done|apply deref_next].
    - rewrite (cons_middle (p, s).2 pre), (assoc_L (++)). apply IH. unfold next, zlen. rewrite length_app. cbn. lia. }
  exact (G 1 [] eq_refl).
Qed.

(** ** The tables of the layers *)

(** which service a layer has on its ports *)
Definition tcp_table (w : program) (p : Z) : option (gmap Z Z) :=
  match tl_class <$> deref (w_transports w) p with Some (cl_tcp t _ _) => Some (ph_id <$> listeners t) | _ => None end.
Definition sctp_table (w : program) (p : Z) : option (gmap Z Z) :=
  match tl_class <$> deref (w_transports w) p with Some (cl_sctp t _ _) => Some (sh_id <$> sctp_listeners t) | _ => None end.

(** [insert] of a [std::map] *)
Definition absent (port s : Z) (m : gmap Z Z) : gmap Z Z := match m !! port with Some _ => m | None => <[port := s]> m end.

Lemma absent_absent port s m : absent port s (absent port s m) = absent port s m.
Proof. unfold absent. destruct (m !! port) eqn:L; [by rewrite L|by rewrite lookup_insert_eq]. Qed.

(** the layers of a device *)
Definition layers_of (finds : program → Z → option Z) (w : program) (d : device) : list Z :=
  omap (finds w) (option_list (ipv4_of w d) ++ option_list (ipv6_of w d)).

(** what finding a layer depends on *)
Definition same_links (w w' : program) : Prop :=
  dv_phys <$> w_devs w' = dv_phys <$> w_devs w ∧ w_layers w' = w_layers w.

#[global] Instance same_links_preorder : PreOrder same_links.
Proof. split; [by intros w|]. intros a b c [A1 A2] [B1 B2]. split; congruence. Qed.

Lemma same_links_of w w' d : same_links w w' → ipv4_of w' d = ipv4_of w d ∧ ipv6_of w' d = ipv6_of w d.
Proof. intros [_ L]. unfold ipv4_of, ipv6_of. by rewrite L. Qed.

Lemma omap_same {A B} (f g : A → option B) (l : list A) : (∀ x, f x = g x) → omap f l = omap g l.
Proof. intros H. induction l as [|x l IH]; [done|]. cbn. by rewrite H, IH. Qed.

(** ** Offering a service on every device *)

Section Offering.
Context (table : program → Z → option (gmap Z Z)) (finds : program → Z → option Z) (add : Z → program → program) (port s : Z).
Context (add_links : ∀ t w, same_links w (add t w) ∧ w_devs (add t w) = w_devs w).
Context (add_of : ∀ t w i, finds (add t w) i = finds w i).
Context (add_table : ∀ t w p, table (add t w) p = if decide (p = t) then absent port s <$> table w p else table w p).

(** what is left unchanged, and what happens to the tables of some layers *)
Definition offered_to (l : list Z) (w w' : program) : Prop :=
  same_links w w' ∧ w_devs w' = w_devs w ∧ (∀ i, finds w' i = finds w i) ∧
  ∀ p, table w' p = if decide (p ∈ l) then absent port s <$> table w p else table w p.

Lemma offered_refl w : offered_to [] w w.
Proof. split_and!; done. Qed.

Lemma offered_trans l k w1 w2 w3 : offered_to l w1 w2 → offered_to k w2 w3 → offered_to (l ++ k) w1 w3.
Proof.
  intros (A1 & A2 & A3 & A4) (B1 & B2 & B3 & B4). split_and!.
  - by etransitivity.
  - congruence.
  - intros i. by rewrite B3.
  - intros p. rewrite B4, A4. destruct (decide (p ∈ l ++ k)) as [I|N]; rewrite elem_of_app in *.
    + destruct (decide (p ∈ k)), (decide (p ∈ l)); try tauto. destruct (table w1 p); [|done]. cbn. by rewrite absent_absent.
    + destruct (decide (p ∈ k)), (decide (p ∈ l)); tauto.
Qed.

Lemma offer_offered lo d w :
  offered_to (omap (finds w) (option_list (lo w d))) w (offer lo finds add d w).
Proof.
  unfold offer. destruct (lo w d) as [i|]; [|apply offered_refl]. cbn. destruct (finds w i) as [t|]; [|apply offered_refl].
  destruct (add_links t w). split_and!; [done|done|auto|]. intros p. rewrite add_table.
  destruct (decide (p = t)) as [->|N], (decide (_ ∈ _)) as [I|I]; rewrite list_elem_of_singleton in I; done.
Qed.

Lemma device_offered d w : offered_to (layers_of finds w d) w (offer ipv6_of finds add d (offer ipv4_of finds add d w)).
Proof.
  pose proof (offer_offered ipv4_of d w) as A. pose proof (offer_offered ipv6_of d (offer ipv4_of finds add d w)) as B.
  unfold layers_of. rewrite omap_app. eapply offered_trans; [exact A|].
  destruct A as (L & _ & O & _). destruct (same_links_of _ _ d L) as [_ E6]. rewrite E6 in B.
  by rewrite (omap_same _ _ _ O) in B.
Qed.

Lemma layers_of_same w w' d : same_links w w' → (∀ i, finds w' i = finds w i) → layers_of finds w' d = layers_of finds w d.
Proof. intros L O. unfold layers_of. destruct (same_links_of _ _ d L) as [-> ->]. by apply omap_same. Qed.

Lemma devices_offered ds w :
  offered_to (ds ≫= layers_of finds w) w (foldl (λ w d, offer ipv6_of finds add d (offer ipv4_of finds add d w)) w ds).
Proof.
  revert w. induction ds as [|d ds IH]; intros w; [apply offered_refl|]. cbn [foldl]. rewrite bind_cons.
  pose proof (device_offered d w) as A. eapply offered_trans; [exact A|]. destruct A as (L & _ & O & _).
  assert (E : ds ≫= layers_of finds w = ds ≫= layers_of finds (offer ipv6_of finds add d (offer ipv4_of finds add d w))).
  { clear IH. induction ds as [|e ds IH]; [done|]. rewrite !bind_cons, IH. f_equal. symmetry. by apply layers_of_same. }
  rewrite E. apply IH.
Qed.
End Offering.

(** the layers of all devices *)
Definition all_layers (finds : program → Z → option Z) (w : program) : list Z := w_devs w ≫= layers_of finds w.

(** ** TCP and SCTP *)

Lemma run_init_fields s w : w_devs (run_init s w) = w_devs w ∧ w_layers (run_init s w) = w_layers w ∧
  w_transports (run_init s w) = w_transports w ∧ w_services (run_init s w) = w_services w.
Proof. unfold run_init. destruct (deref (w_services w) s) as [[]|]; done. Qed.

Lemma add_tcp_table t port s w p :
  tcp_table (add_tcp_handler t port s w) p = if decide (p = t) then absent port s <$> tcp_table w p else tcp_table w p.
Proof.
  destruct (run_init_fields s w) as (_ & _ & T & _). unfold tcp_table, add_tcp_handler. cbn [on_transports w_transports]. rewrite T, deref_update.
  destruct (decide (p = t)) as [->|]; [|done]. destruct (deref (w_transports w) t) as [[[| |u i n| |] idev]|]; try done. cbn. f_equal.
  unfold add_handler, absent. rewrite lookup_fmap. destruct (listeners u !! port); [done|]. cbn. by rewrite fmap_insert.
Qed.

Lemma add_tcp_sctp t port s w p : sctp_table (add_tcp_handler t port s w) p = sctp_table w p.
Proof.
  destruct (run_init_fields s w) as (_ & _ & T & _). unfold sctp_table, add_tcp_handler. cbn [on_transports w_transports]. rewrite T, deref_update.
  destruct (decide (p = t)) as [->|]; [|done]. by destruct (deref (w_transports w) t) as [[[] idev]|].
Qed.

Lemma add_sctp_table t port s w p :
  sctp_table (add_sctp_handler t port s w) p = if decide (p = t) then absent port s <$> sctp_table w p else sctp_table w p.
Proof.
  destruct (run_init_fields s w) as (_ & _ & T & _). unfold sctp_table, add_sctp_handler. cbn [on_transports w_transports]. rewrite T, deref_update.
  destruct (decide (p = t)) as [->|]; [|done]. destruct (deref (w_transports w) t) as [[[| | |u i n|] idev]|]; try done. cbn. f_equal.
  unfold sctp_add_handler, absent. rewrite lookup_fmap. destruct (sctp_listeners u !! port); [done|]. cbn. by rewrite fmap_insert.
Qed.

Lemma add_sctp_tcp t port s w p : tcp_table (add_sctp_handler t port s w) p = tcp_table w p.
Proof.
  destruct (run_init_fields s w) as (_ & _ & T & _). unfold tcp_table, add_sctp_handler. cbn [on_transports w_transports]. rewrite T, deref_update.
  destruct (decide (p = t)) as [->|]; [|done]. by destruct (deref (w_transports w) t) as [[[] idev]|].
Qed.

(** a layer is found by its place and its class, which is the class of its table *)
Lemma tcp_of_table w i : tcp_of w i = match get_transport_layer w i 0x06 with Some p => (λ _, p) <$> tcp_table w p | None => None end.
Proof.
  unfold tcp_of, tcp_table. destruct (get_transport_layer w i 0x06) as [p|]; [|done]. by destruct (deref (w_transports w) p) as [[[] ?]|].
Qed.
Lemma sctp_of_table w i : sctp_of w i = match get_transport_layer w i 0x84 with Some p => (λ _, p) <$> sctp_table w p | None => None end.
Proof.
  unfold sctp_of, sctp_table. destruct (get_transport_layer w i 0x84) as [p|]; [|done]. by destruct (deref (w_transports w) p) as [[[] ?]|].
Qed.

(** ** Steps that do not touch the streams *)

Record same_streams (w w' : program) : Prop := {
  ss_links : same_links w w';
  ss_services : w_services w' = w_services w;
  ss_tcp p : tcp_table w' p = tcp_table w p;
  ss_sctp p : sctp_table w' p = sctp_table w p;
}.

#[global] Instance same_streams_preorder : PreOrder same_streams.
Proof.
  split; [by intros w; split|]. intros a b c [A1 A2 A3 A4] [B1 B2 B3 B4]. split; [by etransitivity|congruence|congruence|congruence].
Qed.

Lemma same_streams_fields w w' : w_devs w' = w_devs w → w_layers w' = w_layers w → w_transports w' = w_transports w →
  w_services w' = w_services w → same_streams w w'.
Proof. intros E1 E2 E3 E4. split; unfold same_links, tcp_table, sctp_table; rewrite ?E1, ?E2, ?E3, ?E4; done. Qed.

Lemma find_same w w' : same_links w w' → (∀ p, (λ _, ()) <$> tcp_table w' p = (λ _, ()) <$> tcp_table w p) →
  (∀ p, (λ _, ()) <$> sctp_table w' p = (λ _, ()) <$> sctp_table w p) → ∀ i, tcp_of w' i = tcp_of w i ∧ sctp_of w' i = sctp_of w i.
Proof.
  intros [_ L] HT HS i. rewrite !tcp_of_table, !sctp_of_table. unfold get_transport_layer. rewrite L.
  destruct (deref (w_layers w) i) as [l|]; [|done]. split.
  - destruct (nl_prot_map l !! u8 0x06) as [p|]; [|done]. specialize (HT p). by destruct (tcp_table w' p), (tcp_table w p).
  - destruct (nl_prot_map l !! u8 0x84) as [p|]; [|done]. specialize (HS p). by destruct (sctp_table w' p), (sctp_table w p).
Qed.

Lemma all_layers_same finds w w' : same_links w w' → (∀ i, finds w' i = finds w i) → all_layers finds w' = all_layers finds w.
Proof.
  intros S O. unfold all_layers. destruct (S) as [D L]. revert D. generalize (w_devs w) as ds, (w_devs w') as ds'.
  intros ds ds'. revert ds. induction ds' as [|d' ds' IH]; intros [|d ds]; cbn [fmap list_fmap]; try done.
  intros [= E1 E2]. rewrite !bind_cons, (IH ds) by done. f_equal. rewrite (layers_of_same finds w w') by done.
  unfold layers_of, ipv4_of, ipv6_of. by rewrite E1.
Qed.

(** ** What is served *)

(** the services [V] are made, the ones of [T] are offered by TCP and the ones of [S] by SCTP *)
Record serves (T S : list (Z * service)) (V : list service) (w : program) : Prop := {
  sv_services : w_services w = V;
  sv_tcp p tb port : p ∈ all_layers tcp_of w → tcp_table w p = Some tb → tb !! port = first_ptr 1 T port;
  sv_sctp p tb port : p ∈ all_layers sctp_of w → sctp_table w p = Some tb → tb !! port = first_ptr 1 S port;
}.

Lemma same_streams_layers w w' : same_streams w w' →
  all_layers tcp_of w' = all_layers tcp_of w ∧ all_layers sctp_of w' = all_layers sctp_of w.
Proof.
  intros [L V T S]. assert (F : ∀ i, tcp_of w' i = tcp_of w i ∧ sctp_of w' i = sctp_of w i).
  { apply find_same; [done| |]; intros p; by rewrite ?T, ?S. }
  split; apply all_layers_same; try done; apply F.
Qed.

Lemma serves_same T S V w w' : same_streams w w' → serves T S V w → serves T S V w'.
Proof.
  intros X [E HT HS]. destruct (same_streams_layers _ _ X) as [LT LS]. destruct X as [L V' T' S']. split.
  - congruence.
  - intros p tb port. rewrite LT, T'. apply HT.
  - intros p tb port. rewrite LS, S'. apply HS.
Qed.

(** the fold over the devices *)
Definition offer_all (finds : program → Z → option Z) (add : Z → program → program) (w : program) : program :=
  foldl (λ w d, offer ipv6_of finds add d (offer ipv4_of finds add d w)) w (w_devs w).

Lemma offer_all_keeps {B} (obs : program → B) finds add : (∀ t w, obs (add t w) = obs w) → ∀ w, obs (offer_all finds add w) = obs w.
Proof.
  intros H w. unfold offer_all. generalize (w_devs w) as ds. intros ds. revert w. induction ds as [|d ds IH]; intros w; [done|]. cbn [foldl].
  rewrite IH. unfold offer. repeat (case_match; rewrite ?H); done.
Qed.

Lemma lookup_absent port s m q : absent port s m !! q = match m !! q with Some x => Some x | None => if port =? q then Some s else None end.
Proof.
  unfold absent. destruct (m !! port) eqn:L.
  - destruct (m !! q) eqn:M; [done|]. destruct (Z.eqb_spec port q) as [->|]; congruence.
  - destruct (Z.eqb_spec port q) as [->|N]; [by rewrite lookup_insert_eq, L|]. rewrite lookup_insert_ne by done. by destruct (m !! q).
Qed.

Lemma add_tcp_links t port s w : same_links w (add_tcp_handler t port s w) ∧ w_devs (add_tcp_handler t port s w) = w_devs w.
Proof.
  destruct (run_init_fields s w) as (D & L & _). unfold same_links, add_tcp_handler. cbn [on_transports w_devs w_layers]. by rewrite D, L.
Qed.
Lemma add_sctp_links t port s w : same_links w (add_sctp_handler t port s w) ∧ w_devs (add_sctp_handler t port s w) = w_devs w.
Proof.
  destruct (run_init_fields s w) as (D & L & _). unfold same_links, add_sctp_handler. cbn [on_transports w_devs w_layers]. by rewrite D, L.
Qed.

(** adding a handler changes what is found by none of the casts *)
Lemma add_tcp_finds t port s w i : tcp_of (add_tcp_handler t port s w) i = tcp_of w i ∧ sctp_of (add_tcp_handler t port s w) i = sctp_of w i.
Proof.
  apply find_same; [apply add_tcp_links| |]; intros p; [rewrite add_tcp_table|by rewrite add_tcp_sctp].
  destruct (decide (p = t)); [|done]. by destruct (tcp_table w p).
Qed.
Lemma add_sctp_finds t port s w i : tcp_of (add_sctp_handler t port s w) i = tcp_of w i ∧ sctp_of (add_sctp_handler t port s w) i = sctp_of w i.
Proof.
  apply find_same; [apply add_sctp_links| |]; intros p; [by rewrite add_sctp_tcp|rewrite add_sctp_table].
  destruct (decide (p = t)); [|done]. by destruct (sctp_table w p).
Qed.

(** the tables after a service is offered on all layers of a kind *)
Lemma table_offered T port s h tb q : h = next T.*2 →
  (∀ q, tb !! q = first_ptr 1 T q) → absent port h tb !! q = first_ptr 1 (T ++ [(port, s)]) q.
Proof.
  intros -> H. rewrite lookup_absent, H, first_ptr_snoc. destruct (first_ptr 1 T q); [done|]. unfold next, zlen. rewrite length_fmap.
  by rewrite Z.add_comm.
Qed.

Lemma offer_tcp_serves T S V port s h w : h = next T.*2 → serves T S V w →
  serves (T ++ [(port, s)]) S V (offer_all tcp_of (λ t, add_tcp_handler t port h) w).
Proof.
  intros Hh [E HT HS]. set (w1 := offer_all _ _ w).
  destruct (devices_offered tcp_table tcp_of (λ t, add_tcp_handler t port h) port h) with (ds := w_devs w) (w := w) as (L1 & D1 & F1 & T1);
    [intros; apply add_tcp_links|intros; apply add_tcp_finds|intros; apply add_tcp_table|]. fold w1 in L1, D1, F1, T1.
  assert (FS : ∀ i, sctp_of w1 i = sctp_of w i).
  { intros i. apply (offer_all_keeps (λ w, sctp_of w i)). intros. apply add_tcp_finds. }
  split.
  - rewrite <- E. apply (offer_all_keeps w_services). intros t v. apply (run_init_fields h v).
  - intros p tb q. rewrite (all_layers_same tcp_of w w1), T1 by done. intros I. rewrite decide_True by done.
    destruct (tcp_table w p) as [m|] eqn:M; [|done]. injection 1 as <-. apply table_offered; [done|]. eauto.
  - intros p tb q. rewrite (all_layers_same sctp_of w w1) by done. unfold w1.
    rewrite (offer_all_keeps (λ w, sctp_table w p)) by (intros; apply add_tcp_sctp). apply HS.
Qed.

Lemma offer_sctp_serves T S V port s h w : h = next S.*2 → serves T S V w →
  serves T (S ++ [(port, s)]) V (offer_all sctp_of (λ t, add_sctp_handler t port h) w).
Proof.
  intros Hh [E HT HS]. set (w1 := offer_all _ _ w).
  destruct (devices_offered sctp_table sctp_of (λ t, add_sctp_handler t port h) port h) with (ds := w_devs w) (w := w) as (L1 & D1 & F1 & T1);
    [intros; apply add_sctp_links|intros; apply add_sctp_finds|intros; apply add_sctp_table|]. fold w1 in L1, D1, F1, T1.
  assert (FT : ∀ i, tcp_of w1 i = tcp_of w i).
  { intros i. apply (offer_all_keeps (λ w, tcp_of w i)). intros. apply add_sctp_finds. }
  split.
  - rewrite <- E. apply (offer_all_keeps w_services). intros t v. apply (run_init_fields h v).
  - intros p tb q. rewrite (all_layers_same tcp_of w w1) by done. unfold w1.
    rewrite (offer_all_keeps (λ w, tcp_table w p)) by (intros; apply add_sctp_tcp). apply HT.
  - intros p tb q. rewrite (all_layers_same sctp_of w w1), T1 by done. intros I. rewrite decide_True by done.
    destruct (sctp_table w p) as [m|] eqn:M; [|done]. injection 1 as <-. apply table_offered; [done|]. eauto.
Qed.

(** ** Blocks that keep an invariant *)

Definition keeps_inv {A} (I : program → Prop) (m : M A) : Prop := ∀ w a w', I w → m w = Ok (a, w') → I w'.

Lemma keeps_step {A} (I : program → Prop) (m : M A) w a w' : I w → keeps_inv I m → m w = Ok (a, w') → I w'.
Proof. intros Hw K. by apply K. Qed.
Lemma keeps_bind {A B} I (m : M A) (k : A → M B) : keeps_inv I m → (∀ a, keeps_inv I (k a)) → keeps_inv I (m ≫= k).
Proof.
  intros Hm Hk w b w2 Hw E. unfold mbind, M_bind in E. destruct (m w) as [[a w1]|] eqn:Em; [|done]. exact (Hk a w1 b w2 (Hm w a w1 Hw Em) E).
Qed.
Lemma keeps_ret {A} I (a : A) : keeps_inv I (mret a).
Proof. intros w b w' Hw. by injection 1 as <- <-. Qed.
Lemma keeps_lift {A} I (r : res A) : keeps_inv I (lift r).
Proof. intros w a w' Hw. unfold lift. destruct r; [|done]. by injection 1 as <- <-. Qed.
Lemma keeps_gets {A} I (f : program → A) : keeps_inv I (gets f).
Proof. intros w a w' Hw. by injection 1 as <- <-. Qed.
Lemma keeps_exit {A} I : keeps_inv I (error_exit : M A).
Proof. done. Qed.
Lemma keeps_modify (I : program → Prop) f : (∀ w, I w → I (f w)) → keeps_inv I (modify f).
Proof. intros H w a w' Hw. injection 1 as <- <-. auto. Qed.
Lemma keeps_if {A} I (b : bool) (m1 m2 : M A) : keeps_inv I m1 → keeps_inv I m2 → keeps_inv I (if b then m1 else m2).
Proof. by destruct b. Qed.
Lemma keeps_when {A} I (o : option A) body : (∀ x, keeps_inv I (body x)) → keeps_inv I (when_some o body).
Proof. intros H. destruct o; [apply H|apply keeps_ret]. Qed.
Lemma keeps_for_each {A} I (l : list A) body : (∀ x, keeps_inv I (body x)) → keeps_inv I (for_each l body).
Proof. intros H. induction l as [|x l IH]; cbn [for_each]; [apply keeps_ret|]. apply keeps_bind; [apply H|done]. Qed.
Lemma keeps_for_each_from {A} I n (l : list A) body : (∀ n x, keeps_inv I (body n x)) → keeps_inv I (for_each_from n l body).
Proof. intros H. revert n. induction l as [|x l IH]; intros n; cbn [for_each_from]; [apply keeps_ret|]. apply keeps_bind; [apply H|done]. Qed.

Lemma keeps_mdns {setting} `{!Libconfig setting} w0 port (settings : setting) : keeps_inv (same_streams w0) (register_mdns_service port settings).
Proof.
  unfold register_mdns_service. destruct (cfg_lookup settings (lit "mdns")) as [v|]; [|apply keeps_ret].
  destruct (as_string v) as [hostname|]; [|apply keeps_lift]. apply keeps_modify. intros w. generalize (w_devs w) as ds. intros ds. revert w.
  induction ds as [|d ds IH]; intros w H; [done|]. cbn [foldl]. apply IH. etransitivity; [exact H|].
  unfold offer. destruct (ipv4_of w d) as [i|]; [|done]. destruct (udp_of w i); [|done]. by apply same_streams_fields.
Qed.

Lemma offer_service_serves {setting} `{!Libconfig setting} T s port (settings : option setting) w w' :
  serves T T (T.*2 ++ [s]) w → offer_service (next T.*2) port settings w = Ok ((), w') →
  serves (T ++ [(port, s)]) (T ++ [(port, s)]) (T ++ [(port, s)]).*2 w'.
Proof.
  intros H E. apply (offer_tcp_serves _ _ _ port s _ _ eq_refl), (offer_sctp_serves _ _ _ port s _ _ eq_refl) in H.
  rewrite fmap_app. eapply serves_same; [|exact H]. eapply (keeps_when (same_streams _) settings); [|reflexivity|exact E].
  intros x. apply keeps_mdns.
Qed.

(** ** Blocks without streams *)

(** cut a block in its steps *)
Ltac keeps_steps :=
  repeat first
    [ apply keeps_bind; [|intros ?]
    | apply keeps_ret | apply keeps_lift | apply keeps_gets | apply keeps_exit
    | apply keeps_when; intros ? | apply keeps_for_each; intros ? | apply keeps_if
    | case_match ].

Section Blocks.
Context {setting : Type} `{!Libconfig setting} (env : host setting).

Lemma udp_handler_same u port a w : same_streams w (add_udp_handler u port a w).
Proof.
  split; [done|done| |]; intros p; unfold tcp_table, sctp_table, add_udp_handler; cbn [on_transports w_transports]; rewrite deref_update;
    (destruct (decide (p = u)) as [->|]; [|done]; by destruct (deref (w_transports w) u) as [[[] ?]|]).
Qed.

Lemma endpoint_same dev v w : same_streams w (on_devs (λ ds, update_at ds dev (with_endpoint v)) w).
Proof.
  split; try done. split; [|done]. cbn [on_devs w_devs]. unfold update_at. destruct (dev <=? 0); [done|].
  apply list_eq. intros i. rewrite !list_lookup_fmap, list_lookup_alter. case_decide as E; [subst|done]. by destruct (w_devs w !! _).
Qed.

(** the steps of such a block *)
Ltac keeps_same :=
  unfold draw_linked, draw_node, draw_connection, clean_application, get_str, get_int, get_bool, parse_ipv4, show; keeps_steps;
  try (let v := fresh "v" in let X := fresh "X" in apply keeps_modify; intros v X; etransitivity; [exact X|];
       first [apply udp_handler_same | apply endpoint_same | by apply same_streams_fields]).

Lemma keeps_new_app w0 a : keeps_inv (same_streams w0) (new_app a).
Proof. intros w p w' H. injection 1 as <- <-. etransitivity; [exact H|]. by apply same_streams_fields. Qed.

Lemma keeps_on_ipv4_udp w0 body : (∀ d u ip, keeps_inv (same_streams w0) (body d u ip)) → keeps_inv (same_streams w0) (on_ipv4_udp body).
Proof. intros H. unfold on_ipv4_udp. keeps_steps. apply H. Qed.

Lemma keeps_ntp w0 (s : setting) : keeps_inv (same_streams w0) (setup_ntp s).
Proof.
  unfold setup_ntp, get_str, get_int, get_bool, parse_ipv4. do 4 (apply keeps_bind; [apply keeps_lift|intros ?]).
  apply keeps_on_ipv4_udp. intros d u ip. apply keeps_bind; [apply keeps_new_app|intros p]. keeps_same.
Qed.
Lemma keeps_sip w0 (s : setting) : keeps_inv (same_streams w0) (setup_sip env s).
Proof.
  unfold setup_sip, get_str, get_int. do 8 (apply keeps_bind; [apply keeps_lift|intros ?]).
  apply keeps_on_ipv4_udp. intros d u ip. apply keeps_bind; [apply keeps_lift|intros _]. apply keeps_bind; [apply keeps_new_app|intros p]. keeps_same.
Qed.
Lemma keeps_snmp w0 (s : setting) : keeps_inv (same_streams w0) (setup_snmp s).
Proof.
  unfold setup_snmp, get_int. apply keeps_bind; [apply keeps_lift|intros port]. apply keeps_on_ipv4_udp. intros d u ip.
  apply keeps_bind; [apply keeps_new_app|intros p]. unfold ipv6_udp. keeps_same. apply keeps_new_app.
Qed.
Lemma keeps_syslog w0 (s : setting) : keeps_inv (same_streams w0) (setup_syslog s).
Proof.
  unfold setup_syslog, get_int. apply keeps_bind; [apply keeps_lift|intros port]. apply keeps_on_ipv4_udp. intros d u ip.
  apply keeps_bind; [apply keeps_new_app|intros p]. unfold ipv6_udp. keeps_same. apply keeps_new_app.
Qed.
Lemma keeps_vpn w0 (s : setting) : keeps_inv (same_streams w0) (setup_vpn s).
Proof.
  unfold setup_vpn. keeps_same. apply keeps_new_app.
Qed.

(** ** Interfaces: no stream is offered yet *)

Record no_streams (w : program) : Prop := {
  q_services : w_services w = [];
  q_tcp p tb : tcp_table w p = Some tb → tb = ∅;
  q_sctp p tb : sctp_table w p = Some tb → tb = ∅;
}.

Lemma quiet_fields w w' : w_transports w' = w_transports w → w_services w' = w_services w → no_streams w → no_streams w'.
Proof. intros E1 E2 [A B C]. split; unfold tcp_table, sctp_table; rewrite ?E1, ?E2; done. Qed.

Lemma quiet_serves w : no_streams w → serves [] [] [] w.
Proof.
  intros [A B C]. split; [done| |].
  - intros p tb port _ T. by rewrite (B _ _ T), lookup_empty.
  - intros p tb port _ T. by rewrite (C _ _ T), lookup_empty.
Qed.

(** a change of a transport layer that keeps its listeners *)
Lemma quiet_update w p f :
  (∀ t, match tl_class t, tl_class (f t) with
        | cl_tcp u _ _, cl_tcp v _ _ => listeners v = listeners u
        | cl_sctp u _ _, cl_sctp v _ _ => sctp_listeners v = sctp_listeners u
        | cl_icmp4 _, cl_icmp4 _ | cl_icmp6 _ _ _ _, cl_icmp6 _ _ _ _ | cl_udp _ _ _, cl_udp _ _ _ => True
        | _, _ => False
        end) → no_streams w → no_streams (on_transports (λ l, update_at l p f) w).
Proof.
  intros H [A B C].
  assert (K : ∀ q, tcp_table (on_transports (λ l, update_at l p f) w) q = tcp_table w q ∧
                   sctp_table (on_transports (λ l, update_at l p f) w) q = sctp_table w q).
  { intros q. unfold tcp_table, sctp_table. cbn [on_transports w_transports]. rewrite deref_update.
    destruct (decide (q = p)) as [->|]; [|done]. destruct (deref (w_transports w) p) as [t|]; [|done]. cbn [fmap option_fmap option_map].
    specialize (H t). destruct (tl_class t), (tl_class (f t)); try done; by rewrite H. }
  split; [done|intros q tb; rewrite (proj1 (K q)); apply B|intros q tb; rewrite (proj2 (K q)); apply C].
Qed.

Lemma quiet_new w c :
  match c with cl_tcp u _ _ => listeners u = ∅ | cl_sctp u _ _ => sctp_listeners u = ∅ | _ => True end →
  no_streams w → no_streams (on_transports (λ l, l ++ [Transport c nullptr]) w).
Proof.
  intros H [A B C]. split; [done| |]; intros q tb; unfold tcp_table, sctp_table in *; cbn [on_transports w_transports];
    (destruct (deref (w_transports w ++ [Transport c nullptr]) q) as [t|] eqn:D; [|done]); cbn [fmap option_fmap option_map];
    (destruct (deref_app_inv _ _ _ _ D) as [D'|[_ ->]]; [specialize (B q tb); specialize (C q tb); rewrite D' in B, C; done|]);
    cbn [tl_class]; destruct c; try done; rewrite H, fmap_empty; by injection 1 as <-.
Qed.

Lemma keeps_new_transport c :
  match c with cl_tcp u _ _ => listeners u = ∅ | cl_sctp u _ _ => sctp_listeners u = ∅ | _ => True end → keeps_inv no_streams (new_transport c).
Proof. intros H w p w' Hw. injection 1 as <- <-. by apply quiet_new. Qed.
Lemma keeps_new_layer c : keeps_inv no_streams (new_layer c).
Proof. intros w p w' Hw. injection 1 as <- <-. by apply (quiet_fields w). Qed.
Lemma keeps_new_device opens n l : keeps_inv no_streams (new_device opens n l).
Proof. intros w p w' Hw. unfold new_device. destruct (opens l); [|done]. injection 1 as <- <-. by apply (quiet_fields w). Qed.
Lemma keeps_app_quiet a : keeps_inv no_streams (new_app a).
Proof. intros w p w' Hw. injection 1 as <- <-. by apply (quiet_fields w). Qed.
Lemma keeps_sd oid v : keeps_inv no_streams (sd_register oid v).
Proof. intros w p w' Hw. unfold sd_register. destruct (register_oid (w_sd w) oid v); [|done]. injection 1 as <- <-. by apply (quiet_fields w). Qed.
Lemma keeps_capture dev file : keeps_inv no_streams (start_capture env dev file).
Proof.
  intros w p w' Hw. unfold start_capture. destruct (deref (w_devs w) dev) as [d|]; [|done]. destruct (start_pcap _ _ _ _ _); [|done].
  injection 1 as <- <-. by apply (quiet_fields w).
Qed.
Lemma keeps_resolver now r dev m ip : keeps_inv no_streams (resolver_add_static now r dev m ip).
Proof.
  intros w p w' Hw. unfold resolver_add_static. destruct (deref (w_layers w) r) as [l|]; [|done]. destruct (nl_class l); try done;
    (destruct (add_static_entry _ _ _ _ _); [|done]); injection 1 as <- <-; by apply (quiet_fields w).
Qed.
Lemma keeps_route4 my network mask gw prio dev a : keeps_inv no_streams (route_ipv4 my network mask gw prio dev a).
Proof.
  intros w p w' Hw. unfold route_ipv4. destruct (copy my); [|done]. cbn [res_bind]. destruct (add_router_ipv4 _ _ _ _ _ _ _ _); [|done].
  injection 1 as <- <-. by apply (quiet_fields w).
Qed.
Lemma keeps_route6 my network cidr prio dev n : keeps_inv no_streams (route_ipv6 my network cidr prio dev n).
Proof.
  intros w p w' Hw. unfold route_ipv6. destruct (copy my); [|done]. cbn [res_bind]. destruct (add_router_ipv6 _ _ _ _ _ _ _); [|done].
  injection 1 as <- <-. by apply (quiet_fields w).
Qed.
Lemma keeps_udp_quiet u port a : keeps_inv no_streams (modify (add_udp_handler u port a)).
Proof. apply keeps_modify. intros w. apply quiet_update. by intros [[] ?]. Qed.
Lemma keeps_idev p t : keeps_inv no_streams (modify (on_transports (λ ts, update_at ts t (with_idev p)))).
Proof. apply keeps_modify. intros w. apply quiet_update. by intros [[] ?]. Qed.

(** the steps of the blocks of an interface *)
Ltac keeps_quiet :=
  keeps_steps;
  try first
    [ apply keeps_new_layer | apply keeps_new_device | apply keeps_app_quiet | apply keeps_sd | apply keeps_capture | apply keeps_resolver
    | apply keeps_route4 | apply keeps_route6 | apply keeps_udp_quiet | apply keeps_idev | by apply keeps_new_transport
    | apply keeps_modify; intros ?; by apply quiet_fields ].

Lemma keeps_dns devs text upstream v4 v6 cur : keeps_inv no_streams (add_dns_loop devs text upstream v4 v6 cur).
Proof.
  revert cur. induction devs as [|d devs IH]; intros cur; cbn [add_dns_loop]; unfold clean_application, draw_linked, draw_node, draw_connection, show.
  - apply keeps_ret.
  - keeps_quiet; apply IH.
Qed.

Lemma keeps_device uid gid n (interface : setting) type my_mac : keeps_inv no_streams (make_device env uid gid n interface type my_mac).
Proof.
  unfold make_device, make_kiss, make_serial, kiss_beacon, register_interface. keeps_quiet.
Qed.

Lemma keeps_ipv4 dev mac_str my_mac statics (cfg : setting) : keeps_inv no_streams (add_ipv4 env dev mac_str my_mac statics cfg).
Proof.
  unfold add_ipv4, add_icmp4, add_tcp, add_sctp, add_udp, add_static_mapping, register_layer, register_transport, register_icmp, clean_transport,
    clean_protocol, add_stream, draw_linked, draw_node, draw_connection. keeps_quiet.
Qed.

Lemma keeps_ipv6 dev mac_str my_mac (cfg : setting) : keeps_inv no_streams (add_ipv6 env dev mac_str my_mac cfg).
Proof.
  unfold add_ipv6, add_icmp6, add_tcp, add_udp, register_layer, register_transport, register_icmp, register_icmp6, clean_transport, clean_protocol,
    add_stream, draw_linked, draw_node, draw_connection. keeps_quiet.
Qed.

Lemma keeps_interface uid gid n (interface : setting) : keeps_inv no_streams (add_interface env uid gid n interface).
Proof.
  unfold add_interface, when_ip, add_route, add_route_ax25, add_lldp, add_dns, add_socks, register_layer, clean_protocol, draw_linked, draw_node, draw_connection.
  keeps_quiet; first [apply keeps_device|apply keeps_ipv4|apply keeps_ipv6|apply keeps_dns].
Qed.

(** ** Services *)

Lemma bind_inv {A B} (m : M A) (k : A → M B) w b w2 : (m ≫= k) w = Ok (b, w2) → ∃ a w1, m w = Ok (a, w1) ∧ k a w1 = Ok (b, w2).
Proof. unfold mbind, M_bind. destruct (m w) as [[a w1]|]; [|done]. intros E. by exists a, w1. Qed.
Lemma lift_inv {A} (r : res A) w a w' : lift r w = Ok (a, w') → r = Ok a ∧ w' = w.
Proof. unfold lift. destruct r; [|done]. by injection 1 as -> ->. Qed.

(** [m] sets up the services that [r] reads *)
Definition adds (m : M unit) (r : res (list (Z * service))) : Prop :=
  ∀ T w w', serves T T T.*2 w → m w = Ok ((), w') → ∃ E, r = Ok E ∧ serves (T ++ E) (T ++ E) (T ++ E).*2 w'.

Lemma adds_bind m1 m2 r1 r2 : adds m1 r1 → adds m2 r2 → adds (m1 ;; m2) (let* a := r1 in let* b := r2 in Ok (a ++ b)).
Proof.
  intros H1 H2 T w w' S E. apply bind_inv in E as ([] & w1 & E1 & E2). destruct (H1 T w w1 S E1) as (A & -> & S1).
  destruct (H2 _ _ _ S1 E2) as (B & -> & S2). rewrite <- (assoc_L (++)) in S2. by exists (A ++ B).
Qed.

Lemma adds_same m : (∀ w0, keeps_inv (same_streams w0) m) → adds m (Ok []).
Proof. intros K T w w' S E. exists []. rewrite app_nil_r. split; [done|]. eapply serves_same; [|exact S]. by eapply K. Qed.

Lemma adds_when root key (body : setting → M unit) read :
  (∀ s, adds (body s) (let* e := read s in Ok [e])) → adds (when_some (cfg_lookup root (lit key)) body) (entry_of root key read).
Proof.
  intros H T w w' S E. unfold entry_of. destruct (cfg_lookup root (lit key)) as [s|]; [by eapply H|]. injection E as <-.
  exists []. by rewrite app_nil_r.
Qed.

Lemma new_service_serves T s w : serves T T T.*2 w → serves T T (T.*2 ++ [s]) (on_services (λ l, l ++ [s]) w).
Proof. intros [V HT HS]. split; [by cbn [on_services w_services]; rewrite V|exact HT|exact HS]. Qed.

(** a service is made and offered *)
Lemma adds_service T s port (settings : option setting) h w w1 w' :
  serves T T T.*2 w → new_service s w = Ok (h, w1) → offer_service h port settings w1 = Ok ((), w') →
  serves (T ++ [(port, s)]) (T ++ [(port, s)]) (T ++ [(port, s)]).*2 w'.
Proof.
  intros S. injection 1 as <- <-. rewrite (sv_services _ _ _ _ S). apply offer_service_serves. by apply new_service_serves.
Qed.

Lemma adds_port service_ def_port (s : setting) :
  adds (setup_service service_ def_port s) (let* e := port_entry service_ def_port s in Ok [e]).
Proof.
  intros T w w' S E. unfold setup_service in E. apply bind_inv in E as (port & w0 & R & E). apply lift_inv in R as [R ->].
  unfold port_entry. rewrite R. cbn [res_bind]. apply bind_inv in E as (h & w1 & N & E). exists [(port, service_)]. split; [done|].
  by eapply adds_service.
Qed.

Lemma adds_fixed service_ port : adds (setup_fixed (setting := setting) service_ port) (Ok [(port, service_)]).
Proof.
  intros T w w' S E. unfold setup_fixed in E. apply bind_inv in E as (h & w1 & N & E). exists [(port, service_)]. split; [done|].
  by eapply adds_service.
Qed.

Lemma adds_vnc (s : setting) : adds (setup_vnc s) (let* e := port_entry vnc_service 5900 s in Ok [e]).
Proof.
  intros T w w' S E. unfold setup_vnc in E. apply bind_inv in E as ([] & w1 & E1 & E). destruct (adds_port _ _ _ T w w1 S E1) as (A & R & S1).
  exists A. split; [done|]. eapply serves_same; [|exact S1]. revert E. apply (keeps_step (same_streams w1)); [done|].
  unfold get_str, parse_ipv4. keeps_steps.
Qed.

(** the settings of the HTTP server are read as the specification reads them *)
Lemma http_handler_entry (s : setting) w h port w1 : get_http_handler s w = Ok ((h, port), w1) →
  ∃ sv, http_entry s = Ok (port, sv) ∧ new_service sv w = Ok (h, w1).
Proof.
  intros E. unfold get_http_handler in E. unfold http_entry.
  do 5 (let x := fresh "x" in let R := fresh "R" in apply bind_inv in E as (x & ? & R & E); apply lift_inv in R as [R ->]; rewrite R; cbn [res_bind]).
  apply bind_inv in E as (h' & w2 & N & E). injection E as -> -> ->. eauto.
Qed.

Lemma adds_http (s : setting) : adds (setup_http s) (let* e := http_entry s in Ok [e]).
Proof.
  intros T w w' S E. unfold setup_http in E. apply bind_inv in E as ([h port] & w1 & E1 & E).
  apply http_handler_entry in E1 as (sv & -> & N). exists [(port, sv)]. split; [done|]. by eapply adds_service.
Qed.

Lemma set_keys_serves T s k c w :
  serves T T (T.*2 ++ [s]) w → serves T T (T.*2 ++ [set_keys k c s]) (on_services (λ l, update_at l (next T.*2) (set_keys k c)) w).
Proof.
  intros [V HT HS]. split; [|exact HT|exact HS]. cbn [on_services w_services]. rewrite V. unfold update_at, next, zlen.
  destruct (Z.leb_spec (Z.of_nat (length T.*2) + 1) 0); [lia|].
  replace (Z.to_nat (Z.of_nat (length T.*2) + 1 - 1)) with (length T.*2) by lia. clear. induction T.*2 as [|x l IH]; [done|]. cbn. by rewrite IH.
Qed.

Lemma adds_https (s : setting) : adds (setup_https env s) (let* e := https_entry env s in Ok [e]).
Proof.
  intros T w w' S E. unfold setup_https, get_str, load_file in E. unfold https_entry.
  do 2 (let x := fresh "x" in let R := fresh "R" in apply bind_inv in E as (x & ? & R & E); apply lift_inv in R as [R ->]).
  apply bind_inv in E as ([h port] & w1 & E1 & E). apply http_handler_entry in E1 as (sv & -> & N). cbn [res_bind].
  apply bind_inv in E as (f1 & ? & R1 & E). apply lift_inv in R1 as [R1 ->]. change (lit "") with (@nil Z) in R1. rewrite R1. cbn [res_bind].
  apply bind_inv in E as (k & ? & R2 & E). apply lift_inv in R2 as [R2 ->]. fold (file_text env f1) in R2. rewrite R2. cbn [res_bind].
  apply bind_inv in E as (f2 & ? & R3 & E). apply lift_inv in R3 as [R3 ->]. change (lit "") with (@nil Z) in R3. rewrite R3. cbn [res_bind].
  apply bind_inv in E as (c & ? & R4 & E). apply lift_inv in R4 as [R4 ->]. fold (file_text env f2) in R4. rewrite R4. cbn [res_bind].
  apply bind_inv in E as ([] & w2 & E2 & E). injection E2 as <-. exists [(port, set_keys k c sv)]. split; [done|].
  injection N as <- <-. rewrite (sv_services _ _ _ _ S) in E. eapply offer_service_serves; [|exact E]. by apply set_keys_serves, new_service_serves.
Qed.

Lemma adds_when_same (o : option setting) body : (∀ w0 s, keeps_inv (same_streams w0) (body s)) → adds (when_some o body) (Ok []).
Proof. intros K. apply adds_same. intros w0. apply keeps_when, K. Qed.

(** all services *)
Lemma adds_services (root : setting) T : ∀ w w', serves T T T.*2 w → setup_services env root w = Ok ((), w') →
  ∃ E, stream_services env root = Ok E ∧ serves (T ++ E) (T ++ E) (T ++ E).*2 w'.
Proof.
  intros w w' S E. unfold setup_services in E. unfold stream_services.
  pose proof (adds_bind _ _ _ _ (adds_when_same (cfg_lookup root (lit "ntp")) setup_ntp keeps_ntp)
    (adds_bind _ _ _ _ (adds_when_same (cfg_lookup root (lit "vpn")) setup_vpn keeps_vpn)
    (adds_bind _ _ _ _ (adds_when root "http" setup_http http_entry adds_http)
    (adds_bind _ _ _ _ (adds_when root "https" (setup_https env) (https_entry env) adds_https)
    (adds_bind _ _ _ _ (adds_when root "nrpe" _ _ (adds_port nrpe_service 5666))
    (adds_bind _ _ _ _ (adds_when root "vnc" setup_vnc _ adds_vnc)
    (adds_bind _ _ _ _ (adds_when root "mqtt" _ _ (adds_port mqtt_service 1883))
    (adds_bind _ _ _ _ (adds_when_same (cfg_lookup root (lit "sip")) (setup_sip env) keeps_sip)
    (adds_bind _ _ _ _ (adds_when_same (cfg_lookup root (lit "snmp")) setup_snmp keeps_snmp)
    (adds_bind _ _ _ _ (adds_fixed echo_service 7)
    (adds_bind _ _ _ _ (adds_fixed (irc_service local_host) 6667)
    (adds_bind _ _ _ _ (adds_fixed mynetperf_service 55201)
      (adds_when_same (cfg_lookup root (lit "syslog")) setup_syslog keeps_syslog)))))))))))) T w w' S E) as (L & R & S').
  exists L. split; [|exact S']. revert R. do 5 (destruct (entry_of root _ _); cbn [res_bind app]; [|done]). done.
Qed.

Lemma configure_quiet g : no_streams (empty_world g).
Proof. split; [done| |]; intros p tb; unfold tcp_table, sctp_table, deref; by destruct (p <=? 0). Qed.

Lemma configure_serves graph (root : setting) e w : configure env graph root = Ok (e, w) →
  ∃ T, stream_services env root = Ok T ∧ serves T T T.*2 w.
Proof.
  intros C. unfold configure in C. apply bind_inv in C as ([] & w1 & E1 & C). apply bind_inv in C as (v & w2 & E2 & C).
  apply bind_inv in C as ([] & w3 & E3 & C). apply bind_inv in C as ([] & w4 & E4 & C). apply bind_inv in C as ([] & w5 & E5 & C).
  apply bind_inv in C as (? & w6 & E6 & C). apply lift_inv in E6 as [_ ->]. injection C as -> ->.
  assert (Q : no_streams w4).
  { revert E4. apply keeps_step; [|unfold setup_interfaces; keeps_quiet; apply keeps_for_each_from, keeps_interface].
    revert E3. apply keeps_step; [|unfold setup_mdns, clean_application; keeps_quiet].
    revert E2. apply keeps_step; [|unfold read_environment; keeps_quiet].
    revert E1. apply keeps_step; [apply configure_quiet|unfold register_system; keeps_quiet]. }
  apply (adds_services root [] w4 w (quiet_serves _ Q) E5).
Qed.

(** a layer found through a device is one of all layers *)
Lemma in_all_layers (finds : program → Z → option Z) w d i p :
  d ∈ w_devs w → ipv4_of w d = Some i ∨ ipv6_of w d = Some i → finds w i = Some p → p ∈ all_layers finds w.
Proof.
  intros Hd Hi F. unfold all_layers. apply list_elem_of_bind. exists d. split; [|done]. unfold layers_of. apply list_elem_of_omap.
  exists i. split; [|done]. rewrite elem_of_app. destruct Hi as [-> | ->]; [left|right]; by left.
Qed.

(** C18: the services.  Every TCP and every SCTP layer that can be reached through IPv4 or
    IPv6 of any device of the configured program listens exactly on the ports of the services
    the configuration asks for, and a connection to a port gets the first service that was
    set up for it. *)
Theorem services_offered graph (root : setting) e w :
  configure env graph root = Ok (e, w) →
  ∃ T, stream_services env root = Ok T ∧
    ∀ d i, d ∈ w_devs w → ipv4_of w d = Some i ∨ ipv6_of w d = Some i → ∀ port,
      (∀ p t icmp_ n idev, tcp_of w i = Some p → deref (w_transports w) p = Some (Transport (cl_tcp t icmp_ n) idev) →
        (h ← get_listener t port; deref (w_services w) (ph_id h)) = first_service T port) ∧
      (∀ p t icmp_ n idev, sctp_of w i = Some p → deref (w_transports w) p = Some (Transport (cl_sctp t icmp_ n) idev) →
        (h ← sctp_listeners t !! port; deref (w_services w) (sh_id h)) = first_service T port).
Proof.
  intros C. destruct (configure_serves _ _ _ _ C) as (T & R & [V HT HS]). exists T. split; [done|]. intros d i Hd Hi port. split.
  - intros p t icmp_ n idev F D. specialize (HT p (ph_id <$> listeners t) port (in_all_layers _ _ _ _ _ Hd Hi F)).
    unfold tcp_table in HT. rewrite D, lookup_fmap in HT. specialize (HT eq_refl). rewrite <- first_ptr_service, V, <- HT. unfold get_listener.
    by destruct (listeners t !! port).
  - intros p t icmp_ n idev F D. specialize (HS p (sh_id <$> sctp_listeners t) port (in_all_layers _ _ _ _ _ Hd Hi F)).
    unfold sctp_table in HS. rewrite D, lookup_fmap in HS. specialize (HS eq_refl). rewrite <- first_ptr_service, V, <- HS.
    by destruct (sctp_listeners t !! port).
Qed.
End Blocks.
