(* ===== verification/MainExamples.v ===== *)
(** * Configurations (src/main.cpp, src/example.cfg, src/router.cfg)

    The configuration files of the repository as trees, and what [configure] makes of them and
    of small changes to them.  The lemmas of the first part hold for every configuration: what
    an interface must have.  Those about files are computed. *)
From stdpp Require Import strings.
From S2P Require Import Prelude Str Runtime AnyAddr Net AddressCache Ax25 Arp Router SnmpElem SnmpData Dns Phys.
From S2P Require Import Udp Sctp TcpSession Tcp Config Stack Main MainOk MainServices.
Open Scope string_scope.
Open Scope list_scope.
Open Scope Z_scope.

(** ** What an interface must have *)

Section Needs.
Context {setting : Type} `{!Libconfig setting} (env : host setting).

(** "just fine" is never reached: an interface without a name server ends the program, because
    the setting is read as one that is needed *)
Lemma dns_needed (interface : setting) v4 v6 w : cfg_lookup interface (lit "upstream-dns") = None → add_dns interface v4 v6 w = Err exit_failure.
Proof. intros H. unfold add_dns, get_str, mbind, M_bind. by rewrite cfg_str_missing. Qed.

Lemma interface_needs_dns uid gid n (interface : setting) w a w' :
  cfg_lookup interface (lit "upstream-dns") = None → add_interface env uid gid n interface w ≠ Ok (a, w').
Proof.
  intros H E. unfold add_interface in E. do 6 (apply bind_inv in E as (? & ? & _ & E)). apply bind_inv in E as ([dev statics] & ? & _ & E).
  do 5 (apply bind_inv in E as (? & ? & _ & E)). apply bind_inv in E as (dns_ & ? & D & E). by rewrite dns_needed in D.
Qed.

(** a route of an address family the interface does not have is an unset address that is
    copied *)
Lemma route_needs_address network mask gw prio dev a w : route_ipv4 unset_addr network mask gw prio dev a w = Err assert_failed.
Proof. done. Qed.

(** so is the address that LLDP announces for an interface without addresses *)
Lemma lldp_needs_address n dev mac_str my_mac (interface : setting) w :
  cfg_bool interface (lit "enable-lldp") true false = Ok true →
  add_lldp n dev mac_str my_mac unset_addr interface w = Err assert_failed.
Proof. intros H. unfold add_lldp, get_bool, mbind, M_bind, lift. by rewrite H. Qed.
End Needs.

(** ** Files *)

(** a system on which everything can be opened *)
Definition a_host : host cvalue :=
  Host _ (λ _, None) (λ _, true) (λ _, true) (λ _, Some (lit "PEM")) (λ _, true) (λ _ _, true) (λ _, true) (CaptureEnv id (λ _, true)) (λ _, true) 1000.

Definition text (t : string) : cvalue := c_string (lit t).
Definition group (l : list (string * cvalue)) : cvalue := c_group ((λ p, (lit p.1, p.2)) <$> l).

Definition ip_settings (address : string) (more : list (string * cvalue)) : cvalue :=
  group ([("my-address", text address)] ++ more ++
    [("use-icmp", c_bool true); ("use-tcp", c_bool true); ("use-udp", c_bool true); ("use-sctp", c_bool true);
     ("n-icmp-threads", c_int 1); ("n-sctp-threads", c_int 1); ("n-tcp-threads", c_int 8); ("n-udp-threads", c_int 8)]).
Definition route4 (network netmask : string) (more : list (string * cvalue)) : cvalue :=
  group ([("ip-family", text "ipv4"); ("network", text network); ("netmask", text netmask)] ++ more).

Definition log_settings : cvalue := group [("file", text "/home/folkert/myip.log"); ("level_file", text "debug"); ("level_screen", text "debug")].
Definition env_settings : cvalue :=
  group [("chdir-path", text "/tmp"); ("run-as", c_int 0); ("run-in", c_int 0); ("stats-socket", text "/tmp/myipstats.sock"); ("n-router-threads", c_int 2)].

Definition tap_interface : list (string * cvalue) := [
  ("type", text "tap"); ("dev-name", text "myip"); ("mtu-size", c_int 1520); ("enable-lldp", c_bool false); ("n-ipv4-threads", c_int 4);
  ("ipv4", ip_settings "192.168.3.2" [("forwarder", c_bool false)]); ("mac-address", text "52:34:84:16:44:22"); ("n-ipv6-threads", c_int 4);
  ("ipv6", ip_settings "2001:980:c324:4242:f588:20f4:4d4e:7c2d" []); ("upstream-dns", text "172.29.0.1");
  ("routes", c_list [route4 "0.0.0.0" "0.0.0.0" [("gateway", text "192.168.3.1")]; route4 "192.168.3.0" "255.255.255.0" []])].
Definition udp_interface : list (string * cvalue) := [
  ("type", text "udp"); ("port", c_int 9899); ("n-ipv4-threads", c_int 4); ("ipv4", ip_settings "192.168.2.2" []);
  ("mac-address", text "01:01:01:01:01:04"); ("n-ipv6-threads", c_int 4); ("ipv6", ip_settings "2001:980:c324:4242:f588:20f4:4d4e:7c2e" []);
  ("routes", c_list [route4 "192.168.2.0" "255.255.255.0" []])].

Definition web_settings (port : Z) (name : string) (more : list (string * cvalue)) : cvalue :=
  group ([("web-root", text "/home/folkert/Projects/myip/www"); ("web-logfile", text "/home/folkert/temp/http_access.log"); ("port", c_int port)] ++
    more ++ [("mdns", text name); ("php-cgi", text "/usr/bin/php-cgi")]).

(** the settings behind the interfaces of example.cfg *)
Definition example_services : list (string * cvalue) := [
  ("ntp", group [("upstream-ip-address", text "192.168.64.1"); ("port", c_int 123); ("broadcast", c_bool true)]);
  ("http", web_settings 80 "somehost._http._tcp.local." []);
  ("https", web_settings 443 "somehost._https._tcp.local." [("is_https", c_bool true); ("private-key", text "/home/folkert/Projects/myip/my-key.key");
     ("certificate", text "/home/folkert/Projects/myip/cert.crt")]);
  ("nrpe", group [("port", c_int 5666)]);
  ("vnc", group [("port", c_int 5900); ("bind-to-ip-address", text "192.168.3.2")]);
  ("mqtt", group [("port", c_int 1883)]);
  ("sip", group [("sample", text "/home/folkert/Projects/myip/test.wav"); ("mb-path", text "/home/folkert/temp");
     ("mb-recv-script", text "/home/folkert/Projects/myip/mb-recv.sh"); ("upstream-sip-server", text "192.168.64.1"); ("upstream-sip-user", text "1234");
     ("upstream-sip-password", text "1234"); ("sip-register-interval", c_int 15); ("port", c_int 5060)]);
  ("snmp", group [("port", c_int 161)]);
  ("syslog", group [("port", c_int 514)])].

Definition config (interfaces : list (list (string * cvalue))) (services : list (string * cvalue)) : cvalue :=
  group ([("logging", log_settings); ("environment", env_settings); ("interfaces", c_list (group <$> interfaces))] ++ services).

Definition is_ok {A} (r : res A) : bool := match r with Ok _ => true | Err _ => false end.
Definition fails {A} (r : res A) (f : fault) : bool := match r with Ok _ => false | Err g => bool_decide (f = g) end.

(** example.cfg: its second interface has no address of its own *)
Lemma example_cfg_fails : configure a_host [] (config [tap_interface; udp_interface] example_services) = Err exit_failure.
Proof. vm_compute. reflexivity. Qed.

(** with an address it still has no name server *)
Lemma example_cfg_needs_dns :
  configure a_host [] (config [tap_interface; ("ip-address", text "192.168.2.1") :: udp_interface] example_services) = Err exit_failure.
Proof. vm_compute. reflexivity. Qed.

(** router.cfg: no interface has a name server *)
Definition router_interface (dev address mac_ network : string) (more : list (string * cvalue)) : list (string * cvalue) := [
  ("type", text "tap"); ("dev-name", text dev); ("n-ipv4-threads", c_int 4); ("ipv4", ip_settings address [("forwarder", c_bool true)]);
  ("mac-address", text mac_); ("routes", c_list [route4 network "255.255.255.0" more])].

Lemma router_cfg_fails :
  configure a_host [] (config [router_interface "myip" "192.168.3.2" "52:34:84:16:44:22" "192.168.3.0" [];
    router_interface "bla" "192.168.122.9" "52:34:84:16:44:29" "192.168.122.0" [("gateway", text "192.168.122.1")]] []) = Err exit_failure.
Proof. vm_compute. reflexivity. Qed.

(** both additions make example.cfg work *)
Definition working_cfg : cvalue :=
  config [tap_interface; ("ip-address", text "192.168.2.1") :: ("upstream-dns", text "172.29.0.1") :: udp_interface] example_services.
Definition working_world : program := match configure a_host [] working_cfg with Ok (_, w) => w | Err _ => empty_world (new_graphviz []) end.

Lemma working_cfg_ok : is_ok (configure a_host [] working_cfg) = true.
Proof. vm_compute. reflexivity. Qed.

(** the HTTPS server of example.cfg speaks plain HTTP: the file says [is_https], the code reads
    [is-https] *)
Lemma https_is_plain :
  (λ s, match s with http_service _ _ is_https _ _ certificate => Some (is_https, bool_decide (certificate = lit "PEM")) | _ => None end)
    <$> take 2 (w_services working_world) = [Some (false, false); Some (false, true)].
Proof. vm_compute. reflexivity. Qed.

(** the threads of IPv4 are set in the block of the interface and read from the block of
    IPv4: with another number in the file there are still four *)
Definition n_threads_of (w : program) : list Z :=
  omap (λ l, match nl_class l with cl_ipv4 _ _ _ n => Some n | _ => None end) (w_layers w).
Lemma ip_threads_ignored :
  res_map (λ r, n_threads_of r.2)
    (configure a_host [] (config [filter (λ p, p.1 ≠ "n-ipv4-threads") tap_interface ++ [("n-ipv4-threads", c_int 1)]] [])) = Ok [4].
Proof. vm_compute. reflexivity. Qed.

Definition app_kind (a : application) : Z :=
  match a with app_mdns => 0 | app_dns _ _ _ => 1 | app_ntp _ _ _ _ => 2 | app_vpn _ _ _ _ _ _ _ => 3 | app_sip _ _ _ _ _ _ _ _ _ _ => 4
  | app_snmp _ => 5 | app_syslog => 6 end.
(** the kind of the application on a port of every UDP layer *)
Definition udp_handlers (w : program) (port : Z) : list (option Z) :=
  omap (λ t, match tl_class t with cl_udp u _ _ => Some (app_kind <$> (callbacks u !! port ≫= deref (w_apps w))) | _ => None end) (w_transports w).

(** NTP, SIP, SNMP and syslog have the same default port: with NTP and SNMP, and no port in the
    file, datagrams over IPv4 reach NTP only *)
Lemma default_ports_clash :
  res_map (λ r, udp_handlers r.2 123)
    (configure a_host [] (config [tap_interface] [("ntp", group [("upstream-ip-address", text "192.168.64.1")]); ("snmp", group [])])) =
  Ok [Some 2; Some 5].
Proof. vm_compute. reflexivity. Qed.

(** the resolver of the second interface is the one made on the first device, whose port 53
    goes to the resolver of the first interface *)
Lemma second_dns_deaf :
  w_dns4 working_world !! (ipv4, [192; 168; 2; 2]) = Some 3 ∧
  (∃ u a b, deref (w_apps working_world) 3 = Some (app_dns u a b) ∧
    match tl_class <$> deref (w_transports working_world) u with Some (cl_udp v _ _) => callbacks v !! 53 = Some 2 | _ => False end).
Proof. split; [vm_compute; reflexivity|]. do 3 eexists. split; vm_compute; reflexivity. Qed.

(** the syslog server of a device without IPv6 is made and used but not cleaned up *)
Lemma syslog_not_cleaned :
  res_map (λ r, (zlen (w_apps r.2), zlen (w_applications r.2)))
    (configure a_host [] (config [filter (λ p, p.1 ≠ "ipv6") tap_interface] [("syslog", group [])])) = Ok (3, 2).
Proof. vm_compute. reflexivity. Qed.

(** ** The theorems on a configuration *)

Definition web_cfg : cvalue := config [tap_interface] [("http", web_settings 80 "somehost._http._tcp.local." []); ("mqtt", group [("port", c_int 7)])].


(** MQTT was set up on the port of echo before echo *)
Lemma services_offered_witness : ∃ e w T, configure a_host [] web_cfg = Ok (e, w) ∧ stream_services a_host web_cfg = Ok T ∧
  first_service T 7 = Some mqtt_service ∧ first_service T 6667 = Some (irc_service local_host) ∧ first_service T 8 = None ∧
  ∀ d i p t icmp_ n idev, d ∈ w_devs w → ipv4_of w d = Some i → tcp_of w i = Some p →
    deref (w_transports w) p = Some (Transport (cl_tcp t icmp_ n) idev) →
    (h ← get_listener t 7; deref (w_services w) (ph_id h)) = Some mqtt_service.
Proof.
  assert (O : match configure a_host [] web_cfg with Ok (_, w) => true | Err _ => false end = true) by (vm_compute; reflexivity).
  destruct (configure a_host [] web_cfg) as [[e w]|f] eqn:C; [|discriminate O].
  assert (R : match stream_services a_host web_cfg with
    | Ok T => bool_decide (first_service T 7 = Some mqtt_service ∧ first_service T 6667 = Some (irc_service local_host) ∧ first_service T 8 = None)
    | Err _ => false end = true) by (vm_compute; reflexivity).
  destruct (services_offered a_host [] web_cfg e w C) as (T & E & H). rewrite E in R. apply bool_decide_eq_true in R as (R1 & R2 & R3).
  exists e, w, T. split; [reflexivity|]. split; [exact E|]. split; [exact R1|]. split; [exact R2|]. split; [exact R3|].
  intros d i p t icmp_ n idev Hd Hi Hp D. rewrite (proj1 (H d i Hd (or_introl Hi) 7) p t icmp_ n idev Hp D). exact R1.
Defined.
