(* ===== verification/Font.v ===== *)
(** * The table of glyphs (src/font.cpp, src/font.h)

    [font_8x8]: a glyph of eight rows of eight bytes for each of the characters 0 to 127, in
    pieces of thirteen glyphs.  The initialiser of the array has 127 glyphs: the language
    fills the last one with zeros. *)
From S2P Require Import Prelude.
Open Scope Z_scope.

(** characters 0 to 12 *)
Definition font_000 : list (list (list Z)) := [
  [
    [0; 0; 0; 0; 0; 0; 0; 0];
    [0; 0; 0; 0; 0; 0; 0; 0];
    [0; 0; 0; 0; 0; 0; 0; 0];
    [0; 0; 0; 0; 0; 0; 0; 0];
    [0; 0; 0; 0; 0; 0; 0; 0];
    [0; 0; 0; 0; 0; 0; 0; 0];
    [0; 0; 0; 0; 0; 0; 0; 0];
    [0; 0; 0; 0; 0; 0; 0; 0]
  ];
  [
    [0; 0; 255; 255; 255; 255; 0; 0];
    [0; 255; 0; 0; 0; 0; 255; 0];
    [255; 0; 255; 0; 0; 255; 0; 255];
    [255; 0; 0; 0; 0; 0; 0; 255];
    [255; 0; 255; 0; 0; 255; 0; 255];
    [255; 0; 0; 255; 255; 0; 0; 255];
    [0; 255; 0; 0; 0; 0; 255; 0];
    [0; 0; 255; 255; 255; 255; 0; 0]
  ];
  [
    [0; 0; 255; 255; 255; 255; 0; 0];
    [0; 255; 255; 255; 255; 255; 255; 0];
    [255; 255; 0; 255; 255; 0; 255; 255];
    [255; 255; 255; 255; 255; 255; 255; 255];
    [255; 255; 255; 255; 255; 255; 255; 255];
    [255; 255; 0; 255; 255; 0; 255; 255];
    [0; 255; 255; 0; 0; 255; 255; 0];
    [0; 0; 255; 255; 255; 255; 0; 0]
  ];
  [
    [0; 255; 255; 0; 255; 255; 0; 0];
    [255; 255; 255; 255; 255; 255; 255; 0];
    [255; 255; 255; 255; 255; 255; 255; 0];
    [255; 255; 255; 255; 255; 255; 255; 0];
    [0; 255; 255; 255; 255; 255; 0; 0];
    [0; 0; 255; 255; 255; 0; 0; 0];
    [0; 0; 0; 255; 0; 0; 0; 0];
    [0; 0; 0; 0; 0; 0; 0; 0]
  ];
  [
    [0; 0; 0; 255; 0; 0; 0; 0];
    [0; 0; 255; 255; 255; 0; 0; 0];
    [0; 255; 255; 255; 255; 255; 0; 0];
    [255; 255; 255; 255; 255; 255; 255; 0];
    [0; 255; 255; 255; 255; 255; 0; 0];
    [0; 0; 255; 255; 255; 0; 0; 0];
    [0; 0; 0; 255; 0; 0; 0; 0];
    [0; 0; 0; 0; 0; 0; 0; 0]
  ];
  [
    [0; 0; 0; 255; 0; 0; 0; 0];
    [0; 0; 255; 255; 255; 0; 0; 0];
    [0; 255; 0; 255; 0; 255; 0; 0];
    [255; 255; 255; 255; 255; 255; 255; 0];
    [0; 255; 0; 255; 0; 255; 0; 0];
    [0; 0; 0; 255; 0; 0; 0; 0];
    [0; 0; 255; 255; 255; 0; 0; 0];
    [0; 0; 0; 0; 0; 0; 0; 0]
  ];
  [
    [0; 0; 0; 255; 0; 0; 0; 0];
    [0; 0; 255; 255; 255; 0; 0; 0];
    [0; 255; 255; 255; 255; 255; 0; 0];
    [255; 255; 255; 255; 255; 255; 255; 0];
    [255; 255; 255; 255; 255; 255; 255; 0];
    [0; 0; 0; 255; 0; 0; 0; 0];
    [0; 0; 255; 255; 255; 0; 0; 0];
    [0; 0; 0; 0; 0; 0; 0; 0]
  ];
  [
    [0; 0; 0; 0; 0; 0; 0; 0];
    [0; 0; 0; 0; 0; 0; 0; 0];
    [0; 0; 0; 0; 0; 0; 0; 0];
    [0; 0; 255; 255; 0; 0; 0; 0];
    [0; 0; 255; 255; 0; 0; 0; 0];
    [0; 0; 0; 0; 0; 0; 0; 0];
    [0; 0; 0; 0; 0; 0; 0; 0];
    [0; 0; 0; 0; 0; 0; 0; 0]
  ];
  [
    [255; 255; 255; 255; 255; 255; 255; 255];
    [255; 255; 255; 255; 255; 255; 255; 255];
    [255; 255; 255; 255; 255; 255; 255; 255];
    [255; 255; 255; 0; 0; 255; 255; 255];
    [255; 255; 255; 0; 0; 255; 255; 255];
    [255; 255; 255; 255; 255; 255; 255; 255];
    [255; 255; 255; 255; 255; 255; 255; 255];
    [255; 255; 255; 255; 255; 255; 255; 255]
  ];
  [
    [0; 0; 255; 255; 255; 0; 0; 0];
    [0; 255; 0; 0; 0; 255; 0; 0];
    [255; 0; 0; 0; 0; 0; 255; 0];
    [255; 0; 0; 0; 0; 0; 255; 0];
    [255; 0; 0; 0; 0; 0; 255; 0];
    [0; 255; 0; 0; 0; 255; 0; 0];
    [0; 0; 255; 255; 255; 0; 0; 0];
    [0; 0; 0; 0; 0; 0; 0; 0]
  ];
  [
    [255; 255; 0; 0; 0; 255; 255; 255];
    [255; 0; 255; 255; 255; 0; 255; 255];
    [0; 255; 255; 255; 255; 255; 0; 255];
    [0; 255; 255; 255; 255; 255; 0; 255];
    [0; 255; 255; 255; 255; 255; 0; 255];
    [255; 0; 255; 255; 255; 0; 255; 255];
    [255; 255; 0; 0; 0; 255; 255; 255];
    [255; 255; 255; 255; 255; 255; 255; 255]
  ];
  [
    [0; 0; 0; 0; 255; 255; 255; 255];
    [0; 0; 0; 0; 0; 0; 255; 255];
    [0; 0; 0; 0; 0; 255; 0; 255];
    [0; 255; 255; 255; 255; 0; 0; 255];
    [255; 0; 0; 0; 255; 0; 0; 0];
    [255; 0; 0; 0; 255; 0; 0; 0];
    [255; 0; 0; 0; 255; 0; 0; 0];
    [0; 255; 255; 255; 0; 0; 0; 0]
  ];
  [
    [0; 0; 255; 255; 255; 0; 0; 0];
    [0; 255; 0; 0; 0; 255; 0; 0];
    [0; 255; 0; 0; 0; 255; 0; 0];
    [0; 255; 0; 0; 0; 255; 0; 0];
    [0; 0; 255; 255; 255; 0; 0; 0];
    [0; 0; 0; 255; 0; 0; 0; 0];
    [0; 255; 255; 255; 255; 255; 0; 0];
    [0; 0; 0; 255; 0; 0; 0; 0]
  ]
].

(** characters 13 to 25 *)
Definition font_013 : list (list (list Z)) := [
  [
    [0; 0; 255; 255; 0; 0; 0; 0];
    [0; 0; 255; 0; 255; 0; 0; 0];
    [0; 0; 255; 0; 0; 255; 0; 0];
    [0; 0; 255; 0; 0; 255; 0; 0];
    [0; 0; 255; 0; 255; 0; 0; 0];
    [0; 0; 255; 0; 0; 0; 0; 0];
    [255; 255; 255; 0; 0; 0; 0; 0];
    [255; 255; 0; 0; 0; 0; 0; 0]
  ];
  [
    [0; 0; 255; 255; 255; 255; 0; 0];
    [0; 0; 255; 0; 0; 255; 0; 0];
    [0; 0; 255; 255; 255; 255; 0; 0];
    [0; 0; 255; 0; 0; 255; 0; 0];
    [0; 0; 255; 0; 0; 255; 0; 0];
    [255; 255; 255; 0; 0; 255; 0; 0];
    [255; 255; 0; 255; 255; 255; 0; 0];
    [0; 0; 0; 255; 255; 0; 0; 0]
  ];
  [
    [0; 0; 0; 255; 0; 0; 0; 0];
    [0; 255; 0; 255; 0; 255; 0; 0];
    [0; 0; 255; 255; 255; 0; 0; 0];
    [255; 255; 255; 0; 255; 255; 255; 0];
    [0; 0; 255; 255; 255; 0; 0; 0];
    [0; 255; 0; 255; 0; 255; 0; 0];
    [0; 0; 0; 255; 0; 0; 0; 0];
    [0; 0; 0; 0; 0; 0; 0; 0]
  ];
  [
    [0; 0; 0; 255; 0; 0; 0; 0];
    [0; 0; 0; 255; 0; 0; 0; 0];
    [0; 0; 0; 255; 0; 0; 0; 0];
    [0; 255; 255; 255; 255; 255; 0; 0];
    [0; 0; 0; 255; 0; 0; 0; 0];
    [0; 0; 0; 255; 0; 0; 0; 0];
    [0; 0; 0; 255; 0; 0; 0; 0];
    [0; 0; 0; 255; 0; 0; 0; 0]
  ];
  [
    [0; 0; 0; 255; 0; 0; 0; 0];
    [0; 0; 0; 255; 0; 0; 0; 0];
    [0; 0; 0; 255; 0; 0; 0; 0];
    [255; 255; 255; 255; 255; 255; 255; 255];
    [0; 0; 0; 0; 0; 0; 0; 0];
    [0; 0; 0; 0; 0; 0; 0; 0];
    [0; 0; 0; 0; 0; 0; 0; 0];
    [0; 0; 0; 0; 0; 0; 0; 0]
  ];
  [
    [0; 0; 0; 0; 0; 0; 0; 0];
    [0; 0; 0; 0; 0; 0; 0; 0];
    [0; 0; 0; 0; 0; 0; 0; 0];
    [255; 255; 255; 255; 255; 255; 255; 255];
    [0; 0; 0; 255; 0; 0; 0; 0];
    [0; 0; 0; 255; 0; 0; 0; 0];
    [0; 0; 0; 255; 0; 0; 0; 0];
    [0; 0; 0; 255; 0; 0; 0; 0]
  ];
  [
    [0; 0; 0; 255; 0; 0; 0; 0];
    [0; 0; 0; 255; 0; 0; 0; 0];
    [0; 0; 0; 255; 0; 0; 0; 0];
    [255; 255; 255; 255; 0; 0; 0; 0];
    [0; 0; 0; 255; 0; 0; 0; 0];
    [0; 0; 0; 255; 0; 0; 0; 0];
    [0; 0; 0; 255; 0; 0; 0; 0];
    [0; 0; 0; 255; 0; 0; 0; 0]
  ];
  [
    [0; 0; 0; 255; 0; 0; 0; 0];
    [0; 0; 0; 255; 0; 0; 0; 0];
    [0; 0; 0; 255; 0; 0; 0; 0];
    [0; 0; 0; 255; 255; 255; 255; 255];
    [0; 0; 0; 255; 0; 0; 0; 0];
    [0; 0; 0; 255; 0; 0; 0; 0];
    [0; 0; 0; 255; 0; 0; 0; 0];
    [0; 0; 0; 255; 0; 0; 0; 0]
  ];
  [
    [0; 0; 0; 255; 0; 0; 0; 0];
    [0; 0; 0; 255; 0; 0; 0; 0];
    [0; 0; 0; 255; 0; 0; 0; 0];
    [255; 255; 255; 255; 255; 255; 255; 255];
    [0; 0; 0; 255; 0; 0; 0; 0];
    [0; 0; 0; 255; 0; 0; 0; 0];
    [0; 0; 0; 255; 0; 0; 0; 0];
    [0; 0; 0; 255; 0; 0; 0; 0]
  ];
  [
    [0; 0; 0; 255; 0; 0; 0; 0];
    [0; 0; 0; 255; 0; 0; 0; 0];
    [0; 0; 0; 255; 0; 0; 0; 0];
    [0; 0; 0; 255; 0; 0; 0; 0];
    [0; 0; 0; 255; 0; 0; 0; 0];
    [0; 0; 0; 255; 0; 0; 0; 0];
    [0; 0; 0; 255; 0; 0; 0; 0];
    [0; 0; 0; 255; 0; 0; 0; 0]
  ];
  [
    [0; 0; 0; 0; 0; 0; 0; 0];
    [0; 0; 0; 0; 0; 0; 0; 0];
    [0; 0; 0; 0; 0; 0; 0; 0];
    [255; 255; 255; 255; 255; 255; 255; 255];
    [0; 0; 0; 0; 0; 0; 0; 0];
    [0; 0; 0; 0; 0; 0; 0; 0];
    [0; 0; 0; 0; 0; 0; 0; 0];
    [0; 0; 0; 0; 0; 0; 0; 0]
  ];
  [
    [0; 0; 0; 0; 0; 0; 0; 0];
    [0; 0; 0; 0; 0; 0; 0; 0];
    [0; 0; 0; 0; 0; 0; 0; 0];
    [0; 0; 0; 255; 255; 255; 255; 255];
    [0; 0; 0; 255; 0; 0; 0; 0];
    [0; 0; 0; 255; 0; 0; 0; 0];
    [0; 0; 0; 255; 0; 0; 0; 0];
    [0; 0; 0; 255; 0; 0; 0; 0]
  ];
  [
    [0; 0; 0; 0; 0; 0; 0; 0];
    [0; 0; 0; 0; 0; 0; 0; 0];
    [0; 0; 0; 0; 0; 0; 0; 0];
    [255; 255; 255; 255; 0; 0; 0; 0];
    [0; 0; 0; 255; 0; 0; 0; 0];
    [0; 0; 0; 255; 0; 0; 0; 0];
    [0; 0; 0; 255; 0; 0; 0; 0];
    [0; 0; 0; 255; 0; 0; 0; 0]
  ]
].

(** characters 26 to 38 *)
Definition font_026 : list (list (list Z)) := [
  [
    [0; 0; 0; 255; 0; 0; 0; 0];
    [0; 0; 0; 255; 0; 0; 0; 0];
    [0; 0; 0; 255; 0; 0; 0; 0];
    [0; 0; 0; 255; 255; 255; 255; 255];
    [0; 0; 0; 0; 0; 0; 0; 0];
    [0; 0; 0; 0; 0; 0; 0; 0];
    [0; 0; 0; 0; 0; 0; 0; 0];
    [0; 0; 0; 0; 0; 0; 0; 0]
  ];
  [
    [0; 0; 0; 255; 0; 0; 0; 0];
    [0; 0; 0; 255; 0; 0; 0; 0];
    [0; 0; 0; 255; 0; 0; 0; 0];
    [255; 255; 255; 255; 0; 0; 0; 0];
    [0; 0; 0; 0; 0; 0; 0; 0];
    [0; 0; 0; 0; 0; 0; 0; 0];
    [0; 0; 0; 0; 0; 0; 0; 0];
    [0; 0; 0; 0; 0; 0; 0; 0]
  ];
  [
    [255; 0; 0; 0; 0; 0; 0; 255];
    [0; 255; 0; 0; 0; 0; 255; 0];
    [0; 0; 255; 0; 0; 255; 0; 0];
    [0; 0; 0; 255; 255; 0; 0; 0];
    [0; 0; 0; 255; 255; 0; 0; 0];
    [0; 0; 255; 0; 0; 255; 0; 0];
    [0; 255; 0; 0; 0; 0; 255; 0];
    [255; 0; 0; 0; 0; 0; 0; 255]
  ];
  [
    [0; 0; 0; 0; 0; 0; 0; 255];
    [0; 0; 0; 0; 0; 0; 255; 0];
    [0; 0; 0; 0; 0; 255; 0; 0];
    [0; 0; 0; 0; 255; 0; 0; 0];
    [0; 0; 0; 255; 0; 0; 0; 0];
    [0; 0; 255; 0; 0; 0; 0; 0];
    [0; 255; 0; 0; 0; 0; 0; 0];
    [255; 0; 0; 0; 0; 0; 0; 0]
  ];
  [
    [255; 0; 0; 0; 0; 0; 0; 0];
    [0; 255; 0; 0; 0; 0; 0; 0];
    [0; 0; 255; 0; 0; 0; 0; 0];
    [0; 0; 0; 255; 0; 0; 0; 0];
    [0; 0; 0; 0; 255; 0; 0; 0];
    [0; 0; 0; 0; 0; 255; 0; 0];
    [0; 0; 0; 0; 0; 0; 255; 0];
    [0; 0; 0; 0; 0; 0; 0; 255]
  ];
  [
    [0; 0; 0; 0; 0; 0; 0; 0];
    [0; 0; 0; 255; 0; 0; 0; 0];
    [0; 0; 0; 255; 0; 0; 0; 0];
    [255; 255; 255; 255; 255; 255; 255; 255];
    [0; 0; 0; 255; 0; 0; 0; 0];
    [0; 0; 0; 255; 0; 0; 0; 0];
    [0; 0; 0; 0; 0; 0; 0; 0];
    [0; 0; 0; 0; 0; 0; 0; 0]
  ];
  [
    [0; 0; 0; 0; 0; 0; 0; 0];
    [0; 0; 0; 0; 0; 0; 0; 0];
    [0; 0; 0; 0; 0; 0; 0; 0];
    [0; 0; 0; 0; 0; 0; 0; 0];
    [0; 0; 0; 0; 0; 0; 0; 0];
    [0; 0; 0; 0; 0; 0; 0; 0];
    [0; 0; 0; 0; 0; 0; 0; 0];
    [0; 0; 0; 0; 0; 0; 0; 0]
  ];
  [
    [0; 0; 255; 0; 0; 0; 0; 0];
    [0; 0; 255; 0; 0; 0; 0; 0];
    [0; 0; 255; 0; 0; 0; 0; 0];
    [0; 0; 255; 0; 0; 0; 0; 0];
    [0; 0; 0; 0; 0; 0; 0; 0];
    [0; 0; 0; 0; 0; 0; 0; 0];
    [0; 0; 255; 0; 0; 0; 0; 0];
    [0; 0; 0; 0; 0; 0; 0; 0]
  ];
  [
    [0; 255; 0; 255; 0; 0; 0; 0];
    [0; 255; 0; 255; 0; 0; 0; 0];
    [0; 255; 0; 255; 0; 0; 0; 0];
    [0; 0; 0; 0; 0; 0; 0; 0];
    [0; 0; 0; 0; 0; 0; 0; 0];
    [0; 0; 0; 0; 0; 0; 0; 0];
    [0; 0; 0; 0; 0; 0; 0; 0];
    [0; 0; 0; 0; 0; 0; 0; 0]
  ];
  [
    [0; 255; 0; 255; 0; 0; 0; 0];
    [0; 255; 0; 255; 0; 0; 0; 0];
    [255; 255; 255; 255; 255; 0; 0; 0];
    [0; 255; 0; 255; 0; 0; 0; 0];
    [255; 255; 255; 255; 255; 0; 0; 0];
    [0; 255; 0; 255; 0; 0; 0; 0];
    [0; 255; 0; 255; 0; 0; 0; 0];
    [0; 0; 0; 0; 0; 0; 0; 0]
  ];
  [
    [0; 0; 255; 0; 0; 0; 0; 0];
    [0; 255; 255; 255; 255; 0; 0; 0];
    [255; 0; 255; 0; 0; 0; 0; 0];
    [0; 255; 255; 255; 0; 0; 0; 0];
    [0; 0; 255; 0; 255; 0; 0; 0];
    [255; 255; 255; 255; 0; 0; 0; 0];
    [0; 0; 255; 0; 0; 0; 0; 0];
    [0; 0; 0; 0; 0; 0; 0; 0]
  ];
  [
    [255; 255; 0; 0; 0; 0; 0; 0];
    [255; 255; 0; 0; 255; 0; 0; 0];
    [0; 0; 0; 255; 0; 0; 0; 0];
    [0; 0; 255; 0; 0; 0; 0; 0];
    [0; 255; 0; 0; 0; 0; 0; 0];
    [255; 0; 0; 255; 255; 0; 0; 0];
    [0; 0; 0; 255; 255; 0; 0; 0];
    [0; 0; 0; 0; 0; 0; 0; 0]
  ];
  [
    [0; 255; 0; 0; 0; 0; 0; 0];
    [255; 0; 255; 0; 0; 0; 0; 0];
    [0; 255; 0; 0; 0; 0; 0; 0];
    [255; 0; 255; 0; 255; 0; 0; 0];
    [255; 0; 0; 255; 0; 0; 0; 0];
    [255; 0; 0; 255; 255; 0; 0; 0];
    [0; 255; 255; 0; 0; 0; 0; 0];
    [0; 0; 0; 0; 0; 0; 0; 0]
  ]
].

(** characters 39 to 51 *)
Definition font_039 : list (list (list Z)) := [
  [
    [0; 0; 0; 255; 0; 0; 0; 0];
    [0; 0; 255; 0; 0; 0; 0; 0];
    [0; 255; 0; 0; 0; 0; 0; 0];
    [0; 0; 0; 0; 0; 0; 0; 0];
    [0; 0; 0; 0; 0; 0; 0; 0];
    [0; 0; 0; 0; 0; 0; 0; 0];
    [0; 0; 0; 0; 0; 0; 0; 0];
    [0; 0; 0; 0; 0; 0; 0; 0]
  ];
  [
    [0; 0; 0; 255; 0; 0; 0; 0];
    [0; 0; 255; 0; 0; 0; 0; 0];
    [0; 255; 0; 0; 0; 0; 0; 0];
    [0; 255; 0; 0; 0; 0; 0; 0];
    [0; 255; 0; 0; 0; 0; 0; 0];
    [0; 0; 255; 0; 0; 0; 0; 0];
    [0; 0; 0; 255; 0; 0; 0; 0];
    [0; 0; 0; 0; 0; 0; 0; 0]
  ];
  [
    [0; 255; 0; 0; 0; 0; 0; 0];
    [0; 0; 255; 0; 0; 0; 0; 0];
    [0; 0; 0; 255; 0; 0; 0; 0];
    [0; 0; 0; 255; 0; 0; 0; 0];
    [0; 0; 0; 255; 0; 0; 0; 0];
    [0; 0; 255; 0; 0; 0; 0; 0];
    [0; 255; 0; 0; 0; 0; 0; 0];
    [0; 0; 0; 0; 0; 0; 0; 0]
  ];
  [
    [0; 0; 255; 0; 0; 0; 0; 0];
    [255; 0; 255; 0; 255; 0; 0; 0];
    [0; 255; 255; 255; 0; 0; 0; 0];
    [0; 0; 255; 0; 0; 0; 0; 0];
    [0; 255; 255; 255; 0; 0; 0; 0];
    [255; 0; 255; 0; 255; 0; 0; 0];
    [0; 0; 255; 0; 0; 0; 0; 0];
    [0; 0; 0; 0; 0; 0; 0; 0]
  ];
  [
    [0; 0; 0; 0; 0; 0; 0; 0];
    [0; 0; 255; 0; 0; 0; 0; 0];
    [0; 0; 255; 0; 0; 0; 0; 0];
    [255; 255; 255; 255; 255; 0; 0; 0];
    [0; 0; 255; 0; 0; 0; 0; 0];
    [0; 0; 255; 0; 0; 0; 0; 0];
    [0; 0; 0; 0; 0; 0; 0; 0];
    [0; 0; 0; 0; 0; 0; 0; 0]
  ];
  [
    [0; 0; 0; 0; 0; 0; 0; 0];
    [0; 0; 0; 0; 0; 0; 0; 0];
    [0; 0; 0; 0; 0; 0; 0; 0];
    [0; 0; 0; 0; 0; 0; 0; 0];
    [0; 0; 0; 0; 0; 0; 0; 0];
    [0; 0; 255; 0; 0; 0; 0; 0];
    [0; 0; 255; 0; 0; 0; 0; 0];
    [0; 255; 0; 0; 0; 0; 0; 0]
  ];
  [
    [0; 0; 0; 0; 0; 0; 0; 0];
    [0; 0; 0; 0; 0; 0; 0; 0];
    [0; 0; 0; 0; 0; 0; 0; 0];
    [0; 255; 255; 255; 255; 0; 0; 0];
    [0; 0; 0; 0; 0; 0; 0; 0];
    [0; 0; 0; 0; 0; 0; 0; 0];
    [0; 0; 0; 0; 0; 0; 0; 0];
    [0; 0; 0; 0; 0; 0; 0; 0]
  ];
  [
    [0; 0; 0; 0; 0; 0; 0; 0];
    [0; 0; 0; 0; 0; 0; 0; 0];
    [0; 0; 0; 0; 0; 0; 0; 0];
    [0; 0; 0; 0; 0; 0; 0; 0];
    [0; 0; 0; 0; 0; 0; 0; 0];
    [0; 255; 255; 0; 0; 0; 0; 0];
    [0; 255; 255; 0; 0; 0; 0; 0];
    [0; 0; 0; 0; 0; 0; 0; 0]
  ];
  [
    [0; 0; 0; 0; 0; 0; 0; 0];
    [0; 0; 0; 0; 0; 0; 0; 0];
    [0; 0; 0; 0; 255; 0; 0; 0];
    [0; 0; 0; 255; 0; 0; 0; 0];
    [0; 0; 255; 0; 0; 0; 0; 0];
    [0; 255; 0; 0; 0; 0; 0; 0];
    [255; 0; 0; 0; 0; 0; 0; 0];
    [0; 0; 0; 0; 0; 0; 0; 0]
  ];
  [
    [0; 255; 255; 255; 0; 0; 0; 0];
    [255; 0; 0; 0; 255; 0; 0; 0];
    [255; 0; 0; 255; 255; 0; 0; 0];
    [255; 0; 255; 0; 255; 0; 0; 0];
    [255; 255; 0; 0; 255; 0; 0; 0];
    [255; 0; 0; 0; 255; 0; 0; 0];
    [0; 255; 255; 255; 0; 0; 0; 0];
    [0; 0; 0; 0; 0; 0; 0; 0]
  ];
  [
    [0; 0; 255; 0; 0; 0; 0; 0];
    [0; 255; 255; 0; 0; 0; 0; 0];
    [255; 0; 255; 0; 0; 0; 0; 0];
    [0; 0; 255; 0; 0; 0; 0; 0];
    [0; 0; 255; 0; 0; 0; 0; 0];
    [0; 0; 255; 0; 0; 0; 0; 0];
    [255; 255; 255; 255; 255; 0; 0; 0];
    [0; 0; 0; 0; 0; 0; 0; 0]
  ];
  [
    [0; 255; 255; 255; 0; 0; 0; 0];
    [255; 0; 0; 0; 255; 0; 0; 0];
    [0; 0; 0; 0; 255; 0; 0; 0];
    [0; 0; 0; 255; 0; 0; 0; 0];
    [0; 255; 255; 0; 0; 0; 0; 0];
    [255; 0; 0; 0; 0; 0; 0; 0];
    [255; 255; 255; 255; 255; 0; 0; 0];
    [0; 0; 0; 0; 0; 0; 0; 0]
  ];
  [
    [0; 255; 255; 255; 0; 0; 0; 0];
    [255; 0; 0; 0; 255; 0; 0; 0];
    [0; 0; 0; 0; 255; 0; 0; 0];
    [0; 0; 255; 255; 0; 0; 0; 0];
    [0; 0; 0; 0; 255; 0; 0; 0];
    [255; 0; 0; 0; 255; 0; 0; 0];
    [0; 255; 255; 255; 0; 0; 0; 0];
    [0; 0; 0; 0; 0; 0; 0; 0]
  ]
].

(** characters 52 to 64 *)
Definition font_052 : list (list (list Z)) := [
  [
    [0; 0; 0; 255; 0; 0; 0; 0];
    [0; 0; 255; 255; 0; 0; 0; 0];
    [0; 255; 0; 255; 0; 0; 0; 0];
    [255; 0; 0; 255; 0; 0; 0; 0];
    [255; 255; 255; 255; 255; 0; 0; 0];
    [0; 0; 0; 255; 0; 0; 0; 0];
    [0; 0; 0; 255; 0; 0; 0; 0];
    [0; 0; 0; 0; 0; 0; 0; 0]
  ];
  [
    [255; 255; 255; 255; 255; 0; 0; 0];
    [255; 0; 0; 0; 0; 0; 0; 0];
    [255; 255; 255; 0; 0; 0; 0; 0];
    [0; 0; 0; 255; 0; 0; 0; 0];
    [0; 0; 0; 0; 255; 0; 0; 0];
    [0; 0; 0; 255; 0; 0; 0; 0];
    [255; 255; 255; 0; 0; 0; 0; 0];
    [0; 0; 0; 0; 0; 0; 0; 0]
  ];
  [
    [0; 0; 255; 255; 0; 0; 0; 0];
    [0; 255; 0; 0; 0; 0; 0; 0];
    [255; 0; 0; 0; 0; 0; 0; 0];
    [255; 255; 255; 255; 0; 0; 0; 0];
    [255; 0; 0; 0; 255; 0; 0; 0];
    [255; 0; 0; 0; 255; 0; 0; 0];
    [0; 255; 255; 255; 0; 0; 0; 0];
    [0; 0; 0; 0; 0; 0; 0; 0]
  ];
  [
    [255; 255; 255; 255; 255; 0; 0; 0];
    [255; 0; 0; 0; 255; 0; 0; 0];
    [0; 0; 0; 255; 0; 0; 0; 0];
    [0; 0; 255; 0; 0; 0; 0; 0];
    [0; 0; 255; 0; 0; 0; 0; 0];
    [0; 0; 255; 0; 0; 0; 0; 0];
    [0; 0; 255; 0; 0; 0; 0; 0];
    [0; 0; 0; 0; 0; 0; 0; 0]
  ];
  [
    [0; 255; 255; 255; 0; 0; 0; 0];
    [255; 0; 0; 0; 255; 0; 0; 0];
    [255; 0; 0; 0; 255; 0; 0; 0];
    [0; 255; 255; 255; 0; 0; 0; 0];
    [255; 0; 0; 0; 255; 0; 0; 0];
    [255; 0; 0; 0; 255; 0; 0; 0];
    [0; 255; 255; 255; 0; 0; 0; 0];
    [0; 0; 0; 0; 0; 0; 0; 0]
  ];
  [
    [0; 255; 255; 255; 0; 0; 0; 0];
    [255; 0; 0; 0; 255; 0; 0; 0];
    [255; 0; 0; 0; 255; 0; 0; 0];
    [0; 255; 255; 255; 255; 0; 0; 0];
    [0; 0; 0; 0; 255; 0; 0; 0];
    [0; 0; 0; 255; 0; 0; 0; 0];
    [0; 255; 255; 0; 0; 0; 0; 0];
    [0; 0; 0; 0; 0; 0; 0; 0]
  ];
  [
    [0; 0; 0; 0; 0; 0; 0; 0];
    [0; 0; 0; 0; 0; 0; 0; 0];
    [0; 0; 255; 0; 0; 0; 0; 0];
    [0; 0; 0; 0; 0; 0; 0; 0];
    [0; 0; 0; 0; 0; 0; 0; 0];
    [0; 0; 255; 0; 0; 0; 0; 0];
    [0; 0; 0; 0; 0; 0; 0; 0];
    [0; 0; 0; 0; 0; 0; 0; 0]
  ];
  [
    [0; 0; 0; 0; 0; 0; 0; 0];
    [0; 0; 0; 0; 0; 0; 0; 0];
    [0; 0; 255; 0; 0; 0; 0; 0];
    [0; 0; 0; 0; 0; 0; 0; 0];
    [0; 0; 0; 0; 0; 0; 0; 0];
    [0; 0; 255; 0; 0; 0; 0; 0];
    [0; 0; 255; 0; 0; 0; 0; 0];
    [0; 255; 0; 0; 0; 0; 0; 0]
  ];
  [
    [0; 0; 0; 255; 255; 0; 0; 0];
    [0; 0; 255; 255; 0; 0; 0; 0];
    [0; 255; 255; 0; 0; 0; 0; 0];
    [255; 255; 0; 0; 0; 0; 0; 0];
    [0; 255; 255; 0; 0; 0; 0; 0];
    [0; 0; 255; 255; 0; 0; 0; 0];
    [0; 0; 0; 255; 255; 0; 0; 0];
    [0; 0; 0; 0; 0; 0; 0; 0]
  ];
  [
    [0; 0; 0; 0; 0; 0; 0; 0];
    [0; 0; 0; 0; 0; 0; 0; 0];
    [255; 255; 255; 255; 255; 0; 0; 0];
    [0; 0; 0; 0; 0; 0; 0; 0];
    [255; 255; 255; 255; 255; 0; 0; 0];
    [0; 0; 0; 0; 0; 0; 0; 0];
    [0; 0; 0; 0; 0; 0; 0; 0];
    [0; 0; 0; 0; 0; 0; 0; 0]
  ];
  [
    [255; 255; 0; 0; 0; 0; 0; 0];
    [0; 255; 255; 0; 0; 0; 0; 0];
    [0; 0; 255; 255; 0; 0; 0; 0];
    [0; 0; 0; 255; 255; 0; 0; 0];
    [0; 0; 255; 255; 0; 0; 0; 0];
    [0; 255; 255; 0; 0; 0; 0; 0];
    [255; 255; 0; 0; 0; 0; 0; 0];
    [0; 0; 0; 0; 0; 0; 0; 0]
  ];
  [
    [0; 255; 255; 255; 0; 0; 0; 0];
    [255; 0; 0; 0; 255; 0; 0; 0];
    [0; 0; 0; 0; 255; 0; 0; 0];
    [0; 0; 0; 255; 0; 0; 0; 0];
    [0; 0; 255; 0; 0; 0; 0; 0];
    [0; 0; 0; 0; 0; 0; 0; 0];
    [0; 0; 255; 0; 0; 0; 0; 0];
    [0; 0; 0; 0; 0; 0; 0; 0]
  ];
  [
    [0; 255; 255; 255; 0; 0; 0; 0];
    [255; 0; 0; 0; 255; 0; 0; 0];
    [0; 0; 0; 0; 255; 0; 0; 0];
    [0; 255; 255; 0; 255; 0; 0; 0];
    [255; 0; 255; 0; 255; 0; 0; 0];
    [255; 0; 255; 0; 255; 0; 0; 0];
    [0; 255; 255; 255; 0; 0; 0; 0];
    [0; 0; 0; 0; 0; 0; 0; 0]
  ]
].

(** characters 65 to 77 *)
Definition font_065 : list (list (list Z)) := [
  [
    [0; 0; 255; 0; 0; 0; 0; 0];
    [0; 255; 0; 255; 0; 0; 0; 0];
    [255; 0; 0; 0; 255; 0; 0; 0];
    [255; 0; 0; 0; 255; 0; 0; 0];
    [255; 255; 255; 255; 255; 0; 0; 0];
    [255; 0; 0; 0; 255; 0; 0; 0];
    [255; 0; 0; 0; 255; 0; 0; 0];
    [0; 0; 0; 0; 0; 0; 0; 0]
  ];
  [
    [255; 255; 255; 255; 0; 0; 0; 0];
    [0; 255; 0; 0; 255; 0; 0; 0];
    [0; 255; 0; 0; 255; 0; 0; 0];
    [0; 255; 255; 255; 0; 0; 0; 0];
    [0; 255; 0; 0; 255; 0; 0; 0];
    [0; 255; 0; 0; 255; 0; 0; 0];
    [255; 255; 255; 255; 0; 0; 0; 0];
    [0; 0; 0; 0; 0; 0; 0; 0]
  ];
  [
    [0; 0; 255; 255; 0; 0; 0; 0];
    [0; 255; 0; 0; 255; 0; 0; 0];
    [255; 0; 0; 0; 0; 0; 0; 0];
    [255; 0; 0; 0; 0; 0; 0; 0];
    [255; 0; 0; 0; 0; 0; 0; 0];
    [0; 255; 0; 0; 255; 0; 0; 0];
    [0; 0; 255; 255; 0; 0; 0; 0];
    [0; 0; 0; 0; 0; 0; 0; 0]
  ];
  [
    [255; 255; 255; 0; 0; 0; 0; 0];
    [0; 255; 0; 255; 0; 0; 0; 0];
    [0; 255; 0; 0; 255; 0; 0; 0];
    [0; 255; 0; 0; 255; 0; 0; 0];
    [0; 255; 0; 0; 255; 0; 0; 0];
    [0; 255; 0; 255; 0; 0; 0; 0];
    [255; 255; 255; 0; 0; 0; 0; 0];
    [0; 0; 0; 0; 0; 0; 0; 0]
  ];
  [
    [255; 255; 255; 255; 255; 0; 0; 0];
    [255; 0; 0; 0; 0; 0; 0; 0];
    [255; 0; 0; 0; 0; 0; 0; 0];
    [255; 255; 255; 255; 0; 0; 0; 0];
    [255; 0; 0; 0; 0; 0; 0; 0];
    [255; 0; 0; 0; 0; 0; 0; 0];
    [255; 255; 255; 255; 255; 0; 0; 0];
    [0; 0; 0; 0; 0; 0; 0; 0]
  ];
  [
    [255; 255; 255; 255; 255; 0; 0; 0];
    [255; 0; 0; 0; 0; 0; 0; 0];
    [255; 0; 0; 0; 0; 0; 0; 0];
    [255; 255; 255; 255; 0; 0; 0; 0];
    [255; 0; 0; 0; 0; 0; 0; 0];
    [255; 0; 0; 0; 0; 0; 0; 0];
    [255; 0; 0; 0; 0; 0; 0; 0];
    [0; 0; 0; 0; 0; 0; 0; 0]
  ];
  [
    [0; 255; 255; 255; 0; 0; 0; 0];
    [255; 0; 0; 0; 255; 0; 0; 0];
    [255; 0; 0; 0; 0; 0; 0; 0];
    [255; 0; 255; 255; 255; 0; 0; 0];
    [255; 0; 0; 0; 255; 0; 0; 0];
    [255; 0; 0; 0; 255; 0; 0; 0];
    [0; 255; 255; 255; 0; 0; 0; 0];
    [0; 0; 0; 0; 0; 0; 0; 0]
  ];
  [
    [255; 0; 0; 0; 255; 0; 0; 0];
    [255; 0; 0; 0; 255; 0; 0; 0];
    [255; 0; 0; 0; 255; 0; 0; 0];
    [255; 255; 255; 255; 255; 0; 0; 0];
    [255; 0; 0; 0; 255; 0; 0; 0];
    [255; 0; 0; 0; 255; 0; 0; 0];
    [255; 0; 0; 0; 255; 0; 0; 0];
    [0; 0; 0; 0; 0; 0; 0; 0]
  ];
  [
    [0; 255; 255; 255; 0; 0; 0; 0];
    [0; 0; 255; 0; 0; 0; 0; 0];
    [0; 0; 255; 0; 0; 0; 0; 0];
    [0; 0; 255; 0; 0; 0; 0; 0];
    [0; 0; 255; 0; 0; 0; 0; 0];
    [0; 0; 255; 0; 0; 0; 0; 0];
    [0; 255; 255; 255; 0; 0; 0; 0];
    [0; 0; 0; 0; 0; 0; 0; 0]
  ];
  [
    [0; 0; 255; 255; 255; 0; 0; 0];
    [0; 0; 0; 255; 0; 0; 0; 0];
    [0; 0; 0; 255; 0; 0; 0; 0];
    [0; 0; 0; 255; 0; 0; 0; 0];
    [255; 0; 0; 255; 0; 0; 0; 0];
    [255; 0; 0; 255; 0; 0; 0; 0];
    [0; 255; 255; 0; 0; 0; 0; 0];
    [0; 0; 0; 0; 0; 0; 0; 0]
  ];
  [
    [255; 0; 0; 0; 255; 0; 0; 0];
    [255; 0; 0; 255; 0; 0; 0; 0];
    [255; 0; 255; 0; 0; 0; 0; 0];
    [255; 255; 0; 0; 0; 0; 0; 0];
    [255; 0; 255; 0; 0; 0; 0; 0];
    [255; 0; 0; 255; 0; 0; 0; 0];
    [255; 0; 0; 0; 255; 0; 0; 0];
    [0; 0; 0; 0; 0; 0; 0; 0]
  ];
  [
    [255; 0; 0; 0; 0; 0; 0; 0];
    [255; 0; 0; 0; 0; 0; 0; 0];
    [255; 0; 0; 0; 0; 0; 0; 0];
    [255; 0; 0; 0; 0; 0; 0; 0];
    [255; 0; 0; 0; 0; 0; 0; 0];
    [255; 0; 0; 0; 0; 0; 0; 0];
    [255; 255; 255; 255; 255; 0; 0; 0];
    [0; 0; 0; 0; 0; 0; 0; 0]
  ];
  [
    [255; 0; 0; 0; 255; 0; 0; 0];
    [255; 255; 0; 255; 255; 0; 0; 0];
    [255; 0; 255; 0; 255; 0; 0; 0];
    [255; 0; 255; 0; 255; 0; 0; 0];
    [255; 0; 0; 0; 255; 0; 0; 0];
    [255; 0; 0; 0; 255; 0; 0; 0];
    [255; 0; 0; 0; 255; 0; 0; 0];
    [0; 0; 0; 0; 0; 0; 0; 0]
  ]
].

(** characters 78 to 90 *)
Definition font_078 : list (list (list Z)) := [
  [
    [255; 0; 0; 0; 255; 0; 0; 0];
    [255; 255; 0; 0; 255; 0; 0; 0];
    [255; 255; 0; 0; 255; 0; 0; 0];
    [255; 0; 255; 0; 255; 0; 0; 0];
    [255; 0; 0; 255; 255; 0; 0; 0];
    [255; 0; 0; 255; 255; 0; 0; 0];
    [255; 0; 0; 0; 255; 0; 0; 0];
    [0; 0; 0; 0; 0; 0; 0; 0]
  ];
  [
    [0; 255; 255; 255; 0; 0; 0; 0];
    [255; 0; 0; 0; 255; 0; 0; 0];
    [255; 0; 0; 0; 255; 0; 0; 0];
    [255; 0; 0; 0; 255; 0; 0; 0];
    [255; 0; 0; 0; 255; 0; 0; 0];
    [255; 0; 0; 0; 255; 0; 0; 0];
    [0; 255; 255; 255; 0; 0; 0; 0];
    [0; 0; 0; 0; 0; 0; 0; 0]
  ];
  [
    [255; 255; 255; 255; 0; 0; 0; 0];
    [255; 0; 0; 0; 255; 0; 0; 0];
    [255; 0; 0; 0; 255; 0; 0; 0];
    [255; 255; 255; 255; 0; 0; 0; 0];
    [255; 0; 0; 0; 0; 0; 0; 0];
    [255; 0; 0; 0; 0; 0; 0; 0];
    [255; 0; 0; 0; 0; 0; 0; 0];
    [0; 0; 0; 0; 0; 0; 0; 0]
  ];
  [
    [0; 255; 255; 255; 0; 0; 0; 0];
    [255; 0; 0; 0; 255; 0; 0; 0];
    [255; 0; 0; 0; 255; 0; 0; 0];
    [255; 0; 0; 0; 255; 0; 0; 0];
    [255; 0; 255; 0; 255; 0; 0; 0];
    [255; 0; 0; 255; 0; 0; 0; 0];
    [0; 255; 255; 0; 255; 0; 0; 0];
    [0; 0; 0; 0; 0; 0; 0; 0]
  ];
  [
    [255; 255; 255; 255; 0; 0; 0; 0];
    [255; 0; 0; 0; 255; 0; 0; 0];
    [255; 0; 0; 0; 255; 0; 0; 0];
    [255; 255; 255; 255; 0; 0; 0; 0];
    [255; 0; 255; 0; 0; 0; 0; 0];
    [255; 0; 0; 255; 0; 0; 0; 0];
    [255; 0; 0; 0; 255; 0; 0; 0];
    [0; 0; 0; 0; 0; 0; 0; 0]
  ];
  [
    [0; 255; 255; 255; 0; 0; 0; 0];
    [255; 0; 0; 0; 255; 0; 0; 0];
    [255; 0; 0; 0; 0; 0; 0; 0];
    [0; 255; 255; 255; 0; 0; 0; 0];
    [0; 0; 0; 0; 255; 0; 0; 0];
    [255; 0; 0; 0; 255; 0; 0; 0];
    [0; 255; 255; 255; 0; 0; 0; 0];
    [0; 0; 0; 0; 0; 0; 0; 0]
  ];
  [
    [255; 255; 255; 255; 255; 0; 0; 0];
    [0; 0; 255; 0; 0; 0; 0; 0];
    [0; 0; 255; 0; 0; 0; 0; 0];
    [0; 0; 255; 0; 0; 0; 0; 0];
    [0; 0; 255; 0; 0; 0; 0; 0];
    [0; 0; 255; 0; 0; 0; 0; 0];
    [0; 0; 255; 0; 0; 0; 0; 0];
    [0; 0; 0; 0; 0; 0; 0; 0]
  ];
  [
    [255; 0; 0; 0; 255; 0; 0; 0];
    [255; 0; 0; 0; 255; 0; 0; 0];
    [255; 0; 0; 0; 255; 0; 0; 0];
    [255; 0; 0; 0; 255; 0; 0; 0];
    [255; 0; 0; 0; 255; 0; 0; 0];
    [255; 0; 0; 0; 255; 0; 0; 0];
    [0; 255; 255; 255; 0; 0; 0; 0];
    [0; 0; 0; 0; 0; 0; 0; 0]
  ];
  [
    [255; 0; 0; 0; 255; 0; 0; 0];
    [255; 0; 0; 0; 255; 0; 0; 0];
    [255; 0; 0; 0; 255; 0; 0; 0];
    [255; 0; 0; 0; 255; 0; 0; 0];
    [0; 255; 0; 255; 0; 0; 0; 0];
    [0; 255; 0; 255; 0; 0; 0; 0];
    [0; 0; 255; 0; 0; 0; 0; 0];
    [0; 0; 0; 0; 0; 0; 0; 0]
  ];
  [
    [255; 0; 0; 0; 255; 0; 0; 0];
    [255; 0; 0; 0; 255; 0; 0; 0];
    [255; 0; 0; 0; 255; 0; 0; 0];
    [255; 0; 255; 0; 255; 0; 0; 0];
    [255; 0; 255; 0; 255; 0; 0; 0];
    [255; 255; 0; 255; 255; 0; 0; 0];
    [255; 0; 0; 0; 255; 0; 0; 0];
    [0; 0; 0; 0; 0; 0; 0; 0]
  ];
  [
    [255; 0; 0; 0; 255; 0; 0; 0];
    [255; 0; 0; 0; 255; 0; 0; 0];
    [0; 255; 0; 255; 0; 0; 0; 0];
    [0; 0; 255; 0; 0; 0; 0; 0];
    [0; 255; 0; 255; 0; 0; 0; 0];
    [255; 0; 0; 0; 255; 0; 0; 0];
    [255; 0; 0; 0; 255; 0; 0; 0];
    [0; 0; 0; 0; 0; 0; 0; 0]
  ];
  [
    [255; 0; 0; 0; 255; 0; 0; 0];
    [255; 0; 0; 0; 255; 0; 0; 0];
    [255; 0; 0; 0; 255; 0; 0; 0];
    [0; 255; 255; 255; 0; 0; 0; 0];
    [0; 0; 255; 0; 0; 0; 0; 0];
    [0; 0; 255; 0; 0; 0; 0; 0];
    [0; 0; 255; 0; 0; 0; 0; 0];
    [0; 0; 0; 0; 0; 0; 0; 0]
  ];
  [
    [255; 255; 255; 255; 255; 0; 0; 0];
    [0; 0; 0; 0; 255; 0; 0; 0];
    [0; 0; 0; 255; 0; 0; 0; 0];
    [0; 0; 255; 0; 0; 0; 0; 0];
    [0; 255; 0; 0; 0; 0; 0; 0];
    [255; 0; 0; 0; 0; 0; 0; 0];
    [255; 255; 255; 255; 255; 0; 0; 0];
    [0; 0; 0; 0; 0; 0; 0; 0]
  ]
].

(** characters 91 to 103 *)
Definition font_091 : list (list (list Z)) := [
  [
    [0; 255; 255; 255; 0; 0; 0; 0];
    [0; 255; 0; 0; 0; 0; 0; 0];
    [0; 255; 0; 0; 0; 0; 0; 0];
    [0; 255; 0; 0; 0; 0; 0; 0];
    [0; 255; 0; 0; 0; 0; 0; 0];
    [0; 255; 0; 0; 0; 0; 0; 0];
    [0; 255; 255; 255; 0; 0; 0; 0];
    [0; 0; 0; 0; 0; 0; 0; 0]
  ];
  [
    [0; 0; 0; 0; 0; 0; 0; 0];
    [0; 0; 0; 0; 0; 0; 0; 0];
    [255; 0; 0; 0; 0; 0; 0; 0];
    [0; 255; 0; 0; 0; 0; 0; 0];
    [0; 0; 255; 0; 0; 0; 0; 0];
    [0; 0; 0; 255; 0; 0; 0; 0];
    [0; 0; 0; 0; 255; 0; 0; 0];
    [0; 0; 0; 0; 0; 0; 0; 0]
  ];
  [
    [0; 255; 255; 255; 0; 0; 0; 0];
    [0; 0; 0; 255; 0; 0; 0; 0];
    [0; 0; 0; 255; 0; 0; 0; 0];
    [0; 0; 0; 255; 0; 0; 0; 0];
    [0; 0; 0; 255; 0; 0; 0; 0];
    [0; 0; 0; 255; 0; 0; 0; 0];
    [0; 255; 255; 255; 0; 0; 0; 0];
    [0; 0; 0; 0; 0; 0; 0; 0]
  ];
  [
    [0; 0; 255; 0; 0; 0; 0; 0];
    [0; 255; 0; 255; 0; 0; 0; 0];
    [255; 0; 0; 0; 255; 0; 0; 0];
    [0; 0; 0; 0; 0; 0; 0; 0];
    [0; 0; 0; 0; 0; 0; 0; 0];
    [0; 0; 0; 0; 0; 0; 0; 0];
    [0; 0; 0; 0; 0; 0; 0; 0];
    [0; 0; 0; 0; 0; 0; 0; 0]
  ];
  [
    [0; 0; 0; 0; 0; 0; 0; 0];
    [0; 0; 0; 0; 0; 0; 0; 0];
    [0; 0; 0; 0; 0; 0; 0; 0];
    [0; 0; 0; 0; 0; 0; 0; 0];
    [0; 0; 0; 0; 0; 0; 0; 0];
    [0; 0; 0; 0; 0; 0; 0; 0];
    [255; 255; 255; 255; 255; 0; 0; 0];
    [0; 0; 0; 0; 0; 0; 0; 0]
  ];
  [
    [0; 255; 0; 0; 0; 0; 0; 0];
    [0; 0; 255; 0; 0; 0; 0; 0];
    [0; 0; 0; 255; 0; 0; 0; 0];
    [0; 0; 0; 0; 0; 0; 0; 0];
    [0; 0; 0; 0; 0; 0; 0; 0];
    [0; 0; 0; 0; 0; 0; 0; 0];
    [0; 0; 0; 0; 0; 0; 0; 0];
    [0; 0; 0; 0; 0; 0; 0; 0]
  ];
  [
    [0; 0; 0; 0; 0; 0; 0; 0];
    [0; 0; 0; 0; 0; 0; 0; 0];
    [0; 255; 255; 255; 0; 0; 0; 0];
    [0; 0; 0; 0; 255; 0; 0; 0];
    [0; 255; 255; 255; 255; 0; 0; 0];
    [255; 0; 0; 0; 255; 0; 0; 0];
    [0; 255; 255; 255; 255; 0; 0; 0];
    [0; 0; 0; 0; 0; 0; 0; 0]
  ];
  [
    [255; 0; 0; 0; 0; 0; 0; 0];
    [255; 0; 0; 0; 0; 0; 0; 0];
    [255; 0; 255; 255; 0; 0; 0; 0];
    [255; 255; 0; 0; 255; 0; 0; 0];
    [255; 0; 0; 0; 255; 0; 0; 0];
    [255; 255; 0; 0; 255; 0; 0; 0];
    [255; 0; 255; 255; 0; 0; 0; 0];
    [0; 0; 0; 0; 0; 0; 0; 0]
  ];
  [
    [0; 0; 0; 0; 0; 0; 0; 0];
    [0; 0; 0; 0; 0; 0; 0; 0];
    [0; 255; 255; 255; 0; 0; 0; 0];
    [255; 0; 0; 0; 255; 0; 0; 0];
    [255; 0; 0; 0; 0; 0; 0; 0];
    [255; 0; 0; 0; 255; 0; 0; 0];
    [0; 255; 255; 255; 0; 0; 0; 0];
    [0; 0; 0; 0; 0; 0; 0; 0]
  ];
  [
    [0; 0; 0; 0; 255; 0; 0; 0];
    [0; 0; 0; 0; 255; 0; 0; 0];
    [0; 255; 255; 0; 255; 0; 0; 0];
    [255; 0; 0; 255; 255; 0; 0; 0];
    [255; 0; 0; 0; 255; 0; 0; 0];
    [255; 0; 0; 255; 255; 0; 0; 0];
    [0; 255; 255; 0; 255; 0; 0; 0];
    [0; 0; 0; 0; 0; 0; 0; 0]
  ];
  [
    [0; 0; 0; 0; 0; 0; 0; 0];
    [0; 0; 0; 0; 0; 0; 0; 0];
    [0; 255; 255; 255; 0; 0; 0; 0];
    [255; 0; 0; 0; 255; 0; 0; 0];
    [255; 255; 255; 255; 255; 0; 0; 0];
    [255; 0; 0; 0; 0; 0; 0; 0];
    [0; 255; 255; 255; 0; 0; 0; 0];
    [0; 0; 0; 0; 0; 0; 0; 0]
  ];
  [
    [0; 0; 0; 255; 0; 0; 0; 0];
    [0; 0; 255; 0; 255; 0; 0; 0];
    [0; 0; 255; 0; 0; 0; 0; 0];
    [255; 255; 255; 255; 255; 0; 0; 0];
    [0; 0; 255; 0; 0; 0; 0; 0];
    [0; 0; 255; 0; 0; 0; 0; 0];
    [0; 0; 255; 0; 0; 0; 0; 0];
    [0; 0; 0; 0; 0; 0; 0; 0]
  ];
  [
    [0; 0; 0; 0; 0; 0; 0; 0];
    [0; 0; 0; 0; 0; 0; 0; 0];
    [0; 255; 255; 0; 255; 0; 0; 0];
    [255; 0; 0; 255; 255; 0; 0; 0];
    [255; 0; 0; 255; 255; 0; 0; 0];
    [0; 255; 255; 0; 255; 0; 0; 0];
    [0; 0; 0; 0; 255; 0; 0; 0];
    [0; 255; 255; 255; 0; 0; 0; 0]
  ]
].

(** characters 104 to 116 *)
Definition font_104 : list (list (list Z)) := [
  [
    [255; 0; 0; 0; 0; 0; 0; 0];
    [255; 0; 0; 0; 0; 0; 0; 0];
    [255; 255; 255; 255; 0; 0; 0; 0];
    [255; 0; 0; 0; 255; 0; 0; 0];
    [255; 0; 0; 0; 255; 0; 0; 0];
    [255; 0; 0; 0; 255; 0; 0; 0];
    [255; 0; 0; 0; 255; 0; 0; 0];
    [0; 0; 0; 0; 0; 0; 0; 0]
  ];
  [
    [0; 0; 255; 0; 0; 0; 0; 0];
    [0; 0; 0; 0; 0; 0; 0; 0];
    [0; 255; 255; 0; 0; 0; 0; 0];
    [0; 0; 255; 0; 0; 0; 0; 0];
    [0; 0; 255; 0; 0; 0; 0; 0];
    [0; 0; 255; 0; 0; 0; 0; 0];
    [0; 255; 255; 255; 0; 0; 0; 0];
    [0; 0; 0; 0; 0; 0; 0; 0]
  ];
  [
    [0; 0; 0; 255; 0; 0; 0; 0];
    [0; 0; 0; 0; 0; 0; 0; 0];
    [0; 0; 255; 255; 0; 0; 0; 0];
    [0; 0; 0; 255; 0; 0; 0; 0];
    [0; 0; 0; 255; 0; 0; 0; 0];
    [0; 0; 0; 255; 0; 0; 0; 0];
    [255; 0; 0; 255; 0; 0; 0; 0];
    [0; 255; 255; 0; 0; 0; 0; 0]
  ];
  [
    [0; 255; 0; 0; 0; 0; 0; 0];
    [0; 255; 0; 0; 0; 0; 0; 0];
    [0; 255; 0; 0; 255; 0; 0; 0];
    [0; 255; 0; 255; 0; 0; 0; 0];
    [0; 255; 255; 0; 0; 0; 0; 0];
    [0; 255; 0; 255; 0; 0; 0; 0];
    [0; 255; 0; 0; 255; 0; 0; 0];
    [0; 0; 0; 0; 0; 0; 0; 0]
  ];
  [
    [0; 255; 255; 0; 0; 0; 0; 0];
    [0; 0; 255; 0; 0; 0; 0; 0];
    [0; 0; 255; 0; 0; 0; 0; 0];
    [0; 0; 255; 0; 0; 0; 0; 0];
    [0; 0; 255; 0; 0; 0; 0; 0];
    [0; 0; 255; 0; 0; 0; 0; 0];
    [0; 255; 255; 255; 0; 0; 0; 0];
    [0; 0; 0; 0; 0; 0; 0; 0]
  ];
  [
    [0; 0; 0; 0; 0; 0; 0; 0];
    [0; 0; 0; 0; 0; 0; 0; 0];
    [255; 255; 0; 255; 0; 0; 0; 0];
    [255; 0; 255; 0; 255; 0; 0; 0];
    [255; 0; 255; 0; 255; 0; 0; 0];
    [255; 0; 255; 0; 255; 0; 0; 0];
    [255; 0; 255; 0; 255; 0; 0; 0];
    [0; 0; 0; 0; 0; 0; 0; 0]
  ];
  [
    [0; 0; 0; 0; 0; 0; 0; 0];
    [0; 0; 0; 0; 0; 0; 0; 0];
    [255; 0; 255; 255; 0; 0; 0; 0];
    [255; 255; 0; 0; 255; 0; 0; 0];
    [255; 0; 0; 0; 255; 0; 0; 0];
    [255; 0; 0; 0; 255; 0; 0; 0];
    [255; 0; 0; 0; 255; 0; 0; 0];
    [0; 0; 0; 0; 0; 0; 0; 0]
  ];
  [
    [0; 0; 0; 0; 0; 0; 0; 0];
    [0; 0; 0; 0; 0; 0; 0; 0];
    [0; 255; 255; 255; 0; 0; 0; 0];
    [255; 0; 0; 0; 255; 0; 0; 0];
    [255; 0; 0; 0; 255; 0; 0; 0];
    [255; 0; 0; 0; 255; 0; 0; 0];
    [0; 255; 255; 255; 0; 0; 0; 0];
    [0; 0; 0; 0; 0; 0; 0; 0]
  ];
  [
    [0; 0; 0; 0; 0; 0; 0; 0];
    [0; 0; 0; 0; 0; 0; 0; 0];
    [255; 0; 255; 255; 0; 0; 0; 0];
    [255; 255; 0; 0; 255; 0; 0; 0];
    [255; 255; 0; 0; 255; 0; 0; 0];
    [255; 0; 255; 255; 0; 0; 0; 0];
    [255; 0; 0; 0; 0; 0; 0; 0];
    [255; 0; 0; 0; 0; 0; 0; 0]
  ];
  [
    [0; 0; 0; 0; 0; 0; 0; 0];
    [0; 0; 0; 0; 0; 0; 0; 0];
    [0; 255; 255; 0; 255; 0; 0; 0];
    [255; 0; 0; 255; 255; 0; 0; 0];
    [255; 0; 0; 255; 255; 0; 0; 0];
    [0; 255; 255; 0; 255; 0; 0; 0];
    [0; 0; 0; 0; 255; 0; 0; 0];
    [0; 0; 0; 0; 255; 0; 0; 0]
  ];
  [
    [0; 0; 0; 0; 0; 0; 0; 0];
    [0; 0; 0; 0; 0; 0; 0; 0];
    [255; 0; 255; 255; 0; 0; 0; 0];
    [255; 255; 0; 0; 255; 0; 0; 0];
    [255; 0; 0; 0; 0; 0; 0; 0];
    [255; 0; 0; 0; 0; 0; 0; 0];
    [255; 0; 0; 0; 0; 0; 0; 0];
    [0; 0; 0; 0; 0; 0; 0; 0]
  ];
  [
    [0; 0; 0; 0; 0; 0; 0; 0];
    [0; 0; 0; 0; 0; 0; 0; 0];
    [0; 255; 255; 255; 255; 0; 0; 0];
    [255; 0; 0; 0; 0; 0; 0; 0];
    [255; 255; 255; 255; 0; 0; 0; 0];
    [0; 0; 0; 0; 255; 0; 0; 0];
    [255; 255; 255; 255; 0; 0; 0; 0];
    [0; 0; 0; 0; 0; 0; 0; 0]
  ];
  [
    [0; 255; 0; 0; 0; 0; 0; 0];
    [0; 255; 0; 0; 0; 0; 0; 0];
    [255; 255; 255; 255; 0; 0; 0; 0];
    [0; 255; 0; 0; 0; 0; 0; 0];
    [0; 255; 0; 0; 0; 0; 0; 0];
    [0; 255; 0; 0; 255; 0; 0; 0];
    [0; 0; 255; 255; 0; 0; 0; 0];
    [0; 0; 0; 0; 0; 0; 0; 0]
  ]
].

(** characters 117 to 126 *)
Definition font_117 : list (list (list Z)) := [
  [
    [0; 0; 0; 0; 0; 0; 0; 0];
    [0; 0; 0; 0; 0; 0; 0; 0];
    [255; 0; 0; 255; 0; 0; 0; 0];
    [255; 0; 0; 255; 0; 0; 0; 0];
    [255; 0; 0; 255; 0; 0; 0; 0];
    [255; 0; 0; 255; 0; 0; 0; 0];
    [0; 255; 255; 0; 255; 0; 0; 0];
    [0; 0; 0; 0; 0; 0; 0; 0]
  ];
  [
    [0; 0; 0; 0; 0; 0; 0; 0];
    [0; 0; 0; 0; 0; 0; 0; 0];
    [255; 0; 0; 0; 255; 0; 0; 0];
    [255; 0; 0; 0; 255; 0; 0; 0];
    [255; 0; 0; 0; 255; 0; 0; 0];
    [0; 255; 0; 255; 0; 0; 0; 0];
    [0; 0; 255; 0; 0; 0; 0; 0];
    [0; 0; 0; 0; 0; 0; 0; 0]
  ];
  [
    [0; 0; 0; 0; 0; 0; 0; 0];
    [0; 0; 0; 0; 0; 0; 0; 0];
    [255; 0; 0; 0; 255; 0; 0; 0];
    [255; 0; 255; 0; 255; 0; 0; 0];
    [255; 0; 255; 0; 255; 0; 0; 0];
    [255; 0; 255; 0; 255; 0; 0; 0];
    [0; 255; 0; 255; 0; 0; 0; 0];
    [0; 0; 0; 0; 0; 0; 0; 0]
  ];
  [
    [0; 0; 0; 0; 0; 0; 0; 0];
    [0; 0; 0; 0; 0; 0; 0; 0];
    [255; 0; 0; 0; 255; 0; 0; 0];
    [0; 255; 0; 255; 0; 0; 0; 0];
    [0; 0; 255; 0; 0; 0; 0; 0];
    [0; 255; 0; 255; 0; 0; 0; 0];
    [255; 0; 0; 0; 255; 0; 0; 0];
    [0; 0; 0; 0; 0; 0; 0; 0]
  ];
  [
    [0; 0; 0; 0; 0; 0; 0; 0];
    [0; 0; 0; 0; 0; 0; 0; 0];
    [255; 0; 0; 0; 255; 0; 0; 0];
    [255; 0; 0; 0; 255; 0; 0; 0];
    [255; 0; 0; 255; 255; 0; 0; 0];
    [0; 255; 255; 0; 255; 0; 0; 0];
    [0; 0; 0; 0; 255; 0; 0; 0];
    [0; 255; 255; 255; 0; 0; 0; 0]
  ];
  [
    [0; 0; 0; 0; 0; 0; 0; 0];
    [0; 0; 0; 0; 0; 0; 0; 0];
    [255; 255; 255; 255; 255; 0; 0; 0];
    [0; 0; 0; 255; 0; 0; 0; 0];
    [0; 0; 255; 0; 0; 0; 0; 0];
    [0; 255; 0; 0; 0; 0; 0; 0];
    [255; 255; 255; 255; 255; 0; 0; 0];
    [0; 0; 0; 0; 0; 0; 0; 0]
  ];
  [
    [0; 0; 0; 255; 255; 0; 0; 0];
    [0; 0; 255; 0; 0; 0; 0; 0];
    [0; 0; 255; 0; 0; 0; 0; 0];
    [0; 255; 0; 0; 0; 0; 0; 0];
    [0; 0; 255; 0; 0; 0; 0; 0];
    [0; 0; 255; 0; 0; 0; 0; 0];
    [0; 0; 0; 255; 255; 0; 0; 0];
    [0; 0; 0; 0; 0; 0; 0; 0]
  ];
  [
    [0; 0; 255; 0; 0; 0; 0; 0];
    [0; 0; 255; 0; 0; 0; 0; 0];
    [0; 0; 255; 0; 0; 0; 0; 0];
    [0; 0; 0; 0; 0; 0; 0; 0];
    [0; 0; 255; 0; 0; 0; 0; 0];
    [0; 0; 255; 0; 0; 0; 0; 0];
    [0; 0; 255; 0; 0; 0; 0; 0];
    [0; 0; 0; 0; 0; 0; 0; 0]
  ];
  [
    [255; 255; 0; 0; 0; 0; 0; 0];
    [0; 0; 255; 0; 0; 0; 0; 0];
    [0; 0; 255; 0; 0; 0; 0; 0];
    [0; 0; 0; 255; 0; 0; 0; 0];
    [0; 0; 255; 0; 0; 0; 0; 0];
    [0; 0; 255; 0; 0; 0; 0; 0];
    [255; 255; 0; 0; 0; 0; 0; 0];
    [0; 0; 0; 0; 0; 0; 0; 0]
  ];
  [
    [0; 255; 0; 0; 0; 0; 0; 0];
    [255; 0; 255; 0; 255; 0; 0; 0];
    [0; 0; 0; 255; 0; 0; 0; 0];
    [0; 0; 0; 0; 0; 0; 0; 0];
    [0; 0; 0; 0; 0; 0; 0; 0];
    [0; 0; 0; 0; 0; 0; 0; 0];
    [0; 0; 0; 0; 0; 0; 0; 0];
    [0; 0; 0; 0; 0; 0; 0; 0]
  ]
].

(** the glyph the initialiser leaves out *)
Definition font_zero : list (list (list Z)) := [replicate 8 (replicate 8 0)].

(** [uint8_t font_8x8[128][8][8]] *)
Definition font_8x8 : list (list (list Z)) :=
  font_000 ++ font_013 ++ font_026 ++ font_039 ++ font_052 ++
  font_065 ++ font_078 ++ font_091 ++ font_104 ++ font_117 ++ font_zero.

(** [font_8x8[c][cy][cx]]: every index is in range where the code reads it *)
Definition font_pixel (c cy cx : Z) : Z :=
  default 0 (font_8x8 !! Z.to_nat c ≫= λ g, g !! Z.to_nat cy ≫= λ row, row !! Z.to_nat cx).

(** the pixels of a glyph, row after row: which ones are set *)
Definition glyph (c : Z) : list bool :=
  zrange 8 ≫= λ cy, (λ cx, negb (font_pixel c cy cx =? 0)) <$> zrange 8.

(** the table has the declared size *)
Lemma font_8x8_shape :
  length font_8x8 = 128%nat ∧ Forall (λ g, length g = 8%nat ∧ Forall (λ row, length row = 8%nat ∧ bytes_ok row) g) font_8x8.
Proof.
  split; [vm_compute; reflexivity|]. apply (bool_decide_unpack _). vm_compute. exact I.
Qed.
