(* ===== verification/Glyphs.v ===== *)
(** * Text on the frame buffer ([draw_text] and [frame_buffer_thread] of src/vnc.cpp with the
    table of src/font.cpp)

    What [draw_text] leaves in the frame buffer, pixel for pixel, and a reader: a function
    that finds out from the pixels of a line which characters are on it.  The drawing of
    Vnc.v is used with the table of Font.v.

    Shown: a text that fits is drawn exactly in its box and leaves every other pixel as it
    was; one that leaves the screen on the right goes on a line lower, and the characters
    before the edge are as they should; after an update of the picture the reader finds the
    price line, wherever the clock is, and what is on the screen of the clock. *)
From S2P Require Import Prelude Vnc Font.
Open Scope Z_scope.

(** ** What a text looks like *)

Section Paint.
Context (font : Z → Z → Z → Z) (w h x y : Z) (text : list Z) (r g b : Z).

(** the colour of a pixel in the box of the text *)
Definition text_colour (py px : Z) : Z * Z * Z :=
  let c := default 0 (text !! Z.to_nat ((px - x) / 8)) in
  if font (Z.land c 127) (py - y) ((px - x) mod 8) =? 0 then (0, 0, 0) else (r, g, b).

(** the box of the text *)
Definition in_box (py px : Z) : Prop := y ≤ py < y + 8 ∧ x ≤ px < x + 8 * zlen text.

(** the positions [ps] have their colour and the others are as they were *)
Definition painted (buf0 : list Z) (ps : list (Z * Z)) (buf : list Z) : Prop :=
  is_array (w * h * 3) buf ∧
  ∀ py px, 0 ≤ py < h → 0 ≤ px < w →
    pixel buf w py px = if decide ((py, px) ∈ ps) then text_colour py px else pixel buf0 w py px.

(** the positions a loop goes through *)
Definition row_positions (i cy : Z) : list (Z * Z) := (λ cx, (cy + y, x + i * 8 + cx)) <$> zrange 8.
Definition char_positions (i : Z) : list (Z * Z) := zrange 8 ≫= row_positions i.
Definition text_positions : list (Z * Z) := zrange (zlen text) ≫= char_positions.
End Paint.

(** ** One pixel *)

Lemma default_insert (buf : list Z) i j v :
  0 ≤ i → 0 ≤ j < zlen buf →
  default 0 (<[Z.to_nat j := v]> buf !! Z.to_nat i) = if decide (i = j) then v else default 0 (buf !! Z.to_nat i).
Proof.
  intros Hi Hj. unfold zlen in Hj. destruct (decide (i = j)) as [->|Hn].
  - rewrite list_lookup_insert_eq by lia. done.
  - rewrite list_lookup_insert_ne by lia. done.
Qed.

(** two pixels of the screen do not share bytes *)
Lemma pixel_apart w y x y' x' k k' :
  0 ≤ x < w → 0 ≤ x' < w → 0 ≤ k < 3 → 0 ≤ k' < 3 →
  y * w * 3 + x * 3 + k = y' * w * 3 + x' * 3 + k' → y = y' ∧ x = x' ∧ k = k'.
Proof.
  intros Hx Hx' Hk Hk' E. assert (y * w + x = y' * w + x') as E' by lia.
  assert (y = y') by nia. subst. lia.
Qed.

Lemma draw_pixel_spec w h Y X on r g b buf :
  is_array (w * h * 3) buf → 0 ≤ Y < h → 0 ≤ X < w → rgb_ok (r, g, b) →
  ∃ buf', draw_pixel on (Y * w * 3 + X * 3) r g b buf = Ok buf' ∧ is_array (w * h * 3) buf' ∧
    ∀ py px, 0 ≤ py < h → 0 ≤ px < w →
      pixel buf' w py px = if decide ((py, px) = (Y, X)) then (if on then (r, g, b) else (0, 0, 0)) else pixel buf w py px.
Proof.
  intros Ha HY HX (Hr & Hg & Hb). set (o := Y * w * 3 + X * 3).
  assert (0 ≤ o ∧ o + 2 < w * h * 3) as [Ho Ho'] by (unfold o; nia).
  destruct (draw_pixel_array _ on o r g b buf Ha Ho Ho') as (buf' & E & A'). exists buf'. split_and!; [done..|].
  destruct Ha as [Hl _]. unfold draw_pixel in E.
  rewrite wr_Ok in E by lia. cbn [res_bind] in E. unfold zlen in Hl.
  rewrite wr_Ok in E by (unfold zlen; rewrite length_insert; lia). cbn [res_bind] in E.
  rewrite wr_Ok in E by (unfold zlen; rewrite !length_insert; lia). injection E as <-.
  intros py px Hpy Hpx. unfold pixel. set (p := py * w * 3 + px * 3).
  assert (0 ≤ p) by (unfold p; nia).
  rewrite !default_insert by (unfold zlen; rewrite ?length_insert; lia).
  assert (∀ k k', 0 ≤ k < 3 → 0 ≤ k' < 3 → p + k = o + k' → py = Y ∧ px = X ∧ k = k') as Apart.
  { intros k k' ? ? Ek. apply (pixel_apart w); (done || unfold p, o in Ek; lia). }
  assert (∀ v : Z, byte_ok v → u8 (if on then v else 0) = if on then v else 0) as U.
  { intros v Hv. destruct on; [by apply u8_id|done]. }
  rewrite !U by done. destruct (decide ((py, px) = (Y, X))) as [[= -> ->]|Hn].
  - unfold p, o. repeat (destruct (decide _); try lia). by destruct on.
  - repeat match goal with |- context [decide (p + ?k = o + ?k')] =>
      destruct (decide (p + k = o + k')) as [Ek|_]; [destruct (Apart k k') as (-> & -> & _); [lia..|by destruct Hn]|] end.
    done.
Qed.

(** ** The loops of [draw_text] *)

Section Loops.
Context (font : Z → Z → Z → Z) (w h x y : Z) (text : list Z) (r g b : Z) (buf0 : list Z).
Hypothesis Hc : rgb_ok (r, g, b).
Hypothesis Hx : 0 ≤ x.
Hypothesis Hfit : x + 8 * zlen text ≤ w.
Hypothesis Hy : 0 ≤ y.
Hypothesis Hfit' : y + 8 ≤ h.

Local Abbreviation painted := (painted font w h x y text r g b buf0).

(** a loop paints what its rounds paint *)
Lemma paint_fold {A} (f : list Z → A → res (list Z)) (ps : A → list (Z * Z)) l qs buf :
  (∀ (a : A) qs buf, a ∈ l → painted qs buf → ∃ buf', f buf a = Ok buf' ∧ painted (qs ++ ps a) buf') →
  painted qs buf → ∃ buf', res_fold f buf l = Ok buf' ∧ painted (qs ++ (l ≫= ps)) buf'.
Proof.
  revert qs buf. induction l as [|a l IH]; intros qs buf Hf Hp; [exists buf; by rewrite app_nil_r|].
  destruct (Hf a qs buf) as (b1 & E1 & P1); [set_solver|done|]. cbn [res_fold]. rewrite E1. cbn [res_bind].
  destruct (IH (qs ++ ps a) b1) as (b2 & E2 & P2); [|done|].
  { intros a' qs' buf' Ha'. apply Hf. set_solver. }
  exists b2. rewrite bind_cons, app_assoc. done.
Qed.

Lemma paint_pixel qs buf Y X (on : bool) :
  painted qs buf → 0 ≤ Y < h → 0 ≤ X < w →
  text_colour font x y text r g b Y X = (if on then (r, g, b) else (0, 0, 0)) →
  ∃ buf', draw_pixel on (Y * w * 3 + X * 3) r g b buf = Ok buf' ∧ painted (qs ++ [(Y, X)]) buf'.
Proof.
  intros [Ha Hp] HY HX Ht. destruct (draw_pixel_spec w h Y X on r g b buf) as (buf' & E & A' & P'); [done..|].
  exists buf'. split; [done|]. split; [done|]. intros py px Hpy Hpx. rewrite P', Hp by done.
  destruct (decide ((py, px) = (Y, X))) as [[= -> ->]|Hn].
  - rewrite decide_True by set_solver. done.
  - destruct (decide ((py, px) ∈ qs)).
    + by rewrite decide_True by set_solver.
    + by rewrite decide_False by set_solver.
Qed.

(** the colour of a pixel of a glyph *)
Lemma text_colour_glyph i ch cy cx :
  0 ≤ i → text !! Z.to_nat i = Some ch → 0 ≤ cx < 8 →
  text_colour font x y text r g b (cy + y) (x + i * 8 + cx) =
    if negb (font (Z.land ch 127) cy cx =? 0) then (r, g, b) else (0, 0, 0).
Proof.
  intros Hi Ht Hcx. unfold text_colour.
  replace (x + i * 8 + cx - x) with (cx + i * 8) by lia. replace (cy + y - y) with cy by lia.
  rewrite Z.div_add, Z.mod_add, Z.div_small, Z.mod_small by lia. rewrite Z.add_0_l, Ht. cbn [default].
  by destruct (font _ _ _ =? 0).
Qed.

Lemma paint_row i ch cy cxs qs buf :
  0 ≤ i < zlen text → text !! Z.to_nat i = Some ch → 0 ≤ cy < 8 → (∀ cx, cx ∈ cxs → 0 ≤ cx < 8) → painted qs buf →
  ∃ buf', draw_row font w (w * h * 3) x y i (Z.land ch 127) cy r g b buf cxs = Ok buf' ∧
    painted (qs ++ ((λ cx, (cy + y, x + i * 8 + cx)) <$> cxs)) buf'.
Proof.
  intros Hi Ht Hcy. revert qs buf. induction cxs as [|cx cxs IH]; intros qs buf Hcx Hp.
  { exists buf. cbn. by rewrite app_nil_r. }
  assert (0 ≤ cx < 8) as Hcx0 by (apply Hcx; set_solver). cbn [draw_row].
  rewrite (proj2 (Z.leb_gt _ _)) by nia.
  destruct (paint_pixel qs buf (cy + y) (x + i * 8 + cx) (negb (font (Z.land ch 127) cy cx =? 0))) as (b1 & E1 & P1).
  { done. } { lia. } { lia. } { apply text_colour_glyph; (done || lia). }
  rewrite E1. cbn [res_bind]. destruct (IH (qs ++ [(cy + y, x + i * 8 + cx)]) b1) as (b2 & E2 & P2); [set_solver|done|].
  exists b2. split; [done|]. rewrite fmap_cons. by rewrite <- app_assoc in P2.
Qed.

Lemma paint_text buf :
  painted [] buf →
  ∃ buf', draw_text font w h buf x y text r g b = Ok buf' ∧ painted (text_positions x y text) buf'.
Proof.
  intros Hp. unfold draw_text. apply (paint_fold _ (char_positions x y) _ []); [|done].
  intros i qs buf1 Hi%elem_of_zrange Hp1. unfold draw_char.
  destruct (rd_in_range text i Hi) as [ch E]. rewrite E. cbn [res_bind]. apply rd_Ok in E as [_ Ht].
  apply (paint_fold _ (row_positions x y i)); [|done].
  intros cy qs' buf2 Hcy%elem_of_zrange Hp2. apply paint_row; try done.
  intros cx. apply elem_of_zrange.
Qed.
End Loops.

(** the positions of the loops are the box *)
Lemma elem_of_text_positions x y text py px : (py, px) ∈ text_positions x y text ↔ in_box x y text py px.
Proof.
  unfold text_positions, char_positions, row_positions, in_box. rewrite list_elem_of_bind. split.
  - intros (i & (cy & (cx & [= -> ->] & Hcx%elem_of_zrange)%list_elem_of_fmap & Hcy%elem_of_zrange)%list_elem_of_bind
      & Hi%elem_of_zrange). lia.
  - intros [Hpy Hpx]. exists ((px - x) / 8). pose proof (Z.div_mod (px - x) 8). pose proof (Z.mod_pos_bound (px - x) 8).
    rewrite list_elem_of_bind, elem_of_zrange. split; [|lia]. exists (py - y). rewrite elem_of_zrange, list_elem_of_fmap.
    split; [|lia]. exists ((px - x) mod 8). rewrite elem_of_zrange. split; [f_equal; lia|lia].
Qed.

(** a text that fits is drawn in its box, and nothing else changes *)
Lemma draw_text_spec font w h x y text r g b buf :
  is_array (w * h * 3) buf → rgb_ok (r, g, b) → 0 ≤ x → x + 8 * zlen text ≤ w → 0 ≤ y → y + 8 ≤ h →
  ∃ buf', draw_text font w h buf x y text r g b = Ok buf' ∧ is_array (w * h * 3) buf' ∧
    ∀ py px, 0 ≤ py < h → 0 ≤ px < w →
      (in_box x y text py px → pixel buf' w py px = text_colour font x y text r g b py px) ∧
      (¬ in_box x y text py px → pixel buf' w py px = pixel buf w py px).
Proof.
  intros Ha Hc Hx Hf Hy Hf'. destruct (paint_text font w h x y text r g b buf Hc Hx Hf Hy Hf' buf) as (buf' & E & A' & P').
  { split; [done|]. intros. by rewrite decide_False by set_solver. }
  exists buf'. split_and!; [done..|]. intros py px Hpy Hpx. rewrite P' by done. split; intros Hb.
  - by rewrite decide_True by by apply elem_of_text_positions.
  - by rewrite decide_False by by rewrite elem_of_text_positions.
Qed.

(** ** A text that leaves the screen on the right *)

(** the bytes beyond the end of a line are those of the next one: what the characters from
    [k] on draw is right of the first [k], or left of them a line lower *)
Section Beyond.
Context (font : Z → Z → Z → Z) (w h x y : Z) (text : list Z) (r g b k : Z) (buf0 : list Z).
Hypothesis Hc : rgb_ok (r, g, b).
Hypothesis Hx : 0 ≤ x < w.
Hypothesis Hy : 0 ≤ y.
Hypothesis Hk : 0 ≤ k ≤ zlen text.
Hypothesis Hfit : x + 8 * k ≤ w.
Hypothesis Hlen : 8 * zlen text ≤ w.

(** the box of the first [k] characters is as it was *)
Definition box_kept (buf : list Z) : Prop :=
  is_array (w * h * 3) buf ∧
  ∀ py px, 0 ≤ py < h → x ≤ px < x + 8 * k → pixel buf w py px = pixel buf0 w py px.

Lemma beyond_pixel buf Y X on :
  box_kept buf → 0 ≤ Y → x + 8 * k ≤ X < x + w → Y * w * 3 + X * 3 < w * h * 3 →
  ∃ buf', draw_pixel on (Y * w * 3 + X * 3) r g b buf = Ok buf' ∧ box_kept buf'.
Proof.
  intros [Ha Hb] HY HX Hin.
  assert (∃ Y' X', Y * w * 3 + X * 3 = Y' * w * 3 + X' * 3 ∧ 0 ≤ Y' < h ∧ 0 ≤ X' < w ∧ ¬ x ≤ X' < x + 8 * k) as (Y' & X' & -> & HY' & HX' & Hn).
  { destruct (decide (X < w)).
    - exists Y, X. split_and!; (nia || lia).
    - exists (Y + 1), (X - w). split_and!; (nia || lia). }
  destruct (draw_pixel_spec w h Y' X' on r g b buf) as (buf' & E & A' & P'); [done..|].
  exists buf'. split; [done|]. split; [done|]. intros py px Hpy Hpx. rewrite P', Hb by lia.
  by rewrite decide_False by (intros [= -> ->]; lia).
Qed.

Lemma beyond_row i c cy cxs buf :
  k ≤ i < zlen text → 0 ≤ cy → (∀ cx, cx ∈ cxs → 0 ≤ cx < 8) → box_kept buf →
  ∃ buf', draw_row font w (w * h * 3) x y i c cy r g b buf cxs = Ok buf' ∧ box_kept buf'.
Proof.
  intros Hi Hcy. revert buf. induction cxs as [|cx cxs IH]; intros buf Hcx Hb; [by exists buf|]. cbn [draw_row].
  assert (0 ≤ cx < 8) as Hcx0 by (apply Hcx; set_solver).
  destruct (Z.leb_spec (w * h * 3) ((cy + y) * w * 3 + (x + i * 8 + cx) * 3)); [by exists buf|].
  destruct (beyond_pixel buf (cy + y) (x + i * 8 + cx) (negb (font c cy cx =? 0))) as (b1 & -> & H1); [done|lia..|].
  cbn [res_bind]. apply IH; [set_solver|done].
Qed.

Lemma beyond_chars l buf :
  (∀ i, i ∈ l → k ≤ i < zlen text) → box_kept buf →
  ∃ buf', res_fold (draw_char font w (w * h * 3) x y r g b text) buf l = Ok buf' ∧ box_kept buf'.
Proof.
  intros Hl Hb. apply (res_fold_inv box_kept); [done|]. intros s i Hs Hi%Hl. unfold draw_char.
  destruct (rd_in_range text i) as [ch ->]; [lia|]. cbn [res_bind]. apply (res_fold_inv box_kept); [done|].
  intros s' cy Hs' [Hcy _]%elem_of_zrange. apply beyond_row; [done|done| |done]. intros cx. apply elem_of_zrange.
Qed.
End Beyond.

Lemma zrange_split k n : 0 ≤ k ≤ n → ∃ l, zrange n = zrange k ++ l ∧ ∀ i, i ∈ l → k ≤ i < n.
Proof.
  intros Hk. exists (Z.of_nat <$> seq (Z.to_nat k) (Z.to_nat (n - k))). split.
  - unfold zrange. rewrite <- fmap_app. f_equal. replace (Z.to_nat n) with (Z.to_nat k + Z.to_nat (n - k))%nat by lia. apply seq_app.
  - intros i (j & -> & Hj%elem_of_seq)%list_elem_of_fmap. lia.
Qed.

Lemma res_fold_ext {A S} (f g : S → A → res S) s l :
  (∀ s x, x ∈ l → f s x = g s x) → res_fold f s l = res_fold g s l.
Proof.
  revert s. induction l as [|x l IH]; intros s H; [done|]. cbn. rewrite H by set_solver. destruct (g s x); [|done].
  cbn. apply IH. intros. apply H. set_solver.
Qed.

(** of a text that is not wider than the screen, the first [k] characters are drawn in their
    box when that is on the screen *)
Lemma draw_text_cut font w h x y text r g b k buf :
  is_array (w * h * 3) buf → rgb_ok (r, g, b) → 0 ≤ x < w → 0 ≤ k ≤ zlen text → x + 8 * k ≤ w → 8 * zlen text ≤ w →
  0 ≤ y → y + 8 ≤ h →
  ∃ buf', draw_text font w h buf x y text r g b = Ok buf' ∧ is_array (w * h * 3) buf' ∧
    ∀ py px, in_box x y (take (Z.to_nat k) text) py px →
      pixel buf' w py px = text_colour font x y (take (Z.to_nat k) text) r g b py px.
Proof.
  intros Ha Hc Hx Hk Hf Hl Hy Hh. set (pre := take (Z.to_nat k) text).
  assert (zlen pre = k) as Ep by (unfold pre, zlen in *; rewrite length_take; lia).
  destruct (draw_text_spec font w h x y pre r g b buf) as (b1 & E1 & A1 & P1); [done|done|lia..|].
  destruct (zrange_split k (zlen text) Hk) as (l & El & Hi).
  destruct (beyond_chars font w h x y text r g b k b1 Hc Hx Hy Hk Hf Hl l b1 Hi) as (b2 & E2 & A2 & P2); [by split|].
  exists b2. split_and!; [|done|].
  - unfold draw_text in *. rewrite El, res_fold_app. rewrite Ep in E1.
    rewrite (res_fold_ext _ (draw_char font w (w * h * 3) x y r g b pre)); [by rewrite E1|].
    intros s i Hi'%elem_of_zrange. unfold draw_char. f_equal. unfold rd, pre.
    rewrite lookup_take_lt by lia. done.
  - intros py px [Hpy Hpx]. rewrite P2 by lia. apply P1; [lia|lia|]. by split.
Qed.

(** ** A reader *)

(** the characters that are printed *)
Definition printable : list Z := (λ k, k + 32) <$> zrange 95.

(** the eight by eight pixels at a position: which ones are not black *)
Definition read_glyph (buf : list Z) (w y x : Z) : list bool :=
  zrange 8 ≫= λ cy, (λ cx, negb (bool_decide (pixel buf w (cy + y) (x + cx) = (0, 0, 0)))) <$> zrange 8.

(** the printed character with these pixels *)
Definition recognise (px : list bool) : option Z := snd <$> list_find (λ c, glyph c = px) printable.

(** [n] characters next to each other *)
Definition read_text (buf : list Z) (w y x n : Z) : list (option Z) :=
  (λ i, recognise (read_glyph buf w y (x + i * 8))) <$> zrange n.

(** no two printed characters look the same *)
Lemma recognise_glyph c : c ∈ printable → recognise (glyph c) = Some c.
Proof.
  assert (Forall (λ c, recognise (glyph c) = Some c) printable) as H.
  { apply (bool_decide_unpack _). vm_compute. exact I. }
  rewrite Forall_forall in H. apply H.
Qed.

Lemma land_printable c : c ∈ printable → Z.land c 127 = c.
Proof.
  assert (Forall (λ c, Z.land c 127 = c) printable) as H by (apply (bool_decide_unpack _); vm_compute; exact I).
  rewrite Forall_forall in H. apply H.
Qed.

Lemma lookup_zrange n k : (k < Z.to_nat n)%nat → zrange n !! k = Some (Z.of_nat k).
Proof. intros Hk. unfold zrange. by rewrite list_lookup_fmap, lookup_seq_lt. Qed.

(** pixels that look like the text are read as the text *)
Lemma read_text_of_colours w x y text r g b buf :
  Forall (.∈ printable) text → (r, g, b) ≠ (0, 0, 0) →
  (∀ py px, in_box x y text py px → pixel buf w py px = text_colour font_pixel x y text r g b py px) →
  read_text buf w y x (zlen text) = Some <$> text.
Proof.
  intros Ht Hc Hp. apply list_eq. intros k. unfold read_text. rewrite !list_lookup_fmap.
  destruct (text !! k) as [ch|] eqn:Ek; cycle 1.
  { rewrite (proj2 (lookup_ge_None (zrange _) k)); [done|]. apply lookup_ge_None in Ek.
    rewrite length_zrange. unfold zlen. lia. }
  pose proof (lookup_lt_Some _ _ _ Ek) as Hk.
  rewrite (lookup_zrange (zlen text) k) by (unfold zlen; lia). cbn [fmap option_fmap option_map]. f_equal.
  rewrite Forall_lookup in Ht. specialize (Ht k ch Ek). rewrite <- (recognise_glyph ch Ht). f_equal.
  unfold read_glyph, glyph. apply Forall_bind_ext, Forall_forall. intros cy Hcy%elem_of_zrange.
  apply Forall_fmap_ext_1, Forall_forall. intros cx Hcx%elem_of_zrange. rewrite Hp by (unfold in_box, zlen; lia).
  rewrite (text_colour_glyph font_pixel x y text r g b _ ch) by (try lia; by rewrite Nat2Z.id).
  rewrite land_printable by done. destruct (font_pixel ch cy cx =? 0); cbn; by rewrite bool_decide_decide; case_decide.
Qed.

(** ** The picture *)

(** the price line: what the round has it set to *)
Definition price_line (t : fb_thread) (mqtt : option (list Z)) : list Z :=
  match mqtt with Some v => btc_price ++ v | None => latest_btc t end.

(** after the two texts are drawn both can be read, when the first is below the second *)
Lemma two_texts_legible w h buf x y clock btc :
  is_array (w * h * 3) buf → 16 ≤ h → 0 ≤ x < w → 0 ≤ y → Forall (.∈ printable) btc → 8 * zlen btc ≤ w →
  ∃ b1 b2, draw_text font_pixel w h buf x y clock 255 255 255 = Ok b1 ∧
    draw_text font_pixel w h b1 0 8 btc 0 255 0 = Ok b2 ∧ is_array (w * h * 3) b2 ∧
    read_text b2 w 8 0 (zlen btc) = Some <$> btc ∧
    (∀ k, 16 ≤ y → y + 8 ≤ h → 0 ≤ k ≤ zlen clock → x + 8 * k ≤ w → 8 * zlen clock ≤ w →
      Forall (.∈ printable) clock → read_text b2 w y x k = Some <$> take (Z.to_nat k) clock).
Proof.
  intros Ha Hh Hx Hy Hb Hl. pose proof (zlen_nonneg btc).
  destruct (draw_text_array font_pixel w h buf x y clock 255 255 255) as (b1 & E1 & A1); [done|lia..|].
  destruct (draw_text_spec font_pixel w h 0 8 btc 0 255 0 b1) as (b2 & E2 & A2 & P2); [done| |lia..|].
  { by split_and!. }
  exists b1, b2. split_and!; try done.
  - apply (read_text_of_colours w 0 8 btc 0 255 0); [done..|]. intros py px Hp. apply P2; unfold in_box in Hp; (done || lia).
  - intros k Hy' Hh' Hk Hc Hw Ht.
    destruct (draw_text_cut font_pixel w h x y clock 255 255 255 k buf) as (b1' & E1' & _ & P1); [done|by split_and!|lia..|].
    assert (b1' = b1) as -> by congruence. set (pre := take (Z.to_nat k) clock) in *.
    assert (zlen pre = k) as Ep by (unfold pre, zlen in *; rewrite length_take; lia). rewrite <- Ep at 1.
    apply (read_text_of_colours w x y pre 255 255 255); [by apply Forall_take|done|]. intros py px Hp.
    assert (y ≤ py < y + 8 ∧ x ≤ px < x + 8 * zlen pre) as [Hpy Hpx] by done.
    rewrite (proj2 (P2 py px ltac:(lia) ltac:(lia))) by (unfold in_box; lia). by apply P1.
Qed.

Lemma redraw_legible w h buf rnd x y clock btc :
  is_array (w * h * 3) buf → 16 ≤ h → 0 ≤ rnd → 0 ≤ x < w → 0 ≤ y → Forall (.∈ printable) btc → 8 * zlen btc ≤ w →
  ∃ b2, redraw font_pixel w h buf rnd x y clock btc = Ok b2 ∧ is_array (w * h * 3) b2 ∧
    read_text b2 w 8 0 (zlen btc) = Some <$> btc ∧
    (∀ k, 16 ≤ y → y + 8 ≤ h → 0 ≤ k ≤ zlen clock → x + 8 * k ≤ w → 8 * zlen clock ≤ w →
      Forall (.∈ printable) clock → read_text b2 w y x k = Some <$> take (Z.to_nat k) clock).
Proof.
  intros Ha Hh Hr Hx Hy Hb Hl. pose proof (zlen_nonneg btc). unfold redraw.
  destruct (fade_array w h rnd buf) as (b0 & -> & A0); [done..|]. cbn [res_bind].
  destruct (two_texts_legible w h b0 x y clock btc) as (b1 & b2 & -> & E2 & ?); [done..|]. cbn [res_bind].
  exists b2. done.
Qed.

Lemma round_position font t fb mqtt now clock r1 r2 r3 r4 rnd t' fb' told :
  frame_buffer_round font t fb mqtt now clock r1 r2 r3 r4 rnd = Ok (t', fb', told) →
  ft_pos t' = bounce (fb_w fb) (fb_h fb) (ft_pos t) r1 r2 r3 r4.
Proof.
  unfold frame_buffer_round. destruct (has_listeners fb && _); [|by intros [= <- _ _]].
  destruct (fb_buffer fb) as [buf|]; [|done]. destruct (redraw _ _ _ _ _ _ _ _ _); [|done]. by intros [= <- _ _].
Qed.

(** C33: with the table of src/font.cpp, when a session watches, a second has passed, the
    screen has 16 lines or more and the price line is printable and not wider than the screen,
    a round of the thread of the frame buffer draws the price line so that it can be read back
    from the pixels, character for character, wherever the clock is and whatever was on the
    screen.  Where the clock is below that line and not cut at the bottom, and is printable
    and not wider than the screen, those of its characters that are not cut at the right
    edge can be read too, however far it has moved over that edge.  (The reader compares
    eight by eight pixels with the glyphs of the printed characters.) *)
Theorem screen_is_legible t fb mqtt now clock r1 r2 r3 r4 rnd :
  fb_ok fb → 16 ≤ fb_h fb → 0 ≤ r1 → 0 ≤ r2 → 0 ≤ r3 → 0 ≤ r4 → 0 ≤ rnd →
  has_listeners fb = true → 999999 ≤ u64 (now - latest_update t) →
  Forall (.∈ printable) (price_line t mqtt) → 8 * zlen (price_line t mqtt) ≤ fb_w fb →
  ∃ t' fb' buf', frame_buffer_round font_pixel t fb mqtt now clock r1 r2 r3 r4 rnd = Ok (t', fb', true) ∧
    fb_ok fb' ∧ fb_buffer fb' = Some buf' ∧ latest_btc t' = price_line t mqtt ∧ latest_update t' = now ∧
    read_text buf' (fb_w fb) 8 0 (zlen (price_line t mqtt)) = Some <$> price_line t mqtt ∧
    (∀ k, 16 ≤ bo_y (ft_pos t') → bo_y (ft_pos t') + 8 ≤ fb_h fb → 0 ≤ k ≤ zlen clock →
      bo_x (ft_pos t') + 8 * k ≤ fb_w fb → 8 * zlen clock ≤ fb_w fb → Forall (.∈ printable) clock →
      read_text buf' (fb_w fb) (bo_y (ft_pos t')) (bo_x (ft_pos t')) k = Some <$> take (Z.to_nat k) clock).
Proof.
  intros (Hw & Hh & Hb) H16 ????? Hl Hn Hp Hf. unfold frame_buffer_round. fold (price_line t mqtt).
  rewrite Hl, (proj2 (Z.leb_le _ _)) by done. destruct (fb_buffer fb) as [buf|]; [|done]. cbn [andb].
  destruct (bounce_range (fb_w fb) (fb_h fb) (ft_pos t) r1 r2 r3 r4) as [Hx Hy]; try done.
  destruct (redraw_legible (fb_w fb) (fb_h fb) buf rnd (bo_x (bounce (fb_w fb) (fb_h fb) (ft_pos t) r1 r2 r3 r4))
    (bo_y (bounce (fb_w fb) (fb_h fb) (ft_pos t) r1 r2 r3 r4)) clock (price_line t mqtt)) as (b2 & -> & A2 & R1 & R2); try done; try lia.
  cbn [res_bind]. do 3 eexists. split; [done|]. by split_and!.
Qed.

(** the picture [vnc_init] makes, with a session that watches it; the broker sent ["42000"] and the
    clock says ["12:00:00 - MyIP"] *)
Definition watched_screen : frame_buffer_t := FrameBuffer 640 480 (fb_buffer (vnc_init no_frame_buffer)) {[ 1 ]}.
Definition noon : list Z := [49; 50; 58; 48; 48; 58; 48; 48; 32; 45; 32; 77; 121; 73; 80].

(** the clock in the middle of the screen, and at its right edge, where four characters are left *)
Lemma screen_is_legible_witness :
  (∃ t' fb' buf', frame_buffer_round font_pixel (fb_thread_start watched_screen) watched_screen (Some [52; 50; 48; 48; 48])
      1000000 noon 0 0 0 0 0 = Ok (t', fb', true) ∧ fb_buffer fb' = Some buf' ∧
    read_text buf' 640 8 0 16 = Some <$> (btc_price ++ [52; 50; 48; 48; 48]) ∧
    read_text buf' 640 241 321 15 = Some <$> noon) ∧
  (∃ t' fb' buf', frame_buffer_round font_pixel (FbThread (Bouncing 600 100 1 1) 0 [72; 105]) watched_screen None
      1000000 noon 0 0 0 0 0 = Ok (t', fb', true) ∧ fb_buffer fb' = Some buf' ∧
    read_text buf' 640 8 0 2 = Some <$> [72; 105] ∧
    read_text buf' 640 101 601 4 = Some <$> [49; 50; 58; 48]).
Proof.
  split.
  - destruct (screen_is_legible (fb_thread_start watched_screen) watched_screen (Some [52; 50; 48; 48; 48])
      1000000 noon 0 0 0 0 0) as (t' & fb' & buf' & E & _ & Eb & _ & _ & R1 & R2);
      [exact vnc_init_ok|cbn; lia|lia|lia|lia|lia|lia|reflexivity|vm_compute; discriminate
      |apply (bool_decide_unpack _); vm_compute; exact I|vm_compute; discriminate|].
    assert (ft_pos t' = Bouncing 321 241 1 1) as Hp.
    { apply round_position in E. rewrite E. reflexivity. }
    exists t', fb', buf'. rewrite Hp in R2. split; [exact E|]. split; [exact Eb|]. split; [exact R1|].
    apply (R2 15); [cbn; lia|cbn; lia|vm_compute; split; discriminate|vm_compute; discriminate|vm_compute; discriminate|].
    apply (bool_decide_unpack _). vm_compute. exact I.
  - destruct (screen_is_legible (FbThread (Bouncing 600 100 1 1) 0 [72; 105]) watched_screen None
      1000000 noon 0 0 0 0 0) as (t' & fb' & buf' & E & _ & Eb & _ & _ & R1 & R2);
      [exact vnc_init_ok|cbn; lia|lia|lia|lia|lia|lia|reflexivity|vm_compute; discriminate
      |apply (bool_decide_unpack _); vm_compute; exact I|vm_compute; discriminate|].
    assert (ft_pos t' = Bouncing 601 101 1 1) as Hp.
    { apply round_position in E. rewrite E. reflexivity. }
    exists t', fb', buf'. rewrite Hp in R2. split; [exact E|]. split; [exact Eb|]. split; [exact R1|].
    apply (R2 4); [cbn; lia|cbn; lia|vm_compute; split; discriminate|vm_compute; discriminate|vm_compute; discriminate|].
    apply (bool_decide_unpack _). vm_compute. exact I.
Defined.

(** what is beyond the right edge is drawn at the left one, a line lower: half of an M at the
    right edge of a screen of 16 pixels *)
Lemma text_wraps :
  ∃ buf, draw_text font_pixel 16 10 (replicate 480 0) 12 0 [77] 255 255 255 = Ok buf ∧
    pixel buf 16 1 0 = (255, 255, 255) ∧ text_colour font_pixel 12 0 [77] 255 255 255 0 16 = (255, 255, 255).
Proof. eexists. split; [vm_compute; reflexivity|]. split; vm_compute; reflexivity. Qed.
