(* ===== verification/Top.v ===== *)
(** * The viewer of the statistics (src/myiptop.cpp)

    A program of its own that maps the shared memory segment of Stats.v and shows the
    counters: as JSON, as lines of text, or on a screen with a list of groups of which one is
    selected.  ncurses, [getopt] and the [%.2f] of [printf] are arguments: what the program
    prints is a list of calls, what the user types a list of keys.  The segment changes while
    the viewer runs, so every round is given the bytes it has then.

    Shown: the viewer finds each registered name once, under what is before its first
    underscore, and goes on showing the value its counter has, whatever the program does to
    the segment in the meantime; the lines of text are the table; the selection stays on the
    list. *)
From stdpp Require Import strings sorting.
From S2P Require Import Prelude Str Stats Sip.
Open Scope Z_scope.

(** ** The walk through the segment *)

(** [while(cur_p < p_end && cur_p[16]) { ...; cur_p += 48; }] *)
Fixpoint walk_slots {S} (f : Z → S → res S) (fuel : nat) (p : list Z) (size cur : Z) (s : S) : res S :=
  match fuel with
  | O => Err out_of_fuel
  | S fuel' =>
      if cur <? size then
        let* c := rd p (cur + 16) in
        if c =? 0 then Ok s
        else let* s := f cur s in walk_slots f fuel' p size (cur + 48) s
      else Ok s
  end.
Definition walk_segment {S} (f : Z → S → res S) (p : list Z) (size : Z) (s : S) : res S :=
  walk_slots f (Z.to_nat size + 1) p size 0 s.

(** the text at [&cur_p[16]] *)
Definition name_at (p : list Z) (cur : Z) : str := c_str (ptr_at p (cur + 16)).

(** [name.substr(0, name.find('_'))] *)
Definition name_prefix (name : str) : str := match find [95] name with Some n => take n name | None => name end.

(** ** The groups: [std::map::insert] keeps what is there *)

Definition top_groups := gmap str (gmap str Z).

Definition add_name (name : str) (cnt_p : Z) (values : top_groups) : top_groups :=
  match values !! name_prefix name with
  | None => <[name_prefix name := {[ name := cnt_p ]}]> values
  | Some m => <[name_prefix name := match m !! name with Some _ => m | None => <[name := cnt_p]> m end]> values
  end.

Definition collect_names (p : list Z) (size : Z) : res top_groups :=
  walk_segment (λ cur values, Ok (add_name (name_at p cur) cur values)) p size ∅.

(** ** The screen *)

Inductive window := win_names | win_values.

(** a call of [mvwprintw] *)
Record mvwprintw := Printw { pw_win : window; pw_y : Z; pw_x : Z; pw_text : str }.

Section Screen.
(** the text of [%.2f] for the quotient of two counters *)
Context (fmt_quotient2 : Z → Z → str).

Definition counter_text (cnt cnt2 : Z) : str := if cnt2 =? 0 then fmt_dec cnt else fmt_quotient2 cnt cnt2.

(** one counter of the selected group; [nr2 % maxy] *)
Definition draw_entry (p : list Z) (maxy : Z) (out : list mvwprintw) (x : nat * (str * Z)) : res (list mvwprintw) :=
  if maxy =? 0 then Err bad_access
  else
    let nr2 := Z.of_nat x.1 in
    let row := Z.rem nr2 maxy in
    let col := Z.quot nr2 maxy * 38 in
    let* cnt2 := counter_at p (Some x.2.2) 8 in
    let* cnt := counter_at p (Some x.2.2) 0 in
    Ok (out ++ [Printw win_values row col x.2.1; Printw win_values row (col + 29) (counter_text cnt cnt2)]).

Definition draw_group (p : list Z) (maxy cursor : Z) (out : list mvwprintw) (x : nat * (str * gmap str Z)) : res (list mvwprintw) :=
  let nr := Z.of_nat x.1 in
  let out := out ++ [Printw win_names (nr + 1) 1 ((if nr =? cursor then [62] else [32]) ++ x.2.1)] in
  if nr =? cursor then res_fold (draw_entry p maxy) out (imap (λ i e, (i, e)) (in_order x.2.2)) else Ok out.

(** what a round prints after the windows are erased *)
Definition draw_screen (p : list Z) (maxy : Z) (hms : str) (values : top_groups) (cursor : Z) : res (list mvwprintw) :=
  res_fold (draw_group p maxy cursor) [Printw win_names 0 0 hms] (imap (λ i e, (i, e)) (in_order values)).

(** [KEY_UP], [KEY_DOWN]; [None]: the loop ends.  [cursor < values.size() - 1] compares
    unsigned numbers *)
Definition KEY_DOWN : Z := 258.
Definition KEY_UP : Z := 259.
Definition handle_key (n_values cursor c : Z) : option Z :=
  if (c =? KEY_UP) && (0 <? cursor) then Some (cursor - 1)
  else if (c =? KEY_DOWN) && (u64 cursor <? u64 (n_values - 1)) then Some (cursor + 1)
  else if c =? 113 then None
  else Some cursor.

(** the loop: for every round the bytes of the segment, the time and the key, if one was typed *)
Fixpoint ui_rounds (maxy : Z) (values : top_groups) (cursor : Z) (rounds : list (list Z * str * option Z)) : res (list (list mvwprintw)) :=
  match rounds with
  | [] => Ok []
  | (p, hms, key) :: rounds' =>
      let* screen := draw_screen p maxy hms values cursor in
      match key with
      | None => let* rest := ui_rounds maxy values cursor rounds' in Ok (screen :: rest)
      | Some c =>
          match handle_key (Z.of_nat (size values)) cursor c with
          | Some cursor => let* rest := ui_rounds maxy values cursor rounds' in Ok (screen :: rest)
          | None => Ok [screen]
          end
      end
  end.

Definition ncurses_ui (p : list Z) (psize maxy : Z) (rounds : list (list Z * str * option Z)) : res (list (list mvwprintw)) :=
  let* values := collect_names p psize in
  ui_rounds maxy values 0 rounds.

(** ** Lines of text *)

Definition stat_line (p : list Z) (cur : Z) (out : str) : res str :=
  let* cnt2 := counter_at p (Some cur) 8 in
  let* cnt := counter_at p (Some cur) 0 in
  Ok (out ++ name_at p cur ++ [9] ++ counter_text cnt cnt2 ++ [10]).

Definition print_segment (p : list Z) (size : Z) : res str := walk_segment (stat_line p) p size [10].

(** [for(; count == -1 || nr++ < count;)], with what every round prints and whether it sleeps; the
    segment is given for as many rounds as are looked at *)
Fixpoint print_rounds (count nr size : Z) (segments : list (list Z)) : res (list (str * bool)) :=
  match segments with
  | [] => Ok []
  | p :: segments' =>
      if (count =? -1) || (nr <? count) then
        let nr := if count =? -1 then nr else nr + 1 in
        let* out := print_segment p size in
        let* rest := print_rounds count nr size segments' in
        Ok ((out, (nr <? count) || (count =? -1)) :: rest)
      else Ok []
  end.
End Screen.

(** ** The options: what [getopt] returns, with its argument *)

Record top_options := TopOptions { to_count : Z; to_json : bool; to_nc : bool }.

(** [None]: the help is printed and the program ends *)
Fixpoint top_parse_options (o : top_options) (opts : list (Z * str)) : option top_options :=
  match opts with
  | [] => Some o
  | (c, optarg) :: opts' =>
      if c =? 106 then top_parse_options (TopOptions (to_count o) true (to_nc o)) opts'
      else if c =? 99 then top_parse_options (TopOptions (atoi optarg) (to_json o) (to_nc o)) opts'
      else if c =? 110 then top_parse_options (TopOptions (to_count o) (to_json o) true) opts'
      else if c =? 104 then None
      else top_parse_options o opts'
  end.

(** what the program shows *)
Inductive top_output :=
  | top_help
  | top_failed
  | top_json (text : res str)
  | top_screens (screens : res (list (list mvwprintw)))
  | top_lines (rounds : res (list (str * bool))).

(** [segments]: the segment at the start, [None] when it cannot be mapped, and what the rounds see of it *)
Definition top_main (fmt_quotient fmt_quotient2 : Z → Z → str) (opts : list (Z * str)) (segment : option (list Z)) (maxy : Z)
    (rounds : list (list Z * str * option Z)) : top_output :=
  match top_parse_options (TopOptions (-1) false false) opts with
  | None => top_help
  | Some o =>
      match segment with
      | None => top_failed
      | Some p =>
          if to_json o then top_json (stats_to_json fmt_quotient p [] (zlen p))
          else if to_nc o then top_screens (ncurses_ui fmt_quotient2 p (zlen p) maxy rounds)
          else top_lines (print_rounds fmt_quotient2 (to_count o) 0 (zlen p) ((λ r, r.1.1) <$> rounds))
      end
  end.

(** ** The walk visits the slots of the table *)

Definition offsets (cur : Z) (n : nat) : list Z := (λ i, cur + 48 * Z.of_nat i) <$> seq 0 n.

Lemma offsets_cons cur n : offsets cur (S n) = cur :: offsets (cur + 48) n.
Proof.
  unfold offsets. cbn [seq fmap list_fmap]. f_equal; [lia|]. rewrite <- fmap_S_seq, <- list_fmap_compose.
  apply list_fmap_ext. intros i x _. unfold compose. lia.
Qed.

Lemma offsets_snoc cur n : offsets cur (S n) = offsets cur n ++ [cur + 48 * Z.of_nat n].
Proof. unfold offsets. by rewrite seq_S, fmap_app. Qed.

Lemma walk_slots_spec {S} (f : Z → S → res S) t fuel pre z size s :
  Forall slot_ok t → size = zlen pre + 48 * zlen t + Z.of_nat z → (z = O ∨ 17 ≤ z)%nat → (length t < fuel)%nat →
  walk_slots f fuel (pre ++ (t ≫= slot_bytes) ++ replicate z 0) size (zlen pre) s =
  res_fold (λ s cur, f cur s) s (offsets (zlen pre) (length t)).
Proof.
  intros F. revert fuel pre s. induction F as [|x t Hx F IH]; intros [|fuel] pre s Hs Hz Hf; cbn [length] in Hf; try lia.
  - change (zlen (@nil stat_slot)) with 0 in Hs. cbn [walk_slots]. destruct (Z.ltb_spec (zlen pre) size) as [Hlt|_]; [|done].
    destruct Hz as [->|Hz]; [lia|].
    rewrite (proj2 (rd_Ok _ _ 0)); [done|]. pose proof (zlen_nonneg pre). split; [lia|]. unfold zlen. cbn [mbind list_bind app].
    rewrite lookup_app_r by lia. apply lookup_replicate_2. lia.
  - rewrite bind_cons, <- app_assoc. cbn [walk_slots length]. pose proof (zlen_nonneg t). rewrite zlen_cons in Hs.
    destruct (Z.ltb_spec (zlen pre) size) as [_|?]; [|lia].
    destruct (read_name pre x ((t ≫= slot_bytes) ++ replicate z 0) Hx) as [(c & -> & Hc) _]. cbn [res_bind].
    destruct (Z.eqb_spec c 0) as [?|_]; [done|]. rewrite offsets_cons. cbn [res_fold].
    destruct (f (zlen pre) s) as [s1|e]; [|done]. cbn [res_bind]. rewrite app_assoc.
    assert (zlen pre + 48 = zlen (pre ++ slot_bytes x)) as -> by (rewrite zlen_app; unfold zlen; rewrite length_slot by done; lia).
    apply IH; [rewrite zlen_app; unfold zlen in *; rewrite length_slot by done; lia|done|lia].
Qed.

(** the segment ends after the last slot, or there is room for the test of the next name *)
Definition walkable (size : Z) (t : list stat_slot) : Prop := 48 * zlen t = size ∨ 48 * zlen t + 17 ≤ size.

Lemma walk_rep {S} (f : Z → S → res S) s t (x : S) :
  table_rep s t → walkable (st_size s) t →
  walk_segment f (st_mem s) (st_size s) x = res_fold (λ x cur, f cur x) x (offsets 0 (length t)).
Proof.
  intros (F & _ & B & M) Hz. unfold walk_segment. rewrite M. unfold walkable in Hz.
  pose proof (walk_slots_spec f t (Z.to_nat (st_size s) + 1) [] (Z.to_nat (st_size s - 48 * zlen t)) (st_size s) x F) as L.
  cbn [app] in L. change (zlen (@nil Z)) with 0 in L. apply L; unfold zlen in *; lia.
Qed.

(** what is read through the pointer to a slot *)
Lemma slot_read s t i x :
  table_rep s t → t !! i = Some x →
  counter_at (st_mem s) (Some (48 * Z.of_nat i)) 0 = Ok (sl_count x) ∧
  counter_at (st_mem s) (Some (48 * Z.of_nat i)) 8 = Ok (sl_n x) ∧ name_at (st_mem s) (48 * Z.of_nat i) = sl_name x.
Proof.
  intros (F & _ & _ & M) Hx. destruct (slot_split _ _ _ F Hx) as (pre & post & E & <- & _).
  rewrite M, E, <- !app_assoc. pose proof (proj1 (Forall_lookup _ _) F _ _ Hx) as Ox.
  destruct (counters_read pre x (post ++ replicate (Z.to_nat (st_size s - 48 * zlen t)) 0) Ox) as [-> ->]. split_and!; [done..|].
  apply (read_name pre x (post ++ replicate (Z.to_nat (st_size s - 48 * zlen t)) 0) Ox).
Qed.

(** ** The groups *)

(** the slot a name is registered in first *)
Definition first_index (t : list stat_slot) (name : str) : option nat := fst <$> list_find (λ x, sl_name x = name) t.

Lemma first_index_snoc t x name :
  first_index (t ++ [x]) name =
  match first_index t name with Some i => Some i | None => if decide (sl_name x = name) then Some (length t) else None end.
Proof.
  unfold first_index. induction t as [|y t IH]; cbn [app list_find].
  - by case_decide.
  - destruct (decide (sl_name y = name)); [done|].
    destruct (list_find _ (t ++ [x])) as [[i v]|], (list_find _ t) as [[j v']|]; cbn in *; repeat case_decide; by simplify_eq.
Qed.

Lemma first_index_Some t name i : first_index t name = Some i → ∃ x, t !! i = Some x ∧ sl_name x = name.
Proof.
  unfold first_index. intros ([j x] & E & ->)%fmap_Some. apply list_find_Some in E as (E & Hn & _). by exists x.
Qed.

Definition group_at (values : top_groups) (prefix name : str) : option Z := values !! prefix ≫= λ m, m !! name.

Lemma group_at_add name p values prefix n :
  group_at (add_name name p values) prefix n =
  match group_at values prefix n with
  | Some q => Some q
  | None => if decide (prefix = name_prefix name ∧ n = name) then Some p else None
  end.
Proof.
  unfold group_at, add_name, top_groups in *. destruct (decide (prefix = name_prefix name)) as [->|Hp].
  - destruct (values !! name_prefix name) as [m|] eqn:Em; rewrite lookup_insert_eq; cbn [mbind option_bind].
    + destruct (decide (n = name)) as [->|Hn].
      * destruct (m !! name) as [q|] eqn:Eq; [by rewrite Eq|]. by rewrite lookup_insert_eq, decide_True.
      * rewrite decide_False by tauto. destruct (m !! name); [by destruct (m !! n)|].
        rewrite lookup_insert_ne by done. by destruct (m !! n).
    + destruct (decide (n = name)) as [->|Hn]; [by rewrite lookup_singleton_eq, decide_True|].
      rewrite lookup_singleton_ne by done. by rewrite decide_False by tauto.
  - rewrite decide_False by tauto.
    destruct (values !! name_prefix name) as [m|]; rewrite lookup_insert_ne by done; by destruct (values !! prefix ≫= _).
Qed.

(** every name is in the group of its prefix, with the pointer to its first slot *)
Definition collected (t : list stat_slot) (values : top_groups) : Prop :=
  ∀ prefix name, group_at values prefix name =
    if decide (prefix = name_prefix name) then (λ i, 48 * Z.of_nat i) <$> first_index t name else None.

Lemma collect_rep s t :
  table_rep s t → walkable (st_size s) t →
  ∃ values, collect_names (st_mem s) (st_size s) = Ok values ∧ collected t values.
Proof.
  intros R Hw. unfold collect_names. rewrite (walk_rep _ s t) by done.
  assert (∀ k, (k ≤ length t)%nat → ∃ values,
    res_fold (λ values cur, Ok (add_name (name_at (st_mem s) cur) cur values)) ∅ (offsets 0 k) = Ok values ∧
    collected (take k t) values) as H.
  { induction k as [|k IH]; intros Hk.
    - exists ∅. split; [done|]. intros prefix name. unfold group_at, top_groups. rewrite lookup_empty. cbn. by case_decide.
    - destruct IH as (values & E & C); [lia|]. destruct (lookup_lt_is_Some_2 t k) as [x Hx]; [lia|].
      exists (add_name (sl_name x) (48 * Z.of_nat k) values).
      rewrite offsets_snoc, res_fold_app, E. cbn [res_bind res_fold]. rewrite Z.add_0_l.
      destruct (slot_read s t k x R Hx) as (_ & _ & ->). split; [done|].
      intros prefix name. rewrite group_at_add, C, (take_S_r t k x Hx), first_index_snoc, length_take_le by lia.
      repeat case_decide; destruct (first_index (take k t) name); cbn; try done; naive_solver. }
  destruct (H (length t)) as (values & E & C); [done|]. exists values. split; [done|]. by rewrite take_ge in C.
Qed.

(** ** The screen shows the counters as they are *)

(** a slot keeps its name *)
Lemma table_op_keeps t o i x : t !! i = Some x → ∃ x', table_op t o !! i = Some x' ∧ sl_name x' = sl_name x.
Proof.
  intros Hx. destruct o as [name|j|j v|j v|j v]; cbn [table_op].
  { exists x. split; [|done]. by apply lookup_app_l_Some. }
  all: rewrite list_lookup_alter; case_decide; [|by exists x]; subst; rewrite Hx; eexists; split; [done|done].
Qed.

Lemma table_ops_keep ops t i x : t !! i = Some x → ∃ x', foldl table_op t ops !! i = Some x' ∧ sl_name x' = sl_name x.
Proof.
  revert t x. induction ops as [|o ops IH]; intros t x Hx; [by exists x|]. cbn [foldl].
  destruct (table_op_keeps t o i x Hx) as (x1 & H1 & N1). destruct (IH _ _ H1) as (x2 & H2 & N2).
  exists x2. split; [done|congruence].
Qed.

Section ScreenSpec.
Context (fmt_quotient2 : Z → Z → str) (s' : stats) (t' : list stat_slot) (maxy : Z).
Hypothesis R' : table_rep s' t'.
Hypothesis Hmaxy : 0 < maxy.

(** the pointers of the groups lead to slots of the table *)
Definition pointers_ok (values : top_groups) : Prop :=
  ∀ prefix name p, group_at values prefix name = Some p → ∃ i x, p = 48 * Z.of_nat i ∧ t' !! i = Some x.

Definition slot_of (p : Z) : stat_slot := default (Slot [] 0 0) (t' !! Z.to_nat (p / 48)).

Definition entry_prints (x : nat * (str * Z)) : list mvwprintw :=
  let nr2 := Z.of_nat x.1 in
  [Printw win_values (Z.rem nr2 maxy) (Z.quot nr2 maxy * 38) x.2.1;
   Printw win_values (Z.rem nr2 maxy) (Z.quot nr2 maxy * 38 + 29)
     (counter_text fmt_quotient2 (sl_count (slot_of x.2.2)) (sl_n (slot_of x.2.2)))].

Definition numbered {A} (l : list A) : list (nat * A) := imap (λ i e, (i, e)) l.

Definition group_prints (cursor : Z) (x : nat * (str * gmap str Z)) : list mvwprintw :=
  Printw win_names (Z.of_nat x.1 + 1) 1 ((if Z.of_nat x.1 =? cursor then [62] else [32]) ++ x.2.1) ::
  (if Z.of_nat x.1 =? cursor then numbered (in_order x.2.2) ≫= entry_prints else []).

Lemma slot_of_offset i x : t' !! i = Some x → slot_of (48 * Z.of_nat i) = x.
Proof.
  intros Hx. unfold slot_of. rewrite Z.mul_comm, Z.div_mul, Nat2Z.id by lia. by rewrite Hx.
Qed.

Lemma elem_of_numbered {A} (l : list A) i e : (i, e) ∈ numbered l ↔ l !! i = Some e.
Proof.
  unfold numbered. rewrite elem_of_lookup_imap. split.
  - by intros (j & y & [= -> ->] & ?).
  - intros Hl. by exists i, e.
Qed.

Lemma draw_group_spec values cursor out x :
  pointers_ok values → x ∈ numbered (in_order values) →
  draw_group fmt_quotient2 (st_mem s') maxy cursor out x = Ok (out ++ group_prints cursor x).
Proof.
  destruct x as [nr [prefix m]]. intros Hp Hx%elem_of_numbered%list_elem_of_lookup_2%elem_of_in_order. cbn in Hx.
  unfold draw_group, group_prints. cbn [fst snd]. destruct (Z.of_nat nr =? cursor); [|done].
  unfold numbered. rewrite (res_fold_appends _ entry_prints); [by rewrite <- app_assoc|].
  intros pre [k [name p]] post E. rewrite app_assoc. unfold draw_entry. cbn [fst snd].
  rewrite (proj2 (Z.eqb_neq maxy 0)) by lia.
  assert (m !! name = Some p) as Hn.
  { apply (elem_of_in_order m (name, p)). apply (list_elem_of_lookup_2 _ k). apply elem_of_numbered. unfold numbered. rewrite E. set_solver. }
  destruct (Hp prefix name p) as (i & y & -> & Hy). { unfold group_at, top_groups in *. by rewrite Hx. }
  destruct (slot_read s' t' i y R' Hy) as (-> & -> & _). cbn [res_bind]. unfold entry_prints. cbn [fst snd].
  by rewrite (slot_of_offset i y Hy).
Qed.

Lemma draw_screen_spec hms values cursor :
  pointers_ok values →
  draw_screen fmt_quotient2 (st_mem s') maxy hms values cursor =
  Ok (Printw win_names 0 0 hms :: (numbered (in_order values) ≫= group_prints cursor)).
Proof.
  intros Hp. unfold draw_screen. fold (numbered (in_order values)).
  rewrite (res_fold_appends _ (group_prints cursor)); [done|]. intros pre x post E. rewrite app_assoc.
  apply (draw_group_spec values); [done|]. rewrite E. set_solver.
Qed.
End ScreenSpec.

(** a name of the selected group is on the screen, next to the value of its counter *)
Definition shows (out : list mvwprintw) (name value : str) : Prop :=
  ∃ y x, Printw win_values y x name ∈ out ∧ Printw win_values y (x + 29) value ∈ out.

Lemma selected_shown fq t' maxy hms values cursor prefix m name p :
  in_order values !! cursor = Some (prefix, m) → m !! name = Some p →
  shows (Printw win_names 0 0 hms :: (numbered (in_order values) ≫= group_prints fq t' maxy (Z.of_nat cursor)))
    name (counter_text fq (sl_count (slot_of t' p)) (sl_n (slot_of t' p))).
Proof.
  intros Hc Hn. apply (elem_of_in_order m (name, p)), list_elem_of_lookup in Hn as [k Hk].
  assert (∀ e, e ∈ entry_prints fq t' maxy (k, (name, p)) →
    e ∈ Printw win_names 0 0 hms :: (numbered (in_order values) ≫= group_prints fq t' maxy (Z.of_nat cursor))) as H.
  { intros e He. right. apply list_elem_of_bind. exists (cursor, (prefix, m)). split; [|by apply elem_of_numbered].
    unfold group_prints. cbn [fst snd]. rewrite Z.eqb_refl. right. apply list_elem_of_bind. exists (k, (name, p)).
    split; [done|]. by apply elem_of_numbered. }
  exists (Z.rem (Z.of_nat k) maxy), (Z.quot (Z.of_nat k) maxy * 38). split; apply H; unfold entry_prints; set_solver.
Qed.

(** the lines of text *)
Definition table_lines (fq : Z → Z → str) (t : list stat_slot) : str :=
  t ≫= λ x, sl_name x ++ [9] ++ counter_text fq (sl_count x) (sl_n x) ++ [10].

Lemma print_rep fq s t :
  table_rep s t → walkable (st_size s) t →
  print_segment fq (st_mem s) (st_size s) = Ok ([10] ++ table_lines fq t).
Proof.
  intros R Hw. unfold print_segment. rewrite (walk_rep _ s t) by done.
  assert (∀ k, (k ≤ length t)%nat →
    res_fold (λ out cur, stat_line fq (st_mem s) cur out) [10] (offsets 0 k) = Ok ([10] ++ table_lines fq (take k t))) as H.
  { induction k as [|k IH]; intros Hk; [done|]. destruct (lookup_lt_is_Some_2 t k) as [x Hx]; [lia|].
    rewrite offsets_snoc, res_fold_app, IH by lia. cbn [res_bind res_fold]. unfold stat_line. rewrite Z.add_0_l.
    destruct (slot_read s t k x R Hx) as (-> & -> & ->). cbn [res_bind].
    unfold table_lines. rewrite (take_S_r t k x Hx), bind_app. cbn [mbind list_bind]. by rewrite app_nil_r, <- !app_assoc. }
  rewrite H by done. by rewrite take_ge.
Qed.

(** the selection stays on the list *)
Lemma cursor_in_range n cursor c c' :
  0 ≤ cursor < n → n < 2 ^ 31 → handle_key n cursor c = Some c' → 0 ≤ c' < n.
Proof.
  intros Hc Hn. unfold handle_key, u64. rewrite !Z.mod_small by lia.
  destruct (c =? KEY_UP), (Z.ltb_spec 0 cursor), (c =? KEY_DOWN), (Z.ltb_spec cursor (n - 1)), (c =? 113);
    cbn [andb]; intros E; simplify_eq; lia.
Qed.

(** with no counters at all the selection moves down without end *)
Lemma empty_list_cursor_runs cursor : 0 ≤ cursor < 2 ^ 31 → handle_key 0 cursor KEY_DOWN = Some (cursor + 1).
Proof.
  intros Hc. unfold handle_key. change (u64 (0 - 1)) with (2 ^ 64 - 1). unfold u64. rewrite Z.mod_small by lia.
  change (KEY_DOWN =? KEY_UP) with false. change (KEY_DOWN =? KEY_DOWN) with true. cbn [andb].
  by rewrite (proj2 (Z.ltb_lt cursor _)) by lia.
Qed.

(** C37: the viewer shows the statistics of the running program.  It reads the names from the
    segment once, after any sequence of registrations and updates, and has each under what is
    before its first underscore, with a pointer to the slot it was registered in first, and
    nothing else.  Whatever is registered and counted afterwards, drawing the screen does not
    fault, and each name of the selected group is printed next to the value its counter has
    at that moment; the lines of the text mode are the table of that moment. *)
Theorem top_shows_counters fq size sd ops ops' maxy hms :
  0 ≤ size → ops_ok size [] ops → 0 < maxy →
  let t := foldl table_op [] ops in
  let t' := foldl table_op t ops' in
  walkable size t → ops_ok size t ops' → walkable size t' →
  ∃ s s' values, res_fold stats_op (new_stats size sd) ops = Ok s ∧ res_fold stats_op s ops' = Ok s' ∧
    collect_names (st_mem s) size = Ok values ∧ collected t values ∧
    print_segment fq (st_mem s') size = Ok ([10] ++ table_lines fq t') ∧
    ∀ cursor, ∃ out, draw_screen fq (st_mem s') maxy hms values (Z.of_nat cursor) = Ok out ∧
      ∀ m name i, in_order values !! cursor = Some (name_prefix name, m) → first_index t name = Some i →
        ∃ x, t' !! i = Some x ∧ sl_name x = name ∧ shows out name (counter_text fq (sl_count x) (sl_n x)).
Proof.
  intros Hs Ho Hm t t' Hw Ho' Hw'.
  destruct (stats_ops_rep ops (new_stats size sd) [] (new_stats_rep size sd Hs) Ho) as (s & E & R & Z1). cbn in Z1.
  destruct (stats_ops_rep ops' s t R) as (s' & E' & R' & Z2); [by rewrite Z1|].
  destruct (collect_rep s t R) as (values & Ev & C); [by rewrite Z1|].
  exists s, s', values. rewrite Z1 in Ev. split_and!; try done.
  { rewrite <- Z1, <- Z2. apply print_rep; [done|]. by rewrite Z2, Z1. }
  assert (pointers_ok t' values) as Hp.
  { intros prefix name p Hg. rewrite C in Hg. case_decide; [|done]. apply fmap_Some in Hg as (i & Hi & ->).
    apply first_index_Some in Hi as (x & Hx & _). destruct (table_ops_keep ops' t i x Hx) as (x' & Hx' & _). by exists i, x'. }
  intros cursor. rewrite (draw_screen_spec fq s' t' maxy R' Hm) by done. eexists. split; [done|].
  intros m name i Hc Hi. pose proof (C (name_prefix name) name) as Hg. rewrite decide_True, Hi in Hg by done.
  destruct (first_index_Some _ _ _ Hi) as (x & Hx & Nx). destruct (table_ops_keep ops' t i x Hx) as (x' & Hx' & Nx').
  exists x'. split_and!; [done|congruence|]. rewrite <- (slot_of_offset t' i x' Hx').
  apply (selected_shown fq t' maxy hms values cursor (name_prefix name) m); [done|].
  apply list_elem_of_lookup_2, elem_of_in_order in Hc. cbn in Hc. unfold group_at, top_groups in *. by rewrite Hc in Hg.
Qed.

Definition later_example : list stat_op := [op_inc 0; op_average 1 1; op_register (lit "tcp_syn"); op_inc 2].

(** after the example of Stats.v the program goes on counting; the second group is selected *)
Lemma top_shows_counters_witness :
  ∃ s s' values out, res_fold stats_op (new_stats 16384 []) stats_example = Ok s ∧ res_fold stats_op s later_example = Ok s' ∧
    collect_names (st_mem s) 16384 = Ok values ∧
    draw_screen (λ a b, fmt_dec (a / b)) (st_mem s') 24 (lit "12:00:00") values 1 = Ok out ∧ shows out (lit "tcp_latency") (lit "5").
Proof.
  destruct (top_shows_counters (λ a b, fmt_dec (a / b)) 16384 [] stats_example later_example 24 (lit "12:00:00"))
    as (s & s' & values & E & E' & Ev & _ & _ & H).
  - lia.
  - unfold stats_example. cbn [ops_ok op_ok table_op length app].
    repeat split; try (cbn; lia); try (vm_compute; congruence); by refine (bool_decide_unpack _ _).
  - lia.
  - right. vm_compute. congruence.
  - unfold later_example. change (foldl table_op [] stats_example) with [Slot (lit "ip_n_pkt") 5 0; Slot (lit "tcp_latency") 15 2].
    cbn [ops_ok op_ok table_op length app alter list_alter sl_name sl_count sl_n].
    repeat split; try (cbn; lia); try (vm_compute; congruence); by refine (bool_decide_unpack _ _).
  - right. vm_compute. congruence.
  - destruct (H 1%nat) as (out & Eo & Hs). exists s, s', values, out.
    split; [exact E|]. split; [exact E'|]. split; [exact Ev|]. split; [exact Eo|].
    assert (∃ values0, collect_names (st_mem (ok_or (new_stats 0 []) (res_fold stats_op (new_stats 16384 []) stats_example))) 16384 = Ok values0
      ∧ in_order values0 !! 1%nat = Some (name_prefix (lit "tcp_latency"), {[ lit "tcp_latency" := 48 ]})) as (v0 & Ev0 & Hv0).
    { eexists. split; [vm_compute; reflexivity|]. vm_compute. reflexivity. }
    rewrite E in Ev0. cbn [ok_or] in Ev0. rewrite Ev in Ev0. injection Ev0 as <-.
    destruct (Hs {[ lit "tcp_latency" := 48 ]} (lit "tcp_latency") 1%nat) as (x & Hx & _ & Hsh).
    + exact Hv0.
    + reflexivity.
    + vm_compute in Hx. injection Hx as <-. exact Hsh.
Defined.

(** a name that is registered again, as the TCP layers of IPv4 and IPv6 do, is not shown again: the
    counters of the second layer are not on the screen *)
Lemma second_layer_hidden :
  ∃ s, res_fold stats_op (new_stats 16384 []) [op_register (lit "tcp_syn"); op_register (lit "tcp_syn"); op_inc 1] = Ok s ∧
    collect_names (st_mem s) 16384 = Ok {[ lit "tcp" := {[ lit "tcp_syn" := 0 ]} ]}.
Proof. eexists. split; [vm_compute; reflexivity|]. vm_compute. reflexivity. Qed.
