(* ===== verification/Setup.v ===== *)
(** * Devices and sockets of the host (the constructors of src/phys_tap.cpp, src/phys_promiscuous.cpp,
    src/phys_kiss.cpp, src/phys_slip.cpp, src/phys_ppp.cpp, src/socks_proxy.cpp and src/ud.cpp,
    src/tty.cpp and the sockets of src/net.cpp)

    What the drivers ask of the operating system when they are made.  A set-up function is a
    tree: a call with its arguments, and how it goes on for each answer of the kernel.
    [getaddrinfo], [inet_aton] and [inet_pton] are arguments.  The kernel is what the trees
    leave open: its answers are arbitrary, except that a new descriptor is one that is not in
    use and that a call on a descriptor that is not open fails.

    Shown: whatever the kernel answers, a set-up function that returns hands over exactly one
    new descriptor, or -1 and none, and everything else it opened is closed again.  Lemmas
    state where an interface name leaves its array and where an address that cannot be parsed
    or a local address is served to everybody. *)
From stdpp Require Import strings.
From S2P Require Import Prelude Str Sip.
Open Scope Z_scope.

(** ** Calls of the operating system *)

(** a socket address *)
Inductive sockaddr :=
  | sa_in (port : Z) (addr : list Z)
  | sa_in6 (port : Z) (addr : list Z)
  | sa_un (path : str)
  | sa_ll (ifindex : Z)
  | sa_other (family : Z) (bytes : list Z).

Inductive sock_domain := AF_INET | AF_INET6 | AF_UNIX | PF_PACKET | af (n : Z).
Inductive sock_type := SOCK_STREAM | SOCK_DGRAM | SOCK_RAW | st_type (n : Z).
Inductive sock_option := SO_REUSEADDR (on : bool) | TCP_NODELAY (on : bool) | TCP_FASTOPEN (qlen : Z) | SO_BINDTODEVICE (dev : str).

(** [struct termios] with the speed for sending and for receiving *)
Record termios := Termios { c_iflag : Z; c_oflag : Z; c_cflag : Z; c_lflag : Z; c_vmin : Z; c_vtime : Z; c_ospeed : Z; c_ispeed : Z }.

Inductive ioctl_request :=
  | TUNSETIFF (name : list Z) (flags : Z)
  | TUNSETNOCSUM (v : Z)
  | TUNSETGROUP (gid : Z)
  | TUNSETOWNER (uid : Z)
  | SIOCSIFMTU (name : list Z) (mtu : Z)
  | SIOCGIFMTU (name : list Z)
  | SIOCGIFHWADDR (name : list Z)
  | SIOCGIFINDEX (name : list Z).

Inductive syscall :=
  | sys_open (path : str) (read_only : bool)
  | sys_socket (domain : sock_domain) (type : sock_type) (protocol : Z)
  | sys_openpty
  | sys_close (fd : Z)
  | sys_cloexec (fd : Z)
  | sys_ioctl (fd : Z) (req : ioctl_request)
  | sys_setsockopt (fd : Z) (opt : sock_option)
  | sys_bind (fd : Z) (addr : sockaddr)
  | sys_listen (fd backlog : Z)
  | sys_connect (fd : Z) (addr : sockaddr)
  | sys_tcgetattr (fd : Z)
  | sys_tcflush (fd : Z)
  | sys_tcsetattr (fd : Z) (tty : termios)
  | sys_unlink (path : str)
  | sys_symlink (target linkpath : str).

(** what a call returns, [errno], what it writes into its arguments *)
Record answer := Answer { a_rc : Z; a_errno : Z; a_data : list Z; a_tty : termios }.

Definition ENOENT : Z := 2.

(** ** Programs *)

Inductive prog (A : Type) :=
  | Done (a : A)
  | Exit
  | Fault (f : fault)
  | Call (c : syscall) (k : answer → prog A).
Arguments Done {A} a.
Arguments Exit {A}.
Arguments Fault {A} f.
Arguments Call {A} c k.

Fixpoint prog_bind {A B} (p : prog A) (f : A → prog B) : prog B :=
  match p with
  | Done a => f a
  | Exit => Exit
  | Fault e => Fault e
  | Call c k => Call c (λ r, prog_bind (k r) f)
  end.

Declare Scope setup_scope.
Notation "x <~ p ;; q" := (prog_bind p (λ x, q)) (at level 100, p at next level, right associativity) : setup_scope.
Notation "r <- 'call' c ;; q" := (Call c (λ r, q)) (at level 100, c at next level, right associativity) : setup_scope.
Open Scope setup_scope.

Definition of_res {A} (r : res A) : prog A := match r with Ok a => Done a | Err e => Fault e end.

(** [if (call == -1) exit(1);] *)
Definition must (c : syscall) : prog answer := r <- call c ;; (if a_rc r =? -1 then Exit else Done r).

(** ** [set_ifr_name] (src/phys_tap.cpp): a name in an array of [IFNAMSIZ] bytes *)

Definition IFNAMSIZ : Z := 16.
Definition set_ifr_name (dev_name : str) : res (list Z) :=
  let copy_name_n := Z.min IFNAMSIZ (zlen dev_name) in
  let* name := wr_range (replicate (Z.to_nat IFNAMSIZ) 0) 0 (take (Z.to_nat copy_name_n) dev_name) in
  wr name copy_name_n 0.

(** ** The constructors of the Ethernet drivers: the descriptor, the MTU and the MAC address *)

Record ether_dev := EtherDev { ed_fd : Z; ed_mtu : Z; ed_mac : list Z; ed_ifindex : Z }.

Definition IFF_TAP_NO_PI : Z := Z.lor 2 4096.
Definition ETH_P_ALL : Z := 768.

Definition new_phys_tap (dev_name : str) (uid gid mtu_size : Z) : prog ether_dev :=
  o <~ must (sys_open (lit "/dev/net/tun") false) ;;
  let fd := a_rc o in
  _ <~ must (sys_cloexec fd) ;;
  name <~ of_res (set_ifr_name dev_name) ;;
  _ <~ must (sys_ioctl fd (TUNSETIFF name IFF_TAP_NO_PI)) ;;
  _ <~ must (sys_ioctl fd (TUNSETNOCSUM 1)) ;;
  _ <~ must (sys_ioctl fd (TUNSETGROUP gid)) ;;
  _ <~ must (sys_ioctl fd (TUNSETOWNER uid)) ;;
  s <- call sys_socket PF_PACKET SOCK_RAW ETH_P_ALL ;;
  let fd_sock := a_rc s in
  name <~ of_res (set_ifr_name dev_name) ;;
  _ <~ must (sys_ioctl fd_sock (SIOCSIFMTU name mtu_size)) ;;
  m <~ must (sys_ioctl fd_sock (SIOCGIFHWADDR name)) ;;
  _ <- call sys_close fd_sock ;;
  Done (EtherDev fd mtu_size (take 6 (a_data m)) 0).

Definition new_phys_promiscuous (dev_name : str) : prog ether_dev :=
  s <~ must (sys_socket PF_PACKET SOCK_RAW ETH_P_ALL) ;;
  let fd := a_rc s in
  if IFNAMSIZ <=? zlen dev_name then Exit
  else
    name <~ of_res (wr_range (replicate (Z.to_nat IFNAMSIZ) 0) 0 dev_name) ;;
    mtu <~ must (sys_ioctl fd (SIOCGIFMTU name)) ;;
    mac <~ must (sys_ioctl fd (SIOCGIFHWADDR name)) ;;
    idx <~ must (sys_ioctl fd (SIOCGIFINDEX name)) ;;
    let ifindex := default 0 (head (a_data idx)) in
    _ <~ must (sys_bind fd (sa_ll ifindex)) ;;
    _ <~ must (sys_setsockopt fd (SO_BINDTODEVICE dev_name)) ;;
    Done (EtherDev fd (default 0 (head (a_data mtu))) (take 6 (a_data mac)) ifindex).

(** the threads of the Ethernet drivers: what [poll] says, [EINTR] being 4 *)
Inductive polled := poll_again | poll_read | poll_exit.
Definition after_poll (rc errno : Z) : polled :=
  if rc =? -1 then (if errno =? 4 then poll_again else poll_exit) else if rc =? 0 then poll_again else poll_read.

(** ** Serial ports *)

Definition CSIZE : Z := 48.
Definition CS8 : Z := 48.
Definition CSTOPB : Z := 64.
Definition CREAD : Z := 128.
Definition PARENB : Z := 256.
Definition PARODD : Z := 512.
Definition CLOCAL : Z := 2048.
Definition CRTSCTS : Z := 2147483648.
Definition IGNBRK : Z := 1.
Definition IXON : Z := 1024.
Definition IXANY : Z := 2048.
Definition IXOFF : Z := 4096.

Definition with_cflag (t : termios) (v : Z) : termios :=
  Termios (c_iflag t) (c_oflag t) v (c_lflag t) (c_vmin t) (c_vtime t) (c_ospeed t) (c_ispeed t).

(** [cfsetospeed], [cfsetispeed]: only the speeds of the host are taken *)
Definition valid_speed (speed : Z) : bool := ((0 <=? speed) && (speed <=? 15)) || ((4097 <=? speed) && (speed <=? 4111)).
Definition cfsetospeed (t : termios) (speed : Z) : termios :=
  if valid_speed speed then Termios (c_iflag t) (c_oflag t) (c_cflag t) (c_lflag t) (c_vmin t) (c_vtime t) speed (c_ispeed t) else t.
Definition cfsetispeed (t : termios) (speed : Z) : termios :=
  if valid_speed speed then Termios (c_iflag t) (c_oflag t) (c_cflag t) (c_lflag t) (c_vmin t) (c_vtime t) (c_ospeed t) speed else t.

(** [cfmakeraw]: IGNBRK BRKINT PARMRK ISTRIP INLCR IGNCR ICRNL IXON; OPOST; ECHO ECHONL ICANON ISIG IEXTEN *)
Definition cfmakeraw (t : termios) : termios :=
  Termios (Z.ldiff (c_iflag t) (1 + 2 + 8 + 32 + 64 + 128 + 256 + 1024)) (Z.ldiff (c_oflag t) 1)
    (Z.lor (Z.ldiff (c_cflag t) (Z.lor CSIZE PARENB)) CS8) (Z.ldiff (c_lflag t) (8 + 64 + 2 + 1 + 32768)) 1 0 (c_ospeed t) (c_ispeed t).

(** the changes of [open_tty] *)
Definition tty_raw (t : termios) (bps : Z) : termios :=
  let t := cfsetispeed (cfsetospeed t bps) bps in
  let cflag := Z.lor (Z.ldiff (c_cflag t) CSIZE) CS8 in
  let iflag := Z.ldiff (Z.ldiff (c_iflag t) IGNBRK) (Z.lor (Z.lor IXON IXOFF) IXANY) in
  let cflag := Z.ldiff (Z.ldiff (Z.ldiff (Z.lor cflag (Z.lor CLOCAL CREAD)) (Z.lor PARENB PARODD)) CSTOPB) CRTSCTS in
  Termios iflag 0 cflag 0 1 127 (c_ospeed t) (c_ispeed t).

(** [if (call != 0) exit(1);] *)
Definition must_zero (c : syscall) : prog answer := r <- call c ;; (if a_rc r =? 0 then Done r else Exit).

Definition open_tty (dev_name : str) (bps : Z) : prog Z :=
  o <~ must (sys_open dev_name false) ;;
  let fd := a_rc o in
  _ <~ must (sys_cloexec fd) ;;
  g <~ must_zero (sys_tcgetattr fd) ;;
  _ <~ must_zero (sys_tcsetattr fd (tty_raw (a_tty g) bps)) ;;
  Done fd.

(** the constructors of [phys_slip] and [phys_ppp] *)
Definition new_phys_slip (dev_name : str) (bps : Z) (my_mac : list Z) : prog Z :=
  if zlen my_mac =? 6 then open_tty dev_name bps else Fault assert_failed.
Definition new_phys_ppp (dev_name : str) (bps : Z) : prog Z := open_tty dev_name bps.

(** ** Sockets *)

Definition SOMAXCONN : Z := 4096.

Definition create_datagram_socket (port : Z) : prog Z :=
  s <- call sys_socket AF_INET SOCK_DGRAM 0 ;;
  if a_rc s =? -1 then Done (-1)
  else
    b <- call sys_bind (a_rc s) (sa_in (u16 port) [0; 0; 0; 0]) ;;
    if a_rc b =? -1 then _ <- call sys_close (a_rc s) ;; Done (-1)
    else Done (a_rc s).

Definition set_nodelay (fd : Z) : prog answer := must (sys_setsockopt fd (TCP_NODELAY true)).

(** the results of [getaddrinfo], tried one after the other *)
Fixpoint connect_loop (l : list (sock_domain * sock_type * Z * sockaddr)) : prog Z :=
  match l with
  | [] => Done (-1)
  | (domain, type, protocol, addr) :: l' =>
      s <- call sys_socket domain type protocol ;;
      if a_rc s =? -1 then connect_loop l'
      else
        c <- call sys_connect (a_rc s) addr ;;
        if a_rc c =? 0 then _ <~ set_nodelay (a_rc s) ;; Done (a_rc s)
        else _ <- call sys_close (a_rc s) ;; connect_loop l'
  end.

Section Resolver.
(** [getaddrinfo] for a host and a port, [inet_aton], and [inet_pton] for the two families *)
Context (getaddrinfo : str → str → option (list (sock_domain * sock_type * Z * sockaddr))).
Context (inet_aton : str → option (list Z)) (inet_pton4 inet_pton6 : str → option (list Z)).

Definition connect_to (host : str) (portnr : Z) : prog Z :=
  match getaddrinfo host (snprintf 8 (if portnr <? 0 then 45 :: fmt_dec (- portnr) else fmt_dec portnr)) with
  | None => Exit
  | Some l => connect_loop l
  end.

(** [inet_aton] returns 0 when it cannot parse the address and the code compares with -1, so that
    the address stays zero *)
Definition setup_accept_socket (listen_addr : str) (listen_port : Z) : prog Z :=
  s <~ must (sys_socket AF_INET SOCK_STREAM 0) ;;
  let fd := a_rc s in
  _ <~ must (sys_setsockopt fd (SO_REUSEADDR true)) ;;
  let addr := default [0; 0; 0; 0] (inet_aton listen_addr) in
  _ <~ must (sys_bind fd (sa_in (u16 listen_port) addr)) ;;
  _ <~ must (sys_listen fd SOMAXCONN) ;;
  _ <~ must (sys_setsockopt fd (TCP_FASTOPEN SOMAXCONN)) ;;
  Done fd.

Definition in6addr_any : list Z := replicate 16 0.

(** the address the proxy listens on; [None]: the program ends *)
Definition listen_address (adapter : str) (port : Z) : option sockaddr :=
  if bool_decide (adapter = lit "0.0.0.0") || bool_decide (adapter = lit "::1") then Some (sa_in6 (u16 port) in6addr_any)
  else match inet_pton6 adapter with
       | Some a => Some (sa_in6 (u16 port) a)
       | None => match inet_pton4 adapter with Some a => Some (sa_in (u16 port) a) | None => None end
       end.

Definition start_listen (adapter : str) (port q_size : Z) (use_tcp_fastopen : bool) : prog Z :=
  match listen_address adapter port with
  | None => Exit
  | Some addr =>
      s <~ must (sys_socket (match addr with sa_in _ _ => AF_INET | _ => AF_INET6 end) SOCK_STREAM 0) ;;
      let fd := a_rc s in
      _ <~ must (sys_setsockopt fd (SO_REUSEADDR true)) ;;
      _ <~ (if use_tcp_fastopen then _ <~ must_zero (sys_setsockopt fd (TCP_FASTOPEN q_size)) ;; Done tt else Done tt) ;;
      _ <~ must (sys_bind fd addr) ;;
      _ <~ must (sys_listen fd q_size) ;;
      Done fd
  end.

(** the constructor of [socks_proxy] *)
Definition new_socks_proxy (interface : str) (port : Z) : prog Z := start_listen (c_str interface) port SOMAXCONN true.

(** ** The control socket: [sun_path] has 108 bytes *)
Definition new_ud_stats (socket_path : str) : prog Z :=
  s <- call sys_socket AF_UNIX SOCK_STREAM 0 ;;
  let fd := a_rc s in
  _ <- call sys_unlink (c_str socket_path) ;;
  _ <~ of_res (wr_range (replicate 108 0) 0 (c_str socket_path ++ [0])) ;;
  _ <~ must (sys_bind fd (sa_un (c_str socket_path))) ;;
  _ <~ must (sys_listen fd SOMAXCONN) ;;
  Done fd.

(** ** The KISS driver *)

(** the descriptor, and which threads were started *)
Record kiss_dev := KissDev { kd_fd : Z; kd_server : bool; kd_reader : bool; kd_beacon : bool }.

(** [parts.at(n)] *)
Definition part (parts : list str) (n : nat) : prog str :=
  match parts !! n with Some p => Done p | None => Fault out_of_range end.

(** [reconnect]: the loop is left when a connection is there *)
Fixpoint reconnect_loop (fuel : nat) (host : str) (port fd : Z) : prog Z :=
  match fuel with
  | O => Fault out_of_fuel
  | S fuel' =>
      _ <~ (if fd =? -1 then Done tt else _ <- call sys_close fd ;; Done tt) ;;
      fd <~ connect_to host port ;;
      if fd =? -1 then reconnect_loop fuel' host port fd else Done fd
  end.

(** the descriptor afterwards, and whether it is a new one *)
Definition reconnect (fuel : nat) (descriptor : str) (fd : Z) : prog (Z * bool) :=
  parts <~ of_res (split descriptor (lit ":")) ;;
  kind <~ part parts 0 ;;
  if bool_decide (kind = lit "tcp-client") then
    host <~ part parts 1 ;;
    port <~ part parts 2 ;;
    fd <~ reconnect_loop fuel (c_str host) (atoi port) fd ;;
    Done (fd, true)
  else Done (fd, false).

(** [B9600], [B19200], [B115200] *)
Definition kiss_speed (tty_bps : Z) : Z := if tty_bps =? 19200 then 14 else if tty_bps =? 115200 then 4098 else 13.

Definition kiss_tty (t : termios) (speed : Z) : termios :=
  let t := cfsetospeed t speed in
  let cflag := Z.lor (Z.ldiff (Z.ldiff (Z.ldiff (c_cflag t) PARENB) CSTOPB) CSIZE) CS8 in
  cfmakeraw (with_cflag t (Z.lor (Z.ldiff cflag CRTSCTS) (Z.lor CREAD CLOCAL))).

(** what the constructor opens for the kinds other than TCP; [name]: the name of the pseudo terminal *)
Definition kiss_open (parts : list str) (kind name : str) : prog Z :=
  if bool_decide (kind = lit "tcp-server") then Done (-1)
  else if bool_decide (kind = lit "pty-master") then
    p <~ must sys_openpty ;;
    let master := default 0 (a_data p !! 0%nat) in
    path <~ part parts 1 ;;
    u <- call sys_unlink (c_str path) ;;
    if (a_rc u =? -1) && negb (a_errno u =? ENOENT) then Exit
    else _ <~ must (sys_symlink name (c_str path)) ;; Done master
  else if bool_decide (kind = lit "tty") || bool_decide (kind = lit "pty-client") then
    path <~ part parts 1 ;;
    o <~ must (sys_open (c_str path) false) ;;
    let fd := a_rc o in
    if bool_decide (kind = lit "tty") then
      g <~ must (sys_tcgetattr fd) ;;
      bps <~ part parts 2 ;;
      _ <- call sys_tcflush fd ;;
      _ <~ must_zero (sys_tcsetattr fd (kiss_tty (a_tty g) (kiss_speed (atoi bps)))) ;;
      Done fd
    else Done fd
  else if bool_decide (kind = lit "file") then
    path <~ part parts 1 ;;
    o <~ must (sys_open (c_str path) true) ;;
    Done (a_rc o)
  else Done (-1).

Definition new_phys_kiss (fuel : nat) (descr : str) (beacon : bool) (name : str) : prog kiss_dev :=
  parts <~ of_res (split descr (lit ":")) ;;
  kind <~ part parts 0 ;;
  fd <~ kiss_open parts kind name ;;
  r <~ reconnect fuel descr fd ;;
  Done (KissDev r.1 (bool_decide (kind = lit "tcp-server")) (negb (bool_decide (kind = lit "tcp-server"))) beacon).

(** the socket of [tcp_kiss_server] *)
Definition tcp_kiss_server (descriptor : str) : prog Z :=
  parts <~ of_res (split descriptor (lit ":")) ;;
  addr <~ part parts 1 ;;
  port <~ part parts 2 ;;
  setup_accept_socket (c_str addr) (atoi port).
End Resolver.

(** ** Running with a kernel *)

(** the answer to the [n]th call when these descriptors are open *)
Definition kernel := nat → gset Z → syscall → answer.

(** the descriptor a call is about *)
Definition uses (c : syscall) : option Z :=
  match c with
  | sys_close fd | sys_cloexec fd | sys_ioctl fd _ | sys_setsockopt fd _ | sys_bind fd _ | sys_listen fd _ | sys_connect fd _
  | sys_tcgetattr fd | sys_tcflush fd | sys_tcsetattr fd _ => Some fd
  | sys_open _ _ | sys_socket _ _ _ | sys_openpty | sys_unlink _ | sys_symlink _ _ => None
  end.

(** the descriptors an answer brings *)
Definition opened (c : syscall) (r : answer) : list Z :=
  if a_rc r =? -1 then []
  else match c with
       | sys_open _ _ | sys_socket _ _ _ => [a_rc r]
       | sys_openpty => take 2 (a_data r)
       | _ => []
       end.

Definition after_call (fds : gset Z) (c : syscall) (r : answer) : gset Z :=
  match c with sys_close fd => fds ∖ {[ fd ]} | _ => list_to_set (opened c r) ∪ fds end.

(** descriptors that are not in use and do not repeat; calls on others fail *)
Definition answers (fds : gset Z) (c : syscall) (r : answer) : Prop :=
  Forall (λ fd, 0 ≤ fd ∧ fd ∉ fds) (opened c r) ∧ NoDup (opened c r) ∧
  (c = sys_openpty → a_rc r ≠ -1 → length (opened c r) = 2%nat) ∧
  ∀ fd, uses c = Some fd → fd ∉ fds → a_rc r = -1.

Definition kernel_ok (K : kernel) : Prop := ∀ n fds c, answers fds c (K n fds c).

Inductive ended (A : Type) := returned (fds : gset Z) (a : A) | exited | faulted (f : fault).
Arguments returned {A} fds a.
Arguments exited {A}.
Arguments faulted {A} f.

Fixpoint run {A} (K : kernel) (n : nat) (fds : gset Z) (p : prog A) : ended A :=
  match p with
  | Done a => returned fds a
  | Exit => exited
  | Fault f => faulted f
  | Call c k => let r := K n fds c in run K (S n) (after_call fds c r) (k r)
  end.

(** ** What holds when a program returns *)

Fixpoint post {A} (p : prog A) (Q : gset Z → A → Prop) (fds : gset Z) : Prop :=
  match p with
  | Done a => Q fds a
  | Exit | Fault _ => True
  | Call c k => ∀ r, answers fds c r → post (k r) Q (after_call fds c r)
  end.

Lemma post_run {A} (p : prog A) Q K n fds fds' a :
  kernel_ok K → post p Q fds → run K n fds p = returned fds' a → Q fds' a.
Proof.
  intros HK. revert n fds. induction p as [x| |f|c k IH]; intros n fds; cbn; try done.
  - by intros HQ [= <- <-].
  - intros Hp. apply IH. apply Hp, HK.
Qed.

Lemma post_bind {A B} (p : prog A) (f : A → prog B) Q R fds :
  post p R fds → (∀ fds a, R fds a → post (f a) Q fds) → post (prog_bind p f) Q fds.
Proof.
  intros Hp Hf. revert fds Hp. induction p as [x| |e|c k IH]; intros fds; cbn; try done; [apply Hf|].
  intros Hp r Hr. by apply IH, Hp.
Qed.

(** the calls that open nothing *)
Definition opens_none (c : syscall) : bool :=
  match c with sys_open _ _ | sys_socket _ _ _ | sys_openpty | sys_close _ => false | _ => true end.

Lemma opens_none_call fds c r : opens_none c = true → after_call fds c r = fds.
Proof. unfold after_call, opened. destruct c, (a_rc r =? -1); intros; try done; apply (left_id_L ∅ _). Qed.

Lemma post_must_none {A} c (k : answer → prog A) Q fds :
  opens_none c = true → (∀ r, uses c = None ∨ (∃ fd, uses c = Some fd ∧ fd ∈ fds) → post (k r) Q fds) →
  post (prog_bind (must c) k) Q fds.
Proof.
  intros Hq Hk. cbn. intros r (_ & _ & _ & Hu). rewrite opens_none_call by done.
  destruct (Z.eqb_spec (a_rc r) (-1)) as [?|Hn]; [done|]. cbn. apply Hk.
  destruct (uses c) as [fd|]; [|by left]. right. exists fd. split; [done|]. destruct (decide (fd ∈ fds)); [done|].
  exfalso. apply Hn. by apply (Hu fd).
Qed.

Lemma post_must_zero_none {A} c (k : answer → prog A) Q fds :
  opens_none c = true → (∀ r, post (k r) Q fds) → post (prog_bind (must_zero c) k) Q fds.
Proof. intros Hq Hk. cbn. intros r _. rewrite opens_none_call by done. destruct (a_rc r =? 0); [apply Hk|done]. Qed.

(** the calls that open one descriptor *)
Definition opens_one (c : syscall) : bool := match c with sys_open _ _ | sys_socket _ _ _ => true | _ => false end.

Lemma opens_one_call fds c r :
  opens_one c = true → answers fds c r →
  (a_rc r = -1 ∧ after_call fds c r = fds) ∨ (0 ≤ a_rc r ∧ (a_rc r ∉ fds) ∧ after_call fds c r = {[ a_rc r ]} ∪ fds).
Proof.
  intros Ho (Hf & _). unfold after_call, opened in *. destruct (Z.eqb_spec (a_rc r) (-1)) as [E|N].
  - left. split; [done|]. destruct c; try done; apply (left_id_L ∅ _).
  - right. destruct c; try done; inversion_clear Hf as [|? ? [H1 H2] _]; split_and!; try done; set_solver.
Qed.

Lemma post_must_open {A} c (k : answer → prog A) Q fds :
  opens_one c = true → (∀ r, 0 ≤ a_rc r → a_rc r ∉ fds → post (k r) Q ({[ a_rc r ]} ∪ fds)) → post (prog_bind (must c) k) Q fds.
Proof.
  intros Ho Hk. cbn. intros r Hr. destruct (opens_one_call fds c r Ho Hr) as [[-> _]|(H1 & H2 & ->)]; [done|].
  rewrite (proj2 (Z.eqb_neq _ _)) by lia. by apply Hk.
Qed.

(** one new descriptor, or none *)
Definition one_more (fds fds' : gset Z) (fd : Z) : Prop :=
  (fd = -1 ∧ fds' = fds) ∨ (0 ≤ fd ∧ (fd ∉ fds) ∧ fds' = {[ fd ]} ∪ fds).

Ltac setup :=
  repeat match goal with
  | |- post (prog_bind (of_res ?x) _) _ _ => destruct x; [cbn [of_res prog_bind]|done]
  | |- post (prog_bind (must _) _) _ _ => first [apply post_must_open; [done|intros ? ? ?] | apply post_must_none; [done|intros ? _]]
  | |- post (prog_bind (must_zero _) _) _ _ => apply post_must_zero_none; [done|intros ?]
  | |- post (prog_bind (Done _) _) _ _ => cbn [prog_bind]
  | |- post (Done _) _ _ => cbn [post]
  | |- post Exit _ _ => done
  | |- post (Fault _) _ _ => done
  | |- post (prog_bind Exit _) _ _ => done
  | |- post (let _ := _ in _) _ _ => cbv zeta
  end.

#[local] Hint Unfold one_more : core.

Lemma open_tty_one dev bps fds : post (open_tty dev bps) (one_more fds) fds.
Proof. unfold open_tty. setup. auto. Qed.

Lemma create_datagram_socket_one port fds : post (create_datagram_socket port) (one_more fds) fds.
Proof.
  unfold create_datagram_socket. cbn [post]. intros s Hs. destruct (opens_one_call _ (sys_socket _ _ _) _ eq_refl Hs) as [[-> ->]|(H1 & H2 & ->)]; [cbn; auto|].
  rewrite (proj2 (Z.eqb_neq _ _)) by lia. cbn [post]. intros b _. rewrite opens_none_call by done.
  destruct (a_rc b =? -1); cbn [post]; [|auto]. intros r _. left. split; [done|]. cbn [after_call]. set_solver.
Qed.

Lemma connect_loop_one l fds : post (connect_loop l) (one_more fds) fds.
Proof.
  induction l as [|[[[domain type] protocol] addr] l IH]; cbn [connect_loop post]; [auto|]. intros s Hs.
  destruct (opens_one_call _ (sys_socket _ _ _) _ eq_refl Hs) as [[-> ->]|(H1 & H2 & ->)]; [apply IH|].
  rewrite (proj2 (Z.eqb_neq _ _)) by lia. cbn [post]. intros c _. rewrite opens_none_call by done. destruct (a_rc c =? 0).
  - unfold set_nodelay. setup. auto.
  - cbn [post]. intros r _. cbn [after_call]. replace (({[a_rc s]} ∪ fds) ∖ {[a_rc s]}) with fds by set_solver. apply IH.
Qed.

Section Descriptors.
Context (getaddrinfo : str → str → option (list (sock_domain * sock_type * Z * sockaddr))).
Context (inet_aton : str → option (list Z)) (inet_pton4 inet_pton6 : str → option (list Z)).

Lemma connect_to_one host port fds : post (connect_to getaddrinfo host port) (one_more fds) fds.
Proof. unfold connect_to. destruct (getaddrinfo host _); [apply connect_loop_one|done]. Qed.

Lemma setup_accept_socket_one addr port fds : post (setup_accept_socket inet_aton addr port) (one_more fds) fds.
Proof. unfold setup_accept_socket. setup. auto. Qed.

Lemma start_listen_one adapter port q fo fds : post (start_listen inet_pton4 inet_pton6 adapter port q fo) (one_more fds) fds.
Proof.
  unfold start_listen. destruct (listen_address _ _ adapter port) as [addr|]; [|done]. setup.
  destruct fo; cbn [prog_bind].
  - apply (post_bind _ _ _ (λ fds' _, fds' = {[ a_rc r ]} ∪ fds)); [setup; done|]. intros ? _ ->. setup. auto.
  - setup. auto.
Qed.

(** the socket of the control program is not tested; [bind] on -1 ends the program *)
Lemma new_ud_stats_one path fds : post (new_ud_stats path) (one_more fds) fds.
Proof.
  unfold new_ud_stats. cbn [post]. intros s Hs u _. rewrite opens_none_call by done.
  destruct (opens_one_call _ (sys_socket _ _ _) _ eq_refl Hs) as [[E ->]|(H1 & H2 & ->)]; setup; auto.
Qed.

Lemma tap_one dev uid gid mtu fds :
  (-1 ∉ fds) → post (new_phys_tap dev uid gid mtu) (λ fds' d, one_more fds fds' (ed_fd d) ∧ ed_mtu d = mtu) fds.
Proof.
  intros Hm. unfold new_phys_tap. setup. intros s Hs.
  destruct (opens_one_call _ (sys_socket _ _ _) _ eq_refl Hs) as [[E ->]|(H1 & H2 & ->)]; setup;
    intros ? _; cbn [after_call]; (split; [|done]); right; split_and!; try done.
  - rewrite E. assert (a_rc r ≠ -1) by lia. set_solver.
  - set_solver.
Qed.

Lemma promiscuous_one dev fds : post (new_phys_promiscuous dev) (λ fds' d, one_more fds fds' (ed_fd d)) fds.
Proof.
  unfold new_phys_promiscuous. setup. destruct (IFNAMSIZ <=? zlen dev); [done|]. setup. cbn. auto.
Qed.

(** a new connection replaces the descriptor *)
Lemma reconnect_loop_one fuel host port fd fds :
  (-1 ∉ fds) →
  post (reconnect_loop getaddrinfo fuel host port fd)
    (λ fds' fd', 0 ≤ fd' ∧ (fd' ∉ fds ∖ {[ fd ]}) ∧ fds' = {[ fd' ]} ∪ fds ∖ {[ fd ]}) fds.
Proof.
  revert fd fds. induction fuel as [|fuel IH]; intros fd fds Hm; [done|]. cbn [reconnect_loop].
  apply (post_bind _ _ _ (λ fds' _, fds' = fds ∖ {[ fd ]})).
  { destruct (Z.eqb_spec fd (-1)) as [->|N]; cbn [post prog_bind after_call]; [set_solver|done]. }
  intros ? _ ->. eapply post_bind; [apply connect_to_one|].
  intros fds1 fd1 [[-> ->]|(H1 & H2 & ->)]; cbn [post].
  - rewrite Z.eqb_refl. assert (-1 ∉ fds ∖ {[fd]}) as Hm1 by set_solver. specialize (IH (-1) (fds ∖ {[fd]}) Hm1).
    by replace (fds ∖ {[fd]} ∖ {[-1]}) with (fds ∖ {[fd]}) in IH by set_solver.
  - rewrite (proj2 (Z.eqb_neq _ _)) by lia. cbn [post]. done.
Qed.

(** for a client the descriptor was -1, for the other kinds it stays *)
Lemma reconnect_fresh fuel descr kind parts fd fds :
  (-1 ∉ fds) → split descr (lit ":") = Ok (kind :: parts) → (kind = lit "tcp-client" → fd = -1) →
  post (reconnect getaddrinfo fuel descr fd)
    (λ fds' r, if r.2 then fd = -1 ∧ 0 ≤ r.1 ∧ (r.1 ∉ fds) ∧ fds' = {[ r.1 ]} ∪ fds else r.1 = fd ∧ fds' = fds) fds.
Proof.
  intros Hm Es Hc. unfold reconnect. rewrite Es. unfold part. cbn [of_res prog_bind lookup list_lookup].
  case_bool_decide as Hk; [|done]. specialize (Hc Hk) as ->.
  destruct (parts !! 0%nat) as [host|]; [|done]. destruct (parts !! 1%nat) as [port|]; [|done]. cbn [prog_bind].
  eapply post_bind; [by apply reconnect_loop_one|]. intros fds1 fd1. cbn [post fst snd].
  replace (fds ∖ {[-1]}) with fds by set_solver. done.
Qed.

(** a descriptor that [kiss_open] hands over stays, because [reconnect] does nothing for its kind *)
Lemma kiss_open_one parts kind name fds :
  kind ≠ lit "pty-master" →
  post (kiss_open parts kind name) (λ fds' fd, one_more fds fds' fd ∧ (kind = lit "tcp-client" → fd = -1)) fds.
Proof.
  intros Hk. unfold kiss_open, part. rewrite (bool_decide_eq_false_2 (kind = lit "pty-master")) by done.
  repeat case_bool_decide; subst; cbn [orb]; try (setup; split; [by auto|by intros [=]]);
    destruct (parts !! 1%nat) as [path|]; try done; setup; try (split; [by auto|by intros [=]]).
  destruct (parts !! 2%nat) as [bps|]; [|done]. setup. cbn [post]. intros ? _. rewrite opens_none_call by done. setup.
  split; [by auto|by intros [=]].
Qed.

(** the kind of a KISS device *)
Definition kiss_kind (descr : str) : option str := match split descr (lit ":") with Ok parts => head parts | Err _ => None end.

Lemma new_phys_kiss_one fuel descr beacon name fds :
  (-1 ∉ fds) → kiss_kind descr ≠ Some (lit "pty-master") →
  post (new_phys_kiss getaddrinfo fuel descr beacon name) (λ fds' d, one_more fds fds' (kd_fd d)) fds.
Proof.
  intros Hm Hk. unfold new_phys_kiss, kiss_kind in *. destruct (split descr (lit ":")) as [parts|] eqn:Es; [|done].
  cbn [of_res prog_bind]. unfold part at 1. destruct parts as [|kind parts]; [done|]. cbn [lookup list_lookup prog_bind].
  eapply post_bind. { apply kiss_open_one. intros ->. by apply Hk. }
  intros fds1 fd [H1 Hc]. eapply post_bind; [apply (reconnect_fresh _ _ _ _ _ _) with (2 := Es); [|exact Hc]|].
  { destruct H1 as [[_ ->]|(? & _ & ->)]; [done|]. set_solver by lia. }
  intros fds2 [fd2 b] H2. cbn [post kd_fd fst snd] in *. destruct b; [|by destruct H2 as [-> ->]].
  destruct H2 as (-> & ? & ? & ->). right. destruct H1 as [[_ ->]|(? & _ & _)]; [|lia]. done.
Qed.
End Descriptors.

(** ** All of them *)

Inductive set_up :=
  | su_tap (dev : str) (uid gid mtu : Z)
  | su_promiscuous (dev : str)
  | su_kiss (attempts : nat) (descr : str) (beacon : bool) (name : str)
  | su_kiss_server (descr : str)
  | su_slip (dev : str) (bps : Z) (mac : list Z)
  | su_ppp (dev : str) (bps : Z)
  | su_sctp_udp (port : Z)
  | su_socks (interface : str) (port : Z)
  | su_control (path : str).

Section All.
Context (getaddrinfo : str → str → option (list (sock_domain * sock_type * Z * sockaddr))).
Context (inet_aton inet_pton4 inet_pton6 : str → option (list Z)).

(** the descriptor the object keeps *)
Definition set_up_prog (u : set_up) : prog Z :=
  match u with
  | su_tap dev uid gid mtu => d <~ new_phys_tap dev uid gid mtu ;; Done (ed_fd d)
  | su_promiscuous dev => d <~ new_phys_promiscuous dev ;; Done (ed_fd d)
  | su_kiss n descr beacon name => d <~ new_phys_kiss getaddrinfo n descr beacon name ;; Done (kd_fd d)
  | su_kiss_server descr => tcp_kiss_server inet_aton descr
  | su_slip dev bps mac => new_phys_slip dev bps mac
  | su_ppp dev bps => new_phys_ppp dev bps
  | su_sctp_udp port => create_datagram_socket port
  | su_socks interface port => new_socks_proxy inet_pton4 inet_pton6 interface port
  | su_control path => new_ud_stats path
  end.

Definition no_pty_master (u : set_up) : Prop :=
  match u with su_kiss _ descr _ _ => kiss_kind descr ≠ Some (lit "pty-master") | _ => True end.

Lemma set_up_post u fds : (-1 ∉ fds) → no_pty_master u → post (set_up_prog u) (one_more fds) fds.
Proof.
  intros Hm Hu. destruct u as [dev uid gid mtu|dev|n descr beacon name|descr|dev bps mac|dev bps|port|interface port|path];
    cbn [set_up_prog no_pty_master] in *.
  - eapply post_bind; [by apply tap_one|]. by intros fds' d [H _].
  - eapply post_bind; [apply promiscuous_one|]. done.
  - eapply post_bind; [by apply new_phys_kiss_one|]. done.
  - unfold tcp_kiss_server, part. setup. destruct (a !! 1%nat); [|done]. destruct (a !! 2%nat); [|done].
    cbn [prog_bind]. apply setup_accept_socket_one.
  - unfold new_phys_slip. destruct (zlen mac =? 6); [apply open_tty_one|done].
  - apply open_tty_one.
  - apply create_datagram_socket_one.
  - apply start_listen_one.
  - apply new_ud_stats_one.
Qed.

(** No set-up of a device or a socket loses a descriptor.  For every kernel that gives out
    descriptors that are not in use and lets calls on others fail, whatever else it answers:
    when a constructor of a driver, of the proxy or of the control socket returns, it hands
    over a new descriptor and nothing else is open that was not open before, or it hands over
    -1 and nothing has changed.  (A KISS device that makes a pseudo terminal also keeps the
    other end open.) *)
Theorem set_up_hands_over K n fds u fds' fd :
  kernel_ok K → (-1 ∉ fds) → no_pty_master u →
  run K n fds (set_up_prog u) = returned fds' fd → one_more fds fds' fd.
Proof. intros HK Hm Hu. by apply post_run, set_up_post. Qed.
End All.

(** ** A kernel *)

Definition next_fd (fds : gset Z) : Z := foldr Z.max 2 (elements fds) + 1.

Lemma next_fd_fresh fds : 0 ≤ next_fd fds ∧ ∀ k, 0 ≤ k → (next_fd fds + k ∉ fds).
Proof.
  assert (∀ l x, x ∈ l → x ≤ foldr Z.max 2 l) as Hm.
  { induction l as [|y l IH]; intros x Hx; [by apply not_elem_of_nil in Hx|]. cbn. apply elem_of_cons in Hx as [->|Hx]; [lia|].
    specialize (IH x Hx). lia. }
  assert (∀ l, 2 ≤ foldr Z.max 2 l) as H2 by (induction l; cbn; lia).
  unfold next_fd. split; [specialize (H2 (elements fds)); lia|]. intros k Hk Hin. apply elem_of_elements, Hm in Hin. lia.
Qed.

Definition no_tty : termios := Termios 0 0 0 0 0 0 0 0.

(** descriptors in order; of the other calls those that [fails] chooses fail *)
Definition simple_kernel (fails : nat → bool) : kernel := λ n fds c,
  match c with
  | sys_open _ _ | sys_socket _ _ _ => Answer (next_fd fds) 0 [] no_tty
  | sys_openpty => Answer 0 0 [next_fd fds; next_fd fds + 1] no_tty
  | _ =>
      match uses c with
      | Some fd => if bool_decide (fd ∈ fds) && negb (fails n) then Answer 0 0 [] no_tty else Answer (-1) 9 [] no_tty
      | None => Answer (if fails n then -1 else 0) 2 [] no_tty
      end
  end.

Lemma simple_kernel_ok fails : kernel_ok (simple_kernel fails).
Proof.
  intros n fds c. destruct (next_fd_fresh fds) as [H0 Hf]. pose proof (Hf 0 ltac:(lia)) as Hf0. rewrite Z.add_0_r in Hf0.
  pose proof (Hf 1 ltac:(lia)) as Hf1. unfold answers, opened.
  destruct c; cbn; try (destruct (bool_decide _ && _) eqn:E; cbn); try (destruct (fails n); cbn);
    try (rewrite (proj2 (Z.eqb_neq (next_fd fds) (-1))) by lia);
    split_and!; try done; try (by repeat constructor; try done; lia); try (by intros ? [= ->] ?; simplify_eq/=; by rewrite bool_decide_eq_false_2 in E);
    try apply NoDup_singleton; try (repeat constructor; [set_solver by lia|set_solver]).
Qed.

(** two addresses for a host, of which the first does not answer: its socket is closed *)
Definition two_hosts (host port : str) : option (list (sock_domain * sock_type * Z * sockaddr)) :=
  Some [(AF_INET6, SOCK_STREAM, 6, sa_in6 8100 in6addr_any); (AF_INET, SOCK_STREAM, 6, sa_in 8100 [127; 0; 0; 1])].

Lemma set_up_hands_over_witness :
  ∃ fds', run (simple_kernel (λ n, n =? 1)%nat) 0 {[ 0; 1; 2 ]}
      (set_up_prog two_hosts (λ _, None) (λ _, None) (λ _, None) (su_kiss 5 (lit "tcp-client:host:8100") false [])) = returned fds' 3 ∧
    one_more {[ 0; 1; 2 ]} fds' 3.
Proof.
  eexists. split; [vm_compute; reflexivity|].
  apply (set_up_hands_over two_hosts (λ _, None) (λ _, None) (λ _, None) (simple_kernel (λ n, n =? 1)%nat) 0 {[ 0; 1; 2 ]}
    (su_kiss 5 (lit "tcp-client:host:8100") false [])).
  - apply simple_kernel_ok.
  - by refine (bool_decide_unpack _ _).
  - vm_compute. discriminate.
  - vm_compute. reflexivity.
Defined.

(** ** Where the set-up goes wrong *)

(** an interface name of sixteen characters or more: the NUL is written behind the array *)
Lemma set_ifr_name_overrun dev_name : IFNAMSIZ ≤ zlen dev_name → set_ifr_name dev_name = Err bad_access.
Proof.
  intros H. unfold set_ifr_name. rewrite Z.min_l by done.
  assert (zlen (take (Z.to_nat IFNAMSIZ) dev_name) = 16) as L by (unfold zlen, IFNAMSIZ in *; rewrite length_take; lia).
  change (replicate (Z.to_nat IFNAMSIZ) 0) with ([] ++ replicate 16 0).
  rewrite wr_range_app; [|done|rewrite L; done]. cbn [res_bind app]. unfold wr.
  rewrite zlen_app, L. replace (drop _ (replicate 16 0)) with (@nil Z); [done|]. symmetry. apply drop_ge.
  rewrite length_replicate. unfold zlen in L. lia.
Qed.

(** every other name is kept *)
Lemma set_ifr_name_fits dev_name :
  zlen dev_name < IFNAMSIZ → set_ifr_name dev_name = Ok (dev_name ++ replicate (16 - length dev_name) 0).
Proof.
  intros H. unfold set_ifr_name, IFNAMSIZ, zlen in *. rewrite Z.min_r, Nat2Z.id, take_ge by lia.
  change (replicate (Z.to_nat 16) 0) with ([] ++ replicate 16 0).
  rewrite wr_range_app; [|done|unfold zlen; rewrite length_replicate; lia]. cbn [res_bind app].
  rewrite drop_replicate, wr_Ok by (unfold zlen; rewrite length_app, length_replicate; lia).
  rewrite Nat2Z.id, list_insert_id; [done|]. rewrite lookup_app_r by lia. apply lookup_replicate_2. lia.
Qed.

(** an address that cannot be parsed: the KISS server listens on all addresses *)
Lemma bad_listen_address inet_aton addr port :
  inet_aton addr = None →
  setup_accept_socket inet_aton addr port = setup_accept_socket (λ _, Some [0; 0; 0; 0]) (lit "0.0.0.0") port.
Proof. intros E. unfold setup_accept_socket. by rewrite E. Qed.

(** the proxy that is to listen on the local address only listens on all *)
Lemma local_proxy_is_public pton4 pton6 port : listen_address pton4 pton6 (lit "::1") port = Some (sa_in6 (u16 port) in6addr_any).
Proof. done. Qed.

(** a path of 108 characters or more for the control socket leaves its array *)
Lemma long_socket_path path K n fds :
  108 ≤ zlen (c_str path) → run K n fds (new_ud_stats path) = faulted bad_access.
Proof.
  intros H. unfold new_ud_stats. cbn [run].
  assert (wr_range (replicate 108 0) 0 (c_str path ++ [0]) = Err bad_access) as ->; [|done].
  unfold wr_range. rewrite zlen_app. change (zlen [0]) with 1. change (zlen (replicate 108 0)) with 108.
  by rewrite (proj2 (Z.ltb_lt 108 _)) by lia.
Qed.

(** ** The clients of the control socket *)

(** a client: whether its thread can be joined, and its descriptor.  [joinable] holds for a thread that
    was started, also while it runs; [join] waits for its end *)
Fixpoint reap (clients : list (bool * Z)) : list Z * list (bool * Z) :=
  match clients with
  | [] => ([], [])
  | (joinable, cfd) :: clients' =>
      let '(waited, kept) := reap clients' in
      if joinable then (cfd :: waited, kept) else (waited, (joinable, cfd) :: kept)
  end.

(** a round of [ud_stats::operator()] after [accept]: whom it waits for *)
Definition ud_accept (clients : list (bool * Z)) (cfd : Z) : list Z * list (bool * Z) := reap (clients ++ [(true, cfd)]).

(** the round waits for the end of the client it accepted, so there is never a second one *)
Lemma one_client_at_a_time cfds : foldl (λ s cfd, ud_accept s.2 cfd) ([], []) cfds = (option_list (last cfds), []).
Proof.
  induction cfds as [|cfd cfds IH] using rev_ind; [done|]. rewrite foldl_app, IH. cbn. by rewrite last_snoc.
Qed.
