(* ===== verification/Tracker.v ===== *)
(** * Processor use (src/stats_tracker.cpp, src/stats_tracker.h)

    The thread that asks the host once per second how much processor time was used, five
    slots of a second each, and the average over the four that are complete.  [double] is the
    binary64 format of IEEE 754, as the Standard Library specifies it: the sums are those of
    the code, rounded at each operation.  The clock and [getrusage] are arguments.

    Shown: until the seconds leave an [int] no round faults and the five slots stay; after
    that the index is negative.  Examples evaluate the average, also where a round is late. *)
From Stdlib Require Import SpecFloat.
From S2P Require Import Prelude.
Open Scope Z_scope.

(** ** [double] *)

Definition double := spec_float.
Definition dadd : double → double → double := SFadd 53 1024.
Definition dmul : double → double → double := SFmul 53 1024.
Definition ddiv : double → double → double := SFdiv 53 1024.
(** an integer that is converted *)
Definition double_of (n : Z) : double := binary_normalize 53 1024 n 0 false.
Definition million : double := double_of 1000000.

(** ** Times of the host *)

Record timeval := Timeval { tv_sec : Z; tv_usec : Z }.

Definition timeradd (a b : timeval) : timeval :=
  let sec := tv_sec a + tv_sec b in
  let usec := tv_usec a + tv_usec b in
  if 1000000 <=? usec then Timeval (sec + 1) (usec - 1000000) else Timeval sec usec.

Definition timersub (a b : timeval) : timeval :=
  let sec := tv_sec a - tv_sec b in
  let usec := tv_usec a - tv_usec b in
  if usec <? 0 then Timeval (sec - 1) (usec + 1000000) else Timeval sec usec.

Record rusage := Rusage { ru_utime : timeval; ru_stime : timeval }.

(** ** The tracker *)

Record stats_tracker := StatsTracker {
  prev_slot_ru : Z;
  prev_ru_ts : Z;
  prev_ru : rusage;
  cpu_stats : list double;
}.

Definition new_stats_tracker : stats_tracker :=
  StatsTracker (-1) 0 (Rusage (Timeval 0 0) (Timeval 0 0)) (replicate 5 (S754_zero false)).

(** [cpu_stats[slot]] *)
Definition change_slot (l : list double) (slot : Z) (f : double → double) : res (list double) :=
  if (0 <=? slot) && (slot <? 5) then Ok (alter f (Z.to_nat slot) l) else Err bad_access.

(** what a round adds to its slot *)
Definition used_time (t : stats_tracker) (latest_ru : rusage) (latest_ru_ts : Z) : double :=
  let total_time_used := timeradd (ru_utime latest_ru) (ru_stime latest_ru) in
  let prev_time_used := timeradd (ru_utime (prev_ru t)) (ru_stime (prev_ru t)) in
  let diff_time_used := timersub total_time_used prev_time_used in
  let period := ddiv (double_of (u64 (latest_ru_ts - prev_ru_ts t))) million in
  dadd (double_of (tv_sec diff_time_used)) (dmul (ddiv (double_of (tv_usec diff_time_used)) million) period).

(** a round of [operator()]; [slot_base] is an [int]; [None]: [getrusage] failed *)
Definition tracker_round (t : stats_tracker) (now latest_ru_ts : Z) (usage : option rusage) : res stats_tracker :=
  let slot_base := s32 (now / 1000000) in
  let slot := Z.rem slot_base 5 in
  match usage with
  | None => Ok t
  | Some latest_ru =>
      if prev_ru_ts t =? 0 then Ok (StatsTracker (prev_slot_ru t) latest_ru_ts latest_ru (cpu_stats t))
      else
        let* l := if prev_slot_ru t =? slot then Ok (cpu_stats t) else change_slot (cpu_stats t) slot (λ _, S754_zero false) in
        let* l := change_slot l slot (λ v, dadd v (used_time t latest_ru latest_ru_ts)) in
        Ok (StatsTracker slot latest_ru_ts latest_ru l)
  end.

Definition get_cpu_usage (t : stats_tracker) (now : Z) : double :=
  let slot := (now / 1000000) mod 5 in
  let total := foldl (λ total i, if i =? slot then total else dadd total (default S754_nan (cpu_stats t !! Z.to_nat i)))
                 (S754_zero false) (zrange 5) in
  ddiv total (double_of 4).

Fixpoint tracker_rounds (t : stats_tracker) (rounds : list (Z * Z * option rusage)) : res stats_tracker :=
  match rounds with
  | [] => Ok t
  | (now, ts, usage) :: rounds' => let* t := tracker_round t now ts usage in tracker_rounds t rounds'
  end.

(** ** The five slots *)

Lemma change_slot_ok l slot f : 0 ≤ slot < 5 → ∃ l', change_slot l slot f = Ok l' ∧ length l' = length l.
Proof.
  intros Hs. unfold change_slot. rewrite (proj2 (Z.leb_le _ _)), (proj2 (Z.ltb_lt _ _)) by lia.
  eexists. split; [done|]. apply length_alter.
Qed.

Lemma tracker_round_total t now ts usage :
  length (cpu_stats t) = 5%nat → 0 ≤ now < 1000000 * 2 ^ 31 →
  ∃ t', tracker_round t now ts usage = Ok t' ∧ length (cpu_stats t') = 5%nat.
Proof.
  intros L Hn. unfold tracker_round. destruct usage as [u|]; [|by exists t]. destruct (prev_ru_ts t =? 0); [by eexists|].
  assert (0 ≤ now / 1000000 < 2 ^ 31) as Hd by (split; [apply Z.div_pos; lia|apply Z.div_lt_upper_bound; lia]).
  assert (0 ≤ Z.rem (s32 (now / 1000000)) 5 < 5) as Hs.
  { replace (s32 (now / 1000000)) with (now / 1000000) by (unfold s32; zlia). rewrite Z.rem_mod_nonneg by lia. apply Z.mod_pos_bound. lia. }
  set (slot := Z.rem (s32 (now / 1000000)) 5) in *.
  assert (∃ l, (if prev_slot_ru t =? slot then Ok (cpu_stats t) else change_slot (cpu_stats t) slot (λ _, S754_zero false)) = Ok l ∧
    length l = 5%nat) as (l & -> & Ll).
  { destruct (prev_slot_ru t =? slot); [by eexists|]. destruct (change_slot_ok (cpu_stats t) slot (λ _, S754_zero false) Hs) as (l & E & ?).
    exists l. split; [done|congruence]. }
  cbn [res_bind]. destruct (change_slot_ok l slot (λ v, dadd v (used_time t u ts)) Hs) as (l' & -> & Ll'). cbn [res_bind].
  eexists. split; [done|]. cbn. congruence.
Qed.

(** no sequence of rounds before 2038 faults *)
Lemma tracker_rounds_total rounds :
  Forall (λ r : Z * Z * option rusage, 0 ≤ r.1.1 < 1000000 * 2 ^ 31) rounds →
  ∃ t', tracker_rounds new_stats_tracker rounds = Ok t' ∧ length (cpu_stats t') = 5%nat.
Proof.
  assert (length (cpu_stats new_stats_tracker) = 5%nat) as L by done. revert L. generalize new_stats_tracker.
  induction rounds as [|[[now ts] usage] rounds IH]; intros t L F; [by exists t|]. apply Forall_cons in F as [Hn F].
  destruct (tracker_round_total t now ts usage L Hn) as (t' & E & L'). cbn [tracker_rounds]. rewrite E. by apply IH.
Qed.

(** when the seconds since 1970 reach [2^31] the index is negative *)
Lemma slot_after_2038 t ts usage :
  prev_ru_ts t ≠ 0 → 0 ≤ prev_slot_ru t → tracker_round t (1000000 * 2 ^ 31) ts (Some usage) = Err bad_access.
Proof.
  intros Hp Hs. unfold tracker_round. rewrite (proj2 (Z.eqb_neq _ _)) by done.
  change (Z.rem (s32 (1000000 * 2 ^ 31 / 1000000)) 5) with (-3). by rewrite (proj2 (Z.eqb_neq _ _)) by lia.
Qed.

(** ** Examples *)

(** half a second of processor time per second, for six seconds: the average is a half *)
Definition half_used (n : Z) : Z * Z * option rusage :=
  (n * 1000000, n * 1000000, Some (Rusage (Timeval (n / 2) (500000 * (n mod 2))) (Timeval 0 0))).
Lemma half_used_average :
  ∃ t, tracker_rounds new_stats_tracker (half_used <$> [1; 2; 3; 4; 5; 6]) = Ok t ∧
    get_cpu_usage t 7000000 = ddiv (double_of 1) (double_of 2).
Proof. eexists. split; [vm_compute; reflexivity|]. vm_compute. reflexivity. Qed.

(** a round that comes two seconds late: of one and a half seconds of processor time the half is
    multiplied by the length of the round, where the whole would be divided by it *)
Lemma late_round_counts_more :
  ∃ t, tracker_rounds new_stats_tracker
      [(1000000, 1000000, Some (Rusage (Timeval 0 0) (Timeval 0 0)));
       (3000000, 3000000, Some (Rusage (Timeval 1 500000) (Timeval 0 0)))] = Ok t ∧
    cpu_stats t !! 3%nat = Some (double_of 2).
Proof. eexists. split; [vm_compute; reflexivity|]. vm_compute. reflexivity. Qed.
