(* ===== verification/Sinks.v ===== *)
(** * The syslog server and the firewall (src/syslog.cpp, src/tcp_udp_fw.cpp)

    Two UDP applications that send nothing: each packet is counted in the statistics of
    Stats.v; the syslog server also writes it to the log.  The line of the log is part of the
    result.

    Shown: on a segment that holds a table, a packet adds one to the counter of the
    application and changes no other entry. *)
From stdpp Require Import strings.
From S2P Require Import Prelude Str AnyAddr SnmpElem Stats.
Open Scope Z_scope.

(** ** Syslog *)

(** the constructor: the counter *)
Definition new_syslog_srv (s : stats) : res (option Z * stats) :=
  register_stat s (lit "syslog_srv_requests") (lit "1.3.6.1.4.1.57850.1.6.1") si_integer.

Definition syslog_input (s : stats) (requests : option Z) (src_ip : any_addr) (src_port : Z) (payload : list Z) : res (stats * str) :=
  let* s := stats_inc_counter s requests in
  let* from := to_str src_ip in
  if bool_decide (payload = []) then
    Ok (s, lit "SYSLOG: empty packet from [" ++ from ++ lit "]:" ++ fmt_dec src_port ++ [10])
  else
    Ok (s, lit "SYSLOG: " ++ [34] ++ c_str payload ++ [34] ++ lit " from [" ++ from ++ lit "]:" ++ fmt_dec src_port ++ [10]).

(** ** The firewall *)

Definition new_tcp_udp_fw (s : stats) : res (option Z * stats) :=
  register_stat s (lit "fw_n_dropped") (lit "1.3.6.1.4.1.57850.1.10.1") si_integer.

Definition fw_input (s : stats) (n_dropped : option Z) : res stats := stats_inc_counter s n_dropped.

(** ** Counting *)

Lemma fw_counts s t i :
  table_rep s t → (i < length t)%nat →
  ∃ s', fw_input s (slot_ptr i) = Ok s' ∧ table_rep s' (table_op t (op_inc i)).
Proof. intros R Hi. destruct (stats_op_rep s t (op_inc i) R Hi) as (s' & E & R' & _). by exists s'. Qed.

Lemma syslog_counts s t i src_ip src_port payload from :
  table_rep s t → (i < length t)%nat → to_str src_ip = Ok from →
  ∃ s' line, syslog_input s (slot_ptr i) src_ip src_port payload = Ok (s', line) ∧ table_rep s' (table_op t (op_inc i)) ∧
    (payload ≠ [] → (0 ∉ payload) → ∃ rest, line = lit "SYSLOG: " ++ [34] ++ payload ++ [34] ++ rest).
Proof.
  intros R Hi Hf. destruct (stats_op_rep s t (op_inc i) R Hi) as (s' & E & R' & _). cbn [stats_op] in E.
  unfold syslog_input. rewrite E, Hf. cbn [res_bind]. case_bool_decide as Hp; do 2 eexists; (split; [done|split; [done|]]).
  - by intros.
  - intros _ H0. rewrite c_str_nul_free by done. by eexists.
Qed.

(** a NUL in a message hides what is behind it from the log *)
Lemma nul_hides_message s t i src_ip src_port from a b :
  table_rep s t → (i < length t)%nat → to_str src_ip = Ok from → (0 ∉ a) →
  ∃ s', syslog_input s (slot_ptr i) src_ip src_port (a ++ 0 :: b) =
    Ok (s', lit "SYSLOG: " ++ [34] ++ a ++ [34] ++ lit " from [" ++ from ++ lit "]:" ++ fmt_dec src_port ++ [10]).
Proof.
  intros R Hi Hf Ha. destruct (stats_op_rep s t (op_inc i) R Hi) as (s' & E & _). cbn [stats_op] in E. exists s'.
  unfold syslog_input. rewrite E, Hf. cbn [res_bind]. rewrite bool_decide_eq_false_2 by (by destruct a).
  by rewrite c_str_stop.
Qed.
