(* ===== verification/HttpLog.v ===== *)
(** * The access log of the HTTP server ([generate_response] of src/http.cpp)

    The line that [generate_response] appends to the log for a request it answers.  The
    client's address, the time of the session in the calendar and the answer are arguments.

    Shown: a request whose lines have no line feed gives exactly one line.  A request can carry
    one, and then writes lines of its own. *)
From stdpp Require Import strings.
From S2P Require Import Prelude Str Lines.
Open Scope Z_scope.

(** [struct tm] *)
Record tm := Tm { tm_mday : Z; tm_mon : Z; tm_year : Z; tm_hour : Z; tm_min : Z; tm_sec : Z }.

Definition months : list str :=
  lit <$> ["Jan"; "Feb"; "Mar"; "Apr"; "May"; "Jun"; "Jul"; "Aug"; "Sep"; "Oct"; "Nov"; "Dec"]%string.

(** [%02d], [%04d] of a number that is not negative *)
Definition fmt_0d (width : nat) (n : Z) : str := replicate (width - length (fmt_dec n)) 48 ++ fmt_dec n.

Definition log_time (t : tm) : res str :=
  match months !! Z.to_nat (tm_mon t) with
  | None => Err bad_access
  | Some month =>
      Ok (fmt_0d 2 (tm_mday t) ++ [47] ++ month ++ [47] ++ fmt_0d 4 (tm_year t + 1900) ++ [58] ++ fmt_0d 2 (tm_hour t) ++ [58] ++
          fmt_0d 2 (tm_min t) ++ [58] ++ fmt_0d 2 (tm_sec t) ++ lit " +0000")
  end.

Definition or_dash (v : option str) : str := match v with Some v => c_str v | None => [45] end.

(** what is written to the file; [parts] are those of the first line, [lines] the lines of the request *)
Definition access_log (client_addr : str) (t : tm) (lines parts : list str) (rc : Z) (content : list Z) : res str :=
  let* referer := find_header lines (lit "Referer") (lit ":") in
  let* user_agent := find_header lines (lit "User-Agent") (lit ":") in
  let* time := log_time t in
  match parts with
  | method :: url :: version :: _ =>
      Ok (client_addr ++ lit " - - [" ++ time ++ lit "] " ++ [34] ++ c_str (method ++ [32] ++ url ++ [32] ++ version) ++ [34] ++ [32] ++
          fmt_dec rc ++ [32] ++ fmt_dec (zlen content) ++ [32] ++ [34] ++ or_dash referer ++ [34] ++ [32] ++ [34] ++ or_dash user_agent ++ [34; 10])
  | _ => Err out_of_range
  end.

(** the lines of a text *)
Definition line_feeds (s : str) : nat := occurrences 10 s.

(** ** One line per request *)

Lemma ok_inj {A} (a b : A) : Ok a = Ok b → a = b.
Proof. by intros [=]. Qed.

Lemma line_feeds_app a b : line_feeds (a ++ b) = (line_feeds a + line_feeds b)%nat.
Proof. unfold line_feeds, occurrences. by rewrite filter_app, length_app. Qed.

Lemma no_line_feeds s : (10 ∉ s) → line_feeds s = O.
Proof.
  induction s as [|c s IH]; [done|]. intros [Hc Hs]%not_elem_of_cons. unfold line_feeds, occurrences in *.
  rewrite filter_cons_False by done. by apply IH.
Qed.

Lemma c_str_no_line_feed s : (10 ∉ s) → (10 ∉ c_str s).
Proof.
  induction s as [|c s IH]; [done|]. intros [Hc Hs]%not_elem_of_cons. cbn [c_str]. destruct (c =? 0); [set_solver|].
  apply not_elem_of_cons. auto.
Qed.

Lemma fmt_dec_no_line_feed n : 10 ∉ fmt_dec n.
Proof.
  assert (∀ fuel n acc, Forall (λ c, 48 ≤ c) acc → Forall (λ c, 48 ≤ c) (digits_loop fuel 10 n acc)) as H.
  { induction fuel as [|fuel IH]; intros m acc Ha; [done|]. cbn [digits_loop].
    assert (48 ≤ digit_char (m mod 10)) by (unfold digit_char; pose proof (Z.mod_pos_bound m 10); destruct (m mod 10 <? 10); lia).
    destruct (m / 10 =? 0); [by constructor|]. apply IH. by constructor. }
  specialize (H 32%nat n [] (Forall_nil_2 _)). rewrite Forall_forall in H. intros Hin%H. lia.
Qed.

Lemma fmt_0d_no_line_feed w n : 10 ∉ fmt_0d w n.
Proof.
  unfold fmt_0d. rewrite not_elem_of_app. split; [|apply fmt_dec_no_line_feed]. intros [? _]%elem_of_replicate. done.
Qed.

(** a constant text *)
Ltac const_no_line_feed :=
  let H := fresh in intros H; vm_compute in H; repeat (apply elem_of_cons in H as [H|H]; [discriminate H|]); by apply not_elem_of_nil in H.

Lemma log_time_no_line_feed t text : log_time t = Ok text → 10 ∉ text.
Proof.
  unfold log_time. destruct (months !! _) as [m|] eqn:E; [|done]. intros <-%ok_inj.
  assert (10 ∉ m) as Hm.
  { apply list_elem_of_lookup_2 in E. assert (Forall (λ m, 10 ∉ m) months) as F by (apply (bool_decide_unpack _); vm_compute; exact I).
    rewrite Forall_forall in F. by apply F. }
  rewrite !not_elem_of_app. repeat apply conj;
    lazymatch goal with |- 10 ∉ fmt_0d _ _ => apply fmt_0d_no_line_feed | |- 10 ∉ m => done | _ => const_no_line_feed end.
Qed.

Lemma header_no_line_feed lines key v :
  Forall (λ l, 10 ∉ l) lines → find_header lines key (lit ":") = Ok v → 10 ∉ or_dash v.
Proof.
  intros F. unfold find_header. assert (10 ∉ or_dash None) as Hn by (cbn; set_solver by lia). revert Hn. generalize (@None str).
  assert (∀ line, 10 ∉ line → 10 ∉ or_dash (Some (drop_spaces (drop (length key + 1) line)))) as Hd.
  { intros line Hl. cbn [or_dash]. apply c_str_no_line_feed. intros Hin. apply Hl.
    rewrite <- (take_drop (length key + 1) line). apply elem_of_app. right. revert Hin. generalize (drop (length key + 1) line). clear.
    induction l as [|c l IH]; [done|]. cbn [drop_spaces]. destruct (c =? 32); [|done]. intros H%IH. by right. }
  induction F as [|line lines Hl F IH]; intros v0 H0; cbn [find_header_loop]; [by intros [= <-]|].
  destruct (find_header_line _ _ _ line v0) as [v1|] eqn:E; [|done]. cbn [res_bind]. apply IH.
  unfold find_header_line in E. destruct (split line (lit ":")) as [[|p0 [|p1 ps]]|]; cbn [res_bind] in E; try by simplify_eq.
  repeat case_decide; simplify_eq; auto.
Qed.

(** a request without line feeds in its lines writes exactly one line *)
Lemma one_line_logged client_addr t lines parts rc content text :
  (10 ∉ client_addr) → Forall (λ l, 10 ∉ l) lines → Forall (λ l, 10 ∉ l) parts →
  access_log client_addr t lines parts rc content = Ok text → line_feeds text = 1%nat ∧ ∃ front, text = front ++ [10].
Proof.
  intros Hc Hl Hp. unfold access_log.
  destruct (find_header lines (lit "Referer") _) as [ref|] eqn:E1; [|done]. cbn [res_bind].
  destruct (find_header lines (lit "User-Agent") _) as [ua|] eqn:E2; [|done]. cbn [res_bind].
  destruct (log_time t) as [time|] eqn:E3; [|done]. cbn [res_bind]. destruct parts as [|p0 [|p1 [|p2 ps]]]; try done.
  apply header_no_line_feed in E1, E2; try done. apply log_time_no_line_feed in E3.
  apply Forall_cons in Hp as [P0 [P1 [P2 _]%Forall_cons]%Forall_cons]. intros <-%ok_inj.
  assert (10 ∉ c_str (p0 ++ [32] ++ p1 ++ [32] ++ p2)) as Hr.
  { apply c_str_no_line_feed. rewrite !not_elem_of_app. repeat apply conj; done || const_no_line_feed. }
  pose proof (fmt_dec_no_line_feed rc). pose proof (fmt_dec_no_line_feed (zlen content)).
  split.
  - rewrite !line_feeds_app, (no_line_feeds client_addr), (no_line_feeds time), (no_line_feeds (c_str _)), (no_line_feeds (fmt_dec rc)),
      (no_line_feeds (fmt_dec (zlen content))), (no_line_feeds (or_dash ref)), (no_line_feeds (or_dash ua)) by done. done.
  - change [34; 10] with ([34] ++ [10]). rewrite !app_assoc. by eexists.
Qed.

(** ** A request that writes a line of its own *)

(** [split] cuts at the two characters that end a line, so a line feed alone stays in the value *)
Definition forged_lines : list str :=
  [lit "GET / HTTP/1.0"; lit "User-Agent: x" ++ [34; 10] ++ lit "192.0.2.1 - - [01/Jan/2024:00:00:00 +0000] " ++ [34] ++ lit "GET /secret HTTP/1.0"].
Lemma forged_log_line :
  split (lit "GET / HTTP/1.0" ++ line_end ++ lit "User-Agent: x" ++ [34; 10] ++ lit "192.0.2.1 - - [01/Jan/2024:00:00:00 +0000] " ++ [34] ++
         lit "GET /secret HTTP/1.0") line_end = Ok forged_lines ∧
  ∃ text, access_log (lit "198.51.100.7") (Tm 2 0 124 3 4 5) forged_lines [lit "GET"; lit "/"; lit "HTTP/1.0"] 200 [] = Ok text ∧
    line_feeds text = 2%nat.
Proof. split; [vm_compute; reflexivity|]. eexists. split; [vm_compute; reflexivity|]. vm_compute. reflexivity. Qed.
