(* ===== verification/NetFloat.v ===== *)
(** * Floating point numbers in buffers ([get_net_float] and [get_net_double] of src/buffer_in.cpp)

    The code reads an integer in network order and takes its bits for a [float] or a
    [double].  The numbers are those of IEEE 754 as the Standard Library specifies them (one
    value stands for all that are not numbers).

    Shown: the bits of a number that fits the format are read back as that number, and
    [get_net_float] returns it from a buffer that holds those bits. *)
From Stdlib Require Import SpecFloat.
From S2P Require Import Prelude Buffers.
Open Scope Z_scope.

(** a format: the bits of the fraction, of the exponent, and the exponent of the smallest number *)
Record fformat := Fformat { mant : Z; expo : Z; emin_of : Z }.
Definition binary32 : fformat := Fformat 23 8 (-149).
Definition binary64 : fformat := Fformat 52 11 (-1074).

(** the number with these bits *)
Definition float_of_bits (f : fformat) (bits : Z) : spec_float :=
  let s := negb (bits / 2 ^ (mant f + expo f) =? 0) in
  let e := bits / 2 ^ mant f mod 2 ^ expo f in
  let m := bits mod 2 ^ mant f in
  if e =? 0 then match m with Z.pos p => S754_finite s p (emin_of f) | _ => S754_zero s end
  else if e =? 2 ^ expo f - 1 then (if m =? 0 then S754_infinity s else S754_nan)
  else match m + 2 ^ mant f with Z.pos p => S754_finite s p (e - 1 + emin_of f) | _ => S754_nan end.

Definition get_net_float (b : buffer_in) : res (spec_float * buffer_in) :=
  let* '(temp, b) := get_net_long b in Ok (float_of_bits binary32 temp, b).
Definition get_net_double (b : buffer_in) : res (spec_float * buffer_in) :=
  let* '(temp, b) := get_net_long_long b in Ok (float_of_bits binary64 temp, b).

(** ** The bits of a number *)

Definition bits_of_float (f : fformat) (x : spec_float) : Z :=
  let sign (s : bool) := if s then 2 ^ (mant f + expo f) else 0 in
  match x with
  | S754_zero s => sign s
  | S754_infinity s => sign s + (2 ^ expo f - 1) * 2 ^ mant f
  | S754_nan => (2 ^ expo f - 1) * 2 ^ mant f + 1
  | S754_finite s m e =>
      if Z.pos m <? 2 ^ mant f then sign s + Z.pos m
      else sign s + (e - emin_of f + 1) * 2 ^ mant f + (Z.pos m - 2 ^ mant f)
  end.

(** the number is one of the format *)
Definition fits_format (f : fformat) (x : spec_float) : Prop :=
  match x with
  | S754_finite _ m e =>
      (Z.pos m < 2 ^ mant f ∧ e = emin_of f) ∨ (2 ^ mant f ≤ Z.pos m < 2 * 2 ^ mant f ∧ emin_of f ≤ e ≤ emin_of f + 2 ^ expo f - 3)
  | _ => True
  end.

(** the fields of a number that is put together *)
Lemma float_fields f (s : bool) e m :
  0 ≤ mant f → 0 ≤ expo f → 0 ≤ e < 2 ^ expo f → 0 ≤ m < 2 ^ mant f →
  let bits := (if s then 2 ^ (mant f + expo f) else 0) + e * 2 ^ mant f + m in
  negb (bits / 2 ^ (mant f + expo f) =? 0) = s ∧ bits / 2 ^ mant f mod 2 ^ expo f = e ∧ bits mod 2 ^ mant f = m.
Proof.
  intros Hf He' He Hm bits. unfold bits. rewrite Z.pow_add_r by lia. set (M := 2 ^ mant f) in *. set (E := 2 ^ expo f) in *.
  assert (0 ≤ e * M + m < M * E) as Hlow by nia.
  assert ((if s then M * E else 0) + e * M + m = (if s then E else 0) * M + e * M + m) as -> by (destruct s; lia).
  assert (((if s then E else 0) * M + e * M + m) / M = (if s then E else 0) + e) as Hd.
  { rewrite <- Z.mul_add_distr_r, Z.add_comm, Z.div_add, Z.div_small by lia. lia. }
  split_and!.
  - rewrite <- Z.div_div, Hd by lia. destruct s.
    + replace (E + e) with (e + 1 * E) by lia. rewrite Z.div_add, Z.div_small by lia. done.
    + rewrite Z.add_0_l, Z.div_small by lia. done.
  - rewrite Hd. destruct s; [|rewrite Z.add_0_l; by apply Z.mod_small].
    replace (E + e) with (e + 1 * E) by lia. rewrite Z.mod_add by lia. by apply Z.mod_small.
  - rewrite <- Z.mul_add_distr_r, Z.add_comm, Z.mod_add by lia. by apply Z.mod_small.
Qed.

Lemma float_bits_roundtrip f x :
  0 ≤ mant f → 2 ≤ expo f → 0 < mant f → fits_format f x → float_of_bits f (bits_of_float f x) = x.
Proof.
  intros Hm He Hm' Hx. assert (4 ≤ 2 ^ expo f) as H4 by (change 4 with (2 ^ 2); apply Z.pow_le_mono_r; lia).
  assert (2 ≤ 2 ^ mant f) as H2 by (change 2 with (2 ^ 1) at 1; apply Z.pow_le_mono_r; lia).
  unfold float_of_bits, bits_of_float. destruct x as [s|s| |s m e]; cbn [fits_format] in Hx.
  - pose proof (float_fields f s 0 0) as (F1 & F2 & F3); [lia..|]. rewrite Z.mul_0_l, !Z.add_0_r in F1, F2, F3.
    by rewrite F1, F2, F3.
  - pose proof (float_fields f s (2 ^ expo f - 1) 0) as (F1 & F2 & F3); [lia..|]. rewrite !Z.add_0_r in F1, F2, F3.
    rewrite F1, F2, F3, Z.eqb_refl, (proj2 (Z.eqb_neq _ 0)) by lia. done.
  - pose proof (float_fields f false (2 ^ expo f - 1) 1) as (F1 & F2 & F3); [lia..|]. rewrite !Z.add_0_l in F1, F2, F3.
    rewrite F2, F3, Z.eqb_refl, (proj2 (Z.eqb_neq _ 0)) by lia. done.
  - destruct (Z.ltb_spec (Z.pos m) (2 ^ mant f)) as [Hlt|Hge].
    + destruct Hx as [[_ ->]|?]; [|lia]. pose proof (float_fields f s 0 (Z.pos m)) as (F1 & F2 & F3); [lia..|].
      rewrite Z.mul_0_l, Z.add_0_r in F1, F2, F3. by rewrite F1, F2, F3.
    + destruct Hx as [?|[Hmm Hee]]; [lia|].
      pose proof (float_fields f s (e - emin_of f + 1) (Z.pos m - 2 ^ mant f)) as (F1 & F2 & F3); [lia..|].
      rewrite F1, F2, F3, !(proj2 (Z.eqb_neq _ _)) by lia. replace (Z.pos m - 2 ^ mant f + 2 ^ mant f) with (Z.pos m) by lia.
      f_equal. lia.
Qed.

Lemma bits_of_float_range f x :
  0 < mant f → 2 ≤ expo f → fits_format f x → 0 ≤ bits_of_float f x < 2 ^ (mant f + expo f + 1).
Proof.
  intros Hm He Hx. assert (4 ≤ 2 ^ expo f) as H4 by (change 4 with (2 ^ 2); apply Z.pow_le_mono_r; lia).
  assert (2 ≤ 2 ^ mant f) as H2 by (change 2 with (2 ^ 1) at 1; apply Z.pow_le_mono_r; lia).
  unfold bits_of_float. rewrite (Z.pow_add_r 2 (mant f + expo f) 1), (Z.pow_add_r 2 (mant f)) by lia. change (2 ^ 1) with 2.
  set (M := 2 ^ mant f) in *. set (E := 2 ^ expo f) in *.
  destruct x as [s|s| |s m e]; cbn [fits_format] in Hx; fold M E in Hx; try (destruct s; nia); [nia|].
  destruct (Z.ltb_spec (Z.pos m) M); destruct Hx as [[? ?]|[? ?]], s; try lia; nia.
Qed.

(** a number that was written as its bits is read back *)
Lemma get_net_float_spec b x rest :
  bi_wf b → fits_format binary32 x → remaining b = be32 (bits_of_float binary32 x) ++ rest →
  ∃ b', get_net_float b = Ok (x, b') ∧ bi_wf b' ∧ remaining b' = rest.
Proof.
  intros Hb Hx E. pose proof (bits_of_float_range binary32 x) as Hr. cbn in Hr.
  destruct (get_net_long_spec b (bits_of_float binary32 x) rest) as (b' & Eb & ? & ?); [done|apply Hr; (lia || done)|done|].
  exists b'. unfold get_net_float. rewrite Eb. cbn [res_bind]. by rewrite float_bits_roundtrip by (cbn; lia || done).
Qed.

(** [1.5] and the smallest [double] *)
Lemma net_float_example :
  get_net_float (BufferIn [63; 192; 0; 0] 4 0) = Ok (S754_finite false 12582912 (-23), BufferIn [63; 192; 0; 0] 4 4) ∧
  get_net_double (BufferIn [128; 0; 0; 0; 0; 0; 0; 1] 8 0) = Ok (S754_finite true 1 (-1074), BufferIn [128; 0; 0; 0; 0; 0; 0; 1] 8 8) ∧
  get_net_double (BufferIn [63; 192; 0; 0] 4 0) = Err out_of_range.
Proof. vm_compute. done. Qed.
